(* ===== verification/_CoqProject ===== *)
-Q . S2P
Prelude.v
Constants.v
Entities.v
Float64.v
PyFloat.v
FloatFacts.v
Json.v
JsonText.v
Evals.v
Telemetry.v
ProjectEvals.v
Sql.v
World.v
Invariant.v
BillingRepo.v
Security.v
IdentityRepo.v
Ddl.v
OrmModels.v
SchemaRefinement.v
Locks.v
Usage.v
ReportRepo.v
Reporting.v
Billing.v
Frames.v
BillingFacts.v
Webhook.v
BillingTasks.v
Identity.v
ApiAuth.v
Configuration.v
WorkerHealth.v
Notifications.v
CliAuth.v
Routes.v
Access.v
IdentitySpec.v
AuthFacts.v
CliFacts.v
IdentitySystem.v
Onboarding.v
TraceRepo.v
Upserts.v
TraceQueries.v
Traces.v
Cadence.v
LLM.v
EmbeddingCache.v
Metrics.v
ScoreBounds.v
EvalRepo.v
EvalService.v
EvalApi.v
EvalTasks.v
MonitorFacts.v
RunFacts.v
Ingestion.v
TraceIsolation.v
EvalIntegrity.v
BillingFootprint.v
BillingSystem.v
EvalIsolation.v
EvalCharging.v
Migrations.v
MigrationFacts.v
