(* ===== verification/Prelude.v ===== *)
(** * Verification of the PandaProbe backend

    PandaProbe (src/backend/app) is a multi-tenant tracing and evaluation service: a
    FastAPI application over PostgreSQL and Redis, Celery workers, and Stripe for
    usage-based billing.  This development models its billing, identity, tracing and
    evaluation subsystems, its configuration, its worker probe, its clients of third-party
    services and its database migrations, and proves what makes them correct.

    ** The model

    A coroutine is a function of type [M World A] (Prelude): it takes a [World] and
    returns a value or an exception together with the world it leaves, since Redis
    writes and committed rows outlive a Python exception.  A world (World.v) holds
    the tables as the session sees them ([db]) and as last committed ([durable]),
    Redis, the queue of Celery messages, the log of requests to Stripe, the
    clock, the settings and a supply of fresh UUIDs.  [commit], [rollback],
    [with_session] (a worker's session) and [get_db_session] (a request's session,
    committed on success, rolled back on an exception) move between the two
    databases.  Stripe is a script of arbitrary answers, so every theorem holds for whatever
    Stripe does; rows locked by other transactions are a set in the world.

    Tables are lists of rows in insertion order, a query is [select], an update
    [update_where]; inserting checks the unique constraints of db/models.py
    (Entities.v); the foreign keys of the billing and identity tables appear as the cascades of a
    deletion only, those of traces and evaluations are checked by insertions too.  Timestamps are
    microseconds and UUIDs numbers; texts are Latin-1.  Floats are IEEE double-precision
    numbers (Float64, on the Standard Library's SpecFloat), and an optional JSON column distinguishes SQL NULL from JSON null.

    Parameters, with what the code relies on as named hypotheses: SHA-256 and the identity
    providers' answers; the configuration of PostgreSQL (collation, date_trunc,
    percentiles, input of numbers: the record [Postgres]); the broker, which accepts or refuses each
    message; croniter ([CroniterLaws]: the next instant is later); litellm and
    pydantic's reading of JSON numbers; the positions random.sample draws;
    datetime.fromisoformat and isoformat; the text of an exception; the answers of Resend, Attio and PostHog;
    the probe's connection to Redis.  Each that a property depends on has a concrete instance on which the witnesses evaluate.
    Log lines, Stripe descriptions, the analytics events that a request emits and the textual
    form of timestamps in responses are left out of the request models.

    ** Files

    - Prelude: results, exceptions, the session monad, tables, the [respects]
      calculus (a relation every effect of a coroutine respects) and its automation.
      Constants and Entities: registry/constants.py, core/billing, core/identity and
      the constraints of db/models.py.  World: the state above and its effects.
    - Invariant: the billing invariant [billing_wf]: unique keys, the ledger
      (reserved units account exactly for recorded overage), requests determined by
      their report, and charges backed by committed reports, or listed as dropped with their organization.
    - BillingRepo, ReportRepo: the billing repositories.  Locks: the Lua scripts of
      redis/locks.py.  Usage: the usage service and its Lua scripts.  Reporting: the
      billing reporting service, whose delivery is a loop over a state machine of
      reports.  Billing: the billing service and the six webhook handlers.  Webhook:
      the Stripe route.  BillingTasks: the dispatchers and workers of queue/tasks.py.
    - Frames: an interface, [Frame] and [CommitFrame], for relations that every
      billing operation respects; its instances show that nothing is committed by
      accident and that locks survive handlers.  BillingFacts and Webhook are proved against it.
    - BillingFootprint: the requests and tasks of traces and evaluations keep the billing
      invariant.  BillingSystem: the transition system of the whole program as billing sees it (billing
      events, every request of the identity system with the creation and deletion of organizations,
      traces and evaluations) and its reachable states.
    - IdentityRepo, Identity, Security: the identity repositories and service,
      API keys and encodings.  ApiAuth: api/dependencies.py and the adapters.
      CliAuth: the CLI login.  Routes: the management endpoints.
    - Configuration: registry/settings.py, main.py, api/middleware.py, api/rate_limit.py and the
      schedule of queue/celery_app.py.  WorkerHealth: scripts/worker_health.py and the heartbeat of
      queue/celery_app.py.  Notifications: email_service.py, crm_service.py, analytics_service.py and
      their tasks.
    - Ddl: schemas with rows, and the operations of Alembic on them.  OrmModels: the mapped classes of
      db/models.py and the schema they declare.  Migrations: the revisions of migrations/versions, their
      order and migrations/env.py.  SchemaRefinement and MigrationFacts: their theorems.
    - Access: the calls of the API and the documented role matrix.  IdentitySpec:
      [change], the abstract specification of one authorized change of the identity
      tables, and the refinement lemmas by which every successful call, log-in or
      exchange is a sequence of such changes.  IdentitySystem: the transition system
      of requests, housekeeping and time, whose properties are proved on [change]
      by rule induction.  AuthFacts, CliFacts, Onboarding: the properties of
      contexts, of CLI codes and of new organizations.
    - Float64, PyFloat, FloatFacts, Json, JsonText: floats and their Python and PostgreSQL
      operations, facts on binary64 rounding and on reading decimals back, JSON values, json.dumps and json.loads.  Sql: ordering, grouping, LIKE,
      casts and aggregates.  Telemetry and Evals: the rows of core/traces and core/evals,
      their validation and the cascades between them.
    - TraceRepo, TraceQueries, Traces, Upserts: db/repositories/trace_repo.py (writes, then
      queries), services/trace_service.py with the routes of traces and sessions and the
      task process_trace, and the algebra of merging upserts.  Ingestion and
      TraceIsolation: their theorems.
    - Cadence: core/evals/cadence.py.  LLM: infrastructure/llm (providers, engine,
      embedding cache).  Metrics: core/evals/metrics.  EvalRepo, EvalService, EvalApi,
      EvalTasks: eval_repo.py, eval_service.py, routes/evaluations.py and the
      evaluation part of queue/tasks.py.  A worker runs in [M Job], a world and an engine.
      ProjectEvals: the evaluations of some projects, and how they fade ([faded]) when rows of others
      that they refer to are deleted.  EmbeddingCache, ScoreBounds, MonitorFacts, RunFacts, EvalIntegrity,
      EvalIsolation, EvalCharging: their theorems.

    ** What the theorems show

    - Billing, over every reachable state of webhooks, dispatchers, workers, log-ins and
      requests of any kind, the creation and deletion of organizations included, in any order: each unit of overage is reserved exactly once
      (BillingSystem), every charge sent to Stripe is backed by a committed report, unless a request deleted
      its organization, and two charges with one idempotency key are the same request; delivery refines the
      report state machine, terminates and survives any exception (Reporting); the
      reported watermark never passes an unconfirmed charge (ReportRepo); an event is
      processed once (Webhook), a renewal is all or nothing, only a renewal closes
      a period, period updates commute (BillingFacts, BillingRepo).
    - Usage: hard limits are never exceeded, accounting is exact, retries count once,
      a rollback undoes a grant, the database gets exactly the live counters.  Locks:
      mutual exclusion and replay safety under interleaving.
    - Identity: no call acts outside the role matrix (Access); tenants are isolated, in all fifteen tables,
      but for the scores and references that foreign keys tie to a deleted organization's rows;
      owners are neither lost nor seized, member quotas hold and an invitation is
      decided once over every history of requests (IdentitySystem); contexts are never wider than the
      caller's rights (AuthFacts) and outside development never come without verified credentials (Configuration); a CLI login works for its initiator and a code
      mints at most one key (CliFacts); creating an organization provisions a
      whole tenant (Onboarding).
    - Traces: the calls and deliveries of one project leave the traces of every other as they
      were, unless a body names them by identifier, and answers depend on the own project
      only, a relational argument over pairs of worlds (TraceIsolation); ingestion charges and queues all or nothing,
      a delivered trace is read back as posted, or refused whole when PostgreSQL cannot store its texts, and a
      redelivery changes nothing as long as its rows have not been updated in between (Ingestion); text searches are literal (TraceQueries).
    - Evaluations: a run is accounted for, score by score and counter by counter, whatever the judge
      answers, and nothing else of the database changes (RunFacts); everything stored is well-typed over every
      history, so that reading it back cannot fail, except for a monitor whose filters were set to null (EvalIntegrity); what other
      projects do, by requests, tasks, monitors or deletions, leaves a project's runs, scores and monitors as they were,
      but for references and scores that foreign keys tie to their rows (EvalIsolation); a request is charged for
      exactly the pairs its worker is asked to evaluate, or for nothing (EvalCharging); every computed score lies in the unit interval and is
      accepted when it is stored (ScoreBounds, by facts on rounding); a tick serves every due monitor
      exactly once and moves it into the future, and one bad monitor blocks the tick for all (MonitorFacts); cached
      embeddings are those the provider would answer, for every history of batches that fit (EmbeddingCache).
    - The schema: the cascades of the world are those that the models declare, cell by cell, and so are its unique
      keys (SchemaRefinement).
    - Migrations: the head is the schema of the models; the upgrade loses no data but what a revision
      removes, and fails on exactly the databases named in its theorem; each downgrade but two, which
      raise, undoes its upgrade (MigrationFacts, by an abstract execution of scripts that is sound for all rows).
    - Operations: the worker probe restarts a container exactly when its pool is silent while work is queued
      (WorkerHealth); an invitation's page is read as exactly the tags, attributes and texts of its template with the
      given names in place, and goes to the invited address alone (Notifications).

    ** Bounds

    The delivery loop runs with fuel 13; Reporting proves that 13 iterations always
    end it and that more change nothing.  The JSON reader runs with fuel twice the
    length of the text; JsonText proves that more changes nothing.  The shortest text of a float is
    searched among at most 17 digits.  Every other recursion is structural.
    Python integers are unbounded; Redis' 64-bit counters are modelled by [Z], the
    counts of a period being far below 2^63.

    ** Not modelled

    The wording of the prompts (a prompt is the list of values it is built from); the soft
    time limit that can interrupt a worker anywhere; the order of keys in stored
    JSON objects; NUL characters in search texts, query parameters and the texts of the identity tables (in traces, spans, runs, scores
    and monitors they are refused as PostgreSQL does), and how the queue's JSON carries NaN to the worker; the text of an exception
    is assumed to hold no NUL; log formatting, connection pools, CORS and the counting of
    the rate limiter (third-party libraries); alembic's offline mode, branches and the printing of SQL; the generator of the
    SDK reference (src/docs/_tools), which reads another repository; the frontend. *)
From Stdlib Require Import ZArith Lia ssreflect.
From stdpp Require Import base gmap strings list sorting.

#[global] Open Scope general_if_scope.

(** ** Results, exceptions and the session monad

    Every coroutine of the backend is a [M W A]: it reads and writes a world
    [W] and either returns a value or raises.  The world that an exception
    leaves behind is kept, because Redis writes and already committed database
    writes survive a Python exception. *)

Inductive pp_class :=
  | PandaProbeError
  | NotFoundError
  | AuthenticationError
  | AuthorizationError
  | ConflictError
  | ValidationError
  | QuotaExceededError
  | OrgLimitReachedError
  | StripeNotConfiguredError
  | LLMEngineError
  | ProviderNotConfiguredError.

#[export] Instance pp_class_eq_dec : EqDecision pp_class.
Proof. solve_decision. Defined.

(** Exceptions.  [PP] carries a domain error with its literal message (the
    interpolated identifiers of an f-string are dropped); the others are raised
    by the database driver, by Stripe and by the Python runtime. *)
Inductive exn :=
  | PP (cls : pp_class) (detail : string)
  | ValueError (detail : string)
  | KeyError
  | IndexError
  | AttributeError
  | TypeError
  | ZeroDivisionError
  | OverflowError
  | IntegrityError
  | DataError
  | PendingRollbackError
  | MultipleResultsFound
  | NoResultFound
  | StripeInvalidRequest (code param : string)
  | StripeFailure.

#[export] Instance exn_eq_dec : EqDecision exn.
Proof. solve_decision. Defined.

(** [status_code] of every class of registry/exceptions.py, of the one declared in
    the billing service and of the two declared in the LLM engine. *)
Definition status_code (c : pp_class) : Z :=
  match c with
  | PandaProbeError => 500
  | NotFoundError => 404
  | AuthenticationError => 401
  | AuthorizationError => 403
  | ConflictError => 409
  | ValidationError => 422
  | QuotaExceededError => 429
  | OrgLimitReachedError => 403
  | StripeNotConfiguredError => 503
  | LLMEngineError => 502
  | ProviderNotConfiguredError => 422
  end.

Inductive res (A : Type) :=
  | Ok (a : A)
  | Err (e : exn).
Arguments Ok {A} a.
Arguments Err {A} e.

Definition M (W A : Type) : Type := W -> res A * W.

#[export] Instance M_ret {W} : MRet (M W) := fun A a w => (Ok a, w).
#[export] Instance M_bind {W} : MBind (M W) := fun A B k m w =>
  match m w with
  | (Ok a, w') => k a w'
  | (Err e, w') => (Err e, w')
  end.
#[export] Instance M_fmap {W} : FMap (M W) := fun A B f m w =>
  match m w with
  | (Ok a, w') => (Ok (f a), w')
  | (Err e, w') => (Err e, w')
  end.

Section monad.
Context {W : Type}.

Definition raise {A} (e : exn) : M W A := fun w => (Err e, w).
Definition gets {A} (f : W -> A) : M W A := fun w => (Ok (f w), w).
Definition modify (f : W -> W) : M W unit := fun w => (Ok tt, f w).
Definition lift {A} (r : res A) : M W A := fun w => (r, w).

(** [try: m except Exception as e: h e] *)
Definition try_except {A} (m : M W A) (h : exn -> M W A) : M W A := fun w =>
  match m w with
  | (Ok a, w') => (Ok a, w')
  | (Err e, w') => h e w'
  end.

(** [try: m finally: f]; an exception of [f] replaces the one of [m]. *)
Definition try_finally {A} (m : M W A) (f : M W unit) : M W A := fun w =>
  match m w with
  | (r, w') =>
      match f w' with
      | (Ok _, w'') => (r, w'')
      | (Err e, w'') => (Err e, w'')
      end
  end.

Definition when (b : bool) (m : M W unit) : M W unit :=
  if b then m else mret tt.

(** [if b: raise e] *)
Definition guard_not (b : bool) (e : exn) : M W unit :=
  if b then raise e else mret tt.

Fixpoint for_each {A} (l : list A) (body : A -> M W unit) : M W unit :=
  match l with
  | [] => mret tt
  | x :: l' => body x ;; for_each l' body
  end.
End monad.

(** ** Tables

    A table is the list of its rows in insertion order; a statement of the
    repositories is an operation on that list. *)

Section tables.
Context {R : Type}.

(** [SELECT ... WHERE p] *)
Definition select (p : R -> bool) (t : list R) : list R := List.filter p t.
(** [UPDATE ... SET f WHERE p] *)
Definition update_where (p : R -> bool) (f : R -> R) (t : list R) : list R :=
  List.map (fun r => if p r then f r else r) t.
(** [DELETE ... WHERE p] *)
Definition delete_where (p : R -> bool) (t : list R) : list R :=
  List.filter (fun r => negb (p r)) t.

(** [Result.scalar_one_or_none()] *)
Definition scalar_one_or_none (rows : list R) : res (option R) :=
  match rows with
  | [] => Ok None
  | [r] => Ok (Some r)
  | _ => Err MultipleResultsFound
  end.
(** [Result.scalar_one()] *)
Definition scalar_one (rows : list R) : res R :=
  match rows with
  | [] => Err NoResultFound
  | [r] => Ok r
  | _ => Err MultipleResultsFound
  end.

(** [ORDER BY]: stable insertion sort on a boolean order. *)
Fixpoint insert_by (le : R -> R -> bool) (x : R) (l : list R) : list R :=
  match l with
  | [] => [x]
  | y :: l' => if le x y then x :: y :: l' else y :: insert_by le x l'
  end.
Definition order_by (le : R -> R -> bool) (l : list R) : list R :=
  foldr (insert_by le) [] l.
End tables.

(** Python's [max] over a non-empty list, given as its first element and the rest. *)
Definition zmax_list (x : Z) (l : list Z) : Z := foldr Z.max x l.
Definition zmin_list (x : Z) (l : list Z) : Z := foldr Z.min x l.

(** Truthiness of an optional string ([if x:]). *)
Definition truthy (s : option string) : bool :=
  match s with
  | None | Some EmptyString => false
  | Some _ => true
  end.

(** ** Reasoning about coroutines *)

Section monad_facts.
Context {W : Type}.

Lemma bind_Ok {A B} (m : M W A) (k : A -> M W B) w a w' :
  m w = (Ok a, w') -> (m ≫= k) w = k a w'.
Proof. intros H. unfold mbind, M_bind. by rw H. Qed.

Lemma bind_Err {A B} (m : M W A) (k : A -> M W B) w e w' :
  m w = (Err e, w') -> (m ≫= k) w = (Err e, w').
Proof. intros H. unfold mbind, M_bind. by rw H. Qed.

Lemma bind_Ok_inv {A B} (m : M W A) (k : A -> M W B) w b w'' :
  (m ≫= k) w = (Ok b, w'') -> exists a w', m w = (Ok a, w') /\ k a w' = (Ok b, w'').
Proof. unfold mbind, M_bind. destruct (m w) as [[a|e] w'] eqn:E; naive_solver. Qed.

Lemma bind_Err_inv {A B} (m : M W A) (k : A -> M W B) w e w'' :
  (m ≫= k) w = (Err e, w'') ->
  m w = (Err e, w'') \/ exists a w', m w = (Ok a, w') /\ k a w' = (Err e, w'').
Proof. unfold mbind, M_bind. destruct (m w) as [[a|e'] w'] eqn:E; naive_solver. Qed.

(** [respects R m]: whatever [m] returns or raises, the final world is related
    to the initial one. *)
Definition respects (R : W -> W -> Prop) {A} (m : M W A) : Prop := forall w, R w (m w).2.

Section respects.
Context (R : W -> W -> Prop) `{HR : !PreOrder R}.

Lemma respects_ret {A} (a : A) : respects R (mret a).
Proof. intros w. simpl. reflexivity. Qed.
Lemma respects_raise {A} e : respects R (@raise W A e).
Proof. intros w. simpl. reflexivity. Qed.
Lemma respects_gets {A} (f : W -> A) : respects R (gets f).
Proof. intros w. simpl. reflexivity. Qed.
Lemma respects_lift {A} (r : res A) : respects R (@lift W A r).
Proof. intros w. simpl. reflexivity. Qed.
Lemma respects_modify f : (forall w, R w (f w)) -> respects R (modify f).
Proof. intros H w. apply H. Qed.
Lemma respects_bind {A B} (m : M W A) (k : A -> M W B) :
  respects R m -> (forall a, respects R (k a)) -> respects R (m ≫= k).
Proof.
  intros Hm Hk w. unfold mbind, M_bind. specialize (Hm w).
  destruct (m w) as [[a|e] w']; simpl in *; [|done].
  etransitivity; [done|apply Hk].
Qed.
(** ... where the continuation may use what a successful run of [m] returns. *)
Lemma respects_bind_fact {A B} (P : A -> Prop) (m : M W A) (k : A -> M W B) :
  respects R m -> (forall w a w', m w = (Ok a, w') -> P a) -> (forall a, P a -> respects R (k a)) -> respects R (m ≫= k).
Proof.
  intros Hm Hp Hk w. unfold mbind, M_bind. specialize (Hm w). specialize (Hp w).
  destruct (m w) as [[a|e] w']; simpl in *; [|done].
  etransitivity; [done|]. apply Hk. by apply (Hp a w').
Qed.
Lemma respects_try_except {A} (m : M W A) h :
  respects R m -> (forall e, respects R (h e)) -> respects R (try_except m h).
Proof.
  intros Hm Hh w. unfold try_except. specialize (Hm w).
  destruct (m w) as [[a|e] w']; simpl in *; [done|]. etransitivity; [done|apply Hh].
Qed.
Lemma respects_try_finally {A} (m : M W A) f :
  respects R m -> respects R f -> respects R (try_finally m f).
Proof.
  intros Hm Hf w. unfold try_finally. specialize (Hm w).
  destruct (m w) as [r w']. simpl in Hm. specialize (Hf w').
  destruct (f w') as [[u|e] w'']; simpl in *; by etransitivity.
Qed.
Lemma respects_when b m : respects R m -> respects R (when b m).
Proof. intros H. destruct b; [done|apply respects_ret]. Qed.
Lemma respects_guard_not b e : respects R (@guard_not W b e).
Proof. destruct b; [apply respects_raise|apply respects_ret]. Qed.
Lemma respects_for_each {A} (l : list A) body :
  (forall x, respects R (body x)) -> respects R (for_each l body).
Proof.
  intros H. induction l as [|x l IH]; simpl; [apply respects_ret|].
  by apply respects_bind.
Qed.
End respects.

#[export] Instance implies_preorder (I : W -> Prop) : PreOrder (fun w w' : W => I w -> I w').
Proof. split; [intros w H; exact H|intros x y z H1 H2 H; auto]. Qed.
End monad_facts.

(** [preserves I m]: the invariant survives, also when [m] raises. *)
Abbreviation preserves I := (respects (fun w w' => I w -> I w')).

Create HintDb effects discriminated.
#[export] Hint Resolve respects_ret respects_raise respects_gets respects_lift
  respects_guard_not implies_preorder : effects.

(** [destruct_bind H]: unfold a successful run [H : (x ← m; k x) w = (Ok b, w')]
    into the run of [m] and the run of the continuation. *)
Ltac destruct_bind H a w' E :=
  apply bind_Ok_inv in H; destruct H as (a & w' & E & H).

(** Structural decomposition of a [respects]/[preserves] goal. *)
Ltac respects_step :=
  match goal with
  | |- respects _ (mbind _ _) => apply respects_bind; [typeclasses eauto| |intros ?]
  | |- respects _ (try_except _ _) => apply respects_try_except; [typeclasses eauto| |intros ?]
  | |- respects _ (try_finally _ _) => apply respects_try_finally; [typeclasses eauto| |]
  | |- respects _ (when _ _) => apply respects_when; [typeclasses eauto|]
  | |- respects _ (for_each _ _) => apply respects_for_each; [typeclasses eauto|intros ?]
  | |- respects _ (mret _) => apply respects_ret; typeclasses eauto
  | |- respects _ (raise _) => apply respects_raise; typeclasses eauto
  | |- respects _ (gets _) => apply respects_gets; typeclasses eauto
  | |- respects _ (lift _) => apply respects_lift; typeclasses eauto
  | |- respects _ (guard_not _ _) => apply respects_guard_not; typeclasses eauto
  | |- respects _ (let '(_, _) := ?x in _) => destruct x
  | |- respects _ (match ?x with _ => _ end) => destruct x eqn:?
  end.
Ltac respects_auto := repeat (solve [eauto with effects] || respects_step).

(** ** Facts about tables *)

Section table_facts.
Context {R : Type}.
Implicit Types (t : list R) (p : R -> bool).

Lemma select_app p t1 t2 : select p (t1 ++ t2) = select p t1 ++ select p t2.
Proof. apply List.filter_app. Qed.

Lemma elem_of_select p t r : r ∈ select p t <-> r ∈ t /\ p r = true.
Proof. unfold select. rw !list_elem_of_In. apply List.filter_In. Qed.

Lemma elem_of_delete_where p t r : r ∈ delete_where p t <-> r ∈ t /\ p r = false.
Proof. unfold delete_where. rw (elem_of_select (fun r => negb (p r)) t r). by rw negb_true_iff. Qed.

(** A query does not see the deletion of rows it does not return. *)
Lemma select_delete_where_in p q t : (forall r, r ∈ t -> p r = true -> q r = false) ->
  select p (delete_where q t) = select p t.
Proof.
  induction t as [|r t IH]; intros H; [done|]. cbn [delete_where List.filter]. fold (delete_where q t).
  assert (IH' : select p (delete_where q t) = select p t) by (apply IH; intros r' Hr'; apply H; by right).
  destruct (q r) eqn:Hq; cbn [negb select List.filter]; fold (select p (delete_where q t)) (select p t); rw IH'; [|done].
  destruct (p r) eqn:Hp; [|done]. rewrite (H r (list_elem_of_here _ _) Hp) in Hq. discriminate Hq.
Qed.
Lemma select_delete_where p q t : (forall r, p r = true -> q r = false) -> select p (delete_where q t) = select p t.
Proof. intros H. apply select_delete_where_in. auto. Qed.

Lemma select_none p t : (forall r, r ∈ t -> p r = false) -> select p t = [].
Proof.
  intros H. induction t as [|r t IH]; [done|]. simpl.
  rw (H r); [by left|]. apply IH. intros r' Hr. apply H. by right.
Qed.

Lemma select_nil_iff p t : select p t = [] <-> forall r, r ∈ t -> p r = false.
Proof.
  split; [|apply select_none]. intros H r Hr. destruct (p r) eqn:Hp; [|done].
  assert (Hin : r ∈ select p t) by (by apply elem_of_select). rw H in Hin. by inversion Hin.
Qed.

Lemma elem_of_update_where p f t r :
  r ∈ update_where p f t <-> exists r0, r0 ∈ t /\ r = if p r0 then f r0 else r0.
Proof. unfold update_where. rw list_elem_of_In List.in_map_iff. setoid_rewrite list_elem_of_In. naive_solver. Qed.

Lemma length_update_where p f t : length (update_where p f t) = length t.
Proof. apply List.length_map. Qed.

(** An update whose rows stay outside (or inside) a query does not change it. *)
Lemma select_update_where p q f t :
  (forall r, r ∈ t -> q r = true -> p (f r) = p r) ->
  select p (update_where q f t) = update_where q f (select p t).
Proof.
  intros H. induction t as [|r t IH]; [done|]. simpl.
  assert (IH' : select p (update_where q f t) = update_where q f (select p t)).
  { apply IH. intros r' Hr. apply H. by right. }
  destruct (q r) eqn:Hq; simpl.
  - rw (H r); [by left|done|]. destruct (p r); simpl; rw IH'; [by rw Hq|done].
  - destruct (p r); simpl; rw IH'; [by rw Hq|done].
Qed.

Lemma select_map_in p f t :
  (forall r, r ∈ t -> p (f r) = p r) -> select p (List.map f t) = List.map f (select p t).
Proof.
  intros H. induction t as [|r t IH]; [done|]. simpl. rw (H r); [by left|].
  assert (IH' : select p (List.map f t) = List.map f (select p t)).
  { apply IH. intros r' Hr. apply H. by right. }
  destruct (p r); simpl; by rw IH'.
Qed.

Lemma update_where_none p f t : (forall r, r ∈ t -> p r = false) -> update_where p f t = t.
Proof.
  intros H. induction t as [|r t IH]; [done|]. simpl. rw (H r); [by left|].
  f_equal. apply IH. intros r' Hr. apply H. by right.
Qed.

Lemma scalar_one_or_none_Ok l o :
  scalar_one_or_none l = Ok o -> (l = [] /\ o = None) \/ exists r : R, l = [r] /\ o = Some r.
Proof. destruct l as [|r [|r' l]]; naive_solver. Qed.

(** At most one row satisfies the query. *)
Definition at_most_one (l : list R) : Prop := (length l <= 1)%nat.
Lemma at_most_one_scalar l : at_most_one l -> exists o, scalar_one_or_none l = Ok o.
Proof. destruct l as [|r [|r' l]]; unfold at_most_one; simpl; [eauto|eauto|lia]. Qed.

(** A narrower query returns no more rows. *)
Lemma at_most_one_sub p q t : (forall r, p r = true -> q r = true) -> at_most_one (select q t) -> at_most_one (select p t).
Proof.
  intros Hpq. unfold at_most_one. cut (length (select p t) <= length (select q t))%nat; [lia|].
  induction t as [|r t IH]; simpl; [lia|]. destruct (p r) eqn:Hp; [rw (Hpq r Hp); simpl; lia|].
  destruct (q r); simpl; lia.
Qed.

Lemma elem_of_insert_by le x (l : list R) y : y ∈ insert_by le x l <-> y = x \/ y ∈ l.
Proof.
  induction l as [|z l IH]; simpl; [set_solver|]. destruct (le x z); [set_solver|].
  rw !elem_of_cons IH. naive_solver.
Qed.
Lemma elem_of_order_by le (l : list R) y : y ∈ order_by le l <-> y ∈ l.
Proof.
  induction l as [|x l IH]; simpl; [done|]. rw elem_of_insert_by IH elem_of_cons. done.
Qed.
Lemma order_by_Permutation le (l : list R) : order_by le l ≡ₚ l.
Proof.
  assert (Hins : forall x (k : list R), insert_by le x k ≡ₚ x :: k).
  { intros x k. induction k as [|y k IH]; simpl; [done|]. destruct (le x y); [done|].
    rw IH. apply Permutation_swap. }
  induction l as [|x l IH]; simpl; [done|]. by rw Hins IH.
Qed.

(** Sorting by a total order sorts, and commutes with a change of rows that keeps it. *)
Lemma order_by_Sorted le (l : list R) : (forall a b, le a b = false -> le b a = true) ->
  Sorted (fun a b => le a b = true) (order_by le l).
Proof.
  intros Htot. induction l as [|x l IH]; [constructor|]. cbn. fold (order_by le l).
  assert (Hins : forall k y, Sorted (fun a b => le a b = true) k -> HdRel (fun a b => le a b = true) y k ->
    le y x = true -> HdRel (fun a b => le a b = true) y (insert_by le x k)).
  { intros [|z k] y _ Hy Hx; cbn; [by constructor|]. inversion Hy; subst. destruct (le x z); by constructor. }
  induction IH as [|y k Hk IHk Hy]; cbn; [by repeat constructor|]. destruct (le x y) eqn:E.
  - repeat constructor; done.
  - constructor; [exact IHk|]. apply Hins; [done|done|by apply Htot].
Qed.
End table_facts.

Lemma order_by_map {R S} (f : R -> S) le (l : list R) :
  order_by le (List.map f l) = List.map f (order_by (fun a b => le (f a) (f b)) l).
Proof.
  assert (Hins : forall x k, insert_by le (f x) (List.map f k) = List.map f (insert_by (fun a b => le (f a) (f b)) x k)).
  { intros x k. induction k as [|y k IH]; [done|]. cbn. destruct (le _ _); [done|]. cbn. by rw IH. }
  induction l as [|x l IH]; [done|]. unfold order_by in *. cbn. rw IH. apply Hins.
Qed.

(** ** Maximum and minimum of a list *)

Lemma zmax_list_ge x l y : y ∈ x :: l -> (y <= zmax_list x l)%Z.
Proof.
  unfold zmax_list. induction l as [|z l IH]; simpl; intros H.
  - apply list_elem_of_singleton in H. lia.
  - rw !elem_of_cons in H. destruct H as [->|[->|H]].
    + assert (x <= foldr Z.max x l)%Z by (apply IH; by left). lia.
    + lia.
    + assert (y <= foldr Z.max x l)%Z by (apply IH; by right). lia.
Qed.
Lemma zmax_list_elem x l : zmax_list x l ∈ x :: l.
Proof.
  unfold zmax_list. induction l as [|z l IH]; simpl; [by left|].
  destruct (Z.max_spec z (foldr Z.max x l)) as [[_ ->]|[_ ->]]; [|set_solver].
  apply elem_of_cons in IH as [->|IH]; set_solver.
Qed.
Lemma zmin_list_le x l y : y ∈ x :: l -> (zmin_list x l <= y)%Z.
Proof.
  unfold zmin_list. induction l as [|z l IH]; simpl; intros H.
  - apply list_elem_of_singleton in H. lia.
  - rw !elem_of_cons in H. destruct H as [->|[->|H]].
    + assert (foldr Z.min x l <= x)%Z by (apply IH; by left). lia.
    + lia.
    + assert (foldr Z.min x l <= y)%Z by (apply IH; by right). lia.
Qed.

(** Raising the seed within the maximum does not change it. *)
Lemma zmax_list_seed x x' l : (x <= x' <= zmax_list x l)%Z -> zmax_list x' l = zmax_list x l.
Proof.
  intros H. apply Z.le_antisymm.
  - pose proof (zmax_list_elem x' l) as [->|Hin]%elem_of_cons; [lia|]. apply zmax_list_ge. by right.
  - pose proof (zmax_list_elem x l) as [->|Hin]%elem_of_cons.
    + assert (x' <= zmax_list x' l)%Z by (apply zmax_list_ge; by left). lia.
    + apply zmax_list_ge. by right.
Qed.
Lemma zmax_list_snoc x l y : zmax_list x (l ++ [y]) = Z.max y (zmax_list x l).
Proof. unfold zmax_list. induction l as [|z l IH]; simpl; [done|]. rw IH. lia. Qed.
Lemma zmax_list_Permutation x l l' : l ≡ₚ l' -> zmax_list x l = zmax_list x l'.
Proof. unfold zmax_list. induction 1; simpl; lia. Qed.

(** ** Tables with keys

    [table_ok ident clash n t]: the rows have distinct identifiers, all drawn
    before [n], and no two rows violate a unique constraint. *)

Section keyed_tables.
Context {R : Type} (ident : R -> N) (clash : R -> R -> bool).
Implicit Types t : list R.

Fixpoint pairwise t : Prop :=
  match t with
  | [] => True
  | r :: t' => Forall (fun r' => clash r r' = false) t' /\ pairwise t'
  end.

Definition table_ok (n : N) t : Prop :=
  pairwise t /\ NoDup (List.map ident t) /\ Forall (fun r => (ident r < n)%N) t.

Hypothesis clash_sym : forall a b, clash a b = clash b a.

Lemma pairwise_app t r :
  pairwise t -> existsb (clash r) t = false -> pairwise (t ++ [r]).
Proof using clash_sym.
  induction t as [|x t IH]; simpl; [by repeat constructor|].
  intros [Hx Ht] He. apply orb_false_elim in He as [He1 He2]. split; [|by apply IH].
  apply Forall_app. split; [done|]. repeat constructor. by rw clash_sym.
Qed.

Lemma table_ok_mono n n' t : (n <= n')%N -> table_ok n t -> table_ok n' t.
Proof using.
  intros Hn (H1 & H2 & H3). split_and!; [done|done|].
  eapply Forall_impl; [exact H3|]. simpl. lia.
Qed.

Lemma table_ok_insert n t r :
  table_ok n t -> existsb (clash r) t = false -> ident r = n -> table_ok (N.succ n) (t ++ [r]).
Proof using clash_sym.
  intros (H1 & H2 & H3) He Hid. split_and!.
  - by apply pairwise_app.
  - rw List.map_app. apply NoDup_app. split_and!; [done| |apply NoDup_singleton].
    intros x Hx ->%list_elem_of_singleton. apply list_elem_of_fmap in Hx as (y & Hy & Hin).
    rw Forall_forall in H3. specialize (H3 y Hin). lia.
  - apply Forall_app. split; [|repeat constructor; lia].
    eapply Forall_impl; [exact H3|]. simpl. lia.
Qed.

(** An update that keeps the identifier and the unique columns. *)
Lemma table_ok_update n t p f :
  (forall a, ident (f a) = ident a) -> (forall a b, clash (f a) b = clash a b) ->
  table_ok n t -> table_ok n (update_where p f t).
Proof using clash_sym.
  intros Hid Hcl (H1 & H2 & H3).
  assert (Hid' : forall r, ident (if p r then f r else r) = ident r) by (intros r; by destruct (p r)).
  assert (Hcl' : forall a b, clash (if p a then f a else a) b = clash a b) by (intros a b; by destruct (p a)).
  split_and!.
  - clear H2 H3. induction t as [|r t IH]; simpl; [done|]. destruct H1 as [Hr Ht]. split; [|by apply IH].
    apply Forall_forall. intros r' Hr'. apply elem_of_update_where in Hr' as (r0 & Hin & ->).
    rw Hcl' clash_sym Hcl' clash_sym. rw Forall_forall in Hr. by apply Hr.
  - unfold update_where. rw List.map_map. erewrite List.map_ext; [exact H2|]. done.
  - apply Forall_forall. intros r' Hr'. apply elem_of_update_where in Hr' as (r0 & Hin & ->).
    rw Hid'. rw Forall_forall in H3. by apply H3.
Qed.

Lemma table_ok_delete n t p : table_ok n t -> table_ok n (delete_where p t).
Proof using.
  intros (H1 & H2 & H3). induction t as [|r t IH]; simpl; [done|].
  simpl in *. destruct H1 as [Hr Ht]. apply NoDup_cons in H2 as [Hn H2]. inversion H3; subst.
  destruct IH as (I1 & I2 & I3); [done|done|done|].
  destruct (negb (p r)); [|done]. split_and!; simpl.
  - split; [|done]. apply Forall_forall. intros r' Hr'. rw Forall_forall in Hr. apply Hr.
    apply elem_of_select in Hr'. tauto.
  - apply NoDup_cons. split; [|done]. intros Hin. apply Hn.
    apply list_elem_of_fmap in Hin as (y & Hy & Hin). apply elem_of_select in Hin as [Hin _].
    apply list_elem_of_fmap. by exists y.
  - by constructor.
Qed.

(** Overwriting the row of one identifier, when the new row clashes with no other. *)
Lemma table_ok_store n t r r' :
  table_ok n t -> r ∈ t -> ident r' = ident r ->
  existsb (clash r') (List.filter (fun x => negb (bool_decide (ident x = ident r))) t) = false ->
  table_ok n (update_where (fun x => bool_decide (ident x = ident r)) (fun _ => r') t).
Proof using clash_sym.
  intros (H1 & H2 & H3) Hin Hid He. split_and!.
  - clear H3 Hin. induction t as [|x t IH]; simpl; [done|].
    simpl in H1, H2, He. destruct H1 as [Hx Ht]. apply NoDup_cons in H2 as [Hn H2].
    case_bool_decide as Hxr.
    + assert (Hno : forall y, y ∈ t -> ident y <> ident r).
      { intros y Hy Heq. apply Hn. apply list_elem_of_fmap. exists y. split; [congruence|done]. }
      rw update_where_none; [by intros y Hy; apply bool_decide_eq_false_2, Hno|].
      split; [|done]. apply Forall_forall. intros y Hy. cbn in He.
      destruct (clash r' y) eqn:Ec; [|done]. exfalso.
      rewrite <- not_true_iff_false in He. apply He. apply List.existsb_exists. exists y. split; [|done].
      apply List.filter_In. split; [by apply list_elem_of_In|]. by rw bool_decide_eq_false_2; [apply Hno|].
    + cbn in He. apply orb_false_elim in He as [Hex He]. split; [|by apply IH].
      apply Forall_forall. intros y Hy. apply elem_of_update_where in Hy as (y0 & Hy0 & ->).
      case_bool_decide; [by rw clash_sym|]. rw Forall_forall in Hx. by apply Hx.
  - unfold update_where. rw List.map_map. erewrite List.map_ext; [exact H2|].
    intros x. simpl. case_bool_decide; congruence.
  - apply Forall_forall. intros y Hy. apply elem_of_update_where in Hy as (y0 & Hy0 & ->).
    rw Forall_forall in H3. case_bool_decide; [rw Hid|]; by apply H3.
Qed.

(** A query whose rows would clash returns at most one row. *)
Lemma pairwise_at_most_one t p :
  (forall a b, p a = true -> p b = true -> clash a b = true) -> pairwise t -> at_most_one (select p t).
Proof using.
  intros Hp. unfold at_most_one. induction t as [|r t IH]; simpl; [lia|]. intros [Hr Ht].
  destruct (p r) eqn:Hpr; [|by apply IH]. rw select_none; [|simpl; lia].
  intros r' Hr'. rw Forall_forall in Hr. specialize (Hr r' Hr').
  destruct (p r') eqn:Hpr'; [|done]. by rw (Hp r r') in Hr.
Qed.

(** A pointwise change that keeps identifiers and unique columns. *)
Lemma table_ok_map_in n t f :
  (forall a, a ∈ t -> ident (f a) = ident a /\ forall b, clash (f a) b = clash a b) ->
  table_ok n t -> table_ok n (List.map f t).
Proof using clash_sym.
  intros Hf (H1 & H2 & H3). split_and!.
  - clear H2 H3. induction t as [|r t IH]; simpl; [done|]. destruct H1 as [Hr Ht].
    split; [|apply IH; [|done]; intros a Ha; apply Hf; by right].
    apply Forall_forall. intros r' Hr'. apply list_elem_of_fmap in Hr' as (r0 & -> & Hin).
    rw (proj2 (Hf r ltac:(by left))) clash_sym (proj2 (Hf r0 ltac:(by right))) clash_sym.
    rw Forall_forall in Hr. by apply Hr.
  - rw List.map_map. erewrite List.map_ext_in; [exact H2|]. intros a Ha%list_elem_of_In. by apply Hf.
  - apply Forall_forall. intros r' Hr'. apply list_elem_of_fmap in Hr' as (r0 & -> & Hin).
    rw (proj1 (Hf r0 Hin)). rw Forall_forall in H3. by apply H3.
Qed.

(** A row is determined by its identifier. *)
Lemma table_ok_same_id n t (a b : R) :
  table_ok n t -> a ∈ t -> b ∈ t -> ident a = ident b -> a = b.
Proof using.
  intros (_ & H & _) Ha Hb Hid. induction t as [|x t IH]; [by inversion Ha|].
  simpl in H. apply NoDup_cons in H as [Hx H].
  apply elem_of_cons in Ha as [->|Ha]; apply elem_of_cons in Hb as [->|Hb]; [done| | |by apply IH].
  - destruct Hx. apply list_elem_of_fmap. by exists b.
  - destruct Hx. apply list_elem_of_fmap. by exists a.
Qed.

(** ... so a query by identifier finds that row and no other. *)
Lemma table_ok_select_id n t a :
  table_ok n t -> a ∈ t -> select (fun x => bool_decide (ident x = ident a)) t = [a].
Proof using.
  intros (_ & H & _). induction t as [|x t IH]; intros Ha; [by inversion Ha|].
  simpl in H. apply NoDup_cons in H as [Hx H]. simpl. case_bool_decide as E.
  - apply elem_of_cons in Ha as [->|Ha].
    + f_equal. apply select_none. intros y Hy. apply bool_decide_eq_false_2. intros Hyx. destruct Hx.
      apply list_elem_of_fmap. by exists y.
    + destruct Hx. apply list_elem_of_fmap. by exists a.
  - apply elem_of_cons in Ha as [->|Ha]; [done|]. by apply IH.
Qed.

Lemma table_ok_one_id n t i : table_ok n t -> at_most_one (select (fun x => bool_decide (ident x = i)) t).
Proof using.
  intros H. destruct (select (fun x => bool_decide (ident x = i)) t) as [|a l] eqn:E; [unfold at_most_one; simpl; lia|].
  assert (Ha : a ∈ select (fun x => bool_decide (ident x = i)) t) by (rw E; by left).
  apply elem_of_select in Ha as [Ha <-%bool_decide_eq_true]. rw (table_ok_select_id n t a H Ha) in E.
  rewrite <- E. unfold at_most_one. simpl. lia.
Qed.
End keyed_tables.

(** [table_ok] of a concrete table, by computation. *)
Ltac solve_table_ok :=
  split; [repeat constructor | split; [apply (bool_decide_eq_true_1 (NoDup _)); vm_compute; reflexivity | repeat constructor]].
