(* ===== verification/Constants.v ===== *)
(** * Constants, enumerations and text validation (registry/constants.py)

    The enumerations of the billing and identity domains, the Redis time
    constants and the two validators of user-supplied text.  A Python string is
    a [string] whose characters are read as the code points 0..255 (Latin-1);
    the character classes below are those of [str.isspace], [str.isalnum] and
    [str.lower] on that range. *)
From stdpp Require Import base gmap strings list.
From Stdlib Require Import ZArith Lia Ascii ssreflect.
From S2P Require Import Prelude.

(** ** Enumerations *)

Inductive MembershipRole := OWNER | ADMIN | MEMBER.
Inductive InvitationStatus := IPENDING | IACCEPTED | IDECLINED | IREVOKED | IEXPIRED.
Inductive SubscriptionPlan := HOBBY | PRO | STARTUP | ENTERPRISE | DEVELOPMENT.
Inductive SubscriptionStatus := ACTIVE | PAST_DUE | CANCELED | INCOMPLETE.
Inductive UsageCategory := TRACES | TRACE_EVALS | SESSION_EVALS.

#[export] Instance MembershipRole_eq_dec : EqDecision MembershipRole.
Proof. solve_decision. Defined.
#[export] Instance InvitationStatus_eq_dec : EqDecision InvitationStatus.
Proof. solve_decision. Defined.
#[export] Instance SubscriptionPlan_eq_dec : EqDecision SubscriptionPlan.
Proof. solve_decision. Defined.
#[export] Instance SubscriptionStatus_eq_dec : EqDecision SubscriptionStatus.
Proof. solve_decision. Defined.
#[export] Instance UsageCategory_eq_dec : EqDecision UsageCategory.
Proof. solve_decision. Defined.

(** The three categories, in declaration order. *)
Definition categories : list UsageCategory := [TRACES; TRACE_EVALS; SESSION_EVALS].

(** The string values of the enumeration, used as Redis hash fields. *)
Definition UsageCategory_value (c : UsageCategory) : string :=
  match c with
  | TRACES => "traces"
  | TRACE_EVALS => "trace_evals"
  | SESSION_EVALS => "session_evals"
  end.

(** [UsageCategory(s)]: the enumeration's constructor, raising [ValueError]. *)
Definition UsageCategory_of (s : string) : res UsageCategory :=
  if bool_decide (s = "traces"%string) then Ok TRACES
  else if bool_decide (s = "trace_evals"%string) then Ok TRACE_EVALS
  else if bool_decide (s = "session_evals"%string) then Ok SESSION_EVALS
  else Err (ValueError "not a valid UsageCategory").

(** ** Redis time constants (seconds) and the microsecond clock *)

(** Timestamps are microseconds since the epoch, UTC: the resolution of
    [datetime]. *)
Definition second : Z := 1000000.
Definition minutes (n : Z) : Z := n * 60 * second.
Definition hours (n : Z) : Z := n * 3600 * second.
Definition days (n : Z) : Z := n * 86400 * second.

Definition SUB_CACHE_TTL : Z := 300.
Definition USAGE_KEY_BUFFER_DAYS : Z := 7.
Definition OVERAGE_LOCK_TTL : Z := 60.

Definition API_KEY_PREFIX : string := "sk_pp_".
Definition API_KEY_RANDOM_BYTES : nat := 32.

(** ** Character classes *)

Definition code (c : ascii) : Z := Z.of_N (N_of_ascii c).

Definition in_range (lo hi : Z) (c : ascii) : bool := (lo <=? code c)%Z && (code c <=? hi)%Z.

(** [str.isspace] on one character. *)
Definition isspace (c : ascii) : bool :=
  in_range 9 13 c || in_range 28 32 c || (code c =? 133)%Z || (code c =? 160)%Z.

(** [[a-zA-Z0-9]] *)
Definition ascii_alnum (c : ascii) : bool :=
  in_range 48 57 c || in_range 65 90 c || in_range 97 122 c.

(** [str.isalnum] on one character: the ASCII letters and digits, and the
    letters, digits and fractions of the upper half of Latin-1. *)
Definition isalnum (c : ascii) : bool :=
  ascii_alnum c || (code c =? 170)%Z || in_range 178 179 c || (code c =? 181)%Z
  || in_range 185 186 c || in_range 188 190 c
  || (in_range 192 255 c && negb (code c =? 215)%Z && negb (code c =? 247)%Z).

(** [str.lower] on one character. *)
Definition lower_char (c : ascii) : ascii :=
  if in_range 65 90 c || (in_range 192 222 c && negb (code c =? 215)%Z)
  then ascii_of_N (N_of_ascii c + 32) else c.

(** [[a-zA-Z0-9 _.'-]] *)
Definition safe_char (c : ascii) : bool :=
  ascii_alnum c || (code c =? 32)%Z || (code c =? 95)%Z || (code c =? 46)%Z
  || (code c =? 39)%Z || (code c =? 45)%Z.

(** [[\x00-\x08\x0b\x0c\x0e-\x1f\x7f]] *)
Definition control_char (c : ascii) : bool :=
  in_range 0 8 c || in_range 11 12 c || in_range 14 31 c || (code c =? 127)%Z.

(** ** String methods *)

Fixpoint lstrip_list (l : list ascii) : list ascii :=
  match l with
  | [] => []
  | c :: l' => if isspace c then lstrip_list l' else l
  end.
Definition strip_list (l : list ascii) : list ascii := rev (lstrip_list (rev (lstrip_list l))).

(** [str.strip()] *)
Definition strip (s : string) : string :=
  String.string_of_list_ascii (strip_list (String.list_ascii_of_string s)).
(** [str.replace] of one character *)
Definition replace_char (c : ascii) (by_ : list ascii) (l : list ascii) : list ascii :=
  flat_map (fun x => if bool_decide (x = c) then by_ else [x]) l.
(** [str.lower()] *)
Definition lower (s : string) : string :=
  String.string_of_list_ascii (List.map lower_char (String.list_ascii_of_string s)).
(** [len(s)] *)
Definition len (s : string) : Z := Z.of_nat (String.length s).

(** ** validate_resource_name *)

(** [^[a-zA-Z0-9][a-zA-Z0-9 _.'-]{0,253}[a-zA-Z0-9]] followed by the end of the text. *)
Definition safe_name_full (l : list ascii) : bool :=
  match l with
  | first :: rest =>
      match rev rest with
      | last :: rmiddle =>
          ascii_alnum first && ascii_alnum last && forallb safe_char rmiddle
          && (length rmiddle <=? 253)%nat
      | [] => false
      end
  | [] => false
  end.

(** [_SAFE_NAME_RE.match]: [$] also matches before one trailing newline. *)
Definition SAFE_NAME_RE (l : list ascii) : bool :=
  safe_name_full l ||
  match rev l with
  | c :: rl => (code c =? 10)%Z && safe_name_full (rev rl)
  | [] => false
  end.

Definition MAX_NAME_LEN : Z := 255.

Definition validate_resource_name (value label : string) : res string :=
  let name := strip value in
  if bool_decide (name = EmptyString) then Err (ValueError (label +:+ " must not be empty."))
  else if (MAX_NAME_LEN <? len name)%Z then
    Err (ValueError (label +:+ " must be at most 255 characters."))
  else match name with
       | String c EmptyString =>
           if isalnum c then Ok name
           else Err (ValueError (label +:+ " must start and end with a letter or digit."))
       | _ =>
           if SAFE_NAME_RE (String.list_ascii_of_string name) then Ok name
           else Err (ValueError (label +:+ " must start and end with a letter or digit and contain only letters, digits, spaces, hyphens, underscores, dots, or apostrophes."))
       end.

(** ** sanitize_text *)

Definition sanitize_text (value label : string) (max_length : Z) : res string :=
  let text := strip value in
  if (max_length <? len text)%Z then Err (ValueError (label +:+ " is too long."))
  else if existsb control_char (String.list_ascii_of_string text) then
    Err (ValueError (label +:+ " contains invalid control characters."))
  else Ok text.

(** ** Facts about texts *)

Lemma list_ascii_of_app a b :
  String.list_ascii_of_string (a +:+ b) = String.list_ascii_of_string a ++ String.list_ascii_of_string b.
Proof. induction a as [|c a IH]; [done|]. simpl. by f_equal. Qed.

(** ** Facts about stripping *)

Lemma lstrip_list_suffix l : exists pre, l = pre ++ lstrip_list l /\ forallb isspace pre = true.
Proof.
  induction l as [|c l (pre & Hl & Hp)]; [by exists []|].
  simpl. destruct (isspace c) eqn:Hc.
  - exists (c :: pre). simpl. rw Hc Hp. by rw -Hl.
  - by exists [].
Qed.

Lemma lstrip_list_head l c l' : lstrip_list l = c :: l' -> isspace c = false.
Proof. induction l as [|d l IH]; simpl; [done|]. destruct (isspace d) eqn:Hd; naive_solver. Qed.

Lemma lstrip_list_fix l : (forall c l', l = c :: l' -> isspace c = false) -> lstrip_list l = l.
Proof. destruct l as [|c l]; [done|]. intros H. simpl. by rw (H c l). Qed.

Lemma lstrip_list_app_last l c : isspace c = false ->
  exists l', lstrip_list (l ++ [c]) = l' ++ [c].
Proof.
  intros Hc. induction l as [|d l (l' & IH)]; simpl.
  - rw Hc. by exists [].
  - destruct (isspace d); [by exists l'|]. by exists (d :: l).
Qed.

Lemma strip_list_idem l : strip_list (strip_list l) = strip_list l.
Proof.
  unfold strip_list.
  set (a := lstrip_list l). set (b := lstrip_list (rev a)).
  assert (Hb : lstrip_list b = b).
  { apply lstrip_list_fix. intros c l' H. by apply (lstrip_list_head (rev a) c l'). }
  assert (Ha : lstrip_list (rev b) = rev b).
  { apply lstrip_list_fix. intros c l' H.
    destruct (lstrip_list_suffix (rev a)) as (pre & Hpre & _). fold b in Hpre.
    assert (Hra : a = rev b ++ rev pre) by (by rw -rev_app_distr -Hpre rev_involutive).
    rw H in Hra. simpl in Hra. by apply (lstrip_list_head l c (l' ++ rev pre)). }
  by rw Ha rev_involutive Hb.
Qed.

Lemma strip_idem s : strip (strip s) = strip s.
Proof. unfold strip. by rw String.list_ascii_of_string_of_list_ascii strip_list_idem. Qed.

(** ** Facts about the validators *)

Lemma validate_resource_name_inv v label n :
  validate_resource_name v label = Ok n ->
  n = strip v /\ n <> EmptyString /\ (len n <= 255)%Z /\
  ((exists c, n = String c EmptyString /\ isalnum c = true) \/
   SAFE_NAME_RE (String.list_ascii_of_string n) = true).
Proof.
  unfold validate_resource_name. case_bool_decide; [done|].
  destruct (MAX_NAME_LEN <? len (strip v))%Z eqn:Hlen; [done|].
  apply Z.ltb_ge in Hlen. unfold MAX_NAME_LEN in Hlen.
  destruct (strip v) as [|c [|d s]] eqn:Hs; [done| |].
  - destruct (isalnum c) eqn:Hc; [|done]. intros [= <-]. naive_solver.
  - destruct (SAFE_NAME_RE _) eqn:Hre; [|done]. intros [= <-]. naive_solver.
Qed.

(** A validated name is its own validation. *)
Lemma validate_resource_name_stable (v label n : string) :
  validate_resource_name v label = Ok n -> validate_resource_name n label = Ok n.
Proof.
  intros H. destruct (validate_resource_name_inv v label n H) as (Hn & _).
  revert H. unfold validate_resource_name.
  assert (Hs : strip n = n) by (by rw Hn strip_idem).
  by rw Hs -Hn.
Qed.
