(* ===== verification/Entities.v ===== *)
(** * Domain entities and plan configuration

    The records of core/billing/entities.py and core/identity/entities.py with
    the column constraints of infrastructure/db/models.py, and the plan table of
    core/billing/plans.py.  A row of a table and the entity its mapper builds
    have the same fields, so one record stands for both.  UUIDs are [N],
    timestamps are microseconds ([Z]). *)
From stdpp Require Import base gmap strings list.
From Stdlib Require Import ZArith Lia ssreflect.
From S2P Require Import Prelude Constants.

#[local] Open Scope Z_scope.

(** ** Usage counters, one per category *)

Record Counts := { traces : Z; trace_evals : Z; session_evals : Z }.

#[export] Instance Counts_eq_dec : EqDecision Counts.
Proof. solve_decision. Defined.

(** [getattr(usage, f"..._{counter}")] for the counter of a category. *)
Definition cnt (k : Counts) (c : UsageCategory) : Z :=
  match c with
  | TRACES => traces k
  | TRACE_EVALS => trace_evals k
  | SESSION_EVALS => session_evals k
  end.

(** The triple built from one value per category. *)
Definition counts_of (f : UsageCategory -> Z) : Counts :=
  {| traces := f TRACES; trace_evals := f TRACE_EVALS; session_evals := f SESSION_EVALS |}.

Lemma cnt_counts_of f c : cnt (counts_of f) c = f c.
Proof. by destruct c. Qed.
Lemma counts_ext k1 k2 : (forall c, cnt k1 c = cnt k2 c) -> k1 = k2.
Proof.
  intros H. pose proof (H TRACES). pose proof (H TRACE_EVALS). pose proof (H SESSION_EVALS).
  destruct k1, k2; simpl in *; congruence.
Qed.

Definition zero_counts : Counts := counts_of (fun _ => 0%Z).

(** ** Billing entities *)

Record Subscription := {
  sub_id : N;
  sub_org : N;
  sub_plan : SubscriptionPlan;
  sub_status : SubscriptionStatus;
  sub_customer : option string;
  sub_stripe_id : option string;
  sub_start : Z;
  sub_end : Z;
  sub_canceled_at : option Z;
  sub_created : Z;
  sub_updated : Z }.

Record UsageRecord := {
  ur_id : N;
  ur_org : N;
  ur_start : Z;
  ur_end : Z;
  ur_count : Counts;
  ur_reported : Counts;
  ur_billed : bool;
  ur_invoice : option string;
  ur_created : Z;
  ur_updated : Z }.

(** Python's [Decimal]: a coefficient and an exponent, [coef * 10^exp]. *)
Record Decimal := { dec_coef : Z; dec_exp : Z }.

(** The frozen pricing of a report: ["unit_price"] and the base of each category. *)
Record Pricing := { unit_price : Decimal; base_units : Counts }.

(** ["pp:report:{report}:{category}"] followed by a number of [":carryover"]. *)
Record IdemKey := { ik_report : N; ik_category : UsageCategory; ik_carryovers : nat }.

(** One entry of [requests]: the parameters of an InvoiceItem creation.  The
    currency is always usd and the description is a function of [ir_units] and
    the period, so they are not repeated. *)
Record ItemRequest := {
  ir_customer : string;
  ir_amount : Z;
  ir_units : Z;
  ir_period_start : Z;
  ir_period_end : Z;
  ir_report : N;
  ir_category : UsageCategory;
  ir_org : N;
  ir_from : Z;
  ir_to : Z;
  ir_key : IdemKey;
  ir_subscription : option string;
  ir_invoice : option string }.

Inductive ReportStatus := rs_pending | rs_reported | rs_needs_review.

#[export] Instance UsageCategory_countable : Countable UsageCategory.
Proof.
  refine (inj_countable (fun c => match c with TRACES => 0%N | TRACE_EVALS => 1%N | SESSION_EVALS => 2%N end)
           (fun n => match n with 0%N => Some TRACES | 1%N => Some TRACE_EVALS | 2%N => Some SESSION_EVALS | _ => None end) _).
  by intros [].
Defined.

Record BillingReport := {
  br_id : N;
  br_usage : N;
  br_customer : string;
  br_subscription : option string;
  br_closing : option string;
  br_snapshot : Counts;
  br_pricing : Pricing;
  br_requests : gmap UsageCategory ItemRequest;
  br_attempted : gmap UsageCategory Z;
  br_items : gmap UsageCategory string;
  br_status : ReportStatus;
  br_error : option exn;
  br_created : Z;
  br_updated : Z }.

#[export] Instance Subscription_eq_dec : EqDecision Subscription.
Proof. solve_decision. Defined.
#[export] Instance UsageRecord_eq_dec : EqDecision UsageRecord.
Proof. solve_decision. Defined.
#[export] Instance Decimal_eq_dec : EqDecision Decimal.
Proof. solve_decision. Defined.
#[export] Instance Pricing_eq_dec : EqDecision Pricing.
Proof. solve_decision. Defined.
#[export] Instance IdemKey_eq_dec : EqDecision IdemKey.
Proof. solve_decision. Defined.
#[export] Instance ItemRequest_eq_dec : EqDecision ItemRequest.
Proof. solve_decision. Defined.
#[export] Instance ReportStatus_eq_dec : EqDecision ReportStatus.
Proof. solve_decision. Defined.

(** The overage breakdown of a period. *)
Record OverageDetail := {
  od_overage : Counts;
  od_cost : UsageCategory -> Decimal;
  od_total_cost : Decimal;
  od_snapshot : Counts }.

(** ** Decimal arithmetic *)

(** [d * n] for an integer [n]: exact, the exponent is kept. *)
Definition dec_mul_int (d : Decimal) (n : Z) : Decimal :=
  {| dec_coef := dec_coef d * n; dec_exp := dec_exp d |}.

(** [a - b]: exact, at the smaller exponent. *)
Definition dec_sub (a b : Decimal) : Decimal :=
  let e := Z.min (dec_exp a) (dec_exp b) in
  {| dec_coef := dec_coef a * 10 ^ (dec_exp a - e) - dec_coef b * 10 ^ (dec_exp b - e); dec_exp := e |}.

(** [d.quantize(Decimal("1"), rounding=ROUND_HALF_UP)], as an integer. *)
Definition quantize_half_up (d : Decimal) : Z :=
  if (0 <=? dec_exp d)%Z then dec_coef d * 10 ^ dec_exp d
  else let q := 10 ^ (- dec_exp d) in
       Z.sgn (dec_coef d) * ((2 * Z.abs (dec_coef d) + q) / (2 * q)).

(** ** Plans *)

Record PlanConfig := {
  base : UsageCategory -> option Z;
  monitoring_allowed : bool;
  max_members : option Z;
  pay_as_you_go : bool;
  monthly_price_cents : Z }.

Definition plan_config (t te se : option Z) (mon : bool) (mm : option Z) (payg : bool) (price : Z) :=
  {| base := fun c => match c with TRACES => t | TRACE_EVALS => te | SESSION_EVALS => se end;
     monitoring_allowed := mon; max_members := mm; pay_as_you_go := payg;
     monthly_price_cents := price |}.

(** [PLAN_LIMITS] *)
Definition PLAN_LIMITS (p : SubscriptionPlan) : PlanConfig :=
  match p with
  | HOBBY => plan_config (Some 100) (Some 100) (Some 10) false (Some 1) false 0
  | PRO => plan_config (Some 5000) (Some 5000) (Some 100) true (Some 2) true 2900
  | STARTUP => plan_config (Some 50000) (Some 50000) (Some 1000) true (Some 10) true 29900
  | ENTERPRISE => plan_config (Some 0) (Some 0) (Some 0) true None true 0
  | DEVELOPMENT => plan_config None None None true (Some 1) false 0
  end%Z.

Definition OVERAGE_UNIT_PRICE : Decimal := {| dec_coef := 4; dec_exp := -3 |}.
Definition MAX_OWNED_ORGS : Z := 2.

(** The per-period summary returned by the usage service; its limits are those of
    the plan, none without a subscription. *)
Record UsageSummary := {
  us_plan : SubscriptionPlan;
  us_status : SubscriptionStatus;
  us_start : Z;
  us_end : Z;
  us_counts : Counts;
  us_limits : option PlanConfig }.

Definition get_plan_config (p : SubscriptionPlan) : PlanConfig := PLAN_LIMITS p.

Definition get_limit_for_category (p : SubscriptionPlan) (c : UsageCategory) : option Z :=
  base (PLAN_LIMITS p) c.

(** [plan.base or 0] *)
Definition base_or_zero (p : PlanConfig) (c : UsageCategory) : Z := default 0%Z (base p c).

(** ** Identity entities *)

Record User := {
  u_id : N;
  u_external : string;
  u_email : string;
  u_display : string;
  u_created : Z;
  u_last_sign_in : option Z }.

Record Organization := { o_id : N; o_name : string; o_created : Z }.

Record Membership := {
  m_id : N;
  m_user : N;
  m_org : N;
  m_role : MembershipRole;
  m_created : Z }.

Record Project := {
  p_id : N;
  p_org : N;
  p_name : string;
  p_description : string;
  p_created : Z }.

Record Invitation := {
  i_id : N;
  i_org : N;
  i_email : string;
  i_role : MembershipRole;
  i_invited_by : N;
  i_status : InvitationStatus;
  i_created : Z;
  i_expires : Z }.

Record APIKey := {
  k_id : N;
  k_org : N;
  k_hash : string;
  k_prefix : string;
  k_name : string;
  k_active : bool;
  k_created : Z;
  k_expires : option Z;
  k_last_used : option Z;
  k_created_by : option N }.

#[export] Instance User_eq_dec : EqDecision User.
Proof. solve_decision. Defined.
#[export] Instance Organization_eq_dec : EqDecision Organization.
Proof. solve_decision. Defined.
#[export] Instance Membership_eq_dec : EqDecision Membership.
Proof. solve_decision. Defined.
#[export] Instance Project_eq_dec : EqDecision Project.
Proof. solve_decision. Defined.
#[export] Instance Invitation_eq_dec : EqDecision Invitation.
Proof. solve_decision. Defined.
#[export] Instance APIKey_eq_dec : EqDecision APIKey.
Proof. solve_decision. Defined.

(** ** Unique constraints

    [<table>_clash t r] holds when inserting (or updating to) [r] violates a
    primary key or a [UniqueConstraint] of the table; NULLs never clash. *)

Definition opt_clash (a b : option string) : bool :=
  match a, b with Some x, Some y => bool_decide (x = y) | _, _ => false end.

Definition SubscriptionModel_clash (r r' : Subscription) : bool :=
  bool_decide (sub_org r = sub_org r') || opt_clash (sub_stripe_id r) (sub_stripe_id r').

Definition UsageRecordModel_clash (r r' : UsageRecord) : bool :=
  bool_decide (ur_org r = ur_org r') && bool_decide (ur_start r = ur_start r').

Definition BillingReportModel_clash (r r' : BillingReport) : bool :=
  bool_decide (br_usage r = br_usage r') && opt_clash (br_closing r) (br_closing r').

Definition UserModel_clash (r r' : User) : bool :=
  bool_decide (u_external r = u_external r') || bool_decide (u_email r = u_email r').

Definition MembershipModel_clash (r r' : Membership) : bool :=
  bool_decide (m_user r = m_user r') && bool_decide (m_org r = m_org r').

Definition ProjectModel_clash (r r' : Project) : bool :=
  bool_decide (p_org r = p_org r') && bool_decide (p_name r = p_name r').

Definition APIKeyModel_clash (r r' : APIKey) : bool := bool_decide (k_hash r = k_hash r').

(** ** Rounding facts *)

(** Rounding to whole cents moves an amount by at most half a cent. *)
Lemma quantize_half_up_error d :
  (0 <= dec_coef d)%Z -> (dec_exp d < 0)%Z ->
  (Z.abs (quantize_half_up d * 10 ^ (- dec_exp d) - dec_coef d) * 2 <= 10 ^ (- dec_exp d))%Z.
Proof.
  intros Hc He. unfold quantize_half_up.
  destruct (0 <=? dec_exp d)%Z eqn:E; [apply Z.leb_le in E; lia|].
  set (q := (10 ^ (- dec_exp d))%Z). set (c := dec_coef d) in *.
  assert (Hq : (0 < q)%Z) by (apply Z.pow_pos_nonneg; lia).
  assert (Hd : (Z.sgn c * ((2 * Z.abs c + q) / (2 * q)) = (2 * c + q) / (2 * q))%Z).
  { rw Z.abs_eq; [done|]. destruct (Z.eq_dec c 0) as [->|Hne].
    - rw Z.div_small; simpl; lia.
    - rw Z.sgn_pos; lia. }
  rw Hd. pose proof (Z.div_mod (2 * c + q) (2 * q)). pose proof (Z.mod_pos_bound (2 * c + q) (2 * q)).
  lia.
Qed.
