(* ===== verification/Float64.v ===== *)
(** * Binary64 floating-point numbers

    Python's [float] and PostgreSQL's [double precision] are IEEE 754 binary64.
    The Standard Library's [SpecFloat] gives their values and correctly rounded
    operations as executable functions on integers; this file fixes the format
    (53 bits of precision, exponents below 1024) and names what the code uses. *)
From Stdlib Require Import ZArith Lia ssreflect SpecFloat.
From stdpp Require Import base gmap list.

#[local] Open Scope Z_scope.

Abbreviation float := spec_float.

#[export] Instance float_eq_dec : EqDecision float.
Proof. solve_decision. Defined.

Definition prec : Z := 53.
Definition emax : Z := 1024.

(** [float(n)] of an integer: the nearest double, ties to even. *)
Definition of_Z (n : Z) : float := binary_normalize prec emax n 0 false.
Definition fadd : float -> float -> float := SFadd prec emax.
Definition fsub : float -> float -> float := SFsub prec emax.
Definition fmul : float -> float -> float := SFmul prec emax.
Definition fdiv : float -> float -> float := SFdiv prec emax.
Definition fltb : float -> float -> bool := SFltb.
Definition fleb : float -> float -> bool := SFleb.
Definition feqb : float -> float -> bool := SFeqb.

(** The double nearest to the decimal fraction [n / 10^k] ([0 <= k <= 22] and
    [|n| < 2^53]: numerator and power of ten are exact, so the quotient is the
    correctly rounded literal). *)
Definition decimal (n k : Z) : float := fdiv (of_Z n) (of_Z (10 ^ k)).

Definition is_finite (x : float) : bool :=
  match x with S754_zero _ | S754_finite _ _ _ => true | _ => false end.

(** [0.1 + 0.2 > 0.3]: the arithmetic is the machine's, not that of the rationals. *)
Example tenths_add_up : fltb (decimal 3 1) (fadd (decimal 1 1) (decimal 2 1)) = true.
Proof. reflexivity. Qed.
