(* ===== verification/PyFloat.v ===== *)
(** * Python's floats as text, as integers and in sums

    [float(text)], [str(round(x, 4))], [int(x)], [math.ceil], [math.sqrt],
    [min], [max] and [sum] as CPython computes them.  Scores are stored as text,
    so the way from a float to its text and back is part of the program's
    behaviour. *)
From Stdlib Require Import ZArith Lia ssreflect SpecFloat Ascii DecimalString.
From stdpp Require Import base gmap strings list.
From S2P Require Import Prelude Constants Float64.

#[local] Open Scope Z_scope.

(** ** Arithmetic *)

Definition fopp : float -> float := SFopp.
Definition fabs : float -> float := SFabs.
Definition fsqrt : float -> float := SFsqrt prec emax.
(** [max(a, b)] and [min(a, b)]: the first argument unless the second is strictly
    greater (less); with a NaN, the first. *)
Definition fmax (a b : float) : float := if fltb a b then b else a.
Definition fmin (a b : float) : float := if fltb b a then b else a.
(** [max(0.0, min(1.0, x))] *)
Definition clamp01 (x : float) : float := fmax (of_Z 0) (fmin (of_Z 1) x).
Definition in_unit (x : float) : bool := fleb (of_Z 0) x && fleb x (of_Z 1).

(** [sum] of floats: Neumaier's compensated summation (CPython 3.12). *)
Fixpoint neumaier (s c : float) (l : list float) : float :=
  match l with
  | [] => if negb (feqb c (of_Z 0)) && is_finite c then fadd s c else s
  | x :: l' =>
      let t := fadd s x in
      let d := if fleb (fabs x) (fabs s) then fadd (fsub s t) x else fadd (fsub x t) s in
      neumaier t (fadd c d) l'
  end.
Definition py_sum (l : list float) : float :=
  match l with
  | [] => of_Z 0
  | x :: l' => neumaier (fadd (of_Z 0) x) (of_Z 0) l'
  end.

(** [int(x)] rounds towards zero, [math.ceil(x)] up; both fail on NaN and infinities. *)
Definition py_int (x : float) : res Z :=
  match x with
  | S754_zero _ => Ok 0
  | S754_finite s m e =>
      let n := if 0 <=? e then Zpos m * 2 ^ e else Zpos m / 2 ^ (- e) in
      Ok (if s then - n else n)
  | _ => Err (ValueError "cannot convert float to integer")
  end.
Definition py_ceil (x : float) : res Z :=
  match x with
  | S754_zero _ => Ok 0
  | S754_finite s m e =>
      let n := if s then - Zpos m else Zpos m in
      Ok (if 0 <=? e then n * 2 ^ e else - ((- n) / 2 ^ (- e)))
  | _ => Err (ValueError "cannot convert float to integer")
  end.

(** ** Decimals *)

(** The double nearest to [p / q], for [0 <= p] and [0 < q], as the division [p / q] of Python's integers gives it: the quotient to at least 64
    significant bits, followed by a sticky bit. *)
Definition of_ratio (p q : Z) : float :=
  let k := 64 + Z.log2 q in
  let n := p * 2 ^ k / q in
  let sticky := if p * 2 ^ k mod q =? 0 then 0 else 1 in
  binary_normalize prec emax (2 * n + sticky) (- (k + 1)) false.
(** The double nearest to [m * 10^e]. *)
Definition of_decimal (m e : Z) : float :=
  if 0 <=? e then of_Z (m * 10 ^ e) else of_ratio m (10 ^ (- e)).

Definition round_half_even (n d : Z) : Z :=
  let q := n / d in
  match 2 * (n mod d) ?= d with
  | Lt => q
  | Gt => q + 1
  | Eq => if Z.even q then q else q + 1
  end.

(** The sign of a finite number and its absolute value in ten-thousandths, rounded. *)
Definition ten_thousandths (x : float) : option (bool * Z) :=
  match x with
  | S754_zero s => Some (s, 0)
  | S754_finite s m e =>
      Some (s, if 0 <=? e then Zpos m * 2 ^ e * 10000 else round_half_even (Zpos m * 10000) (2 ^ (- e)))
  | _ => None
  end.
(** [round(x, 4)] *)
Definition round4 (x : float) : float :=
  match ten_thousandths x with
  | Some (s, n) => let y := of_ratio n 10000 in if s then fopp y else y
  | None => x
  end.

(** Digits of a number, and of a fraction without its trailing zeros. *)
Definition digits_text (n : Z) : string := NilZero.string_of_uint (N.to_uint (Z.to_N n)).
Definition digit_char (d : Z) : ascii := ascii_of_N (Z.to_N (48 + d)).
Definition fraction_text (r : Z) : string :=
  let k := if r mod 1000 =? 0 then 1%nat else if r mod 100 =? 0 then 2%nat else if r mod 10 =? 0 then 3%nat else 4%nat in
  String.string_of_list_ascii
    (List.map digit_char (take k [r / 1000 mod 10; r / 100 mod 10; r / 10 mod 10; r mod 10])).
Definition decimal_text (s : bool) (n : Z) : string :=
  (if s then "-" else "") +:+ digits_text (n / 10000) +:+ "." +:+ fraction_text (n mod 10000).
(** [str(round(x, 4))].  From 10^12 on CPython prints fewer decimals; such a text is no
    score either way. *)
Definition score_text (x : float) : string :=
  match x with
  | S754_nan => "nan"
  | S754_infinity s => if s then "-inf" else "inf"
  | _ => match ten_thousandths x with Some (s, n) => decimal_text s n | None => "nan" end
  end.

(** [f"{x:.4f}"] *)
Definition fixed4 (x : float) : string :=
  match ten_thousandths x with
  | Some (s, n) =>
      (if s then "-" else "") +:+ digits_text (n / 10000) +:+ "." +:+
      String.string_of_list_ascii (List.map digit_char [n / 1000 mod 10; n / 100 mod 10; n / 10 mod 10; n mod 10])
  | None => score_text x
  end.

(** ** [float(text)] *)

Definition is_digit (c : ascii) : bool := (48 <=? Z.of_N (N_of_ascii c)) && (Z.of_N (N_of_ascii c) <=? 57).

(** A run of digits, in which underscores may separate digits: its value, its
    length and the rest of the text; [after] says whether a digit precedes. *)
Fixpoint read_digits (after : bool) (acc k : Z) (l : list ascii) : Z * Z * list ascii :=
  match l with
  | [] => (acc, k, [])
  | c :: l' =>
      if is_digit c then read_digits true (10 * acc + (Z.of_N (N_of_ascii c) - 48)) (k + 1) l'
      else if bool_decide (c = "_"%char) && after && match l' with d :: _ => is_digit d | [] => false end
           then read_digits false acc k l'
           else (acc, k, l)
  end.

Definition read_sign (l : list ascii) : bool * list ascii :=
  match l with
  | c :: l' => if bool_decide (c = "-"%char) then (true, l') else if bool_decide (c = "+"%char) then (false, l') else (false, l)
  | [] => (false, [])
  end.

(** The exponent part, which ends the text. *)
Definition read_exponent (l : list ascii) : option Z :=
  match l with
  | [] => Some 0
  | c :: l' =>
      if bool_decide (c = "e"%char) then
        let '(s, l1) := read_sign l' in
        match read_digits false 0 0 l1 with
        | (e, k, []) => if 0 <? k then Some (if s then - e else e) else None
        | _ => None
        end
      else None
  end.

Definition read_number (l : list ascii) : option float :=
  let '(m, k, l1) := read_digits false 0 0 l in
  let '(m, f, k, l2) :=
    match l1 with
    | c :: l' =>
        if bool_decide (c = "."%char) then let '(m', f, l2) := read_digits false m 0 l' in (m', f, k + f, l2)
        else (m, 0, k, l1)
    | [] => (m, 0, k, [])
    end in
  if 0 <? k then e ← read_exponent l2; Some (of_decimal m (e - f)) else None.

(** [float(value)]; [None] is a [ValueError]. *)
Definition py_float (value : string) : option float :=
  let '(s, l) := read_sign (List.map lower_char (strip_list (String.list_ascii_of_string value))) in
  x ← (if decide (l = String.list_ascii_of_string "inf") then Some (S754_infinity false)
       else if decide (l = String.list_ascii_of_string "infinity") then Some (S754_infinity false)
       else if decide (l = String.list_ascii_of_string "nan") then Some S754_nan
       else read_number l);
  Some (if s then fopp x else x).

Example float_texts :
  List.map py_float ["0.85"; " +1_0.5e-1 "; ".5"; "1."; "-Infinity"; "1__0"; "_1"; "1e"; "."; "0x1"]%string =
  [Some (decimal 85 2); Some (decimal 105 2); Some (decimal 5 1); Some (of_Z 1); Some (S754_infinity true);
   None; None; None; None; None].
Proof. vm_compute. reflexivity. Qed.
Example score_texts :
  List.map score_text [decimal 5 1; of_Z 1; decimal 12345 5; decimal 99996 5; fopp (decimal 1 5); of_Z 12; S754_nan] =
  ["0.5"; "1.0"; "0.1235"; "1.0"; "-0.0"; "12.0"; "nan"]%string.
Proof. vm_compute. reflexivity. Qed.
