(* ===== verification/FloatFacts.v ===== *)
(** * Facts on binary64 rounding

    SpecFloat defines the rounding of an integer times a power of two as shifts of
    its mantissa.  Here: the result of a rounding is a valid double whose magnitude
    exceeds that of the argument by at most the last carry, and a number at most one
    is not rounded above one.  Hence quotients [p / q] with [p <= q], and roundings
    of values of the unit interval to four decimals, stay in the unit interval. *)
From Stdlib Require Import ZArith Lia Ascii ssreflect SpecFloat DecimalString DecimalN.
From stdpp Require Import base gmap strings list.
From S2P Require Import Prelude Constants Float64 PyFloat.

#[local] Open Scope Z_scope.

(** ** Digits and shifts *)

Definition digits (m : positive) : Z := Zpos (digits2_pos m).

Lemma digits_bounds m : 2 ^ (digits m - 1) <= Zpos m < 2 ^ digits m.
Proof.
  unfold digits. induction m as [m IH|m IH|]; cbn [digits2_pos]; [| |done].
  all: rw Pos2Z.inj_succ; set (d := Zpos (digits2_pos m)) in *; assert (0 < d) by done.
  all: replace (Z.succ d - 1) with (Z.succ (d - 1)) by lia; rewrite !Z.pow_succ_r; lia.
Qed.
Lemma digits_pos m : 0 < digits m.
Proof. done. Qed.

Lemma digits_unique m d : 2 ^ (d - 1) <= Zpos m < 2 ^ d -> digits m = d.
Proof.
  intros [L U]. pose proof (digits_bounds m) as [L' U'].
  assert (0 <= d) by (destruct (Z_lt_dec d 0); [rewrite (Z.pow_neg_r 2 d) in U; lia|lia]).
  pose proof (Z.le_lt_trans _ _ _ L U') as A. pose proof (Z.le_lt_trans _ _ _ L' U) as B.
  apply Z.pow_lt_mono_r_iff in A; [|done..]. apply Z.pow_lt_mono_r_iff in B; [|done..]. lia.
Qed.

Definition record (m : Z) : shr_record := shr_record_of_loc m loc_Exact.

Lemma shr_1_m r : 0 <= shr_m r -> shr_m (shr_1 r) = shr_m r / 2.
Proof.
  destruct r as [m r s]. cbn. destruct m as [|[p|p|]|]; cbn; [done| | |done|lia]; intros _; rewrite -Z.div2_div; done.
Qed.
Lemma pow2_xO p : 2 ^ Zpos p~0 = 2 ^ Zpos p * 2 ^ Zpos p.
Proof. change (Zpos p~0) with (2 * Zpos p). apply Z.pow_twice_r. Qed.
Lemma pow2_xI p : 2 ^ Zpos p~1 = 2 * (2 ^ Zpos p * 2 ^ Zpos p).
Proof. change (Zpos p~1) with (Z.succ (Zpos p~0)). rewrite Z.pow_succ_r; [done|]. by rewrite pow2_xO. Qed.
Lemma iter_shr_1_m p : forall r, 0 <= shr_m r -> shr_m (SpecFloat.iter_pos shr_1 p r) = shr_m r / 2 ^ Zpos p.
Proof.
  induction p as [p IH|p IH|]; intros r P; cbn [SpecFloat.iter_pos].
  - assert (P1 : 0 <= shr_m (shr_1 r)) by (rewrite (shr_1_m r P); apply Z.div_pos; lia).
    assert (P2 : 0 <= shr_m (SpecFloat.iter_pos shr_1 p (shr_1 r))) by (rewrite (IH _ P1); apply Z.div_pos; lia).
    rewrite (IH _ P2) (IH _ P1) (shr_1_m r P).
    rewrite !Z.div_div; try lia. by rewrite pow2_xI Z.mul_assoc.
  - assert (P1 : 0 <= shr_m (SpecFloat.iter_pos shr_1 p r)) by (rewrite (IH _ P); apply Z.div_pos; lia).
    rewrite (IH _ P1) (IH _ P) Z.div_div; try lia. by rewrite pow2_xO.
  - by rewrite (shr_1_m r P).
Qed.
(** Shifting out zeros is exact. *)
Lemma iter_shr_1_exact p : forall c, 0 <= c -> SpecFloat.iter_pos shr_1 p (record (2 ^ Zpos p * c)) = record c.
Proof.
  assert (S1 : forall c, 0 <= c -> shr_1 (record (2 * c)) = record c) by (intros [|c|c]; [done|done|lia]).
  induction p as [p IH|p IH|]; intros c P; cbn [SpecFloat.iter_pos].
  - replace (2 ^ Zpos p~1 * c) with (2 * (2 ^ Zpos p * (2 ^ Zpos p * c))).
    2:{ rewrite pow2_xI. lia. }
    rewrite S1; try lia. rewrite !IH; try lia. done.
  - replace (2 ^ Zpos p~0 * c) with (2 ^ Zpos p * (2 ^ Zpos p * c)) by (rewrite pow2_xO; lia).
    rewrite !IH; try lia. done.
  - by apply S1.
Qed.

Abbreviation efmin := (-1074)%Z.
Lemma fexp_max e : fexp prec emax e = Z.max (e - 53) efmin.
Proof. done. Qed.

(** The shift that brings a mantissa to at most 53 bits. *)
Definition excess (m e : Z) : Z := Z.max 0 (fexp prec emax (Zdigits2 m + e) - e).
Lemma shr_fexp_spec m e l : 0 <= m ->
  shr_m (shr_fexp prec emax m e l).1 = m / 2 ^ excess m e /\ (shr_fexp prec emax m e l).2 = e + excess m e.
Proof.
  intros P. assert (R : shr_m (shr_record_of_loc m l) = m) by by destruct l as [|[]].
  unfold shr_fexp, excess. destruct (fexp prec emax (Zdigits2 m + e) - e) as [|n|n]; cbn [shr fst snd].
  - rewrite R Z.max_id Z.pow_0_r Z.div_1_r Z.add_0_r. done.
  - rewrite iter_shr_1_m R //.
  - rewrite R Z.pow_0_r Z.div_1_r Z.add_0_r. done.
Qed.

Lemma round_nearest_even_cases m l : round_nearest_even m l = m \/ round_nearest_even m l = m + 1.
Proof. destruct l as [|[]]; cbn; [auto| |auto..]. destruct (Z.even m); auto. Qed.

(** A rounding of a number of sign [s] below [2^d]: a valid double of that sign, at most
    [2^d], and infinite only if [d] is at least 1024. *)
Definition rounded (s : bool) (d : Z) (x : float) : Prop :=
  match x with
  | S754_zero s' => s' = s
  | S754_finite s' m e =>
      s' = s /\ bounded prec emax m e = true /\
      (digits m + e <= d \/ digits m + e = d + 1 /\ Zpos m = 2 ^ (digits m - 1))
  | S754_infinity s' => s' = s /\ 1024 <= d
  | S754_nan => False
  end.

(** The end of a rounding: the mantissa [q] has been rounded at exponent [e]. *)
Definition finish_rounding (s : bool) (q e : Z) : float :=
  let '(r, e'') := shr_fexp prec emax q e loc_Exact in
  match shr_m r with
  | Z0 => S754_zero s
  | Zpos m => if Z.leb e'' (emax - prec) then S754_finite s m e'' else S754_infinity s
  | _ => S754_nan
  end.
Lemma binary_round_aux_eq s m e l :
  binary_round_aux prec emax s m e l =
  finish_rounding s (round_nearest_even (shr_m (shr_fexp prec emax m e l).1) (loc_of_shr_record (shr_fexp prec emax m e l).1))
    (shr_fexp prec emax m e l).2.
Proof. unfold binary_round_aux, finish_rounding. by destruct (shr_fexp prec emax m e l) as [r e']. Qed.

Lemma finish_rounding_spec s q e d : efmin <= e -> d <= e + 53 -> (e = efmin \/ d = e + 53) -> e <= d ->
  (q = 0 \/ 2 ^ (d - e - 1) <= q < 2 ^ (d - e) \/ q = 2 ^ (d - e)) ->
  rounded s d (finish_rounding s q e).
Proof.
  intros E D1 ED D2 Q.
  assert (P : 0 <= q) by (destruct Q as [-> | [[L _] | ->]]; [done|pose proof (Z.pow_nonneg 2 (d - e - 1)); lia|by apply Z.pow_nonneg]).
  unfold finish_rounding. destruct (shr_fexp_spec q e loc_Exact P) as [M X]. destruct (shr_fexp prec emax q e loc_Exact) as [r e''].
  cbn [fst snd] in M, X. subst e''. rewrite M. clear M r. destruct q as [|q|q]; [|clear P|lia].
  { done. }
  unfold excess. cbn [Zdigits2]. change (Zpos (digits2_pos q)) with (digits q). rewrite fexp_max.
  destruct Q as [|Q]; [done|].
  assert (Q' : digits q = d - e /\ Zpos q < 2 ^ (d - e) \/ digits q = d - e + 1 /\ Zpos q = 2 ^ (d - e)).
  { destruct Q as [Q|Q]; [left; split; [by apply digits_unique|lia]|right; split; [|done]].
    apply digits_unique. rewrite Q. replace (d - e + 1 - 1) with (d - e) by lia. split; [lia|].
    apply Z.pow_lt_mono_r; lia. }
  clear Q. destruct Q' as [[G Q]|[G Q]]; rewrite G.
  - replace (Z.max 0 _) with 0 by lia. rewrite Z.pow_0_r Z.div_1_r Z.add_0_r.
    destruct (Z.leb_spec e (emax - prec)) as [L|L]; [|split; [done|change (emax - prec) with 971 in L; lia]]. split; [done|]. split; [|lia].
    unfold bounded, canonical_mantissa. change (Zpos (digits2_pos q)) with (digits q). rewrite G fexp_max.
    apply andb_true_intro. split; [apply Z.eqb_eq; lia|by apply Z.leb_le].
  - destruct (decide (d = e + 53)) as [->|N].
    + replace (Z.max 0 _) with 1 by lia. rewrite Q. replace (e + 53 - e) with 53 by lia.
      change (2 ^ 53 / 2 ^ 1) with (Zpos (2 ^ 52)%positive). cbn iota.
      destruct (Z.leb_spec (e + 1) (emax - prec)) as [L|L]; [|split; [done|change (emax - prec) with 971 in L; lia]].
      assert (G' : digits (2 ^ 52)%positive = 53) by done.
      split; [done|]. split; [|rewrite G'; right; split; [lia|done]].
      unfold bounded, canonical_mantissa. change (Zpos (digits2_pos (2 ^ 52)%positive)) with 53. rewrite fexp_max.
      apply andb_true_intro. split; [apply Z.eqb_eq; lia|by apply Z.leb_le].
    + destruct ED as [->|]; [|done]. replace (Z.max 0 _) with 0 by lia. rewrite Z.pow_0_r Z.div_1_r Z.add_0_r.
      destruct (Z.leb_spec efmin (emax - prec)) as [L|L]; [|split; [done|change (emax - prec) with 971 in L; lia]]. split; [done|]. split; [|right; split; [lia|]].
      * unfold bounded, canonical_mantissa. change (Zpos (digits2_pos q)) with (digits q). rewrite G fexp_max.
        apply andb_true_intro. split; [apply Z.eqb_eq; lia|by apply Z.leb_le].
      * rewrite G Q. f_equal. lia.
Qed.

Lemma binary_round_aux_rounded s m e l : e <= fexp prec emax (digits m + e) ->
  rounded s (Z.max (digits m + e) efmin) (binary_round_aux prec emax s (Zpos m) e l).
Proof.
  intros F. rewrite binary_round_aux_eq. destruct (shr_fexp_spec (Zpos m) e l ltac:(lia)) as [M X].
  assert (N : excess (Zpos m) e = fexp prec emax (digits m + e) - e) by (unfold excess; change (Zdigits2 (Zpos m)) with (digits m); lia).
  rewrite X M N. clear X M. set (r := loc_of_shr_record _). clearbody r. clear N. rewrite fexp_max in F |- *.
  set (D := digits m + e) in *. set (e1 := Z.max (D - 53) efmin) in *. replace (e + (e1 - e)) with e1 by lia.
  set (d := Z.max D efmin). set (q := Zpos m / 2 ^ (e1 - e)).
  assert (U : 0 <= q < 2 ^ (d - e1)).
  { pose proof (digits_bounds m) as [_ U]. assert (P : 0 < 2 ^ (e1 - e)) by (apply Z.pow_pos_nonneg; lia). split; [by apply Z.div_pos|].
    apply Z.div_lt_upper_bound; [done|]. rewrite -Z.pow_add_r; try lia.
    eapply Z.lt_le_trans; [exact U|]. apply Z.pow_le_mono_r; lia. }
  assert (L : d - e1 = 0 \/ 2 ^ (d - e1 - 1) <= q).
  { destruct (Z_le_dec efmin (D - 1)) as [H|H]; [right|left; lia].
    pose proof (digits_bounds m) as [L _]. apply Z.div_le_lower_bound; [apply Z.pow_pos_nonneg; lia|].
    rewrite -Z.pow_add_r; try lia. eapply Z.le_trans; [|exact L]. apply Z.pow_le_mono_r; lia. }
  apply finish_rounding_spec; [lia..|].
  destruct L as [L|L]; [rewrite L in U |- *; replace q with 0 by lia|]; destruct (round_nearest_even_cases q r) as [E|E].
  all: try (destruct (round_nearest_even_cases 0 r) as [-> | ->]; auto; fail).
  all: rewrite E; lia.
Qed.

Lemma shl_align_spec m e e' :
  let a := shl_align m e e' in a.2 = Z.min e e' /\ Zpos a.1 = Zpos m * 2 ^ (e - Z.min e e').
Proof.
  unfold shl_align. destruct (e' - e) as [|d|d] eqn:D; cbn [fst snd].
  1,2: replace (Z.min e e') with e by lia; by rewrite Z.sub_diag Z.mul_1_r.
  replace (Z.min e e') with e' by lia. split; [done|]. replace (e - e') with (Zpos d) by lia.
  clear D. induction d as [|d IH] using Pos.peano_ind; [cbn; lia|].
  rewrite Pos.iter_succ Pos2Z.inj_succ Z.pow_succ_r; [done|]. rewrite Pos2Z.inj_xO IH. lia.
Qed.

Lemma binary_round_rounded s m e : rounded s (Z.max (digits m + e) efmin) (binary_round prec emax s m e).
Proof.
  unfold binary_round. change (Zpos (digits2_pos m)) with (digits m). set (e1 := fexp prec emax (digits m + e)).
  pose proof (shl_align_spec m e e1) as H. destruct (shl_align m e e1) as [mz ez]. cbn [fst snd] in H. destruct H as [-> M].
  assert (G : digits mz + Z.min e e1 = digits m + e).
  { assert (digits mz = digits m + (e - Z.min e e1)); [|lia]. apply digits_unique. pose proof (digits_bounds m) as [L U]. rewrite M.
    assert (P : 0 < 2 ^ (e - Z.min e e1)) by (apply Z.pow_pos_nonneg; lia). pose proof (digits_pos m).
    replace (digits m + (e - Z.min e e1) - 1) with (digits m - 1 + (e - Z.min e e1)) by lia.
    rewrite (Z.pow_add_r 2 (digits m - 1)); try lia. rewrite (Z.pow_add_r 2 (digits m)); try lia.
    split; [by apply Z.mul_le_mono_pos_r|by apply Z.mul_lt_mono_pos_r]. }
  rewrite -G. apply binary_round_aux_rounded. rewrite G. fold e1. lia.
Qed.
Lemma binary_normalize_rounded z e s : z <> 0 ->
  rounded (z <? 0) (Z.max (Z.log2 (Z.abs z) + 1 + e) efmin) (binary_normalize prec emax z e s).
Proof.
  assert (G : forall m, Z.log2 (Zpos m) + 1 = digits m).
  { intros m. symmetry. apply digits_unique. pose proof (Z.log2_spec (Zpos m) ltac:(lia)) as [L U].
    by rewrite Z.add_simpl_r Z.add_1_r. }
  destruct z as [|m|m]; [done| |]; intros _; cbn [Z.abs binary_normalize]; rewrite G; apply binary_round_rounded.
Qed.

(** ** Validity of results *)

Abbreviation valid := (valid_binary prec emax).

Lemma rounded_valid s d x : rounded s d x -> valid x = true.
Proof. destruct x; [done..|]. by intros (_ & V & _). Qed.
Lemma binary_normalize_valid z e s : valid (binary_normalize prec emax z e s) = true.
Proof. destruct (decide (z = 0)) as [->|Z]; [done|]. by eapply rounded_valid, binary_normalize_rounded. Qed.
Lemma of_Z_valid n : valid (of_Z n) = true.
Proof. apply binary_normalize_valid. Qed.
(** [1.0 - y] of any [y]. *)
Lemma fsub_one_valid y : valid (fsub (of_Z 1) y) = true.
Proof.
  unfold fsub. change (of_Z 1) with (S754_finite false 4503599627370496 (-52)).
  destruct y as [s'|s'| |s' m' e']; cbn [SFsub]; [done..|]. apply binary_normalize_valid.
Qed.
Lemma clamp01_valid x : valid x = true -> valid (clamp01 x) = true.
Proof. intros X. unfold clamp01, fmax, fmin. by repeat case_match; try apply of_Z_valid. Qed.

(** ** The unit interval *)

Lemma valid_exponent s m e : valid (S754_finite s m e) = true -> e = Z.max (digits m + e - 53) efmin.
Proof.
  cbn. unfold bounded, canonical_mantissa. intros [C%Z.eqb_eq _]%andb_prop.
  change (Zpos (digits2_pos m)) with (digits m) in C. rewrite fexp_max in C. lia.
Qed.
Lemma compare_cont_le m n : match Pos.compare_cont Eq m n with Gt => false | _ => true end = true <-> Zpos m <= Zpos n.
Proof.
  change (Pos.compare_cont Eq m n) with (Pos.compare m n). destruct (Pos.compare_spec m n); split; intros; try done; lia.
Qed.
(** A nonnegative number below or equal to one: its digits end after the point. *)
Lemma in_unit_digits m e : valid (S754_finite false m e) = true ->
  in_unit (S754_finite false m e) = true <-> digits m + e <= 0 \/ digits m + e = 1 /\ Zpos m = 2 ^ (digits m - 1).
Proof.
  intros V%valid_exponent. unfold in_unit. change (of_Z 0) with (S754_zero false).
  change (of_Z 1) with (S754_finite false 4503599627370496 (-52)). cbn [fleb SFleb SFcompare].
  unfold fleb, SFleb. cbn [SFcompare andb].
  pose proof (digits_bounds m) as [L U]. pose proof (digits_pos m).
  destruct (Z.compare_spec e (-52)) as [->|C|C].
  - assert (G : digits m = 53) by lia. rewrite G in L |- *.
    rewrite compare_cont_le. replace (2 ^ (53 - 1)) with 4503599627370496 in L |- * by done. lia.
  - split; [intros _; left; lia|done].
  - split; [done|intros; lia].
Qed.
Lemma in_unit_zero s : in_unit (S754_zero s) = true.
Proof. by destruct s. Qed.
Lemma in_unit_cases x : in_unit x = true -> (exists s, x = S754_zero s) \/ (exists m e, x = S754_finite false m e).
Proof. destruct x as [s|[]| |[] m e]; try done; eauto. Qed.

(** Roundings of numbers at most one. *)
Lemma rounded_in_unit d x : d <= 0 -> rounded false d x -> in_unit x = true.
Proof.
  intros D R. destruct x as [s|s| |s m e]; [by destruct s|destruct R; lia|done|].
  destruct R as (-> & B & R). apply in_unit_digits; [exact B|lia].
Qed.

Lemma shr_fexp_exact m e c : 0 <= c -> m = 2 ^ excess m e * c ->
  shr_fexp prec emax m e loc_Exact = (record c, e + excess m e).
Proof.
  intros P M. unfold shr_fexp. unfold excess in *. cbn [shr_record_of_loc].
  destruct (fexp prec emax (Zdigits2 m + e) - e) as [|n|n]; cbn [shr] in *.
  1,3: rewrite Z.add_0_r; rewrite Z.pow_0_r Z.mul_1_l in M; by subst.
  replace (Z.max 0 (Zpos n)) with (Zpos n) in M |- * by lia. rewrite M.
  change (Build_shr_record (2 ^ Zpos n * c) false false) with (record (2 ^ Zpos n * c)). by rewrite iter_shr_1_exact.
Qed.
Lemma binary_normalize_one j : 53 <= j -> binary_normalize prec emax (2 ^ j) (- j) false = of_Z 1.
Proof.
  intros J. destruct (2 ^ j) as [|m|m] eqn:M; [by pose proof (Z.pow_pos_nonneg 2 j); lia| |by pose proof (Z.pow_pos_nonneg 2 j); lia].
  assert (G : digits m = j + 1). { apply digits_unique. rewrite -M. rewrite Z.add_simpl_r. split; [done|apply Z.pow_lt_mono_r; lia]. }
  cbn [binary_normalize]. unfold binary_round. change (Zpos (digits2_pos m)) with (digits m).
  rewrite G fexp_max. replace (Z.max (j + 1 + - j - 53) efmin) with (-52) by lia.
  pose proof (shl_align_spec m (- j) (-52)) as H. destruct (shl_align m (- j) (-52)) as [mz ez]. cbn [fst snd] in H.
  replace (Z.min (- j) (-52)) with (- j) in H by lia. rewrite Z.sub_diag Z.mul_1_r in H. destruct H as [-> [= ->]].
  assert (X : excess (Zpos m) (- j) = j - 52).
  { unfold excess. change (Zdigits2 (Zpos m)) with (digits m). rewrite G fexp_max. lia. }
  unfold binary_round_aux. rewrite (shr_fexp_exact (Zpos m) (- j) (2 ^ 52)); [done| |].
  - rewrite X -M -Z.pow_add_r; try lia. f_equal. lia.
  - rewrite X. replace (- j + (j - 52)) with (-52) by lia. reflexivity.
Qed.

(** [n / 2^j] with [n <= 2^j]. *)
Lemma binary_normalize_unit n j : 0 <= n <= 2 ^ j -> 53 <= j -> in_unit (binary_normalize prec emax n (- j) false) = true.
Proof.
  intros [N L] J. destruct (decide (n = 0)) as [->|Z]; [done|].
  destruct (decide (n = 2 ^ j)) as [->|NE]; [by rewrite binary_normalize_one|].
  assert (G : Z.log2 n < j) by (apply Z.log2_lt_pow2; lia).
  pose proof (binary_normalize_rounded n (- j) false Z) as R. rewrite Z.abs_eq // in R.
  replace (n <? 0) with false in R by lia. eapply rounded_in_unit; [|exact R]. lia.
Qed.

(** A quotient of integers, the first at most the second. *)
Lemma of_ratio_unit p q : 0 <= p <= q -> 0 < q -> in_unit (of_ratio p q) = true.
Proof.
  intros [P L] Q. unfold of_ratio. pose proof (Z.log2_nonneg q). set (k := 64 + Z.log2 q). assert (K : 64 <= k) by lia. clearbody k.
  assert (K2 : 0 < 2 ^ k) by (apply Z.pow_pos_nonneg; lia).
  apply binary_normalize_unit; [|lia]. rewrite Z.add_1_r Z.pow_succ_r; [lia|].
  assert (A : 0 <= p * 2 ^ k / q) by (apply Z.div_pos; nia).
  pose proof (Z.div_mod (p * 2 ^ k) q ltac:(lia)) as D. pose proof (Z.mod_pos_bound (p * 2 ^ k) q Q) as B.
  split; [case_match; lia|]. destruct (Z.eqb_spec (p * 2 ^ k mod q) 0) as [E|E]; nia.
Qed.
Lemma of_ratio_valid p q : valid (of_ratio p q) = true.
Proof. apply binary_normalize_valid. Qed.

(** ** Clamping and rounding to four decimals *)

Lemma clamp01_unit x : in_unit (clamp01 x) = true.
Proof.
  assert (LE : forall a b, fltb a b = true -> fleb a b = true).
  { intros a b. unfold fltb, fleb, SFltb, SFleb. by destruct (SFcompare a b) as [[]|]. }
  unfold clamp01, fmax, fmin, in_unit. destruct (fltb x (of_Z 1)) eqn:L; [|done].
  destruct (fltb (of_Z 0) x) eqn:G; [|done]. by rewrite (LE _ _ L) (LE _ _ G).
Qed.

Lemma round_half_even_unit m d : 0 <= m <= d -> 0 < d -> 0 <= round_half_even (m * 10000) d <= 10000.
Proof.
  intros M D. unfold round_half_even. pose proof (Z.div_mod (m * 10000) d ltac:(lia)) as E.
  pose proof (Z.mod_pos_bound (m * 10000) d D) as B. set (q := m * 10000 / d) in *. set (r := m * 10000 mod d) in *.
  assert (Q : 0 <= q <= 10000) by nia. assert (T : q = 10000 -> r = 0) by nia.
  destruct (Z.compare_spec (2 * r) d); [destruct (Z.even q)| |]; nia.
Qed.

(** The ten-thousandths of a number of the unit interval; only zero may be negative. *)
Lemma ten_thousandths_unit x : valid x = true -> in_unit x = true ->
  exists s n, ten_thousandths x = Some (s, n) /\ 0 <= n <= 10000 /\ (s = true -> n = 0).
Proof.
  intros V U. destruct (in_unit_cases x U) as [[s ->]|[m [e ->]]]; [by exists s, 0|].
  pose proof (valid_exponent _ _ _ V) as X. apply (in_unit_digits m e V) in U.
  pose proof (digits_bounds m) as [_ B]. pose proof (digits_pos m).
  exists false. cbn [ten_thousandths]. replace (0 <=? e) with false by lia. eexists. split; [reflexivity|]. split; [|done].
  apply round_half_even_unit; [|apply Z.pow_pos_nonneg; lia]. split; [lia|].
  destruct U as [U|[U ->]]; [|apply Z.pow_le_mono_r; lia].
  apply Z.lt_le_incl. eapply Z.lt_le_trans; [exact B|]. apply Z.pow_le_mono_r; lia.
Qed.
Lemma round4_unit x : valid x = true -> in_unit x = true -> in_unit (round4 x) = true.
Proof.
  intros V U. destruct (ten_thousandths_unit x V U) as (s & n & E & B & Z). unfold round4. rewrite E.
  destruct s; [by rewrite (Z eq_refl)|]. by apply of_ratio_unit.
Qed.
Lemma round4_valid x : valid x = true -> valid (round4 x) = true.
Proof.
  intros V. unfold round4. destruct (ten_thousandths x) as [[s n]|]; [|done].
  destruct s; [|apply of_ratio_valid]. pose proof (of_ratio_valid n 10000) as H. by destruct (of_ratio n 10000).
Qed.

(** ** Reading a rounded score back *)

Lemma digit_char_code d : 0 <= d < 10 -> is_digit (digit_char d) = true /\ Z.of_N (N_of_ascii (digit_char d)) - 48 = d.
Proof.
  intros B. assert (C : d = 0 \/ d = 1 \/ d = 2 \/ d = 3 \/ d = 4 \/ d = 5 \/ d = 6 \/ d = 7 \/ d = 8 \/ d = 9) by lia.
  by repeat destruct C as [->|C]; [..|rewrite C].
Qed.
Lemma digit_plain c : is_digit c = true -> isspace c = false /\ lower_char c = c.
Proof. by destruct c as [[] [] [] [] [] [] [] []]. Qed.
Lemma strip_list_plain l : Forall (fun c => isspace c = false) l -> strip_list l = l.
Proof.
  intros F. unfold strip_list.
  assert (L : lstrip_list l = l) by (apply lstrip_list_fix; intros c l' ->; by inversion F).
  rewrite L lstrip_list_fix; [|by rewrite rev_involutive]. intros c l' E.
  apply (Forall_forall (fun c => isspace c = false) l); [done|].
  apply list_elem_of_In, in_rev. rewrite E. by left.
Qed.

Definition digits_value (acc : Z) (ds : list Z) : Z := foldl (fun a d => 10 * a + d) acc ds.
Lemma digits_value_bounds ds : forall acc, Forall (fun d => 0 <= d < 10) ds -> 0 <= acc ->
  acc * 10 ^ Z.of_nat (length ds) <= digits_value acc ds < (acc + 1) * 10 ^ Z.of_nat (length ds).
Proof.
  induction ds as [|d ds IH]; intros acc F A; [cbn; lia|]. inversion_clear F as [|? ? D F'].
  pose proof (IH (10 * acc + d) F' ltac:(lia)) as H. cbn [digits_value foldl length]. unfold digits_value in H.
  rewrite Nat2Z.inj_succ Z.pow_succ_r; [lia|]. assert (0 < 10 ^ Z.of_nat (length ds)) by (apply Z.pow_pos_nonneg; lia). nia.
Qed.
Lemma read_digits_all ds : forall after acc k, Forall (fun d => 0 <= d < 10) ds ->
  read_digits after acc k (List.map digit_char ds) = (digits_value acc ds, k + Z.of_nat (length ds), []).
Proof.
  induction ds as [|d ds IH]; intros after acc k F; [cbn; by rewrite Z.add_0_r|]. inversion_clear F as [|? ? D F'].
  destruct (digit_char_code d D) as [C V]. cbn [List.map read_digits]. rewrite C V IH //. cbn [length digits_value foldl].
  do 2 f_equal. lia.
Qed.

(** [float("0.ds")] *)
Lemma py_float_fraction ds : Forall (fun d => 0 <= d < 10) ds -> (0 < length ds)%nat ->
  py_float ("0." +:+ String.string_of_list_ascii (List.map digit_char ds))%string =
  Some (of_ratio (digits_value 0 ds) (10 ^ Z.of_nat (length ds))).
Proof.
  intros F N. unfold py_float.
  assert (P : Forall (fun c => isspace c = false /\ lower_char c = c) (List.map digit_char ds)).
  { apply Forall_fmap, (Forall_impl _ _ _ F). intros d D. apply digit_plain. by destruct (digit_char_code d D). }
  replace (String.list_ascii_of_string ("0." +:+ String.string_of_list_ascii (List.map digit_char ds))%string)
    with ("0"%char :: "."%char :: List.map digit_char ds).
  2:{ unfold String.app. cbn. by rewrite String.list_ascii_of_string_of_list_ascii. }
  rewrite strip_list_plain; [constructor; [done|]; constructor; [done|]; exact (Forall_impl _ _ _ P (fun c => @proj1 _ _))|].
  cbn [List.map]. replace (List.map lower_char (List.map digit_char ds)) with (List.map digit_char ds).
  2:{ clear F N. induction P as [|c l [_ E] _ IH]; [done|]. cbn [List.map]. by rewrite E -IH. }
  change (lower_char "0") with "0"%char. change (lower_char ".") with "."%char.
  set (l := _ :: _ :: _). change (read_sign l) with (false, l). cbv beta iota.
  assert (NI : forall t c, head (String.list_ascii_of_string t) = Some c -> c <> "0"%char -> l <> String.list_ascii_of_string t).
  { intros t c H C E. rewrite -E in H. by injection H as <-. }
  do 3 (destruct (decide _) as [E|_]; [exfalso; revert E; by eapply NI|]).
  unfold l, read_number. cbn [read_digits]. change (is_digit "0") with true. change (is_digit ".") with false.
  rewrite bool_decide_eq_false_2 //. cbn [andb]. cbv beta iota.
  rewrite bool_decide_eq_true_2 // read_digits_all //. cbv beta iota.
  replace (0 <? _) with true by (symmetry; apply Z.ltb_lt; lia). cbn [read_exponent mbind option_bind].
  change (10 * 0 + (Z.of_N (N_of_ascii "0") - 48)) with 0. f_equal. unfold of_decimal.
  replace (0 <=? _) with false by (symmetry; apply Z.leb_gt; lia). f_equal. f_equal. lia.
Qed.

Lemma fraction_text_digits r : 0 <= r < 10000 -> exists ds,
  fraction_text r = String.string_of_list_ascii (List.map digit_char ds) /\ Forall (fun d => 0 <= d < 10) ds /\ (0 < length ds)%nat.
Proof.
  intros B. unfold fraction_text. set (k := if r mod 1000 =? 0 then _ else _).
  assert (K : (1 <= k <= 4)%nat) by (unfold k; repeat case_match; lia). clearbody k.
  eexists. split; [reflexivity|]. split; [|rewrite length_take; cbn; lia].
  apply Forall_take. repeat constructor; apply Z.mod_pos_bound; lia.
Qed.

(** A score of the unit interval, stored as text, is read back as a number of the unit interval. *)
Lemma score_text_unit x : valid x = true -> in_unit x = true -> exists y, py_float (score_text x) = Some y /\ in_unit y = true.
Proof.
  intros V U. destruct (ten_thousandths_unit x V U) as (s & n & E & B & Z).
  assert (T : score_text x = decimal_text s n).
  { unfold score_text. rewrite E. by destruct x as [| | |]. }
  rewrite T. destruct (decide (n = 0)) as [->|N0]; [by destruct s; eexists; (split; [reflexivity|])|].
  destruct s; [by rewrite (Z eq_refl) in N0|]. destruct (decide (n = 10000)) as [->|N1]; [by eexists; (split; [reflexivity|])|].
  unfold decimal_text. rewrite Z.div_small; [lia|]. rewrite Z.mod_small; [lia|].
  destruct (fraction_text_digits n ltac:(lia)) as (ds & -> & F & L).
  change ("" +:+ digits_text 0 +:+ "." +:+ ?t)%string with ("0." +:+ t)%string.
  rewrite (py_float_fraction ds F L). eexists. split; [reflexivity|]. pose proof (digits_value_bounds ds 0 F ltac:(lia)).
  apply of_ratio_unit; lia.
Qed.

(** ** Decimal numbers are read back *)

(** A text that does not go on as a number. *)
Definition stops (r : list ascii) : Prop := match r with [] => True | c :: _ => is_digit c = false /\ c <> "_"%char end.
Lemma read_digits_stop after acc k r : stops r -> read_digits after acc k r = (acc, k, r).
Proof. destruct r as [|c r]; [done|]. intros [D N]. cbn. rewrite D bool_decide_eq_false_2 //. Qed.

Lemma read_digits_acc r d : stops r -> forall after acc k, exists n,
  read_digits after (Zpos acc) k (String.list_ascii_of_string (NilEmpty.string_of_uint d) ++ r) = (Zpos (Pos.of_uint_acc d acc), n, r) /\ k <= n.
Proof.
  intros St. induction d as [|d IH|d IH|d IH|d IH|d IH|d IH|d IH|d IH|d IH|d IH]; intros after acc k.
  { exists k. split; [by apply read_digits_stop|lia]. }
  all: cbn [NilEmpty.string_of_uint String.list_ascii_of_string app read_digits].
  all: match goal with |- context [is_digit ?c] => change (is_digit c) with true end; cbn [Pos.of_uint_acc].
  all: match goal with |- context [Zpos (Pos.of_uint_acc _ ?a)] => destruct (IH true a (k + 1)) as (n & E & L) end.
  all: exists n; rewrite -E; split; [|lia]; f_equal; cbn; lia.
Qed.
Lemma read_digits_uint r d : stops r -> forall after k, exists n,
  read_digits after 0 k (String.list_ascii_of_string (NilEmpty.string_of_uint d) ++ r) = (Z.of_N (Pos.of_uint d), n, r) /\
  k <= n /\ (d <> Decimal.Nil -> k < n).
Proof.
  intros St. induction d as [|d IH|d _|d _|d _|d _|d _|d _|d _|d _|d _]; intros after k.
  { exists k. split; [by apply read_digits_stop|done]. }
  all: cbn [NilEmpty.string_of_uint String.list_ascii_of_string app read_digits].
  all: match goal with |- context [is_digit ?c] => change (is_digit c) with true end; cbn [Pos.of_uint].
  { destruct (IH true (k + 1)) as (n & E & L & _). exists n. rewrite -E. split; [f_equal; cbn; lia|lia]. }
  all: match goal with |- context [Z.of_N (Npos (Pos.of_uint_acc ?e ?a))] => destruct (read_digits_acc r e St true a (k + 1)) as (n & E & L) end.
  all: exists n; change (Z.of_N (Npos ?p)) with (Zpos p); rewrite -E; split; [f_equal; cbn; lia|lia].
Qed.
Lemma read_digits_text n r : 0 <= n -> stops r -> exists k,
  read_digits false 0 0 (String.list_ascii_of_string (digits_text n) ++ r) = (n, k, r) /\ 0 < k.
Proof.
  intros P St. unfold digits_text. set (d := N.to_uint (Z.to_N n)).
  assert (V : Z.of_N (Pos.of_uint d) = n).
  { assert (U : Pos.of_uint d = Z.to_N n) by apply DecimalN.Unsigned.of_to. rewrite U Z2N.id //. }
  clearbody d. destruct (read_digits_uint r d St false 0) as (k & E & L & S). rewrite V in E.
  assert (C : d = Decimal.Nil \/ d <> Decimal.Nil) by (destruct d; auto; right; discriminate).
  destruct C as [->|C].
  { exists 1. subst n. split; [|lia]. exact (read_digits_stop true 0 1 r St). }
  exists k. split; [|by apply S].
  replace (NilZero.string_of_uint d) with (NilEmpty.string_of_uint d) by by destruct d. exact E.
Qed.
