(* ===== verification/Json.v ===== *)
(** * JSON values and columns

    A JSON column has three kinds of content: SQL NULL, JSON null and a value.
    [Jsonb A] is [option (option A)] accordingly.  SQLAlchemy's JSON type stores
    Python's [None] as JSON null ([none_as_null] is off by default), and reads
    both nulls back as [None]. *)
From stdpp Require Import base gmap strings list.
From Stdlib Require Import ZArith Ascii ssreflect.
From S2P Require Import Prelude Float64.

#[local] Open Scope Z_scope.

Inductive Json :=
  | JNull
  | JBool (b : bool)
  | JInt (n : Z)
  | JFloat (x : float)
  | JStr (s : string)
  | JArr (l : list Json)
  | JObj (m : list (string * Json)).

(** A JSON object at the top of a column: [dict[str, A]]. *)
Abbreviation Object A := (gmap string A).

Abbreviation Jsonb A := (option (option A)).
(** Binding a Python value to a JSON column, and reading the column. *)
Definition json_bind {A} (v : option A) : Jsonb A := Some v.
Definition json_read {A} (c : Jsonb A) : option A := mjoin c.

(** Python's truth of a value. *)
Definition json_truthy (v : Json) : bool :=
  match v with
  | JNull => false
  | JBool b => b
  | JInt n => negb (n =? 0)
  | JFloat x => negb (feqb x (of_Z 0))
  | JStr s => negb (bool_decide (s = EmptyString))
  | JArr l => match l with [] => false | _ => true end
  | JObj m => match m with [] => false | _ => true end
  end.
(** [d.get(key)] of a dictionary, where a missing key and [null] both give [None]. *)
Definition json_get (key : string) (d : Object Json) : option Json :=
  match d !! key with
  | None | Some JNull => None
  | Some v => Some v
  end.

(** ** What PostgreSQL refuses

    A NUL character is refused in a text and in the texts of a JSON value; NaN and the
    infinities, which Python's encoder writes, are refused in a JSON value. *)
Definition text_storable (s : string) : bool := forallb (fun c => negb (bool_decide (c = Ascii.zero))) (String.list_ascii_of_string s).
Fixpoint json_storable (v : Json) : bool :=
  match v with
  | JFloat x => is_finite x
  | JStr s => text_storable s
  | JArr l => forallb json_storable l
  | JObj m => forallb (fun kv => text_storable kv.1 && json_storable kv.2) m
  | _ => true
  end.
Definition object_storable (d : Object Json) : bool := forallb (fun kv => text_storable kv.1 && json_storable kv.2) (map_to_list d).
Definition floats_storable (d : Object float) : bool := forallb (fun kv => text_storable kv.1 && is_finite kv.2) (map_to_list d).
(** The test of a nullable text, and of a value bound to a JSON column. *)
Definition opt_storable {A} (test : A -> bool) (v : option A) : bool := match v with Some x => test x | None => true end.
