(* ===== verification/JsonText.v ===== *)
(** * Python's json module: [json.dumps] and [json.loads]

    The serializer writes ASCII, escaping everything else, and floats with the
    fewest digits that read back as the same number.  The reader is a recursive
    descent over the characters; its fuel is twice the length of the text, which is
    enough for every text ([read_value_fuel]). *)
From Stdlib Require Import ZArith Lia ssreflect Ascii SpecFloat.
From stdpp Require Import base gmap strings list.
From S2P Require Import Prelude Constants Float64 PyFloat Json.

#[local] Open Scope Z_scope.

Abbreviation chars := String.list_ascii_of_string.
Abbreviation text := String.string_of_list_ascii.
Definition chr (n : Z) : ascii := ascii_of_N (Z.to_N n).
Definition quote : ascii := chr 34.

(** [sep.join(l)] *)
Fixpoint join (sep : string) (l : list string) : string :=
  match l with
  | [] => ""
  | [x] => x
  | x :: l' => x +:+ sep +:+ join sep l'
  end.

(** ** [repr(x)] of a float *)

(** The least [k] from [k0] on with [p / q < 10^k], among the next four. *)
Fixpoint decimal_exponent (n : nat) (k p q : Z) : Z :=
  match n with
  | O => k
  | S n' => if (if 0 <=? k then p <? 10 ^ k * q else p * 10 ^ (- k) <? q) then k else decimal_exponent n' (k + 1) p q
  end.
(** [p / q * 10^s], rounded. *)
Definition scaled (p q s : Z) : Z := if 0 <=? s then round_half_even (p * 10 ^ s) q else round_half_even p (q * 10 ^ (- s)).
(** The shortest decimal of at most [17] digits that reads back as [x = p / q < 10^k]. *)
Fixpoint shortest (fuel : nat) (n : Z) (x : float) (p q k : Z) : Z * Z :=
  let d := scaled p q (n - k) in
  match fuel with
  | O => (d, n)
  | S fuel' =>
      match List.find (fun c => bool_decide (of_decimal c (k - n) = x)) [d; d - 1; d + 1] with
      | Some c => (c, n)
      | None => shortest fuel' (n + 1) x p q k
      end
  end.
Definition zeros (n : Z) : string := text (List.repeat (chr 48) (Z.to_nat n)).
Definition exponent_text (e : Z) : string :=
  (if e <? 0 then "e-" else "e+") +:+ (if Z.abs e <? 10 then "0" else "") +:+ digits_text (Z.abs e).
(** The digits [d], with the decimal point after the first [k]: fixed notation
    from 0.0001 up to 10^16, scientific outside. *)
Definition place_point (d k : Z) : string :=
  let ds := digits_text d in
  let n := len ds in
  let l := chars ds in
  if (-4 <? k) && (k <=? 16) then
    if k <=? 0 then "0." +:+ zeros (- k) +:+ ds
    else if n <=? k then ds +:+ zeros (k - n) +:+ ".0"
    else text (take (Z.to_nat k) l) +:+ "." +:+ text (drop (Z.to_nat k) l)
  else text (take 1 l) +:+ (if 1 <? n then "." +:+ text (drop 1 l) else "") +:+ exponent_text (k - 1).
Definition float_repr (x : float) : string :=
  match x with
  | S754_nan => "NaN"
  | S754_infinity s => if s then "-Infinity" else "Infinity"
  | S754_zero s => if s then "-0.0" else "0.0"
  | S754_finite s m e =>
      let p := if 0 <=? e then Zpos m * 2 ^ e else Zpos m in
      let q := if 0 <=? e then 1 else 2 ^ (- e) in
      let k := decimal_exponent 4 ((Z.log2 p - Z.log2 q - 1) * 30103 / 100000) p q in
      let '(d, n) := shortest 17 1 (S754_finite false m e) p q k in
      (* the digits may have rounded up to the next power of ten *)
      (if s then "-" else "") +:+ place_point d (k + (len (digits_text d) - n))
  end.

(** ** [json.dumps(value)] *)

Definition hex4 (n : Z) : string :=
  let d x := chr (if x <? 10 then 48 + x else 87 + x) in
  text [d (n / 4096 mod 16); d (n / 256 mod 16); d (n / 16 mod 16); d (n mod 16)].
(** [str(uuid)] *)
Fixpoint hex_digits (n : nat) (x : N) : list ascii :=
  match n with
  | O => []
  | S n' => hex_digits n' (x / 16) ++ [let d := Z.of_N (x mod 16) in chr (if d <? 10 then 48 + d else 87 + d)]
  end.
Definition uuid_text (u : N) : string :=
  let h := hex_digits 32 u in
  join "-" [text (take 8 h); text (take 4 (drop 8 h)); text (take 4 (drop 12 h)); text (take 4 (drop 16 h)); text (drop 20 h)].
Definition escape_json (c : ascii) : string :=
  if bool_decide (c = quote) then text [chr 92; quote]
  else if code c =? 92 then text [chr 92; chr 92]
  else if code c =? 10 then text [chr 92; "n"%char]
  else if code c =? 13 then text [chr 92; "r"%char]
  else if code c =? 9 then text [chr 92; "t"%char]
  else if code c =? 12 then text [chr 92; "f"%char]
  else if code c =? 8 then text [chr 92; "b"%char]
  else if in_range 32 126 c then text [c]
  else text [chr 92; "u"%char] +:+ hex4 (code c).
Definition json_string (s : string) : string :=
  text [quote] +:+ foldr (fun c r => escape_json c +:+ r) "" (chars s) +:+ text [quote].
Definition int_text (n : Z) : string := if n <? 0 then "-" +:+ digits_text (- n) else digits_text n.

Fixpoint json_dumps (v : Json) : string :=
  match v with
  | JNull => "null"
  | JBool b => if b then "true" else "false"
  | JInt n => int_text n
  | JFloat x => float_repr x
  | JStr s => json_string s
  | JArr l => "[" +:+ join ", " (List.map json_dumps l) +:+ "]"
  | JObj m => "{" +:+ join ", " (List.map (fun kv => json_string kv.1 +:+ ": " +:+ json_dumps kv.2) m) +:+ "}"
  end.

Example dumped :
  json_dumps (JObj [("a", JArr [JInt (-3); JBool true; JNull]);
                    ("x", JArr [JFloat (decimal 1 1); JFloat (decimal 5 324); JFloat (of_Z (10 ^ 22)); JFloat (of_ratio 1 3)])])%string
  = text (List.map (fun c => if bool_decide (c = "'"%char) then quote else c)
     (chars "{'a': [-3, true, null], 'x': [0.1, 0.0, 1e+22, 0.3333333333333333]}")).
Proof. vm_compute. reflexivity. Qed.

(** ** [json.loads(text)] *)

Definition json_space (c : ascii) : bool := (code c =? 32) || in_range 9 10 c || (code c =? 13).
Fixpoint skip_ws (l : list ascii) : list ascii :=
  match l with
  | c :: l' => if json_space c then skip_ws l' else l
  | [] => []
  end.

(** A keyword at the head of the text. *)
Fixpoint keyword (k l : list ascii) : option (list ascii) :=
  match k, l with
  | [], _ => Some l
  | a :: k', b :: l' => if bool_decide (a = b) then keyword k' l' else None
  | _, [] => None
  end.

Definition hex_value (c : ascii) : option Z :=
  if in_range 48 57 c then Some (code c - 48)
  else if in_range 97 102 c then Some (code c - 87)
  else if in_range 65 70 c then Some (code c - 55) else None.
(** Four hexadecimal digits; characters beyond Latin-1 are outside the model. *)
Definition unicode_escape (l : list ascii) : option (ascii * list ascii) :=
  match l with
  | a :: b :: c :: d :: l' =>
      va ← hex_value a; vb ← hex_value b; vc ← hex_value c; vd ← hex_value d;
      let n := ((va * 16 + vb) * 16 + vc) * 16 + vd in
      if n <? 256 then Some (chr n, l') else None
  | _ => None
  end.
Definition simple_escape (c : ascii) : option ascii :=
  if bool_decide (c = quote) || (code c =? 92) || (code c =? 47) then Some c
  else if bool_decide (c = "n"%char) then Some (chr 10)
  else if bool_decide (c = "r"%char) then Some (chr 13)
  else if bool_decide (c = "t"%char) then Some (chr 9)
  else if bool_decide (c = "f"%char) then Some (chr 12)
  else if bool_decide (c = "b"%char) then Some (chr 8) else None.
(** The rest of a string, up to its closing quote; [n] bounds its length. *)
Fixpoint read_string (n : nat) (acc l : list ascii) : option (string * list ascii) :=
  match n, l with
  | S n', c :: l' =>
      if bool_decide (c = quote) then Some (text (rev acc), l')
      else if code c =? 92 then
        match l' with
        | d :: l'' =>
            if bool_decide (d = "u"%char) then
              match unicode_escape l'' with Some (x, r) => read_string n' (x :: acc) r | None => None end
            else match simple_escape d with Some x => read_string n' (x :: acc) l'' | None => None end
        | [] => None
        end
      else if code c <? 32 then None else read_string n' (c :: acc) l'
  | _, _ => None
  end.
Definition json_text (l : list ascii) : option (string * list ascii) := read_string (length l) [] l.

(** A run of digits: value, length, rest. *)
Fixpoint digits (acc k : Z) (l : list ascii) : Z * Z * list ascii :=
  match l with
  | c :: l' => if is_digit c then digits (10 * acc + (code c - 48)) (k + 1) l' else (acc, k, l)
  | [] => (acc, k, [])
  end.
(** The optional fraction and exponent of a number: present only when digits follow. *)
Definition fraction (m : Z) (l : list ascii) : option (Z * Z * list ascii) :=
  match l with
  | c :: l' => if bool_decide (c = "."%char) then
                 let '(m', k, r) := digits m 0 l' in if 0 <? k then Some (m', k, r) else None
               else None
  | [] => None
  end.
Definition exponent (l : list ascii) : option (Z * list ascii) :=
  match l with
  | c :: l' => if bool_decide (c = "e"%char \/ c = "E"%char) then
                 let '(s, l1) := read_sign l' in
                 let '(e, k, r) := digits 0 0 l1 in if 0 <? k then Some (if s then - e else e, r) else None
               else None
  | [] => None
  end.
Definition json_number (l : list ascii) : option (Json * list ascii) :=
  let '(s, l0) := match l with c :: l' => if bool_decide (c = "-"%char) then (true, l') else (false, l) | [] => (false, []) end in
  let '(m, k, l1) := match l0 with
                     | c :: l' => if bool_decide (c = "0"%char) then (0, 1, l') else digits 0 0 l0
                     | [] => (0, 0, [])
                     end in
  if k =? 0 then None
  else
    let sign x := if s then fopp x else x in
    match fraction m l1 with
    | Some (m', f, l2) =>
        match exponent l2 with
        | Some (e, l3) => Some (JFloat (sign (of_decimal m' (e - f))), l3)
        | None => Some (JFloat (sign (of_decimal m' (- f))), l2)
        end
    | None =>
        match exponent l1 with
        | Some (e, l3) => Some (JFloat (sign (of_decimal m e)), l3)
        | None => Some (JInt (if s then - m else m), l1)
        end
    end.

(** The dictionary of the members read: a repeated key keeps its place, and its last value. *)
Definition dict_set (d : list (string * Json)) (k : string) (v : Json) : list (string * Json) :=
  if existsb (fun kv => bool_decide (kv.1 = k)) d
  then List.map (fun kv => if bool_decide (kv.1 = k) then (k, v) else kv) d
  else d ++ [(k, v)].

(** The scalars, by their first characters. *)
Definition json_scalar (l : list ascii) : option (Json * list ascii) :=
  match keyword (chars "null") l, keyword (chars "true") l, keyword (chars "false") l with
  | Some r, _, _ => Some (JNull, r)
  | _, Some r, _ => Some (JBool true, r)
  | _, _, Some r => Some (JBool false, r)
  | None, None, None =>
      match json_number l with
      | Some x => Some x
      | None =>
          match keyword (chars "NaN") l, keyword (chars "Infinity") l, keyword (chars "-Infinity") l with
          | Some r, _, _ => Some (JFloat S754_nan, r)
          | _, Some r, _ => Some (JFloat (S754_infinity false), r)
          | _, _, Some r => Some (JFloat (S754_infinity true), r)
          | None, None, None => None
          end
      end
  end.

(** A value; the rest of an array after its bracket or a comma, and of an object. *)
Fixpoint read_value (fuel : nat) (l : list ascii) : option (Json * list ascii) :=
  match fuel, l with
  | S n, c :: l' =>
      if bool_decide (c = quote) then s ← json_text l'; Some (JStr s.1, s.2)
      else if bool_decide (c = "["%char) then
        match skip_ws l' with
        | d :: r => if bool_decide (d = "]"%char) then Some (JArr [], r) else read_elements n [] (d :: r)
        | [] => None
        end
      else if bool_decide (c = "{"%char) then
        match skip_ws l' with
        | d :: r => if bool_decide (d = "}"%char) then Some (JObj [], r) else read_members n [] (d :: r)
        | [] => None
        end
      else json_scalar l
  | _, _ => None
  end
with read_elements (fuel : nat) (acc : list Json) (l : list ascii) : option (Json * list ascii) :=
  match fuel with
  | S n =>
      v ← read_value n l;
      match skip_ws v.2 with
      | c :: r =>
          if bool_decide (c = ","%char) then read_elements n (acc ++ [v.1]) (skip_ws r)
          else if bool_decide (c = "]"%char) then Some (JArr (acc ++ [v.1]), r) else None
      | [] => None
      end
  | O => None
  end
with read_members (fuel : nat) (acc : list (string * Json)) (l : list ascii) : option (Json * list ascii) :=
  match fuel, l with
  | S n, c :: l' =>
      if bool_decide (c = quote) then
        k ← json_text l';
        match skip_ws k.2 with
        | d :: l1 =>
            if bool_decide (d = ":"%char) then
              v ← read_value n (skip_ws l1);
              match skip_ws v.2 with
              | e :: r =>
                  if bool_decide (e = ","%char) then read_members n (dict_set acc k.1 v.1) (skip_ws r)
                  else if bool_decide (e = "}"%char) then Some (JObj (dict_set acc k.1 v.1), r) else None
              | [] => None
              end
            else None
        | [] => None
        end
      else None
  | _, _ => None
  end.

Definition json_loads (s : string) : option Json :=
  let l := skip_ws (chars s) in
  v ← read_value (2 * length l + 1) l;
  match skip_ws v.2 with [] => Some v.1 | _ => None end.

Example loaded :
  List.map (fun s => json_loads (text (List.map (fun c => if bool_decide (c = "'"%char) then quote else c) (chars s))))
    [" {'score': 0.5, 'ok': [true , null, -12, 1e2] , 'score': 'a\n\u0041'} "; "[1,]"; "01"; "{'a' 1}"; "[[[]], {}]"; "-Infinity"]%string
  = [Some (JObj [("score", JStr (text ["a"%char; chr 10; "A"%char])); ("ok", JArr [JBool true; JNull; JInt (-12); JFloat (of_Z 100)])]);
     None; None; None; Some (JArr [JArr [JArr []]; JObj []]); Some (JFloat (S754_infinity true))]%string.
Proof. vm_compute. reflexivity. Qed.

(** ** The fuel is enough

    Every parser returns a rest no longer than its text, a value's strictly shorter. *)

Lemma skip_ws_shorter l : (length (skip_ws l) <= length l)%nat.
Proof. induction l as [|c l IH]; simpl; [lia|]. destruct (json_space c); simpl; lia. Qed.
Lemma keyword_shorter k l r : keyword k l = Some r -> (length l = length k + length r)%nat.
Proof.
  revert l. induction k as [|a k IH]; intros l; [by intros [= ->]|]. destruct l as [|b l]; [done|]. simpl.
  case_bool_decide; [|done]. intros Hk. rw (IH l Hk). lia.
Qed.
Lemma read_string_shorter n acc l s r : read_string n acc l = Some (s, r) -> (length r < length l)%nat.
Proof.
  revert acc l. induction n as [|n IH]; intros acc l; [done|]. destruct l as [|c l]; [done|]. cbn [read_string].
  case_bool_decide; [intros [= _ ->]; simpl; lia|]. destruct (code c =? 92).
  - destruct l as [|d l]; [done|]. case_bool_decide.
    + destruct (unicode_escape l) as [[x r']|] eqn:E; [|done]. intros Hk%IH.
      assert (Hr : (length r' <= length l)%nat); [|simpl; lia].
      revert E. unfold unicode_escape. destruct l as [|a [|b [|c' [|e l]]]]; [done..|].
      destruct (hex_value a), (hex_value b), (hex_value c'), (hex_value e); try done. cbn.
      destruct (_ <? 256); [|done]. intros [= _ ->]. lia.
    + destruct (simple_escape d); [|done]. intros Hk%IH. simpl. lia.
  - destruct (code c <? 32); [done|]. intros Hk%IH. simpl. lia.
Qed.
Lemma digits_shorter acc k l m n r : digits acc k l = (m, n, r) -> (length r + Z.to_nat (n - k) <= length l)%nat /\ k <= n.
Proof.
  revert acc k. induction l as [|c l IH]; intros acc k; cbn [digits].
  - intros [= _ <- <-]. simpl. lia.
  - destruct (is_digit c); [|intros [= _ <- <-]; simpl; lia]. intros Hk%IH. simpl. lia.
Qed.
Lemma fraction_shorter m l x f r : fraction m l = Some (x, f, r) -> (length r <= length l)%nat.
Proof.
  unfold fraction. destruct l as [|c l]; [done|]. case_bool_decide; [|done].
  destruct (digits m 0 l) as [[m' k] r'] eqn:E. destruct (0 <? k); [|done]. intros [= _ _ <-].
  apply digits_shorter in E. simpl. lia.
Qed.
Lemma exponent_shorter l e r : exponent l = Some (e, r) -> (length r <= length l)%nat.
Proof.
  unfold exponent. destruct l as [|c l]; [done|]. case_bool_decide; [|done].
  assert (Hs : (length (read_sign l).2 <= length l)%nat).
  { unfold read_sign. destruct l as [|d l]; [done|]. repeat case_bool_decide; simpl; lia. }
  destruct (read_sign l) as [s l1]. destruct (digits 0 0 l1) as [[m' k] r'] eqn:E. destruct (0 <? k); [|done].
  intros [= _ <-]. apply digits_shorter in E. simpl in *. lia.
Qed.
Lemma json_number_shorter l v r : json_number l = Some (v, r) -> (length r < length l)%nat.
Proof.
  unfold json_number. set (p := match l with [] => _ | _ :: _ => _ end).
  assert (Hp : (length p.2 <= length l)%nat) by (unfold p; destruct l as [|c l]; [done|]; case_bool_decide; simpl; lia).
  destruct p as [s l0]. cbn [snd] in Hp. set (q := match l0 with [] => _ | _ :: _ => _ end).
  assert (Hq : q.1.2 <> 0 -> (length q.2 < length l0)%nat).
  { unfold q. destruct l0 as [|c l0]; [done|]. case_bool_decide; [simpl; lia|].
    destruct (digits 0 0 (c :: l0)) as [[m k] r'] eqn:E. apply digits_shorter in E. cbn [fst snd]. lia. }
  destruct q as [[m k] l1]. cbn [fst snd] in Hq. destruct (k =? 0) eqn:Hk; [done|]. apply Z.eqb_neq in Hk.
  specialize (Hq Hk). destruct (fraction m l1) as [[[m' f] l2]|] eqn:Ef.
  - apply fraction_shorter in Ef. destruct (exponent l2) as [[e l3]|] eqn:Ee; intros [= _ <-].
    + apply exponent_shorter in Ee. lia.
    + lia.
  - destruct (exponent l1) as [[e l3]|] eqn:Ee; intros [= _ <-].
    + apply exponent_shorter in Ee. lia.
    + lia.
Qed.
Lemma json_scalar_shorter l v r : json_scalar l = Some (v, r) -> (length r < length l)%nat.
Proof.
  unfold json_scalar.
  destruct (keyword (chars "null") l) as [r1|] eqn:E1; [intros [= _ <-]; apply keyword_shorter in E1; simpl in *; lia|].
  destruct (keyword (chars "true") l) as [r2|] eqn:E2; [intros [= _ <-]; apply keyword_shorter in E2; simpl in *; lia|].
  destruct (keyword (chars "false") l) as [r3|] eqn:E3; [intros [= _ <-]; apply keyword_shorter in E3; simpl in *; lia|].
  destruct (json_number l) as [[v' r']|] eqn:En; [intros [= _ <-]; by apply json_number_shorter in En|].
  destruct (keyword (chars "NaN") l) as [r4|] eqn:E4; [intros [= _ <-]; apply keyword_shorter in E4; simpl in *; lia|].
  destruct (keyword (chars "Infinity") l) as [r5|] eqn:E5; [intros [= _ <-]; apply keyword_shorter in E5; simpl in *; lia|].
  destruct (keyword (chars "-Infinity") l) as [r6|] eqn:E6; [intros [= _ <-]; apply keyword_shorter in E6; simpl in *; lia|done].
Qed.

Lemma readers_shorter n :
  (forall l v r, read_value n l = Some (v, r) -> (length r < length l)%nat) /\
  (forall acc l v r, read_elements n acc l = Some (v, r) -> (length r < length l)%nat) /\
  (forall acc l v r, read_members n acc l = Some (v, r) -> (length r < length l)%nat).
Proof.
  induction n as [|n (IHv & IHe & IHm)]; [done|]. split_and!.
  - intros l v r. destruct l as [|c l]; [done|]. cbn [read_value]. case_bool_decide; [|case_bool_decide; [|case_bool_decide]].
    + destruct (json_text l) as [[s r']|] eqn:E; [|done]. intros [= _ <-]. apply read_string_shorter in E. simpl. lia.
    + pose proof (skip_ws_shorter l). destruct (skip_ws l) as [|d l1]; [done|]. simpl in *.
      case_bool_decide; [intros [= _ <-]; lia|]. intros H'%IHe. simpl in *. lia.
    + pose proof (skip_ws_shorter l). destruct (skip_ws l) as [|d l1]; [done|]. simpl in *.
      case_bool_decide; [intros [= _ <-]; lia|]. intros H'%IHm. simpl in *. lia.
    + apply json_scalar_shorter.
  - intros acc l v r. cbn [read_elements]. destruct (read_value n l) as [[x r1]|] eqn:E; [|done]. apply IHv in E.
    cbn. pose proof (skip_ws_shorter r1). destruct (skip_ws r1) as [|c l1]; [done|]. simpl in *.
    case_bool_decide; [|case_bool_decide; [intros [= _ <-]; lia|done]].
    intros H'%IHe. pose proof (skip_ws_shorter l1). lia.
  - intros acc l v r. destruct l as [|c l]; [done|]. cbn [read_members]. case_bool_decide; [|done].
    destruct (json_text l) as [[k r1]|] eqn:E; [|done]. apply read_string_shorter in E. cbn.
    pose proof (skip_ws_shorter r1). destruct (skip_ws r1) as [|d l1]; [done|]. simpl in *. case_bool_decide; [|done].
    pose proof (skip_ws_shorter l1). destruct (read_value n (skip_ws l1)) as [[x r2]|] eqn:Ev; [|done]. apply IHv in Ev.
    cbn. pose proof (skip_ws_shorter r2). destruct (skip_ws r2) as [|e l2]; [done|]. simpl in *.
    case_bool_decide; [|case_bool_decide; [intros [= _ <-]; lia|done]].
    intros H'%IHm. pose proof (skip_ws_shorter l2). lia.
Qed.

Lemma readers_fuel n :
  (forall n' l, (2 * length l < n)%nat -> (2 * length l < n')%nat -> read_value n l = read_value n' l) /\
  (forall n' acc l, (2 * length l + 1 < n)%nat -> (2 * length l + 1 < n')%nat -> read_elements n acc l = read_elements n' acc l) /\
  (forall n' acc l, (2 * length l + 1 < n)%nat -> (2 * length l + 1 < n')%nat -> read_members n acc l = read_members n' acc l).
Proof.
  induction n as [|n (IHv & IHe & IHm)]; [split_and!; intros; lia|]. split_and!.
  - intros n' l H1 H2. destruct n' as [|n']; [lia|]. destruct l as [|c l]; [done|]. cbn [read_value]. simpl in H1, H2.
    case_bool_decide; [done|]. pose proof (skip_ws_shorter l).
    case_bool_decide; [|case_bool_decide; [|done]]; (destruct (skip_ws l) as [|d l1]; [done|]; case_bool_decide; [done|]; simpl in *).
    + apply IHe; simpl; lia.
    + apply IHm; simpl; lia.
  - intros n' acc l H1 H2. destruct n' as [|n']; [lia|]. cbn [read_elements]. rewrite (IHv n' l ltac:(lia) ltac:(lia)).
    destruct (read_value n' l) as [[x r1]|] eqn:E; [|done]. apply (proj1 (readers_shorter n')) in E. cbn.
    pose proof (skip_ws_shorter r1). destruct (skip_ws r1) as [|c l1]; [done|]. simpl in *. case_bool_decide; [|done].
    pose proof (skip_ws_shorter l1). apply IHe; lia.
  - intros n' acc l H1 H2. destruct n' as [|n']; [lia|]. destruct l as [|c l]; [done|]. cbn [read_members]. simpl in H1, H2.
    case_bool_decide; [|done]. destruct (json_text l) as [[k r1]|] eqn:E; [|done]. apply read_string_shorter in E. cbn.
    pose proof (skip_ws_shorter r1). destruct (skip_ws r1) as [|d l1]; [done|]. simpl in *. case_bool_decide; [|done].
    pose proof (skip_ws_shorter l1). rewrite (IHv n' (skip_ws l1) ltac:(lia) ltac:(lia)).
    destruct (read_value n' (skip_ws l1)) as [[x r2]|] eqn:Ev; [|done]. apply (proj1 (readers_shorter n')) in Ev. cbn.
    pose proof (skip_ws_shorter r2). destruct (skip_ws r2) as [|e l2]; [done|]. simpl in *. case_bool_decide; [|done].
    pose proof (skip_ws_shorter l2). apply IHm; lia.
Qed.

(** More fuel than [json_loads] gives changes nothing. *)
Lemma read_value_fuel l n : (2 * length l < n)%nat -> read_value n l = read_value (2 * length l + 1) l.
Proof. intros H. apply (proj1 (readers_fuel n)); lia. Qed.
