(* ===== verification/Evals.v ===== *)
(** * Evaluation runs, scores and monitors

    The enumerations, core/evals/entities.py with its score validation, and the
    tables [eval_monitors], [eval_runs], [trace_scores] and [session_scores] of
    db/models.py.  Scores of traces and of sessions have the same columns; they
    are one record over the type of their target. *)
From stdpp Require Import base gmap strings list.
From Stdlib Require Import ZArith Lia ssreflect.
From S2P Require Import Prelude Constants Float64 PyFloat Json.

#[local] Open Scope Z_scope.

(** ** Enumerations *)

Inductive EvaluationStatus := EPENDING | ERUNNING | ECOMPLETED | EFAILED.
Inductive ScoreSource := AUTOMATED | ANNOTATION | PROGRAMMATIC.
Inductive ScoreStatus := SUCCESS | FAILED_SCORE | PENDING_SCORE.
Inductive ScoreDataType := NUMERIC | BOOLEAN | CATEGORICAL.
Inductive MonitorStatus := MACTIVE | MPAUSED.
(** The texts TRACE and SESSION of [target_type]. *)
Inductive TargetType := TRACE_TARGET | SESSION_TARGET.

#[export] Instance EvaluationStatus_eq_dec : EqDecision EvaluationStatus.
Proof. solve_decision. Defined.
#[export] Instance ScoreSource_eq_dec : EqDecision ScoreSource.
Proof. solve_decision. Defined.
#[export] Instance ScoreStatus_eq_dec : EqDecision ScoreStatus.
Proof. solve_decision. Defined.
#[export] Instance ScoreDataType_eq_dec : EqDecision ScoreDataType.
Proof. solve_decision. Defined.
#[export] Instance MonitorStatus_eq_dec : EqDecision MonitorStatus.
Proof. solve_decision. Defined.
#[export] Instance TargetType_eq_dec : EqDecision TargetType.
Proof. solve_decision. Defined.

Definition TargetType_of (s : string) : option TargetType :=
  if bool_decide (s = "TRACE"%string) then Some TRACE_TARGET
  else if bool_decide (s = "SESSION"%string) then Some SESSION_TARGET else None.

(** ** Scores *)

Definition validate_score_value (value : string) (data_type : ScoreDataType) : res unit :=
  match data_type with
  | NUMERIC =>
      match py_float value with
      | None => Err (ValueError "NUMERIC score must be a valid number")
      | Some score => if in_unit score then Ok tt else Err (ValueError "NUMERIC score must be in [0.0, 1.0]")
      end
  | BOOLEAN =>
      if bool_decide (lower value = "true"%string \/ lower value = "false"%string) then Ok tt
      else Err (ValueError "BOOLEAN score must be 'true' or 'false'")
  | CATEGORICAL => Ok tt
  end.

(** [TraceScore] and [SessionScore], and their rows. *)
Record Score (T : Type) := {
  c_id : N;
  c_target : T;
  c_project : N;
  c_name : string;
  c_type : ScoreDataType;
  c_value : option string;
  c_source : ScoreSource;
  c_status : ScoreStatus;
  c_run : option N;
  c_author : option string;
  c_reason : option string;
  c_environment : option string;
  c_config : option string;
  c_metadata : Object Json;
  c_created : Z;
  c_updated : Z }.
Arguments Build_Score {T}.
Arguments c_id {T}.
Arguments c_target {T}.
Arguments c_project {T}.
Arguments c_name {T}.
Arguments c_type {T}.
Arguments c_value {T}.
Arguments c_source {T}.
Arguments c_status {T}.
Arguments c_run {T}.
Arguments c_author {T}.
Arguments c_reason {T}.
Arguments c_environment {T}.
Arguments c_config {T}.
Arguments c_metadata {T}.
Arguments c_created {T}.
Arguments c_updated {T}.
Abbreviation TraceScore := (Score N).
Abbreviation SessionScore := (Score string).

(** [_validate_value]: the entity, or the error of its value. *)
Definition Score_validate {T} (s : Score T) : res (Score T) :=
  match c_value s with
  | None => Ok s
  | Some v => match validate_score_value v (c_type s) with Ok _ => Ok s | Err e => Err e end
  end.

(** ** Runs and monitors *)

Record EvalRun := {
  e_id : N;
  e_project : N;
  e_name : option string;
  e_target : TargetType;
  e_metrics : list string;
  e_filters : Object Json;
  e_sampling : float;
  e_model : option string;
  e_monitor : option N;
  e_status : EvaluationStatus;
  e_total : Z;
  e_evaluated : Z;
  e_failed : Z;
  e_error : option string;
  e_created : Z;
  e_completed : option Z }.

Record EvalMonitor := {
  mo_id : N;
  mo_project : N;
  mo_name : string;
  mo_target : TargetType;
  mo_metrics : list string;
  mo_filters : option (Object Json);
  mo_sampling : float;
  mo_model : option string;
  mo_cadence : string;
  mo_only_if_changed : bool;
  mo_status : MonitorStatus;
  mo_last_run_at : option Z;
  mo_last_run : option N;
  mo_next_run_at : option Z;
  mo_created : Z;
  mo_updated : Z }.

(** [Field(ge=0.0, le=1.0)], and a dictionary for the filters, where a row may hold JSON null. *)
Definition EvalRun_validate (r : EvalRun) : res EvalRun :=
  if in_unit (e_sampling r) then Ok r else Err (ValueError "validation error for EvalRun").
Definition EvalMonitor_validate (m : EvalMonitor) : res EvalMonitor :=
  if in_unit (mo_sampling m) && match mo_filters m with Some _ => true | None => false end then Ok m else Err (ValueError "validation error for EvalMonitor").

Record PreparedRun := {
  pr_run : EvalRun;
  pr_project : N;
  pr_trace_ids : list N;
  pr_session_ids : list string;
  pr_target : TargetType;
  pr_metric_map : option (list (N * list string)) }.

(** ** Columns

    A text longer than its column is refused by the database, as is a text or a JSON value it cannot store. *)
Definition fits (width : Z) (s : string) : bool := (len s <=? width) && text_storable s.
Definition fits_opt (width : Z) (s : option string) : bool := match s with Some x => fits width x | None => true end.
Definition Score_fits {T} (target_fits : T -> bool) (s : Score T) : bool :=
  target_fits (c_target s) && fits 255 (c_name s) && fits_opt 255 (c_value s) && fits_opt 255 (c_author s)
  && opt_storable text_storable (c_reason s) && fits_opt 255 (c_environment s) && fits_opt 255 (c_config s) && object_storable (c_metadata s).
Definition EvalRun_fits (r : EvalRun) : bool :=
  fits_opt 255 (e_name r) && forallb (fits 255) (e_metrics r) && fits_opt 255 (e_model r) && object_storable (e_filters r).
Definition EvalMonitor_fits (m : EvalMonitor) : bool :=
  fits 255 (mo_name m) && forallb (fits 255) (mo_metrics m) && fits_opt 255 (mo_model m) && fits 50 (mo_cadence m)
  && match mo_filters m with Some f => object_storable f | None => true end.

(** ** Tables *)

Record Evaluations := {
  eval_monitors : list EvalMonitor;
  eval_runs : list EvalRun;
  trace_scores : list TraceScore;
  session_scores : list SessionScore }.

Definition empty_evaluations : Evaluations :=
  {| eval_monitors := []; eval_runs := []; trace_scores := []; session_scores := [] |}.
Definition set_eval_monitors (l : list EvalMonitor) (x : Evaluations) : Evaluations :=
  {| eval_monitors := l; eval_runs := eval_runs x; trace_scores := trace_scores x; session_scores := session_scores x |}.
Definition set_eval_runs (l : list EvalRun) (x : Evaluations) : Evaluations :=
  {| eval_monitors := eval_monitors x; eval_runs := l; trace_scores := trace_scores x; session_scores := session_scores x |}.
Definition set_trace_scores (l : list TraceScore) (x : Evaluations) : Evaluations :=
  {| eval_monitors := eval_monitors x; eval_runs := eval_runs x; trace_scores := l; session_scores := session_scores x |}.
Definition set_session_scores (l : list SessionScore) (x : Evaluations) : Evaluations :=
  {| eval_monitors := eval_monitors x; eval_runs := eval_runs x; trace_scores := trace_scores x; session_scores := l |}.

(** *** References that a deletion clears (ON DELETE SET NULL) *)

Definition named_in (gone : list N) (ref : option N) : bool := match ref with Some i => bool_decide (i ∈ gone) | None => false end.
Definition clear_score_run {T} (s : Score T) : Score T :=
  {| c_id := c_id s; c_target := c_target s; c_project := c_project s; c_name := c_name s; c_type := c_type s;
     c_value := c_value s; c_source := c_source s; c_status := c_status s; c_run := None; c_author := c_author s;
     c_reason := c_reason s; c_environment := c_environment s; c_config := c_config s; c_metadata := c_metadata s;
     c_created := c_created s; c_updated := c_updated s |}.
Definition clear_run_monitor (r : EvalRun) : EvalRun :=
  {| e_id := e_id r; e_project := e_project r; e_name := e_name r; e_target := e_target r; e_metrics := e_metrics r;
     e_filters := e_filters r; e_sampling := e_sampling r; e_model := e_model r; e_monitor := None; e_status := e_status r;
     e_total := e_total r; e_evaluated := e_evaluated r; e_failed := e_failed r; e_error := e_error r;
     e_created := e_created r; e_completed := e_completed r |}.
Definition clear_last_run (m : EvalMonitor) : EvalMonitor :=
  {| mo_id := mo_id m; mo_project := mo_project m; mo_name := mo_name m; mo_target := mo_target m;
     mo_metrics := mo_metrics m; mo_filters := mo_filters m; mo_sampling := mo_sampling m; mo_model := mo_model m;
     mo_cadence := mo_cadence m; mo_only_if_changed := mo_only_if_changed m; mo_status := mo_status m;
     mo_last_run_at := mo_last_run_at m; mo_last_run := None; mo_next_run_at := mo_next_run_at m;
     mo_created := mo_created m; mo_updated := mo_updated m |}.

(** [DELETE FROM eval_runs WHERE p]: scores and monitors forget the run. *)
Definition delete_runs (p : EvalRun -> bool) (x : Evaluations) : Evaluations :=
  let gone := List.map e_id (select p (eval_runs x)) in
  {| eval_monitors := update_where (fun m => named_in gone (mo_last_run m)) clear_last_run (eval_monitors x);
     eval_runs := delete_where p (eval_runs x);
     trace_scores := update_where (fun s => named_in gone (c_run s)) clear_score_run (trace_scores x);
     session_scores := update_where (fun s => named_in gone (c_run s)) clear_score_run (session_scores x) |}.
(** [DELETE FROM eval_monitors WHERE p]: runs forget the monitor. *)
Definition delete_monitors (p : EvalMonitor -> bool) (x : Evaluations) : Evaluations :=
  let gone := List.map mo_id (select p (eval_monitors x)) in
  {| eval_monitors := delete_where p (eval_monitors x);
     eval_runs := update_where (fun r => named_in gone (e_monitor r)) clear_run_monitor (eval_runs x);
     trace_scores := trace_scores x; session_scores := session_scores x |}.
(** The scores that go with deleted traces. *)
Definition drop_trace_scores (gone : list N) (x : Evaluations) : Evaluations :=
  set_trace_scores (delete_where (fun s => bool_decide (c_target s ∈ gone)) (trace_scores x)) x.
(** The rows that go with deleted projects. *)
Definition drop_projects (gone : list N) (x : Evaluations) : Evaluations :=
  let y := delete_monitors (fun m => bool_decide (mo_project m ∈ gone)) (delete_runs (fun r => bool_decide (e_project r ∈ gone)) x) in
  set_session_scores (delete_where (fun s => bool_decide (c_project s ∈ gone)) (session_scores y))
    (set_trace_scores (delete_where (fun s => bool_decide (c_project s ∈ gone)) (trace_scores y)) y).
