(* ===== verification/Telemetry.v ===== *)
(** * Traces, spans and their tables

    The enumerations, the entities of core/traces/entities.py with their field
    constraints, and the rows of the [traces] and [spans] tables of db/models.py,
    next to which the tables of evaluations (Evals) live: they follow the traces and
    the projects that are deleted. *)
From stdpp Require Import base gmap strings list.
From Stdlib Require Import ZArith Lia ssreflect.
From S2P Require Import Prelude Constants Float64 Json Evals.

#[local] Open Scope Z_scope.

(** ** Enumerations *)

Inductive SpanKind := AGENT | TOOL | LLM | RETRIEVER | CHAIN | EMBEDDING | OTHER.
Inductive SpanStatusCode := UNSET | OK | SERROR.
Inductive TraceStatus := TPENDING | TRUNNING | TCOMPLETED | TERROR.

#[export] Instance SpanKind_eq_dec : EqDecision SpanKind.
Proof. solve_decision. Defined.
#[export] Instance SpanStatusCode_eq_dec : EqDecision SpanStatusCode.
Proof. solve_decision. Defined.
#[export] Instance TraceStatus_eq_dec : EqDecision TraceStatus.
Proof. solve_decision. Defined.

(** The text stored in the status column, by which it is sorted. *)
Definition TraceStatus_value (s : TraceStatus) : string :=
  match s with
  | TPENDING => "PENDING"
  | TRUNNING => "RUNNING"
  | TCOMPLETED => "COMPLETED"
  | TERROR => "ERROR"
  end.

Inductive TraceSortBy := STARTED_AT | ENDED_AT | NAME | LATENCY | STATUS.
Inductive SortOrder := ASC | DESC.
Inductive SessionSortBy := RECENT | TRACE_COUNT | SLATENCY | COST.
Inductive AnalyticsGranularity := HOUR | DAY | WEEK.

(** ** Entities (core/traces/entities.py) *)

Record Span := {
  sp_id : N;
  sp_trace : N;
  sp_parent : option N;
  sp_name : string;
  sp_kind : SpanKind;
  sp_status : SpanStatusCode;
  sp_input : option Json;
  sp_output : option Json;
  sp_model : option string;
  sp_token_usage : option (Object Json);
  sp_metadata : Object Json;
  sp_started : Z;
  sp_ended : option Z;
  sp_error : option string;
  sp_completion_start : option Z;
  sp_model_parameters : option (Object Json);
  sp_cost : option (Object float) }.

Record Trace := {
  tr_id : N;
  tr_project : N;
  tr_name : string;
  tr_status : TraceStatus;
  tr_input : option Json;
  tr_output : option Json;
  tr_metadata : Object Json;
  tr_started : Z;
  tr_ended : option Z;
  tr_session : option string;
  tr_user : option string;
  tr_tags : list string;
  tr_environment : option string;
  tr_release : option string;
  tr_spans : list Span }.

Record TraceDetail := { td_trace : Trace; td_tokens : Z; td_cost : float }.

(** [Field(min_length=1, max_length=512)] and [Field(default=None, max_length=255)]. *)
Definition name_ok (s : string) : bool := (1 <=? len s) && (len s <=? 512).
Definition short_ok (s : option string) : bool :=
  match s with Some x => len x <=? 255 | None => true end.

(** Pydantic's [Span(...)] and [Trace(...)]: the entity, or a [ValidationError],
    which is a [ValueError]. *)
Definition Span_ok (s : Span) : bool := name_ok (sp_name s) && short_ok (sp_model s).
Definition Span_validate (s : Span) : res Span :=
  if Span_ok s then Ok s else Err (ValueError "validation error for Span").
Definition Trace_validate (t : Trace) : res Trace :=
  if name_ok (tr_name t) && short_ok (tr_session t) && short_ok (tr_user t)
     && short_ok (tr_environment t) && short_ok (tr_release t) && forallb Span_ok (tr_spans t)
  then Ok t else Err (ValueError "validation error for Trace").

(** ** Rows (infrastructure/db/models.py) *)

Record SpanRow := {
  s_id : N;
  s_trace : N;
  s_parent : option N;
  s_name : string;
  s_kind : SpanKind;
  s_status : SpanStatusCode;
  s_input : Jsonb Json;
  s_output : Jsonb Json;
  s_model : option string;
  s_token_usage : Jsonb (Object Json);
  s_metadata : Object Json;
  s_started : Z;
  s_ended : option Z;
  s_error : option string;
  s_completion_start : option Z;
  s_model_parameters : Jsonb (Object Json);
  s_cost : Jsonb (Object float) }.

Record TraceRow := {
  t_id : N;
  t_project : N;
  t_name : string;
  t_status : TraceStatus;
  t_input : Jsonb Json;
  t_output : Jsonb Json;
  t_metadata : Object Json;
  t_started : Z;
  t_ended : option Z;
  t_session : option string;
  t_user : option string;
  t_tags : list string;
  t_environment : option string;
  t_release : option string;
  t_created : Z }.

(** ** Columns: the rows the database accepts *)

Definition TraceRow_fits (r : TraceRow) : bool :=
  fits 512 (t_name r) && opt_storable json_storable (json_read (t_input r)) && opt_storable json_storable (json_read (t_output r))
  && object_storable (t_metadata r) && fits_opt 255 (t_session r) && fits_opt 255 (t_user r)
  && forallb text_storable (t_tags r) && fits_opt 255 (t_environment r) && fits_opt 255 (t_release r).
Definition SpanRow_fits (s : SpanRow) : bool :=
  fits 512 (s_name s) && opt_storable json_storable (json_read (s_input s)) && opt_storable json_storable (json_read (s_output s))
  && fits_opt 255 (s_model s) && opt_storable object_storable (json_read (s_token_usage s)) && object_storable (s_metadata s)
  && opt_storable text_storable (s_error s) && opt_storable object_storable (json_read (s_model_parameters s))
  && opt_storable floats_storable (json_read (s_cost s)).

(** ** The tables of this part of the database *)

Record Telemetry := {
  trace_rows : list TraceRow;
  span_rows : list SpanRow;
  evals : Evaluations }.

Definition empty_telemetry : Telemetry := {| trace_rows := []; span_rows := []; evals := empty_evaluations |}.
Definition set_trace_rows (l : list TraceRow) (x : Telemetry) : Telemetry :=
  {| trace_rows := l; span_rows := span_rows x; evals := evals x |}.
Definition set_span_rows (l : list SpanRow) (x : Telemetry) : Telemetry :=
  {| trace_rows := trace_rows x; span_rows := l; evals := evals x |}.
Definition set_evals (e : Evaluations) (x : Telemetry) : Telemetry :=
  {| trace_rows := trace_rows x; span_rows := span_rows x; evals := e |}.

Definition with_trace_id (id : N) (r : TraceRow) : bool := bool_decide (t_id r = id).
Definition of_project (project : N) (r : TraceRow) : bool := bool_decide (t_project r = project).

(** [DELETE FROM traces WHERE p]: the foreign keys of the spans and of the scores cascade. *)
Definition delete_traces (p : TraceRow -> bool) (x : Telemetry) : Telemetry :=
  let gone := List.map t_id (select p (trace_rows x)) in
  {| trace_rows := delete_where p (trace_rows x);
     span_rows := delete_where (fun s => bool_decide (s_trace s ∈ gone)) (span_rows x);
     evals := drop_trace_scores gone (evals x) |}.

(** The rows that go with the deletion of projects. *)
Definition delete_projects (gone : list N) (x : Telemetry) : Telemetry :=
  let y := delete_traces (fun r => bool_decide (t_project r ∈ gone)) x in
  set_evals (drop_projects gone (evals y)) y.

(** ** Integrity

    Primary keys are unique and every span belongs to a trace. *)

Definition telemetry_ok (x : Telemetry) : Prop :=
  NoDup (List.map t_id (trace_rows x)) /\ NoDup (List.map s_id (span_rows x)) /\
  Forall (fun s => s_trace s ∈ List.map t_id (trace_rows x)) (span_rows x).

(** The telemetry of one project: its traces and their spans (not its evaluations). *)
Definition project_telemetry (project : N) (x : Telemetry) : Telemetry :=
  let own := select (of_project project) (trace_rows x) in
  {| trace_rows := own;
     span_rows := select (fun s => bool_decide (s_trace s ∈ List.map t_id own)) (span_rows x);
     evals := empty_evaluations |}.

Lemma NoDup_map_select {R} (ident : R -> N) p (l : list R) :
  NoDup (List.map ident l) -> NoDup (List.map ident (select p l)).
Proof.
  induction l as [|r l IH]; [done|]. simpl. intros [Hn Hl]%NoDup_cons.
  destruct (p r); [|by apply IH]. simpl. apply NoDup_cons. split; [|by apply IH].
  intros (y & Hy & [Hin _]%elem_of_select)%list_elem_of_fmap. apply Hn. apply list_elem_of_fmap. by exists y.
Qed.

Lemma NoDup_map_inj {R} (ident : R -> N) (l : list R) a b :
  NoDup (List.map ident l) -> a ∈ l -> b ∈ l -> ident a = ident b -> a = b.
Proof.
  induction l as [|r l IH]; simpl; intros Hd Ha Hb Hab; [by apply elem_of_nil in Ha|]. apply NoDup_cons in Hd as [Hn Hd].
  assert (Hno : forall x, x ∈ l -> ident r <> ident x).
  { intros x Hx Heq. apply Hn. apply list_elem_of_fmap. eauto. }
  apply elem_of_cons in Ha as [->|Ha], Hb as [->|Hb]; [done|by destruct (Hno b Hb)|by destruct (Hno a Ha)|by apply IH].
Qed.

Lemma elem_of_map_select {R} (ident : R -> N) p (l : list R) i :
  i ∈ List.map ident (select p l) <-> exists r, r ∈ l /\ p r = true /\ i = ident r.
Proof.
  rw list_elem_of_fmap. setoid_rewrite elem_of_select. naive_solver.
Qed.

(** Queries of queries, of deletions and of updates that keep the keys. *)
Lemma select_select {R} (a b : R -> bool) t : select (fun r => a r && b r) t = select b (select a t).
Proof.
  induction t as [|r t IH]; [done|]. cbn. unfold select in IH. destruct (a r); cbn; [|exact IH].
  destruct (b r); [by f_equal|exact IH].
Qed.

Lemma select_ext_in {R} (a b : R -> bool) t : (forall r, r ∈ t -> a r = b r) -> select a t = select b t.
Proof. intros H. apply List.filter_ext_in. intros r Hr. apply H. by apply list_elem_of_In. Qed.

Lemma delete_where_select {R} a q (t : list R) : select a (delete_where q t) = delete_where q (select a t).
Proof.
  unfold delete_where. change (List.filter (fun r => negb (q r)) t) with (select (fun r => negb (q r)) t).
  rw -select_select. change (List.filter (fun r => negb (q r)) (select a t)) with (select (fun r => negb (q r)) (select a t)).
  rw -select_select. apply select_ext_in. intros r _. apply andb_comm.
Qed.

Lemma idents_update {R} (ident : R -> N) q f (t : list R) : (forall r, r ∈ t -> q r = true -> ident (f r) = ident r) ->
  List.map ident (update_where q f t) = List.map ident t.
Proof.
  intros H. unfold update_where. rw List.map_map. apply List.map_ext_in. intros r Hr%list_elem_of_In.
  destruct (q r) eqn:Hq; [by apply H|done].
Qed.

Lemma telemetry_ok_delete p x : telemetry_ok x -> telemetry_ok (delete_traces p x).
Proof.
  intros (H1 & H2 & H3). split_and!; [by apply NoDup_map_select..|].
  apply Forall_forall. intros s [Hs Hg%bool_decide_eq_false]%elem_of_delete_where.
  rw Forall_forall in H3. specialize (H3 s Hs). apply list_elem_of_fmap in H3 as (r & Hr & Hin).
  apply (elem_of_map_select t_id (fun r => negb (p r))). exists r. split_and!; [done| |done].
  destruct (p r) eqn:Hp; [|done]. exfalso. apply Hg. apply elem_of_map_select. eauto.
Qed.

(** Deleting traces of other projects does not show. *)
Lemma project_telemetry_delete p project x : telemetry_ok x ->
  (forall r, r ∈ trace_rows x -> t_project r = project -> p r = false) ->
  project_telemetry project (delete_traces p x) = project_telemetry project x.
Proof.
  intros (H1 & _) Hp. unfold project_telemetry, delete_traces. cbn [trace_rows span_rows].
  rw (select_delete_where_in (of_project project) p).
  - intros r Hr Hpr%bool_decide_eq_true. by apply Hp.
  - f_equal. apply select_delete_where. intros s (r & Hr & Hpr%bool_decide_eq_true & Hs)%bool_decide_eq_true%elem_of_map_select.
    apply bool_decide_eq_false. intros (r' & Hr' & Hpr' & Hs')%elem_of_map_select.
    assert (r' = r) as -> by (apply (NoDup_map_inj t_id (trace_rows x)); [done..|congruence]).
    pose proof (Hp r Hr Hpr). congruence.
Qed.
