(* ===== verification/ProjectEvals.v ===== *)
(** * The evaluations of some projects

    Runs, monitors and scores of the projects a condition selects, and what a deletion elsewhere may
    do to them.  The foreign keys clear a reference to a run or monitor that goes ([ON DELETE SET NULL])
    and take a score along with its trace ([ON DELETE CASCADE]), whoever owns the score: [faded] is this,
    and no more.  Rows that refer only to the projects' own rows ([linked]) do not fade. *)
From stdpp Require Import base gmap strings list.
From Stdlib Require Import ZArith Lia ssreflect.
From S2P Require Import Prelude Constants Json Evals Telemetry.

#[local] Open Scope Z_scope.

(** ** The rows of the selected projects *)

Section selected.
Context (mine : N -> bool).
Definition run_in (r : EvalRun) : bool := mine (e_project r).
Definition monitor_in (m : EvalMonitor) : bool := mine (mo_project m).
Definition score_in {T} (s : Score T) : bool := mine (c_project s).
Definition evals_in (x : Evaluations) : Evaluations :=
  {| eval_monitors := select monitor_in (eval_monitors x); eval_runs := select run_in (eval_runs x);
     trace_scores := select score_in (trace_scores x); session_scores := select score_in (session_scores x) |}.
Definition trace_ids_in (x : Telemetry) : list N := List.map t_id (select (fun r => mine (t_project r)) (trace_rows x)).
End selected.

Definition run_ids (x : Evaluations) : list N := List.map e_id (eval_runs x).
Definition monitor_ids (x : Evaluations) : list N := List.map mo_id (eval_monitors x).
(** Primary keys are unique. *)
Definition keyed (x : Evaluations) : Prop := NoDup (run_ids x) /\ NoDup (monitor_ids x).

(** References of the rows are to rows among them, and scores are on the traces. *)
Definition names_own (ids : list N) (ref : option N) : Prop := match ref with Some i => i ∈ ids | None => True end.
Definition linked (trace_ids : list N) (x : Evaluations) : Prop :=
  Forall (fun s => c_target s ∈ trace_ids /\ names_own (run_ids x) (c_run s)) (trace_scores x) /\
  Forall (fun s => names_own (run_ids x) (c_run s)) (session_scores x) /\
  Forall (fun r => names_own (monitor_ids x) (e_monitor r)) (eval_runs x) /\
  Forall (fun m => names_own (run_ids x) (mo_last_run m)) (eval_monitors x).

(** ** Fading *)

(** The row as it was, or, when it refers to a row outside [ids], without the reference. *)
Definition fades {R} (clear : R -> R) (ref : R -> option N) (ids : list N) (r r' : R) : Prop :=
  r' = r \/ (~ names_own ids (ref r) /\ r' = clear r).
Definition on_traces {T} `{EqDecision T} (gone : list T) (s : Score T) : bool := bool_decide (c_target s ∈ gone).
(** [x] after deletions elsewhere: scores on other traces may be gone, references to other runs and monitors cleared. *)
Definition faded (trace_ids : list N) (x x' : Evaluations) : Prop :=
  Forall2 (fades clear_run_monitor e_monitor (monitor_ids x)) (eval_runs x) (eval_runs x') /\
  Forall2 (fades clear_last_run mo_last_run (run_ids x)) (eval_monitors x) (eval_monitors x') /\
  Forall2 (fades clear_score_run c_run (run_ids x)) (session_scores x) (session_scores x') /\
  exists gone, (forall i, i ∈ gone -> i ∉ trace_ids) /\
    Forall2 (fades clear_score_run c_run (run_ids x)) (delete_where (on_traces gone) (trace_scores x)) (trace_scores x').

Section rows.
Context {R : Type} (clear : R -> R) (ref : R -> option N) (ids : list N).
Hypothesis Hclear : forall r, ref (clear r) = None.

Lemma fades_refl l : Forall2 (fades clear ref ids) l l.
Proof using. induction l; constructor; [by left|done]. Qed.
Lemma fades_step r1 r2 r3 : fades clear ref ids r1 r2 -> fades clear ref ids r2 r3 -> fades clear ref ids r1 r3.
Proof using Hclear.
  intros [->|[H1 ->]]; [done|]. intros [->|[H2 _]]; [by right|]. rw Hclear in H2. by destruct H2.
Qed.
Lemma fades_trans l1 l2 l3 : Forall2 (fades clear ref ids) l1 l2 -> Forall2 (fades clear ref ids) l2 l3 -> Forall2 (fades clear ref ids) l1 l3.
Proof using Hclear.
  intros H. revert l3. induction H as [|r1 r2 l1 l2 H1 _ IH]; intros l3 H3; [done|]. apply Forall2_cons_inv_l in H3 as (r3 & l3' & H3 & Hl & ->).
  constructor; [by apply (fades_step _ r2)|by apply IH].
Qed.
Lemma fades_own l l' : Forall (fun r => names_own ids (ref r)) l -> Forall2 (fades clear ref ids) l l' -> l' = l.
Proof using.
  intros Hl H. induction H as [|r r' l l' [->|[Hr _]] _ IH]; [done| |]; apply Forall_cons in Hl as [H Hl]; [by rewrite (IH Hl)|by destruct Hr].
Qed.
Lemma fades_select (p : R -> bool) l l' : (forall r, p (clear r) = p r) -> Forall2 (fades clear ref ids) l l' ->
  Forall2 (fades clear ref ids) (select p l) (select p l').
Proof using.
  intros Hp H. induction H as [|r r' l l' Hr _ IH]; [done|]. cbn. fold (select p l) (select p l').
  assert (p r' = p r) as -> by (destruct Hr as [->|[_ ->]]; [done|apply Hp]). destruct (p r); [by constructor|exact IH].
Qed.
Lemma fades_update (p : R -> bool) l : (forall r, r ∈ l -> p r = true -> ~ names_own ids (ref r)) ->
  Forall2 (fades clear ref ids) l (update_where p clear l).
Proof using.
  intros H. induction l as [|r l IH]; [constructor|]. cbn. constructor; [|apply IH; intros r' Hr'; apply H; by right].
  destruct (p r) eqn:E; [right; split; [apply H; [by left|done]|done]|by left].
Qed.
Lemma fades_map {S} (f : R -> S) l l' : (forall r, f (clear r) = f r) -> Forall2 (fades clear ref ids) l l' -> List.map f l' = List.map f l.
Proof using.
  intros Hf H. induction H as [|r r' l l' Hr _ IH]; [done|]. cbn. f_equal; [|exact IH]. destruct Hr as [->|[_ ->]]; [done|apply Hf].
Qed.
Lemma fades_seen (see : R -> R) l l' : (forall r, ref (see r) = ref r /\ see (clear r) = clear (see r)) -> Forall2 (fades clear ref ids) l l' ->
  Forall2 (fades clear ref ids) (List.map see l) (List.map see l').
Proof using.
  intros Hs H. induction H as [|r r' l l' Hr _ IH]; [constructor|]. cbn. constructor; [|exact IH]. destruct (Hs r) as [H1 H2].
  destruct Hr as [->|[Hn ->]]; [by left|right]. by rewrite H1 H2.
Qed.
End rows.

Lemma delete_where_none {R} p (l : list R) : (forall r, r ∈ l -> p r = false) -> delete_where p l = l.
Proof.
  induction l as [|r l IH]; intros H; [done|]. cbn. fold (delete_where p l). rw (H r); [by left|]. cbn. f_equal.
  apply IH. intros r' Hr'. apply H. by right.
Qed.
Lemma delete_where_app {T} `{EqDecision T} (a b : list T) (l : list (Score T)) :
  delete_where (on_traces (a ++ b)) l = delete_where (on_traces b) (delete_where (on_traces a) l).
Proof.
  induction l as [|s l IH]; [done|]. unfold delete_where in *. cbn [List.filter].
  assert (on_traces (a ++ b) s = on_traces a s || on_traces b s) as ->.
  { unfold on_traces. rewrite <- bool_decide_or. apply bool_decide_ext. apply elem_of_app. }
  destruct (on_traces a s); cbn; [exact IH|]. destruct (on_traces b s); cbn; [exact IH|by rewrite IH].
Qed.

Lemma faded_refl trace_ids x : faded trace_ids x x.
Proof.
  split_and!; [apply fades_refl..|]. exists []. split; [by intros i ?%elem_of_nil|].
  rw (delete_where_none (on_traces []) (trace_scores x)); [by intros s _; apply bool_decide_eq_false, not_elem_of_nil|apply fades_refl].
Qed.
Lemma faded_ids trace_ids x y : faded trace_ids x y -> run_ids y = run_ids x /\ monitor_ids y = monitor_ids x.
Proof. intros (H1 & H2 & _). split; by eapply fades_map; try eassumption. Qed.
Lemma faded_trans trace_ids x y z : faded trace_ids x y -> faded trace_ids y z -> faded trace_ids x z.
Proof.
  intros Hxy. destruct (faded_ids _ _ _ Hxy) as [Er Em]. destruct Hxy as (H1 & H2 & H3 & g & Hg & H4).
  intros (K1 & K2 & K3 & g' & Hg' & K4). rewrite Er in K2, K3, K4. rewrite Em in K1.
  split_and!; try (by eapply fades_trans; try eassumption). exists (g ++ g'). split; [set_solver|]. rewrite delete_where_app.
  eapply fades_trans; [done| |exact K4]. by apply (fades_select _ _ _ (fun s => negb (on_traces g' s))).
Qed.
(** Rows that refer to none but their own stay as they are. *)
Lemma faded_linked trace_ids x y : linked trace_ids x -> faded trace_ids x y -> y = x.
Proof.
  intros (L1 & L2 & L3 & L4) (H1 & H2 & H3 & g & Hg & H4).
  assert (Et : delete_where (on_traces g) (trace_scores x) = trace_scores x).
  { apply delete_where_none. intros s Hs. apply bool_decide_eq_false. intros Hin. rewrite Forall_forall in L1. by apply (Hg _ Hin), L1. }
  rewrite Et in H4. apply fades_own in H1; [|done]. apply fades_own in H2; [|done]. apply fades_own in H3; [|done].
  apply fades_own in H4; [|by eapply Forall_impl; [exact L1|intros s [_ ?]]]. destruct x, y; cbn in *; congruence.
Qed.

(** The same with each monitor as [see] shows it. *)
Definition seen (see : EvalMonitor -> EvalMonitor) (x : Evaluations) : Evaluations :=
  set_eval_monitors (List.map see (eval_monitors x)) x.
Definition faithful (see : EvalMonitor -> EvalMonitor) : Prop := forall m,
  mo_id (see m) = mo_id m /\ mo_last_run (see m) = mo_last_run m /\ see (clear_last_run m) = clear_last_run (see m).
Lemma seen_monitor_ids see x : faithful see -> monitor_ids (seen see x) = monitor_ids x.
Proof. intros H. unfold monitor_ids, seen. cbn. rw List.map_map. apply List.map_ext. intros m. apply H. Qed.
Lemma faded_seen see trace_ids x y : faithful see -> faded trace_ids x y -> faded trace_ids (seen see x) (seen see y).
Proof.
  intros Hs (H1 & H2 & H3 & H4). split_and!; [by rewrite seen_monitor_ids| |exact H3|exact H4].
  apply fades_seen; [|exact H2]. intros m. by destruct (Hs m) as (_ & ? & ?).
Qed.
Lemma linked_seen see trace_ids x : faithful see -> linked trace_ids x -> linked trace_ids (seen see x).
Proof.
  intros Hs (L1 & L2 & L3 & L4). split_and!; [exact L1|exact L2|by rewrite seen_monitor_ids|].
  apply Forall_fmap. eapply Forall_impl; [exact L4|]. intros m Hm. change (names_own (run_ids x) (mo_last_run (see m))).
  by destruct (Hs m) as (_ & -> & _).
Qed.

(** ** Deletions elsewhere *)

(** Rows of another project have other keys. *)
Lemma other_keys {R} (ident : R -> N) (own p : R -> bool) l : NoDup (List.map ident l) -> (forall r, r ∈ l -> own r = true -> p r = false) ->
  forall i, i ∈ List.map ident (select p l) -> i ∉ List.map ident (select own l).
Proof.
  intros Hn Hp i (a & Ha & Hpa & ->)%elem_of_map_select (b & Hb & Hob & E)%elem_of_map_select.
  assert (a = b) as -> by by apply (NoDup_map_inj ident l). by rewrite (Hp b Hb Hob) in Hpa.
Qed.
Lemma named_foreign gone ids ref : (forall i, i ∈ gone -> i ∉ ids) -> named_in gone ref = true -> ~ names_own ids ref.
Proof. intros H. destruct ref as [i|]; [|done]. intros Hi%bool_decide_eq_true. by apply H. Qed.

Section deletions.
Context (mine : N -> bool) (trace_ids : list N) (x : Evaluations).
Hypothesis Hkeyed : keyed x.

Lemma faded_delete_runs p : (forall r, run_in mine r = true -> p r = false) ->
  faded trace_ids (evals_in mine x) (evals_in mine (delete_runs p x)) /\ keyed (delete_runs p x).
Proof using Hkeyed.
  intros Hp. destruct Hkeyed as [Hr Hm]. pose proof (other_keys e_id (run_in mine) p _ Hr (fun r _ => Hp r)) as Hgone.
  split; [|split; [by apply NoDup_map_select|unfold monitor_ids; cbn; by rw (idents_update mo_id)]].
  split_and!; cbn [evals_in delete_runs eval_runs eval_monitors session_scores trace_scores].
  - rw (select_delete_where (run_in mine) p); [exact Hp|]. apply fades_refl.
  - rw (select_update_where (monitor_in mine)); [done|]. apply fades_update. intros m _. by apply named_foreign.
  - rw (select_update_where (score_in mine)); [done|]. apply fades_update. intros m _. by apply named_foreign.
  - destruct (faded_refl trace_ids (evals_in mine x)) as (_ & _ & _ & g & Hg & Hl). exists g. split; [done|]. eapply fades_trans; [done|exact Hl|].
    rw (select_update_where (score_in mine)); [done|]. apply fades_update. intros m _. by apply named_foreign.
Qed.
Lemma faded_delete_monitors p : (forall m, monitor_in mine m = true -> p m = false) ->
  faded trace_ids (evals_in mine x) (evals_in mine (delete_monitors p x)) /\ keyed (delete_monitors p x).
Proof using Hkeyed.
  intros Hp. destruct Hkeyed as [Hr Hm]. pose proof (other_keys mo_id (monitor_in mine) p _ Hm (fun m _ => Hp m)) as Hgone.
  split; [|split; [unfold run_ids; cbn; by rw (idents_update e_id)|by apply NoDup_map_select]].
  destruct (faded_refl trace_ids (evals_in mine x)) as (H1 & H2 & H3 & H4).
  split_and!; cbn [evals_in delete_monitors eval_runs eval_monitors session_scores trace_scores]; [|by rw (select_delete_where (monitor_in mine) p)|done..].
  rw (select_update_where (run_in mine)); [done|]. apply fades_update. intros m _. by apply named_foreign.
Qed.
Lemma faded_drop_scores gone : (forall i, i ∈ gone -> i ∉ trace_ids) ->
  faded trace_ids (evals_in mine x) (evals_in mine (drop_trace_scores gone x)) /\ keyed (drop_trace_scores gone x).
Proof using Hkeyed.
  intros Hg. split; [|exact Hkeyed]. destruct (faded_refl trace_ids (evals_in mine x)) as (H1 & H2 & H3 & _).
  split_and!; [done..|]. exists gone. split; [done|]. cbn [evals_in drop_trace_scores set_trace_scores trace_scores]. rw (delete_where_select (score_in mine)). apply fades_refl.
Qed.
End deletions.

Lemma faded_drop_projects mine trace_ids gone x : keyed x -> (forall i, i ∈ gone -> mine i = false) ->
  faded trace_ids (evals_in mine x) (evals_in mine (drop_projects gone x)) /\ keyed (drop_projects gone x).
Proof.
  intros Hk Hg. assert (Hno : forall i, mine i = true -> bool_decide (i ∈ gone) = false).
  { intros i Hi. apply bool_decide_eq_false. intros Hin. by rewrite (Hg i Hin) in Hi. }
  destruct (faded_delete_runs mine trace_ids x Hk (fun r => bool_decide (e_project r ∈ gone))) as [F1 K1]; [intros r; apply Hno|].
  destruct (faded_delete_monitors mine trace_ids _ K1 (fun m => bool_decide (mo_project m ∈ gone))) as [F2 K2]; [intros m; apply Hno|].
  split; [|exact K2]. eapply faded_trans; [exact F1|]. eapply faded_trans; [exact F2|]. unfold drop_projects. set (y := delete_monitors _ _).
  match goal with |- faded _ _ ?z => replace z with (evals_in mine y); [apply faded_refl|] end.
  unfold evals_in. cbn [set_session_scores set_trace_scores eval_monitors eval_runs trace_scores session_scores].
  rw (select_delete_where (score_in mine) _ (trace_scores y)); [intros s; apply Hno|].
  by rw (select_delete_where (score_in mine) _ (session_scores y)); [intros s; apply Hno|].
Qed.

Section telemetry.
Context (mine : N -> bool) (trace_ids : list N) (x : Telemetry).
Hypothesis Hkeyed : keyed (evals x).
Hypothesis Htraces : NoDup (List.map t_id (trace_rows x)).
Hypothesis Hown : trace_ids ⊆ trace_ids_in mine x.

Lemma faded_delete_traces p : (forall r, mine (t_project r) = true -> p r = false) ->
  faded trace_ids (evals_in mine (evals x)) (evals_in mine (evals (delete_traces p x))) /\ keyed (evals (delete_traces p x)) /\
  trace_ids_in mine (delete_traces p x) = trace_ids_in mine x.
Proof using All.
  intros Hp. destruct (faded_drop_scores mine trace_ids (evals x) Hkeyed (List.map t_id (select p (trace_rows x)))) as [F K].
  - intros i Hi Hin%Hown. by apply (other_keys t_id (fun r => mine (t_project r)) p _ Htraces (fun r _ => Hp r) i).
  - split_and!; [done..|]. unfold trace_ids_in. cbn [delete_traces trace_rows]. by rw (select_delete_where (fun r => mine (t_project r)) p).
Qed.
(** Deleting other projects fades the evaluations of these. *)
Lemma faded_delete_projects gone : (forall i, i ∈ gone -> mine i = false) ->
  faded trace_ids (evals_in mine (evals x)) (evals_in mine (evals (delete_projects gone x))) /\ keyed (evals (delete_projects gone x)) /\
  trace_ids_in mine (delete_projects gone x) = trace_ids_in mine x.
Proof using All.
  intros Hg. destruct (faded_delete_traces (fun r => bool_decide (t_project r ∈ gone))) as (F1 & K1 & E1).
  - intros r Hr. apply bool_decide_eq_false. intros Hin. by rewrite (Hg _ Hin) in Hr.
  - destruct (faded_drop_projects mine trace_ids gone _ K1 Hg) as [F2 K2]. split_and!; [|exact K2|exact E1]. exact (faded_trans _ _ _ _ F1 F2).
Qed.
End telemetry.
