(* ===== verification/Sql.v ===== *)
(** * Expressions of the queries

    The SQL expressions and result-set operations the repositories of traces and
    evaluations use beyond [select] and [update_where]: NULL handling, ordering,
    paging, grouping, aggregates, casts, array and JSON operators, and LIKE.  What depends on the
    database server's configuration or version is a parameter ([Postgres]). *)
From stdpp Require Import base gmap strings list.
From Stdlib Require Import ZArith Lia Ascii ssreflect.
From S2P Require Import Prelude Constants Float64 PyFloat Json Evals Telemetry.

#[local] Open Scope Z_scope.

(** The server: its collation (an order on texts), the text syntax of [integer] and
    of [double precision], [date_trunc] in its time zone, and [percentile_cont], in seconds,
    of a list of durations. *)
Record Postgres := {
  collate : string -> string -> bool;
  int4in : string -> option Z;
  float8in : string -> option float;
  date_trunc : AnalyticsGranularity -> Z -> Z;
  percentile_cont : float -> list Z -> option float }.

(** ** NULL *)

Definition coalesce {A} (a b : option A) : option A := match a with Some _ => a | None => b end.

(** A comparison with NULL is not true. *)
Definition sql_eq {A} `{EqDecision A} (c : option A) (v : A) : bool := bool_decide (c = Some v).

(** ** ORDER BY, OFFSET, LIMIT

    NULL sorts after every value, so it comes last ascending and first descending.
    Rows that compare equal come in the order of the table. *)

Definition le_null {A} (le : A -> A -> bool) (a b : option A) : bool :=
  match a, b with
  | _, None => true
  | None, Some _ => false
  | Some x, Some y => le x y
  end.
Definition sort_by {R A} (le : A -> A -> bool) (key : R -> option A) (o : SortOrder) : list R -> list R :=
  order_by (fun a b => match o with
                       | ASC => le_null le (key a) (key b)
                       | DESC => le_null le (key b) (key a)
                       end).
Definition page {R} (offset limit : Z) (l : list R) : list R := take (Z.to_nat limit) (drop (Z.to_nat offset) l).

(** ** GROUP BY and aggregates *)

Section groups.
Context {R K : Type} `{EqDecision K} (key : R -> K).

Definition keys_of (l : list R) : list K := remove_dups (List.map key l).
Definition group (k : K) (l : list R) : list R := select (fun r => bool_decide (key r = k)) l.
(** The groups of a result set: each key once, with its rows. *)
Definition group_by (l : list R) : list (K * list R) := List.map (fun k => (k, group k l)) (keys_of l).
End groups.

Definition non_null {A} (l : list (option A)) : list A := omap id l.
Definition sql_max (l : list (option Z)) : option Z :=
  match non_null l with [] => None | x :: l' => Some (zmax_list x l') end.
Definition sql_min (l : list (option Z)) : option Z :=
  match non_null l with [] => None | x :: l' => Some (zmin_list x l') end.
Definition zsum (l : list Z) : Z := foldr Z.add 0 l.
Definition sql_sum (l : list (option Z)) : option Z :=
  match non_null l with [] => None | l' => Some (zsum l') end.
Definition bool_or (l : list bool) : bool := existsb id l.

(** [avg]: the sum and the number of the values; no values, no average. *)
Definition sql_avg (l : list (option Z)) : option (Z * Z) :=
  match non_null l with [] => None | l' => Some (zsum l', Z.of_nat (length l')) end.

(** The addition of [double precision] overflows instead of returning an infinity. *)
Definition float8pl (a b : float) : res float :=
  let c := fadd a b in
  if is_finite a && is_finite b && negb (is_finite c) then Err DataError else Ok c.
Fixpoint float8_sum (acc : float) (l : list float) : res float :=
  match l with
  | [] => Ok acc
  | x :: l' => match float8pl acc x with Ok c => float8_sum c l' | Err e => Err e end
  end.
(** [sum] over [double precision] values, none of them NULL. *)
Definition sum_float8 (l : list float) : res (option float) :=
  match l with
  | [] => Ok None
  | x :: l' => match float8_sum x l' with Ok c => Ok (Some c) | Err e => Err e end
  end.

(** [avg], [min], [max] and [percentile_cont(0.5)] over [double precision] values. *)
Definition avg_float8 (l : list float) : res (option float) :=
  match sum_float8 l with
  | Ok (Some c) => Ok (Some (fdiv c (of_Z (Z.of_nat (length l)))))
  | Ok None => Ok None
  | Err e => Err e
  end.
Definition min_float8 (l : list float) : option float := head (order_by fleb l).
Definition max_float8 (l : list float) : option float := last (order_by fleb l).
Definition median_float8 (l : list float) : option float :=
  let s := order_by fleb l in
  let n := Z.of_nat (length s) - 1 in
  a ← s !! Z.to_nat (n / 2);
  if n mod 2 =? 0 then Some a else b ← s !! Z.to_nat (n / 2 + 1); Some (fadd a (fmul (decimal 5 1) (fsub b a))).

(** [width_bucket(x, 0.0, 1.0, count)] *)
Definition width_bucket (x : float) (count : Z) : Z :=
  if fltb x (of_Z 0) then 0
  else if fleb (of_Z 1) x then count + 1
  else match py_int (fmul (of_Z count) x) with
       | Ok r => Z.min r (count - 1) + 1
       | Err _ => 0
       end.

(** ** Casts *)

Definition int4_range (n : Z) : bool := (- 2 ^ 31 <=? n) && (n <? 2 ^ 31).
Definition int4 (n : Z) : res Z := if int4_range n then Ok n else Err DataError.

(** [cast(column[key].astext, Integer)]: a missing key and JSON null are NULL.  The
    text of a float, a boolean, an array or an object is not an integer in range. *)
Definition cast_integer (pg : Postgres) (v : option Json) : res (option Z) :=
  match v with
  | None | Some JNull => Ok None
  | Some (JInt n) => match int4 n with Ok n => Ok (Some n) | Err e => Err e end
  | Some (JStr s) => match int4in pg s with Some n => Ok (Some n) | None => Err DataError end
  | Some _ => Err DataError
  end.

(** [cast(column, Float)] of a text. *)
Definition cast_float (pg : Postgres) (v : option string) : res (option float) :=
  match v with
  | None => Ok None
  | Some s => match float8in pg s with Some x => Ok (Some x) | None => Err DataError end
  end.

(** ** Arrays *)

(** [array_agg(DISTINCT x)]: sorted; NULL when there are no values. *)
Definition array_agg_distinct (pg : Postgres) (l : list string) : option (list string) :=
  match l with
  | [] => None
  | _ => Some (order_by (collate pg) (remove_dups l))
  end.
Definition array_remove (l : list string) (x : string) : list string :=
  List.filter (fun y => negb (bool_decide (y = x))) l.
(** [a && b] *)
Definition overlap (a b : list string) : bool := existsb (fun x => bool_decide (x ∈ b)) a.

(** ** JSON *)

(** [a || b] of two objects: the keys of both, those of [b] first. *)
Definition jsonb_concat (a b : Object Json) : Object Json := b ∪ a.

(** ** LIKE *)

Definition backslash : ascii := ascii_of_N 92.
Definition percent : ascii := "%"%char.
Definition underscore : ascii := "_"%char.

Inductive LikeItem :=
  | AnyString
  | AnyChar
  | Lit (c : ascii).

(** Reading a pattern; it must not end with the escape character. *)
Fixpoint like_pattern (p : list ascii) : option (list LikeItem) :=
  match p with
  | [] => Some []
  | c :: p' =>
      if bool_decide (c = backslash)
      then match p' with
           | [] => None
           | d :: p'' => cons (Lit d) <$> like_pattern p''
           end
      else cons (if bool_decide (c = percent) then AnyString
                 else if bool_decide (c = underscore) then AnyChar else Lit c) <$> like_pattern p'
  end.

Fixpoint like_match (p : list LikeItem) (s : list ascii) {struct p} : bool :=
  match p with
  | [] => match s with [] => true | _ => false end
  | Lit c :: p' => match s with x :: s' => bool_decide (x = c) && like_match p' s' | [] => false end
  | AnyChar :: p' => match s with _ :: s' => like_match p' s' | [] => false end
  | AnyString :: p' =>
      (fix go s := like_match p' s || match s with [] => false | _ :: s' => go s' end) s
  end.

Definition fold_case (s : string) : list ascii := List.map lower_char (String.list_ascii_of_string s).
(** [column ILIKE pattern]: the test on the column's text. *)
Definition ilike (pattern : string) : res (string -> bool) :=
  match like_pattern (fold_case pattern) with
  | None => Err DataError
  | Some p => Ok (fun s => like_match p (fold_case s))
  end.

(** ** Queries that may raise *)

#[export] Instance res_ret : MRet res := fun A a => Ok a.
#[export] Instance res_bind : MBind res := fun A B k m => match m with Ok a => k a | Err e => Err e end.

(** The values of a list, or the first error. *)
Fixpoint res_all {A} (l : list (res A)) : res (list A) :=
  match l with
  | [] => Ok []
  | r :: l' => x ← r; xs ← res_all l'; Ok (x :: xs)
  end.

Lemma res_all_Ok {A B} (f : A -> res B) (g : A -> B) l : (forall x, x ∈ l -> f x = Ok (g x)) ->
  res_all (List.map f l) = Ok (List.map g l).
Proof.
  induction l as [|x l IH]; intros H; [done|]. cbn. rw (H x); [by left|]. cbn. rw IH; [|done].
  intros y Hy. apply H. by right.
Qed.

(** An error among the values is an error of the list. *)
Lemma res_all_Err {A} (l : list (res A)) e : In (Err e) l -> exists e', res_all l = Err e'.
Proof.
  induction l as [|r l IH]; [done|]. intros [->|Hin]; cbn; [eauto|]. destruct r as [a|e']; cbn; [|eauto].
  destruct (IH Hin) as [e' ->]. eauto.
Qed.

(** ** LIKE without wildcards *)

(** Literal items match the text itself. *)
Lemma like_match_lit l p s :
  like_match (List.map Lit l ++ p) s = true <-> exists b, s = l ++ b /\ like_match p b = true.
Proof.
  revert s. induction l as [|c l IH]; intros s; simpl.
  - split; [by exists s|]. by intros (b & -> & H).
  - destruct s as [|x s].
    + split; [done|]. by intros (b & H & _).
    + rw andb_true_iff bool_decide_eq_true IH. split.
      * intros (-> & b & -> & Hb). by exists b.
      * intros (b & [= -> ->] & Hb). eauto.
Qed.

(** A percent sign skips any prefix. *)
Lemma like_match_any p s :
  like_match (AnyString :: p) s = true <-> exists a b, s = a ++ b /\ like_match p b = true.
Proof.
  induction s as [|x s IH].
  - cbn. rw orb_false_r. split; [intros H; by exists [], []|].
    intros (a & b & [-> ->]%eq_sym%app_eq_nil & H). done.
  - change (like_match p (x :: s) || like_match (AnyString :: p) s = true <->
      exists a b, x :: s = a ++ b /\ like_match p b = true). rw orb_true_iff IH. split.
    + intros [H|(a & b & -> & H)]; [by exists [], (x :: s)|by exists (x :: a), b].
    + intros ([|y a] & b & Heq & H); simpl in Heq.
      * left. by rw Heq.
      * injection Heq as -> ->. right. eauto.
Qed.

(** A pattern of literal text between two percent signs is the search for a substring. *)
Lemma like_match_contains l s :
  like_match (AnyString :: List.map Lit l ++ [AnyString]) s = true <-> exists a b, s = a ++ l ++ b.
Proof.
  rw like_match_any. split.
  - intros (a & b & -> & (c & -> & _)%like_match_lit). eauto.
  - intros (a & b & ->). exists a, (l ++ b). split; [done|]. apply like_match_lit. exists b. split; [done|].
    apply like_match_any. exists b, []. by rw app_nil_r.
Qed.

(** ** A server on which the witnesses evaluate

    Byte-wise collation, integers of one decimal digit, Python's floats, a clock in UTC, and the longest
    duration as every percentile. *)

Definition toy_int4in (s : string) : option Z :=
  match String.list_ascii_of_string s with
  | [c] => let n := Z.of_N (N_of_ascii c) - 48 in if (0 <=? n) && (n <=? 9) then Some n else None
  | _ => None
  end.
(** The texts Python reads, without separators between digits. *)
Definition toy_float8in (s : string) : option float :=
  if existsb (fun c => bool_decide (c = underscore)) (String.list_ascii_of_string s) then None else py_float s.
Definition granule (g : AnalyticsGranularity) : Z :=
  match g with HOUR => 3600 * 1000000 | DAY => 86400 * 1000000 | WEEK => 7 * 86400 * 1000000 end.
Definition toy_server : Postgres :=
  {| collate := fun a b => String.leb a b; int4in := toy_int4in; float8in := toy_float8in; date_trunc := fun g t => t - t mod granule g;
     percentile_cont := fun _ l => match l with [] => None | x :: l' => Some (fdiv (of_Z (zmax_list x l')) (of_Z 1000000)) end |}.
