(* ===== verification/World.v ===== *)
(** * The world a request or a task runs in

    The database as the current session sees it and as last committed, Redis,
    the conversation with Stripe, the Celery queue, the clock and the source of
    fresh UUIDs.  A coroutine of the backend is an [M World A]. *)
From stdpp Require Import base gmap strings list.
From Stdlib Require Import ZArith Lia ssreflect.
From S2P Require Import Prelude Constants Entities Float64 Json Evals Telemetry.

#[local] Open Scope Z_scope.

(** ** Database *)

Record DB := {
  subscriptions : list Subscription;
  usage_records : list UsageRecord;
  billing_reports : list BillingReport;
  users : list User;
  organizations : list Organization;
  memberships : list Membership;
  invitations : list Invitation;
  projects : list Project;
  api_keys : list APIKey;
  telemetry : Telemetry }.

Definition empty_db : DB :=
  {| subscriptions := []; usage_records := []; billing_reports := []; users := [];
     organizations := []; memberships := []; invitations := []; projects := []; api_keys := [];
     telemetry := empty_telemetry |}.

Definition set_subscriptions (t : list Subscription) (d : DB) : DB :=
  {| subscriptions := t; usage_records := usage_records d; billing_reports := billing_reports d;
     users := users d; organizations := organizations d; memberships := memberships d;
     invitations := invitations d; projects := projects d; api_keys := api_keys d;
     telemetry := telemetry d |}.
Definition set_usage_records (t : list UsageRecord) (d : DB) : DB :=
  {| subscriptions := subscriptions d; usage_records := t; billing_reports := billing_reports d;
     users := users d; organizations := organizations d; memberships := memberships d;
     invitations := invitations d; projects := projects d; api_keys := api_keys d;
     telemetry := telemetry d |}.
Definition set_billing_reports (t : list BillingReport) (d : DB) : DB :=
  {| subscriptions := subscriptions d; usage_records := usage_records d; billing_reports := t;
     users := users d; organizations := organizations d; memberships := memberships d;
     invitations := invitations d; projects := projects d; api_keys := api_keys d;
     telemetry := telemetry d |}.
Definition set_users (t : list User) (d : DB) : DB :=
  {| subscriptions := subscriptions d; usage_records := usage_records d; billing_reports := billing_reports d;
     users := t; organizations := organizations d; memberships := memberships d;
     invitations := invitations d; projects := projects d; api_keys := api_keys d;
     telemetry := telemetry d |}.
Definition set_organizations (t : list Organization) (d : DB) : DB :=
  {| subscriptions := subscriptions d; usage_records := usage_records d; billing_reports := billing_reports d;
     users := users d; organizations := t; memberships := memberships d;
     invitations := invitations d; projects := projects d; api_keys := api_keys d;
     telemetry := telemetry d |}.
Definition set_memberships (t : list Membership) (d : DB) : DB :=
  {| subscriptions := subscriptions d; usage_records := usage_records d; billing_reports := billing_reports d;
     users := users d; organizations := organizations d; memberships := t;
     invitations := invitations d; projects := projects d; api_keys := api_keys d;
     telemetry := telemetry d |}.
Definition set_invitations (t : list Invitation) (d : DB) : DB :=
  {| subscriptions := subscriptions d; usage_records := usage_records d; billing_reports := billing_reports d;
     users := users d; organizations := organizations d; memberships := memberships d;
     invitations := t; projects := projects d; api_keys := api_keys d;
     telemetry := telemetry d |}.
Definition set_projects (t : list Project) (d : DB) : DB :=
  {| subscriptions := subscriptions d; usage_records := usage_records d; billing_reports := billing_reports d;
     users := users d; organizations := organizations d; memberships := memberships d;
     invitations := invitations d; projects := t; api_keys := api_keys d;
     telemetry := telemetry d |}.
Definition set_api_keys (t : list APIKey) (d : DB) : DB :=
  {| subscriptions := subscriptions d; usage_records := usage_records d; billing_reports := billing_reports d;
     users := users d; organizations := organizations d; memberships := memberships d;
     invitations := invitations d; projects := projects d; api_keys := t;
     telemetry := telemetry d |}.
Definition set_telemetry (t : Telemetry) (d : DB) : DB :=
  {| subscriptions := subscriptions d; usage_records := usage_records d; billing_reports := billing_reports d;
     users := users d; organizations := organizations d; memberships := memberships d;
     invitations := invitations d; projects := projects d; api_keys := api_keys d;
     telemetry := t |}.

(** ** Redis *)

(** Keys that hold a lock or an idempotency marker. *)
Inductive LockKey :=
  | OverageLock (org : N)
  | StripeEvt (event_id : string)
  | DispatchLock (name : string).

#[export] Instance LockKey_eq_dec : EqDecision LockKey.
Proof. solve_decision. Defined.
#[export] Instance LockKey_countable : Countable LockKey.
Proof.
  refine (inj_countable'
    (fun k => match k with OverageLock o => inl o | StripeEvt s => inr (inl s) | DispatchLock s => inr (inr s) end)
    (fun x => match x with inl o => OverageLock o | inr (inl s) => StripeEvt s | inr (inr s) => DispatchLock s end) _).
  by intros [].
Defined.

(** A lock value: an owner token, or the durable completion marker. *)
Inductive LockVal := Tok (t : N) | Completed.
#[export] Instance LockVal_eq_dec : EqDecision LockVal.
Proof. solve_decision. Defined.

(** The payload bound to a CLI authorization code. *)
Record CodePayload := {
  cp_user : N; cp_org : N; cp_project : N; cp_project_name : string;
  cp_challenge : string; cp_label : string; cp_expires_days : Z }.

(** ["pp:usage:{org}:{YYYY-MM-DD}"]: the organisation and the UTC day number. *)
Abbreviation UsageKey := (N * Z)%type.
(** The usage key's [":retry:"] (false) and [":rollback-retry:"] (true) keys. *)
Abbreviation DedupKey := (UsageKey * (bool * N))%type.

Record UsageHash := { h_fields : gmap UsageCategory Z; h_expires : option Z }.

Record Redis := {
  r_locks : gmap LockKey (LockVal * Z);
  r_subs : gmap N (Subscription * Z);
  r_usage : gmap UsageKey UsageHash;
  r_dedup : gmap DedupKey (Z * Z);
  r_codes : gmap string (CodePayload * Z) }.

Definition empty_redis : Redis :=
  {| r_locks := ∅; r_subs := ∅; r_usage := ∅; r_dedup := ∅; r_codes := ∅ |}.

Definition set_locks m (r : Redis) : Redis :=
  {| r_locks := m; r_subs := r_subs r; r_usage := r_usage r; r_dedup := r_dedup r; r_codes := r_codes r |}.
Definition set_subs m (r : Redis) : Redis :=
  {| r_locks := r_locks r; r_subs := m; r_usage := r_usage r; r_dedup := r_dedup r; r_codes := r_codes r |}.
Definition set_usage m (r : Redis) : Redis :=
  {| r_locks := r_locks r; r_subs := r_subs r; r_usage := m; r_dedup := r_dedup r; r_codes := r_codes r |}.
Definition set_dedup m (r : Redis) : Redis :=
  {| r_locks := r_locks r; r_subs := r_subs r; r_usage := r_usage r; r_dedup := m; r_codes := r_codes r |}.
Definition set_codes m (r : Redis) : Redis :=
  {| r_locks := r_locks r; r_subs := r_subs r; r_usage := r_usage r; r_dedup := r_dedup r; r_codes := m |}.

(** An entry with an expiry is visible strictly before it. *)
Definition live {V} (now : Z) (e : option (V * Z)) : option V :=
  match e with
  | Some (v, x) => if now <? x then Some v else None
  | None => None
  end.

(** The visible fields of a usage hash; a missing key is the empty hash. *)
Definition hash_fields (now : Z) (e : option UsageHash) : gmap UsageCategory Z :=
  match e with
  | Some h => match h_expires h with
              | Some x => if now <? x then h_fields h else ∅
              | None => h_fields h
              end
  | None => ∅
  end.
Definition hash_expiry (now : Z) (e : option UsageHash) : option Z :=
  match e with
  | Some h => match h_expires h with
              | Some x => if now <? x then Some x else None
              | None => None
              end
  | None => None
  end.

(** ** Stripe

    Stripe is outside the repository: its answers are an arbitrary script the
    world carries, its requests a log.  An exhausted script, or an answer of
    another kind, is a failed call. *)

Record StripeItem := {
  si_id : string;
  si_report : option N;
  si_category : option UsageCategory;
  si_amount : Z;
  si_currency : string }.

Inductive StripeReq :=
  | RetrieveSubscription (id : string)
  | RetrieveInvoice (id : string)
  | CreateItem (params : ItemRequest)
  | ListItems (customer : string) (created_gte : Z)
  | CreateCheckout (org : N) (plan : SubscriptionPlan) (price_id : string) (customer : option string)
  | CreatePortal (customer : string).

Inductive StripeResp :=
  | RespSubscription (items : list (Z * Z))
  | RespInvoice (status : string)
  | RespItem (id : string)
  | RespItems (items : list StripeItem)
  | RespUrl (url : string)
  | RespInvalid (code param : string)
  | RespFailure.

(** ** Celery messages *)

Inductive Task :=
  | TSyncOrg (org : N)
  | TBillOrg (org : N)
  | TDeliver (report : N)
  | TCheckClosed (org : N) (start end_ : Z) (report : N)
  | TResetHobby (org : N)
  | TInvitationEmail (to_ : string) (org_name inviter : string) (role : MembershipRole)
  | TWelcomeEmail (email : string)
  | TFollowupEmail (email : string)
  | TCrmSync (email : string)
  | TProcessTrace (payload : Trace) (retries : nat)
  | TExecuteEvalRun (run project : N) (traces : list N) (metric_map : option (list (N * list string))) (retries : nat)
  | TExecuteSessionEvalRun (run project : N) (sessions : list string) (retries : nat)
  | TProcessMonitor (monitor project : N) (retries : nat).

Record Settings := {
  stripe_secret_key : string;
  stripe_pro_price : string;
  stripe_startup_price : string;
  resend_configured : bool;
  crm_configured : bool;
  app_url : string;
  auth_enabled : bool }.

(** ** The world *)

Record World := {
  db : DB;
  durable : DB;
  redis : Redis;
  stripe_script : list StripeResp;
  stripe_log : list StripeReq;
  queue : list Task;
  now : Z;
  next_id : N;
  locked_elsewhere : list N;
  settings : Settings }.

Definition set_db (d : DB) (w : World) : World :=
  {| db := d; durable := durable w; redis := redis w; stripe_script := stripe_script w;
     stripe_log := stripe_log w; queue := queue w; now := now w; next_id := next_id w;
     locked_elsewhere := locked_elsewhere w; settings := settings w |}.
Definition set_durable (d : DB) (w : World) : World :=
  {| db := db w; durable := d; redis := redis w; stripe_script := stripe_script w;
     stripe_log := stripe_log w; queue := queue w; now := now w; next_id := next_id w;
     locked_elsewhere := locked_elsewhere w; settings := settings w |}.
Definition set_redis (r : Redis) (w : World) : World :=
  {| db := db w; durable := durable w; redis := r; stripe_script := stripe_script w;
     stripe_log := stripe_log w; queue := queue w; now := now w; next_id := next_id w;
     locked_elsewhere := locked_elsewhere w; settings := settings w |}.
Definition set_stripe (s : list StripeResp) (l : list StripeReq) (w : World) : World :=
  {| db := db w; durable := durable w; redis := redis w; stripe_script := s;
     stripe_log := l; queue := queue w; now := now w; next_id := next_id w;
     locked_elsewhere := locked_elsewhere w; settings := settings w |}.
Definition set_queue (q : list Task) (w : World) : World :=
  {| db := db w; durable := durable w; redis := redis w; stripe_script := stripe_script w;
     stripe_log := stripe_log w; queue := q; now := now w; next_id := next_id w;
     locked_elsewhere := locked_elsewhere w; settings := settings w |}.
Definition set_now (t : Z) (w : World) : World :=
  {| db := db w; durable := durable w; redis := redis w; stripe_script := stripe_script w;
     stripe_log := stripe_log w; queue := queue w; now := t; next_id := next_id w;
     locked_elsewhere := locked_elsewhere w; settings := settings w |}.
Definition set_next_id (n : N) (w : World) : World :=
  {| db := db w; durable := durable w; redis := redis w; stripe_script := stripe_script w;
     stripe_log := stripe_log w; queue := queue w; now := now w; next_id := n;
     locked_elsewhere := locked_elsewhere w; settings := settings w |}.

(** ** Primitive effects *)

(** [uuid4()], and the random part of every token: never returned before. *)
Definition uuid4 : M World N := fun w => (Ok (next_id w), set_next_id (N.succ (next_id w)) w).
Definition utcnow : M World Z := gets now.
Definition get_settings : M World Settings := gets settings.

Definition read_db {A} (f : DB -> A) : M World A := gets (fun w => f (db w)).
Definition write_db (f : DB -> DB) : M World unit := modify (fun w => set_db (f (db w)) w).
Definition commit : M World unit := modify (fun w => set_durable (db w) w).
Definition rollback : M World unit := modify (fun w => set_db (durable w) w).

(** [async with session_factory() as session]: uncommitted work is dropped. *)
Definition with_session {A} (m : M World A) : M World A := rollback ;; try_finally m rollback.

(** The request-scoped session of infrastructure/db/engine.py: commit when the
    handler returns, roll back when it raises. *)
Definition get_db_session {A} (m : M World A) : M World A :=
  rollback ;;
  try_finally
    (try_except (a ← m; commit ;; mret a) (fun e => rollback ;; raise e))
    rollback.

(** Inserting a row checks the table's unique constraints. *)
Definition insert_row {R} (clash : R -> R -> bool) (get : DB -> list R)
    (set : list R -> DB -> DB) (row : R) : M World unit := fun w =>
  if existsb (clash row) (get (db w)) then (Err IntegrityError, w)
  else (Ok tt, set_db (set (get (db w) ++ [row]) (db w)) w).

(** A row whose primary key defaults to [uuid4]: [mk] builds it from the key. *)
Definition insert_fresh {R} (clash : R -> R -> bool) (get : DB -> list R)
    (set : list R -> DB -> DB) (mk : N -> R) : M World R :=
  id ← uuid4;
  insert_row clash get set (mk id) ;;
  mret (mk id).

(** Python code that stores [default=_utcnow] and [onupdate=_utcnow] columns
    reads the clock; a changed ORM row is stamped, an unchanged one is not. *)
Definition stamp {R} `{EqDecision R} (touch : Z -> R -> R) (t : Z) (old new : R) : R :=
  if decide (old = new) then old else touch t new.

Definition redis_get {A} (f : Redis -> Z -> A) : M World A := gets (fun w => f (redis w) (now w)).
Definition redis_update (f : Redis -> Z -> Redis) : M World unit :=
  modify (fun w => set_redis (f (redis w) (now w)) w).

(** One call to Stripe: log the request, take the next scripted answer. *)
Definition stripe_call (r : StripeReq) : M World StripeResp := fun w =>
  match stripe_script w with
  | [] => (Ok RespFailure, set_stripe [] (stripe_log w ++ [r]) w)
  | a :: s => (Ok a, set_stripe s (stripe_log w ++ [r]) w)
  end.

Definition enqueue (t : Task) : M World unit := modify (fun w => set_queue (queue w ++ [t]) w).

(** ** Concrete worlds, on which the witnesses of the development evaluate *)

Definition hobby_sub : Subscription :=
  {| sub_id := 1; sub_org := 5; sub_plan := HOBBY; sub_status := ACTIVE; sub_customer := None;
     sub_stripe_id := None; sub_start := 0; sub_end := days 30; sub_canceled_at := None;
     sub_created := 0; sub_updated := 0 |}.

Definition test_settings : Settings :=
  {| stripe_secret_key := "sk"; stripe_pro_price := "price_pro"; stripe_startup_price := "price_startup";
     resend_configured := false; crm_configured := false; app_url := ""; auth_enabled := true |}.

Definition world_of (d : DB) (t : Z) (script : list StripeResp) : World :=
  {| db := d; durable := d; redis := empty_redis; stripe_script := script; stripe_log := []; queue := [];
     now := t; next_id := 100; locked_elsewhere := []; settings := test_settings |}.

Definition hobby_world : World := world_of (set_subscriptions [hobby_sub] empty_db) 10 [].

Definition pro_sub : Subscription :=
  {| sub_id := 2; sub_org := 7; sub_plan := PRO; sub_status := ACTIVE; sub_customer := Some "cus_1";
     sub_stripe_id := Some "sub_1"; sub_start := days 10; sub_end := days 40; sub_canceled_at := None;
     sub_created := 0; sub_updated := 0 |}.

(** A PRO period with 5010 traces, 10 over the included 5000. *)
Definition pro_usage : UsageRecord :=
  {| ur_id := 3; ur_org := 7; ur_start := days 10; ur_end := days 40;
     ur_count := {| traces := 5010; trace_evals := 12; session_evals := 0 |};
     ur_reported := zero_counts; ur_billed := false; ur_invoice := None;
     ur_created := days 10; ur_updated := days 10 |}.

Definition pro_db : DB := set_usage_records [pro_usage] (set_subscriptions [pro_sub] empty_db).
Definition pro_world : World := world_of pro_db (days 20) [].
