(* ===== verification/Invariant.v ===== *)
(** * The billing invariant

    What every operation of the billing system maintains, of the database a
    session sees and of what is committed:
    - [wf_tables]: identifiers and unique constraints;
    - [ledger]: the units reserved by the reports of a usage record account
      exactly for the recorded overage, each unit once;
    - [requests_ok]: every reserved request is the one its report determines;
    - [sent_ok]: every charge ever sent to Stripe is backed by a report row, unless the
      row went with its organization, and two charges with one idempotency key are the
      same request. *)
From stdpp Require Import base gmap strings list.
From Stdlib Require Import ZArith Lia ssreflect.
From S2P Require Import Prelude Constants Entities World.

#[local] Open Scope Z_scope.

(** ** Keys *)

Lemma bool_decide_sym {A} `{EqDecision A} (a b : A) : bool_decide (a = b) = bool_decide (b = a).
Proof. apply bool_decide_ext. naive_solver. Qed.
Lemma opt_clash_sym a b : opt_clash a b = opt_clash b a.
Proof. destruct a, b; simpl; [apply bool_decide_sym|done|done|done]. Qed.
Lemma SubscriptionModel_clash_sym a b : SubscriptionModel_clash a b = SubscriptionModel_clash b a.
Proof. unfold SubscriptionModel_clash. f_equal; [apply bool_decide_sym|apply opt_clash_sym]. Qed.
Lemma UsageRecordModel_clash_sym a b : UsageRecordModel_clash a b = UsageRecordModel_clash b a.
Proof. unfold UsageRecordModel_clash. f_equal; apply bool_decide_sym. Qed.
Lemma BillingReportModel_clash_sym a b : BillingReportModel_clash a b = BillingReportModel_clash b a.
Proof. unfold BillingReportModel_clash. f_equal; [apply bool_decide_sym|apply opt_clash_sym]. Qed.

Lemma stamp_cases {R} `{EqDecision R} touch t (old new : R) :
  stamp touch t old new = old \/ stamp touch t old new = touch t new.
Proof. unfold stamp. destruct (decide (old = new)); auto. Qed.

(** Identifiers are distinct and were all drawn before [next_id]; one
    subscription per organisation and per Stripe subscription; one usage record
    per organisation and period start; one closure report per usage record and
    closing invoice. *)
Definition wf_tables (n : N) (d : DB) : Prop :=
  table_ok sub_id SubscriptionModel_clash n (subscriptions d) /\
  table_ok ur_id UsageRecordModel_clash n (usage_records d) /\
  table_ok br_id BillingReportModel_clash n (billing_reports d).

Lemma wf_tables_mono n n' d : (n <= n')%N -> wf_tables n d -> wf_tables n' d.
Proof. intros Hn (H1 & H2 & H3). split_and!; (eapply table_ok_mono; eassumption). Qed.

(** The six goals of [db_ok]: the three tables, ledger, requests, sent. *)
Ltac split_db_ok := split; [split; [|split]|split; [|split]].

(** ** The ledger *)

Definition max0 (x : Z) : Z := Z.max 0 x.

(** The reports of a usage record. *)
Definition reports_of (d : DB) (uid : N) : list BillingReport :=
  select (fun r => bool_decide (br_usage r = uid)) (billing_reports d).

(** The units a report reserves, and those of a list of reports. *)
Definition units_of (r : BillingReport) (c : UsageCategory) : Z :=
  match br_requests r !! c with Some q => ir_units q | None => 0 end.
Definition total_units (reps : list BillingReport) (c : UsageCategory) : Z :=
  foldr (fun r a => units_of r c + a) 0 reps.

(** The highest count already reserved or reported. *)
Definition reserved (u : UsageRecord) (reps : list BillingReport) (c : UsageCategory) : Z :=
  zmax_list (cnt (ur_reported u) c) (List.map (fun r => cnt (br_snapshot r) c) reps).

Definition base_of (r : BillingReport) (c : UsageCategory) : Z := cnt (base_units (br_pricing r)) c.

(** The amount of a request in cents. *)
Definition cents (p : Pricing) (units : Z) : Z :=
  quantize_half_up (dec_mul_int (dec_mul_int (unit_price p) units) 100).

(** The request a report may hold for a category. *)
Definition request_ok (r : BillingReport) (c : UsageCategory) (q : ItemRequest) : Prop :=
  ir_category q = c /\ ir_report q = br_id r /\ ir_customer q = br_customer r /\
  ik_report (ir_key q) = br_id r /\ ik_category (ir_key q) = c /\
  0 < ir_units q /\ ir_to q = cnt (br_snapshot r) c /\
  ir_units q = max0 (ir_to q - base_of r c) - max0 (ir_from q - base_of r c) /\
  ir_amount q = cents (br_pricing r) (ir_units q).

(** A request [q] already sent against the current request [q'] of its report:
    an earlier incarnation, before a carryover, or the frozen request itself. *)
Definition sent_one (d : DB) (q : ItemRequest) : Prop :=
  exists r q', r ∈ billing_reports d /\ br_id r = ir_report q /\
    br_requests r !! ir_category q = Some q' /\
    ik_report (ir_key q) = ir_report q /\ ik_category (ir_key q) = ir_category q /\
    ir_amount q = ir_amount q' /\ ir_units q = ir_units q' /\ ir_from q = ir_from q' /\ ir_to q = ir_to q' /\
    ((ik_carryovers (ir_key q) < ik_carryovers (ir_key q'))%nat \/
     (q = q' /\ is_Some (br_attempted r !! ir_category q))).

(** What the tables do not show: the watermark a usage record had before its first report (zero, except for
    records that predate the reports table), and the charges whose reports went with their organization. *)
Record Ghost := { initial :> N -> Counts; dropped : list ItemRequest }.
Definition from_start : Ghost := {| initial := fun _ => zero_counts; dropped := [] |}.

(** A charge whose report is gone keeps its key from being used again. *)
Definition gone_for_good (n : N) (d : DB) (q : ItemRequest) : Prop :=
  (ir_report q < n)%N /\ ik_report (ir_key q) = ir_report q /\ forall r, r ∈ billing_reports d -> br_id r <> ir_report q.
Definition sent_ok (gone : list ItemRequest) (n : N) (log : list StripeReq) (d : DB) : Prop :=
  (forall q, CreateItem q ∈ log -> sent_one d q \/ q ∈ gone) /\
  (forall q1 q2, CreateItem q1 ∈ log -> CreateItem q2 ∈ log -> ir_key q1 = ir_key q2 -> q1 = q2) /\
  (forall q, q ∈ gone -> gone_for_good n d q).

Section invariant.
Context (w0 : Ghost).

(** Every unit between the initial watermark and the highest reserved count
    that is over the included base is reserved by exactly one report. *)
Definition usage_ok (u : UsageRecord) (reps : list BillingReport) : Prop :=
  (reps = [] -> ur_reported u = w0 (ur_id u)) /\
  (forall r r', r ∈ reps -> r' ∈ reps -> br_pricing r = br_pricing r') /\
  (forall r c, r ∈ reps ->
     total_units reps c =
     max0 (reserved u reps c - base_of r c) - max0 (cnt (w0 (ur_id u)) c - base_of r c)).

Definition ledger (n : N) (d : DB) : Prop :=
  (forall r, r ∈ billing_reports d -> (br_usage r < n)%N) /\
  (forall u, u ∈ usage_records d -> usage_ok u (reports_of d (ur_id u))) /\
  (forall m, (n <= m)%N -> w0 m = zero_counts).

Definition requests_ok (d : DB) : Prop :=
  forall r c q, r ∈ billing_reports d -> br_requests r !! c = Some q -> request_ok r c q.

Definition db_ok (n : N) (log : list StripeReq) (d : DB) : Prop :=
  wf_tables n d /\ ledger n d /\ requests_ok d /\ sent_ok (dropped w0) n log d.

(** What the session sees and what is committed are both consistent. *)
Definition billing_wf (w : World) : Prop :=
  db_ok (next_id w) (stripe_log w) (db w) /\ db_ok (next_id w) (stripe_log w) (durable w).

Lemma db_ok_mono n n' l d : (n <= n')%N -> db_ok n l d -> db_ok n' l d.
Proof.
  intros Hn (H1 & (L1 & L2 & L3) & H3 & (S1 & S2 & S3)). split; [eapply wf_tables_mono; eassumption|split; [|split; [done|]]].
  - split_and!; [|done|].
    + intros r Hr. specialize (L1 r Hr). lia.
    + intros m Hm. apply L3. lia.
  - split_and!; [done..|]. intros q Hq. destruct (S3 q Hq) as (G1 & G2 & G3). split_and!; [lia|done|done].
Qed.

(** *** Changes of one table *)

Lemma db_ok_subscriptions n l d t :
  table_ok sub_id SubscriptionModel_clash n t -> db_ok n l d -> db_ok n l (set_subscriptions t d).
Proof. intros Ht ((_ & H2 & H3) & L & R & S). split_db_ok; done. Qed.

Lemma db_ok_update_subscriptions p f n l d :
  (forall s, sub_id (f s) = sub_id s) -> (forall s, sub_org (f s) = sub_org s) ->
  (forall s, sub_stripe_id (f s) = sub_stripe_id s) ->
  db_ok n l d -> db_ok n l (set_subscriptions (update_where p f (subscriptions d)) d).
Proof.
  intros Hi Ho Hs H. apply db_ok_subscriptions; [|done].
  apply table_ok_update; [apply SubscriptionModel_clash_sym|done| |apply H].
  intros a b. unfold SubscriptionModel_clash. by rw Ho Hs.
Qed.

Lemma usage_ok_ext u u' reps :
  ur_id u' = ur_id u -> ur_reported u' = ur_reported u -> usage_ok u reps -> usage_ok u' reps.
Proof.
  intros Hi Hr (U1 & U2 & U3). unfold usage_ok, reserved. rw Hi Hr. split_and!; [done|done|exact U3].
Qed.

Lemma db_ok_update_usage p f n l d :
  (forall u, ur_id (f u) = ur_id u) -> (forall u, ur_org (f u) = ur_org u) ->
  (forall u, ur_start (f u) = ur_start u) -> (forall u, ur_reported (f u) = ur_reported u) ->
  db_ok n l d -> db_ok n l (set_usage_records (update_where p f (usage_records d)) d).
Proof.
  intros Hi Ho Hs Hr ((H1 & H2 & H3) & (L1 & L2 & L3) & R & S). split_db_ok; try done; cbn.
  - apply table_ok_update; [apply UsageRecordModel_clash_sym|done| |done].
    intros a b. unfold UsageRecordModel_clash. by rw Ho Hs.
  - split_and!; [done| |done]. intros u Hu. apply elem_of_update_where in Hu as (u0 & Hu0 & ->).
    specialize (L2 u0 Hu0). destruct (p u0); [|exact L2]. rw Hi. by eapply usage_ok_ext; [apply Hi|apply Hr|exact L2].
Qed.

Lemma reports_of_fresh n d : (forall r, r ∈ billing_reports d -> (br_usage r < n)%N) -> reports_of d n = [].
Proof.
  intros H. apply select_none. intros r Hr. apply bool_decide_eq_false_2. specialize (H r Hr). lia.
Qed.

Lemma db_ok_insert_usage n l d u :
  existsb (UsageRecordModel_clash u) (usage_records d) = false -> ur_id u = n -> ur_reported u = zero_counts ->
  db_ok n l d -> db_ok (N.succ n) l (set_usage_records (usage_records d ++ [u]) d).
Proof.
  intros He Hi Hz Hd. pose proof Hd as ((H1 & H2 & H3) & (L1 & L2 & L3) & R & S).
  pose proof (db_ok_mono n (N.succ n) l d ltac:(lia) Hd) as ((M1 & M2 & M3) & (K1 & K2 & K3) & KR & KS).
  split_db_ok; try done; cbn -[N.succ].
  - apply table_ok_insert; [apply UsageRecordModel_clash_sym|done|done|done].
  - split_and!; [done| |done]. intros v Hv. apply elem_of_app in Hv as [Hv|Hv]; [by apply L2|].
    apply list_elem_of_singleton in Hv as ->. rw Hi.
    change (reports_of _ n) with (reports_of d n). rw reports_of_fresh; [done|]. split_and!; [by rw Hz Hi L3|..]; intros r; [intros r'|intros c]; by intros H%elem_of_nil.
Qed.
End invariant.

(** ** Reports *)

Lemma elem_of_reports_of d uid r : r ∈ reports_of d uid <-> r ∈ billing_reports d /\ br_usage r = uid.
Proof. unfold reports_of. by rw elem_of_select bool_decide_eq_true. Qed.

(** An update of a report that keeps what the ledger reads. *)
Definition same_reservation (r r' : BillingReport) : Prop :=
  br_id r' = br_id r /\ br_usage r' = br_usage r /\ br_closing r' = br_closing r /\
  br_snapshot r' = br_snapshot r /\ br_pricing r' = br_pricing r /\ br_customer r' = br_customer r /\
  forall c, units_of r' c = units_of r c.

Lemma total_units_map (f : BillingReport -> BillingReport) reps c :
  (forall r, r ∈ reps -> units_of (f r) c = units_of r c) -> total_units (List.map f reps) c = total_units reps c.
Proof.
  unfold total_units. induction reps as [|r reps IH]; intros H; simpl; [done|].
  rw (H r); [by left|]. rw IH; [|done]. intros r' Hr'. apply H. by right.
Qed.

Section reports.
Context (w0 : Ghost).

Lemma usage_ok_map u f reps :
  (forall r, r ∈ reps -> same_reservation r (f r)) -> usage_ok w0 u reps -> usage_ok w0 u (List.map f reps).
Proof.
  intros Hf (U1 & U2 & U3). split_and!.
  - intros H. apply U1. by destruct reps.
  - intros r r' Hr Hr'. apply list_elem_of_fmap in Hr as (a & -> & Ha), Hr' as (b & -> & Hb).
    destruct (Hf a Ha) as (_ & _ & _ & _ & -> & _), (Hf b Hb) as (_ & _ & _ & _ & -> & _). by apply U2.
  - intros r c Hr. apply list_elem_of_fmap in Hr as (a & -> & Ha).
    rw total_units_map; [intros b Hb; by apply Hf|]. rw (U3 a c Ha). unfold base_of.
    destruct (Hf a Ha) as (_ & _ & _ & _ & -> & _).
    replace (reserved u (List.map f reps) c) with (reserved u reps c); [done|].
    unfold reserved. rw List.map_map. f_equal. apply List.map_ext_in. intros b Hb%list_elem_of_In.
    by destruct (Hf b Hb) as (_ & _ & _ & -> & _).
Qed.

(** What a new version [r'] of a report row owes the requests already sent. *)
Definition sent_compat (r r' : BillingReport) : Prop :=
  forall c q, br_requests r !! c = Some q -> exists q', br_requests r' !! c = Some q' /\
    ir_amount q' = ir_amount q /\ ir_units q' = ir_units q /\ ir_from q' = ir_from q /\ ir_to q' = ir_to q /\
    ((ik_carryovers (ir_key q) < ik_carryovers (ir_key q'))%nat \/
     (ir_key q = ir_key q' /\ (is_Some (br_attempted r !! c) -> q = q' /\ is_Some (br_attempted r' !! c)))).

Lemma db_ok_update_reports n l d id f :
  (forall r, r ∈ billing_reports d -> br_id r = id ->
     same_reservation r (f r) /\ sent_compat r (f r) /\
     forall c q, br_requests (f r) !! c = Some q -> request_ok (f r) c q) ->
  db_ok w0 n l d ->
  db_ok w0 n l (set_billing_reports (update_where (fun r => bool_decide (br_id r = id)) f (billing_reports d)) d).
Proof.
  intros Hf ((H1 & H2 & H3) & (L1 & L2 & L3) & R & (S1 & S2 & S3)).
  set (g := fun r => if bool_decide (br_id r = id) then f r else r).
  assert (Hg : forall r, r ∈ billing_reports d -> same_reservation r (g r)).
  { intros r Hr. unfold g. case_bool_decide as E; [by apply (Hf r Hr E)|]. by split_and!. }
  split_db_ok; [done|done| | | |]; cbn; change (update_where _ f (billing_reports d)) with (List.map g (billing_reports d)).
  - apply table_ok_map_in; [apply BillingReportModel_clash_sym| |done].
    intros r Hr. destruct (Hg r Hr) as (-> & Hu & Hc & _). split; [done|].
    intros b. unfold BillingReportModel_clash. by rw Hu Hc.
  - split_and!; [| |done].
    + intros r Hr. apply list_elem_of_fmap in Hr as (a & -> & Ha). destruct (Hg a Ha) as (_ & -> & _). by apply L1.
    + intros u Hu. unfold reports_of. cbn [billing_reports set_billing_reports].
      rw select_map_in.
      { intros r Hr. destruct (Hg r Hr) as (_ & -> & _). done. }
      apply usage_ok_map; [|by apply L2]. intros r Hr. apply Hg. by apply elem_of_select in Hr as [Hr _].
  - intros r c q Hr Hq. apply list_elem_of_fmap in Hr as (a & -> & Ha). unfold g in *.
    case_bool_decide as E; [by apply (Hf a Ha E)|by apply R].
  - split_and!; [|done|].
    2: { intros q Hq. destruct (S3 q Hq) as (G1 & G2 & G3). split_and!; [done|done|]. intros r Hr.
         apply list_elem_of_fmap in Hr as (a & -> & Ha). destruct (Hg a Ha) as (-> & _). by apply G3. }
    intros q Hq. destruct (S1 q Hq) as [(r & q' & Hr & Hid & Hq' & Hk1 & Hk2 & Ham & Hun & Hfr & Hto & Hor)|Hgone]; [left|by right].
    destruct (Hg r Hr) as (Hgid & _). exists (g r).
    assert (Hgr : g r ∈ List.map g (billing_reports d)) by (apply list_elem_of_fmap; by exists r).
    unfold g in *. case_bool_decide as E; [|exists q'; by split_and!].
    destruct (Hf r Hr E) as (_ & Hc & _). destruct (Hc _ _ Hq') as (q2 & Hq2 & E1 & E2 & E3 & E4 & Hor2).
    exists q2. split_and!; try done; try congruence.
    destruct Hor as [Hlt|[-> Hat]], Hor2 as [Hlt2|[Hk Hsame]]; [left; lia|left; by rw -Hk|by left|].
    destruct (Hsame Hat) as [-> Hat2]. by right.
Qed.

Lemma db_ok_sent n l d r c q :
  r ∈ billing_reports d -> br_requests r !! c = Some q -> is_Some (br_attempted r !! c) ->
  db_ok w0 n l d -> db_ok w0 n (l ++ [CreateItem q]) d.
Proof.
  intros Hr Hq Hat (H1 & L & R & (S1 & S2 & S3)). split_and!; [done|done|done|].
  destruct (R r c q Hr Hq) as (Q1 & Q2 & Q3 & Q4 & Q5 & _).
  assert (Hnew : sent_one d q).
  { exists r, q. rw Q1. split_and!; try done; try congruence. by right. }
  assert (Hkey : forall q1, CreateItem q1 ∈ l -> ir_key q1 = ir_key q -> q1 = q).
  { intros q1 Hq1 Hk. destruct (S1 q1 Hq1) as [(r1 & q1' & Hr1 & Hid1 & Hq1' & K1 & K2 & _ & _ & _ & _ & Hor)|Hgone].
    2: { destruct (S3 q1 Hgone) as (_ & G2 & G3). destruct (G3 r Hr). congruence. }
    assert (r1 = r) as ->.
    { apply (table_ok_same_id br_id BillingReportModel_clash n (billing_reports d)); try done; [apply H1|congruence]. }
    assert (Hc : ir_category q1 = c) by congruence. rw Hc Hq in Hq1'. injection Hq1' as <-.
    destruct Hor as [Hlt|[H _]]; [rw Hk in Hlt; lia|done]. }
  split_and!; [| |done].
  - intros q1 Hq1. apply elem_of_app in Hq1 as [Hq1|Hq1]; [by apply S1|].
    apply list_elem_of_singleton in Hq1 as [= ->]. by left.
  - intros q1 q2 Hq1 Hq2 Hk. apply elem_of_app in Hq1 as [Hq1|[= ->]%list_elem_of_singleton];
      apply elem_of_app in Hq2 as [Hq2|[= ->]%list_elem_of_singleton]; auto. symmetry. by apply Hkey.
Qed.

Lemma sent_one_mono d d' q :
  (forall r, r ∈ billing_reports d -> r ∈ billing_reports d') -> sent_one d q -> sent_one d' q.
Proof. intros H (r & q' & Hr & Hrest). exists r, q'. split; [by apply H|done]. Qed.

(** A new reservation: it starts where the earlier ones of the period stop. *)
Lemma usage_ok_reserve u reps r :
  usage_ok w0 u reps ->
  (forall r', r' ∈ reps -> br_pricing r' = br_pricing r) ->
  (forall c, reserved u reps c <= cnt (br_snapshot r) c /\
     units_of r c = max0 (cnt (br_snapshot r) c - base_of r c) - max0 (reserved u reps c - base_of r c)) ->
  usage_ok w0 u (reps ++ [r]).
Proof.
  intros (U1 & U2 & U3) Hp Hs.
  assert (Hpr : forall x, x ∈ reps ++ [r] -> br_pricing x = br_pricing r).
  { intros x [Hx| ->%list_elem_of_singleton]%elem_of_app; [by apply Hp|done]. }
  split_and!; [by destruct reps|intros x y Hx Hy; by rw !Hpr|].
  intros x c Hx. unfold base_of. rw (Hpr x Hx). fold (base_of r c). destruct (Hs c) as [Hle Hun].
  assert (Hres : reserved u (reps ++ [r]) c = cnt (br_snapshot r) c).
  { unfold reserved. rw List.map_app zmax_list_snoc. fold (reserved u reps c). lia. }
  assert (Htot : forall k, foldr (fun a b => units_of a c + b) k reps = total_units reps c + k).
  { intros k. unfold total_units. clear. induction reps as [|a l IH]; simpl; lia. }
  rw Hres. unfold total_units at 1. rw List.fold_right_app Htot. simpl. rw Hun.
  destruct reps as [|y l].
  - unfold reserved. simpl. rw U1; [done|]. lia.
  - rw (U3 y c); [by left|]. unfold base_of. rw (Hp y); [by left|]. fold (base_of r c). lia.
Qed.

Lemma db_ok_insert_report n l d u r :
  u ∈ usage_records d -> br_id r = n -> br_usage r = ur_id u ->
  existsb (BillingReportModel_clash r) (billing_reports d) = false ->
  (forall r', r' ∈ reports_of d (ur_id u) -> br_pricing r' = br_pricing r) ->
  (forall c, reserved u (reports_of d (ur_id u)) c <= cnt (br_snapshot r) c /\
     units_of r c = max0 (cnt (br_snapshot r) c - base_of r c)
                    - max0 (reserved u (reports_of d (ur_id u)) c - base_of r c)) ->
  (forall c q, br_requests r !! c = Some q -> request_ok r c q) ->
  db_ok w0 n l d -> db_ok w0 (N.succ n) l (set_billing_reports (billing_reports d ++ [r]) d).
Proof.
  intros Hu Hid Hus He Hp Hs Hq Hd. pose proof Hd as ((H1 & H2 & H3) & (L1 & L2 & L3) & R & (S1 & S2 & S3)).
  pose proof (db_ok_mono w0 n (N.succ n) l d ltac:(lia) Hd) as ((M1 & M2 & M3) & (K1 & K2 & K3) & _).
  split_db_ok; try done; cbn -[N.succ].
  - apply table_ok_insert; [apply BillingReportModel_clash_sym|done|done|done].
  - split_and!; [| |done].
    + intros x [Hx| ->%list_elem_of_singleton]%elem_of_app; [by apply K1|].
      destruct H2 as (_ & _ & H2). rw Forall_forall in H2. specialize (H2 u Hu). cbn in H2. lia.
    + intros v Hv. unfold reports_of. cbn [billing_reports set_billing_reports]. rw select_app. simpl.
      case_bool_decide as E; [|rw List.app_nil_r; by apply L2].
      assert (v = u) as ->.
      { apply (table_ok_same_id ur_id UsageRecordModel_clash n (usage_records d)); [done|done|done|congruence]. }
      apply usage_ok_reserve; [by apply L2|done|done].
  - intros x c q [Hx| ->%list_elem_of_singleton]%elem_of_app; [by apply R|by apply Hq].
  - split_and!; [|done|].
    + intros q Hin. destruct (S1 q Hin) as [Hone|Hgone]; [left|by right]. eapply sent_one_mono; [|exact Hone]. intros x Hx. apply elem_of_app. by left.
    + intros q Hin. destruct (S3 q Hin) as (G1 & G2 & G3). split_and!; [lia|done|].
      intros x [Hx| ->%list_elem_of_singleton]%elem_of_app; [by apply G3|lia].
Qed.

(** Moving the watermark of a reported usage record within what is reserved. *)
Lemma db_ok_watermark n l d uid f :
  (forall u, u ∈ usage_records d -> ur_id u = uid ->
     ur_id (f u) = ur_id u /\ ur_org (f u) = ur_org u /\ ur_start (f u) = ur_start u /\
     forall c, cnt (ur_reported u) c <= cnt (ur_reported (f u)) c <= reserved u (reports_of d uid) c) ->
  reports_of d uid <> [] ->
  db_ok w0 n l d ->
  db_ok w0 n l (set_usage_records (update_where (fun u => bool_decide (ur_id u = uid)) f (usage_records d)) d).
Proof.
  intros Hf Hne ((H1 & H2 & H3) & (L1 & L2 & L3) & R & S). split_db_ok; try done; cbn.
  - apply table_ok_map_in; [apply UsageRecordModel_clash_sym| |done].
    intros u Hu. case_bool_decide as E; [|done]. destruct (Hf u Hu E) as (F1 & F2 & F3 & _).
    split; [done|]. intros b. unfold UsageRecordModel_clash. by rw F2 F3.
  - split_and!; [done| |done]. intros v Hv. apply elem_of_update_where in Hv as (u & Hu & ->).
    specialize (L2 u Hu). case_bool_decide as E; [|exact L2]. destruct (Hf u Hu E) as (F1 & F2 & F3 & F4).
    rw F1 E. rw E in L2. destruct L2 as (U1 & U2 & U3). change (reports_of _ uid) with (reports_of d uid).
    split_and!; [done|done|]. intros r c Hr. rw F1 (U3 r c Hr). unfold reserved. by rw (zmax_list_seed _ _ _ (F4 c)).
Qed.
End reports.

(** ** Effects that preserve it *)

Section effects.
Context (w0 : Ghost).

Lemma pres_uuid4 : preserves (billing_wf w0) uuid4.
Proof.
  intros w [H1 H2]. change (next_id (uuid4 w).2) with (N.succ (next_id w)).
  split; (eapply db_ok_mono; [|eassumption]);
    change (next_id (uuid4 w).2) with (N.succ (next_id w)); lia.
Qed.
Lemma pres_commit : preserves (billing_wf w0) commit.
Proof. intros w [H1 H2]. by split. Qed.
Lemma pres_rollback : preserves (billing_wf w0) rollback.
Proof. intros w [H1 H2]. by split. Qed.
Lemma pres_write_db f : (forall n l d, db_ok w0 n l d -> db_ok w0 n l (f d)) -> preserves (billing_wf w0) (write_db f).
Proof. intros Hf w [H1 H2]. split; [by apply Hf|done]. Qed.
Lemma pres_redis_update f : preserves (billing_wf w0) (redis_update f).
Proof. intros w H. exact H. Qed.
Lemma pres_enqueue t : preserves (billing_wf w0) (enqueue t).
Proof. intros w H. exact H. Qed.

Lemma sent_ok_other gone n l d q : (forall i, q <> CreateItem i) -> sent_ok gone n l d -> sent_ok gone n (l ++ [q]) d.
Proof.
  intros Hq (S1 & S2 & S3).
  assert (H : forall i, CreateItem i ∈ l ++ [q] -> CreateItem i ∈ l).
  { intros i [Hi|Hi%list_elem_of_singleton]%elem_of_app; [done|]. by destruct (Hq i). }
  split_and!; eauto.
Qed.
Lemma pres_stripe_call q : (forall i, q <> CreateItem i) -> preserves (billing_wf w0) (stripe_call q).
Proof.
  intros Hq w [(W1 & L1 & R1 & S1) (W2 & L2 & R2 & S2)]. unfold stripe_call.
  destruct (stripe_script w); (split; (split; [done|split; [done|split; [done|by apply sent_ok_other]]])).
Qed.

Lemma pres_insert_subscription mk : (forall i, sub_id (mk i) = i) ->
  preserves (billing_wf w0) (insert_fresh SubscriptionModel_clash subscriptions set_subscriptions mk).
Proof.
  intros Hmk w [Hw Hd]. unfold insert_fresh, mbind, M_bind, uuid4, insert_row. cbn -[N.succ].
  pose proof (db_ok_mono w0 (next_id w) (N.succ (next_id w)) _ _ ltac:(lia) Hw) as Hw'.
  pose proof (db_ok_mono w0 (next_id w) (N.succ (next_id w)) _ _ ltac:(lia) Hd) as Hd'.
  destruct (existsb _ _) eqn:E; cbn -[N.succ]; (split; [|done]); [done|]. cbn -[N.succ].
  apply db_ok_subscriptions; [|done]. apply table_ok_insert; [apply SubscriptionModel_clash_sym|apply Hw|done|apply Hmk].
Qed.
Lemma pres_insert_usage mk : (forall i, ur_id (mk i) = i) -> (forall i, ur_reported (mk i) = zero_counts) ->
  preserves (billing_wf w0) (insert_fresh UsageRecordModel_clash usage_records set_usage_records mk).
Proof.
  intros Hmk Hz w [Hw Hd]. unfold insert_fresh, mbind, M_bind, uuid4, insert_row. cbn -[N.succ].
  pose proof (db_ok_mono w0 (next_id w) (N.succ (next_id w)) _ _ ltac:(lia) Hw) as Hw'.
  pose proof (db_ok_mono w0 (next_id w) (N.succ (next_id w)) _ _ ltac:(lia) Hd) as Hd'.
  destruct (existsb _ _) eqn:E; cbn -[N.succ]; (split; [|done]); [done|]. cbn -[N.succ].
  by apply db_ok_insert_usage.
Qed.

(** Queries on well-formed tables return at most one row, so
    [scalar_one_or_none] never raises. *)
Lemma wf_one_sub_org n d org : wf_tables n d -> at_most_one (select (fun s => bool_decide (sub_org s = org)) (subscriptions d)).
Proof.
  intros ((H & _) & _). eapply pairwise_at_most_one; [|exact H]. intros a b.
  unfold SubscriptionModel_clash. rw !bool_decide_eq_true. intros -> ->.
  by rw bool_decide_eq_true_2.
Qed.
Lemma wf_one_sub_stripe n d i :
  wf_tables n d -> at_most_one (select (fun s => bool_decide (sub_stripe_id s = Some i)) (subscriptions d)).
Proof.
  intros ((H & _) & _). eapply pairwise_at_most_one; [|exact H]. intros a b.
  unfold SubscriptionModel_clash. rw !bool_decide_eq_true. intros -> ->. simpl.
  rw (bool_decide_eq_true_2 (i = i)); [done|]. apply orb_true_r.
Qed.
Lemma wf_one_usage n d org a :
  wf_tables n d -> at_most_one (select (fun u => bool_decide (ur_org u = org) && bool_decide (ur_start u = a)) (usage_records d)).
Proof.
  intros (_ & (H & _) & _). eapply pairwise_at_most_one; [|exact H]. intros u v.
  unfold UsageRecordModel_clash. rw !andb_true_iff !bool_decide_eq_true.
  intros [-> ->] [-> ->]. done.
Qed.
End effects.

#[export] Hint Resolve pres_uuid4 pres_commit pres_rollback pres_redis_update pres_enqueue : effects.
#[export] Hint Extern 1 (respects _ (stripe_call _)) => apply pres_stripe_call; intros ?; discriminate : effects.
#[export] Hint Extern 1 (respects _ utcnow) => apply respects_gets; typeclasses eauto : effects.
#[export] Hint Extern 1 (respects _ get_settings) => apply respects_gets; typeclasses eauto : effects.
#[export] Hint Extern 1 (respects _ (read_db _)) => apply respects_gets; typeclasses eauto : effects.
#[export] Hint Extern 1 (respects _ (redis_get _)) => apply respects_gets; typeclasses eauto : effects.
