(* ===== verification/BillingRepo.v ===== *)
(** * Subscriptions and usage records (infrastructure/db/repositories/billing_repo.py)

    One definition per method of [BillingRepository], on the [subscriptions]
    and [usage_records] tables of the session. *)
From stdpp Require Import base gmap strings list.
From Stdlib Require Import ZArith Lia ssreflect.
From S2P Require Import Prelude Constants Entities World Invariant.

#[local] Open Scope Z_scope.

(** ** Column assignments *)

Definition set_plan v (s : Subscription) : Subscription :=
  {| sub_id := sub_id s; sub_org := sub_org s; sub_plan := v; sub_status := sub_status s;
     sub_customer := sub_customer s; sub_stripe_id := sub_stripe_id s; sub_start := sub_start s;
     sub_end := sub_end s; sub_canceled_at := sub_canceled_at s; sub_created := sub_created s;
     sub_updated := sub_updated s |}.
Definition set_status v (s : Subscription) : Subscription :=
  {| sub_id := sub_id s; sub_org := sub_org s; sub_plan := sub_plan s; sub_status := v;
     sub_customer := sub_customer s; sub_stripe_id := sub_stripe_id s; sub_start := sub_start s;
     sub_end := sub_end s; sub_canceled_at := sub_canceled_at s; sub_created := sub_created s;
     sub_updated := sub_updated s |}.
Definition set_customer v (s : Subscription) : Subscription :=
  {| sub_id := sub_id s; sub_org := sub_org s; sub_plan := sub_plan s; sub_status := sub_status s;
     sub_customer := v; sub_stripe_id := sub_stripe_id s; sub_start := sub_start s;
     sub_end := sub_end s; sub_canceled_at := sub_canceled_at s; sub_created := sub_created s;
     sub_updated := sub_updated s |}.
Definition set_stripe_id v (s : Subscription) : Subscription :=
  {| sub_id := sub_id s; sub_org := sub_org s; sub_plan := sub_plan s; sub_status := sub_status s;
     sub_customer := sub_customer s; sub_stripe_id := v; sub_start := sub_start s;
     sub_end := sub_end s; sub_canceled_at := sub_canceled_at s; sub_created := sub_created s;
     sub_updated := sub_updated s |}.
Definition set_period a b (s : Subscription) : Subscription :=
  {| sub_id := sub_id s; sub_org := sub_org s; sub_plan := sub_plan s; sub_status := sub_status s;
     sub_customer := sub_customer s; sub_stripe_id := sub_stripe_id s; sub_start := a;
     sub_end := b; sub_canceled_at := sub_canceled_at s; sub_created := sub_created s;
     sub_updated := sub_updated s |}.
Definition set_canceled_at v (s : Subscription) : Subscription :=
  {| sub_id := sub_id s; sub_org := sub_org s; sub_plan := sub_plan s; sub_status := sub_status s;
     sub_customer := sub_customer s; sub_stripe_id := sub_stripe_id s; sub_start := sub_start s;
     sub_end := sub_end s; sub_canceled_at := v; sub_created := sub_created s;
     sub_updated := sub_updated s |}.
Definition touch_sub t (s : Subscription) : Subscription :=
  {| sub_id := sub_id s; sub_org := sub_org s; sub_plan := sub_plan s; sub_status := sub_status s;
     sub_customer := sub_customer s; sub_stripe_id := sub_stripe_id s; sub_start := sub_start s;
     sub_end := sub_end s; sub_canceled_at := sub_canceled_at s; sub_created := sub_created s;
     sub_updated := t |}.

Definition set_counts v (u : UsageRecord) : UsageRecord :=
  {| ur_id := ur_id u; ur_org := ur_org u; ur_start := ur_start u; ur_end := ur_end u;
     ur_count := v; ur_reported := ur_reported u; ur_billed := ur_billed u;
     ur_invoice := ur_invoice u; ur_created := ur_created u; ur_updated := ur_updated u |}.
Definition set_reported v (u : UsageRecord) : UsageRecord :=
  {| ur_id := ur_id u; ur_org := ur_org u; ur_start := ur_start u; ur_end := ur_end u;
     ur_count := ur_count u; ur_reported := v; ur_billed := ur_billed u;
     ur_invoice := ur_invoice u; ur_created := ur_created u; ur_updated := ur_updated u |}.
Definition set_billed (inv : option string) (u : UsageRecord) : UsageRecord :=
  {| ur_id := ur_id u; ur_org := ur_org u; ur_start := ur_start u; ur_end := ur_end u;
     ur_count := ur_count u; ur_reported := ur_reported u; ur_billed := true;
     ur_invoice := inv; ur_created := ur_created u; ur_updated := ur_updated u |}.
Definition touch_usage t (u : UsageRecord) : UsageRecord :=
  {| ur_id := ur_id u; ur_org := ur_org u; ur_start := ur_start u; ur_end := ur_end u;
     ur_count := ur_count u; ur_reported := ur_reported u; ur_billed := ur_billed u;
     ur_invoice := ur_invoice u; ur_created := ur_created u; ur_updated := t |}.

(** ** Subscriptions *)

Definition by_org (org : N) (s : Subscription) : bool := bool_decide (sub_org s = org).

Definition create_subscription (org : N) (plan : SubscriptionPlan)
    (stripe_customer_id stripe_subscription_id : option string)
    (period_start period_end : option Z) : M World Subscription :=
  now ← utcnow;
  insert_fresh SubscriptionModel_clash subscriptions set_subscriptions (fun id =>
             {| sub_id := id; sub_org := org; sub_plan := plan; sub_status := ACTIVE;
                sub_customer := stripe_customer_id; sub_stripe_id := stripe_subscription_id;
                sub_start := default now period_start;
                sub_end := default (now + days 30) period_end;
                sub_canceled_at := None; sub_created := now; sub_updated := now |}).

Definition find_subscription (p : Subscription -> bool) : M World (option Subscription) :=
  rows ← read_db (fun d => select p (subscriptions d));
  lift (scalar_one_or_none rows).

Definition get_subscription_by_org (org : N) : M World (option Subscription) :=
  find_subscription (by_org org).

Definition get_subscription_by_stripe_customer (c : string) : M World (option Subscription) :=
  find_subscription (fun s => bool_decide (sub_customer s = Some c)).

Definition get_subscription_by_stripe_subscription (i : string) : M World (option Subscription) :=
  find_subscription (fun s => bool_decide (sub_stripe_id s = Some i)).

(** [update_subscription(org_id, **fields)]: [f] performs the assignments. *)
Definition update_subscription (org : N) (f : Subscription -> Subscription)
    : M World (option Subscription) :=
  row ← get_subscription_by_org org;
  match row with
  | None => mret None
  | Some s =>
      now ← utcnow;
      let s' := stamp touch_sub now s (f s) in
      clash ← read_db (fun d => existsb (SubscriptionModel_clash s')
                (List.filter (fun r => negb (bool_decide (sub_id r = sub_id s))) (subscriptions d)));
      guard_not clash IntegrityError ;;
      write_db (fun d => set_subscriptions
        (update_where (fun r => bool_decide (sub_id r = sub_id s)) (fun _ => s') (subscriptions d)) d) ;;
      mret (Some s')
  end.

Definition list_subscriptions_by_plan (plan : SubscriptionPlan) (status : SubscriptionStatus)
    : M World (list Subscription) :=
  read_db (fun d => select (fun s => bool_decide (sub_plan s = plan) && bool_decide (sub_status s = status))
                      (subscriptions d)).

Definition hobby_due (now : Z) (s : Subscription) : bool :=
  bool_decide (sub_plan s = HOBBY) && bool_decide (sub_status s = ACTIVE) && (sub_end s <=? now).
Definition paid_active (s : Subscription) : bool :=
  negb (bool_decide (sub_plan s = HOBBY)) && bool_decide (sub_status s = ACTIVE).

Definition list_hobby_subscriptions_due_for_reset (now : Z) : M World (list Subscription) :=
  read_db (fun d => select (hobby_due now) (subscriptions d)).
Definition list_paid_subscriptions_active : M World (list Subscription) :=
  read_db (fun d => select paid_active (subscriptions d)).
Definition list_all_active_org_ids : M World (list N) :=
  read_db (fun d => List.map sub_org
    (select (fun s => bool_decide (sub_status s = ACTIVE)) (subscriptions d))).
Definition list_paid_active_org_ids : M World (list N) :=
  read_db (fun d => List.map sub_org (select paid_active (subscriptions d))).
Definition list_hobby_org_ids_due_for_reset (now : Z) : M World (list N) :=
  read_db (fun d => List.map sub_org (select (hobby_due now) (subscriptions d))).

(** The guard of [advance_period]: move forward only. *)
Definition can_advance (org : N) (new_start new_end : Z) (s : Subscription) : bool :=
  by_org org s && (sub_start s <=? new_start) && (sub_end s <=? new_end).

Definition advance_period (org : N) (new_start new_end : Z) : M World unit :=
  now ← utcnow;
  write_db (fun d => set_subscriptions
    (update_where (can_advance org new_start new_end)
       (fun s => touch_sub now (set_period new_start new_end s)) (subscriptions d)) d).

(** ** Usage records *)

Definition of_period (org : N) (period_start : Z) (u : UsageRecord) : bool :=
  bool_decide (ur_org u = org) && bool_decide (ur_start u = period_start).

(** A row with the column defaults. *)
Definition new_usage (id org : N) (period_start period_end now : Z) : UsageRecord :=
  {| ur_id := id; ur_org := org; ur_start := period_start; ur_end := period_end;
     ur_count := zero_counts; ur_reported := zero_counts; ur_billed := false;
     ur_invoice := None; ur_created := now; ur_updated := now |}.

Definition create_usage_record (org : N) (period_start period_end : Z) : M World UsageRecord :=
  now ← utcnow;
  insert_fresh UsageRecordModel_clash usage_records set_usage_records
    (fun id => new_usage id org period_start period_end now).

Definition get_current_usage_record (org : N) (period_start : Z) : M World (option UsageRecord) :=
  rows ← read_db (fun d => select (of_period org period_start) (usage_records d));
  lift (scalar_one_or_none rows).

Definition get_or_create_usage_record (org : N) (period_start period_end : Z) : M World UsageRecord :=
  existing ← get_current_usage_record org period_start;
  match existing with
  | Some u => mret u
  | None => create_usage_record org period_start period_end
  end.

Definition get_unbilled_usage_records (org : N) : M World (list UsageRecord) :=
  read_db (fun d => order_by (fun a b => ur_start a <=? ur_start b)
    (select (fun u => bool_decide (ur_org u = org) && negb (ur_billed u)) (usage_records d))).

Definition upsert_usage_counters (org : N) (period_start period_end : Z) (k : Counts) : M World unit :=
  row ← get_current_usage_record org period_start;
  now ← utcnow;
  match row with
  | None =>
      _ ← insert_fresh UsageRecordModel_clash usage_records set_usage_records
        (fun id => set_counts k (new_usage id org period_start period_end now));
      mret tt
  | Some u =>
      write_db (fun d => set_usage_records
        (update_where (fun r => bool_decide (ur_id r = ur_id u))
           (fun r => stamp touch_usage now r (set_counts k r)) (usage_records d)) d)
  end.

Definition mark_billed (org : N) (period_start : Z) (invoice : option string) : M World unit :=
  now ← utcnow;
  write_db (fun d => set_usage_records
    (update_where (of_period org period_start) (fun u => touch_usage now (set_billed invoice u))
       (usage_records d)) d).

Definition update_reported_usage (org : N) (period_start : Z) (k : Counts) : M World unit :=
  now ← utcnow;
  write_db (fun d => set_usage_records
    (update_where (of_period org period_start) (fun u => touch_usage now (set_reported k u))
       (usage_records d)) d).

Definition list_usage_history (org : N) (limit : nat) : M World (list UsageRecord) :=
  read_db (fun d => take limit (order_by (fun a b => ur_start b <=? ur_start a)
    (select (fun u => bool_decide (ur_org u = org)) (usage_records d)))).

Definition count_org_members (org : N) : M World Z :=
  read_db (fun d => Z.of_nat (length
    (select (fun m => bool_decide (m_org m = org)) (memberships d)))).

(** ** Every operation preserves the billing invariant *)

Lemma find_subscription_run p w r w' : find_subscription p w = (r, w') ->
  w' = w /\ forall s, r = Ok (Some s) -> s ∈ subscriptions (db w) /\ p s = true.
Proof.
  unfold find_subscription, mbind, M_bind, read_db, gets, lift. intros [= <- <-]. split; [done|].
  intros s H. apply scalar_one_or_none_Ok in H as [[_ [=]]|(s' & Hs & [= <-])].
  apply elem_of_select. rw Hs. by left.
Qed.

Lemma get_current_usage_record_run org a w r w' : get_current_usage_record org a w = (r, w') ->
  w' = w /\ forall u, r = Ok (Some u) -> u ∈ usage_records (db w) /\ ur_org u = org /\ ur_start u = a.
Proof.
  unfold get_current_usage_record, mbind, M_bind, read_db, gets, lift. intros [= <- <-]. split; [done|].
  intros u H. apply scalar_one_or_none_Ok in H as [[_ [=]]|(u' & Hs & [= <-])].
  assert (Hin : u ∈ select (of_period org a) (usage_records (db w))) by (rw Hs; by left).
  apply elem_of_select in Hin as [Hin Hp]. split; [done|]. unfold of_period in Hp.
  by apply andb_prop in Hp as [->%bool_decide_eq_true ->%bool_decide_eq_true].
Qed.

Lemma respects_find_subscription R `{!PreOrder R} p : respects R (find_subscription p).
Proof. unfold find_subscription. respects_auto. Qed.
Lemma respects_get_current_usage_record R `{!PreOrder R} org a : respects R (get_current_usage_record org a).
Proof. unfold get_current_usage_record. respects_auto. Qed.
#[export] Hint Extern 1 (respects _ (find_subscription _)) => apply respects_find_subscription; typeclasses eauto : effects.
#[export] Hint Extern 1 (respects _ (get_subscription_by_org _)) => apply respects_find_subscription; typeclasses eauto : effects.
#[export] Hint Extern 1 (respects _ (get_subscription_by_stripe_subscription _)) => apply respects_find_subscription; typeclasses eauto : effects.
#[export] Hint Extern 1 (respects _ (get_current_usage_record _ _)) => apply respects_get_current_usage_record; typeclasses eauto : effects.

Section preservation.
Context (w0 : Ghost).

Lemma pres_create_subscription org plan c i a b : preserves (billing_wf w0) (create_subscription org plan c i a b).
Proof. unfold create_subscription. respects_auto. by apply pres_insert_subscription. Qed.

Lemma pres_update_subscription org f :
  (forall s, sub_id (f s) = sub_id s) -> preserves (billing_wf w0) (update_subscription org f).
Proof.
  intros Hf w [Hw Hd]. unfold update_subscription.
  destruct (get_subscription_by_org org w) as [r w1] eqn:E.
  destruct (find_subscription_run _ _ _ _ E) as [-> Hr].
  destruct r as [[s|]|e]; [|by erewrite (bind_Ok _ _ w) by exact E|by erewrite (bind_Err _ _ w) by exact E].
  erewrite (bind_Ok _ _ w) by exact E. destruct (Hr s eq_refl) as [Hs _].
  cbv [mbind M_bind utcnow gets read_db guard_not raise mret M_ret write_db modify].
  destruct (existsb _ _) eqn:Ec; [done|]. split; [|done]. cbn.
  apply db_ok_subscriptions; [|done]. apply table_ok_store; [apply SubscriptionModel_clash_sym|apply Hw|done| |exact Ec].
  by destruct (stamp_cases touch_sub (now w) s (f s)) as [->| ->]; [|apply Hf].
Qed.

Lemma pres_advance_period org a b : preserves (billing_wf w0) (advance_period org a b).
Proof.
  unfold advance_period. respects_auto. apply pres_write_db. intros n l d. by apply db_ok_update_subscriptions.
Qed.

Lemma pres_create_usage_record org a b : preserves (billing_wf w0) (create_usage_record org a b).
Proof. unfold create_usage_record. respects_auto. by apply pres_insert_usage. Qed.
Lemma pres_get_or_create_usage_record org a b : preserves (billing_wf w0) (get_or_create_usage_record org a b).
Proof. unfold get_or_create_usage_record. respects_auto. apply pres_create_usage_record. Qed.

Lemma pres_upsert_usage_counters org a b k : preserves (billing_wf w0) (upsert_usage_counters org a b k).
Proof.
  unfold upsert_usage_counters. respects_auto; [|by apply pres_insert_usage].
  apply pres_write_db. intros n l d. apply db_ok_update_usage; intros v;
    by destruct (stamp_cases touch_usage a1 v (set_counts k v)) as [->| ->].
Qed.
Lemma pres_mark_billed org a inv : preserves (billing_wf w0) (mark_billed org a inv).
Proof. unfold mark_billed. respects_auto. apply pres_write_db. intros n l d. by apply db_ok_update_usage. Qed.
End preservation.
#[export] Hint Resolve pres_create_subscription pres_advance_period pres_create_usage_record
  pres_get_or_create_usage_record pres_upsert_usage_counters pres_mark_billed : effects.

(** ** Period updates in any order

    [advance_all] applies the period updates of a list of webhooks; [period]
    is what they write. *)

Definition period (s : Subscription) : Z * Z := (sub_start s, sub_end s).
Definition advance_all (org : N) (ps : list (Z * Z)) : M World unit :=
  for_each ps (fun p => advance_period org p.1 p.2).

Definition period_le (p q : Z * Z) : Prop := p.1 <= q.1 /\ p.2 <= q.2.
Definition chain (ps : list (Z * Z)) : Prop :=
  forall p q, p ∈ ps -> q ∈ ps -> period_le p q \/ period_le q p.

Definition chainb (ps : list (Z * Z)) : bool :=
  let leb (p q : Z * Z) := (p.1 <=? q.1) && (p.2 <=? q.2) in
  forallb (fun p => forallb (fun q => leb p q || leb q p) ps) ps.

Lemma chainb_spec ps : chainb ps = true <-> chain ps.
Proof.
  unfold chainb, chain, period_le. rw List.forallb_forall. setoid_rewrite List.forallb_forall.
  setoid_rewrite orb_true_iff. setoid_rewrite andb_true_iff. setoid_rewrite Z.leb_le.
  setoid_rewrite <- list_elem_of_In. naive_solver.
Qed.

Definition advance_row (org : N) (t : Z) (p : Z * Z) (s : Subscription) : Subscription :=
  if can_advance org p.1 p.2 s then touch_sub t (set_period p.1 p.2 s) else s.

Lemma advance_all_run org ps w : exists w', advance_all org ps w = (Ok tt, w') /\
  subscriptions (db w') = List.map (fun s => foldl (fun s p => advance_row org (now w) p s) s ps) (subscriptions (db w)).
Proof.
  revert w. induction ps as [|p ps IH]; intros w; [exists w; split; [done|by rw List.map_id]|].
  unfold advance_all. simpl. unfold advance_period at 1, mbind, M_bind, utcnow, gets, write_db, modify. cbn.
  destruct (IH (set_db (set_subscriptions (List.map (advance_row org (now w) p) (subscriptions (db w))) (db w)) w))
    as (w' & Hrun & Hsubs).
  exists w'. split; [exact Hrun|]. rw Hsubs. cbn. by rw List.map_map.
Qed.

Lemma advance_row_org org t p s : sub_org (advance_row org t p s) = sub_org s.
Proof. unfold advance_row. by destruct (can_advance _ _ _ _). Qed.

Lemma advance_row_period org t p s : by_org org s = true ->
  period_le (period s) (period (advance_row org t p s)) /\
  (period_le (period s) p -> period (advance_row org t p s) = p) /\
  (period (advance_row org t p s) = p \/ period (advance_row org t p s) = period s).
Proof.
  intros Ho. unfold advance_row, can_advance, period, period_le. rw Ho. destruct p as [a b]. cbn.
  destruct (sub_start s <=? a) eqn:E1, (sub_end s <=? b) eqn:E2; cbn;
    rewrite ?Z.leb_le ?Z.leb_gt in E1; rewrite ?Z.leb_le ?Z.leb_gt in E2;
    (split_and!; [lia|lia| |]); try (intros; f_equal; lia); auto.
Qed.

(** The rows of other organisations stay; the row of [org] ends at the greatest
    period of the chain. *)
Lemma advance_all_row org t ps s : by_org org s = true -> chain (period s :: ps) ->
  let s' := foldl (fun s p => advance_row org t p s) s ps in
  period s' ∈ period s :: ps /\ forall p, p ∈ period s :: ps -> period_le p (period s').
Proof.
  revert s. induction ps as [|p ps IH]; intros s Ho Hc; simpl.
  { split; [by left|]. intros q Hq%list_elem_of_singleton. subst. unfold period_le. lia. }
  destruct (advance_row_period org t p s Ho) as (Hle & Hset & Hor).
  set (s1 := advance_row org t p s) in *.
  assert (Ho1 : by_org org s1 = true) by (unfold by_org, s1; by rw advance_row_org).
  assert (Hsub : forall q, q ∈ period s1 :: ps -> q ∈ period s :: p :: ps).
  { intros q. rw !elem_of_cons. destruct Hor as [->| ->]; tauto. }
  assert (Hc1 : chain (period s1 :: ps)).
  { intros q r Hq Hr. apply Hc; apply Hsub; done. }
  destruct (IH s1 Ho1 Hc1) as [Hin Hdom]. simpl in Hin, Hdom. split; [by apply Hsub|].
  assert (H1 : period_le (period s1) (period (foldl (fun s p => advance_row org t p s) s1 ps))) by (apply Hdom; by left).
  assert (Hp : period_le p (period s1)).
  { destruct (Hc (period s) p ltac:(by left) ltac:(right; by left)) as [H|H]; [rw Hset; [done|unfold period_le; lia]|].
    unfold period_le in *. lia. }
  intros q Hq. apply elem_of_cons in Hq as [->|Hq]; [unfold period_le in *; lia|].
  apply elem_of_cons in Hq as [->|Hq]; [unfold period_le in *; lia|]. apply Hdom. by right.
Qed.

Lemma advance_all_other org t ps s : by_org org s = false ->
  foldl (fun s p => advance_row org t p s) s ps = s.
Proof.
  intros Ho. induction ps as [|p ps IH]; simpl; [done|].
  replace (advance_row org t p s) with s; [done|]. unfold advance_row, can_advance. by rw Ho.
Qed.

(** Period updates commute.  Stripe delivers webhooks more than once and out of
    order.  If the periods they announce and the current one are ordered (as the
    periods of one subscription are), any two orders of delivery leave the same
    period on every subscription, and it is at least each announced one: a delayed
    webhook never rewinds a renewal. *)
Theorem advance_period_order_independent (org : N) (ps ps' : list (Z * Z)) (w : World) :
  ps ≡ₚ ps' ->
  (forall s, s ∈ subscriptions (db w) -> by_org org s = true -> chain (period s :: ps)) ->
  let after qs := subscriptions (db (advance_all org qs w).2) in
  List.map period (after ps) = List.map period (after ps') /\
  forall s p, s ∈ after ps -> by_org org s = true -> p ∈ ps -> period_le p (period s).
Proof.
  intros Hperm Hc after. unfold after.
  destruct (advance_all_run org ps w) as (w1 & -> & H1). destruct (advance_all_run org ps' w) as (w2 & -> & H2).
  cbn. rw H1 H2 !List.map_map. split.
  - apply List.map_ext_in. intros s Hs%list_elem_of_In. destruct (by_org org s) eqn:Ho; [|by rw !advance_all_other].
    assert (Heq : forall p, p ∈ period s :: ps <-> p ∈ period s :: ps').
    { intros p. by rw !elem_of_cons Hperm. }
    assert (Hc' : chain (period s :: ps')) by (intros p q Hp Hq; apply (Hc s Hs Ho); by apply Heq).
    destruct (advance_all_row org (now w) ps s Ho (Hc s Hs Ho)) as [Hin Hdom].
    destruct (advance_all_row org (now w) ps' s Ho Hc') as [Hin' Hdom'].
    specialize (Hdom _ (proj2 (Heq _) Hin')). specialize (Hdom' _ (proj1 (Heq _) Hin)).
    destruct (period (foldl _ s ps)), (period (foldl _ s ps')). unfold period_le in *. cbn in *. f_equal; lia.
  - intros s' p Hs' Ho Hp. apply list_elem_of_fmap in Hs' as (s & -> & Hs).
    assert (Hos : by_org org s = true).
    { destruct (by_org org s) eqn:Eo; [done|]. by rw advance_all_other Eo in Ho. }
    apply (advance_all_row org (now w) ps s Hos (Hc s Hs Hos)). by right.
Qed.

Lemma pro_world_wf : billing_wf from_start pro_world.
Proof.
  assert (H : db_ok from_start 100 [] pro_db).
  { split_db_ok; try solve_table_ok.
    - split_and!; [by intros r H%elem_of_nil| |done].
      intros u ->%list_elem_of_singleton. split_and!; [done|..]; intros r; [intros r'|intros c]; by intros H%elem_of_nil.
    - by intros r c q H%elem_of_nil.
    - split; [by intros q H%elem_of_nil|split; [by intros q1 q2 H%elem_of_nil|by intros q H%elem_of_nil]]. }
  split; exact H.
Qed.

Example advance_period_order_independent_witness :
  List.map period (subscriptions (db (advance_all 7 [(days 40, days 70); (days 70, days 100)] pro_world).2))
  = List.map period (subscriptions (db (advance_all 7 [(days 70, days 100); (days 40, days 70)] pro_world).2)).
Proof.
  apply (advance_period_order_independent 7 [(days 40, days 70); (days 70, days 100)]
           [(days 70, days 100); (days 40, days 70)] pro_world); [apply Permutation_swap|].
  intros s Hs _. apply list_elem_of_singleton in Hs as ->. rw -chainb_spec. vm_compute. reflexivity.
Defined.
