(* ===== verification/Security.v ===== *)
(** * Secrets (registry/security.py and the encodings the services build on)

    Hexadecimal and URL-safe base64 texts of byte strings, random tokens, API keys
    and the PKCE comparison of services/cli_service.py.  SHA-256 is a parameter: the
    digest of a text, a list of bytes.  A byte is an [N] below 256. *)
From stdpp Require Import base gmap strings list.
From Stdlib Require Import ZArith NArith Lia Ascii ssreflect.
From S2P Require Import Prelude Constants Entities World.

#[local] Open Scope N_scope.

Definition is_byte (b : N) : Prop := b < 256.

(** ** Encodings *)

Definition hex_digit (n : N) : ascii := ascii_of_N (if n <? 10 then 48 + n else 87 + n).

(** [bytes.hex()] *)
Definition hex (l : list N) : string :=
  String.string_of_list_ascii (flat_map (fun b => [hex_digit (b / 16); hex_digit (b mod 16)]) l).

(** [[A-Za-z0-9_-]], the URL-safe alphabet. *)
Definition b64_char (n : N) : ascii :=
  ascii_of_N (if n <? 26 then 65 + n else if n <? 52 then 71 + n
              else if n <? 62 then n - 4 else if n =? 62 then 45 else 95).

(** [base64.urlsafe_b64encode(l).rstrip(b"=")]: each three bytes are four
    characters; one or two last bytes are two or three. *)
Fixpoint b64_sextets (l : list N) : list N :=
  match l with
  | a :: b :: c :: l' =>
      a / 4 :: (a mod 4) * 16 + b / 16 :: (b mod 16) * 4 + c / 64 :: c mod 64 :: b64_sextets l'
  | [a; b] => [a / 4; (a mod 4) * 16 + b / 16; (b mod 16) * 4]
  | [a] => [a / 4; (a mod 4) * 16]
  | [] => []
  end.
Definition b64url (l : list N) : string := String.string_of_list_ascii (List.map b64_char (b64_sextets l)).

(** ** Random tokens

    The random bytes are the digits of a fresh identifier, so no token repeats. *)

Fixpoint token_bytes (k : nat) (n : N) : list N :=
  match k with
  | O => []
  | S k' => n mod 256 :: token_bytes k' (n / 256)
  end.

Definition token_hex (bytes : nat) : M World string := n ← uuid4; mret (hex (token_bytes bytes n)).
Definition token_urlsafe (bytes : nat) : M World string := n ← uuid4; mret (b64url (token_bytes bytes n)).

(** ** API keys *)

Definition generate_api_key : M World string :=
  raw ← token_hex API_KEY_RANDOM_BYTES;
  mret (API_KEY_PREFIX +:+ raw).

Definition key_prefix (raw_key : string) : string :=
  String.substring 0 (String.length API_KEY_PREFIX + 4) raw_key.

Section digest.
(** [hashlib.sha256(text.encode()).digest()] *)
Context (sha256 : string -> list N).

Definition hash_api_key (raw_key : string) : string := hex (sha256 raw_key).

(** [hmac.compare_digest] on texts refuses characters outside ASCII. *)
Definition verify_pkce (verifier challenge : string) : res bool :=
  if forallb (fun c => N_of_ascii c <? 128) (String.list_ascii_of_string challenge)
  then Ok (bool_decide (b64url (sha256 verifier) = challenge))
  else Err TypeError.
End digest.

(** ** The encodings are injective *)

Lemma hex_digit_inj a b : a < 16 -> b < 16 -> hex_digit a = hex_digit b -> a = b.
Proof.
  intros Ha Hb H. apply (f_equal N_of_ascii) in H. revert H. unfold hex_digit.
  rw !N_ascii_embedding; destruct (N.ltb_spec a 10), (N.ltb_spec b 10); lia.
Qed.

Lemma string_of_list_ascii_inj l l' : String.string_of_list_ascii l = String.string_of_list_ascii l' -> l = l'.
Proof. intros H%(f_equal String.list_ascii_of_string). by rewrite !String.list_ascii_of_string_of_list_ascii in H. Qed.

Lemma hex_inj l l' : Forall is_byte l -> Forall is_byte l' -> hex l = hex l' -> l = l'.
Proof.
  unfold hex. intros Hl Hl' H%string_of_list_ascii_inj. revert l' Hl' H.
  induction Hl as [|b l Hb Hl IH]; intros [|b' l'] Hl' H; try done.
  inversion_clear Hl' as [|?? Hb' Hl'']. cbn in H. injection H as H1 H2 H. unfold is_byte in *.
  apply hex_digit_inj in H1; [|apply N.Div0.div_lt_upper_bound; lia..].
  apply hex_digit_inj in H2; [|apply N.mod_lt; lia..].
  f_equal; [|by apply IH]. rewrite (N.div_mod' b 16) (N.div_mod' b' 16). lia.
Qed.

Lemma b64_char_inj a b : a < 64 -> b < 64 -> b64_char a = b64_char b -> a = b.
Proof.
  intros Ha Hb H. apply (f_equal N_of_ascii) in H. revert H. unfold b64_char.
  rw !N_ascii_embedding;
    destruct (N.ltb_spec a 26), (N.ltb_spec b 26), (N.ltb_spec a 52), (N.ltb_spec b 52),
      (N.ltb_spec a 62), (N.ltb_spec b 62), (N.eqb_spec a 62), (N.eqb_spec b 62); lia.
Qed.

(** Bytes are recovered from sextets. *)
Fixpoint b64_bytes (l : list N) : list N :=
  match l with
  | x :: y :: z :: t :: l' =>
      x * 4 + y / 16 :: (y mod 16) * 16 + z / 4 :: (z mod 4) * 64 + t :: b64_bytes l'
  | [x; y; z] => [x * 4 + y / 16; (y mod 16) * 16 + z / 4]
  | [x; y] => [x * 4 + y / 16]
  | _ => []
  end.

(** Induction three bytes at a time. *)
Lemma triples_ind (P : list N -> Prop) :
  P [] -> (forall a, P [a]) -> (forall a b, P [a; b]) ->
  (forall a b c l, P l -> P (a :: b :: c :: l)) -> forall l, P l.
Proof.
  intros H0 H1 H2 H3 l. cut (P l /\ (forall a, P (a :: l)) /\ (forall a b, P (a :: b :: l))); [tauto|].
  induction l as [|x l (I1 & I2 & I3)]; [done|]. split_and!; [apply I2|intros a; apply I3|].
  intros a b. by apply H3.
Qed.

(** The arithmetic of one group. *)
#[local] Ltac Zify.zify_post_hook ::= Z.to_euclidean_division_equations.

Lemma sextet_bytes a b c : a < 256 -> b < 256 -> c < 256 ->
  a / 4 * 4 + ((a mod 4) * 16 + b / 16) / 16 = a /\
  ((a mod 4 * 16 + b / 16) mod 16) * 16 + ((b mod 16) * 4 + c / 64) / 4 = b /\
  ((b mod 16 * 4 + c / 64) mod 4) * 64 + c mod 64 = c.
Proof.
  intros. split_and!; [lia| |].
  - rewrite (N.add_comm (a mod 4 * 16)) N.Div0.mod_add. lia.
  - rewrite (N.add_comm (b mod 16 * 4)) N.Div0.mod_add. lia.
Qed.

Lemma sextet_bound a b c : a < 256 -> b < 256 -> c < 256 ->
  a / 4 < 64 /\ (a mod 4) * 16 + b / 16 < 64 /\ (b mod 16) * 4 + c / 64 < 64 /\ c mod 64 < 64.
Proof. intros. split_and!; lia. Qed.

Lemma b64_roundtrip l : Forall is_byte l -> b64_bytes (b64_sextets l) = l /\ Forall (fun s => s < 64) (b64_sextets l).
Proof.
  unfold is_byte. induction l as [|a|a b|a b c l IH] using triples_ind; cbn [b64_sextets b64_bytes]; intros H.
  - done.
  - apply Forall_cons in H as [H _]. destruct (sextet_bytes a 0 0 H eq_refl eq_refl) as (E & _).
    destruct (sextet_bound a 0 0 H eq_refl eq_refl) as (?&?&_). rewrite N.Div0.div_0_l N.add_0_r in E, H1.
    split; [by rw E|]. by repeat constructor.
  - apply Forall_cons in H as [Ha [Hb _]%Forall_cons].
    destruct (sextet_bytes a b 0 Ha Hb eq_refl) as (E1 & E2 & _).
    destruct (sextet_bound a b 0 Ha Hb eq_refl) as (?&?&?&_). rewrite N.Div0.div_0_l N.add_0_r in E2, H1.
    split; [by rw E1 E2|]. by repeat constructor.
  - apply Forall_cons in H as [Ha [Hb [Hc H]%Forall_cons]%Forall_cons]. destruct (IH H) as [I1 I2].
    destruct (sextet_bytes a b c) as (-> & -> & ->); [done..|]. destruct (sextet_bound a b c) as (?&?&?&?); [done..|].
    split; [by rw I1|]. by repeat constructor.
Qed.

Lemma map_b64_inj s t : Forall (fun s => s < 64) s -> Forall (fun s => s < 64) t ->
  List.map b64_char s = List.map b64_char t -> s = t.
Proof.
  intros Hs. revert t. induction Hs as [|x s Hx Hs IH]; intros [|y t] Ht H; try done.
  apply Forall_cons in Ht as [Hy Ht]. cbn in H. injection H as E1 E2. f_equal; [by apply b64_char_inj|by apply IH].
Qed.

Lemma b64url_inj l l' : Forall is_byte l -> Forall is_byte l' -> b64url l = b64url l' -> l = l'.
Proof.
  intros Hl Hl' H%string_of_list_ascii_inj. destruct (b64_roundtrip l Hl) as [E B].
  destruct (b64_roundtrip l' Hl') as [E' B']. apply map_b64_inj in H; [congruence|done|done].
Qed.

Definition ascii_text (s : string) : bool := forallb (fun c => N_of_ascii c <? 128) (String.list_ascii_of_string s).

Lemma b64url_ascii l : Forall is_byte l -> ascii_text (b64url l) = true.
Proof.
  intros Hl. destruct (b64_roundtrip l Hl) as [_ H]. unfold ascii_text, b64url. rw String.list_ascii_of_string_of_list_ascii.
  induction H as [|s ss Hs H IH]; [done|]. cbn [List.map forallb]. rw IH andb_true_r.
  apply N.ltb_lt. unfold b64_char. rw N_ascii_embedding;
    destruct (N.ltb_spec s 26), (N.ltb_spec s 52), (N.ltb_spec s 62), (N.eqb_spec s 62); lia.
Qed.

(** The challenge of a verifier: the proof is exactly to know a text of that digest. *)
Lemma verify_pkce_challenge sha256 v d : Forall is_byte d -> Forall is_byte (sha256 v) ->
  verify_pkce sha256 v (b64url d) = Ok (bool_decide (sha256 v = d)).
Proof.
  intros Hd Hv. unfold verify_pkce. change (forallb _ _) with (ascii_text (b64url d)). rw b64url_ascii; [done|].
  f_equal. apply bool_decide_ext. split; [by apply b64url_inj|congruence].
Qed.
