(* ===== verification/IdentityRepo.v ===== *)
(** * Identity repositories

    infrastructure/db/repositories/identity_repo.py, invitation_repo.py,
    project_repo.py and user_repo.py, one Module each.  Display fields that a join
    adds to an entity (a member's name, an inviter's e-mail) are not carried. *)
From stdpp Require Import base gmap strings list.
From Stdlib Require Import ZArith Lia ssreflect.
From S2P Require Import Prelude Constants Entities Float64 Json Evals Telemetry World.

#[local] Open Scope Z_scope.

(** [session.get(Model, pk)] *)
Definition get_by_id {R} (table : DB -> list R) (ident : R -> N) (id : N) : M World (option R) :=
  read_db (fun d => List.hd_error (select (fun r => bool_decide (ident r = id)) (table d))).

(** A query that expects at most one row. *)
Definition find_one {R} (table : DB -> list R) (p : R -> bool) : M World (option R) :=
  rows ← read_db (fun d => select p (table d));
  lift (scalar_one_or_none rows).

Definition no_clash {R} (_ _ : R) : bool := false.

(** [begin_nested(): flush()]: the failed statement alone is undone. *)
Definition on_integrity_error {A} (m h : M World A) : M World A :=
  try_except m (fun e => match e with IntegrityError => h | _ => raise e end).

Module IdentityRepository.

(** ** Organizations *)

Definition create_organization (name : string) : M World Organization :=
  now ← utcnow;
  insert_fresh no_clash organizations set_organizations
    (fun id => {| o_id := id; o_name := name; o_created := now |}).

Definition get_organization (org : N) : M World (option Organization) := get_by_id organizations o_id org.

Definition update_organization (org : N) (name : option string) : M World (option Organization) :=
  row ← get_organization org;
  match row with
  | None => mret None
  | Some o =>
      let o' := {| o_id := o_id o; o_name := default (o_name o) name; o_created := o_created o |} in
      write_db (fun d => set_organizations
        (update_where (fun r => bool_decide (o_id r = org)) (fun _ => o') (organizations d)) d) ;;
      mret (Some o')
  end.

(** The organization and, by cascade, everything that belongs to it; the billing
    reports go with their usage records. *)
Definition cascade_organization (org : N) (d : DB) : DB :=
  let usages := List.map ur_id (select (fun u => bool_decide (ur_org u = org)) (usage_records d)) in
  {| subscriptions := delete_where (fun s => bool_decide (sub_org s = org)) (subscriptions d);
     usage_records := delete_where (fun u => bool_decide (ur_org u = org)) (usage_records d);
     billing_reports := delete_where (fun r => bool_decide (br_usage r ∈ usages)) (billing_reports d);
     users := users d;
     organizations := delete_where (fun o => bool_decide (o_id o = org)) (organizations d);
     memberships := delete_where (fun m => bool_decide (m_org m = org)) (memberships d);
     invitations := delete_where (fun i => bool_decide (i_org i = org)) (invitations d);
     projects := delete_where (fun p => bool_decide (p_org p = org)) (projects d);
     api_keys := delete_where (fun k => bool_decide (k_org k = org)) (api_keys d);
     telemetry := delete_projects (List.map p_id (select (fun p => bool_decide (p_org p = org)) (projects d)))
                    (telemetry d) |}.

Definition delete_organization (org : N) : M World unit :=
  row ← get_organization org;
  match row with
  | None => mret tt
  | Some _ => write_db (cascade_organization org)
  end.

(** ** Memberships *)

Definition of_member (user org : N) (m : Membership) : bool :=
  bool_decide (m_user m = user) && bool_decide (m_org m = org).

Definition create_membership (user org : N) (role : MembershipRole) : M World Membership :=
  now ← utcnow;
  insert_fresh MembershipModel_clash memberships set_memberships
    (fun id => {| m_id := id; m_user := user; m_org := org; m_role := role; m_created := now |}).

Definition get_membership (user org : N) : M World (option Membership) :=
  find_one memberships (of_member user org).

Definition list_user_orgs (user : N) : M World (list Membership) :=
  read_db (fun d => order_by (fun a b => m_created b <=? m_created a)
    (select (fun m => bool_decide (m_user m = user)) (memberships d))).

Definition list_org_members (org : N) : M World (list Membership) :=
  read_db (fun d => order_by (fun a b => m_created a <=? m_created b)
    (select (fun m => bool_decide (m_org m = org)) (memberships d))).

Definition set_role (role : MembershipRole) (m : Membership) : Membership :=
  {| m_id := m_id m; m_user := m_user m; m_org := m_org m; m_role := role; m_created := m_created m |}.

Definition update_membership_role (user org : N) (role : MembershipRole) : M World (option Membership) :=
  row ← get_membership user org;
  match row with
  | None => mret None
  | Some m =>
      write_db (fun d => set_memberships (update_where (of_member user org) (set_role role) (memberships d)) d) ;;
      mret (Some (set_role role m))
  end.

Definition owned_by (user : N) (m : Membership) : bool :=
  bool_decide (m_user m = user) && bool_decide (m_role m = OWNER).

Definition count_user_owned_orgs (user : N) : M World Z :=
  read_db (fun d => Z.of_nat (length (select (owned_by user) (memberships d)))).

Definition delete_membership (user org : N) : M World unit :=
  write_db (fun d => set_memberships (delete_where (of_member user org) (memberships d)) d).

(** ** API keys *)

Definition create_api_key (org : N) (key_hash key_prefix name : string) (created_by : option N)
    (expires_at : option Z) : M World APIKey :=
  now ← utcnow;
  insert_fresh APIKeyModel_clash api_keys set_api_keys
    (fun id => {| k_id := id; k_org := org; k_hash := key_hash; k_prefix := key_prefix; k_name := name;
                  k_active := true; k_created := now; k_expires := expires_at; k_last_used := None;
                  k_created_by := created_by |}).

Definition get_api_key (key : N) : M World (option APIKey) := get_by_id api_keys k_id key.

Definition get_api_key_by_hash (key_hash : string) : M World (option APIKey) :=
  find_one api_keys (fun k => bool_decide (k_hash k = key_hash) && k_active k).

Definition set_last_used t (k : APIKey) : APIKey :=
  {| k_id := k_id k; k_org := k_org k; k_hash := k_hash k; k_prefix := k_prefix k; k_name := k_name k;
     k_active := k_active k; k_created := k_created k; k_expires := k_expires k; k_last_used := t;
     k_created_by := k_created_by k |}.
Definition set_inactive (k : APIKey) : APIKey :=
  {| k_id := k_id k; k_org := k_org k; k_hash := k_hash k; k_prefix := k_prefix k; k_name := k_name k;
     k_active := false; k_created := k_created k; k_expires := k_expires k; k_last_used := k_last_used k;
     k_created_by := k_created_by k |}.

Definition touch_api_key (key : N) : M World unit :=
  now ← utcnow;
  write_db (fun d => set_api_keys
    (update_where (fun k => bool_decide (k_id k = key)) (set_last_used (Some now)) (api_keys d)) d).

Definition revoke_api_key (key : N) : M World unit :=
  write_db (fun d => set_api_keys (update_where (fun k => bool_decide (k_id k = key)) set_inactive (api_keys d)) d).

Definition delete_api_key (key : N) : M World unit :=
  write_db (fun d => set_api_keys (delete_where (fun k => bool_decide (k_id k = key)) (api_keys d)) d).

Definition list_api_keys (org : N) : M World (list APIKey) :=
  read_db (fun d => order_by (fun a b => k_created b <=? k_created a)
    (select (fun k => bool_decide (k_org k = org)) (api_keys d))).

End IdentityRepository.

Module InvitationRepository.

Definition create_invitation (org : N) (email : string) (role : MembershipRole) (invited_by : N) (expires_at : Z)
    : M World Invitation :=
  now ← utcnow;
  insert_fresh no_clash invitations set_invitations
    (fun id => {| i_id := id; i_org := org; i_email := email; i_role := role; i_invited_by := invited_by;
                  i_status := IPENDING; i_created := now; i_expires := expires_at |}).

Definition get_invitation (id : N) : M World (option Invitation) :=
  find_one invitations (fun i => bool_decide (i_id i = id)).

(** PENDING and not expired. *)
Definition live_pending (now : Z) (i : Invitation) : bool :=
  bool_decide (i_status i = IPENDING) && (now <? i_expires i).

Definition pending_for (now : Z) (org : N) (i : Invitation) : bool :=
  bool_decide (i_org i = org) && live_pending now i.

Definition get_pending_invitation (org : N) (email : string) : M World (option Invitation) :=
  now ← utcnow;
  find_one invitations (fun i => bool_decide (i_org i = org) && bool_decide (i_email i = email) && live_pending now i).

Definition newest_first (a b : Invitation) : bool := i_created b <=? i_created a.

Definition list_org_invitations (org : N) (status : option InvitationStatus) : M World (list Invitation) :=
  read_db (fun d => order_by newest_first
    (select (fun i => bool_decide (i_org i = org) &&
       match status with Some s => bool_decide (i_status i = s) | None => true end) (invitations d))).

Definition list_pending_for_email (email : string) : M World (list Invitation) :=
  now ← utcnow;
  read_db (fun d => order_by newest_first
    (select (fun i => bool_decide (i_email i = email) && live_pending now i) (invitations d))).

Definition set_invitation_status (s : InvitationStatus) (i : Invitation) : Invitation :=
  {| i_id := i_id i; i_org := i_org i; i_email := i_email i; i_role := i_role i; i_invited_by := i_invited_by i;
     i_status := s; i_created := i_created i; i_expires := i_expires i |}.

Definition update_status (id : N) (new_status : InvitationStatus) : M World (option Invitation) :=
  row ← get_invitation id;
  match row with
  | None => mret None
  | Some i =>
      write_db (fun d => set_invitations
        (update_where (fun r => bool_decide (i_id r = id)) (set_invitation_status new_status) (invitations d)) d) ;;
      mret (Some (set_invitation_status new_status i))
  end.

Definition count_pending_for_org (org : N) : M World Z :=
  now ← utcnow;
  read_db (fun d => Z.of_nat (length (select (pending_for now org) (invitations d)))).

Definition stale (now : Z) (i : Invitation) : bool :=
  bool_decide (i_status i = IPENDING) && (i_expires i <=? now).

Definition expire_stale_invitations : M World Z :=
  now ← utcnow;
  count ← read_db (fun d => Z.of_nat (length (select (stale now) (invitations d))));
  write_db (fun d => set_invitations
    (update_where (stale now) (set_invitation_status IEXPIRED) (invitations d)) d) ;;
  mret count.

End InvitationRepository.

Module ProjectRepository.

Definition project_exists : exn := PP ConflictError "A project with this name already exists in this organization.".

Definition insert_project (org : N) (name description : string) : M World Project :=
  now ← utcnow;
  insert_fresh ProjectModel_clash projects set_projects
    (fun id => {| p_id := id; p_org := org; p_name := name; p_description := description; p_created := now |}).

Definition create_project (org : N) (name description : string) : M World Project :=
  on_integrity_error (insert_project org name description) (raise project_exists).

Definition get_project (id : N) : M World (option Project) := get_by_id projects p_id id.

Definition get_project_by_name (org : N) (name : string) : M World (option Project) :=
  find_one projects (fun p => bool_decide (p_org p = org) && bool_decide (p_name p = name)).

Definition get_or_create_project (org : N) (name : string) : M World Project :=
  existing ← get_project_by_name org name;
  match existing with
  | Some p => mret p
  | None =>
      on_integrity_error (insert_project org name EmptyString)
        (existing ← get_project_by_name org name;
         match existing with
         | Some p => mret p
         | None => raise IntegrityError
         end)
  end.

Definition update_project (id : N) (name description : option string) : M World (option Project) :=
  row ← get_project id;
  match row with
  | None => mret None
  | Some p =>
      let p' := {| p_id := p_id p; p_org := p_org p; p_name := default (p_name p) name;
                   p_description := default (p_description p) description; p_created := p_created p |} in
      clash ← read_db (fun d => existsb (ProjectModel_clash p')
                (List.filter (fun r => negb (bool_decide (p_id r = id))) (projects d)));
      guard_not clash project_exists ;;
      write_db (fun d => set_projects
        (update_where (fun r => bool_decide (p_id r = id)) (fun _ => p') (projects d)) d) ;;
      mret (Some p')
  end.

(** The project and, by cascade, its telemetry. *)
Definition cascade_project (id : N) (d : DB) : DB :=
  set_telemetry (delete_projects [id] (telemetry d))
    (set_projects (delete_where (fun r => bool_decide (p_id r = id)) (projects d)) d).

Definition delete_project (id : N) : M World unit :=
  row ← get_project id;
  match row with
  | None => mret tt
  | Some _ => write_db (cascade_project id)
  end.

Definition list_projects (org : N) : M World (list Project) :=
  read_db (fun d => order_by (fun a b => p_created b <=? p_created a)
    (select (fun p => bool_decide (p_org p = org)) (projects d))).

End ProjectRepository.

Module UserRepository.

(** The user, whether it was created, and the sign-in time before this call. *)
Definition upsert_user (external_id email display_name : string) : M World (User * bool * option Z) :=
  row ← find_one users (fun u => bool_decide (u_external u = external_id));
  now ← utcnow;
  match row with
  | None =>
      u ← insert_fresh UserModel_clash users set_users
        (fun id => {| u_id := id; u_external := external_id; u_email := email; u_display := display_name;
                      u_created := now; u_last_sign_in := Some now |});
      mret (u, true, None)
  | Some u =>
      let name := if negb (bool_decide (display_name = EmptyString)) && bool_decide (u_display u = EmptyString)
                  then display_name else u_display u in
      let u' := {| u_id := u_id u; u_external := u_external u; u_email := u_email u; u_display := name;
                   u_created := u_created u; u_last_sign_in := Some now |} in
      write_db (fun d => set_users (update_where (fun r => bool_decide (u_id r = u_id u)) (fun _ => u') (users d)) d) ;;
      mret (u', false, u_last_sign_in u)
  end.

Definition get_user (id : N) : M World (option User) := get_by_id users u_id id.

Definition get_user_by_email (email : string) : M World (option User) :=
  find_one users (fun u => bool_decide (lower (u_email u) = lower email)).

End UserRepository.

(** ** Lemmas *)

Lemma get_by_id_run {R} (table : DB -> list R) ident id w r w' : get_by_id table ident id w = (r, w') ->
  w' = w /\ exists o, r = Ok o /\ forall x, o = Some x -> x ∈ table (db w) /\ ident x = id.
Proof.
  unfold get_by_id, read_db, gets. intros [= <- <-]. split; [done|]. eexists. split; [done|]. intros x Hx.
  assert (Hin : x ∈ select (fun r => bool_decide (ident r = id)) (table (db w))).
  { destruct (select _ _) as [|y l]; [done|]. injection Hx as ->. by left. }
  apply elem_of_select in Hin as [Hin Hid]. by apply bool_decide_eq_true in Hid.
Qed.

Lemma find_one_run {R} (table : DB -> list R) p w r w' : find_one table p w = (r, w') ->
  w' = w /\ (forall x, r = Ok (Some x) -> select p (table (db w)) = [x] /\ x ∈ table (db w) /\ p x = true) /\
  (r = Ok None -> select p (table (db w)) = []).
Proof.
  unfold find_one, mbind, M_bind, read_db, gets, lift. intros [= <- <-]. split; [done|]. split.
  - intros x H. apply scalar_one_or_none_Ok in H as [[_ [=]]|(y & Hs & [= <-])]. split; [done|].
    apply elem_of_select. rw Hs. by left.
  - intros H. by apply scalar_one_or_none_Ok in H as [[Hs _]|(y & _ & [=])].
Qed.

Lemma insert_fresh_run {R} clash get set (mk : N -> R) w r w' :
  insert_fresh clash get set mk w = (r, w') ->
  (r = Err IntegrityError /\ w' = set_next_id (N.succ (next_id w)) w) \/
  (r = Ok (mk (next_id w)) /\
   w' = set_db (set (get (db w) ++ [mk (next_id w)]) (db w)) (set_next_id (N.succ (next_id w)) w)).
Proof.
  unfold insert_fresh, mbind, M_bind, uuid4, insert_row. cbn -[N.succ].
  destruct (existsb _ _); cbn -[N.succ]; intros [= <- <-]; [by left|by right].
Qed.
