(* ===== verification/Ddl.v ===== *)
(** * Schemas and data definition

    The operations of Alembic that the migrations use, on a PostgreSQL database: its
    tables with their columns, constraints and indexes, and the rows they hold.  An
    operation fails as PostgreSQL (or SQLAlchemy's compiler) does, and a failure
    anywhere undoes the transaction it happens in. *)
From stdpp Require Import base strings list sorting.
From Stdlib Require Import ZArith Lia ssreflect.
From S2P Require Import Prelude.

#[local] Open Scope string_scope.
#[local] Open Scope list_scope.

(** ** Types and table items (sqlalchemy) *)

Module sa.

(** The column types that the migrations and the models name. *)
Inductive Type_ :=
  | UUID
  | String (length : option Z)
  | VARCHAR (length : option Z)
  | Text
  | TEXT
  | Integer
  | INTEGER
  | Boolean
  | BOOLEAN
  | Float
  | DOUBLE_PRECISION (precision : Z)
  | DateTime (timezone : bool)
  | TIMESTAMP (timezone : bool)
  | JSONB
  | ARRAY (item : Type_)
  | Enum (labels : list string) (name : string) (length : Z).

Inductive OnDelete := CASCADE | SET_NULL.

(** The arguments of [op.create_table] and of a mapped class.  An enumeration is declared
    with [native_enum=False] and without a CHECK: it is a VARCHAR. *)
Record Column_ := mk_column { name : string; type_ : Type_; nullable : bool; server_default : option string }.
Record ForeignKey := {
  fk_columns : list string; fk_table : string; fk_referred : list string;
  fk_name : option string; fk_ondelete : option OnDelete; fk_use_alter : bool }.
Inductive Item :=
  | Column (c : Column_)
  | PrimaryKeyConstraint (columns : list string) (name : option string)
  | UniqueConstraint (columns : list string) (name : option string)
  | ForeignKeyConstraint (fk : ForeignKey).

End sa.

(** ** Schemas *)

Inductive PgType :=
  | pg_uuid
  | pg_varchar (length : option Z)
  | pg_text
  | pg_integer
  | pg_boolean
  | pg_double
  | pg_timestamp (timezone : bool)
  | pg_jsonb
  | pg_array (item : PgType).

(** The type that SQLAlchemy's compiler emits for PostgreSQL. *)
Fixpoint pg_type (t : sa.Type_) : PgType :=
  match t with
  | sa.UUID => pg_uuid
  | sa.String n | sa.VARCHAR n => pg_varchar n
  | sa.Text | sa.TEXT => pg_text
  | sa.Integer | sa.INTEGER => pg_integer
  | sa.Boolean | sa.BOOLEAN => pg_boolean
  | sa.Float | sa.DOUBLE_PRECISION _ => pg_double
  | sa.DateTime tz | sa.TIMESTAMP tz => pg_timestamp tz
  | sa.JSONB => pg_jsonb
  | sa.ARRAY i => pg_array (pg_type i)
  | sa.Enum _ _ n => pg_varchar (Some n)
  end.

Record column := { col_name : string; col_type : PgType; col_nullable : bool; col_default : option string }.
Inductive constraint :=
  | primary_key (columns : list string)
  | unique (columns : list string)
  | foreign_key (columns : list string) (referent : string) (referred : list string) (ondelete : option sa.OnDelete).
Record index := { ix_name : string; ix_columns : list string; ix_unique : bool; ix_using : string }.
Record table := { tb_columns : list column; tb_constraints : list (string * constraint); tb_indexes : list index }.

(** Tables in the order of their creation. *)
Definition schema := list (string * table).

#[export] Instance OnDelete_eq_dec : EqDecision sa.OnDelete.
Proof. solve_decision. Defined.
#[export] Instance PgType_eq_dec : EqDecision PgType.
Proof. unfold EqDecision, Decision. decide equality; apply decide; apply _. Defined.
#[export] Instance column_eq_dec : EqDecision column.
Proof. solve_decision. Defined.
#[export] Instance constraint_eq_dec : EqDecision constraint.
Proof. solve_decision. Defined.
#[export] Instance index_eq_dec : EqDecision index.
Proof. solve_decision. Defined.
#[export] Instance table_eq_dec : EqDecision table.
Proof. solve_decision. Defined.

(** ** Rows

    A row gives the text of each cell, [None] being NULL. *)
Definition row := string -> option string.
Definition content := string -> list row.

Definition set_at {A} (k : string) (v : A) (f : string -> A) : string -> A :=
  fun x => if String.eqb x k then v else f x.

Record database := { db_version : option string; db_schema : schema; db_content : content }.

(** A database just created. *)
Definition empty_database : database := {| db_version := None; db_schema := []; db_content := fun _ => [] |}.

(** ** Errors *)

Inductive ddl_error :=
  | DuplicateTable
  | DuplicateColumn
  | DuplicateObject
  | UndefinedTable
  | UndefinedColumn
  | UndefinedObject
  | InvalidForeignKey
  | InvalidTableDefinition
  | DependentObjectsStillExist
  | NotNullViolation
  | UniqueViolation
  | ForeignKeyViolation
  | CompileError
  | MultipleHeads
  | RevisionNotFound.

#[export] Instance ddl_error_eq_dec : EqDecision ddl_error.
Proof. solve_decision. Defined.

Inductive outcome (A : Type) :=
  | Done (a : A)
  | Failed (e : ddl_error).
Arguments Done {A} a.
Arguments Failed {A} e.

#[export] Instance outcome_ret : MRet outcome := @Done.
#[export] Instance outcome_bind : MBind outcome := fun A B k m =>
  match m with
  | Done a => k a
  | Failed e => Failed e
  end.

Definition ensure (b : bool) (e : ddl_error) : outcome unit := if b then Done tt else Failed e.

(** ** Operations (alembic.op) *)

Module op.

Inductive operation :=
  | create_table (name : string) (items : list sa.Item)
  | drop_table (name : string)
  | create_index (name table : string) (columns : list string) (unique : bool) (postgresql_using : option string)
  | drop_index (name table : string)
  | add_column (table : string) (column : sa.Column_)
  | drop_column (table column : string)
  | alter_column_nullable (table column : string) (nullable : bool)
  | alter_column_name (table column new_column_name : string)
  | create_foreign_key (name : option string) (source referent : string) (local_cols remote_cols : list string) (ondelete : option sa.OnDelete)
  | drop_constraint (name : option string) (table : string).

End op.

(** *** Looking names up *)

Definition table_of (n : string) (s : schema) : option table :=
  snd <$> List.find (fun p => String.eqb (fst p) n) s.
Definition get_table (n : string) (s : schema) : outcome table :=
  match table_of n s with
  | Some t => Done t
  | None => Failed UndefinedTable
  end.
Definition update_table (n : string) (f : table -> table) (s : schema) : schema :=
  List.map (fun p => if String.eqb (fst p) n then (fst p, f (snd p)) else p) s.
Definition mem (x : string) (l : list string) : bool := existsb (String.eqb x) l.
Definition column_names (t : table) : list string := List.map col_name (tb_columns t).
Definition has_columns (t : table) (cols : list string) : bool := forallb (fun c => mem c (column_names t)) cols.
Definition index_names (s : schema) : list string := flat_map (fun p => List.map ix_name (tb_indexes (snd p))) s.
Definition constraint_columns (c : constraint) : list string :=
  match c with
  | primary_key l | unique l | foreign_key l _ _ _ => l
  end.

(** The keys that a foreign key may refer to. *)
Definition is_key (cols : list string) (c : constraint) : bool :=
  match c with
  | primary_key l | unique l => bool_decide (l = cols)
  | foreign_key _ _ _ _ => false
  end.
(** A foreign key that refers to the table, and to one of the columns when they are given. *)
Definition refers_to (n : string) (cols : option (list string)) (c : constraint) : bool :=
  match c with
  | foreign_key _ r l _ => String.eqb r n && match cols with None => true | Some cs => existsb (fun x => mem x cs) l end
  | _ => false
  end.
Definition referred_elsewhere (n : string) (cols : option (list string)) (s : schema) : bool :=
  existsb (fun p => negb (String.eqb (fst p) n) && existsb (fun c => refers_to n cols (snd c)) (tb_constraints (snd p))) s.

(** *** Names given by PostgreSQL to constraints declared without one *)
Definition generated_name (n : string) (c : constraint) : string :=
  match c with
  | primary_key _ => n +:+ "_pkey"
  | unique l => n +:+ "_" +:+ String.concat "_" l +:+ "_key"
  | foreign_key l _ _ _ => n +:+ "_" +:+ String.concat "_" l +:+ "_fkey"
  end.
Definition named (n : string) (name : option string) (c : constraint) : string * constraint :=
  (default (generated_name n c) name, c).

Definition column_of (c : sa.Column_) : column :=
  {| col_name := sa.name c; col_type := pg_type (sa.type_ c); col_nullable := sa.nullable c; col_default := sa.server_default c |}.
Definition foreign_key_of (fk : sa.ForeignKey) : constraint :=
  foreign_key (sa.fk_columns fk) (sa.fk_table fk) (sa.fk_referred fk) (sa.fk_ondelete fk).

Definition item_columns (l : list sa.Item) : list column :=
  flat_map (fun i => match i with sa.Column c => [column_of c] | _ => [] end) l.
(** CREATE TABLE leaves out a foreign key declared with [use_alter]. *)
Definition item_constraints (n : string) (l : list sa.Item) : list (string * constraint) :=
  flat_map (fun i =>
    match i with
    | sa.Column _ => []
    | sa.PrimaryKeyConstraint cs name => [named n name (primary_key cs)]
    | sa.UniqueConstraint cs name => [named n name (unique cs)]
    | sa.ForeignKeyConstraint fk => if sa.fk_use_alter fk then [] else [named n (sa.fk_name fk) (foreign_key_of fk)]
    end) l.

(** *** Effect on the schema *)

Definition check_constraint (n : string) (t : table) (s : schema) (c : constraint) : outcome unit :=
  ensure (has_columns t (constraint_columns c)) UndefinedColumn ;;
  match c with
  | primary_key _ | unique _ => mret tt
  | foreign_key _ r l _ =>
      t' ← (if String.eqb r n then Done t else get_table r s) ;
      ensure (has_columns t' l) UndefinedColumn ;;
      ensure (existsb (fun k => is_key l (snd k)) (tb_constraints t')) InvalidForeignKey
  end.

Fixpoint check_all (n : string) (t : table) (s : schema) (l : list (string * constraint)) : outcome unit :=
  match l with
  | [] => mret tt
  | c :: l' => check_constraint n t s (snd c) ;; check_all n t s l'
  end.

Definition define_table (n : string) (items : list sa.Item) (s : schema) : outcome schema :=
  ensure (negb (mem n (List.map fst s))) DuplicateTable ;;
  let t := {| tb_columns := item_columns items; tb_constraints := item_constraints n items; tb_indexes := [] |} in
  ensure (bool_decide (NoDup (column_names t))) DuplicateColumn ;;
  ensure (bool_decide (NoDup (List.map fst (tb_constraints t)))) DuplicateObject ;;
  check_all n t s (tb_constraints t) ;;
  mret (s ++ [(n, t)]).

Definition rename_in (c c' : string) (l : list string) : list string :=
  List.map (fun x => if String.eqb x c then c' else x) l.
(** Constraints and indexes follow a renamed column. *)
Definition rename_constraint (own : bool) (n c c' : string) (k : constraint) : constraint :=
  match k with
  | primary_key l => primary_key (if own then rename_in c c' l else l)
  | unique l => unique (if own then rename_in c c' l else l)
  | foreign_key l r l' d =>
      foreign_key (if own then rename_in c c' l else l) r (if String.eqb r n then rename_in c c' l' else l') d
  end.
Definition rename_column (n c c' : string) (p : string * table) : string * table :=
  let own := String.eqb (fst p) n in
  (fst p,
   {| tb_columns := if own then List.map (fun x => if String.eqb (col_name x) c
        then {| col_name := c'; col_type := col_type x; col_nullable := col_nullable x; col_default := col_default x |} else x) (tb_columns (snd p))
      else tb_columns (snd p);
      tb_constraints := List.map (fun k => (fst k, rename_constraint own n c c' (snd k))) (tb_constraints (snd p));
      tb_indexes := if own then List.map (fun i => {| ix_name := ix_name i; ix_columns := rename_in c c' (ix_columns i); ix_unique := ix_unique i; ix_using := ix_using i |}) (tb_indexes (snd p))
      else tb_indexes (snd p) |}).

Definition set_nullable (c : string) (b : bool) (t : table) : table :=
  {| tb_columns := List.map (fun x => if String.eqb (col_name x) c
       then {| col_name := col_name x; col_type := col_type x; col_nullable := b; col_default := col_default x |} else x) (tb_columns t);
     tb_constraints := tb_constraints t; tb_indexes := tb_indexes t |}.
Definition with_columns (f : list column -> list column) (t : table) : table :=
  {| tb_columns := f (tb_columns t); tb_constraints := tb_constraints t; tb_indexes := tb_indexes t |}.
Definition with_constraints (f : list (string * constraint) -> list (string * constraint)) (t : table) : table :=
  {| tb_columns := tb_columns t; tb_constraints := f (tb_constraints t); tb_indexes := tb_indexes t |}.
Definition with_indexes (f : list index -> list index) (t : table) : table :=
  {| tb_columns := tb_columns t; tb_constraints := tb_constraints t; tb_indexes := f (tb_indexes t) |}.
(** A dropped column takes the constraints and indexes of its table that use it with it. *)
Definition without_column (c : string) (t : table) : table :=
  {| tb_columns := List.filter (fun x => negb (String.eqb (col_name x) c)) (tb_columns t);
     tb_constraints := List.filter (fun k => negb (mem c (constraint_columns (snd k)))) (tb_constraints t);
     tb_indexes := List.filter (fun i => negb (mem c (ix_columns i))) (tb_indexes t) |}.

Definition define (o : op.operation) (s : schema) : outcome schema :=
  match o with
  | op.create_table n items => define_table n items s
  | op.drop_table n =>
      get_table n s ;;
      ensure (negb (referred_elsewhere n None s)) DependentObjectsStillExist ;;
      mret (List.filter (fun p => negb (String.eqb (fst p) n)) s)
  | op.create_index i n cols u how =>
      t ← get_table n s ;
      ensure (has_columns t cols) UndefinedColumn ;;
      ensure (negb (mem i (index_names s))) DuplicateTable ;;
      mret (update_table n (with_indexes (fun l => l ++ [{| ix_name := i; ix_columns := cols; ix_unique := u; ix_using := default "btree" how |}])) s)
  | op.drop_index i _ =>
      ensure (mem i (index_names s)) UndefinedObject ;;
      mret (List.map (fun p => (fst p, with_indexes (List.filter (fun x => negb (String.eqb (ix_name x) i))) (snd p))) s)
  | op.add_column n c =>
      t ← get_table n s ;
      ensure (negb (mem (sa.name c) (column_names t))) DuplicateColumn ;;
      mret (update_table n (with_columns (fun l => l ++ [column_of c])) s)
  | op.drop_column n c =>
      t ← get_table n s ;
      ensure (mem c (column_names t)) UndefinedColumn ;;
      ensure (negb (referred_elsewhere n (Some [c]) s)) DependentObjectsStillExist ;;
      mret (update_table n (without_column c) s)
  | op.alter_column_nullable n c b =>
      t ← get_table n s ;
      ensure (mem c (column_names t)) UndefinedColumn ;;
      ensure (negb (b && existsb (fun k => match snd k with primary_key l => mem c l | _ => false end) (tb_constraints t))) InvalidTableDefinition ;;
      mret (update_table n (set_nullable c b) s)
  | op.alter_column_name n c c' =>
      t ← get_table n s ;
      ensure (mem c (column_names t)) UndefinedColumn ;;
      ensure (negb (mem c' (column_names t))) DuplicateColumn ;;
      mret (List.map (rename_column n c c') s)
  | op.create_foreign_key name n r cols cols' d =>
      t ← get_table n s ;
      let k := named n name (foreign_key cols r cols' d) in
      ensure (negb (mem (fst k) (List.map fst (tb_constraints t)))) DuplicateObject ;;
      check_constraint n t s (snd k) ;;
      mret (update_table n (with_constraints (fun l => l ++ [k])) s)
  | op.drop_constraint None _ => Failed CompileError
  | op.drop_constraint (Some k) n =>
      t ← get_table n s ;
      match List.find (fun x => String.eqb (fst x) k) (tb_constraints t) with
      | None => Failed UndefinedObject
      | Some (_, c) =>
          ensure (match c with foreign_key _ _ _ _ => true | primary_key l | unique l => negb (referred_elsewhere n (Some l) s) end) DependentObjectsStillExist ;;
          mret (update_table n (with_constraints (List.filter (fun x => negb (String.eqb (fst x) k)))) s)
      end
  end.

(** *** Effect on the rows *)

Definition is_some {A} (x : option A) : bool := match x with Some _ => true | None => false end.
Definition cells (cols : list string) (r : row) : list (option string) := List.map r cols.
(** A key with a NULL matches nothing, a foreign key with a NULL refers to nothing. *)
Definition same_key (a b : list (option string)) : bool :=
  forallb is_some a && bool_decide (a = b).
Fixpoint distinct_keys (l : list (list (option string))) : bool :=
  match l with
  | [] => true
  | k :: l' => negb (existsb (same_key k) l') && distinct_keys l'
  end.
Definition refers (cols cols' : list string) (rows rows' : list row) : bool :=
  forallb (fun r => negb (forallb is_some (cells cols r)) || existsb (fun r' => same_key (cells cols r) (cells cols' r')) rows') rows.

Definition is_nil {A} (l : list A) : bool := match l with [] => true | _ => false end.

Definition rewrite (o : op.operation) (c : content) : outcome content :=
  match o with
  | op.create_table n _ | op.drop_table n => mret (set_at n [] c)
  | op.create_index _ n cols u _ =>
      ensure (negb u || distinct_keys (List.map (cells cols) (c n))) UniqueViolation ;; mret c
  | op.drop_index _ _ | op.drop_constraint _ _ => mret c
  | op.add_column n x =>
      ensure (sa.nullable x || is_some (sa.server_default x) || is_nil (c n)) NotNullViolation ;;
      mret (set_at n (List.map (set_at (sa.name x) (sa.server_default x)) (c n)) c)
  | op.drop_column n x => mret (set_at n (List.map (set_at x None) (c n)) c)
  | op.alter_column_nullable n x b =>
      ensure (b || forallb (fun r => is_some (r x)) (c n)) NotNullViolation ;; mret c
  | op.alter_column_name n x x' =>
      mret (set_at n (List.map (fun r => set_at x None (set_at x' (r x) r)) (c n)) c)
  | op.create_foreign_key _ n r cols cols' _ =>
      ensure (refers cols cols' (c n) (c r)) ForeignKeyViolation ;; mret c
  end.

(** ** Scripts *)

Definition apply_op (o : op.operation) (d : database) : outcome database :=
  s ← define o (db_schema d) ;
  c ← rewrite o (db_content d) ;
  mret {| db_version := db_version d; db_schema := s; db_content := c |}.

Fixpoint run (ops : list op.operation) (d : database) : outcome database :=
  match ops with
  | [] => mret d
  | o :: ops' => d' ← apply_op o d ; run ops' d'
  end.

(** The two effects of a script, apart. *)
Fixpoint define_all (ops : list op.operation) (s : schema) : outcome schema :=
  match ops with
  | [] => mret s
  | o :: ops' => s' ← define o s ; define_all ops' s'
  end.
Fixpoint rewrite_all (ops : list op.operation) (c : content) : outcome content :=
  match ops with
  | [] => mret c
  | o :: ops' => c' ← rewrite o c ; rewrite_all ops' c'
  end.

Lemma run_split ops d d' : run ops d = Done d' <->
  db_version d' = db_version d /\ define_all ops (db_schema d) = Done (db_schema d') /\ rewrite_all ops (db_content d) = Done (db_content d').
Proof.
  revert d. induction ops as [|o ops IH]; intros d; cbn.
  { destruct d as [v s c], d' as [v' s' c']; cbn; unfold mret, outcome_ret. split; [intros [= <- <- <-]; done|].
    by intros (-> & [= ->] & [= ->]). }
  unfold mbind, outcome_bind, apply_op, mret, outcome_ret, mbind, outcome_bind.
  destruct (define o (db_schema d)) as [s|]; [|naive_solver].
  destruct (rewrite o (db_content d)) as [c|]; [|naive_solver].
  apply IH.
Qed.

(** ** Schemas up to order

    The order of tables, columns, constraints and indexes is that of their creation, and
    means nothing to the statements that run against them. *)

Definition same_table (t t' : table) : Prop :=
  tb_columns t ≡ₚ tb_columns t' /\ tb_constraints t ≡ₚ tb_constraints t' /\ tb_indexes t ≡ₚ tb_indexes t'.
Definition same_schema (s s' : schema) : Prop := forall n, option_Forall2 same_table (table_of n s) (table_of n s').

#[export] Instance same_table_equivalence : Equivalence same_table.
Proof.
  split; [by intros t; split_and!|intros t u (? & ? & ?); split_and!; by symmetry|].
  intros t u v (? & ? & ?) (? & ? & ?). split_and!; etrans; eassumption.
Qed.
#[export] Instance same_schema_equivalence : Equivalence same_schema.
Proof.
  split; [intros s n|intros s s' H n|intros s s' s'' H H' n].
  - destruct (table_of n s); by constructor.
  - symmetry. apply H.
  - etrans; [apply H|apply H'].
Qed.

(** A check, by sorting. *)
Definition by_name {A} (f : A -> string) : list A -> list A := order_by (fun a b => String.leb (f a) (f b)).
Definition same_table_b (t t' : table) : bool :=
  bool_decide (by_name col_name (tb_columns t) = by_name col_name (tb_columns t')) &&
  bool_decide (by_name fst (tb_constraints t) = by_name fst (tb_constraints t')) &&
  bool_decide (by_name ix_name (tb_indexes t) = by_name ix_name (tb_indexes t')).
Definition same_schema_b (s s' : schema) : bool :=
  forallb (fun n => match table_of n s, table_of n s' with
    | Some t, Some t' => same_table_b t t'
    | None, None => true
    | _, _ => false
    end) (List.map fst s ++ List.map fst s').

Lemma by_name_eq {A} (f : A -> string) (l l' : list A) : by_name f l = by_name f l' -> l ≡ₚ l'.
Proof. intros H. rewrite -(order_by_Permutation (fun a b => String.leb (f a) (f b)) l) -(order_by_Permutation (fun a b => String.leb (f a) (f b)) l'). unfold by_name in H. by rewrite H. Qed.

Lemma same_table_b_sound t t' : same_table_b t t' = true -> same_table t t'.
Proof.
  unfold same_table_b. intros [[H1%bool_decide_eq_true H2%bool_decide_eq_true]%andb_true_iff H3%bool_decide_eq_true]%andb_true_iff.
  unfold same_table. split_and!; eapply by_name_eq; eassumption.
Qed.

Lemma table_of_None n s : n ∉ List.map fst s -> table_of n s = None.
Proof.
  unfold table_of. intros H. destruct (List.find _ s) as [p|] eqn:E; [|done].
  apply List.find_some in E as [Hin <-%String.eqb_eq]. exfalso. apply H. apply list_elem_of_In. by apply List.in_map.
Qed.

Lemma same_schema_b_sound s s' : same_schema_b s s' = true -> same_schema s s'.
Proof.
  unfold same_schema_b. rewrite List.forallb_forall. intros H n.
  destruct (decide (n ∈ List.map fst s ++ List.map fst s')) as [Hin|Hout].
  - apply list_elem_of_In in Hin. specialize (H n Hin).
    cbn beta in H. destruct (table_of n s), (table_of n s'); try discriminate H; constructor. by apply same_table_b_sound.
  - rewrite elem_of_app in Hout. rewrite !table_of_None; [naive_solver|naive_solver|constructor].
Qed.

(** ** What a script keeps

    [keeps t c c' ops]: the script neither drops the table nor the column [c], which it
    renames to [c'] at most. *)

Definition step_column (t : string) (o : op.operation) (c : string) : option string :=
  match o with
  | op.create_table n _ | op.drop_table n => if String.eqb n t then None else Some c
  | op.drop_column n x => if String.eqb n t && String.eqb x c then None else Some c
  | op.add_column n x => if String.eqb n t && String.eqb (sa.name x) c then None else Some c
  | op.alter_column_name n x x' =>
      if String.eqb n t then (if String.eqb x c then (if String.eqb x' c then None else Some x') else if String.eqb x' c then None else Some c) else Some c
  | _ => Some c
  end.
Fixpoint follow (t : string) (ops : list op.operation) (c : string) : option string :=
  match ops with
  | [] => Some c
  | o :: ops' => c' ← step_column t o c ; follow t ops' c'
  end.

Lemma set_at_same {A} k (v : A) f : set_at k v f k = v.
Proof. unfold set_at. by rewrite String.eqb_refl. Qed.
Lemma set_at_other {A} k (v : A) f x : String.eqb k x = false -> set_at k v f x = f x.
Proof. unfold set_at. rewrite String.eqb_sym. by intros ->. Qed.

(** The values of a column, row by row. *)
Definition values (c : content) (t k : string) : list (option string) := List.map (fun r => r k) (c t).

Lemma values_map t k n (f : row -> row) (c : content) k' :
  (forall r, String.eqb n t = true -> f r k' = r k) -> (String.eqb n t = false -> k' = k) ->
  values (set_at n (List.map f (c n)) c) t k' = values c t k.
Proof.
  unfold values. intros H H'. destruct (String.eqb n t) eqn:E.
  - apply String.eqb_eq in E as ->. rewrite set_at_same List.map_map. apply List.map_ext. intros r. by apply H.
  - rewrite set_at_other; [done|]. by rewrite (H' eq_refl).
Qed.

Lemma ensure_Done b e {A} (m : outcome A) a : (ensure b e ;; m) = Done a -> b = true /\ m = Done a.
Proof. by destruct b. Qed.

Lemma rewrite_keeps t o k k' c c' : step_column t o k = Some k' -> rewrite o c = Done c' -> values c' t k' = values c t k.
Proof.
  destruct o as [n l|n|i n l u h|i n|n x|n x|n x b|n x x'|f n r l l' d|f n]; cbn -[String.eqb values]; intros Hs Hr.
  - destruct (String.eqb n t) eqn:E; [done|]. injection Hs as <-. injection Hr as <-. unfold values. by rewrite set_at_other.
  - destruct (String.eqb n t) eqn:E; [done|]. injection Hs as <-. injection Hr as <-. unfold values. by rewrite set_at_other.
  - apply ensure_Done in Hr as [_ [= <-]]. congruence.
  - by injection Hs as <-; injection Hr as <-.
  - apply ensure_Done in Hr as [_ [= <-]].
    destruct (String.eqb n t) eqn:E; cbn -[String.eqb values] in Hs; [destruct (String.eqb (sa.name x) k) eqn:Ex; [done|]|];
      injection Hs as <-; apply values_map; try done; intros r En; [by apply set_at_other|congruence].
  - injection Hr as <-. destruct (String.eqb n t) eqn:E; cbn -[String.eqb values] in Hs; [destruct (String.eqb x k) eqn:Ex; [done|]|];
      injection Hs as <-; apply values_map; try done; intros r En; [by apply set_at_other|congruence].
  - apply ensure_Done in Hr as [_ [= <-]]. congruence.
  - injection Hr as <-. destruct (String.eqb n t) eqn:E; [|injection Hs as <-; apply values_map; [intros r En; congruence|done]].
    destruct (String.eqb x k) eqn:Ex.
    + apply String.eqb_eq in Ex as ->. destruct (String.eqb x' k) eqn:Ex'; [done|]. injection Hs as <-.
      apply values_map; [|by rewrite E]. intros r _. rewrite set_at_other; [by rewrite String.eqb_sym|]. by rewrite set_at_same.
    + destruct (String.eqb x' k) eqn:Ex'; [done|]. injection Hs as <-.
      apply values_map; [|by rewrite E]. intros r _. by rewrite !set_at_other.
  - apply ensure_Done in Hr as [_ [= <-]]. congruence.
  - by injection Hs as <-; injection Hr as <-.
Qed.

Lemma rewrite_all_keeps t ops k k' c c' : follow t ops k = Some k' -> rewrite_all ops c = Done c' -> values c' t k' = values c t k.
Proof.
  revert k c. induction ops as [|o ops IH]; intros k c; cbn; [by intros [= <-] [= <-]|].
  destruct (step_column t o k) as [k1|] eqn:E1; [|done]. destruct (rewrite o c) as [c1|] eqn:E2; [|done]. cbn.
  intros H1 H2. rewrite (IH _ _ H1 H2). exact (rewrite_keeps _ _ _ _ _ _ E1 E2).
Qed.
