(* ===== verification/OrmModels.v ===== *)
(** * ORM models (db/models.py)

    The mapped classes, and the schema that [Base.metadata] describes. *)
From stdpp Require Import base strings list.
From Stdlib Require Import ZArith Lia ssreflect.
From S2P Require Import Prelude Ddl.

#[local] Open Scope string_scope.
#[local] Open Scope list_scope.
#[local] Open Scope Z_scope.

(** ** Mapped classes (sqlalchemy.orm) *)

(** The arguments of [mapped_column] that the schema depends on: the defaults of the models
    are computed by Python.  A column is NOT NULL unless it says otherwise. *)
Inductive Argument :=
  | ForeignKey (to : string * string) (ondelete : option sa.OnDelete) (name : option string)
  | Primary_key
  | Unique
  | Indexed
  | Nullable.
Record MappedColumn := mapped_column { mc_name : string; mc_type : sa.Type_; mc_arguments : list Argument }.
Inductive TableArg :=
  | UniqueConstraint (columns : list string) (name : string)
  | Index (name : string) (columns : list string) (postgresql_using : option string).
(** [relationships] keeps those declared with [cascade="all, delete-orphan"]: the session deletes
    the rows of these tables with the row they belong to. *)
Record Model := { tablename : string; mapped_columns : list MappedColumn; relationships : list string; table_args : list TableArg }.

(** ** The schema of a mapped class *)

Definition has (a : Argument) (c : MappedColumn) : bool :=
  existsb (fun x => match a, x with Primary_key, Primary_key | Unique, Unique | Indexed, Indexed | Nullable, Nullable => true | _, _ => false end) (mc_arguments c).

Definition column_of_mapped (c : MappedColumn) : column :=
  {| col_name := mc_name c; col_type := pg_type (mc_type c); col_nullable := has Nullable c; col_default := None |}.
(** A column that is unique and indexed has a unique index, one that is unique only a constraint. *)
Definition constraints_of_mapped (n : string) (c : MappedColumn) : list (string * constraint) :=
  (if has Unique c && negb (has Indexed c) then [named n None (unique [mc_name c])] else []) ++
  flat_map (fun a => match a with ForeignKey (t, k) d name => [named n name (foreign_key [mc_name c] t [k] d)] | _ => [] end) (mc_arguments c).
Definition indexes_of_mapped (n : string) (c : MappedColumn) : list index :=
  if has Indexed c
  then [{| ix_name := "ix_" +:+ n +:+ "_" +:+ mc_name c; ix_columns := [mc_name c]; ix_unique := has Unique c; ix_using := "btree" |}]
  else [].

Definition table_of_model (m : Model) : string * table :=
  let n := tablename m in
  (n, {| tb_columns := List.map column_of_mapped (mapped_columns m);
         tb_constraints :=
           named n None (primary_key (List.map mc_name (List.filter (has Primary_key) (mapped_columns m)))) ::
           flat_map (constraints_of_mapped n) (mapped_columns m) ++
           flat_map (fun a => match a with UniqueConstraint cs name => [named n (Some name) (unique cs)] | Index _ _ _ => [] end) (table_args m);
         tb_indexes :=
           flat_map (indexes_of_mapped n) (mapped_columns m) ++
           flat_map (fun a => match a with
             | UniqueConstraint _ _ => []
             | Index i cs how => [{| ix_name := i; ix_columns := cs; ix_unique := false; ix_using := default "btree" how |}]
             end) (table_args m) |}).

(** ** Enumerations: the names that the columns hold *)

Definition MembershipRole_names : list string := ["OWNER"; "ADMIN"; "MEMBER"].
Definition InvitationStatus_names : list string := ["PENDING"; "ACCEPTED"; "DECLINED"; "REVOKED"; "EXPIRED"].
Definition TraceStatus_names : list string := ["PENDING"; "RUNNING"; "COMPLETED"; "ERROR"].
Definition SpanKind_names : list string := ["AGENT"; "TOOL"; "LLM"; "RETRIEVER"; "CHAIN"; "EMBEDDING"; "OTHER"].
Definition SpanStatusCode_names : list string := ["UNSET"; "OK"; "ERROR"].
Definition MonitorStatus_names : list string := ["ACTIVE"; "PAUSED"].
Definition EvaluationStatus_names : list string := ["PENDING"; "RUNNING"; "COMPLETED"; "FAILED"].
Definition ScoreDataType_names : list string := ["NUMERIC"; "BOOLEAN"; "CATEGORICAL"].
Definition ScoreSource_names : list string := ["AUTOMATED"; "ANNOTATION"; "PROGRAMMATIC"].
Definition ScoreStatus_names : list string := ["SUCCESS"; "FAILED"; "PENDING"].
Definition SubscriptionPlan_names : list string := ["HOBBY"; "PRO"; "STARTUP"; "ENTERPRISE"; "DEVELOPMENT"].
Definition SubscriptionStatus_names : list string := ["ACTIVE"; "PAST_DUE"; "CANCELED"; "INCOMPLETE"].

(** ** db/models.py *)

(** Registered user linked to an external identity provider. *)
Definition UserModel : Model :=
  {| tablename := "users";
     mapped_columns :=
       [ mapped_column "id" sa.UUID [Primary_key];
         mapped_column "external_id" (sa.String (Some 255)) [Unique; Indexed];
         mapped_column "email" (sa.String (Some 320)) [Unique];
         mapped_column "display_name" (sa.String (Some 255)) [];
         mapped_column "created_at" (sa.DateTime true) [];
         mapped_column "last_sign_in_at" (sa.DateTime true) [Nullable] ];
     relationships := ["memberships"; "invitations"];
     table_args := [  ] |}.

(** Tenant account. *)
Definition OrganizationModel : Model :=
  {| tablename := "organizations";
     mapped_columns :=
       [ mapped_column "id" sa.UUID [Primary_key];
         mapped_column "name" (sa.String (Some 255)) [];
         mapped_column "created_at" (sa.DateTime true) [] ];
     relationships := ["memberships"; "projects"; "api_keys"; "subscriptions"; "usage_records"; "invitations"];
     table_args := [  ] |}.

(** Join table linking users to organizations with a role. *)
Definition MembershipModel : Model :=
  {| tablename := "memberships";
     mapped_columns :=
       [ mapped_column "id" sa.UUID [Primary_key];
         mapped_column "user_id" sa.UUID [ForeignKey ("users", "id") None None];
         mapped_column "org_id" sa.UUID [ForeignKey ("organizations", "id") None None];
         mapped_column "role" (sa.Enum MembershipRole_names "membership_role" 20) [];
         mapped_column "created_at" (sa.DateTime true) [] ];
     relationships := [];
     table_args := [ UniqueConstraint ["user_id"; "org_id"] "uq_membership_user_org" ] |}.

(** Email-based invitation to join an organization. *)
Definition InvitationModel : Model :=
  {| tablename := "invitations";
     mapped_columns :=
       [ mapped_column "id" sa.UUID [Primary_key];
         mapped_column "org_id" sa.UUID [ForeignKey ("organizations", "id") None None];
         mapped_column "email" (sa.String (Some 320)) [];
         mapped_column "role" (sa.Enum MembershipRole_names "membership_role" 20) [];
         mapped_column "invited_by" sa.UUID [ForeignKey ("users", "id") None None];
         mapped_column "status" (sa.Enum InvitationStatus_names "invitation_status" 20) [];
         mapped_column "created_at" (sa.DateTime true) [];
         mapped_column "expires_at" (sa.DateTime true) [] ];
     relationships := [];
     table_args := [ Index "ix_invitation_org_email" ["org_id"; "email"] None ] |}.

(** Project within an organization that groups traces. *)
Definition ProjectModel : Model :=
  {| tablename := "projects";
     mapped_columns :=
       [ mapped_column "id" sa.UUID [Primary_key];
         mapped_column "org_id" sa.UUID [ForeignKey ("organizations", "id") None None];
         mapped_column "name" (sa.String (Some 255)) [];
         mapped_column "description" sa.Text [];
         mapped_column "created_at" (sa.DateTime true) [] ];
     relationships := [];
     table_args := [ UniqueConstraint ["org_id"; "name"] "uq_project_org_name";
         Index "ix_projects_org_id" ["org_id"] None ] |}.

(** Hashed API key scoped to an organization. *)
Definition APIKeyModel : Model :=
  {| tablename := "api_keys";
     mapped_columns :=
       [ mapped_column "id" sa.UUID [Primary_key];
         mapped_column "org_id" sa.UUID [ForeignKey ("organizations", "id") None None];
         mapped_column "key_hash" (sa.String (Some 128)) [Unique; Indexed];
         mapped_column "key_prefix" (sa.String (Some 12)) [];
         mapped_column "name" (sa.String (Some 255)) [];
         mapped_column "is_active" sa.Boolean [];
         mapped_column "created_at" (sa.DateTime true) [];
         mapped_column "expires_at" (sa.DateTime true) [Nullable];
         mapped_column "last_used_at" (sa.DateTime true) [Nullable];
         mapped_column "created_by" sa.UUID [ForeignKey ("users", "id") None None; Nullable] ];
     relationships := [];
     table_args := [  ] |}.

(** Top-level trace representing an agentic workflow execution. *)
Definition TraceModel : Model :=
  {| tablename := "traces";
     mapped_columns :=
       [ mapped_column "trace_id" sa.UUID [Primary_key];
         mapped_column "project_id" sa.UUID [ForeignKey ("projects", "id") (Some sa.CASCADE) None];
         mapped_column "name" (sa.String (Some 512)) [];
         mapped_column "status" (sa.Enum TraceStatus_names "trace_status" 20) [];
         mapped_column "input" sa.JSONB [Nullable];
         mapped_column "output" sa.JSONB [Nullable];
         mapped_column "metadata" sa.JSONB [];
         mapped_column "started_at" (sa.DateTime true) [];
         mapped_column "ended_at" (sa.DateTime true) [Nullable];
         mapped_column "session_id" (sa.String (Some 255)) [Nullable];
         mapped_column "user_id" (sa.String (Some 255)) [Nullable];
         mapped_column "tags" (sa.ARRAY (sa.String None)) [];
         mapped_column "environment" (sa.String (Some 255)) [Nullable];
         mapped_column "release" (sa.String (Some 255)) [Nullable];
         mapped_column "created_at" (sa.DateTime true) [] ];
     relationships := ["spans"];
     table_args := [ Index "ix_traces_project_id_created" ["project_id"; "created_at"] None;
         Index "ix_traces_session_id" ["project_id"; "session_id"] None;
         Index "ix_traces_tags" ["tags"] (Some "gin");
         Index "ix_traces_project_status" ["project_id"; "status"] None;
         Index "ix_traces_project_user_id" ["project_id"; "user_id"] None;
         Index "ix_traces_project_started" ["project_id"; "started_at"] None ] |}.

(** A single unit of work within a trace. *)
Definition SpanModel : Model :=
  {| tablename := "spans";
     mapped_columns :=
       [ mapped_column "span_id" sa.UUID [Primary_key];
         mapped_column "trace_id" sa.UUID [ForeignKey ("traces", "trace_id") (Some sa.CASCADE) None];
         mapped_column "parent_span_id" sa.UUID [Nullable];
         mapped_column "name" (sa.String (Some 512)) [];
         mapped_column "kind" (sa.Enum SpanKind_names "span_kind" 20) [];
         mapped_column "status" (sa.Enum SpanStatusCode_names "span_status_code" 20) [];
         mapped_column "input" sa.JSONB [Nullable];
         mapped_column "output" sa.JSONB [Nullable];
         mapped_column "model" (sa.String (Some 255)) [Nullable];
         mapped_column "token_usage" sa.JSONB [Nullable];
         mapped_column "metadata" sa.JSONB [];
         mapped_column "started_at" (sa.DateTime true) [];
         mapped_column "ended_at" (sa.DateTime true) [Nullable];
         mapped_column "error" sa.Text [Nullable];
         mapped_column "completion_start_time" (sa.DateTime true) [Nullable];
         mapped_column "model_parameters" sa.JSONB [Nullable];
         mapped_column "cost" sa.JSONB [Nullable] ];
     relationships := [];
     table_args := [ Index "ix_spans_trace_id" ["trace_id"] None ] |}.

(** A persistent evaluation schedule that spawns eval runs on a cadence. *)
Definition EvalMonitorModel : Model :=
  {| tablename := "eval_monitors";
     mapped_columns :=
       [ mapped_column "id" sa.UUID [Primary_key];
         mapped_column "project_id" sa.UUID [ForeignKey ("projects", "id") (Some sa.CASCADE) None];
         mapped_column "name" (sa.String (Some 255)) [];
         mapped_column "target_type" (sa.String (Some 20)) [];
         mapped_column "metric_names" (sa.ARRAY (sa.String (Some 255))) [];
         mapped_column "filters" sa.JSONB [];
         mapped_column "sampling_rate" sa.Float [];
         mapped_column "model" (sa.String (Some 255)) [Nullable];
         mapped_column "cadence" (sa.String (Some 50)) [];
         mapped_column "only_if_changed" sa.Boolean [];
         mapped_column "status" (sa.Enum MonitorStatus_names "monitor_status" 20) [];
         mapped_column "last_run_at" (sa.DateTime true) [Nullable];
         mapped_column "last_run_id" sa.UUID [ForeignKey ("eval_runs", "id") (Some sa.SET_NULL) (Some "fk_eval_monitors_last_run_id"); Nullable];
         mapped_column "next_run_at" (sa.DateTime true) [Nullable];
         mapped_column "created_at" (sa.DateTime true) [];
         mapped_column "updated_at" (sa.DateTime true) [] ];
     relationships := [];
     table_args := [ Index "ix_eval_monitors_project" ["project_id"; "status"] None;
         Index "ix_eval_monitors_next_run" ["status"; "next_run_at"] None ] |}.

(** A batch evaluation job that applies metrics to a filtered set of traces. *)
Definition EvalRunModel : Model :=
  {| tablename := "eval_runs";
     mapped_columns :=
       [ mapped_column "id" sa.UUID [Primary_key];
         mapped_column "project_id" sa.UUID [ForeignKey ("projects", "id") (Some sa.CASCADE) None];
         mapped_column "name" (sa.String (Some 255)) [Nullable];
         mapped_column "target_type" (sa.String (Some 20)) [];
         mapped_column "metric_names" (sa.ARRAY (sa.String (Some 255))) [];
         mapped_column "filters" sa.JSONB [];
         mapped_column "sampling_rate" sa.Float [];
         mapped_column "model" (sa.String (Some 255)) [Nullable];
         mapped_column "status" (sa.Enum EvaluationStatus_names "evaluation_status" 20) [];
         mapped_column "total_targets" sa.Integer [];
         mapped_column "evaluated_count" sa.Integer [];
         mapped_column "failed_count" sa.Integer [];
         mapped_column "error_message" sa.Text [Nullable];
         mapped_column "monitor_id" sa.UUID [ForeignKey ("eval_monitors", "id") (Some sa.SET_NULL) None; Nullable];
         mapped_column "created_at" (sa.DateTime true) [];
         mapped_column "completed_at" (sa.DateTime true) [Nullable] ];
     relationships := [];
     table_args := [ Index "ix_eval_runs_project" ["project_id"; "created_at"] None ] |}.

(** A single score for a single trace, from any source. *)
Definition TraceScoreModel : Model :=
  {| tablename := "trace_scores";
     mapped_columns :=
       [ mapped_column "id" sa.UUID [Primary_key];
         mapped_column "trace_id" sa.UUID [ForeignKey ("traces", "trace_id") (Some sa.CASCADE) None];
         mapped_column "project_id" sa.UUID [ForeignKey ("projects", "id") (Some sa.CASCADE) None];
         mapped_column "name" (sa.String (Some 255)) [];
         mapped_column "data_type" (sa.Enum ScoreDataType_names "score_data_type" 20) [];
         mapped_column "value" (sa.String (Some 255)) [Nullable];
         mapped_column "source" (sa.Enum ScoreSource_names "score_source" 20) [];
         mapped_column "status" (sa.Enum ScoreStatus_names "score_status" 20) [];
         mapped_column "eval_run_id" sa.UUID [ForeignKey ("eval_runs", "id") (Some sa.SET_NULL) None; Nullable];
         mapped_column "author_user_id" (sa.String (Some 255)) [Nullable];
         mapped_column "reason" sa.Text [Nullable];
         mapped_column "environment" (sa.String (Some 255)) [Nullable];
         mapped_column "config_id" (sa.String (Some 255)) [Nullable];
         mapped_column "metadata" sa.JSONB [];
         mapped_column "created_at" (sa.DateTime true) [];
         mapped_column "updated_at" (sa.DateTime true) [] ];
     relationships := [];
     table_args := [ Index "ix_trace_scores_trace_id" ["trace_id"] None;
         Index "ix_trace_scores_project_name" ["project_id"; "name"] None;
         Index "ix_trace_scores_eval_run" ["eval_run_id"] None;
         Index "ix_trace_scores_project_created" ["project_id"; "created_at"] None ] |}.

(** A single score for a session (agent-level), from any source. *)
Definition SessionScoreModel : Model :=
  {| tablename := "session_scores";
     mapped_columns :=
       [ mapped_column "id" sa.UUID [Primary_key];
         mapped_column "session_id" (sa.String (Some 255)) [];
         mapped_column "project_id" sa.UUID [ForeignKey ("projects", "id") (Some sa.CASCADE) None];
         mapped_column "name" (sa.String (Some 255)) [];
         mapped_column "data_type" (sa.Enum ScoreDataType_names "score_data_type" 20) [];
         mapped_column "value" (sa.String (Some 255)) [Nullable];
         mapped_column "source" (sa.Enum ScoreSource_names "score_source" 20) [];
         mapped_column "status" (sa.Enum ScoreStatus_names "score_status" 20) [];
         mapped_column "eval_run_id" sa.UUID [ForeignKey ("eval_runs", "id") (Some sa.SET_NULL) None; Nullable];
         mapped_column "author_user_id" (sa.String (Some 255)) [Nullable];
         mapped_column "reason" sa.Text [Nullable];
         mapped_column "environment" (sa.String (Some 255)) [Nullable];
         mapped_column "config_id" (sa.String (Some 255)) [Nullable];
         mapped_column "metadata" sa.JSONB [];
         mapped_column "created_at" (sa.DateTime true) [];
         mapped_column "updated_at" (sa.DateTime true) [] ];
     relationships := [];
     table_args := [ Index "ix_session_scores_project_session" ["project_id"; "session_id"] None;
         Index "ix_session_scores_project_name" ["project_id"; "name"; "created_at"] None;
         Index "ix_session_scores_eval_run" ["eval_run_id"] None ] |}.

(** An organization's subscription to a PandaProbe plan. *)
Definition SubscriptionModel : Model :=
  {| tablename := "subscriptions";
     mapped_columns :=
       [ mapped_column "id" sa.UUID [Primary_key];
         mapped_column "org_id" sa.UUID [ForeignKey ("organizations", "id") (Some sa.CASCADE) None; Unique];
         mapped_column "plan" (sa.Enum SubscriptionPlan_names "subscription_plan" 20) [];
         mapped_column "status" (sa.Enum SubscriptionStatus_names "subscription_status" 20) [];
         mapped_column "stripe_customer_id" (sa.String (Some 255)) [Indexed; Nullable];
         mapped_column "stripe_subscription_id" (sa.String (Some 255)) [Unique; Nullable];
         mapped_column "current_period_start" (sa.DateTime true) [];
         mapped_column "current_period_end" (sa.DateTime true) [];
         mapped_column "canceled_at" (sa.DateTime true) [Nullable];
         mapped_column "created_at" (sa.DateTime true) [];
         mapped_column "updated_at" (sa.DateTime true) [] ];
     relationships := [];
     table_args := [ Index "ix_subscriptions_org_id" ["org_id"] None ] |}.

(** Durable overage intent, independent of whether its usage period is closed. *)
Definition BillingReportModel : Model :=
  {| tablename := "billing_reports";
     mapped_columns :=
       [ mapped_column "id" sa.UUID [Primary_key];
         mapped_column "usage_record_id" sa.UUID [ForeignKey ("usage_records", "id") (Some sa.CASCADE) None];
         mapped_column "stripe_customer_id" (sa.String (Some 255)) [];
         mapped_column "stripe_subscription_id" (sa.String (Some 255)) [Nullable];
         mapped_column "closing_invoice_id" (sa.String (Some 255)) [Nullable];
         mapped_column "snapshot_trace_count" sa.Integer [];
         mapped_column "snapshot_trace_eval_count" sa.Integer [];
         mapped_column "snapshot_session_eval_count" sa.Integer [];
         mapped_column "pricing" sa.JSONB [];
         mapped_column "requests" sa.JSONB [];
         mapped_column "attempted_at" sa.JSONB [];
         mapped_column "stripe_item_ids" sa.JSONB [];
         mapped_column "status" (sa.String (Some 20)) [];
         mapped_column "last_error" sa.Text [Nullable];
         mapped_column "created_at" (sa.DateTime true) [];
         mapped_column "updated_at" (sa.DateTime true) [] ];
     relationships := [];
     table_args := [ Index "ix_billing_reports_status_created" ["status"; "created_at"] None;
         Index "ix_billing_reports_usage_record" ["usage_record_id"] None;
         UniqueConstraint ["usage_record_id"; "closing_invoice_id"] "uq_billing_report_closure" ] |}.

(** Aggregated usage counters for a single billing period. *)
Definition UsageRecordModel : Model :=
  {| tablename := "usage_records";
     mapped_columns :=
       [ mapped_column "id" sa.UUID [Primary_key];
         mapped_column "org_id" sa.UUID [ForeignKey ("organizations", "id") (Some sa.CASCADE) None];
         mapped_column "period_start" (sa.DateTime true) [];
         mapped_column "period_end" (sa.DateTime true) [];
         mapped_column "trace_count" sa.Integer [];
         mapped_column "trace_eval_count" sa.Integer [];
         mapped_column "session_eval_count" sa.Integer [];
         mapped_column "reported_trace_count" sa.Integer [];
         mapped_column "reported_trace_eval_count" sa.Integer [];
         mapped_column "reported_session_eval_count" sa.Integer [];
         mapped_column "billed" sa.Boolean [];
         mapped_column "stripe_invoice_id" (sa.String (Some 255)) [Nullable];
         mapped_column "created_at" (sa.DateTime true) [];
         mapped_column "updated_at" (sa.DateTime true) [] ];
     relationships := [];
     table_args := [ UniqueConstraint ["org_id"; "period_start"] "uq_usage_record_org_period";
         Index "ix_usage_records_org_period" ["org_id"; "period_start"] None ] |}.

(** [Base.metadata] *)
Definition metadata : list Model :=
  [UserModel; OrganizationModel; MembershipModel; InvitationModel; ProjectModel; APIKeyModel; TraceModel; SpanModel;
   EvalMonitorModel; EvalRunModel; TraceScoreModel; SessionScoreModel; SubscriptionModel; BillingReportModel; UsageRecordModel].
Definition declared : schema := List.map table_of_model metadata.

(** What a deletion does to the rows that refer to the deleted one: the session follows the
    cascading relationships, PostgreSQL the actions of the foreign keys. *)
Definition with_relationships (n : string) (k : string * constraint) : string * constraint :=
  match snd k with
  | foreign_key cs r l d =>
      (fst k, foreign_key cs r l (if existsb (fun m => String.eqb (tablename m) r && mem n (relationships m)) metadata then Some sa.CASCADE else d))
  | _ => k
  end.
Definition effective : schema :=
  List.map (fun p => (fst p, with_constraints (List.map (with_relationships (fst p))) (snd p))) declared.
