(* ===== verification/SchemaRefinement.v ===== *)
(** * The tables of the world and the declared schema

    The world (World.v) keeps each table as a list of records, with the unique keys as a
    predicate that clashes on insertion and the foreign keys as the cascades of a deletion.
    Here these are shown to be the keys and the cascades that db/models.py declares: a row
    is written out as the list of all its columns, so that the comparison is cell by cell. *)
From stdpp Require Import base gmap strings list pretty.
From Stdlib Require Import ZArith Lia ssreflect.
From S2P Require Import Prelude Constants Entities Evals Telemetry World IdentityRepo Ddl OrmModels.

#[local] Open Scope string_scope.
#[local] Open Scope list_scope.

(** ** Rows

    The cells of a record, every column of its table: NULL, or a value.  Identifiers, texts and times are told apart,
    since keys and references are made of them; any other value stands in its cell as it is. *)

Inductive value :=
  | uuid (i : N)
  | characters (s : string)
  | instant (t : Z)
  | other {T : Type} (x : T).
Abbreviation cells_of := (list (string * option value)).
Abbreviation record_row := (string -> option value).
Fixpoint cell (l : cells_of) (x : string) : option value :=
  match l with
  | [] => None
  | (k, v) :: l' => if String.eqb x k then v else cell l' x
  end.

Definition user_cells (u : User) : cells_of :=
  [("id", Some (uuid (u_id u))); ("external_id", Some (characters (u_external u))); ("email", Some (characters (u_email u)));
   ("display_name", Some (characters (u_display u))); ("created_at", Some (instant (u_created u)));
   ("last_sign_in_at", instant <$> u_last_sign_in u)].
Definition organization_cells (o : Organization) : cells_of :=
  [("id", Some (uuid (o_id o))); ("name", Some (characters (o_name o))); ("created_at", Some (instant (o_created o)))].
Definition membership_cells (m : Membership) : cells_of :=
  [("id", Some (uuid (m_id m))); ("user_id", Some (uuid (m_user m))); ("org_id", Some (uuid (m_org m))); ("role", Some (other (m_role m)));
   ("created_at", Some (instant (m_created m)))].
Definition invitation_cells (i : Invitation) : cells_of :=
  [("id", Some (uuid (i_id i))); ("org_id", Some (uuid (i_org i))); ("email", Some (characters (i_email i))); ("role", Some (other (i_role i)));
   ("invited_by", Some (uuid (i_invited_by i))); ("status", Some (other (i_status i))); ("created_at", Some (instant (i_created i)));
   ("expires_at", Some (instant (i_expires i)))].
Definition project_cells (p : Project) : cells_of :=
  [("id", Some (uuid (p_id p))); ("org_id", Some (uuid (p_org p))); ("name", Some (characters (p_name p)));
   ("description", Some (characters (p_description p))); ("created_at", Some (instant (p_created p)))].
Definition api_key_cells (k : APIKey) : cells_of :=
  [("id", Some (uuid (k_id k))); ("org_id", Some (uuid (k_org k))); ("key_hash", Some (characters (k_hash k)));
   ("key_prefix", Some (characters (k_prefix k))); ("name", Some (characters (k_name k))); ("is_active", Some (other (k_active k)));
   ("created_at", Some (instant (k_created k))); ("expires_at", instant <$> k_expires k); ("last_used_at", instant <$> k_last_used k);
   ("created_by", uuid <$> k_created_by k)].
Definition subscription_cells (s : Subscription) : cells_of :=
  [("id", Some (uuid (sub_id s))); ("org_id", Some (uuid (sub_org s))); ("plan", Some (other (sub_plan s))); ("status", Some (other (sub_status s)));
   ("stripe_customer_id", characters <$> sub_customer s); ("stripe_subscription_id", characters <$> sub_stripe_id s);
   ("current_period_start", Some (instant (sub_start s))); ("current_period_end", Some (instant (sub_end s)));
   ("canceled_at", instant <$> sub_canceled_at s); ("created_at", Some (instant (sub_created s))); ("updated_at", Some (instant (sub_updated s)))].
Definition usage_record_cells (u : UsageRecord) : cells_of :=
  [("id", Some (uuid (ur_id u))); ("org_id", Some (uuid (ur_org u))); ("period_start", Some (instant (ur_start u)));
   ("period_end", Some (instant (ur_end u))); ("trace_count", Some (other (traces (ur_count u))));
   ("trace_eval_count", Some (other (trace_evals (ur_count u)))); ("session_eval_count", Some (other (session_evals (ur_count u))));
   ("reported_trace_count", Some (other (traces (ur_reported u)))); ("reported_trace_eval_count", Some (other (trace_evals (ur_reported u))));
   ("reported_session_eval_count", Some (other (session_evals (ur_reported u)))); ("billed", Some (other (ur_billed u)));
   ("stripe_invoice_id", characters <$> ur_invoice u); ("created_at", Some (instant (ur_created u))); ("updated_at", Some (instant (ur_updated u)))].
Definition billing_report_cells (r : BillingReport) : cells_of :=
  [("id", Some (uuid (br_id r))); ("usage_record_id", Some (uuid (br_usage r))); ("stripe_customer_id", Some (characters (br_customer r)));
   ("stripe_subscription_id", characters <$> br_subscription r); ("closing_invoice_id", characters <$> br_closing r);
   ("snapshot_trace_count", Some (other (traces (br_snapshot r)))); ("snapshot_trace_eval_count", Some (other (trace_evals (br_snapshot r))));
   ("snapshot_session_eval_count", Some (other (session_evals (br_snapshot r)))); ("pricing", Some (other (br_pricing r)));
   ("requests", Some (other (br_requests r))); ("attempted_at", Some (other (br_attempted r))); ("stripe_item_ids", Some (other (br_items r)));
   ("status", Some (other (br_status r))); ("last_error", other <$> br_error r); ("created_at", Some (instant (br_created r)));
   ("updated_at", Some (instant (br_updated r)))].
Definition trace_cells (t : TraceRow) : cells_of :=
  [("trace_id", Some (uuid (t_id t))); ("project_id", Some (uuid (t_project t))); ("name", Some (characters (t_name t)));
   ("status", Some (other (t_status t))); ("input", other <$> t_input t); ("output", other <$> t_output t);
   ("metadata", Some (other (t_metadata t))); ("started_at", Some (instant (t_started t))); ("ended_at", instant <$> t_ended t);
   ("session_id", characters <$> t_session t); ("user_id", characters <$> t_user t); ("tags", Some (other (t_tags t)));
   ("environment", characters <$> t_environment t); ("release", characters <$> t_release t); ("created_at", Some (instant (t_created t)))].
Definition span_cells (s : SpanRow) : cells_of :=
  [("span_id", Some (uuid (s_id s))); ("trace_id", Some (uuid (s_trace s))); ("parent_span_id", uuid <$> s_parent s);
   ("name", Some (characters (s_name s))); ("kind", Some (other (s_kind s))); ("status", Some (other (s_status s))); ("input", other <$> s_input s);
   ("output", other <$> s_output s); ("model", characters <$> s_model s); ("token_usage", other <$> s_token_usage s);
   ("metadata", Some (other (s_metadata s))); ("started_at", Some (instant (s_started s))); ("ended_at", instant <$> s_ended s);
   ("error", characters <$> s_error s); ("completion_start_time", instant <$> s_completion_start s);
   ("model_parameters", other <$> s_model_parameters s); ("cost", other <$> s_cost s)].
Definition monitor_cells (m : EvalMonitor) : cells_of :=
  [("id", Some (uuid (mo_id m))); ("project_id", Some (uuid (mo_project m))); ("name", Some (characters (mo_name m)));
   ("target_type", Some (other (mo_target m))); ("metric_names", Some (other (mo_metrics m))); ("filters", Some (other (mo_filters m)));
   ("sampling_rate", Some (other (mo_sampling m))); ("model", characters <$> mo_model m); ("cadence", Some (characters (mo_cadence m)));
   ("only_if_changed", Some (other (mo_only_if_changed m))); ("status", Some (other (mo_status m))); ("last_run_at", instant <$> mo_last_run_at m);
   ("last_run_id", uuid <$> mo_last_run m); ("next_run_at", instant <$> mo_next_run_at m); ("created_at", Some (instant (mo_created m)));
   ("updated_at", Some (instant (mo_updated m)))].
Definition run_cells (r : EvalRun) : cells_of :=
  [("id", Some (uuid (e_id r))); ("project_id", Some (uuid (e_project r))); ("name", characters <$> e_name r);
   ("target_type", Some (other (e_target r))); ("metric_names", Some (other (e_metrics r))); ("filters", Some (other (e_filters r)));
   ("sampling_rate", Some (other (e_sampling r))); ("model", characters <$> e_model r); ("status", Some (other (e_status r)));
   ("total_targets", Some (other (e_total r))); ("evaluated_count", Some (other (e_evaluated r))); ("failed_count", Some (other (e_failed r)));
   ("error_message", characters <$> e_error r); ("monitor_id", uuid <$> e_monitor r); ("created_at", Some (instant (e_created r)));
   ("completed_at", instant <$> e_completed r)].
Definition trace_score_cells (s : TraceScore) : cells_of :=
  [("id", Some (uuid (c_id s))); ("trace_id", Some (uuid (c_target s))); ("project_id", Some (uuid (c_project s)));
   ("name", Some (characters (c_name s))); ("data_type", Some (other (c_type s))); ("value", characters <$> c_value s);
   ("source", Some (other (c_source s))); ("status", Some (other (c_status s))); ("eval_run_id", uuid <$> c_run s);
   ("author_user_id", characters <$> c_author s); ("reason", characters <$> c_reason s); ("environment", characters <$> c_environment s);
   ("config_id", characters <$> c_config s); ("metadata", Some (other (c_metadata s))); ("created_at", Some (instant (c_created s)));
   ("updated_at", Some (instant (c_updated s)))].
Definition session_score_cells (s : SessionScore) : cells_of :=
  [("id", Some (uuid (c_id s))); ("session_id", Some (characters (c_target s))); ("project_id", Some (uuid (c_project s)));
   ("name", Some (characters (c_name s))); ("data_type", Some (other (c_type s))); ("value", characters <$> c_value s);
   ("source", Some (other (c_source s))); ("status", Some (other (c_status s))); ("eval_run_id", uuid <$> c_run s);
   ("author_user_id", characters <$> c_author s); ("reason", characters <$> c_reason s); ("environment", characters <$> c_environment s);
   ("config_id", characters <$> c_config s); ("metadata", Some (other (c_metadata s))); ("created_at", Some (instant (c_created s)));
   ("updated_at", Some (instant (c_updated s)))].

Definition user_row (u : User) : record_row := cell (user_cells u).
Definition organization_row (o : Organization) : record_row := cell (organization_cells o).
Definition membership_row (m : Membership) : record_row := cell (membership_cells m).
Definition invitation_row (i : Invitation) : record_row := cell (invitation_cells i).
Definition project_row (p : Project) : record_row := cell (project_cells p).
Definition api_key_row (k : APIKey) : record_row := cell (api_key_cells k).
Definition subscription_row (s : Subscription) : record_row := cell (subscription_cells s).
Definition usage_record_row (u : UsageRecord) : record_row := cell (usage_record_cells u).
Definition billing_report_row (r : BillingReport) : record_row := cell (billing_report_cells r).
Definition trace_row (t : TraceRow) : record_row := cell (trace_cells t).
Definition span_row (s : SpanRow) : record_row := cell (span_cells s).
Definition monitor_row (m : EvalMonitor) : record_row := cell (monitor_cells m).
Definition run_row (r : EvalRun) : record_row := cell (run_cells r).
Definition trace_score_row (s : TraceScore) : record_row := cell (trace_score_cells s).
Definition session_score_row (s : SessionScore) : record_row := cell (session_score_cells s).

(** ** Unique keys *)

(** The text of a cell of a key, which is an identifier, a text or a time. *)
Definition key_text (v : value) : string :=
  match v with uuid i => pretty i | characters s => s | instant t => pretty t | other _ => "" end.
Definition as_text (r : record_row) : row := fun x => key_text <$> r x.
(** The declared keys of a table other than its primary key, which is a fresh UUID. *)
Definition unique_keys (tb : table) : list (list string) :=
  flat_map (fun k => match snd k with unique cs => [cs] | _ => [] end) (tb_constraints tb) ++
  flat_map (fun i => if ix_unique i then [ix_columns i] else []) (tb_indexes tb).
Definition violates (tb : table) (r r' : row) : bool := existsb (fun cs => same_key (cells cs r) (cells cs r')) (unique_keys tb).

Lemma same_key_one a b : same_key [a] [b] = opt_clash a b.
Proof. unfold same_key. destruct a as [x|], b as [y|]; cbn; try done; apply bool_decide_ext; naive_solver. Qed.
Lemma same_key_two a b a' b' : same_key [a; b] [a'; b'] = opt_clash a a' && opt_clash b b'.
Proof.
  rewrite -!same_key_one. unfold same_key. destruct a as [x|], b as [y|], a' as [x'|], b' as [y'|]; cbn; try done; rewrite ?andb_false_r; try done.
  all: try (apply bool_decide_eq_false; by intros [=]).
  all: repeat case_bool_decide; naive_solver.
Qed.
Lemma opt_clash_uuid a b : opt_clash (key_text <$> Some (uuid a)) (key_text <$> Some (uuid b)) = bool_decide (a = b).
Proof. cbn. apply bool_decide_ext. split; [by intros ?%(inj pretty)|by intros ->]. Qed.
Lemma opt_clash_instant a b : opt_clash (key_text <$> Some (instant a)) (key_text <$> Some (instant b)) = bool_decide (a = b).
Proof. cbn. apply bool_decide_ext. split; [by intros ?%(inj pretty)|by intros ->]. Qed.
Lemma opt_text (o : option string) : key_text <$> (characters <$> o) = o.
Proof. by destruct o. Qed.

(** Unfolds the keys of a model, one lemma for each kind of key. *)
Ltac by_keys m :=
  intros r r'; unfold violates;
  let k := eval vm_compute in (unique_keys (snd (table_of_model m))) in change (unique_keys (snd (table_of_model m))) with k;
  cbn [existsb cells List.map]; rewrite ?same_key_two ?same_key_one;
  cbv [as_text subscription_row usage_record_row billing_report_row user_row membership_row project_row api_key_row
    subscription_cells usage_record_cells billing_report_cells user_cells membership_cells project_cells api_key_cells];
  cbn [cell String.eqb Ascii.eqb Bool.eqb];
  rewrite ?opt_clash_uuid ?opt_clash_instant ?opt_text ?orb_false_r.

(** C34: What clashes in the world is what violates a unique constraint or a unique index that
    the models declare, for every pair of rows of the seven tables that have one; NULLs never
    clash, and the other eight tables have no such key. *)
Theorem clashes_as_declared :
  (forall r r', SubscriptionModel_clash r r' = violates (snd (table_of_model SubscriptionModel)) (as_text (subscription_row r)) (as_text (subscription_row r'))) /\
  (forall r r', UsageRecordModel_clash r r' = violates (snd (table_of_model UsageRecordModel)) (as_text (usage_record_row r)) (as_text (usage_record_row r'))) /\
  (forall r r', BillingReportModel_clash r r' = violates (snd (table_of_model BillingReportModel)) (as_text (billing_report_row r)) (as_text (billing_report_row r'))) /\
  (forall r r', UserModel_clash r r' = violates (snd (table_of_model UserModel)) (as_text (user_row r)) (as_text (user_row r'))) /\
  (forall r r', MembershipModel_clash r r' = violates (snd (table_of_model MembershipModel)) (as_text (membership_row r)) (as_text (membership_row r'))) /\
  (forall r r', ProjectModel_clash r r' = violates (snd (table_of_model ProjectModel)) (as_text (project_row r)) (as_text (project_row r'))) /\
  (forall r r', APIKeyModel_clash r r' = violates (snd (table_of_model APIKeyModel)) (as_text (api_key_row r)) (as_text (api_key_row r'))) /\
  Forall (fun m => unique_keys (snd (table_of_model m)) = []) [OrganizationModel; InvitationModel; TraceModel; SpanModel; EvalMonitorModel; EvalRunModel; TraceScoreModel; SessionScoreModel].
Proof.
  split_and!; [by_keys SubscriptionModel|by_keys UsageRecordModel|by_keys BillingReportModel|by_keys UserModel|by_keys MembershipModel|by_keys ProjectModel|by_keys APIKeyModel|].
  all: try reflexivity.
  - apply orb_comm.
  - repeat (apply Forall_cons; split; [vm_compute; reflexivity|]). apply Forall_nil. done.
Qed.

(** ** Deletions

    What SQL and the session do when rows are deleted, as a relation on contents: the rows that
    a cascade reaches are gone, the references declared SET NULL to one of them are NULL, all
    else is as it was, and no reference that forbids the deletion is left. *)

Record reference := {
  rf_table : string; rf_columns : list string; rf_to : string; rf_key : list string; rf_action : option sa.OnDelete }.
Definition references (s : schema) : list reference :=
  flat_map (fun p => flat_map (fun k =>
    match snd k with
    | foreign_key cs t l d => [{| rf_table := fst p; rf_columns := cs; rf_to := t; rf_key := l; rf_action := d |}]
    | _ => []
    end) (tb_constraints (snd p))) s.

(** A referring cell that is not NULL matches the identifier it refers to. *)
Definition refers_to_row (f : reference) (r r' : record_row) : Prop :=
  Forall2 (fun x y => r x <> None /\ r x = r' y) (rf_columns f) (rf_key f).

Section deletion.
Context (s : schema) (root : string -> record_row -> Prop) (c : string -> list record_row).

Inductive doomed : string -> record_row -> Prop :=
  | doomed_root t r : r ∈ c t -> root t r -> doomed t r
  | doomed_by f r r' : f ∈ references s -> rf_action f = Some sa.CASCADE -> r ∈ c (rf_table f) ->
      doomed (rf_to f) r' -> refers_to_row f r r' -> doomed (rf_table f) r.

Definition cleared (t : string) (r : record_row) (x : string) : Prop :=
  exists f r', f ∈ references s /\ rf_table f = t /\ rf_action f = Some sa.SET_NULL /\ x ∈ rf_columns f /\
    doomed (rf_to f) r' /\ refers_to_row f r r'.

Record deletes (c' : string -> list record_row) : Prop := {
  deletes_allowed : forall f r r', f ∈ references s -> rf_action f = None -> r ∈ c (rf_table f) ->
    doomed (rf_to f) r' -> refers_to_row f r r' -> doomed (rf_table f) r;
  deletes_rows : forall t, exists keep : record_row -> bool,
    (forall r, r ∈ c t -> keep r = false <-> doomed t r) /\
    Forall2 (fun r r' => forall x, (cleared t r x -> r' x = None) /\ (~ cleared t r x -> r' x = r x)) (List.filter keep (c t)) (c' t) }.

Lemma doomed_row t r : doomed t r -> r ∈ c t.
Proof. by intros []. Qed.

(** *** An explicit account of the doomed rows

    The references are by one column; [gone t] lists the identifiers of the doomed rows of [t]. *)
Context (gone : string -> list N) (root_b : string -> record_row -> bool).
Hypothesis root_spec : forall t r, root t r <-> root_b t r = true.

Definition names_gone (l : list N) (v : option value) : bool := match v with Some (uuid i) => bool_decide (i ∈ l) | _ => false end.
Definition refers_to_gone (f : reference) (r : record_row) : bool := forallb (fun x => names_gone (gone (rf_to f)) (r x)) (rf_columns f).
Definition is_action (a : sa.OnDelete) (t : string) (f : reference) : bool :=
  String.eqb (rf_table f) t && bool_decide (rf_action f = Some a).
Definition dies (t : string) (r : record_row) : bool :=
  root_b t r || existsb (fun f => refers_to_gone f r) (List.filter (is_action sa.CASCADE t) (references s)).
Definition clears (t : string) (r : record_row) (x : string) : bool :=
  existsb (fun f => mem x (rf_columns f) && refers_to_gone f r) (List.filter (is_action sa.SET_NULL t) (references s)).

(** Cascades do not go round in circles. *)
Context (rank : string -> nat).
Hypothesis ranked : forall f, f ∈ references s -> rf_action f = Some sa.CASCADE -> (rank (rf_to f) < rank (rf_table f))%nat.
Hypothesis gone_spec : forall f, f ∈ references s -> forall i,
  i ∈ gone (rf_to f) <-> exists r' y, rf_key f = [y] /\ r' ∈ c (rf_to f) /\ dies (rf_to f) r' = true /\ r' y = Some (uuid i).
Hypothesis one_column : forall f, f ∈ references s -> exists x, rf_columns f = [x].
Hypothesis keys_ident : forall f, f ∈ references s -> forall r', r' ∈ c (rf_to f) -> exists y i, rf_key f = [y] /\ r' y = Some (uuid i).

Lemma refers_to_gone_iff f r : f ∈ references s ->
  refers_to_gone f r = true <-> exists r', r' ∈ c (rf_to f) /\ dies (rf_to f) r' = true /\ refers_to_row f r r'.
Proof.
  intros Hf. destruct (one_column f Hf) as [x Hx]. unfold refers_to_gone, refers_to_row. rewrite Hx. cbn [forallb]. rewrite andb_true_r. split.
  - unfold names_gone. destruct (r x) as [[i| | |]|] eqn:E; try done. intros Hi%bool_decide_eq_true.
    apply (gone_spec f Hf) in Hi as (r' & y & Hy & Hr' & Hd & Hk). exists r'. split; [done|]. split; [done|]. rewrite Hy. repeat constructor; congruence.
  - intros (r' & Hr' & Hd & Hs). destruct (keys_ident f Hf r' Hr') as (y & i & Hy & Hi). rewrite Hy in Hs.
    apply Forall2_cons in Hs as [[_ Hs] _]. rewrite Hs Hi. cbn. apply bool_decide_eq_true. apply (gone_spec f Hf). by exists r', y.
Qed.

Lemma doomed_dies t r : doomed t r -> dies t r = true.
Proof.
  intros H. induction H as [t r _ Hr|f r r' Hf Ha Hr Hd IH Hs]; unfold dies; apply orb_true_iff.
  - left. by apply root_spec.
  - right. apply List.existsb_exists. exists f. split.
    + apply List.filter_In. split; [by apply list_elem_of_In|]. unfold is_action. by rewrite String.eqb_refl Ha.
    + apply (refers_to_gone_iff f r Hf). exists r'. split; [by apply doomed_row|]. by split.
Qed.
Lemma dies_doomed n t r : (rank t < n)%nat -> r ∈ c t -> dies t r = true -> doomed t r.
Proof.
  revert t r. induction n as [|n IH]; intros t r Hn Hin; [lia|].
  unfold dies. intros [H|H]%orb_true_iff; [by apply doomed_root, root_spec|].
  apply List.existsb_exists in H as (f & [Hf [Ht Ha]%andb_true_iff]%List.filter_In & Hg).
  apply String.eqb_eq in Ht as <-. apply bool_decide_eq_true in Ha. apply list_elem_of_In in Hf.
  apply (refers_to_gone_iff f r Hf) in Hg as (r' & Hr' & Hd & Hs).
  apply (doomed_by f r r' Hf Ha Hin); [|done]. apply IH; [|done|done]. specialize (ranked f Hf Ha). lia.
Qed.
Lemma doomed_iff t r : r ∈ c t -> doomed t r <-> dies t r = true.
Proof. intros Hin. split; [apply doomed_dies|]. by apply (dies_doomed (S (rank t))); [lia|]. Qed.

Lemma cleared_iff t r x : cleared t r x <-> clears t r x = true.
Proof.
  unfold cleared, clears. rewrite List.existsb_exists. split.
  - intros (f & r' & Hf & <- & Ha & Hx & Hd & Hs). exists f. split.
    + apply List.filter_In. split; [by apply list_elem_of_In|]. unfold is_action. by rewrite String.eqb_refl Ha.
    + apply andb_true_iff. split; [apply List.existsb_exists; exists x; split; [by apply list_elem_of_In|apply String.eqb_refl]|].
      apply (refers_to_gone_iff f r Hf). exists r'. split; [by apply doomed_row|]. split; [by apply doomed_dies|done].
  - intros (f & [Hf [Ht Ha]%andb_true_iff]%List.filter_In & [Hx Hg]%andb_true_iff).
    apply String.eqb_eq in Ht. apply bool_decide_eq_true in Ha. apply list_elem_of_In in Hf.
    apply List.existsb_exists in Hx as (x' & Hx & ->%String.eqb_eq).
    apply (refers_to_gone_iff f r Hf) in Hg as (r' & Hr' & Hd & Hs). exists f, r'.
    split_and!; [done|done|done|by apply list_elem_of_In|by apply doomed_iff|done].
Qed.

(** A table that keeps its surviving records, up to the references cleared. *)
Lemma deletes_table {R} t (to_row : R -> record_row) (l : list R) (p : R -> bool) (upd : R -> R) (c' : string -> list record_row) :
  c t = List.map to_row l -> c' t = List.map to_row (List.map upd (delete_where p l)) ->
  (forall a, a ∈ l -> dies t (to_row a) = p a) ->
  (forall a x, a ∈ l -> p a = false -> to_row (upd a) x = if clears t (to_row a) x then None else to_row a x) ->
  exists keep : record_row -> bool,
    (forall r, r ∈ c t -> keep r = false <-> doomed t r) /\
    Forall2 (fun r r' => forall x, (cleared t r x -> r' x = None) /\ (~ cleared t r x -> r' x = r x)) (List.filter keep (c t)) (c' t).
Proof.
  intros Hc Hc' Hp Hu. exists (fun r => negb (dies t r)). split.
  - intros r Hr. rewrite (doomed_iff t r Hr). by destruct (dies t r).
  - rewrite Hc Hc'. clear Hc Hc'. induction l as [|a l IH]; [by constructor|]. cbn.
    assert (IHl : Forall2 (fun r r' => forall x, (cleared t r x -> r' x = None) /\ (~ cleared t r x -> r' x = r x))
      (List.filter (fun r => negb (dies t r)) (List.map to_row l)) (List.map to_row (List.map upd (delete_where p l)))).
    { apply IH; intros b; [intros Hb; apply Hp; by right|intros x Hb; apply Hu; by right]. }
    rewrite (Hp a); [by left|]. destruct (p a) eqn:E; cbn; [exact IHl|]. constructor; [|exact IHl].
    intros x. rewrite (Hu a x); [by left|done|]. rewrite cleared_iff. by destruct (clears t (to_row a) x).
Qed.

End deletion.

(** ** The contents of a world's database *)

Definition content_of (d : DB) : string -> list record_row := fun t =>
  let x := telemetry d in
  if String.eqb t "users" then List.map user_row (users d)
  else if String.eqb t "organizations" then List.map organization_row (organizations d)
  else if String.eqb t "memberships" then List.map membership_row (memberships d)
  else if String.eqb t "invitations" then List.map invitation_row (invitations d)
  else if String.eqb t "projects" then List.map project_row (projects d)
  else if String.eqb t "api_keys" then List.map api_key_row (api_keys d)
  else if String.eqb t "subscriptions" then List.map subscription_row (subscriptions d)
  else if String.eqb t "usage_records" then List.map usage_record_row (usage_records d)
  else if String.eqb t "billing_reports" then List.map billing_report_row (billing_reports d)
  else if String.eqb t "traces" then List.map trace_row (trace_rows x)
  else if String.eqb t "spans" then List.map span_row (span_rows x)
  else if String.eqb t "eval_monitors" then List.map monitor_row (eval_monitors (evals x))
  else if String.eqb t "eval_runs" then List.map run_row (eval_runs (evals x))
  else if String.eqb t "trace_scores" then List.map trace_score_row (trace_scores (evals x))
  else if String.eqb t "session_scores" then List.map session_score_row (session_scores (evals x))
  else [].

(** A row has a cell for each column that the models declare for its table, and no other. *)
Definition whole (t : string) (r : record_row) : Prop := exists l, r = cell l /\ Some (List.map fst l) = column_names <$> table_of t declared.
Lemma content_whole d t r : r ∈ content_of d t -> whole t r.
Proof.
  unfold content_of. repeat match goal with |- context [String.eqb t ?k] => destruct (String.eqb_spec t k) as [->|_] end;
    try (intros (a & -> & _)%list_elem_of_fmap; eexists; split; [reflexivity|vm_compute; reflexivity]).
  by intros ?%not_elem_of_nil.
Qed.

(** ** Deleting an organization *)

Section organization.
Context (org : N) (d : DB).

Definition its_projects : list N := List.map p_id (select (fun p => bool_decide (p_org p = org)) (projects d)).
Definition its_usage : list N := List.map ur_id (select (fun u => bool_decide (ur_org u = org)) (usage_records d)).
Definition its_traces : list N := List.map t_id (select (fun r => bool_decide (t_project r ∈ its_projects)) (trace_rows (telemetry d))).
Definition its_runs : list N := List.map e_id (select (fun r => bool_decide (e_project r ∈ its_projects)) (eval_runs (evals (telemetry d)))).
Definition its_monitors : list N := List.map mo_id (select (fun m => bool_decide (mo_project m ∈ its_projects)) (eval_monitors (evals (telemetry d)))).

Definition gone_with (t : string) : list N :=
  if String.eqb t "organizations" then [org]
  else if String.eqb t "projects" then its_projects
  else if String.eqb t "usage_records" then its_usage
  else if String.eqb t "traces" then its_traces
  else if String.eqb t "eval_runs" then its_runs
  else if String.eqb t "eval_monitors" then its_monitors
  else [].
Definition is_organization (t : string) (r : record_row) : bool := String.eqb t "organizations" && names_gone [org] (r "id").
Definition depth (t : string) : nat :=
  if mem t ["users"; "organizations"] then 0
  else if mem t ["spans"; "trace_scores"] then 3
  else if mem t ["traces"; "billing_reports"; "eval_monitors"; "eval_runs"; "session_scores"] then 2
  else 1.

Lemma depth_decreases : forall f, f ∈ references effective -> rf_action f = Some sa.CASCADE -> depth (rf_to f) < depth (rf_table f).
Proof.
  assert (H : forallb (fun f => negb (bool_decide (rf_action f = Some sa.CASCADE)) || Nat.ltb (depth (rf_to f)) (depth (rf_table f))) (references effective) = true)
    by (vm_compute; reflexivity).
  intros f Hf Ha. rewrite List.forallb_forall in H. specialize (H f (proj1 (list_elem_of_In _ _) Hf)).
  rewrite Ha in H. by apply Nat.ltb_lt.
Qed.

(** The references of one kind that leave a table. *)
Ltac references_of a t :=
  let k := eval vm_compute in (List.filter (is_action a t) (references effective)) in
  change (List.filter (is_action a t) (references effective)) with k.
Ltac dies_at t :=
  unfold dies; references_of sa.CASCADE t; unfold is_organization, refers_to_gone; cbn [existsb forallb rf_columns rf_to rf_table];
  rewrite ?orb_false_r ?andb_true_r.

Abbreviation dies' := (dies effective gone_with is_organization).

Lemma elem_of_single (a b : N) : bool_decide (a ∈ [b]) = bool_decide (a = b).
Proof. apply bool_decide_ext. apply list_elem_of_singleton. Qed.
Lemma dies_organization o : dies' "organizations" (organization_row o) = bool_decide (o_id o = org).
Proof. dies_at "organizations". cbn. apply elem_of_single. Qed.
Lemma dies_user o : dies' "users" (user_row o) = false.
Proof. dies_at "users". done. Qed.

(** A row that dies with a row it refers to. *)
Ltac dies_with t := dies_at t; cbn -[bool_decide]; rewrite ?elem_of_single ?orb_false_r; reflexivity.
Lemma dies_membership o : dies' "memberships" (membership_row o) = bool_decide (m_org o = org).
Proof. dies_with "memberships". Qed.
Lemma dies_invitation o : dies' "invitations" (invitation_row o) = bool_decide (i_org o = org).
Proof. dies_with "invitations". Qed.
Lemma dies_project o : dies' "projects" (project_row o) = bool_decide (p_org o = org).
Proof. dies_with "projects". Qed.
Lemma dies_api_key o : dies' "api_keys" (api_key_row o) = bool_decide (k_org o = org).
Proof. dies_with "api_keys". Qed.
Lemma dies_subscription o : dies' "subscriptions" (subscription_row o) = bool_decide (sub_org o = org).
Proof. dies_with "subscriptions". Qed.
Lemma dies_usage o : dies' "usage_records" (usage_record_row o) = bool_decide (ur_org o = org).
Proof. dies_with "usage_records". Qed.
Lemma dies_report o : dies' "billing_reports" (billing_report_row o) = bool_decide (br_usage o ∈ its_usage).
Proof. dies_with "billing_reports". Qed.
Lemma dies_trace o : dies' "traces" (trace_row o) = bool_decide (t_project o ∈ its_projects).
Proof. dies_with "traces". Qed.
Lemma dies_span o : dies' "spans" (span_row o) = bool_decide (s_trace o ∈ its_traces).
Proof. dies_with "spans". Qed.
Lemma dies_monitor o : dies' "eval_monitors" (monitor_row o) = bool_decide (mo_project o ∈ its_projects).
Proof. dies_with "eval_monitors". Qed.
Lemma dies_run o : dies' "eval_runs" (run_row o) = bool_decide (e_project o ∈ its_projects).
Proof. dies_with "eval_runs". Qed.
Lemma dies_trace_score o :
  dies' "trace_scores" (trace_score_row o) = bool_decide (c_target o ∈ its_traces) || bool_decide (c_project o ∈ its_projects).
Proof. dies_with "trace_scores". Qed.
Lemma dies_session_score o : dies' "session_scores" (session_score_row o) = bool_decide (c_project o ∈ its_projects).
Proof. dies_with "session_scores". Qed.

Lemma names_gone_opt l v : names_gone l (uuid <$> v) = named_in l v.
Proof. by destruct v. Qed.
(** The references that are cleared. *)
Abbreviation clears' := (clears effective gone_with).
Ltac clears_at t :=
  unfold clears; references_of sa.SET_NULL t; unfold refers_to_gone; cbn [existsb forallb rf_columns rf_to rf_table mem];
  rewrite ?orb_false_r ?andb_true_r.
Lemma clears_run o x : clears' "eval_runs" (run_row o) x = String.eqb x "monitor_id" && named_in its_monitors (e_monitor o).
Proof. clears_at "eval_runs". cbn -[String.eqb names_gone]. by rewrite names_gone_opt. Qed.
Lemma clears_monitor o x : clears' "eval_monitors" (monitor_row o) x = String.eqb x "last_run_id" && named_in its_runs (mo_last_run o).
Proof. clears_at "eval_monitors". cbn -[String.eqb names_gone]. by rewrite names_gone_opt. Qed.
Lemma clears_trace_score o x : clears' "trace_scores" (trace_score_row o) x = String.eqb x "eval_run_id" && named_in its_runs (c_run o).
Proof. clears_at "trace_scores". cbn -[String.eqb names_gone]. by rewrite names_gone_opt. Qed.
Lemma clears_session_score o x : clears' "session_scores" (session_score_row o) x = String.eqb x "eval_run_id" && named_in its_runs (c_run o).
Proof. clears_at "session_scores". cbn -[String.eqb names_gone]. by rewrite names_gone_opt. Qed.
(** Elsewhere nothing is. *)
Lemma clears_nothing t r x : mem t ["eval_runs"; "eval_monitors"; "trace_scores"; "session_scores"] = false -> clears' t r x = false.
Proof.
  intros Ht. unfold clears. destruct (existsb _ _) eqn:E; [|done].
  apply List.existsb_exists in E as (f & [Hf [<-%String.eqb_eq Ha]%andb_true_iff]%List.filter_In & _).
  assert (H : forallb (fun f => negb (bool_decide (rf_action f = Some sa.SET_NULL)) || mem (rf_table f) ["eval_runs"; "eval_monitors"; "trace_scores"; "session_scores"]) (references effective) = true)
    by (vm_compute; reflexivity).
  rewrite List.forallb_forall in H. specialize (H f Hf). by rewrite Ha Ht in H.
Qed.

(** The identifiers of the doomed rows of a table. *)
Lemma gone_table {R} (to_row : R -> record_row) (l : list R) (ident_of : R -> N) (p : R -> bool) t key :
  content_of d t = List.map to_row l -> (forall a, dies' t (to_row a) = p a) -> (forall a, to_row a key = Some (uuid (ident_of a))) ->
  forall i, i ∈ List.map ident_of (select p l) <->
    exists r' y, [key] = [y] /\ r' ∈ content_of d t /\ dies' t r' = true /\ r' y = Some (uuid i).
Proof.
  intros Hc Hd Hk i. rewrite list_elem_of_fmap. setoid_rewrite elem_of_select. rewrite Hc. split.
  - intros (a & -> & Ha & Hp). exists (to_row a), key. rewrite Hd Hk. split; [done|]. split; [by apply list_elem_of_fmap; exists a|]. by split.
  - intros (r' & y & [= <-] & (a & -> & Ha)%list_elem_of_fmap & Hp & Hi). rewrite Hd in Hp. rewrite Hk in Hi. injection Hi as <-.
    exists a. by split.
Qed.

Context (Horg : org ∈ List.map o_id (organizations d)).

Definition referred : list (string * list string) :=
  [("users", ["id"]); ("organizations", ["id"]); ("projects", ["id"]); ("usage_records", ["id"]); ("traces", ["trace_id"]); ("eval_runs", ["id"]); ("eval_monitors", ["id"])].
Lemma reference_targets f : f ∈ references effective -> (rf_to f, rf_key f) ∈ referred.
Proof.
  assert (H : forallb (fun f => bool_decide ((rf_to f, rf_key f) ∈ referred)) (references effective) = true) by (vm_compute; reflexivity).
  intros Hf. rewrite List.forallb_forall in H. specialize (H f (proj1 (list_elem_of_In _ _) Hf)). by apply bool_decide_eq_true in H.
Qed.
Lemma one_column_each f : f ∈ references effective -> exists x, rf_columns f = [x].
Proof.
  assert (H : forallb (fun f => Nat.eqb (length (rf_columns f)) 1) (references effective) = true) by (vm_compute; reflexivity).
  intros Hf. rewrite List.forallb_forall in H. specialize (H f (proj1 (list_elem_of_In _ _) Hf)).
  destruct (rf_columns f) as [|x [|y l]]; [done|by exists x|done].
Qed.
Lemma referred_ident : forall f, f ∈ references effective -> forall r', r' ∈ content_of d (rf_to f) -> exists y i, rf_key f = [y] /\ r' y = Some (uuid i).
Proof.
  intros f Hf r' Hr. pose proof (reference_targets f Hf) as H. unfold referred in H.
  destruct f as [t cs n key a]. cbn [rf_to rf_key] in *. clear Hf.
  repeat (apply elem_of_cons in H as [[= -> ->]|H]; [apply list_elem_of_fmap in Hr as (a' & -> & _); by do 2 eexists|]).
  by apply not_elem_of_nil in H.
Qed.

Lemma gone_with_spec : forall f, f ∈ references effective -> forall i,
  i ∈ gone_with (rf_to f) <-> exists r' y, rf_key f = [y] /\ r' ∈ content_of d (rf_to f) /\ dies' (rf_to f) r' = true /\ r' y = Some (uuid i).
Proof.
  intros f Hf i.
  pose proof (reference_targets f Hf) as H. unfold referred in H.
  destruct f as [t cs n key a]. cbn [rf_to rf_key] in H |- *. clear Hf.
  repeat (apply elem_of_cons in H as [[= -> ->]|H]); [| | | | | | |by apply not_elem_of_nil in H].
  - rewrite -(gone_table user_row (users d) u_id (fun _ => false) "users" "id"); [done|apply dies_user|done|].
    rewrite list_elem_of_fmap. setoid_rewrite elem_of_select. cbn. split; [by intros ?%not_elem_of_nil|naive_solver].
  - rewrite -(gone_table organization_row (organizations d) o_id (fun o => bool_decide (o_id o = org)) "organizations" "id"); [done|apply dies_organization|done|].
    rewrite list_elem_of_fmap. setoid_rewrite elem_of_select. change (gone_with "organizations") with [org].
    rewrite list_elem_of_singleton. apply list_elem_of_fmap in Horg as (o & Ho & Hin). split.
    + intros ->. exists o. split; [done|]. split; [done|]. by apply bool_decide_eq_true.
    + by intros (o' & -> & _ & ?%bool_decide_eq_true).
  - by apply (gone_table project_row (projects d) p_id); [|apply dies_project|].
  - by apply (gone_table usage_record_row (usage_records d) ur_id); [|apply dies_usage|].
  - by apply (gone_table trace_row (trace_rows (telemetry d)) t_id); [|apply dies_trace|].
  - by apply (gone_table run_row (eval_runs (evals (telemetry d))) e_id); [|apply dies_run|].
  - by apply (gone_table monitor_row (eval_monitors (evals (telemetry d))) mo_id); [|apply dies_monitor|].
Qed.

(** *** The tables of the world after the deletion *)

Definition root_of (t : string) (r : record_row) : Prop := t = "organizations" /\ r "id" = Some (uuid org).
Lemma root_of_spec t r : root_of t r <-> is_organization t r = true.
Proof.
  unfold root_of, is_organization. rewrite andb_true_iff String.eqb_eq. apply and_iff_compat_l. destruct (r "id") as [[i| | |]|]; cbn; try (by split).
  rewrite elem_of_single bool_decide_eq_true. split; [by intros [= ->]|by intros ->].
Qed.

Lemma table_deleted {R} t (to_row : R -> record_row) (l : list R) (p : R -> bool) (upd : R -> R) (c' : string -> list record_row) :
  content_of d t = List.map to_row l -> c' t = List.map to_row (List.map upd (delete_where p l)) ->
  (forall a, dies' t (to_row a) = p a) ->
  (forall a x, to_row (upd a) x = if clears' t (to_row a) x then None else to_row a x) ->
  exists keep : record_row -> bool,
    (forall r, r ∈ content_of d t -> keep r = false <-> doomed effective root_of (content_of d) t r) /\
    Forall2 (fun r r' => forall x, (cleared effective root_of (content_of d) t r x -> r' x = None) /\
      (~ cleared effective root_of (content_of d) t r x -> r' x = r x)) (List.filter keep (content_of d t)) (c' t).
Proof.
  intros H1 H2 H3 H4.
  eapply (deletes_table effective root_of (content_of d) gone_with is_organization root_of_spec depth depth_decreases gone_with_spec one_column_each referred_ident);
    [exact H1|exact H2|by intros a _; apply H3|by intros a x _ _; apply H4].
Qed.
Lemma plain_table_deleted {R} t (to_row : R -> record_row) (l : list R) (p : R -> bool) (c' : string -> list record_row) :
  mem t ["eval_runs"; "eval_monitors"; "trace_scores"; "session_scores"] = false ->
  content_of d t = List.map to_row l -> c' t = List.map to_row (delete_where p l) -> (forall a, dies' t (to_row a) = p a) ->
  exists keep : record_row -> bool,
    (forall r, r ∈ content_of d t -> keep r = false <-> doomed effective root_of (content_of d) t r) /\
    Forall2 (fun r r' => forall x, (cleared effective root_of (content_of d) t r x -> r' x = None) /\
      (~ cleared effective root_of (content_of d) t r x -> r' x = r x)) (List.filter keep (content_of d t)) (c' t).
Proof.
  intros Ht H1 H2 H3. apply (table_deleted t to_row l p (fun a => a)); [done| |done|].
  - by rewrite List.map_id.
  - intros a x. by rewrite clears_nothing.
Qed.

(** Clearing a reference of a record clears its cell. *)
Ltac clear_cell :=
  repeat match goal with |- context [String.eqb ?x ?k] => is_var x; destruct (String.eqb_spec x k); subst end; cbn; congruence.

Lemma run_row_cleared o x : run_row (if named_in its_monitors (e_monitor o) then clear_run_monitor o else o) x =
  if clears' "eval_runs" (run_row o) x then None else run_row o x.
Proof. rewrite clears_run. destruct (named_in _ _); rewrite ?andb_false_r; [|done]. unfold run_row, run_cells. cbn -[String.eqb]. clear_cell. Qed.
Lemma monitor_row_cleared o x : monitor_row (if named_in its_runs (mo_last_run o) then clear_last_run o else o) x =
  if clears' "eval_monitors" (monitor_row o) x then None else monitor_row o x.
Proof. rewrite clears_monitor. destruct (named_in _ _); rewrite ?andb_false_r; [|done]. unfold monitor_row, monitor_cells. cbn -[String.eqb]. clear_cell. Qed.
Lemma trace_score_row_cleared o x : trace_score_row (if named_in its_runs (c_run o) then clear_score_run o else o) x =
  if clears' "trace_scores" (trace_score_row o) x then None else trace_score_row o x.
Proof. rewrite clears_trace_score. destruct (named_in _ _); rewrite ?andb_false_r; [|done]. unfold trace_score_row, trace_score_cells. cbn -[String.eqb]. clear_cell. Qed.
Lemma session_score_row_cleared o x : session_score_row (if named_in its_runs (c_run o) then clear_score_run o else o) x =
  if clears' "session_scores" (session_score_row o) x then None else session_score_row o x.
Proof. rewrite clears_session_score. destruct (named_in _ _); rewrite ?andb_false_r; [|done]. unfold session_score_row, session_score_cells. cbn -[String.eqb]. clear_cell. Qed.

Lemma delete_map {R} p (f : R -> R) l : (forall r, p (f r) = p r) -> delete_where p (List.map f l) = List.map f (delete_where p l).
Proof. intros H. unfold delete_where. induction l as [|r l IH]; [done|]. cbn. rewrite H. by destruct (p r); cbn; rewrite IH. Qed.
Lemma delete_both {R} p q (l : list R) : delete_where p (delete_where q l) = delete_where (fun r => q r || p r) l.
Proof. unfold delete_where. induction l as [|r l IH]; [done|]. cbn. destruct (q r); cbn; [done|]. by destruct (p r); cbn; rewrite IH. Qed.
Lemma select_map_ident {R} p (f : R -> R) (ident_of : R -> N) l : (forall r, p (f r) = p r) -> (forall r, ident_of (f r) = ident_of r) ->
  List.map ident_of (select p (List.map f l)) = List.map ident_of (select p l).
Proof. intros Hp Hi. unfold select. induction l as [|r l IH]; [done|]. cbn. rewrite Hp. destruct (p r); cbn; by rewrite ?Hi IH. Qed.
Lemma delete_none {R} (l : list R) : delete_where (fun _ => false) l = l.
Proof. unfold delete_where. induction l as [|r l IH]; cbn; [done|by f_equal]. Qed.

(** The evaluations that are left. *)
Lemma evals_left : let x := evals (telemetry (IdentityRepository.cascade_organization org d)) in let y := evals (telemetry d) in
  eval_monitors x = List.map (fun m => if named_in its_runs (mo_last_run m) then clear_last_run m else m)
    (delete_where (fun m => bool_decide (mo_project m ∈ its_projects)) (eval_monitors y)) /\
  eval_runs x = List.map (fun r => if named_in its_monitors (e_monitor r) then clear_run_monitor r else r)
    (delete_where (fun r => bool_decide (e_project r ∈ its_projects)) (eval_runs y)) /\
  trace_scores x = List.map (fun s => if named_in its_runs (c_run s) then clear_score_run s else s)
    (delete_where (fun s => bool_decide (c_target s ∈ its_traces) || bool_decide (c_project s ∈ its_projects)) (trace_scores y)) /\
  session_scores x = List.map (fun s => if named_in its_runs (c_run s) then clear_score_run s else s)
    (delete_where (fun s => bool_decide (c_project s ∈ its_projects)) (session_scores y)).
Proof.
  cbn zeta.
  assert (Hm : List.map mo_id (select (fun m => bool_decide (mo_project m ∈ its_projects))
    (update_where (fun m => named_in its_runs (mo_last_run m)) clear_last_run (eval_monitors (evals (telemetry d))))) = its_monitors).
  { unfold update_where. apply select_map_ident; intros r; by destruct (named_in _ _). }
  cbn. fold its_projects its_traces its_runs. fold its_projects its_traces its_runs in Hm. rewrite Hm. split_and!.
  - unfold update_where. apply delete_map. intros r. by destruct (named_in _ _).
  - done.
  - unfold update_where. etrans; [apply delete_map; intros r; by destruct (named_in _ _)|]. f_equal. apply delete_both.
  - unfold update_where. apply delete_map. intros r. by destruct (named_in _ _).
Qed.

Abbreviation left_over := (content_of (IdentityRepository.cascade_organization org d)).
(** Every table of the schema is one of these. *)
Lemma deletion_rows t : exists keep : record_row -> bool,
  (forall r, r ∈ content_of d t -> keep r = false <-> doomed effective root_of (content_of d) t r) /\
  Forall2 (fun r r' => forall x, (cleared effective root_of (content_of d) t r x -> r' x = None) /\
    (~ cleared effective root_of (content_of d) t r x -> r' x = r x)) (List.filter keep (content_of d t)) (left_over t).
Proof.
  destruct evals_left as (Em & Er & Ets & Ess).
  destruct (decide (t ∈ List.map fst declared)) as [Ht|Ht].
  - change (List.map fst declared) with (List.map tablename metadata) in Ht. cbn in Ht.
    repeat (apply elem_of_cons in Ht as [->|Ht]); [..|by apply not_elem_of_nil in Ht].
    + apply (plain_table_deleted _ user_row (users d) (fun _ => false)); [done|done|cbn; by rewrite delete_none|apply dies_user].
    + apply (plain_table_deleted _ organization_row (organizations d) (fun o => bool_decide (o_id o = org))); [done..|apply dies_organization].
    + apply (plain_table_deleted _ membership_row (memberships d) (fun o => bool_decide (m_org o = org))); [done..|apply dies_membership].
    + apply (plain_table_deleted _ invitation_row (invitations d) (fun o => bool_decide (i_org o = org))); [done..|apply dies_invitation].
    + apply (plain_table_deleted _ project_row (projects d) (fun o => bool_decide (p_org o = org))); [done..|apply dies_project].
    + apply (plain_table_deleted _ api_key_row (api_keys d) (fun o => bool_decide (k_org o = org))); [done..|apply dies_api_key].
    + apply (plain_table_deleted _ trace_row (trace_rows (telemetry d)) (fun o => bool_decide (t_project o ∈ its_projects))); [done..|apply dies_trace].
    + apply (plain_table_deleted _ span_row (span_rows (telemetry d)) (fun o => bool_decide (s_trace o ∈ its_traces))); [done..|apply dies_span].
    + apply (table_deleted _ monitor_row (eval_monitors (evals (telemetry d))) (fun o => bool_decide (mo_project o ∈ its_projects))
        (fun m => if named_in its_runs (mo_last_run m) then clear_last_run m else m));
        [done|exact (f_equal (List.map monitor_row) Em)|apply dies_monitor|apply monitor_row_cleared].
    + apply (table_deleted _ run_row (eval_runs (evals (telemetry d))) (fun o => bool_decide (e_project o ∈ its_projects))
        (fun r => if named_in its_monitors (e_monitor r) then clear_run_monitor r else r));
        [done|exact (f_equal (List.map run_row) Er)|apply dies_run|apply run_row_cleared].
    + apply (table_deleted _ trace_score_row (trace_scores (evals (telemetry d)))
        (fun o => bool_decide (c_target o ∈ its_traces) || bool_decide (c_project o ∈ its_projects))
        (fun s => if named_in its_runs (c_run s) then clear_score_run s else s));
        [done|exact (f_equal (List.map trace_score_row) Ets)|apply dies_trace_score|apply trace_score_row_cleared].
    + apply (table_deleted _ session_score_row (session_scores (evals (telemetry d))) (fun o => bool_decide (c_project o ∈ its_projects))
        (fun s => if named_in its_runs (c_run s) then clear_score_run s else s));
        [done|exact (f_equal (List.map session_score_row) Ess)|apply dies_session_score|apply session_score_row_cleared].
    + apply (plain_table_deleted _ subscription_row (subscriptions d) (fun o => bool_decide (sub_org o = org))); [done..|apply dies_subscription].
    + apply (plain_table_deleted _ billing_report_row (billing_reports d) (fun o => bool_decide (br_usage o ∈ its_usage))); [done..|apply dies_report].
    + apply (plain_table_deleted _ usage_record_row (usage_records d) (fun o => bool_decide (ur_org o = org))); [done..|apply dies_usage].
  - assert (H : forall d', content_of d' t = []).
    { intros d'. unfold content_of. change (List.map fst declared) with (List.map tablename metadata) in Ht. cbn in Ht.
      repeat match goal with |- context [String.eqb t ?k] => destruct (String.eqb_spec t k); [subst; exfalso; apply Ht; by repeat constructor|] end. done. }
    exists (fun _ => true). rewrite !H. split; [|by constructor]. by intros r ?%not_elem_of_nil.
Qed.

Lemma deletion_allowed f r r' : f ∈ references effective -> rf_action f = None -> r ∈ content_of d (rf_table f) ->
  doomed effective root_of (content_of d) (rf_to f) r' -> refers_to_row f r r' -> doomed effective root_of (content_of d) (rf_table f) r.
Proof.
  intros Hf Ha _ Hd _. exfalso.
  assert (H : forallb (fun f => negb (bool_decide (rf_action f = None)) || String.eqb (rf_to f) "users") (references effective) = true) by (vm_compute; reflexivity).
  rewrite List.forallb_forall in H. specialize (H f (proj1 (list_elem_of_In _ _) Hf)). rewrite Ha in H. apply String.eqb_eq in H. rewrite H in Hd.
  pose proof (doomed_row _ _ _ _ _ Hd) as Hu. apply list_elem_of_fmap in Hu as (u & -> & _).
  apply (doomed_dies _ _ _ gone_with is_organization root_of_spec gone_with_spec one_column_each referred_ident) in Hd. by rewrite dies_user in Hd.
Qed.
End organization.

(** C33: Deleting an organization does in the world what the deletion of its row does under the
    cascading relationships and the foreign key actions that db/models.py declares: in each of
    the fifteen tables exactly the rows that a cascade reaches are gone, in the surviving rows, which keep their order,
    exactly the references declared SET NULL to one of them are cleared, every other cell is as it was, and no
    reference without an action stands in the way.  The rows have all the columns that the models declare. *)
Theorem organization_deletion_cascades org w : org ∈ List.map o_id (organizations (db w)) ->
  exists w', IdentityRepository.delete_organization org w = (Ok tt, w') /\
    deletes effective (root_of org) (content_of (db w)) (content_of (db w')) /\
    forall t r, r ∈ content_of (db w) t \/ r ∈ content_of (db w') t -> whole t r.
Proof.
  intros Horg. exists (set_db (IdentityRepository.cascade_organization org (db w)) w). split.
  - unfold IdentityRepository.delete_organization, IdentityRepository.get_organization, get_by_id.
    unfold mbind, M_bind, read_db, gets, write_db, modify.
    destruct (select _ (organizations (db w))) as [|o l] eqn:E; [|done]. exfalso.
    apply list_elem_of_fmap in Horg as (o & -> & Ho). apply (not_elem_of_nil o). rewrite -E.
    apply elem_of_select. split; [done|]. by apply bool_decide_eq_true.
  - split; [constructor; [apply (deletion_allowed org (db w) Horg)|apply (deletion_rows org (db w) Horg)]|].
    by intros t r [H|H]; apply content_whole in H.
Qed.

(** An organization with a project and a run, and a score of another project that names the run. *)
Definition acme_run : EvalRun :=
  {| e_id := 41; e_project := 20; e_name := None; e_target := TRACE_TARGET; e_metrics := []; e_filters := ∅; e_sampling := Float64.of_Z 1; e_model := None;
     e_monitor := None; e_status := ECOMPLETED; e_total := 0; e_evaluated := 0; e_failed := 0; e_error := None; e_created := 0; e_completed := None |}.
Definition stray_score : SessionScore :=
  Build_Score 51%N "s-1" 21%N "coherence" NUMERIC (Some "0.5") PROGRAMMATIC SUCCESS (Some 41%N) None None None None ∅ 0%Z 0%Z.
Definition acme_world : World :=
  world_of (set_telemetry {| trace_rows := []; span_rows := [];
      evals := {| eval_monitors := []; eval_runs := [acme_run]; trace_scores := []; session_scores := [stray_score] |} |}
    (set_projects [{| p_id := 20; p_org := 7; p_name := "onboarding"; p_description := ""; p_created := 0 |};
                   {| p_id := 21; p_org := 8; p_name := "onboarding"; p_description := ""; p_created := 0 |}]
      (set_organizations [{| o_id := 7; o_name := "acme"; o_created := 0 |}; {| o_id := 8; o_name := "other"; o_created := 0 |}] empty_db))) 0 [].

Lemma organization_deletion_cascades_witness : exists w',
  IdentityRepository.delete_organization 7 acme_world = (Ok tt, w') /\
  deletes effective (root_of 7) (content_of (db acme_world)) (content_of (db w')).
Proof.
  destruct (organization_deletion_cascades 7 acme_world) as (w' & E & H & _); [left|]. exists w'. split; [exact E|exact H].
Defined.
