(* ===== verification/Locks.v ===== *)
(** * Replay-safe Redis locks (infrastructure/redis/locks.py)

    The three Lua scripts as functions on the keyspace of locks, and the
    coroutines that run them.  [interleave] lets any number of clients run the
    scripts in any order, with time passing between them. *)
From stdpp Require Import base gmap strings list.
From Stdlib Require Import ZArith Lia ssreflect.
From S2P Require Import Prelude Constants Entities World.

#[local] Open Scope Z_scope.

(** ** The scripts *)

Abbreviation Keyspace := (gmap LockKey (LockVal * Z)).

Definition GET (t : Z) (m : Keyspace) (k : LockKey) : option LockVal := live t (m !! k).
Definition SETEX (t : Z) (m : Keyspace) (k : LockKey) (v : LockVal) (ttl : Z) : Keyspace :=
  <[k := (v, t + ttl * second)]> m.

Definition ACQUIRE_LOCK_SCRIPT (k : LockKey) (token : LockVal) (ttl : Z) (t : Z) (m : Keyspace)
    : bool * Keyspace :=
  match GET t m k with
  | Some current => (bool_decide (current = token), m)
  | None => (true, SETEX t m k token ttl)
  end.

Definition RELEASE_LOCK_SCRIPT (k : LockKey) (token : LockVal) (t : Z) (m : Keyspace) : Keyspace :=
  if bool_decide (GET t m k = Some token) then delete k m else m.

Definition COMPLETE_LOCK_SCRIPT (k : LockKey) (token marker : LockVal) (ttl : Z) (t : Z) (m : Keyspace)
    : bool * Keyspace :=
  if bool_decide (GET t m k = Some token) then (true, SETEX t m k marker ttl)
  else (bool_decide (GET t m k = Some marker), m).

(** ** The coroutines *)

Definition run_script {A} (f : Z -> Keyspace -> A * Keyspace) : M World A := fun w =>
  let '(a, m) := f (now w) (r_locks (redis w)) in
  (Ok a, set_redis (set_locks m (redis w)) w).

Definition acquire_owned_lock (k : LockKey) (token : LockVal) (ttl : Z) : M World bool :=
  run_script (ACQUIRE_LOCK_SCRIPT k token ttl).
Definition release_owned_lock (k : LockKey) (token : LockVal) : M World unit :=
  run_script (fun t m => (tt, RELEASE_LOCK_SCRIPT k token t m)).
Definition complete_owned_lock (k : LockKey) (token : LockVal) (ttl : Z) : M World bool :=
  run_script (COMPLETE_LOCK_SCRIPT k token Completed ttl).

(** ** Interleaved clients

    An event is one script run by some client, or the passing of time. *)

Inductive LockEvent :=
  | EAcquire (k : LockKey) (token : LockVal) (ttl : Z)
  | ERelease (k : LockKey) (token : LockVal)
  | EComplete (k : LockKey) (token : LockVal) (ttl : Z)
  | ETick (dt : Z).

(** The answer of each acquisition, in order, with the final clock and keyspace. *)
Fixpoint interleave (es : list LockEvent) (t : Z) (m : Keyspace)
    : list (LockKey * LockVal * bool) * Z * Keyspace :=
  match es with
  | [] => ([], t, m)
  | EAcquire k v ttl :: es' =>
      let '(b, m') := ACQUIRE_LOCK_SCRIPT k v ttl t m in
      let '(out, t'', m'') := interleave es' t m' in ((k, v, b) :: out, t'', m'')
  | ERelease k v :: es' => interleave es' t (RELEASE_LOCK_SCRIPT k v t m)
  | EComplete k v ttl :: es' => interleave es' t (COMPLETE_LOCK_SCRIPT k v Completed ttl t m).2
  | ETick dt :: es' => interleave es' (t + dt) m
  end.

Fixpoint elapsed (es : list LockEvent) : Z :=
  match es with
  | [] => 0
  | ETick dt :: es' => dt + elapsed es'
  | _ :: es' => elapsed es'
  end.

(** No time runs backwards, and nobody but other tokens touches the lock [k]:
    the owner neither releases nor completes it. *)
Definition undisturbed (k : LockKey) (owner : LockVal) (e : LockEvent) : Prop :=
  match e with
  | EAcquire _ _ _ => True
  | ERelease k' v => k' = k -> v <> owner
  | EComplete k' v _ => k' = k -> v <> owner
  | ETick dt => 0 <= dt
  end.

(** ** Lemmas *)

Lemma GET_SETEX t t' m k v ttl :
  t' < t + ttl * second -> GET t' (SETEX t m k v ttl) k = Some v.
Proof.
  intros H. unfold GET, SETEX. rw lookup_insert_eq. simpl.
  by rw (proj2 (Z.ltb_lt _ _) H).
Qed.

Lemma GET_SETEX_ne t t' m k k' v ttl : k <> k' -> GET t' (SETEX t m k v ttl) k' = GET t' m k'.
Proof. intros H. unfold GET, SETEX. by rw lookup_insert_ne. Qed.

Lemma acquire_other k v ttl t m k' :
  k <> k' -> (ACQUIRE_LOCK_SCRIPT k v ttl t m).2 !! k' = m !! k'.
Proof.
  intros H. unfold ACQUIRE_LOCK_SCRIPT. destruct (GET t m k); simpl; [done|].
  by apply lookup_insert_ne.
Qed.

(** A held lock is not changed by another client's script. *)
Lemma acquire_held k v ttl t m k' o x :
  m !! k' = Some (o, x) -> t < x -> (ACQUIRE_LOCK_SCRIPT k v ttl t m).2 !! k' = Some (o, x).
Proof.
  intros Hm Ht. destruct (decide (k = k')) as [->|Hne]; [|by rw acquire_other].
  unfold ACQUIRE_LOCK_SCRIPT, GET. rw Hm. simpl. by rw (proj2 (Z.ltb_lt _ _) Ht).
Qed.
Lemma release_held k v t m k' o x :
  m !! k' = Some (o, x) -> t < x -> (k = k' -> v <> o) ->
  RELEASE_LOCK_SCRIPT k v t m !! k' = Some (o, x).
Proof.
  intros Hm Ht Hv. unfold RELEASE_LOCK_SCRIPT. case_bool_decide as Hg; [|done].
  destruct (decide (k = k')) as [->|Hne]; [|by rw lookup_delete_ne].
  unfold GET in Hg. rw Hm /= (proj2 (Z.ltb_lt _ _) Ht) in Hg. naive_solver.
Qed.
Lemma complete_held k v ttl t m k' o x :
  m !! k' = Some (o, x) -> t < x -> (k = k' -> v <> o) ->
  (COMPLETE_LOCK_SCRIPT k v Completed ttl t m).2 !! k' = Some (o, x).
Proof.
  intros Hm Ht Hv. unfold COMPLETE_LOCK_SCRIPT. case_bool_decide as Hg; simpl; [|done].
  destruct (decide (k = k')) as [->|Hne]; [|by rw lookup_insert_ne].
  unfold GET in Hg. rw Hm /= (proj2 (Z.ltb_lt _ _) Ht) in Hg. naive_solver.
Qed.

(** The holder's entry survives every undisturbed interleaving that ends before
    it expires, and every acquisition of the lock by another token is refused. *)
Lemma interleave_held es k o x t m :
  m !! k = Some (o, x) -> t + elapsed es < x ->
  Forall (undisturbed k o) es ->
  let '(out, t', m') := interleave es t m in
  m' !! k = Some (o, x) /\ forall v b, (k, v, b) ∈ out -> v <> o -> b = false.
Proof.
  revert t m. induction es as [|e es IH]; intros t m Hm Ht Hes; simpl.
  { split; [done|]. intros v b Hin. by inversion Hin. }
  inversion Hes as [|? ? He Hes']; subst.
  assert (Hpos : 0 <= elapsed es).
  { clear -Hes'. induction Hes' as [|e' es' He' _ IH]; simpl; [lia|]. destruct e'; simpl in *; lia. }
  destruct e as [k' v ttl|k' v|k' v ttl|dt]; simpl in *.
  - pose proof (acquire_held k' v ttl t m k o x Hm ltac:(lia)) as Hm'.
    destruct (ACQUIRE_LOCK_SCRIPT k' v ttl t m) as [b m1] eqn:Ea. simpl in Hm'.
    specialize (IH t m1 Hm' Ht Hes'). destruct (interleave es t m1) as [[out t''] m''].
    destruct IH as [IH1 IH2]. split; [done|]. intros v' b' Hin Hv.
    apply elem_of_cons in Hin as [[= <- <- <-]|Hin]; [|eapply IH2; eassumption].
    unfold ACQUIRE_LOCK_SCRIPT, GET in Ea. rw Hm /= (proj2 (Z.ltb_lt _ _)) in Ea; [lia|].
    injection Ea as <- _. apply bool_decide_eq_false. naive_solver.
  - apply IH; [|done|done]. apply release_held; [done|lia|exact He].
  - apply IH; [|done|done]. apply complete_held; [done|lia|exact He].
  - apply IH; [done|lia|done].
Qed.

(** ** Properties *)

(** C26: Mutual exclusion.  Once a client has acquired a free lock, no client with
    another token acquires it in any interleaving of scripts that ends within
    the time-to-live, unless the owner itself releases or completes it. *)
Theorem lock_mutual_exclusion (k : LockKey) (owner : LockVal) (ttl t : Z) (m m1 : Keyspace)
    (es : list LockEvent) :
  GET t m k = None ->
  ACQUIRE_LOCK_SCRIPT k owner ttl t m = (true, m1) ->
  Forall (undisturbed k owner) es -> elapsed es < ttl * second ->
  forall v, v <> owner -> (k, v, true) ∉ (interleave es t m1).1.1.
Proof.
  intros Hfree Ha Hes Hlt v Hv Hin. unfold ACQUIRE_LOCK_SCRIPT in Ha. rw Hfree in Ha.
  injection Ha as <-.
  pose proof (interleave_held es k owner (t + ttl * second) t (SETEX t m k owner ttl)) as H.
  destruct (interleave es t _) as [[out t'] m'].
  destruct H as [_ H]; [apply lookup_insert_eq|lia|done|].
  by specialize (H v true Hin Hv).
Qed.

Example lock_mutual_exclusion_witness :
  (OverageLock 1, Tok 8, true) ∉
    (interleave [EAcquire (OverageLock 1) (Tok 8) 60; ETick 1000; ERelease (OverageLock 1) (Tok 8);
                 EAcquire (OverageLock 1) (Tok 8) 60] 0
       (SETEX 0 ∅ (OverageLock 1) (Tok 7) 60)).1.1.
Proof.
  apply (lock_mutual_exclusion (OverageLock 1) (Tok 7) 60 0 ∅).
  - reflexivity.
  - reflexivity.
  - repeat constructor; simpl; try (intros _; discriminate); lia.
  - vm_compute. reflexivity.
  - discriminate.
Defined.

(** Replays are harmless.  When the transport retries a script that already
    ran (before the lock expires), acquiring again with the same token succeeds
    and leaves the keyspace as it is, and completing again reports success
    without rewriting the marker. *)
Theorem lock_replay_safe (k : LockKey) (token : LockVal) (ttl t t' : Z) (m m1 : Keyspace) (b : bool) :
  t' < t + ttl * second -> token <> Completed ->
  (ACQUIRE_LOCK_SCRIPT k token ttl t m = (true, m1) -> GET t m k = None ->
     ACQUIRE_LOCK_SCRIPT k token ttl t' m1 = (true, m1)) /\
  (COMPLETE_LOCK_SCRIPT k token Completed ttl t m = (b, m1) -> GET t m k = Some token ->
     COMPLETE_LOCK_SCRIPT k token Completed ttl t' m1 = (true, m1)).
Proof.
  intros Ht Htok. split; intros H Hg.
  - unfold ACQUIRE_LOCK_SCRIPT in H. rw Hg in H. injection H as <-.
    unfold ACQUIRE_LOCK_SCRIPT. rw GET_SETEX; [done|]. by rw bool_decide_eq_true_2.
  - unfold COMPLETE_LOCK_SCRIPT in H. rw bool_decide_eq_true_2 in H; [done|]. injection H as <- <-.
    unfold COMPLETE_LOCK_SCRIPT. rw !GET_SETEX; [done|].
    rw bool_decide_eq_false_2; [naive_solver|]. by rw bool_decide_eq_true_2.
Qed.

Example lock_replay_safe_witness :
  ACQUIRE_LOCK_SCRIPT (StripeEvt "evt_1") (Tok 3) 300 50 (SETEX 0 ∅ (StripeEvt "evt_1") (Tok 3) 300)
    = (true, SETEX 0 ∅ (StripeEvt "evt_1") (Tok 3) 300).
Proof.
  refine (proj1 (lock_replay_safe (StripeEvt "evt_1") (Tok 3) 300 0 50 ∅ _ true _ _) _ _);
    [reflexivity|discriminate|reflexivity|reflexivity].
Defined.
