(* ===== verification/Usage.v ===== *)
(** * Usage tracking (services/usage_service.py)

    The two Lua scripts as functions on Redis, and one definition per method of
    [UsageService]. *)
From stdpp Require Import base gmap strings list.
From Stdlib Require Import ZArith Lia ssreflect.
From S2P Require Import Prelude Constants Entities World Invariant BillingRepo.

#[local] Open Scope Z_scope.

(** ** Keys and times *)

(** [_usage_key]: the UTC date of [period_start] names the hash. *)
Definition usage_key (org : N) (period_start : Z) : UsageKey := (org, period_start / days 1).

(** [_compute_ttl]: [int(...)] truncates towards zero. *)
Definition compute_ttl (now period_end : Z) : Z :=
  let remaining := Z.quot (period_end - now) second in
  let buffer := USAGE_KEY_BUFFER_DAYS * 86400 in
  Z.max (remaining + buffer) buffer.

Definition USAGE_RETRY_DEDUP_TTL_S : Z := 60.

(** ** The scripts *)

Definition HGET (t : Z) (r : Redis) (k : UsageKey) (f : UsageCategory) : Z :=
  default 0 (hash_fields t (r_usage r !! k) !! f).

(** [HINCRBY] keeps the expiry of a live hash; a missing field counts as 0. *)
Definition HINCRBY (t : Z) (r : Redis) (k : UsageKey) (f : UsageCategory) (n : Z) : Z * Redis :=
  let v := HGET t r k f + n in
  (v, set_usage (<[k := {| h_fields := <[f := v]> (hash_fields t (r_usage r !! k));
                           h_expires := hash_expiry t (r_usage r !! k) |}]> (r_usage r)) r).

Definition EXPIRE (t : Z) (r : Redis) (k : UsageKey) (ttl : Z) : Redis :=
  match r_usage r !! k with
  | Some h => set_usage (<[k := {| h_fields := h_fields h; h_expires := Some (t + ttl * second) |}]> (r_usage r)) r
  | None => r
  end.

Definition GET_dedup (t : Z) (r : Redis) (d : DedupKey) : option Z := live t (r_dedup r !! d).
Definition SET_dedup (t : Z) (r : Redis) (d : DedupKey) (v ttl : Z) : Redis :=
  set_dedup (<[d := (v, t + ttl * second)]> (r_dedup r)) r.

Definition CHECK_AND_INCREMENT_LUA (k : UsageKey) (d : DedupKey) (f : UsageCategory)
    (n limit ttl dedup_ttl : Z) (t : Z) (r : Redis) : Z * Redis :=
  match GET_dedup t r d with
  | Some cached => (cached, r)
  | None =>
      let '(current, r1) := HINCRBY t r k f n in
      if (0 <=? limit) && (limit <? current) then
        let '(_, r2) := HINCRBY t r1 k f (- n) in
        (-1, SET_dedup t r2 d (-1) dedup_ttl)
      else
        (current, SET_dedup t (EXPIRE t r1 k ttl) d current dedup_ttl)
  end.

Definition ROLLBACK_INCREMENT_LUA (k : UsageKey) (d : DedupKey) (f : UsageCategory)
    (n dedup_ttl : Z) (t : Z) (r : Redis) : Z * Redis :=
  match GET_dedup t r d with
  | Some cached => (cached, r)
  | None =>
      let '(current, r1) := HINCRBY t r k f (- n) in
      (current, SET_dedup t r1 d current dedup_ttl)
  end.

Definition run_lua {A} (f : Z -> Redis -> A * Redis) : M World A := fun w =>
  let '(a, r) := f (now w) (redis w) in (Ok a, set_redis r w).

(** ** The service *)

Definition no_subscription : exn := PP QuotaExceededError "No active subscription found for this organization.".

Definition fetch_subscription_from_db (org : N) : M World (option Subscription) :=
  get_subscription_by_org org.

(** Read-through cache. *)
Definition get_subscription_cached (org : N) : M World (option Subscription) :=
  cached ← redis_get (fun r t => live t (r_subs r !! org));
  match cached with
  | Some s => mret (Some s)
  | None =>
      sub ← fetch_subscription_from_db org;
      match sub with
      | None => mret None
      | Some s =>
          redis_update (fun r t => set_subs (<[org := (s, t + SUB_CACHE_TTL * second)]> (r_subs r)) r) ;;
          mret (Some s)
      end
  end.

(** The hard limit passed to the script; -1 means unlimited. *)
Definition hard_limit_of (plan : SubscriptionPlan) (c : UsageCategory) : Z :=
  if negb (pay_as_you_go (get_plan_config plan)) then default (-1) (get_limit_for_category plan c)
  else -1.

Definition check_and_increment (org : N) (category : string) (count : Z) : M World Z :=
  cat ← lift (UsageCategory_of category);
  sub ← get_subscription_cached org;
  match sub with
  | None => raise no_subscription
  | Some s =>
      guard_not (negb (bool_decide (sub_status s = ACTIVE) || bool_decide (sub_status s = PAST_DUE)))
        (PP QuotaExceededError "Your subscription is not active.") ;;
      let k := usage_key org (sub_start s) in
      token ← uuid4;
      t ← utcnow;
      new_val ← run_lua (CHECK_AND_INCREMENT_LUA k (k, (false, token)) cat count
                  (hard_limit_of (sub_plan s) cat) (compute_ttl t (sub_end s)) USAGE_RETRY_DEDUP_TTL_S);
      guard_not (new_val =? -1) (PP QuotaExceededError "You've reached the limit for your plan. Please upgrade to continue.") ;;
      mret new_val
  end.

Definition rollback_increment (org : N) (category : string) (count : Z) : M World unit :=
  try_except
    (cat ← lift (UsageCategory_of category);
     sub ← get_subscription_cached org;
     match sub with
     | None => mret tt
     | Some s =>
         let k := usage_key org (sub_start s) in
         token ← uuid4;
         _ ← run_lua (ROLLBACK_INCREMENT_LUA k (k, (true, token)) cat count USAGE_RETRY_DEDUP_TTL_S);
         mret tt
     end)
    (fun _ => mret tt).

Definition get_current_usage (org : N) : M World UsageSummary :=
  sub ← get_subscription_cached org;
  match sub with
  | None =>
      t ← utcnow;
      mret {| us_plan := HOBBY; us_status := ACTIVE; us_start := t; us_end := t; us_counts := zero_counts; us_limits := None |}
  | Some s =>
      k ← redis_get (fun r t => counts_of (HGET t r (usage_key org (sub_start s))));
      mret {| us_plan := sub_plan s; us_status := sub_status s; us_start := sub_start s;
              us_end := sub_end s; us_counts := k;
              us_limits := Some (get_plan_config (sub_plan s)) |}
  end.

Definition require_monitoring_allowed (org : N) : M World unit :=
  sub ← get_subscription_cached org;
  match sub with
  | None => raise no_subscription
  | Some s =>
      guard_not (negb (monitoring_allowed (get_plan_config (sub_plan s))))
        (PP QuotaExceededError "Monitoring is not available on your plan. Please upgrade.")
  end.

(** The second half of [sync_to_database], once the period is known. *)
Definition sync_period (org : N) (period_start period_end : Z) : M World unit :=
  raw ← redis_get (fun r t => hash_fields t (r_usage r !! usage_key org period_start));
  if bool_decide (raw = ∅) then mret tt
  else upsert_usage_counters org period_start period_end (counts_of (fun c => default 0 (raw !! c))).

Definition sync_to_database (org : N) (period_start period_end : option Z) : M World unit :=
  match period_start, period_end with
  | Some a, Some b => sync_period org a b
  | None, None =>
      sub ← get_subscription_by_org org;
      match sub with
      | None => mret tt
      | Some s => sync_period org (sub_start s) (sub_end s)
      end
  | _, _ => raise (ValueError "Both period bounds are required.")
  end.

Definition invalidate_subscription_cache (org : N) : M World unit :=
  redis_update (fun r _ => set_subs (delete org (r_subs r)) r).

Definition delete_usage_key (org : N) (period_start : Z) : M World unit :=
  redis_update (fun r _ => set_usage (delete (usage_key org period_start) (r_usage r)) r).

(** ** Lemmas on the scripts *)

Lemma UsageCategory_of_value c : UsageCategory_of (UsageCategory_value c) = Ok c.
Proof. by destruct c. Qed.

Lemma hash_fields_live t h : (match h_expires h with Some x => t < x | None => True end) ->
  hash_fields t (Some h) = h_fields h.
Proof.
  intros H. simpl. destruct (h_expires h) as [x|]; [|done]. by rw (proj2 (Z.ltb_lt _ _) H).
Qed.

Lemma hash_expiry_live t e x : hash_expiry t e = Some x -> t < x.
Proof.
  unfold hash_expiry. destruct e as [h|]; [|done]. destruct (h_expires h) as [y|]; [|done].
  destruct (t <? y) eqn:E; [|done]. intros [= <-]. by apply Z.ltb_lt.
Qed.

Lemma HINCRBY_fields t r k f n :
  hash_fields t (r_usage (HINCRBY t r k f n).2 !! k)
  = <[f := HGET t r k f + n]> (hash_fields t (r_usage r !! k)).
Proof.
  simpl. rw lookup_insert_eq. apply hash_fields_live. simpl.
  destruct (hash_expiry t (r_usage r !! k)) eqn:E; [|done]. eapply hash_expiry_live; eassumption.
Qed.

Lemma HGET_HINCRBY t r k f n k' f' :
  HGET t (HINCRBY t r k f n).2 k' f' =
  HGET t r k' f' + (if bool_decide (k = k') && bool_decide (f = f') then n else 0).
Proof.
  unfold HGET at 1. destruct (decide (k = k')) as [<-|Hk].
  - rw HINCRBY_fields (bool_decide_eq_true_2 (k = k)); [done|]. cbn [andb].
    case_bool_decide as Hf.
    { subst f'. rw lookup_insert_eq. done. }
    rw lookup_insert_ne; [done|]. unfold HGET. lia.
  - cbn. rw lookup_insert_ne; [done|]. rw bool_decide_eq_false_2; [done|]. unfold HGET. cbn. lia.
Qed.

Lemma HGET_EXPIRE_HINCRBY t r k f n ttl k' f' : 0 < ttl ->
  HGET t (EXPIRE t (HINCRBY t r k f n).2 k ttl) k' f' = HGET t (HINCRBY t r k f n).2 k' f'.
Proof.
  intros Httl. unfold EXPIRE. cbn [snd HINCRBY r_usage set_usage]. rw lookup_insert_eq.
  unfold HGET. cbn [r_usage set_usage h_fields]. destruct (decide (k = k')) as [<-|Hk].
  - rw !lookup_insert_eq. rw !hash_fields_live; [| |done]; cbn.
    + unfold second. lia.
    + destruct (hash_expiry t (r_usage r !! k)) eqn:E; [eapply hash_expiry_live; eassumption|done].
  - by rw !lookup_insert_ne.
Qed.

Lemma HGET_SET_dedup t r d v ttl k f : HGET t (SET_dedup t r d v ttl) k f = HGET t r k f.
Proof. done. Qed.

(** The counters after a check-and-increment with a fresh deduplication key. *)
Lemma CHECK_AND_INCREMENT_spec k d f n limit ttl dttl t r :
  GET_dedup t r d = None -> 0 < ttl ->
  let '(v, r') := CHECK_AND_INCREMENT_LUA k d f n limit ttl dttl t r in
  let over := 0 <= limit /\ limit < HGET t r k f + n in
  (over -> v = -1 /\ forall k' f', HGET t r' k' f' = HGET t r k' f') /\
  (~ over -> v = HGET t r k f + n /\
     forall k' f', HGET t r' k' f' =
       HGET t r k' f' + (if bool_decide (k = k') && bool_decide (f = f') then n else 0)).
Proof.
  intros Hd Httl. unfold CHECK_AND_INCREMENT_LUA. rw Hd.
  destruct (HINCRBY t r k f n) as [cur r1] eqn:E1.
  assert (Hcur : cur = HGET t r k f + n) by (by injection E1 as <- <-).
  assert (Hr1 : r1 = (HINCRBY t r k f n).2) by (by rw E1).
  destruct ((0 <=? limit) && (limit <? cur)) eqn:Eo.
  - apply andb_prop in Eo as [H1 H2]. apply Z.leb_le in H1. apply Z.ltb_lt in H2.
    destruct (HINCRBY t r1 k f (- n)) as [c2 r2] eqn:E2.
    assert (Hr2 : r2 = (HINCRBY t r1 k f (- n)).2) by (by rw E2).
    split; [intros _|intros Hno; exfalso; apply Hno; lia]. split; [done|].
    intros k' f'. rw HGET_SET_dedup Hr2 HGET_HINCRBY Hr1 HGET_HINCRBY.
    destruct (_ && _); lia.
  - split.
    + intros [H1 H2]. apply andb_false_iff in Eo. rw Z.leb_gt Z.ltb_ge in Eo. lia.
    + intros _. split; [done|]. intros k' f'.
      rw HGET_SET_dedup Hr1 HGET_EXPIRE_HINCRBY; [done|]. apply HGET_HINCRBY.
Qed.

(** Time only makes a counter vanish. *)
Lemma HGET_later t t' r k f : t <= t' -> HGET t' r k f = HGET t r k f \/ HGET t' r k f = 0.
Proof.
  intros Ht. unfold HGET, hash_fields. destruct (r_usage r !! k) as [h|]; [|by left].
  destruct (h_expires h) as [x|]; [|by left].
  destruct (t' <? x) eqn:E; [|by right]. left.
  apply Z.ltb_lt in E. by rw (proj2 (Z.ltb_lt t x)); [lia|].
Qed.

Lemma compute_ttl_pos t e : 0 < compute_ttl t e.
Proof. unfold compute_ttl, USAGE_KEY_BUFFER_DAYS. lia. Qed.

(** ** Lemmas on the service *)

(** No deduplication key of Redis was built from a token still to be drawn. *)
Definition fresh_dedup (w : World) : Prop :=
  forall k b i, is_Some (r_dedup (redis w) !! (k, (b, i))) -> (i < next_id w)%N.

Lemma fresh_dedup_GET w k b : fresh_dedup w -> GET_dedup (now w) (redis w) (k, (b, next_id w)) = None.
Proof.
  intros H. unfold GET_dedup. destruct (_ !! _) as [[v x]|] eqn:E; [|done].
  specialize (H k b (next_id w) ltac:(eauto)). lia.
Qed.

(** The cache lookup touches nothing but the cache entry of the organisation. *)
Lemma get_subscription_cached_spec org w r w1 :
  get_subscription_cached org w = (r, w1) ->
  db w1 = db w /\ durable w1 = durable w /\ now w1 = now w /\ next_id w1 = next_id w /\
  r_usage (redis w1) = r_usage (redis w) /\ r_dedup (redis w1) = r_dedup (redis w) /\
  (forall s, r = Ok (Some s) -> live (now w1) (r_subs (redis w1) !! org) = Some s).
Proof.
  unfold get_subscription_cached, mbind, M_bind, redis_get, gets.
  destruct (live (now w) (r_subs (redis w) !! org)) as [s0|] eqn:El.
  { intros [= <- <-]. repeat split. by intros s [= <-]. }
  unfold fetch_subscription_from_db, get_subscription_by_org, find_subscription, mbind, M_bind, read_db, gets, lift.
  destruct (scalar_one_or_none _) as [[s|]|e].
  - intros [= <- <-]. repeat split. intros s' [= <-]. cbn. rw lookup_insert_eq. cbn.
    unfold SUB_CACHE_TTL, second. rw (proj2 (Z.ltb_lt _ _)); [lia|done].
  - intros [= <- <-]. repeat split. done.
  - intros [= <- <-]. repeat split. done.
Qed.

Lemma get_subscription_cached_hit org w s :
  live (now w) (r_subs (redis w) !! org) = Some s -> get_subscription_cached org w = (Ok (Some s), w).
Proof. intros H. unfold get_subscription_cached, mbind, M_bind, redis_get, gets. by rw H. Qed.

(** A subscription whose status allows usage. *)
Definition usable (s : Subscription) : Prop := sub_status s = ACTIVE \/ sub_status s = PAST_DUE.

Lemma usable_guard s : usable s ->
  negb (bool_decide (sub_status s = ACTIVE) || bool_decide (sub_status s = PAST_DUE)) = false.
Proof. intros [H|H]; rw H; by vm_compute. Qed.

(** The counters the script leaves behind, and its effect on the rest. *)
Lemma check_and_increment_run org c n w s w1 :
  get_subscription_cached org w = (Ok (Some s), w1) -> usable s -> fresh_dedup w ->
  let k := usage_key org (sub_start s) in
  let limit := hard_limit_of (sub_plan s) c in
  let over := 0 <= limit /\ limit < HGET (now w) (redis w) k c + n in
  exists r w', check_and_increment org (UsageCategory_value c) n w = (r, w') /\
    db w' = db w /\ durable w' = durable w /\ now w' = now w /\ fresh_dedup w' /\
    r_subs (redis w') = r_subs (redis w1) /\
    (over -> (exists m, r = Err (PP QuotaExceededError m)) /\
       forall k' f', HGET (now w) (redis w') k' f' = HGET (now w) (redis w) k' f') /\
    (~ over -> HGET (now w) (redis w) k c + n <> -1 ->
       r = Ok (HGET (now w) (redis w) k c + n) /\
       forall k' f', HGET (now w) (redis w') k' f' = HGET (now w) (redis w) k' f' +
         (if bool_decide (k = k') && bool_decide (c = f') then n else 0)).
Proof.
  intros Hsub Hus Hfresh k limit over.
  destruct (get_subscription_cached_spec org w _ w1 Hsub) as (Hdb & Hdur & Hnow & Hid & Hu & Hd & _).
  unfold check_and_increment. erewrite bind_Ok; [|unfold lift; rw UsageCategory_of_value; reflexivity].
  erewrite bind_Ok; [|exact Hsub]. cbn beta iota. rw (usable_guard s Hus).
  cbv [guard_not mbind M_bind mret M_ret uuid4 utcnow gets]. cbn [now set_next_id redis].
  fold k. set (d := (k, (false, next_id w1))).
  pose proof (CHECK_AND_INCREMENT_spec k d c n limit (compute_ttl (now w1) (sub_end s))
    USAGE_RETRY_DEDUP_TTL_S (now w1) (redis w1)) as Hspec.
  assert (HgetE : forall k' f', HGET (now w1) (redis w1) k' f' = HGET (now w) (redis w) k' f').
  { intros k' f'. unfold HGET. by rw Hnow Hu. }
  assert (Hded : GET_dedup (now w1) (redis w1) d = None).
  { unfold d. rw Hid. unfold GET_dedup. rw Hd Hnow. exact (fresh_dedup_GET w k false Hfresh). }
  specialize (Hspec Hded (compute_ttl_pos _ _)).
  unfold run_lua. cbn [now redis set_next_id].
  fold limit.
  assert (Hkeep : forall v r', CHECK_AND_INCREMENT_LUA k d c n limit (compute_ttl (now w1) (sub_end s))
      USAGE_RETRY_DEDUP_TTL_S (now w1) (redis w1) = (v, r') ->
      r_subs r' = r_subs (redis w1) /\ exists x, r_dedup r' = <[d := x]> (r_dedup (redis w1))).
  { intros v r'. unfold CHECK_AND_INCREMENT_LUA. rw Hded. unfold HINCRBY.
    destruct (_ && _); intros [= _ <-]; [by eauto|].
    unfold SET_dedup, EXPIRE. cbn. rw lookup_insert_eq. cbn. by eauto. }
  destruct (CHECK_AND_INCREMENT_LUA _ _ _ _ _ _ _ _ _) as [v r'] eqn:Erun.
  destruct (Hkeep v r' eq_refl) as [Hsubs' [x Hded']]. destruct Hspec as [Hover Hunder].
  set (w' := set_redis r' (set_next_id (N.succ (next_id w1)) w1)).
  assert (Hfresh' : fresh_dedup w').
  { intros k' b i. cbn. rw Hded'. destruct (decide (d = (k', (b, i)))) as [Heq|Hne].
    - unfold d in Heq. injection Heq as <- <- <-. lia.
    - rw lookup_insert_ne; [done|]. rw Hd. intros H. apply Hfresh in H. lia. }
  destruct (v =? -1) eqn:Ev; cbn; eexists _, w'; (split; [reflexivity|]);
    (split; [exact Hdb|]); (split; [exact Hdur|]); (split; [exact Hnow|]); (split; [exact Hfresh'|]);
    (split; [exact Hsubs'|]); rw HgetE in Hover, Hunder; split.
  - intros Ho. destruct (Hover Ho) as [_ Hall]. split; [by eauto|].
    intros k' f'. rw -HgetE -Hall -Hnow. done.
  - intros Hno Hne. destruct (Hunder Hno) as [Hv _]. apply Z.eqb_eq in Ev. lia.
  - intros Ho. destruct (Hover Ho) as [Hv _]. apply Z.eqb_neq in Ev. lia.
  - intros Hno Hne. destruct (Hunder Hno) as [Hv Hall]. split; [by rw Hv|].
    intros k' f'. rw -HgetE -Hall -Hnow. done.
Qed.

(** The same two scripts seen from one client after another: a rollback undoes
    a granted increment. *)
Lemma rollback_increment_run org c n w s :
  live (now w) (r_subs (redis w) !! org) = Some s -> fresh_dedup w ->
  let k := usage_key org (sub_start s) in
  exists w', rollback_increment org (UsageCategory_value c) n w = (Ok tt, w') /\ now w' = now w /\
    forall k' f', HGET (now w) (redis w') k' f' = HGET (now w) (redis w) k' f' -
      (if bool_decide (k = k') && bool_decide (c = f') then n else 0).
Proof.
  intros Hlive Hfresh k. unfold rollback_increment, try_except.
  erewrite bind_Ok; [|unfold lift; rw UsageCategory_of_value; reflexivity].
  erewrite bind_Ok; [|exact (get_subscription_cached_hit _ _ _ Hlive)].
  cbv [mbind M_bind mret M_ret uuid4 run_lua]. cbn [now redis set_next_id].
  unfold ROLLBACK_INCREMENT_LUA. rw fresh_dedup_GET; [done|]. fold k.
  destruct (HINCRBY (now w) (redis w) k c (- n)) as [v r] eqn:E.
  eexists. split; [reflexivity|]. split; [done|]. intros k' f'. cbn [redis set_redis].
  rw HGET_SET_dedup. replace r with (HINCRBY (now w) (redis w) k c (- n)).2 by (by rw E).
  rw HGET_HINCRBY. destruct (_ && _); lia.
Qed.

(** One request of a client: the time that passed since the previous one, its
    deduplication key and its count. *)
Record Request := { rq_wait : Z; rq_dedup : DedupKey; rq_count : Z }.

(** Clients of one counter, one script after another, in any order. *)
Fixpoint serve (k : UsageKey) (f : UsageCategory) (limit ttl : Z) (rs : list Request) (t : Z) (r : Redis)
    : Z * Redis :=
  match rs with
  | [] => (t, r)
  | q :: rs' =>
      let t' := t + rq_wait q in
      serve k f limit ttl rs' t'
        (CHECK_AND_INCREMENT_LUA k (rq_dedup q) f (rq_count q) limit ttl USAGE_RETRY_DEDUP_TTL_S t' r).2
  end.

(** The sum of the counts that are granted (not replayed, not refused). *)
Fixpoint granted (k : UsageKey) (f : UsageCategory) (limit ttl : Z) (rs : list Request) (t : Z) (r : Redis) : Z :=
  match rs with
  | [] => 0
  | q :: rs' =>
      let t' := t + rq_wait q in
      let '(v, r') := CHECK_AND_INCREMENT_LUA k (rq_dedup q) f (rq_count q) limit ttl USAGE_RETRY_DEDUP_TTL_S t' r in
      (match GET_dedup t' r (rq_dedup q) with
       | Some _ => 0
       | None => if (0 <=? limit) && (limit <? HGET t' r k f + rq_count q) then 0 else rq_count q
       end) + granted k f limit ttl rs' t' r'
  end.

(** ** Properties *)

(** C7: The quota is a hard bound.  Whatever requests reach a counter, in any
    order and with any waiting times, retried or not, a counter that starts at or
    below a non-negative limit is never above it. *)
Theorem quota_never_exceeded (k : UsageKey) (f : UsageCategory) (limit ttl : Z) (rs : list Request)
    (t : Z) (r : Redis) :
  0 <= limit -> 0 < ttl ->
  (forall t', t <= t' -> HGET t' r k f <= limit) ->
  Forall (fun q => 0 <= rq_wait q) rs ->
  HGET (serve k f limit ttl rs t r).1 (serve k f limit ttl rs t r).2 k f <= limit.
Proof.
  intros Hl Httl Hinit Hrs. revert t r Hinit. induction Hrs as [|q rs Hq Hrs IH]; intros t r Hinit; simpl.
  { apply Hinit. lia. }
  apply IH. intros t' Ht'. unfold CHECK_AND_INCREMENT_LUA at 1.
  pose proof (CHECK_AND_INCREMENT_spec k (rq_dedup q) f (rq_count q) limit ttl USAGE_RETRY_DEDUP_TTL_S
                (t + rq_wait q) r) as Hspec.
  unfold CHECK_AND_INCREMENT_LUA in Hspec.
  destruct (GET_dedup (t + rq_wait q) r (rq_dedup q)) eqn:Ed; [simpl; apply Hinit; lia|].
  specialize (Hspec eq_refl Httl).
  match goal with |- HGET _ ?p.2 _ _ <= _ => destruct p as [v r'] end. simpl.
  destruct Hspec as [Ho Hu].
  assert (Hnow : HGET (t + rq_wait q) r' k f <= limit).
  { pose proof (Hinit (t + rq_wait q) ltac:(lia)) as Hi.
    destruct (decide (limit < HGET (t + rq_wait q) r k f + rq_count q)) as [Hov|Hov].
    - destruct (Ho (conj Hl Hov)) as [_ Hall]. by rw Hall.
    - destruct Hu as [_ Hall]; [lia|]. rw Hall !bool_decide_eq_true_2; [done|done|]. simpl. lia. }
  destruct (HGET_later (t + rq_wait q) t' r' k f Ht') as [->| ->]; lia.
Qed.

Definition sample_requests : list Request :=
  [ {| rq_wait := 0; rq_dedup := ((5%N, 0), (false, 1%N)); rq_count := 2 |};
    {| rq_wait := 10; rq_dedup := ((5%N, 0), (false, 1%N)); rq_count := 2 |};
    {| rq_wait := 10; rq_dedup := ((5%N, 0), (false, 2%N)); rq_count := 2 |};
    {| rq_wait := 10; rq_dedup := ((5%N, 0), (false, 3%N)); rq_count := 1 |} ].

Example quota_never_exceeded_witness :
  HGET (serve (5%N, 0) TRACES 3 1000 sample_requests 0 empty_redis).1
       (serve (5%N, 0) TRACES 3 1000 sample_requests 0 empty_redis).2 (5%N, 0) TRACES <= 3.
Proof.
  apply (quota_never_exceeded (5%N, 0) TRACES 3 1000 sample_requests 0 empty_redis); try lia.
  - intros t' _. vm_compute. discriminate.
  - repeat constructor; simpl; lia.
Defined.

(** Accounting is exact.  While the hash does not expire (all requests at one
    instant), the counter moves by exactly the sum of the granted counts: refused
    and replayed requests leave no trace. *)
Theorem counter_accounts_for_grants (k : UsageKey) (f : UsageCategory) (limit ttl : Z) (rs : list Request)
    (t : Z) (r : Redis) :
  0 < ttl -> Forall (fun q => rq_wait q = 0) rs ->
  HGET t (serve k f limit ttl rs t r).2 k f = HGET t r k f + granted k f limit ttl rs t r.
Proof.
  intros Httl Hrs. revert r. induction Hrs as [|q rs Hq Hrs IH]; intros r; simpl; [lia|].
  rw Hq Z.add_0_r.
  pose proof (CHECK_AND_INCREMENT_spec k (rq_dedup q) f (rq_count q) limit ttl USAGE_RETRY_DEDUP_TTL_S t r) as Hspec.
  destruct (CHECK_AND_INCREMENT_LUA k (rq_dedup q) f (rq_count q) limit ttl _ t r) as [v r'] eqn:E. simpl.
  rw IH. destruct (GET_dedup t r (rq_dedup q)) eqn:Ed.
  { unfold CHECK_AND_INCREMENT_LUA in E. rw Ed in E. injection E as _ <-. lia. }
  destruct (Hspec eq_refl Httl) as [Ho Hu].
  destruct ((0 <=? limit) && (limit <? HGET t r k f + rq_count q)) eqn:Eo.
  - apply andb_prop in Eo as [H1 H2]. apply Z.leb_le in H1. apply Z.ltb_lt in H2.
    destruct (Ho (conj H1 H2)) as [_ Hall]. rw Hall. lia.
  - apply andb_false_iff in Eo. rw Z.leb_gt Z.ltb_ge in Eo.
    destruct Hu as [_ Hall]; [lia|]. rw Hall !bool_decide_eq_true_2; [done|done|]. simpl. lia.
Qed.

Example counter_accounts_for_grants_witness :
  HGET 0 (serve (5%N, 0) TRACES 3 1000
     [{| rq_wait := 0; rq_dedup := ((5%N, 0), (false, 1%N)); rq_count := 2 |};
      {| rq_wait := 0; rq_dedup := ((5%N, 0), (false, 2%N)); rq_count := 2 |}] 0 empty_redis).2 (5%N, 0) TRACES = 2.
Proof.
  etransitivity; [apply (counter_accounts_for_grants (5%N, 0) TRACES 3 1000)|vm_compute; reflexivity].
  - lia.
  - repeat constructor.
Defined.

(** A refused or granted [check_and_increment].  For an organisation whose
    subscription is active or past due: a request that would pass the plan's hard
    limit raises [QuotaExceededError] and leaves every counter as it was; any
    other request returns the new value and moves exactly its own counter. The
    database is untouched either way. *)
Theorem check_and_increment_outcome (org : N) (c : UsageCategory) (n : Z) (w w1 : World) (s : Subscription) :
  get_subscription_cached org w = (Ok (Some s), w1) -> usable s -> fresh_dedup w ->
  0 <= n -> 0 <= HGET (now w) (redis w) (usage_key org (sub_start s)) c ->
  let k := usage_key org (sub_start s) in
  let limit := hard_limit_of (sub_plan s) c in
  let old := HGET (now w) (redis w) k c in
  let '(r, w') := check_and_increment org (UsageCategory_value c) n w in
  db w' = db w /\
  if (0 <=? limit) && (limit <? old + n)
  then (exists m, r = Err (PP QuotaExceededError m)) /\
       forall k' f', HGET (now w) (redis w') k' f' = HGET (now w) (redis w) k' f'
  else r = Ok (old + n) /\
       forall k' f', HGET (now w) (redis w') k' f' =
         if bool_decide (k = k') && bool_decide (c = f') then old + n
         else HGET (now w) (redis w) k' f'.
Proof.
  intros Hsub Hus Hfresh Hn Hold k limit old.
  destruct (check_and_increment_run org c n w s w1 Hsub Hus Hfresh)
    as (r & w' & -> & Hdb & _ & _ & _ & _ & Ho & Hu).
  split; [done|]. fold k limit old in Ho, Hu. destruct ((0 <=? limit) && (limit <? old + n)) eqn:Eo.
  - apply andb_prop in Eo as [H1 H2]. apply Z.leb_le in H1. apply Z.ltb_lt in H2. by apply Ho.
  - apply andb_false_iff in Eo. rw Z.leb_gt Z.ltb_ge in Eo.
    fold k old in Hold. destruct Hu as [Hr Hall]; [lia|lia|]. split; [done|].
    intros k' f'. rw Hall. destruct (decide (k = k')) as [<-|Hk]; [|by rw bool_decide_eq_false_2; [done|]; simpl; lia].
    destruct (decide (c = f')) as [<-|Hf]; [by rw !bool_decide_eq_true_2|].
    rw (bool_decide_eq_false_2 (c = f')); [done|]. rw andb_false_r. lia.
Qed.

Example check_and_increment_outcome_witness :
  (check_and_increment 5 "session_evals" 11 hobby_world).1
    = Err (PP QuotaExceededError "You've reached the limit for your plan. Please upgrade to continue.") /\
  (check_and_increment 5 "session_evals" 10 hobby_world).1 = Ok 10.
Proof.
  pose proof (check_and_increment_outcome 5 SESSION_EVALS 10 hobby_world
    (get_subscription_cached 5 hobby_world).2 hobby_sub) as H.
  split; [vm_compute; reflexivity|].
  assert (H' := H eq_refl (or_introl eq_refl)). clear H.
  assert (Hf : fresh_dedup hobby_world).
  { intros k b i [x Hx]. discriminate Hx. }
  assert (H0 : 0 <= 10) by lia. specialize (H' Hf H0 ltac:(vm_compute; discriminate)).
  cbn [UsageCategory_value] in H'.
  destruct (check_and_increment 5 "session_evals" 10 hobby_world) as [r w'] eqn:E.
  destruct H' as [_ H']. assert (Hr : (r, w').1 = Ok 10) by (destruct H' as [Hr _]; exact Hr). exact Hr.
Defined.

(** ** Retries, rollback and synchronisation *)

Lemma GET_dedup_SET t t' r d v ttl : t' < t + ttl * second ->
  GET_dedup t' (SET_dedup t r d v ttl) d = Some v.
Proof.
  intros H. unfold GET_dedup, SET_dedup. cbn. rw lookup_insert_eq. cbn. by rw (proj2 (Z.ltb_lt _ _) H).
Qed.

(** A transport retry never counts twice.  When the client library resends a
    check-and-increment or a rollback with the deduplication key of the first
    attempt, within the minute that key lives, Redis returns the first answer and
    does not change, whether the first attempt was granted or refused. *)
Theorem usage_retry_idempotent (k : UsageKey) (d : DedupKey) (f : UsageCategory)
    (n limit ttl dttl t t' : Z) (r : Redis) :
  t <= t' < t + dttl * second -> GET_dedup t r d = None ->
  (let '(v, r1) := CHECK_AND_INCREMENT_LUA k d f n limit ttl dttl t r in
   CHECK_AND_INCREMENT_LUA k d f n limit ttl dttl t' r1 = (v, r1)) /\
  (let '(v, r1) := ROLLBACK_INCREMENT_LUA k d f n dttl t r in
   ROLLBACK_INCREMENT_LUA k d f n dttl t' r1 = (v, r1)).
Proof.
  intros Ht Hd. split.
  - unfold CHECK_AND_INCREMENT_LUA at 1. rw Hd. destruct (HINCRBY t r k f n) as [cur r1].
    destruct (_ && _); [destruct (HINCRBY t r1 k f (- n))|];
      unfold CHECK_AND_INCREMENT_LUA; rw GET_dedup_SET; [lia|done|lia|done].
  - unfold ROLLBACK_INCREMENT_LUA at 1. rw Hd. destruct (HINCRBY t r k f (- n)) as [cur r1].
    unfold ROLLBACK_INCREMENT_LUA. rw GET_dedup_SET; [lia|done].
Qed.

Example usage_retry_idempotent_witness :
  let d := ((5%N, 0), (false, 1%N)) in
  let '(v, r1) := CHECK_AND_INCREMENT_LUA (5%N, 0) d TRACES 4 3 1000 60 0 empty_redis in
  CHECK_AND_INCREMENT_LUA (5%N, 0) d TRACES 4 3 1000 60 1000 r1 = (v, r1).
Proof.
  apply (usage_retry_idempotent (5%N, 0) ((5%N, 0), (false, 1%N)) TRACES 4 3 1000 60 0 1000 empty_redis).
  - split; [lia|reflexivity].
  - reflexivity.
Defined.

(** A rollback undoes a grant.  When an increment was granted and the work it
    paid for then failed, [rollback_increment] brings every counter of every
    organisation back to its value before the increment. *)
Theorem rollback_undoes_increment (org : N) (c : UsageCategory) (n : Z) (w w1 : World) (s : Subscription) :
  get_subscription_cached org w = (Ok (Some s), w1) -> usable s -> fresh_dedup w ->
  let k := usage_key org (sub_start s) in
  0 <= n -> 0 <= HGET (now w) (redis w) k c ->
  let '(r, w2) := check_and_increment org (UsageCategory_value c) n w in
  match r with
  | Ok _ => let '(r', w3) := rollback_increment org (UsageCategory_value c) n w2 in
            r' = Ok tt /\ forall k' f', HGET (now w) (redis w3) k' f' = HGET (now w) (redis w) k' f'
  | Err _ => True
  end.
Proof.
  intros Hsub Hus Hfresh k Hn Hold.
  destruct (check_and_increment_run org c n w s w1 Hsub Hus Hfresh)
    as (r & w2 & -> & _ & _ & Hnow & Hfresh2 & Hsubs & Ho & Hu). fold k in Ho, Hu.
  destruct (get_subscription_cached_spec org w _ w1 Hsub) as (_ & _ & Hnow1 & _ & _ & _ & Hlive).
  specialize (Hlive s eq_refl).
  destruct r as [v|e]; [|done].
  assert (Hno : ~ (0 <= hard_limit_of (sub_plan s) c /\ hard_limit_of (sub_plan s) c < HGET (now w) (redis w) k c + n)).
  { intros H. destruct (Ho H) as [[m [=]] _]. }
  destruct (Hu Hno ltac:(lia)) as [_ Hall].
  destruct (rollback_increment_run org c n w2 s) as (w3 & -> & _ & Hback); [|done|].
  { by rw Hnow -Hnow1 Hsubs. }
  split; [done|]. intros k' f'. rw Hnow in Hback. rw Hback Hall. fold k. destruct (_ && _); lia.
Qed.

Example rollback_undoes_increment_witness :
  let w2 := (check_and_increment 5 "traces" 60 hobby_world).2 in
  let w3 := (rollback_increment 5 "traces" 60 w2).2 in
  HGET 10 (redis w2) (5%N, 0) TRACES = 60 /\ HGET 10 (redis w3) (5%N, 0) TRACES = 0.
Proof.
  split; [vm_compute; reflexivity|].
  assert (Hf : fresh_dedup hobby_world) by (intros k b i [x Hx]; discriminate Hx).
  assert (H := rollback_undoes_increment 5 TRACES 60 hobby_world
    (get_subscription_cached 5 hobby_world).2 hobby_sub eq_refl (or_introl eq_refl) Hf
    ltac:(lia) ltac:(vm_compute; discriminate)).
  cbn [UsageCategory_value] in H.
  destruct (check_and_increment 5 "traces" 60 hobby_world) as [r w2] eqn:E2. cbn [snd].
  assert (Hr : r = Ok 60) by (assert (H2 : (r, w2).1 = Ok 60) by (rewrite <- E2; vm_compute; reflexivity); exact H2).
  rewrite Hr in H. destruct (rollback_increment 5 "traces" 60 w2) as [r' w3]. destruct H as [_ H]. exact (H (5%N, 0) TRACES).
Defined.

(** What [sync_to_database] owes the usage table. *)
Definition synced (org : N) (a b : Z) (k : Counts) (d d' : DB) : Prop :=
  subscriptions d' = subscriptions d /\ billing_reports d' = billing_reports d /\
  (forall u, u ∈ usage_records d' -> of_period org a u = true -> ur_count u = k) /\
  (forall u, of_period org a u = false -> u ∈ usage_records d' <-> u ∈ usage_records d) /\
  (forall u, u ∈ usage_records d -> of_period org a u = true ->
     exists u', u' ∈ usage_records d' /\ ur_id u' = ur_id u /\ ur_end u' = ur_end u /\
       ur_reported u' = ur_reported u /\ ur_billed u' = ur_billed u /\ ur_invoice u' = ur_invoice u) /\
  (exists u, u ∈ usage_records d' /\ of_period org a u = true).

Lemma of_period_refl org a u : ur_org u = org -> ur_start u = a -> of_period org a u = true.
Proof. intros <- <-. unfold of_period. by rw !bool_decide_eq_true_2. Qed.

Lemma stamp_set_counts t u k : let u' := stamp touch_usage t u (set_counts k u) in
  ur_id u' = ur_id u /\ ur_org u' = ur_org u /\ ur_start u' = ur_start u /\ ur_end u' = ur_end u /\
  ur_reported u' = ur_reported u /\ ur_billed u' = ur_billed u /\ ur_invoice u' = ur_invoice u /\ ur_count u' = k.
Proof.
  unfold stamp. destruct (decide (u = set_counts k u)) as [Heq|]; cbn; [|done].
  split_and!; try done. by rw Heq.
Qed.

(** The record of a period, when the query finds one, is the only one. *)
Lemma period_record_unique org a (t : list UsageRecord) u v : scalar_one_or_none (select (of_period org a) t) = Ok (Some u) ->
  v ∈ t -> of_period org a v = true -> v = u.
Proof.
  intros H Hv Hp. apply scalar_one_or_none_Ok in H as [[_ [=]]|(x & E & [= <-])].
  assert (Hv' : v ∈ select (of_period org a) t) by by apply elem_of_select. rw E in Hv'. by apply list_elem_of_singleton in Hv'.
Qed.
(** A new record clashes with none when the period has none. *)
Lemma new_period_fresh org a (t : list UsageRecord) u : ur_org u = org -> ur_start u = a ->
  (forall v, v ∈ t -> of_period org a v = false) -> existsb (UsageRecordModel_clash u) t = false.
Proof.
  intros <- <- Hnone. apply not_true_is_false. intros H. apply List.existsb_exists in H as (v & Hv & Hc).
  apply list_elem_of_In in Hv. specialize (Hnone v Hv). revert Hc Hnone.
  unfold UsageRecordModel_clash, of_period. cbn. rw (bool_decide_sym (ur_org u)) (bool_decide_sym (ur_start u)). by intros -> .
Qed.
Lemma upsert_usage_counters_run w0 org a b k w :
  billing_wf w0 w -> exists w', upsert_usage_counters org a b k w = (Ok tt, w') /\
    synced org a b k (db w) (db w') /\ durable w' = durable w /\ redis w' = redis w.
Proof.
  intros [[Hwf _] _]. unfold upsert_usage_counters.
  destruct (at_most_one_scalar _ (wf_one_usage _ _ org a Hwf)) as [o Ho].
  assert (Hget : get_current_usage_record org a w = (Ok o, w)).
  { unfold get_current_usage_record, mbind, M_bind, read_db, gets, lift. by rw Ho. }
  erewrite bind_Ok by exact Hget. destruct (get_current_usage_record_run _ _ _ _ _ Hget) as [_ Hin].
  destruct Hwf as (Hs & Hu & Hr).
  destruct o as [u|].
  - destruct (Hin u eq_refl) as (Hu1 & Horg & Hst). cbv [mbind M_bind utcnow gets write_db modify].
    assert (Hpu : of_period org a u = true) by (by apply of_period_refl).
    assert (Huniq : forall v, v ∈ usage_records (db w) -> of_period org a v = true -> v = u).
    { intros v. by apply period_record_unique. }
    set (f := fun r => stamp touch_usage (now w) r (set_counts k r)).
    destruct (stamp_set_counts (now w) u k) as (F1 & F2 & F3 & F4 & F5 & F6 & F7 & F8). fold (f u) in *.
    eexists. split; [reflexivity|]. split; [|done]. cbn. split_and!; [done|done| | | |].
    + intros v Hv Hp. apply elem_of_update_where in Hv as (v0 & Hv0 & ->).
      case_bool_decide as Hid; [rw (table_ok_same_id ur_id _ _ _ _ _ Hu Hv0 Hu1 Hid); exact F8|].
      destruct Hid. by rw (Huniq v0 Hv0 Hp).
    + intros v Hv. rw elem_of_update_where. split.
      * intros (v0 & Hv0 & Heq). case_bool_decide as Hid; [|by rw Heq].
        exfalso. rw (table_ok_same_id ur_id _ _ _ _ _ Hu Hv0 Hu1 Hid) in Heq. fold (f u) in Heq.
        rw Heq (of_period_refl org a (f u)) in Hv; [by rw F2|by rw F3|done].
      * intros Hv0. exists v. split; [done|]. rw bool_decide_eq_false_2; [|done].
        intros Hid. rw (table_ok_same_id ur_id _ _ _ _ _ Hu Hv0 Hu1 Hid) Hpu in Hv. done.
    + intros v Hv Hp. rw (Huniq v Hv Hp). exists (f u). split; [|done].
      apply elem_of_update_where. exists u. split; [done|]. by rw bool_decide_eq_true_2.
    + exists (f u). split; [|by apply of_period_refl; [rw F2|rw F3]].
      apply elem_of_update_where. exists u. split; [done|]. by rw bool_decide_eq_true_2.
  - assert (Hnone : forall v, v ∈ usage_records (db w) -> of_period org a v = false).
    { apply select_nil_iff. by apply scalar_one_or_none_Ok in Ho as [[E _]|(x & E & [=])]. }
    set (u0 := set_counts k (new_usage (next_id w) org a b (now w))).
    assert (Hp0 : of_period org a u0 = true) by (by apply of_period_refl).
    assert (Hex : existsb (UsageRecordModel_clash u0) (usage_records (db w)) = false).
    { by apply (new_period_fresh org a). }
    unfold mbind, M_bind, utcnow, gets, insert_fresh, mbind, M_bind, uuid4, insert_row. cbn -[N.succ].
    fold u0. rw Hex. eexists. split; [reflexivity|]. split; [|done]. cbn. split_and!; [done|done| | | |].
    + intros v Hv Hp. apply elem_of_app in Hv as [Hv|Hv]; [by rw Hnone in Hp|].
      by apply list_elem_of_singleton in Hv as ->.
    + intros v Hv. rw elem_of_app. split; [|by left]. intros [H|H]; [done|].
      apply list_elem_of_singleton in H as ->. by rw Hp0 in Hv.
    + intros v Hv Hp. by rw Hnone in Hp.
    + exists u0. split; [apply elem_of_app; right; by left|done].
Qed.

(** Synchronisation writes exactly the live counters.  For a period whose Redis
    hash is not empty, [sync_to_database] leaves one usage record for the period,
    with the counters of Redis; an existing record keeps its identity, its end,
    its reported watermark and its billed mark, and no other row changes.  When
    the hash is missing or expired, nothing is written: a lost Redis key never
    zeroes recorded usage. *)
Theorem sync_to_database_exact (w0 : Ghost) (org : N) (a b : Z) (w : World) :
  billing_wf w0 w ->
  let raw := hash_fields (now w) (r_usage (redis w) !! usage_key org a) in
  let '(r, w') := sync_to_database org (Some a) (Some b) w in
  r = Ok tt /\
  if bool_decide (raw = ∅) then w' = w
  else synced org a b (counts_of (HGET (now w) (redis w) (usage_key org a))) (db w) (db w').
Proof.
  intros Hwf raw. unfold sync_to_database, sync_period.
  erewrite bind_Ok by reflexivity. fold raw. case_bool_decide; [done|].
  destruct (upsert_usage_counters_run w0 org a b (counts_of (fun c => default 0 (raw !! c))) w Hwf) as (w' & -> & Hs & _).
  split; [done|]. exact Hs.
Qed.

Example sync_to_database_exact_witness :
  let r := HINCRBY (days 20) empty_redis (7%N, 10) TRACES 6000 in
  let w := set_redis r.2 pro_world in
  let w' := (sync_to_database 7 (Some (days 10)) (Some (days 40)) w).2 in
  synced 7 (days 10) (days 40) {| traces := 6000; trace_evals := 0; session_evals := 0 |} (db w) (db w').
Proof.
  assert (Hwf : billing_wf from_start (set_redis (HINCRBY (days 20) empty_redis (7%N, 10) TRACES 6000).2 pro_world)).
  { exact pro_world_wf. }
  pose proof (sync_to_database_exact _ 7 (days 10) (days 40) _ Hwf) as H. cbv zeta.
  destruct (sync_to_database 7 _ _ _) as [r w']. destruct H as [_ H].
  rw bool_decide_eq_false_2 in H; [vm_compute; discriminate|exact H].
Defined.

(** ** The billing invariant *)

Section preservation.
Context (w0 : Ghost).

Lemma pres_run_lua {A} (f : Z -> Redis -> A * Redis) : preserves (billing_wf w0) (run_lua f).
Proof. intros w H. unfold run_lua. by destruct (f _ _). Qed.
Lemma pres_sync_period org a b : preserves (billing_wf w0) (sync_period org a b).
Proof. unfold sync_period. respects_auto. Qed.
Lemma pres_sync_to_database org a b : preserves (billing_wf w0) (sync_to_database org a b).
Proof. unfold sync_to_database. respects_auto; apply pres_sync_period. Qed.
Lemma pres_get_subscription_cached org : preserves (billing_wf w0) (get_subscription_cached org).
Proof. unfold get_subscription_cached, fetch_subscription_from_db. respects_auto. Qed.
End preservation.
#[export] Hint Resolve pres_run_lua pres_sync_period pres_sync_to_database pres_get_subscription_cached : effects.
