(* ===== verification/ReportRepo.v ===== *)
(** * Billing reports (infrastructure/db/repositories/billing_report_repo.py)

    One definition per method of [BillingReportRepository].  A row lock is
    [locked_elsewhere]: [SKIP LOCKED] queries do not see the reports another
    session holds. *)
From stdpp Require Import base gmap strings list.
From Stdlib Require Import ZArith Lia ssreflect.
From S2P Require Import Prelude Constants Entities World Invariant BillingRepo.

#[local] Open Scope Z_scope.

(** ** Column assignments *)

Definition set_requests v (r : BillingReport) : BillingReport :=
  {| br_id := br_id r; br_usage := br_usage r; br_customer := br_customer r;
     br_subscription := br_subscription r; br_closing := br_closing r; br_snapshot := br_snapshot r;
     br_pricing := br_pricing r; br_requests := v; br_attempted := br_attempted r;
     br_items := br_items r; br_status := br_status r; br_error := br_error r;
     br_created := br_created r; br_updated := br_updated r |}.
Definition set_attempted v (r : BillingReport) : BillingReport :=
  {| br_id := br_id r; br_usage := br_usage r; br_customer := br_customer r;
     br_subscription := br_subscription r; br_closing := br_closing r; br_snapshot := br_snapshot r;
     br_pricing := br_pricing r; br_requests := br_requests r; br_attempted := v;
     br_items := br_items r; br_status := br_status r; br_error := br_error r;
     br_created := br_created r; br_updated := br_updated r |}.
Definition set_items v (r : BillingReport) : BillingReport :=
  {| br_id := br_id r; br_usage := br_usage r; br_customer := br_customer r;
     br_subscription := br_subscription r; br_closing := br_closing r; br_snapshot := br_snapshot r;
     br_pricing := br_pricing r; br_requests := br_requests r; br_attempted := br_attempted r;
     br_items := v; br_status := br_status r; br_error := br_error r;
     br_created := br_created r; br_updated := br_updated r |}.
Definition set_report_status v e (r : BillingReport) : BillingReport :=
  {| br_id := br_id r; br_usage := br_usage r; br_customer := br_customer r;
     br_subscription := br_subscription r; br_closing := br_closing r; br_snapshot := br_snapshot r;
     br_pricing := br_pricing r; br_requests := br_requests r; br_attempted := br_attempted r;
     br_items := br_items r; br_status := v; br_error := e;
     br_created := br_created r; br_updated := br_updated r |}.
Definition touch_report t (r : BillingReport) : BillingReport :=
  {| br_id := br_id r; br_usage := br_usage r; br_customer := br_customer r;
     br_subscription := br_subscription r; br_closing := br_closing r; br_snapshot := br_snapshot r;
     br_pricing := br_pricing r; br_requests := br_requests r; br_attempted := br_attempted r;
     br_items := br_items r; br_status := br_status r; br_error := br_error r;
     br_created := br_created r; br_updated := t |}.

(** ** Operations *)

Definition lock_usage (org : N) (period_start : Z) : M World (option UsageRecord) :=
  rows ← read_db (fun d => select (of_period org period_start) (usage_records d));
  lift (scalar_one_or_none rows).

(** [ORDER BY created_at, id] *)
Definition created_order (a b : BillingReport) : bool :=
  (br_created a <? br_created b) || ((br_created a =? br_created b) && (br_id a <=? br_id b)%N).
(** [ORDER BY updated_at, id] *)
Definition updated_order (a b : BillingReport) : bool :=
  (br_updated a <? br_updated b) || ((br_updated a =? br_updated b) && (br_id a <=? br_id b)%N).

Definition list_for_usage (usage_id : N) : M World (list BillingReport) :=
  read_db (fun d => order_by created_order (reports_of d usage_id)).

(** [create(id=..., usage_record_id=..., ...)] with the column defaults. *)
Definition create (id usage_record_id : N) (customer : string) (subscription closing : option string)
    (snapshot : Counts) (pricing : Pricing) (requests : gmap UsageCategory ItemRequest)
    (status : ReportStatus) : M World BillingReport :=
  now ← utcnow;
  let row := {| br_id := id; br_usage := usage_record_id; br_customer := customer;
                br_subscription := subscription; br_closing := closing; br_snapshot := snapshot;
                br_pricing := pricing; br_requests := requests; br_attempted := ∅; br_items := ∅;
                br_status := status; br_error := None; br_created := now; br_updated := now |} in
  insert_row BillingReportModel_clash billing_reports set_billing_reports row ;;
  mret row.

Definition lock_report (id : N) : M World (option BillingReport) :=
  locked ← gets locked_elsewhere;
  rows ← read_db (fun d => select
    (fun r => bool_decide (br_id r = id) && negb (bool_decide (br_id r ∈ locked))) (billing_reports d));
  lift (scalar_one_or_none rows).

(** [update(report_id, **fields)]: [f] performs the assignments; the statement
    stamps [updated_at]. *)
Definition update (id : N) (f : BillingReport -> BillingReport) : M World unit :=
  now ← utcnow;
  write_db (fun d => set_billing_reports
    (update_where (fun r => bool_decide (br_id r = id)) (fun r => touch_report now (f r)) (billing_reports d)) d).

(** A report that confirms usage: already reported, or the one being finished. *)
Definition confirms (report r : BillingReport) : bool :=
  bool_decide (br_status r = rs_reported) || bool_decide (br_id r = br_id report).

(** [category in r.requests and category not in r.stripe_item_ids] *)
Definition unresolved_from (c : UsageCategory) (r : BillingReport) : option Z :=
  match br_requests r !! c, br_items r !! c with
  | Some q, None => Some (ir_from q)
  | _, _ => None
  end.

Definition watermark (u : UsageRecord) (report : BillingReport) (reports : list BillingReport)
    (c : UsageCategory) : Z :=
  let old := cnt (ur_reported u) c in
  let confirmed := zmax_list old
    (List.map (fun r => cnt (br_snapshot r) c) (List.filter (confirms report) reports)) in
  let unresolved := omap (unresolved_from c) reports in
  Z.max old (zmin_list confirmed unresolved).

Definition finish (report : BillingReport) : M World unit :=
  rows ← read_db (fun d => select (fun u => bool_decide (ur_id u = br_usage report)) (usage_records d));
  usage ← lift (scalar_one rows);
  reports ← list_for_usage (br_usage report);
  now ← utcnow;
  write_db (fun d => set_usage_records
    (update_where (fun u => bool_decide (ur_id u = br_usage report))
       (fun u => touch_usage now (set_reported (counts_of (watermark usage report reports)) u))
       (usage_records d)) d) ;;
  update (br_id report) (set_report_status rs_reported None).

Definition pending_ids (limit : nat) : M World (list N) :=
  read_db (fun d => take limit (List.map br_id (order_by updated_order
    (select (fun r => bool_decide (br_status r = rs_pending)) (billing_reports d))))).

(** The inner join with the usage records, in the order of the reports. *)
Definition recent_closures (since : Z) : M World (list (N * Z * Z * N)) :=
  read_db (fun d => take 200 (mbind (fun r =>
      List.map (fun u => (ur_org u, ur_start u, ur_end u, br_id r))
        (select (fun u => bool_decide (ur_id u = br_usage r)) (usage_records d)))
    (order_by updated_order
      (select (fun r => negb (bool_decide (br_closing r = None)) && (since <=? br_created r)) (billing_reports d))))).

(** ** Lemmas *)

Lemma respects_lock_usage R `{!PreOrder R} org a : respects R (lock_usage org a).
Proof. unfold lock_usage. respects_auto. Qed.
Lemma respects_list_for_usage R `{!PreOrder R} uid : respects R (list_for_usage uid).
Proof. unfold list_for_usage. respects_auto. Qed.
Lemma respects_lock_report R `{!PreOrder R} id : respects R (lock_report id).
Proof. unfold lock_report. respects_auto. Qed.
#[export] Hint Extern 1 (respects _ (lock_usage _ _)) => apply respects_lock_usage; typeclasses eauto : effects.
#[export] Hint Extern 1 (respects _ (list_for_usage _)) => apply respects_list_for_usage; typeclasses eauto : effects.
#[export] Hint Extern 1 (respects _ (lock_report _)) => apply respects_lock_report; typeclasses eauto : effects.

Lemma lock_report_run id w r w' : lock_report id w = (r, w') ->
  w' = w /\ forall rep, r = Ok (Some rep) -> rep ∈ billing_reports (db w) /\ br_id rep = id /\ id ∉ locked_elsewhere w.
Proof.
  unfold lock_report, mbind, M_bind, read_db, gets, lift. intros [= <- <-]. split; [done|].
  intros rep H. apply scalar_one_or_none_Ok in H as [[_ [=]]|(r' & Hs & [= <-])].
  assert (Hin : rep ∈ select (fun r => bool_decide (br_id r = id) && negb (bool_decide (br_id r ∈ locked_elsewhere w)))
                  (billing_reports (db w))) by (rw Hs; by left).
  apply elem_of_select in Hin as [Hin Hp]. apply andb_prop in Hp as [<-%bool_decide_eq_true Hl].
  split_and!; [done|done|]. apply negb_true_iff in Hl. by apply bool_decide_eq_false in Hl.
Qed.

Lemma lock_usage_run org a w r w' : lock_usage org a w = (r, w') ->
  w' = w /\ forall u, r = Ok (Some u) -> u ∈ usage_records (db w) /\ ur_org u = org /\ ur_start u = a.
Proof. apply get_current_usage_record_run. Qed.

(** The watermark of a category stays within what is reserved. *)
Lemma watermark_bounds u report reps c :
  cnt (ur_reported u) c <= watermark u report reps c <= reserved u reps c.
Proof.
  unfold watermark. set (old := cnt (ur_reported u) c).
  set (conf := zmax_list old _). split; [lia|].
  assert (Hold : old <= reserved u reps c) by (apply zmax_list_ge; by left).
  assert (Hmin : forall l, zmin_list conf l <= conf) by (intros l; apply zmin_list_le; by left).
  specialize (Hmin (omap (unresolved_from c) reps)).
  assert (Hconf : conf <= reserved u reps c).
  { unfold conf. pose proof (zmax_list_elem old (List.map (fun r => cnt (br_snapshot r) c) (List.filter (confirms report) reps)))
      as [->|Hin]%elem_of_cons; [done|].
    apply list_elem_of_fmap in Hin as (r & -> & Hr). apply elem_of_select in Hr as [Hr _].
    apply zmax_list_ge. right. apply list_elem_of_fmap. by exists r. }
  lia.
Qed.

(** ** Updates of a report *)

Definition update_rows (id : N) (t : Z) (f : BillingReport -> BillingReport) (d : DB) : DB :=
  set_billing_reports
    (update_where (fun r => bool_decide (br_id r = id)) (fun r => touch_report t (f r)) (billing_reports d)) d.

Lemma update_run id f w : update id f w = (Ok tt, set_db (update_rows id (now w) f (db w)) w).
Proof. done. Qed.

Lemma same_reservation_touch t r r' : same_reservation r r' -> same_reservation r (touch_report t r').
Proof. intros H. exact H. Qed.

(** An update that assigns neither requests nor attempts. *)
Lemma db_ok_update_status w0 n l d id t f :
  (forall r, same_reservation r (f r) /\ br_requests (f r) = br_requests r /\ br_attempted (f r) = br_attempted r) ->
  db_ok w0 n l d -> db_ok w0 n l (update_rows id t f d).
Proof.
  intros Hf Hd. apply db_ok_update_reports; [|done]. intros r Hr Hid.
  destruct (Hf r) as (Hs & Hq & Ha). split_and!; [exact Hs| |].
  - intros c q Hc. exists q. cbn. rw Hq Ha. split_and!; try done. right. done.
  - cbn. rw Hq. intros c q Hc. destruct Hd as (_ & _ & R & _).
    destruct (R r c q Hr Hc) as (Q1 & Q2 & Q3 & Q4 & Q5 & Q6 & Q7 & Q8 & Q9).
    destruct Hs as (S1 & S2 & S3 & S4 & S5 & S6 & S7).
    unfold request_ok, base_of in *. cbn. rw S1 S4 S5 S6. by split_and!.
Qed.

Lemma pres_update_status w0 id f :
  (forall r, same_reservation r (f r) /\ br_requests (f r) = br_requests r /\ br_attempted (f r) = br_attempted r) ->
  preserves (billing_wf w0) (update id f).
Proof. intros Hf w [H1 H2]. split; [by apply db_ok_update_status|done]. Qed.

Lemma same_reservation_status v e r : same_reservation r (set_report_status v e r) /\
  br_requests (set_report_status v e r) = br_requests r /\ br_attempted (set_report_status v e r) = br_attempted r.
Proof. by split_and!. Qed.
#[export] Hint Extern 1 (respects _ (update _ (set_report_status _ _))) =>
  apply pres_update_status; intros ?; apply same_reservation_status : effects.

(** ** Finishing a report *)

Definition finish_rows (report : BillingReport) (usage : UsageRecord) (w : World) : World :=
  let reports := order_by created_order (reports_of (db w) (br_usage report)) in
  let d := set_usage_records (update_where (fun u => bool_decide (ur_id u = br_usage report))
    (fun u => touch_usage (now w) (set_reported (counts_of (watermark usage report reports)) u))
    (usage_records (db w))) (db w) in
  set_db (update_rows (br_id report) (now w) (set_report_status rs_reported None) d) w.

Lemma finish_run report u w w0 :
  billing_wf w0 w -> u ∈ usage_records (db w) -> ur_id u = br_usage report ->
  finish report w = (Ok tt, finish_rows report u w).
Proof.
  intros [((_ & Hu & _) & _) _] Hin Hid. unfold finish, mbind, M_bind, read_db, gets, lift, list_for_usage.
  assert (Hsel : select (fun u => bool_decide (ur_id u = br_usage report)) (usage_records (db w)) = [u]).
  { rw -Hid. eapply table_ok_select_id; [exact Hu|done]. }
  by rw Hsel.
Qed.

Lemma finish_run_cases report w r w' :
  finish report w = (r, w') ->
  (exists e, r = Err e) /\ w' = w \/
  exists u, u ∈ usage_records (db w) /\ ur_id u = br_usage report /\ r = Ok tt /\ w' = finish_rows report u w.
Proof.
  unfold finish, mbind, M_bind, read_db, gets, lift, list_for_usage.
  destruct (select _ (usage_records (db w))) as [|u [|v t]] eqn:E; [naive_solver| |naive_solver].
  intros [= <- <-]. right. exists u. assert (Hin : u ∈ [u]) by (by left). rewrite <- E in Hin.
  apply elem_of_select in Hin as [Hin Hid%bool_decide_eq_true]. by split_and!.
Qed.

Lemma reserved_order u d uid c :
  reserved u (order_by created_order (reports_of d uid)) c = reserved u (reports_of d uid) c.
Proof. unfold reserved. apply zmax_list_Permutation, Permutation_map, order_by_Permutation. Qed.

Lemma finish_rows_wf w0 report u w :
  billing_wf w0 w -> report ∈ billing_reports (db w) -> u ∈ usage_records (db w) -> ur_id u = br_usage report ->
  billing_wf w0 (finish_rows report u w).
Proof.
  intros [Hw Hd] Hrep Hu Hid. split; [|done].
  apply db_ok_update_status; [intros r; apply same_reservation_status|].
  apply db_ok_watermark; [|intros H|done].
  - intros v Hv Hvid.
    assert (v = u) as ->.
    { destruct Hw as ((_ & Ht & _) & _). eapply table_ok_same_id; [exact Ht|done|done|congruence]. }
    cbn. split_and!; try done. intros c. rw cnt_counts_of -reserved_order. apply watermark_bounds.
  - assert (Hin : report ∈ reports_of (db w) (br_usage report)) by (by apply elem_of_reports_of).
    rw H in Hin. by inversion Hin.
Qed.

(** The reported watermark is safe.  Finishing a delivered report moves the
    watermark of its usage record forward only, never past the start of a charge
    of the period that Stripe has not confirmed (unless it already was), and, when
    no charge of the category is outstanding, exactly to the highest confirmed
    snapshot. *)
Theorem finish_watermark_safe (w0 : Ghost) (report : BillingReport) (u : UsageRecord) (w : World) :
  billing_wf w0 w -> report ∈ billing_reports (db w) ->
  u ∈ usage_records (db w) -> ur_id u = br_usage report ->
  let '(r, w') := finish report w in
  r = Ok tt /\
  exists u', u' ∈ usage_records (db w') /\ ur_id u' = ur_id u /\ forall c,
    let old := cnt (ur_reported u) c in
    let new := cnt (ur_reported u') c in
    let reports := reports_of (db w) (br_usage report) in
    old <= new /\
    (forall r from, r ∈ reports -> unresolved_from c r = Some from -> new <= Z.max old from) /\
    ((forall r, r ∈ reports -> unresolved_from c r = None) ->
       (forall r, r ∈ reports -> confirms report r = true -> cnt (br_snapshot r) c <= new) /\
       (new = old \/ exists r, r ∈ reports /\ confirms report r = true /\ new = cnt (br_snapshot r) c)).
Proof.
  intros Hw Hrep Hu Hid. rw (finish_run report u w w0); [done|done|done|]. split; [done|].
  set (reps := order_by created_order (reports_of (db w) (br_usage report))).
  exists (touch_usage (now w) (set_reported (counts_of (watermark u report reps)) u)). split_and!; [|done|].
  { cbn. apply elem_of_update_where. exists u. split; [done|]. by rw bool_decide_eq_true_2. }
  intros c. cbn [ur_reported touch_usage set_reported]. rw cnt_counts_of.
  assert (Hin : forall r, r ∈ reps <-> r ∈ reports_of (db w) (br_usage report)) by (intros r; apply elem_of_order_by).
  split_and!; [apply watermark_bounds| |].
  - intros r from Hr Hun. apply Hin in Hr. unfold watermark. apply Z.max_le_compat_l, zmin_list_le. right.
    apply list_elem_of_omap. by exists r.
  - intros Hnone. unfold watermark.
    assert (Hom : omap (unresolved_from c) reps = []).
    { apply elem_of_nil_inv. intros x Hx%list_elem_of_omap. destruct Hx as (r & Hr%Hin & Hx). by rw Hnone in Hx. }
    rw Hom /=. set (old := cnt (ur_reported u) c). set (l := List.map _ _).
    assert (Hge : old <= zmax_list old l) by (apply zmax_list_ge; by left). rw Z.max_r; [done|]. split.
    + intros r Hr Hc. apply zmax_list_ge. right. apply list_elem_of_fmap. exists r. split; [done|].
      apply elem_of_select. by rw Hin.
    + pose proof (zmax_list_elem old l) as [Heq|Hl]%elem_of_cons; [by left|right].
      apply list_elem_of_fmap in Hl as (r & Heq & Hr). apply elem_of_select in Hr as [Hr Hc]. exists r. by rw -Hin.
Qed.
