(* ===== verification/Reporting.v ===== *)
(** * Reserving and delivering overage charges (services/billing_reporting_service.py)

    [stage] reserves the units of a period not reserved before; [deliver] sends
    the reserved requests to Stripe, one per iteration of its loop.  The loop is
    [deliver_loop], with the body [deliver_step]; [deliver_terminates] shows that
    its fuel is enough. *)
From stdpp Require Import base gmap strings list.
From Stdlib Require Import ZArith Lia ssreflect.
From S2P Require Import Prelude Constants Entities World Invariant BillingRepo ReportRepo.

#[local] Open Scope Z_scope.

Definition SAFE_RETRY_AGE : Z := hours 23.
Definition pp_error (detail : string) : exn := PP PandaProbeError detail.

(** ** stage *)

(** The entry of [requests] for a category, if any unit is new. *)
Definition stage_request (report_id org : N) (customer : string) (subscription invoice_id : option string)
    (pricing : Pricing) (usage : UsageRecord) (c : UsageCategory) (res snapshot : Z) : option ItemRequest :=
  let base := cnt (base_units pricing) c in
  let units := max0 (snapshot - base) - max0 (res - base) in
  if units <=? 0 then None
  else Some {|
    ir_customer := customer;
    ir_amount := cents pricing units;
    ir_units := units;
    ir_period_start := Z.quot (ur_start usage) second;
    ir_period_end := Z.quot (ur_end usage) second;
    ir_report := report_id;
    ir_category := c;
    ir_org := org;
    ir_from := res;
    ir_to := snapshot;
    ir_key := {| ik_report := report_id; ik_category := c; ik_carryovers := 0 |};
    ir_subscription := if truthy subscription then subscription else None;
    ir_invoice := if truthy invoice_id then invoice_id else None |}.

(** The dictionary filled by the loop over the three categories. *)
Definition dict_of {A} (f : UsageCategory -> option A) : gmap UsageCategory A :=
  foldl (fun m c => match f c with Some q => <[c := q]> m | None => m end) ∅ categories.

Definition staged_snapshot (usage : UsageRecord) (previous : list BillingReport) (c : UsageCategory) : Z :=
  Z.max (reserved usage previous c) (cnt (ur_count usage) c).

Definition plan_pricing (plan : PlanConfig) : Pricing :=
  {| unit_price := OVERAGE_UNIT_PRICE; base_units := counts_of (base_or_zero plan) |}.

Definition stage (sub : Subscription) (period_start : Z) (invoice_id closing_invoice_id : option string)
    (allow_closed : bool) : M World (option BillingReport) :=
  usage ← lock_usage (sub_org sub) period_start;
  match usage with
  | None => mret None
  | Some usage =>
      if ur_billed usage && negb allow_closed then mret None else
      previous ← list_for_usage (ur_id usage);
      let existing := if truthy closing_invoice_id
        then List.find (fun r => bool_decide (br_closing r = closing_invoice_id)) previous else None in
      match existing with
      | Some r => mret (Some r)
      | None =>
          let plan := get_plan_config (sub_plan sub) in
          if negb (pay_as_you_go plan) && bool_decide (previous = []) then mret None else
          let pricing := match previous with r :: _ => br_pricing r | [] => plan_pricing plan end in
          let customer := match previous with r :: _ => Some (br_customer r) | [] => sub_customer sub end in
          let subscription := match previous with r :: _ => br_subscription r | [] => sub_stripe_id sub end in
          guard_not (negb (truthy customer))
            (pp_error "Cannot reserve billing usage without its Stripe customer.") ;;
          let customer := default EmptyString customer in
          report_id ← uuid4;
          let requests := dict_of (fun c =>
            stage_request report_id (sub_org sub) customer subscription invoice_id pricing usage c
              (reserved usage previous c) (staged_snapshot usage previous c)) in
          if bool_decide (requests = ∅) && negb (truthy closing_invoice_id) then mret None else
          r ← create report_id (ur_id usage) customer subscription closing_invoice_id
            (counts_of (staged_snapshot usage previous)) pricing requests
            (if bool_decide (requests = ∅) then rs_reported else rs_pending);
          mret (Some r)
      end
  end.

(** ** deliver *)

Definition _review (report : BillingReport) (reason : string) : M World unit :=
  update (br_id report) (set_report_status rs_needs_review (Some (pp_error reason))) ;;
  commit.

(** A Stripe answer of another kind than the call's is a failed call. *)
Definition stripe_error (r : StripeResp) : exn :=
  match r with RespInvalid code param => StripeInvalidRequest code param | _ => StripeFailure end.

(** [stripe.Invoice.retrieve(id).status] *)
Definition retrieve_invoice_status (id : string) : M World string :=
  resp ← stripe_call (RetrieveInvoice id);
  match resp with RespInvoice status => mret status | r => raise (stripe_error r) end.

Definition matches_report (report : BillingReport) (c : UsageCategory) (i : StripeItem) : bool :=
  bool_decide (si_report i = Some (br_id report)) && bool_decide (si_category i = Some c).

(** [params["amount"]] is read from the report's frozen request. *)
Definition _find_existing (report : BillingReport) (c : UsageCategory) (params : ItemRequest) (attempted : Z)
    : M World (option string) :=
  resp ← stripe_call (ListItems (br_customer report) (Z.quot attempted second - 60));
  match resp with
  | RespItems items =>
      match List.find (matches_report report c) (take 1000 items) with
      | None => mret None
      | Some item =>
          guard_not (negb (si_amount item =? ir_amount params) || negb (bool_decide (si_currency item = "usd"%string)))
            (pp_error "Recovered Stripe item does not match the reserved charge.") ;;
          mret (Some (si_id item))
      end
  | r => raise (stripe_error r)
  end.

Definition drop_invoice (q : ItemRequest) : ItemRequest :=
  {| ir_customer := ir_customer q; ir_amount := ir_amount q; ir_units := ir_units q;
     ir_period_start := ir_period_start q; ir_period_end := ir_period_end q; ir_report := ir_report q;
     ir_category := ir_category q; ir_org := ir_org q; ir_from := ir_from q; ir_to := ir_to q;
     ir_key := ir_key q; ir_subscription := ir_subscription q; ir_invoice := None |}.
(** [params["idempotency_key"] += ":carryover"] *)
Definition carryover (q : ItemRequest) : ItemRequest :=
  {| ir_customer := ir_customer q; ir_amount := ir_amount q; ir_units := ir_units q;
     ir_period_start := ir_period_start q; ir_period_end := ir_period_end q; ir_report := ir_report q;
     ir_category := ir_category q; ir_org := ir_org q; ir_from := ir_from q; ir_to := ir_to q;
     ir_key := {| ik_report := ik_report (ir_key q); ik_category := ik_category (ir_key q);
                  ik_carryovers := S (ik_carryovers (ir_key q)) |};
     ir_subscription := ir_subscription q; ir_invoice := None |}.

(** [next((c for c in report.requests if c not in report.stripe_item_ids), None)] *)
Definition next_category (report : BillingReport) : option UsageCategory :=
  List.find (fun c => bool_decide (is_Some (br_requests report !! c)) &&
                      negb (bool_decide (is_Some (br_items report !! c)))) categories.

(** The subscription still collects carryover for the report. *)
Definition continuing (report : BillingReport) (sub : option Subscription) : bool :=
  match sub with
  | None => false
  | Some s => bool_decide (sub_stripe_id s = br_subscription report) && negb (bool_decide (sub_status s = CANCELED))
  end.

(** The first attempt at a category: choose the destination, freeze the request. *)
Definition freeze (report : BillingReport) (c : UsageCategory) (params : ItemRequest) (now : Z)
    : M World (option bool) :=
  params ← match ir_invoice params with
    | Some inv =>
        status ← retrieve_invoice_status inv;
        mret (if bool_decide (status = "draft"%string) then params else drop_invoice params)
    | None => mret params
    end;
  stop ← (if bool_decide (ir_invoice params = None) && truthy (br_subscription report) then
            sub ← get_subscription_by_org (ir_org params);
            mret (negb (continuing report sub))
          else mret false);
  if stop : bool then
    _review report "No continuing subscription to collect carryover; reconcile explicitly." ;;
    mret (Some false)
  else
    update (br_id report) (fun r =>
      set_attempted (<[c := now]> (br_attempted report)) (set_requests (<[c := params]> (br_requests report)) r)) ;;
    commit ;;
    mret None.

(** [report.stripe_item_ids[category] = item.id] *)
Definition confirm (report : BillingReport) (c : UsageCategory) (item : string) : M World (option bool) :=
  update (br_id report) (set_items (<[c := item]> (br_items report))) ;;
  commit ;;
  mret None.

(** A retry outside Stripe's idempotency window: look the charge up. *)
Definition recover (report : BillingReport) (c : UsageCategory) (params : ItemRequest) (attempted : Z)
    : M World (option bool) :=
  found ← try_except
    (i ← _find_existing report c params attempted; mret (inl i))
    (fun e => match e with PP _ detail => mret (inr detail) | _ => raise e end);
  match found with
  | inr detail => _review report detail ;; mret (Some false)
  | inl None =>
      _review report "Stripe outcome unknown beyond safe idempotency window; do not blindly charge again." ;;
      mret (Some false)
  | inl (Some item) => confirm report c item
  end.

(** A rejection because the target invoice was finalized. *)
Definition invoice_rejected (params : ItemRequest) (code param : string) : bool :=
  negb (bool_decide (ir_invoice params = None)) &&
  (bool_decide (code = "invoice_not_editable"%string) || bool_decide (param = "invoice"%string)).

(** An attempt within the idempotency window: send the frozen request. *)
Definition charge (report : BillingReport) (c : UsageCategory) (params : ItemRequest) : M World (option bool) :=
  resp ← stripe_call (CreateItem params);
  match resp with
  | RespItem item => confirm report c item
  | RespInvalid code param =>
      if invoice_rejected params code param then
        status ← retrieve_invoice_status (default EmptyString (ir_invoice params));
        if bool_decide (status = "draft"%string) then raise (StripeInvalidRequest code param)
        else
          update (br_id report) (fun r =>
            set_attempted (delete c (br_attempted report))
              (set_requests (<[c := carryover params]> (br_requests report)) r)) ;;
          commit ;;
          mret None
      else raise (StripeInvalidRequest code param)
  | r => raise (stripe_error r)
  end.

(** One iteration: [None] is [continue], or the end of the loop body. *)
Definition deliver_step (report_id : N) : M World (option bool) :=
  report ← lock_report report_id;
  match report with
  | Some report =>
      if negb (bool_decide (br_status report = rs_pending)) then rollback ;; mret (Some false) else
      match next_category report with
      | None => finish report ;; commit ;; mret (Some true)
      | Some c =>
          match br_requests report !! c with
          | None => raise KeyError
          | Some params =>
              now ← utcnow;
              match br_attempted report !! c with
              | None => freeze report c params now
              | Some attempted =>
                  if SAFE_RETRY_AGE <=? now - attempted then recover report c params attempted
                  else charge report c params
              end
          end
      end
  | None => rollback ;; mret (Some false)
  end.

(** Four states per category (unattempted or attempted, with or without a target
    invoice) and the final one: thirteen iterations always suffice. *)
Definition DELIVER_FUEL : nat := 13.

Fixpoint deliver_loop (fuel : nat) (report_id : N) : M World (option bool) :=
  match fuel with
  | O => mret None
  | S fuel =>
      r ← deliver_step report_id;
      match r with Some b => mret (Some b) | None => deliver_loop fuel report_id end
  end.

Definition deliver (report_id : N) : M World bool :=
  r ← deliver_loop DELIVER_FUEL report_id;
  mret (default false r).

Definition deliver_safely (report_id : N) : M World bool :=
  try_except (deliver report_id) (fun exc =>
    rollback ;;
    report ← lock_report report_id;
    match report with
    | Some report =>
        if bool_decide (br_status report = rs_pending)
        then update (br_id report) (fun r => set_report_status (br_status r) (Some exc) r) ;; commit
        else rollback
    | None => rollback
    end ;;
    mret false).

(** ** What stage does *)

Lemma lookup_dict_of {A} (f : UsageCategory -> option A) c : dict_of f !! c = f c.
Proof.
  unfold dict_of, categories. cbn [foldl].
  assert (H : forall (m : gmap UsageCategory A) k v, (match v with Some q => <[k := q]> m | None => m end) !! c
             = if decide (k = c) then (match v with Some q => Some q | None => m !! c end) else m !! c).
  { intros m k [q|]; destruct (decide (k = c)) as [->|Hk]; [apply lookup_insert_eq|by apply lookup_insert_ne|done|done]. }
  rw !H lookup_empty. destruct c; simpl; repeat (destruct (f _)); done.
Qed.

Definition stage_pricing (sub : Subscription) (previous : list BillingReport) : Pricing :=
  match previous with r :: _ => br_pricing r | [] => plan_pricing (get_plan_config (sub_plan sub)) end.
Definition stage_customer (sub : Subscription) (previous : list BillingReport) : option string :=
  match previous with r :: _ => Some (br_customer r) | [] => sub_customer sub end.
Definition stage_subscription (sub : Subscription) (previous : list BillingReport) : option string :=
  match previous with r :: _ => br_subscription r | [] => sub_stripe_id sub end.

(** The row a successful reservation inserts. *)
Definition staged_report (sub : Subscription) (invoice_id closing : option string) (u : UsageRecord)
    (previous : list BillingReport) (id : N) (now : Z) : BillingReport :=
  let requests := dict_of (fun c =>
    stage_request id (sub_org sub) (default EmptyString (stage_customer sub previous))
      (stage_subscription sub previous) invoice_id (stage_pricing sub previous) u c
      (reserved u previous c) (staged_snapshot u previous c)) in
  {| br_id := id; br_usage := ur_id u; br_customer := default EmptyString (stage_customer sub previous);
     br_subscription := stage_subscription sub previous; br_closing := closing;
     br_snapshot := counts_of (staged_snapshot u previous); br_pricing := stage_pricing sub previous;
     br_requests := requests; br_attempted := ∅; br_items := ∅;
     br_status := if bool_decide (requests = ∅) then rs_reported else rs_pending;
     br_error := None; br_created := now; br_updated := now |}.

Definition staged_world (sub : Subscription) (invoice_id closing : option string) (u : UsageRecord) (w : World) : World :=
  let row := staged_report sub invoice_id closing u (order_by created_order (reports_of (db w) (ur_id u)))
               (next_id w) (now w) in
  set_db (set_billing_reports (billing_reports (db w) ++ [row]) (db w)) (set_next_id (N.succ (next_id w)) w).

Lemma stage_cases sub a inv closing allow w r w' :
  stage sub a inv closing allow w = (r, w') ->
  ((w' = w \/ w' = set_next_id (N.succ (next_id w)) w) /\
   (forall rep, r = Ok (Some rep) -> w' = w /\ rep ∈ billing_reports (db w))) \/
  exists u, u ∈ usage_records (db w) /\ ur_org u = sub_org sub /\ ur_start u = a /\
    (ur_billed u = true -> allow = true) /\
    let row := staged_report sub inv closing u (order_by created_order (reports_of (db w) (ur_id u))) (next_id w) (now w) in
    existsb (BillingReportModel_clash row) (billing_reports (db w)) = false /\
    (br_requests row <> ∅ \/ truthy closing = true) /\
    r = Ok (Some row) /\ w' = staged_world sub inv closing u w.
Proof.
  unfold stage. destruct (lock_usage (sub_org sub) a w) as [ru w1] eqn:Eu.
  destruct (lock_usage_run _ _ _ _ _ Eu) as [-> Hu]. unfold mbind at 1, M_bind at 1. rw Eu.
  destruct ru as [[u|]|e]; [|intros [= <- <-]; left; split; [by left|done]..].
  destruct (Hu u eq_refl) as (Hin & Ho & Hs). clear Hu Eu.
  destruct (ur_billed u && negb allow) eqn:Eb; [intros [= <- <-]; left; split; [by left|done]|].
  unfold list_for_usage, read_db, gets, mbind, M_bind. cbn beta iota.
  set (prev := order_by created_order (reports_of (db w) (ur_id u))).
  destruct (if truthy closing then _ else _) as [ex|] eqn:Ex.
  { intros [= <- <-]. left. split; [by left|]. intros rep [= <-]. split; [done|]. destruct (truthy closing); [|done].
    apply List.find_some in Ex as [Ex _]. apply list_elem_of_In, elem_of_order_by, elem_of_reports_of in Ex. apply Ex. }
  destruct (negb _ && bool_decide (prev = [])); [intros [= <- <-]; left; split; [by left|done]|].
  unfold guard_not. destruct (negb (truthy _)); [intros [= <- <-]; left; split; [by left|done]|].
  cbv [uuid4 mret M_ret create mbind M_bind utcnow gets insert_row]. cbn [now set_next_id db next_id].
  destruct (bool_decide (_ = ∅) && negb (truthy closing)) eqn:En; [intros [= <- <-]; left; split; [by right|done]|].
  match goal with |- context [existsb (BillingReportModel_clash ?row) _] =>
    change row with (staged_report sub inv closing u prev (next_id w) (now w)) end.
  destruct (existsb _ _) eqn:Ec; [intros [= <- <-]; left; split; [by right|done]|].
  intros [= <- <-]. right. exists u. split_and!; try done.
  - intros Hb. rw Hb in Eb. by destruct allow.
  - apply andb_false_iff in En as [En|En]; [left|right; by destruct (truthy closing)].
    by apply bool_decide_eq_false in En.
Qed.

Lemma stage_pricing_shared w0 sub u d n l r :
  db_ok w0 n l d -> u ∈ usage_records d -> r ∈ reports_of d (ur_id u) ->
  br_pricing r = stage_pricing sub (order_by created_order (reports_of d (ur_id u))).
Proof.
  intros (_ & (_ & L & _) & _) Hu Hr. destruct (L u Hu) as (_ & U & _). unfold stage_pricing.
  assert (Hin : r ∈ order_by created_order (reports_of d (ur_id u))) by (by apply elem_of_order_by).
  destruct (order_by created_order (reports_of d (ur_id u))) as [|r0 l0] eqn:E; [by inversion Hin|].
  apply U; [done|]. apply (elem_of_order_by created_order). rw E. by left.
Qed.

Lemma stage_request_Some id org cu su inv p u c res snap q :
  stage_request id org cu su inv p u c res snap = Some q ->
  let units := max0 (snap - cnt (base_units p) c) - max0 (res - cnt (base_units p) c) in
  0 < units /\ ir_units q = units /\ ir_amount q = cents p units /\ ir_from q = res /\ ir_to q = snap /\
  ir_report q = id /\ ir_category q = c /\ ir_customer q = cu /\
  ir_key q = {| ik_report := id; ik_category := c; ik_carryovers := 0 |}.
Proof.
  unfold stage_request. destruct (_ <=? 0) eqn:E; [done|]. apply Z.leb_gt in E. intros [= <-]. by split_and!.
Qed.

Lemma staged_wf_units sub inv closing u w c :
  let prev := order_by created_order (reports_of (db w) (ur_id u)) in
  let row := staged_report sub inv closing u prev (next_id w) (now w) in
  reserved u prev c <= cnt (br_snapshot row) c /\
  units_of row c = max0 (cnt (br_snapshot row) c - base_of row c) - max0 (reserved u prev c - base_of row c).
Proof.
  intros prev row. unfold base_of. cbn [br_snapshot row staged_report br_pricing]. rw cnt_counts_of.
  assert (Hle : reserved u prev c <= staged_snapshot u prev c) by (unfold staged_snapshot; lia).
  split; [done|]. unfold units_of. cbn [row staged_report br_requests]. rw lookup_dict_of.
  destruct (stage_request _ _ _ _ _ _ _ _ _ _) as [q|] eqn:Eq.
  - by destruct (stage_request_Some _ _ _ _ _ _ _ _ _ _ _ Eq) as (_ & -> & _).
  - unfold stage_request in Eq. destruct (_ <=? 0) eqn:E0; [|done]. apply Z.leb_le in E0.
    unfold max0 in *. lia.
Qed.

Lemma staged_wf w0 sub inv closing u w :
  u ∈ usage_records (db w) ->
  let row := staged_report sub inv closing u (order_by created_order (reports_of (db w) (ur_id u))) (next_id w) (now w) in
  existsb (BillingReportModel_clash row) (billing_reports (db w)) = false ->
  billing_wf w0 w -> billing_wf w0 (staged_world sub inv closing u w).
Proof.
  intros Hu row He [Hw Hd]. set (prev := order_by created_order (reports_of (db w) (ur_id u))) in *.
  split; [|eapply db_ok_mono; [|exact Hd]; cbn -[N.succ]; lia].
  apply (db_ok_insert_report w0 _ _ _ u row); try done.
  - intros r Hr. eapply stage_pricing_shared; eassumption.
  - intros c. rewrite <- (reserved_order u (db w) (ur_id u) c). apply staged_wf_units.
  - intros c q. cbn [row staged_report br_requests]. rw lookup_dict_of. intros Eq.
    destruct (stage_request_Some _ _ _ _ _ _ _ _ _ _ _ Eq) as (H0 & H1 & H2 & H3 & H4 & H5 & H6 & H7 & H8).
    unfold request_ok, base_of. cbn [row staged_report br_id br_customer br_snapshot br_pricing]. rw cnt_counts_of H1 H2 H3 H4 H8.
    by split_and!.
Qed.

Lemma pres_stage w0 sub a inv closing allow : preserves (billing_wf w0) (stage sub a inv closing allow).
Proof.
  intros w Hw. destruct (stage _ _ _ _ _ w) as [r w'] eqn:E. cbn.
  destruct (stage_cases _ _ _ _ _ _ _ _ E) as [[[->| ->] _]|(u & Hu & _ & _ & _ & He & _ & _ & ->)]; [done| |by apply staged_wf].
  exact (pres_uuid4 w0 w Hw).
Qed.
#[export] Hint Resolve pres_stage : effects.

(** ** Delivery as a state machine

    The specification of [deliver]: how one report row may move.  [report_move]
    are the moves after which the loop goes on, [report_end] those that end it. *)

Inductive report_move (now : Z) (r : BillingReport) : BillingReport -> Prop :=
  | move_freeze c q q' :
      next_category r = Some c -> br_requests r !! c = Some q -> br_attempted r !! c = None ->
      q' = q \/ (ir_invoice q <> None /\ q' = drop_invoice q) ->
      report_move now r (touch_report now
        (set_attempted (<[c := now]> (br_attempted r)) (set_requests (<[c := q']> (br_requests r)) r)))
  | move_carryover c q a :
      next_category r = Some c -> br_requests r !! c = Some q -> br_attempted r !! c = Some a ->
      ir_invoice q <> None ->
      report_move now r (touch_report now
        (set_attempted (delete c (br_attempted r)) (set_requests (<[c := carryover q]> (br_requests r)) r)))
  | move_confirm c q a item :
      next_category r = Some c -> br_requests r !! c = Some q -> br_attempted r !! c = Some a ->
      report_move now r (touch_report now (set_items (<[c := item]> (br_items r)) r)).

Inductive report_end (now : Z) (r : BillingReport) : bool -> BillingReport -> Prop :=
  | end_review reason :
      report_end now r false (touch_report now (set_report_status rs_needs_review (Some (pp_error reason)) r))
  | end_reported :
      next_category r = None ->
      report_end now r true (touch_report now (set_report_status rs_reported None r)).

(** Only the conversation with Stripe changes; every charge sent is the frozen
    request of a category already attempted, within the safe window. *)
Definition talked (r : BillingReport) (w w' : World) : Prop :=
  exists s l, w' = set_stripe s (stripe_log w ++ l) w /\
    forall q, CreateItem q ∈ l -> exists c a, next_category r = Some c /\ br_requests r !! c = Some q /\
      br_attempted r !! c = Some a /\ now w - a < SAFE_RETRY_AGE.

(** The row update of the report, committed. *)
Definition persist (id : N) (f : BillingReport -> BillingReport) (w : World) : World :=
  let d := update_rows id (now w) f (db w) in set_durable d (set_db d w).

Inductive outcome (r : BillingReport) (w : World) : res (option bool) -> World -> Prop :=
  | oc_failed e w' : talked r w w' -> outcome r w (Err e) w'
  | oc_move w1 f : talked r w w1 -> report_move (now w) r (touch_report (now w) (f r)) ->
      outcome r w (Ok None) (persist (br_id r) f w1)
  | oc_review w1 f : talked r w w1 -> report_end (now w) r false (touch_report (now w) (f r)) ->
      (forall x, same_reservation x (f x) /\ br_requests (f x) = br_requests x /\ br_attempted (f x) = br_attempted x) ->
      outcome r w (Ok (Some false)) (persist (br_id r) f w1)
  | oc_reported u : u ∈ usage_records (db w) -> ur_id u = br_usage r -> next_category r = None ->
      outcome r w (Ok (Some true)) (set_durable (db (finish_rows r u w)) (finish_rows r u w)).

Lemma talked_refl r w : talked r w w.
Proof. exists (stripe_script w), []. rw List.app_nil_r. split; [by destruct w|]. by intros q H%elem_of_nil. Qed.

Lemma stripe_call_run q w : exists a s,
  stripe_call q w = (Ok a, set_stripe s (stripe_log w ++ [q]) w).
Proof. unfold stripe_call. destruct (stripe_script w) as [|a s]; eauto. Qed.

Lemma talked_other r w w1 q s : (forall i, q <> CreateItem i) -> talked r w w1 ->
  talked r w (set_stripe s (stripe_log w1 ++ [q]) w1).
Proof.
  intros Hq (s1 & l & -> & H). exists s, (l ++ [q]). split; [by rw List.app_assoc|].
  intros i [Hi|Hi%list_elem_of_singleton]%elem_of_app; [by apply H|]. by destruct (Hq i).
Qed.

Lemma talked_charge r w c q a s :
  next_category r = Some c -> br_requests r !! c = Some q -> br_attempted r !! c = Some a ->
  now w - a < SAFE_RETRY_AGE -> talked r w (set_stripe s (stripe_log w ++ [CreateItem q]) w).
Proof.
  intros Hc Hq Ha Hn. exists s, [CreateItem q]. split; [done|].
  intros i [= ->]%list_elem_of_singleton. by exists c, a.
Qed.

Lemma talked_now r w w' : talked r w w' -> now w' = now w /\ db w' = db w.
Proof. by intros (s & l & -> & _). Qed.

Lemma persist_now r f w w1 : talked r w w1 -> forall id, exists d, persist id f w1 = set_durable d (set_db d w1) /\
  d = update_rows id (now w) f (db w).
Proof. intros (s & l & -> & _) id. by eexists. Qed.

Lemma retrieve_invoice_run r w w1 id res w2 : talked r w w1 -> retrieve_invoice_status id w1 = (res, w2) -> talked r w w2.
Proof.
  intros Ht. unfold retrieve_invoice_status, mbind, M_bind.
  destruct (stripe_call_run (RetrieveInvoice id) w1) as (a & s & ->).
  intros H. assert (w2 = set_stripe s (stripe_log w1 ++ [RetrieveInvoice id]) w1) as -> by (by destruct a; injection H as _ <-).
  by apply talked_other.
Qed.

Lemma review_outcome r reason w w1 :
  talked r w w1 ->
  exists w', (_review r reason ;; mret (Some false)) w1 = (Ok (Some false), w') /\ outcome r w (Ok (Some false)) w'.
Proof.
  intros Ht. eexists. split; [reflexivity|].
  exact (oc_review r w w1 _ Ht (end_review _ r reason) (fun x => same_reservation_status _ _ x)).
Qed.

Lemma confirm_outcome r c q a item w w1 :
  talked r w w1 -> next_category r = Some c -> br_requests r !! c = Some q -> br_attempted r !! c = Some a ->
  exists w', confirm r c item w1 = (Ok None, w') /\ outcome r w (Ok None) w'.
Proof.
  intros Ht Hc Hq Ha. eexists. split; [reflexivity|].
  exact (oc_move r w w1 (set_items (<[c := item]> (br_items r))) Ht (move_confirm _ r c q a item Hc Hq Ha)).
Qed.

Lemma freeze_outcome r c q w res w' :
  next_category r = Some c -> br_requests r !! c = Some q -> br_attempted r !! c = None ->
  freeze r c q (now w) w = (res, w') -> outcome r w res w'.
Proof.
  intros Hc Hq Ha. unfold freeze. set (pick := match ir_invoice q with Some _ => _ | None => _ end).
  assert (Hpick : exists rp w1, pick w = (rp, w1) /\ talked r w w1 /\
            forall q', rp = Ok q' -> q' = q \/ (ir_invoice q <> None /\ q' = drop_invoice q)).
  { unfold pick. destruct (ir_invoice q) as [inv|] eqn:Ei.
    - destruct (retrieve_invoice_status inv w) as [rs w1] eqn:Er. unfold mbind, M_bind. rw Er.
      pose proof (retrieve_invoice_run r w w inv rs w1 (talked_refl r w) Er) as Ht.
      destruct rs as [st|e]; eexists _, w1; (split; [reflexivity|]); (split; [done|]); [|done].
      intros q' [= <-]. case_bool_decide; [by left|by right].
    - eexists _, w. split; [reflexivity|]. split; [apply talked_refl|]. intros q' [= <-]. by left. }
  destruct Hpick as (rp & w1 & Hp & Ht & Hq'). intros H.
  destruct rp as [q'|e]; [|by erewrite bind_Err in H by exact Hp; injection H as <- <-; constructor].
  erewrite bind_Ok in H by exact Hp. specialize (Hq' q' eq_refl).
  set (stop := if bool_decide (ir_invoice q' = None) && _ then _ else _) in H.
  assert (Hstop : exists rs, stop w1 = (rs, w1)).
  { unfold stop. destruct (_ && _); [|by eexists]. unfold mbind, M_bind.
    destruct (get_subscription_by_org (ir_org q') w1) as [rs w2] eqn:Es.
    destruct (find_subscription_run _ _ _ _ Es) as [-> _]. destruct rs; by eexists. }
  destruct Hstop as [[b|e] Hs]; [|by erewrite bind_Err in H by exact Hs; injection H as <- <-; constructor].
  erewrite bind_Ok in H by exact Hs. destruct b.
  - destruct (review_outcome r "No continuing subscription to collect carryover; reconcile explicitly." w w1 Ht) as (w2 & E & Ho).
    rw E in H. by injection H as <- <-.
  - injection H as <- <-.
    exact (oc_move r w w1 _ Ht (move_freeze (now w) r c q q' Hc Hq Ha Hq')).
Qed.

Lemma find_existing_run r w c q a res w' :
  _find_existing r c q a w = (res, w') -> talked r w w'.
Proof.
  unfold _find_existing, mbind, M_bind. match goal with |- context [stripe_call ?q w] =>
    destruct (stripe_call_run q w) as (resp & s & ->) end.
  intros H. match type of H with _ = (_, _) => idtac end.
  assert (w' = set_stripe s (stripe_log w ++ [ListItems (br_customer r) (Z.quot a second - 60)]) w) as ->.
  { destruct resp; try (by injection H as _ <-). destruct (List.find _ _) as [i|]; [|by injection H as _ <-].
    unfold guard_not in H. destruct (_ || _); by injection H as _ <-. }
  apply talked_other; [done|apply talked_refl].
Qed.

Lemma recover_outcome r c q a w res w' :
  next_category r = Some c -> br_requests r !! c = Some q -> br_attempted r !! c = Some a ->
  recover r c q a w = (res, w') -> outcome r w res w'.
Proof.
  intros Hc Hq Ha. unfold recover, mbind at 1, M_bind at 1, try_except, mbind at 1, M_bind at 1.
  destruct (_find_existing r c q a w) as [rf w1] eqn:Ef. pose proof (find_existing_run _ _ _ _ _ _ _ Ef) as Ht.
  destruct rf as [[item|]|e]; cbn.
  - intros H. destruct (confirm_outcome r c q a item w w1 Ht Hc Hq Ha) as (w2 & E & Ho).
    rw E in H. by injection H as <- <-.
  - intros H. destruct (review_outcome r "Stripe outcome unknown beyond safe idempotency window; do not blindly charge again." w w1 Ht) as (w2 & E & Ho). rewrite E in H. by injection H as <- <-.
  - destruct e as [cls detail| | | | | | | | | | | | | |]; cbn; try (by intros [= <- <-]; constructor).
    intros H. destruct (review_outcome r detail w w1 Ht) as (w2 & E & Ho). rewrite E in H. by injection H as <- <-.
Qed.

Lemma charge_outcome r c q a w res w' :
  next_category r = Some c -> br_requests r !! c = Some q -> br_attempted r !! c = Some a ->
  now w - a < SAFE_RETRY_AGE ->
  charge r c q w = (res, w') -> outcome r w res w'.
Proof.
  intros Hc Hq Ha Hn. unfold charge, mbind at 1, M_bind at 1.
  destruct (stripe_call_run (CreateItem q) w) as (resp & s & ->).
  pose proof (talked_charge r w c q a s Hc Hq Ha Hn) as Ht.
  set (w1 := set_stripe s (stripe_log w ++ [CreateItem q]) w) in *.
  destruct resp as [| |item| | |code param|]; try (by intros [= <- <-]; constructor).
  { intros H. destruct (confirm_outcome r c q a item w w1 Ht Hc Hq Ha) as (w2 & E & Ho).
    rw E in H. by injection H as <- <-. }
  destruct (invoice_rejected q code param) eqn:Er; [|by intros [= <- <-]; constructor].
  assert (Hinv : ir_invoice q <> None).
  { unfold invoice_rejected in Er. by apply andb_prop in Er as [Er%negb_true_iff%bool_decide_eq_false _]. }
  intros H. set (inv := default EmptyString (ir_invoice q)) in *.
  destruct (retrieve_invoice_status inv w1) as [rs w2] eqn:Es.
  pose proof (retrieve_invoice_run r w w1 inv rs w2 Ht Es) as Ht2.
  destruct rs as [st|e]; [|by erewrite bind_Err in H by exact Es; injection H as <- <-; constructor].
  erewrite bind_Ok in H by exact Es. case_bool_decide; [by injection H as <- <-; constructor|].
  injection H as <- <-. exact (oc_move r w w2 _ Ht2 (move_carryover (now w) r c q a Hc Hq Ha Hinv)).
Qed.

(** Every iteration of the loop is one step of the state machine, or changes
    nothing but the conversation with Stripe. *)
Lemma deliver_step_spec id w res w' :
  deliver_step id w = (res, w') ->
  (w' = set_db (durable w) w /\ res = Ok (Some false)) \/
  (w' = w /\ exists e, res = Err e) \/
  exists r, lock_report id w = (Ok (Some r), w) /\ br_status r = rs_pending /\ outcome r w res w'.
Proof.
  unfold deliver_step. destruct (lock_report id w) as [rl w0] eqn:El.
  destruct (lock_report_run _ _ _ _ El) as [-> _]. unfold mbind at 1, M_bind at 1. rw El.
  destruct rl as [[r|]|e]; [|by intros [= <- <-]; left|intros [= <- <-]; right; left; by eauto].
  case_bool_decide as Hst; cbn [negb]; [|by intros [= <- <-]; left].
  intros H. right; right. exists r. split; [done|]. split; [done|].
  destruct (next_category r) as [c|] eqn:Hc.
  - destruct (br_requests r !! c) as [q|] eqn:Hq; [|injection H as <- <-; constructor; apply talked_refl].
    unfold mbind, M_bind, utcnow, gets in H. destruct (br_attempted r !! c) as [a|] eqn:Ha.
    + destruct (SAFE_RETRY_AGE <=? now w - a) eqn:E.
      * eapply recover_outcome; eassumption.
      * apply Z.leb_gt in E. eapply charge_outcome; eassumption.
    + eapply freeze_outcome; eassumption.
  - unfold mbind, M_bind in H. destruct (finish r w) as [rf w1] eqn:Ef.
    destruct (finish_run_cases _ _ _ _ Ef) as [[[e ->] ->]|(u & Hu & Hid & -> & ->)]; injection H as <- <-.
    + constructor. apply talked_refl.
    + by constructor.
Qed.

(** ** The invariant through a delivery *)

(** Replacing the request of a category, for the same charge. *)
Lemma request_update_ok r r' c q q' :
  br_requests r !! c = Some q -> br_requests r' = <[c := q']> (br_requests r) ->
  (forall c', c' <> c -> br_attempted r' !! c' = br_attempted r !! c') ->
  br_id r' = br_id r -> br_usage r' = br_usage r -> br_closing r' = br_closing r ->
  br_snapshot r' = br_snapshot r -> br_pricing r' = br_pricing r -> br_customer r' = br_customer r ->
  ir_category q' = ir_category q -> ir_report q' = ir_report q -> ir_customer q' = ir_customer q ->
  ik_report (ir_key q') = ik_report (ir_key q) -> ik_category (ir_key q') = ik_category (ir_key q) ->
  ir_amount q' = ir_amount q -> ir_units q' = ir_units q -> ir_from q' = ir_from q -> ir_to q' = ir_to q ->
  (ik_carryovers (ir_key q) < ik_carryovers (ir_key q'))%nat \/
    (ir_key q = ir_key q' /\ (is_Some (br_attempted r !! c) -> q = q' /\ is_Some (br_attempted r' !! c))) ->
  (forall c q, br_requests r !! c = Some q -> request_ok r c q) ->
  same_reservation r r' /\ sent_compat r r' /\ forall c q, br_requests r' !! c = Some q -> request_ok r' c q.
Proof.
  intros Hq Hr' Hat E1 E2 E3 E4 E5 E6 Q1 Q2 Q3 Q4 Q5 Q6 Q7 Q8 Q9 Hor Hok.
  split_and!.
  - split_and!; try done. intros c'. unfold units_of. rw Hr'. destruct (decide (c = c')) as [<-|Hne].
    + by rw lookup_insert_eq Hq.
    + by rw lookup_insert_ne.
  - intros c' q0 Hq0. rw Hr'. destruct (decide (c = c')) as [<-|Hne].
    + rw Hq in Hq0. injection Hq0 as <-. exists q'. rw lookup_insert_eq. by split_and!.
    + exists q0. rw lookup_insert_ne; [done|]. split_and!; try done. right. split; [done|]. intros H. split; [done|]. rw (Hat c'); [by intros ->|done].
  - intros c' q0. rw Hr'. unfold request_ok, base_of. rw E1 E4 E5 E6. destruct (decide (c = c')) as [<-|Hne].
    + rw lookup_insert_eq. intros [= <-]. rw Q1 Q2 Q3 Q4 Q5 Q6 Q7 Q8 Q9. by apply Hok.
    + rw lookup_insert_ne; [done|]. apply Hok.
Qed.

Lemma report_move_ok now r r' :
  report_move now r r' -> (forall c q, br_requests r !! c = Some q -> request_ok r c q) ->
  same_reservation r r' /\ sent_compat r r' /\ forall c q, br_requests r' !! c = Some q -> request_ok r' c q.
Proof.
  intros Hm Hok. destruct Hm as [c q q' Hc Hq Ha Hq'|c q a Hc Hq Ha Hi|c q a item Hc Hq Ha].
  - eapply (request_update_ok r _ c q q'); try done; try (by destruct Hq' as [->|[_ ->]]).
    + intros c' Hne. cbn. rw lookup_insert_ne; [by intros ->|done].
    + right. destruct Hq' as [->|[_ ->]]; (split; [done|]); rw Ha; by intros [? [=]].
  - eapply (request_update_ok r _ c q (carryover q)); try done.
    + intros c' Hne. cbn. rw lookup_delete_ne; [by intros ->|done].
    + left. cbn. lia.
  - split_and!; [by split_and!| |exact Hok]. intros c' q' Hq'. exists q'. split_and!; try done. by right.
Qed.

Lemma talked_wf w0 r w w' :
  billing_wf w0 w -> db w = durable w -> r ∈ billing_reports (db w) -> talked r w w' -> billing_wf w0 w'.
Proof.
  intros [Hw Hd] Hclean Hr (s & l & -> & Hl). rw -Hclean in Hd.
  assert (H : db_ok w0 (next_id w) (stripe_log w ++ l) (db w)).
  { clear Hd. revert Hw. generalize (stripe_log w). induction l as [|q l IH]; intros lg Hw; [rw List.app_nil_r; exact Hw|].
    replace (lg ++ q :: l) with ((lg ++ [q]) ++ l) by (by rw -List.app_assoc).
    apply IH; [intros i Hi; apply Hl; by right|].
    assert ((exists i, q = CreateItem i) \/ ~ exists i, q = CreateItem i) as [[i ->]|Hne].
    { destruct q; first [by left; eexists | by right; intros [? [=]]]. }
    - destruct (Hl i ltac:(by left)) as (c & a & _ & Hq & Ha & _). exact (db_ok_sent w0 _ _ _ r c i Hr Hq (mk_is_Some _ _ Ha) Hw).
    - destruct Hw as (W & L & R & S). split; [done|]. split; [done|]. split; [done|]. apply sent_ok_other; [|done].
      intros i ->. apply Hne. by exists i. }
  split; cbn; [exact H|]. by rw -Hclean.
Qed.

(** The session holds no uncommitted change. *)
Definition clean (w : World) : Prop := db w = durable w.

Lemma update_rows_ext id t f g d :
  (forall r, r ∈ billing_reports d -> br_id r = id -> f r = g r) -> update_rows id t f d = update_rows id t g d.
Proof.
  intros H. unfold update_rows. f_equal. unfold update_where. apply List.map_ext_in. intros r Hr%list_elem_of_In.
  case_bool_decide as E; [|done]. by rw H.
Qed.

Lemma persist_wf w0 r f w w1 :
  billing_wf w0 w -> clean w -> r ∈ billing_reports (db w) -> talked r w w1 ->
  (same_reservation r (f r) /\ sent_compat r (touch_report (now w) (f r)) /\
   forall c q, br_requests (f r) !! c = Some q -> request_ok (f r) c q) ->
  billing_wf w0 (persist (br_id r) f w1).
Proof.
  intros Hw Hc Hr Ht (H1 & H2 & H3). pose proof (talked_wf w0 r w w1 Hw Hc Hr Ht) as [Hw1 _].
  destruct (talked_now r w w1 Ht) as [Hn Hdb].
  assert (H : db_ok w0 (next_id w1) (stripe_log w1) (update_rows (br_id r) (now w1) f (db w1))).
  { apply db_ok_update_reports; [|done]. intros x Hx Hid. rw Hdb in Hx.
    assert (x = r) as ->.
    { destruct Hw as [((_ & _ & Ht3) & _) _]. eapply table_ok_same_id; eassumption. }
    rw Hn. split; [exact H1|]. split; [exact H2|exact H3]. }
  split; exact H.
Qed.

Lemma outcome_wf w0 r w res w' :
  billing_wf w0 w -> clean w -> r ∈ billing_reports (db w) -> outcome r w res w' ->
  billing_wf w0 w' /\ clean w'.
Proof.
  intros Hw Hc Hr Ho.
  assert (Hok : forall c q, br_requests r !! c = Some q -> request_ok r c q).
  { intros c q. destruct Hw as [(_ & _ & R & _) _]. by apply R. }
  destruct Ho as [e w1 Ht|w1 f Ht Hm|w1 f Ht _ Hf|u Hu Hid Hnc].
  - split; [by eapply talked_wf; eauto|]. destruct Ht as (s & l & -> & _). exact Hc.
  - split; [|done]. destruct (report_move_ok _ _ _ Hm Hok) as (H1 & H2 & H3).
    eapply persist_wf; eauto.
  - split; [|done]. destruct (Hf r) as (H1 & H2 & H3). eapply persist_wf; eauto. split; [exact H1|]. split.
    + intros c q Hq. exists q. cbn. rw H2 H3. split_and!; try done. by right.
    + rw H2. intros c q Hq. destruct H1 as (S1 & S2 & S3 & S4 & S5 & S6 & S7).
      unfold request_ok, base_of in *. rw S1 S4 S5 S6. by apply Hok.
  - split; [|done]. destruct (finish_rows_wf w0 r u w Hw Hr Hu Hid) as [H _]. by split.
Qed.

Lemma deliver_step_wf w0 id w : billing_wf w0 w -> clean w ->
  billing_wf w0 (deliver_step id w).2 /\ clean (deliver_step id w).2.
Proof.
  intros Hw Hc. destruct (deliver_step id w) as [res w'] eqn:E. cbn.
  destruct (deliver_step_spec _ _ _ _ E) as [[-> _]|[[-> _]|(r & Hl & _ & Ho)]].
  - destruct Hw as [_ H]. split; [split; exact H|reflexivity].
  - done.
  - destruct (lock_report_run _ _ _ _ Hl) as [_ H]. destruct (H r eq_refl) as [Hr _].
    exact (outcome_wf w0 r w res w' Hw Hc Hr Ho).
Qed.

Lemma deliver_loop_wf w0 fuel id w : billing_wf w0 w -> clean w ->
  billing_wf w0 (deliver_loop fuel id w).2 /\ clean (deliver_loop fuel id w).2.
Proof.
  revert w. induction fuel as [|fuel IH]; intros w Hw Hc; [done|]. cbn [deliver_loop]. unfold mbind, M_bind.
  pose proof (deliver_step_wf w0 id w Hw Hc) as [Hw1 Hc1]. destruct (deliver_step id w) as [[[b|]|e] w1]; [done| |done].
  by apply IH.
Qed.

Lemma deliver_wf w0 id w : billing_wf w0 w -> clean w ->
  billing_wf w0 (deliver id w).2 /\ clean (deliver id w).2.
Proof.
  intros Hw Hc. unfold deliver, mbind, M_bind. pose proof (deliver_loop_wf w0 DELIVER_FUEL id w Hw Hc) as H.
  by destruct (deliver_loop DELIVER_FUEL id w) as [[b|e] w1].
Qed.

Lemma deliver_safely_wf w0 id w : billing_wf w0 w -> clean w ->
  billing_wf w0 (deliver_safely id w).2.
Proof.
  intros Hw Hc. unfold deliver_safely, try_except. pose proof (deliver_wf w0 id w Hw Hc) as [H _].
  destruct (deliver id w) as [[b|e] w1]; [done|]. cbn in H. revert w1 H.
  change (preserves (billing_wf w0) (rollback ;;
    report ← lock_report id;
    match report with
    | Some report =>
        if bool_decide (br_status report = rs_pending)
        then update (br_id report) (fun r => set_report_status (br_status r) (Some e) r) ;; commit
        else rollback
    | None => rollback
    end ;;
    mret false)).
  respects_auto. apply pres_update_status. intros r. apply same_reservation_status.
Qed.

(** ** Termination *)

(** What is left to do for a category, and for the report. *)
Definition work_of (r : BillingReport) (c : UsageCategory) : nat :=
  match br_requests r !! c, br_items r !! c with
  | Some q, None =>
      match br_attempted r !! c, ir_invoice q with
      | None, Some _ => 4
      | Some _, Some _ => 3
      | None, None => 2
      | Some _, None => 1
      end
  | _, _ => 0
  end.
Definition work (r : BillingReport) : nat := (work_of r TRACES + work_of r TRACE_EVALS + work_of r SESSION_EVALS)%nat.

Lemma work_decreases r r' c :
  (forall c', c' <> c -> work_of r' c' = work_of r c') -> (work_of r' c < work_of r c)%nat -> (work r' < work r)%nat.
Proof.
  intros H Hc. unfold work.
  destruct c; [rewrite (H TRACE_EVALS) // (H SESSION_EVALS) //|rewrite (H TRACES) // (H SESSION_EVALS) //
              |rewrite (H TRACES) // (H TRACE_EVALS) //]; lia.
Qed.

Lemma next_category_Some r c : next_category r = Some c -> br_items r !! c = None.
Proof.
  unfold next_category. intros H. apply List.find_some in H as [_ H]. apply andb_prop in H as [_ H].
  apply negb_true_iff, bool_decide_eq_false in H. by apply eq_None_not_Some.
Qed.

Lemma report_move_work now r r' : report_move now r r' -> (work r' < work r)%nat.
Proof.
  intros [c q q' Hc Hq Ha Hq'|c q a Hc Hq Ha Hi|c q a item Hc Hq Ha]; apply (work_decreases _ _ c);
    try (intros c' Hne; unfold work_of; cbn; rewrite ?lookup_insert_ne ?lookup_delete_ne //; by intros ->);
    unfold work_of; cbn; rewrite ?lookup_insert_eq ?lookup_delete_eq ?(next_category_Some r c Hc) Hq Ha; cbn.
  - destruct Hq' as [->|[Hi ->]]; cbn; destruct (ir_invoice q); try done; lia.
  - destruct (ir_invoice q); [lia|done].
  - destruct (ir_invoice q); lia.
Qed.

Lemma work_bound r : (work r <= 12)%nat.
Proof.
  assert (H : forall c, (work_of r c <= 4)%nat).
  { intros c. unfold work_of. destruct (br_requests r !! c) as [q|], (br_items r !! c); try lia.
    destruct (br_attempted r !! c), (ir_invoice q); lia. }
  unfold work. pose proof (H TRACES). pose proof (H TRACE_EVALS). pose proof (H SESSION_EVALS). lia.
Qed.

Lemma lock_report_persist id r w w1 f :
  lock_report id w = (Ok (Some r), w) -> talked r w w1 -> br_id (f r) = br_id r ->
  lock_report id (persist (br_id r) f w1) = (Ok (Some (touch_report (now w) (f r))), persist (br_id r) f w1).
Proof.
  intros Hl (s & l & -> & _) Hf. destruct (lock_report_run _ _ _ _ Hl) as [_ Hr]. destruct (Hr r eq_refl) as (Hin & <- & Hn).
  set (p := fun x => bool_decide (br_id x = br_id r) && negb (bool_decide (br_id x ∈ locked_elsewhere w))).
  assert (Hsel : select p (billing_reports (db w)) = [r]).
  { revert Hl. unfold lock_report, mbind, M_bind, read_db, gets, lift. cbn. fold p. intros [= Hl].
    by apply scalar_one_or_none_Ok in Hl as [[_ [=]]|(x & Hx & [= <-])]. }
  assert (Hp : forall x, x ∈ billing_reports (db w) -> br_id x = br_id r -> x = r).
  { intros x Hx Hid. assert (Hpx : x ∈ select p (billing_reports (db w))).
    { apply elem_of_select. split; [done|]. unfold p. rewrite bool_decide_eq_true_2 // Hid bool_decide_eq_false_2 //. }
    rewrite Hsel in Hpx. by apply list_elem_of_singleton in Hpx. }
  assert (Hsel' : select p (List.map (fun x => if bool_decide (br_id x = br_id r) then touch_report (now w) (f x) else x)
                    (billing_reports (db w))) = [touch_report (now w) (f r)]).
  { rewrite select_map_in.
    - intros x Hx. case_bool_decide as E; [|done]. rewrite (Hp x Hx E). unfold p. cbn. by rewrite Hf.
    - rewrite Hsel. cbn. by rewrite bool_decide_eq_true_2. }
  set (w2 := persist _ _ _). change (lock_report (br_id r) w2)
    with (scalar_one_or_none (select p (billing_reports (db w2))), w2).
  f_equal. change (billing_reports (db w2)) with
    (List.map (fun x => if bool_decide (br_id x = br_id r) then touch_report (now w) (f x) else x) (billing_reports (db w))).
  by rewrite Hsel'.
Qed.

Lemma report_move_id now r r' : report_move now r r' -> br_id r' = br_id r.
Proof. by intros []. Qed.

(** [n] bounds the work of the report the loop would lock. *)
Definition enough (n : nat) (id : N) (w : World) : Prop :=
  forall r, lock_report id w = (Ok (Some r), w) -> (work r <= n)%nat.

Lemma deliver_step_work n id w w' : enough n id w -> deliver_step id w = (Ok None, w') ->
  exists m, n = S m /\ enough m id w'.
Proof.
  intros Hn H. destruct (deliver_step_spec _ _ _ _ H) as [[_ [=]]|[[_ [e [=]]]|(r & Hl & _ & Ho)]].
  inversion Ho as [|w1 f Ht Hm Heq Hw'| |]; subst. specialize (Hn r Hl).
  pose proof (report_move_work _ _ _ Hm) as Hlt. pose proof (report_move_id _ _ _ Hm) as Hid.
  destruct n as [|m]; [lia|]. exists m. split; [done|].
  intros r' Hl'. destruct (lock_report_run _ _ _ _ Hl) as [_ Hr]. destruct (Hr r eq_refl) as (_ & <- & _).
  rewrite (lock_report_persist _ r w w1 f Hl Ht Hid) in Hl'. injection Hl' as <-. lia.
Qed.

Lemma deliver_loop_enough n id w : enough n id w -> (deliver_loop (S n) id w).1 <> Ok None.
Proof.
  revert w. induction n as [|n IH]; intros w Hn; cbn [deliver_loop]; unfold mbind at 1, M_bind at 1;
    destruct (deliver_step id w) as [[[b|]|e] w1] eqn:E; try done;
    destruct (deliver_step_work _ id w w1 Hn E) as (m & [= ->] & Hm).
  by apply IH.
Qed.

(** ** Properties *)

(** C17: The delivery loop terminates.  From any state of the database, of Stripe and
    of the report, thirteen iterations end [deliver] with an answer or an
    exception: the loop never runs out of its fuel. *)
Theorem deliver_terminates (id : N) (w : World) :
  (deliver_loop DELIVER_FUEL id w).1 <> Ok None /\
  forall n, (deliver_loop (DELIVER_FUEL + n) id w) = deliver_loop DELIVER_FUEL id w.
Proof.
  assert (H : (deliver_loop DELIVER_FUEL id w).1 <> Ok None).
  { apply (deliver_loop_enough 12). intros r _. pose proof (work_bound r). lia. }
  split; [done|]. intros n. revert H. generalize DELIVER_FUEL as k. intros k. revert w.
  induction k as [|k IH]; intros w H; [done|]. cbn [deliver_loop Nat.add]. cbn [deliver_loop] in H.
  unfold mbind, M_bind in *. destruct (deliver_step id w) as [[[b|]|e] w1]; [done| |done]. by apply IH.
Qed.

Lemma reserved_le_snapshot u reps r c : r ∈ reps -> cnt (br_snapshot r) c <= reserved u reps c.
Proof. intros H. apply zmax_list_ge. right. apply list_elem_of_fmap. by exists r. Qed.

Lemma stage_request_none id org cu su inv p u c res : stage_request id org cu su inv p u c res res = None.
Proof. unfold stage_request. by rewrite Z.sub_diag. Qed.

Lemma dict_of_empty {A} (f : UsageCategory -> option A) : (forall c, f c = None) -> dict_of f = ∅.
Proof. intros H. apply map_eq. intros c. by rewrite lookup_dict_of lookup_empty. Qed.

(** Reserving again reserves nothing.  Once [stage] has returned a report for a
    period, calling it again with the same arguments, as a retried webhook or an
    overlapping billing run does, adds no report, however the first call found it;
    for a closing invoice the constraint on closures makes it the same report. *)
Theorem stage_idempotent (w0 : Ghost) (sub : Subscription) (a : Z) (inv closing : option string)
    (allow : bool) (w w1 : World) (rep : BillingReport) :
  billing_wf w0 w ->
  stage sub a inv closing allow w = (Ok (Some rep), w1) ->
  let '(r2, w2) := stage sub a inv closing allow w1 in
  billing_reports (db w2) = billing_reports (db w1) /\
  forall rep2, r2 = Ok (Some rep2) -> rep2 ∈ billing_reports (db w1).
Proof.
  intros Hw E. destruct (stage sub a inv closing allow w1) as [r2 w2] eqn:E2.
  destruct (stage_cases _ _ _ _ _ _ _ _ E2) as [[Hw2 Hr2]|(u2 & Hu2 & Ho2 & Hs2 & _ & Hcl2 & Hreq & -> & ->)].
  { split; [by destruct Hw2 as [->| ->]|]. intros rep2 H. by apply Hr2. }
  exfalso.
  destruct (stage_cases _ _ _ _ _ _ _ _ E) as [[_ H]|(u & Hu & Ho & Hs & _ & Hcl & _ & [= ->] & Hw1)].
  { destruct (H rep eq_refl) as [-> _]. rewrite E in E2.
    assert (Heq : w = staged_world sub inv closing u2 w) by congruence. clear E2.
    apply (f_equal (fun w => length (billing_reports (db w)))) in Heq.
    cbn in Heq. rewrite length_app /= in Heq. lia. }
  set (row := staged_report _ _ _ _ _ _ _) in Hcl.
  assert (Hreps : billing_reports (db w1) = billing_reports (db w) ++ [row]) by (by rewrite Hw1).
  assert (Hrow : row ∈ billing_reports (db w1)) by (rewrite Hreps; apply elem_of_app; right; by left).
  assert (u2 = u) as ->.
  { assert (Hus : usage_records (db w1) = usage_records (db w)) by (by rewrite Hw1). rewrite Hus in Hu2.
    destruct Hw as [(Ht & _) _]. pose proof (wf_one_usage (next_id w) (db w) (sub_org sub) a Ht) as Hone.
    assert (H : forall x, x ∈ usage_records (db w) -> ur_org x = sub_org sub -> ur_start x = a ->
      x ∈ select (of_period (sub_org sub) a) (usage_records (db w))).
    { intros x Hx Hxo Hxs. apply elem_of_select. split; [done|]. unfold of_period. by rewrite !bool_decide_eq_true_2. }
    assert (H1 := H u Hu Ho Hs). assert (H2 := H u2 Hu2 Ho2 Hs2). revert H1 H2 Hone. unfold at_most_one, of_period.
    destruct (select _ _) as [|x [|y l]]; [by intros ?%elem_of_nil| |cbn; lia].
    by intros ->%list_elem_of_singleton ->%list_elem_of_singleton. }
  destruct Hreq as [Hreq|Hclosing].
  - apply Hreq. apply dict_of_empty. intros c.
    set (prev := order_by _ _). assert (Hres : reserved u prev c = staged_snapshot u prev c); [|by rewrite Hres stage_request_none].
    unfold staged_snapshot. rw Z.max_l; [|done].
    assert (Hin : row ∈ prev).
    { apply elem_of_order_by, elem_of_reports_of. split; [exact Hrow|reflexivity]. }
    pose proof (reserved_le_snapshot u prev row c Hin) as Hle.
    assert (Hsn : cnt (ur_count u) c <= cnt (br_snapshot row) c); [|lia].
    cbn [row staged_report br_snapshot]. rewrite cnt_counts_of. unfold staged_snapshot. lia.
  - rewrite <- not_true_iff_false in Hcl2. apply Hcl2. apply List.existsb_exists. exists row.
    split; [by apply list_elem_of_In|]. unfold BillingReportModel_clash. cbn.
    rewrite bool_decide_eq_true_2 //. unfold opt_clash. destruct closing as [c|]; [|done]. by rewrite bool_decide_eq_true_2.
Qed.

(** C24: What a reservation charges.  A new report takes each category from the
    highest count already reserved or reported up to the current counter (never
    down), charges exactly the units of that range that are over the included
    base, at the price frozen in the period's first report, rounded half up to
    cents; a report that is not a closing marker charges something. *)
Theorem stage_charges_new_usage (w0 : Ghost) (sub : Subscription) (a : Z) (inv closing : option string)
    (allow : bool) (w w1 : World) (rep : BillingReport) :
  billing_wf w0 w ->
  stage sub a inv closing allow w = (Ok (Some rep), w1) -> rep ∉ billing_reports (db w) ->
  exists u, u ∈ usage_records (db w) /\ ur_org u = sub_org sub /\ ur_start u = a /\ br_usage rep = ur_id u /\
    let earlier := reports_of (db w) (ur_id u) in
    (forall r, r ∈ earlier -> br_pricing rep = br_pricing r) /\
    (earlier = [] -> br_pricing rep = plan_pricing (get_plan_config (sub_plan sub))) /\
    (forall c, cnt (br_snapshot rep) c = Z.max (reserved u earlier c) (cnt (ur_count u) c) /\
       units_of rep c = max0 (cnt (br_snapshot rep) c - base_of rep c) - max0 (reserved u earlier c - base_of rep c) /\
       forall q, br_requests rep !! c = Some q ->
         ir_from q = reserved u earlier c /\ ir_to q = cnt (br_snapshot rep) c /\
         ir_amount q = cents (br_pricing rep) (units_of rep c) /\ 0 < units_of rep c) /\
    (closing = None -> exists c, 0 < units_of rep c).
Proof.
  intros Hw E Hnew.
  destruct (stage_cases _ _ _ _ _ _ _ _ E) as [[_ H]|(u & Hu & Ho & Hs & _ & Hcl & Hreq & [= ->] & _)].
  { destruct (H rep eq_refl) as [_ Hin]. by destruct Hnew. }
  set (row := staged_report _ _ _ _ _ _ _) in *. exists u.
  assert (Hcat : forall c q, br_requests row !! c = Some q ->
    ir_units q = units_of row c /\ 0 < ir_units q /\ ir_from q = reserved u (reports_of (db w) (ur_id u)) c /\
    ir_to q = cnt (br_snapshot row) c /\ ir_amount q = cents (br_pricing row) (ir_units q)).
  { intros c q Hq. unfold units_of. rewrite Hq. cbn [row staged_report br_requests] in Hq. rewrite lookup_dict_of in Hq.
    destruct (stage_request_Some _ _ _ _ _ _ _ _ _ _ _ Hq) as (H0 & H1 & H2 & H3 & H4 & _).
    cbn [row staged_report br_snapshot br_pricing]. rewrite cnt_counts_of H2 H1. split_and!; try done.
    by rewrite H3 reserved_order. }
  do 4 (split; [done|]). cbv zeta. split_and!.
  - intros r Hr. destruct Hw as [Hw _]. symmetry. exact (stage_pricing_shared w0 sub u _ _ _ r Hw Hu Hr).
  - intros He. cbn. unfold stage_pricing. by rewrite He.
  - intros c. split_and!.
    + cbn. rewrite cnt_counts_of. unfold staged_snapshot. by rewrite reserved_order.
    + destruct (staged_wf_units sub inv closing u w c) as [_ Hun]. fold row in Hun. by rewrite -reserved_order.
    + intros q Hq. destruct (Hcat c q Hq) as (H1 & H2 & H3 & H4 & H5). rewrite -H1. by split_and!.
  - intros ->. destruct Hreq as [Hreq|[=]]. apply map_choose in Hreq as (c & q & Hq). exists c.
    destruct (Hcat c q Hq) as (<- & H2 & _). done.
Qed.

(** C8: Delivery refines the report state machine.  On a committed database, one
    iteration of [deliver] either leaves the database as it is, or moves exactly
    one pending report by one transition of the specification and commits it; the
    loop continues after the moves and stops after the ends. *)
Theorem deliver_step_refines (w0 : Ghost) (id : N) (w w' : World) (res : Prelude.res (option bool)) :
  billing_wf w0 w -> clean w ->
  deliver_step id w = (res, w') ->
  clean w' /\
  ((durable w' = durable w /\ res <> Ok None) \/
   exists r r', r ∈ billing_reports (durable w) /\ br_id r = id /\ br_status r = rs_pending /\
     ((report_move (now w) r r' /\ res = Ok None) \/ (exists b, report_end (now w) r b r' /\ res = Ok (Some b))) /\
     forall x, x ∈ billing_reports (durable w') <-> x = r' \/ (x ∈ billing_reports (durable w) /\ br_id x <> id)).
Proof.
  intros Hw Hc E. destruct (deliver_step_wf w0 id w Hw Hc) as [_ Hc']. rewrite E in Hc'. split; [exact Hc'|].
  destruct (deliver_step_spec _ _ _ _ E) as [[-> ->]|[[-> [e ->]]|(r & Hl & Hp & Ho)]]; [by left|by left|].
  destruct (lock_report_run _ _ _ _ Hl) as [_ H]. destruct (H r eq_refl) as (Hr & Hid & _).
  assert (Hrows : forall f d, billing_reports d = billing_reports (db w) -> forall x,
    x ∈ billing_reports (update_rows (br_id r) (now w) f d) <->
    x = touch_report (now w) (f r) \/ (x ∈ billing_reports (durable w) /\ br_id x <> id)).
  { intros f d Hd x. cbn. rewrite elem_of_update_where Hd -Hc. split.
    - intros (y & Hy & ->). case_bool_decide as Hi; [left|right; split; [done|congruence]].
      destruct Hw as [((_ & _ & Ht) & _) _]. by rewrite (table_ok_same_id _ _ _ _ y r Ht Hy Hr Hi).
    - intros [->|[Hx Hne]]; [exists r|exists x]; (split; [done|]); [by rewrite bool_decide_eq_true_2|].
      rewrite bool_decide_eq_false_2 //. congruence. }
  destruct Ho as [e w1 (s & l & -> & _)|w1 f Ht Hm|w1 f Ht Hm _|u Hu Hui Hn]; [by left|right..].
  - destruct Ht as (s & l & -> & _). exists r, (touch_report (now w) (f r)). rewrite -{1}Hc. split_and!; try done; [by left|].
    by apply Hrows.
  - destruct Ht as (s & l & -> & _). exists r, (touch_report (now w) (f r)). rewrite -{1}Hc.
    split_and!; try done; [right; exists false; by split|]. by apply Hrows.
  - exists r, (touch_report (now w) (set_report_status rs_reported None r)). rewrite -{1}Hc. split_and!; try done.
    + right. exists true. split; [by constructor|done].
    + by apply Hrows.
Qed.

Lemma lock_report_total w0 id w : billing_wf w0 w -> exists o, lock_report id w = (Ok o, w).
Proof.
  intros [((_ & _ & Ht) & _) _]. unfold lock_report, mbind, M_bind, read_db, gets, lift. cbn.
  set (p := fun r : BillingReport => _ && _).
  destruct (at_most_one_scalar (select p (billing_reports (db w)))) as [o ->]; [|by exists o].
  eapply at_most_one_sub; [|apply (table_ok_one_id _ _ _ _ id Ht)].
  intros x H. by apply andb_prop in H as [H _].
Qed.

(** C25: A delivery failure keeps the charge.  Whatever exception ends [deliver] (Stripe
    down, a rejected request, a lost row), [deliver_safely] swallows it and returns
    [False]; nothing uncommitted survives, and a report that is still pending keeps
    its frozen requests, attempts and confirmed items, so that the dispatcher's
    next tick retries exactly the same charges. *)
Theorem deliver_safely_keeps_charge (w0 : Ghost) (id : N) (w w1 : World) (e : exn) :
  billing_wf w0 w -> clean w ->
  deliver id w = (Err e, w1) ->
  let '(r, w') := deliver_safely id w in
  r = Ok false /\ clean w' /\
  forall rep, lock_report id w1 = (Ok (Some rep), w1) -> br_status rep = rs_pending ->
    exists rep', rep' ∈ billing_reports (durable w') /\ br_id rep' = id /\ br_status rep' = rs_pending /\
      br_requests rep' = br_requests rep /\ br_attempted rep' = br_attempted rep /\
      br_items rep' = br_items rep /\ br_error rep' = Some e.
Proof.
  intros Hw Hc E. destruct (deliver_wf w0 id w Hw Hc) as [Hw1 Hc1]. rewrite E in Hw1, Hc1. cbn in Hw1, Hc1.
  unfold deliver_safely, try_except. rewrite E.
  assert (Hrb : rollback w1 = (Ok tt, w1)) by (unfold rollback, modify; rewrite -Hc1; by destruct w1).
  erewrite bind_Ok by exact Hrb. destruct (lock_report_total w0 id w1 Hw1) as [o Ho]. erewrite bind_Ok by exact Ho.
  destruct o as [rep|].
  - case_bool_decide as Hp.
    + split; [done|]. split; [done|]. intros rep0 Hl _. rewrite Ho in Hl. injection Hl as <-.
      destruct (lock_report_run _ _ _ _ Ho) as [_ H]. destruct (H rep eq_refl) as (Hr & Hid & _).
      exists (touch_report (now w1) (set_report_status (br_status rep) (Some e) rep)). split_and!; try done.
      cbn. apply elem_of_update_where. exists rep. split; [done|]. by rewrite bool_decide_eq_true_2.
    + erewrite bind_Ok by exact Hrb. split; [done|]. split; [done|]. intros rep0 Hl Hst. rewrite Ho in Hl. by injection Hl as <-.
  - erewrite bind_Ok by exact Hrb. split; [done|]. split; [done|]. intros rep0 Hl. by rewrite Ho in Hl.
Qed.

(** ** Rounding *)

Definition total_cents (reps : list BillingReport) (c : UsageCategory) : Z :=
  foldr (fun r a => match br_requests r !! c with Some q => ir_amount q | None => 0 end + a) 0 reps.

Lemma cents_overage p units : unit_price p = OVERAGE_UNIT_PRICE -> 0 <= units ->
  Z.abs (10 * cents p units - 4 * units) <= 5.
Proof.
  intros Hp Hu. unfold cents. rewrite Hp.
  set (d := dec_mul_int (dec_mul_int OVERAGE_UNIT_PRICE units) 100).
  pose proof (quantize_half_up_error d) as H.
  assert (Hexp : 10 ^ (- dec_exp d) = 1000) by reflexivity. rewrite Hexp in H.
  assert (Hd : dec_coef d = 4 * units * 100) by reflexivity. rewrite Hd in H.
  specialize (H ltac:(lia) ltac:(cbn; lia)). lia.
Qed.

(** Rounding is bounded per report.  At the overage price of $0.004 the cents
    charged for a category by any list of reports differ from the exact price of
    the units they reserve by at most half a cent for each report. *)
Theorem overage_rounding_bound (w0 : Ghost) (n : N) (log : list StripeReq) (d : DB)
    (reps : list BillingReport) (c : UsageCategory) :
  db_ok w0 n log d ->
  (forall r, r ∈ reps -> r ∈ billing_reports d /\ unit_price (br_pricing r) = OVERAGE_UNIT_PRICE) ->
  Z.abs (10 * total_cents reps c - 4 * total_units reps c) <= 5 * Z.of_nat (length reps).
Proof.
  intros (_ & _ & R & _) Hin. induction reps as [|r reps IH]; [cbn; lia|].
  assert (IH' := IH ltac:(intros x Hx; apply Hin; by right)). destruct (Hin r ltac:(by left)) as [Hr Hp].
  cbn [total_cents total_units foldr length]. fold (total_cents reps c) (total_units reps c). unfold units_of.
  destruct (br_requests r !! c) as [q|] eqn:Eq; [|lia].
  destruct (R r c q Hr Eq) as (_ & _ & _ & _ & _ & Hu & _ & _ & ->).
  pose proof (cents_overage (br_pricing r) (ir_units q) Hp ltac:(lia)). lia.
Qed.

(** The rounding is per report, so a period billed in reports of one unit each is
    never charged, although its units count as reserved. *)
Lemma one_unit_is_free p : unit_price p = OVERAGE_UNIT_PRICE -> cents p 1 = 0 /\ cents p 10 = 4.
Proof. intros H. unfold cents. rewrite H. by split. Qed.

(** ** Witnesses *)

(** The reservation of the sample PRO period: ten traces over the base. *)
Definition pro_staged : World :=
  ((_ ← stage pro_sub (days 10) None None false; commit) pro_world).2.

Lemma pro_staged_wf : billing_wf from_start pro_staged.
Proof.
  assert (H : preserves (billing_wf from_start) (_ ← stage pro_sub (days 10) None None false; commit)).
  { respects_auto. }
  exact (H pro_world pro_world_wf).
Qed.
Lemma pro_staged_clean : clean pro_staged.
Proof. vm_compute. reflexivity. Qed.

(** The id of that report, and the world where Stripe answers its two calls. *)
Definition pro_report_id : N := 100.
Definition pro_delivering (script : list StripeResp) : World := set_stripe script [] pro_staged.
Lemma pro_delivering_wf script : billing_wf from_start (pro_delivering script).
Proof. exact pro_staged_wf. Qed.

Lemma pro_delivering_clean script : clean (pro_delivering script).
Proof. exact pro_staged_clean. Qed.

Example deliver_run :
  (deliver pro_report_id (pro_delivering [RespItem "ii_1"])).1 = Ok true /\
  (deliver pro_report_id (pro_delivering [RespFailure])).1 = Err StripeFailure /\
  match stripe_log (deliver pro_report_id (pro_delivering [RespItem "ii_1"])).2 with
  | [CreateItem q] => ir_amount q = 4 /\ ir_units q = 10 /\ ir_from q = 0 /\ ir_to q = 5010
  | _ => False
  end.
Proof. vm_compute. by split_and!. Qed.

Example stage_idempotent_witness :
  let w1 := (stage pro_sub (days 10) None None false pro_world).2 in
  billing_reports (db (stage pro_sub (days 10) None None false w1).2) = billing_reports (db w1).
Proof.
  destruct (stage pro_sub (days 10) None None false pro_world) as [r w1] eqn:E. cbn zeta. cbn [snd].
  assert (Hr : exists rep, r = Ok (Some rep)).
  { assert (H : (r, w1).1 = (stage pro_sub (days 10) None None false pro_world).1) by (rewrite E; reflexivity).
    cbn in H. rewrite H. vm_compute. eexists. reflexivity. }
  destruct Hr as [rep Hr]. rewrite Hr in E.
  assert (H := stage_idempotent from_start pro_sub (days 10) None None false pro_world w1 rep pro_world_wf E).
  destruct (stage pro_sub (days 10) None None false w1) as [r2 w2]. exact (proj1 H).
Defined.

Example stage_charges_new_usage_witness :
  exists rep w1 u, stage pro_sub (days 10) None None false pro_world = (Ok (Some rep), w1) /\
    u ∈ usage_records (db pro_world) /\ br_usage rep = ur_id u /\ units_of rep TRACES = 10.
Proof.
  destruct (stage pro_sub (days 10) None None false pro_world) as [r w1] eqn:E.
  assert (Hr : exists rep, r = Ok (Some rep) /\ units_of rep TRACES = 10).
  { assert (H : (r, w1).1 = (stage pro_sub (days 10) None None false pro_world).1) by (rewrite E; reflexivity).
    cbn in H. rewrite H. vm_compute. eexists. split; reflexivity. }
  destruct Hr as (rep & Hr & Hu). rewrite Hr in E.
  assert (Hn : rep ∉ billing_reports (db pro_world)) by (intros Hin; inversion Hin).
  destruct (stage_charges_new_usage from_start pro_sub (days 10) None None false pro_world w1 rep
    pro_world_wf E Hn) as (u & Hin & _ & _ & Hbr & _).
  exists rep, w1, u. rewrite Hr. split; [reflexivity|]. split; [exact Hin|]. split; [exact Hbr|exact Hu].
Defined.

Example deliver_step_refines_witness :
  clean (deliver_step pro_report_id (pro_delivering [RespItem "ii_1"])).2.
Proof.
  destruct (deliver_step pro_report_id (pro_delivering [RespItem "ii_1"])) as [res w'] eqn:E. cbn [snd].
  exact (proj1 (deliver_step_refines from_start pro_report_id
    (pro_delivering [RespItem "ii_1"]) w' res (pro_delivering_wf _) (pro_delivering_clean _) E)).
Defined.

Example deliver_safely_keeps_charge_witness :
  (deliver_safely pro_report_id (pro_delivering [RespFailure])).1 = Ok false.
Proof.
  destruct (deliver pro_report_id (pro_delivering [RespFailure])) as [r w1] eqn:E.
  assert (Hr : r = Err StripeFailure).
  { assert (H : (r, w1).1 = Err StripeFailure) by (rewrite -E; exact (proj1 (proj2 deliver_run))). exact H. }
  rewrite Hr in E.
  assert (H := deliver_safely_keeps_charge from_start pro_report_id
    (pro_delivering [RespFailure]) w1 StripeFailure (pro_delivering_wf _) (pro_delivering_clean _) E).
  destruct (deliver_safely pro_report_id (pro_delivering [RespFailure])) as [r2 w2]. exact (proj1 H).
Defined.

Example overage_rounding_bound_witness :
  Z.abs (10 * total_cents (billing_reports (db pro_staged)) TRACES - 4 * total_units (billing_reports (db pro_staged)) TRACES)
  <= 5 * Z.of_nat (length (billing_reports (db pro_staged))).
Proof.
  apply (overage_rounding_bound from_start (next_id pro_staged) (stripe_log pro_staged) (db pro_staged)).
  - exact (proj1 pro_staged_wf).
  - intros r Hr. split; [exact Hr|]. revert Hr.
    assert (H : Forall (fun r => unit_price (br_pricing r) = OVERAGE_UNIT_PRICE) (billing_reports (db pro_staged))).
    { vm_compute. repeat constructor. }
    intros Hr. exact (proj1 (Forall_forall _ _) H r Hr).
Defined.

Example finish_watermark_safe_witness :
  exists rep u', rep ∈ billing_reports (db pro_staged) /\ u' ∈ usage_records (db (finish rep pro_staged).2) /\
    cnt (ur_reported pro_usage) TRACES <= cnt (ur_reported u') TRACES.
Proof.
  assert (Hr : exists rep, billing_reports (db pro_staged) = [rep] /\ br_usage rep = 3%N).
  { vm_compute. eexists. split; reflexivity. }
  destruct Hr as (rep & Hr & Hu). assert (Hin : rep ∈ billing_reports (db pro_staged)) by (rewrite Hr; left).
  assert (Hus : pro_usage ∈ usage_records (db pro_staged)).
  { assert (H : usage_records (db pro_staged) = [pro_usage]) by (vm_compute; reflexivity). rewrite H. left. }
  assert (H := finish_watermark_safe from_start rep pro_usage pro_staged pro_staged_wf Hin Hus (eq_sym Hu)).
  destruct (finish rep pro_staged) as [r w'] eqn:E. destruct H as (_ & u' & Hu' & _ & H). exists rep, u'.
  split; [exact Hin|]. split; [rewrite E; exact Hu'|]. exact (proj1 (H TRACES)).
Defined.
