(* ===== verification/Billing.v ===== *)
(** * The billing service (services/billing_service.py)

    Webhook payloads as records, the helpers that read them, and one definition
    per method of [BillingService].  [has_redis] tells whether the service was
    built with a Redis client; the overage-lock tokens of an instance are passed
    explicitly. *)
From stdpp Require Import base gmap strings list.
From Stdlib Require Import ZArith Lia ssreflect.
From S2P Require Import Prelude Constants Entities World Invariant BillingRepo Locks Usage ReportRepo Reporting.

#[local] Open Scope Z_scope.

Definition RENEWAL_BILLING_REASON : string := "subscription_cycle".

(** ** Webhook payloads

    An attribute read with [getattr(obj, name, None)] is an option.  Timestamps
    are whole seconds. *)

(** A subscription reference: a bare ID, or an expanded object and its [id]. *)
Inductive SubRef := SubId (id : string) | SubObj (id : option string).

Record InvoiceDetails := { det_subscription : option SubRef }.
Record InvoiceParent := { par_subscription_details : option InvoiceDetails }.
Record StripeInvoice := {
  inv_id : string;
  inv_billing_reason : option string;
  inv_parent : option InvoiceParent;
  inv_subscription : option SubRef;
  inv_period_start : option Z;
  inv_period_end : option Z }.

(** [metadata["org_id"]] as the UUID it spells, [None] when it spells none. *)
Record StripeCheckout := {
  co_org : option N;
  co_plan : string;
  co_customer : option string;
  co_subscription : string }.

Record StripeSubItem := {
  sit_price : option (option string);
  sit_period_start : option Z;
  sit_period_end : option Z }.
Record StripeSubscription := {
  ss_id : string;
  ss_status : option string;
  ss_items : list StripeSubItem;
  ss_canceled_at : option Z }.

(** [SubscriptionPlan(s)] *)
Definition SubscriptionPlan_of (s : string) : res SubscriptionPlan :=
  if bool_decide (s = "HOBBY"%string) then Ok HOBBY
  else if bool_decide (s = "PRO"%string) then Ok PRO
  else if bool_decide (s = "STARTUP"%string) then Ok STARTUP
  else if bool_decide (s = "ENTERPRISE"%string) then Ok ENTERPRISE
  else if bool_decide (s = "DEVELOPMENT"%string) then Ok DEVELOPMENT
  else Err (ValueError "not a valid SubscriptionPlan").

(** [datetime.fromtimestamp(t, tz=utc)] *)
Definition fromtimestamp (t : Z) : Z := t * second.

(** ** Helpers *)

Definition _ensure_stripe_configured : M World unit :=
  s ← get_settings;
  guard_not (bool_decide (stripe_secret_key s = EmptyString))
    (PP StripeNotConfiguredError "STRIPE_SECRET_KEY is not set; this service cannot call Stripe.").

(** The two-entry dictionary: a later equal key overwrites an earlier one. *)
Definition _resolve_plan_from_price_id (s : Settings) (price_id : string) : option SubscriptionPlan :=
  if bool_decide (price_id = stripe_startup_price s) then Some STARTUP
  else if bool_decide (price_id = stripe_pro_price s) then Some PRO
  else None.

Definition _invoice_subscription_id (invoice : StripeInvoice) : option string :=
  let details := p ← inv_parent invoice; par_subscription_details p in
  let subscription := d ← details; det_subscription d in
  let subscription := match subscription with None => inv_subscription invoice | Some s => Some s end in
  match subscription with
  | None => None
  | Some (SubId s) => Some s
  | Some (SubObj id) => id
  end.

(** [stripe.Subscription.retrieve], then [_get_sub_period] of the result. *)
Definition retrieve_sub_period (id : string) : M World (Z * Z) :=
  resp ← stripe_call (RetrieveSubscription id);
  match resp with
  | RespSubscription ((a, b) :: _) => mret (fromtimestamp a, fromtimestamp b)
  | RespSubscription [] => raise IndexError
  | r => raise (stripe_error r)
  end.

Definition _invoice_period (invoice : StripeInvoice) : res (Z * Z) :=
  match inv_period_start invoice, inv_period_end invoice with
  | Some a, Some b =>
      if (0 <? a) && (a <? b) then Ok (fromtimestamp a, fromtimestamp b)
      else Err (pp_error "Renewal invoice has no valid billing period; reconciliation required.")
  | _, _ => Err (pp_error "Renewal invoice has no valid billing period; reconciliation required.")
  end.

Definition zero_decimal : Decimal := {| dec_coef := 0; dec_exp := 0 |}.
(** [OverageDetail()] *)
Definition no_overage : OverageDetail :=
  {| od_overage := zero_counts; od_cost := fun _ => zero_decimal; od_total_cost := zero_decimal;
     od_snapshot := zero_counts |}.

(** Whether an invoice closes its period. *)
Definition is_renewal (invoice : StripeInvoice) : bool :=
  bool_decide (inv_billing_reason invoice = Some RENEWAL_BILLING_REASON).

Section service.
Context (has_redis : bool).

Definition _warm_sub_cache (org : N) : M World unit :=
  if negb has_redis then mret tt else
  try_except
    (sub ← get_subscription_by_org org;
     match sub with
     | None => invalidate_subscription_cache org
     | Some s => redis_update (fun r t => set_subs (<[org := (s, t + SUB_CACHE_TTL * second)]> (r_subs r)) r)
     end)
    (fun _ => mret tt).

(** *** Overage lock *)

Abbreviation Tokens := (gmap N N).

Definition acquire_overage_lock (org : N) (tokens : Tokens) : M World (bool * Tokens) :=
  if negb has_redis then mret (true, tokens) else
  token ← uuid4;
  acquired ← acquire_owned_lock (OverageLock org) (Tok token) OVERAGE_LOCK_TTL;
  mret (acquired, if acquired : bool then <[org := token]> tokens else tokens).

Definition release_overage_lock (org : N) (tokens : Tokens) : M World Tokens :=
  if negb has_redis then mret tokens else
  match tokens !! org with
  | None => mret tokens
  | Some token => release_owned_lock (OverageLock org) (Tok token) ;; mret (delete org tokens)
  end.

(** *** Checkout and portal *)

Definition create_checkout_session (org : N) (plan : SubscriptionPlan) : M World string :=
  guard_not (negb (bool_decide (plan = PRO) || bool_decide (plan = STARTUP)))
    (ValueError "Checkout is only available for PRO and STARTUP plans.") ;;
  s ← get_settings;
  let price_id := if bool_decide (plan = PRO) then stripe_pro_price s else stripe_startup_price s in
  sub ← get_subscription_by_org org;
  let customer := match sub with
    | Some s => if truthy (sub_customer s) then sub_customer s else None
    | None => None end in
  resp ← stripe_call (CreateCheckout org plan price_id customer);
  match resp with RespUrl url => mret url | r => raise (stripe_error r) end.

Definition create_portal_session (org : N) : M World string :=
  sub ← get_subscription_by_org org;
  match sub with
  | Some s =>
      match sub_customer s with
      | Some customer =>
          resp ← stripe_call (CreatePortal customer);
          match resp with RespUrl url => mret url | r => raise (stripe_error r) end
      | None => raise (PP ValidationError "No billing account exists for this organization.")
      end
  | None => raise (PP ValidationError "No billing account exists for this organization.")
  end.

(** *** Overage calculation *)

(** The delta of one category over the high-water mark. *)
Definition overage_delta (base count reported : Z) : Z :=
  Z.max 0 (Z.max 0 (count - base) - Z.max 0 (reported - base)).

Definition overage_detail (plan : PlanConfig) (u : UsageRecord) : OverageDetail :=
  let delta c := overage_delta (base_or_zero plan c) (cnt (ur_count u) c) (cnt (ur_reported u) c) in
  {| od_overage := counts_of delta;
     od_cost := fun c => dec_mul_int OVERAGE_UNIT_PRICE (delta c);
     od_total_cost := dec_mul_int OVERAGE_UNIT_PRICE (delta TRACES + delta TRACE_EVALS + delta SESSION_EVALS);
     od_snapshot := ur_count u |}.

Definition calculate_unreported_overages (org : N) (period_start : option Z) : M World OverageDetail :=
  sub ← get_subscription_by_org org;
  match sub with
  | None => mret no_overage
  | Some s =>
      let plan_cfg := get_plan_config (sub_plan s) in
      if negb (pay_as_you_go plan_cfg) then mret no_overage else
      usage ← get_current_usage_record org (default (sub_start s) period_start);
      match usage with
      | None => mret no_overage
      | Some u => if ur_billed u then mret no_overage else mret (overage_detail plan_cfg u)
      end
  end.

Definition report_overages_to_stripe (org : N) (period_start : option Z) (invoice_id : option string)
    : M World bool :=
  sub ← get_subscription_by_org org;
  match sub with
  | None => mret false
  | Some s =>
      if bool_decide (sub_customer s = None) then mret false else
      report ← stage s (default (sub_start s) period_start) invoice_id None false;
      commit ;;
      match report with
      | Some r => deliver_safely (br_id r)
      | None => mret false
      end
  end.

(** *** Webhook handlers *)

Definition handle_checkout_completed (obj : StripeCheckout) : M World unit :=
  org ← lift (match co_org obj with Some o => Ok o | None => Err (ValueError "badly formed UUID") end);
  plan ← lift (SubscriptionPlan_of (co_plan obj));
  period ← retrieve_sub_period (co_subscription obj);
  existing ← get_subscription_by_org org;
  match existing with
  | Some _ =>
      _ ← update_subscription org (fun s =>
        set_canceled_at None (set_period period.1 period.2 (set_stripe_id (Some (co_subscription obj))
          (set_customer (co_customer obj) (set_status ACTIVE (set_plan plan s))))));
      mret tt
  | None =>
      _ ← create_subscription org plan (co_customer obj) (Some (co_subscription obj))
            (Some period.1) (Some period.2);
      mret tt
  end ;;
  _ ← get_or_create_usage_record org period.1 period.2;
  commit ;;
  _warm_sub_cache org.

Definition _sync_invoice_period (sub : Subscription) (obj : StripeInvoice) : M World UsageRecord :=
  period ← lift (_invoice_period obj);
  usage ← get_current_usage_record (sub_org sub) period.1;
  guard_not (match usage with Some u => negb (ur_end u =? period.2) | None => false end)
    (pp_error "Invoice period does not match usage history; reconciliation required.") ;;
  let closed := match usage with Some u => if ur_billed u then Some u else None | None => None end in
  match closed with
  | Some u => mret u
  | None =>
      when has_redis (sync_to_database (sub_org sub) (Some period.1) (Some period.2)) ;;
      usage ← get_current_usage_record (sub_org sub) period.1;
      match usage with
      | None => raise (pp_error "Invoice usage history is missing; reconciliation required.")
      | Some u => mret u
      end
  end.

Definition handle_invoice_created (obj : StripeInvoice) : M World unit :=
  if negb (is_renewal obj) then mret tt else
  match _invoice_subscription_id obj with
  | None | Some EmptyString => mret tt
  | Some subscription_id =>
      sub ← get_subscription_by_stripe_subscription subscription_id;
      match sub with
      | None => mret tt
      | Some s =>
          if negb (pay_as_you_go (get_plan_config (sub_plan s))) then mret tt else
          lock ← acquire_overage_lock (sub_org s) ∅;
          guard_not (negb lock.1) (pp_error "Overage reporting is busy; retry the invoice webhook.") ;;
          try_finally
            (usage ← _sync_invoice_period s obj;
             when (negb (ur_billed usage))
               (_ ← report_overages_to_stripe (sub_org s) (Some (ur_start usage)) (Some (inv_id obj)); mret tt) ;;
             commit)
            (_ ← release_overage_lock (sub_org s) lock.2; mret tt)
      end
  end.

(** Advance the subscription to the period Stripe reports, and mark it active. *)
Definition renew (org : N) (new_start new_end : Z) : M World unit :=
  advance_period org new_start new_end ;;
  _ ← get_or_create_usage_record org new_start new_end;
  _ ← update_subscription org (set_status ACTIVE);
  commit.

Definition handle_invoice_paid (obj : StripeInvoice) : M World unit :=
  match _invoice_subscription_id obj with
  | None | Some EmptyString => mret tt
  | Some subscription_id =>
      sub ← get_subscription_by_stripe_subscription subscription_id;
      match sub with
      | None => mret tt
      | Some s =>
          new ← retrieve_sub_period subscription_id;
          (if is_renewal obj then
             lock ← acquire_overage_lock (sub_org s) ∅;
             guard_not (negb lock.1) (pp_error "Overage reporting is busy; retry the invoice webhook.") ;;
             try_finally
               (usage ← _sync_invoice_period s obj;
                when (negb (ur_billed usage))
                  (_ ← stage s (ur_start usage) None (Some (inv_id obj)) false;
                   mark_billed (sub_org s) (ur_start usage) (Some (inv_id obj))) ;;
                renew (sub_org s) new.1 new.2)
               (_ ← release_overage_lock (sub_org s) lock.2; mret tt)
           else renew (sub_org s) new.1 new.2) ;;
          _warm_sub_cache (sub_org s)
      end
  end.

Definition handle_invoice_payment_failed (obj : StripeInvoice) : M World unit :=
  match _invoice_subscription_id obj with
  | None | Some EmptyString => mret tt
  | Some subscription_id =>
      sub ← get_subscription_by_stripe_subscription subscription_id;
      match sub with
      | None => mret tt
      | Some s =>
          _ ← update_subscription (sub_org s) (set_status PAST_DUE);
          commit ;;
          _warm_sub_cache (sub_org s)
      end
  end.

(** [status_map.get(status, ACTIVE)] *)
Definition mapped_status (s : option string) : SubscriptionStatus :=
  let s := default "active"%string s in
  if bool_decide (s = "past_due"%string) then PAST_DUE
  else if bool_decide (s = "canceled"%string) then CANCELED
  else if bool_decide (s = "incomplete"%string) then INCOMPLETE
  else ACTIVE.

(** The plan of the first item's price, when the price is a known one. *)
Definition updated_plan (s : Settings) (items : list StripeSubItem) : option SubscriptionPlan :=
  match items with
  | [] => None
  | i :: _ =>
      match sit_price i with
      | Some price_id => if truthy price_id then p ← price_id; _resolve_plan_from_price_id s p else None
      | None => None
      end
  end.

Definition handle_subscription_updated (obj : StripeSubscription) : M World unit :=
  sub ← get_subscription_by_stripe_subscription (ss_id obj);
  match sub with
  | None => mret tt
  | Some s =>
      st ← get_settings;
      let plan := updated_plan st (ss_items obj) in
      let canceled_at := t ← ss_canceled_at obj; if t =? 0 then None else Some (fromtimestamp t) in
      match ss_items obj with
      | i :: _ =>
          match sit_period_start i, sit_period_end i with
          | Some a, Some b =>
              when (negb (a =? 0) && negb (b =? 0))
                (advance_period (sub_org s) (fromtimestamp a) (fromtimestamp b))
          | _, _ => mret tt
          end
      | [] => mret tt
      end ;;
      _ ← update_subscription (sub_org s) (fun row =>
        let row := set_status (mapped_status (ss_status obj)) row in
        let row := match plan with Some p => set_plan p row | None => row end in
        set_canceled_at canceled_at row);
      commit ;;
      _warm_sub_cache (sub_org s)
  end.

Definition handle_subscription_deleted (obj : StripeSubscription) : M World unit :=
  sub ← get_subscription_by_stripe_subscription (ss_id obj);
  match sub with
  | None => mret tt
  | Some s =>
      when (pay_as_you_go (get_plan_config (sub_plan s)) && truthy (sub_customer s))
        (when has_redis (sync_to_database (sub_org s) None None) ;;
         lock ← acquire_overage_lock (sub_org s) ∅;
         when lock.1
           (try_finally
              (_ ← report_overages_to_stripe (sub_org s) None None; mret tt)
              (_ ← release_overage_lock (sub_org s) lock.2; mret tt)) ;;
         old_usage ← get_current_usage_record (sub_org s) (sub_start s);
         when (match old_usage with Some u => negb (ur_billed u) | None => false end)
           (mark_billed (sub_org s) (sub_start s) None)) ;;
      now ← utcnow;
      _ ← update_subscription (sub_org s) (fun row =>
        set_period now (now + days 30) (set_canceled_at (Some now) (set_stripe_id None
          (set_status ACTIVE (set_plan HOBBY row)))));
      _ ← create_usage_record (sub_org s) now (now + days 30);
      commit ;;
      _warm_sub_cache (sub_org s)
  end.
End service.

(** ** The billing invariant *)

Section preservation.
Context (w0 : Ghost) (has_redis : bool).

Lemma pres_run_script {A} (f : Z -> Keyspace -> A * Keyspace) : preserves (billing_wf w0) (run_script f).
Proof. intros w H. unfold run_script. by destruct (f _ _). Qed.
Lemma pres_acquire_owned_lock k t ttl : preserves (billing_wf w0) (acquire_owned_lock k t ttl).
Proof. apply pres_run_script. Qed.
Lemma pres_release_owned_lock k t : preserves (billing_wf w0) (release_owned_lock k t).
Proof. apply pres_run_script. Qed.
Lemma pres_complete_owned_lock k t ttl : preserves (billing_wf w0) (complete_owned_lock k t ttl).
Proof. apply pres_run_script. Qed.
Hint Resolve pres_acquire_owned_lock pres_release_owned_lock pres_complete_owned_lock : effects.

Lemma pres_invalidate_subscription_cache org : preserves (billing_wf w0) (invalidate_subscription_cache org).
Proof. apply pres_redis_update. Qed.
Hint Resolve pres_invalidate_subscription_cache : effects.

Lemma pres_warm_sub_cache org : preserves (billing_wf w0) (_warm_sub_cache has_redis org).
Proof. unfold _warm_sub_cache. respects_auto. Qed.
Lemma pres_acquire_overage_lock org t : preserves (billing_wf w0) (acquire_overage_lock has_redis org t).
Proof. unfold acquire_overage_lock. respects_auto. Qed.
Lemma pres_release_overage_lock org t : preserves (billing_wf w0) (release_overage_lock has_redis org t).
Proof. unfold release_overage_lock. respects_auto. Qed.
Hint Resolve pres_warm_sub_cache pres_acquire_overage_lock pres_release_overage_lock : effects.

Lemma pres_retrieve_sub_period id : preserves (billing_wf w0) (retrieve_sub_period id).
Proof. unfold retrieve_sub_period. respects_auto. Qed.
Hint Resolve pres_retrieve_sub_period : effects.

(** A delivery right after a commit starts from a committed database. *)
Lemma pres_commit_deliver (o : option BillingReport) :
  preserves (billing_wf w0) (commit ;; match o with Some r => deliver_safely (br_id r) | None => mret false end).
Proof.
  intros w [Hw _]. unfold mbind, M_bind, commit, modify.
  assert (H : billing_wf w0 (set_durable (db w) w)) by by split.
  destruct o as [r|]; [|exact H]. by apply deliver_safely_wf.
Qed.
Hint Resolve pres_commit_deliver : effects.

Lemma pres_report_overages org a inv : preserves (billing_wf w0) (report_overages_to_stripe org a inv).
Proof. unfold report_overages_to_stripe. respects_auto. Qed.
Hint Resolve pres_report_overages : effects.

Hint Extern 1 (respects _ (update_subscription _ _)) => apply pres_update_subscription; intros ?; reflexivity : effects.

Lemma pres_handle_checkout_completed obj : preserves (billing_wf w0) (handle_checkout_completed has_redis obj).
Proof. unfold handle_checkout_completed. respects_auto. Qed.
Lemma pres_sync_invoice_period s obj : preserves (billing_wf w0) (_sync_invoice_period has_redis s obj).
Proof. unfold _sync_invoice_period. respects_auto. Qed.
Hint Resolve pres_sync_invoice_period : effects.
Lemma pres_handle_invoice_created obj : preserves (billing_wf w0) (handle_invoice_created has_redis obj).
Proof. unfold handle_invoice_created. respects_auto. Qed.
Lemma pres_renew org a b : preserves (billing_wf w0) (renew org a b).
Proof. unfold renew. respects_auto. Qed.
Hint Resolve pres_renew : effects.
Lemma pres_handle_invoice_paid obj : preserves (billing_wf w0) (handle_invoice_paid has_redis obj).
Proof. unfold handle_invoice_paid. respects_auto. Qed.
Lemma pres_handle_invoice_payment_failed obj : preserves (billing_wf w0) (handle_invoice_payment_failed has_redis obj).
Proof. unfold handle_invoice_payment_failed. respects_auto. Qed.
Lemma pres_handle_subscription_updated obj : preserves (billing_wf w0) (handle_subscription_updated has_redis obj).
Proof. unfold handle_subscription_updated. respects_auto. apply pres_update_subscription. intros x. by destruct (updated_plan _ _). Qed.
Lemma pres_handle_subscription_deleted obj : preserves (billing_wf w0) (handle_subscription_deleted has_redis obj).
Proof. unfold handle_subscription_deleted. respects_auto. Qed.
End preservation.
