(* ===== verification/Frames.v ===== *)
(** * What the billing operations leave alone

    A [Frame] is a relation between the world before and after that every
    primitive effect of the billing operations respects; the operations, composed
    of these primitives, then respect it too.  A [CommitFrame] is also respected
    by commits and rollbacks.  Two instances: what is committed stays, until a
    commit; and the idempotency locks stay, whatever a handler does. *)
From stdpp Require Import base gmap strings list.
From Stdlib Require Import ZArith Lia ssreflect.
From S2P Require Import Prelude Constants Entities World Invariant BillingRepo Locks Usage ReportRepo Reporting Billing.

#[local] Open Scope Z_scope.

Class Frame (R : World -> World -> Prop) : Prop := {
  frame_preorder : PreOrder R;
  frame_uuid4 : respects R uuid4;
  frame_write_db : forall f, respects R (write_db f);
  frame_insert_row : forall A clash get set (row : A), respects R (insert_row clash get set row);
  frame_stripe_call : forall q, respects R (stripe_call q);
  frame_redis_update : forall f, (forall r t, r_locks (f r t) = r_locks r) -> respects R (redis_update f);
  frame_acquire : forall org v ttl, respects R (acquire_owned_lock (OverageLock org) v ttl);
  frame_release : forall org v, respects R (release_owned_lock (OverageLock org) v) }.
#[export] Existing Instance frame_preorder.

Class CommitFrame (R : World -> World -> Prop) : Prop := {
  commit_frame :: Frame R;
  frame_commit : respects R commit;
  frame_rollback : respects R rollback }.

Section frame.
Context (R : World -> World -> Prop) `{!Frame R} (h : bool).
Hint Resolve frame_uuid4 frame_write_db frame_insert_row frame_stripe_call frame_acquire frame_release : effects.
Hint Extern 1 (respects _ (redis_update _)) => apply frame_redis_update; intros ??; reflexivity : effects.

Lemma frame_insert_fresh {A} clash get set (mk : N -> A) : respects R (insert_fresh clash get set mk).
Proof. unfold insert_fresh. respects_auto. Qed.
Hint Resolve frame_insert_fresh : effects.

Lemma frame_update_subscription org f : respects R (update_subscription org f).
Proof. unfold update_subscription. respects_auto. Qed.
Lemma frame_advance_period org a b : respects R (advance_period org a b).
Proof. unfold advance_period. respects_auto. Qed.
Lemma frame_create_usage_record org a b : respects R (create_usage_record org a b).
Proof. unfold create_usage_record. respects_auto. Qed.
Lemma frame_mark_billed org a inv : respects R (mark_billed org a inv).
Proof. unfold mark_billed. respects_auto. Qed.
Lemma frame_update id f : respects R (update id f).
Proof. unfold update. respects_auto. Qed.
Hint Resolve frame_update_subscription frame_advance_period frame_create_usage_record frame_mark_billed frame_update : effects.

Lemma frame_sync_to_database org a b : respects R (sync_to_database org a b).
Proof. unfold sync_to_database, sync_period, upsert_usage_counters. respects_auto. Qed.
Lemma frame_stage sub a inv closing allow : respects R (stage sub a inv closing allow).
Proof. unfold stage, create. respects_auto. Qed.
Hint Resolve frame_sync_to_database frame_stage : effects.

Lemma frame_warm_sub_cache org : respects R (_warm_sub_cache h org).
Proof. unfold _warm_sub_cache, invalidate_subscription_cache. respects_auto. Qed.
Lemma frame_acquire_overage_lock org t : respects R (acquire_overage_lock h org t).
Proof. unfold acquire_overage_lock. respects_auto. Qed.
Lemma frame_release_overage_lock org t : respects R (release_overage_lock h org t).
Proof. unfold release_overage_lock. respects_auto. Qed.
Hint Resolve frame_warm_sub_cache frame_acquire_overage_lock frame_release_overage_lock : effects.

Lemma frame_retrieve_sub_period id : respects R (retrieve_sub_period id).
Proof. unfold retrieve_sub_period. respects_auto. Qed.
Lemma frame_sync_invoice_period s obj : respects R (_sync_invoice_period h s obj).
Proof. unfold _sync_invoice_period. respects_auto. Qed.
Lemma frame_get_or_create org a b : respects R (get_or_create_usage_record org a b).
Proof. unfold get_or_create_usage_record. respects_auto. Qed.
Lemma frame_create_subscription org p c i a b : respects R (create_subscription org p c i a b).
Proof. unfold create_subscription. respects_auto. Qed.
End frame.

Section commit_frame.
Context (R : World -> World -> Prop) `{!CommitFrame R} (h : bool).
Hint Resolve commit_frame frame_uuid4 frame_write_db frame_insert_row frame_stripe_call frame_acquire frame_release frame_commit frame_rollback
  frame_insert_fresh frame_update_subscription frame_advance_period frame_create_usage_record frame_mark_billed frame_update
  frame_sync_to_database frame_stage frame_warm_sub_cache frame_acquire_overage_lock frame_release_overage_lock
  frame_retrieve_sub_period frame_sync_invoice_period frame_get_or_create frame_create_subscription : effects.
Hint Extern 1 (respects _ (redis_update _)) => apply frame_redis_update; intros ??; reflexivity : effects.

Lemma frame_deliver_step id : respects R (deliver_step id).
Proof.
  unfold deliver_step, freeze, recover, charge, confirm, _find_existing, _review, retrieve_invoice_status, finish.
  respects_auto.
Qed.
Hint Resolve frame_deliver_step : effects.
Lemma frame_deliver_loop fuel id : respects R (deliver_loop fuel id).
Proof. induction fuel as [|fuel IH]; cbn [deliver_loop]; respects_auto. Qed.
Hint Resolve frame_deliver_loop : effects.
Lemma frame_deliver_safely id : respects R (deliver_safely id).
Proof. unfold deliver_safely, deliver. respects_auto. Qed.
Hint Resolve frame_deliver_safely : effects.

Lemma frame_report_overages org a inv : respects R (report_overages_to_stripe org a inv).
Proof. unfold report_overages_to_stripe. respects_auto. Qed.
Hint Resolve frame_report_overages : effects.

Lemma frame_renew org a b : respects R (renew org a b).
Proof. unfold renew. respects_auto. Qed.
Hint Resolve frame_renew : effects.
Lemma frame_checkout obj : respects R (handle_checkout_completed h obj).
Proof. unfold handle_checkout_completed. respects_auto. Qed.
Lemma frame_invoice_created obj : respects R (handle_invoice_created h obj).
Proof. unfold handle_invoice_created. respects_auto. Qed.
Lemma frame_invoice_paid obj : respects R (handle_invoice_paid h obj).
Proof. unfold handle_invoice_paid. respects_auto. Qed.
Lemma frame_payment_failed obj : respects R (handle_invoice_payment_failed h obj).
Proof. unfold handle_invoice_payment_failed. respects_auto. Qed.
Lemma frame_subscription_updated obj : respects R (handle_subscription_updated h obj).
Proof. unfold handle_subscription_updated. respects_auto. Qed.
Lemma frame_subscription_deleted obj : respects R (handle_subscription_deleted h obj).
Proof. unfold handle_subscription_deleted. respects_auto. Qed.
Lemma frame_with_session {A} (m : M World A) : respects R m -> respects R (with_session m).
Proof. intros H. unfold with_session. respects_auto. Qed.
Lemma frame_ensure : respects R _ensure_stripe_configured.
Proof. unfold _ensure_stripe_configured. respects_auto. Qed.
End commit_frame.

(** ** Instances *)

(** What is committed stays committed. *)
Definition same_durable (w w' : World) : Prop := durable w' = durable w.

Lemma stripe_call_frame (R : World -> World -> Prop) q :
  (forall w s l, R w (set_stripe s l w)) -> respects R (stripe_call q).
Proof. intros H w. unfold stripe_call. destruct (stripe_script w); apply H. Qed.
Lemma run_script_frame (R : World -> World -> Prop) {A} (f : Z -> Keyspace -> A * Keyspace) :
  (forall w m, R w (set_redis (set_locks m (redis w)) w)) -> respects R (run_script f).
Proof. intros H w. unfold run_script. destruct (f _ _). apply H. Qed.

#[export] Instance same_durable_frame : Frame same_durable.
Proof.
  split.
  - split; [done|]. intros x y z H1 H2. unfold same_durable in *. congruence.
  - done.
  - done.
  - intros A clash get set row w. unfold insert_row. by destruct (existsb _ _).
  - intros q. by apply stripe_call_frame.
  - done.
  - intros org v ttl. by apply run_script_frame.
  - intros org v. by apply run_script_frame.
Qed.

(** The lock keyspace outside the overage locks, at a constant clock. *)
Definition keeps_lock (k : LockKey) (w w' : World) : Prop :=
  now w' = now w /\ r_locks (redis w') !! k = r_locks (redis w) !! k.

#[export] Instance keeps_lock_frame k : (forall org, OverageLock org <> k) -> CommitFrame (keeps_lock k).
Proof.
  intros Hk. split; [split|done|done].
  - split; [done|]. intros x y z [H1 H2] [H3 H4]. split; congruence.
  - done.
  - done.
  - intros A clash get set row w. unfold insert_row. by destruct (existsb _ _).
  - intros q. by apply stripe_call_frame.
  - intros f H w. split; [done|]. cbn. by rw H.
  - intros org v ttl w. unfold acquire_owned_lock, run_script.
    pose proof (acquire_other (OverageLock org) v ttl (now w) (r_locks (redis w)) k (Hk org)) as H.
    destruct (ACQUIRE_LOCK_SCRIPT _ _ _ _ _) as [b m]. split; [done|]. exact H.
  - intros org v w. split; [done|]. unfold release_owned_lock, run_script, RELEASE_LOCK_SCRIPT. cbn.
    case_bool_decide; [|done]. apply lookup_delete_ne, Hk.
Qed.
