(* ===== verification/BillingFacts.v ===== *)
(** * What the billing handlers guarantee

    Atomicity of renewals, which invoices close a period, and the agreement of the
    overage calculation with what is reserved. *)
From stdpp Require Import base gmap strings list.
From Stdlib Require Import ZArith Lia ssreflect.
From S2P Require Import Prelude Constants Entities World Invariant BillingRepo Locks Usage ReportRepo Reporting Billing Frames.

#[local] Open Scope Z_scope.

(** ** Handlers that fail leave the database alone *)

(** An exception leaves what was committed before the handler. *)
Definition atomic {A} (m : M World A) : Prop :=
  forall w e w', m w = (Err e, w') -> durable w' = durable w.

(** [total m]: no exception. *)
Definition total {A} (m : M World A) : Prop := forall w, exists a w', m w = (Ok a, w').

Lemma atomic_quiet {A} (m : M World A) : respects same_durable m -> atomic m.
Proof. intros H w e w' E. specialize (H w). by rw E in H. Qed.

Lemma atomic_bind {A B} (m : M World A) (k : A -> M World B) :
  respects same_durable m -> (forall a, atomic (k a)) -> atomic (m ≫= k).
Proof.
  intros Hm Hk w e w' E. apply bind_Err_inv in E as [E|(a & w1 & E1 & E2)].
  - specialize (Hm w). by rw E in Hm.
  - specialize (Hm w). rw E1 in Hm. rw (Hk a w1 e w' E2). exact Hm.
Qed.

Lemma atomic_bind_total {A B} (m : M World A) (k : A -> M World B) :
  atomic m -> (forall a, total (k a)) -> atomic (m ≫= k).
Proof.
  intros Hm Hk w e w' E. apply bind_Err_inv in E as [E|(a & w1 & E1 & E2)]; [exact (Hm w e w' E)|].
  destruct (Hk a w1) as (b & w2 & E3). by rw E3 in E2.
Qed.

Lemma atomic_finally {A} (m : M World A) f : atomic m -> total f -> respects same_durable f -> atomic (try_finally m f).
Proof.
  intros Hm Hf Hq w e w' E. unfold try_finally in E. destruct (m w) as [r w1] eqn:Em.
  destruct (Hf w1) as (u & w2 & Ef). specialize (Hq w1). rw Ef in E Hq. injection E as -> <-.
  rw Hq. exact (Hm w e w1 Em).
Qed.

Lemma total_release h org t : total (_ ← release_overage_lock h org t; mret tt).
Proof.
  intros w. unfold release_overage_lock. destruct h; cbn; [|by eauto]. destruct (t !! org); [|by eauto].
  unfold mbind, M_bind, release_owned_lock, run_script. by eauto.
Qed.
Lemma total_warm h org : total (_warm_sub_cache h org).
Proof.
  intros w. unfold _warm_sub_cache. destruct h; cbn [negb]; [|by eauto]. unfold try_except.
  match goal with |- context [match ?x with _ => _ end] => destruct x as [[[]|e] w1] end; by eauto.
Qed.
Lemma total_commit : total commit.
Proof. intros w. by eauto. Qed.

Section quiet.
Context (h : bool).
Hint Resolve frame_uuid4 frame_write_db frame_insert_row frame_stripe_call frame_acquire frame_release
  frame_insert_fresh frame_update_subscription frame_advance_period frame_create_usage_record frame_mark_billed frame_update
  frame_sync_to_database frame_stage frame_warm_sub_cache frame_acquire_overage_lock frame_release_overage_lock
  frame_retrieve_sub_period frame_sync_invoice_period frame_get_or_create frame_create_subscription
  same_durable_frame : effects.

Lemma atomic_renew org a b : atomic (renew org a b).
Proof.
  unfold renew. apply atomic_bind; [respects_auto|intros _]. apply atomic_bind; [respects_auto|intros _].
  apply atomic_bind; [respects_auto|intros _]. intros w e w' E. discriminate E.
Qed.

Lemma atomic_invoice_paid obj : atomic (handle_invoice_paid h obj).
Proof.
  unfold handle_invoice_paid. destruct (_invoice_subscription_id obj) as [[|c i]|];
    [apply atomic_quiet; respects_auto| |apply atomic_quiet; respects_auto].
  apply atomic_bind; [respects_auto|intros [s|]]; [|apply atomic_quiet; respects_auto].
  apply atomic_bind; [respects_auto|intros new]. apply atomic_bind_total; [|intros _; apply total_warm].
  destruct (is_renewal obj); [|apply atomic_renew].
  apply atomic_bind; [respects_auto|intros lock]. apply atomic_bind; [respects_auto|intros _].
  apply atomic_finally; [|apply total_release|respects_auto].
  apply atomic_bind; [respects_auto|intros u]. apply atomic_bind; [respects_auto|intros _]. apply atomic_renew.
Qed.
End quiet.

(** A renewal is all or nothing.  When [handle_invoice_paid] raises anywhere
    (Stripe, a busy lock, missing history, a constraint), nothing it did is
    committed: the closing report, the billed mark, the new period and its usage
    record become durable together or not at all. *)
Theorem invoice_paid_all_or_nothing (h : bool) (obj : StripeInvoice) :
  atomic (handle_invoice_paid h obj).
Proof. apply atomic_invoice_paid. Qed.

Definition sample_invoice (reason : option string) : StripeInvoice :=
  {| inv_id := "in_1"; inv_billing_reason := reason;
     inv_parent := Some {| par_subscription_details := Some {| det_subscription := Some (SubId "sub_1") |} |};
     inv_subscription := None;
     inv_period_start := Some (10 * 86400); inv_period_end := Some (40 * 86400) |}.
Definition renewal_invoice : StripeInvoice := sample_invoice (Some RENEWAL_BILLING_REASON).
Definition signup_invoice : StripeInvoice := sample_invoice (Some "subscription_create"%string).

Definition renewing_world : World := set_stripe [RespSubscription [(40 * 86400, 70 * 86400)]] [] pro_world.

Example invoice_paid_all_or_nothing_witness :
  let w' := (handle_invoice_paid true renewal_invoice pro_world).2 in durable w' = durable pro_world.
Proof.
  destruct (handle_invoice_paid true renewal_invoice pro_world) as [r w'] eqn:E.
  assert (Hr : r = Err StripeFailure).
  { change r with ((r, w').1). rewrite <- E. vm_compute. reflexivity. }
  rewrite Hr in E. exact (invoice_paid_all_or_nothing true renewal_invoice pro_world StripeFailure w' E).
Defined.

Example renewal_run :
  let '(r, w') := handle_invoice_paid true renewal_invoice renewing_world in
  r = Ok tt /\ List.map period (subscriptions (durable w')) = [(days 40, days 70)] /\
  List.map (fun u => (ur_start u, ur_billed u)) (usage_records (durable w')) = [(days 10, true); (days 40, false)] /\
  List.map (fun r => (br_closing r, units_of r TRACES)) (billing_reports (durable w')) = [(Some "in_1"%string, 10)].
Proof. vm_compute. by split_and!. Qed.

(** ** Which invoices close a period *)

(** No usage record becomes billed. *)
Definition opens_only (w w' : World) : Prop :=
  forall u', u' ∈ usage_records (db w') -> ur_billed u' = true ->
    exists u, u ∈ usage_records (db w) /\ ur_id u = ur_id u' /\ ur_billed u = true.

#[export] Instance opens_only_preorder : PreOrder opens_only.
Proof.
  split; [intros w u Hu Hb; by exists u|]. intros x y z H1 H2 u Hu Hb.
  destruct (H2 u Hu Hb) as (v & Hv & Hid & Hvb). destruct (H1 v Hv Hvb) as (t & Ht & Htid & Htb).
  exists t. split_and!; [done|congruence|done].
Qed.

Lemma opens_same {A} (m : M World A) : (forall w, usage_records (db (m w).2) = usage_records (db w)) -> respects opens_only m.
Proof. intros H w u Hu Hb. rw H in Hu. by exists u. Qed.

Lemma same_usage_update_subscription org f w :
  usage_records (db (update_subscription org f w).2) = usage_records (db w).
Proof.
  unfold update_subscription, mbind, M_bind. destruct (get_subscription_by_org org w) as [r w1] eqn:E.
  destruct (find_subscription_run _ _ _ _ E) as [-> _]. destruct r as [[s|]|e]; [|done|done].
  cbn. by destruct (existsb _ _).
Qed.

Lemma opens_create_usage org a b : respects opens_only (create_usage_record org a b).
Proof.
  intros w u Hu Hb. revert Hu. unfold create_usage_record, insert_fresh, mbind, M_bind, utcnow, gets, uuid4, insert_row.
  cbn -[N.succ]. destruct (existsb _ _); cbn -[N.succ]; [by eauto|].
  intros [Hu| ->%list_elem_of_singleton]%elem_of_app; [by eauto|done].
Qed.

Lemma opens_renew org a b : respects opens_only (renew org a b).
Proof.
  unfold renew, get_or_create_usage_record. respects_auto.
  - by apply opens_same.
  - apply opens_create_usage.
  - apply opens_same, same_usage_update_subscription.
  - by apply opens_same.
Qed.

Lemma opens_warm h org : respects opens_only (_warm_sub_cache h org).
Proof. unfold _warm_sub_cache. respects_auto; by apply opens_same. Qed.

(** Only a renewal closes a period.  Paying any other invoice, in particular the
    signup invoice that opens a subscription's first period, marks no usage record
    as billed, so the first month's overage stays billable. *)
Theorem only_renewal_closes_period (h : bool) (obj : StripeInvoice) (w w' : World) (r : res unit) :
  is_renewal obj = false -> handle_invoice_paid h obj w = (r, w') -> opens_only w w'.
Proof.
  intros Hn E. assert (H : respects opens_only (handle_invoice_paid h obj)).
  { unfold handle_invoice_paid, retrieve_sub_period. rw Hn. respects_auto; [|apply opens_renew..|apply opens_warm].
    apply opens_same. intros v. unfold stripe_call. by destruct (stripe_script v). }
  specialize (H w). by rw E in H.
Qed.

Example only_renewal_closes_period_witness :
  opens_only renewing_world (handle_invoice_paid true signup_invoice renewing_world).2.
Proof.
  destruct (handle_invoice_paid true signup_invoice renewing_world) as [r w'] eqn:E.
  exact (only_renewal_closes_period true signup_invoice renewing_world w' r eq_refl E).
Defined.

(** ** The overage calculation *)

Lemma overage_delta_stage b count rep :
  overage_delta b count rep = max0 (Z.max rep count - b) - max0 (rep - b).
Proof. unfold overage_delta, max0. lia. Qed.

Lemma get_subscription_Some w0 org w s :
  billing_wf w0 w -> s ∈ subscriptions (db w) -> sub_org s = org -> get_subscription_by_org org w = (Ok (Some s), w).
Proof.
  intros [(Ht & _) _] Hs Ho. unfold get_subscription_by_org, find_subscription, mbind, M_bind, read_db, gets, lift.
  pose proof (wf_one_sub_org (next_id w) (db w) org Ht) as H1. unfold at_most_one in H1.
  assert (Hin : s ∈ select (by_org org) (subscriptions (db w))).
  { apply elem_of_select. split; [done|]. unfold by_org. by rw bool_decide_eq_true_2. }
  change (fun s => bool_decide (sub_org s = org)) with (by_org org) in H1.
  destruct (select (by_org org) (subscriptions (db w))) as [|x [|y l]]; [by inversion Hin| |cbn in H1; lia].
  by apply list_elem_of_singleton in Hin as ->.
Qed.

Lemma of_period_select n d u org a :
  wf_tables n d -> u ∈ usage_records d -> ur_org u = org -> ur_start u = a ->
  scalar_one_or_none (select (of_period org a) (usage_records d)) = Ok (Some u).
Proof.
  intros Ht Hu Ho Ha. pose proof (wf_one_usage n d org a Ht) as H1. unfold at_most_one in H1.
  change (fun u => _) with (of_period org a) in H1.
  assert (Hin : u ∈ select (of_period org a) (usage_records d)).
  { apply elem_of_select. split; [done|]. by apply of_period_refl. }
  destruct (select (of_period org a) (usage_records d)) as [|x [|y l]]; [by inversion Hin| |cbn in H1; lia].
  by apply list_elem_of_singleton in Hin as ->.
Qed.

(** The first reservation of a period. *)
Lemma stage_first s w w1 u o :
  lock_usage (sub_org s) (sub_start s) w = (Ok (Some u), w) -> ur_billed u = false ->
  reports_of (db w) (ur_id u) = [] -> pay_as_you_go (get_plan_config (sub_plan s)) = true ->
  stage s (sub_start s) None None false w = (Ok o, w1) ->
  let req := fun c => stage_request (next_id w) (sub_org s) (default EmptyString (sub_customer s)) (sub_stripe_id s) None
    (plan_pricing (get_plan_config (sub_plan s))) u c (reserved u [] c) (staged_snapshot u [] c) in
  (o = None /\ forall c, req c = None) \/ (exists r, o = Some r /\ forall c, br_requests r !! c = req c).
Proof.
  intros Hget Hb Hnil Hp H req. revert H. unfold stage. erewrite bind_Ok by exact Hget. cbn beta iota. rw Hb. cbn [andb].
  unfold list_for_usage, read_db, gets, mbind, M_bind. cbn beta iota. rw Hnil. cbn [order_by foldr truthy]. rw Hp.
  cbn [negb andb]. unfold guard_not. destruct (negb (truthy (sub_customer s))); [done|].
  cbv [uuid4 mret M_ret create mbind M_bind utcnow gets insert_row]. cbn [now set_next_id db next_id].
  case_bool_decide as Hd; cbn [andb].
  - intros [= <- <-]. left. split; [done|]. intros c.
    transitivity (dict_of req !! c); [symmetry; apply lookup_dict_of|].
    transitivity ((∅ : gmap UsageCategory ItemRequest) !! c); [f_equal; exact Hd|apply lookup_empty].
  - destruct (existsb _ _); [done|]. intros [= <- <-]. right. eexists. split; [done|]. intros c. apply lookup_dict_of.
Qed.

(** The announced units are those of the report, none if there is no report, and
    the total is their price. *)
Definition announces (d : OverageDetail) (o : option BillingReport) : Prop :=
  (forall c, cnt (od_overage d) c = match o with Some r => units_of r c | None => 0 end) /\
  od_total_cost d = dec_mul_int OVERAGE_UNIT_PRICE
    (cnt (od_overage d) TRACES + cnt (od_overage d) TRACE_EVALS + cnt (od_overage d) SESSION_EVALS).

(** The calculated overage is the reserved overage.  For a usage-based plan and an
    open period without reports, [calculate_unreported_overages] announces for each
    category exactly the units that [stage] would reserve, and a total cost that is
    the overage price of all of them. *)
Theorem calculated_is_reserved (w0 : Ghost) (w w1 : World) (s : Subscription) (u : UsageRecord) (o : option BillingReport) :
  billing_wf w0 w -> s ∈ subscriptions (db w) -> pay_as_you_go (get_plan_config (sub_plan s)) = true ->
  u ∈ usage_records (db w) -> ur_org u = sub_org s -> ur_start u = sub_start s -> ur_billed u = false ->
  reports_of (db w) (ur_id u) = [] ->
  stage s (sub_start s) None None false w = (Ok o, w1) ->
  exists d, (calculate_unreported_overages (sub_org s) None w).1 = Ok d /\ announces d o.
Proof.
  intros Hw Hs Hp Hu Ho Hst Hb Hnil E.
  assert (Hget : lock_usage (sub_org s) (sub_start s) w = (Ok (Some u), w)).
  { unfold lock_usage, mbind, M_bind, read_db, gets, lift. destruct Hw as [(Ht & _) _].
    by rw (of_period_select (next_id w) (db w) u (sub_org s) (sub_start s)). }
  assert (Hcalc : (calculate_unreported_overages (sub_org s) None w).1 = Ok (overage_detail (get_plan_config (sub_plan s)) u)).
  { unfold calculate_unreported_overages. erewrite bind_Ok by exact (get_subscription_Some w0 _ w s Hw Hs eq_refl).
    cbn beta iota. rw Hp. cbn [negb default from_option]. erewrite bind_Ok by exact Hget. cbn beta iota. by rw Hb. }
  exists (overage_detail (get_plan_config (sub_plan s)) u). split; [done|]. split; [|done].
  intros c. cbn [od_overage overage_detail]. rw cnt_counts_of overage_delta_stage.
  destruct (stage_first _ _ _ _ _ Hget Hb Hnil Hp E) as [[-> Hnone]|(r & -> & Hr)].
  - specialize (Hnone c). unfold stage_request in Hnone. destruct (_ <=? 0) eqn:E0; [|done].
    apply Z.leb_le in E0. unfold staged_snapshot, reserved in E0. cbn in E0. rw cnt_counts_of in E0. unfold max0 in *. lia.
  - unfold units_of. rw Hr. unfold stage_request, staged_snapshot, reserved. cbn. rw cnt_counts_of.
    destruct (_ <=? 0) eqn:E0; [|done]. apply Z.leb_le in E0. unfold max0 in *. lia.
Qed.

Example calculated_is_reserved_witness :
  (calculate_unreported_overages 7 None pro_world).1 = Ok (overage_detail (PLAN_LIMITS PRO) pro_usage) /\
  exists d, (calculate_unreported_overages 7 None pro_world).1 = Ok d /\ cnt (od_overage d) TRACES = 10.
Proof.
  split; [vm_compute; reflexivity|].
  destruct (stage pro_sub (sub_start pro_sub) None None false pro_world) as [r w1] eqn:E.
  assert (Hr : exists rep, r = Ok (Some rep) /\ units_of rep TRACES = 10).
  { assert (H : (r, w1).1 = (stage pro_sub (days 10) None None false pro_world).1) by (rewrite -E; reflexivity).
    cbn in H. rewrite H. vm_compute. eexists. split; reflexivity. }
  destruct Hr as (rep & Hr & Hu). rewrite Hr in E.
  destruct (calculated_is_reserved from_start pro_world w1 pro_sub pro_usage (Some rep) pro_world_wf
    ltac:(left) eq_refl ltac:(left) eq_refl eq_refl eq_refl eq_refl E) as (d & Hd & Hc & _).
  exists d. split; [exact Hd|]. rewrite (Hc TRACES). exact Hu.
Defined.
