(* ===== verification/Webhook.v ===== *)
(** * The Stripe webhook endpoint (api/v1/routes/webhooks.py)

    The route of a delivered event, under the two-phase idempotency lock. *)
From stdpp Require Import base gmap strings list.
From Stdlib Require Import ZArith Lia ssreflect.
From S2P Require Import Prelude Constants Entities World Invariant BillingRepo Locks Usage ReportRepo Reporting Billing Frames.

#[local] Open Scope Z_scope.

Definition IDEMPOTENCY_TTL : Z := 259200.
Definition PROCESSING_LOCK_TTL : Z := 300.

(** The handled event types with their objects, and any other type. *)
Inductive StripeEvent :=
  | CheckoutCompleted (obj : StripeCheckout)
  | InvoiceCreated (obj : StripeInvoice)
  | InvoicePaid (obj : StripeInvoice)
  | InvoicePaymentFailed (obj : StripeInvoice)
  | SubscriptionUpdated (obj : StripeSubscription)
  | SubscriptionDeleted (obj : StripeSubscription)
  | OtherEvent.

(** What [stripe.Webhook.construct_event] makes of the request. *)
Inductive Verified :=
  | InvalidPayload
  | InvalidSignature
  | Verified_event (event_id : string) (event : StripeEvent).

Definition handled (e : StripeEvent) : bool := match e with OtherEvent => false | _ => true end.

Definition dispatch (e : StripeEvent) : M World unit :=
  match e with
  | CheckoutCompleted obj => handle_checkout_completed true obj
  | InvoiceCreated obj => handle_invoice_created true obj
  | InvoicePaid obj => handle_invoice_paid true obj
  | InvoicePaymentFailed obj => handle_invoice_payment_failed true obj
  | SubscriptionUpdated obj => handle_subscription_updated true obj
  | SubscriptionDeleted obj => handle_subscription_deleted true obj
  | OtherEvent => mret tt
  end.

(** The HTTP status of the answer; an exception becomes a 500 (or the class's
    status) in the application's handler, and makes Stripe retry. *)
Definition stripe_webhook (request : Verified) : M World Z :=
  match request with
  | InvalidPayload | InvalidSignature => mret 400
  | Verified_event event_id event =>
      if negb (handled event) then mret 200 else
      token ← uuid4;
      acquired ← acquire_owned_lock (StripeEvt event_id) (Tok token) PROCESSING_LOCK_TTL;
      if negb acquired then mret 200 else
      try_except
        (with_session (_ensure_stripe_configured ;; dispatch event))
        (fun e => release_owned_lock (StripeEvt event_id) (Tok token) ;; raise e) ;;
      _ ← complete_owned_lock (StripeEvt event_id) (Tok token) IDEMPOTENCY_TTL;
      mret 200
  end.

(** ** The billing invariant *)

Lemma respects_with_session {A} w0 (m : M World A) :
  preserves (billing_wf w0) m -> preserves (billing_wf w0) (with_session m).
Proof. intros H. unfold with_session. respects_auto. Qed.

Lemma pres_ensure_stripe_configured w0 : preserves (billing_wf w0) _ensure_stripe_configured.
Proof. unfold _ensure_stripe_configured. respects_auto. Qed.
#[export] Hint Resolve pres_ensure_stripe_configured : effects.

Lemma pres_dispatch w0 e : preserves (billing_wf w0) (dispatch e).
Proof.
  destruct e; [apply pres_handle_checkout_completed|apply pres_handle_invoice_created|apply pres_handle_invoice_paid
    |apply pres_handle_invoice_payment_failed|apply pres_handle_subscription_updated
    |apply pres_handle_subscription_deleted|apply respects_ret; typeclasses eauto].
Qed.
#[export] Hint Resolve pres_dispatch pres_acquire_owned_lock pres_release_owned_lock pres_complete_owned_lock : effects.

Lemma pres_stripe_webhook w0 request : preserves (billing_wf w0) (stripe_webhook request).
Proof. unfold stripe_webhook. respects_auto. apply respects_with_session. respects_auto. Qed.

(** ** Idempotency *)

Lemma frame_session k e : (forall org, OverageLock org <> k) ->
  respects (keeps_lock k) (with_session (_ensure_stripe_configured ;; dispatch e)).
Proof.
  intros Hk. pose proof (keeps_lock_frame k Hk) as HF. apply frame_with_session; [done|].
  apply respects_bind; [typeclasses eauto|by apply frame_ensure|intros _].
  destruct e; cbn [dispatch].
  - by apply frame_checkout.
  - by apply frame_invoice_created.
  - by apply frame_invoice_paid.
  - by apply frame_payment_failed.
  - by apply frame_subscription_updated.
  - by apply frame_subscription_deleted.
  - apply respects_ret. typeclasses eauto.
Qed.

(** The world in which the handler starts: the processing lock is ours. *)
Definition locked_world (id : string) (w : World) : World :=
  let w1 := set_next_id (N.succ (next_id w)) w in
  set_redis (set_locks (SETEX (now w) (r_locks (redis w)) (StripeEvt id) (Tok (next_id w)) PROCESSING_LOCK_TTL) (redis w)) w1.

Lemma stripe_webhook_run id e w :
  handled e = true -> GET (now w) (r_locks (redis w)) (StripeEvt id) = None ->
  let '(r, w2) := with_session (_ensure_stripe_configured ;; dispatch e) (locked_world id w) in
  now w2 = now w /\ GET (now w) (r_locks (redis w2)) (StripeEvt id) = Some (Tok (next_id w)) /\
  stripe_webhook (Verified_event id e) w =
    match r with
    | Ok _ => (Ok 200, set_redis (set_locks
        (SETEX (now w) (r_locks (redis w2)) (StripeEvt id) Completed IDEMPOTENCY_TTL) (redis w2)) w2)
    | Err ex => (Err ex, set_redis (set_locks (delete (StripeEvt id) (r_locks (redis w2))) (redis w2)) w2)
    end.
Proof.
  intros He Hg. destruct (with_session _ (locked_world id w)) as [r w2] eqn:Es.
  assert (Hk : keeps_lock (StripeEvt id) (locked_world id w) w2).
  { pose proof (frame_session (StripeEvt id) e ltac:(done) (locked_world id w)) as H. by rw Es in H. }
  destruct Hk as [Hn Hl]. cbn in Hn, Hl.
  assert (Hget : GET (now w) (r_locks (redis w2)) (StripeEvt id) = Some (Tok (next_id w))).
  { unfold GET. rw Hl. apply (GET_SETEX (now w) (now w)). unfold PROCESSING_LOCK_TTL, second. lia. }
  split; [done|]. split; [done|].
  unfold stripe_webhook. rw He. cbn [negb]. unfold mbind at 1, M_bind at 1. cbn [uuid4].
  unfold mbind at 1, M_bind at 1. unfold acquire_owned_lock, run_script, ACQUIRE_LOCK_SCRIPT. cbn -[with_session SETEX GET].
  rw Hg. cbn -[with_session SETEX GET]. fold (locked_world id w). unfold mbind at 1, M_bind at 1, try_except. rw Es.
  destruct r as [[]|ex]; cbn -[SETEX GET].
  - unfold mbind, M_bind, complete_owned_lock, run_script, COMPLETE_LOCK_SCRIPT. rw Hn Hget. by rw bool_decide_eq_true_2.
  - unfold mbind, M_bind, release_owned_lock, run_script, RELEASE_LOCK_SCRIPT. rw Hn Hget. by rw bool_decide_eq_true_2.
Qed.

(** C18: Each event is processed once.  When an event whose lock is free is delivered:
    if its handler succeeds, the answer is 200 and, for the next 72 hours, every
    redelivery of the event is answered 200 without running a handler; if its
    handler raises, the exception reaches Stripe and the lock is free again, so
    that Stripe's retry is processed. *)
Theorem webhook_processed_once (id : string) (e : StripeEvent) (w w' : World) (r : res Z) :
  handled e = true -> GET (now w) (r_locks (redis w)) (StripeEvt id) = None ->
  stripe_webhook (Verified_event id e) w = (r, w') ->
  let handler := (with_session (_ensure_stripe_configured ;; dispatch e) (locked_world id w)).1 in
  match r with
  | Ok status => status = 200 /\ handler = Ok tt /\
      forall w2 e2, handled e2 = true -> now w <= now w2 < now w + hours 72 ->
        r_locks (redis w2) !! StripeEvt id = r_locks (redis w') !! StripeEvt id ->
        stripe_webhook (Verified_event id e2) w2 = (Ok 200, set_next_id (N.succ (next_id w2)) w2)
  | Err ex => handler = Err ex /\ GET (now w') (r_locks (redis w')) (StripeEvt id) = None
  end.
Proof.
  intros He Hg E. pose proof (stripe_webhook_run id e w He Hg) as H.
  destruct (with_session _ (locked_world id w)) as [rh w2] eqn:Es. destruct H as (Hn & Hl & H).
  rw E in H. destruct rh as [[]|ex]; injection H as -> ->; [|split; [done|]; by unfold GET; cbn; rw lookup_delete_eq].
  split; [done|]. split; [done|]. intros w3 e3 He3 Ht Hsame. cbn in Hsame.
  assert (Hget : GET (now w3) (r_locks (redis w3)) (StripeEvt id) = Some Completed).
  { unfold GET. rw Hsame. apply (GET_SETEX (now w) (now w3)). unfold IDEMPOTENCY_TTL, hours, second in *. lia. }
  unfold stripe_webhook. rw He3. cbn [negb]. unfold mbind, M_bind, uuid4, acquire_owned_lock, run_script, ACQUIRE_LOCK_SCRIPT.
  cbn -[GET]. rw Hget. cbn -[N.succ]. by destruct w3 as [? ? [] ? ? ? ? ? ? ?].
Qed.

Definition failed_payment (sub : string) : StripeInvoice :=
  {| inv_id := "in_2"; inv_billing_reason := None; inv_parent := None; inv_subscription := Some (SubId sub);
     inv_period_start := None; inv_period_end := None |}.

Example webhook_processed_once_witness :
  let w' := (stripe_webhook (Verified_event "evt_1" (InvoicePaymentFailed (failed_payment "sub_1"))) pro_world).2 in
  List.map sub_status (subscriptions (durable w')) = [PAST_DUE] /\
  stripe_webhook (Verified_event "evt_1" (InvoicePaymentFailed (failed_payment "sub_1"))) w'
    = (Ok 200, set_next_id (N.succ (next_id w')) w').
Proof.
  split; [vm_compute; reflexivity|].
  destruct (stripe_webhook (Verified_event "evt_1" (InvoicePaymentFailed (failed_payment "sub_1"))) pro_world)
    as [r w'] eqn:E. cbn [snd].
  assert (Hr : r = Ok 200 /\ now w' = days 20).
  { change r with ((r, w').1). change (now w') with (now (r, w').2). rewrite -E. vm_compute. split; reflexivity. }
  destruct Hr as [Hr Hn].
  assert (H := webhook_processed_once "evt_1" (InvoicePaymentFailed (failed_payment "sub_1")) pro_world w' r
    eq_refl eq_refl E). rewrite Hr in H. destruct H as (_ & _ & H).
  apply (H w' (InvoicePaymentFailed (failed_payment "sub_1")) eq_refl).
  - rewrite Hn. vm_compute. split; [discriminate|reflexivity].
  - reflexivity.
Defined.
