(* ===== verification/BillingTasks.v ===== *)
(** * Billing tasks (infrastructure/queue/tasks.py)

    The periodic dispatchers, which fan out one task per organisation under a
    single-flight lock, and the workers they start.  A task that raises is
    redelivered by the broker; a redelivery is another run of the task. *)
From stdpp Require Import base gmap strings list.
From Stdlib Require Import ZArith Lia ssreflect.
From S2P Require Import Prelude Constants Entities World Invariant BillingRepo Locks Usage ReportRepo Reporting Billing Webhook.

#[local] Open Scope Z_scope.

Definition DISPATCH_LOCK_TTL : Z := 120.

(** [SET key "1" NX EX ttl] *)
Definition SETNX (k : LockKey) (ttl t : Z) (m : Keyspace) : bool * Keyspace :=
  match GET t m k with
  | Some _ => (false, m)
  | None => (true, SETEX t m k (Tok 0) ttl)
  end.

(** [async with _dispatch_once(name) as claimed] *)
Definition _dispatch_once (name : string) : M World bool :=
  run_script (SETNX (DispatchLock name) DISPATCH_LOCK_TTL).

(** The answer of a dispatcher: whether it dispatched, and how many. *)
Inductive Dispatched := SkippedDuplicate | DispatchedCount (n : nat) | DispatchError (e : exn).

(** The [try ... except Exception] around a dispatcher's body. *)
Definition dispatcher (m : M World Dispatched) : M World Dispatched :=
  try_except m (fun e => mret (DispatchError e)).

(** Claim the lock, query the organisations, enqueue one task each. *)
Definition fan_out {A} (name : string) (query : M World (list A)) (task : A -> Task) : M World Dispatched :=
  claimed ← _dispatch_once name;
  if negb claimed then mret SkippedDuplicate else
  ids ← with_session query;
  for_each ids (fun id => enqueue (task id)) ;;
  mret (DispatchedCount (length ids)).

Definition dispatch_sync_usage : M World Dispatched :=
  dispatcher (fan_out "sync_usage" list_all_active_org_ids TSyncOrg).

Definition dispatch_overage_billing : M World Dispatched :=
  dispatcher (fan_out "overage_billing" list_paid_active_org_ids TBillOrg).

Definition dispatch_hobby_reset : M World Dispatched :=
  now ← utcnow;
  dispatcher (fan_out "hobby_reset" (list_hobby_org_ids_due_for_reset now) TResetHobby).

Definition dispatch_billing_reports : M World Dispatched :=
  claimed ← _dispatch_once "billing_reports";
  if negb claimed then mret (DispatchedCount 0) else
  found ← with_session
    (pending ← pending_ids 200;
     now ← utcnow;
     closures ← recent_closures (now - days USAGE_KEY_BUFFER_DAYS);
     mret (pending, closures));
  for_each found.1 (fun id => enqueue (TDeliver id)) ;;
  for_each found.2 (fun c => let '(org, a, b, id) := c in enqueue (TCheckClosed org a b id)) ;;
  mret (DispatchedCount (length found.1 + length found.2)).

Definition sync_single_org_usage (org : N) : M World unit :=
  with_session (sync_to_database org None None ;; commit).

Definition deliver_billing_report (report_id : N) : M World bool :=
  _ensure_stripe_configured ;;
  with_session (deliver_safely report_id).

Definition check_closed_billing_period (org : N) (start end_ : Z) (report_id : N) : M World unit :=
  with_session
    (marker ← lock_report report_id;
     match marker with
     | None => mret tt
     | Some marker =>
         sub ← get_subscription_by_org org;
         match sub with
         | None => mret tt
         | Some s =>
             sync_to_database (sub_org s) (Some start) (Some end_) ;;
             _ ← stage s start None None true;
             update (br_id marker) (fun r => r) ;;
             commit
         end
     end).

Inductive BillResult := SkippedLocked | Reported | NoOverage | StripeNotConfigured.

Definition _bill_single_org (org : N) : M World BillResult :=
  with_session
    (_ensure_stripe_configured ;;
     lock ← acquire_overage_lock true org ∅;
     if negb lock.1 then mret SkippedLocked else
     reported ← try_finally
       (try_except
          (sync_to_database org None None ;;
           reported ← report_overages_to_stripe org None None;
           commit ;;
           mret reported)
          (fun e => rollback ;; raise e))
       (_ ← release_overage_lock true org lock.2; mret tt);
     mret (if reported : bool then Reported else NoOverage)).

Definition bill_single_org (org : N) : M World BillResult :=
  try_except (_bill_single_org org)
    (fun e => match e with
              | PP StripeNotConfiguredError _ => mret StripeNotConfigured
              | _ => raise e
              end).

Inductive ResetResult := NoSubscription | Reset.

Definition reset_single_hobby_org (org : N) : M World ResetResult :=
  with_session
    (sub ← get_subscription_by_org org;
     match sub with
     | None => mret NoSubscription
     | Some s =>
         let new_start := sub_end s in
         let new_end := new_start + days 30 in
         advance_period org new_start new_end ;;
         _ ← create_usage_record org new_start new_end;
         commit ;;
         delete_usage_key org (sub_start s) ;;
         invalidate_subscription_cache org ;;
         mret Reset
     end).

(** ** The billing invariant *)

Section preservation.
Context (w0 : Ghost).

Lemma pres_dispatch_once name : preserves (billing_wf w0) (_dispatch_once name).
Proof. apply pres_run_script. Qed.
Hint Resolve pres_dispatch_once pres_acquire_overage_lock pres_release_overage_lock pres_report_overages
  pres_invalidate_subscription_cache : effects.

Lemma pres_fan_out {A} name (query : M World (list A)) task :
  preserves (billing_wf w0) query -> preserves (billing_wf w0) (fan_out name query task).
Proof. intros H. unfold fan_out, with_session. respects_auto. Qed.

Lemma pres_dispatch_sync_usage : preserves (billing_wf w0) dispatch_sync_usage.
Proof. unfold dispatch_sync_usage, dispatcher. respects_auto. apply pres_fan_out. unfold list_all_active_org_ids. respects_auto. Qed.
Lemma pres_dispatch_overage_billing : preserves (billing_wf w0) dispatch_overage_billing.
Proof. unfold dispatch_overage_billing, dispatcher. respects_auto. apply pres_fan_out. unfold list_paid_active_org_ids. respects_auto. Qed.
Lemma pres_dispatch_hobby_reset : preserves (billing_wf w0) dispatch_hobby_reset.
Proof. unfold dispatch_hobby_reset, dispatcher. respects_auto. apply pres_fan_out. unfold list_hobby_org_ids_due_for_reset. respects_auto. Qed.
Lemma pres_dispatch_billing_reports : preserves (billing_wf w0) dispatch_billing_reports.
Proof. unfold dispatch_billing_reports, with_session, pending_ids, recent_closures. respects_auto. Qed.

Lemma pres_sync_single_org_usage org : preserves (billing_wf w0) (sync_single_org_usage org).
Proof. unfold sync_single_org_usage, with_session. respects_auto. Qed.

(** A session starts committed. *)
Lemma rollback_clean w : billing_wf w0 w -> billing_wf w0 (rollback w).2 /\ clean (rollback w).2.
Proof. intros [_ H]. by split; [split|]. Qed.

Lemma pres_deliver_billing_report id : preserves (billing_wf w0) (deliver_billing_report id).
Proof.
  unfold deliver_billing_report. apply respects_bind; [typeclasses eauto|eauto with effects|intros _ w Hw].
  destruct (rollback_clean w Hw) as [H1 H2]. unfold with_session, mbind at 1, M_bind at 1, rollback at 1, modify.
  pose proof (deliver_safely_wf w0 id _ H1 H2) as H. unfold rollback, modify in H. cbn [snd] in H.
  unfold try_finally. destruct (deliver_safely id _) as [r w1]. destruct H as [_ H]. by split.
Qed.

Lemma pres_update_touch id : preserves (billing_wf w0) (update id (fun r => r)).
Proof. by apply pres_update_status. Qed.
Hint Resolve pres_update_touch : effects.

Lemma pres_check_closed org a b id : preserves (billing_wf w0) (check_closed_billing_period org a b id).
Proof. unfold check_closed_billing_period, with_session. respects_auto. Qed.

Lemma pres_bill_single_org org : preserves (billing_wf w0) (bill_single_org org).
Proof. unfold bill_single_org, _bill_single_org, with_session. respects_auto. Qed.

Lemma pres_reset_single_hobby_org org : preserves (billing_wf w0) (reset_single_hobby_org org).
Proof. unfold reset_single_hobby_org, with_session, delete_usage_key. respects_auto. Qed.
End preservation.
