(* ===== verification/Identity.v ===== *)
(** * The identity service

    services/identity_service.py: one definition per method of [IdentityService], on
    the repositories of IdentityRepo.  The interpolated identifiers of error messages
    are dropped. *)
From stdpp Require Import base gmap strings list.
From Stdlib Require Import ZArith Lia Ascii ssreflect.
From S2P Require Import Prelude Constants Entities World Invariant BillingRepo Security IdentityRepo.

#[local] Open Scope Z_scope.

(** [if x is None: raise e] *)
Definition or_raise {A} (e : exn) (o : option A) : M World A :=
  match o with Some a => mret a | None => raise e end.

(** [except ValueError as exc: raise ValidationError(str(exc))] *)
Definition as_validation {A} (r : res A) : M World A :=
  match r with Err (ValueError s) => raise (PP ValidationError s) | _ => lift r end.

(** The validation of an optional argument, skipped when it is absent. *)
Definition validate_opt (v : option string) (f : string -> res string) : M World (option string) :=
  match v with
  | None => mret None
  | Some s => x ← as_validation (f s); mret (Some x)
  end.

Module IdentityService.
Section service.
Context (sha256 : string -> list N).

(** ** Organizations *)

Definition org_not_found : exn := PP NotFoundError "Organization not found.".

Definition create_organization (name : string) (owner_id : N) (plan : option SubscriptionPlan) : M World Organization :=
  owned_count ← IdentityRepository.count_user_owned_orgs owner_id;
  guard_not (MAX_OWNED_ORGS <=? owned_count)
    (PP OrgLimitReachedError "Organization ownership limit reached.") ;;
  clean ← as_validation (validate_resource_name name "Organization name");
  org ← IdentityRepository.create_organization clean;
  _ ← IdentityRepository.create_membership owner_id (o_id org) OWNER;
  sub ← create_subscription (o_id org) (default HOBBY plan) None None None None;
  _ ← create_usage_record (o_id org) (sub_start sub) (sub_end sub);
  _ ← ProjectRepository.create_project (o_id org) "onboarding" "Your onboarding project";
  mret org.

Definition get_organization (org : N) : M World Organization :=
  o ← IdentityRepository.get_organization org;
  or_raise org_not_found o.

Definition update_organization (org : N) (name : option string) : M World Organization :=
  final_name ← validate_opt name (fun s => validate_resource_name s "Organization name");
  o ← IdentityRepository.update_organization org final_name;
  or_raise org_not_found o.

Definition delete_organization (org : N) : M World unit :=
  _ ← get_organization org;
  IdentityRepository.delete_organization org.

(** ** Membership *)

Definition require_membership (user org : N) : M World Membership :=
  m ← IdentityRepository.get_membership user org;
  or_raise (PP AuthorizationError "You are not a member of this organization.") m.

Definition require_admin (user org : N) : M World Membership :=
  m ← require_membership user org;
  guard_not (negb (bool_decide (m_role m = OWNER) || bool_decide (m_role m = ADMIN)))
    (PP AuthorizationError "Admin or Owner role required.") ;;
  mret m.

Definition require_owner (user org : N) : M World Membership :=
  m ← require_membership user org;
  guard_not (negb (bool_decide (m_role m = OWNER))) (PP AuthorizationError "Owner role required.") ;;
  mret m.

(** ** Invitations *)

Definition INVITATION_TTL : Z := days 7.

(** The plan's member quota, against the members and the live pending invitations. *)
Definition check_capacity (org : N) : M World unit :=
  subscription ← get_subscription_by_org org;
  match subscription with
  | None => mret tt
  | Some s =>
      match max_members (get_plan_config (sub_plan s)) with
      | None => mret tt
      | Some max =>
          member_count ← count_org_members org;
          pending_count ← InvitationRepository.count_pending_for_org org;
          guard_not (max <=? member_count + pending_count)
            (PP QuotaExceededError "Your plan allows up to member(s). Please upgrade to invite more.")
      end
  end.

Definition create_invitation (actor_id org : N) (email : string) (role : MembershipRole) : M World Invitation :=
  actor ← require_membership actor_id org;
  guard_not (bool_decide (m_role actor = MEMBER))
    (PP AuthorizationError "Members cannot invite users to the organization.") ;;
  guard_not (bool_decide (m_role actor = ADMIN) && negb (bool_decide (role = MEMBER)))
    (PP AuthorizationError "Admins can only invite users with MEMBER role.") ;;
  guard_not (bool_decide (role = OWNER)) (PP AuthorizationError "Cannot invite a user as OWNER.") ;;
  let email := lower (strip email) in
  actor_user ← UserRepository.get_user actor_id;
  guard_not (match actor_user with Some u => bool_decide (lower (u_email u) = email) | None => false end)
    (PP ConflictError "You cannot invite yourself.") ;;
  existing_user ← UserRepository.get_user_by_email email;
  match existing_user with
  | Some u =>
      existing_membership ← IdentityRepository.get_membership (u_id u) org;
      guard_not (bool_decide (is_Some existing_membership))
        (PP ConflictError "User is already a member of this organization.")
  | None => mret tt
  end ;;
  existing_invitation ← InvitationRepository.get_pending_invitation org email;
  guard_not (bool_decide (is_Some existing_invitation))
    (PP ConflictError "An invitation for this email is already pending.") ;;
  check_capacity org ;;
  now ← utcnow;
  invitation ← InvitationRepository.create_invitation org email role actor_id (now + INVITATION_TTL);
  s ← get_settings;
  organization ← IdentityRepository.get_organization org;
  when (resend_configured s && negb (bool_decide (app_url s = EmptyString)))
    (enqueue (TInvitationEmail email (from_option o_name EmptyString organization)
                (from_option u_display EmptyString actor_user) role)) ;;
  mret invitation.

(** The checks [accept_invitation] and [decline_invitation] share: the pending,
    unexpired invitation of the caller. *)
Definition open_invitation (user_id invitation_id : N) : M World Invitation :=
  found ← InvitationRepository.get_invitation invitation_id;
  invitation ← or_raise (PP NotFoundError "Invitation not found.") found;
  u ← UserRepository.get_user user_id;
  user ← or_raise (PP NotFoundError "User not found.") u;
  guard_not (negb (bool_decide (lower (u_email user) = lower (i_email invitation))))
    (PP AuthorizationError "This invitation was sent to a different email address.") ;;
  guard_not (negb (bool_decide (i_status invitation = IPENDING)))
    (PP ConflictError "This invitation has already been processed.") ;;
  now ← utcnow;
  when (i_expires invitation <? now)
    (_ ← InvitationRepository.update_status invitation_id IEXPIRED;
     raise (PP ConflictError "This invitation has expired.")) ;;
  mret invitation.

Definition accept_invitation (user_id invitation_id : N) : M World Membership :=
  invitation ← open_invitation user_id invitation_id;
  existing ← IdentityRepository.get_membership user_id (i_org invitation);
  guard_not (bool_decide (is_Some existing))
    (PP ConflictError "You are already a member of this organization.") ;;
  membership ← IdentityRepository.create_membership user_id (i_org invitation) (i_role invitation);
  _ ← InvitationRepository.update_status invitation_id IACCEPTED;
  mret membership.

Definition decline_invitation (user_id invitation_id : N) : M World unit :=
  _ ← open_invitation user_id invitation_id;
  _ ← InvitationRepository.update_status invitation_id IDECLINED;
  mret tt.

Definition revoke_invitation (actor_id org invitation_id : N) : M World unit :=
  found ← InvitationRepository.get_invitation invitation_id;
  invitation ← or_raise (PP NotFoundError "Invitation not found.") found;
  guard_not (negb (bool_decide (i_org invitation = org))) (PP NotFoundError "Invitation not found.") ;;
  _ ← require_admin actor_id org;
  guard_not (negb (bool_decide (i_status invitation = IPENDING)))
    (PP ConflictError "Only pending invitations can be revoked.") ;;
  _ ← InvitationRepository.update_status invitation_id IREVOKED;
  mret tt.

Definition list_org_invitations (org : N) : M World (list Invitation) :=
  InvitationRepository.list_org_invitations org None.

Definition list_my_invitations (user_email : string) : M World (list Invitation) :=
  InvitationRepository.list_pending_for_email (lower user_email).

(** ** Roles and removal *)

Definition not_a_member : exn := PP NotFoundError "Target user is not a member of this organization.".

Definition update_member_role (actor_id org target_user_id : N) (new_role : MembershipRole) : M World Membership :=
  guard_not (bool_decide (actor_id = target_user_id)) (PP AuthorizationError "Cannot change your own role.") ;;
  actor ← require_membership actor_id org;
  guard_not (negb (bool_decide (m_role actor = OWNER)))
    (PP AuthorizationError "Only owners can change member roles.") ;;
  found ← IdentityRepository.get_membership target_user_id org;
  target ← or_raise not_a_member found;
  guard_not (bool_decide (m_role target = OWNER))
    (PP AuthorizationError "Cannot change the role of another owner.") ;;
  updated ← IdentityRepository.update_membership_role target_user_id org new_role;
  or_raise not_a_member updated.

Definition remove_member (actor_id org target_user_id : N) : M World unit :=
  actor ← require_membership actor_id org;
  found ← IdentityRepository.get_membership target_user_id org;
  target ← or_raise not_a_member found;
  guard_not (bool_decide (m_role target = OWNER))
    (PP AuthorizationError "Cannot remove an OWNER from the organization.") ;;
  guard_not (bool_decide (m_role actor = MEMBER))
    (PP AuthorizationError "Members cannot remove other members.") ;;
  guard_not (bool_decide (m_role actor = ADMIN) && negb (bool_decide (m_role target = MEMBER)))
    (PP AuthorizationError "Admins can only remove members with MEMBER role.") ;;
  IdentityRepository.delete_membership target_user_id org.

Definition list_user_orgs (user : N) : M World (list Membership) := IdentityRepository.list_user_orgs user.
Definition list_org_members (org : N) : M World (list Membership) := IdentityRepository.list_org_members org.

(** ** Projects *)

(** The default [max_length] of [sanitize_text]. *)
Definition DESCRIPTION_MAX : Z := 2000.
Definition clean_description (s : string) : res string := sanitize_text s "Project description" DESCRIPTION_MAX.

Definition create_project (org : N) (name description : string) : M World Project :=
  clean ← as_validation (validate_resource_name name "Project name");
  clean_desc ← as_validation (clean_description description);
  _ ← get_organization org;
  ProjectRepository.create_project org clean clean_desc.

Definition project_not_found : exn := PP NotFoundError "Project not found.".

Definition get_project (project_id : N) (org : option N) : M World Project :=
  found ← ProjectRepository.get_project project_id;
  project ← or_raise project_not_found found;
  guard_not (match org with Some o => negb (bool_decide (p_org project = o)) | None => false end)
    (PP AuthorizationError "Project does not belong to this organization.") ;;
  mret project.

Definition update_project (org project_id : N) (name description : option string) : M World Project :=
  project ← get_project project_id (Some org);
  final_name ← validate_opt name (fun s => validate_resource_name s "Project name");
  final_desc ← validate_opt description clean_description;
  updated ← ProjectRepository.update_project (p_id project) final_name final_desc;
  or_raise project_not_found updated.

Definition delete_project (org project_id : N) : M World unit :=
  _ ← get_project project_id (Some org);
  ProjectRepository.delete_project project_id.

Definition list_projects (org : N) : M World (list Project) := ProjectRepository.list_projects org.

(** ** API keys *)

(** [_EXPIRATION_DELTAS]; [None] for an unsupported value. *)
Definition expiration_delta (expiration : string) : option (option Z) :=
  if bool_decide (expiration = "never"%string) then Some None
  else if bool_decide (expiration = "90d"%string) then Some (Some (days 90))
  else None.

Definition create_api_key (org : N) (name : string) (created_by : option N) (expiration : string)
    : M World (APIKey * string) :=
  _ ← get_organization org;
  delta ← or_raise (PP ValidationError "Unsupported expiration value.") (expiration_delta expiration);
  now ← utcnow;
  let expires_at := d ← delta; Some (now + d) in
  raw_key ← generate_api_key;
  api_key ← IdentityRepository.create_api_key org (hash_api_key sha256 raw_key) (key_prefix raw_key) name created_by expires_at;
  mret (api_key, raw_key).

Definition get_api_key (key_id org : N) : M World APIKey :=
  found ← IdentityRepository.get_api_key key_id;
  api_key ← or_raise (PP NotFoundError "API key not found.") found;
  guard_not (negb (bool_decide (k_org api_key = org)))
    (PP AuthorizationError "API key does not belong to this organization.") ;;
  mret api_key.

Definition list_api_keys (org : N) : M World (list APIKey) :=
  _ ← get_organization org;
  IdentityRepository.list_api_keys org.

Definition rotate_api_key (key_id org : N) (created_by : option N) : M World (APIKey * string) :=
  old_key ← get_api_key key_id org;
  guard_not (negb (k_active old_key)) (PP ValidationError "Cannot rotate a revoked API key.") ;;
  guard_not (bool_decide (k_expires old_key = None))
    (PP ValidationError "Only keys with an expiration can be rotated. Production keys (never expire) should be revoked and re-created instead.") ;;
  create_api_key org (k_name old_key) created_by "90d".

Definition revoke_api_key (key_id org : N) : M World unit :=
  _ ← get_api_key key_id org;
  IdentityRepository.revoke_api_key key_id.

Definition delete_api_key (key_id org : N) : M World unit :=
  _ ← get_api_key key_id org;
  IdentityRepository.delete_api_key key_id.
End service.
End IdentityService.
