(* ===== verification/ApiAuth.v ===== *)
(** * Who is calling (api/dependencies.py, api/context.py, infrastructure/auth/)

    The identity adapters, and the dependencies that build the context of a request
    from a bearer token or an API key.  The third-party verification of a token is a
    parameter; the analytics events are not modelled.  A UUID header is given parsed:
    absent or empty, malformed, or the identifier. *)
From stdpp Require Import base gmap strings list.
From Stdlib Require Import ZArith Lia ssreflect.
From S2P Require Import Prelude Constants Entities World Invariant BillingRepo Security IdentityRepo Identity.

#[local] Open Scope Z_scope.

(** ** Identity adapters *)

Record AuthClaims := { cl_sub : string; cl_email : string; cl_display : string }.

(** What [auth.get_user(token)] answers. *)
Record SupabaseUser := {
  su_id : option string; su_email : option string; su_full_name : option string; su_name : option string }.
Inductive SupabaseAnswer := SbUser (user : SupabaseUser) | SbNoUser | SbRaises.

(** What [verify_id_token] answers: the decoded claims, or the exception's class. *)
Inductive FirebaseAnswer :=
  | FbDecoded (uid email name : option string)
  | FbExpired | FbInvalid | FbRaises.

Inductive HeaderId := NoHeader | BadUuid | Uuid (id : N).

(** The deployment's identity provider: its settings and its answers. *)
Record Provider := {
  auth_provider : string;
  supabase_url : string;
  supabase_key : string;
  supabase_get_user : string -> SupabaseAnswer;
  firebase_initializes : bool;
  firebase_verify_id_token : string -> FirebaseAnswer }.

Definition auth_error (detail : string) : exn := PP AuthenticationError detail.

(** [if not x: raise] for an optional text. *)
Definition required (detail : string) (s : option string) : res string :=
  match s with
  | Some v => if truthy s then Ok v else Err (auth_error detail)
  | None => Err (auth_error detail)
  end.

Definition mk_claims (id_missing email_missing : string) (sub email : option string) (display : string) : res AuthClaims :=
  match required id_missing sub, required email_missing email with
  | Ok s, Ok e => Ok {| cl_sub := s; cl_email := e; cl_display := display |}
  | Err e, _ => Err e
  | _, Err e => Err e
  end.

Definition supabase_verify_token (p : Provider) (token : string) : res AuthClaims :=
  if bool_decide (supabase_url p = EmptyString) || bool_decide (supabase_key p = EmptyString)
  then Err (auth_error "SUPABASE_URL and SUPABASE_KEY must be configured.") else
  match supabase_get_user p token with
  | SbRaises => Err (auth_error "Supabase token verification failed")
  | SbNoUser => Err (auth_error "Invalid token: no user returned.")
  | SbUser u =>
      let display := if truthy (su_full_name u) then default EmptyString (su_full_name u)
                     else default EmptyString (su_name u) in
      mk_claims "Invalid token: missing user ID." "Invalid token: missing email." (su_id u) (su_email u) display
  end.

Definition firebase_verify_token (p : Provider) (token : string) : res AuthClaims :=
  if negb (firebase_initializes p) then Err (auth_error "Firebase SDK failed to initialise") else
  match firebase_verify_id_token p token with
  | FbExpired => Err (auth_error "Token has expired.")
  | FbInvalid => Err (auth_error "Invalid token")
  | FbRaises => Err (auth_error "Firebase verification failed")
  | FbDecoded uid email name =>
      mk_claims "Invalid token: missing user ID." "Invalid token: missing email." uid email (default EmptyString name)
  end.

Definition DEV_CLAIMS : AuthClaims :=
  {| cl_sub := "dev-local-user-00000000"; cl_email := "dev@localhost"; cl_display := "Local Developer" |}.

(** [get_auth_adapter().verify_token(token)] *)
Definition verify_token (p : Provider) (token : string) : M World AuthClaims :=
  s ← get_settings;
  lift (if negb (auth_enabled s) then Ok DEV_CLAIMS
        else if bool_decide (lower (auth_provider p) = "firebase"%string) then firebase_verify_token p token
        else supabase_verify_token p token).

(** ** The request context *)

Inductive AuthMethod := JWT | API_KEY.

Record ApiContext := {
  cx_method : AuthMethod;
  cx_organization : Organization;
  cx_project : option Project;
  cx_user : option User }.

Record Request := {
  rq_bearer : option string;
  rq_org : HeaderId;
  rq_api_key : option string;
  rq_project_id : HeaderId;
  rq_project_name : option string }.

Section auth.
Context (sha256 : string -> list N) (provider : Provider).

(** The memberships of a user; a user without any gets an organization. *)
Definition provisioned_memberships (user_id : N) : M World (list Membership) :=
  memberships ← IdentityRepository.list_user_orgs user_id;
  match memberships with
  | [] =>
      s ← get_settings;
      _ ← IdentityService.create_organization "My Organization" user_id
            (if negb (auth_enabled s) then Some DEVELOPMENT else None);
      IdentityRepository.list_user_orgs user_id
  | _ => mret memberships
  end.

(** The organization of the X-Organization-ID header, or the first membership's. *)
Definition resolve_organization (memberships : list Membership) (header : HeaderId) : M World Organization :=
  organization ←
    match header with
    | BadUuid => raise (PP ValidationError "X-Organization-ID must be a valid UUID.")
    | Uuid target =>
        match List.find (fun m => bool_decide (m_org m = target)) memberships with
        | None => raise (auth_error "You are not a member of the specified organization.")
        | Some _ => IdentityRepository.get_organization target
        end
    | NoHeader =>
        match memberships with
        | m :: _ => IdentityRepository.get_organization (m_org m)
        | [] => raise IndexError
        end
    end;
  or_raise (auth_error "Organization could not be resolved.") organization.

Definition resolve_project (org : N) (header : HeaderId) : M World (option Project) :=
  match header with
  | NoHeader => mret None
  | BadUuid => raise (PP ValidationError "X-Project-ID must be a valid UUID.")
  | Uuid id =>
      project ← ProjectRepository.get_project id;
      guard_not (match project with Some p => negb (bool_decide (p_org p = org)) | None => true end)
        (PP ValidationError "Project not found or does not belong to your organization.") ;;
      mret project
  end.

(** The messages a new user starts. *)
Definition welcome_new_user (email : string) : M World unit :=
  s ← get_settings;
  when (resend_configured s) (enqueue (TWelcomeEmail email) ;; enqueue (TFollowupEmail email)) ;;
  when (crm_configured s) (enqueue (TCrmSync email)).

Definition _resolve_jwt (token : string) (org_header project_header : HeaderId) : M World ApiContext :=
  claims ← verify_token provider token;
  signed_in ← UserRepository.upsert_user (cl_sub claims) (cl_email claims) (cl_display claims);
  let '(user, user_created, _) := signed_in in
  memberships ← provisioned_memberships (u_id user);
  organization ← resolve_organization memberships org_header;
  project ← resolve_project (o_id organization) project_header;
  when user_created (welcome_new_user (u_email user)) ;;
  mret {| cx_method := JWT; cx_organization := organization; cx_project := project; cx_user := Some user |}.

(** The project a key names, in the key's organization. *)
Definition key_project (org : N) (project_name : option string) : M World (option Project) :=
  match project_name with
  | Some name =>
      if truthy (Some (strip name)) then
        clean_name ← as_validation (validate_resource_name name "X-Project-Name");
        p ← ProjectRepository.get_or_create_project org clean_name;
        mret (Some p)
      else mret None
  | None => mret None
  end.

Definition _resolve_api_key (raw_key : string) (project_name : option string) : M World ApiContext :=
  found ← IdentityRepository.get_api_key_by_hash (hash_api_key sha256 raw_key);
  api_key ← or_raise (auth_error "Invalid or revoked API key.") found;
  now ← utcnow;
  guard_not (match k_expires api_key with Some e => e <? now | None => false end)
    (auth_error "API key has expired. Please generate a new one.") ;;
  IdentityRepository.touch_api_key (k_id api_key) ;;
  org ← IdentityRepository.get_organization (k_org api_key);
  organization ← or_raise (auth_error "Organization associated with API key not found.") org;
  project ← key_project (k_org api_key) project_name;
  mret {| cx_method := API_KEY; cx_organization := organization; cx_project := project; cx_user := None |}.

Definition get_api_context (r : Request) : M World ApiContext :=
  s ← get_settings;
  bearer_token ← match rq_bearer r with
    | Some t => mret t
    | None => guard_not (auth_enabled s) (auth_error "Bearer token required. Provide Authorization: Bearer <token>.") ;;
              mret "dev-no-auth"%string
    end;
  _resolve_jwt bearer_token (rq_org r) NoHeader.

(** Without an API key: the bearer token, or the development user. *)
Definition data_plane_jwt (r : Request) : M World ApiContext :=
  match rq_bearer r with
  | Some t => _resolve_jwt t (rq_org r) (rq_project_id r)
  | None =>
      s ← get_settings;
      guard_not (auth_enabled s)
        (auth_error "Missing credentials. Provide Authorization: Bearer <token> (with X-Project-ID) or X-API-Key header.") ;;
      _resolve_jwt "dev-no-auth" (rq_org r) (rq_project_id r)
  end.

Definition get_data_plane_context (r : Request) : M World ApiContext :=
  match rq_api_key r with
  | Some (String _ _ as key) => _resolve_api_key key (rq_project_name r)
  | _ => data_plane_jwt r
  end.

Definition require_project (ctx : ApiContext) : M World ApiContext :=
  guard_not (bool_decide (cx_project ctx = None))
    (PP ValidationError "Project scope required. Provide X-Project-ID (Bearer) or X-Project-Name (API key).") ;;
  mret ctx.

(** [_require_user] of the management routes; the user of the context. *)
Definition _require_user (ctx : ApiContext) : M World User :=
  or_raise (auth_error "This endpoint requires user authentication (Bearer token).") (cx_user ctx).
End auth.
