(* ===== verification/WorkerHealth.v ===== *)
(** * Liveness of the workers (scripts/worker_health.py, infrastructure/queue/celery_app.py)

    The health endpoint of a worker container: a raw PING to the broker, the age of
    the heartbeat that the pool stamps on every task, and the length of the queue.
    The connection is a parameter: the first 256 bytes of the reply to a payload, or
    [None] for an OSError.  Bytes are characters; times are microseconds. *)
From stdpp Require Import base gmap strings list.
From Stdlib Require Import ZArith Lia Ascii ssreflect DecimalString.
From S2P Require Import Prelude Constants Float64 PyFloat FloatFacts Json JsonText.

#[local] Open Scope Z_scope.

(** ** Bytes *)

(** [s.encode()]: a Latin-1 character takes one byte below 128 and two from there on. *)
Definition utf8_char (c : ascii) : list ascii :=
  let n := N_of_ascii c in
  if (n <? 128)%N then [c] else [ascii_of_N (192 + n / 64); ascii_of_N (128 + n mod 64)].
Definition encode (s : string) : list ascii := flat_map utf8_char (chars s).
Definition ascii_only (s : string) : bool := forallb (fun c => (N_of_ascii c <? 128)%N) (chars s).

Definition crlf : string := text [chr 13; chr 10].

(** [pattern in l] *)
Fixpoint contains (pattern l : list ascii) : bool :=
  match keyword pattern l with
  | Some _ => true
  | None => match l with [] => false | _ :: l' => contains pattern l' end
  end.

(** [l.split(b"\r\n")]; [current] is the part being read, reversed. *)
Fixpoint split_crlf (current l : list ascii) : list (list ascii) :=
  match l with
  | c :: ((d :: l') as r) =>
      if (code c =? 13) && (code d =? 10) then rev current :: split_crlf [] l' else split_crlf (c :: current) r
  | [c] => [rev (c :: current)]
  | [] => [rev current]
  end.

(** [int(b)] of bytes: blanks around, a sign, digits with single underscores between them. *)
Definition byte_blank (c : ascii) : bool := (code c =? 32) || (9 <=? code c) && (code c <=? 13).
Fixpoint lstrip_bytes (l : list ascii) : list ascii :=
  match l with c :: l' => if byte_blank c then lstrip_bytes l' else l | [] => [] end.
Definition int_of_bytes (l : list ascii) : option Z :=
  let '(s, l) := read_sign (rev (lstrip_bytes (rev (lstrip_bytes l)))) in
  match read_digits false 0 0 l with
  | (n, k, []) => if 0 <? k then Some (if s then - n else n) else None
  | _ => None
  end.

(** ** worker_health.py *)

Module WorkerHealth.

Definition _HEARTBEAT_MAX_AGE_S : Z := 3900 * 1000000.

(** One command in the Redis protocol; the length of an argument counts its characters. *)
Definition _resp (args : list string) : list ascii :=
  encode ("*" +:+ digits_text (Z.of_nat (length args)) +:+ crlf)
  ++ flat_map (fun a => encode ("$" +:+ digits_text (len a) +:+ crlf +:+ a +:+ crlf)) args.

Section health.
Context (_redis_roundtrip : list ascii -> option (list ascii)) (_REDIS_DB : string) (_ROLE : string).

Definition _redis_is_reachable : bool :=
  match _redis_roundtrip (_resp ["PING"%string]) with
  | Some reply => contains (chars "PONG") reply
  | None => false
  end.

(** The three commands of one connection. *)
Definition queue_commands : list ascii :=
  _resp ["SELECT"; _REDIS_DB]%string ++ _resp ["LLEN"; "celery"]%string ++ _resp ["HLEN"; "unacked"]%string.
(** The integer replies, or [None] for a [ValueError]. *)
Definition counts_of_reply (reply : list ascii) : option (list Z) :=
  mapM (fun line => int_of_bytes (drop 1 line))
    (List.filter (fun line => match line with c :: _ => code c =? 58 | [] => false end) (split_crlf [] reply)).
Definition _queue_has_work : bool :=
  match _redis_roundtrip queue_commands ≫= counts_of_reply with
  | Some counts => existsb (fun n => 0 <? n) counts
  | None => false
  end.

(** [mtime] is the modification time of the heartbeat file, if there is one. *)
Definition _heartbeat_age_s (now : Z) (mtime : option Z) : option Z := t ← mtime; Some (now - t).

Definition _is_healthy (now : Z) (mtime : option Z) : bool * string :=
  if negb _redis_is_reachable then (false, "broker unreachable"%string)
  else if bool_decide (_ROLE = "beat"%string) then (true, "ok"%string)
  else match _heartbeat_age_s now mtime with
       | None => (true, "ok (pool starting)"%string)
       | Some age =>
           if (_HEARTBEAT_MAX_AGE_S <? age) && _queue_has_work then (false, "celery pool not consuming"%string) else (true, "ok"%string)
       end.

(** [do_GET]: the status and the body. *)
Definition do_GET (path : string) (now : Z) (mtime : option Z) : Z * string :=
  if bool_decide (path = "/health"%string) then
    let '(healthy, body) := _is_healthy now mtime in (if healthy : bool then 200 else 503, body)
  else (404, EmptyString).
End health.

(** *** The heartbeat (celery_app.py)

    The pool stamps the file when the worker is ready, before and after every task. *)

Inductive PoolSignal := WorkerReady | TaskPrerun | TaskPostrun.
Definition _touch_heartbeat (writable : bool) (now : Z) (mtime : option Z) : option Z := if writable then Some now else mtime.
(** The file after signals at given times, the newest last. *)
Definition heartbeat (signals : list (PoolSignal * Z)) (mtime : option Z) : option Z :=
  foldl (fun m s => _touch_heartbeat true s.2 m) mtime signals.

End WorkerHealth.

Import WorkerHealth.

(** ** Texts and bytes *)

Lemma chars_app a b : chars (a +:+ b) = chars a ++ chars b.
Proof. apply list_ascii_of_app. Qed.
Lemma encode_app a b : encode (a +:+ b) = encode a ++ encode b.
Proof. unfold encode. by rewrite chars_app flat_map_app. Qed.
Lemma encode_ascii s : ascii_only s = true -> encode s = chars s.
Proof.
  unfold ascii_only, encode. induction (chars s) as [|c l IH]; [done|]. cbn [forallb flat_map]. intros [C L]%andb_prop.
  rewrite IH //. unfold utf8_char. by rewrite C.
Qed.
Lemma uint_ascii d : forallb (fun c => (N_of_ascii c <? 128)%N) (chars (NilEmpty.string_of_uint d)) = true.
Proof. by induction d. Qed.
Lemma digits_ascii n : ascii_only (digits_text n) = true.
Proof. unfold digits_text, ascii_only. destruct (N.to_uint (Z.to_N n)) eqn:D; [done|..]; rewrite -D; by (unfold NilZero.string_of_uint; rewrite D; apply uint_ascii). Qed.
Lemma length_chars s : Z.of_nat (length (chars s)) = len s.
Proof. unfold len. f_equal. by induction s as [|c s IH]; [|cbn; f_equal]. Qed.
Lemma stops_crlf l : stops (chars crlf ++ l).
Proof. done. Qed.

(** ** The protocol

    What a Redis server reads: a line with the number of arguments, and for each its
    length in bytes on a line of its own, then the bytes and a line end. *)
Definition read_line_number (mark : ascii) (l : list ascii) : option (Z * list ascii) :=
  match l with
  | c :: l' =>
      if bool_decide (c = mark) then
        match read_digits false 0 0 l' with
        | (n, k, a :: b :: r) => if (0 <? k) && (code a =? 13) && (code b =? 10) then Some (n, r) else None
        | _ => None
        end
      else None
  | [] => None
  end.
Definition read_bulk (l : list ascii) : option (string * list ascii) :=
  nr ← read_line_number "$" l;
  let '(n, r) := (nr : Z * list ascii) in
  match drop (Z.to_nat n) r with
  | a :: b :: r' => if (code a =? 13) && (code b =? 10) then Some (text (take (Z.to_nat n) r), r') else None
  | _ => None
  end.
Fixpoint read_bulks (n : nat) (l : list ascii) : option (list string * list ascii) :=
  match n with
  | O => Some ([], l)
  | S n' => sr ← read_bulk l; tr ← read_bulks n' sr.2; Some (sr.1 :: tr.1, tr.2)
  end.
Definition read_command (l : list ascii) : option (list string * list ascii) :=
  nr ← read_line_number "*" l; read_bulks (Z.to_nat nr.1) nr.2.

Lemma read_line_number_ok mark n r : 0 <= n -> read_line_number mark (mark :: chars (digits_text n) ++ chars crlf ++ r) = Some (n, r).
Proof.
  intros P. unfold read_line_number. rewrite bool_decide_eq_true_2 //.
  destruct (read_digits_text n (chars crlf ++ r) P (stops_crlf r)) as (k & E & K). rewrite E.
  change (chars crlf ++ r) with (chr 13 :: chr 10 :: r). cbv beta iota. replace (0 <? k) with true by (symmetry; apply Z.ltb_lt; lia). done.
Qed.
Lemma bulk_bytes a : ascii_only a = true ->
  encode ("$" +:+ digits_text (len a) +:+ crlf +:+ a +:+ crlf)%string = "$"%char :: chars (digits_text (len a)) ++ chars crlf ++ chars a ++ chars crlf.
Proof. intros A. rewrite !encode_app !(encode_ascii (digits_text _)) ?digits_ascii // (encode_ascii a A). done. Qed.
Lemma read_bulk_ok a r : ascii_only a = true ->
  read_bulk (encode ("$" +:+ digits_text (len a) +:+ crlf +:+ a +:+ crlf)%string ++ r) = Some (a, r).
Proof.
  intros A. rewrite bulk_bytes // -app_comm_cons -!app_assoc. unfold read_bulk.
  rewrite read_line_number_ok; [unfold len; lia|]. cbn [mbind option_bind]. rewrite -length_chars Nat2Z.id.
  rewrite drop_app_length take_app_length. cbn. by rewrite String.string_of_list_ascii_of_string.
Qed.
Lemma read_command_ok args r : forallb ascii_only args = true -> read_command (_resp args ++ r) = Some (args, r).
Proof.
  intros A. unfold _resp, read_command. rewrite !encode_app (encode_ascii (digits_text _)) ?digits_ascii //.
  change (encode "*") with ["*"%char]. change (encode crlf) with (chars crlf). rewrite -!app_assoc. cbn [app].
  rewrite read_line_number_ok; [lia|]. cbn [mbind option_bind fst snd]. rewrite Nat2Z.id.
  induction args as [|a args IH]; [done|]. cbn [forallb] in A. apply andb_prop in A as [A1 A2].
  cbn [length flat_map read_bulks]. rewrite -app_assoc read_bulk_ok // . cbn [mbind option_bind fst snd]. by rewrite IH.
Qed.

(** Commands one after the other. *)
Fixpoint read_commands (n : nat) (l : list ascii) : option (list (list string) * list ascii) :=
  match n with
  | O => Some ([], l)
  | S n' => cr ← read_command l; tr ← read_commands n' cr.2; Some (cr.1 :: tr.1, tr.2)
  end.

(** ** The queue's length *)

Lemma uint_digits d : Forall (fun c => is_digit c = true) (chars (NilEmpty.string_of_uint d)).
Proof. induction d; cbn; constructor; done. Qed.
Lemma text_digits n : Forall (fun c => is_digit c = true) (chars (digits_text n)).
Proof.
  unfold digits_text, NilZero.string_of_uint. destruct (N.to_uint (Z.to_N n)) eqn:D; [by repeat constructor|..]; rewrite -D; apply uint_digits.
Qed.
Lemma digit_plain_byte c : is_digit c = true -> byte_blank c = false /\ (code c =? 13) = false /\ (code c =? 58) = false /\ c <> "-"%char /\ c <> "+"%char.
Proof. by destruct c as [[] [] [] [] [] [] [] []]. Qed.
Lemma int_of_digits n : 0 <= n -> int_of_bytes (chars (digits_text n)) = Some n.
Proof.
  intros P. assert (L : forall l, Forall (fun c => is_digit c = true) l -> lstrip_bytes l = l).
  { intros [|c l] F; [done|]. inversion_clear F as [|? ? D _]. cbn. by destruct (digit_plain_byte c D) as (-> & _). }
  pose proof (text_digits n) as F. unfold int_of_bytes. rewrite (L _ F) L; [by apply Forall_rev|]. rewrite rev_involutive.
  destruct (read_digits_text n [] P I) as (k & E & K). rewrite app_nil_r in E.
  assert (S : read_sign (chars (digits_text n)) = (false, chars (digits_text n))).
  { destruct (chars (digits_text n)) as [|c l]; [done|]. inversion_clear F as [|? ? D _].
    destruct (digit_plain_byte c D) as (_ & _ & _ & N1 & N2). cbn. by rewrite !bool_decide_eq_false_2. }
  rewrite S E. by replace (0 <? k) with true by (symmetry; apply Z.ltb_lt; lia).
Qed.

Lemma split_crlf_line l r : Forall (fun c => (code c =? 13) = false) l -> forall current,
  split_crlf current (l ++ chars crlf ++ r) = (rev current ++ l) :: split_crlf [] r.
Proof.
  intros F. induction F as [|c l C _ IH]; intros current; [by rewrite app_nil_r|].
  transitivity (split_crlf (c :: current) (l ++ chars crlf ++ r)); [|rewrite IH; cbn; by rewrite -app_assoc].
  cbn [app split_crlf]. destruct l as [|d l]; cbn [app]; [|by rewrite C].
  change (chars crlf ++ r) with (chr 13 :: chr 10 :: r). by rewrite C.
Qed.

(** The reply of a server whose list and hash have [waiting] and [unacked] entries. *)
Definition queue_reply (waiting unacked : Z) : list ascii :=
  chars "+OK" ++ chars crlf ++ (":"%char :: chars (digits_text waiting)) ++ chars crlf ++ (":"%char :: chars (digits_text unacked)) ++ chars crlf ++ [].
Lemma counts_of_queue_reply waiting unacked : 0 <= waiting -> 0 <= unacked ->
  counts_of_reply (queue_reply waiting unacked) = Some [waiting; unacked].
Proof.
  intros W U. assert (D : forall n, Forall (fun c => (code c =? 13) = false) (":"%char :: chars (digits_text n))).
  { intros n. constructor; [done|]. apply (Forall_impl _ _ _ (text_digits n)). intros c C. by apply digit_plain_byte in C as (_ & -> & _). }
  unfold counts_of_reply, queue_reply. rewrite !split_crlf_line //; [by repeat constructor|].
  cbn [rev app].
  change (mapM (fun line => int_of_bytes (drop 1 line))
            [":"%char :: chars (digits_text waiting); ":"%char :: chars (digits_text unacked)] = Some [waiting; unacked]).
  apply mapM_Some. by repeat constructor; apply int_of_digits.
Qed.

(** ** Findings of the probe *)

Section probe.
Context (roundtrip : list ascii -> option (list ascii)) (db role : string).

Lemma queue_has_work_exact waiting unacked : 0 <= waiting -> 0 <= unacked ->
  roundtrip (queue_commands db) = Some (queue_reply waiting unacked) ->
  _queue_has_work roundtrip db = (0 <? waiting) || (0 <? unacked).
Proof. intros W U R. unfold _queue_has_work. rewrite R. cbn [mbind option_bind]. rewrite counts_of_queue_reply //. cbn. by rewrite orb_false_r. Qed.
(** An unanswered or garbled query counts as no work. *)
Lemma queue_silent : roundtrip (queue_commands db) ≫= counts_of_reply = None -> _queue_has_work roundtrip db = false.
Proof. intros R. unfold _queue_has_work. by rewrite R. Qed.

(** The pool's last signal is the age of the heartbeat. *)
Lemma heartbeat_last signals s t mtime : heartbeat (signals ++ [(s, t)]) mtime = Some t.
Proof. unfold heartbeat. by rewrite foldl_app. Qed.
End probe.

(** C39: The liveness probe restarts a worker exactly when it should.  The probe's answer is 503 when the broker does
    not answer its PING with PONG.  When it does, beat, a container whose pool has not signalled yet, and a worker whose
    pool signalled within the last 3900 seconds, so also one that is busy with a task of at most its hard limit of 3600 seconds,
    get a 200 whatever the queue's reply.  A worker that has been silent for longer gets a 503 if and only if
    the queue holds a waiting message or one checked out by a worker, as the server's complete reply says; it gets a 200 when the
    queue query goes unanswered or its reply cannot be read.  The commands sent are what the server is asked. *)
Theorem probe_restarts_exactly (roundtrip : list ascii -> option (list ascii)) (db role : string) (signals : list (PoolSignal * Z)) (now : Z)
  (Hdb : ascii_only db = true) :
  let answer := (do_GET roundtrip db role "/health" now (heartbeat signals None)).1 in
  let silent := exists earlier s t, signals = earlier ++ [(s, t)] /\ now - t > 3900 * 1000000 in
  (_redis_is_reachable roundtrip = false -> answer = 503) /\
  (_redis_is_reachable roundtrip = true -> role = "beat"%string \/ ~ silent -> answer = 200) /\
  (_redis_is_reachable roundtrip = true -> role <> "beat"%string -> silent ->
   forall waiting unacked, 0 <= waiting -> 0 <= unacked ->
     roundtrip (queue_commands db) = Some (queue_reply waiting unacked) ->
     (answer = 503 <-> 0 < waiting \/ 0 < unacked) /\ (answer = 200 <-> waiting = 0 /\ unacked = 0)) /\
  (_redis_is_reachable roundtrip = true -> roundtrip (queue_commands db) ≫= counts_of_reply = None -> answer = 200) /\
  read_commands 3 (queue_commands db) = Some ([["SELECT"; db]; ["LLEN"; "celery"]; ["HLEN"; "unacked"]]%string, []).
Proof.
  cbn zeta. split_and!.
  - intros B. unfold do_GET, _is_healthy. by rewrite B.
  - intros B S. unfold do_GET, _is_healthy. rewrite B. cbn [negb]. rewrite (bool_decide_eq_true_2 ("/health" = "/health")%string) //.
    case_bool_decide as R; [done|]. destruct S as [S|S]; [done|].
    destruct signals as [|[s t] l _] using rev_ind; [done|]. rewrite heartbeat_last. cbn [_heartbeat_age_s mbind option_bind].
    unfold _HEARTBEAT_MAX_AGE_S. destruct (Z.ltb_spec (3900 * 1000000) (now - t)); [|done].
    exfalso. apply S. exists l, s, t. split; [done|lia].
  - intros B R (l & s & t & -> & T) waiting unacked W U Q. unfold do_GET, _is_healthy. rewrite B. cbn [negb].
    rewrite (bool_decide_eq_true_2 ("/health" = "/health")%string) // (bool_decide_eq_false_2 (role = _)) //.
    rewrite heartbeat_last (queue_has_work_exact _ _ _ _ W U Q). unfold _HEARTBEAT_MAX_AGE_S. cbn [_heartbeat_age_s mbind option_bind].
    destruct (Z.ltb_spec (3900 * 1000000) (now - t)); [|lia].
    destruct (Z.ltb_spec 0 waiting), (Z.ltb_spec 0 unacked); cbn; split; split; intros; try done; lia.
  - intros B Q. unfold do_GET, _is_healthy. rewrite B. cbn [negb]. rewrite (bool_decide_eq_true_2 ("/health" = "/health")%string) // (queue_silent _ _ Q).
    case_bool_decide; [done|]. destruct (_heartbeat_age_s now _); [|done]. by rewrite andb_false_r.
  - unfold queue_commands. cbn [read_commands].
    assert (A : forallb ascii_only ["SELECT"; db]%string = true) by (cbn [forallb]; by rewrite Hdb).
    rewrite (read_command_ok ["SELECT"; db]%string _ A). reflexivity.
Qed.

(** ** Witness

    A worker that was ready an hour and a half ago and never ran a task, its three prefetched messages unacknowledged. *)

Definition wedged (payload : list ascii) : option (list ascii) :=
  if bool_decide (payload = _resp ["PING"%string]) then Some (chars "+PONG" ++ chars crlf) else Some (queue_reply 0 3).
Lemma probe_restarts_exactly_witness :
  (do_GET wedged "0" "worker" "/health" (5400 * 1000000) (heartbeat [(WorkerReady, 0)] None)).1 = 503 /\
  (do_GET wedged "0" "worker" "/health" (3600 * 1000000) (heartbeat [(WorkerReady, 0)] None)).1 = 200.
Proof.
  destruct (probe_restarts_exactly wedged "0" "worker" [(WorkerReady, 0)] (5400 * 1000000) eq_refl) as (_ & _ & H & _).
  destruct (probe_restarts_exactly wedged "0" "worker" [(WorkerReady, 0)] (3600 * 1000000) eq_refl) as (_ & K & _).
  split.
  - apply (H eq_refl ltac:(done) ltac:(by exists [], WorkerReady, 0) 0 3 ltac:(lia) ltac:(lia) eq_refl). lia.
  - apply (K eq_refl). right. intros (l & s & t & E & T). destruct l as [|? [|? l]]; try done. injection E as <- <-. lia.
Defined.
