(* ===== verification/Notifications.v ===== *)
(** * E-mail, CRM and analytics clients

    services/email_service.py, services/crm_service.py, services/analytics_service.py
    and their tasks of infrastructure/queue/tasks.py.  The three providers are
    parameters: what they answer to the calls made so far.  The calls are a log.  [tokens] is
    how a reader's program takes a page apart into tags, attribute values and texts. *)
From stdpp Require Import base gmap strings list.
From Stdlib Require Import ZArith Lia Ascii ssreflect.
From S2P Require Import Prelude Constants Entities Float64 PyFloat Json JsonText World Security Identity ApiAuth Configuration.

#[local] Open Scope string_scope.
#[local] Open Scope list_scope.
#[local] Open Scope Z_scope.

Import Configuration.

(** ** Calls *)

Record SendParams := {
  sp_from : string; sp_to : list string; sp_reply_to : option string; sp_subject : string; sp_html : string; sp_scheduled_at : Z }.
Inductive HttpMethod := PUT | POST.
Record HttpRequest := { hr_method : HttpMethod; hr_url : string; hr_headers : list (string * string); hr_json : Json; hr_params : list (string * string) }.
(** A call to a provider: an e-mail, a request to Attio, and the SDK of PostHog. *)
Inductive Call :=
  | Resend (params : SendParams)
  | Attio (request : HttpRequest)
  | PostHogCapture (distinct_id event : string) (properties : list (string * Json))
  | PostHogSet (distinct_id : string) (properties : list (string * Json))
  | PostHogFlush
  | PostHogShutdown.

(** The providers: an exception or not, and Attio's status and document; the number counts the calls. *)
Record Providers := {
  resend_answer : nat -> SendParams -> res unit;
  attio_answer : nat -> HttpRequest -> res (Z * Json);
  posthog_answer : nat -> Call -> res unit }.

(** The process: its clock, whether it holds a PostHog client, and the calls it has made. *)
Record Process := { pr_now : Z; pr_client : bool; pr_calls : list Call }.
Definition call {A} (answer : nat -> res A) (c : Call) : M Process A := fun p =>
  (answer (length (pr_calls p)), {| pr_now := pr_now p; pr_client := pr_client p; pr_calls := pr_calls p ++ [c] |}).
Definition set_client (b : bool) : M Process unit := modify (fun p => {| pr_now := pr_now p; pr_client := b; pr_calls := pr_calls p |}).

(** ** email_service.py *)

Module EmailService.

Definition _WELCOME_DELAY : Z := minutes 20.
Definition _FOLLOWUP_DELAY : Z := days 7.
Definition _INVITATION_DELAY : Z := minutes 2.

(** [html.escape(s)] *)
Definition html_escape (s : string) : string :=
  text (replace_char "'" (chars "&#x27;") (replace_char quote (chars "&quot;")
    (replace_char ">" (chars "&gt;") (replace_char "<" (chars "&lt;") (replace_char "&" (chars "&amp;") (chars s)))))).

(** A template, in which a tilde stands for a double quote. *)
Definition markup (s : string) : string := text (replace_char "~" [quote] (chars s)).

Definition _welcome_html : string := markup "<div style=~font-family: Arial, sans-serif; font-size: 10pt;~>
    <p style=~margin: 0 0 15px 0;~>
        Hey,
    </p>

    <p style=~margin: 0 0 15px 0;~>
        Thanks for signing up, this is Sina (founder at PandaProbe).
    </p>

    <p style=~margin: 0 0 15px 0;~>
        Fastest path: let your coding agent drive it with our packaged skill.
        From your project root:
    </p>

    <p style=~margin: 0 0 15px 0;~>
        <code style=~display: block; background: #f4f4f4; border: 1px solid #e0e0e0;
          border-radius: 4px; padding: 10px 12px; font-family: 'Courier New', monospace;
          font-size: 9pt; white-space: nowrap; overflow-x: auto;~>npx skills add chirpz-ai/pandaprobe-skills --skill '*' --yes</code>
    </p>

    <p style=~margin: 0 0 15px 0;~>
        Then ask your coding agent &ldquo;set up PandaProbe&rdquo; and it'll walk you
        through the onboarding, wiring up PandaProbe, and running your first
        instrumented agent.
    </p>

    <p style=~margin: 0 0 15px 0;~>
        Prefer to explore on your own? These will help:
    </p>

    <p style=~margin: 0 0 8px 0;~>
        &bull; Our docs: <a href=~https://docs.pandaprobe.com~
          style=~color: #0000EE; text-decoration: underline;~>https://docs.pandaprobe.com</a>
    </p>
    <p style=~margin: 0 0 15px 0;~>
        &bull; Our repo: <a href=~https://github.com/chirpz-ai/pandaprobe~
          style=~color: #0000EE; text-decoration: underline;~>https://github.com/chirpz-ai/pandaprobe</a>
    </p>

    <p style=~margin: 15px 0;~>
        Btw, if you'd like to share what you're building,
        I'd love to chat about how PandaProbe can fit your use case. Grab some time with me here:
        <a href=~https://cal.com/sina-tayebati/pandaprobe-intro~
          style=~color: #0000EE; text-decoration: underline;~>https://cal.com/sina-tayebati/pandaprobe-intro</a>
    </p>

    <p style=~margin: 15px 0 0 0;~>
        Sina<br>
    </p>
</div>".

Definition _followup_html : string := markup "<div style=~font-family: Arial, sans-serif; font-size: 10pt;~>
    <p style=~margin: 0 0 15px 0;~>
        Hey, just checking in.
    </p>

    <p style=~margin: 0 0 15px 0;~>
        Saw you signed up last week and wanted to see how things are going
        with PandaProbe. Have you had the chance to trace and evaluate an agent yet?
    </p>

    <p style=~margin: 0 0 15px 0;~>
        Would love to hear what you're building, and let me know if there's
        anything I can do to help.
    </p>

    <p style=~margin: 15px 0 0 0;~>
        Sina (founder at PandaProbe)
    </p>
</div>".

Definition invitation_page (inviter safe_role safe_url : string) : string :=
  markup "<div style=~font-family: Arial, sans-serif; font-size: 10pt;~>
    <p style=~margin: 0 0 15px 0;~>
        Hey,
    </p>

    <p style=~margin: 0 0 15px 0;~>
        " +:+
  inviter +:+
  markup " has invited you to join their organization on PandaProbe
        as a <strong>" +:+
  safe_role +:+
  markup "</strong>.
    </p>

    <p style=~margin: 0 0 15px 0;~>
        To accept the invitation, visit your PandaProbe dashboard:
        <a href=~" +:+
  safe_url +:+
  markup "~ style=~color: #0000EE; text-decoration: underline;~>" +:+
  safe_url +:+
  markup "</a>
    </p>

    <p style=~margin: 0 0 15px 0;~>
        If you don't have a PandaProbe account yet, sign up with this email
        address and the invitation will be waiting for you.
    </p>

    <p style=~margin: 0 0 15px 0;~>
        This invitation expires in 7 days.
    </p>

    <p style=~margin: 15px 0 0 0;~>
        &mdash; The PandaProbe Team
    </p>
</div>".
Definition _invitation_html (inviter_name role app_url : string) : string :=
  let inviter := if is_set inviter_name then html_escape inviter_name else "A team member" in
  invitation_page inviter (html_escape role) (html_escape app_url).

Section email.
Context (c : Config) (out : Providers).

Definition is_configured : bool := is_set (RESEND_API_KEY c).
(** An e-mail after a delay; without an API key nothing happens. *)
Definition send (params : Z -> SendParams) (delay : Z) : M Process unit :=
  if negb is_configured then mret tt else
  now ← gets pr_now;
  call (fun n => resend_answer out n (params (now + delay))) (Resend (params (now + delay))).

Definition welcome_params (to_ : string) (at_ : Z) : SendParams :=
  {| sp_from := RESEND_FROM c; sp_to := [to_]; sp_reply_to := Some (RESEND_REPLY_TO c); sp_subject := "Welcome to PandaProbe";
     sp_html := _welcome_html; sp_scheduled_at := at_ |}.
Definition send_welcome_email (to_ : string) : M Process unit := send (welcome_params to_) _WELCOME_DELAY.
Definition followup_params (to_ : string) (at_ : Z) : SendParams :=
  {| sp_from := RESEND_FROM c; sp_to := [to_]; sp_reply_to := Some (RESEND_REPLY_TO c);
     sp_subject := "how's your PandaProbe setup going?"; sp_html := _followup_html; sp_scheduled_at := at_ |}.
Definition send_followup_email (to_ : string) : M Process unit := send (followup_params to_) _FOLLOWUP_DELAY.
Definition invitation_params (to_ org_name inviter_name role app_url : string) (at_ : Z) : SendParams :=
  {| sp_from := RESEND_FROM_INFO c; sp_to := [to_]; sp_reply_to := None;
     sp_subject := "You've been invited to join " +:+ org_name +:+ " on PandaProbe";
     sp_html := _invitation_html inviter_name role app_url; sp_scheduled_at := at_ |}.
Definition send_invitation_email (to_ org_name inviter_name role app_url : string) : M Process unit :=
  send (invitation_params to_ org_name inviter_name role app_url) _INVITATION_DELAY.
End email.
End EmailService.

(** ** crm_service.py *)

Module CrmService.

Definition _BASE_URL : string := "https://api.attio.com/v2".

(** [v[k]] *)
Definition item (k : string) (v : Json) : res Json :=
  match v with
  | JObj m => match List.find (fun kv => bool_decide (kv.1 = k)) m with Some kv => Ok kv.2 | None => Err KeyError end
  | _ => Err TypeError
  end.

Section crm.
Context (c : Config) (out : Providers).

Definition is_configured : bool := is_set (ATTIO_API_KEY c) && is_set (ATTIO_LIST_ID c).
Definition _headers : list (string * string) := [("Authorization", "Bearer " +:+ ATTIO_API_KEY c); ("Content-Type", "application/json")].

(** A request whose status must be a success ([raise_for_status]); the document of the answer. *)
Definition request (r : HttpRequest) : M Process Json :=
  answer ← call (fun n => attio_answer out n r) (Attio r);
  guard_not (negb ((200 <=? answer.1) && (answer.1 <? 300)))%Z (ValueError "HTTPStatusError") ;;
  mret answer.2.

Definition person_request (email : string) : HttpRequest :=
  {| hr_method := PUT; hr_url := _BASE_URL +:+ "/objects/people/records"; hr_headers := _headers;
     hr_json := JObj [("data", JObj [("values", JObj [("email_addresses", JArr [JStr email])])])];
     hr_params := [("matching_attribute", "email_addresses")] |}.
Definition _assert_person (email : string) : M Process Json :=
  answer ← request (person_request email);
  data ← lift (item "data" answer);
  id ← lift (item "id" data);
  lift (item "record_id" id).

Definition entry_request (record_id : Json) : HttpRequest :=
  {| hr_method := POST; hr_url := _BASE_URL +:+ "/lists/" +:+ ATTIO_LIST_ID c +:+ "/entries"; hr_headers := _headers;
     hr_json := JObj [("data", JObj [("parent_object", JStr "people"); ("parent_record_id", record_id); ("entry_values", JObj [])])];
     hr_params := [] |}.
Definition _add_to_list (record_id : Json) : M Process unit := _ ← request (entry_request record_id); mret tt.

Definition sync_contact (email : string) : M Process unit :=
  if negb is_configured then mret tt else
  record_id ← _assert_person email;
  _add_to_list record_id.
End crm.
End CrmService.

(** ** analytics_service.py *)

Module AnalyticsService.

Definition _PROJECT_NAME : string := "pandaprobe_app".

Section analytics.
Context (c : Config) (out : Providers) (isoformat : Z -> string).

Definition is_configured : bool := is_set (POSTHOG_API_KEY c).
Definition posthog (k : Call) : M Process unit := call (fun n => posthog_answer out n k) k.

Definition initialize : M Process unit := if negb is_configured then mret tt else set_client true.
Definition shutdown : M Process unit :=
  client ← gets pr_client;
  if negb client then mret tt else
  try_finally (try_except (posthog PostHogFlush ;; posthog PostHogShutdown) (fun _ => mret tt)) (set_client false).

(** [d.update(e)] keeps the place of a key it has. *)
Definition update_key (d : list (string * Json)) (kv : string * Json) : list (string * Json) :=
  if existsb (fun x => bool_decide (x.1 = kv.1)) d then List.map (fun x => if bool_decide (x.1 = kv.1) then kv else x) d else d ++ [kv].
Definition update (d e : list (string * Json)) : list (string * Json) := foldl update_key d e.

Definition capture_properties (org_id : string) (user_id : option string) (properties : list (string * Json)) : list (string * Json) :=
  let props := [("project_name", JStr _PROJECT_NAME); ("org_id", JStr org_id)] in
  let props := match user_id with Some u => update props [("user_id", JStr u)] | None => props end in
  update props properties.
Definition _capture (org_id event : string) (user_id : option string) (properties : list (string * Json)) : M Process unit :=
  client ← gets pr_client;
  if negb client then mret tt else
  try_except (posthog (PostHogCapture ("org:" +:+ org_id) event (capture_properties org_id user_id properties))) (fun _ => mret tt).
Definition _set (distinct_id : string) (properties : list (string * Json)) : M Process unit :=
  client ← gets pr_client;
  if negb client then mret tt else
  try_except (posthog (PostHogSet distinct_id (update [("project_name", JStr _PROJECT_NAME)] properties))) (fun _ => mret tt).

(** Every event is silent without an API key. *)
Definition event (org_id name : string) (user_id : option string) (properties : list (string * Json)) : M Process unit :=
  if negb is_configured then mret tt else _capture org_id name user_id properties.
Definition opt_json (s : option string) : Json := match s with Some x => JStr x | None => JNull end.
Definition names_json (l : list string) : Json := JArr (List.map JStr l).

Definition identify_org (org_id : string) (created_at : Z) (owner_user_id owner_email : string) (owner_display_name : option string) :
    M Process unit :=
  if negb is_configured then mret tt else
  _set ("org:" +:+ org_id)
    [("org_id", JStr org_id); ("created_at", JStr (isoformat created_at)); ("owner_user_id", JStr owner_user_id);
     ("owner_email", JStr owner_email); ("owner_display_name", opt_json owner_display_name)].
Definition user_signed_up (org_id user_id email : string) : M Process unit :=
  event org_id "user_signed_up" (Some user_id) [("email", JStr email)].
Definition user_authenticated (org_id user_id : string) : M Process unit := event org_id "user_authenticated" (Some user_id) [].
Definition organization_created (org_id user_id source : string) : M Process unit :=
  event org_id "organization_created" (Some user_id) [("source", JStr source)].
Definition trace_ingested (org_id : string) (user_id : option string) (project_id : string) (has_session : bool) (span_count : Z) :
    M Process unit :=
  event org_id "trace_ingested" user_id
    [("project_id", JStr project_id); ("has_session", JBool has_session); ("span_count", JInt span_count)].
Definition api_key_created (org_id user_id : string) : M Process unit := event org_id "api_key_created" (Some user_id) [].
Definition eval_run_created (org_id : string) (user_id : option string) (project_id : string) (metric_names : list string)
    (target_count : Z) (model : option string) : M Process unit :=
  event org_id "eval_run_created" user_id
    [("project_id", JStr project_id); ("metric_names", names_json metric_names); ("target_count", JInt target_count);
     ("model", opt_json model)].
Definition session_eval_run_created (org_id : string) (user_id : option string) (project_id : string) (metric_names : list string)
    (session_count : Z) (model : option string) : M Process unit :=
  event org_id "session_eval_run_created" user_id
    [("project_id", JStr project_id); ("metric_names", names_json metric_names); ("session_count", JInt session_count);
     ("model", opt_json model)].
Definition eval_monitor_created (org_id : string) (user_id : option string) (project_id target_type cadence : string)
    (metric_names : list string) : M Process unit :=
  event org_id "eval_monitor_created" user_id
    [("project_id", JStr project_id); ("target_type", JStr target_type); ("cadence", JStr cadence);
     ("metric_names", names_json metric_names)].
End analytics.
End AnalyticsService.

(** ** The tasks (tasks.py) *)

Module NotificationTasks.

Inductive TaskStatus := Skipped (reason : string) | Sent (email : string) | Synced (email : string) | RetryLater.
Definition NOTIFY_MAX_RETRIES : nat := 3.

(** [autoretry_for=(Exception,)]: an exception puts the message back until the retries are used up. *)
Definition autoretry (retries : nat) (m : M Process TaskStatus) : M Process TaskStatus :=
  try_except m (fun e => if (retries <? NOTIFY_MAX_RETRIES)%nat then mret RetryLater else raise e).

Section tasks.
Context (c : Config) (out : Providers).

Definition email_task (send : M Process unit) (email : string) : M Process TaskStatus :=
  if negb (EmailService.is_configured c) then mret (Skipped "resend_not_configured") else send ;; mret (Sent email).
Definition send_welcome_email_task (email : string) (retries : nat) : M Process TaskStatus :=
  autoretry retries (email_task (EmailService.send_welcome_email c out email) email).
Definition send_followup_email_task (email : string) (retries : nat) : M Process TaskStatus :=
  autoretry retries (email_task (EmailService.send_followup_email c out email) email).
Definition send_invitation_email_task (to_ org_name inviter_name role app_url : string) (retries : nat) : M Process TaskStatus :=
  autoretry retries (email_task (EmailService.send_invitation_email c out to_ org_name inviter_name role app_url) to_).
Definition sync_new_user_to_crm (email : string) (retries : nat) : M Process TaskStatus :=
  autoretry retries
    (if negb (CrmService.is_configured c) then mret (Skipped "attio_not_configured")
     else CrmService.sync_contact c out email ;; mret (Synced email)).
End tasks.
End NotificationTasks.

(** ** What the recipients see *)

Import EmailService.

(** A page as its reader's program takes it apart: texts, and tags with their quoted attribute values, each
    value after what precedes its quote.  The five entities of [html_escape] are read as their characters,
    in texts and values; any other entity is left as it is written. *)
Inductive Token := TText (s : string) | TTag (attributes : list (string * string)) (rest : string).

(** The lexer: the tokens so far, and what it is in the middle of. *)
Inductive Mode :=
  | InText (acc : list ascii)
  | InTag (attributes : list (string * string)) (acc : list ascii)
  | InValue (attributes : list (string * string)) (before : string) (acc : list ascii).
Definition entities : list (string * ascii) := [("&amp;", "&"%char); ("&lt;", "<"%char); ("&gt;", ">"%char); ("&quot;", quote); ("&#x27;", "'"%char)].
(** The characters an entity has after its first one are skipped. *)
Fixpoint html_unescape (skip : nat) (l : list ascii) : list ascii :=
  match l, skip with
  | [], _ => []
  | _ :: l', S k => html_unescape k l'
  | c :: l', O =>
      match List.find (fun e => if keyword (chars e.1) l then true else false) entities with
      | Some e => e.2 :: html_unescape (String.length e.1 - 1) l'
      | None => c :: html_unescape 0 l'
      end
  end.
Definition unescaped (l : list ascii) : string := text (html_unescape 0 l).
Definition lex (st : list Token * Mode) (c : ascii) : list Token * Mode :=
  let '(done, mode) := st in
  match mode with
  | InText acc => if bool_decide (c = "<"%char) then (done ++ [TText (unescaped acc)], InTag [] []) else (done, InText (acc ++ [c]))
  | InTag attributes acc =>
      if bool_decide (c = ">"%char) then (done ++ [TTag attributes (text acc)], InText [])
      else if bool_decide (c = quote) then (done, InValue attributes (text acc) [])
      else (done, InTag attributes (acc ++ [c]))
  | InValue attributes before acc =>
      if bool_decide (c = quote) then (done, InTag (attributes ++ [(before, unescaped acc)]) []) else (done, InValue attributes before (acc ++ [c]))
  end.
(** The tokens of a page; none when it ends within a tag. *)
Definition tokens (page : string) : option (list Token) :=
  match foldl lex ([], InText []) (chars page) with
  | (done, InText acc) => Some (done ++ [TText (unescaped acc)])
  | _ => None
  end.

(** The invitation, as it should be read. *)
Definition paragraph (margin : string) : Token := TTag [("p style=", "margin: " +:+ margin +:+ ";")] "".
Definition close (tag : string) : Token := TTag [] ("/" +:+ tag).
Definition invitation_reading (inviter role url : string) : list Token :=
  [TText ""; TTag [("div style=", "font-family: Arial, sans-serif; font-size: 10pt;")] ""; TText "
    ";
   paragraph "0 0 15px 0"; TText "
        Hey,
    "; close "p"; TText "

    ";
   paragraph "0 0 15px 0"; TText ("
        " +:+ inviter +:+ " has invited you to join their organization on PandaProbe
        as a "); TTag [] "strong"; TText role; close "strong"; TText ".
    "; close "p"; TText "

    ";
   paragraph "0 0 15px 0"; TText "
        To accept the invitation, visit your PandaProbe dashboard:
        "; TTag [("a href=", url); (" style=", "color: #0000EE; text-decoration: underline;")] ""; TText url; close "a"; TText "
    "; close "p"; TText "

    ";
   paragraph "0 0 15px 0"; TText "
        If you don't have a PandaProbe account yet, sign up with this email
        address and the invitation will be waiting for you.
    "; close "p"; TText "

    ";
   paragraph "0 0 15px 0"; TText "
        This invitation expires in 7 days.
    "; close "p"; TText "

    ";
   paragraph "15px 0 0 0"; TText "
        &mdash; The PandaProbe Team
    "; close "p"; TText "
"; close "div"; TText ""].

(** The five replacements, character by character. *)
Definition entity (c : ascii) : list ascii :=
  if bool_decide (c = "&"%char) then chars "&amp;" else if bool_decide (c = "<"%char) then chars "&lt;"
  else if bool_decide (c = ">"%char) then chars "&gt;" else if bool_decide (c = quote) then chars "&quot;"
  else if bool_decide (c = "'"%char) then chars "&#x27;" else [c].
Lemma html_escape_chars s : chars (html_escape s) = flat_map entity (chars s).
Proof.
  unfold html_escape. rewrite String.list_ascii_of_string_of_list_ascii. unfold replace_char.
  induction (chars s) as [|c l IH]; [done|]. cbn [flat_map]. rewrite !flat_map_app IH. f_equal. unfold entity.
  by destruct c as [[] [] [] [] [] [] [] []].
Qed.

(** No character of an escaped text ends what the lexer is in the middle of. *)
Definition plain (c : ascii) : Prop := c <> "<"%char /\ c <> ">"%char /\ c <> quote.
Lemma escaped_plain s : Forall plain (chars (html_escape s)).
Proof.
  rewrite html_escape_chars. induction (chars s) as [|c l IH]; [constructor|]. cbn [flat_map]. apply Forall_app. split; [|exact IH].
  destruct c as [[] [] [] [] [] [] [] []]; cbn; repeat constructor; done.
Qed.
Lemma lex_text done acc l : Forall plain l -> foldl lex (done, InText acc) l = (done, InText (acc ++ l)).
Proof.
  revert acc. induction l as [|c l IH]; intros acc H; [by rewrite app_nil_r|]. apply Forall_cons in H as [(H & _) Hl]. cbn [foldl lex].
  rewrite bool_decide_eq_false_2 // IH // -app_assoc. done.
Qed.
Lemma lex_value done attributes before acc l : Forall plain l ->
  foldl lex (done, InValue attributes before acc) l = (done, InValue attributes before (acc ++ l)).
Proof.
  revert acc. induction l as [|c l IH]; intros acc H; [by rewrite app_nil_r|]. apply Forall_cons in H as [(_ & _ & H) Hl]. cbn [foldl lex].
  rewrite bool_decide_eq_false_2 // IH // -app_assoc. done.
Qed.

(** What is escaped is read as it was given, and what has no ampersand is read as it is. *)
Lemma unescape_escape s l : html_unescape 0 (chars (html_escape s) ++ l) = chars s ++ html_unescape 0 l.
Proof.
  rewrite html_escape_chars. induction (chars s) as [|c r IH]; [done|]. cbn [flat_map app]. rewrite -app_assoc -IH.
  by destruct c as [[] [] [] [] [] [] [] []].
Qed.
Lemma unescape_plain p l : Forall (fun c => c <> "&"%char) p -> html_unescape 0 (p ++ l) = p ++ html_unescape 0 l.
Proof.
  induction p as [|c p IH]; intros H; [done|]. apply Forall_cons in H as [Hc Hp]. specialize (IH Hp). cbn [app].
  rewrite -IH. by destruct c as [[] [] [] [] [] [] [] []].
Qed.


(** Lexing from where a text was inserted: its tokens come after those that were done. *)
Lemma lex_done done mode l : foldl lex (done, mode) l = let '(d, m) := foldl lex ([], mode) l in (done ++ d, m).
Proof.
  revert done mode. induction l as [|c l IH]; intros done mode; [by rewrite /= app_nil_r|]. cbn [foldl].
  assert (E : lex (done, mode) c = let '(d, m) := lex ([], mode) c in (done ++ d, m)).
  { destruct mode; cbn; repeat case_bool_decide; by rewrite ?app_nil_r. }
  rewrite E. destruct (lex ([], mode) c) as [d m]. rewrite IH (IH d). destruct (foldl lex ([], m) l) as [d' m']. by rewrite app_assoc.
Qed.
(** The template up to its next tag, and from there. *)
Fixpoint to_tag (l : list ascii) : list ascii * list ascii :=
  match l with
  | [] => ([], [])
  | c :: l' => if bool_decide (c = "<"%char) then ([], l') else let '(a, b) := to_tag l' in (c :: a, b)
  end.
Definition plainb (c : ascii) : bool := negb (bool_decide (c = "<"%char \/ c = ">"%char \/ c = quote)).
Lemma plainb_plain l : forallb plainb l = true -> Forall plain l.
Proof.
  intros H. apply Forall_forall. intros c Hc%list_elem_of_In. rewrite List.forallb_forall in H. specialize (H c Hc).
  apply negb_true_iff, bool_decide_eq_false in H. unfold plain. tauto.
Qed.
Definition no_ampersand (l : list ascii) : bool := forallb (fun c => negb (bool_decide (c = "&"%char))) l.
Lemma no_ampersand_Forall l : no_ampersand l = true -> Forall (fun c => c <> "&"%char) l.
Proof.
  intros H. apply Forall_forall. intros c Hc%list_elem_of_In. unfold no_ampersand in H. rewrite List.forallb_forall in H. specialize (H c Hc).
  by apply negb_true_iff, bool_decide_eq_false in H.
Qed.
(** A text of the template, a given one, and the template up to the next tag. *)
Lemma lex_given done before given p r l : l = p ++ "<"%char :: r -> forallb plainb p = true -> no_ampersand (before ++ p) = true ->
  foldl lex (foldl lex (done, InText before) (chars (html_escape given))) l =
  foldl lex (done ++ [TText (text (before ++ chars given ++ p))], InTag [] []) r.
Proof.
  intros -> Hp H. unfold no_ampersand in H. rewrite List.forallb_app in H. apply andb_prop in H as [Hb%no_ampersand_Forall Ha%no_ampersand_Forall].
  rewrite lex_text; [by apply escaped_plain|]. rewrite foldl_app lex_text; [by apply plainb_plain|]. cbn [foldl lex].
  rewrite bool_decide_eq_true_2 //. do 3 f_equal. unfold unescaped.
  rewrite -app_assoc unescape_plain // unescape_escape.
  by rewrite -{1}(app_nil_r p) unescape_plain // app_nil_r.
Qed.

Lemma text_given a given b : text (a ++ chars given ++ b) = text a +:+ given +:+ text b.
Proof.
  induction a as [|c a IH]; [|exact (f_equal (String c) IH)]. induction given as [|c g IH]; [done|exact (f_equal (String c) IH)].
Qed.
Lemma text_nil s : s +:+ text [] = s.
Proof. induction s as [|c s IH]; [done|exact (f_equal (String c) IH)]. Qed.
(** A template, lexed; only its given parts are not known. *)
Ltac template := match goal with |- context [foldl lex (?d, ?m) (chars (markup ?s))] =>
  rewrite (lex_done d m (chars (markup s)));
  let r := eval vm_compute in (foldl lex ([], m) (chars (markup s))) in change (foldl lex ([], m) (chars (markup s))) with r end; cbv beta iota.
(** A given text, and the template behind it. *)
Ltac given g := match goal with |- context [foldl lex (foldl lex ?st (chars (html_escape g))) (chars (markup ?s))] =>
  let l := eval vm_compute in (chars (markup s)) in change (chars (markup s)) with l;
  let pr := eval vm_compute in (to_tag l) in
  match pr with (?p, ?r) => rewrite (lex_given _ _ g p r l); [reflexivity..|];
    match goal with |- context [foldl lex (?d, InTag [] []) r] =>
      rewrite (lex_done d (InTag [] []) r); let x := eval vm_compute in (foldl lex ([], InTag [] []) r) in change (foldl lex ([], InTag [] []) r) with x
    end end end; cbv beta iota.
Lemma value_read done attributes before given l :
  foldl lex (foldl lex (done, InValue attributes before []) (chars (html_escape given))) (quote :: l) =
  foldl lex (done, InTag (attributes ++ [(before, given)]) []) l.
Proof.
  rewrite lex_value; [apply escaped_plain|]. cbn [foldl lex app]. rewrite bool_decide_eq_true_2 //. do 5 f_equal. unfold unescaped.
  by rewrite -(app_nil_r (chars (html_escape given))) unescape_escape /= app_nil_r String.string_of_list_ascii_of_string.
Qed.
Ltac value g := match goal with |- context [foldl lex (foldl lex (?d, InValue ?attributes ?before []) (chars (html_escape g))) (chars (markup ?s))] =>
  let l := eval vm_compute in (List.tl (chars (markup s))) in
  change (chars (markup s)) with (quote :: l); rewrite (value_read d attributes before g l) (lex_done d _ l);
  let x := eval vm_compute in (foldl lex ([], InTag (attributes ++ [(before, g)]) []) l) in
  change (foldl lex ([], InTag (attributes ++ [(before, g)]) []) l) with x end; cbv beta iota.
Lemma page_read inviter role url :
  tokens (invitation_page (html_escape inviter) (html_escape role) (html_escape url)) = Some (invitation_reading inviter role url).
Proof.
  unfold tokens, invitation_page. rewrite !list_ascii_of_app !foldl_app. template. given inviter. given role. value url. given url.
  rewrite !text_given !text_nil. reflexivity.
Qed.

(** C40: An invitation cannot be turned into other markup, and reads as it was meant.  Whatever the inviter calls himself, and
    whatever the role and the address of the dashboard are, a reader's program takes the page apart into exactly the tags, attribute
    values and texts of the template, in which the name (A team member when it is empty), the role and the address stand
    exactly as given, the address as the target of the link and as its text.  Sending the invitation is one request to the provider, with this
    page, for the invited address alone, two minutes later, whose answer is the outcome; without an API key nothing is sent. *)
Theorem invitation_inert (c : Config) (out : Providers) (to_ org_name inviter_name role app_url : string) (p : Process) :
  let page := _invitation_html inviter_name role app_url in
  let mail := {| sp_from := RESEND_FROM_INFO c; sp_to := [to_]; sp_reply_to := None;
                 sp_subject := "You've been invited to join " +:+ org_name +:+ " on PandaProbe";
                 sp_html := page; sp_scheduled_at := pr_now p + minutes 2 |} in
  tokens page = Some (invitation_reading (if is_set inviter_name then inviter_name else "A team member") role app_url) /\
  send_invitation_email c out to_ org_name inviter_name role app_url p =
    if is_configured c
    then (resend_answer out (length (pr_calls p)) mail,
          {| pr_now := pr_now p; pr_client := pr_client p; pr_calls := pr_calls p ++ [Resend mail] |})
    else (Ok tt, p).
Proof.
  cbv zeta. split.
  - unfold _invitation_html. destruct (is_set inviter_name); [apply page_read|].
    change (tokens (invitation_page (html_escape "A team member") (html_escape role) (html_escape app_url)) =
      Some (invitation_reading "A team member" role app_url)). apply page_read.
  - unfold send_invitation_email, send. by destruct (is_configured c).
Qed.

(** ** Analytics never disturb a request *)

Import AnalyticsService.

Lemma capture_never_raises out org_id name user_id properties p : exists p', _capture out org_id name user_id properties p = (Ok tt, p').
Proof.
  unfold _capture. rewrite (bind_Ok (gets pr_client) _ p (pr_client p) p eq_refl). destruct (pr_client p); [|by eexists].
  cbn [negb]. unfold try_except, posthog, call. destruct (posthog_answer out _ _) as [[]|e]; eexists; reflexivity.
Qed.
(** An event is answered, adds at most one call, and none without a key or a client. *)
Lemma event_never_raises c out org_id name user_id properties p :
  exists p', event c out org_id name user_id properties p = (Ok tt, p') /\
    (AnalyticsService.is_configured c && pr_client p = false -> p' = p).
Proof.
  unfold event. destruct (AnalyticsService.is_configured c); cbn [negb andb]; [|by exists p].
  destruct (capture_never_raises out org_id name user_id properties p) as [p' E]. exists p'. split; [done|]. intros K.
  unfold _capture in E. rewrite (bind_Ok (gets pr_client) _ p (pr_client p) p eq_refl) K in E. by injection E as <-.
Qed.
(** The organization is the subject of every event. *)
Lemma capture_names_organization org_id user_id properties :
  (forall v, ("org_id", v) ∉ properties) -> In ("org_id", JStr org_id) (capture_properties org_id user_id properties).
Proof.
  intros N. unfold capture_properties. set (start := match user_id with Some _ => _ | None => _ end).
  assert (S : In ("org_id", JStr org_id) start) by (unfold start; destruct user_id; (right; by left)).
  clearbody start. revert start S. induction properties as [|[k v] l IH]; intros d S; [done|]. cbn [update foldl]. apply IH.
  { intros x X. apply (N x). by right. }
  assert (K : k <> "org_id") by (intros ->; apply (N v); by left).
  unfold update_key. destruct (existsb _ d); [|apply in_app_iff; left; exact S].
  apply in_map_iff. eexists. split; [|exact S]. cbn. rewrite bool_decide_eq_false_2 //. intros E. by apply K.
Qed.
