(* ===== verification/CliAuth.v ===== *)
(** * CLI login (services/cli_service.py, api/v1/routes/cli.py)

    Single-use authorization codes with PKCE.  Texts are Latin-1, so the em dash of
    the key name stands as the character 151. *)
From stdpp Require Import base gmap strings list pretty.
From Stdlib Require Import ZArith Lia Ascii ssreflect.
From S2P Require Import Prelude Constants Entities World Invariant BillingRepo Security IdentityRepo Identity ApiAuth.

#[local] Open Scope Z_scope.

Definition _CODE_TTL_SECONDS : Z := 120.
Definition _CODE_RANDOM_BYTES : nat := 32.
Definition _MAX_KEY_NAME_LEN : nat := 255.
Definition _ALLOWED_EXPIRES_DAYS : Z := 90.

(** ** [strftime("%Y-%m-%d")] of a UTC instant *)

(** The civil date of a day number, in the proleptic Gregorian calendar. *)
Definition civil_of_day (day : Z) : Z * Z * Z :=
  let z := day + 719468 in
  let era := z / 146097 in
  let doe := z mod 146097 in
  let yoe := (doe - doe / 1460 + doe / 36524 - doe / 146096) / 365 in
  let doy := doe - (365 * yoe + yoe / 4 - yoe / 100) in
  let mp := (5 * doy + 2) / 153 in
  let d := doy - (153 * mp + 2) / 5 + 1 in
  let m := if mp <? 10 then mp + 3 else mp - 9 in
  let y := yoe + era * 400 + (if m <=? 2 then 1 else 0) in
  (y, m, d).

(** A number in [k] decimal digits. *)
Fixpoint decimal (k : nat) (n : Z) : string :=
  match k with
  | O => EmptyString
  | S k' => decimal k' (n / 10) +:+ String (ascii_of_N (Z.to_N (48 + n mod 10))) EmptyString
  end.

Definition strftime_date (t : Z) : string :=
  let '(y, m, d) := civil_of_day (t / days 1) in
  decimal 4 y +:+ "-" +:+ decimal 2 m +:+ "-" +:+ decimal 2 d.

Definition em_dash : string := " " +:+ String (ascii_of_N 151) EmptyString +:+ " ".

Definition _key_name_from_label (label : string) : M World string :=
  now ← utcnow;
  let clean_label := strip (if truthy (Some label) then label else "cli") in
  let clean_label := if truthy (Some clean_label) then clean_label else "cli"%string in
  mret (String.substring 0 _MAX_KEY_NAME_LEN
         ("pandaprobe-cli" +:+ em_dash +:+ clean_label +:+ em_dash +:+ strftime_date now)).

Record Issue := {
  is_user : N; is_org : N; is_project : N; is_challenge : string; is_method : string;
  is_label : string; is_expires_days : Z }.

Record Exchanged := {
  ex_api_key : string; ex_project_name : string; ex_org : N; ex_user : N; ex_key_id : N;
  ex_key_prefix : string; ex_expires_at : option Z }.

Section cli.
Context (sha256 : string -> list N).

Definition issue_code (q : Issue) : M World (string * Z) :=
  guard_not (negb (bool_decide (is_method q = "S256"%string)))
    (PP ValidationError "Unsupported code_challenge_method. Only 'S256' is allowed.") ;;
  guard_not (negb (truthy (Some (strip (is_challenge q))))) (PP ValidationError "code_challenge is required.") ;;
  guard_not (negb (is_expires_days q =? _ALLOWED_EXPIRES_DAYS))
    (PP ValidationError "Only a 90-day key lifetime is supported for the CLI.") ;;
  _ ← IdentityService.require_membership (is_user q) (is_org q);
  project ← IdentityService.get_project (is_project q) (Some (is_org q));
  code ← token_urlsafe _CODE_RANDOM_BYTES;
  let payload := {| cp_user := is_user q; cp_org := is_org q; cp_project := p_id project;
                    cp_project_name := p_name project; cp_challenge := is_challenge q;
                    cp_label := is_label q; cp_expires_days := is_expires_days q |} in
  redis_update (fun r t => set_codes (<[code := (payload, t + _CODE_TTL_SECONDS * second)]> (r_codes r)) r) ;;
  mret (code, _CODE_TTL_SECONDS).

(** The bound payload, once the code is known and the verifier proves it. *)
Definition read_code (code code_verifier : string) : M World CodePayload :=
  guard_not (negb (truthy (Some code) && truthy (Some code_verifier)))
    (PP ValidationError "Both 'code' and 'code_verifier' are required.") ;;
  raw ← redis_get (fun r t => live t (r_codes r !! code));
  payload ← or_raise (auth_error "Authorization code is invalid, expired, or already used.") raw;
  proved ← lift (verify_pkce sha256 code_verifier (cp_challenge payload));
  guard_not (negb proved) (auth_error "PKCE verification failed.") ;;
  mret payload.

(** [redis.delete(key)]: how many keys were deleted. *)
Definition delete_code (code : string) : M World Z :=
  raw ← redis_get (fun r t => live t (r_codes r !! code));
  redis_update (fun r t => set_codes (delete code (r_codes r)) r) ;;
  mret (if raw : option CodePayload then 1 else 0).

(** Consuming the code, and only then minting the key. *)
Definition consume_code (code : string) (payload : CodePayload) : M World Exchanged :=
  deleted ← delete_code code;
  guard_not (deleted =? 0) (auth_error "Authorization code is invalid, expired, or already used.") ;;
  _ ← IdentityService.require_membership (cp_user payload) (cp_org payload);
  name ← _key_name_from_label (cp_label payload);
  minted ← IdentityService.create_api_key sha256 (cp_org payload) name (Some (cp_user payload))
             (pretty (cp_expires_days payload) +:+ "d");
  mret {| ex_api_key := minted.2; ex_project_name := cp_project_name payload; ex_org := cp_org payload;
          ex_user := cp_user payload; ex_key_id := k_id minted.1; ex_key_prefix := k_prefix minted.1;
          ex_expires_at := k_expires minted.1 |}.

Definition exchange (code code_verifier : string) : M World Exchanged :=
  payload ← read_code code code_verifier;
  consume_code code payload.
End cli.

Example strftime_epoch : strftime_date 0 = "1970-01-01"%string.
Proof. vm_compute. reflexivity. Qed.
Example strftime_leap_day : strftime_date (days 19782 + hours 23) = "2024-02-29"%string.
Proof. vm_compute. reflexivity. Qed.
