(* ===== verification/Routes.v ===== *)
(** * The management API (api/v1/routes/)

    The handlers of organizations.py, projects.py, api_keys.py, user.py, cli.py and
    subscriptions.py, on a resolved context: each checks the caller, then calls the
    service.  A response carries the entity it is built from; the schema conversions
    (isoformat, str) and the rate limiter are left out.  [get_org_subscription] is
    [get_subscription] of subscriptions.py. *)
From stdpp Require Import base gmap strings list.
From Stdlib Require Import ZArith Lia ssreflect.
From S2P Require Import Prelude Constants Entities World Invariant BillingRepo Locks Usage ReportRepo Reporting Billing Security IdentityRepo Identity ApiAuth CliAuth.

#[local] Open Scope Z_scope.

(** ** Responses *)

Record CategoryBreakdown := {
  cb_used : Z; cb_included : option Z; cb_overage_units : Z; cb_overage_cost : Decimal }.

Record BillingResponse := {
  bl_plan : SubscriptionPlan;
  bl_start : Z;
  bl_end : Z;
  bl_base_price_cents : Z;
  bl_category : UsageCategory -> CategoryBreakdown;
  bl_total : Decimal;
  bl_reported : Decimal;
  bl_pending : Decimal;
  bl_estimated_total_cents : Z }.

Definition no_org_subscription : exn := PP NotFoundError "No subscription found for this organization.".

Module ManagementApi.
Section api.
Context (sha256 : string -> list N) (ctx : ApiContext).

(** ** organizations.py *)

Definition create_organization (name : string) : M World Organization :=
  user ← _require_user ctx;
  IdentityService.create_organization name (u_id user) None.

Definition list_my_organizations : M World (list (Organization * MembershipRole)) :=
  user ← _require_user ctx;
  memberships ← IdentityService.list_user_orgs (u_id user);
  mapM (fun m => org ← IdentityService.get_organization (m_org m); mret (org, m_role m)) memberships.

Definition get_organization (org : N) : M World (Organization * MembershipRole) :=
  user ← _require_user ctx;
  membership ← IdentityService.require_membership (u_id user) org;
  o ← IdentityService.get_organization org;
  mret (o, m_role membership).

Definition update_organization (org : N) (name : option string) : M World Organization :=
  user ← _require_user ctx;
  _ ← IdentityService.require_admin (u_id user) org;
  IdentityService.update_organization org name.

Definition delete_organization (org : N) : M World unit :=
  user ← _require_user ctx;
  _ ← IdentityService.require_owner (u_id user) org;
  IdentityService.delete_organization org.

Definition list_members (org : N) : M World (list Membership) :=
  user ← _require_user ctx;
  _ ← IdentityService.require_membership (u_id user) org;
  IdentityService.list_org_members org.

Definition update_member_role (org target : N) (role : MembershipRole) : M World Membership :=
  user ← _require_user ctx;
  IdentityService.update_member_role (u_id user) org target role.

Definition remove_member (org target : N) : M World unit :=
  user ← _require_user ctx;
  IdentityService.remove_member (u_id user) org target.

(** [email: str = Field(min_length=3, max_length=320)]; a payload outside these
    bounds never reaches the handler. *)
Definition create_invitation (org : N) (email : string) (role : MembershipRole) : M World Invitation :=
  user ← _require_user ctx;
  IdentityService.create_invitation (u_id user) org email role.

Definition list_invitations (org : N) : M World (list Invitation) :=
  user ← _require_user ctx;
  _ ← IdentityService.require_membership (u_id user) org;
  IdentityService.list_org_invitations org.

Definition revoke_invitation (org invitation : N) : M World unit :=
  user ← _require_user ctx;
  IdentityService.revoke_invitation (u_id user) org invitation.

(** ** user.py *)

Definition get_me : M World User := _require_user ctx.

Definition list_my_invitations : M World (list Invitation) :=
  user ← _require_user ctx;
  IdentityService.list_my_invitations (u_email user).

Definition accept_invitation (invitation : N) : M World Membership :=
  user ← _require_user ctx;
  IdentityService.accept_invitation (u_id user) invitation.

Definition decline_invitation (invitation : N) : M World unit :=
  user ← _require_user ctx;
  IdentityService.decline_invitation (u_id user) invitation.

(** ** projects.py *)

Definition create_project (org : N) (name description : string) : M World Project :=
  user ← _require_user ctx;
  _ ← IdentityService.require_admin (u_id user) org;
  IdentityService.create_project org name description.

Definition list_projects (org : N) : M World (list Project) :=
  user ← _require_user ctx;
  _ ← IdentityService.require_membership (u_id user) org;
  IdentityService.list_projects org.

Definition get_project (org project : N) : M World Project :=
  user ← _require_user ctx;
  _ ← IdentityService.require_membership (u_id user) org;
  IdentityService.get_project project (Some org).

Definition update_project (org project : N) (name description : option string) : M World Project :=
  user ← _require_user ctx;
  _ ← IdentityService.require_admin (u_id user) org;
  IdentityService.update_project org project name description.

Definition delete_project (org project : N) : M World unit :=
  user ← _require_user ctx;
  _ ← IdentityService.require_owner (u_id user) org;
  IdentityService.delete_project org project.

(** ** api_keys.py *)

Definition _is_effectively_active (key : APIKey) : M World bool :=
  now ← utcnow;
  mret (k_active key && match k_expires key with Some e => negb (e <? now) | None => true end).

(** [_key_response]: the key, whether it works, and the raw key of a new one. *)
Definition _key_response (key : APIKey) (raw_key : option string) : M World (APIKey * bool * option string) :=
  active ← _is_effectively_active key;
  mret (key, active, raw_key).

(** [KeyExpiration] admits the two values of [expiration_delta]. *)
Definition create_api_key (org : N) (name : string) (never : bool) : M World (APIKey * bool * option string) :=
  user ← _require_user ctx;
  _ ← IdentityService.require_membership (u_id user) org;
  minted ← IdentityService.create_api_key sha256 org name (Some (u_id user)) (if never then "never" else "90d");
  _key_response minted.1 (Some minted.2).

Definition list_org_api_keys (org : N) : M World (list (APIKey * bool * option string)) :=
  user ← _require_user ctx;
  _ ← IdentityService.require_membership (u_id user) org;
  keys ← IdentityService.list_api_keys org;
  mapM (fun k => _key_response k None) keys.

Definition get_api_key (org key : N) : M World (APIKey * bool * option string) :=
  user ← _require_user ctx;
  _ ← IdentityService.require_membership (u_id user) org;
  k ← IdentityService.get_api_key key org;
  _key_response k None.

Definition rotate_api_key (org key : N) : M World (APIKey * bool * option string) :=
  user ← _require_user ctx;
  _ ← IdentityService.require_admin (u_id user) org;
  minted ← IdentityService.rotate_api_key sha256 key org (Some (u_id user));
  _key_response minted.1 (Some minted.2).

Definition delete_api_key (org key : N) (permanent : bool) : M World unit :=
  user ← _require_user ctx;
  _ ← IdentityService.require_admin (u_id user) org;
  if permanent then IdentityService.delete_api_key key org else IdentityService.revoke_api_key key org.

(** ** subscriptions.py *)

Definition get_org_subscription (org : N) : M World Subscription :=
  user ← _require_user ctx;
  _ ← IdentityService.require_membership (u_id user) org;
  sub ← get_subscription_by_org org;
  or_raise no_org_subscription sub.

Definition get_usage (org : N) : M World UsageSummary :=
  user ← _require_user ctx;
  _ ← IdentityService.require_membership (u_id user) org;
  get_current_usage org.

(** The overage of one category of a triple. *)
Definition over (plan : PlanConfig) (k : Counts) (c : UsageCategory) : Z := Z.max 0 (cnt k c - base_or_zero plan c).
Definition overage_cost (plan : PlanConfig) (k : Counts) : Decimal :=
  dec_mul_int OVERAGE_UNIT_PRICE (over plan k TRACES + over plan k TRACE_EVALS + over plan k SESSION_EVALS).

Definition get_billing (org : N) : M World BillingResponse :=
  user ← _require_user ctx;
  _ ← IdentityService.require_membership (u_id user) org;
  found ← get_subscription_by_org org;
  sub ← or_raise no_org_subscription found;
  let plan_cfg := get_plan_config (sub_plan sub) in
  summary ← get_current_usage org;
  let total_overage := overage_cost plan_cfg (us_counts summary) in
  usage_record ← get_current_usage_record org (sub_start sub);
  let reported_overage := match usage_record with
    | Some u => overage_cost plan_cfg (ur_reported u)
    | None => zero_decimal end in
  mret {| bl_plan := sub_plan sub;
          bl_start := sub_start sub;
          bl_end := sub_end sub;
          bl_base_price_cents := monthly_price_cents plan_cfg;
          bl_category := fun c =>
            {| cb_used := cnt (us_counts summary) c;
               cb_included := base plan_cfg c;
               cb_overage_units := over plan_cfg (us_counts summary) c;
               cb_overage_cost := dec_mul_int OVERAGE_UNIT_PRICE (over plan_cfg (us_counts summary) c) |};
          bl_total := total_overage;
          bl_reported := reported_overage;
          bl_pending := dec_sub total_overage reported_overage;
          bl_estimated_total_cents :=
            monthly_price_cents plan_cfg + quantize_half_up (dec_mul_int total_overage 100) |}.

(** [limit] is between 1 and 36. *)
Definition get_invoices (org : N) (limit : nat) : M World (list UsageRecord) :=
  user ← _require_user ctx;
  _ ← IdentityService.require_membership (u_id user) org;
  list_usage_history org limit.

Definition create_checkout (org : N) (plan : SubscriptionPlan) : M World string :=
  user ← _require_user ctx;
  _ ← IdentityService.require_admin (u_id user) org;
  guard_not (negb (bool_decide (plan = PRO) || bool_decide (plan = STARTUP)))
    (PP ValidationError "Checkout is only available for PRO and STARTUP plans.") ;;
  _ensure_stripe_configured ;;
  create_checkout_session org plan.

Definition create_portal (org : N) : M World string :=
  user ← _require_user ctx;
  _ ← IdentityService.require_admin (u_id user) org;
  _ensure_stripe_configured ;;
  create_portal_session org.

Definition get_plans : M World (list (SubscriptionPlan * PlanConfig)) :=
  user ← _require_user ctx;
  mret (List.map (fun p => (p, PLAN_LIMITS p)) [HOBBY; PRO; STARTUP; ENTERPRISE]).

(** ** cli.py *)

Definition issue_cli_code (q : Issue) : M World (string * Z) :=
  user ← _require_user ctx;
  issue_code {| is_user := u_id user; is_org := is_org q; is_project := is_project q;
                is_challenge := is_challenge q; is_method := is_method q; is_label := is_label q;
                is_expires_days := is_expires_days q |}.
End api.
End ManagementApi.
