(* ===== verification/Access.v ===== *)
(** * Calls to the management API and who may make them

    [Call] lists the endpoints of Routes that act on identity data or on one
    organization's billing, [serve] runs one of them, and [allowed] is the role
    matrix the endpoints document.  The lemmas on look-ups and guards serve every
    proof about the identity services. *)
From stdpp Require Import base gmap strings list.
From Stdlib Require Import ZArith Lia Ascii ssreflect.
From S2P Require Import Prelude Constants Entities Float64 Json Evals Telemetry World Invariant BillingRepo Locks Usage ReportRepo Reporting Billing Security IdentityRepo Identity ApiAuth CliAuth Routes.

#[local] Open Scope Z_scope.

Inductive OrgCall :=
  | GetOrg | UpdateOrg (name : option string) | DeleteOrg
  | ListMembers | UpdateRole (target : N) (role : MembershipRole) | RemoveMember (target : N)
  | Invite (email : string) (role : MembershipRole) | ListInvitations | Revoke (invitation : N)
  | CreateProject (name description : string) | ListProjects | GetProject (project : N)
  | UpdateProject (project : N) (name description : option string) | DeleteProject (project : N)
  | CreateKey (name : string) (never : bool) | ListKeys | GetKey (key : N) | RotateKey (key : N)
  | DeleteKey (key : N) (permanent : bool)
  | GetSubscription | GetUsage | GetBilling | GetInvoices (limit : nat)
  | Checkout (plan : SubscriptionPlan) | Portal.

Inductive Call :=
  | OnOrg (org : N) (c : OrgCall)
  | CreateOrg (name : string)
  | Accept (invitation : N)
  | Decline (invitation : N).

Definition discard {A} (m : M World A) : M World unit := _ ← m; mret tt.

Section serve.
Context (sha256 : string -> list N) (ctx : ApiContext).

Definition serve_org (org : N) (c : OrgCall) : M World unit :=
  match c with
  | GetOrg => discard (ManagementApi.get_organization ctx org)
  | UpdateOrg name => discard (ManagementApi.update_organization ctx org name)
  | DeleteOrg => ManagementApi.delete_organization ctx org
  | ListMembers => discard (ManagementApi.list_members ctx org)
  | UpdateRole target role => discard (ManagementApi.update_member_role ctx org target role)
  | RemoveMember target => ManagementApi.remove_member ctx org target
  | Invite email role => discard (ManagementApi.create_invitation ctx org email role)
  | ListInvitations => discard (ManagementApi.list_invitations ctx org)
  | Revoke i => ManagementApi.revoke_invitation ctx org i
  | CreateProject name description => discard (ManagementApi.create_project ctx org name description)
  | ListProjects => discard (ManagementApi.list_projects ctx org)
  | GetProject p => discard (ManagementApi.get_project ctx org p)
  | UpdateProject p name description => discard (ManagementApi.update_project ctx org p name description)
  | DeleteProject p => ManagementApi.delete_project ctx org p
  | CreateKey name never => discard (ManagementApi.create_api_key sha256 ctx org name never)
  | ListKeys => discard (ManagementApi.list_org_api_keys ctx org)
  | GetKey k => discard (ManagementApi.get_api_key ctx org k)
  | RotateKey k => discard (ManagementApi.rotate_api_key sha256 ctx org k)
  | DeleteKey k permanent => ManagementApi.delete_api_key ctx org k permanent
  | GetSubscription => discard (ManagementApi.get_org_subscription ctx org)
  | GetUsage => discard (ManagementApi.get_usage ctx org)
  | GetBilling => discard (ManagementApi.get_billing ctx org)
  | GetInvoices n => discard (ManagementApi.get_invoices ctx org n)
  | Checkout plan => discard (ManagementApi.create_checkout ctx org plan)
  | Portal => discard (ManagementApi.create_portal ctx org)
  end.

Definition serve (c : Call) : M World unit :=
  match c with
  | OnOrg org c => serve_org org c
  | CreateOrg name => discard (ManagementApi.create_organization ctx name)
  | Accept i => discard (ManagementApi.accept_invitation ctx i)
  | Decline i => ManagementApi.decline_invitation ctx i
  end.
End serve.

(** The role matrix of the endpoints' documentation ("Auth: ... role: ..."). *)
Definition is_admin (r : MembershipRole) : bool := negb (bool_decide (r = MEMBER)).
Definition is_owner (r : MembershipRole) : bool := bool_decide (r = OWNER).
Definition allowed (c : OrgCall) (r : MembershipRole) : bool :=
  match c with
  | UpdateOrg _ | RemoveMember _ | Revoke _ | CreateProject _ _ | UpdateProject _ _ _
  | RotateKey _ | DeleteKey _ _ | Checkout _ | Portal => is_admin r
  | Invite _ role =>
      match r with
      | OWNER => negb (is_owner role)
      | ADMIN => bool_decide (role = MEMBER)
      | MEMBER => false
      end
  | DeleteOrg | UpdateRole _ _ | DeleteProject _ => is_owner r
  | _ => true
  end.

(** ** Look-ups leave the world alone *)

Definition read_only {A} (m : M World A) : Prop := forall w, (m w).2 = w.

Lemma read_only_ret {A} (a : A) : read_only (mret a).
Proof. done. Qed.
Lemma read_only_raise {A} e : read_only (@raise World A e).
Proof. done. Qed.
Lemma read_only_lift {A} (r : res A) : read_only (lift r).
Proof. done. Qed.
Lemma read_only_gets {A} (f : World -> A) : read_only (gets f).
Proof. done. Qed.
Lemma read_only_guard b e : read_only (guard_not b e).
Proof. by destruct b. Qed.
Lemma read_only_bind {A B} (m : M World A) (k : A -> M World B) :
  read_only m -> (forall a, read_only (k a)) -> read_only (m ≫= k).
Proof.
  intros Hm Hk w. unfold mbind, M_bind. specialize (Hm w).
  destruct (m w) as [[a|e] w1]; simpl in *; subst; [apply Hk|done].
Qed.
Lemma read_only_or_raise {A} e (o : option A) : read_only (or_raise e o).
Proof. by destruct o. Qed.
Lemma read_only_as_validation {A} (r : res A) : read_only (as_validation r).
Proof. by destruct r as [|[]]. Qed.
Lemma read_only_find_one {R} (t : DB -> list R) p : read_only (find_one t p).
Proof. done. Qed.
Lemma read_only_get_by_id {R} (t : DB -> list R) f i : read_only (get_by_id t f i).
Proof. done. Qed.
Create HintDb read_only discriminated.
#[export] Hint Resolve read_only_ret read_only_raise read_only_lift read_only_gets read_only_guard
  read_only_or_raise read_only_as_validation read_only_find_one read_only_get_by_id : read_only.

Ltac read_only_auto :=
  repeat (solve [eauto with read_only] ||
    match goal with
    | |- read_only (mbind _ _) => apply read_only_bind; [|intros ?]
    | |- read_only (match ?x with _ => _ end) => destruct x
    end).

Lemma read_only_validate_opt v f : read_only (validate_opt v f).
Proof. unfold validate_opt. read_only_auto. Qed.
Lemma read_only_get_membership u o : read_only (IdentityRepository.get_membership u o).
Proof. apply read_only_find_one. Qed.
Lemma read_only_require_membership u o : read_only (IdentityService.require_membership u o).
Proof. unfold IdentityService.require_membership, IdentityRepository.get_membership. read_only_auto. Qed.
#[export] Hint Resolve read_only_validate_opt read_only_get_membership read_only_require_membership : read_only.
Lemma read_only_require_admin u o : read_only (IdentityService.require_admin u o).
Proof. unfold IdentityService.require_admin. read_only_auto. Qed.
Lemma read_only_require_owner u o : read_only (IdentityService.require_owner u o).
Proof. unfold IdentityService.require_owner. read_only_auto. Qed.
Lemma read_only_get_org o : read_only (IdentityRepository.get_organization o).
Proof. apply read_only_get_by_id. Qed.
Lemma read_only_svc_get_org o : read_only (IdentityService.get_organization o).
Proof. unfold IdentityService.get_organization, IdentityRepository.get_organization. read_only_auto. Qed.
Lemma read_only_get_project p o : read_only (IdentityService.get_project p o).
Proof. unfold IdentityService.get_project, ProjectRepository.get_project. read_only_auto. Qed.
Lemma read_only_get_api_key k o : read_only (IdentityService.get_api_key k o).
Proof. unfold IdentityService.get_api_key, IdentityRepository.get_api_key. read_only_auto. Qed.
Lemma read_only_get_subscription o : read_only (get_subscription_by_org o).
Proof. done. Qed.
Lemma read_only_get_invitation i : read_only (InvitationRepository.get_invitation i).
Proof. apply read_only_find_one. Qed.
Lemma read_only_require_user ctx : read_only (_require_user ctx).
Proof. unfold _require_user. read_only_auto. Qed.
#[export] Hint Resolve read_only_require_admin read_only_require_owner read_only_get_org read_only_svc_get_org
  read_only_get_project read_only_get_api_key read_only_get_subscription read_only_get_invitation read_only_require_user : read_only.
Lemma read_only_check_capacity o : read_only (IdentityService.check_capacity o).
Proof.
  unfold IdentityService.check_capacity, InvitationRepository.count_pending_for_org. read_only_auto.
Qed.
Lemma read_only_get_user u : read_only (UserRepository.get_user u).
Proof. apply read_only_get_by_id. Qed.
Lemma read_only_get_user_by_email e : read_only (UserRepository.get_user_by_email e).
Proof. apply read_only_find_one. Qed.
Lemma read_only_get_pending o e : read_only (InvitationRepository.get_pending_invitation o e).
Proof. done. Qed.
Lemma read_only_get_project_row p : read_only (ProjectRepository.get_project p).
Proof. apply read_only_get_by_id. Qed.
Lemma read_only_project_by_name o n : read_only (ProjectRepository.get_project_by_name o n).
Proof. apply read_only_find_one. Qed.
Lemma read_only_key_by_hash h : read_only (IdentityRepository.get_api_key_by_hash h).
Proof. apply read_only_find_one. Qed.
#[export] Hint Resolve read_only_check_capacity read_only_get_user read_only_get_user_by_email read_only_get_pending
  read_only_get_project_row read_only_project_by_name read_only_key_by_hash : read_only.

Lemma read_only_mapM {A B} (f : A -> M World B) l : (forall a, read_only (f a)) -> read_only (mapM f l).
Proof. intros Hf. induction l as [|a l IH]; cbn [mapM]; read_only_auto. Qed.

(** The definitions to unfold down to look-ups and effects. *)
Create HintDb api discriminated.
#[export] Hint Unfold serve serve_org discard _ensure_stripe_configured
  ManagementApi.get_organization ManagementApi.update_organization ManagementApi.delete_organization
  ManagementApi.list_members ManagementApi.update_member_role ManagementApi.remove_member
  ManagementApi.create_invitation ManagementApi.list_invitations ManagementApi.revoke_invitation
  ManagementApi.create_project ManagementApi.list_projects ManagementApi.get_project
  ManagementApi.update_project ManagementApi.delete_project ManagementApi.create_api_key
  ManagementApi.list_org_api_keys ManagementApi.get_api_key ManagementApi.rotate_api_key
  ManagementApi.delete_api_key ManagementApi.get_org_subscription ManagementApi.get_usage
  ManagementApi.get_billing ManagementApi.get_invoices ManagementApi.create_checkout
  ManagementApi.create_portal ManagementApi.create_organization ManagementApi.accept_invitation
  ManagementApi.decline_invitation ManagementApi._key_response ManagementApi._is_effectively_active
  IdentityService.update_organization IdentityService.delete_organization IdentityService.list_org_members
  IdentityService.update_member_role IdentityService.remove_member IdentityService.create_invitation
  IdentityService.list_org_invitations IdentityService.revoke_invitation IdentityService.accept_invitation
  IdentityService.decline_invitation IdentityService.create_project IdentityService.list_projects
  IdentityService.update_project IdentityService.delete_project IdentityService.list_api_keys
  IdentityService.rotate_api_key IdentityService.revoke_api_key IdentityService.delete_api_key
  IdentityRepository.update_organization IdentityRepository.delete_organization
  IdentityRepository.list_org_members IdentityRepository.update_membership_role IdentityRepository.delete_membership
  IdentityRepository.create_membership IdentityRepository.list_api_keys IdentityRepository.revoke_api_key
  IdentityRepository.delete_api_key InvitationRepository.create_invitation
  InvitationRepository.list_org_invitations ProjectRepository.update_project ProjectRepository.delete_project
  ProjectRepository.list_projects get_current_usage get_subscription_cached fetch_subscription_from_db
  list_usage_history create_checkout_session create_portal_session : api.

(** ** Successful and refused runs *)

Lemma bind_read_only {A B} (m : M World A) (k : A -> M World B) w b w' : read_only m ->
  (m ≫= k) w = (Ok b, w') -> exists a, m w = (Ok a, w) /\ k a w = (Ok b, w').
Proof.
  intros Hm H. destruct_bind H a w1 E. specialize (Hm w). rw E in Hm. simpl in Hm. subst. eauto.
Qed.
Lemma bind_guard {B} c e (k : unit -> M World B) w b w' :
  (guard_not c e ≫= k) w = (Ok b, w') -> c = false /\ k tt w = (Ok b, w').
Proof. by destruct c. Qed.
Lemma guard_Ok c e (w : World) a w' : guard_not c e w = (Ok a, w') -> c = false /\ w' = w.
Proof. destruct c; by intros [=]. Qed.
Lemma or_raise_Ok {A} e (o : option A) w a w' : or_raise e o w = (Ok a, w') -> o = Some a.
Proof. destruct o; by intros [=]; subst. Qed.

(** [refused m w]: the call fails and leaves the world as it was. *)
Definition refused {A} (m : M World A) (w : World) : Prop := exists e, m w = (Err e, w).

Lemma refused_bind {A B} (m : M World A) (k : A -> M World B) w :
  read_only m -> (forall a, m w = (Ok a, w) -> refused (k a) w) -> refused (m ≫= k) w.
Proof.
  intros Hm Hk. unfold refused, mbind, M_bind in *. specialize (Hm w).
  destruct (m w) as [[a|e] w1]; simpl in *; subst; eauto.
Qed.
Lemma refused_guard {B} c e (k : unit -> M World B) w :
  (c = false -> refused (k tt) w) -> refused (guard_not c e ≫= k) w.
Proof. intros H. destruct c; [by exists e|by apply H]. Qed.
Lemma refused_discard {A} (m : M World A) w : refused m w -> refused (discard m) w.
Proof. intros [e He]. exists e. by apply bind_Err. Qed.
Lemma refused_first {A B} (m : M World A) (k : A -> M World B) w : refused m w -> refused (m ≫= k) w.
Proof. intros [e He]. exists e. by apply bind_Err. Qed.

(** The membership a guard found. *)
Lemma get_membership_Ok u o w m w' : IdentityRepository.get_membership u o w = (Ok (Some m), w') ->
  m ∈ memberships (db w) /\ IdentityRepository.of_member u o m = true /\
  select (IdentityRepository.of_member u o) (memberships (db w)) = [m].
Proof. intros H. destruct (find_one_run _ _ _ _ _ H) as (_ & Hs & _). destruct (Hs m eq_refl) as (?&?&?). done. Qed.

Lemma require_membership_Ok u o w m w' : IdentityService.require_membership u o w = (Ok m, w') ->
  m ∈ memberships (db w) /\ IdentityRepository.of_member u o m = true.
Proof.
  intros H. apply bind_read_only in H as (a & E & H); [|apply read_only_get_membership].
  apply or_raise_Ok in H as ->. apply get_membership_Ok in E. tauto.
Qed.
Lemma require_admin_Ok u o w m w' : IdentityService.require_admin u o w = (Ok m, w') ->
  m ∈ memberships (db w) /\ IdentityRepository.of_member u o m = true /\ is_admin (m_role m) = true.
Proof.
  intros H. apply bind_read_only in H as (a & E & H); [|apply read_only_require_membership].
  apply bind_guard in H as [Hg H]. injection H as <- <-. apply require_membership_Ok in E.
  split_and!; [tauto..|]. unfold is_admin. by destruct (m_role a).
Qed.
Lemma require_owner_Ok u o w m w' : IdentityService.require_owner u o w = (Ok m, w') ->
  m ∈ memberships (db w) /\ IdentityRepository.of_member u o m = true /\ m_role m = OWNER.
Proof.
  intros H. apply bind_read_only in H as (a & E & H); [|apply read_only_require_membership].
  apply bind_guard in H as [Hg H]. injection H as <- <-. apply require_membership_Ok in E.
  split_and!; [tauto..|]. by destruct (m_role a).
Qed.

(** ** Nobody acts outside the role matrix *)

Section denied.
Context (sha256 : string -> list N) (ctx : ApiContext) (org : N) (c : OrgCall) (w : World).
Hypothesis no_right : forall u m, cx_user ctx = Some u -> m ∈ memberships (db w) ->
  IdentityRepository.of_member (u_id u) org m = true -> allowed c (m_role m) = false.

(** A membership the guard accepts contradicts the matrix. *)
Lemma membership_denied u m w' : cx_user ctx = Some u ->
  IdentityService.require_membership (u_id u) org w = (Ok m, w') -> allowed c (m_role m) = false.
Proof using no_right. intros Hu [Hm Ho]%require_membership_Ok. exact (no_right u m Hu Hm Ho). Qed.

Lemma refused_member {B} u (k : Membership -> M World B) : cx_user ctx = Some u ->
  (forall r, allowed c r = true) -> refused (IdentityService.require_membership (u_id u) org ≫= k) w.
Proof using no_right.
  intros Hu Ha. apply refused_bind; [apply read_only_require_membership|]. intros m E.
  apply (membership_denied u) in E; [|done]. by rw Ha in E.
Qed.
Lemma refused_admin {B} u (k : Membership -> M World B) : cx_user ctx = Some u ->
  (forall r, allowed c r = is_admin r) -> refused (IdentityService.require_admin (u_id u) org ≫= k) w.
Proof using no_right.
  intros Hu Ha. apply refused_bind; [apply read_only_require_admin|].
  intros m (Hm & Ho & Hr)%require_admin_Ok. rw -Ha (no_right u m) in Hr; done.
Qed.
Lemma refused_owner {B} u (k : Membership -> M World B) : cx_user ctx = Some u ->
  (forall r, allowed c r = is_owner r) -> refused (IdentityService.require_owner (u_id u) org ≫= k) w.
Proof using no_right.
  intros Hu Ha. apply refused_bind; [apply read_only_require_owner|].
  intros m (Hm & Ho & Hr)%require_owner_Ok.
  assert (H : allowed c (m_role m) = false) by (by apply (no_right u)). by rw Ha Hr in H.
Qed.

Lemma refused_invite u email role : cx_user ctx = Some u -> c = Invite email role ->
  refused (IdentityService.create_invitation (u_id u) org email role) w.
Proof using no_right.
  intros Hu Hc. apply refused_bind; [apply read_only_require_membership|]. intros m E.
  apply (membership_denied u) in E; [|done]. rw Hc in E. simpl in E.
  apply refused_guard. intros G1. apply refused_guard. intros G2. apply refused_guard. intros G3.
  by destruct (m_role m), role.
Qed.
Lemma refused_remove u target : cx_user ctx = Some u -> c = RemoveMember target ->
  refused (IdentityService.remove_member (u_id u) org target) w.
Proof using no_right.
  intros Hu Hc. apply refused_bind; [apply read_only_require_membership|]. intros m E.
  apply (membership_denied u) in E; [|done]. rw Hc in E. simpl in E.
  apply refused_bind; [apply read_only_get_membership|]. intros t _.
  apply refused_bind; [apply read_only_or_raise|]. intros t' _.
  apply refused_guard. intros _. apply refused_guard. intros G. unfold is_admin in E. by rw G in E.
Qed.
Lemma refused_update_role u target role : cx_user ctx = Some u -> c = UpdateRole target role ->
  refused (IdentityService.update_member_role (u_id u) org target role) w.
Proof using no_right.
  intros Hu Hc. apply refused_guard. intros _.
  apply refused_bind; [apply read_only_require_membership|]. intros m E.
  apply (membership_denied u) in E; [|done]. rw Hc in E. simpl in E.
  apply refused_guard. intros G. unfold is_owner in E. by rw E in G.
Qed.
Lemma refused_revoke u i : cx_user ctx = Some u -> c = Revoke i ->
  refused (IdentityService.revoke_invitation (u_id u) org i) w.
Proof using no_right.
  intros Hu Hc. apply refused_bind; [apply read_only_get_invitation|]. intros o _.
  apply refused_bind; [apply read_only_or_raise|]. intros inv _. apply refused_guard. intros _.
  apply refused_admin; [done|by rw Hc].
Qed.
End denied.

#[local] Hint Resolve refused_member refused_admin refused_owner refused_invite refused_remove
  refused_update_role refused_revoke : denied.

(** C3: Authorization is complete.  Whatever the call, if the caller is not a user, is
    not a member of the organization, or is a member whose role the documented matrix
    does not admit for that call, then the call fails and nothing changes: neither the
    database, nor Redis, nor the queue, nor Stripe. *)
Theorem unauthorized_denied (sha256 : string -> list N) (ctx : ApiContext) (org : N) (c : OrgCall) (w : World)
  (H : forall u m, cx_user ctx = Some u -> m ∈ memberships (db w) ->
       IdentityRepository.of_member (u_id u) org m = true -> allowed c (m_role m) = false) :
  exists e, serve_org sha256 ctx org c w = (Err e, w).
Proof.
  change (refused (serve_org sha256 ctx org c) w).
  remember (cx_user ctx) as cu eqn:Hu. destruct cu as [u|]; symmetry in Hu.
  - destruct c; cbn [serve_org]; lazymatch goal with |- refused (discard _) _ => apply refused_discard | _ => idtac end;
      (apply refused_bind; [apply read_only_require_user|]); unfold _require_user; rw Hu;
      intros u' [= <-]; rewrite -Hu in H; eauto 6 with denied.
  - destruct c; cbn [serve_org]; lazymatch goal with |- refused (discard _) _ => apply refused_discard | _ => idtac end; apply refused_first;
      unfold _require_user; rw Hu; by eexists.
Qed.

(** ** A small tenant, on which the witnesses evaluate

    Acme (organization 7, PRO, two seats): alice owns it.  Other (organization 8):
    bob owns it.  dave has an account and an invitation to Acme. *)

Definition alice : User :=
  {| u_id := 1; u_external := "idp|alice"; u_email := "alice@acme.io"; u_display := "Alice";
     u_created := 0; u_last_sign_in := None |}.
Definition bob : User :=
  {| u_id := 2; u_external := "idp|bob"; u_email := "bob@other.io"; u_display := "Bob";
     u_created := 0; u_last_sign_in := None |}.
Definition dave : User :=
  {| u_id := 3; u_external := "idp|dave"; u_email := "Dave@acme.io"; u_display := "Dave";
     u_created := 0; u_last_sign_in := None |}.
Definition acme : Organization := {| o_id := 7; o_name := "Acme"; o_created := 0 |}.
Definition other_org : Organization := {| o_id := 8; o_name := "Other"; o_created := 0 |}.
Definition alice_owns : Membership := {| m_id := 11; m_user := 1; m_org := 7; m_role := OWNER; m_created := 0 |}.
Definition bob_owns : Membership := {| m_id := 12; m_user := 2; m_org := 8; m_role := OWNER; m_created := 0 |}.
Definition acme_project : Project :=
  {| p_id := 20; p_org := 7; p_name := "onboarding"; p_description := ""; p_created := 0 |}.
Definition other_project : Project :=
  {| p_id := 21; p_org := 8; p_name := "onboarding"; p_description := ""; p_created := 0 |}.
Definition invite_dave : Invitation :=
  {| i_id := 40; i_org := 7; i_email := "dave@acme.io"; i_role := MEMBER; i_invited_by := 1;
     i_status := IPENDING; i_created := 0; i_expires := days 25 |}.

Definition tenant_db (invs : list Invitation) : DB :=
  {| subscriptions := [pro_sub]; usage_records := [pro_usage]; billing_reports := [];
     users := [alice; bob; dave]; organizations := [acme; other_org]; memberships := [alice_owns; bob_owns];
     invitations := invs; projects := [acme_project; other_project]; api_keys := [];
     telemetry := empty_telemetry |}.
Definition tenant_world (invs : list Invitation) : World := world_of (tenant_db invs) (days 20) [].

Definition as_user (u : User) (o : Organization) : ApiContext :=
  {| cx_method := JWT; cx_organization := o; cx_project := None; cx_user := Some u |}.

(** A digest for the witnesses: the text's first bytes. *)
Definition toy_digest (s : string) : list N := List.map N_of_ascii (String.list_ascii_of_string s).

(** An identity provider that knows its users by name. *)
Definition tenant_provider : Provider :=
  {| auth_provider := "Firebase"; supabase_url := ""; supabase_key := ""; supabase_get_user := fun _ => SbRaises;
     firebase_initializes := true;
     firebase_verify_id_token := fun t => FbDecoded (Some ("idp|" +:+ t)) (Some (t +:+ "@acme.io")) (Some t) |}.
Definition bearer (token : string) (org : HeaderId) : Request :=
  {| rq_bearer := Some token; rq_org := org; rq_api_key := None; rq_project_id := NoHeader; rq_project_name := None |}.

(** Bob, the owner of another organization, cannot delete Acme. *)
Lemma unauthorized_denied_witness :
  (forall u m, cx_user (as_user bob other_org) = Some u -> m ∈ memberships (db (tenant_world [])) ->
     IdentityRepository.of_member (u_id u) 7 m = true -> allowed DeleteOrg (m_role m) = false) /\
  exists e, serve_org toy_digest (as_user bob other_org) 7 DeleteOrg (tenant_world []) = (Err e, tenant_world []).
Proof.
  assert (H : forall u m, cx_user (as_user bob other_org) = Some u -> m ∈ memberships (db (tenant_world [])) ->
     IdentityRepository.of_member (u_id u) 7 m = true -> allowed DeleteOrg (m_role m) = false).
  { intros u m [= <-] Hm. repeat (apply elem_of_cons in Hm as [->|Hm]); [discriminate|discriminate|inversion Hm]. }
  split; [exact H|]. exact (unauthorized_denied toy_digest (as_user bob other_org) 7 DeleteOrg (tenant_world []) H).
Defined.
