(* ===== verification/IdentitySpec.v ===== *)
(** * What a request may do to the identity tables

    [change u t n n' a d d'] is the abstract specification of one database change of
    the identity system: the user [u], at time [t] and with fresh identifiers from
    [n] to [n'], moves the tables from [d] to [d'] by the action [a].  Each rule states the
    rights and the state that justify the change and the rows it touches.  The lemmas
    show that a successful call, login or housekeeping run is a sequence of such changes. *)
From stdpp Require Import base gmap strings list.
From Stdlib Require Import ZArith Lia ssreflect.
From S2P Require Import Prelude Constants Entities Float64 Json Evals Telemetry World Invariant BillingRepo Locks Usage ReportRepo Reporting Billing Security IdentityRepo Identity ApiAuth CliAuth Routes Access.

#[local] Open Scope Z_scope.

Inductive Action :=
  | Calls (c : Call)
  | Login
  | DataPlane (org : N)
  | Housekeeping.

(** ** Seats *)

Definition member_of (org : N) (m : Membership) : bool := bool_decide (m_org m = org).
Definition count {R} (p : R -> bool) (t : list R) : Z := Z.of_nat (length (select p t)).

(** The members and the live pending invitations of an organization. *)
Definition seats (t : Z) (org : N) (d : DB) : Z :=
  count (member_of org) (memberships d) + count (InvitationRepository.pending_for t org) (invitations d).

(** The member limit of an organization's plan. *)
Definition seat_limit (org : N) (d : DB) : option Z :=
  match select (by_org org) (subscriptions d) with
  | [s] => max_members (get_plan_config (sub_plan s))
  | _ => None
  end.

(** ** Rights *)

(** The user holds a membership of the organization with a role the test accepts. *)
Definition holds (d : DB) (u org : N) (ok : MembershipRole -> bool) : Prop :=
  exists m, m ∈ memberships d /\ IdentityRepository.of_member u org m = true /\ ok (m_role m) = true.

(** The one invitation of an identifier, still pending. *)
Definition pending_one (d : DB) (i : Invitation) : Prop :=
  select (fun r => bool_decide (i_id r = i_id i)) (invitations d) = [i] /\ i_status i = IPENDING.

(** The invitation is addressed to the user's e-mail and has not expired. *)
Definition addressed (d : DB) (u : N) (t : Z) (i : Invitation) : Prop :=
  (exists x, x ∈ users d /\ u_id x = u /\ lower (u_email x) = lower (i_email i)) /\ t <= i_expires i.

Definition close_invitation (i : Invitation) (s : InvitationStatus) (d : DB) : DB :=
  set_invitations (update_where (fun r => bool_decide (i_id r = i_id i))
    (InvitationRepository.set_invitation_status s) (invitations d)) d.

Definition no_membership (d : DB) (u org : N) : Prop :=
  select (IdentityRepository.of_member u org) (memberships d) = [].

(** The rows of other organizations stay. *)
Definition others {R} (owner : R -> N) (org : N) (t : list R) : list R :=
  select (fun r => negb (bool_decide (owner r = org))) t.
Definition keeps_others {R} (owner : R -> N) (org : N) (t t' : list R) : Prop :=
  others owner org t' = others owner org t.

(** Every account stays, with its identity and its e-mail. *)
Definition account (x : User) : N * string * string := (u_id x, u_external x, u_email x).
Definition keeps_accounts (us us' : list User) : Prop :=
  List.map account us `prefix_of` List.map account us'.

(** A keyed table may change to [t'], the identifiers being drawn up to [n']. *)
Definition stays_ok {R} (ident : R -> N) (clash : R -> R -> bool) (n n' : N) (t t' : list R) : Prop :=
  table_ok ident clash n t -> table_ok ident clash n' t'.

(** ** The rules *)

Section change.
Context (u : N) (t : Z) (n n' : N).

Inductive change : Action -> DB -> DB -> Prop :=
  | ch_users d users' :
      stays_ok u_id UserModel_clash n n' (users d) users' ->
      (table_ok u_id UserModel_clash n (users d) -> keeps_accounts (users d) users') ->
      change Login d (set_users users' d)
  | ch_new_org a d o m s ur p :
      a = Login \/ (exists name, a = Calls (CreateOrg name)) ->
      count (IdentityRepository.owned_by u) (memberships d) < MAX_OWNED_ORGS ->
      (n <= o_id o)%N ->
      m_user m = u -> m_role m = OWNER -> m_org m = o_id o -> sub_org s = o_id o -> ur_org ur = o_id o -> p_org p = o_id o ->
      (n <= sub_id s < n')%N -> (n <= ur_id ur < n')%N -> (n <= p_id p < n')%N -> ur_reported ur = zero_counts ->
      existsb (SubscriptionModel_clash s) (subscriptions d) = false ->
      existsb (UsageRecordModel_clash ur) (usage_records d) = false ->
      existsb (ProjectModel_clash p) (projects d) = false ->
      change a d (set_projects (projects d ++ [p]) (set_usage_records (usage_records d ++ [ur])
        (set_subscriptions (subscriptions d ++ [s]) (set_memberships (memberships d ++ [m])
          (set_organizations (organizations d ++ [o]) d)))))
  | ch_update_org org name d o :
      holds d u org is_admin -> o_id o = org ->
      change (Calls (OnOrg org (UpdateOrg name))) d
        (set_organizations (update_where (fun r => bool_decide (o_id r = org)) (fun _ => o) (organizations d)) d)
  | ch_delete_org org d :
      holds d u org is_owner ->
      change (Calls (OnOrg org DeleteOrg)) d (IdentityRepository.cascade_organization org d)
  | ch_invite org email role d i :
      holds d u org (allowed (Invite email role)) ->
      i_org i = org -> i_role i = role -> i_role i <> OWNER -> i_status i = IPENDING ->
      i_expires i = t + IdentityService.INVITATION_TTL ->
      (forall max, seat_limit org d = Some max -> seats t org d < max) ->
      change (Calls (OnOrg org (Invite email role))) d (set_invitations (invitations d ++ [i]) d)
  | ch_accept d i m :
      pending_one d i -> addressed d u t i -> no_membership d u (i_org i) ->
      m_user m = u -> m_org m = i_org i -> m_role m = i_role i ->
      change (Calls (Accept (i_id i))) d
        (close_invitation i IACCEPTED (set_memberships (memberships d ++ [m]) d))
  | ch_decline d i :
      pending_one d i -> addressed d u t i ->
      change (Calls (Decline (i_id i))) d (close_invitation i IDECLINED d)
  | ch_revoke org d i :
      pending_one d i -> i_org i = org -> holds d u org is_admin ->
      change (Calls (OnOrg org (Revoke (i_id i)))) d (close_invitation i IREVOKED d)
  | ch_role org d target role m :
      holds d u org is_owner -> target <> u -> m_role m <> OWNER ->
      select (IdentityRepository.of_member target org) (memberships d) = [m] ->
      change (Calls (OnOrg org (UpdateRole target role))) d
        (set_memberships (update_where (IdentityRepository.of_member target org)
           (IdentityRepository.set_role role) (memberships d)) d)
  | ch_remove org d target m :
      holds d u org is_admin -> m_role m <> OWNER ->
      select (IdentityRepository.of_member target org) (memberships d) = [m] ->
      change (Calls (OnOrg org (RemoveMember target))) d
        (set_memberships (delete_where (IdentityRepository.of_member target org) (memberships d)) d)
  | ch_projects a org d projects' :
      a = DataPlane org \/ (exists c, a = Calls (OnOrg org c) /\ holds d u org (allowed c)) ->
      stays_ok p_id ProjectModel_clash n n' (projects d) projects' ->
      (table_ok p_id ProjectModel_clash n (projects d) -> keeps_others p_org org (projects d) projects') ->
      change a d (set_projects projects' d)
  | ch_keys a org d keys' :
      a = DataPlane org \/ (exists c, a = Calls (OnOrg org c) /\ holds d u org (allowed c)) ->
      stays_ok k_id APIKeyModel_clash n n' (api_keys d) keys' ->
      (table_ok k_id APIKeyModel_clash n (api_keys d) -> keeps_others k_org org (api_keys d) keys') ->
      change a d (set_api_keys keys' d)
  | ch_delete_project org d p :
      holds d u org is_owner -> p ∈ projects d -> p_org p = org ->
      change (Calls (OnOrg org (DeleteProject (p_id p)))) d (ProjectRepository.cascade_project (p_id p) d)
  | ch_expire d :
      change Housekeeping d
        (set_invitations (update_where (InvitationRepository.stale t)
           (InvitationRepository.set_invitation_status IEXPIRED) (invitations d)) d).
End change.

(** ** Sessions: what every identity operation leaves alone *)

Definition session (w w' : World) : Prop :=
  durable w' = durable w /\ now w' = now w /\ (next_id w <= next_id w')%N /\
  (forall q, CreateItem q ∈ stripe_log w' -> CreateItem q ∈ stripe_log w).
#[export] Instance session_preorder : PreOrder session.
Proof.
  split; [intros w; split_and!; [done..|lia|done]|].
  intros x y z (H1&H2&H3&H4) (H5&H6&H7&H8). split_and!; [congruence..|lia|auto].
Qed.

Lemma session_uuid4 : respects session uuid4.
Proof. intros w. split_and!; [done..| |done]. simpl. lia. Qed.
Lemma session_modify f :
  (forall w, durable (f w) = durable w /\ now (f w) = now w /\ next_id (f w) = next_id w /\ stripe_log (f w) = stripe_log w) ->
  respects session (modify f).
Proof.
  intros H w. destruct (H w) as (H1&H2&H3&H4). split_and!; [done..| |]; simpl; [rewrite H3; lia|by rewrite H4].
Qed.
Lemma session_write_db f : respects session (write_db f).
Proof. by apply session_modify. Qed.
Lemma session_redis f : respects session (redis_update f).
Proof. by apply session_modify. Qed.
Lemma session_enqueue x : respects session (enqueue x).
Proof. by apply session_modify. Qed.
Lemma session_insert_row {R} clash get set (row : R) : respects session (insert_row clash get set row).
Proof. intros w. unfold insert_row. destruct (existsb _ _); split_and!; simpl; done || lia. Qed.
(** No session of the identity system charges: its requests to Stripe open a checkout or a portal. *)
Lemma session_stripe q : (forall i, q <> CreateItem i) -> respects session (stripe_call q).
Proof.
  intros Hq w. assert (H : forall i, CreateItem i ∈ stripe_log w ++ [q] -> CreateItem i ∈ stripe_log w).
  { intros i [Hi|Hi%list_elem_of_singleton]%elem_of_app; [done|]. by destruct (Hq i). }
  unfold stripe_call. destruct (stripe_script w); split_and!; simpl; done || lia.
Qed.
Lemma session_read_only {A} (m : M World A) : read_only m -> respects session m.
Proof. intros H w. rewrite (H w). reflexivity. Qed.
#[export] Hint Resolve session_preorder session_uuid4 session_write_db session_redis session_enqueue
  session_insert_row : effects.
#[export] Hint Extern 1 (respects session (stripe_call _)) => apply session_stripe; intros ?; discriminate : effects.
Lemma session_insert_fresh {R} clash get set (mk : N -> R) : respects session (insert_fresh clash get set mk).
Proof. unfold insert_fresh. respects_auto. Qed.
#[export] Hint Resolve session_insert_fresh : effects.

(** ** Successful runs of the primitives *)

Lemma insert_fresh_Ok {R} clash get set (mk : N -> R) w r w' :
  insert_fresh clash get set mk w = (Ok r, w') ->
  r = mk (next_id w) /\ existsb (clash r) (get (db w)) = false /\
  w' = set_db (set (get (db w) ++ [r]) (db w)) (set_next_id (N.succ (next_id w)) w).
Proof.
  unfold insert_fresh, mbind, M_bind, uuid4, insert_row. cbn -[N.succ].
  destruct (existsb _ _) eqn:E; cbn -[N.succ]; intros [= <- <-]. by rw E.
Qed.

Lemma bind_utcnow {A} (k : Z -> M World A) w : (utcnow ≫= k) w = k (now w) w.
Proof. done. Qed.
Lemma bind_read_db {A B} (f : DB -> A) (k : A -> M World B) w : (read_db f ≫= k) w = k (f (db w)) w.
Proof. done. Qed.
Lemma bind_write_db {B} f (k : unit -> M World B) w : (write_db f ≫= k) w = k tt (set_db (f (db w)) w).
Proof. done. Qed.
Lemma discard_Ok {A} (m : M World A) w w' : discard m w = (Ok tt, w') -> exists a, m w = (Ok a, w').
Proof. unfold discard. intros H. destruct_bind H a w1 E. injection H as <-. eauto. Qed.

(** [look H x E]: the first statement of the run [H] is a look-up; its answer is [x], by [E]. *)
Ltac look H x E := apply bind_read_only in H as (x & E & H); [|solve [read_only_auto]].
(** [checked H G]: the first statement of the run [H] is a guard, which [G] passes. *)
Ltac checked H G := apply bind_guard in H as [G H].
(** [found H x E]: a look-up followed by [or_raise]. *)
Ltac found H x E :=
  let o := fresh "o" in let E' := fresh in
  look H o E; look H x E'; apply or_raise_Ok in E'; subst o.

(** ** Keyed tables *)

Lemma stays_ok_mono {R} (ident : R -> N) clash n n' tb : (n <= n')%N -> stays_ok ident clash n n' tb tb.
Proof. intros Hn Ht. eapply table_ok_mono; eassumption. Qed.

Lemma stays_ok_insert {R} (ident : R -> N) clash n n' (tb : list R) (r : R) :
  (forall a b, clash a b = clash b a) -> (n <= ident r < n')%N -> existsb (clash r) tb = false ->
  stays_ok ident clash n n' tb (tb ++ [r]).
Proof.
  intros Hs [H1 H2] He Ht. eapply table_ok_mono; [|apply table_ok_insert; [done| |done|reflexivity]]; [lia|].
  eapply table_ok_mono; eassumption.
Qed.

Lemma stays_ok_delete {R} (ident : R -> N) clash n n' (tb : list R) p : (n <= n')%N ->
  stays_ok ident clash n n' tb (delete_where p tb).
Proof. intros Hn Ht. apply table_ok_delete. eapply table_ok_mono; eassumption. Qed.

Lemma stays_ok_map {R} (ident : R -> N) clash n n' (tb : list R) p f : (n <= n')%N ->
  (forall a b, clash a b = clash b a) -> (forall a, ident (f a) = ident a) ->
  (forall a b, clash (f a) b = clash a b) -> stays_ok ident clash n n' tb (update_where p f tb).
Proof.
  intros Hn Hs Hi Hc Ht. unfold update_where. apply table_ok_map_in; [done| |eapply table_ok_mono; eassumption].
  intros a _. by destruct (p a).
Qed.

Lemma ProjectModel_clash_sym a b : ProjectModel_clash a b = ProjectModel_clash b a.
Proof. unfold ProjectModel_clash. f_equal; apply bool_decide_sym. Qed.
Lemma APIKeyModel_clash_sym a b : APIKeyModel_clash a b = APIKeyModel_clash b a.
Proof. apply bool_decide_sym. Qed.

Lemma others_app {R} (owner : R -> N) org (tb : list R) r : owner r = org -> keeps_others owner org tb (tb ++ [r]).
Proof.
  intros Hr. unfold keeps_others, others. rw select_app. cbn. by rw Hr bool_decide_eq_true_2 //= app_nil_r.
Qed.

(** A change of the rows of one identifier, all of the organization. *)
Lemma others_update {R} (owner : R -> N) org (tb : list R) p f :
  (forall r, r ∈ tb -> p r = true -> owner r = org /\ owner (f r) = org) ->
  keeps_others owner org tb (update_where p f tb).
Proof.
  intros H. unfold keeps_others, others, update_where, select.
  induction tb as [|r tb IH]; [done|]. cbn. assert (IH' := IH (fun r' Hr' => H r' (list_elem_of_further _ _ _ Hr'))).
  destruct (p r) eqn:Hp; [|by rewrite IH'].
  destruct (H r) as [H1 H2]; [by left|done|]. rewrite H1 H2 (bool_decide_eq_true_2 (org = org)) //=.
Qed.
Lemma others_delete {R} (owner : R -> N) org (tb : list R) p :
  (forall r, r ∈ tb -> p r = true -> owner r = org) -> keeps_others owner org tb (delete_where p tb).
Proof.
  intros H. unfold keeps_others, others, delete_where, select.
  induction tb as [|r tb IH]; [done|]. cbn. assert (IH' := IH (fun r' Hr' => H r' (list_elem_of_further _ _ _ Hr'))).
  destruct (p r) eqn:Hp; cbn; [|by rewrite IH'].
  rewrite (H r (list_elem_of_here _ _) Hp) (bool_decide_eq_true_2 (org = org)) //.
Qed.

Lemma when_enqueue_Ok b x w a w' : when b (enqueue x) w = (Ok a, w') -> db w' = db w /\ next_id w' = next_id w.
Proof. destruct b; by intros [= _ <-]. Qed.

(** ** Successful runs of the services *)

Lemma on_integrity_error_Ok {A} (m h : M World A) w a w' : on_integrity_error m h w = (Ok a, w') ->
  m w = (Ok a, w') \/ exists w1, m w = (Err IntegrityError, w1) /\ h w1 = (Ok a, w').
Proof.
  unfold on_integrity_error, try_except. destruct (m w) as [[b|e] w1]; intros H; [by left|].
  destruct e; try discriminate H. eauto.
Qed.

Lemma insert_project_run org name description w : exists p, p_id p = next_id w /\ p_org p = org /\
  ProjectRepository.insert_project org name description w =
    if existsb (ProjectModel_clash p) (projects (db w))
    then (Err IntegrityError, set_next_id (N.succ (next_id w)) w)
    else (Ok p, set_db (set_projects (projects (db w) ++ [p]) (db w)) (set_next_id (N.succ (next_id w)) w)).
Proof.
  unfold ProjectRepository.insert_project. rw bind_utcnow.
  unfold insert_fresh, mbind, M_bind, uuid4, insert_row. cbn -[N.succ].
  exists {| p_id := next_id w; p_org := org; p_name := name; p_description := description; p_created := now w |}.
  split_and!; [done..|]. by destruct (existsb _ _).
Qed.

Lemma create_project_Ok org name description w p w' :
  ProjectRepository.create_project org name description w = (Ok p, w') ->
  p_id p = next_id w /\ p_org p = org /\ existsb (ProjectModel_clash p) (projects (db w)) = false /\
  w' = set_db (set_projects (projects (db w) ++ [p]) (db w)) (set_next_id (N.succ (next_id w)) w).
Proof.
  intros H. apply on_integrity_error_Ok in H.
  destruct (insert_project_run org name description w) as (q & Hid & Ho & Hr). rw Hr in H.
  destruct (existsb _ _) eqn:E; destruct H as [H|(w1 & H & H')]; try done. by injection H as <- <-.
Qed.

Definition moved (u : N) (a : Action) (w w' : World) : Prop :=
  change u (now w) (next_id w) (next_id w') a (db w) (db w').

(** A statement that inserts a row, in the run [H]. *)
Ltac inserted H x E :=
  let w1 := fresh "w1" in let E' := fresh in
  destruct_bind H x w1 E'; rewrite ?bind_utcnow in E';
  apply insert_fresh_Ok in E'; let Hx := fresh "Hx" in destruct E' as (Hx & E & ->).

Lemma create_organization_moves u name plan a w o w' :
  a = Login \/ (exists name, a = Calls (CreateOrg name)) ->
  IdentityService.create_organization name u plan w = (Ok o, w') -> moved u a w w'.
Proof.
  intros Ha H. unfold IdentityService.create_organization in H.
  look H n En. injection En as <-. checked H G. look H name1 Ec.
  unfold IdentityRepository.create_organization in H. inserted H org C1.
  unfold IdentityRepository.create_membership in H. inserted H m C2.
  unfold create_subscription in H. inserted H sub C3.
  unfold create_usage_record in H. inserted H ur C4.
  destruct_bind H p wp Ep. apply create_project_Ok in Ep as (Ip & Op & Cp & ->). injection H as <- <-.
  subst. unfold moved. cbn -[N.succ] in *. apply Z.leb_gt in G.
  apply ch_new_org; cbn -[N.succ]; done || lia.
Qed.

Lemma require_role_holds u org ok w m w' : (forall r, is_admin r = true -> ok r = true) ->
  IdentityService.require_admin u org w = (Ok m, w') -> holds (db w) u org ok.
Proof. intros Hok (Hm & Ho & Hr)%require_admin_Ok. exists m. auto. Qed.
Lemma require_owner_holds u org ok w m w' : ok OWNER = true ->
  IdentityService.require_owner u org w = (Ok m, w') -> holds (db w) u org ok.
Proof. intros Hok (Hm & Ho & Hr)%require_owner_Ok. exists m. by rw Hr. Qed.
Lemma require_membership_holds u org ok w m w' : ok (m_role m) = true ->
  IdentityService.require_membership u org w = (Ok m, w') -> holds (db w) u org ok.
Proof. intros Hok [Hm Ho]%require_membership_Ok. by exists m. Qed.

Lemma count_app {R} p (tb : list R) r : count p (tb ++ [r]) = count p tb + (if p r then 1 else 0).
Proof. unfold count. rewrite select_app length_app. cbn. destruct (p r); cbn; lia. Qed.

(** *** Invitations *)

Lemma find_subscription_one p w o w' : find_subscription p w = (Ok o, w') ->
  select p (subscriptions (db w)) = match o with Some s => [s] | None => [] end.
Proof.
  change (find_subscription p w) with (scalar_one_or_none (select p (subscriptions (db w))), w).
  intros [= H _]. apply scalar_one_or_none_Ok in H. naive_solver.
Qed.

Lemma check_capacity_Ok org w w' : IdentityService.check_capacity org w = (Ok tt, w') ->
  forall max, seat_limit org (db w) = Some max -> seats (now w) org (db w) < max.
Proof.
  intros H max. unfold seat_limit. unfold IdentityService.check_capacity in H.
  look H sub Es. rw (find_subscription_one _ _ _ _ Es). destruct sub as [s|]; [|done]. intros Hmax.
  rw Hmax in H. unfold count_org_members, InvitationRepository.count_pending_for_org in H.
  rewrite bind_read_db in H. destruct_bind H k w1 Ek. injection Ek as <- <-.
  unfold guard_not in H. destruct (_ <=? _) eqn:E; [done|]. apply Z.leb_gt in E. exact E.
Qed.

Lemma create_invitation_moves u org email role w i w' :
  IdentityService.create_invitation u org email role w = (Ok i, w') ->
  moved u (Calls (OnOrg org (Invite email role))) w w'.
Proof.
  intros H. unfold IdentityService.create_invitation in H.
  look H actor Ea. checked H G1. checked H G2. checked H G3. look H au Eu. checked H G4.
  look H existing Ee. destruct_bind H tt1 w1 E1.
  assert (w1 = w) as ->.
  { destruct existing; [|by injection E1]. look E1 em Em. by apply guard_Ok in E1 as [_ ->]. }
  look H pend Ep. checked H G5. look H tt2 Ec. destruct tt2. rewrite bind_utcnow in H.
  unfold InvitationRepository.create_invitation in H. inserted H inv C.
  look H st Est. look H o Eo. destruct_bind H tt3 w3 E3. injection H as _ <-.
  apply when_enqueue_Ok in E3 as [Hd _]. unfold moved. rw Hd.
  apply ch_invite; subst inv; cbn.
  - eapply require_membership_holds; [|exact Ea]. by destruct (m_role actor), role.
  - done.
  - done.
  - by destruct role.
  - done.
  - done.
  - exact (check_capacity_Ok _ _ _ Ec).
Qed.

Lemma get_invitation_Ok id w i w' : InvitationRepository.get_invitation id w = (Ok (Some i), w') ->
  i_id i = id /\ select (fun r => bool_decide (i_id r = id)) (invitations (db w)) = [i].
Proof.
  intros H. destruct (find_one_run _ _ _ _ _ H) as (_ & Hs & _). destruct (Hs i eq_refl) as (Hsel & _ & Hp).
  by apply bool_decide_eq_true in Hp.
Qed.

(** [update_status] closes the one invitation of its identifier. *)
Lemma update_status_Ok id st w o w' i : i_id i = id ->
  InvitationRepository.update_status id st w = (Ok o, w') ->
  select (fun r => bool_decide (i_id r = id)) (invitations (db w)) = [i] ->
  w' = set_db (close_invitation i st (db w)) w.
Proof.
  intros <- H Hs. unfold InvitationRepository.update_status in H. look H r Er. destruct r as [r|].
  - rewrite bind_write_db in H. by injection H as _ <-.
  - destruct (find_one_run _ _ _ _ _ Er) as (_ & _ & Hn). by rw (Hn eq_refl) in Hs.
Qed.

Lemma open_invitation_Ok u id w i w' : IdentityService.open_invitation u id w = (Ok i, w') ->
  w' = w /\ i_id i = id /\ pending_one (db w) i /\ addressed (db w) u (now w) i.
Proof.
  intros H. unfold IdentityService.open_invitation in H. found H inv Ei. found H x Ex.
  checked H G1. checked H G2. rewrite bind_utcnow in H.
  apply get_invitation_Ok in Ei as [Hid Hsel].
  destruct (get_by_id_run _ _ _ _ _ _ Ex) as (_ & o & [= <-] & Hx). destruct (Hx x eq_refl) as [Hin Hux].
  apply negb_false_iff, bool_decide_eq_true in G1, G2. destruct (i_expires inv <? now w) eqn:Hexp.
  - simpl in H. destruct_bind H t1 w1 E1. destruct_bind E1 t2 w2 E2. discriminate E1.
  - injection H as <- <-. apply Z.ltb_ge in Hexp. unfold pending_one, addressed. rw Hid. split_and!; eauto 10.
Qed.

Lemma accept_invitation_moves u id w m w' : IdentityService.accept_invitation u id w = (Ok m, w') ->
  moved u (Calls (Accept id)) w w'.
Proof.
  intros H. unfold IdentityService.accept_invitation in H. destruct_bind H i w1 E1.
  apply open_invitation_Ok in E1 as (-> & <- & Hp & Ha). look H old Eo. checked H G.
  destruct old as [old|]; [done|]. destruct (find_one_run _ _ _ _ _ Eo) as (_ & _ & Hno).
  unfold IdentityRepository.create_membership in H. inserted H m1 C.
  destruct_bind H o w2 E2. injection H as <- <-.
  apply (update_status_Ok _ _ _ _ _ i) in E2 as ->; [|done|apply Hp]. subst m1.
  unfold moved. apply ch_accept; try done. by apply Hno.
Qed.

Lemma decline_invitation_moves u id w w' : IdentityService.decline_invitation u id w = (Ok tt, w') ->
  moved u (Calls (Decline id)) w w'.
Proof.
  intros H. unfold IdentityService.decline_invitation in H. destruct_bind H i w1 E1.
  apply open_invitation_Ok in E1 as (-> & <- & Hp & Ha). destruct_bind H o w2 E2. injection H as <-.
  apply (update_status_Ok _ _ _ _ _ i) in E2 as ->; [|done|apply Hp]. by apply ch_decline.
Qed.

Lemma revoke_invitation_moves u org id w w' : IdentityService.revoke_invitation u org id w = (Ok tt, w') ->
  moved u (Calls (OnOrg org (Revoke id))) w w'.
Proof.
  intros H. unfold IdentityService.revoke_invitation in H. found H i Ei. checked H G1. look H m Em. checked H G2.
  apply get_invitation_Ok in Ei as [<- Hsel]. apply negb_false_iff, bool_decide_eq_true in G1, G2.
  destruct_bind H o w2 E2. injection H as <-.
  apply (update_status_Ok _ _ _ _ _ i) in E2 as ->; [|done|done]. apply ch_revoke; [done|done|].
  by apply (require_role_holds _ _ _ _ _ _ (fun r H => H) Em).
Qed.

(** *** Roles and removal *)

Lemma update_member_role_moves u org target role w m w' :
  IdentityService.update_member_role u org target role w = (Ok m, w') ->
  moved u (Calls (OnOrg org (UpdateRole target role))) w w'.
Proof.
  intros H. unfold IdentityService.update_member_role in H. checked H G1. look H actor Ea. checked H G2.
  found H t0 Et. checked H G3. destruct_bind H o w1 E1. apply or_raise_Ok in H as Ho. subst o. injection H as <-.
  unfold IdentityRepository.update_membership_role in E1. look E1 row Er. destruct row as [row|]; [|done].
  rewrite bind_write_db in E1. injection E1 as <- <-. apply get_membership_Ok in Et as (_ & _ & Hsel).
  apply bool_decide_eq_false in G1, G3. apply negb_false_iff, bool_decide_eq_true in G2.
  apply (ch_role _ _ _ _ _ _ _ _ t0); [|congruence|done|done].
  eapply require_membership_holds; [|exact Ea]. by rw G2.
Qed.

Lemma remove_member_moves u org target w w' :
  IdentityService.remove_member u org target w = (Ok tt, w') ->
  moved u (Calls (OnOrg org (RemoveMember target))) w w'.
Proof.
  intros H. unfold IdentityService.remove_member in H. look H actor Ea.
  found H t0 Et. checked H G1. checked H G2. checked H G3. injection H as <-.
  apply get_membership_Ok in Et as (_ & _ & Hsel). apply bool_decide_eq_false in G1.
  apply (ch_remove _ _ _ _ _ _ _ t0); [|done|done].
  eapply require_membership_holds; [|exact Ea]. unfold is_admin. by rw G2.
Qed.

(** *** Organizations *)

Lemma get_by_id_None {R} (tb : DB -> list R) ident id w w' : get_by_id tb ident id w = (Ok None, w') ->
  forall x, x ∈ tb (db w) -> ident x <> id.
Proof.
  unfold get_by_id, read_db, gets. intros [= H _] x Hx Hid. destruct (select _ _) as [|y l] eqn:E; [|done].
  rewrite select_nil_iff in E. specialize (E x Hx). by rewrite bool_decide_eq_true_2 in E.
Qed.

Lemma svc_get_organization_Ok org w o w' : IdentityService.get_organization org w = (Ok o, w') ->
  o ∈ organizations (db w) /\ o_id o = org.
Proof.
  intros H. unfold IdentityService.get_organization in H. look H r Er. apply or_raise_Ok in H as ->.
  destruct (get_by_id_run _ _ _ _ _ _ Er) as (_ & r & [= <-] & Hr). by apply Hr.
Qed.

Lemma update_organization_moves u org name w o w' : holds (db w) u org is_admin ->
  IdentityService.update_organization org name w = (Ok o, w') ->
  moved u (Calls (OnOrg org (UpdateOrg name))) w w'.
Proof.
  intros Hh H. unfold IdentityService.update_organization in H. look H nm En. destruct_bind H r w1 E1.
  apply or_raise_Ok in H as Hr. subst r. injection H as <-.
  unfold IdentityRepository.update_organization in E1. look E1 row Er. destruct row as [row|]; [|done].
  rewrite bind_write_db in E1. injection E1 as _ <-.
  destruct (get_by_id_run _ _ _ _ _ _ Er) as (_ & q & [= <-] & Hq). destruct (Hq row eq_refl) as [_ Hid]. by apply ch_update_org.
Qed.

Lemma delete_organization_moves u org w w' : holds (db w) u org is_owner ->
  IdentityService.delete_organization org w = (Ok tt, w') -> moved u (Calls (OnOrg org DeleteOrg)) w w'.
Proof.
  intros Hh H. unfold IdentityService.delete_organization in H. look H o Eo.
  apply svc_get_organization_Ok in Eo as [Hin Hid].
  unfold IdentityRepository.delete_organization in H. look H row Er. destruct row as [row|].
  - injection H as <-. by apply ch_delete_org.
  - by destruct (get_by_id_None _ _ _ _ _ Er o Hin).
Qed.

(** *** Projects and API keys: the rows one identifier names *)

(** In a keyed table the rows of one identifier are the row a look-up finds. *)
Lemma same_row {R} (ident : R -> N) clash n (tb : list R) (x r : R) :
  table_ok ident clash n tb -> x ∈ tb -> r ∈ tb -> bool_decide (ident r = ident x) = true -> r = x.
Proof. intros Ht Hx Hr Hid%bool_decide_eq_true. by apply (table_ok_same_id ident clash n tb). Qed.

Lemma svc_get_project_Ok id org w p w' : IdentityService.get_project id (Some org) w = (Ok p, w') ->
  p ∈ projects (db w) /\ p_id p = id /\ p_org p = org.
Proof.
  intros H. unfold IdentityService.get_project in H. found H q Ep. checked H G. injection H as <- _.
  destruct (get_by_id_run _ _ _ _ _ _ Ep) as (_ & o & [= <-] & Hq). destruct (Hq q eq_refl) as [Hin Hid].
  by apply negb_false_iff, bool_decide_eq_true in G.
Qed.

Lemma svc_get_api_key_Ok id org w k w' : IdentityService.get_api_key id org w = (Ok k, w') ->
  k ∈ api_keys (db w) /\ k_id k = id /\ k_org k = org.
Proof.
  intros H. unfold IdentityService.get_api_key in H. found H q Ep. checked H G. injection H as <- _.
  destruct (get_by_id_run _ _ _ _ _ _ Ep) as (_ & o & [= <-] & Hq). destruct (Hq q eq_refl) as [Hin Hid].
  by apply negb_false_iff, bool_decide_eq_true in G.
Qed.

Lemma create_project_moves u org name description w p w' :
  holds (db w) u org is_admin -> IdentityService.create_project org name description w = (Ok p, w') ->
  moved u (Calls (OnOrg org (CreateProject name description))) w w'.
Proof.
  intros Hh H. unfold IdentityService.create_project in H. look H nm En. look H ds Ed. look H o Eo.
  apply create_project_Ok in H as (Hid & Ho & Hc & ->). apply (ch_projects _ _ _ _ _ org); [eauto| |].
  - apply stays_ok_insert; [apply ProjectModel_clash_sym|cbn -[N.succ]; lia|done].
  - intros _. by apply others_app.
Qed.

Lemma update_project_moves u org id name description w p w' :
  holds (db w) u org is_admin -> IdentityService.update_project org id name description w = (Ok p, w') ->
  moved u (Calls (OnOrg org (UpdateProject id name description))) w w'.
Proof.
  intros Hh H. unfold IdentityService.update_project in H. look H q Ep.
  apply svc_get_project_Ok in Ep as (Hq & <- & Ho).
  look H nm En. look H ds Ed. destruct_bind H o w1 E1. apply or_raise_Ok in H as Hp. subst o. injection H as <-.
  unfold ProjectRepository.update_project in E1. look E1 row Er. destruct row as [row|]; [|done].
  destruct (get_by_id_run _ _ _ _ _ _ Er) as (_ & o & [= <-] & Hrow). destruct (Hrow row eq_refl) as [Hin Hid].
  set (p' := {| p_id := p_id row; p_org := _; p_name := _; p_description := _; p_created := _ |}) in E1.
  rewrite bind_read_db in E1. checked E1 G. rewrite bind_write_db in E1. injection E1 as _ <-.
  apply (ch_projects _ _ _ _ _ org); [eauto| |].
  - intros Ht. rewrite -Hid in G |- *. apply table_ok_store; [apply ProjectModel_clash_sym|done|done|done|done].
  - intros Ht. assert (row = q) as -> by (by apply (table_ok_same_id p_id ProjectModel_clash (next_id w) (projects (db w)))).
    apply others_update. intros r Hr Hp. by rewrite (same_row p_id _ _ _ q r Ht Hq Hr Hp).
Qed.

Lemma delete_project_moves u org id w w' :
  holds (db w) u org is_owner -> IdentityService.delete_project org id w = (Ok tt, w') ->
  moved u (Calls (OnOrg org (DeleteProject id))) w w'.
Proof.
  intros Hh H. unfold IdentityService.delete_project in H. look H q Ep.
  apply svc_get_project_Ok in Ep as (Hq & <- & Ho). unfold ProjectRepository.delete_project in H. look H row Er.
  destruct row as [row|]; [|by destruct (get_by_id_None _ _ _ _ _ Er q Hq)]. injection H as <-.
  by apply ch_delete_project.
Qed.

Lemma create_api_key_Ok sha org name by_ expiration w k raw w' :
  IdentityService.create_api_key sha org name by_ expiration w = (Ok (k, raw), w') ->
  k_org k = org /\ k_hash k = hash_api_key sha raw /\ k_active k = true /\ k_created_by k = by_ /\
  (exists d, IdentityService.expiration_delta expiration = Some d /\ k_expires k = (x ← d; Some (now w + x))) /\
  (exists o, o ∈ organizations (db w) /\ o_id o = org) /\ (next_id w <= k_id k < next_id w')%N /\
  existsb (APIKeyModel_clash k) (api_keys (db w)) = false /\
  db w' = set_api_keys (api_keys (db w) ++ [k]) (db w) /\ next_id w' = N.succ (N.succ (next_id w)) /\
  redis w' = redis w.
Proof.
  intros H. unfold IdentityService.create_api_key in H. look H o Eo. look H d Ed.
  apply svc_get_organization_Ok in Eo. apply or_raise_Ok in Ed. rewrite bind_utcnow in H.
  destruct_bind H rk w1 E1. injection E1 as <- <-.
  unfold IdentityRepository.create_api_key in H. inserted H k1 C. injection H as <- <- <-. subst k1.
  split_and!; try done; eauto; cbn -[N.succ]; lia.
Qed.

Lemma mint_moves u org c sha name by_ expiration w k raw w' : holds (db w) u org (allowed c) ->
  IdentityService.create_api_key sha org name by_ expiration w = (Ok (k, raw), w') ->
  moved u (Calls (OnOrg org c)) w w'.
Proof.
  intros Hh H. apply create_api_key_Ok in H as (Ho & _ & _ & _ & _ & _ & Hid & Hc & Hdb & _ & _).
  unfold moved. rw Hdb. apply (ch_keys _ _ _ _ _ org); [eauto| |intros _; by apply others_app].
  by apply stays_ok_insert; [apply APIKeyModel_clash_sym| |].
Qed.

Lemma rotate_api_key_moves u org c sha id by_ w k raw w' : holds (db w) u org (allowed c) ->
  IdentityService.rotate_api_key sha id org by_ w = (Ok (k, raw), w') -> moved u (Calls (OnOrg org c)) w w'.
Proof.
  intros Hh H. unfold IdentityService.rotate_api_key in H. look H old Eo. checked H G1. checked H G2.
  by apply (mint_moves u org c) in H.
Qed.

Lemma change_key_moves u org c id f w k w' : holds (db w) u org (allowed c) ->
  IdentityService.get_api_key id org w = (Ok k, w) ->
  (f = update_where (fun k => bool_decide (k_id k = id)) IdentityRepository.set_inactive \/
   f = delete_where (fun k => bool_decide (k_id k = id))) ->
  w' = set_db (set_api_keys (f (api_keys (db w))) (db w)) w -> moved u (Calls (OnOrg org c)) w w'.
Proof.
  intros Hh (Hk & <- & Ho)%svc_get_api_key_Ok Hf ->. apply (ch_keys _ _ _ _ _ org); [eauto| |].
  - destruct Hf as [->| ->]; [|apply stays_ok_delete; simpl; lia].
    by apply stays_ok_map; [simpl; lia|apply APIKeyModel_clash_sym| |].
  - intros Ht. destruct Hf as [->| ->]; [apply others_update|apply others_delete];
      intros r Hr Hp; by rewrite (same_row k_id _ _ _ k r Ht Hk Hr Hp).
Qed.

(** *** Log-in and the data plane *)

Lemma UserModel_clash_sym a b : UserModel_clash a b = UserModel_clash b a.
Proof. unfold UserModel_clash. f_equal; apply bool_decide_sym. Qed.

(** Storing a row that keeps the account of the row of that identifier. *)
Lemma store_account n n' us x x' : (n <= n')%N -> x ∈ us -> account x' = account x ->
  let us' := update_where (fun r => bool_decide (u_id r = u_id x)) (fun _ => x') us in
  stays_ok u_id UserModel_clash n n' us us' /\ (table_ok u_id UserModel_clash n us -> keeps_accounts us us').
Proof.
  intros Hn Hx Ha. injection Ha as E1 E2 E3. cbv zeta. split; intros Ht.
  - apply table_ok_map_in; [apply UserModel_clash_sym| |eapply table_ok_mono; eassumption].
    intros r Hr. destruct (bool_decide _) eqn:Eb; [|done]. rewrite (same_row u_id _ _ _ x r Ht Hx Hr Eb).
    split; [done|]. intros b. unfold UserModel_clash. by rw E2 E3.
  - exists []. rewrite app_nil_r. unfold update_where. rewrite List.map_map. apply List.map_ext_in.
    intros r Hr%list_elem_of_In. destruct (bool_decide _) eqn:Eb; [|done].
    rewrite (same_row u_id _ _ _ x r Ht Hx Hr Eb). unfold account. by rw E1 E2 E3.
Qed.

Lemma upsert_user_moves ext email display w x created prev w' :
  UserRepository.upsert_user ext email display w = (Ok (x, created, prev), w') ->
  moved (u_id x) Login w w' /\ u_external x = ext.
Proof.
  intros H. unfold UserRepository.upsert_user in H. look H row Er. rewrite bind_utcnow in H.
  destruct (find_one_run _ _ _ _ _ Er) as (_ & Hs & _). destruct row as [y|].
  - destruct (Hs y eq_refl) as (_ & Hy & He%bool_decide_eq_true). rewrite bind_write_db in H.
    injection H as <- _ _ <-. split; [|done].
    match goal with |- moved _ _ _ (set_db (set_users (update_where _ (fun _ => ?x') _) _) _) =>
      destruct (store_account (next_id w) (next_id w) (users (db w)) y x') as [H1 H2] end; [lia|done|done|].
    by apply ch_users.
  - inserted H x1 C. injection H as <- _ _ <-. subst x1. split; [|done].
    apply ch_users; [apply stays_ok_insert; [apply UserModel_clash_sym|cbn -[N.succ]; lia|done]|].
    intros _. unfold keeps_accounts. rewrite List.map_app. by apply prefix_app_r.
Qed.

(** ** Sequences of changes *)

Section moves.
Context (keep : Action -> Prop).

Definition move (w w' : World) : Prop :=
  session w w' /\ (db w' = db w \/ exists u a, keep a /\ moved u a w w').
Definition moves : World -> World -> Prop := rtc move.

Lemma moves_one u a w w' : session w w' -> keep a -> moved u a w w' -> moves w w'.
Proof. intros Hs Hk Hm. apply rtc_once. split; [done|]. right. eauto. Qed.
Lemma moves_same w w' : session w w' -> db w' = db w -> moves w w'.
Proof. intros Hs Hd. apply rtc_once. split; [done|]. by left. Qed.
Lemma moves_refl w : moves w w.
Proof. apply rtc_refl. Qed.

(** A property of the tables that every kept change preserves. *)
Definition stable (P : Z -> N -> DB -> Prop) : Prop :=
  (forall t n n' d, (n <= n')%N -> P t n d -> P t n' d) /\
  (forall u t n n' a d d', (n <= n')%N -> keep a -> change u t n n' a d d' -> P t n d -> P t n' d').

Lemma moves_stable P w w' : stable P -> moves w w' ->
  P (now w) (next_id w) (db w) -> P (now w') (next_id w') (db w').
Proof.
  intros [Hm Hc] H. induction H as [|x y z [(Hd & Ht & Hn & _) Hxy] _ IH]; [done|]. intros Hx. apply IH.
  destruct Hxy as [->|(u & a & Hk & Hch)]; rw Ht; [by apply (Hm _ (next_id x))|]. by apply (Hc _ _ _ _ _ _ _ Hn Hk Hch).
Qed.
End moves.

(** ** Every service respects the session *)

#[export] Hint Extern 1 (respects session _) => apply session_read_only; solve [eauto with read_only] : effects.

Section service_sessions.
Context (sha : string -> list N).

Lemma session_as_validation {A} (r : res A) : respects session (as_validation r).
Proof. apply session_read_only. eauto with read_only. Qed.
Lemma session_create_project org n d : respects session (ProjectRepository.create_project org n d).
Proof. unfold ProjectRepository.create_project, on_integrity_error, ProjectRepository.insert_project. respects_auto. Qed.
Hint Resolve session_create_project : effects.
Lemma session_create_organization name u plan : respects session (IdentityService.create_organization name u plan).
Proof.
  unfold IdentityService.create_organization, IdentityRepository.create_organization,
    IdentityRepository.create_membership, create_subscription, create_usage_record. respects_auto.
Qed.
Hint Resolve session_create_organization : effects.
Lemma session_update_status i s : respects session (InvitationRepository.update_status i s).
Proof. unfold InvitationRepository.update_status. respects_auto. Qed.
Hint Resolve session_update_status : effects.
Lemma session_open_invitation u i : respects session (IdentityService.open_invitation u i).
Proof. unfold IdentityService.open_invitation. respects_auto. Qed.
Hint Resolve session_open_invitation : effects.
Lemma session_create_api_key org n b e : respects session (IdentityService.create_api_key sha org n b e).
Proof.
  unfold IdentityService.create_api_key, generate_api_key, token_hex, IdentityRepository.create_api_key. respects_auto.
Qed.
Hint Resolve session_create_api_key : effects.

Lemma session_serve ctx c : respects session (serve sha ctx c).
Proof.
  destruct c as [org c|name|i|i]; [destruct c|..]; autounfold with api.
  all: respects_auto. apply session_read_only, read_only_mapM. intros k. read_only_auto.
Qed.
End service_sessions.

(** ** A successful call is a change its caller has the right to *)

Definition same_db (w w' : World) : Prop := db w' = db w.
#[export] Instance same_db_preorder : PreOrder same_db.
Proof. split; [done|]. intros x y z. unfold same_db. congruence. Qed.
Lemma same_db_read_only {A} (m : M World A) : read_only m -> respects same_db m.
Proof. intros H w. unfold same_db. by rewrite (H w). Qed.
Lemma same_db_redis f : respects same_db (redis_update f).
Proof. done. Qed.
Lemma same_db_stripe q : respects same_db (stripe_call q).
Proof. intros w. unfold stripe_call. by destruct (stripe_script w). Qed.
Lemma same_db_enqueue x : respects same_db (enqueue x).
Proof. done. Qed.
#[export] Hint Resolve same_db_preorder same_db_redis same_db_stripe same_db_enqueue : effects.
#[export] Hint Extern 1 (respects same_db _) => apply same_db_read_only; solve [eauto with read_only] : effects.

(** The calls that change no table. *)
Definition reads (c : OrgCall) : bool :=
  match c with
  | GetOrg | ListMembers | ListInvitations | ListProjects | GetProject _ | ListKeys | GetKey _
  | GetSubscription | GetUsage | GetBilling | GetInvoices _ | Checkout _ | Portal => true
  | _ => false
  end.

Lemma serve_reads sha ctx org c : reads c = true -> respects same_db (serve_org sha ctx org c).
Proof.
  intros Hc. destruct c; try discriminate Hc; autounfold with api.
  all: respects_auto. apply same_db_read_only, read_only_mapM. intros k. read_only_auto.
Qed.

Lemma require_user_Ok ctx w u w' : _require_user ctx w = (Ok u, w') -> cx_user ctx = Some u.
Proof. apply or_raise_Ok. Qed.

Section serve_moves.
Context (sha : string -> list N) (ctx : ApiContext) (w w' : World).

(** The caller [u] of the run [H]. *)
Ltac caller H u :=
  lazymatch type of H with discard _ _ = _ => apply discard_Ok in H; destruct H as [? H] | _ => idtac end;
  let E := fresh in
  apply bind_read_only in H as (u & E & H); [|solve [eauto with read_only]];
  apply require_user_Ok in E; exists u; split; [exact E|].
(** The right its role check establishes. *)
Ltac as_admin H Hh :=
  let m := fresh in let E := fresh in look H m E;
  match goal with |- moved _ (Calls (OnOrg _ ?c)) _ _ =>
    pose proof (require_role_holds _ _ (allowed c) _ _ _ (fun r Hr => Hr) E) as Hh end.
Ltac as_owner H Hh :=
  let m := fresh in let E := fresh in look H m E;
  match goal with |- moved _ (Calls (OnOrg _ ?c)) _ _ =>
    pose proof (require_owner_holds _ _ (allowed c) _ _ _ eq_refl E) as Hh end.

Lemma serve_org_moves org c : serve_org sha ctx org c w = (Ok tt, w') ->
  db w' = db w \/ exists u, cx_user ctx = Some u /\ moved (u_id u) (Calls (OnOrg org c)) w w'.
Proof.
  intros H. destruct (reads c) eqn:Hr.
  { left. pose proof (serve_reads sha ctx org c Hr w) as Hs. unfold same_db in Hs. by rewrite H in Hs. }
  right. destruct c; try discriminate Hr; cbn [serve_org] in H; caller H u.
  - as_admin H Hh. exact (update_organization_moves _ _ _ _ _ _ Hh H).
  - as_owner H Hh. exact (delete_organization_moves _ _ _ _ Hh H).
  - exact (update_member_role_moves _ _ _ _ _ _ _ H).
  - exact (remove_member_moves _ _ _ _ _ H).
  - exact (create_invitation_moves _ _ _ _ _ _ _ H).
  - exact (revoke_invitation_moves _ _ _ _ _ H).
  - as_admin H Hh. exact (create_project_moves _ _ _ _ _ _ _ Hh H).
  - as_admin H Hh. exact (update_project_moves _ _ _ _ _ _ _ _ Hh H).
  - as_owner H Hh. exact (delete_project_moves _ _ _ _ _ Hh H).
  - look H m Em. destruct_bind H minted w1 E1. destruct minted as [k raw]. injection H as _ <-.
    eapply mint_moves; [|exact E1]. by apply (require_membership_holds _ _ _ _ _ _ eq_refl Em).
  - as_admin H Hh. destruct_bind H minted w1 E1. destruct minted as [k raw]. injection H as _ <-.
    exact (rotate_api_key_moves _ _ _ _ _ _ _ _ _ _ Hh E1).
  - as_admin H Hh. destruct permanent; look H k Ek; injection H as <-.
    + exact (change_key_moves _ _ _ _ _ _ _ _ Hh Ek (or_intror eq_refl) eq_refl).
    + exact (change_key_moves _ _ _ _ _ _ _ _ Hh Ek (or_introl eq_refl) eq_refl).
Qed.

Lemma serve_call_moves c : serve sha ctx c w = (Ok tt, w') ->
  db w' = db w \/ exists u, cx_user ctx = Some u /\ moved (u_id u) (Calls c) w w'.
Proof.
  destruct c as [org c|name|i|i]; cbn [serve]; intros H; [by apply serve_org_moves|right; caller H u..].
  - refine (create_organization_moves _ _ _ _ _ _ _ _ H). eauto.
  - exact (accept_invitation_moves _ _ _ _ _ H).
  - exact (decline_invitation_moves _ _ _ _ H).
Qed.
End serve_moves.
