(* ===== verification/AuthFacts.v ===== *)
(** * What authentication guarantees

    The context of a request is never wider than the caller's rights: a user acts
    in an organization they are a member of, a key in its own organization, and a
    project is one of that organization. *)
From stdpp Require Import base gmap strings list pretty.
From Stdlib Require Import ZArith Lia ssreflect.
From S2P Require Import Prelude Constants Entities World Invariant BillingRepo Security IdentityRepo Identity ApiAuth CliAuth Routes Access IdentitySpec.

#[local] Open Scope Z_scope.

Section facts.
Context (sha256 : string -> list N) (provider : Provider).

(** ** Look-ups of the dependencies *)

Lemma read_only_verify_token t : read_only (verify_token provider t).
Proof. done. Qed.
Lemma read_only_list_user_orgs u : read_only (IdentityRepository.list_user_orgs u).
Proof. done. Qed.
Lemma read_only_resolve_organization ms h : read_only (resolve_organization ms h).
Proof. unfold resolve_organization. read_only_auto. Qed.
Lemma read_only_resolve_project o h : read_only (resolve_project o h).
Proof. unfold resolve_project. read_only_auto. Qed.
Hint Resolve read_only_verify_token read_only_list_user_orgs read_only_resolve_organization read_only_resolve_project : read_only.

Lemma same_db_welcome e : respects same_db (welcome_new_user e).
Proof. unfold welcome_new_user. respects_auto. Qed.
Lemma session_welcome e : respects session (welcome_new_user e).
Proof. unfold welcome_new_user. respects_auto. Qed.
Lemma session_upsert_user x e d : respects session (UserRepository.upsert_user x e d).
Proof. unfold UserRepository.upsert_user. respects_auto. Qed.
Hint Resolve session_welcome session_upsert_user session_create_organization session_create_project : effects.
Lemma session_provisioned u : respects session (provisioned_memberships u).
Proof. unfold provisioned_memberships. respects_auto. Qed.
Hint Resolve session_provisioned : effects.
Lemma session_resolve_jwt t o p : respects session (_resolve_jwt provider t o p).
Proof. unfold _resolve_jwt. respects_auto. Qed.
Lemma session_resolve_api_key k n : respects session (_resolve_api_key sha256 k n).
Proof.
  unfold _resolve_api_key, key_project, IdentityRepository.touch_api_key, ProjectRepository.get_or_create_project, on_integrity_error,
    ProjectRepository.insert_project. respects_auto.
Qed.
Hint Resolve session_resolve_jwt session_resolve_api_key : effects.
Lemma session_get_api_context r : respects session (get_api_context provider r).
Proof. unfold get_api_context. respects_auto. Qed.
Lemma session_get_data_plane_context r : respects session (get_data_plane_context sha256 provider r).
Proof. unfold get_data_plane_context, data_plane_jwt. respects_auto. Qed.

Lemma session_run {A} (m : M World A) w r w' : respects session m -> m w = (r, w') -> session w w'.
Proof. intros H E. specialize (H w). by rewrite E in H. Qed.
Lemma same_db_run {A} (m : M World A) w r w' : respects same_db m -> m w = (r, w') -> db w' = db w.
Proof. intros H E. specialize (H w). by rewrite E in H. Qed.

(** ** Logging in *)

(** The memberships of a signed-in user, after provisioning. *)
Lemma provisioned_memberships_Ok u w ms w' : provisioned_memberships u w = (Ok ms, w') ->
  (forall m, m ∈ ms -> m ∈ memberships (db w') /\ m_user m = u) /\
  (w' = w \/ moved u Login w w').
Proof.
  intros H.
  assert (Hl : forall v l v', IdentityRepository.list_user_orgs u v = (Ok l, v') ->
            v' = v /\ forall m, m ∈ l -> m ∈ memberships (db v) /\ m_user m = u).
  { intros v l v' [= <- <-]. split; [done|]. intros m Hm. apply elem_of_order_by, elem_of_select in Hm as [Hm Hu].
    by apply bool_decide_eq_true in Hu. }
  unfold provisioned_memberships in H. look H ms0 E0. destruct ms0 as [|m0 ms0].
  - look H s Es. destruct_bind H o w1 E1. apply Hl in H as [-> Hms]. split; [done|]. right.
    eapply create_organization_moves; [by left|exact E1].
  - injection H as <- <-. apply Hl in E0 as [_ Hms]. split; [done|]. by left.
Qed.

(** The organization of the context comes from one of the memberships. *)
Lemma resolve_organization_Ok ms h w o w' : resolve_organization ms h w = (Ok o, w') ->
  o ∈ organizations (db w) /\ exists m, m ∈ ms /\ m_org m = o_id o.
Proof.
  intros H. unfold resolve_organization in H.
  assert (Hget : forall i k, (IdentityRepository.get_organization i ≫= or_raise k) w = (Ok o, w') ->
            o ∈ organizations (db w) /\ o_id o = i).
  { intros i k Hk. look Hk r Er. apply or_raise_Ok in Hk as ->.
    destruct (get_by_id_run _ _ _ _ _ _ Er) as (_ & q & [= <-] & Hq). exact (Hq o eq_refl). }
  destruct h as [| |target]; [|done|].
  - destruct ms as [|m ms]; [done|]. apply Hget in H as [Hin Hid]. split; [done|].
    exists m. split; [by left|congruence].
  - destruct (List.find _ ms) as [m|] eqn:Ef; [|done]. apply Hget in H as [Hin Hid].
    apply List.find_some in Ef as [Hm%list_elem_of_In Ho%bool_decide_eq_true].
    split; [done|]. exists m. split; [done|congruence].
Qed.

Lemma resolve_project_Ok org h w p w' : resolve_project org h w = (Ok (Some p), w') ->
  p ∈ projects (db w) /\ p_org p = org.
Proof.
  unfold resolve_project. destruct h as [| |id]; intros H; [done|done|]. look H r Er. checked H G.
  injection H as ->. apply negb_false_iff, bool_decide_eq_true in G.
  destruct (get_by_id_run _ _ _ _ _ _ Er) as (_ & q & [= <-] & Hq). by destruct (Hq p eq_refl).
Qed.

Lemma welcome_run b e w x w' : when b (welcome_new_user e) w = (Ok x, w') -> db w' = db w /\ session w w'.
Proof.
  destruct b; intros H; [|by injection H as _ <-].
  split; [exact (same_db_run _ _ _ _ (same_db_welcome _) H)|exact (session_run _ _ _ _ (session_welcome _) H)].
Qed.

(** What [_resolve_jwt] establishes: the changes it makes and the context it builds. *)
Lemma resolve_jwt_Ok keep t oh ph w ctx w' : keep Login -> _resolve_jwt provider t oh ph w = (Ok ctx, w') ->
  moves keep w w' /\
  exists claims u m, verify_token provider t w = (Ok claims, w) /\ cx_user ctx = Some u /\ u_external u = cl_sub claims /\
    m ∈ memberships (db w') /\ IdentityRepository.of_member (u_id u) (o_id (cx_organization ctx)) m = true /\
    cx_organization ctx ∈ organizations (db w') /\
    (forall p, cx_project ctx = Some p -> p ∈ projects (db w') /\ p_org p = o_id (cx_organization ctx)).
Proof.
  intros Hk H. unfold _resolve_jwt in H. look H claims Ec. destruct_bind H r w1 E1. destruct r as [[u created] prev].
  pose proof (session_run _ _ _ _ (session_upsert_user _ _ _) E1) as S1.
  apply upsert_user_moves in E1 as [M1 Hx]. destruct_bind H ms w2 E2.
  pose proof (session_run _ _ _ _ (session_provisioned _) E2) as S2.
  apply provisioned_memberships_Ok in E2 as [Hms M2].
  look H o Eo. look H p Ep. destruct_bind H x w3 E3. injection H as <- <-.
  apply welcome_run in E3 as [Hd S3]. split.
  - etransitivity; [exact (moves_one keep _ _ _ _ S1 Hk M1)|]. etransitivity; [|exact (moves_same keep _ _ S3 Hd)].
    destruct M2 as [->|M2]; [apply moves_refl|exact (moves_one keep _ _ _ _ S2 Hk M2)].
  - apply resolve_organization_Ok in Eo as (Ho & m & Hm & Hmo). destruct (Hms m Hm) as [Hin Hmu].
    exists claims, u, m. cbn. rewrite Hd. split_and!; try done.
    + unfold IdentityRepository.of_member. by rewrite Hmu Hmo !bool_decide_eq_true_2.
    + intros q ->. by apply resolve_project_Ok in Ep.
Qed.

(** ** API keys *)

Lemma project_by_name_Ok org name w p w' : ProjectRepository.get_project_by_name org name w = (Ok (Some p), w') ->
  p ∈ projects (db w) /\ p_org p = org.
Proof.
  intros H. destruct (find_one_run _ _ _ _ _ H) as (_ & Hs & _). destruct (Hs p eq_refl) as (_ & Hin & Hp).
  by apply andb_prop in Hp as [Ho%bool_decide_eq_true _].
Qed.

Lemma get_or_create_project_Ok u org name w p w' : ProjectRepository.get_or_create_project org name w = (Ok p, w') ->
  p ∈ projects (db w') /\ p_org p = org /\ (db w' = db w \/ moved u (DataPlane org) w w').
Proof.
  intros H. unfold ProjectRepository.get_or_create_project in H. look H r Er. destruct r as [q|].
  { injection H as <- <-. apply project_by_name_Ok in Er as [? ?]. auto. }
  destruct (insert_project_run org name EmptyString w) as (q & Hid & Ho & Hr).
  apply on_integrity_error_Ok in H. rw Hr in H. destruct (existsb _ _) eqn:E.
  - destruct H as [H|(w1 & [= <-] & H)]; [done|]. look H r2 Er2. destruct r2 as [q2|]; [|done].
    injection H as <- <-. apply project_by_name_Ok in Er2 as [? ?]. auto.
  - destruct H as [[= <- <-]|(w1 & H & _)]; [|done]. cbn. split_and!; [apply elem_of_app; right; by left|done|right].
    apply (ch_projects _ _ _ _ _ org); [by left| |intros _; by apply others_app].
    apply stays_ok_insert; [apply ProjectModel_clash_sym|cbn -[N.succ]; lia|done].
Qed.

Lemma key_by_hash_Ok h w k w' : IdentityRepository.get_api_key_by_hash h w = (Ok (Some k), w') ->
  k ∈ api_keys (db w) /\ k_hash k = h /\ k_active k = true.
Proof.
  intros H. destruct (find_one_run _ _ _ _ _ H) as (_ & Hs & _). destruct (Hs k eq_refl) as (_ & Hin & Hp).
  by apply andb_prop in Hp as [Ho%bool_decide_eq_true Ha].
Qed.

(** Recording the use of a key. *)
Lemma touch_moves u k w : k ∈ api_keys (db w) ->
  moved u (DataPlane (k_org k)) w
    (set_db (set_api_keys (update_where (fun r => bool_decide (k_id r = k_id k))
       (IdentityRepository.set_last_used (Some (now w))) (api_keys (db w))) (db w)) w).
Proof.
  intros Hk. apply (ch_keys _ _ _ _ _ (k_org k)); [by left| |].
  - by apply stays_ok_map; [simpl; lia|apply APIKeyModel_clash_sym| |].
  - intros Ht. apply others_update. intros r Hr Hp. by rewrite (same_row k_id _ _ _ k r Ht Hk Hr Hp).
Qed.

Lemma key_project_Ok u org name w o w' : key_project org name w = (Ok o, w') ->
  (forall p, o = Some p -> p ∈ projects (db w') /\ p_org p = org) /\
  (db w' = db w \/ moved u (DataPlane org) w w') /\ session w w'.
Proof.
  intros H. assert (S0 : session w w) by reflexivity. unfold key_project in H.
  destruct name as [name|]; [|by injection H as <- <-; split_and!; [|left|]]. destruct (truthy _); [|by injection H as <- <-; split_and!; [|left|]].
  look H c Ec. destruct_bind H p w1 E1. injection H as <- <-.
  assert (S : session w w1).
  { refine (session_run _ _ _ _ _ E1). unfold ProjectRepository.get_or_create_project, on_integrity_error, ProjectRepository.insert_project.
    respects_auto. }
  apply (get_or_create_project_Ok u) in E1 as (Hin & Ho & Hm). split_and!; [|done|done]. by intros q [= <-].
Qed.

Lemma resolve_api_key_Ok keep raw name w ctx w' : (forall org, keep (DataPlane org)) ->
  _resolve_api_key sha256 raw name w = (Ok ctx, w') ->
  moves keep w w' /\
  exists k, k ∈ api_keys (db w) /\ k_hash k = hash_api_key sha256 raw /\ k_active k = true /\
    (forall e, k_expires k = Some e -> now w <= e) /\
    cx_user ctx = None /\ o_id (cx_organization ctx) = k_org k /\ cx_organization ctx ∈ organizations (db w) /\
    (forall p, cx_project ctx = Some p -> p ∈ projects (db w') /\ p_org p = k_org k).
Proof.
  intros Hk H. unfold _resolve_api_key in H. look H r Er. look H k Ek. apply or_raise_Ok in Ek. subst r.
  rewrite bind_utcnow in H. checked H G. apply key_by_hash_Ok in Er as (Hin & Hh & Ha).
  assert (T := touch_moves 0 k w Hin). unfold IdentityRepository.touch_api_key in H.
  match type of T with moved _ _ _ ?v => change (db v) with (db v) in T; set (w1 := v) in * end.
  destruct_bind H x w2 E2. injection E2 as _ <-. change (set_db _ w) with w1 in H.
  look H o Eo. look H og Eg. apply or_raise_Ok in Eg. subst o.
  destruct (get_by_id_run _ _ _ _ _ _ Eo) as (_ & q & [= <-] & Hq). destruct (Hq og eq_refl) as [Hog Hid].
  destruct_bind H p w3 E3. injection H as <- <-. apply (key_project_Ok 0 (k_org k)) in E3 as (Hp & M & S).
  split.
  - assert (S1 : session w w1) by (split_and!; [done|done|simpl; lia|done]).
    etransitivity; [exact (moves_one keep _ _ _ _ S1 (Hk _) T)|].
    destruct M as [M|M]; [exact (moves_same keep _ _ S M)|exact (moves_one keep _ _ _ _ S (Hk _) M)].
  - exists k. cbn. split_and!; try done. intros e He. rewrite He in G. by apply Z.ltb_ge in G.
Qed.
End facts.

(** ** The context of a request *)

Section claims.
Context (sha256 : string -> list N) (provider : Provider).

(** The caller of request [r] is entitled to the context [ctx], built between the
    worlds [w] and [w']. *)
Definition entitled (r : Request) (w w' : World) (ctx : ApiContext) : Prop :=
  (forall p, cx_project ctx = Some p -> p ∈ projects (db w') /\ p_org p = o_id (cx_organization ctx)) /\
  match cx_user ctx with
  | Some u =>
      exists token claims m,
        (rq_bearer r = Some token \/ auth_enabled (settings w) = false) /\
        verify_token provider token w = (Ok claims, w) /\ u_external u = cl_sub claims /\
        cx_organization ctx ∈ organizations (db w') /\
        m ∈ memberships (db w') /\ IdentityRepository.of_member (u_id u) (o_id (cx_organization ctx)) m = true
  | None =>
      exists raw k,
        rq_api_key r = Some raw /\ k ∈ api_keys (db w) /\ k_hash k = hash_api_key sha256 raw /\
        k_active k = true /\ (forall e, k_expires k = Some e -> now w <= e) /\
        cx_organization ctx ∈ organizations (db w) /\ o_id (cx_organization ctx) = k_org k
  end.

Lemma resolve_jwt_entitled r w w' token oh ph ctx :
  rq_bearer r = Some token \/ auth_enabled (settings w) = false ->
  _resolve_jwt provider token oh ph w = (Ok ctx, w') -> entitled r w w' ctx.
Proof.
  intros Ht H. apply (resolve_jwt_Ok provider (fun _ => True)) in H as (_ & claims & u & m & Hv & Hu & Hx & Hm & Ho & Hg & Hp); [|done].
  split; [done|]. rw Hu. exists token, claims, m. by split_and!.
Qed.

Lemma resolve_api_key_entitled r w w' raw ctx : rq_api_key r = Some raw ->
  _resolve_api_key sha256 raw (rq_project_name r) w = (Ok ctx, w') -> entitled r w w' ctx.
Proof.
  intros Hr H. apply (resolve_api_key_Ok sha256 (fun _ => True)) in H
    as (_ & k & Hk & Hh & Ha & He & Hu & Ho & Hg & Hp); [|done].
  split; [by rw Ho|]. rw Hu. exists raw, k. by split_and!.
Qed.
End claims.

(** C9: A context is never wider than the caller's rights.  Whenever a management or a
    data-plane request gets a context: the project, if any, belongs to the
    context's organization; a user context comes from a verified token (or from a
    deployment with authentication off) for that very account, and the user is a member of the organization; a key
    context comes from an active, unexpired key whose stored hash is the digest of the
    presented key, and its organization is the key's. *)
Theorem context_within_rights (sha256 : string -> list N) (provider : Provider) (r : Request) (w w' : World) (ctx : ApiContext)
  (H : get_api_context provider r w = (Ok ctx, w') \/ get_data_plane_context sha256 provider r w = (Ok ctx, w')) :
  entitled sha256 provider r w w' ctx.
Proof.
  destruct H as [H|H].
  - unfold get_api_context in H. look H s Es. injection Es as <-. destruct (rq_bearer r) as [t|] eqn:Hb.
    + look H t' Et. injection Et as <-. exact (resolve_jwt_entitled sha256 provider r w w' t _ _ ctx (or_introl Hb) H).
    + look H t' Et. checked Et G. exact (resolve_jwt_entitled sha256 provider r w w' _ _ _ ctx (or_intror G) H).
  - unfold get_data_plane_context in H.
    assert (Hjwt : data_plane_jwt provider r w = (Ok ctx, w') -> entitled sha256 provider r w w' ctx).
    { unfold data_plane_jwt. destruct (rq_bearer r) as [t|] eqn:Hb; intros E; [exact (resolve_jwt_entitled sha256 provider r w w' t _ _ ctx (or_introl Hb) E)|].
      look E s Es. injection Es as <-. checked E G. exact (resolve_jwt_entitled sha256 provider r w w' _ _ _ ctx (or_intror G) E). }
    destruct (rq_api_key r) as [[|c key]|] eqn:Hk; [by apply Hjwt| |by apply Hjwt].
    exact (resolve_api_key_entitled sha256 provider r w w' _ ctx Hk H).
Qed.

(** alice's key for Acme resolves to Acme and creates the project she names. *)
Definition raw_key : string := "sk_pp_0123".
Definition acme_key : APIKey :=
  {| k_id := 30; k_org := 7; k_hash := hash_api_key toy_digest raw_key; k_prefix := "sk_pp_0123"; k_name := "prod";
     k_active := true; k_created := 0; k_expires := Some (days 30); k_last_used := None; k_created_by := Some 1%N |}.
Definition keyed_world : World := world_of (set_api_keys [acme_key] (tenant_db [])) (days 20) [].
Definition no_provider : Provider :=
  {| auth_provider := "firebase"; supabase_url := ""; supabase_key := ""; supabase_get_user := fun _ => SbRaises;
     firebase_initializes := true; firebase_verify_id_token := fun _ => FbInvalid |}.
Definition key_request : Request :=
  {| rq_bearer := None; rq_org := NoHeader; rq_api_key := Some raw_key; rq_project_id := NoHeader;
     rq_project_name := Some " checkout agent "%string |}.

Lemma context_within_rights_witness : exists ctx w',
  get_data_plane_context toy_digest no_provider key_request keyed_world = (Ok ctx, w') /\
  length (projects (db w')) = 3%nat /\ entitled toy_digest no_provider key_request keyed_world w' ctx.
Proof.
  destruct (get_data_plane_context toy_digest no_provider key_request keyed_world) as [[ctx|e] w'] eqn:E.
  - exists ctx, w'. split; [done|]. split; [vm_compute in E; by injection E as _ <-|].
    exact (context_within_rights toy_digest no_provider key_request keyed_world w' ctx (or_intror E)).
  - exfalso. vm_compute in E. discriminate E.
Defined.
