(* ===== verification/CliFacts.v ===== *)
(** * The CLI login: single use and round trip

    Consuming a code removes it whatever happens next, so at most one of any number
    of concurrent exchanges succeeds; and a code exchanges for what it was issued for. *)
From stdpp Require Import base gmap strings list pretty.
From Stdlib Require Import ZArith Lia Ascii ssreflect.
From S2P Require Import Prelude Constants Entities World Invariant BillingRepo Security IdentityRepo Identity ApiAuth CliAuth Routes Access IdentitySpec.

#[local] Open Scope Z_scope.

Definition raw_key_of (n : N) : string := API_KEY_PREFIX +:+ hex (token_bytes API_KEY_RANDOM_BYTES n).

(** The entry a code names. *)
Definition code_entry (code : string) (w : World) : option (CodePayload * Z) := r_codes (redis w) !! code.

(** ** Consuming a code removes it *)

Lemma delete_code_run code w : delete_code code w =
  (Ok (if live (now w) (code_entry code w) then 1 else 0),
   set_redis (set_codes (delete code (r_codes (redis w))) (redis w)) w).
Proof. unfold delete_code, redis_get, redis_update, mbind, M_bind, gets, modify. cbn. by destruct (live _ _). Qed.

Definition same_redis (w w' : World) : Prop := redis w' = redis w.
#[export] Instance same_redis_preorder : PreOrder same_redis.
Proof. split; [done|]. intros x y z. unfold same_redis. congruence. Qed.
Lemma same_redis_read_only {A} (m : M World A) : read_only m -> respects same_redis m.
Proof. intros H w. unfold same_redis. by rewrite (H w). Qed.
Lemma same_redis_uuid4 : respects same_redis uuid4.
Proof. done. Qed.
Lemma same_redis_insert_row {R} clash get set (row : R) : respects same_redis (insert_row clash get set row).
Proof. intros w. unfold insert_row. by destruct (existsb _ _). Qed.
#[export] Hint Resolve same_redis_preorder same_redis_uuid4 same_redis_insert_row : effects.
#[export] Hint Extern 1 (respects same_redis _) => apply same_redis_read_only; solve [eauto with read_only] : effects.

Lemma same_redis_create_api_key sha org n b e : respects same_redis (IdentityService.create_api_key sha org n b e).
Proof.
  unfold IdentityService.create_api_key, generate_api_key, token_hex, IdentityRepository.create_api_key, insert_fresh. respects_auto.
Qed.
#[export] Hint Resolve same_redis_create_api_key : effects.

(** Whatever the outcome, the code is gone; without a live entry nothing is minted. *)
Lemma consume_code_run sha code p w r w' : consume_code sha code p w = (r, w') ->
  code_entry code w' = None /\
  (live (now w) (code_entry code w) = None -> exists e, r = Err e).
Proof.
  intros H. unfold consume_code in H. erewrite bind_Ok in H; [|apply delete_code_run].
  set (w1 := set_redis _ w) in H.
  assert (H1 : code_entry code w1 = None) by (unfold code_entry; cbn; apply lookup_delete_eq).
  assert (Hr : respects same_redis (
     guard_not ((if live (now w) (code_entry code w) then 1 else 0) =? 0)
       (auth_error "Authorization code is invalid, expired, or already used.") ;;
     _ ← IdentityService.require_membership (cp_user p) (cp_org p);
     name ← _key_name_from_label (cp_label p);
     minted ← IdentityService.create_api_key sha (cp_org p) name (Some (cp_user p)) (pretty (cp_expires_days p) +:+ "d");
     mret {| ex_api_key := minted.2; ex_project_name := cp_project_name p; ex_org := cp_org p;
             ex_user := cp_user p; ex_key_id := k_id minted.1; ex_key_prefix := k_prefix minted.1;
             ex_expires_at := k_expires minted.1 |})).
  { unfold _key_name_from_label. respects_auto. }
  split.
  - specialize (Hr w1). rewrite H in Hr. unfold same_redis in Hr. cbn in Hr. unfold code_entry. by rw Hr.
  - intros Hl. rw Hl in H. injection H as <- _. by eexists.
Qed.

(** ** Concurrent exchanges of one code

    Several clients may have read the code before any of them deletes it.  [attempts]
    runs their second halves in any order, with arbitrary other work in between. *)
Definition succeeded {A} (r : res A) : bool := match r with Ok _ => true | Err _ => false end.

Fixpoint attempts (sha : string -> list N) (code : string) (l : list (CodePayload * (World -> World))) (w : World)
    : list (res Exchanged) :=
  match l with
  | [] => []
  | (p, interference) :: l' =>
      let '(r, w1) := consume_code sha code p w in r :: attempts sha code l' (interference w1)
  end.

(** Work that does not issue this code again. *)
Definition no_reissue (code : string) (f : World -> World) : Prop :=
  forall w, code_entry code w = None -> code_entry code (f w) = None.

Lemma attempts_used_up sha code l w : Forall (fun x => no_reissue code x.2) l -> code_entry code w = None ->
  Forall (fun r => succeeded r = false) (attempts sha code l w).
Proof.
  intros Hl. revert w. induction Hl as [|[p f] l Hf Hl IH]; intros w Hw; cbn [attempts]; [done|].
  destruct (consume_code sha code p w) as [r w1] eqn:E. apply consume_code_run in E as [H1 H2].
  constructor; [|by apply IH, Hf]. destruct H2 as [e ->]; [by rw Hw|done].
Qed.

(** C21: A code mints at most one key.  However many clients have already read a code,
    and whatever else runs between their attempts to consume it, at most one of them
    gets a key, because only the first deletion of the code finds it. *)
Theorem cli_code_single_use (sha : string -> list N) (code : string) (l : list (CodePayload * (World -> World))) (w : World)
  (H : Forall (fun x => no_reissue code x.2) l) :
  (length (select succeeded (attempts sha code l w)) <= 1)%nat.
Proof.
  destruct H as [|[p f] l Hf Hl]; cbn [attempts]; [simpl; lia|].
  destruct (consume_code sha code p w) as [r w1] eqn:E. apply consume_code_run in E as [H1 _].
  pose proof (attempts_used_up sha code l (f w1) Hl (Hf w1 H1)) as Hn. rewrite Forall_forall in Hn.
  set (rs := attempts _ _ _ _) in *.
  change (select succeeded (r :: rs)) with (if succeeded r then r :: select succeeded rs else select succeeded rs).
  rewrite (select_none _ _ Hn). destruct (succeeded r); simpl; lia.
Qed.

(** ** Issue, then exchange *)

Lemma require_membership_db u o w w1 m w' : db w' = db w ->
  IdentityService.require_membership u o w = (Ok m, w1) -> IdentityService.require_membership u o w' = (Ok m, w').
Proof.
  unfold IdentityService.require_membership, IdentityRepository.get_membership, find_one, mbind, M_bind, read_db, gets, lift.
  intros ->. destruct (scalar_one_or_none _) as [[m'|]|e]; cbn; by intros [= ->].
Qed.

Lemma issue_code_Ok q w code ttl w1 : issue_code q w = (Ok (code, ttl), w1) ->
  is_expires_days q = 90 /\ truthy (Some code) = true /\ db w1 = db w /\ now w1 = now w /\
  next_id w1 = N.succ (next_id w) /\
  (exists m, IdentityService.require_membership (is_user q) (is_org q) w = (Ok m, w)) /\
  exists p, code_entry code w1 = Some (p, now w + 120 * second) /\
    cp_user p = is_user q /\ cp_org p = is_org q /\ cp_challenge p = is_challenge q /\
    cp_label p = is_label q /\ cp_expires_days p = 90.
Proof.
  intros H. unfold issue_code in H. checked H G1. checked H G2. checked H G3. look H m Em. look H p Ep.
  apply negb_false_iff, Z.eqb_eq in G3. unfold _ALLOWED_EXPIRES_DAYS in G3.
  destruct_bind H c w2 E2. injection E2 as <- <-. destruct_bind H x w3 E3. injection E3 as _ <-.
  injection H as <- _ <-. split_and!; [done..|by exists m|]. eexists.
  split; [unfold code_entry; cbn -[N.succ]; by rw lookup_insert_eq|]. done.
Qed.

(** Minting succeeds when the organization exists and the digest is new. *)
Lemma create_api_key_run sha org name by_ w : 
  (exists o, o ∈ organizations (db w) /\ o_id o = org) ->
  (forall k, k ∈ api_keys (db w) -> k_hash k <> hash_api_key sha (raw_key_of (next_id w))) ->
  exists k w', IdentityService.create_api_key sha org name by_ "90d" w = (Ok (k, raw_key_of (next_id w)), w') /\
    k_expires k = Some (now w + days 90).
Proof.
  intros (o & Ho & Hid) Hf. unfold IdentityService.create_api_key.
  destruct (IdentityRepository.get_organization org w) as [r w'] eqn:E.
  destruct (get_by_id_run _ _ _ _ _ _ E) as (-> & q & -> & Hq).
  assert (Hsvc : exists o', IdentityService.get_organization org w = (Ok o', w)).
  { unfold IdentityService.get_organization. erewrite bind_Ok by exact E. destruct q as [q|]; [by exists q|].
    by destruct (get_by_id_None _ _ _ _ _ E o Ho). }
  destruct Hsvc as [o' Ho']. erewrite bind_Ok by exact Ho'.
  change (IdentityService.expiration_delta "90d") with (Some (Some (days 90))).
  unfold generate_api_key, token_hex, IdentityRepository.create_api_key, insert_fresh, insert_row, mbind, M_bind, uuid4,
    utcnow, gets. cbn -[N.succ token_bytes hex days existsb].
  destruct (existsb _ (api_keys (db w))) eqn:Ee.
  - apply List.existsb_exists in Ee as (k & Hk%list_elem_of_In & Hc%bool_decide_eq_true). by destruct (Hf k Hk).
  - by do 2 eexists.
Qed.

(** Reading a live code with the verifier of its challenge. *)
Lemma read_code_run sha code v w p e :
  truthy (Some code) = true -> truthy (Some v) = true ->
  code_entry code w = Some (p, e) -> now w < e -> Forall is_byte (sha v) ->
  forall d, cp_challenge p = b64url d -> Forall is_byte d ->
  read_code sha code v w =
    if bool_decide (sha v = d) then (Ok p, w) else (Err (auth_error "PKCE verification failed."), w).
Proof.
  intros Hc Hv Hp He Hb d Hd Hdb. unfold read_code. rw Hc Hv. cbn [andb negb guard_not].
  unfold mbind, M_bind, redis_get, gets. cbn. unfold code_entry in Hp. rw Hp. cbn. rw (proj2 (Z.ltb_lt _ _) He).
  cbn. rw Hd verify_pkce_challenge; [done|done|]. cbn. by case_bool_decide.
Qed.

(** C20: A CLI login works, and only for whoever started it.  After [issue_code] answers,
    the client that knows the verifier of the challenge exchanges the code, at any time
    within its 120 seconds, for a key of the organization the user chose, in the user's
    name, that expires in 90 days; a client with another verifier is refused and the
    code stays usable. *)
Theorem cli_login_roundtrip (sha : string -> list N) (q : Issue) (w w1 : World) (code : string) (ttl t : Z) (v v' : string)
  (Hissue : issue_code q w = (Ok (code, ttl), w1))
  (Ht : now w <= t < now w + 120 * second)
  (Hv : truthy (Some v) = true) (Hv' : truthy (Some v') = true)
  (Hbytes : forall s, Forall is_byte (sha s))
  (Hc : is_challenge q = b64url (sha v))
  (Horg : exists o, o ∈ organizations (db w) /\ o_id o = is_org q)
  (Hfresh : forall k, k ∈ api_keys (db w) -> k_hash k <> hash_api_key sha (raw_key_of (next_id w1))) :
  (exists x w2 k, exchange sha code v (set_now t w1) = (Ok x, w2) /\
     ex_org x = is_org q /\ ex_user x = is_user q /\ ex_expires_at x = Some (t + days 90) /\
     k ∈ api_keys (db w2) /\ k_id k = ex_key_id x /\ k_hash k = hash_api_key sha (ex_api_key x) /\
     k_org k = is_org q /\ k_created_by k = Some (is_user q) /\ k_active k = true) /\
  (sha v' <> sha v -> exists e, exchange sha code v' (set_now t w1) = (Err e, set_now t w1)).
Proof.
  apply issue_code_Ok in Hissue as (_ & Hcode & Hdb & Hnow & Hid & (m & Hm) & p & Hp & Hpu & Hpo & Hpc & Hpl & Hpd).
  set (w2 := set_now t w1).
  assert (Hread : forall s, truthy (Some s) = true -> read_code sha code s w2 =
            if bool_decide (sha s = sha v) then (Ok p, w2) else (Err (auth_error "PKCE verification failed."), w2)).
  { intros s Hs. apply (read_code_run sha code s w2 p (now w + 120 * second)); try done; [cbn; lia|by rw Hpc]. }
  split.
  - unfold exchange. erewrite bind_Ok by (rw (Hread v Hv) bool_decide_eq_true_2; done).
    unfold consume_code. erewrite bind_Ok by apply delete_code_run.
    change (code_entry code w2) with (code_entry code w1). rw Hp. cbn [live].
    rw (proj2 (Z.ltb_lt (now w2) _)); [cbn; lia|]. cbn [Z.eqb guard_not].
    set (w3 := set_redis _ w2). erewrite bind_Ok by done.
    erewrite bind_Ok by (rw Hpu Hpo; apply (require_membership_db _ _ w w m w3); [exact Hdb|exact Hm]).
    erewrite bind_Ok by done. rw Hpd Hpo. change (pretty 90 +:+ "d")%string with "90d"%string.
    destruct (create_api_key_run sha (is_org q)
      (String.substring 0 _MAX_KEY_NAME_LEN ("pandaprobe-cli" +:+ em_dash +:+
         (let l := strip (if truthy (Some (cp_label p)) then cp_label p else "cli") in if truthy (Some l) then l else "cli"%string)
         +:+ em_dash +:+ strftime_date (now w3))) (Some (cp_user p)) w3) as (k & w4 & Hk & Hexp).
    + change (organizations (db w3)) with (organizations (db w1)). by rw Hdb.
    + change (api_keys (db w3)) with (api_keys (db w1)). by rw Hdb.
    + erewrite bind_Ok by exact Hk. do 2 eexists. exists k. split; [reflexivity|]. cbn.
      apply create_api_key_Ok in Hk as (Ho & Hh & Ha & Hb & _ & _ & _ & _ & Hdb4 & _). rw Hdb4 Hb Hpu.
      split_and!; try done. cbn. apply elem_of_app. right. by left.
  - intros Hne. unfold exchange. eexists. erewrite bind_Err; [reflexivity|]. by rw (Hread v' Hv') bool_decide_eq_false_2.
Qed.

(** ** Witnesses *)

Lemma toy_digest_bytes s : Forall is_byte (toy_digest s).
Proof.
  unfold toy_digest. apply Forall_forall. intros n Hn. apply list_elem_of_fmap in Hn as (c & -> & _).
  apply N_ascii_bounded.
Qed.

Definition alice_login : Issue :=
  {| is_user := 1; is_org := 7; is_project := 20; is_challenge := b64url (toy_digest "verifier"); is_method := "S256";
     is_label := " laptop "; is_expires_days := 90 |}.

Definition login_payload : CodePayload :=
  {| cp_user := 1; cp_org := 7; cp_project := 20; cp_project_name := "onboarding";
     cp_challenge := b64url (toy_digest "verifier"); cp_label := "laptop"; cp_expires_days := 90 |}.
Definition coded_world : World :=
  set_redis (set_codes {["abc"%string := (login_payload, days 20 + 60 * second)]} empty_redis) (tenant_world []).

(** Two clients consume one code: the first gets its key, the second does not. *)
Lemma cli_code_single_use_witness :
  let l := [(login_payload, set_now (days 20 + second)); (login_payload, fun w => w)] in
  Forall (fun x => no_reissue "abc" x.2) l /\
  List.map succeeded (attempts toy_digest "abc" l coded_world) = [true; false] /\
  (length (select succeeded (attempts toy_digest "abc" l coded_world)) <= 1)%nat.
Proof.
  cbv zeta.
  assert (H : Forall (fun x : CodePayload * (World -> World) => no_reissue "abc" x.2)
    [(login_payload, set_now (days 20 + second)); (login_payload, fun w => w)]).
  { repeat constructor; intros w Hw; exact Hw. }
  split; [exact H|]. split; [vm_compute; reflexivity|].
  exact (cli_code_single_use toy_digest "abc" _ coded_world H).
Defined.

Lemma cli_login_roundtrip_witness : exists code ttl w1,
  issue_code alice_login (tenant_world []) = (Ok (code, ttl), w1) /\
  exists x w2 k, exchange toy_digest code "verifier" (set_now (days 20 + 90 * second) w1) = (Ok x, w2) /\
    ex_org x = 7%N /\ k ∈ api_keys (db w2) /\ k_hash k = hash_api_key toy_digest (ex_api_key x).
Proof.
  destruct (issue_code alice_login (tenant_world [])) as [[[code ttl]|e] w1] eqn:E;
    [|exfalso; vm_compute in E; discriminate E].
  exists code, ttl, w1. split; [reflexivity|].
  destruct (cli_login_roundtrip toy_digest alice_login (tenant_world []) w1 code ttl (days 20 + 90 * second) "verifier" "guess" E)
    as [(x & w2 & k & Hx & Ho & _ & _ & Hk & _ & Hh & _) _].
  - vm_compute. split; [discriminate|reflexivity].
  - reflexivity.
  - reflexivity.
  - exact toy_digest_bytes.
  - reflexivity.
  - exists acme. split; [by left|reflexivity].
  - intros k Hk. inversion Hk.
  - exists x, w2, k. auto.
Defined.
