(* ===== verification/IdentitySystem.v ===== *)
(** * The identity system over time

    Requests of any users and keys, in any order, with housekeeping and the passing of
    time: what every sequence of them preserves.  Each request runs in its own
    database session, committed on success and rolled back on an error. *)
From stdpp Require Import base gmap strings list pretty.
From Stdlib Require Import ZArith Lia ssreflect.
From S2P Require Import Prelude Constants Entities Float64 Json Evals Telemetry ProjectEvals World Invariant BillingRepo Locks Usage ReportRepo Reporting Billing Security IdentityRepo Identity ApiAuth CliAuth Routes Access IdentitySpec AuthFacts.

#[local] Open Scope Z_scope.

(** ** Requests *)

Section requests.
Context (sha256 : string -> list N) (provider : Provider).

(** A management request: resolve the caller, then serve, in one session. *)
Definition management_request (r : Request) (c : Call) : M World unit :=
  ctx ← get_api_context provider r;
  serve sha256 ctx c.

Lemma session_management_request r c : respects session (management_request r c).
Proof.
  unfold management_request. apply respects_bind; [typeclasses eauto|apply session_get_api_context|].
  intros ctx. apply session_serve.
Qed.

Lemma get_api_context_moves keep r w ctx w' : keep Login ->
  get_api_context provider r w = (Ok ctx, w') -> moves keep w w'.
Proof.
  intros Hk H. unfold get_api_context in H. look H s Es. look H t Et.
  by apply (resolve_jwt_Ok provider keep) in H as [H _].
Qed.

Lemma management_request_moves keep r c w w' : keep Login -> keep (Calls c) ->
  management_request r c w = (Ok tt, w') -> moves keep w w'.
Proof.
  intros Hl Hc H. unfold management_request in H. destruct_bind H ctx w1 E1.
  apply (get_api_context_moves keep) in E1; [|done]. etransitivity; [exact E1|].
  pose proof (session_run _ _ _ _ (session_serve sha256 ctx c) H) as S.
  apply serve_call_moves in H as [H|(u & _ & H)]; [exact (moves_same keep _ _ S H)|exact (moves_one keep _ _ _ _ S Hc H)].
Qed.

Lemma data_plane_moves keep r w ctx w' : keep Login -> (forall org, keep (DataPlane org)) ->
  get_data_plane_context sha256 provider r w = (Ok ctx, w') -> moves keep w w'.
Proof.
  intros Hl Hd H. unfold get_data_plane_context in H.
  assert (Hj : data_plane_jwt provider r w = (Ok ctx, w') -> moves keep w w').
  { unfold data_plane_jwt. destruct (rq_bearer r) as [t|]; intros E; [by apply (resolve_jwt_Ok provider keep) in E as [E _]|].
    look E s Es. checked E G. by apply (resolve_jwt_Ok provider keep) in E as [E _]. }
  destruct (rq_api_key r) as [[|c key]|]; [by apply Hj| |by apply Hj].
  by apply (resolve_api_key_Ok sha256 keep) in H as [H _].
Qed.

(** The exchange of a CLI code writes one key of the code's organization. *)
Lemma session_exchange code v : respects session (exchange sha256 code v).
Proof.
  unfold exchange, read_code, consume_code, delete_code, _key_name_from_label, IdentityService.create_api_key,
    generate_api_key, token_hex, IdentityRepository.create_api_key, redis_get. respects_auto.
Qed.

Lemma exchange_moves keep code v w x w' : (forall org, keep (DataPlane org)) ->
  exchange sha256 code v w = (Ok x, w') -> moves keep w w'.
Proof.
  intros Hk H. pose proof (session_run _ _ _ _ (session_exchange code v) H) as S.
  unfold exchange in H. destruct_bind H p w1 E1.
  assert (read_only (read_code sha256 code v)) as Hr by (unfold read_code, redis_get; read_only_auto).
  pose proof (Hr w) as Hw. rw E1 in Hw. cbn in Hw. subst w1. clear Hr E1.
  unfold consume_code, _key_name_from_label in H. destruct_bind H n w1 E1. injection E1 as _ <-. checked H G.
  look H m Em. look H name En. destruct_bind H minted w2 E2. destruct minted as [k raw]. injection H as _ <-.
  apply create_api_key_Ok in E2 as (Ho & _ & _ & _ & _ & _ & Hid & Hc & Hdb & _ & _).
  refine (moves_one keep 0%N (DataPlane (cp_org p)) _ _ S (Hk _) _). unfold moved. rw Hdb.
  apply (ch_keys _ _ _ _ _ (cp_org p)); [by left| |intros _; by apply others_app].
  by apply stays_ok_insert; [apply APIKeyModel_clash_sym| |].
Qed.
End requests.

(** [expire_stale_invitations_task], an exception being reported in its answer. *)
Definition expire_stale_invitations_task : M World (option Z) :=
  try_except
    (count ← with_session (count ← InvitationRepository.expire_stale_invitations; commit ;; mret count);
     mret (Some count))
    (fun _ => mret None).

(** ** What a session leaves *)

(** The committed state after a request: the request's own, or the one before. *)
Lemma get_db_session_run {A} (m : M World A) w : respects session m ->
  exists r w1, m (set_db (durable w) w) = (r, w1) /\ session w w1 /\
    let w' := (get_db_session m w).2 in
    db w' = durable w' /\ durable w' = match r with Ok _ => db w1 | Err _ => durable w end /\
    now w' = now w /\ next_id w' = next_id w1 /\ stripe_log w' = stripe_log w1.
Proof.
  intros Hm. unfold get_db_session, rollback, commit, try_finally, try_except, raise.
  cbv [mbind M_bind modify mret M_ret].
  specialize (Hm (set_db (durable w) w)). destruct (m (set_db (durable w) w)) as [r w1].
  destruct Hm as (H1 & H2 & H3 & H4). exists r, w1. destruct r; split_and!; done.
Qed.

Lemma expire_run w : let w' := (expire_stale_invitations_task w).2 in
  now w' = now w /\ next_id w' = next_id w /\
  durable w' = set_invitations (update_where (InvitationRepository.stale (now w))
    (InvitationRepository.set_invitation_status IEXPIRED) (invitations (durable w))) (durable w).
Proof. done. Qed.

(** ** Steps *)

Section system.
Context (sha256 : string -> list N) (provider : Provider).
(** The calls that may happen, and the instants the clock may reach. *)
Context (may_call : Call -> Prop) (may_tick : Z -> DB -> Prop).

Inductive step (w : World) : World -> Prop :=
  | step_management r c : may_call c ->
      step w (get_db_session (management_request sha256 provider r c) w).2
  | step_data_plane r :
      step w (get_db_session (get_data_plane_context sha256 provider r) w).2
  | step_exchange code verifier :
      step w (get_db_session (exchange sha256 code verifier) w).2
  | step_expire : step w (expire_stale_invitations_task w).2
  | step_tick t : now w <= t -> may_tick t (durable w) -> step w (set_now t w).

Definition kept (a : Action) : Prop := match a with Calls c => may_call c | _ => True end.

(** A property that changes and permitted ticks preserve holds of every committed state. *)
Lemma steps_stable (P : Z -> N -> DB -> Prop) w w' : stable kept P ->
  (forall t t' n d, t <= t' -> may_tick t' d -> P t n d -> P t' n d) ->
  rtc step w w' -> P (now w) (next_id w) (durable w) -> P (now w') (next_id w') (durable w').
Proof.
  intros HP Ht H. induction H as [|x y z Hxy _ IH]; [done|]. intros Hx. apply IH. clear IH.
  assert (Hreq : forall A (m : M World A), respects session m ->
    (forall a w0 w1, m w0 = (Ok a, w1) -> moves kept w0 w1) ->
    P (now (get_db_session m x).2) (next_id (get_db_session m x).2) (durable (get_db_session m x).2)).
  { intros A m Hs Hm. destruct (get_db_session_run m x Hs) as (r & w1 & Em & (_ & _ & Hn & _) & _ & -> & -> & -> & _).
    destruct r as [a|e]; [|by apply (proj1 HP _ (next_id x))].
    pose proof (session_run _ _ _ _ Hs Em) as (_ & Hnow & _ & _). apply Hm in Em.
    apply (moves_stable kept P) in Em; [|done|done]. by rw Hnow in Em. }
  destruct Hxy as [r c Hc|r|code v| |t Hle Hok].
  - apply Hreq; [apply session_management_request|]. intros [] w0 w1 E.
    by apply (management_request_moves sha256 provider kept r c).
  - apply Hreq; [apply session_get_data_plane_context|]. intros ctx w0 w1 E.
    by apply (data_plane_moves sha256 provider kept r w0 ctx w1).
  - apply Hreq; [apply session_exchange|]. intros y0 w0 w1 E. by apply (exchange_moves sha256 kept code v w0 y0 w1).
  - destruct (expire_run x) as (-> & -> & ->).
    eapply (proj2 HP 0%N _ _ _ Housekeeping); [reflexivity|done|apply ch_expire|done].
  - exact (Ht (now x) t (next_id x) (durable x) Hle Hok Hx).
Qed.
End system.

(** ** Queries and changes *)

Lemma count_nonneg {R} p (tb : list R) : 0 <= count p tb.
Proof. unfold count. lia. Qed.
Lemma count_cons {R} p (r : R) tb : count p (r :: tb) = (if p r then 1 else 0) + count p tb.
Proof.
  unfold count. change (select p (r :: tb)) with (if p r then r :: select p tb else select p tb).
  destruct (p r); cbn [length]; lia.
Qed.

(** A query that singles out one row, when that row changes. *)
Lemma count_update_one {R} p q f (tb : list R) x : select q tb = [x] ->
  count p (update_where q f tb) = count p tb - (if p x then 1 else 0) + (if p (f x) then 1 else 0).
Proof.
  induction tb as [|r tb IH]; [done|]. cbn [select List.filter update_where List.map].
  fold (select q tb) (update_where q f tb). destruct (q r) eqn:Hq.
  - intros [= -> Hs]. rw update_where_none; [|rw !count_cons; lia]. by apply select_nil_iff.
  - intros Hs. rw !count_cons IH //. lia.
Qed.

Lemma count_update_le {R} p q f (tb : list R) : (forall r, r ∈ tb -> q r = true -> p (f r) = true -> p r = true) ->
  count p (update_where q f tb) <= count p tb.
Proof.
  induction tb as [|r tb IH]; intros H; [done|]. cbn [update_where List.map]. fold (update_where q f tb). rw !count_cons.
  assert (IH' : count p (update_where q f tb) <= count p tb) by (apply IH; intros r' Hr'; apply H; by right).
  destruct (q r) eqn:Hq; [|lia]. destruct (p (f r)) eqn:Hp; [rw (H r); [by left|done|done|lia]|]. destruct (p r); lia.
Qed.

Lemma count_delete_le {R} p q (tb : list R) : count p (delete_where q tb) <= count p tb.
Proof.
  induction tb as [|r tb IH]; [done|]. cbn [delete_where List.filter]. fold (delete_where q tb). rw count_cons.
  destruct (q r); cbn [negb]; [|rw count_cons]; destruct (p r); lia.
Qed.

(** Rows outside a deletion, or outside an update. *)
Lemma elem_of_update_keep {R} p f (tb : list R) r : r ∈ tb -> p r = false -> r ∈ update_where p f tb.
Proof. intros Hr Hp. apply elem_of_update_where. exists r. by rw Hp. Qed.

(** The only row of a query. *)
Lemma select_one_in {R} p (tb : list R) x r : select p tb = [x] -> r ∈ tb -> p r = true -> r = x.
Proof.
  intros Hs Hr Hp. assert (Hin : r ∈ select p tb) by (by apply elem_of_select). rw Hs in Hin.
  by apply list_elem_of_singleton in Hin.
Qed.

(** ** Ownership *)

Definition spares (org : N) (c : Call) : Prop := c <> OnOrg org DeleteOrg.
Definition any_time (_ : Z) (_ : DB) : Prop := True.

Definition owns (org : N) (m : Membership) : Prop := m_org m = org /\ m_role m = OWNER.

Lemma spared_delete org o : kept (spares org) (Calls (OnOrg o DeleteOrg)) -> o <> org.
Proof. intros H ->. by apply H. Qed.

Lemma owner_stable org m : owns org m -> stable (kept (spares org)) (fun _ _ d => m ∈ memberships d).
Proof.
  intros [Ho Hr]. split; [done|]. intros u t n n' a d d' _ Hk Hch Hm. destruct Hch; try exact Hm; cbn.
  - apply elem_of_app. by left.
  - apply spared_delete in Hk. apply elem_of_delete_where. split; [done|]. apply bool_decide_eq_false. congruence.
  - apply elem_of_app. by left.
  - apply elem_of_update_keep; [done|]. destruct (IdentityRepository.of_member target org0 m) eqn:E; [|done].
    by rewrite (select_one_in _ _ _ _ H2 Hm E) in Hr.
  - apply elem_of_delete_where. split; [done|]. destruct (IdentityRepository.of_member target org0 m) eqn:E; [|done].
    by rewrite (select_one_in _ _ _ _ H1 Hm E) in Hr.
Qed.

(** The organization exists, has no owner, and nobody is invited as one. *)
Definition ownerless (org : N) (n : N) (d : DB) : Prop :=
  (org < n)%N /\ (forall m, m ∈ memberships d -> ~ owns org m) /\ (forall i, i ∈ invitations d -> i_role i <> OWNER).

Lemma holds_owner_ownerless u org n d : ownerless org n d -> ~ holds d u org is_owner.
Proof.
  intros (_ & H & _) (m & Hm & Ho & Hr). apply (H m Hm). apply andb_prop in Ho as [_ Ho%bool_decide_eq_true].
  split; [done|]. unfold is_owner in Hr. by apply bool_decide_eq_true in Hr.
Qed.

Lemma update_status_roles i s tb : (forall i, i ∈ tb -> i_role i <> OWNER) ->
  forall j, j ∈ update_where i (InvitationRepository.set_invitation_status s) tb -> i_role j <> OWNER.
Proof. intros H j (k & Hk & ->)%elem_of_update_where. destruct (i k); exact (H k Hk). Qed.

Lemma ownerless_stable org : stable (kept (spares org)) (fun _ n d => ownerless org n d).
Proof.
  split; [intros t n n' d Hn (H1 & H2); split; [lia|done]|].
  intros u t n n' a d d' Hn Hk Hch Hown. pose proof Hown as (H1 & H2 & H3).
  assert (H1' : (org < n')%N) by lia.
  destruct Hch; (split; [done|split; cbn]); try exact H2; try exact H3; try (by apply update_status_roles).
  - intros m' [Hm| ->%list_elem_of_singleton]%elem_of_app Hm'; [exact (H2 m' Hm Hm')|]. destruct Hm' as [Ho _]. lia.
  - intros m' [Hm _]%elem_of_delete_where. by apply H2.
  - intros i [Hi _]%elem_of_delete_where. by apply H3.
  - intros i' [Hi| ->%list_elem_of_singleton]%elem_of_app; [by apply H3|done].
  - intros m' [Hm| ->%list_elem_of_singleton]%elem_of_app Hm'; [exact (H2 m' Hm Hm')|]. destruct Hm' as [Ho Hr].
    destruct H as [Hsel _]. apply (H3 i); [|congruence]. apply (elem_of_select (fun r => bool_decide (i_id r = i_id i))).
    rewrite Hsel. by left.
  - intros m' (m0 & Hm0 & ->)%elem_of_update_where. destruct (IdentityRepository.of_member target org0 m0) eqn:E; [|by apply H2].
    intros [Ho _]. cbn in Ho. apply andb_prop in E as [_ E%bool_decide_eq_true].
    apply (holds_owner_ownerless u org n d Hown). by replace org with org0 by congruence.
  - intros m' [Hm _]%elem_of_delete_where. by apply H2.
Qed.

(** C16: Ownership is neither lost nor seized.  Over any history of requests (log-ins,
    invitations, role changes, removals, projects, keys, data-plane and CLI calls,
    housekeeping) in which the organization is not deleted, every OWNER of it stays
    its OWNER; and an organization without an owner, none being invited as one,
    never gets one: only an owner makes an owner. *)
Theorem ownership_is_stable (sha256 : string -> list N) (provider : Provider) (org : N) (w w' : World)
  (H : rtc (step sha256 provider (spares org) any_time) w w') :
  (forall m, m ∈ memberships (durable w) -> owns org m -> m ∈ memberships (durable w')) /\
  (ownerless org (next_id w) (durable w) -> ownerless org (next_id w') (durable w')).
Proof.
  split.
  - intros m Hm Ho. by apply (steps_stable sha256 provider _ _ _ w w' (owner_stable org m Ho) (fun _ _ _ _ _ _ HP => HP) H).
  - by apply (steps_stable sha256 provider _ _ _ w w' (ownerless_stable org) (fun _ _ _ _ _ _ HP => HP) H).
Qed.

(** ** Invitations *)

Definition closed_as (i : Invitation) (s : InvitationStatus) : Invitation :=
  InvitationRepository.set_invitation_status s i.

(** What became of an invitation: still there as it was, or, when it was pending,
    closed with nothing but its status changed. *)
Definition outcome_of (i : Invitation) (d : DB) : Prop :=
  i ∈ invitations d \/ (i_status i = IPENDING /\ exists s, s <> IPENDING /\ closed_as i s ∈ invitations d).

(** An update that only closes pending invitations. *)
Lemma outcome_update i p s tb d d' : s <> IPENDING -> invitations d = tb ->
  invitations d' = update_where p (InvitationRepository.set_invitation_status s) tb ->
  (forall r, r ∈ tb -> p r = true -> i_status r = IPENDING) -> outcome_of i d -> outcome_of i d'.
Proof.
  intros Hs Ht Ht' Hp. unfold outcome_of. rw Ht Ht'. intros [Hi|(Hpend & s' & Hs' & Hi)].
  - destruct (p i) eqn:E; [|left; by apply elem_of_update_keep]. right. split; [by apply Hp|].
    exists s. split; [done|]. apply elem_of_update_where. exists i. by rw E.
  - right. split; [done|]. exists s'. split; [done|]. apply elem_of_update_keep; [done|].
    destruct (p (closed_as i s')) eqn:E; [|done]. by apply Hp in E.
Qed.

Lemma pending_one_only d i r : pending_one d i -> r ∈ invitations d -> bool_decide (i_id r = i_id i) = true ->
  i_status r = IPENDING.
Proof. intros [Hs Hp] Hr E. by rewrite (select_one_in _ _ _ _ Hs Hr E). Qed.

Lemma stale_pending t r : InvitationRepository.stale t r = true -> i_status r = IPENDING.
Proof. by intros [H%bool_decide_eq_true _]%andb_prop. Qed.

Lemma outcome_stable i : stable (kept (spares (i_org i))) (fun _ _ d => outcome_of i d).
Proof.
  split; [done|]. intros u t n n' a d d' _ Hk Hch Hi. destruct Hch; try exact Hi.
  - apply spared_delete in Hk.
    assert (Hkeep : forall j, i_org j = i_org i -> j ∈ invitations d ->
              j ∈ invitations (IdentityRepository.cascade_organization org d)).
    { intros j Hj Hin. cbn. apply elem_of_delete_where. split; [done|]. apply bool_decide_eq_false. congruence. }
    destruct Hi as [Hi|(Hp & s & Hs & Hi)]; [left; by apply Hkeep|right]. split; [done|]. exists s. split; [done|by apply Hkeep].
  - destruct Hi as [Hi|(Hp & s & Hs & Hi)]; [left; cbn; apply elem_of_app; by left|right].
    split; [done|]. exists s. split; [done|]. cbn. apply elem_of_app. by left.
  - eapply (outcome_update _ _ IACCEPTED); [done|reflexivity|reflexivity| |exact Hi]. intros r. by apply pending_one_only.
  - eapply (outcome_update _ _ IDECLINED); [done|reflexivity|reflexivity| |exact Hi]. intros r. by apply pending_one_only.
  - eapply (outcome_update _ _ IREVOKED); [done|reflexivity|reflexivity| |exact Hi]. intros r. by apply pending_one_only.
  - eapply (outcome_update _ _ IEXPIRED); [done|reflexivity|reflexivity| |exact Hi]. intros r _. by apply stale_pending.
Qed.

(** C22: An invitation is decided once.  Over any history of requests in which its
    organization is not deleted, an invitation keeps its address, role, organization
    and dates; a pending one may become accepted, declined, revoked or expired, and a
    decided one never changes again. *)
Theorem invitation_decided_once (sha256 : string -> list N) (provider : Provider) (i : Invitation) (w w' : World)
  (H : rtc (step sha256 provider (spares (i_org i)) any_time) w w') (Hi : i ∈ invitations (durable w)) :
  outcome_of i (durable w') /\ (i_status i <> IPENDING -> i ∈ invitations (durable w')).
Proof.
  assert (Ho : outcome_of i (durable w')).
  { apply (steps_stable sha256 provider _ _ _ w w' (outcome_stable i) (fun _ _ _ _ _ _ HP => HP) H). by left. }
  split; [done|]. intros Hs. by destruct Ho as [Ho|[Hp _]].
Qed.

(** ** Seats *)

(** No pending invitation expires at this very instant: then it neither counts
    against the plan nor may it still be accepted. *)
Definition no_tie (t : Z) (d : DB) : Prop := forall i, i ∈ invitations d -> i_status i = IPENDING -> i_expires i <> t.

Definition seats_ok (org : N) (max : Z) (t : Z) (n : N) (d : DB) : Prop :=
  (org < n)%N /\ seat_limit org d = Some max /\ seats t org d <= max /\ no_tie t d.

Lemma pending_later t t' org i : t <= t' ->
  InvitationRepository.pending_for t' org i = true -> InvitationRepository.pending_for t org i = true.
Proof.
  intros Ht. unfold InvitationRepository.pending_for, InvitationRepository.live_pending.
  rw !andb_true_iff !Z.ltb_lt. intros (?&?&?). split_and!; [done..|lia].
Qed.

Lemma seats_later t t' org d : t <= t' -> seats t' org d <= seats t org d.
Proof.
  intros Ht. unfold seats. cut (count (InvitationRepository.pending_for t' org) (invitations d) <=
    count (InvitationRepository.pending_for t org) (invitations d)); [lia|].
  induction (invitations d) as [|i l IH]; [done|]. rw !count_cons.
  destruct (InvitationRepository.pending_for t' org i) eqn:E; [rw (pending_later t t'); [done|done|lia]|].
  destruct (InvitationRepository.pending_for t org i); lia.
Qed.

Lemma no_tie_update t p s d d' : s <> IPENDING ->
  invitations d' = update_where p (InvitationRepository.set_invitation_status s) (invitations d) -> no_tie t d -> no_tie t d'.
Proof.
  intros Hs Hd' H i. rw Hd'. intros (j & Hj & ->)%elem_of_update_where. destruct (p j); [done|by apply H].
Qed.

(** Closing an invitation frees its seat, if it held one. *)
Lemma close_seat t org d i s : s <> IPENDING -> pending_one d i ->
  count (InvitationRepository.pending_for t org) (invitations (close_invitation i s d)) =
  count (InvitationRepository.pending_for t org) (invitations d) - (if InvitationRepository.pending_for t org i then 1 else 0).
Proof.
  intros Hs [Hsel _]. cbn. rw (count_update_one _ _ _ _ i Hsel).
  replace (InvitationRepository.pending_for t org (InvitationRepository.set_invitation_status s i)) with false; [lia|].
  unfold InvitationRepository.pending_for, InvitationRepository.live_pending. cbn. rw (bool_decide_eq_false_2 (s = IPENDING)); [done|].
  cbn. by rw andb_false_r.
Qed.

Lemma expire_seats t org d : count (InvitationRepository.pending_for t org)
    (update_where (InvitationRepository.stale t) (InvitationRepository.set_invitation_status IEXPIRED) (invitations d)) <=
  count (InvitationRepository.pending_for t org) (invitations d).
Proof. apply count_update_le. intros r _ _. unfold InvitationRepository.pending_for. cbn. by rw andb_false_r. Qed.

(** The tables the seats depend on. *)
Lemma seats_ok_change org max t n n' d d' : (n <= n')%N ->
  select (by_org org) (subscriptions d') = select (by_org org) (subscriptions d) ->
  seats t org d' <= seats t org d -> (no_tie t d -> no_tie t d') -> seats_ok org max t n d -> seats_ok org max t n' d'.
Proof.
  intros Hn Hs Hseats Htie (H1 & H2 & H3 & H4). unfold seat_limit in H2. split_and!; [lia| |lia|auto].
  unfold seat_limit. by rw Hs.
Qed.

Lemma seats_new_org t org d o m s ur p : o_id o <> org -> m_org m = o_id o ->
  seats t org (set_projects (projects d ++ [p]) (set_usage_records (usage_records d ++ [ur])
        (set_subscriptions (subscriptions d ++ [s]) (set_memberships (memberships d ++ [m])
          (set_organizations (organizations d ++ [o]) d))))) = seats t org d.
Proof.
  intros Ho Hm. unfold seats. cbn. rw count_app. unfold member_of at 2. rw Hm bool_decide_eq_false_2; [done|cbn; lia].
Qed.

Lemma seats_delete_org t org o d : o <> org -> seats t org (IdentityRepository.cascade_organization o d) = seats t org d.
Proof.
  intros Ho. unfold seats, count. cbn. f_equal; do 2 f_equal; apply select_delete_where; intros r Hr.
  - unfold member_of in Hr. apply bool_decide_eq_true in Hr. apply bool_decide_eq_false. congruence.
  - apply andb_prop in Hr as [Hr%bool_decide_eq_true _]. apply bool_decide_eq_false. congruence.
Qed.

(** Accepting a live invitation hands its seat to the new member. *)
Lemma seats_accept t org d i m : pending_one d i -> t < i_expires i -> m_org m = i_org i ->
  seats t org (close_invitation i IACCEPTED (set_memberships (memberships d ++ [m]) d)) = seats t org d.
Proof.
  intros Hp Ht Hm. unfold seats.
  change (invitations (close_invitation i IACCEPTED (set_memberships (memberships d ++ [m]) d)))
    with (invitations (close_invitation i IACCEPTED d)). rw close_seat; [done|done|]. cbn. rw count_app.
  unfold member_of at 2. rw Hm. unfold InvitationRepository.pending_for at 2, InvitationRepository.live_pending.
  destruct Hp as [_ Hp]. rw Hp (proj2 (Z.ltb_lt _ _) Ht). cbn. rw andb_true_r. rw (bool_decide_eq_true_2 (IPENDING = IPENDING)); [done|]. destruct (bool_decide (i_org i = org)); cbn; lia.
Qed.

Lemma seats_ok_stable org max : stable (kept (spares org)) (seats_ok org max).
Proof.
  split; [intros t n n' d Hn (H1 & H2); split; [lia|done]|].
  intros u t n n' a d d' Hn Hk Hch Hok. pose proof Hok as (Hlt & Hlim & Hseats & Htie).
  destruct Hch; try exact (seats_ok_change org max t n n' d _ Hn eq_refl (Z.le_refl _) (fun H => H) Hok).
  - apply (seats_ok_change org max t n n' d); [done| |rw seats_new_org; [lia|done|lia]|done|done].
    change (select (by_org org) (subscriptions d ++ [s]) = select (by_org org) (subscriptions d)).
    rw select_app (select_none (by_org org) [s]); [|by rw app_nil_r].
    intros r ->%list_elem_of_singleton. apply bool_decide_eq_false. lia.
  - apply spared_delete in Hk. apply (seats_ok_change org max t n n' d); [done| |rw seats_delete_org; [done|lia]| |done].
    + cbn. apply select_delete_where. intros s Hs. apply bool_decide_eq_true in Hs. apply bool_decide_eq_false. congruence.
    + intros Hno i [Hi _]%elem_of_delete_where. by apply Hno.
  - split_and!; [lia|done| |].
    + unfold seats. cbn. rw count_app. destruct (InvitationRepository.pending_for t org i) eqn:E; [|unfold seats in Hseats; lia].
      apply andb_prop in E as [E%bool_decide_eq_true _]. replace org0 with org in * by congruence. specialize (H5 max Hlim). unfold seats in H5. lia.
    + intros j [Hj| ->%list_elem_of_singleton]%elem_of_app Hp; [by apply Htie|]. rw H4. unfold IdentityService.INVITATION_TTL, days, second. lia.
  - destruct H0 as [_ Hexp]. assert (t <> i_expires i).
    { intros ->. destruct H as [Hsel Hp]. eapply Htie; [|exact Hp|done].
      apply (elem_of_select (fun r => bool_decide (i_id r = i_id i))). rewrite Hsel. by left. }
    apply (seats_ok_change org max t n n' d); [done|done|rw seats_accept; [done|lia|done|lia]| |done].
    by apply (no_tie_update t (fun r => bool_decide (i_id r = i_id i)) IACCEPTED).
  - apply (seats_ok_change org max t n n' d); [done|done| | |done].
    + unfold seats. rw close_seat; [done|done|]. cbn. destruct (InvitationRepository.pending_for t org i); lia.
    + by apply (no_tie_update t (fun r => bool_decide (i_id r = i_id i)) IDECLINED).
  - apply (seats_ok_change org max t n n' d); [done|done| | |done].
    + unfold seats. rw close_seat; [done|done|]. cbn. destruct (InvitationRepository.pending_for t org i); lia.
    + by apply (no_tie_update t (fun r => bool_decide (i_id r = i_id i)) IREVOKED).
  - apply (seats_ok_change org max t n n' d); [done|done| |done|done]. unfold seats. cbn.
    pose proof (count_update_le (member_of org) (IdentityRepository.of_member target org0)
      (IdentityRepository.set_role role) (memberships d) (fun _ _ _ H => H)). lia.
  - apply (seats_ok_change org max t n n' d); [done|done| |done|done]. unfold seats. cbn.
    pose proof (count_delete_le (member_of org) (IdentityRepository.of_member target org0) (memberships d)). lia.
  - apply (seats_ok_change org max t n n' d); [done|done| | |done].
    + unfold seats. cbn. pose proof (expire_seats t org d). lia.
    + by apply (no_tie_update t (InvitationRepository.stale t) IEXPIRED).
Qed.

(** C19: The member quota holds.  Over any history of requests in which the
    organization's plan does not change and no pending invitation expires at the
    very instant a request runs, the members and the live pending invitations of
    an organization never exceed the plan's limit: inviting checks the sum, and accepting an
    invitation takes the seat it reserved. *)
Theorem seats_within_plan (sha256 : string -> list N) (provider : Provider) (org : N) (max : Z) (w w' : World)
  (H : rtc (step sha256 provider (spares org) no_tie) w w')
  (Hok : seats_ok org max (now w) (next_id w) (durable w)) :
  seat_limit org (durable w') = Some max /\ seats (now w') org (durable w') <= max.
Proof.
  apply (steps_stable sha256 provider _ _ (seats_ok org max) w w' (seats_ok_stable org max)) in H; [|clear|done].
  - by destruct H as (_ & H2 & H3 & _).
  - intros t t' n d Ht Htie (H1 & H2 & H3 & _). split_and!; [done|done|pose proof (seats_later t t' org d Ht); lia|done].
Qed.

(** ** Tenants *)

(** The rows of an organization: its reports are those of its usage records. *)
Definition usage_ids (org : N) (d : DB) : list N :=
  List.map ur_id (select (fun u => bool_decide (ur_org u = org)) (usage_records d)).
Definition rows_of {R} (owner : R -> N) (org : N) (t : list R) : list R := select (fun r => bool_decide (owner r = org)) t.
Record Tenant := {
  t_subscriptions : list Subscription; t_usage : list UsageRecord; t_reports : list BillingReport;
  t_organization : list Organization; t_members : list Membership; t_invitations : list Invitation;
  t_projects : list Project; t_keys : list APIKey; t_telemetry : list Telemetry; t_evals : Evaluations }.
(** One of the projects of an organization. *)
Definition project_of (org : N) (d : DB) (p : N) : bool := bool_decide (p ∈ List.map p_id (rows_of p_org org (projects d))).
Definition tenant (org : N) (d : DB) : Tenant :=
  {| t_subscriptions := rows_of sub_org org (subscriptions d);
     t_usage := rows_of ur_org org (usage_records d);
     t_reports := select (fun r => bool_decide (br_usage r ∈ usage_ids org d)) (billing_reports d);
     t_organization := rows_of o_id org (organizations d);
     t_members := rows_of m_org org (memberships d);
     t_invitations := rows_of i_org org (invitations d);
     t_projects := rows_of p_org org (projects d);
     t_keys := rows_of k_org org (api_keys d);
     t_telemetry := List.map (fun p => project_telemetry (p_id p) (telemetry d)) (rows_of p_org org (projects d));
     t_evals := evals_in (project_of org d) (evals (telemetry d)) |}.
Definition tenant_traces (org : N) (d : DB) : list N := trace_ids_in (project_of org d) (telemetry d).
Definition set_t_evals (x : Evaluations) (T : Tenant) : Tenant :=
  {| t_subscriptions := t_subscriptions T; t_usage := t_usage T; t_reports := t_reports T; t_organization := t_organization T;
     t_members := t_members T; t_invitations := t_invitations T; t_projects := t_projects T; t_keys := t_keys T;
     t_telemetry := t_telemetry T; t_evals := x |}.
(** The tenant, but for what fades of its evaluations. *)
Definition left_alone (trace_ids : list N) (T T' : Tenant) : Prop :=
  T' = set_t_evals (t_evals T') T /\ faded trace_ids (t_evals T) (t_evals T').
Lemma left_alone_trans ids T1 T2 T3 : left_alone ids T1 T2 -> left_alone ids T2 T3 -> left_alone ids T1 T3.
Proof. intros [E1 F1] [E2 F2]. split; [transitivity (set_t_evals (t_evals T3) T2); [exact E2|rewrite E1; by destruct T1]|exact (faded_trans _ _ _ _ F1 F2)]. Qed.
Lemma left_alone_linked ids T T' : linked ids (t_evals T) -> left_alone ids T T' -> T' = T.
Proof. intros Hl [-> F]. cbn in F. apply faded_linked in F; [|done]. rewrite F. by destruct T. Qed.

(** Primary keys and unique constraints of the tables a change looks up by key. *)
Definition keys_ok (n : N) (d : DB) : Prop :=
  table_ok u_id UserModel_clash n (users d) /\ table_ok ur_id UsageRecordModel_clash n (usage_records d) /\
  table_ok p_id ProjectModel_clash n (projects d) /\ table_ok k_id APIKeyModel_clash n (api_keys d) /\
  telemetry_ok (telemetry d) /\ keyed (evals (telemetry d)).

Lemma keys_ok_mono n n' d : (n <= n')%N -> keys_ok n d -> keys_ok n' d.
Proof.
  intros Hn (H1&H2&H3&H4&H5). split; [|split; [|split; [|split; [|exact H5]]]]; (eapply table_ok_mono; eassumption).
Qed.

Lemma keyed_delete_projects gone x : telemetry_ok x -> keyed (evals x) -> keyed (evals (delete_projects gone x)).
Proof.
  intros [Ht _] Hk. by apply (faded_delete_projects (fun _ => false) [] x Hk Ht (list_subseteq_nil _)).
Qed.
Lemma keys_ok_change u t n n' a d d' : (n <= n')%N -> change u t n n' a d d' -> keys_ok n d -> keys_ok n' d'.
Proof.
  intros Hn Hch Hk. pose proof (keys_ok_mono n n' d Hn Hk) as Hk'. pose proof Hk as (H1&H2&H3&H4&H5&H6).
  destruct Hch; try exact Hk'; pose proof Hk' as (K1&K2&K3&K4&K5&K6);
    (split; [|split; [|split; [|split; [|split]]]]); try assumption; cbn;
    try (by apply table_ok_delete); try (by apply telemetry_ok_delete); try (by apply keyed_delete_projects); auto.
  - by apply (stays_ok_insert ur_id UsageRecordModel_clash n); [apply UsageRecordModel_clash_sym| | |].
  - by apply (stays_ok_insert p_id ProjectModel_clash n); [apply ProjectModel_clash_sym| | |].
Qed.

(** The calls that concern other organizations only. *)
Definition elsewhere (org : N) (a : Action) : Prop :=
  match a with
  | Calls (OnOrg o _) | DataPlane o => o <> org
  | Calls (CreateOrg _) | Login => True
  | _ => False
  end.

Lemma rows_of_others {R} (owner : R -> N) o org (tb tb' : list R) : o <> org ->
  keeps_others owner o tb tb' -> rows_of owner org tb' = rows_of owner org tb.
Proof.
  intros Ho H. unfold keeps_others, others in H.
  assert (Hsub : forall tb'' : list R, rows_of owner org tb'' = rows_of owner org (select (fun r => negb (bool_decide (owner r = o))) tb'')).
  { intros tb''. unfold rows_of. symmetry. apply (select_delete_where _ (fun r => bool_decide (owner r = o))).
    intros r Hr%bool_decide_eq_true. apply bool_decide_eq_false. congruence. }
  by rw (Hsub tb') (Hsub tb) H.
Qed.

Lemma rows_of_app {R} (owner : R -> N) org (tb : list R) r : owner r <> org -> rows_of owner org (tb ++ [r]) = rows_of owner org tb.
Proof.
  intros Hr. unfold rows_of. rw select_app (select_none _ [r]); [|by rw app_nil_r].
  intros r' ->%list_elem_of_singleton. by apply bool_decide_eq_false.
Qed.
Lemma rows_of_delete {R} (owner : R -> N) o org (tb : list R) : o <> org ->
  rows_of owner org (delete_where (fun r => bool_decide (owner r = o)) tb) = rows_of owner org tb.
Proof.
  intros Ho. apply select_delete_where. intros r Hr%bool_decide_eq_true. apply bool_decide_eq_false. congruence.
Qed.
(** An update of rows of another organization, which stay there. *)
Lemma rows_of_update {R} (owner : R -> N) o org p f (tb : list R) : o <> org ->
  (forall r, r ∈ tb -> p r = true -> owner r = o /\ owner (f r) = o) ->
  rows_of owner org (update_where p f tb) = rows_of owner org tb.
Proof. intros Ho H. by apply (rows_of_others owner o), others_update. Qed.

(** The reports of an organization survive the deletion of another one. *)
Lemma reports_delete_other n o org d : o <> org -> table_ok ur_id UsageRecordModel_clash n (usage_records d) ->
  t_reports (tenant org (IdentityRepository.cascade_organization o d)) = t_reports (tenant org d).
Proof.
  intros Ho Ht.
  assert (Hids : usage_ids org (IdentityRepository.cascade_organization o d) = usage_ids org d).
  { unfold usage_ids. f_equal. by apply (rows_of_delete ur_org). }
  change (select (fun r => bool_decide (br_usage r ∈ usage_ids org (IdentityRepository.cascade_organization o d)))
      (billing_reports (IdentityRepository.cascade_organization o d)) =
    select (fun r => bool_decide (br_usage r ∈ usage_ids org d)) (billing_reports d)).
  rw Hids. apply select_delete_where. intros r Hr%bool_decide_eq_true. apply bool_decide_eq_false. intros Hr'.
  apply list_elem_of_fmap in Hr as (a & Ea & [Ha Hao%bool_decide_eq_true]%elem_of_select).
  apply list_elem_of_fmap in Hr' as (b & Hab & [Hb Hbo%bool_decide_eq_true]%elem_of_select).
  assert (a = b) by (apply (table_ok_same_id ur_id UsageRecordModel_clash n (usage_records d)); [done..|congruence]). congruence.
Qed.

Lemma tenant_ext org d d' :
  rows_of sub_org org (subscriptions d') = rows_of sub_org org (subscriptions d) ->
  rows_of ur_org org (usage_records d') = rows_of ur_org org (usage_records d) ->
  t_reports (tenant org d') = t_reports (tenant org d) ->
  rows_of o_id org (organizations d') = rows_of o_id org (organizations d) ->
  rows_of m_org org (memberships d') = rows_of m_org org (memberships d) ->
  rows_of i_org org (invitations d') = rows_of i_org org (invitations d) ->
  rows_of p_org org (projects d') = rows_of p_org org (projects d) ->
  rows_of k_org org (api_keys d') = rows_of k_org org (api_keys d) ->
  (forall p, p ∈ projects d -> p_org p = org ->
     project_telemetry (p_id p) (telemetry d') = project_telemetry (p_id p) (telemetry d)) ->
  (faded (tenant_traces org d) (t_evals (tenant org d)) (evals_in (project_of org d) (evals (telemetry d'))) /\
     trace_ids_in (project_of org d) (telemetry d') = tenant_traces org d) ->
  left_alone (tenant_traces org d) (tenant org d) (tenant org d') /\ tenant_traces org d' = tenant_traces org d.
Proof.
  intros H1 H2 H3 H4 H5 H6 H7 H8 H9 [H10 H11].
  assert (Hp : project_of org d' = project_of org d) by (unfold project_of; by rw H7).
  split; [|unfold tenant_traces at 1; by rw Hp]. split; [|by unfold tenant at 2; cbn; rw Hp].
  unfold tenant, set_t_evals. cbn in H3 |- *. rw H1 H2 H3 H4 H5 H6 H7 H8. f_equal.
  apply List.map_ext_in. intros p [Hin Ho%bool_decide_eq_true]%list_elem_of_In%elem_of_select. by apply H9.
Qed.
(** Evaluations and traces that did not change at all. *)
Lemma evals_same org d x : x = telemetry d ->
  faded (tenant_traces org d) (t_evals (tenant org d)) (evals_in (project_of org d) (evals x)) /\
  trace_ids_in (project_of org d) x = tenant_traces org d.
Proof. intros ->. split; [apply faded_refl|done]. Qed.
(** Those of an organization, when other projects are deleted. *)
Lemma evals_delete_other n gone org d : keys_ok n d -> (forall q, q ∈ projects d -> p_id q ∈ gone -> p_org q <> org) ->
  faded (tenant_traces org d) (t_evals (tenant org d)) (evals_in (project_of org d) (evals (delete_projects gone (telemetry d)))) /\
  trace_ids_in (project_of org d) (delete_projects gone (telemetry d)) = tenant_traces org d.
Proof.
  intros (_ & _ & _ & _ & [Ht _] & Hk) Hgone.
  destruct (faded_delete_projects (project_of org d) (tenant_traces org d) (telemetry d) Hk Ht (reflexivity _) gone) as (F & _ & E).
  - intros i Hi. apply bool_decide_eq_false. intros (p & Hp & Ho%bool_decide_eq_true & ->)%elem_of_map_select. by apply (Hgone p Hp).
  - by split.
Qed.

(** The telemetry of an organization survives the deletion of other projects. *)
Lemma telemetry_delete_other n gone org d p : keys_ok n d -> p ∈ projects d -> p_org p = org ->
  (forall q, q ∈ projects d -> p_id q ∈ gone -> p_org q <> org) ->
  project_telemetry (p_id p) (delete_projects gone (telemetry d)) = project_telemetry (p_id p) (telemetry d).
Proof.
  intros (_ & _ & _ & _ & Hok & _) Hp Ho Hgone. apply project_telemetry_delete; [done|].
  intros r _ Hr. apply bool_decide_eq_false. rewrite Hr. intros Hin. by destruct (Hgone p Hp Hin).
Qed.

Lemma usage_ids_new org d ur d' : ur_org ur <> org -> usage_records d' = usage_records d ++ [ur] ->
  usage_ids org d' = usage_ids org d.
Proof. intros Hu Hd. unfold usage_ids. rw Hd. f_equal. by apply (rows_of_app ur_org). Qed.

Lemma tenant_stable org ids T : stable (elsewhere org)
  (fun _ n d => (org < n)%N /\ keys_ok n d /\ left_alone ids T (tenant org d) /\ tenant_traces org d = ids).
Proof.
  split; [intros t n n' d Hn (H1&H2&H3); split; [lia|split; [exact (keys_ok_mono n n' d Hn H2)|exact H3]]|].
  intros u t n n' a d d' Hn Hk Hch (Hlt & Hok & HT & Hids).
  cut (left_alone ids (tenant org d) (tenant org d') /\ tenant_traces org d' = ids).
  { intros [H1 H2]. split; [lia|]. split; [exact (keys_ok_change _ _ _ _ _ _ _ Hn Hch Hok)|]. split; [exact (left_alone_trans _ _ _ _ HT H1)|done]. }
  clear HT T. subst ids.
  pose proof Hok as (K1&K2&K3&K4&K5&K6). destruct Hch; cbn in Hk; try done; try (by split; [split; [by destruct (tenant _ _)|apply faded_refl]|]).
  - assert (Ho : o_id o <> org) by lia. apply tenant_ext; try (by apply evals_same); try done; try (cbn; apply rows_of_app; congruence).
    unfold tenant. cbn [t_reports]. rw (usage_ids_new org d ur); [congruence|done|done].
  - apply tenant_ext; try (by apply evals_same); try done. cbn. apply (rows_of_update o_id org0); [done|]. by intros r _ Hr%bool_decide_eq_true.
  - pose proof (reports_delete_other n org0 org d Hk K2) as Hr.
    assert (Hgone : forall q, q ∈ projects d -> p_id q ∈ List.map p_id (select (fun p => bool_decide (p_org p = org0)) (projects d)) -> p_org q <> org).
    { intros q Hq (q' & Hq' & Hqo%bool_decide_eq_true & Heq)%elem_of_map_select.
      assert (q = q') as -> by (by apply (table_ok_same_id p_id ProjectModel_clash n (projects d))). congruence. }
    apply tenant_ext; try exact Hr; try (cbn; by apply rows_of_delete); [|by apply (evals_delete_other n)].
    intros p Hp Ho. by apply (telemetry_delete_other n _ org).
  - apply tenant_ext; try (by apply evals_same); try done. cbn. apply rows_of_app. congruence.
  - apply tenant_ext; try (by apply evals_same); try done. cbn. apply (rows_of_update i_org org0); [done|]. intros r Hr Hp.
    destruct H as [Hs _]. by rewrite (select_one_in _ _ _ _ Hs Hr Hp).
  - apply tenant_ext; try (by apply evals_same); try done. cbn. apply (rows_of_update m_org org0); [done|].
    by intros r _ [_ Ho%bool_decide_eq_true]%andb_prop.
  - apply tenant_ext; try (by apply evals_same); try done. cbn. apply (rows_of_others m_org org0); [done|]. apply others_delete.
    by intros r _ [_ Ho%bool_decide_eq_true]%andb_prop.
  - assert (org0 <> org) by (by destruct H as [->|(c & -> & _)]).
    apply tenant_ext; try (by apply evals_same); try done. cbn. apply (rows_of_others p_org org0); auto.
  - assert (org0 <> org) by (by destruct H as [->|(c & -> & _)]).
    apply tenant_ext; try (by apply evals_same); try done. cbn. apply (rows_of_others k_org org0); auto.
  - assert (Hgone : forall q, q ∈ projects d -> p_id q ∈ [p_id p] -> p_org q <> org).
    { intros q Hq Hin%list_elem_of_singleton.
      assert (q = p) as -> by (by apply (table_ok_same_id p_id ProjectModel_clash n (projects d))). congruence. }
    apply tenant_ext; try done; [| |by apply (evals_delete_other n)].
    + cbn. apply (rows_of_others p_org org0); [done|]. apply others_delete. intros r Hr Hp%bool_decide_eq_true.
      by assert (r = p) as -> by (by apply (table_ok_same_id p_id ProjectModel_clash n (projects d))).
    + intros q Hq Ho. by apply (telemetry_delete_other n _ org).
Qed.


(** ** Witnesses *)

(** alice invites erin to Acme, in one request. *)
Definition invites : Request := bearer "alice" (Uuid 7).
Definition invite_erin : Call := OnOrg 7 (Invite " Erin@acme.io" MEMBER).
Definition start : World := tenant_world [invite_dave].
Definition after (c : Call) (w : World) : World := (get_db_session (management_request toy_digest tenant_provider invites c) w).2.

Lemma after_step may_call may_tick c w : may_call c -> rtc (step toy_digest tenant_provider may_call may_tick) w (after c w).
Proof. intros Hc. apply rtc_once. by apply step_management. Qed.

Lemma ownership_is_stable_witness :
  rtc (step toy_digest tenant_provider (spares 7) any_time) start (after (OnOrg 7 (RemoveMember 1)) start) /\
  alice_owns ∈ memberships (durable (after (OnOrg 7 (RemoveMember 1)) start)).
Proof.
  assert (H : rtc (step toy_digest tenant_provider (spares 7) any_time) start (after (OnOrg 7 (RemoveMember 1)) start))
    by (apply after_step; discriminate).
  split; [exact H|]. apply (ownership_is_stable toy_digest tenant_provider 7 _ _ H); [by left|done].
Defined.

(** alice revokes dave's invitation; the decision stands. *)
Definition revoked : World := after (OnOrg 7 (Revoke 40)) start.
Lemma invitation_decided_once_witness :
  List.map i_status (invitations (durable revoked)) = [IREVOKED] /\
  outcome_of invite_dave (durable revoked).
Proof.
  split; [vm_compute; reflexivity|].
  apply (invitation_decided_once toy_digest tenant_provider invite_dave start revoked);
    [apply after_step; discriminate|by left].
Defined.

(** Acme has two seats, one of them reserved for dave: erin cannot be invited. *)
Lemma seats_within_plan_witness :
  seats_ok 7 2 (now start) (next_id start) (durable start) /\
  seats (now (after invite_erin start)) 7 (durable (after invite_erin start)) <= 2.
Proof.
  assert (Hok : seats_ok 7 2 (now start) (next_id start) (durable start)).
  { split_and!; [done|done|vm_compute; discriminate|]. intros i ->%list_elem_of_singleton _. vm_compute. discriminate. }
  split; [exact Hok|].
  apply (seats_within_plan toy_digest tenant_provider 7 2 start (after invite_erin start)); [|exact Hok].
  apply after_step. discriminate.
Defined.

(** Deleting Acme leaves the other organization alone. *)
Lemma start_linked : linked (tenant_traces 8 (durable start)) (t_evals (tenant 8 (durable start))).
Proof. split_and!; vm_compute; repeat constructor. Qed.

(** The instant an invitation expires it no longer counts but is still accepted: alice
    invites erin at that instant, then dave and erin both join, and Acme has three
    members on a plan of two. *)
Definition accept_as (who : User) (i : N) (w : World) : World :=
  (get_db_session (serve toy_digest (as_user who acme) (Accept i)) w).2.
Definition erin : User :=
  {| u_id := 4; u_external := "idp|erin"; u_email := "erin@acme.io"; u_display := "Erin";
     u_created := 0; u_last_sign_in := None |}.
Definition expiring : World :=
  let d := set_users [alice; bob; dave; erin] (tenant_db [invite_dave]) in world_of d (days 25) [].
Theorem seats_exceeded_at_expiry :
  let w := accept_as erin 100 (accept_as dave 40 (after invite_erin expiring)) in
  seat_limit 7 (durable w) = Some 2 /\ count (member_of 7) (memberships (durable w)) = 3.
Proof. vm_compute. split; reflexivity. Qed.

(** Accepting an expired invitation marks it EXPIRED and then raises, so the session
    is rolled back and the mark is lost. *)
Theorem expired_mark_is_lost :
  let late := set_now (days 26) start in
  List.map i_status (invitations (db (IdentityService.open_invitation 3 40 late).2)) = [IEXPIRED] /\
  invitations (durable (accept_as dave 40 late)) = [invite_dave].
Proof. vm_compute. split; reflexivity. Qed.

(** alice may own two organizations, but owners may promote her beyond that. *)
Theorem promotion_passes_the_cap :
  let m org := {| m_id := 50 + org; m_user := 1; m_org := org; m_role := OWNER; m_created := 0 |} in
  let d := set_memberships [m 8%N; m 9%N; {| m_id := 60; m_user := 1; m_org := 10; m_role := MEMBER; m_created := 0 |};
                            {| m_id := 61; m_user := 2; m_org := 10; m_role := OWNER; m_created := 0 |}] (tenant_db []) in
  count (IdentityRepository.owned_by 1) (memberships (db (IdentityService.update_member_role 2 10 1 OWNER (world_of d 0 [])).2)) = 3.
Proof. vm_compute. reflexivity. Qed.
