(* ===== verification/Onboarding.v ===== *)
(** * Creating an organization

    What [create_organization] leaves behind, on each branch: the tenant it
    provisions is complete and usable at once. *)
From stdpp Require Import base gmap strings list.
From Stdlib Require Import ZArith Lia ssreflect.
From S2P Require Import Prelude Constants Entities Float64 Json Evals Telemetry ProjectEvals World Invariant BillingRepo Security IdentityRepo Identity ApiAuth CliAuth Routes Access IdentitySpec AuthFacts IdentitySystem.

#[local] Open Scope Z_scope.

(** Every reference to an organization, a project or a usage record was drawn before [n]. *)
Definition refs_below (n : N) (d : DB) : Prop :=
  Forall (fun s => (sub_org s < n)%N) (subscriptions d) /\ Forall (fun u => (ur_org u < n)%N) (usage_records d) /\
  Forall (fun r => (br_usage r < n)%N) (billing_reports d) /\ Forall (fun o => (o_id o < n)%N) (organizations d) /\
  Forall (fun m => (m_org m < n)%N) (memberships d) /\ Forall (fun i => (i_org i < n)%N) (invitations d) /\
  Forall (fun p => (p_org p < n)%N) (projects d) /\ Forall (fun k => (k_org k < n)%N) (api_keys d) /\
  Forall (fun r => (t_project r < n)%N) (trace_rows (telemetry d)) /\
  Forall (fun r => (e_project r < n)%N) (eval_runs (evals (telemetry d))) /\
  Forall (fun m => (mo_project m < n)%N) (eval_monitors (evals (telemetry d))) /\
  Forall (fun s => (c_project s < n)%N) (trace_scores (evals (telemetry d))) /\
  Forall (fun s => (c_project s < n)%N) (session_scores (evals (telemetry d))).

(** A project yet to be created has no telemetry. *)
Lemma project_telemetry_below n project x : Forall (fun r => (t_project r < n)%N) (trace_rows x) -> (n <= project)%N ->
  project_telemetry project x = empty_telemetry.
Proof.
  intros H Hn. unfold project_telemetry. rw (select_none (of_project project)).
  { intros r Hr. rewrite Forall_forall in H. specialize (H r Hr). apply bool_decide_eq_false. simpl in H. lia. }
  unfold empty_telemetry. f_equal. apply select_none. intros s _. apply bool_decide_eq_false. by intros ?%elem_of_nil.
Qed.

(** Nor has it evaluations. *)
Lemma evals_below n mine x : Forall (fun r => (e_project r < n)%N) (eval_runs x) /\ Forall (fun m => (mo_project m < n)%N) (eval_monitors x) /\
    Forall (fun s => (c_project s < n)%N) (trace_scores x) /\ Forall (fun s => (c_project s < n)%N) (session_scores x) ->
  (forall p, mine p = true -> (n <= p)%N) -> evals_in mine x = empty_evaluations.
Proof.
  intros (H1 & H2 & H3 & H4) Hn.
  assert (Hno : forall R (owner : R -> N) l, Forall (fun r => (owner r < n)%N) l -> select (fun r => mine (owner r)) l = []).
  { intros R owner l Hl. apply select_none. intros r Hr. rewrite Forall_forall in Hl. specialize (Hl r Hr). apply not_true_iff_false.
    intros Hm%Hn. simpl in Hl. lia. }
  unfold evals_in, empty_evaluations, run_in, monitor_in, score_in. by rewrite !Hno.
Qed.

Lemma rows_of_none {R} (owner : R -> N) n (tb : list R) : Forall (fun r => (owner r < n)%N) tb -> rows_of owner n tb = [].
Proof. intros H. apply select_none. intros r Hr. rewrite Forall_forall in H. apply bool_decide_eq_false. specialize (H r Hr). lia. Qed.
Lemma rows_of_snoc {R} (owner : R -> N) n (tb : list R) r : Forall (fun r => (owner r < n)%N) tb -> owner r = n ->
  rows_of owner n (tb ++ [r]) = [r].
Proof.
  intros H Hr. unfold rows_of. rw select_app. fold (rows_of owner n tb). rw (rows_of_none owner n tb H). cbn.
  by rw Hr bool_decide_eq_true_2.
Qed.

(** No row of an existing organization clashes with a new organization's row. *)
Lemma no_clash_below {R} (clash : R -> R -> bool) (owner : R -> N) n (tb : list R) r :
  (forall a b, clash a b = true -> owner a = owner b) -> Forall (fun x => (owner x < n)%N) tb -> owner r = n ->
  existsb (clash r) tb = false.
Proof.
  intros Hc H Hr. apply not_true_iff_false. intros (x & Hx%list_elem_of_In & E)%List.existsb_exists.
  rewrite Forall_forall in H. specialize (H x Hx). apply Hc in E. simpl in H. lia.
Qed.

Lemma insert_fresh_run_ok {R} clash get set (mk : N -> R) w : existsb (clash (mk (next_id w))) (get (db w)) = false ->
  insert_fresh clash get set mk w =
    (Ok (mk (next_id w)), set_db (set (get (db w) ++ [mk (next_id w)]) (db w)) (set_next_id (N.succ (next_id w)) w)).
Proof. intros H. unfold insert_fresh, mbind, M_bind, uuid4, insert_row. cbn -[N.succ existsb]. by rw H. Qed.

Lemma no_clash_false {R} (r : R) tb : existsb (no_clash r) tb = false.
Proof. by induction tb. Qed.

Lemma create_project_run org name description w :
  let p := {| p_id := next_id w; p_org := org; p_name := name; p_description := description; p_created := now w |} in
  existsb (ProjectModel_clash p) (projects (db w)) = false ->
  ProjectRepository.create_project org name description w =
    (Ok p, set_db (set_projects (projects (db w) ++ [p]) (db w)) (set_next_id (N.succ (next_id w)) w)).
Proof.
  cbv zeta. intros H. unfold ProjectRepository.create_project, on_integrity_error, try_except, ProjectRepository.insert_project.
  rw bind_utcnow. by rw insert_fresh_run_ok.
Qed.

(** The organization's rows, as created at [t] with identifiers from [n]. *)
Definition new_subscription (n : N) (plan : SubscriptionPlan) (t : Z) : Subscription :=
  {| sub_id := N.succ (N.succ n); sub_org := n; sub_plan := plan; sub_status := ACTIVE; sub_customer := None;
     sub_stripe_id := None; sub_start := t; sub_end := t + days 30; sub_canceled_at := None;
     sub_created := t; sub_updated := t |}.
Definition provisioned (n u : N) (name : string) (plan : SubscriptionPlan) (t : Z) : Tenant :=
  {| t_subscriptions := [new_subscription n plan t];
     t_usage := [new_usage (N.succ (N.succ (N.succ n))) n t (t + days 30) t];
     t_reports := [];
     t_organization := [{| o_id := n; o_name := name; o_created := t |}];
     t_members := [{| m_id := N.succ n; m_user := u; m_org := n; m_role := OWNER; m_created := t |}];
     t_invitations := [];
     t_projects := [{| p_id := N.succ (N.succ (N.succ (N.succ n))); p_org := n; p_name := "onboarding";
                       p_description := "Your onboarding project"; p_created := t |}];
     t_keys := []; t_telemetry := [empty_telemetry]; t_evals := empty_evaluations |}.

Lemma clash_orgs : (forall a b, MembershipModel_clash a b = true -> m_org a = m_org b) /\
  (forall a b, UsageRecordModel_clash a b = true -> ur_org a = ur_org b) /\
  (forall a b, ProjectModel_clash a b = true -> p_org a = p_org b).
Proof.
  split_and!; intros a b.
  - by intros [_ H%bool_decide_eq_true]%andb_prop.
  - by intros [H%bool_decide_eq_true _]%andb_prop.
  - by intros [H%bool_decide_eq_true _]%andb_prop.
Qed.

(** A subscription without a Stripe identifier clashes by organization only. *)
Lemma subscription_no_clash n (tb : list Subscription) s : Forall (fun x => (sub_org x < n)%N) tb ->
  sub_org s = n -> sub_stripe_id s = None -> existsb (SubscriptionModel_clash s) tb = false.
Proof.
  intros H Hs Hn. apply not_true_iff_false. intros (x & Hx%list_elem_of_In & E)%List.existsb_exists.
  rewrite Forall_forall in H. specialize (H x Hx). unfold SubscriptionModel_clash in E. rw Hn in E. cbn in E.
  apply orb_prop in E as [E%bool_decide_eq_true|E]; [simpl in H; lia|done].
Qed.

Section creation.
Context (name cln : string) (u : N) (plan : option SubscriptionPlan) (w : World).
Hypothesis Hrefs : refs_below (next_id w) (db w).
Hypothesis Hname : validate_resource_name name "Organization name" = Ok cln.
Hypothesis Howned : count (IdentityRepository.owned_by u) (memberships (db w)) < MAX_OWNED_ORGS.

Lemma create_organization_run : exists w',
  IdentityService.create_organization name u plan w =
    (Ok {| o_id := next_id w; o_name := cln; o_created := now w |}, w') /\
  tenant (next_id w) (db w') = provisioned (next_id w) u cln (default HOBBY plan) (now w) /\
  memberships (db w') = memberships (db w) ++ t_members (provisioned (next_id w) u cln HOBBY (now w)).
Proof using Hrefs Hname Howned.
  destruct Hrefs as (R1&R2&R3&R4&R5&R6&R7&R8&R9&R10&R11&R12&R13). destruct clash_orgs as (Cm & Cu & Cp).
  unfold IdentityService.create_organization. erewrite bind_Ok by reflexivity.
  fold (count (IdentityRepository.owned_by u) (memberships (db w))). rw (proj2 (Z.leb_gt _ _) Howned).
  erewrite bind_Ok by reflexivity. rw Hname. erewrite bind_Ok by reflexivity.
  unfold IdentityRepository.create_organization. erewrite bind_Ok by (rw bind_utcnow; apply insert_fresh_run_ok; apply no_clash_false).
  unfold IdentityRepository.create_membership.
  erewrite bind_Ok by (rw bind_utcnow; apply insert_fresh_run_ok; by apply (no_clash_below _ m_org (next_id w))).
  unfold create_subscription.
  erewrite bind_Ok by (rw bind_utcnow; apply insert_fresh_run_ok; by apply (subscription_no_clash (next_id w))).
  unfold create_usage_record.
  erewrite bind_Ok by (rw bind_utcnow; apply insert_fresh_run_ok; by apply (no_clash_below _ ur_org (next_id w))).
  erewrite bind_Ok by (apply create_project_run; by apply (no_clash_below _ p_org (next_id w))).
  eexists. split; [reflexivity|]. split; [|reflexivity].
  unfold tenant, provisioned. cbn -[N.succ].
  f_equal; try (by apply rows_of_snoc); try (by apply rows_of_none); cycle 1.
  2: { apply (evals_below (next_id w)); [done|]. 
       intros p (row & Hin & Ho%bool_decide_eq_true & ->)%bool_decide_eq_true%elem_of_map_select. cbn -[N.succ] in Hin.
       apply elem_of_app in Hin as [Hin| ->%list_elem_of_singleton]; [|cbn -[N.succ]; lia].
       rewrite Forall_forall in R7. specialize (R7 row Hin). simpl in R7. lia. }
  { transitivity (List.map (fun p => project_telemetry (p_id p) (telemetry (db w)))
      [{| p_id := N.succ (N.succ (N.succ (N.succ (next_id w)))); p_org := next_id w; p_name := "onboarding";
          p_description := "Your onboarding project"; p_created := now w |}]).
    - f_equal. by apply (rows_of_snoc p_org).
    - cbn -[N.succ]. f_equal. apply (project_telemetry_below (next_id w)); [done|lia]. }
  apply select_none. intros r Hr. rewrite Forall_forall in R3. specialize (R3 r Hr). simpl in R3.
  apply bool_decide_eq_false. unfold usage_ids. cbn -[N.succ].
  intros Hin. apply list_elem_of_fmap in Hin as (x & Hx & Hin).
  apply (elem_of_select (fun v => bool_decide (ur_org v = next_id w))) in Hin as [Hin Ho%bool_decide_eq_true].
  apply elem_of_app in Hin as [Hin| ->%list_elem_of_singleton]; [|cbn -[N.succ] in Hx; lia].
  rewrite Forall_forall in R2. specialize (R2 x Hin). simpl in R2. lia.
Qed.
End creation.

(** C23: Creating an organization provisions a whole tenant.  A user who owns two
    organizations is refused, an invalid name is refused with its message, and nothing
    changes; otherwise the call succeeds, and the new tenant consists of exactly the organization under
    its cleaned name, the creator as its OWNER, an active subscription of 30 days on
    the chosen plan (HOBBY by default), an empty usage record of the same period and
    the project "onboarding"; the creator never owns more than two. *)
Theorem create_organization_provisions (name : string) (u : N) (plan : option SubscriptionPlan) (w : World) :
  let run := IdentityService.create_organization name u plan w in
  let owned d := count (IdentityRepository.owned_by u) (memberships d) in
  (MAX_OWNED_ORGS <= owned (db w) ->
     run = (Err (PP OrgLimitReachedError "Organization ownership limit reached."), w)) /\
  (owned (db w) < MAX_OWNED_ORGS -> forall msg,
     validate_resource_name name "Organization name" = Err (ValueError msg) -> run = (Err (PP ValidationError msg), w)) /\
  (owned (db w) < MAX_OWNED_ORGS -> refs_below (next_id w) (db w) -> forall cln,
     validate_resource_name name "Organization name" = Ok cln ->
     exists o w', run = (Ok o, w') /\
       tenant (o_id o) (db w') = provisioned (o_id o) u cln (default HOBBY plan) (now w) /\
       owned (db w') = owned (db w) + 1 /\ owned (db w') <= MAX_OWNED_ORGS).
Proof.
  cbv zeta. split; [|split].
  - intros H. unfold IdentityService.create_organization. erewrite bind_Ok by reflexivity.
    fold (count (IdentityRepository.owned_by u) (memberships (db w))). by rw (proj2 (Z.leb_le _ _) H).
  - intros H msg Hm. unfold IdentityService.create_organization. erewrite bind_Ok by reflexivity.
    fold (count (IdentityRepository.owned_by u) (memberships (db w))). rw (proj2 (Z.leb_gt _ _) H).
    erewrite bind_Ok by reflexivity. by rw Hm.
  - intros H Hr cln Hn. destruct (create_organization_run name cln u plan w Hr Hn H) as (w' & Hrun & Ht & Hm).
    do 2 eexists. split; [exact Hrun|]. split; [exact Ht|].
    rewrite Hm. cbn [t_members provisioned]. rw count_app.
    replace (IdentityRepository.owned_by u _) with true; [lia|].
    unfold IdentityRepository.owned_by. cbn. by rw (bool_decide_eq_true_2 (u = u)).
Qed.

(** bob, who owns one organization, creates a second one. *)
Lemma create_organization_provisions_witness :
  refs_below (next_id (tenant_world [])) (db (tenant_world [])) /\
  exists o w', IdentityService.create_organization " Bob's lab " 2 None (tenant_world []) = (Ok o, w') /\
    tenant (o_id o) (db w') = provisioned (o_id o) 2 "Bob's lab" HOBBY (days 20).
Proof.
  assert (Hr : refs_below (next_id (tenant_world [])) (db (tenant_world []))) by (repeat split; repeat constructor).
  split; [exact Hr|].
  destruct (create_organization_provisions " Bob's lab " 2 None (tenant_world [])) as (_ & _ & H).
  destruct (H eq_refl Hr "Bob's lab"%string) as (o & w' & H1 & H2 & _); [vm_compute; reflexivity|].
  exists o, w'. split; [exact H1|exact H2].
Defined.
