(* ===== verification/TraceRepo.v ===== *)
(** * The trace repository (db/repositories/trace_repo.py): writes and single traces

    Upserts of traces and spans, partial updates, deletions and tag changes.  Each
    operation of the class is a definition of [Module TraceRepository], in the
    order of the file. *)
From stdpp Require Import base gmap strings list.
From Stdlib Require Import ZArith Lia Ascii ssreflect.
From S2P Require Import Prelude Constants Entities Float64 Json Evals Telemetry Sql World.

#[local] Open Scope Z_scope.

Definition traces_of (d : DB) : list TraceRow := trace_rows (telemetry d).
Definition spans_of (d : DB) : list SpanRow := span_rows (telemetry d).
Definition set_traces (l : list TraceRow) (d : DB) : DB := set_telemetry (set_trace_rows l (telemetry d)) d.
Definition set_spans (l : list SpanRow) (d : DB) : DB := set_telemetry (set_span_rows l (telemetry d)) d.

(** [INSERT ... ON CONFLICT (key) DO UPDATE]: a row that does not fit its columns is refused; the
    row of the key is merged; without one the new row is inserted, if the row its foreign key names exists. *)
Definition insert_on_conflict {R} (get : DB -> list R) (set : list R -> DB -> DB) (fit hit : R -> bool)
    (merge : R -> R) (parent : DB -> bool) (row : R) : M World unit := fun w =>
  if negb (fit row) then (Err DataError, w)
  else if existsb hit (get (db w)) then (Ok tt, set_db (set (update_where hit merge (get (db w))) (db w)) w)
  else if parent (db w) then (Ok tt, set_db (set (get (db w) ++ [row]) (db w)) w)
  else (Err IntegrityError, w).

Definition project_exists (project : N) (d : DB) : bool :=
  existsb (fun p => bool_decide (p_id p = project)) (projects d).
Definition trace_exists (id : N) (d : DB) : bool := existsb (with_trace_id id) (traces_of d).

(** A query that may raise. *)
Definition read_res {A} (f : DB -> res A) : M World A := r ← read_db f; lift r.

(** ** Escaping of LIKE patterns *)

Definition _escape_like (value : string) : string :=
  String.string_of_list_ascii
    (replace_char underscore [backslash; underscore]
      (replace_char percent [backslash; percent]
        (replace_char backslash [backslash; backslash] (String.list_ascii_of_string value)))).

(** The three replacements, character by character. *)
Definition special (c : ascii) : bool := bool_decide (c = backslash \/ c = percent \/ c = underscore).
Definition escape_char (c : ascii) : list ascii := if special c then [backslash; c] else [c].

Lemma escape_like_chars v :
  String.list_ascii_of_string (_escape_like v) = flat_map escape_char (String.list_ascii_of_string v).
Proof.
  unfold _escape_like. rw String.list_ascii_of_string_of_list_ascii.
  induction (String.list_ascii_of_string v) as [|c l IH]; [done|].
  assert (Happ : forall x b l1 l2, replace_char x b (l1 ++ l2) = replace_char x b l1 ++ replace_char x b l2)
    by (intros; apply List.flat_map_app).
  change (replace_char backslash [backslash; backslash] (c :: l)) with
    ((if bool_decide (c = backslash) then [backslash; backslash] else [c]) ++ replace_char backslash [backslash; backslash] l).
  rw !Happ IH. cbn [flat_map]. f_equal. unfold escape_char, special.
  destruct (decide (c = backslash)) as [->|H1]; [done|]. rw (bool_decide_eq_false_2 (c = backslash) H1).
  destruct (decide (c = percent)) as [->|H2]; [done|]. unfold replace_char at 2. cbn [flat_map app].
  rw (bool_decide_eq_false_2 (c = percent) H2). unfold replace_char. cbn [flat_map app].
  destruct (decide (c = underscore)) as [->|H3]; [done|]. rw (bool_decide_eq_false_2 (c = underscore) H3).
  rw bool_decide_eq_false_2; [naive_solver|done].
Qed.

(** Case folding neither makes nor hides a character that LIKE treats specially. *)
Lemma lower_special c : special (lower_char c) = special c /\ (special c = true -> lower_char c = c).
Proof. destruct c as [[] [] [] [] [] [] [] []]; vm_compute; split; congruence. Qed.

(** An escaped text, folded, is read back as literal text. *)
Lemma like_pattern_escaped l rest p : like_pattern rest = Some p ->
  like_pattern (List.map lower_char (flat_map escape_char l) ++ rest) = Some (List.map Lit (List.map lower_char l) ++ p).
Proof.
  intros H. induction l as [|c l IH]; [done|]. cbn [flat_map List.map]. rw List.map_app -app_assoc.
  destruct (lower_special c) as [Hs Hc]. unfold escape_char. destruct (special c) eqn:E.
  - rw (Hc eq_refl). change (lower_char backslash) with backslash. cbn [List.map app]. rw (Hc eq_refl). cbn [like_pattern].
    rw IH. done.
  - cbn [List.map app like_pattern]. unfold special in Hs. apply bool_decide_eq_false in Hs.
    rw !bool_decide_eq_false_2; [naive_solver..|]. by rw IH.
Qed.

Module TraceRepository.

Section repo.
Context (pg : Postgres).

(** ** Upsert *)

(** The values of the INSERT; [created_at] has the default [_utcnow]. *)
Definition trace_values (t : Trace) (created : Z) : TraceRow :=
  {| t_id := tr_id t; t_project := tr_project t; t_name := tr_name t; t_status := tr_status t;
     t_input := json_bind (tr_input t); t_output := json_bind (tr_output t); t_metadata := tr_metadata t;
     t_started := tr_started t; t_ended := tr_ended t; t_session := tr_session t; t_user := tr_user t;
     t_tags := tr_tags t; t_environment := tr_environment t; t_release := tr_release t; t_created := created |}.

(** The SET clause of the upsert, [x] being the excluded row. *)
Definition merge_trace (x t : TraceRow) : TraceRow :=
  {| t_id := t_id t; t_project := t_project t;
     t_name := t_name x; t_status := t_status x;
     t_input := coalesce (t_input x) (t_input t);
     t_output := coalesce (t_output x) (t_output t);
     t_metadata := jsonb_concat (t_metadata t) (t_metadata x);
     t_started := t_started x;
     t_ended := coalesce (t_ended x) (t_ended t);
     t_session := coalesce (t_session x) (t_session t);
     t_user := coalesce (t_user x) (t_user t);
     t_tags := default (t_tags x) (array_agg_distinct pg (t_tags t ++ t_tags x));
     t_environment := coalesce (t_environment x) (t_environment t);
     t_release := coalesce (t_release x) (t_release t);
     t_created := t_created t |}.

Definition span_values (s : Span) : SpanRow :=
  {| s_id := sp_id s; s_trace := sp_trace s; s_parent := sp_parent s; s_name := sp_name s; s_kind := sp_kind s;
     s_status := sp_status s; s_input := json_bind (sp_input s); s_output := json_bind (sp_output s);
     s_model := sp_model s; s_token_usage := json_bind (sp_token_usage s); s_metadata := sp_metadata s;
     s_started := sp_started s; s_ended := sp_ended s; s_error := sp_error s;
     s_completion_start := sp_completion_start s; s_model_parameters := json_bind (sp_model_parameters s);
     s_cost := json_bind (sp_cost s) |}.

Definition merge_span (x s : SpanRow) : SpanRow :=
  {| s_id := s_id s; s_trace := s_trace s; s_parent := s_parent s;
     s_name := s_name x; s_kind := s_kind x; s_status := s_status x;
     s_input := coalesce (s_input x) (s_input s);
     s_output := coalesce (s_output x) (s_output s);
     s_model := coalesce (s_model x) (s_model s);
     s_token_usage := coalesce (s_token_usage x) (s_token_usage s);
     s_metadata := jsonb_concat (s_metadata s) (s_metadata x);
     s_started := s_started x;
     s_ended := coalesce (s_ended x) (s_ended s);
     s_error := coalesce (s_error x) (s_error s);
     s_completion_start := coalesce (s_completion_start x) (s_completion_start s);
     s_model_parameters := coalesce (s_model_parameters x) (s_model_parameters s);
     s_cost := coalesce (s_cost x) (s_cost s) |}.

Definition with_span_id (id : N) (s : SpanRow) : bool := bool_decide (s_id s = id).

Definition _upsert_span (span : Span) : M World unit :=
  insert_on_conflict spans_of set_spans SpanRow_fits (with_span_id (sp_id span)) (merge_span (span_values span))
    (trace_exists (sp_trace span)) (span_values span).

Definition upsert_trace (trace : Trace) : M World Trace :=
  created ← utcnow;
  insert_on_conflict traces_of set_traces TraceRow_fits (with_trace_id (tr_id trace)) (merge_trace (trace_values trace created))
    (project_exists (tr_project trace)) (trace_values trace created) ;;
  for_each (tr_spans trace) _upsert_span ;;
  mret trace.

(** ** Partial updates

    The keyword arguments [**fields] are the fields the request sets. *)

Inductive TraceField :=
  | FName (v : option string)
  | FStatus (v : option TraceStatus)
  | FInput (v : option Json)
  | FOutput (v : option Json)
  | FMetadata (v : option (Object Json))
  | FEnded (v : option Z)
  | FSession (v : option string)
  | FUser (v : option string)
  | FTags (v : option (list string))
  | FEnvironment (v : option string)
  | FRelease (v : option string).

(** The loop body of [update_trace]: an explicit [None] is skipped for the columns
    of [_TRACE_NOT_NULL], metadata is merged, everything else is assigned. *)
Definition set_trace_field (t : TraceRow) (f : TraceField) : TraceRow :=
  {| t_id := t_id t; t_project := t_project t;
     t_name := match f with FName (Some v) => v | _ => t_name t end;
     t_status := match f with FStatus (Some v) => v | _ => t_status t end;
     t_input := match f with FInput v => json_bind v | _ => t_input t end;
     t_output := match f with FOutput v => json_bind v | _ => t_output t end;
     t_metadata := match f with FMetadata v => default ∅ v ∪ t_metadata t | _ => t_metadata t end;
     t_started := t_started t;
     t_ended := match f with FEnded v => v | _ => t_ended t end;
     t_session := match f with FSession v => v | _ => t_session t end;
     t_user := match f with FUser v => v | _ => t_user t end;
     t_tags := match f with FTags (Some v) => v | _ => t_tags t end;
     t_environment := match f with FEnvironment v => v | _ => t_environment t end;
     t_release := match f with FRelease v => v | _ => t_release t end;
     t_created := t_created t |}.

(** What the database accepts as a new value of the field's column. *)
Definition TraceField_fits (f : TraceField) : bool :=
  match f with
  | FName v => fits_opt 512 v
  | FInput v | FOutput v => opt_storable json_storable v
  | FMetadata v => opt_storable object_storable v
  | FSession v | FUser v | FEnvironment v | FRelease v => fits_opt 255 v
  | FTags v => opt_storable (forallb text_storable) v
  | FStatus _ | FEnded _ => true
  end.

Definition owned_trace (id project : N) (r : TraceRow) : bool := with_trace_id id r && of_project project r.

Definition update_trace (trace_id project_id : N) (fields : list TraceField) : M World (option TraceRow) :=
  rows ← read_db (fun d => select (owned_trace trace_id project_id) (traces_of d));
  row ← lift (scalar_one_or_none rows);
  match row with
  | None => mret None
  | Some r =>
      guard_not (negb (forallb TraceField_fits fields)) DataError ;;
      let r' := foldl set_trace_field r fields in
      write_db (fun d => set_traces (update_where (with_trace_id trace_id) (fun _ => r') (traces_of d)) d) ;;
      mret (Some r')
  end.

Inductive SpanField :=
  | SFName (v : option string)
  | SFKind (v : option SpanKind)
  | SFStatus (v : option SpanStatusCode)
  | SFInput (v : option Json)
  | SFOutput (v : option Json)
  | SFModel (v : option string)
  | SFTokenUsage (v : option (Object Json))
  | SFMetadata (v : option (Object Json))
  | SFEnded (v : option Z)
  | SFError (v : option string)
  | SFCompletionStart (v : option Z)
  | SFModelParameters (v : option (Object Json))
  | SFCost (v : option (Object float)).

Definition set_span_field (s : SpanRow) (f : SpanField) : SpanRow :=
  {| s_id := s_id s; s_trace := s_trace s; s_parent := s_parent s;
     s_name := match f with SFName (Some v) => v | _ => s_name s end;
     s_kind := match f with SFKind (Some v) => v | _ => s_kind s end;
     s_status := match f with SFStatus (Some v) => v | _ => s_status s end;
     s_input := match f with SFInput v => json_bind v | _ => s_input s end;
     s_output := match f with SFOutput v => json_bind v | _ => s_output s end;
     s_model := match f with SFModel v => v | _ => s_model s end;
     s_token_usage := match f with SFTokenUsage v => json_bind v | _ => s_token_usage s end;
     s_metadata := match f with SFMetadata v => default ∅ v ∪ s_metadata s | _ => s_metadata s end;
     s_started := s_started s;
     s_ended := match f with SFEnded v => v | _ => s_ended s end;
     s_error := match f with SFError v => v | _ => s_error s end;
     s_completion_start := match f with SFCompletionStart v => v | _ => s_completion_start s end;
     s_model_parameters := match f with SFModelParameters v => json_bind v | _ => s_model_parameters s end;
     s_cost := match f with SFCost v => json_bind v | _ => s_cost s end |}.

Definition SpanField_fits (f : SpanField) : bool :=
  match f with
  | SFName v => fits_opt 512 v
  | SFInput v | SFOutput v => opt_storable json_storable v
  | SFModel v => fits_opt 255 v
  | SFTokenUsage v | SFMetadata v | SFModelParameters v => opt_storable object_storable v
  | SFError v => opt_storable text_storable v
  | SFCost v => opt_storable floats_storable v
  | SFKind _ | SFStatus _ | SFEnded _ | SFCompletionStart _ => true
  end.

(** The span, on the given trace, joined with its trace in the given project. *)
Definition owned_span (d : DB) (span_id trace_id project_id : N) (s : SpanRow) : bool :=
  with_span_id span_id s && bool_decide (s_trace s = trace_id)
  && existsb (owned_trace (s_trace s) project_id) (traces_of d).

Definition update_span (span_id trace_id project_id : N) (fields : list SpanField) : M World (option SpanRow) :=
  rows ← read_db (fun d => select (owned_span d span_id trace_id project_id) (spans_of d));
  row ← lift (scalar_one_or_none rows);
  match row with
  | None => mret None
  | Some s =>
      guard_not (negb (forallb SpanField_fits fields)) DataError ;;
      let s' := foldl set_span_field s fields in
      write_db (fun d => set_spans (update_where (with_span_id span_id) (fun _ => s') (spans_of d)) d) ;;
      mret (Some s')
  end.

(** ** Span ingestion *)

Definition add_spans (trace_id project_id : N) (spans : list Span) : M World bool :=
  rows ← read_db (fun d => select (owned_trace trace_id project_id) (traces_of d));
  exists_ ← lift (scalar_one_or_none rows);
  match exists_ with
  | None => mret false
  | Some _ => for_each spans _upsert_span ;; mret true
  end.

(** ** Mappers *)

Definition _to_span (row : SpanRow) : res Span :=
  Span_validate {|
    sp_id := s_id row; sp_trace := s_trace row; sp_parent := s_parent row; sp_name := s_name row;
    sp_kind := s_kind row; sp_status := s_status row; sp_input := json_read (s_input row);
    sp_output := json_read (s_output row); sp_model := s_model row; sp_token_usage := json_read (s_token_usage row);
    sp_metadata := s_metadata row; sp_started := s_started row; sp_ended := s_ended row; sp_error := s_error row;
    sp_completion_start := s_completion_start row; sp_model_parameters := json_read (s_model_parameters row);
    sp_cost := json_read (s_cost row) |}.

(** The relationship [TraceModel.spans], ordered by start and identifier. *)
Definition spans_of_trace (d : DB) (id : N) : list SpanRow :=
  order_by (fun a b => (s_started a <? s_started b) || (s_started a =? s_started b) && (s_id a <=? s_id b)%N)
    (select (fun s => bool_decide (s_trace s = id)) (spans_of d)).

(** [_to_trace(row)] with the loaded spans; [include_spans=False] passes none. *)
Definition _to_trace (row : TraceRow) (spans : list SpanRow) : res Trace :=
  ss ← res_all (List.map _to_span spans);
  Trace_validate {|
    tr_id := t_id row; tr_project := t_project row; tr_name := t_name row; tr_status := t_status row;
    tr_input := json_read (t_input row); tr_output := json_read (t_output row); tr_metadata := t_metadata row;
    tr_started := t_started row; tr_ended := t_ended row; tr_session := t_session row; tr_user := t_user row;
    tr_tags := t_tags row; tr_environment := t_environment row; tr_release := t_release row; tr_spans := ss |}.

(** ** Read *)

Definition get_trace (trace_id project_id : N) : M World (option Trace) :=
  rows ← read_db (fun d => select (owned_trace trace_id project_id) (traces_of d));
  row ← lift (scalar_one_or_none rows);
  match row with
  | None => mret None
  | Some r => t ← read_res (fun d => _to_trace r (spans_of_trace d (t_id r))); mret (Some t)
  end.

(** ** Delete *)

(** [DELETE FROM traces WHERE p]; the number of traces removed. *)
Definition delete_where_traces (p : TraceRow -> bool) : M World Z :=
  n ← read_db (fun d => Z.of_nat (length (select p (traces_of d))));
  write_db (fun d => set_telemetry (delete_traces p (telemetry d)) d) ;;
  mret n.

Definition delete_trace (trace_id project_id : N) : M World bool :=
  rowcount ← delete_where_traces (owned_trace trace_id project_id);
  mret (0 <? rowcount).

Definition in_batch (project_id : N) (trace_ids : list N) (r : TraceRow) : bool :=
  of_project project_id r && bool_decide (t_id r ∈ trace_ids).

Definition batch_delete_traces (project_id : N) (trace_ids : list N) : M World Z :=
  delete_where_traces (in_batch project_id trace_ids).

(** ** Tags *)

(** The expression assigned to the tags: removals first, then the additions,
    deduplicated.  NULL is not a value of the column. *)
Definition tags_expr (add_tags remove_tags : list string) (tags : list string) : option (list string) :=
  let kept := foldl array_remove tags remove_tags in
  match add_tags with
  | [] => Some kept
  | _ => array_agg_distinct pg (kept ++ add_tags)
  end.
Definition set_tags (v : list string) (t : TraceRow) : TraceRow := set_trace_field t (FTags (Some v)).

Definition batch_update_tags (project_id : N) (trace_ids : list N) (add_tags remove_tags : list string) : M World Z :=
  guard_not (negb (forallb text_storable (add_tags ++ remove_tags))) DataError ;;
  rows ← read_db (fun d => select (in_batch project_id trace_ids) (traces_of d));
  guard_not (existsb (fun r => bool_decide (tags_expr add_tags remove_tags (t_tags r) = None)) rows) IntegrityError ;;
  write_db (fun d => set_traces
    (update_where (in_batch project_id trace_ids)
       (fun r => set_tags (default [] (tags_expr add_tags remove_tags (t_tags r))) r) (traces_of d)) d) ;;
  mret (Z.of_nat (length rows)).

Definition of_session (project_id : N) (session_id : string) (r : TraceRow) : bool :=
  of_project project_id r && sql_eq (t_session r) session_id.

Definition delete_session (project_id : N) (session_id : string) : M World Z :=
  delete_where_traces (of_session project_id session_id).
End repo.
End TraceRepository.
