(* ===== verification/Upserts.v ===== *)
(** * Upserts

    The theory of INSERT ... ON CONFLICT DO UPDATE for rows whose merge is
    associative and idempotent ([UpsertLaws]): a batch of upserts acts on each key
    like one merge with the batch's combined row, so applying a batch twice is
    applying it once.  Spans are an instance; traces are one up to the order of their tags. *)
From stdpp Require Import base gmap strings list.
From Stdlib Require Import ZArith Lia ssreflect.
From S2P Require Import Prelude Constants Entities Float64 Json Evals Telemetry Sql World TraceRepo.

#[local] Open Scope Z_scope.

(** ** The laws of a merge *)

Class KeepsKey {R} (ident : R -> N) (merge : R -> R -> R) : Prop :=
  merge_ident x r : ident (merge x r) = ident r.
Class UpsertLaws {R} (ident : R -> N) (merge : R -> R -> R) : Prop := {
  upsert_keeps_key :: KeepsKey ident merge;
  merge_assoc x y r : merge x (merge y r) = merge (merge x y) r;
  merge_refl x : merge x x = x }.

Section puts.
Context {R : Type} (ident : R -> N) (merge : R -> R -> R).

Definition hit (id : N) (r : R) : bool := bool_decide (ident r = id).
Definition put (tb : list R) (x : R) : list R :=
  if existsb (hit (ident x)) tb then update_where (hit (ident x)) (merge x) tb else tb ++ [x].
Definition puts (tb : list R) (l : list R) : list R := foldl put tb l.

(** The row of a key, and what the upsert of [x] makes of it. *)
Definition row_of (id : N) (tb : list R) : option R := List.find (hit id) tb.
Definition put_row (id : N) (o : option R) (x : R) : option R :=
  if decide (id = ident x) then Some (match o with Some r => merge x r | None => x end) else o.

Context `{!KeepsKey ident merge}.

Lemma hit_true id r : hit id r = true <-> ident r = id.
Proof using. apply bool_decide_eq_true. Qed.

Lemma row_of_put id tb x : row_of id (put tb x) = put_row id (row_of id tb) x.
Proof.
  unfold put, put_row, row_of.
  assert (Hupd : List.find (hit id) (update_where (hit (ident x)) (merge x) tb) =
    if decide (id = ident x) then merge x <$> List.find (hit id) tb else List.find (hit id) tb).
  { induction tb as [|r tb IH]; [by destruct (decide _)|]. cbn. destruct (hit (ident x) r) eqn:Hr.
    - apply hit_true in Hr. unfold hit at 1. rw (merge_ident x r). fold (hit id r).
      destruct (decide (id = ident x)) as [->|Hne].
      + rw (proj2 (hit_true (ident x) r)); [done|]. done.
      + assert (hit id r = false) as -> by (apply bool_decide_eq_false; congruence). exact IH.
    - destruct (hit id r) eqn:Hi; [|exact IH]. apply hit_true in Hi. destruct (decide (id = ident x)) as [->|]; [|done].
      apply bool_decide_eq_false in Hr. by destruct Hr. }
  destruct (existsb (hit (ident x)) tb) eqn:He.
  - rw Hupd. destruct (decide (id = ident x)) as [->|]; [|done].
    apply List.existsb_exists in He as (r & Hr & Hh). destruct (List.find (hit (ident x)) tb) eqn:Ef; [done|].
    apply (List.find_none _ _ Ef) in Hr. congruence.
  - clear Hupd. assert (Hf : List.find (hit (ident x)) tb = None).
    { destruct (List.find (hit (ident x)) tb) as [r|] eqn:Ef; [|done]. apply List.find_some in Ef as [Hin Hh].
      rewrite <- not_true_iff_false in He. destruct He. apply List.existsb_exists. eauto. }
    assert (Hsnoc : forall tb', List.find (hit id) (tb' ++ [x]) =
      match List.find (hit id) tb' with Some r => Some r | None => if hit id x then Some x else None end).
    { induction tb' as [|r tb' IH]; [done|]. cbn. by destruct (hit id r). }
    rw Hsnoc. destruct (decide (id = ident x)) as [->|Hne].
    + rw Hf. by rw (proj2 (hit_true (ident x) x)).
    + assert (hit id x = false) as -> by (apply bool_decide_eq_false; congruence). by destruct (List.find (hit id) tb).
Qed.

Lemma puts_cons tb x l : puts tb (x :: l) = puts (put tb x) l.
Proof using. done. Qed.

Lemma row_of_puts id l tb : row_of id (puts tb l) = foldl (put_row id) (row_of id tb) l.
Proof. revert tb. induction l as [|x l IH]; intros tb; [done|]. by rw puts_cons IH row_of_put. Qed.

(** A batch acts on a key like one merge. *)
Lemma put_row_combined `{!UpsertLaws ident merge} id l o : foldl (put_row id) o l =
  match foldl (put_row id) None l with
  | None => o
  | Some p => Some (match o with Some r => merge p r | None => p end)
  end.
Proof.
  induction l as [|x l IH] using rev_ind; [done|]. rw !foldl_app. cbn. rw IH. unfold put_row.
  destruct (decide (id = ident x)); [|done].
  destruct (foldl _ None l) as [p|]; [|done]. destruct o as [r|]; [|done]. by rw (merge_assoc x p r).
Qed.

Lemma put_row_twice `{!UpsertLaws ident merge} id l o : foldl (put_row id) (foldl (put_row id) o l) l = foldl (put_row id) o l.
Proof using.
  rw (put_row_combined id l (foldl (put_row id) o l)) (put_row_combined id l o).
  destruct (foldl _ None l) as [p|]; [|done]. destruct o as [r|]; [rw (merge_assoc p p r)|]; by rw (merge_refl p).
Qed.

Lemma idents_put tb x : List.map ident (put tb x) =
  if existsb (hit (ident x)) tb then List.map ident tb else List.map ident tb ++ [ident x].
Proof.
  unfold put. destruct (existsb _ tb); [|by rw List.map_app].
  unfold update_where. rw List.map_map. apply List.map_ext. intros r. destruct (hit _ r); [apply merge_ident|done].
Qed.

Lemma existsb_hit id tb : existsb (hit id) tb = true <-> id ∈ List.map ident tb.
Proof using.
  rw List.existsb_exists list_elem_of_fmap. setoid_rewrite hit_true. setoid_rewrite list_elem_of_In. naive_solver.
Qed.

Lemma NoDup_put tb x : NoDup (List.map ident tb) -> NoDup (List.map ident (put tb x)).
Proof.
  intros H. rw idents_put. destruct (existsb _ tb) eqn:E; [done|]. apply NoDup_app. split_and!; [done| |apply NoDup_singleton].
  intros i Hi ->%list_elem_of_singleton. apply existsb_hit in Hi. congruence.
Qed.
Lemma NoDup_puts l tb : NoDup (List.map ident tb) -> NoDup (List.map ident (puts tb l)).
Proof. revert tb. induction l as [|x l IH]; intros tb H; [done|]. rw puts_cons. by apply IH, NoDup_put. Qed.

Lemma elem_of_idents_put i tb x : i ∈ List.map ident (put tb x) <-> i ∈ List.map ident tb \/ i = ident x.
Proof.
  rw idents_put. destruct (existsb _ tb) eqn:E; [|rw elem_of_app list_elem_of_singleton; done].
  apply existsb_hit in E. naive_solver.
Qed.
Lemma elem_of_idents_puts i l tb : i ∈ List.map ident (puts tb l) <-> i ∈ List.map ident tb \/ i ∈ List.map ident l.
Proof.
  revert tb. induction l as [|x l IH]; intros tb; [cbn; rw elem_of_nil; tauto|].
  rw puts_cons IH elem_of_idents_put. cbn [List.map]. rw elem_of_cons. tauto.
Qed.

(** Once every key of the batch is present the keys stay. *)
Lemma idents_puts_hit l tb : (forall x, x ∈ l -> ident x ∈ List.map ident tb) ->
  List.map ident (puts tb l) = List.map ident tb.
Proof.
  revert tb. induction l as [|x l IH]; intros tb H; [done|]. rw puts_cons.
  assert (E : List.map ident (put tb x) = List.map ident tb).
  { rw idents_put. rw (proj2 (existsb_hit (ident x) tb)); [apply H; by left|done]. }
  rw IH; [|done]. intros y Hy. rw E. apply H. by right.
Qed.

(** A table is determined by its keys and the row of each key. *)
Lemma table_ext tb tb' : NoDup (List.map ident tb) -> List.map ident tb = List.map ident tb' ->
  (forall id, row_of id tb = row_of id tb') -> tb = tb'.
Proof using.
  revert tb'. induction tb as [|r tb IH]; intros [|r' tb'] Hn Hi Hf; try done. cbn in Hi. injection Hi as Hr Hi.
  assert (r = r') as ->.
  { pose proof (Hf (ident r)) as H. unfold row_of in H. cbn in H.
    rewrite (proj2 (hit_true (ident r) r) eq_refl) (proj2 (hit_true (ident r) r') (eq_sym Hr)) in H. by injection H. }
  cbn in Hn. apply NoDup_cons in Hn as [Hx Hn]. f_equal. apply IH; [done|done|]. intros id.
  pose proof (Hf id) as H. unfold row_of in H. cbn in H. destruct (hit id r') eqn:E; [|exact H].
  apply hit_true in E as <-. assert (Hno : forall t, List.map ident t = List.map ident tb -> row_of (ident r') t = None).
  { intros t Ht. destruct (row_of (ident r') t) as [y|] eqn:Ey; [|done]. apply List.find_some in Ey as [Hy Hh%hit_true].
    destruct Hx. rw -Ht. apply list_elem_of_fmap. exists y. split; [done|by apply list_elem_of_In]. }
  by rw (Hno tb eq_refl) (Hno tb' (eq_sym Hi)).
Qed.

(** Redelivering a batch changes nothing. *)
Lemma puts_twice `{!UpsertLaws ident merge} l tb : NoDup (List.map ident tb) -> puts (puts tb l) l = puts tb l.
Proof.
  intros Hn. apply table_ext; [by do 2 apply NoDup_puts| |].
  - apply idents_puts_hit. intros x Hx. apply elem_of_idents_puts. right. apply list_elem_of_fmap. eauto.
  - intros id. rw !row_of_puts. apply put_row_twice.
Qed.

(** Redelivering a batch into a table that holds the rows it left changes nothing. *)
Lemma puts_again `{!UpsertLaws ident merge} l tb0 tb : NoDup (List.map ident tb) ->
  (forall x, x ∈ l -> row_of (ident x) tb = row_of (ident x) (puts tb0 l)) -> puts tb l = tb.
Proof.
  intros Hn H.
  assert (Hrow : forall id, id ∈ List.map ident l -> row_of id tb = foldl (put_row id) (row_of id tb0) l).
  { intros id (x & -> & Hx)%list_elem_of_fmap. by rw (H x Hx) row_of_puts. }
  assert (Hsome : forall id l' o, id ∈ List.map ident l' -> is_Some (foldl (put_row id) o l')).
  { intros id l'. induction l' as [|x l' IH] using rev_ind; intros o; [by intros ?%elem_of_nil|].
    rw foldl_app List.map_app elem_of_app list_elem_of_singleton. cbn. unfold put_row at 1.
    destruct (decide (id = ident x)) as [|Hne]; [done|]. intros [Hi|Hi]; [by apply IH|done]. }
  assert (Hids : List.map ident (puts tb l) = List.map ident tb).
  { apply idents_puts_hit. intros x Hx. assert (Hi : ident x ∈ List.map ident l) by (apply list_elem_of_fmap; eauto).
    destruct (Hsome (ident x) l (row_of (ident x) tb0) Hi) as [r Hr]. rewrite <- (Hrow _ Hi) in Hr.
    apply List.find_some in Hr as [Hr <-%hit_true]. apply list_elem_of_fmap. exists r. split; [done|by apply list_elem_of_In]. }
  apply table_ext; [by rw Hids|exact Hids|]. intros id. rw row_of_puts.
  destruct (decide (id ∈ List.map ident l)) as [Hi|Hi]; [rw (Hrow id Hi); apply put_row_twice|].
  assert (Hnone : forall l' o, id ∉ List.map ident l' -> foldl (put_row id) o l' = o); [|by apply Hnone].
  clear. induction l' as [|x l' IH]; intros o; [done|]. cbn [List.map foldl]. intros [Hx Hl]%not_elem_of_cons.
  unfold put_row at 2. destruct (decide _) as [|]; [done|]. by apply IH.
Qed.

(** Rows of other keys stay as they are. *)
Lemma elem_of_puts_other r l tb : ident r ∉ List.map ident l -> r ∈ puts tb l <-> r ∈ tb.
Proof.
  revert tb. induction l as [|x l IH]; intros tb Hn; [done|]. cbn [List.map] in Hn. apply not_elem_of_cons in Hn as [Hx Hn].
  rw puts_cons. rw (IH (put tb x) Hn). unfold put. destruct (existsb _ tb).
  - rw elem_of_update_where. split.
    + intros (r0 & Hr0 & ->). destruct (hit _ r0) eqn:E; [|done]. apply hit_true in E.
      rewrite (merge_ident x r0) in Hx. congruence.
    + intros Hr. exists r. split; [done|]. destruct (hit _ r) eqn:E; [|done]. by apply hit_true in E.
  - rw elem_of_app list_elem_of_singleton. split; [|auto]. intros [H| ->]; done.
Qed.
End puts.

(** ** Spans and traces *)

Import TraceRepository.

#[export] Instance span_laws : UpsertLaws s_id merge_span.
Proof.
  split; [done| |].
  - intros x y r. unfold merge_span, jsonb_concat, coalesce. cbn. f_equal; try (by apply (assoc_L (∪)));
      by repeat match goal with |- context [match ?o with Some _ => _ | None => _ end] => destruct o end.
  - intros []. unfold merge_span, jsonb_concat, coalesce. cbn. f_equal; try (apply map_union_idemp);
      by repeat match goal with |- context [match ?o with Some _ => _ | None => _ end] => destruct o end.
Qed.

#[export] Instance trace_keeps_key pg : KeepsKey t_id (merge_trace pg).
Proof. done. Qed.

Lemma elem_of_array_agg pg l x : x ∈ default [] (array_agg_distinct pg l) <-> x ∈ l.
Proof.
  destruct l as [|y l]; [done|]. unfold array_agg_distinct. cbn [default].
  by rw elem_of_order_by elem_of_remove_dups.
Qed.

(** Rows that differ in the order and the repetitions of their tags at most. *)
Definition same_trace (a b : TraceRow) : Prop :=
  set_tags [] a = set_tags [] b /\ forall x, x ∈ t_tags a <-> x ∈ t_tags b.
#[export] Instance same_trace_equiv : Equivalence same_trace.
Proof.
  split.
  - by intros a.
  - intros a b [H1 H2]. split; [done|]. intros x. by rw H2.
  - intros a b c [H1 H2] [H3 H4]. split; [congruence|]. intros x. by rw H2.
Qed.

(** The tags of a merged row are those of both rows. *)
Lemma merged_tags pg x t y : y ∈ t_tags (merge_trace pg x t) <-> y ∈ t_tags t \/ y ∈ t_tags x.
Proof.
  unfold merge_trace. cbn [t_tags]. destruct (t_tags t ++ t_tags x) as [|z l] eqn:E.
  - cbn. apply app_eq_nil in E as [-> ->]. tauto.
  - pose proof (elem_of_array_agg pg (z :: l) y) as H. cbn in H |- *. by rw H -E elem_of_app.
Qed.

Lemma coalesce_twice {A} (x t : option A) : coalesce x (coalesce x t) = coalesce x t.
Proof. by destruct x. Qed.

Lemma merge_trace_twice pg x t : same_trace (merge_trace pg x (merge_trace pg x t)) (merge_trace pg x t).
Proof.
  split; [|intros y; rw !merged_tags; tauto].
  unfold set_tags, set_trace_field, merge_trace, jsonb_concat. cbn. f_equal; try apply coalesce_twice.
  by rw (assoc_L (∪)) map_union_idemp.
Qed.
Lemma merge_trace_refl pg x : same_trace (merge_trace pg x x) x.
Proof.
  split; [|intros y; rw merged_tags; tauto].
  destruct x. unfold set_tags, set_trace_field, merge_trace, jsonb_concat, coalesce. cbn.
  f_equal; try (apply map_union_idemp); by repeat match goal with |- context [match ?o with Some _ => _ | None => _ end] => destruct o end.
Qed.
