(* ===== verification/TraceQueries.v ===== *)
(** * The trace repository: listings, sessions and analytics

    The aggregating queries of db/repositories/trace_repo.py.  Latencies are
    microseconds (the SQL expression gives their thousandth, in milliseconds); an
    average is the sum and the number of its values. *)
From stdpp Require Import base gmap strings list.
From Stdlib Require Import ZArith Lia Ascii ssreflect.
From S2P Require Import Prelude Constants Entities Float64 Json Evals Telemetry Sql World TraceRepo.

#[local] Open Scope Z_scope.

Module TraceQueries.

Import TraceRepository.

Section queries.
Context (pg : Postgres).

(** ** Span statistics *)

Record SpanStats := { st_trace : N; st_spans : Z; st_tokens : Z; st_cost : float }.

Definition usage_of (key : string) (s : SpanRow) : option Json := json_read (s_token_usage s) ≫= (fun m => m !! key).
Definition prompt_tokens (s : SpanRow) : res Z := v ← cast_integer pg (usage_of "prompt_tokens" s); Ok (default 0 v).
Definition completion_tokens (s : SpanRow) : res Z := v ← cast_integer pg (usage_of "completion_tokens" s); Ok (default 0 v).
Definition span_tokens (s : SpanRow) : res Z :=
  a ← prompt_tokens s; b ← completion_tokens s; int4 (a + b).
Definition span_cost (s : SpanRow) : float := default (of_Z 0) (json_read (s_cost s) ≫= (fun m => m !! "total"%string)).

(** The aggregates over the spans of one trace (at least one). *)
Definition stats_of (id : N) (spans : list SpanRow) : res SpanStats :=
  tokens ← res_all (List.map span_tokens spans);
  cost ← sum_float8 (List.map span_cost spans);
  Ok {| st_trace := id; st_spans := Z.of_nat (length spans); st_tokens := zsum tokens; st_cost := default (of_Z 0) cost |}.

(** The spans joined with the traces of a project. *)
Definition project_spans (d : DB) (project_id : N) : list SpanRow :=
  select (fun s => existsb (owned_trace (s_trace s) project_id) (traces_of d)) (spans_of d).

Definition _span_stats_subquery (d : DB) (project_id : N) (want : SpanRow -> bool) : res (list SpanStats) :=
  res_all (List.map (fun g => stats_of g.1 g.2) (group_by s_trace (select want (project_spans d project_id)))).

(** The LEFT JOIN: the statistics of a trace, if it has spans. *)
Definition stats_for (stats : list SpanStats) (t : TraceRow) : option SpanStats :=
  List.find (fun s => bool_decide (st_trace s = t_id t)) stats.

(** ** Filters and listing *)

Record TraceFilters := {
  f_session : option string;
  f_status : option TraceStatus;
  f_user : option string;
  f_tags : list string;
  f_name : option string;
  f_after : option Z;
  f_before : option Z }.

Definition opt_filter {A} (v : option A) (test : A -> bool) : bool :=
  match v with Some x => test x | None => true end.

(** [if name:] compiles the pattern; the empty text is no filter. *)
Definition contains_filter (v : option string) : res (string -> bool) :=
  match v with
  | None | Some EmptyString => Ok (fun _ => true)
  | Some x => ilike ("%" +:+ _escape_like x +:+ "%")
  end.

Definition overlap_filter (tags : list string) (t : TraceRow) : bool :=
  match tags with [] => true | _ => overlap (t_tags t) tags end.

Definition _apply_trace_filters (f : TraceFilters) : res (TraceRow -> bool) :=
  like ← contains_filter (f_name f);
  Ok (fun t =>
    opt_filter (f_session f) (sql_eq (t_session t))
    && opt_filter (f_status f) (fun s => bool_decide (t_status t = s))
    && opt_filter (f_user f) (sql_eq (t_user t))
    && overlap_filter (f_tags f) t
    && like (t_name t)
    && opt_filter (f_after f) (fun a => a <=? t_started t)
    && opt_filter (f_before f) (fun b => t_started t <? b)).

Definition latency (t : TraceRow) : option Z := e ← t_ended t; Some (e - t_started t).

Record ListRow := { l_trace : TraceRow; l_spans : Z; l_tokens : Z; l_cost : float; l_latency : option Z }.
Definition list_row (stats : list SpanStats) (t : TraceRow) : ListRow :=
  let s := stats_for stats t in
  {| l_trace := t; l_spans := default 0 (st_spans <$> s); l_tokens := default 0 (st_tokens <$> s);
     l_cost := default (of_Z 0) (st_cost <$> s); l_latency := latency t |}.

Definition sort_rows (by_ : TraceSortBy) (o : SortOrder) : list ListRow -> list ListRow :=
  match by_ with
  | STARTED_AT => sort_by Z.leb (fun r => Some (t_started (l_trace r))) o
  | ENDED_AT => sort_by Z.leb (fun r => t_ended (l_trace r)) o
  | NAME => sort_by (collate pg) (fun r => Some (t_name (l_trace r))) o
  | STATUS => sort_by (collate pg) (fun r => Some (TraceStatus_value (t_status (l_trace r)))) o
  | LATENCY => sort_by Z.leb l_latency o
  end.

Definition list_traces (project_id : N) (limit offset : Z) (f : TraceFilters) (by_ : TraceSortBy) (o : SortOrder) :
    M World (list ListRow * Z) :=
  read_res (fun d =>
    test ← _apply_trace_filters f;
    stats ← _span_stats_subquery d project_id (fun _ => true);
    let base := List.map (list_row stats) (select (fun t => of_project project_id t && test t) (traces_of d)) in
    Ok (page offset limit (sort_rows by_ o base), Z.of_nat (length base))).

(** ** Sessions *)

Record SessionRow := {
  ss_session : string;
  ss_traces : Z;
  ss_first : option Z;
  ss_last : option Z;
  ss_latency : option Z;
  ss_error : bool;
  ss_user : option string;
  ss_tags : list string;
  ss_spans : Z;
  ss_tokens : Z;
  ss_cost : float;
  ss_recent : option Z }.

(** The aggregates over the rows of one session; [seen] are the rows the correlated
    subqueries range over. *)
Definition session_row (stats : list SpanStats) (sid : string) (rows seen : list TraceRow) : res SessionRow :=
  cost ← sum_float8 (omap (fun t => st_cost <$> stats_for stats t) rows);
  Ok {| ss_session := sid;
        ss_traces := Z.of_nat (length rows);
        ss_first := sql_min (List.map (fun t => Some (t_started t)) rows);
        ss_last := sql_max (List.map t_ended rows);
        ss_latency := sql_sum (List.map latency rows);
        ss_error := bool_or (List.map (fun t => bool_decide (t_status t = TERROR)) rows);
        ss_user := head (omap t_user (sort_by Z.leb (fun t => Some (t_started t)) ASC
                     (select (fun t => negb (bool_decide (t_user t = None))) seen)));
        ss_tags := default [] (array_agg_distinct pg (flat_map t_tags seen));
        ss_spans := default 0 (sql_sum (List.map (fun t => st_spans <$> stats_for stats t) rows));
        ss_tokens := default 0 (sql_sum (List.map (fun t => st_tokens <$> stats_for stats t) rows));
        ss_cost := default (of_Z 0) cost;
        ss_recent := sql_max (List.map (fun t => Some (t_created t)) rows) |}.

Record SessionFilters := {
  sf_user : option string;
  sf_error : option bool;
  sf_after : option Z;
  sf_before : option Z;
  sf_tags : list string;
  sf_query : option string }.

(** The conditions common to the query ([base_where]) and its subqueries. *)
Definition session_filter (project_id : N) (f : SessionFilters) : res (TraceRow -> bool) :=
  like ← contains_filter (sf_query f);
  Ok (fun t =>
    of_project project_id t
    && opt_filter (sf_after f) (fun a => a <=? t_started t)
    && opt_filter (sf_before f) (fun b => t_started t <? b)
    && opt_filter (sf_user f) (sql_eq (t_user t))
    && overlap_filter (sf_tags f) t
    && opt_filter (sf_query f) (fun _ => match t_session t with Some s => like s | None => false end)).

Definition sort_sessions (by_ : SessionSortBy) (o : SortOrder) : list SessionRow -> list SessionRow :=
  match by_ with
  | RECENT => sort_by Z.leb ss_recent o
  | TRACE_COUNT => sort_by Z.leb (fun s => Some (ss_traces s)) o
  | SLATENCY => sort_by Z.leb ss_latency o
  | COST => sort_by fleb (fun s => Some (ss_cost s)) o
  end.

(** The rows of the query that carry a session, by session. *)
Definition sessions_of (test : TraceRow -> bool) (rows : list TraceRow) : list (string * list TraceRow) :=
  omap (fun g => match g.1 with Some sid => Some (sid, g.2) | None => None end)
    (group_by t_session (select (fun t => test t && negb (bool_decide (t_session t = None))) rows)).

Definition list_sessions (project_id : N) (limit offset : Z) (f : SessionFilters) (by_ : SessionSortBy) (o : SortOrder) :
    M World (list SessionRow * Z) :=
  read_res (fun d =>
    test ← session_filter project_id f;
    stats ← _span_stats_subquery d project_id (fun _ => true);
    rows ← res_all (List.map
      (fun g => session_row stats g.1 g.2 (select (fun t => test t && sql_eq (t_session t) g.1) (traces_of d)))
      (sessions_of test (traces_of d)));
    let kept := select (fun s => opt_filter (sf_error f) (fun b => Bool.eqb (ss_error s) b)) rows in
    Ok (page offset limit (sort_sessions by_ o kept), Z.of_nat (length kept))).

Definition get_session_summary (project_id : N) (session_id : string) : M World (option SessionRow) :=
  read_res (fun d =>
    stats ← _span_stats_subquery d project_id (fun _ => true);
    let rows := select (of_session project_id session_id) (traces_of d) in
    match rows with
    | [] => Ok None
    | _ => s ← session_row stats session_id rows rows; Ok (Some s)
    end).

Definition get_session_traces (project_id : N) (session_id : string) (limit offset : Z) : M World (list Trace * Z) :=
  read_res (fun d =>
    let rows := select (of_session project_id session_id) (traces_of d) in
    traces ← res_all (List.map (fun r => _to_trace r (spans_of_trace d (t_id r)))
      (page offset limit (sort_by Z.leb (fun t => Some (t_started t)) ASC rows)));
    Ok (traces, Z.of_nat (length rows))).

(** The dictionary from trace to tokens and cost; the server aggregates the groups
    the WHERE clause keeps. *)
Definition get_trace_span_stats (project_id : N) (trace_ids : list N) : M World (gmap N (Z * float)) :=
  match trace_ids with
  | [] => mret ∅
  | _ =>
      read_res (fun d =>
        stats ← _span_stats_subquery d project_id (fun s => bool_decide (s_trace s ∈ trace_ids));
        Ok (list_to_map (List.map (fun s => (st_trace s, (st_tokens s, st_cost s))) stats)))
  end.

(** ** Analytics *)

Definition in_window (a b : Z) (t : Z) : bool := (a <=? t) && (t <? b).

Record SessionBucket := { sb_bucket : Z; sb_sessions : Z; sb_avg_traces : option (Z * Z); sb_avg_duration : option (Z * Z) }.
Definition get_session_analytics (project_id : N) (g : AnalyticsGranularity) (a b : Z) : M World (list SessionBucket) :=
  read_db (fun d =>
    let cte := sessions_of (fun t => of_project project_id t && in_window a b (t_started t)) (traces_of d) in
    let first s := default 0 (sql_min (List.map (fun t => Some (t_started t)) s.2)) in
    order_by (fun x y => sb_bucket x <=? sb_bucket y)
      (List.map (fun grp =>
         {| sb_bucket := grp.1; sb_sessions := Z.of_nat (length grp.2);
            sb_avg_traces := sql_avg (List.map (fun s => Some (Z.of_nat (length s.2))) grp.2);
            sb_avg_duration := sql_avg (List.map (fun s => sql_sum (List.map latency s.2)) grp.2) |})
         (group_by (fun s : string * list TraceRow => date_trunc pg g (first s)) cte))).

Record TraceBucket := {
  tb_bucket : Z; tb_traces : Z; tb_errors : Z; tb_avg : option (Z * Z);
  tb_p50 : option float; tb_p90 : option float; tb_p99 : option float }.
Definition get_trace_analytics (project_id : N) (g : AnalyticsGranularity) (a b : Z) : M World (list TraceBucket) :=
  read_db (fun d =>
    let percentile p rows := (fun x => fmul x (of_Z 1000)) <$> percentile_cont pg p (omap latency rows) in
    order_by (fun x y => tb_bucket x <=? tb_bucket y)
      (List.map (fun grp =>
         {| tb_bucket := grp.1; tb_traces := Z.of_nat (length grp.2);
            tb_errors := Z.of_nat (length (select (fun t => bool_decide (t_status t = TERROR)) grp.2));
            tb_avg := sql_avg (List.map latency grp.2);
            tb_p50 := percentile (decimal 5 1) grp.2; tb_p90 := percentile (decimal 9 1) grp.2;
            tb_p99 := percentile (decimal 99 2) grp.2 |})
         (group_by (fun t => date_trunc pg g (t_started t))
            (select (fun t => of_project project_id t && in_window a b (t_started t)) (traces_of d))))).

Record TokenBucket := { kb_bucket : Z; kb_tokens : Z; kb_prompt : Z; kb_completion : Z; kb_cost : float }.
Definition get_token_cost_analytics (project_id : N) (g : AnalyticsGranularity) (a b : Z) : M World (list TokenBucket) :=
  read_res (fun d =>
    rows ← res_all (List.map (fun grp =>
        total ← res_all (List.map span_tokens grp.2);
        prompt ← res_all (List.map prompt_tokens grp.2);
        completion ← res_all (List.map completion_tokens grp.2);
        cost ← sum_float8 (List.map span_cost grp.2);
        Ok {| kb_bucket := grp.1; kb_tokens := zsum total; kb_prompt := zsum prompt; kb_completion := zsum completion;
              kb_cost := default (of_Z 0) cost |})
      (group_by (fun s => date_trunc pg g (s_started s))
         (select (fun s => in_window a b (s_started s)) (project_spans d project_id))));
    Ok (order_by (fun x y => kb_bucket x <=? kb_bucket y) rows)).

Record ModelRow := { mr_model : string; mr_calls : Z; mr_tokens : Z; mr_cost : float }.
Definition get_top_models (project_id : N) (a b limit : Z) : M World (list ModelRow) :=
  read_res (fun d =>
    rows ← res_all (List.map (fun grp =>
        total ← res_all (List.map span_tokens grp.2);
        cost ← sum_float8 (List.map span_cost grp.2);
        Ok {| mr_model := default EmptyString grp.1; mr_calls := Z.of_nat (length grp.2); mr_tokens := zsum total;
              mr_cost := default (of_Z 0) cost |})
      (group_by s_model
         (select (fun s => negb (bool_decide (s_model s = None)) && in_window a b (s_started s))
            (project_spans d project_id))));
    Ok (page 0 limit (order_by (fun x y => mr_calls y <=? mr_calls x) rows))).

Record UserRow := { us_user : string; us_traces : Z; us_first : option Z; us_last : option Z; us_errors : Z }.
Definition list_trace_users (project_id : N) (limit offset : Z) : M World (list UserRow * Z) :=
  read_db (fun d =>
    let rows := List.map (fun grp =>
        {| us_user := default EmptyString grp.1; us_traces := Z.of_nat (length grp.2);
           us_first := sql_min (List.map (fun t => Some (t_started t)) grp.2);
           us_last := sql_max (List.map (fun t => Some (t_started t)) grp.2);
           us_errors := Z.of_nat (length (select (fun t => bool_decide (t_status t = TERROR)) grp.2)) |})
      (group_by t_user (select (fun t => of_project project_id t && negb (bool_decide (t_user t = None))) (traces_of d))) in
    (page offset limit (sort_by Z.leb us_last DESC rows), Z.of_nat (length rows))).
End queries.

(** C32: Name and session searches are literal.  Whatever characters the search text
    contains, percent signs, underscores and backslashes included, the query is well
    formed and returns exactly the rows whose text contains it as a substring,
    ignoring case; the empty text does not filter. *)
Theorem contains_filter_literal (v : string) :
  exists test, contains_filter (Some v) = Ok test /\
    forall s, test s = true <-> exists a b, fold_case s = a ++ fold_case v ++ b.
Proof.
  destruct v as [|c v]; [exists (fun _ => true); split; [done|]; intros s; split; [by exists [], (fold_case s)|done]|].
  set (x := String c v). change (contains_filter (Some x)) with (ilike ("%" +:+ _escape_like x +:+ "%")).
  clearbody x. clear c v. unfold ilike.
  unfold fold_case at 1. rw !list_ascii_of_app escape_like_chars !List.map_app.
  change (List.map lower_char (String.list_ascii_of_string "%")) with [percent]. cbn [app like_pattern].
  rw (bool_decide_eq_false_2 (percent = backslash)); [done|]. rw (bool_decide_eq_true_2 (percent = percent)); [done|].
  rw (like_pattern_escaped _ [percent] [AnyString]); [done|].
  eexists. split; [reflexivity|]. intros s. apply like_match_contains.
Qed.
End TraceQueries.
