(* ===== verification/Traces.v ===== *)
(** * The trace service, its routes and the ingestion task

    services/trace_service.py ([TraceService]), api/v1/routes/traces.py
    ([TracesApi]), api/v1/routes/sessions.py ([SessionsApi]) and [process_trace] of
    queue/tasks.py.  A handler takes the context that [require_project] returns; a
    timestamp of a response is kept as a timestamp.  Whether the message broker accepts a message
    is a parameter. *)
From stdpp Require Import base gmap strings list.
From Stdlib Require Import ZArith Lia Ascii ssreflect.
From S2P Require Import Prelude Constants Entities Float64 Json Evals Telemetry Sql World BillingRepo Usage Security IdentityRepo Identity ApiAuth TraceRepo TraceQueries.

#[local] Open Scope Z_scope.

Import TraceRepository TraceQueries.

(** [task.delay(...)]: the message is queued, or the broker's error raised. *)
Definition delay (broker : Task -> option exn) (t : Task) : M World unit :=
  match broker t with
  | Some e => raise e
  | None => enqueue t
  end.

Definition not_found (what : string) : exn := PP NotFoundError what.

(** ** services/trace_service.py *)

Module TraceService.

Section service.
Context (pg : Postgres) (broker : Task -> option exn).

(** The task identifier Celery draws. *)
Definition enqueue_trace (trace : Trace) : M World N :=
  task_id ← uuid4;
  delay broker (TProcessTrace trace 0) ;;
  mret task_id.

Definition _enrich_trace (trace : Trace) : M World TraceDetail :=
  stats ← get_trace_span_stats pg (tr_project trace) [tr_id trace];
  let tc := default (0, of_Z 0) (stats !! tr_id trace) in
  mret {| td_trace := trace; td_tokens := tc.1; td_cost := tc.2 |}.

Definition update_trace (trace_id project_id : N) (fields : list TraceField) : M World TraceDetail :=
  row ← TraceRepository.update_trace trace_id project_id fields;
  match row with
  | None => raise (not_found "Trace not found.")
  | Some r => t ← lift (_to_trace r []); _enrich_trace t
  end.

Definition update_span (span_id trace_id project_id : N) (fields : list SpanField) : M World Span :=
  row ← TraceRepository.update_span span_id trace_id project_id fields;
  match row with
  | None => raise (not_found "Span not found on trace.")
  | Some s => lift (_to_span s)
  end.

Definition add_spans (trace_id project_id : N) (spans : list Span) : M World unit :=
  ok ← TraceRepository.add_spans trace_id project_id spans;
  guard_not (negb ok) (not_found "Trace not found.").

Definition get_trace (trace_id project_id : N) : M World TraceDetail :=
  trace ← TraceRepository.get_trace trace_id project_id;
  match trace with
  | None => raise (not_found "Trace not found.")
  | Some t => _enrich_trace t
  end.

Definition list_traces (project_id : N) (limit offset : Z) (f : TraceFilters) (by_ : TraceSortBy) (o : SortOrder) :
    M World (list ListRow * Z) :=
  TraceQueries.list_traces pg project_id limit offset f by_ o.

Definition delete_trace (trace_id project_id : N) : M World unit :=
  deleted ← TraceRepository.delete_trace trace_id project_id;
  guard_not (negb deleted) (not_found "Trace not found.").

Definition batch_delete_traces (project_id : N) (trace_ids : list N) : M World Z :=
  TraceRepository.batch_delete_traces project_id trace_ids.
Definition batch_update_tags (project_id : N) (trace_ids : list N) (add_tags remove_tags : list string) : M World Z :=
  TraceRepository.batch_update_tags pg project_id trace_ids add_tags remove_tags.

Definition list_sessions (project_id : N) (limit offset : Z) (f : SessionFilters) (by_ : SessionSortBy) (o : SortOrder) :
    M World (list SessionRow * Z) :=
  TraceQueries.list_sessions pg project_id limit offset f by_ o.

Definition get_session_summary (project_id : N) (session_id : string) : M World SessionRow :=
  row ← TraceQueries.get_session_summary pg project_id session_id;
  match row with
  | None => raise (not_found "Session not found.")
  | Some r => mret r
  end.

Definition get_session_traces (project_id : N) (session_id : string) (limit offset : Z) : M World (list TraceDetail * Z) :=
  found ← TraceQueries.get_session_traces project_id session_id limit offset;
  let '(traces, total) := found in
  stats ← get_trace_span_stats pg project_id (List.map tr_id traces);
  mret (List.map (fun t =>
          let tc := default (0, of_Z 0) (stats !! tr_id t) in
          {| td_trace := t; td_tokens := tc.1; td_cost := tc.2 |}) traces, total).

Definition delete_session (project_id : N) (session_id : string) : M World Z :=
  count ← TraceRepository.delete_session project_id session_id;
  guard_not (count =? 0) (not_found "Session not found.") ;;
  mret count.

Definition get_session_analytics (project_id : N) (g : AnalyticsGranularity) (a b : Z) : M World (list SessionBucket) :=
  TraceQueries.get_session_analytics pg project_id g a b.
Definition get_trace_analytics (project_id : N) (g : AnalyticsGranularity) (a b : Z) : M World (list TraceBucket) :=
  TraceQueries.get_trace_analytics pg project_id g a b.
Definition get_token_cost_analytics (project_id : N) (g : AnalyticsGranularity) (a b : Z) : M World (list TokenBucket) :=
  TraceQueries.get_token_cost_analytics pg project_id g a b.
Definition get_top_models (project_id : N) (a b limit : Z) : M World (list ModelRow) :=
  TraceQueries.get_top_models pg project_id a b limit.
Definition list_trace_users (project_id : N) (limit offset : Z) : M World (list UserRow * Z) :=
  TraceQueries.list_trace_users project_id limit offset.
End service.
End TraceService.

(** ** api/v1/routes/traces.py *)

Record Paginated (A : Type) := { pg_items : list A; pg_total : Z; pg_limit : Z; pg_offset : Z }.
Arguments Build_Paginated {A}.
Arguments pg_items {A}.
Arguments pg_total {A}.

(** [ctx.project.id] and [ctx.organization.id] *)
Definition project_of (ctx : ApiContext) : M World Project := or_raise AttributeError (cx_project ctx).

(** FastAPI refuses a request that does not fit its schema. *)
Definition schema (ok : bool) : M World unit :=
  guard_not (negb ok) (PP ValidationError "Request validation failed.").

Module TracesApi.

(** The parsed bodies; the identifiers a client omits are drawn by the schema's
    [default_factory] while parsing. *)
Record SpanCreate := {
  sc_id : N; sc_parent : option N; sc_name : string; sc_kind : SpanKind; sc_status : SpanStatusCode;
  sc_input : option Json; sc_output : option Json; sc_model : option string; sc_token_usage : option (Object Json);
  sc_metadata : Object Json; sc_started : Z; sc_ended : option Z; sc_error : option string;
  sc_completion_start : option Z; sc_model_parameters : option (Object Json); sc_cost : option (Object float) }.

Record TraceCreate := {
  tc_id : N; tc_name : string; tc_status : TraceStatus; tc_input : option Json; tc_output : option Json;
  tc_metadata : Object Json; tc_started : Z; tc_ended : option Z; tc_session : option string; tc_user : option string;
  tc_tags : list string; tc_environment : option string; tc_release : option string; tc_spans : list SpanCreate }.

Definition SpanCreate_ok (s : SpanCreate) : bool := name_ok (sc_name s) && short_ok (sc_model s).
Definition TraceCreate_ok (t : TraceCreate) : bool :=
  name_ok (tc_name t) && short_ok (tc_session t) && short_ok (tc_user t) && short_ok (tc_environment t)
  && short_ok (tc_release t) && (Z.of_nat (length (tc_spans t)) <=? 500) && forallb SpanCreate_ok (tc_spans t).

Definition build_span (trace_id : N) (s : SpanCreate) : Span :=
  {| sp_id := sc_id s; sp_trace := trace_id; sp_parent := sc_parent s; sp_name := sc_name s; sp_kind := sc_kind s;
     sp_status := sc_status s; sp_input := sc_input s; sp_output := sc_output s; sp_model := sc_model s;
     sp_token_usage := sc_token_usage s; sp_metadata := sc_metadata s; sp_started := sc_started s;
     sp_ended := sc_ended s; sp_error := sc_error s; sp_completion_start := sc_completion_start s;
     sp_model_parameters := sc_model_parameters s; sp_cost := sc_cost s |}.
(** The list comprehension over the body's spans: every [Span(...)] is validated. *)
Definition build_spans (trace_id : N) (l : list SpanCreate) : res (list Span) :=
  res_all (List.map (fun s => Span_validate (build_span trace_id s)) l).

Definition build_trace (project : N) (body : TraceCreate) : res Trace :=
  spans ← build_spans (tc_id body) (tc_spans body);
  Trace_validate {|
    tr_id := tc_id body; tr_project := project; tr_name := tc_name body; tr_status := tc_status body;
    tr_input := tc_input body; tr_output := tc_output body; tr_metadata := tc_metadata body;
    tr_started := tc_started body; tr_ended := tc_ended body; tr_session := tc_session body;
    tr_user := tc_user body; tr_tags := tc_tags body; tr_environment := tc_environment body;
    tr_release := tc_release body; tr_spans := spans |}.

(** Responses *)

Definition milliseconds (us : Z) : float := fmul (fdiv (of_Z us) (of_Z 1000000)) (of_Z 1000).

Record SpanResponse := { sr_span : Span; sr_latency : option float; sr_ttft : option float }.
Definition _span_to_response (s : Span) : SpanResponse :=
  {| sr_span := s;
     sr_latency := (fun e => milliseconds (e - sp_started s)) <$> sp_ended s;
     sr_ttft := (fun e => milliseconds (e - sp_started s)) <$> sp_completion_start s |}.

Record TraceResponse := { rp_trace : Trace; rp_tokens : Z; rp_cost : float; rp_spans : list SpanResponse }.
Definition _trace_to_response (d : TraceDetail) : TraceResponse :=
  {| rp_trace := td_trace d; rp_tokens := td_tokens d; rp_cost := td_cost d;
     rp_spans := List.map _span_to_response (tr_spans (td_trace d)) |}.

(** Milliseconds of a duration that the database computes as an exact decimal. *)
Definition decimal_ms (us : Z) : float := fdiv (of_Z us) (of_Z 1000).

Record TraceListItem := {
  ti_id : N; ti_name : string; ti_status : TraceStatus; ti_started : Z; ti_ended : option Z; ti_session : option string;
  ti_user : option string; ti_tags : list string; ti_environment : option string; ti_release : option string;
  ti_latency : option float; ti_spans : Z; ti_tokens : Z; ti_cost : float }.
Definition _row_to_list_item (r : ListRow) : TraceListItem :=
  let t := l_trace r in
  {| ti_id := t_id t; ti_name := t_name t; ti_status := t_status t; ti_started := t_started t; ti_ended := t_ended t;
     ti_session := t_session t; ti_user := t_user t; ti_tags := t_tags t; ti_environment := t_environment t;
     ti_release := t_release t; ti_latency := decimal_ms <$> l_latency r; ti_spans := l_spans r; ti_tokens := l_tokens r;
     ti_cost := l_cost r |}.

Section routes.
Context (pg : Postgres) (broker : Task -> option exn).

(** [POST /traces]: returns the trace and task identifiers. *)
Definition ingest_trace (ctx : ApiContext) (body : TraceCreate) : M World (N * N) :=
  schema (TraceCreate_ok body) ;;
  let org := o_id (cx_organization ctx) in
  check_and_increment org (UsageCategory_value TRACES) 1 ;;
  task_id ← try_except
    (project ← project_of ctx;
     trace ← lift (build_trace (p_id project) body);
     TraceService.enqueue_trace broker trace)
    (fun e => rollback_increment org (UsageCategory_value TRACES) 1 ;; raise e);
  mret (tc_id body, task_id).

Definition limits_ok (limit offset max : Z) : bool := (1 <=? limit) && (limit <=? max) && (0 <=? offset).

Definition list_traces (ctx : ApiContext) (limit offset : Z) (f : TraceFilters) (by_ : TraceSortBy) (o : SortOrder) :
    M World (Paginated TraceListItem) :=
  schema (limits_ok limit offset 200) ;;
  project ← project_of ctx;
  found ← TraceService.list_traces pg (p_id project) limit offset f by_ o;
  mret {| pg_items := List.map _row_to_list_item found.1; pg_total := found.2; pg_limit := limit; pg_offset := offset |}.

Inductive AnalyticsMetric := VOLUME | ERRORS | LATENCIES | COSTS | TOKENS | MODELS.
Inductive Analytics :=
  | Buckets (l : list TraceBucket)
  | TokenBuckets (l : list TokenBucket)
  | Models (l : list ModelRow).

Definition get_analytics (ctx : ApiContext) (m : AnalyticsMetric) (g : AnalyticsGranularity) (a b : Z) : M World Analytics :=
  project ← project_of ctx;
  match m with
  | VOLUME | ERRORS | LATENCIES => l ← TraceService.get_trace_analytics pg (p_id project) g a b; mret (Buckets l)
  | COSTS | TOKENS => l ← TraceService.get_token_cost_analytics pg (p_id project) g a b; mret (TokenBuckets l)
  | MODELS => l ← TraceService.get_top_models pg (p_id project) a b 10; mret (Models l)
  end.

Definition list_trace_users (ctx : ApiContext) (limit offset : Z) : M World (Paginated UserRow) :=
  schema (limits_ok limit offset 200) ;;
  project ← project_of ctx;
  found ← TraceService.list_trace_users (p_id project) limit offset;
  mret {| pg_items := found.1; pg_total := found.2; pg_limit := limit; pg_offset := offset |}.

Definition batch_ok (ids : list N) : bool := (1 <=? Z.of_nat (length ids)) && (Z.of_nat (length ids) <=? 500).

Definition batch_delete (ctx : ApiContext) (trace_ids : list N) : M World Z :=
  schema (batch_ok trace_ids) ;;
  project ← project_of ctx;
  TraceService.batch_delete_traces (p_id project) trace_ids.

Definition batch_tags (ctx : ApiContext) (trace_ids : list N) (add_tags remove_tags : list string) : M World Z :=
  schema (batch_ok trace_ids) ;;
  match add_tags, remove_tags with
  | [], [] => mret 0
  | _, _ => project ← project_of ctx; TraceService.batch_update_tags pg (p_id project) trace_ids add_tags remove_tags
  end.

(** The upper bounds of [TraceUpdate] and [SpanUpdate]; the names have no lower bound. *)
Definition TraceField_ok (f : TraceField) : bool :=
  match f with
  | FName (Some v) => len v <=? 512
  | FSession v | FUser v | FEnvironment v | FRelease v => short_ok v
  | _ => true
  end.
Definition SpanField_ok (f : SpanField) : bool :=
  match f with
  | SFName (Some v) => len v <=? 512
  | SFModel v => short_ok v
  | _ => true
  end.

Definition update_trace (ctx : ApiContext) (trace_id : N) (fields : list TraceField) : M World TraceResponse :=
  schema (forallb TraceField_ok fields) ;;
  project ← project_of ctx;
  detail ← TraceService.update_trace pg trace_id (p_id project) fields;
  mret (_trace_to_response detail).

Definition add_spans (ctx : ApiContext) (trace_id : N) (body : list SpanCreate) : M World (list N) :=
  schema ((1 <=? Z.of_nat (length body)) && (Z.of_nat (length body) <=? 500) && forallb SpanCreate_ok body) ;;
  spans ← lift (build_spans trace_id body);
  project ← project_of ctx;
  TraceService.add_spans trace_id (p_id project) spans ;;
  mret (List.map sp_id spans).

Definition update_span (ctx : ApiContext) (trace_id span_id : N) (fields : list SpanField) : M World SpanResponse :=
  schema (forallb SpanField_ok fields) ;;
  project ← project_of ctx;
  span ← TraceService.update_span span_id trace_id (p_id project) fields;
  mret (_span_to_response span).

Definition get_trace (ctx : ApiContext) (trace_id : N) : M World TraceResponse :=
  project ← project_of ctx;
  detail ← TraceService.get_trace pg trace_id (p_id project);
  mret (_trace_to_response detail).

Definition delete_trace (ctx : ApiContext) (trace_id : N) : M World unit :=
  project ← project_of ctx;
  TraceService.delete_trace trace_id (p_id project).
End routes.
End TracesApi.

(** ** api/v1/routes/sessions.py *)

Module SessionsApi.

Import TracesApi.

Record SessionSummary := {
  su_session : string; su_traces : Z; su_first : option Z; su_last : option Z; su_latency : option float; su_error : bool;
  su_user : option string; su_tags : list string; su_spans : Z; su_tokens : Z; su_cost : float }.
Definition _row_to_session_summary (r : SessionRow) : SessionSummary :=
  {| su_session := ss_session r; su_traces := ss_traces r; su_first := ss_first r; su_last := ss_last r;
     su_latency := decimal_ms <$> ss_latency r; su_error := ss_error r; su_user := ss_user r; su_tags := ss_tags r;
     su_spans := ss_spans r; su_tokens := ss_tokens r; su_cost := ss_cost r |}.

Section routes.
Context (pg : Postgres).

Definition list_sessions (ctx : ApiContext) (limit offset : Z) (f : SessionFilters) (by_ : SessionSortBy) (o : SortOrder) :
    M World (Paginated SessionSummary) :=
  schema (limits_ok limit offset 200) ;;
  project ← project_of ctx;
  found ← TraceService.list_sessions pg (p_id project) limit offset f by_ o;
  mret {| pg_items := List.map _row_to_session_summary found.1; pg_total := found.2; pg_limit := limit; pg_offset := offset |}.

Definition get_session_analytics (ctx : ApiContext) (g : AnalyticsGranularity) (a b : Z) : M World (list SessionBucket) :=
  project ← project_of ctx;
  TraceService.get_session_analytics pg (p_id project) g a b.

Record SessionDetail := { sd_summary : SessionSummary; sd_traces : list TraceResponse }.
Definition get_session (ctx : ApiContext) (session_id : string) (limit offset : Z) : M World SessionDetail :=
  schema (limits_ok limit offset 1000) ;;
  project ← project_of ctx;
  summary ← TraceService.get_session_summary pg (p_id project) session_id;
  found ← TraceService.get_session_traces pg (p_id project) session_id limit offset;
  mret {| sd_summary := _row_to_session_summary summary; sd_traces := List.map _trace_to_response found.1 |}.

Definition delete_session (ctx : ApiContext) (session_id : string) : M World Z :=
  project ← project_of ctx;
  TraceService.delete_session (p_id project) session_id.
End routes.
End SessionsApi.

(** ** queue/tasks.py *)

Section tasks.
Context (pg : Postgres).

(** The worker's JSON payload is validated again and stored in one transaction. *)
Definition _persist_trace (payload : Trace) : M World unit :=
  trace ← lift (Trace_validate payload);
  with_session (upsert_trace pg trace ;; commit).

Definition PROCESS_TRACE_MAX_RETRIES : nat := 3.

(** [self.retry(exc=exc)]: the message is queued again, or the error raised when the
    retries are used up. *)
Definition process_trace (payload : Trace) (retries : nat) : M World unit :=
  try_except (_persist_trace payload)
    (fun e => if (retries <? PROCESS_TRACE_MAX_RETRIES)%nat
              then enqueue (TProcessTrace payload (S retries))
              else raise e).
End tasks.
