(* ===== verification/Cadence.v ===== *)
(** * Cadences of evaluation monitors (core/evals/cadence.py)

    Predefined intervals and cron expressions.  The cron expressions are read by the
    croniter package, which is a parameter: whether an expression is valid, and its
    next instant after a given one. *)
From stdpp Require Import base gmap strings list.
From Stdlib Require Import ZArith Lia Ascii ssreflect.
From S2P Require Import Prelude Constants.

#[local] Open Scope Z_scope.

(** [croniter.is_valid(expr)] and [croniter(expr, base).get_next(datetime)]; an expression whose
    fields are valid may still have no instant. *)
Record Croniter := {
  cron_valid : string -> bool;
  cron_next : string -> Z -> res Z }.

(** croniter's documentation: the next instant is after the base. *)
Class CroniterLaws (cron : Croniter) : Prop :=
  cron_next_later : forall expr t t', cron_next cron expr t = Ok t' -> t < t'.

(** [s[len(prefix):] if s.startswith(prefix)] *)
Fixpoint remove_prefix (prefix s : string) : option string :=
  match prefix, s with
  | EmptyString, _ => Some s
  | String a prefix', String b s' => if bool_decide (a = b) then remove_prefix prefix' s' else None
  | _, _ => None
  end.
Definition starts_with (prefix s : string) : bool := match remove_prefix prefix s with Some _ => true | None => false end.

Lemma remove_prefix_app p s : remove_prefix p (p +:+ s) = Some s.
Proof.
  induction p as [|c p IH]; [done|].
  change ((if bool_decide (c = c) then remove_prefix p (p +:+ s) else None) = Some s). by rw bool_decide_eq_true_2.
Qed.
Lemma remove_prefix_Some p s r : remove_prefix p s = Some r -> s = p +:+ r.
Proof.
  revert s. induction p as [|c p IH]; intros s; [by intros [= ->]|]. destruct s as [|d s]; [done|]. cbn.
  case_bool_decide; [|done]. intros Hr. subst. by rw (IH s Hr).
Qed.

Module Cadence.

(** The intervals of [_PREDEFINED_DELTAS]. *)
Definition _PREDEFINED_DELTAS (cadence : string) : option Z :=
  if bool_decide (cadence = "every_6h"%string) then Some (hours 6)
  else if bool_decide (cadence = "daily"%string) then Some (days 1)
  else if bool_decide (cadence = "weekly"%string) then Some (days 7)
  else None.

Definition _CRON_PREFIX : string := "cron:".
(** [cadence[len(_CRON_PREFIX):].strip()] *)
Definition cron_expr (cadence : string) : option string := strip <$> remove_prefix _CRON_PREFIX cadence.

Section cadence.
Context (cron : Croniter).

Definition validate_cadence (cadence : string) : res string :=
  match _PREDEFINED_DELTAS cadence with
  | Some _ => Ok cadence
  | None =>
      match cron_expr cadence with
      | Some expr =>
          if bool_decide (expr = EmptyString) then Err (ValueError "Cron expression must not be empty after 'cron:' prefix.")
          else if cron_valid cron expr then Ok (_CRON_PREFIX +:+ expr)
          else Err (ValueError "Invalid cron expression")
      | None => Err (ValueError "Invalid cadence")
      end
  end.

Definition compute_next_run (cadence : string) (from_time : Z) : res Z :=
  match _PREDEFINED_DELTAS cadence with
  | Some delta => Ok (from_time + delta)
  | None =>
      match cron_expr cadence with
      | Some expr => cron_next cron expr from_time
      | None => Err (ValueError "Cannot compute next run for cadence")
      end
  end.

(** A next run is after the instant it is computed from. *)
Lemma compute_next_run_later `{!CroniterLaws cron} cadence t t' : compute_next_run cadence t = Ok t' -> t < t'.
Proof.
  unfold compute_next_run. destruct (_PREDEFINED_DELTAS cadence) as [d|] eqn:E.
  - intros [= <-]. revert E. unfold _PREDEFINED_DELTAS, hours, days, second.
    repeat case_bool_decide; intros [= <-]; lia.
  - destruct (cron_expr cadence); [|done]. apply cron_next_later.
Qed.

(** Validation is idempotent, and a validated cadence is one the schedule understands. *)
Lemma validate_cadence_idem cadence c : validate_cadence cadence = Ok c -> validate_cadence c = Ok c.
Proof.
  unfold validate_cadence. destruct (_PREDEFINED_DELTAS cadence) eqn:E; [intros [= <-]; by rw E|].
  unfold cron_expr at 1. destruct (remove_prefix _CRON_PREFIX cadence) as [s|]; [|done]. cbn [fmap option_fmap option_map].
  case_bool_decide as Hne; [done|]. destruct (cron_valid cron (strip s)) eqn:Hv; [|done]. intros [= <-].
  assert (Hp : _PREDEFINED_DELTAS (_CRON_PREFIX +:+ strip s) = None) by done.
  change (cron_expr (_CRON_PREFIX +:+ strip s)) with (strip <$> remove_prefix _CRON_PREFIX (_CRON_PREFIX +:+ strip s)).
  rw Hp. rewrite (remove_prefix_app _CRON_PREFIX (strip s)). cbn [fmap option_fmap option_map]. rw strip_idem.
  rw bool_decide_eq_false_2; [done|]. by rw Hv.
Qed.
End cadence.
End Cadence.

(** The next full hour stands for the instants of a cron expression. *)
Definition toy_cron : Croniter :=
  {| cron_valid := fun expr => negb (bool_decide (expr = "bad"%string)); cron_next := fun _ t => Ok (t - t mod hours 1 + hours 1) |}.
#[export] Instance toy_cron_laws : CroniterLaws toy_cron.
Proof.
  intros expr t t' [= <-]. unfold hours, second. pose proof (Z.mod_pos_bound t (1 * 3600 * 1000000) ltac:(lia)). lia.
Qed.
