(* ===== verification/LLM.v ===== *)
(** * The LLM engine (infrastructure/llm/providers.py and engine.py)

    Model names and credentials, structured answers with their retries and fallback,
    and embeddings with their bounded cache.  The providers are reached through
    litellm, which is a parameter: its answers may depend on how many calls were made
    before.  A prompt is a value of a type that the metrics choose. *)
From stdpp Require Import base gmap strings list.
From Stdlib Require Import ZArith Lia Ascii ssreflect.
From S2P Require Import Prelude Constants Float64 PyFloat Json JsonText Sql Cadence.

#[local] Open Scope Z_scope.

(** The settings the engine reads (registry/settings.py). *)
Record LLMSettings := {
  OPENAI_API_KEY : string;
  ANTHROPIC_API_KEY : string;
  GEMINI_API_KEY : string;
  GOOGLE_CLOUD_PROJECT : string;
  EVAL_LLM_MODEL : string;
  EVAL_LLM_TEMPERATURE : float;
  EVAL_EMBEDDING_MODEL : string;
  EVAL_EMBEDDING_CACHE_SIZE : Z }.

(** [a or b] of an optional text. *)
Definition or_text (a : option string) (b : string) : string :=
  match a with None | Some EmptyString => b | Some s => s end.

(** ** providers.py *)

Module Providers.

Record ProviderSpec := {
  pv_key : string;
  pv_name : string;
  litellm_prefix : string;
  required_env : list string;
  pv_description : string }.

Definition PROVIDERS : list ProviderSpec := [
  {| pv_key := "openai"; pv_name := "OpenAI"; litellm_prefix := "openai/"; required_env := ["OPENAI_API_KEY"];
     pv_description := "OpenAI GPT models (gpt-4o, gpt-4o-mini, etc.)" |};
  {| pv_key := "anthropic"; pv_name := "Anthropic"; litellm_prefix := "anthropic/"; required_env := ["ANTHROPIC_API_KEY"];
     pv_description := "Anthropic Claude models (claude-3.5-sonnet, etc.)" |};
  {| pv_key := "google_genai"; pv_name := "Google GenAI"; litellm_prefix := "gemini/"; required_env := ["GEMINI_API_KEY"];
     pv_description := "Google Gemini via AI Studio API key" |};
  {| pv_key := "vertex_ai"; pv_name := "Vertex AI"; litellm_prefix := "vertex_ai/"; required_env := ["GOOGLE_CLOUD_PROJECT"];
     pv_description := "Google Vertex AI (Gemini, Claude, etc.)" |} ]%string.

Definition prefix_hints : list (string * string) :=
  [("gpt-", "openai/"); ("o1-", "openai/"); ("o3-", "openai/"); ("claude-", "anthropic/"); ("gemini-", "gemini/")]%string.

Definition has_prefix (model : string) (s : ProviderSpec) : bool := starts_with (litellm_prefix s) model.
Definition resolve_model_string (model : string) : string :=
  if existsb (has_prefix model) PROVIDERS then model
  else match List.find (fun h => starts_with h.1 model) prefix_hints with
       | Some (_, prefix) => prefix +:+ model
       | None => model
       end.
Definition provider_key_from_model (model : string) : option string :=
  pv_key <$> List.find (has_prefix (resolve_model_string model)) PROVIDERS.

(** Resolving is idempotent. *)
Lemma resolve_model_string_idem m : resolve_model_string (resolve_model_string m) = resolve_model_string m.
Proof.
  destruct (existsb (has_prefix m) PROVIDERS) eqn:E.
  { assert (H : resolve_model_string m = m) by (unfold resolve_model_string; by rw E). congruence. }
  destruct (List.find (fun h => starts_with h.1 m) prefix_hints) as [[h p]|] eqn:Ef.
  - assert (H : resolve_model_string m = p +:+ m) by (unfold resolve_model_string; by rw E Ef). rw H.
    apply List.find_some in Ef as [Hin _].
    assert (Hs : exists s, In s PROVIDERS /\ litellm_prefix s = p).
    { unfold prefix_hints in Hin. simpl in Hin.
      destruct Hin as [[= _ <-]|[[= _ <-]|[[= _ <-]|[[= _ <-]|[[= _ <-]|[]]]]]]; 
        (first [eexists; split; [left; reflexivity|reflexivity] | eexists; split; [right; left; reflexivity|reflexivity]
               | eexists; split; [right; right; left; reflexivity|reflexivity]]). }
    destruct Hs as (s & Hs & <-). unfold resolve_model_string.
    assert (Hp : existsb (has_prefix (litellm_prefix s +:+ m)) PROVIDERS = true); [|by rw Hp].
    apply List.existsb_exists. exists s. split; [done|]. unfold has_prefix, starts_with.
    by rewrite (remove_prefix_app (litellm_prefix s) m).
  - assert (H : resolve_model_string m = m) by (unfold resolve_model_string; by rw E Ef). congruence.
Qed.

Section providers.
Context (cfg : LLMSettings).

(** [getattr(settings, env_var, "") or ""] *)
Definition _resolve_credential (env_var : string) : string :=
  if bool_decide (env_var = "OPENAI_API_KEY"%string) then OPENAI_API_KEY cfg
  else if bool_decide (env_var = "ANTHROPIC_API_KEY"%string) then ANTHROPIC_API_KEY cfg
  else if bool_decide (env_var = "GEMINI_API_KEY"%string) then GEMINI_API_KEY cfg
  else if bool_decide (env_var = "GOOGLE_CLOUD_PROJECT"%string) then GOOGLE_CLOUD_PROJECT cfg
  else "".

(** The message names the missing variables; the unknown key of an f-string is dropped. *)
Definition check_provider_credentials (provider_key : string) : bool * string :=
  match List.find (fun s => bool_decide (pv_key s = provider_key)) PROVIDERS with
  | None => (false, "Unknown provider.")
  | Some spec =>
      match List.filter (fun var => bool_decide (_resolve_credential var = EmptyString)) (required_env spec) with
      | [] => (true, "Provider '" +:+ pv_name spec +:+ "' is available.")
      | missing => (false, "Provider '" +:+ pv_name spec +:+ "' is not configured. Missing environment variable(s): " +:+ join ", " missing)
      end
  end%string.

Record ProviderInfo := { pi_key : string; pi_name : string; pi_description : string; pi_available : bool; pi_message : string }.
Definition get_available_providers : list ProviderInfo :=
  List.map (fun s =>
    let '(available, message) := check_provider_credentials (pv_key s) in
    {| pi_key := pv_key s; pi_name := pv_name s; pi_description := pv_description s; pi_available := available; pi_message := message |}) PROVIDERS.
End providers.
End Providers.

(** ** engine.py *)

Module LLMEngine.

Import Providers.

(** A response schema: its name, and [schema.model_validate(value)]. *)
Record Schema (A : Type) := { schema_name : string; model_validate : Json -> res A }.
Arguments schema_name {A}.
Arguments model_validate {A}.

(** litellm: [acompletion] with the content of the answer's first choice, and
    [aembedding]; the first argument counts the engine's calls. *)
Record LiteLLM (P : Type) := {
  acompletion : N -> string -> P -> float -> option string -> res (option string);
  aembedding : N -> string -> list string -> res (list (list float)) }.
Arguments acompletion {P}.
Arguments aembedding {P}.

(** An engine: the calls made so far, and the embedding cache, least recently used
    first.  The cache is keyed by the SHA-256 of a text; here by the text. *)
Record Engine := { en_calls : N; en_cache : list (string * list float) }.
Definition new_engine : Engine := {| en_calls := 0; en_cache := [] |}.
Definition set_cache (c : list (string * list float)) (e : Engine) : Engine := {| en_calls := en_calls e; en_cache := c |}.
Definition next_call : M Engine N := fun e => (Ok (en_calls e), {| en_calls := N.succ (en_calls e); en_cache := en_cache e |}).

Definition MAX_RETRIES : nat := 3.

(** *** Parsing an answer *)

(** [text.split("\n", 1)[1]] and [text.rsplit("```", 1)[0]] *)
Fixpoint after_newline (l : list ascii) : option (list ascii) :=
  match l with
  | [] => None
  | c :: l' => if code c =? 10 then Some l' else after_newline l'
  end.
Definition fence : string := "```".
Fixpoint before_last_fence (l : list ascii) : option (list ascii) :=
  match l with
  | [] => None
  | c :: l' =>
      match before_last_fence l' with
      | Some r => Some (c :: r)
      | None => match keyword (chars fence) l with Some _ => Some [] | None => None end
      end
  end.
Definition unfence (t : string) : res string :=
  if starts_with fence t then
    match after_newline (chars t) with
    | None => Err IndexError
    | Some l => Ok (strip (text (default l (before_last_fence l))))
    end
  else Ok t.

Definition _parse_response {A} (raw : string) (schema : Schema A) : res A :=
  t ← unfence (strip raw);
  match json_loads t with
  | None => Err (ValueError "JSONDecodeError")
  | Some v => model_validate schema v
  end.

Section engine.
Context {P : Type} (cfg : LLMSettings) (litellm : LiteLLM P).

Definition default_model : string := resolve_model_string (EVAL_LLM_MODEL cfg).

(** [ProviderNotConfiguredError] when the provider of a known prefix has no credentials. *)
Definition check_credentials (resolved_model : string) : M Engine unit :=
  match provider_key_from_model resolved_model with
  | Some key => let '(ok, msg) := check_provider_credentials cfg key in guard_not (negb ok) (PP ProviderNotConfiguredError msg)
  | None => mret tt
  end.

Definition complete (model : string) (prompt : P) (temperature : float) (response_format : option string) : M Engine string :=
  n ← next_call;
  content ← lift (acompletion litellm n model prompt temperature response_format);
  mret (default "" content).

Definition _call {A} (model : string) (prompt : P) (schema : Schema A) (temperature : float) : M Engine A :=
  try_except
    (raw ← complete model prompt temperature (Some (schema_name schema)); lift (_parse_response raw schema))
    (fun _ => raw ← complete model prompt temperature None; lift (_parse_response raw schema)).

Fixpoint attempts {A} (n : nat) (call : M Engine A) : M Engine A :=
  match n with
  | O => raise (PP LLMEngineError "LLM call failed.")
  | S n' => try_except call (fun e =>
      match e with
      | PP ProviderNotConfiguredError _ | PP LLMEngineError _ => raise e
      | _ => attempts n' call
      end)
  end.

Definition generate_structured {A} (prompt : P) (schema : Schema A) (model : option string) : M Engine A :=
  let resolved_model := resolve_model_string (or_text model (EVAL_LLM_MODEL cfg)) in
  check_credentials resolved_model ;;
  attempts MAX_RETRIES (_call resolved_model prompt schema (EVAL_LLM_TEMPERATURE cfg)).

(** *** Embeddings *)

Definition cached (t : string) (c : list (string * list float)) : option (list float) := snd <$> List.find (fun kv => bool_decide (kv.1 = t)) c.
(** [OrderedDict] operations: a new key goes to the end, an old one keeps its place. *)
Definition cache_put (t : string) (v : list float) (c : list (string * list float)) : list (string * list float) :=
  match cached t c with
  | Some _ => List.map (fun kv => if bool_decide (kv.1 = t) then (t, v) else kv) c
  | None => c ++ [(t, v)]
  end.
Definition move_to_end (t : string) (c : list (string * list float)) : list (string * list float) :=
  List.filter (fun kv => negb (bool_decide (kv.1 = t))) c ++ List.filter (fun kv => bool_decide (kv.1 = t)) c.
(** The texts that are not cached, the others being touched, in order. *)
Fixpoint uncached (texts : list string) (c : list (string * list float)) : list string * list (string * list float) :=
  match texts with
  | [] => ([], c)
  | t :: l =>
      match cached t c with
      | Some _ => uncached l (move_to_end t c)
      | None => let '(u, c') := uncached l c in (t :: u, c')
      end
  end.
Definition evict (c : list (string * list float)) : list (string * list float) :=
  drop (length c - Z.to_nat (EVAL_EMBEDDING_CACHE_SIZE cfg)) c.
Definition put_all (l : list (string * list float)) (c : list (string * list float)) : list (string * list float) :=
  foldl (fun c kv => cache_put kv.1 kv.2 c) c l.
Definition modify_cache (f : list (string * list float) -> list (string * list float)) : M Engine unit :=
  modify (fun e => set_cache (f (en_cache e)) e).

(** What an engine holds after the answers are stored: the texts are looked up after the
    eviction, so a text evicted by its own batch raises [KeyError]. *)
Definition embed_texts (texts : list string) : M Engine (list (list float)) :=
  let resolved_model := resolve_model_string (EVAL_EMBEDDING_MODEL cfg) in
  check_credentials resolved_model ;;
  found ← gets (fun e => uncached texts (en_cache e));
  modify_cache (fun _ => found.2) ;;
  match found.1 with
  | [] => mret tt
  | missing =>
      n ← next_call;
      data ← lift (aembedding litellm n resolved_model missing);
      modify_cache (put_all (combine missing data)) ;;
      guard_not (negb (bool_decide (length missing = length data))) (ValueError "zip() argument 2 has a different length") ;;
      modify_cache evict
  end ;;
  c ← gets en_cache;
  lift (res_all (List.map (fun t => match cached t c with Some v => Ok v | None => Err KeyError end) texts)).

(** [a / b] raises on a zero divisor. *)
Definition py_div (a b : float) : res float := if feqb b (of_Z 0) then Err ZeroDivisionError else Ok (fdiv a b).
Definition cosine_distance (vec_a vec_b : list float) : res float :=
  if negb (bool_decide (length vec_a = length vec_b)) then Err (ValueError "zip() argument 2 has a different length")
  else
    let dot := py_sum (List.map (fun ab => fmul ab.1 ab.2) (combine vec_a vec_b)) in
    let norm v := fsqrt (py_sum (List.map (fun a => fmul a a) v)) in
    if feqb (norm vec_a) (of_Z 0) || feqb (norm vec_b) (of_Z 0) then Ok (of_Z 1)
    else similarity ← py_div dot (fmul (norm vec_a) (norm vec_b)); Ok (clamp01 (fsub (of_Z 1) similarity)).
End engine.
End LLMEngine.
