(* ===== verification/EmbeddingCache.v ===== *)
(** * The embedding cache

    [embed_texts] keeps the embeddings of an engine in an LRU dictionary of bounded size and
    asks the provider for the others only.  Against a provider that embeds each text the same
    way every time, it answers as the provider would, for every history of the engine. *)
From stdpp Require Import base gmap strings list.
From Stdlib Require Import ZArith Lia ssreflect.
From S2P Require Import Prelude Constants Float64 PyFloat Json JsonText Sql Cadence LLM.

#[local] Open Scope Z_scope.

Import Providers LLMEngine.

Abbreviation Cache := (list (string * list float)).
Definition keys (c : Cache) : list string := List.map fst c.

(** ** The dictionary *)

Lemma elem_of_keys (c : Cache) t : t ∈ keys c <-> exists v, (t, v) ∈ c.
Proof.
  unfold keys. rw list_elem_of_fmap. split; [intros ([t' v] & -> & H); by exists v|]. intros [v H]. by exists (t, v).
Qed.
Lemma keys_app (c1 c2 : Cache) : keys (c1 ++ c2) = keys c1 ++ keys c2.
Proof. apply List.map_app. Qed.
Lemma cached_in (c : Cache) t v : cached t c = Some v -> (t, v) ∈ c.
Proof.
  unfold cached. destruct (List.find _ c) as [[t' v']|] eqn:E; [|done]. cbn. intros [= ->].
  apply List.find_some in E as [E H%bool_decide_eq_true]. cbn in H. subst. by apply list_elem_of_In.
Qed.
Lemma cached_none (c : Cache) t : cached t c = None <-> t ∉ keys c.
Proof.
  rw elem_of_keys. unfold cached. destruct (List.find _ c) as [[t' v']|] eqn:E; cbn.
  - apply List.find_some in E as [E H%bool_decide_eq_true]. cbn in H. subst. split; [done|]. intros H. destruct H. exists v'. by apply list_elem_of_In.
  - split; [|done]. intros _ [v H%list_elem_of_In]. apply (List.find_none _ _ E) in H. by apply bool_decide_eq_false in H.
Qed.
Lemma put_keys t v (c : Cache) : keys (cache_put t v c) = if bool_decide (t ∈ keys c) then keys c else keys c ++ [t].
Proof.
  unfold cache_put. destruct (cached t c) as [v'|] eqn:E.
  - rw bool_decide_eq_true_2; [apply elem_of_keys; exists v'; by apply cached_in|]. unfold keys. rw List.map_map.
    apply List.map_ext. intros [t' w]. cbn. by case_bool_decide as H; [rewrite H|].
  - apply cached_none in E. rw bool_decide_eq_false_2; [exact E|]. apply keys_app.
Qed.

(** [ends_with P c]: the keys of some suffix, the most recent ones, are those that satisfy [P]. *)
Definition ends_with (P : string -> Prop) (c : Cache) : Prop := exists c1 c2, c = c1 ++ c2 /\ forall t, t ∈ keys c2 <-> P t.
#[export] Instance ends_with_proper : Proper (pointwise_relation string iff ==> eq ==> iff) ends_with.
Proof. intros P Q H c _ <-. unfold ends_with. by setoid_rewrite H. Qed.

Lemma elem_of_keys_filter (f : string -> bool) (c : Cache) t : t ∈ keys (List.filter (fun kv => f kv.1) c) <-> t ∈ keys c /\ f t = true.
Proof.
  rw !elem_of_keys. setoid_rewrite list_elem_of_In. setoid_rewrite List.filter_In. cbn. naive_solver.
Qed.
Lemma move_to_end_Permutation t (c : Cache) : move_to_end t c ≡ₚ c.
Proof.
  unfold move_to_end. induction c as [|[t' v] c IH]; [done|]. cbn. case_bool_decide; cbn; [|by rw IH].
  rewrite <- Permutation_middle. by rw IH.
Qed.
Lemma move_to_end_recent P t (c : Cache) : t ∈ keys c -> ends_with P c -> ends_with (fun x => P x \/ x = t) (move_to_end t c).
Proof.
  intros Ht (c1 & c2 & -> & H). unfold move_to_end. rw !List.filter_app.
  set (F := List.filter (fun kv : string * list float => negb (bool_decide (kv.1 = t)))). set (G := List.filter (fun kv : string * list float => bool_decide (kv.1 = t))).
  assert (HF : forall c x, x ∈ keys (F c) <-> x ∈ keys c /\ x <> t).
  { intros c x. etransitivity; [exact (elem_of_keys_filter (fun k => negb (bool_decide (k = t))) c x)|]. by rw negb_true_iff bool_decide_eq_false. }
  assert (HG : forall c x, x ∈ keys (G c) <-> x ∈ keys c /\ x = t).
  { intros c x. etransitivity; [exact (elem_of_keys_filter (fun k => bool_decide (k = t)) c x)|]. by rw bool_decide_eq_true. }
  exists (F c1), (F c2 ++ G c1 ++ G c2). rw -!app_assoc. split; [done|]. intros x. rewrite keys_app in Ht. apply elem_of_app in Ht.
  rw !keys_app !elem_of_app HF !HG H. destruct (decide (x = t)) as [->|]; naive_solver.
Qed.
Lemma put_recent P t v (c : Cache) : (t ∈ keys c -> P t) -> ends_with P c -> ends_with (fun x => P x \/ x = t) (cache_put t v c).
Proof.
  intros Ht (c1 & c2 & -> & H). unfold cache_put. destruct (cached t (c1 ++ c2)) as [v'|] eqn:E.
  - rw List.map_app. eexists _, _. split; [reflexivity|]. intros x. unfold keys. rw List.map_map.
    rw (List.map_ext _ fst); [intros [t' w]; cbn; by case_bool_decide as Hk; [rewrite Hk|]|]. fold (keys c2). rw H.
    assert (P t) by (apply Ht, elem_of_keys; exists v'; by apply cached_in). naive_solver.
  - exists c1, (c2 ++ [(t, v)]). rw app_assoc. split; [done|]. intros x. rw keys_app elem_of_app H. cbn. by rw list_elem_of_singleton.
Qed.

(** The texts that are missing; the others become the most recent. *)
Lemma uncached_spec texts (c : Cache) :
  let '(u, c') := uncached texts c in
  c' ≡ₚ c /\ (forall t, t ∈ u <-> t ∈ texts /\ t ∉ keys c) /\
  forall P, ends_with P c -> ends_with (fun t => P t \/ (t ∈ texts /\ t ∈ keys c)) c'.
Proof.
  revert c. induction texts as [|t texts IH]; intros c; cbn [uncached].
  { split_and!; [done| |].
    - intros t. split; [by intros ?%elem_of_nil|]. by intros [?%elem_of_nil _].
    - intros P (c1 & c2 & E & H). exists c1, c2. split; [done|]. intros t. rw H. split; [by left|]. by intros [|[?%elem_of_nil _]]. }
  destruct (cached t c) as [v|] eqn:E.
  - assert (Hin : t ∈ keys c) by (apply elem_of_keys; exists v; by apply cached_in).
    specialize (IH (move_to_end t c)). destruct (uncached texts (move_to_end t c)) as [u c']. destruct IH as (Hp & Hu & Hr).
    assert (Hk : forall x, x ∈ keys (move_to_end t c) <-> x ∈ keys c) by (intros x; unfold keys; by rewrite move_to_end_Permutation).
    split_and!; [by rw Hp move_to_end_Permutation| |].
    + intros x. rw Hu Hk elem_of_cons. naive_solver.
    + intros P HP. specialize (Hr _ (move_to_end_recent P t c Hin HP)). eapply ends_with_proper; [|reflexivity|exact Hr].
      intros x. rw Hk elem_of_cons. naive_solver.
  - apply cached_none in E. specialize (IH c). destruct (uncached texts c) as [u c']. destruct IH as (Hp & Hu & Hr).
    split_and!; [exact Hp| |].
    + intros x. rw !elem_of_cons Hu. naive_solver.
    + intros P HP. specialize (Hr P HP). eapply ends_with_proper; [|reflexivity|exact Hr].
      intros x. rw elem_of_cons. naive_solver.
Qed.

(** ** The engine *)

Section engine.
Context {P : Type} (cfg : LLMSettings) (litellm : LiteLLM P).

Definition embedding_model : string := resolve_model_string (EVAL_EMBEDDING_MODEL cfg).
Definition capacity : nat := Z.to_nat (EVAL_EMBEDDING_CACHE_SIZE cfg).
(** The provider embeds each text the same way every time, and the provider's credentials are set. *)
Context (embed : string -> list float).
Hypothesis Hembed : forall n texts, aembedding litellm n embedding_model texts = Ok (List.map embed texts).
Hypothesis Hcredentials : (check_credentials cfg embedding_model new_engine).1 = Ok tt.

(** Every entry holds the embedding of its text, no text has two, and the size is bounded. *)
Definition faithful (c : Cache) : Prop := NoDup (keys c) /\ forall t v, (t, v) ∈ c -> v = embed t.
Definition coherent (c : Cache) : Prop := faithful c /\ (length c <= capacity)%nat.

Lemma faithful_cached c t : faithful c -> t ∈ keys c -> cached t c = Some (embed t).
Proof using.
  intros [_ H] Ht. destruct (cached t c) as [v|] eqn:E; [|by apply cached_none in E]. by apply cached_in, H in E as ->.
Qed.
Lemma faithful_perm c c' : c' ≡ₚ c -> faithful c -> faithful c'.
Proof using. intros E [H1 H2]. split; [unfold keys; by rewrite E|]. intros t v. rewrite E. apply H2. Qed.
Lemma faithful_put c t : faithful c -> faithful (cache_put t (embed t) c).
Proof using.
  intros [H1 H2]. split.
  - rw put_keys. case_bool_decide; [done|]. apply NoDup_app. split_and!; [done| |apply NoDup_singleton]. by intros x Hx ->%list_elem_of_singleton.
  - intros x v. unfold cache_put. destruct (cached t c).
    + intros ([t' v'] & E & Hin)%list_elem_of_fmap. cbn in E. case_bool_decide; simplify_eq; [done|by apply H2].
    + intros [Hin|[= -> ->]%list_elem_of_singleton]%elem_of_app; [by apply H2|done].
Qed.
Lemma faithful_drop n c : faithful c -> faithful (drop n c).
Proof using.
  intros [H1 H2]. split.
  - unfold keys in *. rewrite <- (take_drop n c), List.map_app in H1. by apply NoDup_app in H1 as (_ & _ & H1).
  - intros t v Hin. apply H2. rewrite <- (take_drop n c). apply elem_of_app. by right.
Qed.

(** Storing the answers of the missing texts. *)
Lemma put_missing u c Q : faithful c -> ends_with Q c -> (forall t, t ∈ u -> t ∈ keys c -> Q t) ->
  let c' := put_all (combine u (List.map embed u)) c in
  faithful c' /\ ends_with (fun t => Q t \/ t ∈ u) c' /\ forall t, t ∈ keys c' <-> t ∈ keys c \/ t ∈ u.
Proof using.
  cbv zeta. revert c Q. induction u as [|t u IH]; intros c Q Hc Hr Hq; cbn [combine List.map put_all foldl].
  - assert (Hnil : forall x : string, x ∈ [] <-> False) by (intros x; split; [by intros ?%elem_of_nil|done]).
    split_and!; [done| |intros x; rw Hnil; tauto]. eapply ends_with_proper; [|reflexivity|exact Hr]. intros x. rw Hnil. tauto.
  - fold (put_all (combine u (List.map embed u)) (cache_put t (embed t) c)). cbn [fst snd].
    assert (Hk : forall x, x ∈ keys (cache_put t (embed t) c) <-> x = t \/ x ∈ keys c).
    { intros x. rw put_keys. case_bool_decide; [|rw elem_of_app list_elem_of_singleton; tauto].
      split; [by right|]. by intros [->|]. }
    destruct (IH (cache_put t (embed t) c) (fun x => Q x \/ x = t)) as (H1 & H2 & H3).
    + by apply faithful_put.
    + apply put_recent; [|done]. intros Hin. apply Hq; [by left|done].
    + intros x Hx [->|Hin]%Hk; [by right|left]. apply Hq; [by right|done].
    + split_and!; [done| |].
      * eapply ends_with_proper; [|reflexivity|exact H2]. intros x. rw elem_of_cons. tauto.
      * intros x. rw H3 Hk elem_of_cons. tauto.
Qed.

(** A text of a batch that fits survives the eviction of the oldest. *)
Lemma distinct_length (l l' : list string) : NoDup l -> (forall t, t ∈ l <-> t ∈ l') -> length l = length (remove_dups l').
Proof using.
  intros Hn H. apply Permutation_length, NoDup_Permutation; [done|apply NoDup_remove_dups|]. intros t. by rw elem_of_remove_dups H.
Qed.
Lemma evict_keeps texts c t : NoDup (keys c) -> ends_with (fun x => x ∈ texts) c -> (length (remove_dups texts) <= capacity)%nat ->
  t ∈ texts -> t ∈ keys (evict cfg c).
Proof using.
  intros Hn (c1 & c2 & -> & H) Hfit Ht. unfold evict. fold capacity.
  assert (Hl : length c2 = length (remove_dups texts)).
  { rewrite <- (length_fmap fst c2). apply distinct_length; [|done]. rewrite keys_app in Hn. by apply NoDup_app in Hn as (_ & _ & Hn). }
  rewrite length_app. rewrite drop_app_le; [lia|]. rw keys_app. apply elem_of_app. right. by apply H.
Qed.
(** When a batch does not fit, one of its texts is gone. *)
Lemma evict_loses texts c : (capacity < length (remove_dups texts))%nat -> exists t, t ∈ texts /\ cached t (evict cfg c) = None.
Proof using.
  intros Hbig. destruct (decide (Forall (fun t => t ∈ keys (evict cfg c)) texts)) as [Hall|Hsome].
  - assert (Hsub : remove_dups texts ⊆ keys (evict cfg c)).
    { intros t Ht. rewrite Forall_forall in Hall. apply Hall. by rewrite elem_of_remove_dups in Ht. }
    apply (NoDup_submseteq _ _ (NoDup_remove_dups texts)), submseteq_length in Hsub.
    unfold keys, evict in Hsub. rewrite List.length_map length_drop in Hsub. fold capacity in Hsub. lia.
  - apply not_Forall_Exists in Hsome; [|apply _]. apply Exists_exists in Hsome as (t & Ht & Hno). exists t. split; [done|]. by apply cached_none.
Qed.
Lemma lookup_all c texts : faithful c -> (forall t, t ∈ texts -> t ∈ keys c) ->
  res_all (List.map (fun t => match cached t c with Some v => Ok v | None => Err KeyError end) texts) = Ok (List.map embed texts).
Proof using. intros Hc H. apply res_all_Ok. intros t Ht. by rw (faithful_cached c t Hc (H t Ht)). Qed.
Lemma lookup_fails c texts t : t ∈ texts -> cached t c = None ->
  res_all (List.map (fun t => match cached t c with Some v => Ok v | None => Err KeyError end) texts) = Err KeyError.
Proof using.
  intros Ht Hno. induction texts as [|x texts IH]; [by apply elem_of_nil in Ht|]. cbn. destruct (cached x c) as [v|] eqn:E; [|done].
  cbn. rw IH; [|done]. apply elem_of_cons in Ht as [->|Ht]; [congruence|done].
Qed.

(** *** One batch *)

Lemma credentials_read e : check_credentials cfg embedding_model e = (Ok tt, e).
Proof using Hcredentials.
  revert Hcredentials. unfold check_credentials. destruct (provider_key_from_model _); [|done].
  destruct (check_provider_credentials cfg s) as [ok msg]. by destruct ok.
Qed.
(** What [embed_texts] computes with such a provider. *)
Definition answers (texts : list string) (c : Cache) : res (list (list float)) :=
  res_all (List.map (fun t => match cached t c with Some v => Ok v | None => Err KeyError end) texts).
Definition after_batch (texts : list string) (c : Cache) : Cache :=
  match uncached texts c with
  | ([], c') => c'
  | (u, c') => evict cfg (put_all (combine u (List.map embed u)) c')
  end.
Lemma embed_texts_run texts e :
  embed_texts cfg litellm texts e =
  (answers texts (after_batch texts (en_cache e)),
   {| en_calls := if bool_decide ((uncached texts (en_cache e)).1 = []) then en_calls e else N.succ (en_calls e);
      en_cache := after_batch texts (en_cache e) |}).
Proof using Hembed Hcredentials.
  unfold embed_texts. fold embedding_model. unfold mbind at 1, M_bind. rw credentials_read. unfold after_batch, answers.
  destruct (uncached texts (en_cache e)) as [[|t u] c'] eqn:E.
  - cbv [mbind M_bind gets modify_cache modify mret M_ret lift]. by rw E.
  - cbv [mbind M_bind gets modify_cache modify next_call mret M_ret lift guard_not set_cache]. rw E. cbn [fst snd en_cache en_calls].
    rw Hembed List.length_map (bool_decide_eq_true_2 (length (t :: u) = length (t :: u))); [done|].
    by rw (bool_decide_eq_false_2 (t :: u = [])).
Qed.

(** The batch's texts are the most recent entries once the missing ones are stored. *)
Lemma batch_stored texts c : faithful c ->
  let '(u, c') := uncached texts c in
  let c'' := put_all (combine u (List.map embed u)) c' in
  faithful c' /\ faithful c'' /\ ends_with (fun t => t ∈ texts) c'' /\ (u = [] -> forall t, t ∈ texts -> t ∈ keys c').
Proof using.
  intros Hc. pose proof (uncached_spec texts c) as H. destruct (uncached texts c) as [u c']. destruct H as (Hp & Hu & Hr).
  assert (Hk : forall t, t ∈ keys c' <-> t ∈ keys c) by (intros t; unfold keys; by rewrite Hp).
  assert (Hc' : faithful c') by by apply (faithful_perm c).
  assert (He : ends_with (fun _ => False) c).
  { exists c, []. split; [by rw app_nil_r|]. intros t. split; [by intros ?%elem_of_nil|done]. }
  destruct (put_missing u c' (fun t => False \/ (t ∈ texts /\ t ∈ keys c)) Hc' (Hr _ He)) as (H1 & H2 & H3).
  { intros t [_ Hno]%Hu Hin%Hk. by destruct Hno. }
  split_and!; [done|done| |].
  - eapply ends_with_proper; [|reflexivity|exact H2]. intros t. rw Hu. destruct (decide (t ∈ keys c)); tauto.
  - intros -> t Ht. apply Hk. destruct (decide (t ∈ keys c)) as [|Hno]; [done|].
    assert (Hin : t ∈ @nil string) by by apply Hu. by apply elem_of_nil in Hin.
Qed.
Lemma coherent_batch texts c : coherent c -> coherent (after_batch texts c).
Proof using.
  intros [Hc Hlen]. pose proof (batch_stored texts c Hc) as H. pose proof (uncached_spec texts c) as Hu. unfold after_batch.
  destruct (uncached texts c) as [[|t u] c']; destruct H as (H1 & H2 & _), Hu as (Hp & _).
  - split; [done|]. by rewrite Hp.
  - split; [by apply faithful_drop|]. unfold evict. rewrite length_drop. fold capacity. lia.
Qed.
Lemma answers_batch texts c : coherent c -> answers texts (after_batch texts c) =
  if bool_decide (length (remove_dups texts) <= capacity)%nat then Ok (List.map embed texts) else Err KeyError.
Proof using.
  intros [Hc Hlen]. pose proof (batch_stored texts c Hc) as H. pose proof (uncached_spec texts c) as Hu. unfold after_batch.
  destruct (uncached texts c) as [[|t u] c']; destruct H as (H1 & H2 & H3 & H4), Hu as (Hp & _).
  - specialize (H4 eq_refl). unfold answers. rw (lookup_all c' texts H1 H4). rw bool_decide_eq_true_2; [|done].
    assert (Hsub : remove_dups texts ⊆ keys c') by (intros x Hx; apply H4; by rewrite elem_of_remove_dups in Hx).
    apply (NoDup_submseteq _ _ (NoDup_remove_dups texts)), submseteq_length in Hsub.
    unfold keys in Hsub. rewrite List.length_map Hp in Hsub. lia.
  - case_bool_decide as Hfit.
    + apply lookup_all; [by apply faithful_drop|]. intros x Hx. apply (evict_keeps texts); [by destruct H2|done|done|done].
    + destruct (evict_loses texts (put_all (combine (t :: u) (List.map embed (t :: u))) c')) as (x & Hx & Hno); [lia|].
      by apply (lookup_fails _ texts x).
Qed.

(** C27: The embedding cache is transparent.  Against a provider that embeds each text the same way every time, an
    engine answers every batch, after any history of batches, exactly as the provider would, provided the batch has no more
    distinct texts than the cache holds, and raises [KeyError] if it has more, since the texts are looked up after the eviction.  The cache
    never outgrows its size, and a batch costs one call to the provider, or none when all its texts are cached. *)
Theorem embeddings_as_provided (history : list (list string)) (texts : list string) :
  let e := foldl (fun e batch => (embed_texts cfg litellm batch e).2) new_engine history in
  let '(r, e') := embed_texts cfg litellm texts e in
  r = (if bool_decide (length (remove_dups texts) <= capacity)%nat then Ok (List.map embed texts) else Err KeyError) /\
  (length (en_cache e') <= capacity)%nat /\
  en_calls e' = if forallb (fun t => bool_decide (t ∈ keys (en_cache e))) texts then en_calls e else N.succ (en_calls e).
Proof using Hembed Hcredentials.
  cbv zeta. set (e := foldl _ _ _).
  assert (He : coherent (en_cache e)).
  { unfold e. clear e. assert (H : forall e0, coherent (en_cache e0) -> coherent (en_cache (foldl (fun e batch => (embed_texts cfg litellm batch e).2) e0 history))).
    { induction history as [|batch l IH]; [done|]. intros e0 H0. cbn [foldl]. apply IH. rw embed_texts_run. by apply coherent_batch. }
    apply H. split; [split; [constructor|by intros t v ?%elem_of_nil]|cbn; lia]. }
  rw embed_texts_run. cbn [en_cache en_calls]. split_and!; [by apply answers_batch|by apply coherent_batch|].
  pose proof (uncached_spec texts (en_cache e)) as Hu. destruct (uncached texts (en_cache e)) as [u c']. destruct Hu as (_ & Hu & _). cbn [fst].
  destruct (forallb _ texts) eqn:E.
  - rewrite bool_decide_eq_true_2; [|done]. rewrite List.forallb_forall in E. destruct u as [|t u]; [done|].
    destruct (proj1 (Hu t) (list_elem_of_here _ _)) as [Ht Hno]. destruct Hno. by apply list_elem_of_In, E, bool_decide_eq_true in Ht.
  - rewrite bool_decide_eq_false_2; [|done]. intros ->. rewrite <- not_true_iff_false in E. apply E. apply List.forallb_forall.
    intros t Ht%list_elem_of_In. apply bool_decide_eq_true. destruct (decide (t ∈ keys (en_cache e))) as [|Hno]; [done|].
    assert (Hin : t ∈ @nil string) by by apply Hu. by apply elem_of_nil in Hin.
Qed.
End engine.

(** *** An engine with room for two texts *)

Definition small_settings : LLMSettings :=
  {| OPENAI_API_KEY := "key"; ANTHROPIC_API_KEY := ""; GEMINI_API_KEY := ""; GOOGLE_CLOUD_PROJECT := ""; EVAL_LLM_MODEL := "gpt-4o-mini";
     EVAL_LLM_TEMPERATURE := of_Z 1; EVAL_EMBEDDING_MODEL := "openai/text-embedding-3-small"; EVAL_EMBEDDING_CACHE_SIZE := 2 |}.
Definition length_embedding (t : string) : list float := [of_Z (len t)].
Definition steady_provider : LiteLLM unit :=
  {| acompletion := fun _ _ _ _ _ => Ok None; aembedding := fun _ _ texts => Ok (List.map length_embedding texts) |}.
Lemma embeddings_as_provided_witness :
  (exists e', embed_texts small_settings steady_provider ["bb"; "a"; "bb"]%string
     (foldl (fun e batch => (embed_texts small_settings steady_provider batch e).2) new_engine [["a"]; ["a"; "ccc"]]%string) =
   (Ok [[of_Z 2]; [of_Z 1]; [of_Z 2]], e') /\ en_calls e' = 3%N) /\
  (embed_texts small_settings steady_provider ["a"; "bb"; "ccc"]%string new_engine).1 = Err KeyError.
Proof.
  assert (Hp : forall n texts, aembedding steady_provider n (embedding_model small_settings) texts = Ok (List.map length_embedding texts)) by done.
  split.
  - pose proof (embeddings_as_provided small_settings steady_provider length_embedding Hp eq_refl [["a"]; ["a"; "ccc"]]%string ["bb"; "a"; "bb"]%string) as H.
    cbv zeta in H. set (e := foldl _ _ _) in *. destruct (embed_texts _ _ _ e) as [r e'] eqn:E. destruct H as (Hr & _ & Hn).
    exists e'. split; [by rewrite Hr|]. rewrite Hn. vm_compute. reflexivity.
  - pose proof (embeddings_as_provided small_settings steady_provider length_embedding Hp eq_refl [] ["a"; "bb"; "ccc"]%string) as H.
    cbv zeta in H. cbn [foldl] in H. destruct (embed_texts _ _ _ new_engine) as [r e'] eqn:E. destruct H as (Hr & _). exact Hr.
Defined.
