(* ===== verification/Metrics.v ===== *)
(** * Evaluation metrics (core/evals/metrics)

    The registry, the nine metrics of a trace and the two of a session.  A judge's
    answer is read through the schemas of the metrics; the texts of the prompts are
    not modelled: a prompt is the name of its template with the template's arguments.
    pydantic's conversion of a JSON value to a float is a parameter. *)
From stdpp Require Import base gmap strings list.
From Stdlib Require Import ZArith Lia Ascii ssreflect SpecFloat.
From S2P Require Import Prelude Constants Float64 PyFloat Json JsonText Evals Telemetry Sql Cadence LLM.

#[local] Open Scope Z_scope.

Import LLMEngine.

(** ** The registry (__init__.py) *)

Module Registry.

(** The class attributes of a metric. *)
Record MetricClass := {
  mc_name : string;
  mc_description : string;
  mc_category : string;
  mc_threshold : float;
  requires_session_context : bool }.

Definition trace_metric (name description : string) (needs_session : bool) : MetricClass :=
  {| mc_name := name; mc_description := description; mc_category := "trace"; mc_threshold := decimal 5 1;
     requires_session_context := needs_session |}.

Definition _REGISTRY : list MetricClass := [
  trace_metric "argument_correctness" "Evaluates whether tool call arguments were correctly specified for the task." false;
  trace_metric "coherence" "Evaluates whether the agent's output logically follows from its input." false;
  trace_metric "confidence" "Evaluates whether the agent acted decisively and appropriately." false;
  trace_metric "loop_detection" "Detects if the agent is stuck repeating itself across traces." true;
  trace_metric "plan_adherence" "Evaluates how closely the agent followed its declared plan during execution." false;
  trace_metric "plan_quality" "Evaluates the intrinsic quality, completeness, and optimality of the agent's plan." false;
  trace_metric "step_efficiency" "Evaluates how efficiently the agent executed the task with minimal unnecessary steps." false;
  trace_metric "task_completion" "Evaluates whether the agent accomplished the user's stated objective." false;
  trace_metric "tool_correctness" "Evaluates whether the agent selected appropriate tools for the task." false ]%string.

Definition session_metric (name description : string) : MetricClass :=
  {| mc_name := name; mc_description := description; mc_category := "session"; mc_threshold := decimal 5 1;
     requires_session_context := false |}.
Definition _SESSION_REGISTRY : list MetricClass := [
  session_metric "agent_consistency" "Evaluates overall stability across a session. Penalizes any trace that deviates from smooth operation using weighted RMS.";
  session_metric "agent_reliability" "Evaluates worst-case failure risk across a session. Focuses on the most problematic traces using max-compose + top-k tail risk." ]%string.

Definition lookup (name : string) (registry : list MetricClass) : res MetricClass :=
  match List.find (fun c => bool_decide (mc_name c = name)) registry with Some c => Ok c | None => Err KeyError end.
Definition get_metric (name : string) : res MetricClass := lookup name _REGISTRY.
Definition get_session_metric (name : string) : res MetricClass := lookup name _SESSION_REGISTRY.

(** [sorted] of texts: by code points. *)
Definition py_sorted (l : list string) : list string := order_by String.leb l.
Definition list_metrics : list string :=
  py_sorted (List.map mc_name (List.filter (fun c => negb (requires_session_context c)) _REGISTRY)).
Definition list_session_metrics : list string := py_sorted (List.map mc_name _SESSION_REGISTRY).

Record MetricSummary := { ms_name : string; ms_description : string; ms_category : string }.
Definition summary_of_class (c : MetricClass) : MetricSummary :=
  {| ms_name := mc_name c; ms_description := mc_description c; ms_category := mc_category c |}.
Definition get_metric_summary (name : string) : res MetricSummary := c ← get_metric name; Ok (summary_of_class c).
Definition get_session_metric_summary (name : string) : res MetricSummary := c ← get_session_metric name; Ok (summary_of_class c).

(** Every listed metric is registered, and can be run without a session. *)
Lemma list_metrics_registered name : name ∈ list_metrics ->
  exists c, get_metric name = Ok c /\ requires_session_context c = false.
Proof.
  unfold list_metrics. rw elem_of_order_by. unfold _REGISTRY. cbn [List.filter negb requires_session_context trace_metric List.map mc_name].
  rw !elem_of_cons. intros H. unfold get_metric, lookup, _REGISTRY.
  destruct H as [->|[->|[->|[->|[->|[->|[->|[->|H]]]]]]]]; [eexists; (split; [reflexivity|reflexivity])..|by apply elem_of_nil in H].
Qed.
Lemma list_session_metrics_registered name : name ∈ list_session_metrics -> exists c, get_session_metric name = Ok c.
Proof.
  unfold list_session_metrics. rw elem_of_order_by. cbn [_SESSION_REGISTRY List.map session_metric mc_name].
  rw !elem_of_cons. intros [->|[->|H]]; [eexists; reflexivity..|by apply elem_of_nil in H].
Qed.
End Registry.

(** ** Results and inputs (base.py, utils.py) *)

Record MetricResult := { mr_score : float; mr_reason : option string; mr_metadata : Object Json }.

Definition metadata (l : list (string * Json)) : Object Json := list_to_map l.

Definition to_text (value : option Json) : string :=
  match value with
  | None | Some JNull => ""
  | Some (JStr s) => s
  | Some v => json_dumps v
  end.

Definition DEFAULT_SIGNAL_WEIGHTS : Object Json :=
  metadata [("confidence", JFloat (of_Z 1)); ("loop_detection", JFloat (of_Z 1)); ("tool_correctness", JFloat (decimal 8 1));
            ("coherence", JFloat (of_Z 1))]%string.

Definition count_where {A} (p : A -> bool) (l : list A) : Z := Z.of_nat (length (List.filter p l)).

(** The prompts: a template and its arguments. *)
Inductive Prompt :=
  | ExtractTaskAndOutcome (t : Trace)
  | CompletionVerdict (task actual_outcome : string)
  | ExtractTask (t : Trace)
  | EfficiencyPrompt (task : string) (t : Trace)
  | ExtractPlan (t : Trace)
  | EvaluateAdherence (user_task : string) (plan : list string) (t : Trace)
  | EvaluatePlanQuality (user_task : string) (plan : list string)
  | ExtractToolUsage (t : Trace)
  | ScoreToolSelection (user_input : string) (tools_called available_tools : list Json)
  | ExtractToolCalls (t : Trace)
  | GenerateVerdicts (user_input : string) (tool_calls : list Json)
  | GenerateReason (incorrect_reasons : list string) (user_input : string) (score : float)
  | EvaluateConfidence (t : Trace).

(** ** Schemas of the judge's answers (the schema.py files) *)

Module Schemas.

Definition invalid : exn := ValueError "validation error".
Section schemas.
Context (as_float : Json -> option float).

(** The fields of an answer that is an object. *)
Definition field (k : string) (v : Json) : option Json :=
  match v with JObj m => snd <$> List.find (fun kv => bool_decide (kv.1 = k)) m | _ => None end.
Definition req {A} (read : Json -> option A) (k : string) (v : Json) : res A :=
  match field k v ≫= read with Some a => Ok a | None => Err invalid end.
Definition opt_str (k : string) (v : Json) : res (option string) :=
  match field k v with
  | None | Some JNull => Ok None
  | Some (JStr s) => Ok (Some s)
  | Some _ => Err invalid
  end.
Definition as_str (v : Json) : option string := match v with JStr s => Some s | _ => None end.
Definition as_list {A} (read : Json -> option A) (v : Json) : option (list A) :=
  match v with JArr l => mapM read l | _ => None end.
Definition as_dict (v : Json) : option Json := match v with JObj _ => Some v | _ => None end.
(** [float = Field(ge=0.0, le=1.0)] *)
Definition as_unit (v : Json) : option float := x ← as_float v; if in_unit x then Some x else None.

Definition TaskAndOutcome : Schema (string * string) :=
  {| schema_name := "TaskAndOutcome"; model_validate := fun v => t ← req as_str "task" v; o ← req as_str "outcome" v; Ok (t, o) |}.
Definition TaskCompletionVerdict : Schema (float * option string) :=
  {| schema_name := "TaskCompletionVerdict"; model_validate := fun v => x ← req as_unit "verdict" v; r ← opt_str "reason" v; Ok (x, r) |}.
Definition TaskSchema : Schema string := {| schema_name := "Task"; model_validate := req as_str "task" |}.
(** [EfficiencyVerdict], [PlanAdherenceScore], [PlanQualityScore] and [ToolSelectionScore] have the same fields. *)
Definition scored (name : string) : Schema (float * string) :=
  {| schema_name := name; model_validate := fun v => x ← req as_unit "score" v; r ← req as_str "reason" v; Ok (x, r) |}.
Definition EfficiencyVerdict : Schema (float * string) := scored "EfficiencyVerdict".
Definition PlanAdherenceScore : Schema (float * string) := scored "PlanAdherenceScore".
Definition PlanQualityScore : Schema (float * string) := scored "PlanQualityScore".
Definition ToolSelectionScore : Schema (float * string) := scored "ToolSelectionScore".
Definition AgentPlan : Schema (list string) := {| schema_name := "AgentPlan"; model_validate := req (as_list as_str) "plan" |}.
Definition ToolUsageContext : Schema (string * list Json * list Json) :=
  {| schema_name := "ToolUsageContext";
     model_validate := fun v => u ← req as_str "user_input" v; c ← req (as_list as_dict) "tools_called" v;
                                a ← req (as_list as_dict) "available_tools" v; Ok (u, c, a) |}.
Definition ToolCallContext : Schema (string * list Json) :=
  {| schema_name := "ToolCallContext";
     model_validate := fun v => u ← req as_str "user_input" v; c ← req (as_list as_dict) "tool_calls" v; Ok (u, c) |}.
Inductive Verdict := Yes | No | Neutral.
Definition Verdict_of (s : string) : option Verdict :=
  if bool_decide (s = "yes"%string) then Some Yes else if bool_decide (s = "no"%string) then Some No
  else if bool_decide (s = "neutral"%string) then Some Neutral else None.
Definition Verdict_value (v : Verdict) : string := match v with Yes => "yes" | No => "no" | Neutral => "neutral" end.
Definition as_verdict (v : Json) : option (Verdict * option string) :=
  x ← field "verdict" v; s ← as_str x; verdict ← Verdict_of s;
  match opt_str "reason" v with Ok r => Some (verdict, r) | Err _ => None end.
Definition ArgumentVerdicts : Schema (list (Verdict * option string)) :=
  {| schema_name := "ArgumentVerdicts"; model_validate := req (as_list as_verdict) "verdicts" |}.
Definition ArgumentCorrectnessReason : Schema string :=
  {| schema_name := "ArgumentCorrectnessReason"; model_validate := req as_str "reason" |}.
Definition ConfidenceVerdict : Schema (float * option string) :=
  {| schema_name := "ConfidenceVerdict"; model_validate := fun v => x ← req as_unit "confidence" v; r ← opt_str "reason" v; Ok (x, r) |}.
End schemas.
End Schemas.

(** ** The metrics of a trace *)

Module TraceMetrics.

Import Schemas.

(** No caller overrides the threshold of the class. *)
Definition threshold : float := decimal 5 1.
Definition success (score : float) : Json := JBool (fleb threshold score).

(** *** Text comparison (loop_detection/metric.py) *)

Definition _STOP_WORDS : list string := [
  "a"; "an"; "the"; "is"; "are"; "was"; "were"; "be"; "been"; "being"; "have"; "has"; "had"; "do"; "does"; "did";
  "will"; "would"; "shall"; "should"; "may"; "might"; "can"; "could"; "of"; "in"; "to"; "for"; "on"; "with";
  "at"; "by"; "from"; "as"; "into"; "through"; "during"; "before"; "after"; "above"; "below"; "and";
  "but"; "or"; "nor"; "not"; "so"; "yet"; "both"; "either"; "neither"; "each"; "every"; "all"; "any"; "few";
  "more"; "most"; "other"; "some"; "such"; "no"; "only"; "own"; "same"; "than"; "too"; "very"; "it"; "its" ]%string.
Definition DEFAULT_WINDOW : nat := 3.

(** [re.findall(r"\w+", text)]: the maximal runs of letters, digits and underscores. *)
Definition word_char (c : ascii) : bool := isalnum c || (code c =? 95).
Fixpoint words (current : list ascii) (l : list ascii) : list string :=
  let emit := match current with [] => [] | _ => [text (rev current)] end in
  match l with
  | [] => emit
  | c :: l' => if word_char c then words (c :: current) l' else emit ++ words [] l'
  end.
Definition _tokenize (s : string) : gset string :=
  list_to_set (List.filter (fun t => negb (bool_decide (t ∈ _STOP_WORDS)) && (1 <? len t)) (words [] (chars (lower s)))).
Definition _jaccard (a b : gset string) : float :=
  if bool_decide (a = ∅) && bool_decide (b = ∅) then of_Z 0
  else
    let union := Z.of_nat (size (a ∪ b)) in
    if union =? 0 then of_Z 0 else of_ratio (Z.of_nat (size (a ∩ b))) union.

Section metrics.
Context (cfg : LLMSettings) (litellm : LiteLLM Prompt) (as_float : Json -> option float).

Definition ask {A} (prompt : Prompt) (schema : Schema A) (model : option string) : M Engine A :=
  generate_structured cfg litellm prompt schema model.

Definition task_completion (t : Trace) (model : option string) : M Engine MetricResult :=
  extraction ← ask (ExtractTaskAndOutcome t) TaskAndOutcome model;
  verdict ← ask (CompletionVerdict extraction.1 extraction.2) (TaskCompletionVerdict as_float) model;
  mret {| mr_score := verdict.1; mr_reason := verdict.2;
          mr_metadata := metadata [("task", JStr extraction.1); ("outcome", JStr extraction.2);
                                   ("threshold", JFloat threshold); ("success", success verdict.1)]%string |}.

Definition step_efficiency (t : Trace) (model : option string) : M Engine MetricResult :=
  task ← ask (ExtractTask t) TaskSchema model;
  verdict ← ask (EfficiencyPrompt task t) (EfficiencyVerdict as_float) model;
  mret {| mr_score := verdict.1; mr_reason := Some verdict.2;
          mr_metadata := metadata [("task", JStr task); ("threshold", JFloat threshold); ("success", success verdict.1)]%string |}.

(** What both plan metrics report about a plan, and about its absence. *)
Definition plan_metadata (task : string) (plan : list string) (ok : Json) : Object Json :=
  metadata [("task", JStr task); ("plan", JArr (List.map JStr plan)); ("threshold", JFloat threshold); ("success", ok)]%string.
Definition no_plan (task : string) : MetricResult :=
  {| mr_score := of_Z 1; mr_reason := Some "No plan found in trace"%string; mr_metadata := plan_metadata task [] (JBool true) |}.

Definition plan_adherence (t : Trace) (model : option string) : M Engine MetricResult :=
  user_task ← ask (ExtractTask t) TaskSchema model;
  plan ← ask (ExtractPlan t) AgentPlan model;
  match plan with
  | [] => mret (no_plan user_task)
  | _ =>
      verdict ← ask (EvaluateAdherence user_task plan t) (PlanAdherenceScore as_float) model;
      mret {| mr_score := verdict.1; mr_reason := Some verdict.2; mr_metadata := plan_metadata user_task plan (success verdict.1) |}
  end.

Definition plan_quality (t : Trace) (model : option string) : M Engine MetricResult :=
  user_task ← ask (ExtractTask t) TaskSchema model;
  plan ← ask (ExtractPlan t) AgentPlan model;
  match plan with
  | [] => mret (no_plan user_task)
  | _ =>
      verdict ← ask (EvaluatePlanQuality user_task plan) (PlanQualityScore as_float) model;
      mret {| mr_score := verdict.1; mr_reason := Some verdict.2; mr_metadata := plan_metadata user_task plan (success verdict.1) |}
  end.

Definition tool_correctness (t : Trace) (model : option string) : M Engine MetricResult :=
  context ← ask (ExtractToolUsage t) ToolUsageContext model;
  let '(user_input, tools_called, available_tools) := context in
  verdict ← ask (ScoreToolSelection user_input tools_called available_tools) (ToolSelectionScore as_float) model;
  mret {| mr_score := verdict.1; mr_reason := Some verdict.2;
          mr_metadata := metadata [("user_input", JStr user_input); ("tools_called", JArr tools_called);
                                   ("available_tools", JArr available_tools); ("threshold", JFloat threshold);
                                   ("success", success verdict.1)]%string |}.

(** *** argument_correctness *)

Definition is_verdict (x y : Verdict) : bool :=
  match x, y with Yes, Yes | No, No | Neutral, Neutral => true | _, _ => false end.
(** The verdicts on task arguments: neutral calls do not count. *)
Definition task_verdicts (verdicts : list (Verdict * option string)) : list (Verdict * option string) :=
  List.filter (fun v => negb (is_verdict v.1 Neutral)) verdicts.
Definition argument_score (verdicts : list (Verdict * option string)) : float :=
  let task := task_verdicts verdicts in
  match task with
  | [] => of_Z 1
  | _ => of_ratio (count_where (fun v => is_verdict v.1 Yes) task) (Z.of_nat (length task))
  end.
Definition incorrect_reasons (verdicts : list (Verdict * option string)) : list string :=
  List.map (fun v => or_text v.2 "No reason provided") (List.filter (fun v => is_verdict v.1 No) (task_verdicts verdicts)).
Definition verdict_json (v : Verdict * option string) : Json :=
  JObj [("verdict", JStr (Verdict_value v.1)); ("reason", match v.2 with Some r => JStr r | None => JNull end)]%string.
Definition argument_metadata (user_input : string) (verdicts : list (Verdict * option string)) (ok : Json) : Object Json :=
  metadata [("user_input", JStr user_input); ("verdicts", JArr (List.map verdict_json verdicts));
            ("threshold", JFloat threshold); ("success", ok)]%string.

Definition argument_correctness (t : Trace) (model : option string) : M Engine MetricResult :=
  extraction ← ask (ExtractToolCalls t) ToolCallContext model;
  let '(user_input, tool_calls) := extraction in
  match tool_calls with
  | [] => mret {| mr_score := of_Z 1; mr_reason := Some "No tool calls in trace; nothing to evaluate."%string;
                  mr_metadata := argument_metadata user_input [] (JBool true) |}
  | _ =>
      verdicts ← ask (GenerateVerdicts user_input tool_calls) ArgumentVerdicts model;
      let score := argument_score verdicts in
      reason ← (match verdicts, task_verdicts verdicts with
                | _ :: _, [] => mret "Only Reflect rule and memory operations; no task-directed arguments to evaluate."%string
                | _, _ => ask (GenerateReason (incorrect_reasons verdicts) user_input score) ArgumentCorrectnessReason model
                end);
      mret {| mr_score := score; mr_reason := Some reason; mr_metadata := argument_metadata user_input verdicts (success score) |}
  end.

Definition confidence (t : Trace) (model : option string) : M Engine MetricResult :=
  verdict ← ask (EvaluateConfidence t) (ConfidenceVerdict as_float) model;
  mret {| mr_score := verdict.1; mr_reason := verdict.2;
          mr_metadata := metadata [("threshold", JFloat threshold); ("success", success verdict.1)]%string |}.

(** *** Embedding metrics *)

Definition embed (texts : list string) : M Engine (list (list float)) := embed_texts cfg litellm texts.
(** [embeddings[i]] *)
Definition nth_embedding (l : list (list float)) (i : nat) : res (list float) :=
  match l !! i with Some v => Ok v | None => Err IndexError end.

Definition coherence (t : Trace) : M Engine MetricResult :=
  let input_text := to_text (tr_input t) in
  let output_text := to_text (tr_output t) in
  if bool_decide (input_text = EmptyString) || bool_decide (output_text = EmptyString) then
    mret {| mr_score := of_Z 1; mr_reason := Some "Input or output is empty; coherence assumed."%string;
            mr_metadata := metadata [("coherence_gap", JFloat (of_Z 0)); ("note", JStr "empty_input_or_output")]%string |}
  else
    embeddings ← embed [input_text; output_text];
    a ← lift (nth_embedding embeddings 0);
    b ← lift (nth_embedding embeddings 1);
    gap ← lift (cosine_distance a b);
    let score := clamp01 (fsub (of_Z 1) gap) in
    mret {| mr_score := round4 score; mr_reason := Some ("Coherence gap: " +:+ fixed4 gap)%string;
            mr_metadata := metadata [("coherence_gap", JFloat (round4 gap)); ("threshold", JFloat threshold); ("success", success score)]%string |}.

(** One comparison with a previous output: the cosine and Jaccard similarities. *)
Definition compare (current : list float) (tokens : gset string) (prev_text : string) (prev : list float) : res (float * float) :=
  d ← cosine_distance current prev;
  Ok (fsub (of_Z 1) d, _jaccard tokens (_tokenize prev_text)).
Definition comparison_json (index : Z) (cj : float * float) : Json :=
  JObj [("trace_index", JInt index); ("cosine_similarity", JFloat (round4 cj.1)); ("jaccard_similarity", JFloat (round4 cj.2));
        ("hybrid_score", JFloat (round4 (fmul cj.1 cj.2)))]%string.
Definition loop_note (reason note : string) : MetricResult :=
  {| mr_score := of_Z 1; mr_reason := Some reason; mr_metadata := metadata [("note"%string, JStr note)] |}.
(** [l[-n:]] *)
Definition last_n {A} (n : nat) (l : list A) : list A := drop (length l - n) l.

Definition loop_detection (t : Trace) (session_traces : list Trace) : M Engine MetricResult :=
  match session_traces with
  | [] => mret (loop_note "No session context provided; looping cannot be assessed." "no session context provided")
  | _ =>
      let current_text := to_text (tr_output t) in
      if bool_decide (current_text = EmptyString) then mret (loop_note "Empty output; looping cannot be assessed." "empty_output")
      else
        match List.filter (fun s => negb (bool_decide (s = EmptyString)))
                (List.map (fun p => to_text (tr_output p)) (last_n DEFAULT_WINDOW session_traces)) with
        | [] => mret (loop_note "No previous outputs to compare." "no_previous_outputs")
        | prev_texts =>
            embeddings ← embed (current_text :: prev_texts);
            current ← lift (nth_embedding embeddings 0);
            found ← lift (res_all (imap (fun i p =>
                prev ← nth_embedding embeddings (S i);
                compare current (_tokenize current_text) p prev) prev_texts));
            let max_hybrid := foldl fmax (of_Z 0) (List.map (fun cj => fmul cj.1 cj.2) found) in
            let score := round4 (clamp01 (fsub (of_Z 1) max_hybrid)) in
            let base := Z.of_nat (length session_traces) - Z.of_nat (length prev_texts) in
            mret {| mr_score := score; mr_reason := Some ("Max hybrid repetition score: " +:+ fixed4 max_hybrid)%string;
                    mr_metadata := metadata [
                      ("window_size", JInt (Z.of_nat (length prev_texts))); ("max_hybrid", JFloat (round4 max_hybrid));
                      ("comparisons", JArr (imap (fun i cj => comparison_json (base + Z.of_nat i) cj) found));
                      ("threshold", JFloat threshold); ("success", success score)]%string |}
        end
  end%string.

(** [metric_cls().evaluate(trace, llm, model=..., session_traces=...)] of the class registered as [name];
    no [session_traces] and an empty list are the same. *)
Definition evaluate (name : string) (t : Trace) (model : option string) (session_traces : list Trace) : M Engine MetricResult :=
  if bool_decide (name = "argument_correctness"%string) then argument_correctness t model
  else if bool_decide (name = "coherence"%string) then coherence t
  else if bool_decide (name = "confidence"%string) then confidence t model
  else if bool_decide (name = "loop_detection"%string) then loop_detection t session_traces
  else if bool_decide (name = "plan_adherence"%string) then plan_adherence t model
  else if bool_decide (name = "plan_quality"%string) then plan_quality t model
  else if bool_decide (name = "step_efficiency"%string) then step_efficiency t model
  else if bool_decide (name = "task_completion"%string) then task_completion t model
  else if bool_decide (name = "tool_correctness"%string) then tool_correctness t model
  else raise KeyError.
End metrics.
End TraceMetrics.

(** ** The metrics of a session

    Pure aggregation of the signals computed for the traces. *)

Module SessionMetrics.

(** The signals of each trace, by trace. *)
Abbreviation Signals := (gmap N (gmap string float)).

(** [w * x] where the weight is a JSON value. *)
Definition weigh (w : Json) (x : float) : res float :=
  match w with
  | JFloat w => Ok (fmul w x)
  | JInt n => if is_finite (of_Z n) then Ok (fmul (of_Z n) x) else Err OverflowError
  | JBool b => Ok (fmul (of_Z (if b then 1 else 0)) x)
  | _ => Err TypeError
  end.

(** [{**DEFAULT_SIGNAL_WEIGHTS, **(signal_weights or {})}] *)
Definition merged_weights (signal_weights : option Json) : res (Object Json) :=
  match signal_weights with
  | None => Ok DEFAULT_SIGNAL_WEIGHTS
  | Some v =>
      if negb (json_truthy v) then Ok DEFAULT_SIGNAL_WEIGHTS
      else match v with
           | JObj m => Ok (foldl (fun d kv => <[kv.1 := kv.2]> d) DEFAULT_SIGNAL_WEIGHTS m)
           | _ => Err TypeError
           end
  end.
Definition weight (k : string) (d : Object Json) : Json := default JNull (d !! k).
Definition weights_json (d : Object Json) : Json := JObj (map_to_list d).

(** The risk of a signal: its name in the details, and its weighted value. *)
Definition risk_of (weights : Object Json) (s : gmap string float) (signal detail : string) : res (option (string * float * float)) :=
  match s !! signal with
  | None => Ok None
  | Some v =>
      let risk := fsub (of_Z 1) v in
      weighted ← weigh (weight signal weights) risk;
      Ok (Some (detail, risk, weighted))
  end.
Definition rounded_details (l : list (string * float * float)) : list (string * Json) :=
  List.map (fun d => (d.1.1, JFloat (round4 d.1.2))) l.
Definition penalty_signals : list (string * string) :=
  [("loop_detection", "loop_risk"); ("tool_correctness", "tool_risk"); ("coherence", "coherence_risk")]%string.

(** The signals of a trace, when it has some. *)
Definition signals_of (signals : Signals) (t : Trace) : option (gmap string float) :=
  match signals !! tr_id t with Some s => if bool_decide (s = ∅) then None else Some s | None => None end.

Definition empty_session : MetricResult :=
  {| mr_score := of_Z 1; mr_reason := Some "No traces or signals to evaluate."%string;
     mr_metadata := metadata [("note", JStr "empty_session")]%string |}.
Definition no_evaluable : MetricResult :=
  {| mr_score := of_Z 1; mr_reason := Some "No evaluable traces."%string; mr_metadata := ∅ |}.

Definition with_trace (t : Trace) (rd : float * list (string * Json)) : N * float * list (string * Json) := (tr_id t, rd.1, rd.2).

Definition of_trace (signals : Signals) (f : gmap string float -> res (option (float * list (string * Json)))) (t : Trace) :
    res (option (N * float * list (string * Json))) :=
  match signals_of signals t with
  | None => Ok None
  | Some s => match f s with Ok r => Ok (with_trace t <$> r) | Err e => Err e end
  end.

(** *** agent_reliability *)

Definition TOP_K_PERCENTILE : float := decimal 15 2.
Definition ENSEMBLE_WEIGHT_MAX : float := decimal 1 1.

(** The risk of one trace with its details; a trace without signals of interest has none. *)
Definition step_risk (weights : Object Json) (s : gmap string float) : res (option (float * list (string * Json))) :=
  found ← res_all (List.map (fun sd => risk_of weights s sd.1 sd.2) (("confidence", "confidence_risk")%string :: penalty_signals));
  match non_null found with
  | [] => Ok None
  | (d, r, w) :: l =>
      let risk := foldl fmax w (List.map snd l) in
      Ok (Some (risk, rounded_details ((d, r, w) :: l) ++ [("step_risk"%string, JFloat (round4 risk))]))
  end.
(** [sorted(risks, reverse=True)] *)
Definition sorted_reverse (l : list float) : list float := order_by (fun a b => negb (fltb a b)) l.

Definition top_k_size (n : Z) : res Z := c ← py_ceil (fmul (of_Z n) TOP_K_PERCENTILE); Ok (Z.max 1 c).
Definition raw_risk (mean_top_k max_risk : float) : float :=
  fadd (fmul (fsub (of_Z 1) ENSEMBLE_WEIGHT_MAX) mean_top_k) (fmul ENSEMBLE_WEIGHT_MAX max_risk).

Definition agent_reliability (traces : list Trace) (signal_weights : option Json) (signals : Signals) : res MetricResult :=
  if bool_decide (signals = ∅) || match traces with [] => true | _ => false end then Ok empty_session
  else
    weights ← merged_weights signal_weights;
    found ← res_all (List.map (of_trace signals (step_risk weights)) traces);
    let steps := non_null found in
    let risks := List.map (fun x => x.1.2) steps in
    match sorted_reverse risks return res MetricResult with
    | [] => Ok no_evaluable
    | max_risk :: rest =>
        k ← top_k_size (Z.of_nat (length risks));
        let mean_top_k := fdiv (py_sum (take (Z.to_nat k) (max_risk :: rest))) (of_Z k) in
        let raw := raw_risk mean_top_k max_risk in
        let flagged := List.filter (fun x => fltb (decimal 5 1) x.1.2) steps in
        let n_total := digits_text (Z.of_nat (length risks)) in
        Ok {| mr_score := round4 (clamp01 (fsub (of_Z 1) raw));
              mr_reason := Some (match flagged with
                                 | [] => "No elevated risk across " +:+ n_total +:+ " traces."
                                 | _ => "Elevated risk in " +:+ digits_text (Z.of_nat (length flagged)) +:+ " of " +:+ n_total +:+ " traces."
                                 end)%string;
              mr_metadata := metadata [
                ("total_traces_in_session", JInt (Z.of_nat (length traces))); ("traces_evaluated", JInt (Z.of_nat (length risks)));
                ("raw_risk", JFloat (round4 raw)); ("signal_weights", weights_json weights);
                ("per_trace_signals", JObj (List.map (fun x => (uuid_text x.1.1, JObj x.2)) steps));
                ("flagged_traces", JArr (List.map (fun x => JStr (uuid_text x.1.1)) flagged));
                ("aggregation", JObj [("method", JStr "max_compose_top_k"); ("top_k_percentile", JFloat TOP_K_PERCENTILE);
                                      ("ensemble_weight", JFloat ENSEMBLE_WEIGHT_MAX);
                                      ("mean_top_k_risk", JFloat (round4 mean_top_k)); ("max_risk", JFloat (round4 max_risk))])]%string |}
    end.

(** *** agent_consistency *)

(** [wu ** 2]; a finite number whose square is not raises. *)
Definition square (x : float) : res float :=
  let y := fmul x x in if is_finite x && negb (is_finite y) then Err OverflowError else Ok y.

(** The weighted uncertainty of one trace; a trace without a confidence has none. *)
Definition weighted_uncertainty (weights : Object Json) (s : gmap string float) : res (option (float * list (string * Json))) :=
  match s !! "confidence"%string with
  | None => Ok None
  | Some v =>
      let conf_risk := fsub (of_Z 1) v in
      found ← res_all (List.map (fun sd => risk_of weights s sd.1 sd.2) penalty_signals);
      let terms := non_null found in
      let penalty := py_sum (List.map snd terms) in
      wc ← weigh (weight "confidence" weights) conf_risk;
      let wu := fmul (fadd (of_Z 1) penalty) wc in
      let rounded := match terms with [] => JInt 0 | _ => JFloat (round4 penalty) end in
      Ok (Some (wu, ("confidence_risk", JFloat (round4 conf_risk)) :: rounded_details terms
                      ++ [("situational_penalty", rounded); ("weighted_uncertainty", JFloat (round4 wu))]))%string
  end.

Definition agent_consistency (traces : list Trace) (signal_weights : option Json) (signals : Signals) : res MetricResult :=
  if bool_decide (signals = ∅) || match traces with [] => true | _ => false end then Ok empty_session
  else
    weights ← merged_weights signal_weights;
    found ← res_all (List.map (of_trace signals (weighted_uncertainty weights)) traces);
    let steps := non_null found in
    let n := Z.of_nat (length steps) in
    match steps return res MetricResult with
    | [] => Ok no_evaluable
    | _ =>
        squares ← res_all (List.map (fun x => square x.1.2) steps);
        let rms := fsqrt (fdiv (py_sum squares) (of_Z n)) in
        let score := round4 (clamp01 (fsub (of_Z 1) rms)) in
        let n_total := digits_text n in
        Ok {| mr_score := score;
              mr_reason := Some (if fleb (decimal 8 1) score then "Consistent performance across " +:+ n_total +:+ " traces."
                                 else if fleb (decimal 5 1) score then "Moderate instability detected across " +:+ n_total +:+ " traces."
                                 else "High instability across " +:+ n_total +:+ " traces; multiple signals compound.")%string;
              mr_metadata := metadata [
                ("total_traces_in_session", JInt (Z.of_nat (length traces))); ("traces_evaluated", JInt n);
                ("raw_instability", JFloat (round4 rms)); ("signal_weights", weights_json weights);
                ("per_trace_signals", JObj (List.map (fun x => (uuid_text x.1.1, JObj x.2)) steps));
                ("aggregation", JObj [("method", JStr "weighted_rms"); ("rms_value", JFloat (round4 rms))])]%string |}
    end.

(** [session_metric_cls().evaluate(...)] of the class registered as [name]. *)
Definition evaluate (name : string) (traces : list Trace) (signal_weights : option Json) (signals : Signals) : res MetricResult :=
  if bool_decide (name = "agent_consistency"%string) then agent_consistency traces signal_weights signals
  else if bool_decide (name = "agent_reliability"%string) then agent_reliability traces signal_weights signals
  else Err KeyError.
End SessionMetrics.
