(* ===== verification/ScoreBounds.v ===== *)
(** * Bounds on computed scores

    Every metric of core/evals/metrics answers with a score of the unit interval:
    the judge's numbers pass a schema that checks their range, a share of correct
    calls is a quotient of counts, and the similarities and risks are clamped and
    rounded.  Such a score, written as text, passes the validator of a numeric
    score, so a computed score is never refused when it is stored. *)
From stdpp Require Import base gmap strings list.
From Stdlib Require Import ZArith Lia Ascii ssreflect SpecFloat.
From S2P Require Import Prelude Constants Float64 PyFloat FloatFacts Json JsonText Evals Telemetry Sql Cadence LLM Metrics.

#[local] Open Scope Z_scope.

Import LLMEngine Schemas TraceMetrics SessionMetrics.

(** A valid double of the unit interval. *)
Definition unit_score (x : float) : Prop := valid x = true /\ in_unit x = true.

Lemma unit_of_Z_1 : unit_score (of_Z 1).
Proof. done. Qed.
Lemma unit_of_ratio p q : 0 <= p <= q -> 0 < q -> unit_score (of_ratio p q).
Proof. split; [apply of_ratio_valid|by apply of_ratio_unit]. Qed.
(** [round(max(0.0, min(1.0, 1.0 - y)), 4)] of any [y], NaN and infinities included. *)
Lemma unit_clamped y : unit_score (round4 (clamp01 (fsub (of_Z 1) y))).
Proof.
  assert (V : valid (clamp01 (fsub (of_Z 1) y)) = true) by apply clamp01_valid, fsub_one_valid.
  split; [by apply round4_valid|]. apply round4_unit; [done|apply clamp01_unit].
Qed.
Lemma unit_score_stored x : unit_score x -> validate_score_value (score_text x) NUMERIC = Ok tt.
Proof. intros [V U]. destruct (score_text_unit x V U) as (y & E & I). cbn. by rewrite E I. Qed.

(** ** What a coroutine can answer *)

Definition yields {W A} (Q : A -> Prop) (m : M W A) : Prop := forall w a w', m w = (Ok a, w') -> Q a.

Lemma res_bind_inv {A B} (m : res A) (k : A -> res B) b : (m ≫= k) = Ok b -> exists a, m = Ok a /\ k a = Ok b.
Proof. destruct m as [a|e]; [by exists a|done]. Qed.

Lemma Ok_inj {A} (a b : A) : Ok a = Ok b -> a = b.
Proof. by intros [= ->]. Qed.

Section yields.
Context {W : Type}.
Lemma yields_ret {A} (Q : A -> Prop) (a : A) : Q a -> yields Q (mret a : M W A).
Proof. by intros H w b w' [= <- <-]. Qed.
Lemma yields_raise {A} (Q : A -> Prop) e : yields Q (raise e : M W A).
Proof. by intros w a w' H. Qed.
Lemma yields_lift {A} (Q : A -> Prop) (r : res A) : (forall a, r = Ok a -> Q a) -> yields Q (lift r : M W A).
Proof. intros H w a w' [= E _]. by apply H. Qed.
Lemma yields_bind {A B} (P : A -> Prop) (Q : B -> Prop) (m : M W A) (k : A -> M W B) :
  yields P m -> (forall a, P a -> yields Q (k a)) -> yields Q (m ≫= k).
Proof. intros Hm Hk w b w' H. destruct_bind H a w1 E. by apply (Hk a (Hm _ _ _ E) _ _ _ H). Qed.
Lemma yields_try {A} (Q : A -> Prop) (m : M W A) h : yields Q m -> (forall e, yields Q (h e)) -> yields Q (try_except m h).
Proof. intros Hm Hh w a w' H. unfold try_except in H. destruct (m w) as [[b|e] w1] eqn:E; [injection H as <- <-; exact (Hm _ _ _ E)|exact (Hh e _ _ _ H)]. Qed.
Lemma yields_any {A} (m : M W A) : yields (fun _ => True) m.
Proof. done. Qed.
End yields.
#[local] Hint Resolve yields_ret yields_raise yields_any : core.

(** ** Answers of the judge *)

Section judge.
Context (cfg : LLMSettings) (litellm : LiteLLM Prompt) (as_float : Json -> option float).

(** What the engine answers has been validated by the schema. *)
Lemma ask_yields {A} (Q : A -> Prop) prompt (schema : Schema A) model :
  (forall v a, model_validate schema v = Ok a -> Q a) -> yields Q (ask cfg litellm prompt schema model).
Proof.
  intros V. assert (P : forall raw, yields Q (lift (_parse_response raw schema) : M Engine A)).
  { intros raw. apply yields_lift. intros a H. unfold _parse_response in H. destruct (unfence (strip raw)); [|done].
    cbn [mbind res_bind] in H. destruct (json_loads a0); [exact (V _ _ H)|done]. }
  eapply yields_bind; [apply yields_any|]. intros _ _. induction MAX_RETRIES as [|n IH]; [by apply yields_raise|].
  apply yields_try; [|intros e; repeat case_match; auto].
  apply yields_try; [|intros e]; (eapply yields_bind; [apply yields_any|auto]).
Qed.

(** pydantic converts to doubles. *)
Context (as_float_valid : forall v x, as_float v = Some x -> valid x = true).

Lemma as_unit_score k v x : req (as_unit as_float) k v = Ok x -> unit_score x.
Proof.
  unfold req. destruct (field k v) as [y|]; [|done]. cbn [mbind option_bind]. unfold as_unit.
  destruct (as_float y) as [z|] eqn:E; [|done]. cbn. destruct (in_unit z) eqn:U; [|done]. intros [= <-]. split; [exact (as_float_valid _ _ E)|done].
Qed.
Lemma scored_yields name prompt model : yields (fun r => unit_score r.1) (ask cfg litellm prompt (scored as_float name) model).
Proof.
  apply ask_yields. intros v [x r]. cbn. destruct (req (as_unit as_float) "score" v) as [y|] eqn:E; [|done].
  cbn. destruct (req as_str "reason" v); [|done]. intros [= <- <-]. exact (as_unit_score _ _ _ E).
Qed.

(** ** The metrics *)

Definition bounded_result (r : MetricResult) : Prop := unit_score (mr_score r).

Lemma argument_score_unit verdicts : unit_score (argument_score verdicts).
Proof.
  unfold argument_score, count_where. set (l := task_verdicts verdicts). clearbody l. destruct l as [|v l]; [done|].
  pose proof (List.filter_length_le (fun v => is_verdict v.1 Yes) (v :: l)) as H. apply unit_of_ratio; cbn [length] in *; lia.
Qed.

(** One call whose answer is not the score, and the last one, which carries it. *)
Ltac step := eapply yields_bind; [apply yields_any|intros ? _].
Ltac last_step H := eapply yields_bind; [apply H|intros ? ?; by apply yields_ret].

Lemma embedding_metrics_yield t before :
  yields bounded_result (coherence cfg litellm t) /\ yields bounded_result (loop_detection cfg litellm t before).
Proof.
  split.
  - unfold coherence. case_match; [by apply yields_ret|]. step. step. step. step. apply yields_ret, unit_clamped.
  - unfold loop_detection. repeat case_match; try by apply yields_ret. step. step. step. apply yields_ret, unit_clamped.
Qed.
Lemma plan_metrics_yield t model :
  yields bounded_result (plan_adherence cfg litellm as_float t model) /\
  yields bounded_result (plan_quality cfg litellm as_float t model).
Proof.
  split; [unfold plan_adherence|unfold plan_quality].
  all: step; step; case_match; [by apply yields_ret|]; last_step scored_yields.
Qed.

Lemma evaluate_yields name t model before : yields bounded_result (TraceMetrics.evaluate cfg litellm as_float name t model before).
Proof.
  unfold TraceMetrics.evaluate. repeat case_match; [..|apply yields_raise].
  - unfold argument_correctness. step. destruct a as [u [|c l]]; [by apply yields_ret|]. step. step. apply yields_ret, argument_score_unit.
  - apply (embedding_metrics_yield t before).
  - unfold confidence. eapply yields_bind; [apply (ask_yields (fun r => unit_score r.1))|intros ? ?; by apply yields_ret].
    intros v [x r]. cbn. destruct (req (as_unit as_float) "confidence" v) as [y|] eqn:E; [|done].
    cbn. destruct (opt_str "reason" v); [|done]. intros [= <- <-]. exact (as_unit_score _ _ _ E).
  - apply (embedding_metrics_yield t before).
  - apply (plan_metrics_yield t model).
  - apply (plan_metrics_yield t model).
  - unfold step_efficiency. step. last_step scored_yields.
  - unfold task_completion. step. eapply yields_bind; [apply (ask_yields (fun r => unit_score r.1))|intros ? ?; by apply yields_ret].
    intros v [x r]. cbn. destruct (req (as_unit as_float) "verdict" v) as [y|] eqn:E; [|done].
    cbn. destruct (opt_str "reason" v); [|done]. intros [= <- <-]. exact (as_unit_score _ _ _ E).
  - unfold tool_correctness. step. destruct a as [[u c] l]. last_step scored_yields.
Qed.
End judge.

(** ** The metrics of a session *)

Lemma session_evaluate_bounded name traces weights signals r :
  SessionMetrics.evaluate name traces weights signals = Ok r -> unit_score (mr_score r).
Proof.
  unfold SessionMetrics.evaluate. repeat case_match; [..|done].
  - unfold agent_consistency. case_match; [by intros [= <-]|].
    intros (d & _ & R)%res_bind_inv. apply res_bind_inv in R as (found & _ & R). case_match; [by injection R as <-|].
    apply res_bind_inv in R as (squares & _ & R). apply Ok_inj in R as <-. apply unit_clamped.
  - unfold agent_reliability. case_match; [by intros [= <-]|].
    intros (d & _ & R)%res_bind_inv. apply res_bind_inv in R as (found & _ & R). case_match; [by injection R as <-|].
    apply res_bind_inv in R as (k & _ & R). apply Ok_inj in R as <-. apply unit_clamped.
Qed.

(** C14: Computed scores are scores.  Whatever the judge and the embedding provider answer, NaN and infinities
    included, a result that a trace metric or a session metric returns has a score of the unit interval, and
    the text under which the score is stored, [str(round(score, 4))], passes the validator of numeric
    scores: a computed score is never refused. *)
Theorem computed_scores_valid (cfg : LLMSettings) (litellm : LiteLLM Prompt) (as_float : Json -> option float)
  (as_float_valid : forall v x, as_float v = Some x -> valid_binary prec emax x = true) :
  (forall name t model before e r e', TraceMetrics.evaluate cfg litellm as_float name t model before e = (Ok r, e') ->
     in_unit (mr_score r) = true /\ validate_score_value (score_text (mr_score r)) NUMERIC = Ok tt) /\
  (forall name traces weights signals r, SessionMetrics.evaluate name traces weights signals = Ok r ->
     in_unit (mr_score r) = true /\ validate_score_value (score_text (mr_score r)) NUMERIC = Ok tt).
Proof.
  split.
  - intros name t model before e r e' H. pose proof (evaluate_yields cfg litellm as_float as_float_valid name t model before e r e' H) as U.
    split; [apply U|by apply unit_score_stored].
  - intros name traces weights signals r H. apply session_evaluate_bounded in H. split; [apply H|by apply unit_score_stored].
Qed.

(** ** Witness

    A judge that is confident at 0.87654321, which is stored as 0.8765, and a session without traces. *)

Definition sure_judge : LiteLLM Prompt :=
  {| acompletion := fun _ _ _ _ _ => Ok (Some (text (List.map (fun c => if bool_decide (c = "'"%char) then quote else c)
                                                    (chars "{'confidence': 0.87654321}"))));
     aembedding := fun _ _ _ => Ok [] |}.
Definition pydantic_float (v : Json) : option float :=
  match v with
  | JFloat x => if valid_binary prec emax x then Some x else None
  | JInt n => Some (of_Z n)
  | _ => None
  end.
Definition openai_settings : LLMSettings :=
  {| OPENAI_API_KEY := "key"; ANTHROPIC_API_KEY := ""; GEMINI_API_KEY := ""; GOOGLE_CLOUD_PROJECT := ""; EVAL_LLM_MODEL := "gpt-4o-mini";
     EVAL_LLM_TEMPERATURE := of_Z 1; EVAL_EMBEDDING_MODEL := "openai/text-embedding-3-small"; EVAL_EMBEDDING_CACHE_SIZE := 2048 |}.
Definition judged_trace : Trace :=
  {| tr_id := 31; tr_project := 20; tr_name := "chat"; tr_status := TCOMPLETED; tr_input := None; tr_output := None; tr_metadata := ∅;
     tr_started := 5; tr_ended := None; tr_session := None; tr_user := None; tr_tags := []; tr_environment := None; tr_release := None;
     tr_spans := [] |}.

Lemma computed_scores_valid_witness :
  (exists r e', TraceMetrics.evaluate openai_settings sure_judge pydantic_float "confidence" judged_trace None [] new_engine = (Ok r, e') /\
     in_unit (mr_score r) = true /\ score_text (mr_score r) = "0.8765"%string) /\
  exists r, SessionMetrics.evaluate "agent_reliability" [] None ∅ = Ok r /\ in_unit (mr_score r) = true.
Proof.
  assert (V : forall v x, pydantic_float v = Some x -> valid_binary prec emax x = true).
  { intros [| |n|y| | |] x; cbn; try done; [intros [= <-]; apply of_Z_valid|]. destruct (valid_binary prec emax y) eqn:E; [by intros [= <-]|done]. }
  destruct (computed_scores_valid openai_settings sure_judge pydantic_float V) as [T S]. split.
  - set (run := TraceMetrics.evaluate _ _ _ _ _ _ _ _).
    assert (C : match run.1 with Ok r => score_text (mr_score r) | Err _ => EmptyString end = "0.8765"%string) by (vm_compute; reflexivity).
    destruct run as [[r|e] e'] eqn:E; [|done]. exists r, e'. split; [done|]. split; [exact (proj1 (T _ _ _ _ _ _ _ E))|exact C].
  - assert (E : SessionMetrics.evaluate "agent_reliability" [] None ∅ = Ok empty_session).
    { unfold SessionMetrics.evaluate. cbn. unfold agent_reliability. by rewrite orb_true_r. }
    exists empty_session. split; [exact E|exact (proj1 (S _ _ _ _ _ E))].
Defined.
