(* ===== verification/EvalRepo.v ===== *)
(** * The evaluation repository (db/repositories/eval_repo.py)

    Scores of traces and of sessions are stored and queried alike; the operations
    the class has twice are written once, over a [ScoreTable], and named for both
    tables in [Module EvalRepository]. *)
From stdpp Require Import base gmap strings list.
From Stdlib Require Import ZArith Lia ssreflect.
From S2P Require Import Prelude Constants Entities Float64 PyFloat Json Evals Telemetry Sql World TraceRepo.

#[local] Open Scope Z_scope.

(** ** Access to the tables *)

Definition evals_of (d : DB) : Evaluations := evals (telemetry d).
Definition on_evals (f : Evaluations -> Evaluations) (d : DB) : DB :=
  set_telemetry (set_evals (f (evals_of d)) (telemetry d)) d.
Definition update_evals (f : Evaluations -> Evaluations) : M World unit := write_db (on_evals f).

Record ScoreTable (T : Type) := {
  sc_rows : Evaluations -> list (Score T);
  sc_set : list (Score T) -> Evaluations -> Evaluations;
  sc_target_exists : DB -> T -> bool;
  sc_target_fits : T -> bool }.
Arguments sc_rows {T}.
Arguments sc_set {T}.
Arguments sc_target_exists {T}.
Arguments sc_target_fits {T}.

Definition trace_table : ScoreTable N :=
  {| sc_rows := trace_scores; sc_set := set_trace_scores; sc_target_exists := fun d id => trace_exists id d;
     sc_target_fits := fun _ => true |}.
Definition session_table : ScoreTable string :=
  {| sc_rows := session_scores; sc_set := set_session_scores; sc_target_exists := fun _ _ => true;
     sc_target_fits := fits 255 |}.

Definition run_exists (d : DB) (run : option N) : bool :=
  match run with Some i => existsb (fun r => bool_decide (e_id r = i)) (eval_runs (evals_of d)) | None => true end.
Definition monitor_exists (d : DB) (monitor : option N) : bool :=
  match monitor with Some i => existsb (fun m => bool_decide (mo_id m = i)) (eval_monitors (evals_of d)) | None => true end.

Definition opt_test {A} (v : option A) (test : A -> bool) : bool := match v with Some x => test x | None => true end.
Definition count_rows {R} (l : list R) : Z := Z.of_nat (length l).
Definition newest_first {T} : list (Score T) -> list (Score T) := sort_by Z.leb (fun s => Some (c_created s)) DESC.

Module EvalRepository.

(** ** Scores *)

Section scores.
Context {T : Type} `{EqDecision T} (pg : Postgres) (tb : ScoreTable T).

Definition rows_of (d : DB) : list (Score T) := sc_rows tb (evals_of d).
Definition set_rows (l : list (Score T)) : DB -> DB := on_evals (sc_set tb l).

(** INSERT: column widths, then the primary key and the foreign keys. *)
Definition create_score_in (s : Score T) : M World (Score T) :=
  d ← read_db id;
  guard_not (negb (Score_fits (sc_target_fits tb) s)) DataError ;;
  guard_not (negb (project_exists (c_project s) d && sc_target_exists tb d (c_target s) && run_exists d (c_run s))) IntegrityError ;;
  insert_row (fun a b => bool_decide (c_id a = c_id b)) rows_of set_rows s ;;
  mret s.

Definition _to_score_in (row : Score T) : res (Score T) := Score_validate row.
Definition to_scores (l : list (Score T)) : res (list (Score T)) := res_all (List.map _to_score_in l).

Definition for_target (target : T) (project : N) (s : Score T) : bool :=
  bool_decide (c_target s = target) && bool_decide (c_project s = project).
Definition of_run (run project : N) (s : Score T) : bool :=
  sql_eq (c_run s) run && bool_decide (c_project s = project).
Definition with_score_id (id project : N) (s : Score T) : bool :=
  bool_decide (c_id s = id) && bool_decide (c_project s = project).
Definition succeeded (s : Score T) : bool := bool_decide (c_status s = SUCCESS).
Definition failed (s : Score T) : bool := bool_decide (c_status s = FAILED_SCORE).
Definition numeric_success (s : Score T) : bool := bool_decide (c_type s = NUMERIC) && succeeded s.

Definition get_scores_for_target (target : T) (project : N) : M World (list (Score T)) :=
  read_res (fun d => to_scores (newest_first (select (for_target target project) (rows_of d)))).

(** [DISTINCT ON (key) ... ORDER BY key, created_at DESC]: the newest row of each key. *)
Definition distinct_on {K} `{EqDecision K} (key : Score T -> K) (le : K -> K -> bool) (l : list (Score T)) : list (Score T) :=
  omap (fun g => head (newest_first g.2)) (order_by (fun a b => le a.1 b.1) (group_by key l)).

Record ScoreFilters := {
  q_name : option string;
  q_target : option T;
  q_source : option ScoreSource;
  q_status : option ScoreStatus;
  q_type : option ScoreDataType;
  q_run : option N;
  q_environment : option string;
  q_from : option Z;
  q_to : option Z }.
Definition in_window_opt (from to_ : option Z) (t : Z) : bool := opt_test from (fun a => a <=? t) && opt_test to_ (fun b => t <? b).
Definition score_filter (project : N) (q : ScoreFilters) (s : Score T) : bool :=
  bool_decide (c_project s = project)
  && opt_test (q_name q) (fun v => bool_decide (c_name s = v))
  && opt_test (q_target q) (fun v => bool_decide (c_target s = v))
  && opt_test (q_source q) (fun v => bool_decide (c_source s = v))
  && opt_test (q_status q) (fun v => bool_decide (c_status s = v))
  && opt_test (q_type q) (fun v => bool_decide (c_type s = v))
  && opt_test (q_run q) (sql_eq (c_run s))
  && opt_test (q_environment q) (sql_eq (c_environment s))
  && in_window_opt (q_from q) (q_to q) (c_created s).

Definition list_scores_in (project : N) (q : ScoreFilters) (limit offset : Z) : M World (list (Score T) * Z) :=
  read_res (fun d =>
    let base := select (score_filter project q) (rows_of d) in
    l ← to_scores (page offset limit (newest_first base));
    Ok (l, count_rows base)).

Definition get_scores_of_run (run project : N) : M World (list (Score T)) :=
  read_res (fun d => to_scores (newest_first (select (of_run run project) (rows_of d)))).
Definition get_failed_of_run (run project : N) : M World (list (Score T)) :=
  read_res (fun d => to_scores (select (fun s => of_run run project s && failed s) (rows_of d))).

(** [DELETE ... WHERE p]; the number of rows. *)
Definition delete_scores_where (p : Score T -> bool) : M World Z :=
  n ← read_db (fun d => count_rows (select p (rows_of d)));
  write_db (fun d => set_rows (delete_where p (rows_of d)) d) ;;
  mret n.

(** *** Analytics *)

Record ScoreSummary := {
  sm_name : string; sm_avg : option float; sm_min : option float; sm_max : option float; sm_median : option float;
  sm_success : Z; sm_failed : Z; sm_latest : option Z }.
Definition numeric_values (l : list (Score T)) : res (list float) :=
  vs ← res_all (List.map (fun s => cast_float pg (c_value s)) l); Ok (non_null vs).
Definition summary_of (name : string) (l : list (Score T)) : res ScoreSummary :=
  vs ← numeric_values (select numeric_success l);
  avg ← avg_float8 vs;
  Ok {| sm_name := name; sm_avg := avg; sm_min := min_float8 vs; sm_max := max_float8 vs; sm_median := median_float8 vs;
        sm_success := count_rows (select succeeded l); sm_failed := count_rows (select failed l);
        sm_latest := sql_max (List.map (fun s => Some (c_created s)) l) |}.
Definition summary_in (project : N) (from to_ : option Z) : M World (list ScoreSummary) :=
  read_res (fun d => res_all (List.map (fun g => summary_of g.1 g.2)
    (group_by c_name (select (fun s => bool_decide (c_project s = project) && in_window_opt from to_ (c_created s)) (rows_of d))))).

(** The rows of one metric that distributions and trends aggregate. *)
Definition metric_rows (d : DB) (project : N) (metric : string) (from to_ : option Z) : list (Score T) :=
  select (fun s => bool_decide (c_project s = project) && bool_decide (c_name s = metric) && numeric_success s
                   && in_window_opt from to_ (c_created s)) (rows_of d).

Record HistogramRow := { hg_bucket : Z; hg_min : float; hg_max : float; hg_count : Z }.
(** A score that is NULL, if there is one, falls into no bucket and has none. *)
Definition distribution_in (project : N) (metric : string) (from to_ : option Z) (buckets : Z) : M World (list HistogramRow) :=
  read_res (fun d =>
    vs ← numeric_values (metric_rows d project metric from to_);
    let step := fdiv (of_Z 1) (of_Z buckets) in
    let row b := {| hg_bucket := b; hg_min := round4 (fmax (of_Z 0) (fmul (of_Z (b - 1)) step));
                    hg_max := round4 (fmin (of_Z 1) (fmul (of_Z b) step));
                    hg_count := count_rows (select (fun v => bool_decide (width_bucket v buckets = b)) vs) |} in
    Ok (List.map row (order_by Z.leb (remove_dups (List.map (fun v => width_bucket v buckets) vs))))).

Record TrendRow := { td_bucket : Z; td_name : string; td_avg : float; td_count : Z }.
Definition trend_in (project : N) (metric : string) (from to_ : option Z) (g : AnalyticsGranularity) : M World (list TrendRow) :=
  read_res (fun d =>
    rows ← res_all (List.map (fun grp =>
        vs ← numeric_values grp.2;
        avg ← avg_float8 vs;
        Ok {| td_bucket := grp.1; td_name := metric; td_avg := default (of_Z 0) avg; td_count := count_rows grp.2 |})
      (group_by (fun s => date_trunc pg g (c_created s)) (metric_rows d project metric from to_)));
    Ok (order_by (fun x y => td_bucket x <=? td_bucket y) rows)).
End scores.

Arguments ScoreFilters : clear implicits.

(** *** Both tables *)

Section named.
Context (pg : Postgres).

Definition create_score : TraceScore -> M World TraceScore := create_score_in trace_table.
Definition batch_create_scores (scores : list TraceScore) : M World (list TraceScore) :=
  for_each scores (fun s => create_score s ;; mret tt) ;; mret scores.
Definition create_session_score : SessionScore -> M World SessionScore := create_score_in session_table.
Definition _to_score : TraceScore -> res TraceScore := _to_score_in.
Definition _to_session_score : SessionScore -> res SessionScore := _to_score_in.

Definition get_scores_for_trace (trace_id project_id : N) : M World (list TraceScore) :=
  get_scores_for_target trace_table trace_id project_id.
Definition get_session_scores_for_session (session_id : string) (project_id : N) : M World (list SessionScore) :=
  get_scores_for_target session_table session_id project_id.

Definition get_latest_scores_for_trace (trace_id project_id : N) : M World (list TraceScore) :=
  read_res (fun d => to_scores (distinct_on c_name (collate pg) (select (for_target trace_id project_id) (trace_scores (evals_of d))))).

(** The dictionary from traces to their scores, in the order of the first score. *)
Definition get_scores_for_traces (trace_ids : list N) (project_id : N) : M World (list (N * list TraceScore)) :=
  match trace_ids with
  | [] => mret []
  | _ => read_res (fun d =>
      l ← to_scores (newest_first (select (fun s => bool_decide (c_target s ∈ trace_ids) && bool_decide (c_project s = project_id))
                                    (trace_scores (evals_of d))));
      Ok (group_by c_target l))
  end.

Definition list_scores : N -> ScoreFilters N -> Z -> Z -> M World (list TraceScore * Z) := list_scores_in trace_table.
Definition list_session_scores : N -> ScoreFilters string -> Z -> Z -> M World (list SessionScore * Z) := list_scores_in session_table.

Definition delete_scores_for_trace (trace_id project_id : N) : M World Z :=
  delete_scores_where trace_table (for_target trace_id project_id).
Definition delete_scores_for_run (run_id project_id : N) : M World Z := delete_scores_where trace_table (of_run run_id project_id).
Definition delete_session_scores_for_run (run_id project_id : N) : M World Z :=
  delete_scores_where session_table (of_run run_id project_id).
Definition delete_score (score_id project_id : N) : M World unit :=
  delete_scores_where trace_table (with_score_id score_id project_id) ;; mret tt.
Definition delete_session_score (score_id project_id : N) : M World unit :=
  delete_scores_where session_table (with_score_id score_id project_id) ;; mret tt.

Definition get_score_by_id (score_id project_id : N) : M World (option TraceScore) :=
  rows ← read_db (fun d => select (with_score_id score_id project_id) (trace_scores (evals_of d)));
  row ← lift (scalar_one_or_none rows);
  match row with
  | None => mret None
  | Some s => lift (s' ← _to_score s; Ok (Some s'))
  end.

(** The columns [update_score] sets; [None] leaves a column as it is. *)
Record ScoreEdit := {
  ed_value : option string; ed_reason : option string; ed_metadata : option (Object Json);
  ed_status : option ScoreStatus; ed_source : option ScoreSource }.
Definition edit_score (f : ScoreEdit) (t : Z) (s : TraceScore) : TraceScore :=
  {| c_id := c_id s; c_target := c_target s; c_project := c_project s; c_name := c_name s; c_type := c_type s;
     c_value := coalesce (ed_value f) (c_value s); c_source := default (c_source s) (ed_source f);
     c_status := default (c_status s) (ed_status f); c_run := c_run s; c_author := c_author s;
     c_reason := coalesce (ed_reason f) (c_reason s); c_environment := c_environment s; c_config := c_config s;
     c_metadata := default (c_metadata s) (ed_metadata f); c_created := c_created s; c_updated := t |}.
Definition edit_empty (f : ScoreEdit) : bool :=
  bool_decide (ed_value f = None) && bool_decide (ed_reason f = None) && match ed_metadata f with None => true | _ => false end
  && bool_decide (ed_status f = None) && bool_decide (ed_source f = None).
Definition update_score (score_id project_id : N) (f : ScoreEdit) : M World unit :=
  if edit_empty f then mret tt
  else
    t ← utcnow;
    rows ← read_db (fun d => select (with_score_id score_id project_id) (trace_scores (evals_of d)));
    guard_not (negb (bool_decide (rows = [])) && negb (fits_opt 255 (ed_value f) && opt_storable text_storable (ed_reason f) && opt_test (ed_metadata f) object_storable)) DataError ;;
    update_evals (fun x => set_trace_scores (update_where (with_score_id score_id project_id) (edit_score f t) (trace_scores x)) x).

(** ** Runs *)

Definition with_run_id (id : N) (r : EvalRun) : bool := bool_decide (e_id r = id).
Definition own_run (id project : N) (r : EvalRun) : bool := with_run_id id r && bool_decide (e_project r = project).

Definition create_eval_run (run : EvalRun) : M World EvalRun :=
  d ← read_db id;
  guard_not (negb (EvalRun_fits run)) DataError ;;
  guard_not (negb (project_exists (e_project run) d && monitor_exists d (e_monitor run))) IntegrityError ;;
  insert_row (fun a b => bool_decide (e_id a = e_id b)) (fun d => eval_runs (evals_of d)) (fun l => on_evals (set_eval_runs l)) run ;;
  mret run.

Definition _to_eval_run (row : EvalRun) : res EvalRun := EvalRun_validate row.

Definition get_eval_run (run_id project_id : N) : M World (option EvalRun) :=
  rows ← read_db (fun d => select (own_run run_id project_id) (eval_runs (evals_of d)));
  row ← lift (scalar_one_or_none rows);
  match row with
  | None => mret None
  | Some r => lift (r' ← _to_eval_run r; Ok (Some r'))
  end.

Definition page_of_runs (base : list EvalRun) (limit offset : Z) : res (list EvalRun * Z) :=
  l ← res_all (List.map _to_eval_run (page offset limit (sort_by Z.leb (fun r => Some (e_created r)) DESC base)));
  Ok (l, count_rows base).
Definition list_eval_runs (project_id : N) (status : option EvaluationStatus) (target : option TargetType) (limit offset : Z) :
    M World (list EvalRun * Z) :=
  read_res (fun d => page_of_runs
    (select (fun r => bool_decide (e_project r = project_id) && opt_test status (fun s => bool_decide (e_status r = s))
                      && opt_test target (fun t => bool_decide (e_target r = t))) (eval_runs (evals_of d))) limit offset).
Definition list_runs_for_monitor (monitor_id project_id : N) (limit offset : Z) : M World (list EvalRun * Z) :=
  read_res (fun d => page_of_runs
    (select (fun r => sql_eq (e_monitor r) monitor_id && bool_decide (e_project r = project_id)) (eval_runs (evals_of d))) limit offset).

(** Updates of a run's progress. *)
Definition set_progress (status : EvaluationStatus) (evaluated failed : Z) (error : option string) (completed : option Z) (r : EvalRun) : EvalRun :=
  {| e_id := e_id r; e_project := e_project r; e_name := e_name r; e_target := e_target r; e_metrics := e_metrics r;
     e_filters := e_filters r; e_sampling := e_sampling r; e_model := e_model r; e_monitor := e_monitor r; e_status := status;
     e_total := e_total r; e_evaluated := evaluated; e_failed := failed; e_error := error; e_created := e_created r;
     e_completed := completed |}.
Definition update_run (run_id : N) (f : EvalRun -> EvalRun) : M World unit :=
  update_evals (fun x => set_eval_runs (update_where (with_run_id run_id) f (eval_runs x)) x).

Definition run_status (status : EvaluationStatus) (error_message : option string) (t : Z) (r : EvalRun) : EvalRun :=
  match status with
  | EFAILED => set_progress status (e_evaluated r) (e_failed r) error_message (Some t) r
  | ECOMPLETED => set_progress status (e_evaluated r) (e_failed r) None (Some t) r
  | ERUNNING => set_progress status (e_evaluated r) (e_failed r) None None r
  | EPENDING => set_progress status (e_evaluated r) (e_failed r) (e_error r) (e_completed r) r
  end.
Definition update_run_status (run_id : N) (status : EvaluationStatus) (error_message : option string) : M World unit :=
  t ← utcnow; update_run run_id (run_status status error_message t).
Definition increment_progress (run_id : N) (count : Z) : M World unit :=
  update_run run_id (fun r => set_progress (e_status r) (e_evaluated r + count) (e_failed r) (e_error r) (e_completed r) r).
Definition increment_failed (run_id : N) (count : Z) : M World unit :=
  update_run run_id (fun r => set_progress (e_status r) (e_evaluated r) (e_failed r + count) (e_error r) (e_completed r) r).
Definition reset_run_counters (run_id : N) : M World unit :=
  update_run run_id (fun r => set_progress (e_status r) 0 0 (e_error r) (e_completed r) r).

Definition get_failed_scores_for_run (run_id project_id : N) : M World (list TraceScore) := get_failed_of_run trace_table run_id project_id.
Definition get_failed_session_scores_for_run (run_id project_id : N) : M World (list SessionScore) :=
  get_failed_of_run session_table run_id project_id.
Definition get_scores_for_run (run_id project_id : N) : M World (list TraceScore) := get_scores_of_run trace_table run_id project_id.
Definition get_session_scores_for_run (run_id project_id : N) : M World (list SessionScore) :=
  get_scores_of_run session_table run_id project_id.

Definition delete_eval_run (run_id project_id : N) : M World unit := update_evals (delete_runs (own_run run_id project_id)).

(** ** Analytics *)

Definition get_score_summary : N -> option Z -> option Z -> M World (list ScoreSummary) := summary_in pg trace_table.
Definition get_session_score_summary : N -> option Z -> option Z -> M World (list ScoreSummary) := summary_in pg session_table.
Definition get_score_distribution : N -> string -> option Z -> option Z -> Z -> M World (list HistogramRow) :=
  distribution_in pg trace_table.
Definition get_session_score_distribution : N -> string -> option Z -> option Z -> Z -> M World (list HistogramRow) :=
  distribution_in pg session_table.
Definition get_score_trend : N -> string -> option Z -> option Z -> AnalyticsGranularity -> M World (list TrendRow) :=
  trend_in pg trace_table.
Definition get_session_score_trend : N -> string -> option Z -> option Z -> AnalyticsGranularity -> M World (list TrendRow) :=
  trend_in pg session_table.

Record HistoryRow := { hy_metric : string; hy_score : option float; hy_run : option N; hy_created : Z; hy_status : ScoreStatus }.
Definition get_session_score_history (project_id : N) (session_id : string) (metric : option string) (limit : Z) : M World (list HistoryRow) :=
  read_res (fun d =>
    res_all (List.map (fun s =>
        v ← cast_float pg (c_value s);
        Ok {| hy_metric := c_name s; hy_score := v; hy_run := c_run s; hy_created := c_created s; hy_status := c_status s |})
      (page 0 limit (sort_by Z.leb (fun s => Some (c_created s)) ASC
        (select (fun s => for_target session_id project_id s && bool_decide (c_type s = NUMERIC)
                          && opt_test metric (fun m => bool_decide (c_name s = m))) (session_scores (evals_of d))))))).

Record ComparisonRow := { cp_session : string; cp_score : option float; cp_evaluated : Z; cp_run : option N }.
Definition get_session_score_comparison (project_id : N) (metric : string) (ascending : bool) (limit offset : Z) :
    M World (list ComparisonRow * Z) :=
  read_res (fun d =>
    latest ← res_all (List.map (fun s =>
        v ← cast_float pg (c_value s);
        Ok {| cp_session := c_target s; cp_score := v; cp_evaluated := c_created s; cp_run := c_run s |})
      (distinct_on c_target (collate pg) (metric_rows session_table d project_id metric None None)));
    let le a b := match cp_score a, cp_score b with
                  | Some x, Some y => if feqb x y then collate pg (cp_session a) (cp_session b)
                                      else if ascending then fleb x y else fleb y x
                  | Some _, None => true
                  | None, Some _ => false
                  | None, None => collate pg (cp_session a) (cp_session b)
                  end in
    Ok (page offset limit (order_by le latest), count_rows latest)).

(** The newest successful score of a trace and metric, in any project. *)
Definition find_existing_trace_score (trace_id : N) (metric : string) : M World (option TraceScore) :=
  read_res (fun d =>
    match page 0 1 (newest_first (select (fun s => bool_decide (c_target s = trace_id) && bool_decide (c_name s = metric)
                                             && succeeded s) (trace_scores (evals_of d)))) with
    | [] => Ok None
    | s :: _ => s' ← _to_score s; Ok (Some s')
    end).

(** ** Monitors *)

Definition with_monitor_id (id : N) (m : EvalMonitor) : bool := bool_decide (mo_id m = id).
Definition own_monitor (id project : N) (m : EvalMonitor) : bool := with_monitor_id id m && bool_decide (mo_project m = project).

Definition create_monitor (monitor : EvalMonitor) : M World EvalMonitor :=
  d ← read_db id;
  guard_not (negb (EvalMonitor_fits monitor)) DataError ;;
  guard_not (negb (project_exists (mo_project monitor) d && run_exists d (mo_last_run monitor))) IntegrityError ;;
  insert_row (fun a b => bool_decide (mo_id a = mo_id b)) (fun d => eval_monitors (evals_of d))
    (fun l => on_evals (set_eval_monitors l)) monitor ;;
  mret monitor.

Definition _to_monitor (row : EvalMonitor) : res EvalMonitor := EvalMonitor_validate row.

Definition get_monitor (monitor_id project_id : N) : M World (option EvalMonitor) :=
  rows ← read_db (fun d => select (own_monitor monitor_id project_id) (eval_monitors (evals_of d)));
  row ← lift (scalar_one_or_none rows);
  match row with
  | None => mret None
  | Some m => lift (m' ← _to_monitor m; Ok (Some m'))
  end.

Definition list_monitors (project_id : N) (status : option MonitorStatus) (limit offset : Z) : M World (list EvalMonitor * Z) :=
  read_res (fun d =>
    let base := select (fun m => bool_decide (mo_project m = project_id) && opt_test status (fun s => bool_decide (mo_status m = s)))
                  (eval_monitors (evals_of d)) in
    l ← res_all (List.map _to_monitor (page offset limit (sort_by Z.leb (fun m => Some (mo_created m)) DESC base)));
    Ok (l, count_rows base)).

(** The keyword arguments of [update_monitor]: an explicit [None] is written. *)
Inductive MonitorField :=
  | MName (v : option string)
  | MMetrics (v : option (list string))
  | MFilters (v : option (Object Json))
  | MSampling (v : option float)
  | MModel (v : option string)
  | MCadence (v : option string)
  | MOnlyIfChanged (v : option bool)
  | MStatus (v : MonitorStatus)
  | MNextRunAt (v : option Z).

(** NULL in a column that must not be NULL; JSON null in [filters] is not. *)
Definition field_null (f : MonitorField) : bool :=
  match f with
  | MName None | MMetrics None | MSampling None | MCadence None | MOnlyIfChanged None => true
  | _ => false
  end.
Definition set_monitor_field (t : Z) (m : EvalMonitor) (f : MonitorField) : EvalMonitor :=
  {| mo_id := mo_id m; mo_project := mo_project m;
     mo_name := match f with MName (Some v) => v | _ => mo_name m end;
     mo_target := mo_target m;
     mo_metrics := match f with MMetrics (Some v) => v | _ => mo_metrics m end;
     mo_filters := match f with MFilters v => v | _ => mo_filters m end;
     mo_sampling := match f with MSampling (Some v) => v | _ => mo_sampling m end;
     mo_model := match f with MModel v => v | _ => mo_model m end;
     mo_cadence := match f with MCadence (Some v) => v | _ => mo_cadence m end;
     mo_only_if_changed := match f with MOnlyIfChanged (Some v) => v | _ => mo_only_if_changed m end;
     mo_status := match f with MStatus v => v | _ => mo_status m end;
     mo_last_run_at := mo_last_run_at m; mo_last_run := mo_last_run m;
     mo_next_run_at := match f with MNextRunAt v => v | _ => mo_next_run_at m end;
     mo_created := mo_created m; mo_updated := t |}.

Definition update_monitor (monitor_id project_id : N) (fields : list MonitorField) : M World unit :=
  match fields with
  | [] => mret tt
  | _ =>
      t ← utcnow;
      rows ← read_db (fun d => select (own_monitor monitor_id project_id) (eval_monitors (evals_of d)));
      guard_not (existsb (fun m => negb (EvalMonitor_fits (foldl (set_monitor_field t) m fields))) rows) DataError ;;
      guard_not (negb (bool_decide (rows = [])) && existsb field_null fields) IntegrityError ;;
      update_evals (fun x => set_eval_monitors
        (update_where (own_monitor monitor_id project_id) (fun m => foldl (set_monitor_field t) m fields) (eval_monitors x)) x)
  end.

Definition delete_monitor (monitor_id project_id : N) : M World unit := update_evals (delete_monitors (own_monitor monitor_id project_id)).

Definition due (now : Z) (m : EvalMonitor) : bool :=
  bool_decide (mo_status m = MACTIVE) && match mo_next_run_at m with Some t => t <=? now | None => false end.
Definition get_due_monitors (now : Z) : M World (list EvalMonitor) :=
  read_res (fun d => res_all (List.map _to_monitor (sort_by Z.leb mo_next_run_at ASC (select (due now) (eval_monitors (evals_of d)))))).

Definition set_schedule (last_run_at : option Z) (last_run : option N) (next : option Z) (t : Z) (m : EvalMonitor) : EvalMonitor :=
  {| mo_id := mo_id m; mo_project := mo_project m; mo_name := mo_name m; mo_target := mo_target m;
     mo_metrics := mo_metrics m; mo_filters := mo_filters m; mo_sampling := mo_sampling m; mo_model := mo_model m;
     mo_cadence := mo_cadence m; mo_only_if_changed := mo_only_if_changed m; mo_status := mo_status m;
     mo_last_run_at := last_run_at; mo_last_run := last_run; mo_next_run_at := next; mo_created := mo_created m; mo_updated := t |}.
Definition update_schedule (monitor_id : N) (f : EvalMonitor -> EvalMonitor) : M World unit :=
  update_evals (fun x => set_eval_monitors (update_where (with_monitor_id monitor_id) f (eval_monitors x)) x).

Definition advance_monitor (monitor_id : N) (last_run_at : Z) (last_run : option N) (next_run_at : option Z) : M World unit :=
  t ← utcnow;
  update_schedule monitor_id (fun m => set_schedule (Some last_run_at) last_run (coalesce next_run_at (mo_next_run_at m)) t m).
Definition reschedule_monitor (monitor_id : N) (next_run_at : Z) : M World unit :=
  t ← utcnow;
  update_schedule monitor_id (fun m => set_schedule (mo_last_run_at m) (mo_last_run m) (Some next_run_at) t m).
End named.
End EvalRepository.
