(* ===== verification/EvalService.v ===== *)
(** * The evaluation service (services/eval_service.py)

    Creation and dispatch of runs, scores, monitors, and the resolution of filters to
    traces and sessions.  Parameters of the model: the database server, the message
    broker, croniter, the settings of the LLM engine, [datetime.fromisoformat] of a
    filter's text (it reads the local time zone of the process), and the positions
    [random.sample] draws. *)
From stdpp Require Import base gmap strings list.
From Stdlib Require Import ZArith Lia ssreflect.
From S2P Require Import Prelude Constants Entities Float64 PyFloat Json JsonText Evals Telemetry Sql World Identity TraceRepo TraceQueries Traces Cadence LLM Metrics EvalRepo.

#[local] Open Scope Z_scope.

Import EvalRepository Registry Cadence.

(** The world outside the service: what its code calls and the repository does not contain. *)
Record Outside := {
  pg : Postgres;
  broker : Task -> option exn;
  cron : Croniter;
  llm_settings : LLMSettings;
  fromisoformat : Json -> option Z;
  sample_positions : N -> Z -> Z -> list nat }.

Definition invalid_request (detail : string) : exn := PP ValidationError detail.
(** [dict[str, float]] as JSON, and [if d:] of an optional dictionary. *)
Abbreviation Weights := (list (string * float)).
Definition weights_to_json (w : Weights) : Json := JObj (List.map (fun kv => (kv.1, JFloat kv.2)) w).
Definition some_weights (w : option Weights) : option Weights := match w with Some (x :: l) => Some (x :: l) | _ => None end.
Definition add_weights (w : option Weights) (filters : Object Json) : Object Json :=
  match some_weights w with Some w => <["signal_weights"%string := weights_to_json w]> filters | None => filters end.

Module EvalService.

Section service.
Context (o : Outside).

Definition _resolve_model (model : option string) : string :=
  Providers.resolve_model_string (or_text model (EVAL_LLM_MODEL (llm_settings o))).

(** [random.sample(l, k)]: the elements at the positions drawn. *)
Definition random_sample {A} (l : list A) (k : Z) : M World (list A) :=
  draw ← gets next_id;
  mret (omap (fun i => l !! i) (sample_positions o draw (Z.of_nat (length l)) k)).

(** ** Filters *)

Definition _parse_dt (value : option Json) : res (option Z) :=
  match value with
  | None => Ok None
  | Some v => match fromisoformat o v with Some t => Ok (Some t) | None => Err (ValueError "Invalid isoformat string") end
  end.
(** [filters.get(key)] when it is true. *)
Definition truthy_filter (key : string) (filters : Object Json) : option Json :=
  v ← json_get key filters; if json_truthy v then Some v else None.

Definition TraceStatus_of (v : Json) : res TraceStatus :=
  match v with
  | JStr s => match List.find (fun st => bool_decide (TraceStatus_value st = s)) [TPENDING; TRUNNING; TCOMPLETED; TERROR] with
              | Some st => Ok st
              | None => Err (ValueError "not a valid TraceStatus")
              end
  | _ => Err (ValueError "not a valid TraceStatus")
  end.
(** A value compared with a text column: the database refuses other types. *)
Definition text_operand (v : option Json) : res (option string) :=
  match v with
  | None => Ok None
  | Some (JStr s) => Ok (Some s)
  | Some _ => Err DataError
  end.
(** The operand of [ILIKE]: only texts can be escaped. *)
Definition name_operand (v : option Json) : res (option string) :=
  match v with
  | None => Ok None
  | Some (JStr s) => Ok (Some s)
  | Some v => if json_truthy v then Err AttributeError else Ok None
  end.
(** The operand of [&&]: an array of texts and nulls; a null overlaps nothing. *)
Definition tag_operand (v : Json) : res (list string) :=
  match v with
  | JArr l => vs ← res_all (List.map (fun x => match x with JStr s => Ok (Some s) | JNull => Ok None | _ => Err DataError end) l);
              Ok (non_null vs)
  | _ => Err DataError
  end.
Definition tags_test (v : option Json) : res (TraceRow -> bool) :=
  match v with
  | None => Ok (fun _ => true)
  | Some v => tags ← tag_operand v; Ok (fun t => overlap (t_tags t) tags)
  end.

Definition _resolve_trace_ids (project_id : N) (filters : Object Json) : M World (list N) :=
  read_res (fun d =>
    status ← (match truthy_filter "status" filters with Some v => s ← TraceStatus_of v; Ok (Some s) | None => Ok None end);
    after ← _parse_dt (json_get "date_from" filters);
    before ← _parse_dt (json_get "date_to" filters);
    name ← name_operand (json_get "name" filters);
    session ← text_operand (json_get "session_id" filters);
    user ← text_operand (json_get "user_id" filters);
    tagged ← tags_test (truthy_filter "tags" filters);
    test ← TraceQueries._apply_trace_filters
      {| TraceQueries.f_session := session; TraceQueries.f_status := status; TraceQueries.f_user := user; TraceQueries.f_tags := [];
         TraceQueries.f_name := name; TraceQueries.f_after := after; TraceQueries.f_before := before |};
    Ok (List.map t_id (select (fun t => of_project project_id t && test t && tagged t) (traces_of d)))).

(** The conditions that the session query and the check of a monitor share. *)
Definition session_conditions (filters : Object Json) : res (TraceRow -> bool) :=
  after ← _parse_dt (truthy_filter "date_from" filters);
  before ← _parse_dt (truthy_filter "date_to" filters);
  user ← text_operand (truthy_filter "user_id" filters);
  tagged ← tags_test (truthy_filter "tags" filters);
  Ok (fun t => opt_test after (fun a => a <=? t_started t) && opt_test before (fun b => t_started t <? b)
               && opt_test user (sql_eq (t_user t)) && tagged t).
Definition has_session (t : TraceRow) : bool := match t_session t with Some _ => true | None => false end.

(** [HAVING count >= min_trace_count] *)
Definition min_count_test (v : option Json) : res (Z -> bool) :=
  match v with
  | None => Ok (fun _ => true)
  | Some (JInt n) => n ← int4 n; Ok (fun c => n <=? c)
  | Some (JFloat x) => Ok (fun c => fleb x (of_Z c))
  | Some _ => Err DataError
  end.

Definition _resolve_session_ids (project_id : N) (filters : Object Json) : M World (list string) :=
  read_res (fun d =>
    test ← session_conditions filters;
    enough ← min_count_test (truthy_filter "min_trace_count" filters);
    let failing rows := existsb (fun t => bool_decide (t_status t = TERROR)) rows in
    let wanted rows := opt_test (json_get "has_error" filters) (fun v => Bool.eqb (failing rows) (json_truthy v)) in
    Ok (non_null (List.map (fun g => if wanted g.2 && enough (count_rows g.2) then g.1 else None)
         (group_by t_session (select (fun t => of_project project_id t && has_session t && test t) (traces_of d)))))).

(** ** Runs *)

Definition check_metrics (available : list string) (unknown : string) (names : list string) : M World unit :=
  guard_not (existsb (fun m => negb (bool_decide (m ∈ available))) names) (invalid_request unknown) ;;
  guard_not (match names with [] => true | _ => false end) (invalid_request "At least one metric is required.").

Definition new_run (id project : N) (name : option string) (target : TargetType) (metrics : list string) (filters : Object Json)
    (rate : float) (model : option string) (monitor : option N) (total now : Z) : EvalRun :=
  {| e_id := id; e_project := project; e_name := name; e_target := target; e_metrics := metrics; e_filters := filters;
     e_sampling := rate; e_model := model; e_monitor := monitor; e_status := EPENDING; e_total := total; e_evaluated := 0;
     e_failed := 0; e_error := None; e_created := now; e_completed := None |}.
(** [EvalRun(id=uuid4(), ...)] followed by [create_eval_run]. *)
Definition add_run (mk : N -> Z -> EvalRun) : M World EvalRun :=
  now ← utcnow;
  id ← uuid4;
  run ← lift (EvalRun_validate (mk id now));
  create_eval_run run.

Definition trace_run (run : EvalRun) (project : N) (trace_ids : list N) (metric_map : option (list (N * list string))) : PreparedRun :=
  {| pr_run := run; pr_project := project; pr_trace_ids := trace_ids; pr_session_ids := []; pr_target := TRACE_TARGET;
     pr_metric_map := metric_map |}.
Definition session_run (run : EvalRun) (project : N) (session_ids : list string) : PreparedRun :=
  {| pr_run := run; pr_project := project; pr_trace_ids := []; pr_session_ids := session_ids; pr_target := SESSION_TARGET;
     pr_metric_map := None |}.

(** Sampling a requested run: at least one target unless the rate is zero. *)
Definition sample_count (n : Z) (rate : float) : res Z :=
  k ← py_int (fmul (of_Z n) rate); Ok (if fltb (of_Z 0) rate then Z.max 1 k else k).
Definition sample_targets {A} (l : list A) (rate : float) : M World (list A) :=
  if fltb rate (of_Z 1) then
    k ← lift (sample_count (count_rows l) rate);
    if 0 <? k then random_sample l k else mret []
  else mret l.

Definition prepare_eval_run (project_id : N) (metric_names : list string) (filters : Object Json) (sampling_rate : float)
    (model name : option string) : M World PreparedRun :=
  check_metrics list_metrics "Unknown metrics" metric_names ;;
  trace_ids ← _resolve_trace_ids project_id filters;
  guard_not (match trace_ids with [] => true | _ => false end) (invalid_request "No traces match the provided filters.") ;;
  trace_ids ← sample_targets trace_ids sampling_rate;
  run ← add_run (fun id now => new_run id project_id name TRACE_TARGET metric_names filters sampling_rate (Some (_resolve_model model))
                                 None (count_rows trace_ids) now);
  mret (trace_run run project_id trace_ids None).

(** [list(dict.fromkeys(l))]: the first occurrences. *)
Fixpoint fromkeys {A} `{EqDecision A} (l : list A) : list A :=
  match l with
  | [] => []
  | x :: l' => x :: List.filter (fun y => negb (bool_decide (y = x))) (fromkeys l')
  end.
Definition trace_ids_json (ids : list N) : Json := JArr (List.map (fun i => JStr (uuid_text i)) ids).
Definition session_ids_json (ids : list string) : Json := JArr (List.map JStr ids).
Definition full_rate : float := of_Z 1.

Definition prepare_batch_eval_run (project_id : N) (trace_ids : list N) (metric_names : list string) (model name : option string) :
    M World PreparedRun :=
  check_metrics list_metrics "Unknown metrics" metric_names ;;
  guard_not (match trace_ids with [] => true | _ => false end) (invalid_request "At least one trace ID is required.") ;;
  let unique_ids := fromkeys trace_ids in
  run ← add_run (fun id now => new_run id project_id name TRACE_TARGET metric_names {["trace_ids"%string := trace_ids_json unique_ids]}
                                 full_rate (Some (_resolve_model model)) None (count_rows unique_ids) now);
  mret (trace_run run project_id unique_ids None).

(** Commit, then queue the task. *)
Definition run_task (p : PreparedRun) : Task :=
  match pr_target p with
  | SESSION_TARGET => TExecuteSessionEvalRun (e_id (pr_run p)) (pr_project p) (pr_session_ids p) 0
  | TRACE_TARGET => TExecuteEvalRun (e_id (pr_run p)) (pr_project p) (pr_trace_ids p) (pr_metric_map p) 0
  end.
Definition dispatch_run (prepared : PreparedRun) : M World EvalRun :=
  commit ;;
  delay (broker o) (run_task prepared) ;;
  mret (pr_run prepared).

Definition get_eval_run (run_id project_id : N) : M World EvalRun :=
  run ← EvalRepository.get_eval_run run_id project_id;
  or_raise (not_found "Eval run not found.") run.
Definition list_eval_runs (project_id : N) (status : option EvaluationStatus) (target : option TargetType) (limit offset : Z) :
    M World (list EvalRun * Z) := EvalRepository.list_eval_runs project_id status target limit offset.

(** [f"Retry: {original.name or original.id}"] *)
Definition retry_name (original : EvalRun) : string := ("Retry: " +:+ or_text (e_name original) (uuid_text (e_id original)))%string.
(** The metrics that failed, by trace. *)
Definition failed_metrics (failed : list TraceScore) : list (N * list string) :=
  List.map (fun i => (i, fromkeys (List.map c_name (List.filter (fun s => bool_decide (c_target s = i)) failed)))) (fromkeys (List.map c_target failed)).
Definition sorted_names (l : list string) : list string := py_sorted (fromkeys l).

Definition prepare_retry_failed_run (run_id project_id : N) : M World PreparedRun :=
  original ← get_eval_run run_id project_id;
  failed_scores ← get_failed_scores_for_run run_id project_id;
  guard_not (match failed_scores with [] => true | _ => false end) (invalid_request "No failed scores to retry in this run.") ;;
  let trace_metric_map := failed_metrics failed_scores in
  let trace_ids := List.map fst trace_metric_map in
  run ← add_run (fun id now => new_run id project_id (Some (retry_name original)) TRACE_TARGET (sorted_names (List.map c_name failed_scores))
      (list_to_map [("retry_of", JStr (uuid_text run_id)); ("trace_ids", trace_ids_json trace_ids)]%string)
      full_rate (e_model original) None (count_rows trace_ids) now);
  mret (trace_run run project_id trace_ids (Some trace_metric_map)).

Definition get_scores_for_run (run_id project_id : N) : M World (list TraceScore) := EvalRepository.get_scores_for_run run_id project_id.

Definition delete_eval_run (run_id project_id : N) (delete_scores : bool) : M World unit :=
  run ← get_eval_run run_id project_id;
  when delete_scores
    (when (bool_decide (e_target run = SESSION_TARGET)) (_ ← delete_session_scores_for_run run_id project_id; mret tt) ;;
     _ ← delete_scores_for_run run_id project_id; mret tt) ;;
  EvalRepository.delete_eval_run run_id project_id ;;
  commit.

(** *** Session runs *)

Definition prepare_session_eval_run (project_id : N) (metric_names : list string) (filters : Object Json) (sampling_rate : float)
    (model name : option string) (signal_weights : option Weights) : M World PreparedRun :=
  check_metrics list_session_metrics "Unknown session metrics" metric_names ;;
  session_ids ← _resolve_session_ids project_id filters;
  guard_not (match session_ids with [] => true | _ => false end) (invalid_request "No sessions match the provided filters.") ;;
  session_ids ← sample_targets session_ids sampling_rate;
  run ← add_run (fun id now => new_run id project_id name SESSION_TARGET metric_names (add_weights signal_weights filters) sampling_rate
                                 (Some (_resolve_model model)) None (count_rows session_ids) now);
  mret (session_run run project_id session_ids).

Definition prepare_batch_session_eval_run (project_id : N) (session_ids : list string) (metric_names : list string)
    (model name : option string) (signal_weights : option Weights) : M World PreparedRun :=
  check_metrics list_session_metrics "Unknown session metrics" metric_names ;;
  guard_not (match session_ids with [] => true | _ => false end) (invalid_request "At least one session ID is required.") ;;
  let unique_ids := fromkeys session_ids in
  run ← add_run (fun id now => new_run id project_id name SESSION_TARGET metric_names
                                 (add_weights signal_weights {["session_ids"%string := session_ids_json unique_ids]})
                                 full_rate (Some (_resolve_model model)) None (count_rows unique_ids) now);
  mret (session_run run project_id unique_ids).

Definition prepare_retry_failed_session_run (run_id project_id : N) : M World PreparedRun :=
  original ← get_eval_run run_id project_id;
  failed_scores ← get_failed_session_scores_for_run run_id project_id;
  guard_not (match failed_scores with [] => true | _ => false end) (invalid_request "No failed scores to retry in this run.") ;;
  let session_ids := sorted_names (List.map c_target failed_scores) in
  let filters := list_to_map [("retry_of", JStr (uuid_text run_id)); ("session_ids", session_ids_json session_ids)]%string in
  run ← add_run (fun id now => new_run id project_id (Some (retry_name original)) SESSION_TARGET (sorted_names (List.map c_name failed_scores))
      (match truthy_filter "signal_weights" (e_filters original) with Some w => <["signal_weights"%string := w]> filters | None => filters end)
      full_rate (Some (_resolve_model (e_model original))) None (count_rows session_ids) now);
  mret (session_run run project_id session_ids).

(** ** Scores *)

Definition create_score (project_id trace_id : N) (name value : string) (data_type : ScoreDataType) (source : ScoreSource)
    (reason : option string) (metadata : Object Json) : M World TraceScore :=
  now ← utcnow;
  id ← uuid4;
  score ← lift (Score_validate
    {| c_id := id; c_target := trace_id; c_project := project_id; c_name := name; c_type := data_type; c_value := Some value;
       c_source := source; c_status := SUCCESS; c_run := None; c_author := None; c_reason := reason; c_environment := None;
       c_config := None; c_metadata := metadata; c_created := now; c_updated := now |});
  EvalRepository.create_score score ;;
  commit ;;
  mret score.

Definition get_scores_for_trace (trace_id project_id : N) : M World (list TraceScore) :=
  EvalRepository.get_scores_for_trace trace_id project_id.
Definition get_latest_scores_for_trace (trace_id project_id : N) : M World (list TraceScore) :=
  EvalRepository.get_latest_scores_for_trace (pg o) trace_id project_id.

Definition score_not_found : exn := not_found "Trace score not found.".
(** [except ValueError as e: raise ValidationError(str(e))] *)
Definition as_invalid_request {A} (r : res A) : M World A :=
  match r with
  | Ok a => mret a
  | Err (ValueError detail) => raise (invalid_request detail)
  | Err e => raise e
  end.

Definition update_score (score_id project_id : N) (value reason : option string) (metadata : option (Object Json)) : M World TraceScore :=
  found ← get_score_by_id score_id project_id;
  existing ← or_raise score_not_found found;
  match value with
  | Some v => as_invalid_request (validate_score_value v (c_type existing))
  | None => mret tt
  end ;;
  EvalRepository.update_score score_id project_id
    {| ed_value := value; ed_reason := reason; ed_metadata := metadata; ed_status := Some SUCCESS; ed_source := Some ANNOTATION |} ;;
  commit ;;
  updated ← get_score_by_id score_id project_id;
  or_raise (not_found "Trace score not found after update.") updated.

Definition delete_score (score_id project_id : N) : M World unit :=
  found ← get_score_by_id score_id project_id;
  _ ← or_raise score_not_found found;
  EvalRepository.delete_score score_id project_id ;;
  commit.

Definition list_scores (project_id : N) (q : ScoreFilters N) (limit offset : Z) : M World (list TraceScore * Z) :=
  EvalRepository.list_scores project_id q limit offset.

Definition get_session_scores (session_id : string) (project_id : N) : M World (list SessionScore) :=
  get_session_scores_for_session session_id project_id.
Definition get_session_scores_for_run (run_id project_id : N) : M World (list SessionScore) :=
  EvalRepository.get_session_scores_for_run run_id project_id.
Definition list_session_scores (project_id : N) (q : ScoreFilters string) (limit offset : Z) : M World (list SessionScore * Z) :=
  EvalRepository.list_session_scores project_id q limit offset.
Definition delete_session_score (score_id project_id : N) : M World unit :=
  EvalRepository.delete_session_score score_id project_id ;; commit.

(** *** Analytics *)

Definition get_score_summary (project_id : N) (a b : option Z) : M World (list ScoreSummary) :=
  EvalRepository.get_score_summary (pg o) project_id a b.
Definition get_score_distribution (project_id : N) (metric : string) (a b : option Z) (buckets : Z) : M World (list HistogramRow) :=
  EvalRepository.get_score_distribution (pg o) project_id metric a b buckets.
Definition get_score_trend (project_id : N) (metric : string) (a b : option Z) (g : AnalyticsGranularity) : M World (list TrendRow) :=
  EvalRepository.get_score_trend (pg o) project_id metric a b g.
Definition get_session_score_summary (project_id : N) (a b : option Z) : M World (list ScoreSummary) :=
  EvalRepository.get_session_score_summary (pg o) project_id a b.
Definition get_session_score_trend (project_id : N) (metric : string) (a b : option Z) (g : AnalyticsGranularity) : M World (list TrendRow) :=
  EvalRepository.get_session_score_trend (pg o) project_id metric a b g.
Definition get_session_score_distribution (project_id : N) (metric : string) (a b : option Z) (buckets : Z) : M World (list HistogramRow) :=
  EvalRepository.get_session_score_distribution (pg o) project_id metric a b buckets.
Definition get_session_score_history (project_id : N) (session_id : string) (metric : option string) (limit : Z) : M World (list HistoryRow) :=
  EvalRepository.get_session_score_history (pg o) project_id session_id metric limit.
Definition get_session_score_comparison (project_id : N) (metric : string) (ascending : bool) (limit offset : Z) :
    M World (list ComparisonRow * Z) :=
  EvalRepository.get_session_score_comparison (pg o) project_id metric ascending limit offset.

(** ** Monitors *)

Definition monitor_not_found : exn := not_found "Eval monitor not found.".
Definition only_for_sessions : exn := invalid_request "signal_weights is only valid for SESSION monitors.".
Definition available_metrics (t : TargetType) : list string :=
  match t with TRACE_TARGET => list_metrics | SESSION_TARGET => list_session_metrics end.
Definition is_some {A} (x : option A) : bool := match x with Some _ => true | None => false end.
Definition for_traces (t : TargetType) : bool := bool_decide (t = TRACE_TARGET).

Definition create_monitor (project_id : N) (name target_type : string) (metric_names : list string) (cadence : string)
    (filters : Object Json) (sampling_rate : float) (model : option string) (only_if_changed : bool) (signal_weights : option Weights) :
    M World EvalMonitor :=
  target ← or_raise (invalid_request "target_type must be 'TRACE' or 'SESSION'.") (TargetType_of target_type);
  guard_not (for_traces target && is_some (some_weights signal_weights)) only_for_sessions ;;
  check_metrics (available_metrics target) "Unknown metrics" metric_names ;;
  cadence ← as_invalid_request (validate_cadence (cron o) cadence);
  now ← utcnow;
  next_run ← lift (compute_next_run (cron o) cadence now);
  id ← uuid4;
  monitor ← lift (EvalMonitor_validate
    {| mo_id := id; mo_project := project_id; mo_name := name; mo_target := target; mo_metrics := metric_names;
       mo_filters := Some (add_weights signal_weights filters); mo_sampling := sampling_rate; mo_model := model;
       mo_cadence := cadence; mo_only_if_changed := only_if_changed; mo_status := MACTIVE; mo_last_run_at := None;
       mo_last_run := None; mo_next_run_at := Some next_run; mo_created := now; mo_updated := now |});
  EvalRepository.create_monitor monitor ;;
  commit ;;
  mret monitor.

Definition get_monitor (monitor_id project_id : N) : M World EvalMonitor :=
  monitor ← EvalRepository.get_monitor monitor_id project_id;
  or_raise monitor_not_found monitor.
Definition list_monitors (project_id : N) (status : option MonitorStatus) (limit offset : Z) : M World (list EvalMonitor * Z) :=
  EvalRepository.list_monitors project_id status limit offset.

(** The fields a PATCH request sets: [None] is a field left out, [Some None] an explicit null. *)
Record MonitorPatch := {
  mp_name : option (option string);
  mp_metrics : option (option (list string));
  mp_filters : option (option (Object Json));
  mp_sampling : option (option float);
  mp_model : option (option string);
  mp_cadence : option (option string);
  mp_only_if_changed : option (option bool);
  mp_weights : option (option Weights) }.

Definition set_weights (w : option Weights) (filters : Object Json) : Object Json :=
  match some_weights w with
  | Some w => <["signal_weights"%string := weights_to_json w]> filters
  | None => base.delete "signal_weights"%string filters
  end.
(** The new filters: weights that are set replace or remove the old ones, and new filters keep the old weights. *)
Definition patched_filters (m : EvalMonitor) (p : MonitorPatch) : option (option (Object Json)) :=
  match mp_weights p with
  | Some w => Some (Some (set_weights w (match mp_filters p with Some f => default ∅ f | None => default ∅ (mo_filters m) end)))
  | None =>
      match mp_filters p with
      | None => None
      | Some f =>
          match json_get "signal_weights" (default ∅ (mo_filters m)) with
          | Some sw => Some (Some (<["signal_weights"%string := sw]> (default ∅ f)))
          | None => Some f
          end
      end
  end.
Definition opt_field {A} (c : A -> MonitorField) (v : option A) : list MonitorField := match v with Some x => [c x] | None => [] end.

Definition update_monitor (monitor_id project_id : N) (p : MonitorPatch) : M World EvalMonitor :=
  monitor ← get_monitor monitor_id project_id;
  match mp_metrics p with
  | Some (Some names) =>
      guard_not (existsb (fun m => negb (bool_decide (m ∈ available_metrics (mo_target monitor)))) names) (invalid_request "Unknown metrics")
  | _ => mret tt
  end ;;
  guard_not (for_traces (mo_target monitor) && is_some (mp_weights p ≫= some_weights)) only_for_sessions ;;
  schedule ← (match mp_cadence p with
              | Some (Some c) =>
                  c ← as_invalid_request (validate_cadence (cron o) c);
                  now ← utcnow;
                  next ← lift (compute_next_run (cron o) c now);
                  mret [MCadence (Some c); MNextRunAt (Some next)]
              | Some None => mret [MCadence None]
              | None => mret []
              end);
  EvalRepository.update_monitor monitor_id project_id
    (opt_field MName (mp_name p) ++ opt_field MMetrics (mp_metrics p ≫= fun v => Some <$> v) ++ opt_field MFilters (patched_filters monitor p)
     ++ opt_field MSampling (mp_sampling p) ++ opt_field MModel (mp_model p) ++ schedule ++ opt_field MOnlyIfChanged (mp_only_if_changed p)) ;;
  commit ;;
  get_monitor monitor_id project_id.

Definition delete_monitor (monitor_id project_id : N) : M World unit :=
  _ ← get_monitor monitor_id project_id;
  EvalRepository.delete_monitor monitor_id project_id ;;
  commit.

Definition pause_monitor (monitor_id project_id : N) : M World EvalMonitor :=
  monitor ← get_monitor monitor_id project_id;
  if bool_decide (mo_status monitor = MPAUSED) then mret monitor
  else
    EvalRepository.update_monitor monitor_id project_id [MStatus MPAUSED; MNextRunAt None] ;;
    commit ;;
    get_monitor monitor_id project_id.

Definition resume_monitor (monitor_id project_id : N) : M World EvalMonitor :=
  monitor ← get_monitor monitor_id project_id;
  if bool_decide (mo_status monitor = MACTIVE) then mret monitor
  else
    now ← utcnow;
    next_run ← lift (compute_next_run (cron o) (mo_cadence monitor) now);
    EvalRepository.update_monitor monitor_id project_id [MStatus MACTIVE; MNextRunAt (Some next_run)] ;;
    commit ;;
    get_monitor monitor_id project_id.

(** A monitor with JSON null for its filters is not loaded. *)
Definition monitor_filters (m : EvalMonitor) : Object Json := default ∅ (mo_filters m).

Definition should_skip_monitor (monitor : EvalMonitor) : M World bool :=
  if negb (mo_only_if_changed monitor) then mret false
  else
    match mo_last_run_at monitor with
    | None => mret false
    | Some last =>
        read_res (fun d =>
          test ← session_conditions (monitor_filters monitor);
          Ok (match select (fun t => of_project (mo_project monitor) t && (last <? t_started t)
                              && (for_traces (mo_target monitor) || has_session t) && test t) (traces_of d) with
              | [] => true
              | _ => false
              end))
    end.

(** Sampling for a monitor: at least one target, whatever the rate. *)
Definition sample_for_monitor {A} (l : list A) (rate : float) : M World (list A) :=
  if fltb rate (of_Z 1) then
    k ← lift (py_int (fmul (of_Z (count_rows l)) rate));
    random_sample l (Z.max 1 k)
  else mret l.
(** The targets of a run: traces or sessions. *)
Definition Targets : Type := list N * list string.
Definition _spawn_run_for_monitor (monitor : EvalMonitor) : M World (EvalRun * Targets) :=
  let run_name := Some ("[Monitor] " +:+ mo_name monitor)%string in
  let run total id now :=
    new_run id (mo_project monitor) run_name (mo_target monitor) (mo_metrics monitor) (monitor_filters monitor) (mo_sampling monitor)
      (Some (_resolve_model (mo_model monitor))) (Some (mo_id monitor)) total now in
  match mo_target monitor with
  | TRACE_TARGET =>
      trace_ids ← _resolve_trace_ids (mo_project monitor) (monitor_filters monitor);
      guard_not (match trace_ids with [] => true | _ => false end) (invalid_request "No traces match the monitor's filters.") ;;
      trace_ids ← sample_for_monitor trace_ids (mo_sampling monitor);
      run ← add_run (run (count_rows trace_ids));
      mret (run, (trace_ids, []))
  | SESSION_TARGET =>
      session_ids ← _resolve_session_ids (mo_project monitor) (monitor_filters monitor);
      guard_not (match session_ids with [] => true | _ => false end) (invalid_request "No sessions match the monitor's filters.") ;;
      session_ids ← sample_for_monitor session_ids (mo_sampling monitor);
      run ← add_run (run (count_rows session_ids));
      mret (run, ([], session_ids))
  end.
Definition _dispatch_monitor_run (target : TargetType) (run_id project_id : N) (targets : Targets) : M World unit :=
  match target with
  | TRACE_TARGET => delay (broker o) (TExecuteEvalRun run_id project_id targets.1 None 0)
  | SESSION_TARGET => delay (broker o) (TExecuteSessionEvalRun run_id project_id targets.2 0)
  end.

Definition prepare_trigger_monitor (monitor_id project_id : N) : M World PreparedRun :=
  monitor ← get_monitor monitor_id project_id;
  spawned ← _spawn_run_for_monitor monitor;
  let '(run, targets) := spawned in
  now ← utcnow;
  next_run ← lift (compute_next_run (cron o) (mo_cadence monitor) now);
  advance_monitor monitor_id now (Some (e_id run)) (Some next_run) ;;
  mret {| pr_run := run; pr_project := project_id; pr_trace_ids := targets.1; pr_session_ids := targets.2;
          pr_target := mo_target monitor; pr_metric_map := None |}.
Definition dispatch_trigger_monitor (prepared : PreparedRun) : M World EvalRun :=
  commit ;;
  _dispatch_monitor_run (pr_target prepared) (e_id (pr_run prepared)) (pr_project prepared) (pr_trace_ids prepared, pr_session_ids prepared) ;;
  mret (pr_run prepared).

Definition list_monitor_runs (monitor_id project_id : N) (limit offset : Z) : M World (list EvalRun * Z) :=
  _ ← get_monitor monitor_id project_id;
  list_runs_for_monitor monitor_id project_id limit offset.
End service.
End EvalService.

(** ** An outside on which the witnesses evaluate

    A broker that accepts everything, timestamps written as integers, and samples that are the first positions. *)
Definition toy_llm_settings : LLMSettings :=
  {| OPENAI_API_KEY := "key"; ANTHROPIC_API_KEY := ""; GEMINI_API_KEY := ""; GOOGLE_CLOUD_PROJECT := ""; EVAL_LLM_MODEL := "gpt-4o-mini";
     EVAL_LLM_TEMPERATURE := of_Z 1; EVAL_EMBEDDING_MODEL := "openai/text-embedding-3-small"; EVAL_EMBEDDING_CACHE_SIZE := 2048 |}.
Definition toy_outside : Outside :=
  {| pg := toy_server; broker := fun _ => None; cron := toy_cron; llm_settings := toy_llm_settings;
     fromisoformat := fun v => match v with JInt n => Some n | _ => None end; sample_positions := fun _ _ k => seq 0 (Z.to_nat k) |}.
#[export] Instance toy_outside_cron : CroniterLaws (cron toy_outside) := toy_cron_laws.
