(* ===== verification/EvalApi.v ===== *)
(** * The evaluation routes (api/v1/routes/evaluations.py)

    Each handler takes the context that [require_project] returns and the parsed body
    or query parameters; a timestamp of a response is kept as a timestamp.  A run is
    charged for every pair of a target and a metric before it is dispatched, and the
    charge is taken back when the dispatch fails.  The product analytics the handlers
    report to swallow their errors and are left out, as is the rate limiter; the texts of
    prompt previews are a parameter. *)
From stdpp Require Import base gmap strings list.
From Stdlib Require Import ZArith Lia ssreflect.
From S2P Require Import Prelude Constants Entities Float64 PyFloat Json Evals Telemetry Sql World Usage Security IdentityRepo Identity ApiAuth TraceRepo TraceQueries Traces Cadence LLM Metrics EvalRepo EvalService.

#[local] Open Scope Z_scope.

Import EvalRepository Registry TracesApi.

Module EvaluationsApi.

(** ** Bodies *)

Record EvalRunFilters := {
  ef_from : option string; ef_to : option string; ef_status : option TraceStatus; ef_session : option string;
  ef_user : option string; ef_tags : option (list string); ef_name : option string }.
Record SessionEvalRunFilters := {
  sf_from : option string; sf_to : option string; sf_user : option string; sf_has_error : option bool;
  sf_tags : option (list string); sf_min_count : option Z }.

(** [model_dump(exclude_none=True)] *)
Definition dump (l : list (string * option Json)) : Object Json :=
  list_to_map (omap (fun kv => (fun v => (kv.1, v)) <$> kv.2) l).
Definition strings_json (l : list string) : Json := JArr (List.map JStr l).
Definition EvalRunFilters_dump (f : EvalRunFilters) : Object Json :=
  dump [("date_from", JStr <$> ef_from f); ("date_to", JStr <$> ef_to f);
        ("status", (fun s => JStr (TraceStatus_value s)) <$> ef_status f); ("session_id", JStr <$> ef_session f);
        ("user_id", JStr <$> ef_user f); ("tags", strings_json <$> ef_tags f); ("name", JStr <$> ef_name f)]%string.
Definition SessionEvalRunFilters_dump (f : SessionEvalRunFilters) : Object Json :=
  dump [("date_from", JStr <$> sf_from f); ("date_to", JStr <$> sf_to f); ("user_id", JStr <$> sf_user f);
        ("has_error", JBool <$> sf_has_error f); ("tags", strings_json <$> sf_tags f);
        ("min_trace_count", JInt <$> sf_min_count f)]%string.

Definition nonempty {A} (l : list A) : bool := match l with [] => false | _ => true end.

Record CreateEvalRunRequest := {
  er_name : option string; er_metrics : list string; er_filters : EvalRunFilters; er_sampling : float; er_model : option string }.
Definition CreateEvalRunRequest_ok (b : CreateEvalRunRequest) : bool := nonempty (er_metrics b) && in_unit (er_sampling b).
Record CreateBatchEvalRunRequest := {
  eb_trace_ids : list N; eb_metrics : list string; eb_name : option string; eb_model : option string }.
Definition CreateBatchEvalRunRequest_ok (b : CreateBatchEvalRunRequest) : bool := nonempty (eb_trace_ids b) && nonempty (eb_metrics b).
Record CreateSessionEvalRunRequest := {
  es_name : option string; es_metrics : list string; es_filters : SessionEvalRunFilters; es_sampling : float;
  es_model : option string; es_weights : option Weights }.
Definition CreateSessionEvalRunRequest_ok (b : CreateSessionEvalRunRequest) : bool :=
  nonempty (es_metrics b) && in_unit (es_sampling b) && opt_test (sf_min_count (es_filters b)) (fun n => 1 <=? n).
Record CreateBatchSessionEvalRunRequest := {
  bs_session_ids : list string; bs_metrics : list string; bs_name : option string; bs_model : option string; bs_weights : option Weights }.
Definition CreateBatchSessionEvalRunRequest_ok (b : CreateBatchSessionEvalRunRequest) : bool :=
  nonempty (bs_session_ids b) && nonempty (bs_metrics b).

Record CreateTraceScoreRequest := {
  ts_trace : N; ts_name : string; ts_value : string; ts_type : ScoreDataType; ts_source : ScoreSource; ts_reason : option string;
  ts_metadata : Object Json }.
(** [_validate_value_for_data_type] *)
Definition CreateTraceScoreRequest_ok (b : CreateTraceScoreRequest) : bool :=
  match validate_score_value (ts_value b) (ts_type b) with Ok _ => true | Err _ => false end.
Record UpdateTraceScoreRequest := { us_value : option string; us_reason : option string; us_metadata : option (Object Json) }.

Record CreateMonitorRequest := {
  cm_name : string; cm_target : string; cm_metrics : list string; cm_filters : Object Json; cm_sampling : float;
  cm_model : option string; cm_cadence : string; cm_only_if_changed : bool; cm_weights : option Weights }.
Definition CreateMonitorRequest_ok (b : CreateMonitorRequest) : bool := nonempty (cm_metrics b) && in_unit (cm_sampling b).
Definition UpdateMonitorRequest_ok (p : EvalService.MonitorPatch) : bool :=
  match EvalService.mp_sampling p with Some (Some x) => in_unit x | _ => true end.

(** ** Responses *)

Record EvalRunResponse := {
  rr_id : N; rr_name : option string; rr_status : EvaluationStatus; rr_metrics : list string; rr_total : Z; rr_evaluated : Z;
  rr_failed : Z; rr_created : Z; rr_completed : option Z; rr_project : N; rr_target : TargetType; rr_filters : Object Json;
  rr_sampling : float; rr_model : option string; rr_monitor : option N; rr_error : option string }.
Definition _run_to_detail (r : EvalRun) : EvalRunResponse :=
  {| rr_id := e_id r; rr_name := e_name r; rr_status := e_status r; rr_metrics := e_metrics r; rr_total := e_total r;
     rr_evaluated := e_evaluated r; rr_failed := e_failed r; rr_created := e_created r; rr_completed := e_completed r;
     rr_project := e_project r; rr_target := e_target r; rr_filters := e_filters r; rr_sampling := e_sampling r;
     rr_model := e_model r; rr_monitor := e_monitor r; rr_error := e_error r |}.

Record TraceScoreResponse := {
  rt_id : N; rt_trace : N; rt_name : string; rt_value : option string; rt_status : ScoreStatus; rt_source : ScoreSource;
  rt_created : Z; rt_project : N; rt_type : ScoreDataType; rt_run : option N; rt_author : option string; rt_reason : option string;
  rt_environment : option string; rt_config : option string; rt_metadata : Object Json; rt_updated : Z }.
Definition _score_to_detail (s : TraceScore) : TraceScoreResponse :=
  {| rt_id := c_id s; rt_trace := c_target s; rt_name := c_name s; rt_value := c_value s; rt_status := c_status s;
     rt_source := c_source s; rt_created := c_created s; rt_project := c_project s; rt_type := c_type s; rt_run := c_run s;
     rt_author := c_author s; rt_reason := c_reason s; rt_environment := c_environment s; rt_config := c_config s;
     rt_metadata := c_metadata s; rt_updated := c_updated s |}.

Record SessionScoreResponse := {
  rs_id : N; rs_session : string; rs_project : N; rs_name : string; rs_type : ScoreDataType; rs_value : option string;
  rs_source : ScoreSource; rs_status : ScoreStatus; rs_run : option N; rs_author : option string; rs_reason : option string;
  rs_metadata : Object Json; rs_created : Z; rs_updated : Z }.
Definition _session_score_to_detail (s : SessionScore) : SessionScoreResponse :=
  {| rs_id := c_id s; rs_session := c_target s; rs_project := c_project s; rs_name := c_name s; rs_type := c_type s;
     rs_value := c_value s; rs_source := c_source s; rs_status := c_status s; rs_run := c_run s; rs_author := c_author s;
     rs_reason := c_reason s; rs_metadata := c_metadata s; rs_created := c_created s; rs_updated := c_updated s |}.

Record MonitorResponse := {
  rm_id : N; rm_project : N; rm_name : string; rm_target : TargetType; rm_metrics : list string; rm_filters : Object Json;
  rm_sampling : float; rm_model : option string; rm_cadence : string; rm_only_if_changed : bool; rm_status : MonitorStatus;
  rm_last_run_at : option Z; rm_last_run : option N; rm_next_run_at : option Z; rm_created : Z; rm_updated : Z }.
Definition _monitor_to_response (m : EvalMonitor) : MonitorResponse :=
  {| rm_id := mo_id m; rm_project := mo_project m; rm_name := mo_name m; rm_target := mo_target m; rm_metrics := mo_metrics m;
     rm_filters := EvalService.monitor_filters m; rm_sampling := mo_sampling m; rm_model := mo_model m; rm_cadence := mo_cadence m;
     rm_only_if_changed := mo_only_if_changed m; rm_status := mo_status m; rm_last_run_at := mo_last_run_at m;
     rm_last_run := mo_last_run m; rm_next_run_at := mo_next_run_at m; rm_created := mo_created m; rm_updated := mo_updated m |}.

(** A stage of an evaluation and its prompt. *)
Record MetricInfo := { mi_summary : MetricSummary; mi_threshold : float; mi_previews : list (string * string) }.
Record EvalRunTemplate := { et_metric : MetricInfo; et_filters : EvalRunFilters; et_sampling : float; et_model : option string }.

Definition paginated {A B} (f : A -> B) (found : list A * Z) (limit offset : Z) : Paginated B :=
  {| pg_items := List.map f found.1; pg_total := found.2; pg_limit := limit; pg_offset := offset |}.

(** ** Handlers *)

Section routes.
Context (o : Outside) (prompt_preview : string -> list (string * string)).

(** The project's identifier. *)
Definition project_id (ctx : ApiContext) : M World N := project ← project_of ctx; mret (p_id project).

Definition get_available_providers (ctx : ApiContext) : M World (list Providers.ProviderInfo) :=
  mret (Providers.get_available_providers (llm_settings o)).
Definition get_available_metrics (ctx : ApiContext) : M World (list MetricSummary) :=
  lift (res_all (List.map get_metric_summary list_metrics)).
Definition get_available_session_metrics (ctx : ApiContext) : M World (list MetricSummary) :=
  lift (res_all (List.map get_session_metric_summary list_session_metrics)).

Definition get_metric_info (name : string) : res MetricInfo :=
  c ← get_metric name;
  Ok {| mi_summary := summary_of_class c; mi_threshold := mc_threshold c; mi_previews := prompt_preview name |}.
Definition no_filters : EvalRunFilters :=
  {| ef_from := None; ef_to := None; ef_status := None; ef_session := None; ef_user := None; ef_tags := None; ef_name := None |}.
Definition get_eval_run_template (ctx : ApiContext) (metric : string) : M World EvalRunTemplate :=
  guard_not (negb (bool_decide (metric ∈ list_metrics))) (PP ValidationError "Unknown metric") ;;
  info ← lift (get_metric_info metric);
  mret {| et_metric := info; et_filters := no_filters; et_sampling := of_Z 1; et_model := Some (LLMEngine.default_model (llm_settings o)) |}.

(** *** Runs *)

(** Charge the organisation, then dispatch; give the charge back when the dispatch raises. *)
Definition charged {A} (ctx : ApiContext) (category : UsageCategory) (billable : Z) (dispatch : M World A) : M World A :=
  let org := o_id (cx_organization ctx) in
  check_and_increment org (UsageCategory_value category) billable ;;
  try_except dispatch (fun e => rollback_increment org (UsageCategory_value category) billable ;; raise e).
Definition charge_run (ctx : ApiContext) (category : UsageCategory) (billable : Z) (prepared : PreparedRun) : M World EvalRunResponse :=
  run ← charged ctx category billable (EvalService.dispatch_run o prepared);
  mret (_run_to_detail run).
Definition pairs (p : PreparedRun) (metrics : list string) : Z := e_total (pr_run p) * Z.of_nat (length metrics).

Definition create_eval_run (ctx : ApiContext) (body : CreateEvalRunRequest) : M World EvalRunResponse :=
  schema (CreateEvalRunRequest_ok body) ;;
  project ← project_id ctx;
  prepared ← EvalService.prepare_eval_run o project (er_metrics body) (EvalRunFilters_dump (er_filters body)) (er_sampling body)
               (er_model body) (er_name body);
  charge_run ctx TRACE_EVALS (pairs prepared (er_metrics body)) prepared.

Definition create_batch_eval_run (ctx : ApiContext) (body : CreateBatchEvalRunRequest) : M World EvalRunResponse :=
  schema (CreateBatchEvalRunRequest_ok body) ;;
  project ← project_id ctx;
  prepared ← EvalService.prepare_batch_eval_run o project (eb_trace_ids body) (eb_metrics body) (eb_model body) (eb_name body);
  charge_run ctx TRACE_EVALS (pairs prepared (eb_metrics body)) prepared.

Definition create_session_eval_run (ctx : ApiContext) (body : CreateSessionEvalRunRequest) : M World EvalRunResponse :=
  schema (CreateSessionEvalRunRequest_ok body) ;;
  project ← project_id ctx;
  prepared ← EvalService.prepare_session_eval_run o project (es_metrics body) (SessionEvalRunFilters_dump (es_filters body))
               (es_sampling body) (es_model body) (es_name body) (es_weights body);
  charge_run ctx SESSION_EVALS (pairs prepared (es_metrics body)) prepared.

Definition create_batch_session_eval_run (ctx : ApiContext) (body : CreateBatchSessionEvalRunRequest) : M World EvalRunResponse :=
  schema (CreateBatchSessionEvalRunRequest_ok body) ;;
  project ← project_id ctx;
  prepared ← EvalService.prepare_batch_session_eval_run o project (bs_session_ids body) (bs_metrics body) (bs_model body)
               (bs_name body) (bs_weights body);
  charge_run ctx SESSION_EVALS (pairs prepared (bs_metrics body)) prepared.

(** The pairs that failed, when the map says which. *)
Definition retry_billable (p : PreparedRun) : Z :=
  match pr_metric_map p with
  | Some (x :: l) => zsum (List.map (fun kv => Z.of_nat (length kv.2)) (x :: l))
  | _ => pairs p (e_metrics (pr_run p))
  end.
Definition retry_failed_eval_run (ctx : ApiContext) (run_id : N) : M World EvalRunResponse :=
  project ← project_id ctx;
  prepared ← EvalService.prepare_retry_failed_run run_id project;
  charge_run ctx TRACE_EVALS (retry_billable prepared) prepared.
Definition retry_failed_session_eval_run (ctx : ApiContext) (run_id : N) : M World EvalRunResponse :=
  project ← project_id ctx;
  prepared ← EvalService.prepare_retry_failed_session_run o run_id project;
  charge_run ctx SESSION_EVALS (pairs prepared (e_metrics (pr_run prepared))) prepared.

Definition list_runs (target : TargetType) (ctx : ApiContext) (status : option EvaluationStatus) (limit offset : Z) :
    M World (Paginated EvalRunResponse) :=
  schema (limits_ok limit offset 200) ;;
  project ← project_id ctx;
  found ← EvalService.list_eval_runs project status (Some target) limit offset;
  mret (paginated _run_to_detail found limit offset).
Definition list_eval_runs : ApiContext -> option EvaluationStatus -> Z -> Z -> M World (Paginated EvalRunResponse) := list_runs TRACE_TARGET.
Definition list_session_eval_runs : ApiContext -> option EvaluationStatus -> Z -> Z -> M World (Paginated EvalRunResponse) :=
  list_runs SESSION_TARGET.

(** The detail and the deletion of a run are the same for both kinds of target. *)
Definition get_eval_run (ctx : ApiContext) (run_id : N) : M World EvalRunResponse :=
  project ← project_id ctx;
  run ← EvalService.get_eval_run run_id project;
  mret (_run_to_detail run).
Definition get_session_eval_run : ApiContext -> N -> M World EvalRunResponse := get_eval_run.
Definition delete_eval_run (ctx : ApiContext) (run_id : N) (delete_scores : bool) : M World unit :=
  project ← project_id ctx;
  EvalService.delete_eval_run run_id project delete_scores.
Definition delete_session_eval_run : ApiContext -> N -> bool -> M World unit := delete_eval_run.
Definition get_scores_for_run (ctx : ApiContext) (run_id : N) : M World (list TraceScoreResponse) :=
  project ← project_id ctx;
  scores ← EvalService.get_scores_for_run run_id project;
  mret (List.map _score_to_detail scores).
Definition get_session_scores_for_run (ctx : ApiContext) (run_id : N) : M World (list SessionScoreResponse) :=
  project ← project_id ctx;
  scores ← EvalService.get_session_scores_for_run run_id project;
  mret (List.map _session_score_to_detail scores).

(** *** Scores *)

Definition create_trace_score (ctx : ApiContext) (b : CreateTraceScoreRequest) : M World TraceScoreResponse :=
  schema (CreateTraceScoreRequest_ok b) ;;
  project ← project_id ctx;
  score ← EvalService.create_score project (ts_trace b) (ts_name b) (ts_value b) (ts_type b) (ts_source b) (ts_reason b) (ts_metadata b);
  mret (_score_to_detail score).
Definition list_trace_scores (ctx : ApiContext) (q : ScoreFilters N) (limit offset : Z) : M World (Paginated TraceScoreResponse) :=
  schema (limits_ok limit offset 200) ;;
  project ← project_id ctx;
  found ← EvalService.list_scores project q limit offset;
  mret (paginated _score_to_detail found limit offset).
Definition get_scores_for_trace (ctx : ApiContext) (trace_id : N) : M World (list TraceScoreResponse) :=
  project ← project_id ctx;
  scores ← EvalService.get_latest_scores_for_trace o trace_id project;
  mret (List.map _score_to_detail scores).
Definition update_trace_score (ctx : ApiContext) (score_id : N) (b : UpdateTraceScoreRequest) : M World TraceScoreResponse :=
  project ← project_id ctx;
  score ← EvalService.update_score score_id project (us_value b) (us_reason b) (us_metadata b);
  mret (_score_to_detail score).
Definition delete_trace_score (ctx : ApiContext) (score_id : N) : M World unit :=
  project ← project_id ctx;
  EvalService.delete_score score_id project.
(** Session scores are not filtered by data type or environment. *)
Definition list_session_scores (ctx : ApiContext) (session_id name : option string) (source : option ScoreSource)
    (status : option ScoreStatus) (run : option N) (a b : option Z) (limit offset : Z) : M World (Paginated SessionScoreResponse) :=
  schema (limits_ok limit offset 200) ;;
  project ← project_id ctx;
  found ← EvalService.list_session_scores project
    {| q_name := name; q_target := session_id; q_source := source; q_status := status; q_type := None; q_run := run;
       q_environment := None; q_from := a; q_to := b |} limit offset;
  mret (paginated _session_score_to_detail found limit offset).
Definition get_scores_for_session (ctx : ApiContext) (session_id : string) : M World (list SessionScoreResponse) :=
  project ← project_id ctx;
  scores ← EvalService.get_session_scores session_id project;
  mret (List.map _session_score_to_detail scores).
Definition delete_session_score (ctx : ApiContext) (score_id : N) : M World unit :=
  project ← project_id ctx;
  EvalService.delete_session_score score_id project.

(** *** Analytics *)

Definition buckets_ok (n : Z) : bool := (1 <=? n) && (n <=? 100).
Definition get_trace_score_analytics_summary (ctx : ApiContext) (a b : option Z) : M World (list ScoreSummary) :=
  project ← project_id ctx; EvalService.get_score_summary o project a b.
Definition get_trace_score_analytics_trend (ctx : ApiContext) (metric : string) (a b : option Z) (g : AnalyticsGranularity) :
    M World (list TrendRow) :=
  project ← project_id ctx; EvalService.get_score_trend o project metric a b g.
Definition get_trace_score_analytics_distribution (ctx : ApiContext) (metric : string) (a b : option Z) (buckets : Z) :
    M World (list HistogramRow) :=
  schema (buckets_ok buckets) ;; project ← project_id ctx; EvalService.get_score_distribution o project metric a b buckets.
Definition get_session_score_analytics_summary (ctx : ApiContext) (a b : option Z) : M World (list ScoreSummary) :=
  project ← project_id ctx; EvalService.get_session_score_summary o project a b.
Definition get_session_score_analytics_trend (ctx : ApiContext) (metric : string) (a b : option Z) (g : AnalyticsGranularity) :
    M World (list TrendRow) :=
  project ← project_id ctx; EvalService.get_session_score_trend o project metric a b g.
Definition get_session_score_analytics_distribution (ctx : ApiContext) (metric : string) (a b : option Z) (buckets : Z) :
    M World (list HistogramRow) :=
  schema (buckets_ok buckets) ;; project ← project_id ctx; EvalService.get_session_score_distribution o project metric a b buckets.
Definition get_session_score_history (ctx : ApiContext) (session_id : string) (metric : option string) (limit : Z) : M World (list HistoryRow) :=
  schema (limits_ok limit 0 200) ;; project ← project_id ctx; EvalService.get_session_score_history o project session_id metric limit.
(** Any text but [asc] sorts the best first. *)
Definition get_session_score_comparison (ctx : ApiContext) (metric sort_order : string) (limit offset : Z) : M World (Paginated ComparisonRow) :=
  schema (limits_ok limit offset 100) ;;
  project ← project_id ctx;
  found ← EvalService.get_session_score_comparison o project metric (bool_decide (sort_order = "asc"%string)) limit offset;
  mret (paginated id found limit offset).

(** *** Monitors *)

Definition create_monitor (ctx : ApiContext) (b : CreateMonitorRequest) : M World MonitorResponse :=
  schema (CreateMonitorRequest_ok b) ;;
  require_monitoring_allowed (o_id (cx_organization ctx)) ;;
  project ← project_id ctx;
  monitor ← EvalService.create_monitor o project (cm_name b) (cm_target b) (cm_metrics b) (cm_cadence b) (cm_filters b) (cm_sampling b)
              (cm_model b) (cm_only_if_changed b) (cm_weights b);
  mret (_monitor_to_response monitor).
Definition list_monitors (ctx : ApiContext) (status : option MonitorStatus) (limit offset : Z) : M World (Paginated MonitorResponse) :=
  schema (limits_ok limit offset 200) ;;
  project ← project_id ctx;
  found ← EvalService.list_monitors project status limit offset;
  mret (paginated _monitor_to_response found limit offset).
Definition monitor_response (ctx : ApiContext) (f : N -> M World EvalMonitor) : M World MonitorResponse :=
  project ← project_id ctx; monitor ← f project; mret (_monitor_to_response monitor).
Definition get_monitor (ctx : ApiContext) (monitor_id : N) : M World MonitorResponse :=
  monitor_response ctx (EvalService.get_monitor monitor_id).
Definition update_monitor (ctx : ApiContext) (monitor_id : N) (body : EvalService.MonitorPatch) : M World MonitorResponse :=
  schema (UpdateMonitorRequest_ok body) ;;
  monitor_response ctx (fun project => EvalService.update_monitor o monitor_id project body).
Definition delete_monitor (ctx : ApiContext) (monitor_id : N) : M World unit :=
  project ← project_id ctx; EvalService.delete_monitor monitor_id project.
Definition pause_monitor (ctx : ApiContext) (monitor_id : N) : M World MonitorResponse :=
  monitor_response ctx (EvalService.pause_monitor monitor_id).
Definition resume_monitor (ctx : ApiContext) (monitor_id : N) : M World MonitorResponse :=
  monitor_response ctx (EvalService.resume_monitor o monitor_id).

Definition category_of (t : TargetType) : UsageCategory := match t with TRACE_TARGET => TRACE_EVALS | SESSION_TARGET => SESSION_EVALS end.
Definition trigger_monitor (ctx : ApiContext) (monitor_id : N) : M World EvalRunResponse :=
  project ← project_id ctx;
  prepared ← EvalService.prepare_trigger_monitor o monitor_id project;
  run ← charged ctx (category_of (pr_target prepared)) (pairs prepared (e_metrics (pr_run prepared)))
          (EvalService.dispatch_trigger_monitor o prepared);
  mret (_run_to_detail run).
Definition list_monitor_runs (ctx : ApiContext) (monitor_id : N) (limit offset : Z) : M World (Paginated EvalRunResponse) :=
  schema (limits_ok limit offset 200) ;;
  project ← project_id ctx;
  found ← EvalService.list_monitor_runs monitor_id project limit offset;
  mret (paginated _run_to_detail found limit offset).
End routes.
End EvaluationsApi.
