(* ===== verification/EvalTasks.v ===== *)
(** * The evaluation tasks (infrastructure/queue/tasks.py)

    The workers that run the metrics of a run on traces and on sessions, the periodic
    tick that dispatches due monitors, and the worker of one monitor.  A worker of a run
    holds an LLM engine of its own next to the database session.  litellm, pydantic's
    conversion to floats and the text of an exception are parameters.  The soft time limit
    that may interrupt a worker anywhere is not modelled. *)
From stdpp Require Import base gmap strings list.
From Stdlib Require Import ZArith Lia ssreflect.
From S2P Require Import Prelude Constants Entities Float64 PyFloat Json JsonText Evals Telemetry Sql World Locks Usage BillingTasks TraceRepo Traces Cadence LLM Metrics EvalRepo EvalService.

#[local] Open Scope Z_scope.

Import EvalRepository Registry LLMEngine.

(** ** A worker with its engine *)

Definition Job : Type := World * Engine.
Definition on_world {A} (m : M World A) : M Job A := fun j => let '(r, w) := m j.1 in (r, (w, j.2)).
Definition on_engine {A} (m : M Engine A) : M Job A := fun j => let '(r, e) := m j.2 in (r, (j.1, e)).
(** [try: ... except Exception as exc]: the value or the exception. *)
Definition attempt {W A} (m : M W A) : M W (res A) := fun w => let '(r, w') := m w in (Ok r, w').
Definition job_session {A} (m : M Job A) : M Job A := on_world rollback ;; try_finally m (on_world rollback).
(** Run a job with a new engine. *)
Definition start {A} (m : M Job A) : M World A := fun w => let '(r, j) := m (w, new_engine) in (r, j.1).

Section tasks.
Context (o : Outside) (litellm : LiteLLM Prompt) (as_float : Json -> option float) (exn_text : exn -> string).

Definition evaluate_metric (name : string) (t : Trace) (model : option string) (session_traces : list Trace) : M Job MetricResult :=
  on_engine (TraceMetrics.evaluate (llm_settings o) litellm as_float name t model session_traces).

(** ** Scores that a worker writes *)

Definition automated_score {T} (id : N) (target : T) (project : N) (name : string) (value : option string) (status : ScoreStatus)
    (run : N) (reason environment : option string) (metadata : Object Json) (now : Z) : Score T :=
  {| c_id := id; c_target := target; c_project := project; c_name := name; c_type := NUMERIC; c_value := value;
     c_source := AUTOMATED; c_status := status; c_run := Some run; c_author := None; c_reason := reason;
     c_environment := environment; c_config := None; c_metadata := metadata; c_created := now; c_updated := now |}.
(** The score of a result, whose text must be a valid score. *)
Definition success_score {T} (target : T) (project : N) (name : string) (run : N) (environment : option string) (now : Z)
    (r : MetricResult) : M Job (Score T) :=
  id ← on_world uuid4;
  lift (Score_validate (automated_score id target project name (Some (score_text (mr_score r))) SUCCESS run (mr_reason r)
                          environment (mr_metadata r) now)).
Definition failed_score {T} (target : T) (project : N) (name : string) (run : N) (environment : option string) (now : Z)
    (what : string) (e : exn) : M Job (Score T) :=
  id ← on_world uuid4;
  lift (Score_validate (automated_score id target project name None FAILED_SCORE run (Some (what +:+ ": " +:+ exn_text e)%string)
                          environment ∅ now)).

(** ** execute_eval_run *)

(** An INSERT of a score.  When the database refuses it, the session's transaction is inactive
    until a rollback: the INSERT of the failed score, in the handler, raises [PendingRollbackError]. *)
Definition store_score {A} (insert : M World A) : M Job unit :=
  on_world (try_except (insert ;; mret tt) (fun _ => raise PendingRollbackError)).

(** One metric on one trace. *)
Definition run_metric (run : EvalRun) (project : N) (t : Trace) (name : string) : M Job unit :=
  _ ← lift (get_metric name);
  now ← on_world utcnow;
  outcome ← attempt
    (result ← evaluate_metric name t (e_model run) [];
     success_score (tr_id t) project name (e_id run) (tr_environment t) now result);
  match outcome with
  | Ok score => store_score (create_score score)
  | Err e =>
      failed ← failed_score (tr_id t) project name (e_id run) (tr_environment t) now "Metric execution failed" e;
      on_world (create_score failed ;; increment_failed (e_id run) 1)
  end.

(** [trace_metric_map.get(tid, run.metric_names) if trace_metric_map else run.metric_names] *)
Definition metrics_for (run : EvalRun) (metric_map : option (list (N * list string))) (tid : N) : list string :=
  match metric_map with
  | Some m => default (e_metrics run) (snd <$> List.find (fun kv => bool_decide (kv.1 = tid)) m)
  | None => e_metrics run
  end.
Definition progress (run : N) : M Job unit := on_world (increment_progress run 1 ;; commit).
Definition run_trace (run : EvalRun) (project : N) (metric_map : option (list (N * list string))) (tid : N) : M Job unit :=
  trace ← on_world (TraceRepository.get_trace tid project);
  match trace with
  | None => mret tt
  | Some t => for_each (metrics_for run metric_map tid) (run_metric run project t)
  end ;;
  progress (e_id run).

Definition _run_eval_run (run_id project_id : N) (trace_ids : list N) (metric_map : option (list (N * list string))) : M Job unit :=
  job_session
    (on_world (_ ← delete_scores_for_run run_id project_id;
               reset_run_counters run_id ;;
               update_run_status run_id ERUNNING None ;;
               commit) ;;
     found ← on_world (EvalRepository.get_eval_run run_id project_id);
     match found with
     | None => raise (ValueError "Eval run not found")
     | Some run =>
         for_each trace_ids (run_trace run project_id metric_map) ;;
         on_world (update_run_status run_id ECOMPLETED None ;; commit)
     end).

Definition _fail_eval_run (run_id : N) (error_message : string) : M World unit :=
  try_except (with_session (update_run_status run_id EFAILED (Some error_message) ;; commit)) (fun _ => mret tt).

Definition EVAL_MAX_RETRIES : nat := 2.
(** [self.retry(exc=exc)] *)
Definition retry_task (retries : nat) (again : nat -> Task) (e : exn) : M World unit :=
  if (retries <? EVAL_MAX_RETRIES)%nat then enqueue (again (S retries)) else raise e.
Definition execute_eval_run (run_id project_id : N) (trace_ids : list N) (metric_map : option (list (N * list string))) (retries : nat) :
    M World unit :=
  try_except (start (_run_eval_run run_id project_id trace_ids metric_map))
    (fun e => _fail_eval_run run_id (exn_text e) ;; retry_task retries (TExecuteEvalRun run_id project_id trace_ids metric_map) e).

(** ** execute_session_eval_run *)

Definition SIGNAL_METRICS : list string := ["confidence"; "coherence"; "loop_detection"; "tool_correctness"]%string.

(** The traces of a session, in the order they started. *)
Definition session_traces (project_id : N) (session_id : string) : M World (list Trace) :=
  read_res (fun d => res_all (List.map (fun r => TraceRepository._to_trace r (TraceRepository.spans_of_trace d (t_id r)))
    (sort_by Z.leb (fun r => Some (t_started r)) ASC
       (select (fun r => of_project project_id r && sql_eq (t_session r) session_id) (traces_of d))))).

Definition nonempty_text (s : string) : list string := if bool_decide (s = EmptyString) then [] else [s].
Definition warm_cache (traces : list Trace) : M Job unit :=
  match flat_map (fun t => nonempty_text (to_text (tr_input t)) ++ nonempty_text (to_text (tr_output t))) traces with
  | [] => mret tt
  | texts => _ ← attempt (on_engine (embed_texts (llm_settings o) litellm texts)); mret tt
  end.

(** A signal of a trace: the newest successful score of that name is reused; otherwise the
    metric is evaluated, and stored. *)
Definition compute_signal (run : EvalRun) (project : N) (before : list Trace) (t : Trace) (name : string) : M Job (option float) :=
  existing ← on_world (find_existing_trace_score (tr_id t) name);
  match existing ≫= c_value with
  | Some v => match py_float v with Some x => mret (Some x) | None => raise (ValueError "could not convert string to float") end
  | None =>
      outcome ← attempt
        (_ ← lift (get_metric name);
         result ← evaluate_metric name t (e_model run) before;
         now ← on_world utcnow;
         score ← success_score (tr_id t) project name (e_id run) (tr_environment t) now result;
         mret (mr_score result, score));
      match outcome with
      | Ok (value, score) => store_score (create_score score) ;; mret (Some value)
      | Err e =>
          now ← on_world utcnow;
          failed ← failed_score (tr_id t) project name (e_id run) (tr_environment t) now "Signal computation failed" e;
          on_world (create_score failed ;; mret None)
      end
  end.
Fixpoint trace_signals (run : EvalRun) (project : N) (before : list Trace) (t : Trace) (names : list string) (acc : gmap string float) :
    M Job (gmap string float) :=
  match names with
  | [] => mret acc
  | name :: names' =>
      value ← compute_signal run project before t name;
      trace_signals run project before t names' (match value with Some x => <[name := x]> acc | None => acc end)
  end.
(** The signals of the traces from position [i] on, [before] being the traces before it. *)
Fixpoint all_signals (run : EvalRun) (project : N) (before traces : list Trace) (acc : SessionMetrics.Signals) : M Job SessionMetrics.Signals :=
  match traces with
  | [] => mret acc
  | t :: traces' =>
      s ← trace_signals run project before t SIGNAL_METRICS ∅;
      all_signals run project (before ++ [t]) traces' (<[tr_id t := s]> acc)
  end.

Definition run_session_metric (run : EvalRun) (project : N) (session_id : string) (traces : list Trace) (weights : option Json)
    (signals : SessionMetrics.Signals) (name : string) : M Job unit :=
  now ← on_world utcnow;
  outcome ← attempt
    (_ ← lift (get_session_metric name);
     result ← lift (SessionMetrics.evaluate name traces weights signals);
     success_score session_id project name (e_id run) None now result);
  match outcome with
  | Ok score => store_score (create_session_score score)
  | Err e =>
      failed ← failed_score session_id project name (e_id run) None now "Session metric failed" e;
      on_world (create_session_score failed ;; increment_failed (e_id run) 1)
  end.

Definition run_session (run : EvalRun) (project : N) (session_id : string) : M Job unit :=
  traces ← on_world (session_traces project session_id);
  match traces with
  | [] => mret tt
  | _ =>
      warm_cache traces ;;
      signals ← all_signals run project [] traces ∅;
      on_world commit ;;
      for_each (e_metrics run)
        (run_session_metric run project session_id traces (json_get "signal_weights" (e_filters run)) signals)
  end ;;
  progress (e_id run).

Definition _run_session_eval (run_id project_id : N) (session_ids : list string) : M Job unit :=
  job_session
    (on_world (_ ← delete_session_scores_for_run run_id project_id;
               _ ← delete_scores_for_run run_id project_id;
               reset_run_counters run_id ;;
               update_run_status run_id ERUNNING None ;;
               commit) ;;
     found ← on_world (EvalRepository.get_eval_run run_id project_id);
     match found with
     | None => raise (ValueError "Eval run not found")
     | Some run =>
         for_each session_ids (run_session run project_id) ;;
         on_world (update_run_status run_id ECOMPLETED None ;; commit)
     end).
Definition execute_session_eval_run (run_id project_id : N) (session_ids : list string) (retries : nat) : M World unit :=
  try_except (start (_run_session_eval run_id project_id session_ids))
    (fun e => _fail_eval_run run_id (exn_text e) ;; retry_task retries (TExecuteSessionEvalRun run_id project_id session_ids) e).

(** ** check_eval_monitors *)

Definition MONITOR_LOCK_TIMEOUT : Z := 60.
(** [with lock: ...] of redis-py: a token of its own, and a release that is never fatal. *)
Definition monitor_lock : LockKey := DispatchLock "check_eval_monitors".

(** Move every due monitor to its next time; the monitors to dispatch, once that is committed. *)
Definition reschedule_all (now : Z) (due_monitors : list EvalMonitor) : M World unit :=
  for_each due_monitors (fun m =>
    next_run ← lift (Cadence.compute_next_run (cron o) (mo_cadence m) now);
    reschedule_monitor (mo_id m) next_run).
Definition collect_due : M World (list EvalMonitor) :=
  now ← utcnow;
  with_session
    (due_monitors ← get_due_monitors now;
     reschedule_all now due_monitors ;;
     commit ;;
     mret due_monitors).
Definition _check_eval_monitors : M World Dispatched :=
  token ← uuid4;
  claimed ← acquire_owned_lock monitor_lock (Tok token) MONITOR_LOCK_TIMEOUT;
  if negb claimed then mret SkippedDuplicate else
  monitors ← try_finally collect_due (release_owned_lock monitor_lock (Tok token));
  for_each monitors (fun m => delay (broker o) (TProcessMonitor (mo_id m) (mo_project m) 0)) ;;
  mret (DispatchedCount (length monitors)).
Definition check_eval_monitors : M World Dispatched := dispatcher _check_eval_monitors.

(** ** process_single_monitor *)

Inductive MonitorOutcome := MonitorMissing | MonitorSkipped | ProjectMissing | Spawned (run : N) | QuotaReached | Retried.

Definition category_for (t : TargetType) : UsageCategory := match t with TRACE_TARGET => TRACE_EVALS | SESSION_TARGET => SESSION_EVALS end.
(** Charge the run, advance the monitor and commit; take the charge back when that fails. *)
Definition charge_monitor_run (monitor_id org : N) (category : string) (billable : Z) (run : N) : M World unit :=
  check_and_increment org category billable ;;
  try_except
    (now ← utcnow; advance_monitor monitor_id now (Some run) None ;; commit)
    (fun e => rollback_increment org category billable ;; raise e).
Definition _process_single_monitor (monitor_id project_id : N) : M World MonitorOutcome :=
  with_session
    (found ← EvalRepository.get_monitor monitor_id project_id;
     match found with
     | None => mret MonitorMissing
     | Some monitor =>
         skip ← EvalService.should_skip_monitor o monitor;
         if (skip : bool) then mret MonitorSkipped else
         project ← read_db (fun d => List.find (fun p => bool_decide (p_id p = project_id)) (projects d));
         match project with
         | None => mret ProjectMissing
         | Some p =>
             spawned ← EvalService._spawn_run_for_monitor o monitor;
             let '(run, targets) := spawned in
             charge_monitor_run monitor_id (p_org p) (UsageCategory_value (category_for (mo_target monitor)))
               (e_total run * Z.of_nat (length (e_metrics run))) (e_id run) ;;
             EvalService._dispatch_monitor_run o (mo_target monitor) (e_id run) (mo_project monitor) targets ;;
             mret (Spawned (e_id run))
         end
     end).
Definition process_single_monitor (monitor_id project_id : N) (retries : nat) : M World MonitorOutcome :=
  try_except (_process_single_monitor monitor_id project_id)
    (fun e => match e with
              | PP QuotaExceededError _ => mret QuotaReached
              | _ => retry_task retries (TProcessMonitor monitor_id project_id) e ;; mret Retried
              end).
End tasks.
