(* ===== verification/MonitorFacts.v ===== *)
(** * The periodic tick over evaluation monitors

    What one run of [check_eval_monitors] does: every active monitor that is due is
    dispatched once and moved to a later time, so that no monitor is due afterwards;
    a cadence without a next instant, and a monitor whose filters are JSON null, keep
    the tick from dispatching anything. *)
From stdpp Require Import base gmap strings list.
From Stdlib Require Import ZArith Lia ssreflect.
From S2P Require Import Prelude Constants Entities Float64 PyFloat Json Evals Telemetry Sql World Locks BillingTasks TraceRepo Traces Cadence LLM Metrics EvalRepo EvalService EvalTasks.

#[local] Open Scope Z_scope.

Import EvalRepository.

Definition monitors_of (d : DB) : list EvalMonitor := eval_monitors (evals_of d).
Definition set_monitors (l : list EvalMonitor) (d : DB) : DB := on_evals (set_eval_monitors l) d.

Lemma monitors_of_set l d : monitors_of (set_monitors l d) = l.
Proof. done. Qed.
Lemma set_monitors_set l l' d : set_monitors l (set_monitors l' d) = set_monitors l d.
Proof. done. Qed.
Lemma set_monitors_id d : set_monitors (monitors_of d) d = d.
Proof. by destruct d as [? ? ? ? ? ? ? ? ? [? ? []]]. Qed.
Lemma set_db_id w : set_db (db w) w = w.
Proof. by destruct w. Qed.

(** ** Rescheduling a list of monitors *)

Section reschedule.
Context (o : Outside).

(** The monitor, moved to the next time of [x]'s cadence. *)
Definition moved (t : Z) (x m : EvalMonitor) : EvalMonitor :=
  match Cadence.compute_next_run (cron o) (mo_cadence x) t with
  | Ok next => set_schedule (mo_last_run_at m) (mo_last_run m) (Some next) t m
  | Err _ => m
  end.
Definition move_one (t : Z) (ms : list EvalMonitor) (x : EvalMonitor) : list EvalMonitor :=
  update_where (with_monitor_id (mo_id x)) (moved t x) ms.
Definition schedulable (t : Z) (m : EvalMonitor) : Prop := exists next, Cadence.compute_next_run (cron o) (mo_cadence m) t = Ok next.

Lemma reschedule_all_run w l : (forall m, m ∈ l -> schedulable (now w) m) ->
  reschedule_all o (now w) l w = (Ok tt, set_db (set_monitors (foldl (move_one (now w)) (monitors_of (db w)) l) (db w)) w).
Proof.
  revert w. induction l as [|x l IH]; intros w Hl; simpl.
  - by rewrite set_monitors_id set_db_id.
  - destruct (Hl x ltac:(by left)) as [next Hn]. unfold reschedule_all. cbn [for_each].
    set (w1 := set_db (set_monitors (move_one (now w) (monitors_of (db w)) x) (db w)) w).
    erewrite (bind_Ok _ _ w tt w1).
    + change (now w) with (now w1). apply (IH w1). intros m Hm. apply Hl. by right.
    + rewrite Hn. unfold w1, move_one, moved. rewrite Hn. reflexivity.
Qed.

(** With distinct identifiers, each monitor is moved by the entry of its own identifier. *)
Lemma move_all_map t l ms : NoDup (List.map mo_id l) ->
  foldl (move_one t) ms l =
  List.map (fun m => match List.find (with_monitor_id (mo_id m)) l with Some x => moved t x m | None => m end) ms.
Proof.
  revert ms. induction l as [|x l IH]; intros ms Hd; simpl; [by rw List.map_id|]. inversion Hd as [|? ? Hx Hl]; subst.
  rw (IH (move_one t ms x) Hl). unfold move_one, update_where. rw List.map_map. apply List.map_ext. intros m.
  assert (Hid : mo_id (moved t x m) = mo_id m) by (unfold moved; by destruct (Cadence.compute_next_run _ _ _)).
  destruct (decide (mo_id m = mo_id x)) as [E|E].
  - assert (H1 : with_monitor_id (mo_id x) m = true) by by apply bool_decide_eq_true.
    assert (H2 : with_monitor_id (mo_id m) x = true) by by apply bool_decide_eq_true.
    rw H1 H2 Hid. destruct (List.find (with_monitor_id (mo_id m)) l) as [y|] eqn:Ef; [|done].
    apply List.find_some in Ef as [Hy Hm%bool_decide_eq_true]. destruct Hx. apply list_elem_of_fmap. exists y.
    split; [congruence|by apply list_elem_of_In].
  - assert (H1 : with_monitor_id (mo_id x) m = false) by by apply bool_decide_eq_false.
    assert (H2 : with_monitor_id (mo_id m) x = false) by (apply bool_decide_eq_false; congruence).
    by rw H1 H2.
Qed.
End reschedule.

(** ** The tick *)

Section tick.
Context (o : Outside).

(** The monitors the tick finds, and what it makes of every monitor. *)
Definition due_now (w : World) : list EvalMonitor :=
  sort_by Z.leb mo_next_run_at ASC (select (due (now w)) (monitors_of (durable w))).
Definition ticked (t : Z) (m : EvalMonitor) : EvalMonitor := if due t m then moved o t m m else m.

Lemma due_now_Permutation w : due_now w ≡ₚ select (due (now w)) (monitors_of (durable w)).
Proof. apply order_by_Permutation. Qed.
Lemma elem_of_due_now w m : m ∈ due_now w <-> m ∈ monitors_of (durable w) /\ due (now w) m = true.
Proof. by rw due_now_Permutation elem_of_select. Qed.

(** Rescheduling the due monitors by identifier is moving each of them. *)
Lemma move_due w : NoDup (List.map mo_id (monitors_of (durable w))) ->
  foldl (move_one o (now w)) (monitors_of (durable w)) (due_now w) = List.map (ticked (now w)) (monitors_of (durable w)).
Proof.
  intros Hd. rw move_all_map.
  { rw due_now_Permutation. by apply NoDup_map_select. }
  apply List.map_ext_in. intros m Hm%list_elem_of_In. unfold ticked.
  destruct (List.find (with_monitor_id (mo_id m)) (due_now w)) as [x|] eqn:Ef.
  - apply List.find_some in Ef as [Hx Hid%bool_decide_eq_true]. apply list_elem_of_In, elem_of_due_now in Hx as [Hx Hdue].
    rw (NoDup_map_inj mo_id (monitors_of (durable w)) x m) in Hdue; [done..|].
    rw Hdue. f_equal. by apply (NoDup_map_inj mo_id (monitors_of (durable w))).
  - destruct (due (now w) m) eqn:Hdue; [|done]. exfalso.
    assert (Hin : m ∈ due_now w) by by apply elem_of_due_now. apply list_elem_of_In in Hin.
    pose proof (List.find_none _ _ Ef m Hin) as H. unfold with_monitor_id in H. by apply bool_decide_eq_false in H.
Qed.

(** The session of the tick: the due monitors are moved, and that is committed. *)
Lemma collect_due_run w :
  NoDup (List.map mo_id (monitors_of (durable w))) ->
  (forall m, m ∈ due_now w -> EvalMonitor_validate m = Ok m /\ schedulable o (now w) m) ->
  let d := set_monitors (List.map (ticked (now w)) (monitors_of (durable w))) (durable w) in
  collect_due o w = (Ok (due_now w), set_durable d (set_db d w)).
Proof.
  intros Hd Hok d. unfold collect_due. rewrite (bind_Ok _ _ w (now w) w); [done|].
  unfold with_session. set (w0 := set_db (durable w) w). rewrite (bind_Ok _ _ w tt w0); [done|].
  set (w1 := set_db d w0).
  unfold try_finally. rewrite (bind_Ok _ _ w0 (due_now w) w0).
  { unfold get_due_monitors, read_res. rewrite (bind_Ok _ _ w0 (Ok (due_now w)) w0); [|done].
    unfold read_db, gets. f_equal. f_equal. change (sort_by Z.leb mo_next_run_at ASC _) with (due_now w).
    rw (res_all_Ok _ id); [|by rw List.map_id]. intros m Hm. by apply Hok. }
  rewrite (bind_Ok _ _ w0 tt w1).
  { change (now w) with (now w0). rewrite (reschedule_all_run o w0 (due_now w)); [intros m Hm; by apply Hok|].
    unfold w1. f_equal. f_equal. unfold d. cbn [db w0 set_db]. f_equal. by apply (move_due w). }
  reflexivity.
Qed.

(** Queueing the monitors, when the broker accepts them. *)
Definition monitor_task (m : EvalMonitor) : Task := TProcessMonitor (mo_id m) (mo_project m) 0.
Lemma dispatch_all_run l w : (forall m, m ∈ l -> broker o (monitor_task m) = None) ->
  for_each l (fun m => delay (broker o) (monitor_task m)) w = (Ok tt, set_queue (queue w ++ List.map monitor_task l) w).
Proof.
  revert w. induction l as [|m l IH]; intros w Hb; simpl; [by rw app_nil_r; destruct w|].
  rewrite (bind_Ok _ _ w tt (set_queue (queue w ++ [monitor_task m]) w)).
  { unfold delay. by rw (Hb m); [left|]. }
  rw IH; [intros x Hx; apply Hb; by right|]. cbn. by rw -app_assoc.
Qed.

(** The lock is taken when it is free, and free again when it is released. *)
Lemma lock_taken w token : GET (now w) (r_locks (redis w)) monitor_lock = None ->
  acquire_owned_lock monitor_lock (Tok token) MONITOR_LOCK_TIMEOUT w =
  (Ok true, set_redis (set_locks (SETEX (now w) (r_locks (redis w)) monitor_lock (Tok token) MONITOR_LOCK_TIMEOUT) (redis w)) w).
Proof. intros H. unfold acquire_owned_lock, run_script, ACQUIRE_LOCK_SCRIPT. by rw H. Qed.
Lemma lock_released w token m :
  r_locks (redis w) = SETEX (now w) m monitor_lock (Tok token) MONITOR_LOCK_TIMEOUT ->
  exists m', release_owned_lock monitor_lock (Tok token) w = (Ok tt, set_redis (set_locks m' (redis w)) w) /\
             GET (now w) m' monitor_lock = None.
Proof.
  intros H. unfold release_owned_lock, run_script, RELEASE_LOCK_SCRIPT. rw H.
  assert (Hg : GET (now w) (SETEX (now w) m monitor_lock (Tok token) MONITOR_LOCK_TIMEOUT) monitor_lock = Some (Tok token)).
  { unfold GET, SETEX, live, MONITOR_LOCK_TIMEOUT, second. rw lookup_insert_eq. by rw (proj2 (Z.ltb_lt _ _)); [lia|]. }
  rw Hg. rw bool_decide_eq_true_2; [done|]. eexists. split; [reflexivity|]. unfold GET. by rw lookup_delete_eq.
Qed.

(** C15: Every monitor that is due is served.  When no other tick holds the lock, the broker accepts messages,
    and the due monitors are well-formed with a cadence that has a next instant, one run of
    [check_eval_monitors] dispatches each active monitor whose time has come exactly once, in the order of their times; it moves
    every one of them, keeping its configuration, to the next time of its cadence, which
    is later than now, and leaves the other monitors alone; the moves are committed, the lock is free for the
    next tick, and no monitor is due any more. *)
Theorem due_monitors_served `{!CroniterLaws (cron o)} (w : World)
  (Hfree : GET (now w) (r_locks (redis w)) monitor_lock = None)
  (Hids : NoDup (List.map mo_id (monitors_of (durable w))))
  (Hgood : forall m, m ∈ due_now w -> EvalMonitor_validate m = Ok m /\ schedulable o (now w) m)
  (Hbroker : forall m, m ∈ due_now w -> broker o (monitor_task m) = None) :
  exists w', check_eval_monitors o w = (Ok (DispatchedCount (length (due_now w))), w') /\
    due_now w ≡ₚ select (due (now w)) (monitors_of (durable w)) /\
    queue w' = queue w ++ List.map monitor_task (due_now w) /\
    Forall2 (fun m m' =>
        if due (now w) m
        then exists t, now w < t /\ Cadence.compute_next_run (cron o) (mo_cadence m) (now w) = Ok t /\
                       m' = set_schedule (mo_last_run_at m) (mo_last_run m) (Some t) (now w) m
        else m' = m)
      (monitors_of (durable w)) (monitors_of (durable w')) /\
    select (due (now w')) (monitors_of (durable w')) = [] /\
    GET (now w') (r_locks (redis w')) monitor_lock = None.
Proof.
  set (token := next_id w). set (w1 := set_next_id (N.succ token) w).
  set (w2 := set_redis (set_locks (SETEX (now w) (r_locks (redis w)) monitor_lock (Tok token) MONITOR_LOCK_TIMEOUT) (redis w)) w1).
  set (d := set_monitors (List.map (ticked (now w)) (monitors_of (durable w))) (durable w)).
  set (w3 := set_durable d (set_db d w2)).
  destruct (lock_released w3 token (r_locks (redis w)) eq_refl) as (m' & Hrel & Hnone).
  set (w4 := set_redis (set_locks m' (redis w3)) w3) in Hrel.
  assert (Hmoved : Forall2 (fun m m' => if due (now w) m
      then exists t, now w < t /\ Cadence.compute_next_run (cron o) (mo_cadence m) (now w) = Ok t /\
                     m' = set_schedule (mo_last_run_at m) (mo_last_run m) (Some t) (now w) m
      else m' = m) (monitors_of (durable w)) (List.map (ticked (now w)) (monitors_of (durable w)))).
  { apply Forall2_fmap_r, Forall_Forall2_diag, Forall_forall. intros m Hm. unfold ticked, compose. destruct (due (now w) m) eqn:Hdue; [|done].
    destruct (proj2 (Hgood m (proj2 (elem_of_due_now w m) (conj Hm Hdue)))) as [t Ht]. exists t. split; [|split; [done|]].
    - by apply (Cadence.compute_next_run_later (cron o) (mo_cadence m)).
    - unfold moved. by rw Ht. }
  exists (set_queue (queue w4 ++ List.map monitor_task (due_now w)) w4). split; [|split; [apply due_now_Permutation|split; [done|split; [exact Hmoved|split; [|exact Hnone]]]]].
  - unfold check_eval_monitors, dispatcher, try_except, _check_eval_monitors.
    rewrite (bind_Ok _ _ w token w1); [done|].
    rewrite (bind_Ok _ _ w1 true w2); [by apply (lock_taken w1 token)|]. cbn [negb].
    rewrite (bind_Ok _ _ w2 (due_now w) w4).
    { unfold try_finally. change (due_now w) with (due_now w2). rewrite (collect_due_run w2 Hids Hgood). fold d w3. by rewrite Hrel. }
    rewrite (bind_Ok _ _ w4 tt (set_queue (queue w4 ++ List.map monitor_task (due_now w)) w4)); [|done].
    by apply dispatch_all_run.
  - apply select_none. intros m Hm. change (m ∈ List.map (ticked (now w)) (monitors_of (durable w))) in Hm.
    change (due (now w) m = false). apply list_elem_of_fmap in Hm as (x & -> & Hx).
    apply list_elem_of_lookup_1 in Hx as (i & Hx).
    destruct (Forall2_lookup_l _ _ _ i x Hmoved Hx) as (y & Hy & Hxy). rewrite list_lookup_fmap Hx in Hy. injection Hy as <-.
    destruct (due (now w) x) eqn:Hdue; [|by rw Hxy].
    destruct Hxy as (t & Ht & _ & ->). unfold due. cbn. apply andb_false_intro2, Z.leb_gt. lia.
Qed.

(** ** A monitor that blocks the tick *)

Lemma for_each_Err {W A} (l : list A) (body : A -> M W unit) x (w : W) :
  x ∈ l -> (forall w, exists e w', body x w = (Err e, w')) -> exists e w', for_each l body w = (Err e, w').
Proof.
  intros Hx Hb. revert w. induction l as [|y l IH]; intros w; [by apply elem_of_nil in Hx|].
  change (for_each (y :: l) body w) with ((body y ;; for_each l body) w). destruct (body y w) as [[[]|e] w1] eqn:E.
  - rewrite (bind_Ok _ _ w tt w1 E). apply elem_of_cons in Hx as [->|Hx]; [|by apply IH].
    destruct (Hb w) as (e & w' & E'). congruence.
  - exists e, w1. by rewrite (bind_Err _ _ w e w1 E).
Qed.

(** What is committed and what is queued. *)
Definition settled (w w' : World) : Prop := durable w' = durable w /\ queue w' = queue w.
#[local] Instance settled_preorder : PreOrder settled.
Proof. split; [done|]. intros x y z [H1 H2] [H3 H4]. split; congruence. Qed.
Lemma settled_reschedule t l : respects settled (reschedule_all o t l).
Proof. unfold reschedule_all, reschedule_monitor, update_schedule, update_evals, write_db, utcnow. respects_auto; intros ?; done. Qed.

(** A due monitor that cannot be loaded or has no next time: the tick fails as a whole, for every
    project.  It moves and dispatches nothing, and the next tick meets the same monitor. *)
Theorem blocked_tick (w : World) (m : EvalMonitor)
  (Hfree : GET (now w) (r_locks (redis w)) monitor_lock = None)
  (Hm : m ∈ due_now w)
  (Hbad : (exists e, EvalMonitor_validate m = Err e) \/ (exists e, Cadence.compute_next_run (cron o) (mo_cadence m) (now w) = Err e)) :
  exists e w', check_eval_monitors o w = (Ok (DispatchError e), w') /\ settled w w'.
Proof.
  set (token := next_id w). set (w1 := set_next_id (N.succ token) w).
  set (w2 := set_redis (set_locks (SETEX (now w) (r_locks (redis w)) monitor_lock (Tok token) MONITOR_LOCK_TIMEOUT) (redis w)) w1).
  set (w0 := set_db (durable w) w2).
  assert (Hbody : exists e w3, (due_monitors ← get_due_monitors (now w); reschedule_all o (now w) due_monitors ;; commit ;; mret due_monitors) w0
                  = (Err e, w3) /\ settled w0 w3).
  { destruct (res_all (List.map _to_monitor (due_now w))) as [l|e] eqn:Er.
    - assert (Hl : l = due_now w).
      { assert (Hall : forall x, x ∈ due_now w -> _to_monitor x = Ok x).
        { intros x Hx. destruct (_to_monitor x) as [y|e] eqn:Ex.
          - revert Ex. unfold _to_monitor, EvalMonitor_validate. destruct (_ && _); [congruence|done].
          - destruct (res_all_Err (List.map _to_monitor (due_now w)) e) as [e' He']; [|congruence].
            apply List.in_map_iff. exists x. split; [done|by apply list_elem_of_In]. }
        rewrite (res_all_Ok _ id) in Er; [by intros x Hx; apply Hall|]. by rw List.map_id in Er; injection Er. }
      subst l. destruct Hbad as [[e He]|[e He]].
      { destruct (res_all_Err (List.map _to_monitor (due_now w)) e) as [e' He']; [|congruence].
        apply List.in_map_iff. exists m. split; [done|by apply list_elem_of_In]. }
      destruct (for_each_Err (due_now w) (fun x => next_run ← lift (Cadence.compute_next_run (cron o) (mo_cadence x) (now w));
        reschedule_monitor (mo_id x) next_run) m w0 Hm) as (e' & w3 & E3).
      { intros w'. exists e, w'. apply bind_Err. by rw He. }
      exists e', w3. split.
      + rewrite (bind_Ok _ _ w0 (due_now w) w0); [by unfold get_due_monitors, read_res, read_db; cbn; rw -Er|]. by apply bind_Err.
      + pose proof (settled_reschedule (now w) (due_now w) w0) as Hs. unfold reschedule_all in Hs. by rewrite E3 in Hs.
    - exists e, w0. split; [|done]. apply bind_Err. unfold get_due_monitors, read_res, read_db, gets, mbind, M_bind, lift. cbn. by rw -Er. }
  destruct Hbody as (e & w3 & E3 & [Hd Hq]).
  set (w4 := set_db (durable w3) w3).
  set (w5 := (release_owned_lock monitor_lock (Tok token) w4).2).
  exists e, w5. split; [|split; [exact Hd|exact Hq]].
  unfold check_eval_monitors, dispatcher, try_except, _check_eval_monitors.
  rewrite (bind_Ok _ _ w token w1); [done|].
  rewrite (bind_Ok _ _ w1 true w2); [by apply (lock_taken w1 token)|]. cbn [negb].
  assert (Hc : collect_due o w2 = (Err e, w4)).
  { unfold collect_due. rewrite (bind_Ok _ _ w2 (now w) w2); [done|]. unfold with_session.
    rewrite (bind_Ok _ _ w2 tt w0); [done|]. unfold try_finally. by rewrite E3. }
  assert (Hf : try_finally (collect_due o) (release_owned_lock monitor_lock (Tok token)) w2 = (Err e, w5)).
  { unfold try_finally. rewrite Hc. unfold w5, release_owned_lock, run_script. by destruct (RELEASE_LOCK_SCRIPT _ _ _ _). }
  by rewrite (bind_Err _ _ w2 e w5 Hf).
Qed.
End tick.

(** ** Witness: two of four monitors are due *)

Definition sample_monitor (id : N) (cadence : string) (status : MonitorStatus) (next : option Z) : EvalMonitor :=
  {| mo_id := id; mo_project := 20; mo_name := "nightly"; mo_target := TRACE_TARGET; mo_metrics := ["coherence"%string];
     mo_filters := Some ∅; mo_sampling := of_Z 1; mo_model := None; mo_cadence := cadence; mo_only_if_changed := true;
     mo_status := status; mo_last_run_at := None; mo_last_run := None; mo_next_run_at := next; mo_created := 0; mo_updated := 0 |}.
Definition monitor_world : World :=
  world_of (set_monitors [sample_monitor 1 "daily" MACTIVE (Some (days 19)); sample_monitor 2 "daily" MPAUSED None;
                          sample_monitor 3 "cron:0 3 * * *" MACTIVE (Some (days 18)); sample_monitor 4 "weekly" MACTIVE (Some (days 21))] pro_db)
    (days 20) [].

Lemma due_monitors_served_witness : exists w',
  check_eval_monitors toy_outside monitor_world = (Ok (DispatchedCount 2), w') /\
  queue w' = [TProcessMonitor 3 20 0; TProcessMonitor 1 20 0] /\
  List.map mo_next_run_at (monitors_of (durable w')) = [Some (days 21); None; Some (days 20 + hours 1); Some (days 21)].
Proof.
  destruct (due_monitors_served toy_outside monitor_world) as (w' & E & _ & Q & _).
  - reflexivity.
  - apply (bool_decide_eq_true_1 (NoDup _)). reflexivity.
  - intros m Hm. change (due_now monitor_world) with [sample_monitor 3 "cron:0 3 * * *" MACTIVE (Some (days 18)); sample_monitor 1 "daily" MACTIVE (Some (days 19))] in Hm.
    apply elem_of_cons in Hm as [->|Hm]; [split; [reflexivity|eexists; reflexivity]|].
    apply list_elem_of_singleton in Hm as ->. split; [reflexivity|eexists; reflexivity].
  - done.
  - exists w'. split; [exact E|]. split; [exact Q|].
    assert (Hw : w' = (check_eval_monitors toy_outside monitor_world).2) by by rewrite E. rewrite Hw. vm_compute. reflexivity.
Defined.
