(* ===== verification/RunFacts.v ===== *)
(** * The account of an evaluation run

    What [execute_eval_run] leaves behind, whatever the judge answers: a completed run
    has one score for every metric of every trace it found, and counters that agree with
    them; a run that could not be completed says so.  The rest of the database is not touched ([aside]). *)
From stdpp Require Import base gmap strings list.
From Stdlib Require Import ZArith Lia Ascii ssreflect.
From S2P Require Import Prelude Constants Entities Float64 PyFloat Json JsonText Evals Telemetry Sql World TraceRepo Cadence LLM Metrics EvalRepo EvalService EvalTasks.

#[local] Open Scope Z_scope.

Import EvalRepository.

Definition runs_of (d : DB) : list EvalRun := eval_runs (evals_of d).
Definition scores_of (d : DB) : list TraceScore := trace_scores (evals_of d).

(** ** Jobs *)

Lemma on_world_preserves {A} (P : World -> Prop) (m : M World A) : preserves P m -> preserves (fun j : Job => P j.1) (on_world m).
Proof. intros H [w e] Hw. unfold on_world. cbn. specialize (H w Hw). by destruct (m w). Qed.
Lemma on_engine_preserves {A} (P : World -> Prop) (m : M LLMEngine.Engine A) : preserves (fun j : Job => P j.1) (on_engine m).
Proof. intros [w e] Hw. unfold on_engine. cbn. by destruct (m e). Qed.
Lemma attempt_preserves {W A} (P : W -> Prop) (m : M W A) : preserves P m -> preserves P (attempt m).
Proof. intros H w Hw. unfold attempt. specialize (H w Hw). by destruct (m w). Qed.

Lemma on_world_Ok_inv {A} (m : M World A) j a j' : on_world m j = (Ok a, j') -> m j.1 = (Ok a, j'.1) /\ j'.2 = j.2.
Proof. unfold on_world. destruct (m j.1) as [r w]. by intros [= -> <-]. Qed.
Lemma on_engine_Ok_inv {A} (m : M LLMEngine.Engine A) j a j' : on_engine m j = (Ok a, j') -> j'.1 = j.1.
Proof. unfold on_engine. destruct (m j.2) as [r e]. by intros [= -> <-]. Qed.

Section run.
Context (o : Outside) (litellm : LLMEngine.LiteLLM Prompt) (as_float : Json -> option float) (exn_text : exn -> string).
Context (run_id project : N) (r0 : EvalRun).

(** The scores of the run, and the whole database without them and without the run's row. *)
Definition run_scores (d : DB) : list TraceScore := select (of_run run_id project) (scores_of d).
Definition without_run (x : Evaluations) : Evaluations :=
  set_eval_runs (delete_where (with_run_id run_id) (eval_runs x)) (set_trace_scores (delete_where (of_run run_id project) (trace_scores x)) x).
Definition aside (d : DB) : DB := on_evals without_run d.
(** A run's progress changes its status, counters, error and completion time only. *)
Definition same_run (r : EvalRun) : Prop :=
  e_id r = run_id /\ e_project r = project /\ e_metrics r = e_metrics r0 /\ e_model r = e_model r0 /\ e_sampling r = e_sampling r0 /\
  set_progress (e_status r0) (e_evaluated r0) (e_failed r0) (e_error r0) (e_completed r0) r = r0.

(** ** What every step keeps *)

Context (d0 : DB).
Definition kept (d : DB) : Prop :=
  aside d = aside d0 /\ exists r, select (with_run_id run_id) (runs_of d) = [r] /\ same_run r.
Context (q0 : list Task) (t0 : Z).
Definition steady (w : World) : Prop := kept (db w) /\ kept (durable w) /\ queue w = q0 /\ now w = t0.

(** An update of the run that keeps its identity. *)
Definition progresses (f : EvalRun -> EvalRun) : Prop := forall r, same_run r -> same_run (f r).
Lemma update_run_row f d r : progresses f -> select (with_run_id run_id) (runs_of d) = [r] -> same_run r ->
  select (with_run_id run_id) (update_where (with_run_id run_id) f (runs_of d)) = [f r].
Proof.
  intros Hf Hr Hs. rw (select_update_where (with_run_id run_id) (with_run_id run_id) f).
  - intros x Hx Hi. assert (Hin : x ∈ select (with_run_id run_id) (runs_of d)) by by apply elem_of_select.
    rw Hr in Hin. apply list_elem_of_singleton in Hin as ->. unfold with_run_id in *.
    rw (proj1 (Hf r Hs)) (proj1 Hs). done.
  - rw Hr. unfold update_where. cbn. unfold with_run_id. rw (proj1 Hs). by rw bool_decide_eq_true_2.
Qed.
Lemma kept_traces d : kept d -> traces_of d = traces_of d0.
Proof. intros [H _]. exact (f_equal traces_of H). Qed.
Lemma delete_updated {R} (p : R -> bool) f (l : list R) : (forall r, r ∈ l -> p r = true -> p (f r) = true) ->
  delete_where p (update_where p f l) = delete_where p l.
Proof.
  induction l as [|r l IH]; intros H; [done|]. cbn. fold (update_where p f l) (delete_where p l) (delete_where p (update_where p f l)).
  assert (IH' : delete_where p (update_where p f l) = delete_where p l) by (apply IH; intros r' Hr'; apply H; by right).
  rewrite IH'. destruct (p r) eqn:E; [by rewrite (H r (list_elem_of_here _ _) E)|by rewrite E].
Qed.
Lemma kept_evals f d : without_run (f (evals_of d)) = without_run (evals_of d) -> aside (on_evals f d) = aside d.
Proof. intros H. transitivity (on_evals (fun x => without_run (f x)) d); [done|]. unfold aside, on_evals. by rewrite H. Qed.
(** The only row of the run. *)
Lemma run_row_same d r x : select (with_run_id run_id) (runs_of d) = [r] -> x ∈ runs_of d -> with_run_id run_id x = true -> x = r.
Proof. intros Hr Hx Hi. apply list_elem_of_singleton. rewrite <- Hr. by apply elem_of_select. Qed.
Lemma kept_update_run f d : progresses f -> kept d -> kept (on_evals (fun x => set_eval_runs (update_where (with_run_id run_id) f (eval_runs x)) x) d).
Proof.
  intros Hf (H1 & r & H4 & H5). split.
  - rewrite <- H1. apply kept_evals. unfold without_run, set_eval_runs, set_trace_scores. cbn [eval_runs eval_monitors trace_scores session_scores]. f_equal.
    apply delete_updated. intros x Hx Hi. rewrite (run_row_same d r x H4 Hx Hi). apply bool_decide_eq_true. apply (Hf r H5).
  - exists (f r). split; [|by apply Hf]. by apply (update_run_row f d r).
Qed.
Lemma kept_new_score s d : c_run s = Some run_id -> c_project s = project -> kept d -> kept (on_evals (set_trace_scores (scores_of d ++ [s])) d).
Proof.
  intros Hr Hp (H1 & H4). split; [|done]. rewrite <- H1. apply kept_evals.
  unfold without_run, set_eval_runs, set_trace_scores. cbn [eval_runs eval_monitors trace_scores session_scores]. f_equal.
  unfold delete_where. rw List.filter_app. cbn. unfold of_run, sql_eq. rw Hr Hp. rw !bool_decide_eq_true_2; [done..|]. by rw app_nil_r.
Qed.
Lemma kept_delete d : kept d -> kept (on_evals (set_trace_scores (delete_where (of_run run_id project) (scores_of d))) d).
Proof.
  intros (H1 & H4). split; [|done]. rewrite <- H1. apply kept_evals.
  unfold without_run, set_eval_runs, set_trace_scores. cbn [eval_runs eval_monitors trace_scores session_scores]. f_equal.
  change (trace_scores (evals_of d)) with (scores_of d). unfold delete_where. induction (scores_of d) as [|s l IH]; [done|]. cbn. destruct (of_run run_id project s) eqn:E; cbn; [done|]. by rw E IH.
Qed.

Lemma set_progress_progresses st ev fa er co : progresses (fun r => set_progress (st r) (ev r) (fa r) (er r) (co r) r).
Proof. done. Qed.
Lemma run_status_progresses st msg t : progresses (run_status st msg t).
Proof. intros r H. by destruct st. Qed.

(** *** The steps *)

Lemma steady_write f : (forall d, kept d -> kept (f d)) -> preserves steady (write_db f).
Proof. intros H w (H1 & H2 & H3 & H4). split; [by apply H|done]. Qed.
Lemma steady_commit : preserves steady commit.
Proof. intros w (H1 & H2 & H3 & H4). by split. Qed.
Lemma steady_rollback : preserves steady rollback.
Proof. intros w (H1 & H2 & H3 & H4). by split. Qed.
Lemma steady_uuid4 : preserves steady uuid4.
Proof. intros w H. exact H. Qed.
Lemma steady_update_run f : progresses f -> preserves steady (update_run run_id f).
Proof. intros Hf. apply steady_write. intros d. by apply kept_update_run. Qed.
Lemma steady_delete_scores : preserves steady (delete_scores_for_run run_id project).
Proof.
  unfold delete_scores_for_run, delete_scores_where. respects_auto. apply steady_write. apply kept_delete.
Qed.
Lemma steady_create_score s : c_run s = Some run_id -> c_project s = project -> preserves steady (create_score s).
Proof.
  intros Hr Hp. unfold create_score, create_score_in. respects_auto. intros w Hw. unfold insert_row.
  destruct (existsb _ _); [done|]. destruct Hw as (H1 & H2 & H3). split; [|done]. by apply kept_new_score.
Qed.
Lemma steady_update_status st msg : preserves steady (update_run_status run_id st msg).
Proof. unfold update_run_status. respects_auto. apply steady_update_run, run_status_progresses. Qed.
Lemma steady_increment_progress n : preserves steady (increment_progress run_id n).
Proof. apply steady_update_run. done. Qed.
Lemma steady_increment_failed n : preserves steady (increment_failed run_id n).
Proof. apply steady_update_run. done. Qed.
Lemma steady_reset : preserves steady (reset_run_counters run_id).
Proof. apply steady_update_run. done. Qed.
Lemma steady_get_trace tid : preserves steady (TraceRepository.get_trace tid project).
Proof. unfold TraceRepository.get_trace, read_res, read_db. respects_auto. Qed.
Lemma steady_get_run : preserves steady (EvalRepository.get_eval_run run_id project).
Proof. unfold EvalRepository.get_eval_run, read_db. respects_auto. Qed.
Hint Resolve steady_commit steady_rollback steady_uuid4 steady_delete_scores steady_update_status steady_increment_progress
  steady_increment_failed steady_reset steady_get_trace steady_get_run : effects.

(** [preserves] of a job that acts on the world alone. *)
Abbreviation job_steady := (preserves (fun j : Job => steady j.1)).
Lemma job_world {A} (m : M World A) : preserves steady m -> job_steady (on_world m).
Proof. apply on_world_preserves. Qed.
Lemma job_engine {A} (m : M LLMEngine.Engine A) : job_steady (on_engine m).
Proof. apply on_engine_preserves. Qed.
Hint Resolve job_world job_engine attempt_preserves : effects.

(** ** The scores a worker writes *)

(** A score of this run on a trace: a valid value, or none when the metric failed. *)
Definition scored (tid : N) (name : string) (s : TraceScore) : Prop :=
  c_run s = Some run_id /\ c_project s = project /\ c_target s = tid /\ c_name s = name /\
  ((c_status s = SUCCESS /\ exists v, c_value s = Some v /\ validate_score_value v NUMERIC = Ok tt) \/
   (c_status s = FAILED_SCORE /\ c_value s = None)).
Definition succeeded_score (s : TraceScore) : Prop := c_status s = SUCCESS.

Lemma success_score_spec tid name env t res j s j' :
  success_score tid project name run_id env t res j = (Ok s, j') -> scored tid name s /\ c_status s = SUCCESS.
Proof.
  unfold success_score. intros H. destruct_bind H i j1 E. unfold lift in H. injection H as H _.
  unfold Score_validate in H. cbn [c_value c_type automated_score] in H.
  destruct (validate_score_value _ NUMERIC) as [[]|e] eqn:Ev; [|done]. injection H as <-. split; [|done].
  repeat (split; [done|]). left. split; [done|]. eexists. split; [reflexivity|exact Ev].
Qed.
Lemma failed_score_spec tid name env t what e j s j' :
  failed_score exn_text tid project name run_id env t what e j = (Ok s, j') -> scored tid name s /\ c_status s = FAILED_SCORE.
Proof.
  unfold failed_score. intros H. destruct_bind H i j1 E. unfold lift, Score_validate in H. cbn in H. injection H as <- _.
  split; [|done]. repeat (split; [done|]). by right.
Qed.
Lemma attempt_spec {W A} (m : M W A) (P : A -> Prop) w r w' :
  (forall w a w', m w = (Ok a, w') -> P a) -> attempt m w = (Ok r, w') -> match r with Ok a => P a | Err _ => True end.
Proof. unfold attempt. intros H. destruct (m w) as [[a|e] w1] eqn:E; intros [= <- _]; [by apply (H w a w1)|done]. Qed.

Lemma steady_success_score (tid : N) name env t res : job_steady (success_score tid project name run_id env t res).
Proof. unfold success_score. respects_auto. Qed.
Lemma steady_failed_score (tid : N) name env t what e : job_steady (failed_score exn_text tid project name run_id env t what e).
Proof. unfold failed_score. respects_auto. Qed.
Hint Resolve steady_success_score steady_failed_score : effects.

(** One metric, with its outcome. *)
Definition metric_outcome (run : EvalRun) (t : Trace) (name : string) (at_ : Z) : M Job (res TraceScore) :=
  attempt (result ← evaluate_metric o litellm as_float name t (e_model run) [];
           success_score (tr_id t) project name (e_id run) (tr_environment t) at_ result).
Lemma metric_outcome_spec run t name at_ j r j' : e_id run = run_id -> metric_outcome run t name at_ j = (Ok r, j') ->
  match r with Ok s => scored (tr_id t) name s /\ c_status s = SUCCESS | Err _ => True end.
Proof.
  intros Hid. apply attempt_spec. clear j r j'. intros j s j' H. destruct_bind H mr j1 E. rewrite Hid in H. by apply success_score_spec in H.
Qed.
Lemma steady_metric_outcome run t name at_ : e_id run = run_id -> job_steady (metric_outcome run t name at_).
Proof. intros Hid. unfold metric_outcome, evaluate_metric. rewrite Hid. apply attempt_preserves. respects_auto. Qed.

Lemma steady_run_metric run t name : e_id run = run_id -> job_steady (run_metric o litellm as_float exn_text run project t name).
Proof.
  intros Hid. unfold run_metric. respects_step; [respects_auto|]. respects_step; [apply job_world; unfold utcnow; respects_auto|].
  fold (metric_outcome run t name a0).
  apply (respects_bind_fact _ (fun r => match r with Ok s => scored (tr_id t) name s /\ c_status s = SUCCESS | Err _ => True end)).
  - by apply steady_metric_outcome.
  - intros j r j'. by apply metric_outcome_spec.
  - intros [s|e] Hs.
    + apply job_world. destruct Hs as ((Hr & Hp & _) & _). respects_step; [|respects_auto].
      respects_step; [by apply steady_create_score|respects_auto].
    + rewrite Hid. apply (respects_bind_fact _ (fun s => scored (tr_id t) name s /\ c_status s = FAILED_SCORE)).
      * apply steady_failed_score.
      * intros j s j'. apply failed_score_spec.
      * intros s ((Hr & Hp & _) & _). apply job_world. respects_step; [by apply steady_create_score|apply steady_increment_failed].
Qed.
Lemma steady_progress : job_steady (progress run_id).
Proof. unfold progress. apply job_world. respects_auto. Qed.
Lemma steady_run_trace run metric_map tid : e_id run = run_id -> job_steady (run_trace o litellm as_float exn_text run project metric_map tid).
Proof.
  intros Hid. unfold run_trace. rewrite Hid. respects_step; [apply job_world, steady_get_trace|]. respects_step; [|apply steady_progress].
  destruct a as [t|]; [|respects_auto]. apply respects_for_each; [typeclasses eauto|]. intros name. by apply steady_run_metric.
Qed.

(** ** The account *)

(** The run is running: it has the scores of [pairs], and has counted [n] targets and its failures. *)
Definition pair_of (s : TraceScore) : N * string := (c_target s, c_name s).
Definition failures (l : list TraceScore) : Z := count_where failed l.
Definition account (st : EvaluationStatus) (pairs : list (N * string)) (n : Z) (d : DB) : Prop :=
  List.map pair_of (run_scores d) = pairs /\ Forall (fun s => scored (c_target s) (c_name s) s) (run_scores d) /\
  exists r, select (with_run_id run_id) (runs_of d) = [r] /\ same_run r /\ e_status r = st /\ e_evaluated r = n /\
            e_failed r = failures (run_scores d).

(** The scores that a trace should have. *)
Definition found (tid : N) : bool := existsb (TraceRepository.owned_trace tid project) (traces_of d0).
Definition expected (metric_map : option (list (N * list string))) (tid : N) : list (N * string) :=
  if found tid then List.map (pair tid) (metrics_for r0 metric_map tid) else [].

Lemma failures_app l l' : failures (l ++ l') = failures l + failures l'.
Proof. unfold failures, count_where. rw List.filter_app length_app. lia. Qed.

Lemma create_score_Ok s w x w' : create_score s w = (Ok x, w') ->
  db w' = on_evals (set_trace_scores (scores_of (db w) ++ [s])) (db w) /\ durable w' = durable w.
Proof.
  unfold create_score, create_score_in. intros H. destruct_bind H d w1 E1. injection E1 as <- <-.
  destruct_bind H u w1 E1. destruct_bind H u2 w2 E2. destruct_bind H u3 w3 E3. injection H as <- <-.
  unfold guard_not in E1, E2. destruct (negb _) in E1; [done|]. injection E1 as <- <-. destruct (negb _) in E2; [done|]. injection E2 as <- <-.
  unfold insert_row in E3. destruct (existsb _ _); [done|]. by injection E3 as <- <-.
Qed.
Lemma run_scores_new s d : c_run s = Some run_id -> c_project s = project ->
  run_scores (on_evals (set_trace_scores (scores_of d ++ [s])) d) = run_scores d ++ [s].
Proof.
  intros Hr Hp. unfold run_scores. change (scores_of (on_evals _ d)) with (scores_of d ++ [s]). rw select_app. f_equal.
  cbn. unfold of_run, sql_eq. rw Hr Hp. by rw !bool_decide_eq_true_2.
Qed.

(** A new score, and the failure it counts. *)
Lemma account_success st pairs n tid name s w x w' : scored tid name s -> c_status s = SUCCESS -> create_score s w = (Ok x, w') ->
  account st pairs n (db w) -> account st (pairs ++ [(tid, name)]) n (db w').
Proof.
  intros Hs Hok H (H1 & H2 & r & H3 & H4 & H5 & H6 & H7). apply create_score_Ok in H as [-> _].
  destruct Hs as (Hr & Hp & Ht & Hn & Hv). unfold account. rw (run_scores_new s (db w) Hr Hp). split.
  { rw List.map_app H1. cbn. unfold pair_of. by rw Ht Hn. }
  split.
  { apply Forall_app. split; [done|]. apply Forall_singleton. by rw Ht Hn. }
  exists r. split; [exact H3|]. split; [done|]. split; [done|]. split; [done|]. rw H7 failures_app.
  assert (Hc : failures [s] = 0) by (unfold failures, count_where, failed; cbn; by rw Hok). lia.
Qed.
Lemma account_failed st pairs n tid name s w w' : scored tid name s -> c_status s = FAILED_SCORE ->
  (create_score s ;; increment_failed run_id 1) w = (Ok tt, w') ->
  account st pairs n (db w) -> account st (pairs ++ [(tid, name)]) n (db w').
Proof.
  intros Hs Hf H (H1 & H2 & r & H3 & H4 & H5 & H6 & H7). destruct_bind H x w1 E. apply create_score_Ok in E as [E _].
  injection H as <-. destruct Hs as (Hr & Hp & Ht & Hn & Hv). unfold account. cbn [db set_db].
  change (run_scores (on_evals _ (db w1))) with (run_scores (db w1)). rw E (run_scores_new s (db w) Hr Hp). split.
  { rw List.map_app H1. cbn. unfold pair_of. by rw Ht Hn. }
  split.
  { apply Forall_app. split; [done|]. apply Forall_singleton. by rw Ht Hn. }
  eexists. split; [apply (update_run_row _ (db w) r); [|exact H3|done]; done|]. split; [done|]. split; [done|]. split; [done|].
  cbn. rw H7 failures_app.
  assert (Hc : failures [s] = 1) by (unfold failures, count_where, failed; cbn; by rw Hf). lia.
Qed.

(** Steps that do not touch the database. *)
Definition same_db (j j' : Job) : Prop := db j'.1 = db j.1.
#[local] Instance same_db_preorder : PreOrder same_db.
Proof. split; [done|]. intros x y z H1 H2. unfold same_db in *. congruence. Qed.
Lemma same_db_outcome run t name at_ : respects same_db (metric_outcome run t name at_).
Proof.
  intros j. unfold metric_outcome, attempt. set (m := (_ ← _; _)).
  assert (H : respects same_db m).
  { unfold m, evaluate_metric, success_score. respects_step; [intros [w e]; unfold on_engine; cbn; by destruct (TraceMetrics.evaluate _ _ _ _ _ _ _ e)|].
    respects_step; [by intros [w e]|respects_auto]. }
  specialize (H j). by destruct (m j).
Qed.

Lemma store_score_Ok_inv {A} (insert : M World A) j j' : store_score insert j = (Ok tt, j') -> exists x, insert j.1 = (Ok x, j'.1).
Proof.
  intros H. apply on_world_Ok_inv in H as [H _]. unfold try_except in H.
  destruct ((insert ;; mret tt) j.1) as [[u|e] w1] eqn:E; [|done]. injection H as _ <-.
  destruct_bind E x w2 E'. injection E as _ <-. by exists x.
Qed.
Lemma run_metric_account st pairs n run t name j j' : e_id run = run_id ->
  run_metric o litellm as_float exn_text run project t name j = (Ok tt, j') ->
  account st pairs n (db j.1) -> account st (pairs ++ [(tr_id t, name)]) n (db j'.1).
Proof.
  intros Hid H Ha. unfold run_metric in H. destruct_bind H c j1 E1. apply (f_equal snd) in E1. cbn in E1. subst j1.
  destruct_bind H at_ j1 E1. apply on_world_Ok_inv in E1 as [E1 _]. injection E1 as _ E1.
  destruct_bind H r j2 E2. change (metric_outcome run t name at_ j1 = (Ok r, j2)) in E2.
  pose proof (metric_outcome_spec run t name at_ j1 r j2 Hid E2) as Hr. pose proof (same_db_outcome run t name at_ j1) as Hdb.
  rewrite E2 in Hdb. unfold same_db in Hdb. cbn [snd] in Hdb.
  assert (Ha2 : account st pairs n (db j2.1)) by (rewrite Hdb -E1; exact Ha).
  destruct r as [s|e].
  - apply store_score_Ok_inv in H as [x H]. destruct Hr as [Hs Hok]. by apply (account_success st pairs n (tr_id t) name s j2.1 x j'.1).
  - destruct_bind H s j3 E3. rewrite Hid in E3, H. pose proof E3 as E3'. apply failed_score_spec in E3 as [Hs Hf].
    apply on_world_Ok_inv in H as [H _]. apply (account_failed st pairs n (tr_id t) name s j3.1); [done..|].
    unfold failed_score in E3'. destruct_bind E3' i j4 E4. injection E3' as _ E3'. apply on_world_Ok_inv in E4 as [E4 _].
    injection E4 as _ E4. rewrite <- E3', <- E4. exact Ha2.
Qed.

Lemma to_trace_id row spans t : TraceRepository._to_trace row spans = Ok t -> tr_id t = t_id row.
Proof.
  unfold TraceRepository._to_trace. destruct (res_all _) as [ss|e]; [|done]. cbn. unfold Trace_validate.
  destruct (_ && _); [|done]. by intros [= <-].
Qed.
Lemma get_trace_Ok tid w x w' : TraceRepository.get_trace tid project w = (Ok x, w') -> w' = w /\
  match x with
  | None => existsb (TraceRepository.owned_trace tid project) (traces_of (db w)) = false
  | Some t => existsb (TraceRepository.owned_trace tid project) (traces_of (db w)) = true /\ tr_id t = tid
  end.
Proof.
  unfold TraceRepository.get_trace. intros H. destruct_bind H rows w1 E. injection E as <- <-.
  destruct_bind H row w1 E. injection E as E <-. apply scalar_one_or_none_Ok in E as [[E ->]|(r & E & ->)].
  - injection H as <- <-. split; [done|]. destruct (existsb _ _) eqn:Ex; [|done].
    apply List.existsb_exists in Ex as (y & Hy & Ho). assert (Hin : y ∈ select (TraceRepository.owned_trace tid project) (traces_of (db w))).
    { apply elem_of_select. split; [by apply list_elem_of_In|done]. }
    rewrite E in Hin. by apply elem_of_nil in Hin.
  - destruct_bind H t w1 E1. injection H as <- <-. unfold read_res in E1. destruct_bind E1 q w2 E2. injection E2 as <- <-.
    injection E1 as Et <-. split; [done|]. assert (Hin : r ∈ select (TraceRepository.owned_trace tid project) (traces_of (db w))) by (rewrite E; by left).
    apply elem_of_select in Hin as [Hin Ho]. split.
    + apply List.existsb_exists. exists r. split; [by apply list_elem_of_In|done].
    + rewrite (to_trace_id r _ t Et). unfold TraceRepository.owned_trace in Ho. apply andb_prop in Ho as [Ho _]. by apply bool_decide_eq_true in Ho.
Qed.

Lemma metrics_account st pairs n run t names j j' : e_id run = run_id ->
  for_each names (run_metric o litellm as_float exn_text run project t) j = (Ok tt, j') ->
  account st pairs n (db j.1) -> account st (pairs ++ List.map (pair (tr_id t)) names) n (db j'.1).
Proof.
  intros Hid. revert pairs j. induction names as [|name names IH]; intros pairs j H Ha; cbn in H.
  - injection H as <-. by rw app_nil_r.
  - destruct_bind H u j1 E. destruct u. apply (run_metric_account st pairs n) in E; [|done|done].
    specialize (IH _ j1 H E). rewrite <- app_assoc in IH. exact IH.
Qed.
Lemma account_progress pairs n j j' : progress run_id j = (Ok tt, j') -> account ERUNNING pairs n (db j.1) ->
  account ERUNNING pairs (n + 1) (db j'.1) /\ durable j'.1 = db j'.1.
Proof.
  unfold progress. intros [H _]%on_world_Ok_inv (H1 & H2 & r & H3 & H4 & H5 & H6 & H7). destruct_bind H u w1 E. apply (f_equal snd) in E. cbn [snd] in E. subst w1.
  injection H as H. rewrite <- H. split; [|done]. split; [exact H1|]. split; [exact H2|].
  eexists. split; [apply (update_run_row _ (db j.1) r); [done|exact H3|done]|]. split; [done|]. split; [done|]. split; [cbn; lia|done].
Qed.

Definition metrics_same (run : EvalRun) : Prop := e_id run = run_id /\ e_metrics run = e_metrics r0.
Lemma run_trace_account pairs n run metric_map tid j j' : metrics_same run -> kept (db j.1) ->
  run_trace o litellm as_float exn_text run project metric_map tid j = (Ok tt, j') ->
  account ERUNNING pairs n (db j.1) ->
  account ERUNNING (pairs ++ expected metric_map tid) (n + 1) (db j'.1) /\ durable j'.1 = db j'.1.
Proof.
  intros [Hid Hm] Ht%kept_traces H Ha. unfold run_trace in H. destruct_bind H x j1 E. apply on_world_Ok_inv in E as [E _].
  apply get_trace_Ok in E as [E Hx]. rewrite Ht in Hx. destruct_bind H u j2 E2. destruct u. rewrite Hid in H.
  apply (account_progress (pairs ++ expected metric_map tid) n j2 j' H). unfold expected, found. rewrite <- E in Ha. destruct x as [t|].
  - destruct Hx as [Hx <-]. rewrite Hx. assert (Hmm : metrics_for r0 metric_map (tr_id t) = metrics_for run metric_map (tr_id t)) by (unfold metrics_for; by rw Hm).
    rewrite Hmm. by apply (metrics_account ERUNNING pairs n run t _ j1 j2).
  - rewrite Hx app_nil_r. by injection E2 as <-.
Qed.
Lemma run_traces_account run metric_map tids : metrics_same run -> forall pairs n j j',
  steady j.1 -> for_each tids (run_trace o litellm as_float exn_text run project metric_map) j = (Ok tt, j') ->
  account ERUNNING pairs n (db j.1) ->
  account ERUNNING (pairs ++ flat_map (expected metric_map) tids) (n + Z.of_nat (length tids)) (db j'.1).
Proof.
  intros Hrun. induction tids as [|tid tids IH]; intros pairs n j j' Hj H Ha; cbn in H.
  - injection H as <-. cbn. by rw app_nil_r Z.add_0_r.
  - destruct_bind H u j1 E. destruct u. pose proof (steady_run_trace run metric_map tid (proj1 Hrun) j Hj) as Hj1. rewrite E in Hj1.
    apply (run_trace_account pairs n) in E as [E _]; [|done|by apply Hj|done].
    specialize (IH _ _ j1 j' Hj1 H E). cbn [flat_map length]. rewrite app_assoc Nat2Z.inj_succ.
    replace (n + Z.succ (Z.of_nat (length tids))) with (n + 1 + Z.of_nat (length tids)) by lia. exact IH.
Qed.

(** ** The whole run *)

Definition setup : M World unit :=
  _ ← delete_scores_for_run run_id project; reset_run_counters run_id ;; update_run_status run_id ERUNNING None ;; commit.
Lemma steady_setup : preserves steady setup.
Proof. unfold setup. respects_auto. Qed.

(** The updates of the run's row, one after the other. *)
Lemma update_run_twice f g d r : progresses f -> progresses g -> select (with_run_id run_id) (runs_of d) = [r] -> same_run r ->
  select (with_run_id run_id) (update_where (with_run_id run_id) g (update_where (with_run_id run_id) f (runs_of d))) = [g (f r)].
Proof.
  intros Hf Hg Hr Hs. set (d1 := on_evals (set_eval_runs (update_where (with_run_id run_id) f (runs_of d))) d).
  apply (update_run_row g d1 (f r)); [done| |by apply Hf]. by apply (update_run_row f d r).
Qed.
Lemma setup_account w : kept (db w) -> exists w', setup w = (Ok tt, w') /\ account ERUNNING [] 0 (db w').
Proof.
  intros (_ & r & Hr & Hs). eexists. split; [reflexivity|].
  assert (Hnone : run_scores (on_evals (set_trace_scores (delete_where (of_run run_id project) (scores_of (db w)))) (db w)) = []).
  { apply select_none. intros s [_ Hf]%elem_of_delete_where. exact Hf. }
  unfold account. split; [exact (f_equal (List.map pair_of) Hnone)|]. split; [by apply (eq_ind_r (Forall _) (Forall_nil_2 _) Hnone)|].
  eexists. split; [apply (update_run_twice _ _ (db w) r); [| |exact Hr|exact Hs]; done|]. split; [done|]. split; [done|]. split; [done|].
  symmetry. exact (f_equal failures Hnone).
Qed.

Lemma get_run_Ok w x w' : EvalRepository.get_eval_run run_id project w = (Ok x, w') -> kept (db w) ->
  w' = w /\ match x with Some run => metrics_same run | None => True end.
Proof.
  unfold EvalRepository.get_eval_run. intros H (_ & r & Hr & Hs). destruct_bind H rows w1 E. injection E as <- <-.
  destruct_bind H row w1 E. injection E as E <-. apply scalar_one_or_none_Ok in E as [[E ->]|(r' & E & ->)].
  - by injection H as <- <-.
  - injection H as H <-. split; [done|]. assert (Hin : r' ∈ select (own_run run_id project) (runs_of (db w))) by (rewrite E; by left).
    apply elem_of_select in Hin as [Hin Ho]. unfold own_run in Ho. apply andb_prop in Ho as [Ho _].
    assert (Hin' : r' ∈ select (with_run_id run_id) (runs_of (db w))) by by apply elem_of_select.
    rewrite Hr in Hin'. apply list_elem_of_singleton in Hin' as ->.
    unfold _to_eval_run, EvalRun_validate in H. destruct (in_unit (e_sampling r)); [|done]. injection H as <-.
    destruct Hs as (H1 & _ & H2 & _). by split.
Qed.

Definition body (trace_ids : list N) (metric_map : option (list (N * list string))) : M Job unit :=
  on_world setup ;;
  found ← on_world (EvalRepository.get_eval_run run_id project);
  match found with
  | None => raise (ValueError "Eval run not found")
  | Some run =>
      for_each trace_ids (run_trace o litellm as_float exn_text run project metric_map) ;;
      on_world (update_run_status run_id ECOMPLETED None ;; commit)
  end.

(** The row of a finished run. *)
Definition finished (st : EvaluationStatus) (error : option string) (d : DB) : Prop :=
  exists r, select (with_run_id run_id) (runs_of d) = [r] /\ same_run r /\ e_status r = st /\ e_error r = error /\ e_completed r = Some t0.

Lemma body_Ok trace_ids metric_map j j' : steady j.1 -> body trace_ids metric_map j = (Ok tt, j') ->
  account ECOMPLETED (flat_map (expected metric_map) trace_ids) (Z.of_nat (length trace_ids)) (durable j'.1) /\
  finished ECOMPLETED None (durable j'.1).
Proof.
  intros Hj H. unfold body in H. destruct_bind H u j1 E. destruct u. apply on_world_Ok_inv in E as [E _].
  pose proof (steady_setup j.1 Hj) as Hj1. destruct (setup_account j.1 (proj1 Hj)) as (w1 & E1 & Ha). rewrite E1 in E. injection E as ->.
  rewrite E1 in Hj1. cbn [snd] in Hj1. destruct_bind H x j2 E. apply on_world_Ok_inv in E as [E _].
  apply get_run_Ok in E as [E Hx]; [|by apply Hj1]. destruct x as [run|]; [|done].
  destruct_bind H u j3 E3. destruct u. rewrite <- E in Hj1, Ha.
  pose proof (run_traces_account run metric_map trace_ids Hx [] 0 j2 j3 Hj1 E3 Ha) as Ha3. rewrite Z.add_0_l in Ha3.
  assert (Hj3 : steady j3.1).
  { assert (Hp : preserves (fun j : Job => steady j.1) (for_each trace_ids (run_trace o litellm as_float exn_text run project metric_map))).
    { apply respects_for_each; [typeclasses eauto|]. intros tid. by apply steady_run_trace, Hx. }
    specialize (Hp j2 Hj1). by rewrite E3 in Hp. }
  apply on_world_Ok_inv in H as [H _]. apply (f_equal snd) in H. cbn [snd] in H. rewrite <- H. cbn [durable set_durable].
  destruct Ha3 as (H1 & H2 & r & H3 & H4 & H5 & H6 & H7). destruct Hj3 as (_ & _ & _ & Ht).
  assert (Hrow := update_run_row (run_status ECOMPLETED None (now j3.1)) (db j3.1) r (run_status_progresses _ _ _) H3 H4).
  split.
  - split; [exact H1|]. split; [exact H2|]. eexists. split; [exact Hrow|]. split; [done|]. split; [done|]. split; [done|]. exact H7.
  - eexists. split; [exact Hrow|]. split; [done|]. split; [done|]. split; [done|]. cbn. by rw Ht.
Qed.
Lemma steady_body trace_ids metric_map : preserves (fun j : Job => steady j.1) (body trace_ids metric_map).
Proof.
  intros j Hj. unfold body. set (k := fun x : option EvalRun => match x with None => _ | Some run => _ end).
  pose proof (steady_setup j.1 Hj) as Hj1. destruct (setup_account j.1 (proj1 Hj)) as (w1 & E1 & _). rewrite E1 in Hj1. cbn [snd] in Hj1.
  rewrite (bind_Ok _ _ j tt (w1, j.2)); [by unfold on_world; rewrite E1|].
  unfold mbind, M_bind, on_world. cbn [fst snd].
  destruct (EvalRepository.get_eval_run run_id project w1) as [[x|e] w2] eqn:E2.
  - pose proof (get_run_Ok w1 x w2 E2 (proj1 Hj1)) as [-> Hx]. destruct x as [run|]; [|done].
    assert (Hp : preserves (fun j : Job => steady j.1) (k (Some run))).
    { unfold k. respects_step; [|apply job_world; respects_auto]. apply respects_for_each; [typeclasses eauto|].
      intros tid. by apply steady_run_trace, Hx. }
    by apply Hp.
  - cbn. pose proof (steady_get_run w1 Hj1) as Hg. by rewrite E2 in Hg.
Qed.

Lemma fail_run msg w : steady w -> exists w', _fail_eval_run run_id msg w = (Ok tt, w') /\
  steady w' /\ finished EFAILED (Some msg) (durable w').
Proof.
  intros (_ & Hd & Hq & Ht). pose proof Hd as (_ & r & Hr & Hs).
  assert (Hrow := update_run_row (run_status EFAILED (Some msg) (now w)) (durable w) r (run_status_progresses _ _ _) Hr Hs).
  pose proof (kept_update_run (run_status EFAILED (Some msg) (now w)) (durable w) (run_status_progresses _ _ _) Hd) as Hk.
  eexists. split; [reflexivity|]. split; [by split|]. eexists. split; [exact Hrow|]. split; [done|]. split; [done|]. split; [done|]. cbn. by rw Ht.
Qed.
End run.

(** C11: An evaluation run is accounted for.  Whatever the judge answers, one delivery of [execute_eval_run]
    ends in one of two ways.  Either the run is COMPLETED: for every trace of the message that the
    project has, and every metric asked of it, there is exactly one score of the run, in order: a valid number,
    or a failure without value; the evaluated counter is the number of traces, found or not, and the failed
    counter the number of failures; nothing is queued.  Or it is FAILED with the text of the exception,
    and the message is queued again until the retries are used up.  In both cases nothing else in the database
    changes: the traces and spans, the other scores, the other runs, the monitors, the session scores and every
    other table are as they were, and the run itself keeps all but its status, counters, error and completion time. *)
Theorem eval_run_accounted (o : Outside) (litellm : LLMEngine.LiteLLM Prompt) (as_float : Json -> option float) (exn_text : exn -> string)
  (run_id project : N) (r0 : EvalRun) (trace_ids : list N) (metric_map : option (list (N * list string))) (retries : nat) (w : World)
  (Hrow : select (with_run_id run_id) (runs_of (durable w)) = [r0]) (Hproject : e_project r0 = project) :
  exists outcome w', execute_eval_run o litellm as_float exn_text run_id project trace_ids metric_map retries w = (outcome, w') /\
    aside run_id project (durable w') = aside run_id project (durable w) /\
    ((outcome = Ok tt /\ queue w' = queue w /\ finished run_id project r0 (now w) ECOMPLETED None (durable w') /\
      account run_id project r0 ECOMPLETED (flat_map (expected project r0 (durable w) metric_map) trace_ids)
        (Z.of_nat (length trace_ids)) (durable w')) \/
     exists e, finished run_id project r0 (now w) EFAILED (Some (exn_text e)) (durable w') /\
      if (retries <? EVAL_MAX_RETRIES)%nat
      then outcome = Ok tt /\ queue w' = queue w ++ [TExecuteEvalRun run_id project trace_ids metric_map (S retries)]
      else outcome = Err e /\ queue w' = queue w).
Proof.
  assert (Hid : e_id r0 = run_id).
  { assert (Hin : r0 ∈ select (with_run_id run_id) (runs_of (durable w))) by (rewrite Hrow; by left).
    apply elem_of_select in Hin as [_ H]. by apply bool_decide_eq_true in H. }
  assert (Hk : kept run_id project r0 (durable w) (durable w)).
  { split; [done|]. exists r0. split; [done|]. repeat (split; [done|]). by destruct r0. }
  set (w0 := set_db (durable w) w). assert (Hw0 : steady run_id project r0 (durable w) (queue w) (now w) w0) by done.
  set (b := body o litellm as_float exn_text run_id project trace_ids metric_map).
  pose proof (steady_body o litellm as_float exn_text run_id project r0 (durable w) (queue w) (now w) trace_ids metric_map (w0, LLMEngine.new_engine) Hw0) as Hb.
  fold b in Hb. destruct (b (w0, LLMEngine.new_engine)) as [r j1] eqn:Eb. cbn [snd] in Hb.
  set (w1 := set_db (durable j1.1) j1.1).
  assert (Hs1 : steady run_id project r0 (durable w) (queue w) (now w) w1).
  { destruct Hb as (H1 & H2 & H3 & H4). by split. }
  assert (Hrun : start (_run_eval_run o litellm as_float exn_text run_id project trace_ids metric_map) w = (r, w1)).
  { change (_run_eval_run o litellm as_float exn_text run_id project trace_ids metric_map) with (job_session b).
    unfold start, job_session. rewrite (bind_Ok _ _ (w, LLMEngine.new_engine) tt (w0, LLMEngine.new_engine)); [done|].
    unfold try_finally. rewrite Eb. by destruct r. }
  unfold execute_eval_run, try_except. rewrite Hrun. destruct r as [[]|e].
  - exists (Ok tt), w1. split; [done|]. split; [by apply Hs1|]. left. split; [done|]. split; [by apply Hs1|].
    destruct (body_Ok o litellm as_float exn_text run_id project r0 (durable w) (queue w) (now w) trace_ids metric_map
                (w0, LLMEngine.new_engine) j1 Hw0 Eb) as [Ha Hf]. by split.
  - destruct (fail_run run_id project r0 (durable w) (queue w) (now w) (exn_text e) w1 Hs1) as (w2 & E2 & Hs2 & Hf).
    destruct Hs2 as (_ & (Ho & _) & Hq & _). rewrite (bind_Ok _ _ w1 tt w2 E2). unfold retry_task.
    destruct (retries <? EVAL_MAX_RETRIES)%nat.
    + exists (Ok tt), (set_queue (queue w2 ++ [TExecuteEvalRun run_id project trace_ids metric_map (S retries)]) w2).
      split; [done|]. split; [done|]. right. exists e. split; [done|]. split; [done|]. cbn. by rw Hq.
    + exists (Err e), w2. split; [done|]. split; [done|]. right. exists e. by split.
Qed.

(** ** Witness

    A run of two metrics over a trace and an identifier the project does not have; the judge only ever answers
    with a confidence, so the other metric fails. *)

Definition confident_judge : LLMEngine.LiteLLM Prompt :=
  {| LLMEngine.acompletion := fun _ _ _ _ _ => Ok (Some (text (List.map (fun c => if bool_decide (c = "'"%char) then quote else c)
                                                    (chars "{'confidence': 0.75}"))));
     LLMEngine.aembedding := fun _ _ _ => Err StripeFailure |}.
Definition read_float (v : Json) : option float := match v with JFloat x => Some x | JInt n => Some (of_Z n) | _ => None end.
Definition plain_trace : TraceRow :=
  {| t_id := 31; t_project := 20; t_name := "chat"; t_status := TCOMPLETED; t_input := None; t_output := None; t_metadata := ∅;
     t_started := 5; t_ended := None; t_session := None; t_user := None; t_tags := []; t_environment := None; t_release := None;
     t_created := 5 |}.
Definition plain_run : EvalRun :=
  EvalService.new_run 41 20 None TRACE_TARGET ["confidence"; "task_completion"]%string ∅ (of_Z 1) (Some "openai/gpt-4o"%string) None 2 7.
Definition run_project : Project := {| p_id := 20; p_org := 7; p_name := "main"; p_description := ""; p_created := 0 |}.
Definition run_world : World :=
  world_of (set_projects [run_project] (set_telemetry
    {| trace_rows := [plain_trace]; span_rows := []; evals := set_eval_runs [plain_run] empty_evaluations |} pro_db)) (days 20) [].

Lemma eval_run_accounted_witness : exists w',
  execute_eval_run toy_outside confident_judge read_float (fun _ => "error"%string) 41 20 [31; 32]%N None 0 run_world = (Ok tt, w') /\
  queue w' = [] /\ List.map pair_of (run_scores 41 20 (durable w')) = [(31%N, "confidence"); (31%N, "task_completion")]%string /\
  List.map c_value (run_scores 41 20 (durable w')) = [Some "0.75"; None]%string /\
  exists r, select (with_run_id 41) (runs_of (durable w')) = [r] /\ e_status r = ECOMPLETED /\ e_evaluated r = 2 /\ e_failed r = 1.
Proof.
  destruct (eval_run_accounted toy_outside confident_judge read_float (fun _ => "error"%string) 41 20 plain_run [31; 32]%N None 0 run_world
              eq_refl eq_refl) as (outcome & w' & E & _ & H).
  set (result := execute_eval_run _ _ _ _ _ _ _ _ _ _) in E.
  assert (Hq : queue result.2 = []) by (vm_compute; reflexivity).
  assert (Hv : List.map c_value (run_scores 41 20 (durable result.2)) = [Some "0.75"; None]%string) by (vm_compute; reflexivity).
  rewrite E in Hq, Hv. cbn [snd] in Hq, Hv.
  destruct H as [(-> & _ & _ & H1 & _ & r & H3 & _ & H5 & H6 & H7)|(e & _ & H)].
  - exists w'. split; [exact E|]. split; [done|]. split; [exact H1|]. split; [done|].
    exists r. split; [done|]. split; [done|]. split; [exact H6|]. rewrite H7.
    assert (Hf : failures (run_scores 41 20 (durable result.2)) = 1) by (vm_compute; reflexivity). by rewrite E in Hf.
  - cbn in H. destruct H as [_ H]. by rewrite Hq in H.
Defined.
