(* ===== verification/Ingestion.v ===== *)
(** * Trace ingestion

    What the route accepts, the worker stores: [store_trace] is the abstract effect
    of a delivery on the tables, and the theorems follow a trace from [POST /traces]
    through the queue to [GET /traces/{id}], through redelivery, quota refusals and
    an unreachable broker. *)
From stdpp Require Import base gmap strings list sorting.
From Stdlib Require Import ZArith Lia ssreflect.
From S2P Require Import Prelude Constants Entities Float64 Json Evals Telemetry Sql World BillingRepo Usage Security IdentityRepo Identity ApiAuth TraceRepo Upserts TraceQueries Traces.

#[local] Open Scope Z_scope.

Import TraceRepository.

(** ** The effect of an upsert *)

Definition store_trace (pg : Postgres) (row : TraceRow) (spans : list SpanRow) (x : Telemetry) : Telemetry :=
  {| trace_rows := put t_id (merge_trace pg) (trace_rows x) row; span_rows := puts s_id merge_span (span_rows x) spans;
     evals := evals x |}.
Definition stored (pg : Postgres) (t : Trace) (created : Z) (d : DB) : DB :=
  set_telemetry (store_trace pg (trace_values t created) (List.map span_values (tr_spans t)) (telemetry d)) d.

(** The same tables up to the order and repetition of tags. *)
Definition same_telemetry (x y : Telemetry) : Prop :=
  Forall2 same_trace (trace_rows x) (trace_rows y) /\ span_rows x = span_rows y.

(** The texts and JSON values of a payload are among those the database stores. *)
Definition Trace_storable (t : Trace) : bool :=
  TraceRow_fits (trace_values t 0) && forallb (fun s => SpanRow_fits (span_values s)) (tr_spans t).

Section runs.
Context (pg : Postgres).

Lemma insert_on_conflict_run {R} ident merge get set fit parent (x : R) w :
  insert_on_conflict get set fit (hit ident (ident x)) (merge x) parent x w =
  if negb (fit x) then (Err DataError, w)
  else if existsb (hit ident (ident x)) (get (db w)) || parent (db w)
  then (Ok tt, set_db (set (put ident merge (get (db w)) x) (db w)) w) else (Err IntegrityError, w).
Proof. unfold insert_on_conflict, put. destruct (fit x); [|done]. cbn. destruct (existsb _ _); [done|]. by destruct (parent _). Qed.

Lemma upsert_span_run s w : _upsert_span s w =
  if negb (SpanRow_fits (span_values s)) then (Err DataError, w)
  else if existsb (with_span_id (sp_id s)) (spans_of (db w)) || trace_exists (sp_trace s) (db w)
  then (Ok tt, set_db (set_spans (put s_id merge_span (spans_of (db w)) (span_values s)) (db w)) w)
  else (Err IntegrityError, w).
Proof. exact (insert_on_conflict_run s_id merge_span spans_of set_spans SpanRow_fits (trace_exists (sp_trace s)) (span_values s) w). Qed.

Lemma set_spans_id w : set_db (set_spans (spans_of (db w)) (db w)) w = w.
Proof. by destruct w as [[? ? ? ? ? ? ? ? ? []] ? ? ? ? ? ? ? ? ?]. Qed.

(** A batch that succeeds has put its rows one after the other, and they fit. *)
Definition spans_storable : list Span -> bool := forallb (fun s => SpanRow_fits (span_values s)).
Lemma upsert_spans_Ok l w w' : for_each l _upsert_span w = (Ok tt, w') ->
  spans_storable l = true /\
  w' = set_db (set_spans (puts s_id merge_span (spans_of (db w)) (List.map span_values l)) (db w)) w.
Proof.
  revert w. induction l as [|s l IH]; intros w H; [injection H as <-; split; [done|symmetry; apply set_spans_id]|].
  cbn [for_each] in H. destruct_bind H u w1 E. rewrite upsert_span_run in E.
  destruct (SpanRow_fits _) eqn:Ef; [|done]. cbn in E. destruct (_ || _); [|done].
  injection E as _ <-. apply IH in H as [Hl H]. split; [|exact H]. cbn. by rw Ef.
Qed.

(** A batch each of whose spans has its trace or is a span already succeeds when all of them fit,
    and is refused by the first that does not. *)
Lemma upsert_spans_run l w :
  (forall s, s ∈ l -> trace_exists (sp_trace s) (db w) = true \/ sp_id s ∈ List.map s_id (spans_of (db w))) ->
  if spans_storable l
  then for_each l _upsert_span w =
    (Ok tt, set_db (set_spans (puts s_id merge_span (spans_of (db w)) (List.map span_values l)) (db w)) w)
  else (for_each l _upsert_span w).1 = Err DataError.
Proof.
  revert w. induction l as [|s l IH]; intros w H; [cbn; by rw set_spans_id|].
  assert (Hh : existsb (with_span_id (sp_id s)) (spans_of (db w)) || trace_exists (sp_trace s) (db w) = true).
  { destruct (H s) as [Ht|Hs]; [by left|by rw Ht orb_true_r|].
    by rw (proj2 (existsb_hit s_id (sp_id s) (spans_of (db w))) Hs). }
  cbn [for_each spans_storable forallb]. pose proof (upsert_span_run s w) as Hrun.
  destruct (SpanRow_fits (span_values s)) eqn:Ef; cbn [negb andb] in *; [|by erewrite bind_Err by exact Hrun].
  rewrite Hh in Hrun. rewrite (bind_Ok _ _ _ _ _ Hrun).
  specialize (IH (set_db (set_spans (put s_id merge_span (spans_of (db w)) (span_values s)) (db w)) w)).
  change (spans_storable l) with (forallb (fun s => SpanRow_fits (span_values s)) l) in IH. apply IH.
  intros x Hx. destruct (H x) as [Ht|Hs]; [by right|by left|right].
  apply (elem_of_idents_put s_id merge_span). by left.
Qed.

Lemma upsert_trace_Ok t w r w' : upsert_trace pg t w = (Ok r, w') ->
  r = t /\ Trace_storable t = true /\ w' = set_db (stored pg t (now w) (db w)) w.
Proof.
  unfold upsert_trace. intros H. destruct_bind H created w1 E. injection E as <- <-. destruct_bind H u w1 E.
  rewrite (insert_on_conflict_run t_id (merge_trace pg) traces_of set_traces TraceRow_fits (project_exists (tr_project t))
    (trace_values t (now w)) w) in E. destruct (TraceRow_fits _) eqn:Ef; [|done]. cbn in E.
  destruct (_ || _); [|done]. injection E as _ <-.
  destruct_bind H v w2 E. destruct v. injection H as <- <-. apply upsert_spans_Ok in E as [Hl ->]. split; [done|].
  split; [|done]. unfold Trace_storable. change (TraceRow_fits (trace_values t 0)) with (TraceRow_fits (trace_values t (now w))).
  by rw Ef.
Qed.

Lemma upsert_trace_run t w : existsb (with_trace_id (tr_id t)) (traces_of (db w)) || project_exists (tr_project t) (db w) = true ->
  (forall s, s ∈ tr_spans t -> sp_trace s = tr_id t \/ sp_id s ∈ List.map s_id (spans_of (db w))) ->
  if Trace_storable t then upsert_trace pg t w = (Ok t, set_db (stored pg t (now w) (db w)) w)
  else (upsert_trace pg t w).1 = Err DataError.
Proof.
  intros Ht Hs. unfold upsert_trace. erewrite bind_Ok by reflexivity. unfold Trace_storable.
  pose proof (insert_on_conflict_run t_id (merge_trace pg) traces_of set_traces TraceRow_fits (project_exists (tr_project t))
    (trace_values t (now w)) w) as E.
  change (existsb (hit t_id (t_id (trace_values t (now w)))) (traces_of (db w)) || project_exists (tr_project t) (db w))
      with (existsb (with_trace_id (tr_id t)) (traces_of (db w)) || project_exists (tr_project t) (db w)) in E.
  change (TraceRow_fits (trace_values t 0)) with (TraceRow_fits (trace_values t (now w))).
  destruct (TraceRow_fits _); cbn [negb andb] in *; [|by erewrite bind_Err by exact E].
  rewrite Ht in E. rewrite (bind_Ok _ _ _ _ _ E).
  pose proof (upsert_spans_run (tr_spans t) (set_db (set_traces (put t_id (merge_trace pg) (traces_of (db w)) (trace_values t (now w))) (db w)) w)) as El.
  change (spans_storable (tr_spans t)) with (forallb (fun s => SpanRow_fits (span_values s)) (tr_spans t)) in El.
  match type of El with ?P -> _ => assert (Hin : P); [|specialize (El Hin)] end.
  { intros s Hin. destruct (Hs s Hin) as [Heq|Hid]; [left|by right].
    rw Heq. apply (existsb_hit t_id). apply (elem_of_idents_put t_id (merge_trace pg)). by right. }
  destruct (forallb _ (tr_spans t)); [by erewrite bind_Ok by exact El|].
  destruct (for_each _ _ _) as [r w2] eqn:Ew. cbn in El. subst r. by rewrite (bind_Err _ _ _ _ _ Ew).
Qed.

(** ** The worker *)

(** One delivery that stored the payload, in its own committed transaction. *)
Lemma persist_Ok payload w w' : _persist_trace pg payload w = (Ok tt, w') ->
  Trace_validate payload = Ok payload /\ Trace_storable payload = true /\
  w' = let d := stored pg payload (now w) (durable w) in set_db d (set_durable d w).
Proof.
  unfold _persist_trace. intros H. destruct_bind H t w1 E. unfold lift, Trace_validate in E. unfold Trace_validate.
  destruct (_ && _); [|done]. injection E as <- <-. split; [done|].
  unfold with_session in H. destruct_bind H u w1 E. injection E as _ <-.
  unfold try_finally in H. destruct ((upsert_trace pg payload ;; commit) (set_db (durable w) w)) as [res w2] eqn:E.
  cbn in H. injection H as -> <-. destruct_bind E t w3 E1. apply upsert_trace_Ok in E1 as (-> & Hs & ->).
  by injection E as <-.
Qed.

(** A valid payload whose rows have their parents is stored when it is storable, and refused otherwise. *)
Lemma persist_run payload w : Trace_validate payload = Ok payload ->
  existsb (with_trace_id (tr_id payload)) (traces_of (durable w)) || project_exists (tr_project payload) (durable w) = true ->
  (forall s, s ∈ tr_spans payload -> sp_trace s = tr_id payload \/ sp_id s ∈ List.map s_id (spans_of (durable w))) ->
  if Trace_storable payload
  then _persist_trace pg payload w = (Ok tt, let d := stored pg payload (now w) (durable w) in set_db d (set_durable d w))
  else (_persist_trace pg payload w).1 = Err DataError.
Proof.
  intros Hv Ht Hs. unfold _persist_trace. rw Hv. unfold with_session.
  pose proof (upsert_trace_run payload (set_db (durable w) w) Ht Hs) as H. unfold try_finally.
  destruct (Trace_storable payload).
  - erewrite bind_Ok by reflexivity. erewrite bind_Ok by reflexivity. by erewrite bind_Ok by exact H.
  - erewrite bind_Ok by reflexivity. erewrite bind_Ok by reflexivity.
    destruct (upsert_trace pg payload _) as [r w1] eqn:E. cbn in H. subst r. by rewrite (bind_Err _ _ _ _ _ E).
Qed.
End runs.

(** ** Redelivery *)

(** A table that holds the row an upsert of the trace left is not changed by another one. *)
Lemma put_trace_again pg t c c' (tb0 tb : list TraceRow) : NoDup (List.map t_id tb) ->
  row_of t_id (tr_id t) tb = row_of t_id (tr_id t) (put t_id (merge_trace pg) tb0 (trace_values t c)) ->
  Forall2 same_trace (put t_id (merge_trace pg) tb (trace_values t c')) tb.
Proof.
  intros Hn H. set (x := trace_values t c) in *.
  rewrite (row_of_put t_id (merge_trace pg)) in H. unfold put_row in H. change (t_id x) with (tr_id t) in H.
  rewrite decide_True in H; [done|]. pose proof H as Hrow. apply List.find_some in Hrow as [Hin%list_elem_of_In Hhit].
  unfold put. change (t_id (trace_values t c')) with (tr_id t).
  assert (existsb (hit t_id (tr_id t)) tb = true) as ->.
  { apply List.existsb_exists. eexists. split; [apply list_elem_of_In; exact Hin|exact Hhit]. }
  unfold update_where. apply Forall2_fmap_l, Forall_Forall2_diag, Forall_forall. intros r Hr. cbn.
  destruct (hit t_id (tr_id t) r) eqn:Hh; [|reflexivity]. change (same_trace (merge_trace pg x r) r).
  apply hit_true in Hh, Hhit.
  assert (r = match row_of t_id (tr_id t) tb0 with Some r0 => merge_trace pg x r0 | None => x end) as ->
    by (apply (NoDup_map_inj t_id tb); [done..|congruence]).
  destruct (row_of t_id (tr_id t) tb0); [apply merge_trace_twice|apply merge_trace_refl].
Qed.

(** [keeps f]: a part of the world stays. *)
Definition keeps {A} (f : World -> A) (w w' : World) : Prop := f w' = f w.
#[export] Instance keeps_preorder {A} (f : World -> A) : PreOrder (keeps f).
Proof. split; [by intros w|]. intros x y z H1 H2. unfold keeps in *. congruence. Qed.
Lemma keeps_modify {A} (f : World -> A) g : (forall w, f (g w) = f w) -> respects (keeps f) (modify g).
Proof. intros H w. apply H. Qed.

(** What the statements of the trace repository keep. *)
Section repo_keeps.
Context {A : Type} (f : World -> A).
Hypothesis Hdb : forall d w, f (set_db d w) = f w.

Lemma keeps_write_db g : respects (keeps f) (write_db g).
Proof using Hdb. apply keeps_modify. intros w. apply Hdb. Qed.
Lemma keeps_insert_on_conflict {R} get set fit hit_ merge parent (row : R) :
  respects (keeps f) (insert_on_conflict get set fit hit_ merge parent row).
Proof using Hdb.
  intros w. unfold insert_on_conflict. destruct (negb _); [done|]. destruct (existsb _ _); [apply Hdb|]. destruct (parent _); [apply Hdb|done].
Qed.
#[local] Hint Resolve keeps_write_db keeps_insert_on_conflict : effects.
Lemma keeps_upsert pg t : respects (keeps f) (upsert_trace pg t).
Proof using Hdb. unfold upsert_trace, _upsert_span, utcnow. respects_auto. Qed.
Lemma keeps_add_spans id p l : respects (keeps f) (add_spans id p l).
Proof using Hdb. unfold add_spans, _upsert_span, read_db. respects_auto. Qed.
Lemma keeps_update_trace id p fs : respects (keeps f) (update_trace id p fs).
Proof using Hdb. unfold update_trace, read_db. respects_auto. Qed.
Lemma keeps_update_span s id p fs : respects (keeps f) (update_span s id p fs).
Proof using Hdb. unfold update_span, read_db. respects_auto. Qed.
Lemma keeps_delete q : respects (keeps f) (delete_where_traces q).
Proof using Hdb. unfold delete_where_traces, read_db. respects_auto. Qed.
Lemma keeps_tags pg p ids add rem : respects (keeps f) (batch_update_tags pg p ids add rem).
Proof using Hdb. unfold batch_update_tags, read_db. respects_auto. Qed.
End repo_keeps.

(** Storing a trace sends no message, and leaves what is committed alone when it fails. *)
Lemma persist_keeps_queue pg payload : respects (keeps queue) (_persist_trace pg payload).
Proof.
  unfold _persist_trace, with_session, rollback, commit.
  respects_auto; try (by apply keeps_modify); by apply keeps_upsert.
Qed.
Lemma persist_keeps pg t w :
  (forall e, (_persist_trace pg t w).1 = Err e -> durable (_persist_trace pg t w).2 = durable w) /\
  queue (_persist_trace pg t w).2 = queue w.
Proof.
  split; [|apply persist_keeps_queue]. intros e. unfold _persist_trace, lift, with_session, rollback, try_finally.
  unfold mbind at 1 3, M_bind at 1 3. destruct (Trace_validate t) as [t'|e']; [|done].
  pose proof (keeps_upsert durable (fun _ _ => eq_refl) pg t' (set_db (durable w) w)) as Hk. revert Hk.
  unfold mbind, M_bind, commit, modify. destruct (upsert_trace pg t' _) as [[t2|e2] w2]; cbn; [done|].
  unfold keeps. cbn. by intros ->.
Qed.

(** A delivery that did not ask for a retry has stored its payload. *)
Lemma process_trace_stored pg payload n w w' : process_trace pg payload n w = (Ok tt, w') -> queue w' = queue w ->
  _persist_trace pg payload w = (Ok tt, w').
Proof.
  unfold process_trace, try_except. intros H Hq. pose proof (persist_keeps_queue pg payload w) as Hw.
  destruct (_persist_trace pg payload w) as [[[]|e] w1] eqn:E; [done|]. unfold keeps in Hw. cbn in Hw.
  destruct (_ <? _)%nat; [|done]. injection H as <-. cbn in Hq. rewrite Hw in Hq.
  apply (f_equal length) in Hq. rewrite length_app in Hq. simpl in Hq. lia.
Qed.

(** Between the two states nothing has happened to the rows of the payload; whatever else may have. *)
Definition untouched (t : Trace) (x x' : Telemetry) : Prop :=
  row_of t_id (tr_id t) (trace_rows x') = row_of t_id (tr_id t) (trace_rows x) /\
  forall s, s ∈ tr_spans t -> row_of s_id (sp_id s) (span_rows x') = row_of s_id (sp_id s) (span_rows x).

(** C30: Redelivering a trace is harmless.  Celery delivers at least once: after a
    delivery of [process_trace] that stored its payload, any further delivery of the same
    payload, at any later time, succeeds and leaves every trace and span as it finds it, up to
    the order and repetition of tags, and every evaluation and everything else exactly; whatever has happened
    in between to other rows, as long as nobody has changed the trace and the spans of the payload
    themselves (an update in between is undone: [redelivery_reverts_update]). *)
Theorem trace_redelivery_idempotent (pg : Postgres) (payload : Trace) (n m : nat) (w w1 w2 : World)
  (Hfirst : process_trace pg payload n w = (Ok tt, w1)) (Hstored : queue w1 = queue w)
  (Hok : telemetry_ok (telemetry (durable w2)))
  (Hrows : untouched payload (telemetry (durable w1)) (telemetry (durable w2))) :
  exists w3, process_trace pg payload m w2 = (Ok tt, w3) /\
    same_telemetry (telemetry (durable w3)) (telemetry (durable w2)) /\
    evals (telemetry (durable w3)) = evals (telemetry (durable w2)) /\
    durable w3 = set_telemetry (telemetry (durable w3)) (durable w2) /\ queue w3 = queue w2.
Proof.
  apply process_trace_stored in Hfirst; [|done]. apply persist_Ok in Hfirst as (Hv & Hst & ->). destruct Hrows as [Ht Hs].
  cbn -[put puts row_of] in Ht, Hs. destruct Hok as (Hn1 & Hn2 & _).
  assert (Hpuz : forall s, s ∈ List.map span_values (tr_spans payload) -> row_of s_id (s_id s) (span_rows (telemetry (durable w2))) =
    row_of s_id (s_id s) (puts s_id merge_span (span_rows (telemetry (durable w))) (List.map span_values (tr_spans payload)))).
  { intros x (s & -> & Hin)%list_elem_of_fmap. by apply Hs. }
  pose proof (puts_again s_id merge_span _ _ _ Hn2 Hpuz) as Espans.
  assert (Hrun := persist_run pg payload w2 Hv). rewrite Hst in Hrun.
  unfold process_trace, try_except. rewrite Hrun.
  - apply orb_true_iff. left. apply (existsb_hit t_id).
    rewrite (row_of_put t_id (merge_trace pg)) in Ht. unfold put_row in Ht. rewrite decide_True in Ht; [done|].
    apply List.find_some in Ht as [Hin%list_elem_of_In <-%hit_true]. apply list_elem_of_fmap. eauto.
  - intros s Hin. right. specialize (Hs s Hin).
    assert (Hi : sp_id s ∈ List.map s_id (puts s_id merge_span (span_rows (telemetry (durable w2))) (List.map span_values (tr_spans payload)))).
    { apply (elem_of_idents_puts s_id merge_span). right. rw List.map_map. apply list_elem_of_fmap. eauto. }
    by rewrite Espans in Hi.
  - eexists. split; [reflexivity|]. cbn. split; [|done].
    split; cbn; [by apply (put_trace_again pg payload (now w) _ (trace_rows (telemetry (durable w))))|exact Espans].
Qed.

(** ** Reading back *)

Lemma puts_fresh {R} (ident : R -> N) merge (l tb : list R) :
  NoDup (List.map ident l) -> (forall x, x ∈ l -> ident x ∉ List.map ident tb) -> puts ident merge tb l = tb ++ l.
Proof.
  revert tb. induction l as [|x l IH]; intros tb Hn Hf; [by rw app_nil_r|].
  cbn in Hn. apply NoDup_cons in Hn as [Hx Hn]. cbn. unfold puts in IH.
  assert (E : put ident merge tb x = tb ++ [x]).
  { unfold put. destruct (existsb _ tb) eqn:Eh; [|done]. apply existsb_hit in Eh. by destruct (Hf x (list_elem_of_here _ _)). }
  rw E IH; [done| |by rw -app_assoc].
  intros y Hy. rw List.map_app elem_of_app. cbn. rw list_elem_of_singleton. intros [H|H].
  - by apply (Hf y); [right|].
  - apply Hx. rw -H. apply list_elem_of_fmap. eauto.
Qed.

(** A trace with other spans. *)
Definition with_spans (t : Trace) (l : list Span) : Trace :=
  {| tr_id := tr_id t; tr_project := tr_project t; tr_name := tr_name t; tr_status := tr_status t;
     tr_input := tr_input t; tr_output := tr_output t; tr_metadata := tr_metadata t; tr_started := tr_started t;
     tr_ended := tr_ended t; tr_session := tr_session t; tr_user := tr_user t; tr_tags := tr_tags t;
     tr_environment := tr_environment t; tr_release := tr_release t; tr_spans := l |}.

(** The order of the spans of a trace: by start, then by identifier. *)
Definition span_before (a b : Span) : bool :=
  (sp_started a <? sp_started b) || (sp_started a =? sp_started b) && (sp_id a <=? sp_id b)%N.

Lemma span_before_total a b : span_before a b = false -> span_before b a = true.
Proof.
  unfold span_before. intros [H1%Z.ltb_ge H2%andb_false_iff]%orb_false_elim. apply orb_true_iff.
  destruct (Z.eq_dec (sp_started a) (sp_started b)) as [E|E]; [right|left; apply Z.ltb_lt; lia].
  apply andb_true_iff. split; [by apply Z.eqb_eq|]. apply N.leb_le.
  destruct H2 as [H2%Z.eqb_neq|H2%N.leb_gt]; [by rewrite E in H2|lia].
Qed.

(** Writing a span and reading it gives it back, whatever its payloads are. *)
Lemma to_span_values s : Span_ok s = true -> _to_span (span_values s) = Ok s.
Proof. intros H. unfold _to_span, Span_validate. destruct s. cbn in *. by rw H. Qed.

Lemma to_trace_values t c l : Trace_validate t = Ok t -> l ≡ₚ tr_spans t ->
  _to_trace (trace_values t c) (List.map span_values l) = Ok (with_spans t l).
Proof.
  intros Ht Hl. unfold Trace_validate in Ht. destruct (_ && _) eqn:E; [|done]. clear Ht.
  apply andb_prop in E as [E Hs]. rewrite List.forallb_forall in Hs.
  unfold _to_trace. rw List.map_map. rw (res_all_Ok _ id).
  - intros s Hin. apply to_span_values, Hs. apply list_elem_of_In. by rw -Hl.
  - cbn. unfold Trace_validate. cbn. rw List.map_id.
    assert (Hall : forallb Span_ok l = true) by (apply List.forallb_forall; intros s Hin; apply Hs; apply list_elem_of_In; rw -Hl; by apply list_elem_of_In).
    rw Hall. rw E. done.
Qed.

(** C31: What is ingested is read back.  Take a valid payload with fresh identifiers, in an
    existing project.  If its texts and JSON values are storable (no NUL character, no NaN or
    infinity in JSON), one delivery of [process_trace] succeeds, and afterwards
    [get_trace] returns, within that project, exactly the ingested trace: every field,
    null or not, and every span once, ordered by start; no other project sees it.  Otherwise the
    database refuses the payload: nothing is stored, and the message is queued again until its
    retries are used up, then the error is raised. *)
Theorem ingested_trace_is_read_back (pg : Postgres) (t : Trace) (n : nat) (w : World)
  (Hok : telemetry_ok (telemetry (durable w)))
  (Hvalid : Trace_validate t = Ok t) (Hproject : project_exists (tr_project t) (durable w) = true)
  (Hfresh : tr_id t ∉ List.map t_id (traces_of (durable w)))
  (Hdistinct : NoDup (List.map sp_id (tr_spans t)))
  (Hspans : forall s, s ∈ tr_spans t -> sp_trace s = tr_id t /\ sp_id s ∉ List.map s_id (spans_of (durable w))) :
  exists r w1, process_trace pg t n w = (r, w1) /\
    (Trace_storable t = true -> r = Ok tt /\
      forall w2, telemetry (db w2) = telemetry (durable w1) ->
        (exists l, l ≡ₚ tr_spans t /\ Sorted (fun a b => span_before a b = true) l /\
           TraceRepository.get_trace (tr_id t) (tr_project t) w2 = (Ok (Some (with_spans t l)), w2)) /\
        forall p, p <> tr_project t -> TraceRepository.get_trace (tr_id t) p w2 = (Ok None, w2)) /\
    (Trace_storable t = false -> durable w1 = durable w /\
      if (n <? PROCESS_TRACE_MAX_RETRIES)%nat then r = Ok tt /\ queue w1 = queue w ++ [TProcessTrace t (S n)]
      else r = Err DataError /\ queue w1 = queue w).
Proof.
  pose proof (persist_run pg t w Hvalid) as Hrun. rewrite Hproject orb_true_r in Hrun.
  specialize (Hrun eq_refl (fun s Hs => or_introl (proj1 (Hspans s Hs)))).
  unfold process_trace, try_except. destruct (Trace_storable t) eqn:Est; cycle 1.
  { pose proof (persist_keeps pg t w) as [Hd Hq]. destruct (_persist_trace pg t w) as [res w1]. cbn in Hrun, Hd, Hq. subst res.
    specialize (Hd DataError eq_refl). destruct (n <? PROCESS_TRACE_MAX_RETRIES)%nat; do 2 eexists; (split; [reflexivity|]);
      (split; [done|]); intros _; cbn; by rw Hq. }
  rewrite Hrun. do 2 eexists. split; [reflexivity|]. split; [intros _; split; [done|]|done].
  cbn. intros w2 Hw2. destruct Hok as (Hn & _ & Hfk).
  set (row := trace_values t (now w)) in *. set (x := telemetry (durable w)) in *.
  assert (Ht : traces_of (db w2) = trace_rows x ++ [row]).
  { unfold traces_of. rw Hw2. cbn. unfold put. change (t_id row) with (tr_id t).
    destruct (existsb _ (trace_rows x)) eqn:E; [|done]. by apply existsb_hit in E. }
  assert (Hs : spans_of (db w2) = span_rows x ++ List.map span_values (tr_spans t)).
  { unfold spans_of. rw Hw2. cbn. apply puts_fresh; [by rw List.map_map|].
    intros y (s & -> & Hin)%list_elem_of_fmap. by apply Hspans. }
  assert (Hold : forall r, r ∈ trace_rows x -> with_trace_id (tr_id t) r = false).
  { intros r Hr. apply bool_decide_eq_false. intros Heq. apply Hfresh. rw -Heq. apply list_elem_of_fmap. eauto. }
  assert (Hsel : forall p, select (owned_trace (tr_id t) p) (traces_of (db w2)) =
    if bool_decide (tr_project t = p) then [row] else []).
  { intros p. rw Ht select_app (select_none _ (trace_rows x)); [intros r Hr; unfold owned_trace; by rw (Hold r Hr)|].
    cbn. unfold owned_trace, with_trace_id, of_project. cbn. by rw (bool_decide_eq_true_2 (tr_id t = tr_id t)). }
  split.
  - exists (order_by span_before (tr_spans t)). split_and!; [apply order_by_Permutation|apply order_by_Sorted, span_before_total|].
    unfold TraceRepository.get_trace. erewrite bind_Ok by reflexivity. rw Hsel (bool_decide_eq_true_2 (tr_project t = tr_project t)); [done|].
    erewrite bind_Ok by reflexivity. cbn [scalar_one_or_none]. erewrite bind_Ok; [reflexivity|].
    unfold read_res. erewrite bind_Ok by reflexivity. unfold lift. f_equal.
    unfold spans_of_trace. rw Hs select_app (select_none _ (span_rows x)).
    { intros s Hin. rewrite Forall_forall in Hfk. apply Hfk in Hin. apply bool_decide_eq_false. intros Heq. apply Hfresh. by rewrite Heq in Hin. }
    assert (Hall : select (fun s => bool_decide (s_trace s = t_id row)) (List.map span_values (tr_spans t)) = List.map span_values (tr_spans t)).
    { clear - Hspans. induction (tr_spans t) as [|s l IH]; [done|]. cbn. rw bool_decide_eq_true_2; [by apply Hspans; left|].
      f_equal. apply IH. intros y Hy. apply Hspans. by right. }
    cbn [app]. rw Hall order_by_map. apply to_trace_values; [done|]. apply order_by_Permutation.
  - intros p Hp. unfold TraceRepository.get_trace. erewrite bind_Ok by reflexivity. rw Hsel (bool_decide_eq_false_2 (tr_project t = p)); [congruence|].
    reflexivity.
Qed.

(** ** Accepting a trace *)

(** Counting touches Redis and draws identifiers, nothing else. *)
Section usage_keeps.
Context {A : Type} (f : World -> A).
Hypothesis Hredis : forall r w, f (set_redis r w) = f w.
Hypothesis Hnext : forall n w, f (set_next_id n w) = f w.

Lemma keeps_run_lua {B} (g : Z -> Redis -> B * Redis) : respects (keeps f) (run_lua g).
Proof using Hredis. intros w. unfold run_lua. destruct (g _ _). apply Hredis. Qed.
Lemma keeps_uuid4 : respects (keeps f) uuid4.
Proof using Hnext. intros w. apply Hnext. Qed.
Lemma keeps_redis_update g : respects (keeps f) (redis_update g).
Proof using Hredis. apply keeps_modify. intros w. apply Hredis. Qed.
#[local] Hint Resolve keeps_run_lua keeps_uuid4 keeps_redis_update : effects.
Lemma keeps_subscription org : respects (keeps f) (get_subscription_cached org).
Proof using Hredis.
  unfold get_subscription_cached, fetch_subscription_from_db, redis_get, get_subscription_by_org, find_subscription, read_db.
  respects_auto.
Qed.
#[local] Hint Resolve keeps_subscription : effects.
Lemma keeps_check org c n : respects (keeps f) (check_and_increment org c n).
Proof using Hredis Hnext. unfold check_and_increment, utcnow. respects_auto. Qed.
Lemma keeps_rollback org c n : respects (keeps f) (rollback_increment org c n).
Proof using Hredis Hnext. unfold rollback_increment. respects_auto. Qed.
End usage_keeps.

(** A body that fits its schema gives a valid trace. *)
Lemma build_trace_Ok project body : TracesApi.TraceCreate_ok body = true -> exists t,
  TracesApi.build_trace project body = Ok t /\ Trace_validate t = Ok t /\
  tr_id t = TracesApi.tc_id body /\ tr_project t = project /\
  tr_spans t = List.map (TracesApi.build_span (TracesApi.tc_id body)) (TracesApi.tc_spans body).
Proof.
  intros H. unfold TracesApi.TraceCreate_ok in H.
  apply andb_prop in H as [H Hs]. apply andb_prop in H as [H _]. rewrite List.forallb_forall in Hs.
  unfold TracesApi.build_trace, TracesApi.build_spans.
  rw (res_all_Ok _ (TracesApi.build_span (TracesApi.tc_id body))).
  { intros s Hin%list_elem_of_In%Hs. unfold Span_validate, Span_ok. cbn. unfold TracesApi.SpanCreate_ok in Hin. by rw Hin. }
  cbn. unfold Trace_validate at 1. cbn.
  assert (Hall : forallb Span_ok (List.map (TracesApi.build_span (TracesApi.tc_id body)) (TracesApi.tc_spans body)) = true).
  { apply List.forallb_forall. intros s (sc & <- & Hin)%List.in_map_iff. by apply Hs. }
  rw H Hall. eexists. split; [reflexivity|]. split; [|done]. unfold Trace_validate. cbn. by rw H Hall.
Qed.

(** Building the trace and handing it to the broker. *)
Lemma enqueue_built_run broker ctx p body t w : cx_project ctx = Some p -> TracesApi.build_trace (p_id p) body = Ok t ->
  (project ← project_of ctx; trace ← lift (TracesApi.build_trace (p_id project) body);
   TraceService.enqueue_trace broker trace) w =
  match broker (TProcessTrace t 0) with
  | Some e => (Err e, set_next_id (N.succ (next_id w)) w)
  | None => (Ok (next_id w), set_queue (queue w ++ [TProcessTrace t 0]) (set_next_id (N.succ (next_id w)) w))
  end.
Proof.
  intros Hp Ht. unfold project_of, lift. rw Hp. cbn -[N.succ]. unfold mbind, M_bind. cbn -[N.succ]. rw Ht.
  unfold TraceService.enqueue_trace, delay, mbind, M_bind, uuid4. cbn -[N.succ]. by destruct (broker _).
Qed.

(** The traces counted in the current period of a subscription. *)
Definition traces_used (org : N) (s : Subscription) (w : World) : Z :=
  HGET (now w) (redis w) (usage_key org (sub_start s)) TRACES.

(** C29: Accepting a trace is all or nothing.  With an active or past-due subscription,
    [POST /traces] leaves the database alone and does exactly one of three things: over the plan's
    limit it is refused, nothing is counted and nothing is queued; if the broker is
    unreachable the error is raised, the count is taken back and nothing is queued;
    otherwise the trace counts once and the message that stores exactly the posted
    trace, for the project of the caller, is queued. *)
Theorem ingest_all_or_nothing (broker : Task -> option exn) (ctx : ApiContext) (p : Project)
  (body : TracesApi.TraceCreate) (s : Subscription) (w w1 : World)
  (Hproject : cx_project ctx = Some p) (Hbody : TracesApi.TraceCreate_ok body = true)
  (Hsub : get_subscription_cached (o_id (cx_organization ctx)) w = (Ok (Some s), w1))
  (Husable : usable s) (Hfresh : fresh_dedup w)
  (Hwrap : traces_used (o_id (cx_organization ctx)) s w + 1 <> -1) :
  let used := traces_used (o_id (cx_organization ctx)) s in
  let limit := hard_limit_of (sub_plan s) TRACES in
  exists r w', TracesApi.ingest_trace broker ctx body w = (r, w') /\ db w' = db w /\ durable w' = durable w /\
    (0 <= limit /\ limit < used w + 1 ->
       (exists m, r = Err (PP QuotaExceededError m)) /\ used w' = used w /\ queue w' = queue w) /\
    (~ (0 <= limit /\ limit < used w + 1) -> exists t, TracesApi.build_trace (p_id p) body = Ok t /\
       match broker (TProcessTrace t 0) with
       | Some e => r = Err e /\ used w' = used w /\ queue w' = queue w
       | None => (exists task, r = Ok (TracesApi.tc_id body, task)) /\ used w' = used w + 1 /\
                 queue w' = queue w ++ [TProcessTrace t 0]
       end).
Proof.
  cbv zeta. set (org := o_id (cx_organization ctx)) in *. set (k := usage_key org (sub_start s)).
  destruct (check_and_increment_run org TRACES 1 w s w1 Hsub Husable Hfresh)
    as (r2 & w2 & E2 & D2 & U2 & N2 & F2 & S2' & Hover & Hunder).
  pose proof (keeps_check queue (fun _ _ => eq_refl) (fun _ _ => eq_refl) org (UsageCategory_value TRACES) 1 w) as Q2.
  rewrite E2 in Q2. unfold keeps in Q2. cbn in Q2.
  destruct (get_subscription_cached_spec org w _ w1 Hsub) as (_ & _ & N1 & _ & _ & _ & Hlive).
  assert (Hkk : bool_decide (k = k) && bool_decide (TRACES = TRACES) = true) by (by rw !bool_decide_eq_true_2).
  unfold TracesApi.ingest_trace, schema. rw Hbody. erewrite bind_Ok by reflexivity. fold org.
  destruct (decide (0 <= hard_limit_of (sub_plan s) TRACES /\ hard_limit_of (sub_plan s) TRACES < traces_used org s w + 1)) as [Ho|Ho].
  - destruct (Hover Ho) as [[m ->] Hsame]. erewrite bind_Err by exact E2. eexists _, w2. split; [reflexivity|].
    split; [done|]. split; [done|]. split; [|done]. intros _. split; [eauto|]. split; [|done].
    unfold traces_used. by rw N2 Hsame.
  - destruct (Hunder Ho Hwrap) as [-> Hcount]. erewrite bind_Ok by exact E2.
    destruct (build_trace_Ok (p_id p) body Hbody) as (t & Ht & _).
    pose proof (enqueue_built_run broker ctx p body t w2 Hproject Ht) as Hrun.
    destruct (broker (TProcessTrace t 0)) as [e|] eqn:Eb.
    + assert (Hl : live (now w2) (r_subs (redis w2) !! org) = Some s) by (rw N2 S2' -N1; by apply Hlive).
      destruct (rollback_increment_run org TRACES 1 (set_next_id (N.succ (next_id w2)) w2) s Hl) as (w3 & E3 & N3 & H3).
      { intros k' b i Hi. specialize (F2 k' b i Hi). cbn. lia. }
      pose proof (keeps_rollback (fun w => (db w, durable w, queue w)) (fun _ _ => eq_refl) (fun _ _ => eq_refl) org
        (UsageCategory_value TRACES) 1 (set_next_id (N.succ (next_id w2)) w2)) as K3.
      rewrite E3 in K3. injection K3 as D3 U3 Q3. cbn in D3, U3, Q3.
      exists (Err e), w3. split.
      { rewrite (bind_Err _ _ w2 e w3); [|done]. unfold try_except. rw Hrun. by erewrite bind_Ok by exact E3. }
      split; [congruence|]. split; [congruence|]. split; [done|]. intros _. exists t. split; [done|]. rw Eb.
      split; [done|]. split; [|congruence]. unfold traces_used. rw N3. cbn [now set_next_id]. rw N2.
      specialize (H3 k TRACES). cbn [now set_next_id redis] in H3. rewrite N2 in H3. fold k. rw H3 Hcount. fold k. rw Hkk. lia.
    + set (w3 := set_queue (queue w2 ++ [TProcessTrace t 0]) (set_next_id (N.succ (next_id w2)) w2)) in Hrun.
      exists (Ok (TracesApi.tc_id body, next_id w2)), w3. split.
      { erewrite bind_Ok; [reflexivity|]. unfold try_except. by rw Hrun. }
      split; [done|]. split; [done|]. split; [done|]. intros _. exists t. split; [done|]. rw Eb. split; [eauto|].
      split; [|cbn; by rw Q2]. unfold traces_used. cbn [now redis w3 set_queue set_next_id]. rw N2 Hcount. fold k. by rw Hkk.
Qed.

(** ** Witnesses

    A trace with two spans, ingested by organization 7 (PRO) for its project 20. *)

Definition api_project : Project := {| p_id := 20; p_org := 7; p_name := "onboarding"; p_description := ""; p_created := 0 |}.
Definition api_key_context : ApiContext :=
  {| cx_method := API_KEY; cx_organization := {| o_id := 7; o_name := "Acme"; o_created := 0 |};
     cx_project := Some api_project; cx_user := None |}.
Definition span_body (id : N) (start : Z) : TracesApi.SpanCreate :=
  {| TracesApi.sc_id := id; TracesApi.sc_parent := None; TracesApi.sc_name := "call"; TracesApi.sc_kind := LLM;
     TracesApi.sc_status := OK; TracesApi.sc_input := None; TracesApi.sc_output := Some (JStr "hi");
     TracesApi.sc_model := Some "gpt"%string; TracesApi.sc_token_usage := None; TracesApi.sc_metadata := ∅;
     TracesApi.sc_started := start; TracesApi.sc_ended := None; TracesApi.sc_error := None;
     TracesApi.sc_completion_start := None; TracesApi.sc_model_parameters := None; TracesApi.sc_cost := None |}.
Definition trace_body : TracesApi.TraceCreate :=
  {| TracesApi.tc_id := 60; TracesApi.tc_name := "chat"; TracesApi.tc_status := TCOMPLETED; TracesApi.tc_input := None;
     TracesApi.tc_output := None; TracesApi.tc_metadata := ∅; TracesApi.tc_started := 5; TracesApi.tc_ended := Some 9;
     TracesApi.tc_session := Some "s1"%string; TracesApi.tc_user := None; TracesApi.tc_tags := ["b"; "a"]%string;
     TracesApi.tc_environment := None; TracesApi.tc_release := None; TracesApi.tc_spans := [span_body 62 8; span_body 61 6] |}.
Definition trace_payload : Trace :=
  match TracesApi.build_trace 20 trace_body with
  | Ok t => t
  | Err _ => {| tr_id := 0; tr_project := 0; tr_name := ""; tr_status := TPENDING; tr_input := None; tr_output := None;
                tr_metadata := ∅; tr_started := 0; tr_ended := None; tr_session := None; tr_user := None; tr_tags := [];
                tr_environment := None; tr_release := None; tr_spans := [] |}
  end.
Definition api_world : World := set_next_id 200 (world_of (set_projects [api_project] pro_db) (days 20) []).
Definition delivered_once : World := (process_trace toy_server trace_payload 0 api_world).2.

(** Another project's trace is stored between the two deliveries. *)
Definition delivered_meanwhile : World :=
  (process_trace toy_server
     {| tr_id := 70; tr_project := 20; tr_name := "later"; tr_status := TRUNNING; tr_input := None; tr_output := None;
        tr_metadata := ∅; tr_started := 1; tr_ended := None; tr_session := None; tr_user := None; tr_tags := [];
        tr_environment := None; tr_release := None; tr_spans := [] |} 0 delivered_once).2.
Lemma trace_redelivery_idempotent_witness :
  List.map t_id (traces_of (durable delivered_meanwhile)) = [60; 70]%N /\
  exists w3, process_trace toy_server trace_payload 1 delivered_meanwhile = (Ok tt, w3) /\
    same_telemetry (telemetry (durable w3)) (telemetry (durable delivered_meanwhile)).
Proof.
  split; [vm_compute; reflexivity|].
  destruct (trace_redelivery_idempotent toy_server trace_payload 0 1 api_world delivered_once delivered_meanwhile) as (w3 & H1 & H2 & _).
  - vm_compute. reflexivity.
  - vm_compute. reflexivity.
  - vm_compute. split_and!; repeat constructor; set_solver.
  - split; [vm_compute; reflexivity|]. intros s Hs. vm_compute in Hs.
    repeat (apply elem_of_cons in Hs as [->|Hs]; [vm_compute; reflexivity|]). by apply elem_of_nil in Hs.
  - exists w3. split; [exact H1|exact H2].
Defined.

(** An update of the trace between the two deliveries is undone by the second. *)
Theorem redelivery_reverts_update :
  let renamed := (get_db_session (TraceRepository.update_trace 60 20 [FName (Some "renamed"%string); FStatus (Some TERROR)]) delivered_once).2 in
  let again := (process_trace toy_server trace_payload 1 renamed).2 in
  List.map (fun r => (t_name r, t_status r)) (traces_of (durable renamed)) = [("renamed"%string, TERROR)] /\
  List.map (fun r => (t_name r, t_status r)) (traces_of (durable again)) = [("chat"%string, TCOMPLETED)].
Proof. vm_compute. done. Qed.

Lemma ingested_trace_is_read_back_witness :
  Trace_storable trace_payload = true /\
  exists l, l ≡ₚ tr_spans trace_payload /\
    TraceRepository.get_trace 60 20 delivered_once = (Ok (Some (with_spans trace_payload l)), delivered_once).
Proof.
  assert (Hst : Trace_storable trace_payload = true) by (vm_compute; reflexivity). split; [exact Hst|].
  destruct (ingested_trace_is_read_back toy_server trace_payload 0 api_world) as (r & w1 & H1 & H2 & _).
  - split_and!; constructor.
  - vm_compute. reflexivity.
  - vm_compute. reflexivity.
  - vm_compute. apply not_elem_of_nil.
  - vm_compute. repeat constructor; set_solver.
  - intros s Hs. split; [|apply not_elem_of_nil].
    vm_compute in Hs. repeat (apply elem_of_cons in Hs as [->|Hs]; [reflexivity|]). by apply elem_of_nil in Hs.
  - destruct (H2 Hst) as [_ H3]. destruct (H3 delivered_once) as [(l & Hl & _ & Hg) _].
    + unfold delivered_once. rewrite H1. vm_compute in H1. injection H1 as _ <-. vm_compute. reflexivity.
    + exists l. split; [exact Hl|exact Hg].
Defined.

(** A trace with a NUL character in a tag is valid, and never stored. *)
Theorem unstorable_trace_is_lost :
  let tagged := {| tr_id := 60; tr_project := 20; tr_name := "chat"; tr_status := TCOMPLETED; tr_input := None;
                   tr_output := None; tr_metadata := ∅; tr_started := 5; tr_ended := None; tr_session := None;
                   tr_user := None; tr_tags := [String Ascii.zero EmptyString]; tr_environment := None; tr_release := None; tr_spans := [] |} in
  Trace_validate tagged = Ok tagged /\ (process_trace toy_server tagged 3 api_world).1 = Err DataError /\
  traces_of (durable (process_trace toy_server tagged 3 api_world).2) = [].
Proof. vm_compute. done. Qed.

(** The broker is down: the count of the trace is taken back. *)
Lemma ingest_all_or_nothing_witness :
  let broker _ := Some (ValueError "connection refused") in
  exists w1 r w', get_subscription_cached 7 api_world = (Ok (Some pro_sub), w1) /\
    TracesApi.ingest_trace broker api_key_context trace_body api_world = (r, w') /\
    r = Err (ValueError "connection refused") /\ traces_used 7 pro_sub w' = 0 /\ queue w' = [].
Proof.
  destruct (ingest_all_or_nothing (fun _ => Some (ValueError "connection refused")) api_key_context api_project trace_body pro_sub api_world
    (get_subscription_cached 7 api_world).2) as (r & w' & H1 & _ & _ & _ & H2).
  - reflexivity.
  - vm_compute. reflexivity.
  - vm_compute. reflexivity.
  - by left.
  - intros k b i [x Hx]. vm_compute in Hx. discriminate Hx.
  - vm_compute. discriminate.
  - destruct H2 as (t & _ & Hr & Hu & Hq); [intros [H _]; vm_compute in H; by destruct H|].
    exists (get_subscription_cached 7 api_world).2, r, w'. split_and!; [vm_compute; reflexivity|exact H1|exact Hr| |exact Hq].
    rewrite Hu. vm_compute. reflexivity.
Defined.
