(* ===== verification/TraceIsolation.v ===== *)
(** * Projects are isolated on the data plane

    The calls of the trace and session routes ([TraceCall], [serve_trace]) and the
    relational argument that they concern the caller's project only: [blind p m]
    says that [m] answers alike, and leaves like views, in any two worlds that agree on the
    telemetry of project [p].  [run_event] interleaves requests and deliveries. *)
From stdpp Require Import base gmap strings list.
From Stdlib Require Import ZArith Lia ssreflect.
From S2P Require Import Prelude Constants Entities Float64 Json Evals Telemetry Sql World BillingRepo Usage Security IdentityRepo Identity ApiAuth TraceRepo Upserts TraceQueries Traces Ingestion.

#[local] Open Scope Z_scope.

Import TraceRepository TraceQueries.

(** ** Calls *)

Inductive TraceCall :=
  | ListTraces (limit offset : Z) (f : TraceFilters) (by_ : TraceSortBy) (o : SortOrder)
  | GetAnalytics (m : TracesApi.AnalyticsMetric) (g : AnalyticsGranularity) (a b : Z)
  | ListUsers (limit offset : Z)
  | BatchDelete (ids : list N)
  | BatchTags (ids : list N) (add_tags remove_tags : list string)
  | UpdateTrace (id : N) (fields : list TraceField)
  | AddSpans (id : N) (body : list TracesApi.SpanCreate)
  | UpdateSpan (trace_id span_id : N) (fields : list SpanField)
  | GetTrace (id : N)
  | DeleteTrace (id : N)
  | ListSessions (limit offset : Z) (f : SessionFilters) (by_ : SessionSortBy) (o : SortOrder)
  | GetSessionAnalytics (g : AnalyticsGranularity) (a b : Z)
  | GetSession (sid : string) (limit offset : Z)
  | DeleteSession (sid : string).

Inductive Answer :=
  | ATraces (l : Paginated TracesApi.TraceListItem)
  | AAnalytics (a : TracesApi.Analytics)
  | AUsers (l : Paginated UserRow)
  | ACount (n : Z)
  | ATrace (t : TracesApi.TraceResponse)
  | AIds (l : list N)
  | ASpan (s : TracesApi.SpanResponse)
  | ADone
  | ASessions (l : Paginated SessionsApi.SessionSummary)
  | ASessionAnalytics (l : list SessionBucket)
  | ASession (s : SessionsApi.SessionDetail).

Definition serve_trace (pg : Postgres) (ctx : ApiContext) (c : TraceCall) : M World Answer :=
  match c with
  | ListTraces l o f b s => a ← TracesApi.list_traces pg ctx l o f b s; mret (ATraces a)
  | GetAnalytics m g x y => a ← TracesApi.get_analytics pg ctx m g x y; mret (AAnalytics a)
  | ListUsers l o => a ← TracesApi.list_trace_users ctx l o; mret (AUsers a)
  | BatchDelete ids => a ← TracesApi.batch_delete ctx ids; mret (ACount a)
  | BatchTags ids add rem => a ← TracesApi.batch_tags pg ctx ids add rem; mret (ACount a)
  | UpdateTrace id fs => a ← TracesApi.update_trace pg ctx id fs; mret (ATrace a)
  | AddSpans id body => a ← TracesApi.add_spans ctx id body; mret (AIds a)
  | UpdateSpan t s fs => a ← TracesApi.update_span ctx t s fs; mret (ASpan a)
  | GetTrace id => a ← TracesApi.get_trace pg ctx id; mret (ATrace a)
  | DeleteTrace id => TracesApi.delete_trace ctx id ;; mret ADone
  | ListSessions l o f b s => a ← SessionsApi.list_sessions pg ctx l o f b s; mret (ASessions a)
  | GetSessionAnalytics g x y => a ← SessionsApi.get_session_analytics pg ctx g x y; mret (ASessionAnalytics a)
  | GetSession sid l o => a ← SessionsApi.get_session pg ctx sid l o; mret (ASession a)
  | DeleteSession sid => a ← SessionsApi.delete_session ctx sid; mret (ACount a)
  end.

(** ** The view of a project *)

Definition tel (w : World) : Telemetry := telemetry (db w).
Definition own_traces (p : N) (x : Telemetry) : list TraceRow := trace_rows (project_telemetry p x).
Definition own_spans (p : N) (x : Telemetry) : list SpanRow := span_rows (project_telemetry p x).

Section views.
Context (p : N).

Lemma select_own f x : select (fun r => of_project p r && f r) (trace_rows x) = select f (own_traces p x).
Proof. apply select_select. Qed.
Lemma select_owned id x : select (owned_trace id p) (trace_rows x) = select (with_trace_id id) (own_traces p x).
Proof. rw -select_own. apply select_ext_in. intros r _. apply andb_comm. Qed.

Lemma owned_exists id x : existsb (owned_trace id p) (trace_rows x) = bool_decide (id ∈ List.map t_id (own_traces p x)).
Proof.
  apply eq_true_iff_eq. rw List.existsb_exists bool_decide_eq_true elem_of_map_select. unfold owned_trace. split.
  - intros (r & Hr%list_elem_of_In & [H1%bool_decide_eq_true H2]%andb_prop). exists r. eauto.
  - intros (r & Hr%list_elem_of_In & H1 & ->). exists r. split; [done|]. unfold with_trace_id. by rw bool_decide_eq_true_2.
Qed.

Lemma project_spans_own d : project_spans d p = own_spans p (telemetry d).
Proof. apply select_ext_in. intros s _. apply owned_exists. Qed.

Lemma spans_of_trace_own d id : id ∈ List.map t_id (own_traces p (telemetry d)) ->
  spans_of_trace d id = order_by (fun a b => (s_started a <? s_started b) || (s_started a =? s_started b) && (s_id a <=? s_id b)%N)
    (select (fun s => bool_decide (s_trace s = id)) (own_spans p (telemetry d))).
Proof.
  intros Hid. unfold spans_of_trace. f_equal. unfold own_spans, project_telemetry. cbn [span_rows]. rw -select_select.
  apply select_ext_in. intros s _. apply eq_true_iff_eq. rw andb_true_iff !bool_decide_eq_true. split; [|tauto].
  intros <-. done.
Qed.

Lemma owned_span_own d sid tid : select (owned_span d sid tid p) (spans_of d) =
  select (fun s => with_span_id sid s && bool_decide (s_trace s = tid)) (own_spans p (telemetry d)).
Proof.
  unfold own_spans, project_telemetry. cbn [span_rows]. rw -select_select. apply select_ext_in. intros s _.
  unfold owned_span. rw (owned_exists (s_trace s) (telemetry d)). apply andb_comm.
Qed.

(** *** Updates and deletions seen from a project *)

Lemma own_update q f x : (forall r, r ∈ trace_rows x -> q r = true -> t_id (f r) = t_id r /\ t_project (f r) = t_project r) ->
  project_telemetry p (set_trace_rows (update_where q f (trace_rows x)) x) =
  set_trace_rows (update_where q f (own_traces p x)) (project_telemetry p x).
Proof.
  intros H. unfold project_telemetry, set_trace_rows, own_traces. cbn [trace_rows span_rows].
  assert (E : select (of_project p) (update_where q f (trace_rows x)) = update_where q f (select (of_project p) (trace_rows x))).
  { apply select_update_where. intros r Hr Hq. unfold of_project. by destruct (H r Hr Hq) as [_ ->]. }
  assert (Ei : List.map t_id (update_where q f (select (of_project p) (trace_rows x))) = List.map t_id (select (of_project p) (trace_rows x))).
  { unfold update_where. rw List.map_map. apply List.map_ext_in. intros r Hr%list_elem_of_In.
    apply elem_of_select in Hr as [Hr _]. destruct (q r) eqn:Eq; [|done]. by apply H. }
  by rw E Ei.
Qed.


Lemma own_delete q x : telemetry_ok x ->
  project_telemetry p (delete_traces q x) = delete_traces q (project_telemetry p x).
Proof.
  intros (Hn & _). unfold project_telemetry, delete_traces. cbn [trace_rows span_rows].
  rw (delete_where_select (of_project p) q). f_equal.
  set (own := select (of_project p) (trace_rows x)).
  rw (delete_where_select (fun s => bool_decide (s_trace s ∈ List.map t_id (delete_where q own)))).
  change (delete_where (fun s => bool_decide (s_trace s ∈ List.map t_id (select q (trace_rows x))))
    (select (fun s => bool_decide (s_trace s ∈ List.map t_id (delete_where q own))) (span_rows x)) =
    delete_where (fun s => bool_decide (s_trace s ∈ List.map t_id (select q own)))
      (select (fun s => bool_decide (s_trace s ∈ List.map t_id own)) (span_rows x))).
  unfold delete_where. change (@List.filter SpanRow) with (@select SpanRow). rw -!select_select.
  apply select_ext_in. intros s _. apply eq_true_iff_eq. rw !andb_true_iff !negb_true_iff !bool_decide_eq_true !bool_decide_eq_false.
  change (List.filter (fun r => negb (q r)) own) with (delete_where q own).
  assert (Hin : forall r, r ∈ own -> r ∈ trace_rows x) by (intros r Hr; by apply elem_of_select in Hr as [? _]).
  split.
  - intros [(r & -> & [Hr Hq]%elem_of_delete_where)%list_elem_of_fmap Hg]. split; [apply list_elem_of_fmap; by exists r|].
    intros (r' & Hr' & [_ Hq']%andb_prop & Heq)%elem_of_map_select. apply Hg. apply elem_of_map_select. by exists r'.
  - intros [(r & -> & Hr)%list_elem_of_fmap Hg]. destruct (q r) eqn:Hq.
    { destruct Hg. apply elem_of_map_select. exists r. pose proof Hr as [Hr1 Hr2]%elem_of_select. by rw Hr2 Hq. }
    split; [apply list_elem_of_fmap; exists r; split; [done|by apply elem_of_delete_where]|].
    intros (r' & Hr' & Hq' & Heq)%elem_of_map_select.
    assert (r = r') as -> by (apply (NoDup_map_inj t_id (trace_rows x)); auto). congruence.
Qed.

Lemma own_span_update sid f x : (forall s, s ∈ span_rows x -> s_id s = sid -> s_trace (f s) = s_trace s) ->
  project_telemetry p (set_span_rows (update_where (with_span_id sid) f (span_rows x)) x) =
  set_span_rows (update_where (with_span_id sid) f (own_spans p x)) (project_telemetry p x).
Proof.
  intros H. unfold project_telemetry, set_span_rows, own_spans. cbn [trace_rows span_rows]. f_equal.
  apply select_update_where. intros s Hs Hi%bool_decide_eq_true. by rw (H s Hs Hi).
Qed.
End views.

Lemma set_trace_rows_id x : set_trace_rows (trace_rows x) x = x.
Proof. by destruct x. Qed.
Lemma set_span_rows_id x : set_span_rows (span_rows x) x = x.
Proof. by destruct x. Qed.

(** ** Changes inside a project

    [inside p x x']: integrity is kept and no other project sees the change. *)

Definition inside (p : N) (x x' : Telemetry) : Prop :=
  telemetry_ok x -> telemetry_ok x' /\ forall q, q <> p -> project_telemetry q x' = project_telemetry q x.
#[export] Instance inside_preorder p : PreOrder (inside p).
Proof.
  split; [by intros x H|]. intros x y z H1 H2 H. destruct (H1 H) as [Hy E1]. destruct (H2 Hy) as [Hz E2].
  split; [done|]. intros q Hq. by rw (E2 q Hq) (E1 q Hq).
Qed.


Lemma telemetry_ok_update q f x : (forall r, r ∈ trace_rows x -> q r = true -> t_id (f r) = t_id r) ->
  telemetry_ok x -> telemetry_ok (set_trace_rows (update_where q f (trace_rows x)) x).
Proof. intros H (H1 & H2 & H3). unfold telemetry_ok. cbn. rw (idents_update t_id q f _ H). done. Qed.

Lemma telemetry_ok_span_update q f x : (forall s, s ∈ span_rows x -> q s = true -> s_id (f s) = s_id s /\ s_trace (f s) = s_trace s) ->
  telemetry_ok x -> telemetry_ok (set_span_rows (update_where q f (span_rows x)) x).
Proof.
  intros H (H1 & H2 & H3). unfold telemetry_ok. cbn. rw (idents_update s_id q f); [intros s Hs Hq; by apply H|].
  split_and!; [done|done|]. apply Forall_forall. intros s (s0 & Hs0 & ->)%elem_of_update_where.
  rewrite Forall_forall in H3. destruct (q s0) eqn:Hq; [|by apply H3]. destruct (H s0 Hs0 Hq) as [_ ->]. by apply H3.
Qed.

(** Rows of one project change, staying in it. *)
Lemma inside_update p q f x :
  (forall r, r ∈ trace_rows x -> q r = true -> t_project r = p /\ t_id (f r) = t_id r /\ t_project (f r) = p) ->
  inside p x (set_trace_rows (update_where q f (trace_rows x)) x).
Proof.
  intros H Hok. split; [apply telemetry_ok_update; [|done]; intros r Hr Hq; by apply H|]. intros o Ho.
  rw own_update; [intros r Hr Hq; destruct (H r Hr Hq) as (-> & -> & ->); done|].
  rw update_where_none; [|exact (set_trace_rows_id _)].
  intros r [Hr Hp%bool_decide_eq_true]%elem_of_select. destruct (q r) eqn:Hq; [|done]. destruct (H r Hr Hq) as (Hp' & _). congruence.
Qed.

Lemma inside_delete p q x : (forall r, r ∈ trace_rows x -> q r = true -> t_project r = p) -> inside p x (delete_traces q x).
Proof.
  intros H Hok. split; [by apply telemetry_ok_delete|]. intros o Ho. apply project_telemetry_delete; [done|].
  intros r Hr Hp. destruct (q r) eqn:Hq; [|done]. rewrite (H r Hr Hq) in Hp. congruence.
Qed.

(** A span of a trace of the project changes. *)
Lemma inside_span_update p sid f x :
  (forall s, s ∈ span_rows x -> s_id s = sid -> s_id (f s) = s_id s /\ s_trace (f s) = s_trace s /\ s_trace s ∈ List.map t_id (own_traces p x)) ->
  inside p x (set_span_rows (update_where (with_span_id sid) f (span_rows x)) x).
Proof.
  intros H Hok. split.
  { apply telemetry_ok_span_update; [|done]. intros s Hs Hq%bool_decide_eq_true. destruct (H s Hs Hq) as (? & ? & _). done. }
  intros o Ho. rw own_span_update; [intros s Hs Hi; by apply H|].
  rw update_where_none; [|exact (set_span_rows_id _)].
  intros s [Hs Hin%bool_decide_eq_true]%elem_of_select. apply bool_decide_eq_false. intros Hi.
  destruct (H s Hs Hi) as (_ & _ & (r & Hr & [Hrx Hp%bool_decide_eq_true]%elem_of_select)%list_elem_of_fmap).
  apply elem_of_map_select in Hin as (r' & Hr' & Hp'%bool_decide_eq_true & Heq).
  assert (r = r') as -> by (apply (NoDup_map_inj t_id (trace_rows x)); [by destruct Hok|done..|congruence]). congruence.
Qed.

(** ** Requests inside a project *)

Definition winside (p : N) (w w' : World) : Prop := inside p (tel w) (tel w').
#[export] Instance winside_preorder p : PreOrder (winside p).
Proof. split; [intros w; unfold winside; reflexivity|]. intros x y z H1 H2. unfold winside in *. etransitivity; [exact H1|exact H2]. Qed.

Lemma select_scalar {R} (t : list R) o : scalar_one_or_none t = Ok (Some o) -> o ∈ t.
Proof. destruct t as [|a [|b t]]; cbn; [done| |done]. intros [= ->]. by left. Qed.

Lemma fields_keep fs r : t_id (foldl set_trace_field r fs) = t_id r /\ t_project (foldl set_trace_field r fs) = t_project r.
Proof. revert r. induction fs as [|f fs IH]; intros r; [done|]. cbn. destruct (IH (set_trace_field r f)) as [-> ->]. by split. Qed.
Lemma span_fields_keep fs s : s_id (foldl set_span_field s fs) = s_id s /\ s_trace (foldl set_span_field s fs) = s_trace s.
Proof. revert s. induction fs as [|f fs IH]; intros s; [done|]. cbn. destruct (IH (set_span_field s f)) as [-> ->]. by split. Qed.

Section requests.
Context (pg : Postgres) (p : N).

Lemma in_owned id r x : r ∈ select (owned_trace id p) (trace_rows x) ->
  r ∈ trace_rows x /\ t_id r = id /\ t_project r = p.
Proof. by intros [Hr [H1%bool_decide_eq_true H2%bool_decide_eq_true]%andb_prop]%elem_of_select. Qed.

Lemma winside_if {A} (m : M World A) : (forall w, telemetry_ok (tel w) -> winside p w (m w).2) -> respects (winside p) m.
Proof. intros H w Hok. by apply H. Qed.

Lemma winside_update_trace id fs : respects (winside p) (TraceRepository.update_trace id p fs).
Proof.
  apply winside_if. intros w Hok. unfold TraceRepository.update_trace, mbind, M_bind, read_db, gets, lift, guard_not. cbn.
  destruct (scalar_one_or_none _) as [[r|]|e] eqn:E; cbn; [|reflexivity..]. destruct (negb _); cbn; [reflexivity|].
  apply select_scalar, in_owned in E as (Hr & Hid & Hp). apply inside_update. intros r0 Hr0 H0%bool_decide_eq_true.
  assert (r0 = r) as -> by (apply (NoDup_map_inj t_id (trace_rows (tel w))); [by destruct Hok|done..|congruence]).
  destruct (fields_keep fs r) as [-> ->]. done.
Qed.

Lemma winside_update_span sid id fs : respects (winside p) (TraceRepository.update_span sid id p fs).
Proof.
  apply winside_if. intros w Hok. unfold TraceRepository.update_span, mbind, M_bind, read_db, gets, lift, guard_not. cbn.
  destruct (scalar_one_or_none _) as [[s|]|e] eqn:E; cbn; [|reflexivity..]. destruct (negb _); cbn; [reflexivity|]. apply select_scalar in E.
  rewrite owned_span_own in E. apply elem_of_select in E as [[Hs Hin%bool_decide_eq_true]%elem_of_select [Hi%bool_decide_eq_true _]%andb_prop].
  apply inside_span_update. intros s0 Hs0 H0.
  assert (s0 = s) as -> by (apply (NoDup_map_inj s_id (span_rows (tel w))); [by destruct Hok as (_ & ? & _)|done..|congruence]).
  destruct (span_fields_keep fs s) as [-> ->]. done.
Qed.

Lemma winside_delete q : (forall r, q r = true -> t_project r = p) -> respects (winside p) (delete_where_traces q).
Proof. intros H w. cbn. apply inside_delete. intros r _. apply H. Qed.

Lemma winside_tags ids add rem : respects (winside p) (batch_update_tags pg p ids add rem).
Proof.
  intros w. unfold batch_update_tags, mbind, M_bind, read_db, gets, guard_not. cbn. destruct (negb _); cbn; [reflexivity|].
  destruct (existsb _ _); cbn; [reflexivity|].
  apply inside_update. intros r _ [Hp%bool_decide_eq_true _]%andb_prop. done.
Qed.
End requests.

(** ** Upserts and a project that does not own the named rows *)

Definition spares (q : N) (x x' : Telemetry) : Prop :=
  telemetry_ok x -> telemetry_ok x' /\ project_telemetry q x' = project_telemetry q x.
#[export] Instance spares_preorder q : PreOrder (spares q).
Proof.
  split; [by intros x H|]. intros x y z H1 H2 H. destruct (H1 H) as [Hy E1]. destruct (H2 Hy) as [Hz E2].
  split; [done|]. by rw E2 E1.
Qed.
Lemma inside_spares p q x x' : q <> p -> inside p x x' -> spares q x x'.
Proof. intros Hq H Hok. destruct (H Hok) as [H1 H2]. split; [done|by apply H2]. Qed.

(** The span identifiers of a project. *)
Definition own_span_ids (q : N) (x : Telemetry) : list N := List.map s_id (own_spans q x).
Definition own_trace_ids (q : N) (x : Telemetry) : list N := List.map t_id (own_traces q x).

Lemma spares_put_span q s x : s_trace s ∈ List.map t_id (trace_rows x) \/ s_id s ∈ List.map s_id (span_rows x) ->
  s_id s ∉ own_span_ids q x -> (s_trace s ∉ own_trace_ids q x \/ s_id s ∈ List.map s_id (span_rows x)) ->
  spares q x (set_span_rows (put s_id merge_span (span_rows x) s) x).
Proof.
  intros Hfk Hid Htr (H1 & H2 & H3). unfold put. destruct (existsb _ (span_rows x)) eqn:He.
  - split; [by apply telemetry_ok_span_update|].
    change (hit s_id (s_id s)) with (with_span_id (s_id s)). rw own_span_update; [done|].
    rw update_where_none; [|exact (set_span_rows_id _)]. intros r Hr. apply bool_decide_eq_false. intros Heq.
    apply Hid. apply list_elem_of_fmap. exists r. by rw Heq.
  - assert (Hn : s_id s ∉ List.map s_id (span_rows x)) by (intros Hin; apply existsb_hit in Hin; congruence).
    split.
    + split_and!; cbn; [done| |].
      * rw List.map_app. apply NoDup_app. split_and!; [done| |apply NoDup_singleton]. by intros i Hi ->%list_elem_of_singleton.
      * apply Forall_app. split; [done|]. constructor; [|done]. by destruct Hfk.
    + unfold project_telemetry, set_span_rows. cbn [trace_rows span_rows]. f_equal. rw select_app.
      rw (select_none _ [s]); [|by rw app_nil_r]. intros r ->%list_elem_of_singleton. apply bool_decide_eq_false.
      destruct Htr as [Htr|Htr]; [exact Htr|done].
Qed.

Lemma spares_put_trace pg q r x : t_id r ∉ own_trace_ids q x -> t_project r <> q ->
  spares q x {| trace_rows := put t_id (merge_trace pg) (trace_rows x) r; span_rows := span_rows x; evals := evals x |}.
Proof.
  intros Hid Hq Hok. unfold put. destruct (existsb _ (trace_rows x)) eqn:He.
  - split; [by apply telemetry_ok_update|].
    change {| trace_rows := ?l; span_rows := span_rows x; evals := evals x |} with (set_trace_rows l x). rw own_update; [done|].
    rw update_where_none; [|exact (set_trace_rows_id _)]. intros y Hy. apply bool_decide_eq_false. intros Heq.
    apply Hid. apply list_elem_of_fmap. exists y. by rw Heq.
  - assert (Hn : t_id r ∉ List.map t_id (trace_rows x)) by (intros Hin; apply existsb_hit in Hin; congruence).
    destruct Hok as (H1 & H2 & H3). split.
    + split_and!; cbn; [|done|].
      * rw List.map_app. apply NoDup_app. split_and!; [done| |apply NoDup_singleton]. by intros i Hi ->%list_elem_of_singleton.
      * eapply Forall_impl; [exact H3|]. intros s Hs. cbn. rw List.map_app. apply elem_of_app. by left.
    + unfold project_telemetry. cbn [trace_rows span_rows]. rw select_app (select_none (of_project q) [r]); [|by rw app_nil_r].
      intros y ->%list_elem_of_singleton. by apply bool_decide_eq_false.
Qed.

(** A batch of spans on a trace another project does not own. *)
Definition wspares (q : N) (w w' : World) : Prop := spares q (tel w) (tel w').

Lemma own_views q x x' : project_telemetry q x' = project_telemetry q x ->
  own_trace_ids q x' = own_trace_ids q x /\ own_span_ids q x' = own_span_ids q x.
Proof. intros H. unfold own_trace_ids, own_span_ids, own_traces, own_spans. by rw H. Qed.

Lemma spares_upsert_spans q l w : telemetry_ok (tel w) ->
  (forall s, s ∈ l -> sp_id s ∉ own_span_ids q (tel w) /\ sp_trace s ∉ own_trace_ids q (tel w)) ->
  wspares q w (for_each l _upsert_span w).2.
Proof.
  revert w. induction l as [|s l IH]; intros w Hok H; [unfold wspares; cbn; reflexivity|].
  cbn [for_each]. unfold mbind, M_bind. rw upsert_span_run. destruct (negb _); [unfold wspares; reflexivity|].
  destruct (_ || _) eqn:E; [|unfold wspares; reflexivity].
  set (w1 := set_db _ w). destruct (H s) as [Hid Htr]; [by left|].
  assert (Hs : spares q (tel w) (tel w1)).
  { apply spares_put_span; [|done|by left]. apply orb_prop in E as [E|E]; [right|left].
    - by apply (existsb_hit s_id). - by apply (existsb_hit t_id). }
  destruct (Hs Hok) as [Hok1 Eq]. unfold wspares. etransitivity; [exact Hs|]. apply IH; [done|].
  intros y Hy. destruct (own_views q _ _ Eq) as [-> ->]. apply H. by right.
Qed.

(** ** Deliveries *)

Lemma spares_store_trace pg q t c x : telemetry_ok x -> t_project (trace_values t c) <> q ->
  tr_id t ∉ own_trace_ids q x -> (forall s, s ∈ tr_spans t -> sp_trace s = tr_id t /\ sp_id s ∉ own_span_ids q x) ->
  spares q x (store_trace pg (trace_values t c) (List.map span_values (tr_spans t)) x).
Proof.
  intros Hok Hq Hid Hs. set (x1 := {| trace_rows := put t_id (merge_trace pg) (trace_rows x) (trace_values t c); span_rows := span_rows x; evals := evals x |}).
  assert (H1 : spares q x x1) by (by apply spares_put_trace).
  destruct (H1 Hok) as [Hok1 E1]. destruct (own_views q _ _ E1) as [Et Es].
  assert (Hin : tr_id t ∈ List.map t_id (trace_rows x1)) by (apply (elem_of_idents_put t_id (merge_trace pg)); by right).
  transitivity x1; [exact H1|].
  assert (Hall : forall l y, telemetry_ok y -> tr_id t ∈ List.map t_id (trace_rows y) -> project_telemetry q y = project_telemetry q x ->
    (forall s, s ∈ l -> sp_trace s = tr_id t /\ sp_id s ∉ own_span_ids q x) ->
    spares q y (set_span_rows (puts s_id merge_span (span_rows y) (List.map span_values l)) y)).
  { clear - Hid. induction l as [|s l IH]; intros y Hy Hin E Hl; [cbn; rw set_span_rows_id; reflexivity|].
    destruct (own_views q _ _ E) as [Et Es]. destruct (Hl s) as [Htr Hsid]; [by left|].
    cbn [List.map]. rw puts_cons. set (y1 := set_span_rows (put s_id merge_span (span_rows y) (span_values s)) y).
    assert (H1 : spares q y y1).
    { apply spares_put_span; [left|rw Es; exact Hsid|left; rw Et]; cbn; by rw Htr. }
    destruct (H1 Hy) as [Hy1 E1]. transitivity y1; [exact H1|]. apply (IH y1); [done|done|by rw E1|].
    intros s' Hs'. apply Hl. by right. }
  apply (Hall (tr_spans t) x1); auto.
Qed.

(** What a session leaves behind. *)
Lemma get_db_session_effect {A} (m : M World A) w : respects (keeps durable) m ->
  durable (get_db_session m w).2 = match (m (set_db (durable w) w)) with (Ok _, w1) => db w1 | (Err _, _) => durable w end.
Proof.
  intros Hm. unfold get_db_session, rollback, commit, try_finally, try_except, raise.
  cbv [mbind M_bind modify mret M_ret]. specialize (Hm (set_db (durable w) w)). unfold keeps in Hm.
  destruct (m _) as [[a|e] w1]; [done|]. exact Hm.
Qed.

Lemma delivered pg t n w : durable (process_trace pg t n w).2 = durable w \/
  Trace_validate t = Ok t /\ durable (process_trace pg t n w).2 = stored pg t (now w) (durable w).
Proof.
  unfold process_trace, try_except. destruct (_persist_trace pg t w) as [[[]|e] w1] eqn:E.
  - right. apply persist_Ok in E as (Hv & _ & ->). by split.
  - left. pose proof (persist_keeps pg t w) as [Hd _]. rewrite E in Hd. specialize (Hd e eq_refl).
    by destruct (_ <? _)%nat.
Qed.

(** ** What a request does

    A relation that the six statements that write respect, for the project of the
    context, is respected by every call. *)
Lemma respects_read_res (R : World -> World -> Prop) `{!PreOrder R} {A} (f : DB -> res A) : respects R (read_res f).
Proof. unfold read_res, read_db. respects_auto. Qed.

Lemma respects_project_of (R : World -> World -> Prop) `{!PreOrder R} ctx {A} (k : Project -> M World A) :
  (forall p, cx_project ctx = Some p -> respects R (k p)) -> respects R (p ← project_of ctx; k p).
Proof.
  intros H. unfold project_of, or_raise. destruct (cx_project ctx) as [p|].
  - intros w. apply (H p); done.
  - intros w. cbn. reflexivity.
Qed.

Section serve.
Context (R : World -> World -> Prop) `{!PreOrder R} (pg : Postgres) (ctx : ApiContext) (c : TraceCall).
Hypothesis Hupdate : forall p id fs, cx_project ctx = Some p -> respects R (TraceRepository.update_trace id (p_id p) fs).
Hypothesis Hspan : forall p s id fs, cx_project ctx = Some p -> respects R (TraceRepository.update_span s id (p_id p) fs).
Hypothesis Hadd : forall p id body l, cx_project ctx = Some p -> c = AddSpans id body -> TracesApi.build_spans id body = Ok l ->
  respects R (TraceRepository.add_spans id (p_id p) l).
Hypothesis Hdelete : forall p q, cx_project ctx = Some p -> (forall r, q r = true -> t_project r = p_id p) ->
  respects R (delete_where_traces q).
Hypothesis Htags : forall p ids add rem, cx_project ctx = Some p -> respects R (batch_update_tags pg (p_id p) ids add rem).

Lemma respects_serve : respects R (serve_trace pg ctx c).
Proof using All.
  assert (Hread : forall A (f : DB -> res A), respects R (read_res f)) by (intros; by apply respects_read_res).
  assert (Hg : forall b e, respects R (@guard_not World b e)) by (intros; by apply respects_guard_not).
  assert (Hstats : forall p ids, respects R (get_trace_span_stats pg p ids)).
  { intros p [|i ids]; [by apply respects_ret|apply Hread]. }
  assert (Hrich : forall t, respects R (TraceService._enrich_trace pg t)).
  { intros t. unfold TraceService._enrich_trace. respects_auto; auto. }
  assert (Hget : forall id p, respects R (TraceRepository.get_trace id p)).
  { intros. unfold TraceRepository.get_trace, read_db. respects_auto; auto. }
  assert (Hdb : forall A (f : DB -> A), respects R (read_db f)) by (intros; by apply respects_gets).
  destruct c; cbn [serve_trace]; apply respects_bind; try typeclasses eauto; try (intros; by apply respects_ret).
  all: unfold TracesApi.list_traces, TracesApi.get_analytics, TracesApi.list_trace_users, TracesApi.batch_delete,
    TracesApi.batch_tags, TracesApi.update_trace, TracesApi.add_spans, TracesApi.update_span, TracesApi.get_trace,
    TracesApi.delete_trace, SessionsApi.list_sessions, SessionsApi.get_session_analytics, SessionsApi.get_session,
    SessionsApi.delete_session.
  all: repeat match goal with
    | |- respects R (project_of _ ≫= _) => apply respects_project_of; [done|intros p Hp]
    | |- respects R (schema _ ≫= _) => apply respects_bind; [done|apply Hg|intros _]
    | |- context [match ?l with [] => _ | _ :: _ => _ end] => destruct l
    | |- respects R (mret _) => by apply respects_ret
    | |- context [match ?m with TracesApi.VOLUME => _ | _ => _ end] => destruct m
    end.
  all: unfold TraceService.update_trace, TraceService.update_span, TraceService.get_trace, TraceService.delete_trace,
    TraceService.get_session_summary, TraceService.get_session_traces, TraceService.delete_session,
    TraceService.list_traces, TraceService.get_trace_analytics, TraceService.get_token_cost_analytics,
    TraceService.get_top_models, TraceService.list_trace_users, TraceService.list_sessions,
    TraceService.get_session_analytics, TraceService.batch_delete_traces, TraceService.batch_update_tags,
    TraceRepository.delete_trace, TraceRepository.delete_session, TraceRepository.batch_delete_traces,
    TraceQueries.list_traces, TraceQueries.get_trace_analytics, TraceQueries.get_token_cost_analytics,
    TraceQueries.get_top_models, TraceQueries.list_trace_users, TraceQueries.list_sessions,
    TraceQueries.get_session_analytics, TraceQueries.get_session_summary, TraceQueries.get_session_traces.
  all: try solve [respects_auto; eauto].
  - apply (Hdelete p); [done|]. by intros r [H%bool_decide_eq_true _]%andb_prop.
  - unfold lift. destruct (TracesApi.build_spans id body) as [l|e] eqn:El; [|intros w; cbn; reflexivity].
    change (respects R (project ← project_of ctx;
      TraceService.add_spans id (p_id project) l ;; mret (List.map sp_id l))).
    apply respects_project_of; [done|intros p Hp]. unfold TraceService.add_spans. respects_auto.
  - respects_auto. apply (Hdelete p); [done|]. by intros r [_ H%bool_decide_eq_true]%andb_prop.
  - respects_auto. apply (Hdelete p); [done|]. by intros r [H%bool_decide_eq_true _]%andb_prop.
Qed.
End serve.

Lemma keeps_serve pg ctx c : respects (keeps durable) (serve_trace pg ctx c).
Proof.
  apply (respects_serve (keeps durable)); intros.
  - by apply keeps_update_trace.
  - by apply keeps_update_span.
  - by apply keeps_add_spans.
  - by apply keeps_delete.
  - by apply keeps_tags.
Qed.

(** ** Events *)

Inductive Event :=
  | Serve (ctx : ApiContext) (c : TraceCall)
  | Deliver (payload : Trace) (retries : nat).

Definition run_event (pg : Postgres) (w : World) (e : Event) : World :=
  match e with
  | Serve ctx c => (get_db_session (serve_trace pg ctx c) w).2
  | Deliver payload retries => (process_trace pg payload retries w).2
  end.

(** An event of another project than [q] whose body names no trace and no span of [q]. *)
Definition elsewhere (q : N) (x : Telemetry) (e : Event) : Prop :=
  match e with
  | Serve ctx c =>
      (forall p, cx_project ctx = Some p -> p_id p <> q) /\
      (forall id body s, c = AddSpans id body -> s ∈ body -> TracesApi.sc_id s ∉ own_span_ids q x)
  | Deliver t _ =>
      tr_project t <> q /\ tr_id t ∉ own_trace_ids q x /\
      forall s, s ∈ tr_spans t -> sp_trace s = tr_id t /\ sp_id s ∉ own_span_ids q x
  end.

(** As [wspares], for a project whose span identifiers are [ids]. *)
Definition wspares_if (q : N) (ids : list N) (w w' : World) : Prop := own_span_ids q (tel w) = ids -> wspares q w w'.
#[export] Instance wspares_if_preorder q ids : PreOrder (wspares_if q ids).
Proof.
  split; [intros w _; unfold wspares; reflexivity|]. intros x y z H1 H2 Hx Hok.
  destruct (H1 Hx Hok) as [Hy E]. destruct (own_views q _ _ E) as [_ Es].
  destruct (H2 (eq_trans Es Hx) Hy) as [Hz E2]. split; [done|]. by rw E2 E.
Qed.

Lemma build_spans_ids id body l s : TracesApi.build_spans id body = Ok l -> s ∈ l ->
  sp_trace s = id /\ exists b, b ∈ body /\ sp_id s = TracesApi.sc_id b.
Proof.
  revert l. induction body as [|b body IH]; intros l H Hs; [injection H as <-; by apply elem_of_nil in Hs|].
  change (TracesApi.build_spans id (b :: body)) with
    (x ← Span_validate (TracesApi.build_span id b); xs ← TracesApi.build_spans id body; Ok (x :: xs)) in H.
  destruct (Span_validate _) as [x|] eqn:Ex; [|done]. unfold Span_validate in Ex. destruct (Span_ok _); [|done].
  injection Ex as <-. cbn in H. destruct (TracesApi.build_spans id body) as [l'|] eqn:E; [|done]. injection H as <-. apply elem_of_cons in Hs as [->|Hs]; [split; [done|exists b; split; [by left|done]]|].
  destruct (IH l' eq_refl Hs) as [? (b' & Hb' & ?)]. split; [done|]. exists b'. split; [by right|done].
Qed.

Lemma serve_spares pg q ctx c w : telemetry_ok (tel w) -> elsewhere q (tel w) (Serve ctx c) ->
  wspares q w (serve_trace pg ctx c w).2.
Proof.
  intros Hok [Hp Hc]. set (ids := own_span_ids q (tel w)) in *.
  assert (Hin : forall p A (m : M World A), cx_project ctx = Some p -> respects (winside (p_id p)) m -> respects (wspares_if q ids) m).
  { intros p A m E H w0 _. apply (inside_spares (p_id p)); [by apply not_eq_sym, Hp|apply H]. }
  apply (respects_serve (wspares_if q ids)); [..|done]; intros.
  - by eapply Hin, winside_update_trace.
  - by eapply Hin, winside_update_span.
  - subst c. intros w0 Hids Hok0. unfold TraceRepository.add_spans, mbind, M_bind, read_db, gets, lift. cbn.
    destruct (scalar_one_or_none _) as [[r|]|e] eqn:E; cbn; [|by split..].
    apply select_scalar, in_owned in E as (Hr & Hid & Hpr).
    assert (Hs : wspares q w0 (for_each l _upsert_span w0).2).
    { apply spares_upsert_spans; [done|]. intros s Hs. destruct (build_spans_ids _ _ _ _ H1 Hs) as (-> & b & Hb & ->).
      split; [rw Hids; by eapply Hc|]. intros (r' & Hr' & [Hr2 Hp2%bool_decide_eq_true]%elem_of_select)%list_elem_of_fmap.
      assert (r' = r) as -> by (apply (NoDup_map_inj t_id (trace_rows (tel w0))); [by destruct Hok0|done..|congruence]).
      apply (Hp p H). congruence. }
    destruct (for_each l _upsert_span w0) as [[[]|e] w1]; exact (Hs Hok0).
  - eapply Hin; [eassumption|]. by apply winside_delete.
  - eapply Hin; [eassumption|]. apply winside_tags.
Qed.

Lemma event_spares pg q e w : telemetry_ok (telemetry (durable w)) -> elsewhere q (telemetry (durable w)) e ->
  spares q (telemetry (durable w)) (telemetry (durable (run_event pg w e))).
Proof.
  intros Hok He. destruct e as [ctx c|t n]; cbn [run_event].
  - rw (get_db_session_effect _ w (keeps_serve pg ctx c)).
    pose proof (serve_spares pg q ctx c (set_db (durable w) w) Hok He) as H.
    destruct (serve_trace pg ctx c _) as [[a|e] w1]; [exact H|reflexivity].
  - destruct He as (Hp & Hid & Hs). destruct (delivered pg t n w) as [->|[_ ->]]; [reflexivity|].
    by apply spares_store_trace.
Qed.

(** ** Noninterference

    Two worlds agree on a project when its telemetry is the same in both; [blind p m]:
    in such worlds [m] answers the same and leaves worlds that agree again. *)

Definition agree (p : N) (w1 w2 : World) : Prop :=
  telemetry_ok (tel w1) /\ telemetry_ok (tel w2) /\ project_telemetry p (tel w1) = project_telemetry p (tel w2).
Definition blind (p : N) {A} (m : M World A) : Prop :=
  forall w1 w2, agree p w1 w2 -> (m w1).1 = (m w2).1 /\ agree p (m w1).2 (m w2).2.
(** The same for a function of the database, as a query is. *)
Definition sees (p : N) {A} (f : DB -> A) : Prop :=
  forall d1 d2, telemetry_ok (telemetry d1) -> telemetry_ok (telemetry d2) ->
    project_telemetry p (telemetry d1) = project_telemetry p (telemetry d2) -> f d1 = f d2.

Section blind.
Context (pg : Postgres) (p : N).

Lemma blind_ret {A} (a : A) : blind p (mret a).
Proof using. by intros w1 w2 H. Qed.
Lemma blind_raise {A} e : blind p (@raise World A e).
Proof using. by intros w1 w2 H. Qed.
Lemma blind_lift {A} (r : res A) : blind p (lift r).
Proof using. by intros w1 w2 H. Qed.
Lemma blind_guard_not b e : blind p (guard_not b e).
Proof using. destruct b; [apply blind_raise|apply blind_ret]. Qed.
Lemma blind_read_db {A} (f : DB -> A) : sees p f -> blind p (read_db f).
Proof using. intros Hf w1 w2 H. split; [|done]. cbn. f_equal. by apply Hf; apply H. Qed.
Lemma blind_bind {A B} (m : M World A) (k : A -> M World B) : blind p m -> (forall a, blind p (k a)) -> blind p (m ≫= k).
Proof using.
  intros Hm Hk w1 w2 H. specialize (Hm w1 w2 H). unfold mbind, M_bind.
  destruct (m w1) as [r1 w1'], (m w2) as [r2 w2']. destruct Hm as [Hr Hw]. cbn in Hr, Hw. subst r2.
  destruct r1 as [a|e]; [by apply Hk|done].
Qed.
Lemma blind_read_res {A} (f : DB -> res A) : sees p f -> blind p (read_res f).
Proof using. intros Hf. apply blind_bind; [by apply blind_read_db|apply blind_lift]. Qed.

(** Writes that stay inside the project and are a function of its telemetry. *)
Lemma blind_write f g : (forall d, telemetry_ok (telemetry d) -> inside p (telemetry d) (telemetry (f d))) ->
  (forall d, telemetry_ok (telemetry d) -> project_telemetry p (telemetry (f d)) = g (project_telemetry p (telemetry d))) ->
  blind p (write_db f).
Proof using.
  intros Hi Hg w1 w2 (H1 & H2 & H). split; [done|]. unfold agree, tel, write_db, modify in *. cbn.
  split; [by apply Hi|]. split; [by apply Hi|].
  exact (eq_trans (Hg _ H1) (eq_trans (f_equal g H) (eq_sym (Hg _ H2)))).
Qed.

Lemma sees_const {A} (a : A) : sees p (fun _ => a).
Proof using. by intros d1 d2 _ _ _. Qed.
Lemma sees_traces (f : TraceRow -> bool) : sees p (fun d => select (fun r => of_project p r && f r) (traces_of d)).
Proof using. intros d1 d2 _ _ H. unfold traces_of. rw !select_own. unfold own_traces. by rw H. Qed.
Lemma sees_owned id : sees p (fun d => select (owned_trace id p) (traces_of d)).
Proof using. intros d1 d2 _ _ H. unfold traces_of. rw !select_owned. unfold own_traces. by rw H. Qed.
Lemma sees_own (q : TraceRow -> bool) : (forall r, q r = true -> of_project p r = true) -> sees p (fun d => select q (traces_of d)).
Proof using.
  intros Hq d1 d2 H1 H2 H. rw !(select_ext_in q (fun r => of_project p r && q r)).
  1,2: intros r _; destruct (q r) eqn:E; [by rw Hq|by rw andb_false_r].
  by apply sees_traces.
Qed.
Lemma sees_spans : sees p (fun d => project_spans d p).
Proof using. intros d1 d2 _ _ H. rw !project_spans_own. unfold own_spans. by rw H. Qed.
Lemma sees_stats want : sees p (fun d => _span_stats_subquery pg d p want).
Proof using. intros d1 d2 H1 H2 H. unfold _span_stats_subquery. by rw (sees_spans d1 d2 H1 H2 H). Qed.

(** *** Queries *)

Lemma sees_sessions test : (forall r, test r = true -> of_project p r = true) -> sees p (fun d => sessions_of test (traces_of d)).
Proof using.
  intros Ht d1 d2 H1 H2 H. unfold sessions_of. do 2 f_equal.
  refine (sees_own (fun t => test t && negb (bool_decide (t_session t = None))) _ d1 d2 H1 H2 H).
  intros r [Hr _]%andb_prop. by apply Ht.
Qed.
Lemma of_session_own sid r : of_session p sid r = true -> of_project p r = true.
Proof using. by intros [H _]%andb_prop. Qed.
Lemma sees_session sid : sees p (fun d => select (of_session p sid) (traces_of d)).
Proof using. apply sees_own, of_session_own. Qed.
Lemma sees_trace_spans d1 d2 r : telemetry_ok (telemetry d1) -> telemetry_ok (telemetry d2) ->
  project_telemetry p (telemetry d1) = project_telemetry p (telemetry d2) ->
  r ∈ traces_of d1 -> of_project p r = true -> spans_of_trace d1 (t_id r) = spans_of_trace d2 (t_id r).
Proof using.
  intros H1 H2 H Hr Hp. assert (Hin : t_id r ∈ List.map t_id (own_traces p (telemetry d1))).
  { apply list_elem_of_fmap. exists r. split; [done|by apply elem_of_select]. }
  assert (Hin2 : t_id r ∈ List.map t_id (own_traces p (telemetry d2))) by (unfold own_traces in *; by rw -H).
  rw (spans_of_trace_own p d1 _ Hin) (spans_of_trace_own p d2 _ Hin2). unfold own_spans. by rw H.
Qed.

Lemma blind_list_traces l o f b s : blind p (TraceQueries.list_traces pg p l o f b s).
Proof using.
  apply blind_read_res. intros d1 d2 H1 H2 H. rw (sees_stats _ d1 d2 H1 H2 H).
  destruct (_apply_trace_filters f) as [test|e]; [|done]. cbn.
  destruct (_span_stats_subquery pg d2 p _) as [stats|e]; [|done]. cbn. by rw (sees_traces test d1 d2 H1 H2 H).
Qed.

Lemma session_filter_own f test : session_filter p f = Ok test -> forall r, test r = true -> of_project p r = true.
Proof using.
  unfold session_filter. destruct (contains_filter _) as [like|]; [|done]. intros [= <-] r Hr.
  repeat apply andb_prop in Hr as [Hr _]. done.
Qed.

Lemma blind_list_sessions l o f b s : blind p (TraceQueries.list_sessions pg p l o f b s).
Proof using.
  apply blind_read_res. intros d1 d2 H1 H2 H. rw (sees_stats _ d1 d2 H1 H2 H).
  destruct (session_filter p f) as [test|e] eqn:Ef; [|done]. cbn.
  destruct (_span_stats_subquery pg d2 p _) as [stats|e]; [|done]. cbn.
  rw (sees_sessions test (session_filter_own f test Ef) d1 d2 H1 H2 H). f_equal. f_equal.
  apply List.map_ext. intros g. f_equal. refine (sees_own (fun t => test t && sql_eq (t_session t) g.1) _ d1 d2 H1 H2 H).
  intros r [Hr _]%andb_prop. by apply (session_filter_own f test Ef).
Qed.

Lemma blind_session_summary sid : blind p (TraceQueries.get_session_summary pg p sid).
Proof using.
  apply blind_read_res. intros d1 d2 H1 H2 H. by rw (sees_stats _ d1 d2 H1 H2 H) (sees_session sid d1 d2 H1 H2 H).
Qed.

Lemma blind_session_traces sid l o : blind p (TraceQueries.get_session_traces p sid l o).
Proof using.
  apply blind_read_res. intros d1 d2 H1 H2 H. rw -(sees_session sid d1 d2 H1 H2 H). f_equal. f_equal.
  apply List.map_ext_in. intros r Hr%list_elem_of_In. f_equal. apply sees_trace_spans; [done..| |].
  all: unfold page in Hr; apply (subseteq_take (Z.to_nat l)), (subseteq_drop (Z.to_nat o)), elem_of_order_by, elem_of_select in Hr as [Hr Hs].
  all: [> done | by apply (of_session_own sid)].
Qed.

Lemma blind_span_stats ids : blind p (get_trace_span_stats pg p ids).
Proof using.
  destruct ids as [|i ids]; [apply blind_ret|]. apply blind_read_res. intros d1 d2 H1 H2 H.
  by rw (sees_stats _ d1 d2 H1 H2 H).
Qed.

Lemma blind_session_analytics g a b : blind p (TraceQueries.get_session_analytics pg p g a b).
Proof using.
  apply blind_read_db. intros d1 d2 H1 H2 H.
  rw (sees_sessions (fun t => of_project p t && in_window a b (t_started t)) (fun r Hr => proj1 (andb_prop _ _ Hr)) d1 d2 H1 H2 H).
  done.
Qed.
Lemma blind_trace_analytics g a b : blind p (TraceQueries.get_trace_analytics pg p g a b).
Proof using. apply blind_read_db. intros d1 d2 H1 H2 H. by rw (sees_traces (fun t => in_window a b (t_started t)) d1 d2 H1 H2 H). Qed.
Lemma blind_token_analytics g a b : blind p (TraceQueries.get_token_cost_analytics pg p g a b).
Proof using. apply blind_read_res. intros d1 d2 H1 H2 H. by rw (sees_spans d1 d2 H1 H2 H). Qed.
Lemma blind_top_models a b n : blind p (TraceQueries.get_top_models pg p a b n).
Proof using. apply blind_read_res. intros d1 d2 H1 H2 H. by rw (sees_spans d1 d2 H1 H2 H). Qed.
Lemma blind_users l o : blind p (TraceQueries.list_trace_users p l o).
Proof using.
  apply blind_read_db. intros d1 d2 H1 H2 H. by rw (sees_traces (fun t => negb (bool_decide (t_user t = None))) d1 d2 H1 H2 H).
Qed.

Lemma blind_get_trace id : blind p (TraceRepository.get_trace id p).
Proof using.
  intros w1 w2 H. pose proof H as (H1 & H2 & H12). unfold TraceRepository.get_trace, read_res, mbind, M_bind, read_db, gets, lift. cbn.
  rw -(sees_owned id (db w1) (db w2) H1 H2 H12). destruct (scalar_one_or_none _) as [[r|]|e] eqn:E; [|done..].
  apply select_scalar, elem_of_select in E as [Hr [_ Hp]%andb_prop].
  rw (sees_trace_spans (db w1) (db w2) r H1 H2 H12 Hr Hp). by destruct (_to_trace _ _).
Qed.

(** *** Writes *)

Lemma blind_delete q : (forall r, q r = true -> t_project r = p) -> blind p (delete_where_traces q).
Proof using.
  intros Hq. assert (Hown : forall r, q r = true -> of_project p r = true) by (intros r Hr; by apply bool_decide_eq_true_2, Hq).
  apply blind_bind; [apply blind_read_db|].
  { intros d1 d2 H1 H2 H. by rw (sees_own q Hown d1 d2 H1 H2 H). }
  intros n. apply blind_bind; [|intros ?; apply blind_ret].
  apply (blind_write _ (delete_traces q)); [|intros d Hd; by apply own_delete].
  intros d _. apply inside_delete. intros r _. apply Hq.
Qed.

Lemma blind_tags ids add rem : blind p (batch_update_tags pg p ids add rem).
Proof using.
  unfold batch_update_tags. apply blind_bind; [apply blind_guard_not|intros _]. apply blind_bind; [apply blind_read_db, sees_own; by intros r [Hr _]%andb_prop|].
  intros rows. apply blind_bind; [apply blind_guard_not|intros _]. apply blind_bind; [|intros ?; apply blind_ret].
  apply (blind_write _ (fun y => set_trace_rows (update_where (in_batch p ids)
    (fun r => set_tags (default [] (tags_expr pg add rem (t_tags r))) r) (trace_rows y)) y)).
  - intros d _. apply inside_update. intros r _ [Hp%bool_decide_eq_true _]%andb_prop. done.
  - intros d _. by apply own_update.
Qed.

(** The row a client may change, and what the update leaves of the project. *)
Lemma updated_trace id r fs w : telemetry_ok (tel w) -> r ∈ select (owned_trace id p) (traces_of (db w)) ->
  let r' := foldl set_trace_field r fs in
  project_telemetry p (set_trace_rows (update_where (with_trace_id id) (fun _ => r') (trace_rows (tel w))) (tel w)) =
  set_trace_rows (update_where (with_trace_id id) (fun _ => r') (own_traces p (tel w))) (project_telemetry p (tel w)).
Proof using.
  intros Hok (Hr & Hid & Hp)%in_owned. cbv zeta. apply own_update. intros r0 Hr0 H0%bool_decide_eq_true.
  assert (r0 = r) as -> by (apply (NoDup_map_inj t_id (trace_rows (tel w))); [by destruct Hok|done..|congruence]).
  destruct (fields_keep fs r) as [-> ->]. done.
Qed.

Lemma blind_update_trace id fs : blind p (TraceRepository.update_trace id p fs).
Proof using.
  intros w1 w2 H. pose proof H as (H1 & H2 & H12).
  destruct (winside_update_trace p id fs w1 H1) as [O1 _]. destruct (winside_update_trace p id fs w2 H2) as [O2 _].
  revert O1 O2. unfold TraceRepository.update_trace, mbind, M_bind, read_db, gets, lift, guard_not. cbn.
  pose proof (sees_owned id (db w1) (db w2) H1 H2 H12) as E12. cbn in E12. rw -E12.
  destruct (scalar_one_or_none _) as [[r|]|e] eqn:E; [|done..]. cbn. destruct (negb _); [done|]. apply select_scalar in E. intros O1 O2.
  split; [done|]. split; [exact O1|]. split; [exact O2|]. unfold tel. cbn.
  refine (eq_trans (updated_trace id r fs w1 H1 E) (eq_trans _ (eq_sym (updated_trace id r fs w2 H2 _)))); [|by rw -E12].
  unfold own_traces. by rw H12.
Qed.

Lemma updated_span sid tid s fs w : telemetry_ok (tel w) -> s ∈ select (owned_span (db w) sid tid p) (spans_of (db w)) ->
  let s' := foldl set_span_field s fs in
  project_telemetry p (set_span_rows (update_where (with_span_id sid) (fun _ => s') (span_rows (tel w))) (tel w)) =
  set_span_rows (update_where (with_span_id sid) (fun _ => s') (own_spans p (tel w))) (project_telemetry p (tel w)).
Proof using.
  rw owned_span_own. intros Hok [[Hs _]%elem_of_select [Hi%bool_decide_eq_true _]%andb_prop]%elem_of_select. cbv zeta.
  apply own_span_update. intros s0 Hs0 H0.
  assert (s0 = s) as -> by (apply (NoDup_map_inj s_id (span_rows (tel w))); [by destruct Hok as (_ & ? & _)|done..|congruence]).
  apply span_fields_keep.
Qed.

Lemma blind_update_span sid tid fs : blind p (TraceRepository.update_span sid tid p fs).
Proof using.
  intros w1 w2 H. pose proof H as (H1 & H2 & H12).
  destruct (winside_update_span p sid tid fs w1 H1) as [O1 _]. destruct (winside_update_span p sid tid fs w2 H2) as [O2 _].
  revert O1 O2. unfold TraceRepository.update_span, mbind, M_bind, read_db, gets, lift, guard_not. cbn.
  assert (E12 : select (owned_span (db w1) sid tid p) (spans_of (db w1)) = select (owned_span (db w2) sid tid p) (spans_of (db w2))).
  { rw !owned_span_own. unfold own_spans, tel in *. by rw H12. }
  rw -E12. destruct (scalar_one_or_none _) as [[s|]|e] eqn:E; [|done..]. cbn. destruct (negb _); [done|]. apply select_scalar in E. intros O1 O2.
  split; [done|]. split; [exact O1|]. split; [exact O2|]. unfold tel. cbn.
  refine (eq_trans (updated_span sid tid s fs w1 H1 E) (eq_trans _ (eq_sym (updated_span sid tid s fs w2 H2 _)))); [|by rw -E12].
  unfold own_spans. by rw H12.
Qed.

(** *** Requests *)

Lemma blind_bind_when {A B} (P : A -> Prop) (m : M World A) (k : A -> M World B) : blind p m ->
  (forall w a w', m w = (Ok a, w') -> P a) -> (forall a, P a -> blind p (k a)) -> blind p (m ≫= k).
Proof using.
  intros Hm HP Hk w1 w2 H. specialize (Hm w1 w2 H). unfold mbind, M_bind. pose proof (HP w1) as HP1.
  destruct (m w1) as [r1 w1'], (m w2) as [r2 w2']. destruct Hm as [Hr Hw]. cbn in Hr, Hw. subst r2.
  destruct r1 as [a|e]; [apply Hk; [by eapply HP1|done]|done].
Qed.

Lemma blind_enrich t : tr_project t = p -> blind p (TraceService._enrich_trace pg t).
Proof using.
  intros Ht. unfold TraceService._enrich_trace. rw Ht. apply blind_bind; [apply blind_span_stats|intros ?; apply blind_ret].
Qed.

Lemma to_trace_project r l t : _to_trace r l = Ok t -> tr_project t = t_project r.
Proof using.
  unfold _to_trace. destruct (res_all _) as [ss|]; [|done]. cbn. unfold Trace_validate. destruct (_ && _); [|done].
  by intros [= <-].
Qed.

Lemma blind_update_and_read id fs : blind p (TraceService.update_trace pg id p fs).
Proof using.
  unfold TraceService.update_trace.
  apply (blind_bind_when (fun o => forall r, o = Some r -> t_project r = p)); [apply blind_update_trace| |].
  - intros w o w'. unfold TraceRepository.update_trace, mbind, M_bind, read_db, gets, lift, guard_not. cbn.
    destruct (scalar_one_or_none _) as [[r|]|e] eqn:E; cbn; [|by intros [= <- _]|done]. destruct (negb _); cbn; [done|].
    apply select_scalar, in_owned in E as (_ & _ & Hp). intros [= <- _] r' [= <-]. destruct (fields_keep fs r) as [_ ->]. done.
  - intros [r|] Hr; [|apply blind_raise]. unfold lift. destruct (_to_trace r []) as [t|e] eqn:E; [|apply blind_raise].
    apply to_trace_project in E. change (blind p (TraceService._enrich_trace pg t)). apply blind_enrich. rw E. by apply Hr.
Qed.

Lemma blind_read_trace id : blind p (TraceService.get_trace pg id p).
Proof using.
  unfold TraceService.get_trace.
  apply (blind_bind_when (fun o => forall t, o = Some t -> tr_project t = p)); [apply blind_get_trace| |].
  - intros w o w'. unfold TraceRepository.get_trace, read_res, mbind, M_bind, read_db, gets, lift. cbn.
    destruct (scalar_one_or_none _) as [[r|]|e] eqn:E; cbn; [|by intros [= <- _]|done].
    apply select_scalar, in_owned in E as (_ & _ & Hp). destruct (_to_trace r _) as [t|] eqn:Et; [|done].
    apply to_trace_project in Et. intros [= <- _] t' [= <-]. congruence.
  - intros [t|] Ht; [apply blind_enrich; by apply Ht|apply blind_raise].
Qed.
End blind.

Create HintDb blind discriminated.
#[export] Hint Resolve blind_ret blind_raise blind_lift blind_guard_not blind_list_traces blind_list_sessions
  blind_session_summary blind_session_traces blind_span_stats blind_session_analytics blind_trace_analytics
  blind_token_analytics blind_top_models blind_users blind_tags blind_update_and_read blind_read_trace
  blind_update_span : blind.
Ltac blind_auto := repeat (solve [eauto with blind] || (apply blind_bind; [|intros ?])
  || match goal with |- blind _ (match ?x with _ => _ end) => destruct x end).

Lemma blind_project_of ctx p {A} (k : Project -> M World A) : cx_project ctx = Some p -> blind (p_id p) (k p) ->
  blind (p_id p) (q ← project_of ctx; k q).
Proof. intros E H w1 w2 Hw. unfold project_of, or_raise. rw E. exact (H w1 w2 Hw). Qed.

Lemma blind_serve pg ctx p c : cx_project ctx = Some p -> (forall id body, c <> AddSpans id body) ->
  blind (p_id p) (serve_trace pg ctx c).
Proof.
  intros Ep Hc.
  assert (Hd : forall (q : TraceRow -> bool) A (k : Z -> M World A), (forall r, q r = true -> t_project r = p_id p) ->
    (forall n, blind (p_id p) (k n)) -> blind (p_id p) (delete_where_traces q ≫= k)).
  { intros q A k Hq Hk. apply blind_bind; [by apply blind_delete|done]. }
  destruct c; cbn [serve_trace]; [..|by destruct (Hc id body)| | | | | | |].
  all: apply blind_bind; [|intros ?; apply blind_ret].
  all: unfold TracesApi.list_traces, TracesApi.get_analytics, TracesApi.list_trace_users, TracesApi.batch_delete,
    TracesApi.batch_tags, TracesApi.update_trace, TracesApi.update_span, TracesApi.get_trace,
    TracesApi.delete_trace, SessionsApi.list_sessions, SessionsApi.get_session_analytics, SessionsApi.get_session,
    SessionsApi.delete_session.
  all: repeat match goal with
    | |- blind _ (project_of _ ≫= _) => apply (blind_project_of ctx p); [done|]
    | |- blind _ (schema _ ≫= _) => apply blind_bind; [apply blind_guard_not|intros _]
    | |- context [match ?l with [] => _ | _ :: _ => _ end] => destruct l
    | |- context [match ?m with TracesApi.VOLUME => _ | _ => _ end] => destruct m
    end.
  all: unfold TraceService.update_span, TraceService.delete_trace, TraceService.get_session_summary,
    TraceService.get_session_traces, TraceService.delete_session,
    TraceService.list_traces, TraceService.get_trace_analytics, TraceService.get_token_cost_analytics,
    TraceService.get_top_models, TraceService.list_trace_users, TraceService.list_sessions,
    TraceService.get_session_analytics, TraceService.batch_delete_traces, TraceService.batch_update_tags,
    TraceRepository.delete_trace, TraceRepository.delete_session, TraceRepository.batch_delete_traces.
  all: try solve [blind_auto].
  - apply blind_delete. by intros r [H%bool_decide_eq_true _]%andb_prop.
  - apply blind_bind; [|intros ?; blind_auto].
    apply Hd; [by intros r [_ H%bool_decide_eq_true]%andb_prop|intros n; blind_auto].
  - apply Hd; [by intros r [H%bool_decide_eq_true _]%andb_prop|intros n; blind_auto].
Qed.

Lemma get_db_session_result {A} (m : M World A) w : (get_db_session m w).1 = (m (set_db (durable w) w)).1.
Proof.
  unfold get_db_session, rollback, commit, try_finally, try_except, raise. cbv [mbind M_bind modify mret M_ret].
  by destruct (m _) as [[a|e] w1].
Qed.

(** C5: The data plane is isolated between projects.  However many requests of other
    projects are served and traces of other projects delivered, in any order and whether
    they succeed or fail, a project's traces and spans stay exactly as they were, and
    primary keys stay unique and spans attached, provided the events name no trace or span
    of the project by its identifier in the body of an ingestion.  That condition is
    needed ([delivery_overwrites_foreign_trace]); every other call takes any identifier. *)
Theorem traces_isolated (pg : Postgres) (q : N) (events : list Event) (w : World)
  (Hok : telemetry_ok (telemetry (durable w)))
  (Helse : forall e, e ∈ events -> elsewhere q (telemetry (durable w)) e) :
  let w' := foldl (run_event pg) w events in
  telemetry_ok (telemetry (durable w')) /\
  project_telemetry q (telemetry (durable w')) = project_telemetry q (telemetry (durable w)).
Proof.
  cbv zeta. revert w Hok Helse. induction events as [|e l IH]; intros w Hok He; [done|]. cbn [foldl].
  destruct (event_spares pg q e w Hok (He e (list_elem_of_here _ _)) Hok) as [Hok1 E].
  destruct (own_views q _ _ E) as [Et Es].
  destruct (IH (run_event pg w e) Hok1) as [H1 H2]; [|split; [done|by rw H2]].
  intros e' He'. specialize (He e' (list_elem_of_further _ _ _ He')). destruct e' as [ctx c|t n]; unfold elsewhere in *.
  - by rw Es.
  - by rw Et Es.
Qed.

(** C28: A caller learns about its own project only.  In two worlds that hold the same
    traces and spans of the caller's project, and anything else whatsoever, every trace and session
    call, reads and writes, listings, searches, analytics and failures included, answers
    the same and leaves the same traces and spans of the project.  The one exception is adding
    spans, whose identifiers the client chooses among those of all projects. *)
Theorem answers_depend_on_own_project (pg : Postgres) (ctx : ApiContext) (p : Project) (c : TraceCall) (w1 w2 : World)
  (Hctx : cx_project ctx = Some p) (Hcall : forall id body, c <> AddSpans id body)
  (Hok1 : telemetry_ok (telemetry (durable w1))) (Hok2 : telemetry_ok (telemetry (durable w2)))
  (Hsame : project_telemetry (p_id p) (telemetry (durable w1)) = project_telemetry (p_id p) (telemetry (durable w2))) :
  let answer w := (get_db_session (serve_trace pg ctx c) w).1 in
  let after w := project_telemetry (p_id p) (telemetry (durable (get_db_session (serve_trace pg ctx c) w).2)) in
  answer w1 = answer w2 /\ after w1 = after w2.
Proof.
  cbv beta zeta. rw !get_db_session_result !(get_db_session_effect _ _ (keeps_serve pg ctx c)).
  destruct (blind_serve pg ctx p c Hctx Hcall (set_db (durable w1) w1) (set_db (durable w2) w2)) as [Hr (_ & _ & Hw)]; [done|].
  destruct (serve_trace pg ctx c (set_db (durable w1) w1)) as [r1 w1'], (serve_trace pg ctx c (set_db (durable w2) w2)) as [r2 w2'].
  cbn in Hr, Hw. subst r2. split; [done|]. by destruct r1.
Qed.

(** ** Witnesses

    Project 20 owns the trace 60 with the spans 61 and 62; project 21 works next to it. *)

Definition neighbour : Project := {| p_id := 21; p_org := 8; p_name := "other"; p_description := ""; p_created := 0 |}.
Definition neighbour_context : ApiContext :=
  {| cx_method := API_KEY; cx_organization := {| o_id := 8; o_name := "Other"; o_created := 0 |};
     cx_project := Some neighbour; cx_user := None |}.
Definition two_projects : World :=
  let d := set_projects [api_project; neighbour] (durable delivered_once) in set_durable d (set_db d delivered_once).
(** The neighbour's trace, with identifiers of its own choice. *)
Definition neighbour_trace (id span : N) : Trace :=
  {| tr_id := id; tr_project := 21; tr_name := "probe"; tr_status := TRUNNING; tr_input := None; tr_output := None;
     tr_metadata := ∅; tr_started := 1; tr_ended := None; tr_session := None; tr_user := None; tr_tags := [];
     tr_environment := None; tr_release := None; tr_spans := [TracesApi.build_span id (span_body span 3)] |}.
(** The neighbour ingests a trace, then tries to rename, tag and delete the trace 60. *)
Definition intrusion : list Event :=
  [Deliver (neighbour_trace 70 71) 0; Serve neighbour_context (UpdateTrace 60 [FName (Some "mine"%string)]);
   Serve neighbour_context (BatchTags [60%N; 70%N] ["seen"%string] ["a"%string]); Serve neighbour_context (DeleteTrace 60)].

Lemma two_projects_ok : telemetry_ok (telemetry (durable two_projects)).
Proof. vm_compute. split_and!; repeat constructor; try set_solver. Qed.

Lemma traces_isolated_witness :
  own_trace_ids 20 (telemetry (durable (foldl (run_event toy_server) two_projects intrusion))) = [60%N] /\
  project_telemetry 20 (telemetry (durable (foldl (run_event toy_server) two_projects intrusion))) =
  project_telemetry 20 (telemetry (durable two_projects)).
Proof.
  split; [vm_compute; reflexivity|].
  apply (traces_isolated toy_server 20 intrusion two_projects two_projects_ok).
  intros e He. repeat (apply elem_of_cons in He as [->|He]); [..|by apply elem_of_nil in He].
  - split; [discriminate|]. split; [vm_compute; set_solver|]. intros s ->%list_elem_of_singleton. split; [reflexivity|].
    vm_compute. set_solver.
  - split; [intros p [= <-]; discriminate|discriminate].
  - split; [intros p [= <-]; discriminate|discriminate].
  - split; [intros p [= <-]; discriminate|discriminate].
Defined.

(** Whatever the neighbour has stored, project 20 lists the same traces. *)
Definition list_all : TraceCall :=
  ListTraces 50 0 {| f_session := None; f_status := None; f_user := None; f_tags := []; f_name := Some "ha%"%string;
                     f_after := None; f_before := None |} STARTED_AT DESC.
Definition busy_neighbour : World := run_event toy_server two_projects (Deliver (neighbour_trace 70 71) 0).
Lemma answers_depend_on_own_project_witness :
  (get_db_session (serve_trace toy_server api_key_context list_all) busy_neighbour).1 =
  (get_db_session (serve_trace toy_server api_key_context list_all) two_projects).1.
Proof.
  apply (answers_depend_on_own_project toy_server api_key_context api_project list_all busy_neighbour two_projects).
  - reflexivity.
  - discriminate.
  - vm_compute. split_and!; repeat constructor; try set_solver.
  - exact two_projects_ok.
  - vm_compute. reflexivity.
Defined.

(** ** Why the condition on identifiers is needed

    The upserts do not compare projects: a trace that another project ingests under the
    identifier 60 is merged into the row of project 20, and spans added to a trace of project 21
    under the identifier 61 are merged into a span of project 20. *)
Definition the_trace (w : World) : list (string * TraceStatus * option Json) :=
  List.map (fun r => (t_name r, t_status r, json_read (t_output r))) (own_traces 20 (telemetry (durable w))).
Definition overwritten : World := run_event toy_server two_projects (Deliver (neighbour_trace 60 72) 0).
Theorem delivery_overwrites_foreign_trace :
  the_trace two_projects = [("chat"%string, TCOMPLETED, None)] /\ the_trace overwritten = [("probe"%string, TRUNNING, None)] /\
  own_span_ids 20 (telemetry (durable overwritten)) = [62%N; 61%N; 72%N].
Proof. vm_compute. done. Qed.

Definition spans_added : World :=
  run_event toy_server busy_neighbour (Serve neighbour_context (AddSpans 70 [span_body 61 99])).
Theorem added_span_overwrites_foreign_span :
  List.map s_started (own_spans 20 (telemetry (durable busy_neighbour))) = [8; 6] /\
  List.map s_started (own_spans 20 (telemetry (durable spans_added))) = [8; 99].
Proof. vm_compute. done. Qed.

(** ** Other behaviour worth knowing

    An upsert that carries no output erases the output of the row, since Python's
    [None] is bound as JSON null, which [coalesce] keeps. *)
Definition with_output (o : option Json) : Trace :=
  {| tr_id := 60; tr_project := 20; tr_name := "chat"; tr_status := TCOMPLETED; tr_input := None; tr_output := o;
     tr_metadata := ∅; tr_started := 5; tr_ended := Some 9; tr_session := None; tr_user := None; tr_tags := [];
     tr_environment := None; tr_release := None; tr_spans := [] |}.
Theorem upsert_without_output_erases_it :
  let w1 := run_event toy_server api_world (Deliver (with_output (Some (JStr "answer"))) 0) in
  the_trace w1 = [("chat"%string, TCOMPLETED, Some (JStr "answer"))] /\
  the_trace (run_event toy_server w1 (Deliver (with_output None) 0)) = [("chat"%string, TCOMPLETED, None)].
Proof. vm_compute. done. Qed.

(** The schema of an update admits the empty name, which the entity then refuses: the
    request fails with an internal error instead of a validation error. *)
Theorem empty_name_is_an_internal_error :
  TracesApi.TraceField_ok (FName (Some EmptyString)) = true /\
  (serve_trace toy_server api_key_context (UpdateTrace 60 [FName (Some EmptyString)]) two_projects).1 =
  Err (ValueError "validation error for Trace").
Proof. vm_compute. done. Qed.

(** One span whose token count is not an integer, and no trace of the project can be listed. *)
Definition fractional_usage : list SpanField := [SFTokenUsage (Some {["prompt_tokens" := JFloat (decimal 15 1)]})].
Theorem fractional_tokens_break_listings :
  let w := run_event toy_server two_projects (Serve api_key_context (UpdateSpan 60 61 fractional_usage)) in
  (serve_trace toy_server api_key_context list_all w).1 = Err DataError.
Proof. vm_compute. done. Qed.
