(* ===== verification/EvalIntegrity.v ===== *)
(** * Well-typed evaluations

    What the database holds of evaluations can always be read back: every stored score is
    valid for its data type, every run and monitor has a sampling rate between 0 and 1 and
    metrics that are registered for its target, and every monitor a cadence that passes
    validation.  Requests, tasks and deletions, in any order, keep it so. *)
From stdpp Require Import base gmap strings list.
From Stdlib Require Import ZArith Lia ssreflect.
From S2P Require Import Prelude Constants Entities Float64 PyFloat Json JsonText Evals Telemetry Sql World Locks Usage Security IdentityRepo Identity ApiAuth BillingTasks TraceRepo TraceQueries Traces Cadence LLM Metrics EvalRepo EvalService EvalApi EvalTasks RunFacts Ingestion TraceIsolation.

#[local] Open Scope Z_scope.

Import EvalRepository Registry.

(** ** The types of the rows *)

(** A session run delivered for a trace run records the trace metrics as failures, so the
    names of session scores range over both registries. *)
Definition known_metrics (t : TargetType) : list string :=
  List.map mc_name (match t with TRACE_TARGET => _REGISTRY | SESSION_TARGET => _REGISTRY ++ _SESSION_REGISTRY end).
Definition score_ok {T} (t : TargetType) (s : Score T) : Prop :=
  match c_value s with Some v => validate_score_value v (c_type s) = Ok tt | None => True end /\
  (c_status s = FAILED_SCORE -> c_name s ∈ known_metrics t).
Definition run_ok (r : EvalRun) : Prop := in_unit (e_sampling r) = true /\ e_metrics r ⊆ known_metrics (e_target r).
Definition monitor_ok (cron : Croniter) (m : EvalMonitor) : Prop :=
  in_unit (mo_sampling m) = true /\ mo_metrics m ⊆ EvalService.available_metrics (mo_target m) /\
  Cadence.validate_cadence cron (mo_cadence m) = Ok (mo_cadence m).
Definition evals_ok (cron : Croniter) (x : Evaluations) : Prop :=
  Forall (score_ok TRACE_TARGET) (trace_scores x) /\ Forall (score_ok SESSION_TARGET) (session_scores x) /\
  Forall run_ok (eval_runs x) /\ Forall (monitor_ok cron) (eval_monitors x).
(** Both what a session sees and what is committed. *)
Definition typed (cron : Croniter) (w : World) : Prop := evals_ok cron (evals_of (db w)) /\ evals_ok cron (evals_of (durable w)).

Lemma score_ok_validate {T} t (s : Score T) : score_ok t s -> Score_validate s = Ok s.
Proof. intros [H _]. unfold Score_validate. destruct (c_value s); [by rw H|done]. Qed.
Lemma Score_validate_same {T} (s s' : Score T) : Score_validate s = Ok s' -> s' = s.
Proof. unfold Score_validate. destruct (c_value s); [destruct (validate_score_value _ _); [|done]|]; by intros [= <-]. Qed.
Lemma Score_validate_ok {T} t (s s' : Score T) : Score_validate s = Ok s' -> (c_status s = FAILED_SCORE -> c_name s ∈ known_metrics t) ->
  s' = s /\ score_ok t s.
Proof.
  unfold Score_validate, score_ok. intros H Hf. destruct (c_value s); [|by injection H as <-].
  destruct (validate_score_value _ _) as [[]|]; [by injection H as <-|done].
Qed.
Lemma elem_registered name l : name ∈ List.map mc_name l <-> exists c, lookup name l = Ok c.
Proof.
  unfold lookup. induction l as [|c l IH]; cbn; [split; [by intros ?%elem_of_nil|by intros [? ?]]|].
  rw elem_of_cons. case_bool_decide as H; [split; [eauto|by left]|]. rw -IH. naive_solver.
Qed.
Lemma trace_known t : known_metrics TRACE_TARGET ⊆ known_metrics t.
Proof. destruct t; [done|]. unfold known_metrics. rw List.map_app. intros x Hx. apply elem_of_app. by left. Qed.
Lemma available_known t : EvalService.available_metrics t ⊆ known_metrics t.
Proof.
  destruct t; intros x Hx.
  - apply list_metrics_registered in Hx as (c & Hc & _). apply elem_registered. eauto.
  - apply list_session_metrics_registered in Hx as (c & Hc). unfold known_metrics. rw List.map_app. apply elem_of_app. right.
    apply elem_registered. eauto.
Qed.

(** ** Deletions *)

Lemma Forall_delete_where {R} (P : R -> Prop) p l : Forall P l -> Forall P (delete_where p l).
Proof. rw !Forall_forall. intros H r [Hr _]%elem_of_delete_where. by apply H. Qed.
Lemma Forall_update_where {R} (P : R -> Prop) p f l :
  (forall r, r ∈ l -> p r = true -> P r -> P (f r)) -> Forall P l -> Forall P (update_where p f l).
Proof.
  rw !Forall_forall. intros Hf H r (s & Hs & ->)%elem_of_update_where. destruct (p s) eqn:E; [apply Hf; auto|auto].
Qed.

Section deletions.
Context (cron : Croniter).
Lemma evals_ok_delete_runs p x : evals_ok cron x -> evals_ok cron (delete_runs p x).
Proof.
  intros (H1 & H2 & H3 & H4). split_and!; [by apply Forall_update_where..|by apply Forall_delete_where|by apply Forall_update_where].
Qed.
Lemma evals_ok_delete_monitors p x : evals_ok cron x -> evals_ok cron (delete_monitors p x).
Proof. intros (H1 & H2 & H3 & H4). split_and!; [done|done|by apply Forall_update_where|by apply Forall_delete_where]. Qed.
Lemma evals_ok_drop_trace_scores gone x : evals_ok cron x -> evals_ok cron (drop_trace_scores gone x).
Proof. intros (H1 & H2 & H3 & H4). split_and!; [by apply Forall_delete_where|done..]. Qed.
Lemma evals_ok_drop_projects gone x : evals_ok cron x -> evals_ok cron (drop_projects gone x).
Proof.
  intros H. unfold drop_projects.
  apply (evals_ok_delete_runs (fun r => bool_decide (e_project r ∈ gone))) in H.
  apply (evals_ok_delete_monitors (fun m => bool_decide (mo_project m ∈ gone))) in H. destruct H as (H1 & H2 & H3 & H4).
  split_and!; [by apply Forall_delete_where..|done|done].
Qed.
Lemma evals_ok_delete_traces p x : evals_ok cron (evals x) -> evals_ok cron (evals (delete_traces p x)).
Proof. apply evals_ok_drop_trace_scores. Qed.
Lemma evals_ok_delete_projects gone x : evals_ok cron (evals x) -> evals_ok cron (evals (delete_projects gone x)).
Proof. intros H. by apply evals_ok_drop_projects, evals_ok_delete_traces. Qed.
End deletions.

(** ** Requests *)

(** The calls of the evaluation routes. *)
Inductive EvalCall :=
  | CreateRun (b : EvaluationsApi.CreateEvalRunRequest)
  | CreateBatchRun (b : EvaluationsApi.CreateBatchEvalRunRequest)
  | CreateSessionRun (b : EvaluationsApi.CreateSessionEvalRunRequest)
  | CreateBatchSessionRun (b : EvaluationsApi.CreateBatchSessionEvalRunRequest)
  | RetryRun (run : N)
  | RetrySessionRun (run : N)
  | ListRuns (target : TargetType) (status : option EvaluationStatus) (limit offset : Z)
  | GetRun (run : N)
  | DeleteRun (run : N) (scores : bool)
  | GetRunScores (run : N)
  | GetRunSessionScores (run : N)
  | CreateScore (b : EvaluationsApi.CreateTraceScoreRequest)
  | ListScores (q : ScoreFilters N) (limit offset : Z)
  | GetTraceScores (trace : N)
  | UpdateScore (score : N) (b : EvaluationsApi.UpdateTraceScoreRequest)
  | DeleteScore (score : N)
  | ListSessionScores (sid name : option string) (src : option ScoreSource) (st : option ScoreStatus) (run : option N) (a b : option Z) (limit offset : Z)
  | GetSessionScores (sid : string)
  | DeleteSessionScore (score : N)
  | CreateMonitor (b : EvaluationsApi.CreateMonitorRequest)
  | ListMonitors (status : option MonitorStatus) (limit offset : Z)
  | GetMonitor (monitor : N)
  | UpdateMonitor (monitor : N) (b : EvalService.MonitorPatch)
  | DeleteMonitor (monitor : N)
  | PauseMonitor (monitor : N)
  | ResumeMonitor (monitor : N)
  | TriggerMonitor (monitor : N)
  | ListMonitorRuns (monitor : N) (limit offset : Z).

Definition done_with {A} (m : M World A) : M World unit := _ ← m; mret tt.
Definition serve_eval (o : Outside) (ctx : ApiContext) (c : EvalCall) : M World unit :=
  match c with
  | CreateRun b => done_with (EvaluationsApi.create_eval_run o ctx b)
  | CreateBatchRun b => done_with (EvaluationsApi.create_batch_eval_run o ctx b)
  | CreateSessionRun b => done_with (EvaluationsApi.create_session_eval_run o ctx b)
  | CreateBatchSessionRun b => done_with (EvaluationsApi.create_batch_session_eval_run o ctx b)
  | RetryRun r => done_with (EvaluationsApi.retry_failed_eval_run o ctx r)
  | RetrySessionRun r => done_with (EvaluationsApi.retry_failed_session_eval_run o ctx r)
  | ListRuns t st l k => done_with (EvaluationsApi.list_runs t ctx st l k)
  | GetRun r => done_with (EvaluationsApi.get_eval_run ctx r)
  | DeleteRun r s => EvaluationsApi.delete_eval_run ctx r s
  | GetRunScores r => done_with (EvaluationsApi.get_scores_for_run ctx r)
  | GetRunSessionScores r => done_with (EvaluationsApi.get_session_scores_for_run ctx r)
  | CreateScore b => done_with (EvaluationsApi.create_trace_score ctx b)
  | ListScores q l k => done_with (EvaluationsApi.list_trace_scores ctx q l k)
  | GetTraceScores t => done_with (EvaluationsApi.get_scores_for_trace o ctx t)
  | UpdateScore s b => done_with (EvaluationsApi.update_trace_score ctx s b)
  | DeleteScore s => EvaluationsApi.delete_trace_score ctx s
  | ListSessionScores sid n src st r a b l k => done_with (EvaluationsApi.list_session_scores ctx sid n src st r a b l k)
  | GetSessionScores sid => done_with (EvaluationsApi.get_scores_for_session ctx sid)
  | DeleteSessionScore s => EvaluationsApi.delete_session_score ctx s
  | CreateMonitor b => done_with (EvaluationsApi.create_monitor o ctx b)
  | ListMonitors st l k => done_with (EvaluationsApi.list_monitors ctx st l k)
  | GetMonitor m => done_with (EvaluationsApi.get_monitor ctx m)
  | UpdateMonitor m b => done_with (EvaluationsApi.update_monitor o ctx m b)
  | DeleteMonitor m => EvaluationsApi.delete_monitor ctx m
  | PauseMonitor m => done_with (EvaluationsApi.pause_monitor ctx m)
  | ResumeMonitor m => done_with (EvaluationsApi.resume_monitor o ctx m)
  | TriggerMonitor m => done_with (EvaluationsApi.trigger_monitor o ctx m)
  | ListMonitorRuns m l k => done_with (EvaluationsApi.list_monitor_runs ctx m l k)
  end.

(** ** Steps *)

Lemma preserves_bind_fact {W A B} (I : W -> Prop) (P : A -> Prop) (m : M W A) (k : A -> M W B) :
  preserves I m -> (forall w a w', I w -> m w = (Ok a, w') -> P a) -> (forall a, P a -> preserves I (k a)) -> preserves I (m ≫= k).
Proof.
  intros Hm Hp Hk w Hw. unfold mbind, M_bind. specialize (Hm w Hw). specialize (Hp w).
  destruct (m w) as [[a|e] w']; cbn in *; [|done]. by apply (Hk a (Hp a w' Hw eq_refl)).
Qed.
(** From worlds in [J], [m] ends in [I]. *)
Definition ensures {W A} (J : W -> Prop) (m : M W A) (I : W -> Prop) : Prop := forall w, J w -> I (m w).2.
Lemma ensures_weaken {W A} (J J' I : W -> Prop) (m : M W A) : (forall w, J w -> J' w) -> ensures J' m I -> ensures J m I.
Proof. intros H Hm w Hw. by apply Hm, H. Qed.
(** What reads the world may be followed by what depends on it. *)
Lemma ensures_read {W A B} (J I : W -> Prop) (m : M W A) (k : A -> M W B) : respects eq m -> (forall w, J w -> I w) ->
  (forall a, ensures (fun w => J w /\ exists w0, m w0 = (Ok a, w)) (k a) I) -> ensures J (m ≫= k) I.
Proof.
  intros Hm HI Hk w Hw. unfold mbind, M_bind. pose proof (Hm w) as E. destruct (m w) as [[a|e] w'] eqn:Em; cbn in *; subst w'; [|by apply HI].
  apply Hk. split; [done|]. by exists w.
Qed.
Lemma ensures_then {W A B} (J I : W -> Prop) (m : M W A) (k : A -> M W B) : ensures J m I -> (forall a, preserves I (k a)) ->
  ensures J (m ≫= k) I.
Proof.
  intros Hm Hk w Hw. unfold mbind, M_bind. specialize (Hm w Hw). destruct (m w) as [[a|e] w']; cbn in *; [|done]. by apply Hk.
Qed.

Section steps.
Context (o : Outside).
Abbreviation typed := (typed (cron o)).
Abbreviation evals_ok := (evals_ok (cron o)).

Lemma typed_write f : (forall d, evals_ok (evals_of d) -> evals_ok (evals_of (f d))) -> preserves typed (write_db f).
Proof. intros H w [H1 H2]. split; [by apply H|done]. Qed.
Lemma typed_update f : (forall x, evals_ok x -> evals_ok (f x)) -> preserves typed (update_evals f).
Proof. intros H. apply typed_write. intros d. apply H. Qed.
Lemma typed_keeps {A} (m : M World A) : respects (keeps (fun w => (db w, durable w))) m -> preserves typed m.
Proof. intros H w Hw. specialize (H w). injection H as H1 H2. unfold typed. by rw H1 H2. Qed.
Lemma typed_modify f : (forall w, db (f w) = db w /\ durable (f w) = durable w) -> preserves typed (modify f).
Proof. intros H. apply typed_keeps. intros w. unfold keeps. cbn. by destruct (H w) as [-> ->]. Qed.
Lemma typed_commit : preserves typed commit.
Proof. by intros w [H1 H2]. Qed.
Lemma typed_rollback : preserves typed rollback.
Proof. by intros w [H1 H2]. Qed.
Lemma typed_uuid4 : preserves typed uuid4.
Proof. by intros w H. Qed.
Lemma typed_enqueue t : preserves typed (enqueue t).
Proof. by apply typed_modify. Qed.
Lemma typed_delay t : preserves typed (delay (broker o) t).
Proof. unfold delay. respects_auto. intros w H. exact H. Qed.
Lemma typed_read_res {A} (f : DB -> res A) : preserves typed (read_res f).
Proof. apply respects_read_res. typeclasses eauto. Qed.
Lemma typed_read_db {A} (f : DB -> A) : preserves typed (read_db f).
Proof. apply respects_gets. typeclasses eauto. Qed.
Lemma typed_now : preserves typed utcnow.
Proof. apply respects_gets. typeclasses eauto. Qed.
Lemma typed_check org c n : preserves typed (check_and_increment org c n).
Proof. by apply typed_keeps, keeps_check. Qed.
Lemma typed_take_back org c n : preserves typed (rollback_increment org c n).
Proof. by apply typed_keeps, keeps_rollback. Qed.
Lemma typed_session {A} (m : M World A) : preserves typed m -> preserves typed (get_db_session m).
Proof. intros H. unfold get_db_session. respects_auto; try apply typed_rollback; try done. apply typed_commit. Qed.
Lemma typed_worker {A} (m : M World A) : preserves typed m -> preserves typed (with_session m).
Proof. intros H. unfold with_session. respects_auto; try apply typed_rollback; done. Qed.
Hint Resolve typed_commit typed_rollback typed_uuid4 typed_enqueue typed_delay typed_read_res typed_read_db typed_now typed_check
  typed_take_back typed_session typed_worker : effects.

(** *** Scores *)

(** The table holds the scores of targets of one kind. *)
Definition holds {T} (tb : ScoreTable T) (t : TargetType) : Prop :=
  forall x, evals_ok x -> Forall (score_ok t) (sc_rows tb x) /\
    forall l, Forall (score_ok t) l -> evals_ok (sc_set tb l x).
Lemma trace_table_holds : holds trace_table TRACE_TARGET.
Proof. intros x (H1 & H2 & H3 & H4). by split. Qed.
Lemma session_table_holds : holds session_table SESSION_TARGET.
Proof. intros x (H1 & H2 & H3 & H4). by split. Qed.

Section table.
Context {T : Type} `{EqDecision T} (tb : ScoreTable T) (t : TargetType) (Htb : holds tb t).
Lemma typed_create_score_in s : score_ok t s -> preserves typed (create_score_in tb s).
Proof using Htb.
  intros Hs. unfold create_score_in. respects_auto. intros w [H1 H2]. unfold insert_row. destruct (existsb _ _); [done|].
  split; [|done]. destruct (Htb _ H1) as [Hr Hset]. cbn. apply Hset. apply Forall_app. split; [exact Hr|by apply Forall_singleton].
Qed.
Lemma typed_delete_scores_where p : preserves typed (delete_scores_where tb p).
Proof using Htb.
  unfold delete_scores_where. respects_auto. apply typed_write. intros d Hd. destruct (Htb _ Hd) as [Hr Hset].
  apply Hset. by apply Forall_delete_where.
Qed.
End table.
Lemma typed_create_score s : score_ok TRACE_TARGET s -> preserves typed (create_score s).
Proof. apply typed_create_score_in, trace_table_holds. Qed.
Lemma typed_create_session_score s : score_ok SESSION_TARGET s -> preserves typed (create_session_score s).
Proof. apply typed_create_score_in, session_table_holds. Qed.
Lemma typed_delete_scores_for_run r p : preserves typed (delete_scores_for_run r p).
Proof. apply typed_delete_scores_where with TRACE_TARGET, trace_table_holds. Qed.
Lemma typed_delete_session_scores_for_run r p : preserves typed (delete_session_scores_for_run r p).
Proof. apply typed_delete_scores_where with SESSION_TARGET, session_table_holds. Qed.
Lemma typed_delete_score i p : preserves typed (delete_score i p).
Proof. unfold delete_score. respects_auto. apply typed_delete_scores_where with TRACE_TARGET, trace_table_holds. Qed.
Lemma typed_delete_session_score i p : preserves typed (delete_session_score i p).
Proof. unfold delete_session_score. respects_auto. apply typed_delete_scores_where with SESSION_TARGET, session_table_holds. Qed.

(** *** Runs *)

Lemma typed_create_eval_run r : run_ok r -> preserves typed (create_eval_run r).
Proof.
  intros Hr. unfold create_eval_run. respects_auto. intros w [(H1 & H2 & H3 & H4) H5]. unfold insert_row. destruct (existsb _ _); [done|].
  split; [|done]. split_and!; [done|done| |done]. apply Forall_app. split; [exact H3|by apply Forall_singleton].
Qed.
Lemma typed_update_run i f : (forall r, run_ok r -> run_ok (f r)) -> preserves typed (update_run i f).
Proof.
  intros Hf. apply typed_update. intros x (H1 & H2 & H3 & H4). split_and!; [done|done| |done].
  apply Forall_update_where; [|done]. intros r _ _. apply Hf.
Qed.
Lemma typed_update_run_status i st msg : preserves typed (update_run_status i st msg).
Proof. unfold update_run_status. respects_auto. apply typed_update_run. intros r H. by destruct st. Qed.
Lemma typed_increment_progress i n : preserves typed (increment_progress i n).
Proof. by apply typed_update_run. Qed.
Lemma typed_increment_failed i n : preserves typed (increment_failed i n).
Proof. by apply typed_update_run. Qed.
Lemma typed_reset i : preserves typed (reset_run_counters i).
Proof. by apply typed_update_run. Qed.
Lemma typed_delete_eval_run i p : preserves typed (EvalRepository.delete_eval_run i p).
Proof. apply typed_update. apply evals_ok_delete_runs. Qed.
Lemma typed_get_eval_run i p : preserves typed (EvalRepository.get_eval_run i p).
Proof. unfold EvalRepository.get_eval_run, read_db. respects_auto. Qed.

(** *** Monitors *)

Lemma typed_create_monitor m : monitor_ok (cron o) m -> preserves typed (EvalRepository.create_monitor m).
Proof.
  intros Hm. unfold EvalRepository.create_monitor. respects_auto. intros w [(H1 & H2 & H3 & H4) H5]. unfold insert_row.
  destruct (existsb _ _); [done|]. split; [|done]. split_and!; [done..|]. apply Forall_app. split; [exact H4|by apply Forall_singleton].
Qed.
Lemma typed_update_schedule i f : (forall m, monitor_ok (cron o) m -> monitor_ok (cron o) (f m)) -> preserves typed (update_schedule i f).
Proof.
  intros Hf. apply typed_update. intros x (H1 & H2 & H3 & H4). split_and!; [done..|].
  apply Forall_update_where; [|done]. intros r _ _. apply Hf.
Qed.
Lemma typed_advance_monitor i a r n : preserves typed (advance_monitor i a r n).
Proof. unfold advance_monitor. respects_auto. by apply typed_update_schedule. Qed.
Lemma typed_reschedule_monitor i n : preserves typed (reschedule_monitor i n).
Proof. unfold reschedule_monitor. respects_auto. by apply typed_update_schedule. Qed.
Lemma typed_delete_monitor i p : preserves typed (EvalRepository.delete_monitor i p).
Proof. apply typed_update. apply evals_ok_delete_monitors. Qed.
Lemma typed_get_monitor i p : preserves typed (EvalRepository.get_monitor i p).
Proof. unfold EvalRepository.get_monitor, read_db. respects_auto. Qed.
Hint Resolve typed_delete_scores_for_run typed_delete_session_scores_for_run typed_delete_score typed_delete_session_score
  typed_update_run_status typed_increment_progress typed_increment_failed typed_reset typed_delete_eval_run typed_get_eval_run
  typed_advance_monitor typed_reschedule_monitor typed_delete_monitor typed_get_monitor : effects.

(** *** What a query returned *)

Lemma read_res_eq {A} (f : DB -> res A) : respects eq (read_res f).
Proof. apply respects_read_res. typeclasses eauto. Qed.
Lemma get_run_ok i p w r w' : typed w -> EvalRepository.get_eval_run i p w = (Ok (Some r), w') -> run_ok r.
Proof.
  intros [(_ & _ & H & _) _] E. unfold EvalRepository.get_eval_run in E. destruct_bind E rows w1 E1. injection E1 as <- <-.
  destruct_bind E row w1 E1. injection E1 as E1 <-. apply scalar_one_or_none_Ok in E1 as [[_ ->]|(x & Hx & ->)]; [done|].
  unfold lift in E. injection E as E <-. unfold _to_eval_run, EvalRun_validate in E. destruct (in_unit _); [|done]. injection E as <-.
  rewrite Forall_forall in H. apply H. assert (Hin : x ∈ select (own_run i p) (eval_runs (evals_of (db w)))) by (rewrite Hx; by left).
  by apply elem_of_select in Hin as [? _].
Qed.
Lemma get_monitor_row i p w m w' : EvalRepository.get_monitor i p w = (Ok (Some m), w') ->
  w' = w /\ select (own_monitor i p) (eval_monitors (evals_of (db w))) = [m].
Proof.
  intros E. unfold EvalRepository.get_monitor in E. destruct_bind E rows w1 E1. injection E1 as <- <-.
  destruct_bind E row w1 E1. injection E1 as E1 <-. apply scalar_one_or_none_Ok in E1 as [[_ ->]|(x & Hx & ->)]; [done|].
  unfold lift in E. injection E as E <-. unfold _to_monitor, EvalMonitor_validate in E. destruct (_ && _); [|done]. by injection E as <-.
Qed.
Lemma monitor_row_ok i p w m : typed w -> select (own_monitor i p) (eval_monitors (evals_of (db w))) = [m] -> monitor_ok (cron o) m.
Proof.
  intros [(_ & _ & _ & H) _] E. rewrite Forall_forall in H. apply H.
  assert (Hin : m ∈ select (own_monitor i p) (eval_monitors (evals_of (db w)))) by (rewrite E; by left). by apply elem_of_select in Hin as [? _].
Qed.
Lemma get_monitor_ok i p w m w' : typed w -> EvalService.get_monitor i p w = (Ok m, w') ->
  monitor_ok (cron o) m /\ w' = w /\ select (own_monitor i p) (eval_monitors (evals_of (db w))) = [m].
Proof.
  intros Hw E. unfold EvalService.get_monitor in E. destruct_bind E x w1 E1. destruct x as [m'|]; [|done]. injection E as -> <-.
  apply get_monitor_row in E1 as [-> E1]. split; [|done]. exact (monitor_row_ok i p w m Hw E1).
Qed.
Lemma get_score_row i p w s w' : get_score_by_id i p w = (Ok (Some s), w') ->
  w' = w /\ select (with_score_id i p) (trace_scores (evals_of (db w))) = [s].
Proof.
  intros E. unfold get_score_by_id in E. destruct_bind E rows w1 E1. injection E1 as <- <-.
  destruct_bind E row w1 E1. injection E1 as E1 <-. apply scalar_one_or_none_Ok in E1 as [[_ ->]|(x & Hx & ->)]; [done|].
  unfold lift in E. injection E as E <-. split; [done|]. unfold _to_score, _to_score_in in E. destruct (Score_validate x) as [x'|] eqn:Ev; [|done].
  apply Score_validate_same in Ev as ->. by injection E as <-.
Qed.

(** *** Updates of one row *)

Lemma update_one {R} (P : R -> Prop) p f l r : select p l = [r] -> (P r -> P (f r)) -> Forall P l -> Forall P (update_where p f l).
Proof.
  intros E Hf. apply Forall_update_where. intros x Hx Hp HP. assert (x ∈ select p l) as Hin by by apply elem_of_select.
  rewrite E in Hin. apply list_elem_of_singleton in Hin as ->. by apply Hf.
Qed.

(** The row being edited. *)
Definition score_at (i p : N) (s : TraceScore) (w : World) : Prop :=
  typed w /\ select (with_score_id i p) (trace_scores (evals_of (db w))) = [s].
Lemma ensures_update_score i p f s :
  match ed_value f with Some v => validate_score_value v (c_type s) = Ok tt | None => True end -> ed_status f = Some SUCCESS ->
  ensures (score_at i p s) (EvalRepository.update_score i p f) typed.
Proof.
  intros Hv Hst. unfold EvalRepository.update_score. destruct (edit_empty f); [by intros w [H _]|].
  apply ensures_read; [by intros ?|by intros w [H _]|]. intros t. apply ensures_read; [by intros ?|by intros w [[H _] _]|]. intros rows.
  apply ensures_read; [intros w; unfold guard_not; by destruct (_ && _)|by intros w [[[H _] _] _]|]. intros [].
  intros w [[[[[(H1 & H2 & H3 & H4) H5] E] _] _] _]. split; [|done]. split_and!; [|done..]. cbn.
  apply (update_one _ _ _ _ s E); [|done]. intros [Hs _]. split; cbn.
  - destruct (ed_value f); [done|]. exact Hs.
  - by rewrite Hst.
Qed.
Lemma typed_get_score i p : preserves typed (get_score_by_id i p).
Proof. unfold get_score_by_id, read_db. respects_auto. Qed.
Hint Resolve typed_get_score : effects.
Lemma as_invalid_request_eq {A} (r : res A) : respects eq (EvalService.as_invalid_request r).
Proof. intros w. unfold EvalService.as_invalid_request. by destruct r as [a|[]]. Qed.
Lemma as_invalid_request_Ok {A} (r : res A) w a w' : EvalService.as_invalid_request r w = (Ok a, w') -> r = Ok a.
Proof. unfold EvalService.as_invalid_request. destruct r as [b|[]]; by try intros [= -> _]. Qed.

Lemma typed_edit_score i p v why md : preserves typed (EvalService.update_score i p v why md).
Proof.
  intros w Hw. unfold EvalService.update_score. unfold mbind at 1, M_bind. pose proof (typed_get_score i p w Hw) as Hw1.
  destruct (get_score_by_id i p w) as [[[s|]|e] w1] eqn:E; [|exact Hw1..]. apply get_score_row in E as [-> E]. cbn [or_raise].
  match goal with |- typed ((mret s ≫= ?k) w).2 => change (typed (k s w).2) end. cbn beta. clear Hw1. assert (Hs : score_at i p s w) by by split.
  assert (Hrest : forall f, ensures (score_at i p s) (EvalRepository.update_score i p f) typed ->
    ensures (score_at i p s) (EvalRepository.update_score i p f ;; commit ;; updated ← get_score_by_id i p;
      or_raise (not_found "Trace score not found after update.") updated) typed).
  { intros f Hf. apply ensures_then; [exact Hf|]. intros []. unfold or_raise. respects_auto. }
  clear E. revert w Hw Hs. intros w _. revert w. destruct v as [v|].
  - apply ensures_read; [apply as_invalid_request_eq|by intros w [H _]|]. intros [].
    intros w (Hs & w0 & Hv). apply as_invalid_request_Ok in Hv. revert w Hs. apply Hrest. by apply ensures_update_score.
  - apply ensures_read; [by intros ?|by intros w [H _]|]. intros []. apply (ensures_weaken _ (score_at i p s)); [by intros w [H _]|].
    apply Hrest. by apply ensures_update_score.
Qed.

(** The monitor being changed, and the fields it may be given. *)
Definition monitor_at (i p : N) (m : EvalMonitor) (w : World) : Prop :=
  typed w /\ select (own_monitor i p) (eval_monitors (evals_of (db w))) = [m].
Definition field_ok (t : TargetType) (f : MonitorField) : Prop :=
  match f with
  | MSampling (Some x) => in_unit x = true
  | MMetrics (Some l) => l ⊆ EvalService.available_metrics t
  | MCadence (Some c) => Cadence.validate_cadence (cron o) c = Ok c
  | _ => True
  end.
Lemma set_fields_ok t fields m : Forall (field_ok (mo_target m)) fields -> monitor_ok (cron o) m ->
  monitor_ok (cron o) (foldl (set_monitor_field t) m fields).
Proof.
  revert m. induction fields as [|f fields IH]; [done|]. intros m [Hf Hfs]%Forall_cons (H1 & H2 & H3). cbn [foldl]. apply IH; [exact Hfs|].
  unfold monitor_ok. destruct f as [v|v|v|v|v|v|v|v|v]; try destruct v; cbn in *; done.
Qed.
Lemma ensures_update_monitor i p m fields : Forall (field_ok (mo_target m)) fields ->
  ensures (monitor_at i p m) (EvalRepository.update_monitor i p fields) typed.
Proof.
  intros Hf. destruct fields as [|f fields]; [by intros w [H _]|]. unfold EvalRepository.update_monitor.
  apply ensures_read; [by intros ?|by intros w [H _]|]. intros t. apply ensures_read; [by intros ?|by intros w [[H _] _]|]. intros rows.
  apply ensures_read; [intros w; unfold guard_not; by destruct (existsb _ _)|by intros w [[[H _] _] _]|]. intros [].
  apply ensures_read; [intros w; unfold guard_not; by destruct (_ && _)|by intros w [[[[H _] _] _] _]|]. intros [].
  intros w [[[[[[(H1 & H2 & H3 & H4) H5] E] _] _] _] _]. split; [|done]. split_and!; [done..|]. cbn [evals_of update_evals].
  apply (update_one _ _ _ _ m E); [|done]. intros Hm. by apply (set_fields_ok t (f :: fields)).
Qed.
(** A step of a change that only reads. *)
Lemma ensures_pure {A B} (J : World -> Prop) (m : M World A) (k : A -> M World B) : respects eq m -> (forall w, J w -> typed w) ->
  (forall a, (exists w0 w1, m w0 = (Ok a, w1)) -> ensures J (k a) typed) -> ensures J (m ≫= k) typed.
Proof. intros Hm HJ Hk. apply ensures_read; [done..|]. intros a w (Hw & w0 & E). apply Hk; [by exists w0, w|done]. Qed.
Lemma guard_eq b e : respects eq (@guard_not World b e).
Proof. intros w. by destruct b. Qed.

Lemma fields_of_patch (mon : EvalMonitor) (q : EvalService.MonitorPatch) schedule : EvaluationsApi.UpdateMonitorRequest_ok q = true ->
  (forall names, EvalService.mp_metrics q = Some (Some names) -> names ⊆ EvalService.available_metrics (mo_target mon)) ->
  Forall (field_ok (mo_target mon)) schedule ->
  Forall (field_ok (mo_target mon))
    (EvalService.opt_field MName (EvalService.mp_name q) ++ EvalService.opt_field MMetrics (EvalService.mp_metrics q ≫= fun v => Some <$> v)
     ++ EvalService.opt_field MFilters (EvalService.patched_filters mon q) ++ EvalService.opt_field MSampling (EvalService.mp_sampling q)
     ++ EvalService.opt_field MModel (EvalService.mp_model q) ++ schedule
     ++ EvalService.opt_field MOnlyIfChanged (EvalService.mp_only_if_changed q)).
Proof.
  intros Hok Hm Hs. unfold EvalService.opt_field. rw !Forall_app. split_and!; [| | | | |done|].
  - destruct (EvalService.mp_name q); repeat constructor.
  - destruct (EvalService.mp_metrics q) as [[l|]|]; repeat constructor. cbn. by apply Hm.
  - destruct (EvalService.patched_filters _ _); repeat constructor.
  - unfold EvaluationsApi.UpdateMonitorRequest_ok in Hok. destruct (EvalService.mp_sampling q) as [[x|]|]; repeat constructor. done.
  - destruct (EvalService.mp_model q); repeat constructor.
  - destruct (EvalService.mp_only_if_changed q); repeat constructor.
Qed.
Lemma known_names (available names : list string) : existsb (fun m => negb (bool_decide (m ∈ available))) names = false -> names ⊆ available.
Proof.
  intros H x Hx. destruct (decide (x ∈ available)) as [|Hn]; [done|]. assert (Ht : existsb (fun m => negb (bool_decide (m ∈ available))) names = true).
  { apply List.existsb_exists. exists x. split; [by apply list_elem_of_In|]. by rw bool_decide_eq_false_2. }
  congruence.
Qed.
Lemma typed_service_get_monitor i p : preserves typed (EvalService.get_monitor i p).
Proof. unfold EvalService.get_monitor, or_raise. respects_auto. Qed.
Hint Resolve typed_service_get_monitor : effects.

Lemma typed_update_monitor i p q : EvaluationsApi.UpdateMonitorRequest_ok q = true -> preserves typed (EvalService.update_monitor o i p q).
Proof.
  intros Hq w Hw. unfold EvalService.update_monitor. unfold mbind at 1, M_bind. pose proof (typed_service_get_monitor i p w Hw) as Hw1.
  destruct (EvalService.get_monitor i p w) as [[m|e] w1] eqn:E; [|exact Hw1]. apply (get_monitor_ok i p w m w1 Hw) in E as (_ & -> & E).
  assert (Hm : monitor_at i p m w) by by split. clear Hw Hw1 E. revert w Hm.
  refine (_ : ensures (monitor_at i p m) _ typed).
  assert (HJ : forall w, monitor_at i p m w -> typed w) by by intros w [H _].
  apply ensures_pure; [destruct (EvalService.mp_metrics q) as [[l|]|]; [apply guard_eq|by intros ?..]|done|]. intros [] Hnames.
  apply ensures_pure; [apply guard_eq|done|]. intros [] _.
  apply ensures_pure; [|done|].
  { destruct (EvalService.mp_cadence q) as [[c|]|]; [|by intros ?..]. respects_step; [apply as_invalid_request_eq|].
    respects_step; [by intros ?|]. respects_step; by intros ?. }
  intros schedule Hsched. apply ensures_then.
  - apply ensures_update_monitor, fields_of_patch; [done| |].
    + intros names Hmn. rewrite Hmn in Hnames. destruct Hnames as (w0 & w1 & Hn). unfold guard_not in Hn.
      destruct (existsb _ names) eqn:Ex; [done|]. by apply known_names.
    + destruct Hsched as (w0 & w1 & Hs). destruct (EvalService.mp_cadence q) as [[c|]|]; [|by injection Hs as <- _; repeat constructor..].
      destruct_bind Hs c' w2 E1. destruct_bind Hs t w3 E2. destruct_bind Hs n w4 E3. injection Hs as <- _.
      apply as_invalid_request_Ok in E1. repeat constructor. cbn. by apply Cadence.validate_cadence_idem in E1.
  - intros []. respects_auto.
Qed.
Hint Resolve typed_edit_score typed_update_monitor : effects.

(** *** The service *)

Ltac typed_auto := respects_auto; repeat (progress cbv zeta; respects_auto).

Lemma typed_check_metrics available what names : preserves typed (EvalService.check_metrics available what names).
Proof. unfold EvalService.check_metrics. respects_auto. Qed.
Lemma check_metrics_Ok available what names w u w' : EvalService.check_metrics available what names w = (Ok u, w') -> names ⊆ available.
Proof.
  unfold EvalService.check_metrics, guard_not. intros H. destruct_bind H v w1 E. destruct (existsb _ _) eqn:Ex; [done|].
  by apply known_names.
Qed.
Lemma checked {A} t what names (k : M World A) : (names ⊆ known_metrics t -> preserves typed k) ->
  preserves typed (EvalService.check_metrics (EvalService.available_metrics t) what names ;; k).
Proof.
  intros Hk. apply (respects_bind_fact _ (fun _ => names ⊆ known_metrics t)); [apply typed_check_metrics| |by intros []].
  intros w u w' H%check_metrics_Ok. etransitivity; [exact H|apply available_known].
Qed.
Lemma typed_add_run mk : (forall i t, e_metrics (mk i t) ⊆ known_metrics (e_target (mk i t))) -> preserves typed (EvalService.add_run mk).
Proof.
  intros Hmk. unfold EvalService.add_run. respects_step; [auto with effects|]. respects_step; [auto with effects|].
  apply (respects_bind_fact _ run_ok); [respects_auto| |].
  - intros w r w' H. unfold lift, EvalRun_validate in H. destruct (in_unit _) eqn:E; [|done]. injection H as <- _. by split.
  - intros r. apply typed_create_eval_run.
Qed.
Lemma typed_targets {A} (l : list A) rate : preserves typed (EvalService.sample_targets o l rate).
Proof. unfold EvalService.sample_targets, EvalService.random_sample. respects_auto. Qed.
Lemma typed_monitor_targets {A} (l : list A) rate : preserves typed (EvalService.sample_for_monitor o l rate).
Proof. unfold EvalService.sample_for_monitor, EvalService.random_sample. respects_auto. Qed.
Lemma typed_trace_ids p f : preserves typed (EvalService._resolve_trace_ids o p f).
Proof. apply typed_read_res. Qed.
Lemma typed_session_ids p f : preserves typed (EvalService._resolve_session_ids o p f).
Proof. apply typed_read_res. Qed.
Lemma typed_service_get_run i p : preserves typed (EvalService.get_eval_run i p).
Proof. unfold EvalService.get_eval_run, or_raise. respects_auto. Qed.
Hint Resolve typed_check_metrics typed_add_run @typed_targets @typed_monitor_targets typed_trace_ids typed_session_ids typed_service_get_run : effects.

Lemma typed_prepare_eval_run p names f rate model name : preserves typed (EvalService.prepare_eval_run o p names f rate model name).
Proof. apply (checked TRACE_TARGET). intros Hn. typed_auto; by apply typed_add_run. Qed.
Lemma typed_prepare_batch p ids names model name : preserves typed (EvalService.prepare_batch_eval_run o p ids names model name).
Proof. apply (checked TRACE_TARGET). intros Hn. typed_auto; by apply typed_add_run. Qed.
Lemma typed_prepare_session p names f rate model name sw : preserves typed (EvalService.prepare_session_eval_run o p names f rate model name sw).
Proof. apply (checked SESSION_TARGET). intros Hn. typed_auto; by apply typed_add_run. Qed.
Lemma typed_prepare_batch_session p ids names model name sw :
  preserves typed (EvalService.prepare_batch_session_eval_run o p ids names model name sw).
Proof. apply (checked SESSION_TARGET). intros Hn. typed_auto; by apply typed_add_run. Qed.
Hint Resolve typed_prepare_eval_run typed_prepare_batch typed_prepare_session typed_prepare_batch_session : effects.

(** A retry runs the metrics that failed. *)
Lemma failed_known {T} `{EqDecision T} (tb : ScoreTable T) t i p w l w' : holds tb t -> typed w ->
  get_failed_of_run tb i p w = (Ok l, w') -> List.map c_name l ⊆ known_metrics t.
Proof.
  intros Htb [Hw _] H x (s & -> & Hs)%list_elem_of_fmap. destruct (Htb _ Hw) as [Hr _]. rewrite Forall_forall in Hr.
  unfold get_failed_of_run, read_res in H. destruct_bind H r w1 E. injection E as <- <-. injection H as H _. unfold to_scores in H.
  set (rows := select _ _) in H.
  assert (Hin : s ∈ rows).
  { revert l H Hs. induction rows as [|r rows IH]; intros l H Hs; cbn in H; [injection H as <-; by apply elem_of_nil in Hs|].
    destruct (_to_score_in r) as [r'|] eqn:E; [|done]. apply Score_validate_same in E as ->. destruct (res_all _) as [l'|]; [|done].
    injection H as <-. apply elem_of_cons in Hs as [->|Hs]; [by left|right; by apply (IH l')]. }
  apply elem_of_select in Hin as [Hin Hf]. apply Hr in Hin as [_ Hk]. apply Hk.
  apply andb_prop in Hf as [_ Hf]. by apply bool_decide_eq_true in Hf.
Qed.
Lemma elem_of_fromkeys {A} `{EqDecision A} (l : list A) x : x ∈ EvalService.fromkeys l -> x ∈ l.
Proof.
  induction l as [|y l IH]; [done|]. cbn. rw !elem_of_cons. intros [->|H]; [by left|]. right. apply IH.
  apply list_elem_of_In, List.filter_In in H as [H _]. by apply list_elem_of_In.
Qed.
Lemma sorted_names_sub l : EvalService.sorted_names l ⊆ l.
Proof. intros x Hx. unfold EvalService.sorted_names, py_sorted in Hx. apply elem_of_order_by in Hx. by apply elem_of_fromkeys. Qed.
Lemma typed_retry i p : preserves typed (EvalService.prepare_retry_failed_run i p).
Proof.
  unfold EvalService.prepare_retry_failed_run. respects_step; [auto with effects|].
  apply (preserves_bind_fact _ (fun l => List.map c_name l ⊆ known_metrics TRACE_TARGET)); [apply typed_read_res| |].
  - intros w l w' Hw. apply (failed_known trace_table); [apply trace_table_holds|done].
  - intros l Hl. typed_auto. apply typed_add_run. intros id t. cbn. etransitivity; [apply sorted_names_sub|exact Hl].
Qed.
Lemma typed_retry_session i p : preserves typed (EvalService.prepare_retry_failed_session_run o i p).
Proof.
  unfold EvalService.prepare_retry_failed_session_run. respects_step; [auto with effects|].
  apply (preserves_bind_fact _ (fun l => List.map c_name l ⊆ known_metrics SESSION_TARGET)); [apply typed_read_res| |].
  - intros w l w' Hw. apply (failed_known session_table); [apply session_table_holds|done].
  - intros l Hl. typed_auto. apply typed_add_run. intros id t. cbn. etransitivity; [apply sorted_names_sub|exact Hl].
Qed.
Hint Resolve typed_retry typed_retry_session : effects.

Lemma typed_spawn m : monitor_ok (cron o) m -> preserves typed (EvalService._spawn_run_for_monitor o m).
Proof.
  intros (_ & Hm & _). unfold EvalService._spawn_run_for_monitor. cbv zeta.
  assert (Hadd : forall total, preserves typed (EvalService.add_run (fun i t =>
    EvalService.new_run i (mo_project m) (Some ("[Monitor] " +:+ mo_name m)%string) (mo_target m) (mo_metrics m) (EvalService.monitor_filters m)
      (mo_sampling m) (Some (EvalService._resolve_model o (mo_model m))) (Some (mo_id m)) total t))).
  { intros total. apply typed_add_run. intros i t. cbn. etransitivity; [exact Hm|apply available_known]. }
  destruct (mo_target m) eqn:E; respects_auto; apply Hadd.
Qed.
Lemma monitor_then {A} i p (k : EvalMonitor -> M World A) : (forall m, monitor_ok (cron o) m -> preserves typed (k m)) ->
  preserves typed (m ← EvalService.get_monitor i p; k m).
Proof.
  apply preserves_bind_fact; [auto with effects|]. intros w m w' Hw E. by apply (get_monitor_ok i p w m w' Hw) in E as [? _].
Qed.
Lemma typed_trigger i p : preserves typed (EvalService.prepare_trigger_monitor o i p).
Proof. apply monitor_then. intros m Hm. respects_step; [by apply typed_spawn|]. respects_auto. Qed.
(** Pausing and resuming set no field that has a type to check. *)
Lemma typed_set_fields i p m fields : Forall (field_ok (mo_target m)) fields ->
  ensures (monitor_at i p m) (EvalRepository.update_monitor i p fields ;; commit ;; EvalService.get_monitor i p) typed.
Proof. intros Hf. apply ensures_then; [by apply ensures_update_monitor|]. intros []. respects_auto. Qed.
Lemma typed_change {A} i p (k : EvalMonitor -> M World A) : (forall m, ensures (monitor_at i p m) (k m) typed) ->
  preserves typed (m ← EvalService.get_monitor i p; k m).
Proof.
  intros Hk w Hw. unfold mbind, M_bind. pose proof (typed_service_get_monitor i p w Hw) as Hw1.
  destruct (EvalService.get_monitor i p w) as [[m|e] w1] eqn:E; [|exact Hw1]. apply (get_monitor_ok i p w m w1 Hw) in E as (_ & -> & E).
  apply Hk. by split.
Qed.
Lemma typed_pause i p : preserves typed (EvalService.pause_monitor i p).
Proof.
  apply typed_change. intros m. case_bool_decide; [by intros w [Hw _]|]. apply typed_set_fields. repeat constructor.
Qed.
Lemma typed_resume i p : preserves typed (EvalService.resume_monitor o i p).
Proof.
  apply typed_change. intros m. assert (HJ : forall w, monitor_at i p m w -> typed w) by by intros w [H _].
  case_bool_decide; [exact HJ|]. apply ensures_pure; [by intros ?|done|]. intros t _. apply ensures_pure; [by intros ?|done|]. intros n _.
  apply typed_set_fields. repeat constructor.
Qed.
Lemma typed_new_monitor p name target names cadence f rate model changed sw :
  preserves typed (EvalService.create_monitor o p name target names cadence f rate model changed sw).
Proof.
  unfold EvalService.create_monitor, or_raise. respects_step; [destruct (TargetType_of target); respects_auto|]. rename a into t.
  respects_step; [respects_auto|].
  apply (respects_bind_fact _ (fun _ => names ⊆ EvalService.available_metrics t)); [respects_auto|intros w u w'; apply check_metrics_Ok|].
  intros _ Hn. apply (respects_bind_fact _ (fun c => Cadence.validate_cadence (cron o) c = Ok c)).
  { unfold EvalService.as_invalid_request. destruct (Cadence.validate_cadence _ _) as [|[]]; respects_auto. }
  { intros w c w' H%as_invalid_request_Ok. by apply Cadence.validate_cadence_idem in H. }
  intros c Hc. respects_step; [auto with effects|]. respects_step; [auto with effects|]. respects_step; [auto with effects|].
  apply (respects_bind_fact _ (monitor_ok (cron o))); [respects_auto| |].
  - intros w m w' H. unfold lift, EvalMonitor_validate in H. destruct (_ && _) eqn:E; [|done]. injection H as <- _.
    apply andb_prop in E as [E _]. by split_and!.
  - intros m Hm. respects_step; [by apply typed_create_monitor|]. respects_auto.
Qed.
Lemma typed_new_score p tid name v ty src why md : preserves typed (EvalService.create_score p tid name v ty src why md).
Proof.
  unfold EvalService.create_score. respects_step; [auto with effects|]. respects_step; [auto with effects|].
  apply (respects_bind_fact _ (score_ok TRACE_TARGET)); [respects_auto| |].
  - intros w s w' H. unfold lift in H. injection H as H _. pose proof (Score_validate_same _ _ H) as ->.
    by apply (Score_validate_ok TRACE_TARGET) in H as [_ H].
  - intros s Hs. respects_step; [by apply typed_create_score|]. respects_auto.
Qed.
Hint Resolve typed_trigger typed_pause typed_resume typed_new_monitor typed_new_score : effects.

(** *** The routes *)

Lemma typed_project ctx : preserves typed (EvaluationsApi.project_id ctx).
Proof. unfold EvaluationsApi.project_id, project_of, or_raise. respects_auto. Qed.
Lemma typed_charged {A} ctx c n (m : M World A) : preserves typed m -> preserves typed (EvaluationsApi.charged ctx c n m).
Proof. intros H. unfold EvaluationsApi.charged. typed_auto. Qed.
Lemma typed_dispatch p : preserves typed (EvalService.dispatch_run o p).
Proof. unfold EvalService.dispatch_run. respects_auto. Qed.
Lemma typed_charge_run ctx c n p : preserves typed (EvaluationsApi.charge_run o ctx c n p).
Proof. unfold EvaluationsApi.charge_run. respects_step; [apply typed_charged, typed_dispatch|respects_auto]. Qed.
Lemma typed_dispatch_trigger p : preserves typed (EvalService.dispatch_trigger_monitor o p).
Proof. unfold EvalService.dispatch_trigger_monitor, EvalService._dispatch_monitor_run. respects_auto. Qed.
Lemma typed_allowed org : preserves typed (require_monitoring_allowed org).
Proof.
  unfold require_monitoring_allowed. respects_step; [by apply typed_keeps, keeps_subscription|respects_auto].
Qed.
Lemma typed_schema b : preserves typed (schema b).
Proof. apply respects_guard_not. typeclasses eauto. Qed.
Lemma schema_then {A} b (m : M World A) : (b = true -> preserves typed m) -> preserves typed (schema b ;; m).
Proof.
  intros H. apply (respects_bind_fact _ (fun _ => b = true)); [apply typed_schema| |by intros []].
  intros w u w' E. unfold schema, guard_not in E. by destruct b.
Qed.
Hint Resolve typed_project @typed_charged typed_dispatch typed_charge_run typed_dispatch_trigger typed_allowed typed_schema : effects.

(** The operations of the service that delete or only read. *)
Lemma typed_service_delete_run i p d : preserves typed (EvalService.delete_eval_run i p d).
Proof. unfold EvalService.delete_eval_run. respects_auto. Qed.
Lemma typed_service_delete_score i p : preserves typed (EvalService.delete_score i p).
Proof. unfold EvalService.delete_score, or_raise. respects_auto. Qed.
Lemma typed_service_delete_session_score i p : preserves typed (EvalService.delete_session_score i p).
Proof. unfold EvalService.delete_session_score. respects_auto. Qed.
Lemma typed_service_delete_monitor i p : preserves typed (EvalService.delete_monitor i p).
Proof. unfold EvalService.delete_monitor. respects_auto. Qed.
Lemma typed_list_runs i p l k : preserves typed (EvalService.list_monitor_runs i p l k).
Proof. unfold EvalService.list_monitor_runs. respects_step; [auto with effects|]. apply typed_read_res. Qed.
Hint Resolve typed_service_delete_run typed_service_delete_score typed_service_delete_session_score typed_service_delete_monitor typed_list_runs : effects.
Lemma typed_monitor_response ctx f : (forall p, preserves typed (f p)) -> preserves typed (EvaluationsApi.monitor_response ctx f).
Proof. intros H. unfold EvaluationsApi.monitor_response. respects_auto. Qed.
Lemma typed_for_project {A} ctx (f : N -> M World A) : (forall p, preserves typed (f p)) -> preserves typed (p ← EvaluationsApi.project_id ctx; f p).
Proof. intros H. respects_auto. Qed.

Lemma typed_serve ctx c : preserves typed (serve_eval o ctx c).
Proof.
  destruct c; cbn [serve_eval]; try (unfold done_with; respects_step; [|respects_auto]).
  all: try solve [apply schema_then; intros Hok; respects_auto].
  all: try solve [unfold EvaluationsApi.get_eval_run, EvaluationsApi.retry_failed_eval_run, EvaluationsApi.retry_failed_session_eval_run; respects_auto].
  all: try solve [apply schema_then; intros Hok; respects_auto; apply typed_read_res].
  all: try solve [apply typed_monitor_response; auto with effects].
  all: try solve [apply typed_for_project; intros p; respects_auto; apply typed_read_res].
  - apply schema_then. intros Hok. apply typed_monitor_response. auto with effects.
Qed.

(** *** The tasks *)

Section tasks.
Context (litellm : LLMEngine.LiteLLM Prompt) (as_float : Json -> option float) (exn_text : exn -> string).
Abbreviation job_typed := (preserves (fun j : Job => typed j.1)).

Lemma typed_job_world {A} (m : M World A) : preserves typed m -> job_typed (on_world m).
Proof. apply on_world_preserves. Qed.
Lemma typed_job_engine {A} (m : M LLMEngine.Engine A) : job_typed (on_engine m).
Proof. apply on_engine_preserves. Qed.
Lemma typed_job_attempt {A} (m : M Job A) : job_typed m -> job_typed (attempt m).
Proof. apply (attempt_preserves (fun j : Job => typed j.1)). Qed.
Ltac job_auto := repeat (solve [eauto with effects] || apply typed_job_world || apply typed_job_engine || apply typed_job_attempt || respects_step).

(** What a worker writes is valid: a success has a valid value, a failure a known name. *)
Lemma success_score_ok {T} t (target : T) p name run env at_ r j s j' :
  success_score target p name run env at_ r j = (Ok s, j') -> score_ok t s.
Proof.
  unfold success_score. intros H. destruct_bind H i j1 E. unfold lift in H. injection H as H _.
  pose proof (Score_validate_same _ _ H) as ->. by apply (Score_validate_ok t) in H as [_ H].
Qed.
Lemma failed_score_ok {T} t (target : T) p name run env at_ what e j s j' : name ∈ known_metrics t ->
  failed_score exn_text target p name run env at_ what e j = (Ok s, j') -> score_ok t s.
Proof.
  unfold failed_score. intros Hn H. destruct_bind H i j1 E. unfold lift, Score_validate in H. cbn in H. injection H as <- _. by split.
Qed.
Lemma job_success_score {T} (target : T) p name run env at_ r : job_typed (success_score target p name run env at_ r).
Proof. unfold success_score. job_auto. Qed.
Lemma job_failed_score {T} (target : T) p name run env at_ what e : job_typed (failed_score exn_text target p name run env at_ what e).
Proof. unfold failed_score. job_auto. Qed.
Hint Resolve @job_success_score @job_failed_score : effects.
Lemma evaluate_typed name t model before : job_typed (evaluate_metric o litellm as_float name t model before).
Proof. apply typed_job_engine. Qed.
Hint Resolve evaluate_typed : effects.

Lemma known_metric name c : get_metric name = Ok c -> name ∈ known_metrics TRACE_TARGET.
Proof. intros H. apply elem_registered. by exists c. Qed.
Lemma metric_then {A} name (k : M Job A) : (name ∈ known_metrics TRACE_TARGET -> job_typed k) -> job_typed (_ ← lift (get_metric name); k).
Proof.
  intros H. apply (respects_bind_fact _ (fun _ => name ∈ known_metrics TRACE_TARGET)); [job_auto| |by intros _].
  intros j c j' E. unfold lift in E. injection E as E _. exact (known_metric name c E).
Qed.
(** A failure is written down and counted. *)
Lemma record_failure {T A B} (create : Score T -> M World A) t (target : T) p name run env at_ what e (k : M World B) :
  (forall s, score_ok t s -> preserves typed (create s)) -> preserves typed k -> name ∈ known_metrics t ->
  job_typed (failed ← failed_score exn_text target p name run env at_ what e; on_world (create failed ;; k)).
Proof.
  intros Hc Hk Hn. apply (respects_bind_fact _ (score_ok t)); [auto with effects| |].
  - intros j s j'. by apply failed_score_ok.
  - intros s Hs. apply typed_job_world. respects_step; [by apply Hc|exact Hk].
Qed.

Lemma typed_store_score {A} (insert : M World A) : preserves typed insert -> job_typed (store_score insert).
Proof. intros H. apply typed_job_world. respects_auto. Qed.
Lemma typed_run_metric run p t name : job_typed (run_metric o litellm as_float exn_text run p t name).
Proof.
  unfold run_metric. apply metric_then. intros Hn. respects_step; [job_auto|].
  apply (respects_bind_fact _ (fun r => match r with Ok s => score_ok TRACE_TARGET s | Err _ => True end)); [job_auto| |].
  - intros j r j'. apply attempt_spec. clear. intros j s j' H. destruct_bind H r j1 E. by apply (success_score_ok TRACE_TARGET) in H.
  - intros [s|e] Hs.
    + apply typed_store_score. by apply typed_create_score.
    + apply (record_failure create_score TRACE_TARGET); [apply typed_create_score|job_auto|done].
Qed.
Lemma typed_progress i : job_typed (progress i).
Proof. unfold progress. job_auto. Qed.
Lemma typed_get_trace i p : preserves typed (TraceRepository.get_trace i p).
Proof. unfold TraceRepository.get_trace. job_auto. Qed.
Hint Resolve typed_run_metric typed_progress typed_get_trace : effects.
Lemma typed_run_trace run p mm tid : job_typed (run_trace o litellm as_float exn_text run p mm tid).
Proof. unfold run_trace. job_auto. Qed.
Lemma typed_job_session {A} (m : M Job A) : job_typed m -> job_typed (job_session m).
Proof. intros H. unfold job_session. job_auto; try done; apply typed_job_world, typed_rollback. Qed.
Hint Resolve typed_run_trace : effects.
Lemma typed_run_eval_run i p ids mm : job_typed (_run_eval_run o litellm as_float exn_text i p ids mm).
Proof. apply typed_job_session. job_auto. Qed.
Lemma start_typed {A} (m : M Job A) : job_typed m -> preserves typed (start m).
Proof. intros H w Hw. unfold start. specialize (H (w, LLMEngine.new_engine) Hw). by destruct (m _). Qed.
Lemma typed_fail i msg : preserves typed (_fail_eval_run i msg).
Proof. unfold _fail_eval_run. job_auto; apply typed_worker; job_auto. Qed.
Lemma typed_retry_task n again e : preserves typed (retry_task n again e).
Proof. unfold retry_task. job_auto. Qed.
Hint Resolve typed_fail typed_retry_task : effects.
Lemma typed_execute i p ids mm n : preserves typed (execute_eval_run o litellm as_float exn_text i p ids mm n).
Proof. unfold execute_eval_run. respects_step; [apply start_typed, typed_run_eval_run|job_auto]. Qed.

Lemma for_each_typed {A} (l : list A) body : (forall x, x ∈ l -> job_typed (body x)) -> job_typed (for_each l body).
Proof.
  induction l as [|x l IH]; intros H; cbn; [job_auto|]. respects_step; [apply H; by left|]. apply IH. intros y Hy. apply H. by right.
Qed.
Lemma typed_compute_signal run p before t name : name ∈ known_metrics TRACE_TARGET ->
  job_typed (compute_signal o litellm as_float exn_text run p before t name).
Proof.
  intros Hn. unfold compute_signal. respects_step; [apply typed_job_world, typed_read_res|].
  destruct (a ≫= c_value) as [v|]; [job_auto|].
  apply (respects_bind_fact _ (fun r => match r with Ok vs => score_ok TRACE_TARGET vs.2 | Err _ => True end)); [job_auto| |].
  - intros j r j'. apply attempt_spec. clear. intros j [v s] j' H. destruct_bind H c j1 E1. destruct_bind H r j2 E2. destruct_bind H at_ j3 E3.
    destruct_bind H s' j4 E4. injection H as _ <- _. by apply (success_score_ok TRACE_TARGET) in E4.
  - intros [[v s]|e] Hs.
    + respects_step; [apply typed_store_score; by apply typed_create_score|job_auto].
    + respects_step; [job_auto|]. apply (record_failure create_score TRACE_TARGET); [apply typed_create_score|respects_auto|done].
Qed.
Lemma typed_trace_signals run p before t names acc : names ⊆ known_metrics TRACE_TARGET ->
  job_typed (trace_signals o litellm as_float exn_text run p before t names acc).
Proof.
  revert acc. induction names as [|name names IH]; intros acc H; cbn; [job_auto|].
  respects_step; [apply typed_compute_signal, H; by left|]. apply IH. intros x Hx. apply H. by right.
Qed.
Lemma signals_known : SIGNAL_METRICS ⊆ known_metrics TRACE_TARGET.
Proof.
  intros x H. unfold SIGNAL_METRICS in H. rewrite !elem_of_cons in H.
  destruct H as [->|[->|[->|[->|H]]]]; [by eapply known_metric..|by apply elem_of_nil in H].
Qed.
Lemma typed_all_signals run p before traces acc : job_typed (all_signals o litellm as_float exn_text run p before traces acc).
Proof.
  revert before acc. induction traces as [|t traces IH]; intros before acc; cbn [all_signals]; [job_auto|].
  respects_step; [apply typed_trace_signals, signals_known|apply IH].
Qed.
Lemma typed_run_session_metric run p sid traces weights signals name : name ∈ known_metrics SESSION_TARGET ->
  job_typed (run_session_metric exn_text run p sid traces weights signals name).
Proof.
  intros Hn. unfold run_session_metric. respects_step; [job_auto|].
  apply (respects_bind_fact _ (fun r => match r with Ok s => score_ok SESSION_TARGET s | Err _ => True end)); [job_auto| |].
  - intros j r j'. apply attempt_spec. clear. intros j s j' H. destruct_bind H c j1 E1. destruct_bind H r j2 E2.
    by apply (success_score_ok SESSION_TARGET) in H.
  - intros [s|e] Hs.
    + apply typed_store_score. by apply typed_create_session_score.
    + apply (record_failure create_session_score SESSION_TARGET); [apply typed_create_session_score|respects_auto|done].
Qed.
Lemma typed_warm_cache traces : job_typed (warm_cache o litellm traces).
Proof. unfold warm_cache. destruct (flat_map _ traces); job_auto. Qed.
Lemma typed_run_session run p sid : run_ok run -> job_typed (run_session o litellm as_float exn_text run p sid).
Proof.
  intros [_ Hrun]. assert (Hk : e_metrics run ⊆ known_metrics SESSION_TARGET).
  { etransitivity; [exact Hrun|]. destruct (e_target run); [apply trace_known|done]. }
  unfold run_session. respects_step; [apply typed_job_world, typed_read_res|]. respects_step; [|job_auto]. destruct a as [|t traces]; [job_auto|].
  respects_step; [apply typed_warm_cache|]. respects_step; [apply typed_all_signals|]. respects_step; [job_auto|].
  apply for_each_typed. intros name Hn. apply typed_run_session_metric. by apply Hk.
Qed.
Lemma typed_run_session_eval i p sids : job_typed (_run_session_eval o litellm as_float exn_text i p sids).
Proof.
  apply typed_job_session. respects_step; [job_auto|].
  apply (preserves_bind_fact (fun j : Job => typed j.1) (fun r => match r with Some run => run_ok run | None => True end)); [job_auto| |].
  - intros j r j' Hj [E _]%on_world_Ok_inv. destruct r as [run|]; [|done]. by apply (get_run_ok i p j.1 run j'.1).
  - intros [run|] Hrun; [|job_auto]. respects_step; [|job_auto]. apply for_each_typed. intros sid _. by apply typed_run_session.
Qed.
Lemma typed_execute_session i p sids n : preserves typed (execute_session_eval_run o litellm as_float exn_text i p sids n).
Proof. unfold execute_session_eval_run. respects_step; [apply start_typed, typed_run_session_eval|respects_auto]. Qed.
End tasks.

(** *** The monitor tasks *)

Lemma typed_acquire k t ttl : preserves typed (acquire_owned_lock k t ttl).
Proof. apply typed_keeps. intros w. unfold acquire_owned_lock, run_script, keeps. by destruct (ACQUIRE_LOCK_SCRIPT _ _ _ _ _). Qed.
Lemma typed_release k t : preserves typed (release_owned_lock k t).
Proof. by apply typed_keeps. Qed.
Hint Resolve typed_acquire typed_release : effects.
Lemma typed_check_monitors : preserves typed (check_eval_monitors o).
Proof.
  unfold check_eval_monitors, dispatcher, _check_eval_monitors, collect_due, reschedule_all. respects_auto.
  apply typed_worker. unfold get_due_monitors. respects_auto.
Qed.
Lemma typed_charge_monitor i org c n run : preserves typed (charge_monitor_run i org c n run).
Proof. unfold charge_monitor_run. respects_auto. Qed.
Lemma typed_dispatch_monitor t i p targets : preserves typed (EvalService._dispatch_monitor_run o t i p targets).
Proof. unfold EvalService._dispatch_monitor_run. respects_auto. Qed.
Lemma typed_skip m : preserves typed (EvalService.should_skip_monitor o m).
Proof. unfold EvalService.should_skip_monitor. respects_auto; apply typed_read_res. Qed.
Hint Resolve typed_check_monitors typed_charge_monitor typed_dispatch_monitor typed_skip typed_retry_task : effects.
Lemma typed_process_monitor i p n : preserves typed (process_single_monitor o i p n).
Proof.
  unfold process_single_monitor. respects_step; [|respects_auto]. apply typed_worker.
  apply (preserves_bind_fact _ (fun r => match r with Some m => monitor_ok (cron o) m | None => True end)); [auto with effects| |].
  - intros w r w' Hw E. destruct r as [m|]; [|done]. apply get_monitor_row in E as [_ E]. exact (monitor_row_ok i p w m Hw E).
  - intros [m|] Hm; [|respects_auto]. respects_step; [auto with effects|]. respects_step; [respects_auto|].
    respects_step; [auto with effects|]. respects_step; [|respects_auto]. respects_step; [by apply typed_spawn|]. respects_auto.
Qed.

(** *** Traces and projects *)

Lemma typed_trace_write f : (forall d, evals_of (f d) = evals_of d) -> preserves typed (write_db f).
Proof. intros H. apply typed_write. intros d. by rw H. Qed.
Lemma typed_insert {R} get set fit hit_ merge parent (row : R) : (forall l d, evals_of (set l d) = evals_of d) ->
  preserves typed (insert_on_conflict get set fit hit_ merge parent row).
Proof.
  intros H w [H1 H2]. unfold insert_on_conflict. destruct (negb _); [done|]. destruct (existsb _ _); [|destruct (parent _); [|done]]; (split; [|done]); cbn; by rw H.
Qed.
Lemma typed_upsert_span s : preserves typed (TraceRepository._upsert_span s).
Proof. unfold TraceRepository._upsert_span. respects_auto; by apply typed_insert. Qed.
Lemma typed_upsert pg' t : preserves typed (TraceRepository.upsert_trace pg' t).
Proof.
  unfold TraceRepository.upsert_trace. respects_auto; try by apply typed_insert.
Qed.
Lemma typed_delete_traces q : preserves typed (TraceRepository.delete_where_traces q).
Proof. unfold TraceRepository.delete_where_traces. respects_auto. apply typed_write. intros d. apply evals_ok_delete_traces. Qed.
Lemma typed_trace_call ctx c : preserves typed (serve_trace (pg o) ctx c).
Proof.
  apply respects_serve; [typeclasses eauto|intros..].
  - unfold TraceRepository.update_trace. respects_auto; by apply typed_trace_write.
  - unfold TraceRepository.update_span. respects_auto; by apply typed_trace_write.
  - unfold TraceRepository.add_spans. respects_auto; apply typed_upsert_span.
  - apply typed_delete_traces.
  - unfold TraceRepository.batch_update_tags. respects_auto; by apply typed_trace_write.
Qed.
Lemma typed_process_trace t n : preserves typed (process_trace (pg o) t n).
Proof.
  unfold process_trace, _persist_trace. respects_auto; try (apply typed_worker); respects_auto. apply typed_upsert.
Qed.
Lemma typed_delete_project i : preserves typed (ProjectRepository.delete_project i).
Proof.
  unfold ProjectRepository.delete_project, ProjectRepository.get_project. respects_auto. apply typed_write. intros d.
  apply evals_ok_delete_projects.
Qed.
Lemma typed_delete_organization i : preserves typed (IdentityRepository.delete_organization i).
Proof.
  unfold IdentityRepository.delete_organization, IdentityRepository.get_organization. respects_auto. apply typed_write. intros d.
  apply evals_ok_delete_projects.
Qed.
End steps.

(** ** Histories *)

Section history.
Context (o : Outside) (litellm : LLMEngine.LiteLLM Prompt) (as_float : Json -> option float) (exn_text : exn -> string).

Inductive EvalEvent :=
  | EvalRequest (ctx : ApiContext) (c : EvalCall)
  | TraceRequest (ctx : ApiContext) (c : TraceCall)
  | ProcessTrace (payload : Trace) (retries : nat)
  | ExecuteRun (run project : N) (trace_ids : list N) (metric_map : option (list (N * list string))) (retries : nat)
  | ExecuteSessionRun (run project : N) (session_ids : list string) (retries : nat)
  | CheckMonitors
  | ProcessMonitor (monitor project : N) (retries : nat)
  | DeleteProject (project : N)
  | DeleteOrganization (org : N)
  | Meanwhile (time : Z) (r : Redis).
(** Requests run in the request's session; an event that raises ends there. *)
Definition run_eval_event (w : World) (e : EvalEvent) : World :=
  match e with
  | EvalRequest ctx c => (get_db_session (serve_eval o ctx c) w).2
  | TraceRequest ctx c => (get_db_session (serve_trace (pg o) ctx c) w).2
  | ProcessTrace t n => (process_trace (pg o) t n w).2
  | ExecuteRun i p ids mm n => (execute_eval_run o litellm as_float exn_text i p ids mm n w).2
  | ExecuteSessionRun i p sids n => (execute_session_eval_run o litellm as_float exn_text i p sids n w).2
  | CheckMonitors => (check_eval_monitors o w).2
  | ProcessMonitor i p n => (process_single_monitor o i p n w).2
  | DeleteProject p => (get_db_session (ProjectRepository.delete_project p) w).2
  | DeleteOrganization org => (get_db_session (IdentityRepository.delete_organization org) w).2
  | Meanwhile t r => set_now t (set_redis r w)
  end.

Lemma typed_event w e : typed (cron o) w -> typed (cron o) (run_eval_event w e).
Proof.
  intros Hw. destruct e; cbn [run_eval_event].
  - apply typed_session; [apply typed_serve|done].
  - apply typed_session; [apply typed_trace_call|done].
  - by apply typed_process_trace.
  - by apply typed_execute.
  - by apply typed_execute_session.
  - by apply typed_check_monitors.
  - by apply typed_process_monitor.
  - apply typed_session; [apply typed_delete_project|done].
  - apply typed_session; [apply typed_delete_organization|done].
  - exact Hw.
Qed.
Lemma typed_events w events : typed (cron o) w -> typed (cron o) (foldl run_eval_event w events).
Proof. revert w. induction events as [|e events IH]; [done|]. intros w Hw. by apply IH, typed_event. Qed.

(** ** Reading back *)

Lemma to_scores_read {T} t (rows l : list (Score T)) : Forall (score_ok t) rows -> l ⊆ rows -> to_scores l = Ok l.
Proof.
  intros H Hl. unfold to_scores. rewrite (res_all_Ok _ id); [|by rw List.map_id]. intros s Hs. apply (score_ok_validate t).
  rewrite Forall_forall in H. by apply H, Hl.
Qed.
Lemma page_sub {R} k n (l : list R) : page k n l ⊆ l.
Proof.
  intros x Hx. unfold page in Hx. set (d := drop _ l) in Hx. rewrite <- (take_drop (Z.to_nat k) l). apply elem_of_app. right. fold d.
  rewrite <- (take_drop (Z.to_nat n) d). apply elem_of_app. by left.
Qed.
Lemma newest_sub {T} (l : list (Score T)) : newest_first l ⊆ l.
Proof. intros x Hx. by apply elem_of_order_by in Hx. Qed.
Lemma select_sub {R} p (l : list R) : select p l ⊆ l.
Proof. by intros x [H _]%elem_of_select. Qed.
Lemma distinct_on_sub {T K} `{EqDecision K} (key : Score T -> K) le (l : list (Score T)) : distinct_on key le l ⊆ l.
Proof.
  intros x Hx. unfold distinct_on in Hx. apply list_elem_of_omap in Hx as ([k g] & Hg & Hx). apply elem_of_order_by in Hg.
  unfold group_by in Hg. apply list_elem_of_fmap in Hg as (k' & [= _ ->] & _). cbn [snd] in Hx. destruct (newest_first (group key k' l)) as [|y l'] eqn:E; [done|].
  cbn in Hx. injection Hx as ->. assert (Hy : x ∈ newest_first (group key k' l)) by (rewrite E; by left).
  apply newest_sub in Hy. by apply elem_of_select in Hy as [? _].
Qed.
Lemma list_scores_read {T} `{EqDecision T} (tb : ScoreTable T) t p q l k w : Forall (score_ok t) (rows_of tb (db w)) ->
  exists found, list_scores_in tb p q l k w = (Ok found, w).
Proof.
  intros H. set (base := select (score_filter p q) (rows_of tb (db w))).
  assert (E : to_scores (page k l (newest_first base)) = Ok (page k l (newest_first base))).
  { apply (to_scores_read t (rows_of tb (db w))); [done|]. etransitivity; [apply page_sub|]. etransitivity; [apply newest_sub|apply select_sub]. }
  change (list_scores_in tb p q l k w) with ((rows ← to_scores (page k l (newest_first base)); Ok (rows, count_rows base)) : res _, w).
  rewrite E. eexists. reflexivity.
Qed.
Lemma list_runs_read p st t l k w : Forall run_ok (eval_runs (evals_of (db w))) ->
  exists found, EvalRepository.list_eval_runs p st t l k w = (Ok found, w).
Proof.
  intros H. set (base := select (fun r => bool_decide (e_project r = p) && opt_test st (fun s => bool_decide (e_status r = s))
                      && opt_test t (fun t => bool_decide (e_target r = t))) (eval_runs (evals_of (db w)))).
  set (rows := page k l (sort_by Z.leb (fun r => Some (e_created r)) DESC base)).
  assert (E : res_all (List.map _to_eval_run rows) = Ok rows).
  { rewrite (res_all_Ok _ id); [|by rw List.map_id]. intros r Hr. apply page_sub, elem_of_order_by, select_sub in Hr.
    rewrite Forall_forall in H. destruct (H r Hr) as [Hu _]. unfold _to_eval_run, EvalRun_validate. by rewrite Hu. }
  change (EvalRepository.list_eval_runs p st t l k w) with ((l ← res_all (List.map _to_eval_run rows); Ok (l, count_rows base)) : res _, w).
  rewrite E. eexists. reflexivity.
Qed.

(** A listing of monitors fails only on a monitor of the project whose filters are null. *)
Lemma list_monitors_read p st l k w : Forall (monitor_ok (cron o)) (eval_monitors (evals_of (db w))) ->
  (exists found, EvalRepository.list_monitors p st l k w = (Ok found, w)) \/
  (exists e, EvalRepository.list_monitors p st l k w = (Err e, w)) /\
    exists m, m ∈ eval_monitors (evals_of (db w)) /\ mo_project m = p /\ mo_filters m = None.
Proof.
  intros H. set (base := select (fun m => bool_decide (mo_project m = p) && opt_test st (fun s => bool_decide (mo_status m = s)))
                          (eval_monitors (evals_of (db w)))).
  set (rows := page k l (sort_by Z.leb (fun m => Some (mo_created m)) DESC base)).
  change (EvalRepository.list_monitors p st l k w) with ((l ← res_all (List.map _to_monitor rows); Ok (l, count_rows base)) : res _, w).
  assert (Hd : forall m : EvalMonitor, {mo_filters m <> None} + {mo_filters m = None}) by (intros m; destruct (mo_filters m); [by left|by right]).
  destruct (Forall_Exists_dec _ _ Hd rows) as [Hno|(m & Hm & Hf)%Exists_exists].
  - left. assert (E : res_all (List.map _to_monitor rows) = Ok rows); [|rewrite E; eexists; reflexivity].
    rewrite (res_all_Ok _ id); [|by rw List.map_id]. intros m Hm. rewrite Forall_forall in Hno. specialize (Hno m Hm).
    apply page_sub, elem_of_order_by, select_sub in Hm. rewrite Forall_forall in H. destruct (H m Hm) as (Hu & _ & _).
    unfold _to_monitor, EvalMonitor_validate. rewrite Hu. cbn in Hno. by destruct (mo_filters m).
  - destruct (res_all _) as [found|e]; [left; by eexists|right]. split; [by eexists|].
    apply page_sub, elem_of_order_by in Hm. apply elem_of_select in Hm as [Hm [Hp%bool_decide_eq_true _]%andb_prop]. by exists m.
Qed.
(** The next run of a cadence that passes validation: a fixed interval on, or what croniter answers for a valid expression. *)
Definition schedulable (cadence : string) : Prop := forall t,
  (exists d, Cadence.compute_next_run (cron o) cadence t = Ok (t + d)) \/
  (exists expr, cron_valid (cron o) expr = true /\ Cadence.compute_next_run (cron o) cadence t = cron_next (cron o) expr t).
Lemma validated_schedulable cadence c : Cadence.validate_cadence (cron o) cadence = Ok c -> schedulable cadence.
Proof.
  unfold Cadence.validate_cadence, schedulable, Cadence.compute_next_run. intros H t.
  destruct (Cadence._PREDEFINED_DELTAS cadence) as [d|]; [left; by exists d|right]. destruct (Cadence.cron_expr cadence) as [expr|]; [|done].
  exists expr. split; [|done]. case_bool_decide; [done|]. by destruct (cron_valid (cron o) expr).
Qed.

End history.

(** *** A run, an annotation and a deletion, on a concrete world *)

Definition annotation : EvaluationsApi.CreateTraceScoreRequest :=
  {| EvaluationsApi.ts_trace := 31; EvaluationsApi.ts_name := "helpful"; EvaluationsApi.ts_value := "true";
     EvaluationsApi.ts_type := BOOLEAN; EvaluationsApi.ts_source := ANNOTATION; EvaluationsApi.ts_reason := None;
     EvaluationsApi.ts_metadata := ∅ |}.
Lemma run_world_typed : typed toy_cron run_world.
Proof.
  assert (H : evals_ok toy_cron (set_eval_runs [plain_run] empty_evaluations)).
  { split_and!; [constructor|constructor| |constructor]. apply Forall_singleton. split; [reflexivity|].
    intros x Hx. apply elem_registered. cbn in Hx. rewrite !elem_of_cons in Hx.
    destruct Hx as [->|[->|Hx]]; [by eexists..|by apply elem_of_nil in Hx]. }
  by split.
Qed.
