(* ===== verification/BillingFootprint.v ===== *)
(** * What traces and evaluations leave to billing

    The requests and tasks of traces and evaluations read the billing tables (for quotas) and never write them, nor
    do they charge: each keeps the billing invariant.  So do the deletions of a project. *)
From stdpp Require Import base gmap strings list.
From Stdlib Require Import ZArith Lia ssreflect.
From S2P Require Import Prelude Constants Entities Float64 PyFloat Json JsonText Evals Telemetry Sql World Invariant BillingRepo Locks Usage BillingTasks IdentityRepo Identity ApiAuth TraceRepo TraceQueries Traces Cadence LLM Metrics EvalRepo EvalService EvalApi EvalTasks RunFacts Ingestion TraceIsolation EvalIntegrity.

#[local] Open Scope Z_scope.

Import EvalRepository Registry.

(** The tables the billing invariant reads. *)
Definition billing_tables (d : DB) : list Subscription * list UsageRecord * list BillingReport :=
  (subscriptions d, usage_records d, billing_reports d).
Lemma db_ok_tables g n l d d' : billing_tables d' = billing_tables d -> db_ok g n l d -> db_ok g n l d'.
Proof.
  intros [= E1 E2 E3]. unfold db_ok, wf_tables, ledger, requests_ok, sent_ok, reports_of, sent_one, gone_for_good.
  by rw E1 E2 E3.
Qed.

Section footprint.
Context (g : Ghost) (o : Outside).
Abbreviation kept := (preserves (billing_wf g)).

(** ** Statements *)

Lemma kept_write f : (forall d, billing_tables (f d) = billing_tables d) -> kept (write_db f).
Proof. intros H. apply pres_write_db. intros n l d. by apply db_ok_tables. Qed.
Lemma kept_insert_row {R} clash get set (r : R) : (forall l d, billing_tables (set l d) = billing_tables d) ->
  kept (insert_row clash get set r).
Proof.
  intros H w [H1 H2]. unfold insert_row. destruct (existsb _ _); [by split|]. split; [|done]. by apply (db_ok_tables _ _ _ (db w)); [apply H|].
Qed.
Lemma kept_upsert {R} get set fit hit merge parent (r : R) : (forall l d, billing_tables (set l d) = billing_tables d) ->
  kept (insert_on_conflict get set fit hit merge parent r).
Proof.
  intros H w [H1 H2]. unfold insert_on_conflict. destruct (negb _); [by split|].
  destruct (existsb _ _); [|destruct (parent _); [|by split]]; (split; [|done]); by apply (db_ok_tables _ _ _ (db w)); [apply H|].
Qed.
Hint Extern 1 (respects _ (write_db _)) => apply kept_write; intros ?; reflexivity : effects.
Hint Extern 1 (respects _ (insert_row _ _ _ _)) => apply kept_insert_row; intros ??; reflexivity : effects.
Hint Extern 1 (respects _ (insert_on_conflict _ _ _ _ _ _ _)) => apply kept_upsert; intros ??; reflexivity : effects.
Lemma kept_run_script {A} (f : Z -> Keyspace -> A * Keyspace) : kept (run_script f).
Proof. intros w H. unfold run_script. by destruct (f _ _). Qed.
Lemma kept_session {A} (m : M World A) : kept m -> kept (get_db_session m).
Proof. intros H. unfold get_db_session. respects_auto. Qed.
Lemma kept_worker {A} (m : M World A) : kept m -> kept (with_session m).
Proof. intros H. unfold with_session. respects_auto. Qed.
Hint Resolve @kept_run_script @kept_session @kept_worker : effects.
Lemma kept_check c n k : kept (check_and_increment c n k).
Proof. unfold check_and_increment. respects_auto. Qed.
Lemma kept_take_back c n k : kept (rollback_increment c n k).
Proof. unfold rollback_increment. respects_auto. Qed.
Lemma kept_delay t : kept (delay (broker o) t).
Proof. unfold delay. respects_auto. Qed.
Lemma kept_read_res {A} (f : DB -> res A) : kept (read_res f).
Proof. unfold read_res. respects_auto. Qed.
Hint Resolve kept_check kept_take_back kept_delay @kept_read_res : effects.

(** ** Traces *)

Lemma kept_trace_call ctx c : kept (serve_trace (pg o) ctx c).
Proof.
  apply respects_serve; [typeclasses eauto|intros..].
  - unfold TraceRepository.update_trace. respects_auto.
  - unfold TraceRepository.update_span. respects_auto.
  - unfold TraceRepository.add_spans, TraceRepository._upsert_span. respects_auto.
  - unfold TraceRepository.delete_where_traces. respects_auto.
  - unfold TraceRepository.batch_update_tags. respects_auto.
Qed.
Lemma kept_process_trace t n : kept (process_trace (pg o) t n).
Proof.
  unfold process_trace, _persist_trace, TraceRepository.upsert_trace, TraceRepository._upsert_span. respects_auto.
  all: apply kept_worker; respects_auto.
Qed.

(** ** Evaluations *)

Create HintDb evaluating discriminated.
#[local] Hint Unfold create_score create_session_score create_score_in delete_scores_where delete_scores_for_run delete_session_scores_for_run
  EvalRepository.delete_score EvalRepository.delete_session_score get_score_by_id EvalRepository.update_score create_eval_run
  EvalRepository.get_eval_run update_run update_run_status increment_progress increment_failed reset_run_counters
  EvalRepository.delete_eval_run EvalRepository.create_monitor EvalRepository.get_monitor EvalRepository.update_monitor
  EvalRepository.delete_monitor get_due_monitors update_schedule advance_monitor reschedule_monitor EvalRepo.update_evals : evaluating.
#[local] Hint Unfold EvalService.add_run EvalService.check_metrics EvalService.random_sample EvalService.sample_targets EvalService.sample_for_monitor
  EvalService._resolve_trace_ids EvalService._resolve_session_ids EvalService.prepare_eval_run EvalService.prepare_batch_eval_run
  EvalService.prepare_session_eval_run EvalService.prepare_batch_session_eval_run EvalService.prepare_retry_failed_run
  EvalService.prepare_retry_failed_session_run EvalService.get_eval_run EvalService.delete_eval_run EvalService.create_score
  EvalService.as_invalid_request EvalService.update_score EvalService.delete_score EvalService.delete_session_score EvalService.create_monitor
  EvalService.get_monitor EvalService.update_monitor EvalService.delete_monitor EvalService.pause_monitor EvalService.resume_monitor
  EvalService.should_skip_monitor EvalService._spawn_run_for_monitor EvalService._dispatch_monitor_run EvalService.prepare_trigger_monitor
  EvalService.dispatch_trigger_monitor EvalService.dispatch_run EvalService.list_monitor_runs require_monitoring_allowed or_raise : evaluating.
Ltac kept_auto := autounfold with evaluating; respects_auto; repeat (progress cbv zeta; respects_auto).

Lemma kept_serve ctx c : kept (serve_eval o ctx c).
Proof.
  destruct c; cbn [serve_eval]; try (unfold done_with; respects_step; [|respects_auto]).
  all: unfold EvaluationsApi.create_eval_run, EvaluationsApi.create_batch_eval_run, EvaluationsApi.create_session_eval_run,
    EvaluationsApi.create_batch_session_eval_run, EvaluationsApi.retry_failed_eval_run, EvaluationsApi.retry_failed_session_eval_run,
    EvaluationsApi.list_runs, EvaluationsApi.get_eval_run, EvaluationsApi.delete_eval_run, EvaluationsApi.get_scores_for_run,
    EvaluationsApi.get_session_scores_for_run, EvaluationsApi.create_trace_score, EvaluationsApi.list_trace_scores,
    EvaluationsApi.get_scores_for_trace, EvaluationsApi.update_trace_score, EvaluationsApi.delete_trace_score,
    EvaluationsApi.list_session_scores, EvaluationsApi.get_scores_for_session, EvaluationsApi.delete_session_score,
    EvaluationsApi.create_monitor, EvaluationsApi.list_monitors, EvaluationsApi.get_monitor, EvaluationsApi.update_monitor,
    EvaluationsApi.delete_monitor, EvaluationsApi.pause_monitor, EvaluationsApi.resume_monitor, EvaluationsApi.trigger_monitor,
    EvaluationsApi.list_monitor_runs, EvaluationsApi.monitor_response, EvaluationsApi.project_id, project_of, schema,
    EvaluationsApi.charge_run, EvaluationsApi.charged.
  all: kept_auto.
Qed.

(** ** Workers *)

Section worker.
Context (litellm : LLMEngine.LiteLLM Prompt) (as_float : Json -> option float) (exn_text : exn -> string).
Abbreviation job_kept := (preserves (fun j : Job => billing_wf g j.1)).

Lemma kept_job_world {A} (m : M World A) : kept m -> job_kept (on_world m).
Proof. apply on_world_preserves. Qed.
Lemma kept_job_engine {A} (m : M LLMEngine.Engine A) : job_kept (on_engine m).
Proof. apply on_engine_preserves. Qed.
Lemma kept_job_attempt {A} (m : M Job A) : job_kept m -> job_kept (attempt m).
Proof. apply (attempt_preserves (fun j : Job => billing_wf g j.1)). Qed.
Ltac job_auto := repeat (solve [eauto with effects] || apply kept_job_world || apply kept_job_engine || apply kept_job_attempt ||
  (progress autounfold with evaluating) || respects_step).

Lemma kept_job_session {A} (m : M Job A) : job_kept m -> job_kept (job_session m).
Proof. intros H. unfold job_session. job_auto. Qed.
Lemma kept_start {A} (m : M Job A) : job_kept m -> kept (start m).
Proof. intros H w Hw. unfold start. specialize (H (w, LLMEngine.new_engine) Hw). by destruct (m _). Qed.
Lemma kept_run_metric run p t name : job_kept (run_metric o litellm as_float exn_text run p t name).
Proof. unfold run_metric, success_score, failed_score, store_score, evaluate_metric. job_auto. Qed.
Lemma kept_run_trace run p mm tid : job_kept (run_trace o litellm as_float exn_text run p mm tid).
Proof. unfold run_trace, progress, TraceRepository.get_trace. job_auto; apply kept_run_metric. Qed.
Lemma kept_fail i msg : kept (_fail_eval_run i msg).
Proof. unfold _fail_eval_run. job_auto; apply kept_worker; job_auto. Qed.
Lemma kept_retry_task n again e : kept (retry_task n again e).
Proof. unfold retry_task. job_auto. Qed.
Hint Resolve kept_run_trace kept_fail kept_retry_task : effects.
Lemma kept_execute i p ids mm n : kept (execute_eval_run o litellm as_float exn_text i p ids mm n).
Proof. unfold execute_eval_run, _run_eval_run. respects_step; [apply kept_start, kept_job_session|]; job_auto. Qed.

Lemma kept_compute_signal run before t name p : job_kept (compute_signal o litellm as_float exn_text run p before t name).
Proof. unfold compute_signal, success_score, failed_score, store_score, evaluate_metric, find_existing_trace_score. job_auto. Qed.
Lemma kept_trace_signals run before t names p acc : job_kept (trace_signals o litellm as_float exn_text run p before t names acc).
Proof.
  revert acc. induction names as [|name names IH]; intros acc; cbn; [job_auto|].
  respects_step; [apply kept_compute_signal|apply IH].
Qed.
Lemma kept_all_signals run before traces p acc : job_kept (all_signals o litellm as_float exn_text run p before traces acc).
Proof.
  revert before acc. induction traces as [|t traces IH]; intros before acc; cbn [all_signals]; [job_auto|].
  respects_step; [apply kept_trace_signals|apply IH].
Qed.
Lemma kept_run_session_metric run sid traces weights signals name p : job_kept (run_session_metric exn_text run p sid traces weights signals name).
Proof. unfold run_session_metric, success_score, failed_score, store_score. job_auto. Qed.
Lemma kept_warm_cache traces : job_kept (warm_cache o litellm traces).
Proof. unfold warm_cache. destruct (flat_map _ traces); job_auto. Qed.
Hint Resolve kept_all_signals kept_run_session_metric kept_warm_cache : effects.
Lemma kept_run_session run sid p : job_kept (run_session o litellm as_float exn_text run p sid).
Proof. unfold run_session, session_traces, progress. job_auto. Qed.
Hint Resolve kept_run_session : effects.
Lemma kept_execute_session i p sids n : kept (execute_session_eval_run o litellm as_float exn_text i p sids n).
Proof. unfold execute_session_eval_run, _run_session_eval. respects_step; [apply kept_start, kept_job_session|]; job_auto. Qed.
End worker.

(** ** Monitors, and the rest *)

Lemma kept_acquire k t ttl : kept (acquire_owned_lock k t ttl).
Proof. intros w H. unfold acquire_owned_lock, run_script. by destruct (ACQUIRE_LOCK_SCRIPT _ _ _ _ _). Qed.
Lemma kept_release k t : kept (release_owned_lock k t).
Proof. intros w H. unfold release_owned_lock, run_script. by destruct (RELEASE_LOCK_SCRIPT _ _ _ _). Qed.
Hint Resolve kept_acquire kept_release : effects.
Lemma kept_check_monitors : kept (check_eval_monitors o).
Proof. unfold check_eval_monitors, dispatcher, _check_eval_monitors, collect_due, reschedule_all. kept_auto; apply kept_worker; kept_auto. Qed.
Lemma kept_process_monitor i p n : kept (process_single_monitor o i p n).
Proof. unfold process_single_monitor, _process_single_monitor, charge_monitor_run, retry_task. kept_auto; apply kept_worker; kept_auto. Qed.
Lemma kept_delete_project i : kept (ProjectRepository.delete_project i).
Proof. unfold ProjectRepository.delete_project, ProjectRepository.get_project, get_by_id. kept_auto. Qed.
Lemma kept_ingest ctx body : kept (TracesApi.ingest_trace (broker o) ctx body).
Proof. unfold TracesApi.ingest_trace, schema, project_of, TraceService.enqueue_trace. kept_auto. Qed.

(** Every event of traces and evaluations; the deletion of an organization is a request of the identity system. *)
Lemma kept_event litellm as_float exn_text e w : (forall org, e <> DeleteOrganization org) -> billing_wf g w ->
  billing_wf g (run_eval_event o litellm as_float exn_text w e).
Proof.
  intros He Hw. destruct e as [ctx c|ctx c|t n|i p ids mm n|i p sids n| |i p n|p|org|t r]; cbn [run_eval_event].
  - exact (kept_session _ (kept_serve ctx c) w Hw).
  - exact (kept_session _ (kept_trace_call ctx c) w Hw).
  - by apply kept_process_trace.
  - by apply kept_execute.
  - by apply kept_execute_session.
  - by apply kept_check_monitors.
  - by apply kept_process_monitor.
  - exact (kept_session _ (kept_delete_project p) w Hw).
  - by destruct (He org).
  - exact Hw.
Qed.
End footprint.
