(* ===== verification/BillingSystem.v ===== *)
(** * The billing system as a whole

    The reachable worlds: any sequence of what the program does, each an atomic run of its
    handler, with an environment between them (Stripe's answers, Redis contents, the clock,
    the queue, locks of other sessions).  The steps are the billing webhooks, schedulers
    and workers; the requests of the identity system: log-ins, which provision an organization, its
    creation and its deletion, which cascades to the billing tables, checkout and the
    billing portal, and everything else the management API does; the requests and
    workers of traces and evaluations.  The theorems here hold of every reachable
    world.  [backs] says what it is for a report to hold a charge, [follows] what a
    request may do to the billing tables, charge by charge. *)
From stdpp Require Import base gmap strings list.
From Stdlib Require Import ZArith Lia ssreflect.
From S2P Require Import Prelude Constants Entities Float64 PyFloat Json Evals Telemetry World Invariant BillingRepo Locks Usage ReportRepo Reporting Billing Frames Webhook BillingTasks Security IdentityRepo Identity ApiAuth CliAuth Routes Access IdentitySpec AuthFacts IdentitySystem TraceRepo Traces LLM Metrics EvalService EvalTasks RunFacts TraceIsolation EvalIntegrity BillingFootprint.

#[local] Open Scope Z_scope.

(** ** Charges and the reports behind them *)

(** The report holds the charge: its amount, units and range, at the report's frozen price. *)
Definition backs (r : BillingReport) (q : ItemRequest) : Prop :=
  br_id r = ir_report q /\
  exists q', br_requests r !! ir_category q = Some q' /\
    ir_amount q = ir_amount q' /\ ir_units q = ir_units q' /\ ir_from q = ir_from q' /\ ir_to q = ir_to q' /\
    ir_amount q = cents (br_pricing r) (ir_units q).
Definition backed (d : DB) (q : ItemRequest) : Prop := exists r, r ∈ billing_reports d /\ backs r q.
(** It does so for the usage of an organization. *)
Definition backed_for (org : N) (d : DB) (q : ItemRequest) : Prop :=
  exists u r, u ∈ usage_records d /\ ur_org u = org /\ r ∈ billing_reports d /\ br_usage r = ur_id u /\ backs r q.

Lemma sent_one_backs d q : requests_ok d -> sent_one d q -> exists r, r ∈ billing_reports d /\ backs r q.
Proof.
  intros R (r & q' & Hin & Hid & Hq' & _ & _ & Ha & Hu & Hf & Ht & _). exists r. split; [done|]. split; [done|].
  exists q'. split_and!; try done. destruct (R r _ q' Hin Hq') as (_ & _ & _ & _ & _ & _ & _ & _ & Hc). by rw Ha Hc Hu.
Qed.

(** ** What a change of the identity tables does to the billing tables *)

(** The invariant reads the charges of the log only. *)
Lemma db_ok_log g n l l' d : (forall q, CreateItem q ∈ l' -> CreateItem q ∈ l) -> db_ok g n l d -> db_ok g n l' d.
Proof.
  intros Hl (W & L & R & S1 & S2 & S3). split; [done|split; [done|split; [done|]]].
  split_and!; [intros q Hq; by apply S1, Hl|intros q1 q2 H1 H2; by apply S2; apply Hl|done].
Qed.
(** A new organization comes with its subscription and its first usage record. *)
Lemma db_ok_new_org g n n' l d s u : (n <= sub_id s < n')%N -> (n <= ur_id u < n')%N -> ur_reported u = zero_counts ->
  existsb (SubscriptionModel_clash s) (subscriptions d) = false ->
  existsb (UsageRecordModel_clash u) (usage_records d) = false -> db_ok g n l d ->
  db_ok g n' l (set_usage_records (usage_records d ++ [u]) (set_subscriptions (subscriptions d ++ [s]) d)).
Proof.
  intros Hs Hu Hz Hcs Hcu Hd.
  assert (Hsub : table_ok sub_id SubscriptionModel_clash n' (subscriptions d ++ [s])).
  { apply (stays_ok_insert sub_id SubscriptionModel_clash n); [apply SubscriptionModel_clash_sym|done|done|apply Hd]. }
  apply (db_ok_tables _ _ _ (set_subscriptions (subscriptions d ++ [s]) (set_usage_records (usage_records d ++ [u]) d))); [done|].
  apply db_ok_subscriptions; [done|]. apply (db_ok_mono g (N.succ (ur_id u))); [lia|].
  apply db_ok_insert_usage; [done|done|done|]. apply (db_ok_mono g n); [lia|done].
Qed.

(** The charges whose report a deletion takes with it. *)
Definition report_gone (d : DB) (q : ItemRequest) : bool :=
  negb (existsb (fun r => bool_decide (br_id r = ir_report q)) (billing_reports d)).
Definition charges (l : list StripeReq) : list ItemRequest :=
  omap (fun x => match x with CreateItem q => Some q | _ => None end) l.
Lemma elem_of_charges l q : q ∈ charges l <-> CreateItem q ∈ l.
Proof.
  unfold charges. rewrite list_elem_of_omap. split.
  - intros (x & Hx & E). destruct x; try discriminate E. by injection E as ->.
  - intros H. by exists (CreateItem q).
Qed.
Definition forget (l : list StripeReq) (d : DB) (g : Ghost) : Ghost :=
  {| initial := initial g; dropped := dropped g ++ select (report_gone d) (charges l) |}.
Lemma report_gone_true d q : report_gone d q = true <-> forall r, r ∈ billing_reports d -> br_id r <> ir_report q.
Proof.
  unfold report_gone. rewrite negb_true_iff -not_true_iff_false existsb_exists. split.
  - intros H r Hr He. apply H. exists r. split; [by apply list_elem_of_In|by apply bool_decide_eq_true].
  - intros H (r & Hr%list_elem_of_In & He%bool_decide_eq_true). by apply (H r).
Qed.

Lemma report_gone_false d q : report_gone d q = false -> exists r, r ∈ billing_reports d /\ br_id r = ir_report q.
Proof.
  unfold report_gone. rewrite negb_false_iff existsb_exists.
  intros (r & Hr%list_elem_of_In & He%bool_decide_eq_true). by exists r.
Qed.

Section deletion.
Context (g : Ghost) (n : N) (l : list StripeReq) (org : N) (d : DB) (Hd : db_ok g n l d).
Let d' := IdentityRepository.cascade_organization org d.

Lemma deleted_report r : r ∈ billing_reports d -> r ∉ billing_reports d' ->
  exists u, u ∈ usage_records d /\ ur_org u = org /\ br_usage r = ur_id u.
Proof.
  intros Hr Hn. destruct (decide (br_usage r ∈ usage_ids org d)) as [Hin|Hin].
  - apply elem_of_map_select in Hin as (u & Hu & Ho%bool_decide_eq_true & He). by exists u.
  - destruct Hn. apply elem_of_delete_where. split; [done|]. by apply bool_decide_eq_false.
Qed.

(** The surviving usage records keep all their reports. *)
Lemma deletion_reports u : u ∈ usage_records d' -> reports_of d' (ur_id u) = reports_of d (ur_id u).
Proof.
  intros [Hu Ho%bool_decide_eq_false]%elem_of_delete_where. apply select_delete_where.
  intros r Hr%bool_decide_eq_true. apply bool_decide_eq_false.
  intros (v & Hv & Hvo%bool_decide_eq_true & He)%elem_of_map_select.
  assert (v = u) as ->; [|done]. apply (table_ok_same_id ur_id UsageRecordModel_clash n (usage_records d)); [apply Hd|done|done|congruence].
Qed.

Lemma deletion_ok : db_ok (forget l d' g) n l d'.
Proof.
  pose proof Hd as ((H1 & H2 & H3) & (L1 & L2 & L3) & R & (S1 & S2 & S3)).
  assert (Hsub : forall r, r ∈ billing_reports d' -> r ∈ billing_reports d) by (by intros r [Hr _]%elem_of_delete_where).
  split_db_ok; [by apply table_ok_delete..| | |].
  - split_and!; [auto| |done]. intros u Hu. rw deletion_reports; [done|]. apply L2. by apply elem_of_delete_where in Hu as [Hu _].
  - intros r c q Hr. apply R. by apply Hsub.
  - split_and!; [|done|].
    + intros q Hq. destruct (report_gone d' q) eqn:E.
      { right. apply elem_of_app. right. apply elem_of_select. by rw elem_of_charges. }
      destruct (S1 q Hq) as [(r & q' & Hr & Hid & Hrest)|Hg]; [left|right; apply elem_of_app; by left].
      exists r, q'. split; [|done]. apply report_gone_false in E as (r' & Hr' & Hid').
      assert (r' = r) as <-; [|done]. apply (table_ok_same_id br_id BillingReportModel_clash n (billing_reports d)); [done|auto|done|congruence].
    + intros q [Hg|[Hq%elem_of_charges E]%elem_of_select]%elem_of_app.
      * destruct (S3 q Hg) as (G1 & G2 & G3). split_and!; auto.
      * destruct (S1 q Hq) as [(r & q' & Hr & Hid & _ & Hk & _)|Hg].
        -- rewrite report_gone_true in E. split_and!; [|done|done]. rewrite -Hid.
           destruct H3 as (_ & _ & H3). rewrite Forall_forall in H3. by apply (H3 r).
        -- destruct (S3 q Hg) as (G1 & G2 & G3). split_and!; auto.
Qed.

(** A charge that loses its report was backed by a report of the organization. *)
Lemma deletion_drops q : q ∈ dropped (forget l d' g) -> q ∈ dropped g \/ (CreateItem q ∈ l /\ backed_for org d q).
Proof.
  pose proof Hd as (_ & _ & R & (S1 & _ & _)).
  intros [Hg|[Hq%elem_of_charges E]%elem_of_select]%elem_of_app; [by left|].
  destruct (S1 q Hq) as [Hone|Hg]; [right|by left]. split; [done|].
  apply sent_one_backs in Hone as (r & Hr & Hb); [|done]. rewrite report_gone_true in E.
  destruct (deleted_report r) as (u & Hu & Ho & He); [done|intros Hr'; by destruct (E r Hr'), Hb|]. by exists u, r.
Qed.
End deletion.

(** ** Requests *)

Section follows.
(** A request runs on the committed tables [d0]; [may_delete]: the organizations it may delete. *)
Context (g : Ghost) (n0 : N) (l : list StripeReq) (d0 : DB) (H0 : db_ok g n0 l d0) (may_delete : N -> Prop).

Definition permitted (a : Action) : Prop :=
  match a with Calls (OnOrg org DeleteOrg) => may_delete org | _ => True end.
(** What the deletions explain of the charges without a report. *)
Definition explained (g' : Ghost) : Prop :=
  initial g' = initial g /\
  forall q, q ∈ dropped g' ->
    q ∈ dropped g \/ (CreateItem q ∈ l /\ exists org, may_delete org /\ backed_for org d0 q).
Definition follows (n : N) (d : DB) : Prop :=
  (exists g', explained g' /\ db_ok g' n l d) /\ (n0 <= n)%N /\
  (forall r, r ∈ billing_reports d -> r ∈ billing_reports d0) /\
  (forall u, u ∈ usage_records d -> u ∈ usage_records d0 \/ (n0 <= ur_id u)%N).

Lemma follows_start : follows n0 d0.
Proof. split_and!; [|done|auto..]. exists g. split; [|done]. split; [done|]. by left. Qed.

Lemma follows_tables n n' d d' : (n <= n')%N -> billing_tables d' = billing_tables d -> follows n d -> follows n' d'.
Proof.
  intros Hn Ht ((g' & Hg & Hd) & H1 & H2 & H3). injection Ht as E1 E2 E3. split_and!; [|lia|by rewrite E3|by rewrite E2].
  exists g'. split; [done|]. apply (db_ok_tables _ _ _ d); [unfold billing_tables; by rewrite E1 E2 E3|]. by apply (db_ok_mono _ n).
Qed.

(** A charge backed in the middle of the request was so at its start. *)
Lemma backed_earlier org n d q : follows n d -> backed_for org d q -> backed_for org d0 q.
Proof.
  intros (_ & _ & H2 & H3) (u & r & Hu & Ho & Hr & He & Hb). exists u, r. split_and!; auto.
  destruct (H3 u Hu) as [|Hn]; [done|]. destruct H0 as (_ & (L1 & _) & _). specialize (L1 r (H2 r Hr)). lia.
Qed.

Lemma follows_delete org n d : may_delete org -> follows n d -> follows n (IdentityRepository.cascade_organization org d).
Proof.
  intros Hm HF. pose proof HF as ((g' & [Hi Hg] & Hd) & H1 & H2 & H3). split_and!; [|done|..].
  - eexists. split; [|apply deletion_ok; exact Hd]. split; [done|].
    intros q [Hq|[Hl Hb]]%(deletion_drops g' n l org d Hd); [by apply Hg|].
    right. split; [done|]. exists org. split; [done|]. by apply (backed_earlier org n d).
  - intros r [Hr _]%elem_of_delete_where. auto.
  - intros u [Hu _]%elem_of_delete_where. auto.
Qed.

Lemma follows_stable : stable permitted (fun _ => follows).
Proof.
  split; [intros _ n n' d Hn; by apply follows_tables|].
  intros u t n n' a d d' Hn Hk Hch HF.
  destruct Hch; try (by apply (follows_tables n n' d)); [|by apply (follows_tables n n' (IdentityRepository.cascade_organization org d)); [..|apply follows_delete]].
  pose proof HF as ((g' & Hg & Hd) & H1' & H2' & H3'). split_and!; [|lia|done|].
  - exists g'. split; [done|].
    apply (db_ok_tables _ _ _ (set_usage_records (usage_records d ++ [ur]) (set_subscriptions (subscriptions d ++ [s]) d))); [done|].
    by apply (db_ok_new_org g' n).
  - cbn. intros v [Hv| ->%list_elem_of_singleton]%elem_of_app; [auto|right; lia].
Qed.
End follows.

(** The committed outcome of a request: its own changes, or none. *)
Lemma request_wf g w may_delete {A} (m : M World A) : billing_wf g w -> respects session m ->
  (forall a w0 w1, m w0 = (Ok a, w1) -> moves (permitted may_delete) w0 w1) ->
  exists g', explained g (stripe_log w) (durable w) may_delete g' /\ billing_wf g' (get_db_session m w).2.
Proof.
  intros [Hw Hd] Hs Hm. destruct (get_db_session_run m w Hs) as (r & w1 & Em & S & E1 & E2 & _ & E4 & E5).
  pose proof S as (_ & _ & Hn & Hl).
  assert (Hout : forall g', db_ok g' (next_id w1) (stripe_log w) (match r with Ok _ => db w1 | Err _ => durable w end) ->
    billing_wf g' (get_db_session m w).2).
  { intros g' H. unfold billing_wf. rewrite E1 E2 E4 E5. pose proof (db_ok_log g' _ _ _ _ Hl H). by split. }
  destruct r as [a|e].
  - apply Hm in Em. apply (moves_stable _ _ _ _ (follows_stable g _ _ _ Hd may_delete)) in Em; [|apply follows_start; exact Hd].
    destruct Em as ((g' & Hg & H) & _). exists g'. split; [exact Hg|by apply Hout].
  - exists g. split; [split; [done|by left]|]. apply Hout. by apply (db_ok_mono g (next_id w)).
Qed.

(** ** Steps *)

Section system.
Context (sha256 : string -> list N) (provider : Provider).
Context (o : Outside) (litellm : LLMEngine.LiteLLM Prompt) (as_float : Json -> option float) (exn_text : exn -> string).

(** What the environment may change: everything but the billing tables, the log of what
    was sent to Stripe and the identifiers already drawn. *)
Definition environment (w w' : World) : Prop :=
  billing_tables (db w') = billing_tables (db w) /\ billing_tables (durable w') = billing_tables (durable w) /\
  stripe_log w' = stripe_log w /\ (next_id w <= next_id w')%N.

Inductive step (w : World) : World -> Prop :=
  | step_webhook request : step w (stripe_webhook request w).2
  | step_dispatch_sync : step w (dispatch_sync_usage w).2
  | step_dispatch_billing : step w (dispatch_overage_billing w).2
  | step_dispatch_reports : step w (dispatch_billing_reports w).2
  | step_dispatch_hobby : step w (dispatch_hobby_reset w).2
  | step_sync org : step w (sync_single_org_usage org w).2
  | step_bill org : step w (bill_single_org org w).2
  | step_deliver id : step w (deliver_billing_report id w).2
  | step_check_closed org a b id : step w (check_closed_billing_period org a b id w).2
  | step_reset org : step w (reset_single_hobby_org org w).2
  | step_identity w' : IdentitySystem.step sha256 provider (fun _ => True) any_time w w' -> step w w'
  | step_ingest ctx body : step w (get_db_session (TracesApi.ingest_trace (broker o) ctx body) w).2
  | step_evaluation e : (forall org, e <> DeleteOrganization org) -> step w (run_eval_event o litellm as_float exn_text w e)
  | step_environment w' : environment w w' -> step w w'.

Inductive reachable (w : World) : World -> Prop :=
  | reach_refl : reachable w w
  | reach_step w1 w2 : reachable w w1 -> step w1 w2 -> reachable w w2.

(** A request to delete an organization. *)
Definition deletes (org : N) (w w' : World) : Prop :=
  exists r, w' = (get_db_session (management_request sha256 provider r (OnOrg org DeleteOrg)) w).2.
(** The charge had been sent, and its report went with its organization, which a request deleted. *)
Definition lost_in (w w' : World) (q : ItemRequest) : Prop :=
  CreateItem q ∈ stripe_log w /\ exists org, deletes org w w' /\ backed_for org (durable w) q /\ ~ backed (durable w') q.

Lemma dropped_unbacked g w q : billing_wf g w -> q ∈ dropped g -> ~ backed (durable w) q.
Proof. intros [_ (_ & _ & _ & _ & _ & S3)] Hq (r & Hr & Hid & _). destruct (S3 q Hq) as (_ & _ & G). by apply (G r). Qed.

Lemma identity_step_wf g w w' : IdentitySystem.step sha256 provider (fun _ => True) any_time w w' -> billing_wf g w ->
  exists g', initial g' = initial g /\ billing_wf g' w' /\ forall q, q ∈ dropped g' -> q ∈ dropped g \/ lost_in w w' q.
Proof.
  intros Hs Hw.
  assert (Hreq : forall A (m : M World A), respects session m ->
    (forall a w0 w1, m w0 = (Ok a, w1) -> moves (permitted (fun _ => False)) w0 w1) ->
    exists g', initial g' = initial g /\ billing_wf g' (get_db_session m w).2 /\
      forall q, q ∈ dropped g' -> q ∈ dropped g \/ lost_in w (get_db_session m w).2 q).
  { intros A m Hm Hmoves. destruct (request_wf g w _ m Hw Hm Hmoves) as (g' & [Hi Hg] & H). exists g'. split_and!; [done..|].
    intros q [Hq|(_ & org & [] & _)]%Hg. by left. }
  destruct Hs as [r c _|r|code v| |t _ _].
  - destruct (request_wf g w (fun org => c = OnOrg org DeleteOrg) (management_request sha256 provider r c) Hw) as (g' & [Hi Hg] & H).
    + apply session_management_request.
    + intros [] w0 w1 E. apply (management_request_moves sha256 provider _ r c w0 w1); [done| |exact E].
      by destruct c as [org [] | | |].
    + exists g'. split_and!; [done..|]. intros q Hin. destruct (Hg q Hin) as [Hq|(Hq & org & -> & Hb)]; [by left|right].
      split; [done|]. exists org. split; [by exists r|]. split; [done|]. by apply (dropped_unbacked g').
  - apply Hreq; [apply session_get_data_plane_context|]. intros ctx w0 w1 E. by apply (data_plane_moves sha256 provider _ r w0 ctx w1).
  - apply Hreq; [apply session_exchange|]. intros y0 w0 w1 E. by apply (exchange_moves sha256 _ code v w0 y0 w1).
  - exists g. split_and!; [done| |by left]. destruct Hw as [Hw Hd].
    destruct (expire_run w) as (_ & E2 & E3). split; (eapply db_ok_tables; [|exact Hd]); reflexivity.
  - exists g. split_and!; [done|exact Hw|by left].
Qed.

Lemma step_wf g w w' : step w w' -> billing_wf g w ->
  exists g', initial g' = initial g /\ billing_wf g' w' /\ forall q, q ∈ dropped g' -> q ∈ dropped g \/ lost_in w w' q.
Proof.
  intros Hs Hw. assert (Hkeep : billing_wf g w' -> exists g', initial g' = initial g /\ billing_wf g' w' /\
    forall q, q ∈ dropped g' -> q ∈ dropped g \/ lost_in w w' q) by (intros H; exists g; split_and!; [done..|by left]).
  destruct Hs as [request| | | | |org|org|id|org a b id|org|w' Hi|ctx body|e He|w' (E1 & E2 & E3 & E4)].
  - apply Hkeep, (pres_stripe_webhook g request w Hw).
  - apply Hkeep, (pres_dispatch_sync_usage g w Hw).
  - apply Hkeep, (pres_dispatch_overage_billing g w Hw).
  - apply Hkeep, (pres_dispatch_billing_reports g w Hw).
  - apply Hkeep, (pres_dispatch_hobby_reset g w Hw).
  - apply Hkeep, (pres_sync_single_org_usage g org w Hw).
  - apply Hkeep, (pres_bill_single_org g org w Hw).
  - apply Hkeep, (pres_deliver_billing_report g id w Hw).
  - apply Hkeep, (pres_check_closed g org a b id w Hw).
  - apply Hkeep, (pres_reset_single_hobby_org g org w Hw).
  - by apply identity_step_wf.
  - apply Hkeep, (kept_session g _ (kept_ingest g o ctx body) w Hw).
  - apply Hkeep. by apply kept_event.
  - apply Hkeep. destruct Hw as [Hw Hd]. unfold billing_wf. rewrite E3.
    split; (eapply db_ok_tables; [eassumption|]); by apply (db_ok_mono g (next_id w)).
Qed.

(** In a reachable world the invariant holds, and every charge whose report is gone was lost in a deletion on the way. *)
Lemma reachable_wf g w w' : reachable w w' -> billing_wf g w ->
  exists g', initial g' = initial g /\ billing_wf g' w' /\
    forall q, q ∈ dropped g' -> q ∈ dropped g \/ exists w1 w2, reachable w w1 /\ lost_in w1 w2 q /\ reachable w2 w'.
Proof.
  induction 1 as [|w1 w2 Hr IH Hs]; intros Hw; [exists g; split_and!; [done..|by left]|].
  destruct (IH Hw) as (g1 & Hi1 & Hw1 & Hd1). destruct (step_wf g1 w1 w2 Hs Hw1) as (g2 & Hi2 & Hw2 & Hd2).
  exists g2. split_and!; [congruence|done|]. intros q [[Hq|(v1 & v2 & R1 & L & R2)]%Hd1|L]%Hd2; [by left| |].
  - right. exists v1, v2. split; [done|]. split; [done|]. exact (reach_step _ _ _ R2 Hs).
  - right. exists w1, w2. split; [done|]. split; [done|apply reach_refl].
Qed.
End system.

(** A day in the life of the sample PRO organization: its overage is reserved, sent to Stripe and
    confirmed by the billing worker; then its owner deletes it. *)
Definition billed_world : World := (bill_single_org 7 (set_stripe [RespItem "ii_1"] [] (tenant_world []))).2.
Definition closed_world : World :=
  (get_db_session (management_request toy_digest tenant_provider (bearer "alice" (Uuid 7)) (OnOrg 7 DeleteOrg)) billed_world).2.
Abbreviation reaches := (reachable toy_digest tenant_provider toy_outside confident_judge read_float (fun _ => "error"%string)).

Lemma tenant_world_wf : billing_wf from_start (tenant_world []).
Proof. exact pro_world_wf. Qed.
Lemma billed_world_reachable : reaches (tenant_world []) billed_world.
Proof.
  eapply reach_step; [|apply step_bill]. eapply reach_step; [apply reach_refl|].
  apply step_environment. by split_and!.
Qed.
Lemma closed_world_reachable : reaches (tenant_world []) closed_world.
Proof. eapply reach_step; [exact billed_world_reachable|]. apply step_identity. by apply step_management. Qed.

(** ** Properties *)

(** C1: Every overage unit is reserved exactly once.  In every reachable state (log-ins,
    creation and deletion of organizations and every other request included), for
    every usage record with reports, the units its reports charge for a category
    add up to exactly the units over the included base between the watermark before
    its first report and the highest reserved count: whatever order webhooks,
    retries, workers and late counters come in, no unit is charged twice and no
    unit below the reserved count is skipped. *)
Theorem overage_reserved_exactly_once (sha256 : string -> list N) (provider : Provider) (o : Outside)
  (litellm : LLMEngine.LiteLLM Prompt) (as_float : Json -> option float) (exn_text : exn -> string) (w0 : Ghost) (w w' : World) :
  billing_wf w0 w -> reachable sha256 provider o litellm as_float exn_text w w' ->
  forall u r c, u ∈ usage_records (durable w') -> r ∈ reports_of (durable w') (ur_id u) ->
    let reports := reports_of (durable w') (ur_id u) in
    total_units reports c =
      max0 (reserved u reports c - base_of r c) - max0 (cnt (w0 (ur_id u)) c - base_of r c).
Proof.
  intros Hw Hr u r c Hu Hin. destruct (reachable_wf _ _ _ _ _ _ w0 w w' Hr Hw) as (g & <- & [_ (_ & (_ & L & _) & _)] & _).
  destruct (L u Hu) as (_ & _ & H). by apply H.
Qed.

Example overage_reserved_exactly_once_witness :
  exists u r, u ∈ usage_records (durable billed_world) /\ r ∈ reports_of (durable billed_world) (ur_id u) /\
    total_units (reports_of (durable billed_world) (ur_id u)) TRACES = 10.
Proof.
  assert (Hu : exists u, usage_records (durable billed_world) = [u]) by (vm_compute; eexists; reflexivity).
  destruct Hu as [u Hu]. assert (Hin : u ∈ usage_records (durable billed_world)) by (rewrite Hu; left).
  assert (Hr : exists r, reports_of (durable billed_world) (ur_id u) = [r] /\ base_of r TRACES = 5000 /\
     reserved u [r] TRACES = 5010).
  { injection (eq_trans (eq_sym Hu) (eq_refl (usage_records (durable billed_world)))) as ->.
    vm_compute. eexists. split_and!; reflexivity. }
  destruct Hr as (r & Hr & Hb & Hres).
  assert (Hrin : r ∈ reports_of (durable billed_world) (ur_id u)) by (rewrite Hr; left).
  exists u, r. split; [exact Hin|]. split; [exact Hrin|].
  rewrite (overage_reserved_exactly_once _ _ _ _ _ _ from_start (tenant_world []) billed_world tenant_world_wf
    billed_world_reachable u r TRACES Hin Hrin).
  rewrite Hr Hb Hres. reflexivity.
Defined.

(** C2: Charges are frozen and safely retryable.  In every reachable state, every
    charge ever sent to Stripe is backed by a committed report that holds the same
    amount, units and range for its category (so a crash after the call cannot
    lose it) and is for the amount its units cost at the frozen price, with one
    exception: its report, which backed it until then, went when a request deleted the organization whose usage
    it charged.  And any two charges sent under one idempotency key, whatever was deleted, are
    the identical request, so that Stripe's deduplication makes retries harmless. *)
Theorem charges_backed_and_frozen (sha256 : string -> list N) (provider : Provider) (o : Outside)
  (litellm : LLMEngine.LiteLLM Prompt) (as_float : Json -> option float) (exn_text : exn -> string) (w0 : Ghost) (w w' : World) :
  let reach := reachable sha256 provider o litellm as_float exn_text in
  billing_wf w0 w -> dropped w0 = [] -> reach w w' ->
  (forall q, CreateItem q ∈ stripe_log w' ->
     backed (durable w') q \/ exists w1 w2, reach w w1 /\ lost_in sha256 provider w1 w2 q /\ reach w2 w') /\
  (forall q1 q2, CreateItem q1 ∈ stripe_log w' -> CreateItem q2 ∈ stripe_log w' ->
     ir_key q1 = ir_key q2 -> q1 = q2).
Proof.
  intros reach Hw Hnone Hr. destruct (reachable_wf _ _ _ _ _ _ w0 w w' Hr Hw) as (g & _ & [_ (_ & _ & R & S1 & S2 & _)] & Hlost).
  split; [|exact S2]. intros q Hq. destruct (S1 q Hq) as [Hone|Hgone]; [left; by apply sent_one_backs|].
  destruct (Hlost q Hgone) as [Hq0|H]; [|by right]. rewrite Hnone in Hq0. by apply elem_of_nil in Hq0.
Qed.

(** The charge of 4 cents is backed by its report until Acme is deleted. *)
Example charges_backed_and_frozen_witness :
  exists q, stripe_log billed_world = [CreateItem q] /\ ir_amount q = 4 /\ backed (durable billed_world) q /\
    stripe_log closed_world = [CreateItem q] /\ billing_reports (durable closed_world) = [] /\
    exists w1 w2, reaches (tenant_world []) w1 /\ lost_in toy_digest tenant_provider w1 w2 q /\ reaches w2 closed_world.
Proof.
  assert (Hl : exists q r, stripe_log billed_world = [CreateItem q] /\ ir_amount q = 4 /\ stripe_log closed_world = [CreateItem q] /\
    billing_reports (durable billed_world) = [r] /\ backs r q).
  { unfold backs. vm_compute. eexists _, _. split_and!; [reflexivity..|]. eexists. split_and!; reflexivity. }
  destruct Hl as (q & r & Hl & Ha & Hc & Hr & Hb). exists q. split; [exact Hl|]. split; [exact Ha|].
  assert (Hgone : billing_reports (durable closed_world) = []) by (vm_compute; reflexivity).
  split; [exists r; rewrite Hr; split; [left|exact Hb]|split; [exact Hc|split; [exact Hgone|]]].
  destruct (charges_backed_and_frozen _ _ _ _ _ _ from_start _ closed_world tenant_world_wf eq_refl closed_world_reachable) as [H _].
  assert (Hsent : CreateItem q ∈ stripe_log closed_world) by (rewrite Hc; left).
  destruct (H q Hsent) as [(r' & Hr' & _)|Hlost]; [|exact Hlost]. exfalso. rewrite Hgone in Hr'. exact (not_elem_of_nil _ Hr').
Defined.
