(* ===== verification/EvalIsolation.v ===== *)
(** * The evaluations of a project are its own

    Whatever other projects do, with requests, deliveries, worker tasks and deletions, the
    runs, monitors and scores of a project stay, but for what foreign keys do to those that refer to
    rows of others ([faded], of ProjectEvals.v); the scheduler, which serves every project, moves the next times of
    its monitors and nothing else.  [held w] says that a project's evaluations are a fixed view, up to
    fading, and every step of the others preserves it. *)
From stdpp Require Import base gmap strings list.
From Stdlib Require Import ZArith Lia ssreflect.
From S2P Require Import Prelude Constants Entities Float64 PyFloat Json JsonText Evals Telemetry ProjectEvals Sql World BillingRepo Locks Usage Security IdentityRepo Identity ApiAuth BillingTasks TraceRepo TraceQueries Traces Cadence LLM Metrics EvalRepo EvalService EvalApi EvalTasks RunFacts Ingestion TraceIsolation EvalIntegrity.

#[local] Open Scope Z_scope.

Import EvalRepository Registry.

(** ** The evaluations of one project *)

Definition is_project (q p : N) : bool := bool_decide (p = q).
Definition own_evals (q : N) (x : Evaluations) : Evaluations := evals_in (is_project q) x.
(** A monitor without the time of its next run, which the scheduler sets. *)
Definition unscheduled (m : EvalMonitor) : EvalMonitor := set_schedule (mo_last_run_at m) (mo_last_run m) None 0 m.

(** Primary keys are unique, and [org] is the project's organization. *)
Definition intact (q org : N) (d : DB) : Prop :=
  NoDup (List.map t_id (traces_of d)) /\ keyed (evals_of d) /\ Forall (fun p => p_id p = q -> p_org p = org) (projects d).

(** ** Changes that concern others *)

Lemma select_update_others {R} (own p : R -> bool) f l : (forall r, r ∈ l -> p r = true -> own (f r) = own r) ->
  (forall r, r ∈ l -> own r = true -> p r = false) -> select own (update_where p f l) = select own l.
Proof.
  intros Hf Hp. rw select_update_where; [exact Hf|]. apply update_where_none. intros r [Hr Ho]%elem_of_select. by apply Hp.
Qed.
Lemma select_new {R} (own : R -> bool) l r : own r = false -> select own (l ++ [r]) = select own l.
Proof. intros H. rw select_app. cbn. rw H. by rw app_nil_r. Qed.
Lemma NoDup_new {R} (ident : R -> N) (clash : R -> bool) l r : (forall x, ident r = ident x -> clash x = true) ->
  NoDup (List.map ident l) -> existsb clash l = false -> NoDup (List.map ident (l ++ [r])).
Proof.
  intros Hc Hn H. rw List.map_app. apply NoDup_app. split_and!; [done| |apply NoDup_singleton]. intros i (x & -> & Hx)%list_elem_of_fmap E.
  apply list_elem_of_singleton in E. rewrite <- not_true_iff_false in H. apply H. apply List.existsb_exists. exists x.
  split; [by apply list_elem_of_In|by apply Hc].
Qed.

(** What every row of a list satisfies. *)
Ltac members H := rewrite Forall_forall in H.

(** ** Held evaluations *)

Section held.
Context (o : Outside) (q org : N) (trace_ids : list N) (see : EvalMonitor -> EvalMonitor) (v : Evaluations).
Hypothesis Hsee : faithful see.

(** The project's evaluations are [v] or what has faded of it, as [see] shows them; its traces are still there. *)
Definition held_db (d : DB) : Prop :=
  intact q org d /\ trace_ids ⊆ own_trace_ids q (telemetry d) /\ faded trace_ids v (seen see (own_evals q (evals_of d))).
Definition held (w : World) : Prop := held_db (db w) /\ held_db (durable w).

(** A change that at most fades the project's evaluations and keeps its traces. *)
Lemma held_shown d d' : faded trace_ids (seen see (own_evals q (evals_of d))) (seen see (own_evals q (evals_of d'))) -> keyed (evals_of d') ->
  NoDup (List.map t_id (traces_of d')) -> own_trace_ids q (telemetry d) ⊆ own_trace_ids q (telemetry d') ->
  projects d' ⊆ projects d -> held_db d -> held_db d'.
Proof using.
  intros E Hk Ht Hsub Hp ((_ & _ & Ho) & Hi & Hv). split; [split_and!; [done..|]|split; [by transitivity (own_trace_ids q (telemetry d))|]].
  - members Ho. apply Forall_forall. intros p Hin. by apply Ho, Hp.
  - by apply (faded_trans _ _ _ _ Hv).
Qed.
Lemma held_fade d d' : faded trace_ids (own_evals q (evals_of d)) (own_evals q (evals_of d')) -> keyed (evals_of d') ->
  NoDup (List.map t_id (traces_of d')) -> own_trace_ids q (telemetry d) ⊆ own_trace_ids q (telemetry d') ->
  projects d' ⊆ projects d -> held_db d -> held_db d'.
Proof using Hsee. intros E. apply held_shown. by apply faded_seen. Qed.
Lemma held_change d d' : own_evals q (evals_of d') = own_evals q (evals_of d) -> keyed (evals_of d') ->
  NoDup (List.map t_id (traces_of d')) -> own_trace_ids q (telemetry d) ⊆ own_trace_ids q (telemetry d') ->
  projects d' ⊆ projects d -> held_db d -> held_db d'.
Proof using Hsee. intros E. apply held_fade. rewrite E. apply faded_refl. Qed.
(** A change of the evaluations alone. *)
Lemma held_evals_fade f d : (keyed (evals_of d) ->
    faded trace_ids (own_evals q (evals_of d)) (own_evals q (f (evals_of d))) /\ keyed (f (evals_of d))) -> held_db d -> held_db (on_evals f d).
Proof using Hsee.
  intros Hf Hd. pose proof Hd as ((Ht & Hk & _) & _). destruct (Hf Hk). by apply (held_fade d).
Qed.
Lemma held_evals f d : (keyed (evals_of d) -> own_evals q (f (evals_of d)) = own_evals q (evals_of d) /\ keyed (f (evals_of d))) ->
  held_db d -> held_db (on_evals f d).
Proof using Hsee. intros Hf. apply held_evals_fade. intros Hk. destruct (Hf Hk) as [-> ?]. split; [apply faded_refl|done]. Qed.
Lemma held_run_ids d : held_db d -> run_ids (own_evals q (evals_of d)) = run_ids v.
Proof using. intros (_ & _ & [H _]%faded_ids). exact H. Qed.
Lemma held_monitor_ids d : held_db d -> monitor_ids (own_evals q (evals_of d)) = monitor_ids v.
Proof using Hsee. intros (_ & _ & [_ H]%faded_ids). by rewrite <- H, seen_monitor_ids. Qed.
Lemma held_write f : (forall d, held_db d -> held_db (f d)) -> preserves held (write_db f).
Proof using. intros H w [H1 H2]. split; [by apply H|done]. Qed.
Lemma held_update f : (forall x, keyed x -> own_evals q (f x) = own_evals q x /\ keyed (f x)) -> preserves held (update_evals f).
Proof using Hsee. intros H. apply held_write. intros d. apply held_evals. intros Hk. by apply H. Qed.
Lemma held_keeps {A} (m : M World A) : respects (keeps (fun w => (db w, durable w))) m -> preserves held m.
Proof using. intros H w Hw. specialize (H w). injection H as H1 H2. unfold held. by rw H1 H2. Qed.
Lemma held_commit : preserves held commit.
Proof using. by intros w [H1 H2]. Qed.
Lemma held_rollback : preserves held rollback.
Proof using. by intros w [H1 H2]. Qed.
Lemma held_uuid4 : preserves held uuid4.
Proof using. by intros w H. Qed.
Lemma held_delay t : preserves held (delay (broker o) t).
Proof using. unfold delay. respects_auto. intros w H. exact H. Qed.
Lemma held_enqueue t : preserves held (enqueue t).
Proof using. by apply held_keeps. Qed.
Lemma held_read_res {A} (f : DB -> res A) : preserves held (read_res f).
Proof using. apply respects_read_res. typeclasses eauto. Qed.
Lemma held_read_db {A} (f : DB -> A) : preserves held (read_db f).
Proof using. apply respects_gets. typeclasses eauto. Qed.
Lemma held_now : preserves held utcnow.
Proof using. apply respects_gets. typeclasses eauto. Qed.
Lemma held_check c n k : preserves held (check_and_increment c n k).
Proof using. by apply held_keeps, keeps_check. Qed.
Lemma held_take_back c n k : preserves held (rollback_increment c n k).
Proof using. by apply held_keeps, keeps_rollback. Qed.
Lemma held_session {A} (m : M World A) : preserves held m -> preserves held (get_db_session m).
Proof using. intros H. unfold get_db_session. respects_auto; try apply held_rollback; try done. apply held_commit. Qed.
Lemma held_worker {A} (m : M World A) : preserves held m -> preserves held (with_session m).
Proof using. intros H. unfold with_session. respects_auto; try apply held_rollback; done. Qed.
Hint Resolve held_commit held_rollback held_uuid4 held_delay held_enqueue @held_read_res @held_read_db held_now held_check held_take_back
  @held_session @held_worker : effects.

(** *** Scores *)

(** The table is one of the two of scores. *)
Definition separate {T} (tb : ScoreTable T) : Prop :=
  forall l x, select (score_in (is_project q)) l = select (score_in (is_project q)) (sc_rows tb x) -> own_evals q (sc_set tb l x) = own_evals q x /\
    eval_runs (sc_set tb l x) = eval_runs x /\ eval_monitors (sc_set tb l x) = eval_monitors x.
Lemma trace_table_separate : separate trace_table.
Proof using. intros l x H. split; [|done]. unfold own_evals, evals_in. cbn [sc_set sc_rows trace_table session_table] in *.
  by rewrite <- H. Qed.
Lemma session_table_separate : separate session_table.
Proof using. intros l x H. split; [|done]. unfold own_evals, evals_in. cbn [sc_set sc_rows trace_table session_table] in *.
  by rewrite <- H. Qed.

Section table.
Context {T : Type} `{EqDecision T} (tb : ScoreTable T) (Htb : separate tb).
Lemma held_set_rows l d : select (score_in (is_project q)) l = select (score_in (is_project q)) (rows_of tb d) -> held_db d -> held_db (set_rows tb l d).
Proof using Hsee Htb.
  intros H. apply held_evals. intros Hk. destruct (Htb l (evals_of d) H) as (E & Er & Em). split; [done|].
  unfold keyed, run_ids, monitor_ids. by rw Er Em.
Qed.
Lemma held_create_score_in s : c_project s <> q -> preserves held (create_score_in tb s).
Proof using Hsee Htb.
  intros Hs. unfold create_score_in. respects_auto. intros w [H1 H2]. unfold insert_row. destruct (existsb _ _); [done|].
  split; [|done]. apply held_set_rows; [|done]. apply select_new. by apply bool_decide_eq_false.
Qed.
Lemma held_delete_scores_where p : (forall s, p s = true -> c_project s <> q) -> preserves held (delete_scores_where tb p).
Proof using Hsee Htb.
  intros Hp. unfold delete_scores_where. respects_auto. apply held_write. intros d. apply held_set_rows. apply select_delete_where.
  intros s Hs%bool_decide_eq_true. destruct (p s) eqn:E; [by destruct (Hp s E)|done].
Qed.
End table.

(** What concerns another project. *)
Section other.
Context (p : N).
Hypothesis Hp : p <> q.

Lemma not_own (ident : N) : ident = p -> bool_decide (ident = q) = false.
Proof using Hp. intros ->. by apply bool_decide_eq_false. Qed.
(** A condition that ends with the other project's identifier holds of no row of this one. *)
Ltac of_other := let H := fresh in intros ? H; apply andb_prop in H as [_ H]; apply bool_decide_eq_true in H; congruence.
Lemma held_create_score s : c_project s = p -> preserves held (create_score s).
Proof using Hsee Hp. intros H. apply held_create_score_in; [apply trace_table_separate|by rewrite H]. Qed.
Lemma held_create_session_score s : c_project s = p -> preserves held (create_session_score s).
Proof using Hsee Hp. intros H. apply held_create_score_in; [apply session_table_separate|by rewrite H]. Qed.
Lemma held_delete_scores_for_run r : preserves held (delete_scores_for_run r p).
Proof using Hsee Hp. apply held_delete_scores_where; [apply trace_table_separate|]. of_other. Qed.
Lemma held_delete_session_scores_for_run r : preserves held (delete_session_scores_for_run r p).
Proof using Hsee Hp. apply held_delete_scores_where; [apply session_table_separate|]. of_other. Qed.
Lemma held_delete_score i : preserves held (delete_score i p).
Proof using Hsee Hp. unfold delete_score. respects_auto. apply held_delete_scores_where; [apply trace_table_separate|]. of_other. Qed.
Lemma held_delete_session_score i : preserves held (delete_session_score i p).
Proof using Hsee Hp.
  unfold delete_session_score. respects_auto. apply held_delete_scores_where; [apply session_table_separate|]. of_other.
Qed.
Lemma held_update_score i f : preserves held (EvalRepository.update_score i p f).
Proof using Hsee Hp.
  unfold EvalRepository.update_score. respects_auto. apply held_write. intros d.
  apply (held_set_rows trace_table trace_table_separate). apply select_update_others; [done|].
  intros s _ Hs%bool_decide_eq_true. apply not_true_iff_false. intros E. revert Hs. revert s E. of_other.
Qed.

(** *** Runs *)

Lemma held_create_eval_run r : e_project r = p -> preserves held (create_eval_run r).
Proof using Hsee Hp.
  intros Hr. unfold create_eval_run. respects_auto. intros w [H1 H2]. unfold insert_row. destruct (existsb _ _) eqn:E; [done|].
  split; [|done]. apply (held_evals (set_eval_runs (eval_runs (evals_of (db w)) ++ [r]))); [|done]. intros [Hk Hm]. split.
  - unfold own_evals, evals_in. cbn [set_eval_runs eval_monitors eval_runs trace_scores session_scores]. rw (select_new (run_in (is_project q))); [|done]. by apply not_own.
  - split; [|exact Hm]. eapply NoDup_new; [|done|exact E]. intros x. by apply bool_decide_eq_true.
Qed.
(** A run is updated by its identifier alone. *)
Lemma held_update_run i f : i ∉ run_ids v -> (forall r, e_id (f r) = e_id r /\ e_project (f r) = e_project r) -> preserves held (update_run i f).
Proof using Hsee.
  intros Hi Hf. apply held_write. intros d Hd. apply held_evals; [|done]. intros [Hk Hm]. split.
  - unfold own_evals, evals_in. cbn [set_eval_runs eval_monitors eval_runs trace_scores session_scores]. rw (select_update_others (run_in (is_project q))); [| |done].
    + intros r _ _. unfold run_in. by destruct (Hf r) as [_ ->].
    + intros r Hr Hq. apply bool_decide_eq_false. intros <-. apply Hi. rewrite <- (held_run_ids d Hd). apply elem_of_map_select. by exists r.
  - split; [|exact Hm]. unfold run_ids. cbn. by rw (idents_update e_id); [intros r _ _; apply Hf|].
Qed.
Lemma held_update_run_status i st msg : i ∉ run_ids v -> preserves held (update_run_status i st msg).
Proof using Hsee. intros Hi. unfold update_run_status. respects_auto. apply held_update_run; [done|]. intros r. by destruct st. Qed.
Lemma held_increment_progress i n : i ∉ run_ids v -> preserves held (increment_progress i n).
Proof using Hsee. intros Hi. by apply held_update_run. Qed.
Lemma held_increment_failed i n : i ∉ run_ids v -> preserves held (increment_failed i n).
Proof using Hsee. intros Hi. by apply held_update_run. Qed.
Lemma held_reset i : i ∉ run_ids v -> preserves held (reset_run_counters i).
Proof using Hsee. intros Hi. by apply held_update_run. Qed.
Lemma held_delete_eval_run i : preserves held (EvalRepository.delete_eval_run i p).
Proof using Hsee Hp.
  apply held_write. intros d. apply held_evals_fade. intros Hk. apply (faded_delete_runs _ _ _ Hk).
  intros r Hr%bool_decide_eq_true. unfold own_run. rw Hr. rw (bool_decide_eq_false_2 (q = p)); [congruence|]. apply andb_false_r.
Qed.
Lemma held_get_eval_run i : preserves held (EvalRepository.get_eval_run i p).
Proof using. unfold EvalRepository.get_eval_run. respects_auto. Qed.

(** *** Monitors *)

Lemma held_create_monitor m : mo_project m = p -> preserves held (EvalRepository.create_monitor m).
Proof using Hsee Hp.
  intros Hr. unfold EvalRepository.create_monitor. respects_auto. intros w [H1 H2]. unfold insert_row. destruct (existsb _ _) eqn:E; [done|].
  split; [|done]. apply (held_evals (set_eval_monitors (eval_monitors (evals_of (db w)) ++ [m]))); [|done]. intros [Hk Hm]. split.
  - unfold own_evals, evals_in. cbn [set_eval_monitors eval_monitors eval_runs trace_scores session_scores].
    rw (select_new (monitor_in (is_project q))); [|done]. by apply not_own.
  - split; [exact Hk|]. eapply NoDup_new; [|done|exact E]. intros x. by apply bool_decide_eq_true.
Qed.
(** Monitors change in place. *)
Lemma held_update_monitors a f : (forall m, mo_id (f m) = mo_id m /\ mo_project (f m) = mo_project m) ->
  (forall d m, held_db d -> m ∈ eval_monitors (evals_of d) -> mo_project m = q -> a m = false) ->
  preserves held (update_evals (fun x => set_eval_monitors (update_where a f (eval_monitors x)) x)).
Proof using Hsee.
  intros Hf Ha. apply held_write. intros d Hd. apply held_evals; [|done]. intros [Hk Hm]. split.
  - unfold own_evals, evals_in. cbn [set_eval_monitors eval_monitors eval_runs trace_scores session_scores].
    rw (select_update_others (monitor_in (is_project q))); [| |done].
    + intros m _ _. unfold monitor_in. by destruct (Hf m) as [_ ->].
    + intros m Hin Hq%bool_decide_eq_true. by apply (Ha d).
  - split; [exact Hk|]. unfold monitor_ids. cbn. by rw (idents_update mo_id); [intros m _ _; apply Hf|].
Qed.
Lemma set_fields_keep t fields m : mo_id (foldl (set_monitor_field t) m fields) = mo_id m /\
  mo_project (foldl (set_monitor_field t) m fields) = mo_project m.
Proof using. revert m. induction fields as [|f fields IH]; [done|]. intros m. cbn [foldl]. by destruct (IH (set_monitor_field t m f)) as [-> ->]. Qed.
Lemma held_update_monitor i fields : preserves held (EvalRepository.update_monitor i p fields).
Proof using Hsee Hp.
  destruct fields as [|f fields]; [respects_auto|]. unfold EvalRepository.update_monitor. respects_auto. apply held_update_monitors.
  - intros m. apply set_fields_keep.
  - intros d m _ _ Hq. unfold own_monitor. rw Hq. rw (bool_decide_eq_false_2 (q = p)); [congruence|]. apply andb_false_r.
Qed.
Lemma own_monitor_ids d m : held_db d -> m ∈ eval_monitors (evals_of d) -> mo_project m = q -> mo_id m ∈ monitor_ids v.
Proof using Hsee.
  intros Hd Hin Hq. rewrite <- (held_monitor_ids d Hd). apply elem_of_map_select. exists m. split_and!; [done|by apply bool_decide_eq_true|done].
Qed.
Lemma held_advance_monitor i at_ r n : i ∉ monitor_ids v -> preserves held (advance_monitor i at_ r n).
Proof using Hsee.
  intros Hi. unfold advance_monitor. respects_auto. apply held_update_monitors; [done|]. intros d m Hd Hin Hq.
  apply bool_decide_eq_false. intros <-. apply Hi. by apply (own_monitor_ids d).
Qed.
Lemma held_delete_monitor i : preserves held (EvalRepository.delete_monitor i p).
Proof using Hsee Hp.
  apply held_write. intros d. apply held_evals_fade. intros Hk. apply (faded_delete_monitors _ _ _ Hk).
  intros m Hm%bool_decide_eq_true. unfold own_monitor. rw Hm. rw (bool_decide_eq_false_2 (q = p)); [congruence|]. apply andb_false_r.
Qed.
Lemma held_get_monitor i : preserves held (EvalRepository.get_monitor i p).
Proof using. unfold EvalRepository.get_monitor. respects_auto. Qed.
Hint Resolve held_create_score held_create_session_score held_delete_scores_for_run held_delete_session_scores_for_run held_delete_score
  held_delete_session_score held_update_score held_create_eval_run held_update_run_status held_increment_progress held_increment_failed
  held_reset held_delete_eval_run held_get_eval_run held_create_monitor held_update_monitor held_advance_monitor held_delete_monitor
  held_get_monitor : effects.

(** *** What a query returned *)

Lemma get_run_row i w r w' : EvalRepository.get_eval_run i p w = (Ok (Some r), w') -> e_id r = i /\ e_project r = p.
Proof using.
  intros E. unfold EvalRepository.get_eval_run in E. destruct_bind E rows w1 E1. injection E1 as <- <-.
  destruct_bind E row w1 E1. injection E1 as E1 <-. apply scalar_one_or_none_Ok in E1 as [[_ ->]|(x & Hx & ->)]; [done|].
  unfold lift in E. injection E as E <-. unfold _to_eval_run, EvalRun_validate in E. destruct (in_unit _); [|done]. injection E as <-.
  assert (Hin : x ∈ select (own_run i p) (eval_runs (evals_of (db w)))) by (rewrite Hx; by left).
  apply elem_of_select in Hin as [_ [H1%bool_decide_eq_true H2%bool_decide_eq_true]%andb_prop]. by split.
Qed.
(** A monitor of the other project, which is none of this one. *)
Definition theirs (i : N) (m : EvalMonitor) : Prop := mo_id m = i /\ mo_project m = p /\ i ∉ monitor_ids v.
Lemma get_monitor_theirs i w m w' : held w -> EvalRepository.get_monitor i p w = (Ok (Some m), w') -> theirs i m.
Proof using Hp Hsee.
  intros [Hd _] [_ E]%get_monitor_row. pose proof Hd as ((_ & [_ Hm] & _) & _).
  assert (Hin : m ∈ select (own_monitor i p) (eval_monitors (evals_of (db w)))) by (rewrite E; by left).
  pose proof Hin as [_ [H1%bool_decide_eq_true H2%bool_decide_eq_true]%andb_prop]%elem_of_select. split_and!; [done..|].
  rewrite <- (held_monitor_ids _ Hd). apply (other_keys mo_id (monitor_in (is_project q)) (own_monitor i p)); [exact Hm| |].
  - intros m0 _ Hq%bool_decide_eq_true. unfold own_monitor. rw Hq (bool_decide_eq_false_2 (q = p)); [congruence|]. apply andb_false_r.
  - apply list_elem_of_fmap. exists m. by split.
Qed.

(** *** The service *)

Ltac held_auto := respects_auto; repeat (progress cbv zeta; respects_auto).

Lemma held_add_run mk : (forall i t, e_project (mk i t) = p) -> preserves held (EvalService.add_run mk).
Proof using Hsee Hp.
  intros Hmk. unfold EvalService.add_run. respects_step; [auto with effects|]. respects_step; [auto with effects|].
  apply (respects_bind_fact _ (fun r => e_project r = p)); [respects_auto| |].
  - intros w r w' H. unfold lift, EvalRun_validate in H. destruct (in_unit _) eqn:E; [|done]. by injection H as <- _.
  - intros r. apply held_create_eval_run.
Qed.
Lemma held_check_metrics available what names : preserves held (EvalService.check_metrics available what names).
Proof using. unfold EvalService.check_metrics. respects_auto. Qed.
Lemma held_targets {A} (l : list A) rate : preserves held (EvalService.sample_targets o l rate).
Proof using. unfold EvalService.sample_targets, EvalService.random_sample. respects_auto. Qed.
Lemma held_monitor_targets {A} (l : list A) rate : preserves held (EvalService.sample_for_monitor o l rate).
Proof using. unfold EvalService.sample_for_monitor, EvalService.random_sample. respects_auto. Qed.
Lemma held_trace_ids i f : preserves held (EvalService._resolve_trace_ids o i f).
Proof using. apply held_read_res. Qed.
Lemma held_session_ids i f : preserves held (EvalService._resolve_session_ids o i f).
Proof using. apply held_read_res. Qed.
Lemma held_service_get_run i : preserves held (EvalService.get_eval_run i p).
Proof using. unfold EvalService.get_eval_run, or_raise. respects_auto. Qed.
Lemma held_failed i r : preserves held (get_failed_scores_for_run i r).
Proof using. apply held_read_res. Qed.
Lemma held_failed_sessions i r : preserves held (get_failed_session_scores_for_run i r).
Proof using. apply held_read_res. Qed.
Hint Resolve held_check_metrics @held_targets @held_monitor_targets held_trace_ids held_session_ids held_service_get_run held_failed
  held_failed_sessions : effects.
Hint Extern 1 (preserves held (EvalService.add_run _)) => apply held_add_run; intros ??; reflexivity : effects.

Lemma held_prepare_eval_run names f rate model name : preserves held (EvalService.prepare_eval_run o p names f rate model name).
Proof using Hsee Hp. unfold EvalService.prepare_eval_run. held_auto. Qed.
Lemma held_prepare_batch ids names model name : preserves held (EvalService.prepare_batch_eval_run o p ids names model name).
Proof using Hsee Hp. unfold EvalService.prepare_batch_eval_run. held_auto. Qed.
Lemma held_prepare_session names f rate model name sw : preserves held (EvalService.prepare_session_eval_run o p names f rate model name sw).
Proof using Hsee Hp. unfold EvalService.prepare_session_eval_run. held_auto. Qed.
Lemma held_prepare_batch_session ids names model name sw :
  preserves held (EvalService.prepare_batch_session_eval_run o p ids names model name sw).
Proof using Hsee Hp. unfold EvalService.prepare_batch_session_eval_run. held_auto. Qed.
Lemma held_retry i : preserves held (EvalService.prepare_retry_failed_run i p).
Proof using Hsee Hp. unfold EvalService.prepare_retry_failed_run. held_auto. Qed.
Lemma held_retry_session i : preserves held (EvalService.prepare_retry_failed_session_run o i p).
Proof using Hsee Hp. unfold EvalService.prepare_retry_failed_session_run. held_auto. Qed.
Lemma held_service_delete_run i d : preserves held (EvalService.delete_eval_run i p d).
Proof using Hsee Hp. unfold EvalService.delete_eval_run. held_auto. Qed.
Lemma held_get_score i : preserves held (get_score_by_id i p).
Proof using. unfold get_score_by_id. held_auto. Qed.
Hint Resolve held_get_score : effects.
Lemma held_new_score tid name x ty src why md : preserves held (EvalService.create_score p tid name x ty src why md).
Proof using Hsee Hp.
  unfold EvalService.create_score. respects_step; [auto with effects|]. respects_step; [auto with effects|].
  apply (respects_bind_fact _ (fun s => c_project s = p)); [respects_auto| |].
  - intros w s w' H. unfold lift in H. injection H as H _. by apply Score_validate_same in H as ->.
  - intros s Hs. held_auto.
Qed.
Lemma held_as_invalid {A} (r : res A) : preserves held (EvalService.as_invalid_request r).
Proof using. unfold EvalService.as_invalid_request. destruct r as [a|[]]; held_auto. Qed.
Hint Resolve @held_as_invalid : effects.
Lemma held_edit_score i x why md : preserves held (EvalService.update_score i p x why md).
Proof using Hsee Hp. unfold EvalService.update_score, or_raise. held_auto. Qed.
Lemma held_service_delete_score i : preserves held (EvalService.delete_score i p).
Proof using Hsee Hp. unfold EvalService.delete_score, or_raise. held_auto. Qed.
Lemma held_service_delete_session_score i : preserves held (EvalService.delete_session_score i p).
Proof using Hsee Hp. unfold EvalService.delete_session_score. held_auto. Qed.
Hint Resolve held_prepare_eval_run held_prepare_batch held_prepare_session held_prepare_batch_session held_retry held_retry_session
  held_service_delete_run held_new_score held_edit_score held_service_delete_score held_service_delete_session_score : effects.

(** What is done with a monitor of the other project. *)
Lemma monitor_held {A} i (k : EvalMonitor -> M World A) : (forall m, theirs i m -> preserves held (k m)) ->
  preserves held (m ← EvalService.get_monitor i p; k m).
Proof using Hp Hsee.
  apply preserves_bind_fact; [unfold EvalService.get_monitor, or_raise; held_auto|]. intros w m w' Hw E.
  unfold EvalService.get_monitor in E. destruct_bind E x w1 E1. destruct x as [m'|]; [|done]. injection E as -> <-.
  by apply get_monitor_theirs in E1.
Qed.
Lemma held_spawn i m : theirs i m -> preserves held (EvalService._spawn_run_for_monitor o m).
Proof using Hsee Hp.
  intros (_ & Hm & _). unfold EvalService._spawn_run_for_monitor. destruct (mo_target m) eqn:E; cbv zeta; respects_auto; by apply held_add_run.
Qed.
Lemma held_service_get_monitor i : preserves held (EvalService.get_monitor i p).
Proof using. unfold EvalService.get_monitor, or_raise. held_auto. Qed.
Hint Resolve held_service_get_monitor : effects.
Lemma held_trigger i : preserves held (EvalService.prepare_trigger_monitor o i p).
Proof using Hp Hsee.
  apply monitor_held. intros m Hm. respects_step; [by apply (held_spawn i)|]. destruct Hm as (_ & _ & Hi). held_auto.
Qed.
Lemma held_new_monitor name target names cadence f rate model changed sw :
  preserves held (EvalService.create_monitor o p name target names cadence f rate model changed sw).
Proof using Hsee Hp.
  unfold EvalService.create_monitor, or_raise. do 7 (respects_step; [held_auto|]).
  apply (respects_bind_fact _ (fun m => mo_project m = p)); [respects_auto| |].
  - intros w m w' H. unfold lift, EvalMonitor_validate in H. destruct (_ && _) eqn:E; [|done]. by injection H as <- _.
  - intros m Hm. held_auto.
Qed.
Lemma held_patch_monitor i b : preserves held (EvalService.update_monitor o i p b).
Proof using Hsee Hp. unfold EvalService.update_monitor. held_auto. Qed.
Lemma held_pause i : preserves held (EvalService.pause_monitor i p).
Proof using Hsee Hp. unfold EvalService.pause_monitor. held_auto. Qed.
Lemma held_resume i : preserves held (EvalService.resume_monitor o i p).
Proof using Hsee Hp. unfold EvalService.resume_monitor. held_auto. Qed.
Lemma held_service_delete_monitor i : preserves held (EvalService.delete_monitor i p).
Proof using Hsee Hp. unfold EvalService.delete_monitor. held_auto. Qed.
Lemma held_list_runs i l k : preserves held (EvalService.list_monitor_runs i p l k).
Proof using. unfold EvalService.list_monitor_runs. respects_step; [auto with effects|]. apply held_read_res. Qed.
Lemma held_dispatch pr : preserves held (EvalService.dispatch_run o pr).
Proof using. unfold EvalService.dispatch_run. held_auto. Qed.
Lemma held_dispatch_trigger pr : preserves held (EvalService.dispatch_trigger_monitor o pr).
Proof using. unfold EvalService.dispatch_trigger_monitor, EvalService._dispatch_monitor_run. held_auto. Qed.
Lemma held_allowed i : preserves held (require_monitoring_allowed i).
Proof using. unfold require_monitoring_allowed. respects_step; [by apply held_keeps, keeps_subscription|held_auto]. Qed.
Lemma held_charged {A} ctx c n (m : M World A) : preserves held m -> preserves held (EvaluationsApi.charged ctx c n m).
Proof using. intros H. unfold EvaluationsApi.charged. held_auto. Qed.
Lemma held_charge_run ctx c n pr : preserves held (EvaluationsApi.charge_run o ctx c n pr).
Proof using. unfold EvaluationsApi.charge_run. respects_step; [apply held_charged, held_dispatch|held_auto]. Qed.
Hint Resolve held_trigger held_new_monitor held_patch_monitor held_pause held_resume held_service_delete_monitor held_list_runs
  held_dispatch held_dispatch_trigger held_allowed @held_charged held_charge_run : effects.
End other.

(** *** The routes *)

Hint Resolve held_prepare_eval_run held_prepare_batch held_prepare_session held_prepare_batch_session held_retry held_retry_session
  held_service_delete_run held_new_score held_edit_score held_service_delete_score held_service_delete_session_score held_service_get_run
  held_service_get_monitor held_trigger held_new_monitor held_patch_monitor held_pause held_resume held_service_delete_monitor held_list_runs
  held_dispatch held_dispatch_trigger held_allowed @held_charged held_charge_run : effects.

(** The caller's project, if any, is another one. *)
Definition elsewhere_from (ctx : ApiContext) : Prop := forall p, cx_project ctx = Some p -> p_id p <> q.
Lemma project_held {A} ctx (k : N -> M World A) : elsewhere_from ctx -> (forall p, p <> q -> preserves held (k p)) ->
  preserves held (p ← EvaluationsApi.project_id ctx; k p).
Proof using.
  intros Hctx Hk. apply (respects_bind_fact _ (fun p => p <> q)); [| |exact Hk].
  - unfold EvaluationsApi.project_id, project_of, or_raise. respects_auto.
  - intros w p w' H. unfold EvaluationsApi.project_id in H. destruct_bind H pr w1 E. injection H as <- _. apply Hctx.
    unfold project_of, or_raise in E. destruct (cx_project ctx); [by injection E as -> _|done].
Qed.
Lemma held_schema b : preserves held (schema b).
Proof using. apply respects_guard_not. typeclasses eauto. Qed.
Hint Resolve held_schema : effects.
Lemma held_monitor_response ctx f : elsewhere_from ctx -> (forall p, p <> q -> preserves held (f p)) ->
  preserves held (EvaluationsApi.monitor_response ctx f).
Proof using. intros Hctx H. apply project_held; [done|]. intros p Hp. respects_step; [by apply H|respects_auto]. Qed.

Lemma held_serve ctx c : elsewhere_from ctx -> preserves held (serve_eval o ctx c).
Proof using Hsee.
  intros Hctx. destruct c; cbn [serve_eval]; try (unfold done_with; respects_step; [|respects_auto]).
  all: unfold EvaluationsApi.create_eval_run, EvaluationsApi.create_batch_eval_run, EvaluationsApi.create_session_eval_run,
    EvaluationsApi.create_batch_session_eval_run, EvaluationsApi.retry_failed_eval_run, EvaluationsApi.retry_failed_session_eval_run,
    EvaluationsApi.list_runs, EvaluationsApi.get_eval_run, EvaluationsApi.delete_eval_run, EvaluationsApi.get_scores_for_run,
    EvaluationsApi.get_session_scores_for_run, EvaluationsApi.create_trace_score, EvaluationsApi.list_trace_scores,
    EvaluationsApi.get_scores_for_trace, EvaluationsApi.update_trace_score, EvaluationsApi.delete_trace_score,
    EvaluationsApi.list_session_scores, EvaluationsApi.get_scores_for_session, EvaluationsApi.delete_session_score,
    EvaluationsApi.create_monitor, EvaluationsApi.list_monitors, EvaluationsApi.get_monitor, EvaluationsApi.update_monitor,
    EvaluationsApi.delete_monitor, EvaluationsApi.pause_monitor, EvaluationsApi.resume_monitor, EvaluationsApi.trigger_monitor,
    EvaluationsApi.list_monitor_runs, EvaluationsApi.monitor_response.
  all: repeat match goal with
    | |- preserves held (mbind _ (EvaluationsApi.project_id _)) => apply project_held; [done|intros p Hp]
    | |- preserves held (mbind _ (schema _)) => respects_step; [apply held_schema|]
    | |- preserves held (mbind _ (require_monitoring_allowed _)) => respects_step; [apply held_allowed|]
    end.
  all: try solve [respects_auto; apply held_read_res].
Qed.

(** *** The worker *)

Section worker.
Context (litellm : LLMEngine.LiteLLM Prompt) (as_float : Json -> option float) (exn_text : exn -> string).
Context (i p : N).
Hypothesis Hi : i ∉ run_ids v.
Hypothesis Hp : p <> q.
Abbreviation job_held := (preserves (fun j : Job => held j.1)).

Lemma held_job_world {A} (m : M World A) : preserves held m -> job_held (on_world m).
Proof using. apply on_world_preserves. Qed.
Lemma held_job_engine {A} (m : M LLMEngine.Engine A) : job_held (on_engine m).
Proof using. apply on_engine_preserves. Qed.
Lemma held_job_attempt {A} (m : M Job A) : job_held m -> job_held (attempt m).
Proof using. apply (attempt_preserves (fun j : Job => held j.1)). Qed.
Hint Resolve held_delete_scores_for_run held_delete_session_scores_for_run held_update_run_status held_increment_progress
  held_increment_failed held_reset held_get_eval_run held_create_score held_create_session_score : effects.
Ltac job_auto := repeat (solve [eauto with effects] || apply held_job_world || apply held_job_engine || apply held_job_attempt || respects_step).

(** What a worker writes belongs to the project of its message. *)
Lemma success_score_project {T} (target : T) name run env at_ r j s j' :
  success_score target p name run env at_ r j = (Ok s, j') -> c_project s = p.
Proof using.
  unfold success_score. intros H. destruct_bind H k j1 E. unfold lift in H. injection H as H _. by apply Score_validate_same in H as ->.
Qed.
Lemma failed_score_project {T} (target : T) name run env at_ what e j s j' :
  failed_score exn_text target p name run env at_ what e j = (Ok s, j') -> c_project s = p.
Proof using.
  unfold failed_score. intros H. destruct_bind H k j1 E. by injection H as <- _.
Qed.
Lemma held_success_score {T} (target : T) name run env at_ r : job_held (success_score target p name run env at_ r).
Proof using. unfold success_score. job_auto. Qed.
Lemma held_failed_score {T} (target : T) name run env at_ what e : job_held (failed_score exn_text target p name run env at_ what e).
Proof using. unfold failed_score. job_auto. Qed.
Lemma held_evaluate name t model before : job_held (evaluate_metric o litellm as_float name t model before).
Proof using. apply held_job_engine. Qed.
Hint Resolve @held_success_score @held_failed_score held_evaluate : effects.
Lemma held_record_failure {T A B} (create : Score T -> M World A) (target : T) name run env at_ what e (k : M World B) :
  (forall s, c_project s = p -> preserves held (create s)) -> preserves held k ->
  job_held (failed ← failed_score exn_text target p name run env at_ what e; on_world (create failed ;; k)).
Proof using.
  intros Hc Hk. apply (respects_bind_fact _ (fun s => c_project s = p)); [auto with effects| |].
  - intros j s j'. apply failed_score_project.
  - intros s Hs. apply held_job_world. respects_step; [by apply Hc|exact Hk].
Qed.
Lemma held_store {A} (insert : M World A) : preserves held insert -> job_held (store_score insert).
Proof using. intros H. apply held_job_world. respects_auto. Qed.

Lemma held_run_metric run t name : e_id run = i -> job_held (run_metric o litellm as_float exn_text run p t name).
Proof using Hsee Hi Hp.
  intros Hr. unfold run_metric. respects_step; [job_auto|]. respects_step; [job_auto|].
  apply (respects_bind_fact _ (fun r => match r with Ok s => c_project s = p | Err _ => True end)); [job_auto| |].
  - intros j r j'. apply attempt_spec. clear. intros j s j' H. destruct_bind H r j1 E. by apply success_score_project in H.
  - intros [s|e] Hs.
    + apply held_store. by apply (held_create_score p).
    + apply held_record_failure; [by apply held_create_score|]. apply held_increment_failed. by rewrite Hr.
Qed.
Lemma held_progress run : e_id run = i -> job_held (progress (e_id run)).
Proof using Hsee Hi. intros ->. unfold progress. job_auto. Qed.
Lemma held_get_trace tid : preserves held (TraceRepository.get_trace tid p).
Proof using. unfold TraceRepository.get_trace. job_auto. Qed.
Hint Resolve held_run_metric held_progress held_get_trace : effects.
Lemma held_run_trace run mm tid : e_id run = i -> job_held (run_trace o litellm as_float exn_text run p mm tid).
Proof using Hsee Hi Hp. intros Hr. unfold run_trace. job_auto. Qed.
Lemma held_job_session {A} (m : M Job A) : job_held m -> job_held (job_session m).
Proof using. intros H. unfold job_session. job_auto; try done; apply held_job_world, held_rollback. Qed.
Hint Resolve held_run_trace : effects.
(** The run that a worker found is the one it was sent for. *)
Lemma run_held {A} (k : option EvalRun -> M Job A) : (forall run, e_id run = i -> job_held (k (Some run))) -> job_held (k None) ->
  job_held (found ← on_world (EvalRepository.get_eval_run i p); k found).
Proof using.
  intros H1 H2. apply (respects_bind_fact _ (fun r => match r with Some run => e_id run = i | None => True end)); [job_auto| |].
  - intros j [run|] j' E; [|done]. apply on_world_Ok_inv in E as [E _]. by apply get_run_row in E as [? _].
  - intros [run|] Hr; [by apply H1|exact H2].
Qed.
Lemma held_run_eval_run ids mm : job_held (_run_eval_run o litellm as_float exn_text i p ids mm).
Proof using Hsee Hi Hp. apply held_job_session. respects_step; [job_auto|]. apply run_held; [intros run Hr|]; job_auto. Qed.
Lemma held_start {A} (m : M Job A) : job_held m -> preserves held (start m).
Proof using. intros H w Hw. unfold start. specialize (H (w, LLMEngine.new_engine) Hw). by destruct (m _). Qed.
Lemma held_fail msg : preserves held (_fail_eval_run i msg).
Proof using Hsee Hi. unfold _fail_eval_run. job_auto; apply held_worker; job_auto. Qed.
Lemma held_retry_task n again e : preserves held (retry_task n again e).
Proof using. unfold retry_task. job_auto. Qed.
Hint Resolve held_fail held_retry_task : effects.
Lemma held_execute ids mm n : preserves held (execute_eval_run o litellm as_float exn_text i p ids mm n).
Proof using Hsee Hi Hp. unfold execute_eval_run. respects_step; [apply held_start, held_run_eval_run|job_auto]. Qed.

Lemma held_compute_signal run before t name : e_id run = i -> job_held (compute_signal o litellm as_float exn_text run p before t name).
Proof using Hsee Hi Hp.
  intros Hr. unfold compute_signal. respects_step; [apply held_job_world, held_read_res|].
  destruct (a ≫= c_value) as [x|]; [job_auto|].
  apply (respects_bind_fact _ (fun r => match r with Ok vs => c_project vs.2 = p | Err _ => True end)); [job_auto| |].
  - intros j r j'. apply attempt_spec. clear. intros j [x s] j' H. destruct_bind H c j1 E1. destruct_bind H r j2 E2. destruct_bind H at_ j3 E3.
    destruct_bind H s' j4 E4. injection H as _ <- _. by apply success_score_project in E4.
  - intros [[x s]|e] Hs.
    + respects_step; [apply held_store; by apply (held_create_score p)|job_auto].
    + respects_step; [job_auto|]. apply held_record_failure; [by apply held_create_score|respects_auto].
Qed.
Lemma held_trace_signals run before t names acc : e_id run = i -> job_held (trace_signals o litellm as_float exn_text run p before t names acc).
Proof using Hsee Hi Hp.
  intros Hr. revert acc. induction names as [|name names IH]; intros acc; cbn; [job_auto|].
  respects_step; [by apply held_compute_signal|apply IH].
Qed.
Lemma held_all_signals run before traces acc : e_id run = i -> job_held (all_signals o litellm as_float exn_text run p before traces acc).
Proof using Hsee Hi Hp.
  intros Hr. revert before acc. induction traces as [|t traces IH]; intros before acc; cbn [all_signals]; [job_auto|].
  respects_step; [by apply held_trace_signals|apply IH].
Qed.
Lemma held_run_session_metric run sid traces weights signals name : e_id run = i ->
  job_held (run_session_metric exn_text run p sid traces weights signals name).
Proof using Hsee Hi Hp.
  intros Hr. unfold run_session_metric. respects_step; [job_auto|].
  apply (respects_bind_fact _ (fun r => match r with Ok s => c_project s = p | Err _ => True end)); [job_auto| |].
  - intros j r j'. apply attempt_spec. clear. intros j s j' H. destruct_bind H c j1 E1. destruct_bind H r j2 E2. by apply success_score_project in H.
  - intros [s|e] Hs.
    + apply held_store. by apply (held_create_session_score p).
    + apply held_record_failure; [by apply held_create_session_score|]. apply held_increment_failed. by rewrite Hr.
Qed.
Lemma held_warm_cache traces : job_held (warm_cache o litellm traces).
Proof using. unfold warm_cache. destruct (flat_map _ traces); job_auto. Qed.
Hint Resolve held_all_signals held_run_session_metric held_warm_cache : effects.
Lemma held_run_session run sid : e_id run = i -> job_held (run_session o litellm as_float exn_text run p sid).
Proof using Hsee Hi Hp.
  intros Hr. unfold run_session. respects_step; [apply held_job_world, held_read_res|]. respects_step; [|job_auto].
  destruct a as [|t traces]; job_auto.
Qed.
Hint Resolve held_run_session : effects.
Lemma held_execute_session sids n : preserves held (execute_session_eval_run o litellm as_float exn_text i p sids n).
Proof using Hsee Hi Hp.
  unfold execute_session_eval_run. respects_step; [|job_auto]. apply held_start, held_job_session.
  respects_step; [job_auto|]. apply run_held; [intros run Hr|]; job_auto.
Qed.
End worker.

(** *** Traces *)

Lemma held_rows a f d : (forall r, r ∈ traces_of d -> a r = true -> t_id (f r) = t_id r /\ t_project (f r) = t_project r) ->
  held_db d -> held_db (set_traces (update_where a f (traces_of d)) d).
Proof using Hsee.
  intros Hf Hd. pose proof Hd as ((Ht & Hk & _) & _). apply (held_change d); [done|done| | |done|done].
  - change (NoDup (List.map t_id (update_where a f (traces_of d)))). rw (idents_update t_id); [intros r Hr Ha; by apply Hf|done].
  - unfold own_trace_ids, own_traces. change (trace_rows (telemetry (set_traces ?l d))) with l. unfold project_telemetry.
    cbn [trace_rows]. change (trace_rows (telemetry (set_traces ?l d))) with l.
    rw (select_update_where (of_project q) a f (traces_of d)); [intros r Hr Ha; unfold of_project; by destruct (Hf r Hr Ha) as [_ ->]|].
    rw (idents_update t_id a f); [intros r [Hr _]%elem_of_select Ha; by apply Hf|done].
Qed.
Lemma held_new_trace r d : existsb (with_trace_id (t_id r)) (traces_of d) = false -> held_db d -> held_db (set_traces (traces_of d ++ [r]) d).
Proof using Hsee.
  intros E Hd. pose proof Hd as ((Ht & Hk & _) & _). apply (held_change d); [done|done| | |done|done].
  - eapply NoDup_new; [|done|exact E]. intros x Hx. by apply bool_decide_eq_true.
  - unfold own_trace_ids, own_traces, project_telemetry. cbn [trace_rows]. change (trace_rows (telemetry (set_traces ?l d))) with l.
    rw select_app List.map_app. intros j Hj. apply elem_of_app. by left.
Qed.
Lemma held_spans l d : held_db d -> held_db (set_spans l d).
Proof using Hsee. intros Hd. pose proof Hd as ((Ht & Hk & _) & _). by apply (held_change d). Qed.
(** Traces of others go with the scores on them. *)
Lemma held_delete_rows a d : (forall r, t_project r = q -> a r = false) -> held_db d -> held_db (set_telemetry (delete_traces a (telemetry d)) d).
Proof using Hsee.
  intros Ha Hd. pose proof Hd as ((Ht & Hk & _) & Hi & _).
  destruct (faded_delete_traces (is_project q) trace_ids (telemetry d) Hk Ht Hi a) as (F & K & E).
  { intros r Hr%bool_decide_eq_true. by apply Ha. }
  apply (held_fade d); [exact F|exact K|by apply NoDup_map_select|change (trace_ids_in (is_project q) (telemetry d) ⊆ trace_ids_in (is_project q) (delete_traces a (telemetry d))); by rewrite E|done|done].
Qed.

Lemma held_upsert_span s : preserves held (TraceRepository._upsert_span s).
Proof using Hsee.
  intros w [H1 H2]. unfold TraceRepository._upsert_span, insert_on_conflict. destruct (negb _); [done|].
  destruct (existsb _ _); [|destruct (trace_exists _ _); [|done]]; (split; [by apply held_spans|done]).
Qed.
Lemma held_put_trace pg' t c : preserves held (insert_on_conflict traces_of set_traces TraceRow_fits (with_trace_id (tr_id t))
  (TraceRepository.merge_trace pg' (TraceRepository.trace_values t c)) (project_exists (tr_project t)) (TraceRepository.trace_values t c)).
Proof using Hsee.
  intros w [H1 H2]. unfold insert_on_conflict. destruct (negb _); [done|]. destruct (existsb _ _) eqn:E; [|destruct (project_exists _ _); [|done]]; (split; [|done]).
  - by apply held_rows.
  - by apply held_new_trace.
Qed.
Hint Resolve held_upsert_span held_put_trace : effects.
Lemma held_upsert pg' t : preserves held (TraceRepository.upsert_trace pg' t).
Proof using Hsee. unfold TraceRepository.upsert_trace. respects_auto. Qed.
Lemma held_delete_traces a : (forall r, t_project r = q -> a r = false) -> preserves held (TraceRepository.delete_where_traces a).
Proof using Hsee. intros Ha. unfold TraceRepository.delete_where_traces. respects_auto. apply held_write. intros d. by apply held_delete_rows. Qed.
Lemma held_update_trace i p fs : preserves held (TraceRepository.update_trace i p fs).
Proof using Hsee.
  intros w [H1 H2]. unfold TraceRepository.update_trace, mbind, M_bind, read_db, gets, lift, guard_not. cbn.
  destruct (scalar_one_or_none _) as [[r|]|e] eqn:E; cbn; [|by split..]. destruct (negb _); cbn; [by split|]. split; [|done].
  apply select_scalar, in_owned in E as (Hr & Hid & _). apply held_rows; [|done]. intros r0 Hr0 H0%bool_decide_eq_true.
  assert (r0 = r) as -> by (apply (NoDup_map_inj t_id (traces_of (db w))); [by destruct H1 as [[? _] _]|done..|congruence]).
  apply fields_keep.
Qed.
Lemma held_trace_call ctx c : elsewhere_from ctx -> preserves held (serve_trace (pg o) ctx c).
Proof using Hsee.
  intros Hctx. apply respects_serve; [typeclasses eauto|intros..].
  - apply held_update_trace.
  - unfold TraceRepository.update_span. respects_auto.
  - unfold TraceRepository.add_spans. respects_auto.
  - apply held_delete_traces. intros r Hr. apply not_true_iff_false. intros Ha. apply (Hctx p H). by rewrite <- (H0 r Ha).
  - unfold TraceRepository.batch_update_tags. respects_auto. apply held_write. intros d. by apply held_rows.
Qed.
Lemma held_process_trace t n : preserves held (process_trace (pg o) t n).
Proof using Hsee. unfold process_trace, _persist_trace. respects_auto; try (apply held_worker); respects_auto. apply held_upsert. Qed.

(** *** Projects *)

Lemma held_delete_projects gone d ps : q ∉ gone -> ps ⊆ projects d -> held_db d ->
  held_db (set_telemetry (delete_projects gone (telemetry d)) (set_projects ps d)).
Proof using Hsee.
  intros Hg Hps Hd. pose proof Hd as ((Ht & Hk & _) & Hi & _).
  destruct (faded_delete_projects (is_project q) trace_ids (telemetry d) Hk Ht Hi gone) as (F & K & E).
  { intros i Hin. apply bool_decide_eq_false. by intros ->. }
  apply (held_fade d); [exact F|exact K|by apply NoDup_map_select|change (trace_ids_in (is_project q) (telemetry d) ⊆ trace_ids_in (is_project q) (delete_projects gone (telemetry d))); by rewrite E|done|done].
Qed.
Lemma held_delete_project i : i <> q -> preserves held (ProjectRepository.delete_project i).
Proof using Hsee.
  intros Hi. unfold ProjectRepository.delete_project, ProjectRepository.get_project. respects_auto. apply held_write. intros d.
  apply held_delete_projects; [by intros ->%list_elem_of_singleton|]. intros row Hrow. by apply elem_of_delete_where in Hrow as [? _].
Qed.
Lemma held_delete_organization i : i <> org -> preserves held (IdentityRepository.delete_organization i).
Proof using Hsee.
  intros Hi. unfold IdentityRepository.delete_organization, IdentityRepository.get_organization. respects_auto. apply held_write. intros d Hd.
  pose proof (held_delete_projects (List.map p_id (select (fun p => bool_decide (p_org p = i)) (projects d))) d
    (delete_where (fun p => bool_decide (p_org p = i)) (projects d))) as H.
  pose proof Hd as ((_ & _ & Ho) & _). members Ho. apply H; [|intros row Hrow; by apply elem_of_delete_where in Hrow as [? _]|done].
  intros (row & Hrow & Hpo%bool_decide_eq_true & E)%elem_of_map_select. apply Hi. rewrite <- Hpo. by apply Ho.
Qed.

(** *** The monitor tasks *)

Lemma held_acquire k t ttl : preserves held (acquire_owned_lock k t ttl).
Proof using. apply held_keeps. intros w. unfold acquire_owned_lock, run_script, keeps. by destruct (ACQUIRE_LOCK_SCRIPT _ _ _ _ _). Qed.
Lemma held_release k t : preserves held (release_owned_lock k t).
Proof using. by apply held_keeps. Qed.
Hint Resolve held_acquire held_release : effects.

(** The scheduler moves the times of every project's monitors. *)
Lemma held_reschedule i n : (forall m next t, see (set_schedule (mo_last_run_at m) (mo_last_run m) next t m) = see m) ->
  preserves held (reschedule_monitor i n).
Proof using.
  intros Htime. unfold reschedule_monitor. respects_auto. rename a into t. apply held_write.
  intros d Hd. pose proof Hd as ((Ht & [Hk Hm] & _) & _). set (f := fun m => set_schedule (mo_last_run_at m) (mo_last_run m) (Some n) t m).
  apply (held_shown d); [|split; [exact Hk|]|done..|exact Hd].
  - match goal with |- faded _ ?x ?y => replace y with x; [apply faded_refl|] end. unfold seen, own_evals, evals_in, set_eval_monitors.
    cbn [evals_of evals telemetry update_evals eval_monitors eval_runs trace_scores session_scores]. f_equal.
    change (eval_monitors (evals_of (on_evals _ d))) with (update_where (with_monitor_id i) f (eval_monitors (evals_of d))).
    rw (select_update_where (monitor_in (is_project q)) (with_monitor_id i) f); [done|]. unfold update_where. rw List.map_map.
    apply List.map_ext. intros m. destruct (with_monitor_id i m); [symmetry; apply Htime|done].
  - unfold monitor_ids. cbn. by rw (idents_update mo_id).
Qed.
Lemma held_check_monitors : (forall m next t, see (set_schedule (mo_last_run_at m) (mo_last_run m) next t m) = see m) ->
  preserves held (check_eval_monitors o).
Proof using.
  intros Htime. unfold check_eval_monitors, dispatcher, _check_eval_monitors, collect_due, reschedule_all. respects_auto.
  apply held_worker. unfold get_due_monitors. respects_auto. by apply held_reschedule.
Qed.

Lemma held_charge_monitor i c k n run : i ∉ monitor_ids v -> preserves held (charge_monitor_run i c k n run).
Proof using Hsee. intros Hi. unfold charge_monitor_run. respects_auto. by apply held_advance_monitor. Qed.
Lemma held_dispatch_monitor t i p targets : preserves held (EvalService._dispatch_monitor_run o t i p targets).
Proof using. unfold EvalService._dispatch_monitor_run. respects_auto. Qed.
Lemma held_skip m : preserves held (EvalService.should_skip_monitor o m).
Proof using. unfold EvalService.should_skip_monitor. respects_auto; apply held_read_res. Qed.
Hint Resolve held_dispatch_monitor held_skip held_retry_task : effects.
Lemma held_process_monitor i p n : p <> q -> preserves held (process_single_monitor o i p n).
Proof using Hsee.
  intros Hp. unfold process_single_monitor. respects_step; [|respects_auto]. apply held_worker.
  apply (preserves_bind_fact _ (fun r => match r with Some m => theirs p i m | None => True end)); [apply held_get_monitor| |].
  - intros w [m|] w' Hw E; [|done]. by apply get_monitor_theirs in E.
  - intros [m|] Hm; [|respects_auto]. respects_step; [auto with effects|]. respects_step; [respects_auto|].
    respects_step; [auto with effects|]. respects_step; [|respects_auto]. respects_step; [by apply (held_spawn p Hp i)|].
    destruct Hm as (_ & _ & Hi). respects_auto; by apply held_charge_monitor.
Qed.
End held.

(** ** Histories *)

Section history.
Context (o : Outside) (litellm : LLMEngine.LiteLLM Prompt) (as_float : Json -> option float) (exn_text : exn -> string).

(** An event that does not act for project [q] of organization [org], whose evaluations are [own]: the
    requests are those of other projects' callers, the messages and deletions name other projects. *)
Definition outsider (q org : N) (own : Evaluations) (e : EvalEvent) : Prop :=
  match e with
  | EvalRequest ctx _ => elsewhere_from q ctx
  | TraceRequest ctx _ => elsewhere_from q ctx
  | ExecuteRun i p _ _ _ => p <> q /\ i ∉ run_ids own
  | ExecuteSessionRun i p _ _ => p <> q /\ i ∉ run_ids own
  | ProcessMonitor _ p _ => p <> q
  | DeleteProject p => p <> q
  | DeleteOrganization i => i <> org
  | ProcessTrace _ _ | CheckMonitors | Meanwhile _ _ => True
  end.

Lemma held_event q org tids see v w e : faithful see ->
  (e = CheckMonitors -> forall m next t, see (set_schedule (mo_last_run_at m) (mo_last_run m) next t m) = see m) ->
  outsider q org v e -> held q org tids see v w -> held q org tids see v (run_eval_event o litellm as_float exn_text w e).
Proof.
  intros Hsee Hcheck He Hw. destruct e; cbn [run_eval_event outsider] in *.
  - by apply (held_session q org tids see v _ (held_serve o q org tids see v Hsee ctx c He)).
  - by apply (held_session q org tids see v _ (held_trace_call o q org tids see v Hsee ctx c He)).
  - by apply held_process_trace.
  - destruct He as [Hp Hi]. by apply held_execute.
  - destruct He as [Hp Hi]. by apply held_execute_session.
  - by apply held_check_monitors; [apply Hcheck|].
  - by apply (held_process_monitor o q org tids see v Hsee).
  - by apply (held_session q org tids see v _ (held_delete_project q org tids see v Hsee project He)).
  - by apply (held_session q org tids see v _ (held_delete_organization q org tids see v Hsee org0 He)).
  - exact Hw.
Qed.
Lemma held_events q org tids see v w events : faithful see ->
  (CheckMonitors ∈ events -> forall m next t, see (set_schedule (mo_last_run_at m) (mo_last_run m) next t m) = see m) ->
  Forall (outsider q org v) events -> held q org tids see v w -> held q org tids see v (foldl (run_eval_event o litellm as_float exn_text) w events).
Proof.
  intros Hsee. revert w. induction events as [|e events IH]; [done|]. intros w Hcheck [He Hes]%Forall_cons Hw. cbn [foldl].
  apply IH; [|done|].
  - intros Hin. apply Hcheck. by right.
  - apply held_event; [done| |done|done]. intros ->. apply Hcheck. by left.
Qed.
Lemma outsider_seen q org see own e : outsider q org own e -> outsider q org (seen see own) e.
Proof. by destruct e. Qed.
Lemma faithful_unscheduled : faithful unscheduled.
Proof. done. Qed.
Lemma faithful_id : faithful id.
Proof. done. Qed.
Lemma seen_id x : seen id x = x.
Proof. destruct x. unfold seen. cbn. by rewrite List.map_id. Qed.

(** C6: The evaluations of a project are changed by nobody else.  Whatever the callers, workers and monitors of other
    projects do, in any order and number, with whatever identifiers in their requests, whether the steps succeed, fail
    halfway or delete whole projects and organizations, every run, monitor and score of a project stays and no column of it
    changes but for what the foreign keys do: a reference to a run or monitor of another project may be cleared, and a
    score the project put on a trace of another project may go with that trace.  When the project's rows refer only to its
    own, they stay exactly as they were.  The scheduler, which serves every project, sets the time of a monitor's next run
    (and of its update); as long as it does not run, those stay as well.  (The tables have unique keys to begin with, a worker's
    message names a run that is not the project's, and no session is open.) *)
Theorem evaluations_isolated (q org : N) (w : World) (events : list EvalEvent)
  (Hintact : intact q org (durable w)) (Hclosed : db w = durable w)
  (Hothers : Forall (outsider q org (own_evals q (evals_of (durable w)))) events) :
  let own w := own_evals q (evals_of (durable w)) in
  let own_traces := own_trace_ids q (telemetry (durable w)) in
  let w' := foldl (run_eval_event o litellm as_float exn_text) w events in
  faded own_traces (seen unscheduled (own w)) (seen unscheduled (own w')) /\
  (CheckMonitors ∉ events -> faded own_traces (own w) (own w')) /\
  (linked own_traces (own w) -> seen unscheduled (own w') = seen unscheduled (own w) /\ (CheckMonitors ∉ events -> own w' = own w)) /\
  intact q org (durable w').
Proof.
  cbv zeta. set (own := own_evals q (evals_of (durable w))) in *. set (tids := own_trace_ids q (telemetry (durable w))).
  assert (Hheld : forall see, held q org tids see (seen see own) w).
  { intros see. unfold held. rewrite Hclosed. by split; (split; [|split; [|apply faded_refl]]). }
  assert (Hstay : forall see, faithful see ->
    (CheckMonitors ∈ events -> forall m next t, see (set_schedule (mo_last_run_at m) (mo_last_run m) next t m) = see m) ->
    held q org tids see (seen see own) (foldl (run_eval_event o litellm as_float exn_text) w events)).
  { intros see H1 H2. apply held_events; [done|done| |apply Hheld]. eapply Forall_impl; [exact Hothers|]. intros e. apply outsider_seen. }
  destruct (Hstay unscheduled) as [_ (Hi & _ & E)]; [exact faithful_unscheduled|done|].
  assert (Hexact : CheckMonitors ∉ events -> faded tids own (own_evals q (evals_of (durable (foldl (run_eval_event o litellm as_float exn_text) w events))))).
  { intros Hno. destruct (Hstay id) as [_ (_ & _ & E')]; [exact faithful_id|by intros ?|]. by rewrite !seen_id in E'. }
  split_and!; [exact E|exact Hexact| |apply Hi..].
  intros Hl. split; [|intros Hno; exact (faded_linked _ _ _ Hl (Hexact Hno))].
  apply (faded_linked tids); [by apply linked_seen; [apply faithful_unscheduled|]|exact E].
Qed.
End history.

(** *** Two projects with evaluations

    Project 20 has a run, a score and a monitor; project 21 deletes, scores, runs and finally goes away. *)
Definition other_trace : TraceRow :=
  {| t_id := 70; t_project := 21; t_name := "probe"; t_status := TCOMPLETED; t_input := None; t_output := None; t_metadata := ∅;
     t_started := 5; t_ended := None; t_session := None; t_user := None; t_tags := []; t_environment := None; t_release := None;
     t_created := 5 |}.
Definition other_run : EvalRun :=
  EvalService.new_run 42 21 None TRACE_TARGET ["confidence"]%string ∅ (of_Z 1) (Some "openai/gpt-4o"%string) None 1 7.
Definition own_score : TraceScore :=
  automated_score 51 31%N 20 "confidence" (Some "0.5"%string) SUCCESS 41 None None ∅ 8.
Definition own_monitor_row : EvalMonitor :=
  {| mo_id := 45; mo_project := 20; mo_name := "hourly"; mo_target := TRACE_TARGET; mo_metrics := ["confidence"]%string; mo_filters := Some ∅;
     mo_sampling := of_Z 1; mo_model := None; mo_cadence := "every_6h"; mo_only_if_changed := false; mo_status := MACTIVE;
     mo_last_run_at := Some 7; mo_last_run := Some 41%N; mo_next_run_at := Some 9; mo_created := 7; mo_updated := 7 |}.
Definition shared_db : DB :=
  set_projects [run_project; neighbour] (set_telemetry
    {| trace_rows := [plain_trace; other_trace]; span_rows := [];
       evals := {| eval_monitors := [own_monitor_row]; eval_runs := [plain_run; other_run]; trace_scores := [own_score];
                   session_scores := [] |} |} pro_db).
Definition shared_world : World := world_of shared_db (days 20) [].
Definition meddling : list EvalEvent :=
  [EvalRequest neighbour_context (DeleteRun 41 true); EvalRequest neighbour_context (DeleteScore 51);
   EvalRequest neighbour_context (TriggerMonitor 45); ExecuteRun 42 21 [70%N; 31%N] None 0; CheckMonitors;
   TraceRequest neighbour_context (BatchDelete [31; 70]%N); DeleteProject 21; DeleteOrganization 8].
Lemma seen_scores see x y : seen see x = seen see y -> trace_scores x = trace_scores y.
Proof. intros E. exact (f_equal trace_scores E). Qed.
Lemma shared_world_intact : intact 20 7 (durable shared_world).
Proof.
  split_and!; [vm_compute; repeat constructor; set_solver| |].
  - split; vm_compute; repeat constructor; set_solver.
  - vm_compute. repeat constructor. done.
Qed.
Lemma shared_world_linked : linked (own_trace_ids 20 (telemetry (durable shared_world))) (own_evals 20 (evals_of (durable shared_world))).
Proof. split_and!; vm_compute; repeat constructor. Qed.
Lemma evaluations_isolated_witness :
  Forall (outsider 20 7 (own_evals 20 (evals_of (durable shared_world)))) meddling /\
  trace_scores (own_evals 20 (evals_of (durable
    (foldl (run_eval_event toy_outside confident_judge read_float (fun _ => "error"%string)) shared_world meddling)))) = [own_score].
Proof.
  assert (Hout : Forall (outsider 20 7 (own_evals 20 (evals_of (durable shared_world)))) meddling).
  { assert (Hctx : elsewhere_from 20 neighbour_context) by by intros p [= <-].
    repeat (apply Forall_cons; split; [|]); [exact Hctx..| |done|exact Hctx|done|done|by apply Forall_nil].
    split; [done|]. vm_compute. intros H. inversion H; subst. by apply elem_of_nil in H2. }
  split; [exact Hout|].
  destruct (evaluations_isolated toy_outside confident_judge read_float (fun _ => "error"%string) 20 7 shared_world meddling
    shared_world_intact eq_refl Hout) as (_ & _ & H & _).
  destruct (H shared_world_linked) as [E _]. apply seen_scores in E. etransitivity; [exact E|]. vm_compute. reflexivity.
Defined.
