(* ===== verification/EvalCharging.v ===== *)
(** * Evaluations are charged for the work they cause

    The six routes that create a run prepare it, charge the organization, commit and queue the
    worker's message.  What is charged is the number of (target, metric) pairs the worker is asked to
    evaluate, and a request that fails charges nothing. *)
From stdpp Require Import base gmap strings list.
From Stdlib Require Import ZArith Lia ssreflect.
From S2P Require Import Prelude Constants Entities Float64 PyFloat Json JsonText Evals Telemetry Sql World BillingRepo Locks Usage Security IdentityRepo Identity ApiAuth BillingTasks TraceRepo TraceQueries Traces Cadence LLM Metrics EvalRepo EvalService EvalApi EvalTasks RunFacts Ingestion TraceIsolation EvalIntegrity.

#[local] Open Scope Z_scope.

Import EvalRepository Registry.

(** ** The work of a run *)

(** The pairs that a message asks the worker to evaluate. *)
Definition work (run : EvalRun) (t : Task) : Z :=
  match t with
  | TExecuteEvalRun _ _ ids metric_map _ => zsum (List.map (fun i => count_rows (metrics_for run metric_map i)) ids)
  | TExecuteSessionEvalRun _ _ sids _ => count_rows sids * count_rows (e_metrics run)
  | _ => 0
  end.
Definition executes (run : EvalRun) (t : Task) : Prop :=
  match t with
  | TExecuteEvalRun i p _ _ n => i = e_id run /\ p = e_project run /\ n = 0%nat
  | TExecuteSessionEvalRun i p _ n => i = e_id run /\ p = e_project run /\ n = 0%nat
  | _ => False
  end.
(** A run that waits for its worker. *)
Definition waiting (p : N) (r : EvalRun) : Prop :=
  e_project r = p /\ e_status r = EPENDING /\ e_evaluated r = 0 /\ e_failed r = 0 /\ e_completed r = None.
Definition with_run (r : EvalRun) : DB -> DB := on_evals (fun x => set_eval_runs (eval_runs x ++ [r]) x).

Lemma zsum_nonneg l : Forall (fun z => 0 <= z) l -> 0 <= zsum l.
Proof. induction 1 as [|z l Hz _ IH]; cbn; [done|]. unfold zsum in IH. lia. Qed.
Lemma work_nonneg run t : 0 <= work run t.
Proof.
  destruct t; cbn [work]; try done; [|unfold count_rows; lia]. apply zsum_nonneg, Forall_forall. intros z Hz.
  apply list_elem_of_fmap in Hz as (i & -> & _). unfold count_rows. lia.
Qed.
Lemma zsum_const {A} (l : list A) c : zsum (List.map (fun _ => c) l) = count_rows l * c.
Proof. unfold count_rows. induction l as [|x l IH]; [done|]. cbn [List.map length]. unfold zsum in *. cbn [foldr]. rw IH. lia. Qed.

(** ** Preparation *)

(** Everything but the session's view of the database, the time of the clock included, stays; identifiers are drawn. *)
Definition outside (w w' : World) : Prop :=
  durable w' = durable w /\ redis w' = redis w /\ queue w' = queue w /\ now w' = now w /\ (next_id w <= next_id w')%N.
(** ... and so does that view. *)
Definition idle (w w' : World) : Prop := outside w w' /\ db w' = db w.
#[export] Instance idle_preorder : PreOrder idle.
Proof.
  split; [by intros w|]. intros x y z ((H1 & H2 & H3 & H4 & H5) & H6) ((K1 & K2 & K3 & K4 & K5) & K6).
  split; [|congruence]. split_and!; [congruence..|lia].
Qed.
Lemma idle_read_res {A} (f : DB -> res A) : respects idle (read_res f).
Proof. apply respects_read_res. typeclasses eauto. Qed.
Lemma idle_uuid4 : respects idle uuid4.
Proof. intros w. split; [split_and!; [done..|cbn; lia]|done]. Qed.
Hint Resolve @idle_read_res idle_uuid4 : effects.

Section preparation.
Context (o : Outside) (p : N) (bill : PreparedRun -> Z).

(** The run is new, its message is for the worker, and [bill] is its work. *)
Definition prepared_for (pr : PreparedRun) : Prop :=
  waiting p (pr_run pr) /\ executes (pr_run pr) (EvalService.run_task pr) /\ bill pr = work (pr_run pr) (EvalService.run_task pr).
(** [m] prepares a run and inserts it in the session. *)
Definition makes (m : M World PreparedRun) : Prop := forall w, let '(r, w') := m w in
  outside w w' /\ forall pr, r = Ok pr -> db w' = with_run (pr_run pr) (db w) /\ prepared_for pr.

Lemma makes_after {A} (m : M World A) k (Q : A -> Prop) : respects idle m -> (forall w a w', m w = (Ok a, w') -> Q a) ->
  (forall a, Q a -> makes (k a)) -> makes (m ≫= k).
Proof.
  intros Hm HQ Hk w. unfold mbind, M_bind. specialize (Hm w). specialize (HQ w). destruct (m w) as [[a|e] w1].
  - destruct Hm as [(H1 & H2 & H3 & H4 & H5) H6]. specialize (Hk a (HQ a w1 eq_refl) w1). cbn [snd] in *. destruct (k a w1) as [r w2].
    destruct Hk as [(K1 & K2 & K3 & K4 & K5) K6]. split; [split_and!; [congruence..|lia]|]. intros pr Hr. rewrite <- H6. by apply K6.
  - split; [apply Hm|done].
Qed.
Lemma makes_then {A} (m : M World A) k : respects idle m -> (forall a, makes (k a)) -> makes (m ≫= k).
Proof. intros Hm Hk. by apply (makes_after m k (fun _ => True)). Qed.
Lemma makes_add mk (f : EvalRun -> PreparedRun) : (forall i t, waiting p (mk i t)) ->
  (forall i t, let r := mk i t in let pr := f r in pr_run pr = r /\ executes r (EvalService.run_task pr) /\ bill pr = work r (EvalService.run_task pr)) ->
  makes (run ← EvalService.add_run mk; mret (f run)).
Proof.
  intros Hw Hf w. unfold EvalService.add_run.
  cbv [mbind M_bind utcnow gets uuid4 lift mret M_ret create_eval_run read_db guard_not]. unfold EvalRun_validate.
  destruct (in_unit _); [|split; [split_and!; [done..|cbn; lia]|done]]. set (r := mk (next_id w) (now w)).
  destruct (negb (EvalRun_fits r)); [split; [split_and!; [done..|cbn; lia]|done]|].
  destruct (negb _); [split; [split_and!; [done..|cbn; lia]|done]|].
  unfold insert_row. destruct (existsb _ _); (split; [split_and!; [done..|cbn; lia]|]); [done|]. intros pr [= <-].
  destruct (Hf (next_id w) (now w)) as (H1 & H2 & H3). fold r in H1, H2, H3. unfold prepared_for. rewrite H1. split; [done|]. split; [apply Hw|done].
Qed.

(** Steps of a preparation that only read. *)
Lemma idle_check_metrics available what names : respects idle (EvalService.check_metrics available what names).
Proof using. unfold EvalService.check_metrics. respects_auto. Qed.
Lemma idle_targets {A} (l : list A) rate : respects idle (EvalService.sample_targets o l rate).
Proof using. unfold EvalService.sample_targets, EvalService.random_sample. respects_auto. Qed.
Lemma idle_trace_ids q f : respects idle (EvalService._resolve_trace_ids o q f).
Proof using. apply idle_read_res. Qed.
Lemma idle_session_ids q f : respects idle (EvalService._resolve_session_ids o q f).
Proof using. apply idle_read_res. Qed.
Lemma idle_get_run i q : respects idle (EvalService.get_eval_run i q).
Proof using. unfold EvalService.get_eval_run, EvalRepository.get_eval_run, or_raise, read_db. respects_auto. Qed.
Lemma idle_failed i q : respects idle (get_failed_scores_for_run i q).
Proof using. apply idle_read_res. Qed.
Lemma idle_failed_sessions i q : respects idle (get_failed_session_scores_for_run i q).
Proof using. apply idle_read_res. Qed.
Hint Resolve idle_check_metrics @idle_targets idle_trace_ids idle_session_ids idle_get_run idle_failed idle_failed_sessions : effects.
Ltac prepares := repeat (apply makes_then; [solve [respects_auto]|intros ?]).

(** Every target with every metric of the run. *)
Lemma work_all_metrics run q ids : work run (EvalService.run_task (EvalService.trace_run run q ids None)) = count_rows ids * count_rows (e_metrics run).
Proof using. apply (zsum_const ids (count_rows (e_metrics run))). Qed.
Lemma makes_prepare_eval_run names f rate model name : (forall pr, bill pr = EvaluationsApi.pairs pr names) ->
  makes (EvalService.prepare_eval_run o p names f rate model name).
Proof using.
  intros Hb. unfold EvalService.prepare_eval_run. prepares. apply makes_add; [done|]. intros i t. cbv zeta.
  split; [done|]. split; [done|]. rewrite Hb work_all_metrics. reflexivity.
Qed.
Lemma makes_prepare_batch ids names model name : (forall pr, bill pr = EvaluationsApi.pairs pr names) ->
  makes (EvalService.prepare_batch_eval_run o p ids names model name).
Proof using.
  intros Hb. unfold EvalService.prepare_batch_eval_run. prepares. cbv zeta. apply makes_add; [done|]. intros i t. cbv zeta.
  split; [done|]. split; [done|]. rewrite Hb work_all_metrics. reflexivity.
Qed.
Lemma makes_prepare_session names f rate model name sw : (forall pr, bill pr = EvaluationsApi.pairs pr names) ->
  makes (EvalService.prepare_session_eval_run o p names f rate model name sw).
Proof using.
  intros Hb. unfold EvalService.prepare_session_eval_run. prepares. apply makes_add; [done|]. intros i t. cbv zeta.
  split; [done|]. split; [done|]. rewrite Hb. reflexivity.
Qed.
Lemma makes_prepare_batch_session ids names model name sw : (forall pr, bill pr = EvaluationsApi.pairs pr names) ->
  makes (EvalService.prepare_batch_session_eval_run o p ids names model name sw).
Proof using.
  intros Hb. unfold EvalService.prepare_batch_session_eval_run. prepares. cbv zeta. apply makes_add; [done|]. intros i t. cbv zeta.
  split; [done|]. split; [done|]. rewrite Hb. reflexivity.
Qed.
Lemma makes_retry_session i : (forall pr, bill pr = EvaluationsApi.pairs pr (e_metrics (pr_run pr))) ->
  makes (EvalService.prepare_retry_failed_session_run o i p).
Proof using.
  intros Hb. unfold EvalService.prepare_retry_failed_session_run. prepares. cbv zeta. apply makes_add; [done|]. intros j t. cbv zeta.
  split; [done|]. split; [done|]. rewrite Hb. reflexivity.
Qed.

(** A retry of single metrics: the pairs that failed, each trace once. *)
Lemma find_key {V} (m : list (N * V)) i v : NoDup (List.map fst m) -> (i, v) ∈ m ->
  List.find (fun kv => bool_decide (kv.1 = i)) m = Some (i, v).
Proof using.
  induction m as [|[j w] m IH]; cbn; [by intros _ ?%elem_of_nil|]. intros [Hn Hm]%NoDup_cons [[= -> ->]|Hin]%elem_of_cons.
  - by rw bool_decide_eq_true_2.
  - rw bool_decide_eq_false_2; [|by apply IH]. intros ->. apply Hn, list_elem_of_fmap. by exists (i, v).
Qed.
Lemma work_mapped run q (m : list (N * list string)) : NoDup (List.map fst m) ->
  work run (EvalService.run_task (EvalService.trace_run run q (List.map fst m) (Some m))) = zsum (List.map (fun kv => Z.of_nat (length kv.2)) m).
Proof using.
  intros Hn. cbn. rw List.map_map. f_equal. apply List.map_ext_in. intros [i names] Hin%list_elem_of_In. cbn.
  unfold metrics_for. by rw (find_key m i names Hn Hin).
Qed.
Lemma NoDup_fromkeys {A} `{EqDecision A} (l : list A) : NoDup (EvalService.fromkeys l).
Proof using.
  induction l as [|x l IH]; [constructor|]. cbn. apply NoDup_cons. split.
  - intros H%list_elem_of_In. apply List.filter_In in H as [_ H]. by rewrite bool_decide_eq_true_2 in H.
  - apply NoDup_ListNoDup, List.NoDup_filter, NoDup_ListNoDup, IH.
Qed.
Lemma failed_metrics_keys l : List.map fst (EvalService.failed_metrics l) = EvalService.fromkeys (List.map c_target l).
Proof using. unfold EvalService.failed_metrics. rw List.map_map. by rw List.map_id. Qed.
Lemma makes_retry i : (forall pr, bill pr = EvaluationsApi.retry_billable pr) -> makes (EvalService.prepare_retry_failed_run i p).
Proof using.
  intros Hb. unfold EvalService.prepare_retry_failed_run. apply makes_then; [solve [respects_auto]|]. intros original.
  apply makes_then; [solve [respects_auto]|]. intros failed.
  apply (makes_after _ _ (fun _ => failed <> [])); [respects_auto|by destruct failed|]. intros _ Hne. cbv zeta.
  apply makes_add; [done|]. intros j t. cbv zeta. split; [done|]. split; [done|]. rewrite Hb. rewrite work_mapped.
  - by rewrite failed_metrics_keys; apply NoDup_fromkeys.
  - destruct failed as [|s failed]; [done|]. reflexivity.
Qed.
End preparation.

(** ** Charging *)

(** The organization's subscription, cached or in the database. *)
Definition subscribed (org : N) (s : Subscription) (w : World) : Prop :=
  live (now w) (r_subs (redis w) !! org) = Some s \/
  (live (now w) (r_subs (redis w) !! org) = None /\ select (by_org org) (subscriptions (db w)) = [s]).
Lemma subscribed_read org s w : subscribed org s w -> exists w1, get_subscription_cached org w = (Ok (Some s), w1).
Proof.
  intros [H|[H1 H2]]; [exists w; by apply get_subscription_cached_hit|]. unfold get_subscription_cached, mbind, M_bind, redis_get, gets. rw H1.
  unfold fetch_subscription_from_db, get_subscription_by_org, find_subscription, mbind, M_bind, read_db, gets, lift. rw H2. by eexists.
Qed.
(** What the organization has used of a category in the period of its subscription, and whether it may use [n] more. *)
Definition units_used (org : N) (s : Subscription) (c : UsageCategory) (w : World) : Z :=
  HGET (now w) (redis w) (usage_key org (sub_start s)) c.
Definition within_limit (org : N) (s : Subscription) (c : UsageCategory) (n : Z) (w : World) : Prop :=
  ~ (0 <= hard_limit_of (sub_plan s) c /\ hard_limit_of (sub_plan s) c < units_used org s c w + n).

Section charge.
Context (o : Outside) (ctx : ApiContext) (s : Subscription) (c : UsageCategory).
Abbreviation org := (o_id (cx_organization ctx)).
Abbreviation used := (units_used org s c).

Lemma dispatch_outcome pr w : EvalService.dispatch_run o pr w =
  match broker o (EvalService.run_task pr) with
  | Some e => (Err e, set_durable (db w) w)
  | None => (Ok (pr_run pr), set_queue (queue w ++ [EvalService.run_task pr]) (set_durable (db w) w))
  end.
Proof using. unfold EvalService.dispatch_run, delay, mbind, M_bind, commit, modify. by destruct (broker o _). Qed.

Lemma charge_run_outcome pr n w (Hsub : subscribed org s w) (Husable : usable s) (Hfresh : fresh_dedup w) (Hn : 0 <= n) (Hused : 0 <= used w) :
  let '(r, w') := EvaluationsApi.charge_run o ctx c n pr w in
  (~ within_limit org s c n w /\ (exists e, r = Err e) /\ durable w' = durable w /\ queue w' = queue w /\ used w' = used w) \/
  (within_limit org s c n w /\ (exists e, broker o (EvalService.run_task pr) = Some e /\ r = Err e) /\
     durable w' = db w /\ queue w' = queue w /\ used w' = used w) \/
  (within_limit org s c n w /\ broker o (EvalService.run_task pr) = None /\ r = Ok (EvaluationsApi._run_to_detail (pr_run pr)) /\
     db w' = db w /\ queue w' = queue w ++ [EvalService.run_task pr] /\ used w' = used w + n).
Proof using.
  destruct (subscribed_read org s w Hsub) as [w1 Hread].
  destruct (check_and_increment_run org c n w s w1 Hread Husable Hfresh) as (r2 & w2 & E2 & D2 & U2 & N2 & F2 & S2' & Hover & Hunder).
  pose proof (keeps_check queue (fun _ _ => eq_refl) (fun _ _ => eq_refl) org (UsageCategory_value c) n w) as Q2.
  rewrite E2 in Q2. unfold keeps in Q2. cbn in Q2.
  destruct (get_subscription_cached_spec org w _ w1 Hread) as (_ & _ & N1 & _ & _ & _ & Hlive).
  set (k := usage_key org (sub_start s)) in *.
  assert (Hkk : bool_decide (k = k) && bool_decide (c = c) = true) by (by rw !bool_decide_eq_true_2).
  unfold EvaluationsApi.charge_run, EvaluationsApi.charged.
  destruct (decide (0 <= hard_limit_of (sub_plan s) c /\ hard_limit_of (sub_plan s) c < used w + n)) as [Ho|Ho].
  - destruct (Hover Ho) as [[m ->] Hsame]. unfold mbind at 1 2, M_bind. rewrite E2. left.
    split; [by intros Hw; apply Hw|]. split; [by eexists|]. split; [done|]. split; [done|]. unfold units_used. by rw N2 Hsame.
  - assert (Hwrap : HGET (now w) (redis w) k c + n <> -1) by (unfold units_used in Hused; fold k in Hused; lia).
    destruct (Hunder Ho Hwrap) as [-> Hcount].
    unfold mbind at 1 2, M_bind. rewrite E2. unfold try_except. rewrite dispatch_outcome.
    destruct (broker o (EvalService.run_task pr)) as [e|] eqn:Eb.
    + assert (Hl : live (now w2) (r_subs (redis w2) !! org) = Some s) by (rw N2 S2' -N1; by apply Hlive).
      destruct (rollback_increment_run org c n (set_durable (db w2) w2) s Hl F2) as (w3 & E3 & N3 & H3).
      pose proof (keeps_rollback (fun w => (durable w, queue w)) (fun _ _ => eq_refl) (fun _ _ => eq_refl) org
        (UsageCategory_value c) n (set_durable (db w2) w2)) as K3.
      rewrite E3 in K3. injection K3 as U3 Q3. cbn in U3, Q3.
      unfold mbind at 1, M_bind. rewrite E3. right. left. split; [done|]. split; [by eexists|]. split; [congruence|]. split; [congruence|].
      unfold units_used. fold k. cbn in N3, H3. rewrite N2 in H3. rw N3 N2 H3 Hcount Hkk. lia.
    + right. right. split; [done|]. split; [done|]. split; [done|]. cbn. split; [done|]. split; [by rw Q2|].
      unfold units_used. fold k. cbn. by rw N2 Hcount Hkk.
Qed.
End charge.

(** ** Requests *)

(** The category that a request for a run is charged to. *)
Definition charges (c : EvalCall) : option UsageCategory :=
  match c with
  | CreateRun _ | CreateBatchRun _ | RetryRun _ => Some TRACE_EVALS
  | CreateSessionRun _ | CreateBatchSessionRun _ | RetrySessionRun _ => Some SESSION_EVALS
  | _ => None
  end.
(** Prepare, then charge and dispatch. *)
Definition prepared_then (o : Outside) (ctx : ApiContext) (c : UsageCategory) (bill : PreparedRun -> Z) (prepare : M World PreparedRun) : M World unit :=
  pr ← prepare; _ ← EvaluationsApi.charge_run o ctx c (bill pr) pr; mret tt.

Section requests.
Context (o : Outside) (ctx : ApiContext) (p : Project).
Hypothesis Hproject : cx_project ctx = Some p.

Lemma bind_bind {W A B C} (m : M W A) (k : A -> M W B) (h : B -> M W C) w : ((m ≫= k) ≫= h) w = (m ≫= fun a => k a ≫= h) w.
Proof using. unfold mbind, M_bind. by destruct (m w) as [[a|e] w1]. Qed.
Lemma project_known w : EvaluationsApi.project_id ctx w = (Ok (p_id p), w).
Proof using Hproject. unfold EvaluationsApi.project_id, project_of, or_raise, mbind, M_bind. by rw Hproject. Qed.
Lemma makes_request bill b (prepare : N -> M World PreparedRun) : makes (p_id p) bill (prepare (p_id p)) ->
  makes (p_id p) bill (schema b ;; project ← EvaluationsApi.project_id ctx; prepare project).
Proof using Hproject.
  intros H. apply makes_then; [apply respects_guard_not; typeclasses eauto|]. intros _.
  apply (makes_after _ _ _ _ (fun q => q = p_id p)); [|by intros w q w'; rewrite project_known; intros [= <- _]|by intros q ->].
  intros w. by rewrite project_known.
Qed.
(** Each of the six handlers is of this form. *)
Lemma charged_request c cat : charges c = Some cat -> exists bill prepare, makes (p_id p) bill prepare /\
  forall w, serve_eval o ctx c w = prepared_then o ctx cat bill prepare w.
Proof using Hproject.
  assert (Hshape : forall b bill (prepare : N -> M World PreparedRun) cat (h : M World EvaluationsApi.EvalRunResponse),
    makes (p_id p) bill (prepare (p_id p)) ->
    h = (schema b ;; project ← EvaluationsApi.project_id ctx; pr ← prepare project; EvaluationsApi.charge_run o ctx cat (bill pr) pr) ->
    exists bill prepare, makes (p_id p) bill prepare /\ forall w, done_with h w = prepared_then o ctx cat bill prepare w).
  { intros b bill prepare cat' h Hm ->. exists bill, (schema b ;; project ← EvaluationsApi.project_id ctx; prepare project).
    split; [by apply makes_request|]. intros w. unfold done_with, prepared_then, schema, guard_not. unfold mbind, M_bind.
    destruct (negb b); [done|]. cbn. rewrite project_known. destruct (prepare (p_id p) w) as [[pr|e] w1]; [|done].
    by destruct (EvaluationsApi.charge_run o ctx cat' (bill pr) pr w1) as [[a|e] w2]. }
  destruct c; cbn [charges serve_eval]; try done; intros [= <-].
  - apply (Hshape (EvaluationsApi.CreateEvalRunRequest_ok b) (fun pr => EvaluationsApi.pairs pr (EvaluationsApi.er_metrics b))
      (fun project => EvalService.prepare_eval_run o project (EvaluationsApi.er_metrics b) (EvaluationsApi.EvalRunFilters_dump (EvaluationsApi.er_filters b))
        (EvaluationsApi.er_sampling b) (EvaluationsApi.er_model b) (EvaluationsApi.er_name b))); [by apply makes_prepare_eval_run|reflexivity].
  - apply (Hshape (EvaluationsApi.CreateBatchEvalRunRequest_ok b) (fun pr => EvaluationsApi.pairs pr (EvaluationsApi.eb_metrics b))
      (fun project => EvalService.prepare_batch_eval_run o project (EvaluationsApi.eb_trace_ids b) (EvaluationsApi.eb_metrics b)
        (EvaluationsApi.eb_model b) (EvaluationsApi.eb_name b))); [by apply makes_prepare_batch|reflexivity].
  - apply (Hshape (EvaluationsApi.CreateSessionEvalRunRequest_ok b) (fun pr => EvaluationsApi.pairs pr (EvaluationsApi.es_metrics b))
      (fun project => EvalService.prepare_session_eval_run o project (EvaluationsApi.es_metrics b)
        (EvaluationsApi.SessionEvalRunFilters_dump (EvaluationsApi.es_filters b)) (EvaluationsApi.es_sampling b) (EvaluationsApi.es_model b)
        (EvaluationsApi.es_name b) (EvaluationsApi.es_weights b))); [by apply makes_prepare_session|reflexivity].
  - apply (Hshape (EvaluationsApi.CreateBatchSessionEvalRunRequest_ok b) (fun pr => EvaluationsApi.pairs pr (EvaluationsApi.bs_metrics b))
      (fun project => EvalService.prepare_batch_session_eval_run o project (EvaluationsApi.bs_session_ids b) (EvaluationsApi.bs_metrics b)
        (EvaluationsApi.bs_model b) (EvaluationsApi.bs_name b) (EvaluationsApi.bs_weights b))); [by apply makes_prepare_batch_session|reflexivity].
  - apply (Hshape true EvaluationsApi.retry_billable (EvalService.prepare_retry_failed_run run)); [by apply makes_retry|reflexivity].
  - apply (Hshape true (fun pr => EvaluationsApi.pairs pr (e_metrics (pr_run pr))) (EvalService.prepare_retry_failed_session_run o run));
      [by apply makes_retry_session|reflexivity].
Qed.
End requests.

(** What a request's session makes of its outcome. *)
Lemma request_session_run {A} (m : M World A) w : get_db_session m w =
  match m (set_db (durable w) w) with
  | (Ok a, w1) => (Ok a, set_db (db w1) (set_durable (db w1) w1))
  | (Err e, w1) => (Err e, set_db (durable w1) (set_db (durable w1) w1))
  end.
Proof.
  unfold get_db_session, rollback, commit, try_finally, try_except, raise. cbv [mbind M_bind modify mret M_ret].
  by destruct (m _) as [[a|e] w1].
Qed.

(** C12: An evaluation is charged for exactly the work it causes.  For an organization with a usable subscription, each of the
    six requests that create a run, of traces or of sessions, by filter, by identifiers or as a retry, either is refused, and then
    nothing is stored, counted or queued; or it stores one waiting run of the caller's project, and, when the broker takes the message,
    queues the one message that executes this run and counts exactly the (target, metric) pairs that the message asks for, within the
    plan's limit.  When the broker refuses the message, the request fails and the count is taken back, but the run stays. *)
Theorem evaluation_charged_for_its_work (o : Outside) (ctx : ApiContext) (p : Project) (s : Subscription) (c : EvalCall) (cat : UsageCategory) (w : World)
  (Hproject : cx_project ctx = Some p) (Hcall : charges c = Some cat)
  (Hsub : subscribed (o_id (cx_organization ctx)) s (set_db (durable w) w)) (Husable : usable s)
  (Hfresh : fresh_dedup w) (Hused : 0 <= units_used (o_id (cx_organization ctx)) s cat w) :
  let org := o_id (cx_organization ctx) in
  let used := units_used org s cat in
  let '(r, w') := get_db_session (serve_eval o ctx c) w in
  ((exists e, r = Err e) /\ durable w' = durable w /\ queue w' = queue w /\ used w' = used w) \/
  exists run task, waiting (p_id p) run /\ executes run task /\ durable w' = with_run run (durable w) /\
    within_limit org s cat (work run task) w /\
    match broker o task with
    | Some e => r = Err e /\ queue w' = queue w /\ used w' = used w
    | None => r = Ok tt /\ queue w' = queue w ++ [task] /\ used w' = used w + work run task
    end.
Proof.
  cbv zeta. destruct (charged_request o ctx p Hproject c cat Hcall) as (bill & prepare & Hm & Hserve).
  rewrite request_session_run Hserve. unfold prepared_then. set (w0 := set_db (durable w) w) in *. unfold mbind at 1, M_bind.
  specialize (Hm w0). destruct (prepare w0) as [[pr|e] w1]; destruct Hm as [(U1 & R1 & Q1 & N1 & I1) Hpr].
  - destruct (Hpr pr eq_refl) as (D1 & Hwait & Hexec & Hbill). clear Hpr. rewrite Hbill.
    set (task := EvalService.run_task pr) in *. set (run := pr_run pr) in *.
    assert (Hsub1 : subscribed (o_id (cx_organization ctx)) s w1) by (unfold subscribed; rewrite N1 R1 D1; exact Hsub).
    assert (Hfresh1 : fresh_dedup w1).
    { intros k b i Hi. rewrite R1 in Hi. specialize (Hfresh k b i Hi). change (next_id w0) with (next_id w) in I1. lia. }
    assert (Eu : units_used (o_id (cx_organization ctx)) s cat w1 = units_used (o_id (cx_organization ctx)) s cat w) by (unfold units_used; by rewrite N1 R1).
    pose proof (charge_run_outcome o ctx s cat pr (work run task) w1 Hsub1 Husable Hfresh1 (work_nonneg run task) ltac:(by rewrite Eu)) as H.
    fold task run in H. unfold mbind at 1, M_bind. destruct (EvaluationsApi.charge_run o ctx cat (work run task) pr w1) as [r2 w2].
    assert (El : within_limit (o_id (cx_organization ctx)) s cat (work run task) w1 = within_limit (o_id (cx_organization ctx)) s cat (work run task) w)
      by (unfold within_limit; by rewrite Eu).
    rewrite El Eu U1 Q1 D1 in H. cbn [durable queue w0 set_db] in H.
    destruct H as [(_ & [e ->] & U2 & Q2 & H2)|[(Hl & [e [Hb ->]] & U2 & Q2 & H2)|(Hl & Hb & -> & D2 & Q2 & H2)]]; cbn -[units_used work].
    + left. split; [by eexists|]. done.
    + right. exists run, task. split; [done|]. split; [done|]. split; [done|]. split; [done|]. by rewrite Hb.
    + right. exists run, task. split; [done|]. split; [done|]. split; [done|]. split; [done|]. rewrite Hb. done.
  - left. cbn -[units_used]. split; [by eexists|]. split; [done|]. split; [done|]. unfold units_used. cbn. by rewrite N1 R1.
Qed.

(** *** Two traces and two metrics, on a concrete world *)

Definition two_by_two : EvaluationsApi.CreateBatchEvalRunRequest :=
  {| EvaluationsApi.eb_name := None; EvaluationsApi.eb_trace_ids := [31; 32]%N;
     EvaluationsApi.eb_metrics := ["confidence"; "task_completion"]%string; EvaluationsApi.eb_model := None |}.
Lemma evaluation_charged_for_its_work_witness : exists r w',
  get_db_session (serve_eval toy_outside api_key_context (CreateBatchRun two_by_two)) run_world = (r, w') /\
  (queue w' = [] /\ units_used 7 pro_sub TRACE_EVALS w' = 0 \/
   exists run task, executes run task /\ r = Ok tt /\ queue w' = [task] /\ units_used 7 pro_sub TRACE_EVALS w' = work run task).
Proof.
  assert (Hsub : subscribed 7 pro_sub (set_db (durable run_world) run_world)) by by right.
  assert (Hfresh : fresh_dedup run_world).
  { intros k b i [x Hx]. change ((∅ : gmap DedupKey (Z * Z)) !! (k, (b, i)) = Some x) in Hx. by rewrite lookup_empty in Hx. }
  pose proof (evaluation_charged_for_its_work toy_outside api_key_context api_project pro_sub (CreateBatchRun two_by_two) TRACE_EVALS run_world
    eq_refl eq_refl Hsub (or_introl eq_refl) Hfresh ltac:(done)) as H.
  cbv zeta in H. destruct (get_db_session _ run_world) as [r w']. exists r, w'. split; [done|].
  destruct H as [(_ & _ & Q & U)|(run & task & _ & Hx & _ & _ & Hr & Q & U)]; [left; by rewrite Q U|right].
  exists run, task. split; [done|]. split; [done|]. split; [by rewrite Q|]. by rewrite U.
Defined.
