(* ===== verification/Migrations.v ===== *)
(** * Database migrations (backend/migrations)

    The revisions of migrations/versions, each the list of operations that its upgrade
    and its downgrade issue, and the walk of their links by which Alembic orders them. *)
From stdpp Require Import base strings list.
From Stdlib Require Import ZArith Lia ssreflect.
From S2P Require Import Prelude Ddl.

#[local] Open Scope string_scope.
#[local] Open Scope list_scope.
#[local] Open Scope Z_scope.

(** A file of migrations/versions. *)
Record revision := { revision_id : string; down_revision : option string; upgrade_ops : list op.operation; downgrade_ops : list op.operation }.

(** add session_scores table *)
Module Rev_1b151bbba793.

Definition upgrade : list op.operation :=
  [ op.create_table "session_scores"
     [ sa.Column (sa.mk_column "id" sa.UUID false None);
       sa.Column (sa.mk_column "session_id" (sa.String (Some 255)) false None);
       sa.Column (sa.mk_column "project_id" sa.UUID false None);
       sa.Column (sa.mk_column "name" (sa.String (Some 255)) false None);
       sa.Column (sa.mk_column "data_type" (sa.Enum ["NUMERIC"; "BOOLEAN"; "CATEGORICAL"] "score_data_type" 20) false None);
       sa.Column (sa.mk_column "value" (sa.String (Some 255)) true None);
       sa.Column (sa.mk_column "source" (sa.Enum ["AUTOMATED"; "ANNOTATION"; "PROGRAMMATIC"] "score_source" 20) false None);
       sa.Column (sa.mk_column "status" (sa.Enum ["SUCCESS"; "FAILED"; "PENDING"] "score_status" 20) false None);
       sa.Column (sa.mk_column "eval_run_id" sa.UUID true None);
       sa.Column (sa.mk_column "author_user_id" (sa.String (Some 255)) true None);
       sa.Column (sa.mk_column "reason" sa.Text true None);
       sa.Column (sa.mk_column "environment" (sa.String (Some 255)) true None);
       sa.Column (sa.mk_column "config_id" (sa.String (Some 255)) true None);
       sa.Column (sa.mk_column "metadata" sa.JSONB false None);
       sa.Column (sa.mk_column "created_at" (sa.DateTime true) false None);
       sa.Column (sa.mk_column "updated_at" (sa.DateTime true) false None);
       sa.ForeignKeyConstraint {| sa.fk_columns := ["eval_run_id"]; sa.fk_table := "eval_runs"; sa.fk_referred := ["id"]; sa.fk_name := None; sa.fk_ondelete := Some sa.SET_NULL; sa.fk_use_alter := false |};
       sa.ForeignKeyConstraint {| sa.fk_columns := ["project_id"]; sa.fk_table := "projects"; sa.fk_referred := ["id"]; sa.fk_name := None; sa.fk_ondelete := Some sa.CASCADE; sa.fk_use_alter := false |};
       sa.PrimaryKeyConstraint ["id"] None ];
    op.create_index "ix_session_scores_eval_run" "session_scores" ["eval_run_id"] false None;
    op.create_index "ix_session_scores_project_name" "session_scores" ["project_id"; "name"; "created_at"] false None;
    op.create_index "ix_session_scores_project_session" "session_scores" ["project_id"; "session_id"] false None ].

Definition downgrade : list op.operation :=
  [ op.drop_index "ix_session_scores_project_session" "session_scores";
    op.drop_index "ix_session_scores_project_name" "session_scores";
    op.drop_index "ix_session_scores_eval_run" "session_scores";
    op.drop_table "session_scores" ].

Definition this : revision :=
  {| revision_id := "1b151bbba793"; down_revision := Some "7ccbb500ad9c"; upgrade_ops := upgrade; downgrade_ops := downgrade |}.

End Rev_1b151bbba793.

(** add missing fk_eval_monitors_last_run_id constraint *)
Module Rev_1c98dcbcf360.

Definition upgrade : list op.operation :=
  [ op.create_foreign_key (Some "fk_eval_monitors_last_run_id") "eval_monitors" "eval_runs" ["last_run_id"] ["id"] (Some sa.SET_NULL) ].

Definition downgrade : list op.operation :=
  [ op.drop_constraint (Some "fk_eval_monitors_last_run_id") "eval_monitors" ].

Definition this : revision :=
  {| revision_id := "1c98dcbcf360"; down_revision := Some "fb266e680e34"; upgrade_ops := upgrade; downgrade_ops := downgrade |}.

End Rev_1c98dcbcf360.

(** make trace_scores value nullable for failed evals *)
Module Rev_26bcb17b08cd.

Definition upgrade : list op.operation :=
  [ op.alter_column_nullable "trace_scores" "value" true ].

Definition downgrade : list op.operation :=
  [ op.alter_column_nullable "trace_scores" "value" false ].

Definition this : revision :=
  {| revision_id := "26bcb17b08cd"; down_revision := Some "3936db5fe4ae"; upgrade_ops := upgrade; downgrade_ops := downgrade |}.

End Rev_26bcb17b08cd.

(** add failed_count to eval_runs *)
Module Rev_3936db5fe4ae.

Definition upgrade : list op.operation :=
  [ op.add_column "eval_runs" (sa.mk_column "failed_count" sa.Integer false None) ].

Definition downgrade : list op.operation :=
  [ op.drop_column "eval_runs" "failed_count" ].

Definition this : revision :=
  {| revision_id := "3936db5fe4ae"; down_revision := Some "572b122d002a"; upgrade_ops := upgrade; downgrade_ops := downgrade |}.

End Rev_3936db5fe4ae.

(** add invitations table *)
Module Rev_3ca1d40bddfa.

Definition upgrade : list op.operation :=
  [ op.create_table "invitations"
     [ sa.Column (sa.mk_column "id" sa.UUID false None);
       sa.Column (sa.mk_column "org_id" sa.UUID false None);
       sa.Column (sa.mk_column "email" (sa.String (Some 320)) false None);
       sa.Column (sa.mk_column "role" (sa.Enum ["OWNER"; "ADMIN"; "MEMBER"] "membership_role" 20) false None);
       sa.Column (sa.mk_column "invited_by" sa.UUID false None);
       sa.Column (sa.mk_column "status" (sa.Enum ["PENDING"; "ACCEPTED"; "DECLINED"; "REVOKED"; "EXPIRED"] "invitation_status" 20) false None);
       sa.Column (sa.mk_column "created_at" (sa.DateTime true) false None);
       sa.Column (sa.mk_column "expires_at" (sa.DateTime true) false None);
       sa.ForeignKeyConstraint {| sa.fk_columns := ["invited_by"]; sa.fk_table := "users"; sa.fk_referred := ["id"]; sa.fk_name := None; sa.fk_ondelete := None; sa.fk_use_alter := false |};
       sa.ForeignKeyConstraint {| sa.fk_columns := ["org_id"]; sa.fk_table := "organizations"; sa.fk_referred := ["id"]; sa.fk_name := None; sa.fk_ondelete := None; sa.fk_use_alter := false |};
       sa.PrimaryKeyConstraint ["id"] None ];
    op.create_index "ix_invitation_org_email" "invitations" ["org_id"; "email"] false None ].

Definition downgrade : list op.operation :=
  [ op.drop_index "ix_invitation_org_email" "invitations";
    op.drop_table "invitations" ].

Definition this : revision :=
  {| revision_id := "3ca1d40bddfa"; down_revision := Some "5876207a984b"; upgrade_ops := upgrade; downgrade_ops := downgrade |}.

End Rev_3ca1d40bddfa.

(** add subscription and usage tables *)
Module Rev_3ca3dee4b44a.

Definition upgrade : list op.operation :=
  [ op.create_table "subscriptions"
     [ sa.Column (sa.mk_column "id" sa.UUID false None);
       sa.Column (sa.mk_column "org_id" sa.UUID false None);
       sa.Column (sa.mk_column "plan" (sa.Enum ["HOBBY"; "PRO"; "STARTUP"; "ENTERPRISE"] "subscription_plan" 20) false None);
       sa.Column (sa.mk_column "status" (sa.Enum ["ACTIVE"; "PAST_DUE"; "CANCELED"; "INCOMPLETE"] "subscription_status" 20) false None);
       sa.Column (sa.mk_column "stripe_customer_id" (sa.String (Some 255)) true None);
       sa.Column (sa.mk_column "stripe_subscription_id" (sa.String (Some 255)) true None);
       sa.Column (sa.mk_column "current_period_start" (sa.DateTime true) false None);
       sa.Column (sa.mk_column "current_period_end" (sa.DateTime true) false None);
       sa.Column (sa.mk_column "canceled_at" (sa.DateTime true) true None);
       sa.Column (sa.mk_column "created_at" (sa.DateTime true) false None);
       sa.Column (sa.mk_column "updated_at" (sa.DateTime true) false None);
       sa.ForeignKeyConstraint {| sa.fk_columns := ["org_id"]; sa.fk_table := "organizations"; sa.fk_referred := ["id"]; sa.fk_name := None; sa.fk_ondelete := Some sa.CASCADE; sa.fk_use_alter := false |};
       sa.PrimaryKeyConstraint ["id"] None;
       sa.UniqueConstraint ["org_id"] None;
       sa.UniqueConstraint ["stripe_subscription_id"] None ];
    op.create_index "ix_subscriptions_org_id" "subscriptions" ["org_id"] false None;
    op.create_index "ix_subscriptions_stripe_customer_id" "subscriptions" ["stripe_customer_id"] false None;
    op.create_table "usage_records"
     [ sa.Column (sa.mk_column "id" sa.UUID false None);
       sa.Column (sa.mk_column "org_id" sa.UUID false None);
       sa.Column (sa.mk_column "period_start" (sa.DateTime true) false None);
       sa.Column (sa.mk_column "period_end" (sa.DateTime true) false None);
       sa.Column (sa.mk_column "trace_count" sa.Integer false None);
       sa.Column (sa.mk_column "trace_eval_count" sa.Integer false None);
       sa.Column (sa.mk_column "session_eval_count" sa.Integer false None);
       sa.Column (sa.mk_column "monitoring_request_count" sa.Integer false None);
       sa.Column (sa.mk_column "billed" sa.Boolean false None);
       sa.Column (sa.mk_column "stripe_invoice_id" (sa.String (Some 255)) true None);
       sa.Column (sa.mk_column "created_at" (sa.DateTime true) false None);
       sa.Column (sa.mk_column "updated_at" (sa.DateTime true) false None);
       sa.ForeignKeyConstraint {| sa.fk_columns := ["org_id"]; sa.fk_table := "organizations"; sa.fk_referred := ["id"]; sa.fk_name := None; sa.fk_ondelete := Some sa.CASCADE; sa.fk_use_alter := false |};
       sa.PrimaryKeyConstraint ["id"] None;
       sa.UniqueConstraint ["org_id"; "period_start"] (Some "uq_usage_record_org_period") ];
    op.create_index "ix_usage_records_org_period" "usage_records" ["org_id"; "period_start"] false None ].

Definition downgrade : list op.operation :=
  [ op.drop_index "ix_usage_records_org_period" "usage_records";
    op.drop_table "usage_records";
    op.drop_index "ix_subscriptions_stripe_customer_id" "subscriptions";
    op.drop_index "ix_subscriptions_org_id" "subscriptions";
    op.drop_table "subscriptions" ].

Definition this : revision :=
  {| revision_id := "3ca3dee4b44a"; down_revision := Some "1c98dcbcf360"; upgrade_ops := upgrade; downgrade_ops := downgrade |}.

End Rev_3ca3dee4b44a.

(** refactor evaluations to eval_runs and trace_scores *)
Module Rev_572b122d002a.

Definition upgrade : list op.operation :=
  [ op.create_table "eval_runs"
     [ sa.Column (sa.mk_column "id" sa.UUID false None);
       sa.Column (sa.mk_column "project_id" sa.UUID false None);
       sa.Column (sa.mk_column "name" (sa.String (Some 255)) true None);
       sa.Column (sa.mk_column "target_type" (sa.String (Some 20)) false None);
       sa.Column (sa.mk_column "metric_names" (sa.ARRAY (sa.String (Some 255))) false None);
       sa.Column (sa.mk_column "filters" sa.JSONB false None);
       sa.Column (sa.mk_column "sampling_rate" sa.Float false None);
       sa.Column (sa.mk_column "model" (sa.String (Some 255)) true None);
       sa.Column (sa.mk_column "status" (sa.Enum ["PENDING"; "RUNNING"; "COMPLETED"; "FAILED"] "evaluation_status" 20) false None);
       sa.Column (sa.mk_column "total_traces" sa.Integer false None);
       sa.Column (sa.mk_column "evaluated_count" sa.Integer false None);
       sa.Column (sa.mk_column "error_message" sa.Text true None);
       sa.Column (sa.mk_column "created_at" (sa.DateTime true) false None);
       sa.Column (sa.mk_column "completed_at" (sa.DateTime true) true None);
       sa.ForeignKeyConstraint {| sa.fk_columns := ["project_id"]; sa.fk_table := "projects"; sa.fk_referred := ["id"]; sa.fk_name := None; sa.fk_ondelete := Some sa.CASCADE; sa.fk_use_alter := false |};
       sa.PrimaryKeyConstraint ["id"] None ];
    op.create_index "ix_eval_runs_project" "eval_runs" ["project_id"; "created_at"] false None;
    op.create_table "trace_scores"
     [ sa.Column (sa.mk_column "id" sa.UUID false None);
       sa.Column (sa.mk_column "trace_id" sa.UUID false None);
       sa.Column (sa.mk_column "project_id" sa.UUID false None);
       sa.Column (sa.mk_column "name" (sa.String (Some 255)) false None);
       sa.Column (sa.mk_column "data_type" (sa.Enum ["NUMERIC"; "BOOLEAN"; "CATEGORICAL"] "score_data_type" 20) false None);
       sa.Column (sa.mk_column "value" (sa.String (Some 255)) false None);
       sa.Column (sa.mk_column "source" (sa.Enum ["AUTOMATED"; "ANNOTATION"; "PROGRAMMATIC"] "score_source" 20) false None);
       sa.Column (sa.mk_column "eval_run_id" sa.UUID true None);
       sa.Column (sa.mk_column "author_user_id" (sa.String (Some 255)) true None);
       sa.Column (sa.mk_column "reason" sa.Text true None);
       sa.Column (sa.mk_column "environment" (sa.String (Some 255)) true None);
       sa.Column (sa.mk_column "config_id" (sa.String (Some 255)) true None);
       sa.Column (sa.mk_column "metadata" sa.JSONB false None);
       sa.Column (sa.mk_column "created_at" (sa.DateTime true) false None);
       sa.Column (sa.mk_column "updated_at" (sa.DateTime true) false None);
       sa.ForeignKeyConstraint {| sa.fk_columns := ["eval_run_id"]; sa.fk_table := "eval_runs"; sa.fk_referred := ["id"]; sa.fk_name := None; sa.fk_ondelete := Some sa.SET_NULL; sa.fk_use_alter := false |};
       sa.ForeignKeyConstraint {| sa.fk_columns := ["project_id"]; sa.fk_table := "projects"; sa.fk_referred := ["id"]; sa.fk_name := None; sa.fk_ondelete := Some sa.CASCADE; sa.fk_use_alter := false |};
       sa.ForeignKeyConstraint {| sa.fk_columns := ["trace_id"]; sa.fk_table := "traces"; sa.fk_referred := ["trace_id"]; sa.fk_name := None; sa.fk_ondelete := Some sa.CASCADE; sa.fk_use_alter := false |};
       sa.PrimaryKeyConstraint ["id"] None ];
    op.create_index "ix_trace_scores_eval_run" "trace_scores" ["eval_run_id"] false None;
    op.create_index "ix_trace_scores_project_created" "trace_scores" ["project_id"; "created_at"] false None;
    op.create_index "ix_trace_scores_project_name" "trace_scores" ["project_id"; "name"] false None;
    op.create_index "ix_trace_scores_trace_id" "trace_scores" ["trace_id"] false None;
    op.drop_table "evaluation_results";
    op.drop_index "ix_evaluations_project_trace" "evaluations";
    op.drop_table "evaluations" ].

Definition downgrade : list op.operation :=
  [ op.create_table "evaluation_results"
     [ sa.Column (sa.mk_column "id" sa.UUID false None);
       sa.Column (sa.mk_column "evaluation_id" sa.UUID false None);
       sa.Column (sa.mk_column "metric_name" (sa.VARCHAR (Some 255)) false None);
       sa.Column (sa.mk_column "score" (sa.DOUBLE_PRECISION 53) false None);
       sa.Column (sa.mk_column "threshold" (sa.DOUBLE_PRECISION 53) false None);
       sa.Column (sa.mk_column "success" sa.BOOLEAN false None);
       sa.Column (sa.mk_column "reason" sa.TEXT true None);
       sa.Column (sa.mk_column "metadata" sa.JSONB false None);
       sa.Column (sa.mk_column "evaluated_at" (sa.TIMESTAMP true) false None);
       sa.ForeignKeyConstraint {| sa.fk_columns := ["evaluation_id"]; sa.fk_table := "evaluations"; sa.fk_referred := ["id"]; sa.fk_name := Some "evaluation_results_evaluation_id_fkey"; sa.fk_ondelete := Some sa.CASCADE; sa.fk_use_alter := false |};
       sa.PrimaryKeyConstraint ["id"] (Some "evaluation_results_pkey") ];
    op.create_table "evaluations"
     [ sa.Column (sa.mk_column "id" sa.UUID false None);
       sa.Column (sa.mk_column "trace_id" sa.UUID false None);
       sa.Column (sa.mk_column "project_id" sa.UUID false None);
       sa.Column (sa.mk_column "metric_names" (sa.ARRAY (sa.VARCHAR None)) false None);
       sa.Column (sa.mk_column "status" (sa.VARCHAR (Some 20)) false None);
       sa.Column (sa.mk_column "created_at" (sa.TIMESTAMP true) false None);
       sa.Column (sa.mk_column "completed_at" (sa.TIMESTAMP true) true None);
       sa.ForeignKeyConstraint {| sa.fk_columns := ["project_id"]; sa.fk_table := "projects"; sa.fk_referred := ["id"]; sa.fk_name := Some "evaluations_project_id_fkey"; sa.fk_ondelete := Some sa.CASCADE; sa.fk_use_alter := false |};
       sa.ForeignKeyConstraint {| sa.fk_columns := ["trace_id"]; sa.fk_table := "traces"; sa.fk_referred := ["trace_id"]; sa.fk_name := Some "evaluations_trace_id_fkey"; sa.fk_ondelete := Some sa.CASCADE; sa.fk_use_alter := false |};
       sa.PrimaryKeyConstraint ["id"] (Some "evaluations_pkey") ];
    op.create_index "ix_evaluations_project_trace" "evaluations" ["project_id"; "trace_id"] false None;
    op.drop_index "ix_trace_scores_trace_id" "trace_scores";
    op.drop_index "ix_trace_scores_project_name" "trace_scores";
    op.drop_index "ix_trace_scores_project_created" "trace_scores";
    op.drop_index "ix_trace_scores_eval_run" "trace_scores";
    op.drop_table "trace_scores";
    op.drop_index "ix_eval_runs_project" "eval_runs";
    op.drop_table "eval_runs" ].

Definition this : revision :=
  {| revision_id := "572b122d002a"; down_revision := Some "e6b8a7360199"; upgrade_ops := upgrade; downgrade_ops := downgrade |}.

End Rev_572b122d002a.

(** add reported usage watermark columns *)
Module Rev_5876207a984b.

Definition upgrade : list op.operation :=
  [ op.add_column "usage_records" (sa.mk_column "reported_trace_count" sa.Integer false (Some "0"));
    op.add_column "usage_records" (sa.mk_column "reported_trace_eval_count" sa.Integer false (Some "0"));
    op.add_column "usage_records" (sa.mk_column "reported_session_eval_count" sa.Integer false (Some "0")) ].

Definition downgrade : list op.operation :=
  [ op.drop_column "usage_records" "reported_session_eval_count";
    op.drop_column "usage_records" "reported_trace_eval_count";
    op.drop_column "usage_records" "reported_trace_count" ].

Definition this : revision :=
  {| revision_id := "5876207a984b"; down_revision := Some "943fb9918228"; upgrade_ops := upgrade; downgrade_ops := downgrade |}.

End Rev_5876207a984b.

(** add status column to trace_scores *)
Module Rev_7ccbb500ad9c.

Definition upgrade : list op.operation :=
  [ op.add_column "trace_scores" (sa.mk_column "status" (sa.Enum ["SUCCESS"; "FAILED"; "PENDING"] "score_status" 20) false None) ].

Definition downgrade : list op.operation :=
  [ op.drop_column "trace_scores" "status" ].

Definition this : revision :=
  {| revision_id := "7ccbb500ad9c"; down_revision := Some "26bcb17b08cd"; upgrade_ops := upgrade; downgrade_ops := downgrade |}.

End Rev_7ccbb500ad9c.

(** rename total_traces to total_targets and drop monitoring_request_count *)
Module Rev_943fb9918228.

Definition upgrade : list op.operation :=
  [ op.alter_column_name "eval_runs" "total_traces" "total_targets";
    op.drop_column "usage_records" "monitoring_request_count" ].

Definition downgrade : list op.operation :=
  [ op.add_column "usage_records" (sa.mk_column "monitoring_request_count" sa.INTEGER false (Some "0"));
    op.alter_column_name "eval_runs" "total_targets" "total_traces" ].

Definition this : revision :=
  {| revision_id := "943fb9918228"; down_revision := Some "3ca3dee4b44a"; upgrade_ops := upgrade; downgrade_ops := downgrade |}.

End Rev_943fb9918228.

(** fresh pandaprobe db schema *)
Module Rev_bf86fb585ed9.

Definition upgrade : list op.operation :=
  [ op.create_table "organizations"
     [ sa.Column (sa.mk_column "id" sa.UUID false None);
       sa.Column (sa.mk_column "name" (sa.String (Some 255)) false None);
       sa.Column (sa.mk_column "created_at" (sa.DateTime true) false None);
       sa.PrimaryKeyConstraint ["id"] None ];
    op.create_table "users"
     [ sa.Column (sa.mk_column "id" sa.UUID false None);
       sa.Column (sa.mk_column "external_id" (sa.String (Some 255)) false None);
       sa.Column (sa.mk_column "email" (sa.String (Some 320)) false None);
       sa.Column (sa.mk_column "display_name" (sa.String (Some 255)) false None);
       sa.Column (sa.mk_column "created_at" (sa.DateTime true) false None);
       sa.Column (sa.mk_column "last_sign_in_at" (sa.DateTime true) true None);
       sa.PrimaryKeyConstraint ["id"] None;
       sa.UniqueConstraint ["email"] None ];
    op.create_index "ix_users_external_id" "users" ["external_id"] true None;
    op.create_table "api_keys"
     [ sa.Column (sa.mk_column "id" sa.UUID false None);
       sa.Column (sa.mk_column "org_id" sa.UUID false None);
       sa.Column (sa.mk_column "key_hash" (sa.String (Some 128)) false None);
       sa.Column (sa.mk_column "key_prefix" (sa.String (Some 12)) false None);
       sa.Column (sa.mk_column "name" (sa.String (Some 255)) false None);
       sa.Column (sa.mk_column "is_active" sa.Boolean false None);
       sa.Column (sa.mk_column "created_at" (sa.DateTime true) false None);
       sa.Column (sa.mk_column "expires_at" (sa.DateTime true) true None);
       sa.Column (sa.mk_column "last_used_at" (sa.DateTime true) true None);
       sa.Column (sa.mk_column "created_by" sa.UUID true None);
       sa.ForeignKeyConstraint {| sa.fk_columns := ["created_by"]; sa.fk_table := "users"; sa.fk_referred := ["id"]; sa.fk_name := None; sa.fk_ondelete := None; sa.fk_use_alter := false |};
       sa.ForeignKeyConstraint {| sa.fk_columns := ["org_id"]; sa.fk_table := "organizations"; sa.fk_referred := ["id"]; sa.fk_name := None; sa.fk_ondelete := None; sa.fk_use_alter := false |};
       sa.PrimaryKeyConstraint ["id"] None ];
    op.create_index "ix_api_keys_key_hash" "api_keys" ["key_hash"] true None;
    op.create_table "memberships"
     [ sa.Column (sa.mk_column "id" sa.UUID false None);
       sa.Column (sa.mk_column "user_id" sa.UUID false None);
       sa.Column (sa.mk_column "org_id" sa.UUID false None);
       sa.Column (sa.mk_column "role" (sa.Enum ["OWNER"; "ADMIN"; "MEMBER"] "membership_role" 20) false None);
       sa.Column (sa.mk_column "created_at" (sa.DateTime true) false None);
       sa.ForeignKeyConstraint {| sa.fk_columns := ["org_id"]; sa.fk_table := "organizations"; sa.fk_referred := ["id"]; sa.fk_name := None; sa.fk_ondelete := None; sa.fk_use_alter := false |};
       sa.ForeignKeyConstraint {| sa.fk_columns := ["user_id"]; sa.fk_table := "users"; sa.fk_referred := ["id"]; sa.fk_name := None; sa.fk_ondelete := None; sa.fk_use_alter := false |};
       sa.PrimaryKeyConstraint ["id"] None;
       sa.UniqueConstraint ["user_id"; "org_id"] (Some "uq_membership_user_org") ];
    op.create_table "projects"
     [ sa.Column (sa.mk_column "id" sa.UUID false None);
       sa.Column (sa.mk_column "org_id" sa.UUID false None);
       sa.Column (sa.mk_column "name" (sa.String (Some 255)) false None);
       sa.Column (sa.mk_column "description" sa.Text false None);
       sa.Column (sa.mk_column "created_at" (sa.DateTime true) false None);
       sa.ForeignKeyConstraint {| sa.fk_columns := ["org_id"]; sa.fk_table := "organizations"; sa.fk_referred := ["id"]; sa.fk_name := None; sa.fk_ondelete := None; sa.fk_use_alter := false |};
       sa.PrimaryKeyConstraint ["id"] None;
       sa.UniqueConstraint ["org_id"; "name"] (Some "uq_project_org_name") ];
    op.create_index "ix_projects_org_id" "projects" ["org_id"] false None;
    op.create_table "traces"
     [ sa.Column (sa.mk_column "trace_id" sa.UUID false None);
       sa.Column (sa.mk_column "project_id" sa.UUID false None);
       sa.Column (sa.mk_column "name" (sa.String (Some 512)) false None);
       sa.Column (sa.mk_column "status" (sa.Enum ["PENDING"; "RUNNING"; "COMPLETED"; "ERROR"] "trace_status" 20) false None);
       sa.Column (sa.mk_column "input" sa.JSONB true None);
       sa.Column (sa.mk_column "output" sa.JSONB true None);
       sa.Column (sa.mk_column "metadata" sa.JSONB false None);
       sa.Column (sa.mk_column "started_at" (sa.DateTime true) false None);
       sa.Column (sa.mk_column "ended_at" (sa.DateTime true) true None);
       sa.Column (sa.mk_column "session_id" (sa.String (Some 255)) true None);
       sa.Column (sa.mk_column "user_id" (sa.String (Some 255)) true None);
       sa.Column (sa.mk_column "tags" (sa.ARRAY (sa.String None)) false None);
       sa.Column (sa.mk_column "created_at" (sa.DateTime true) false None);
       sa.ForeignKeyConstraint {| sa.fk_columns := ["project_id"]; sa.fk_table := "projects"; sa.fk_referred := ["id"]; sa.fk_name := None; sa.fk_ondelete := Some sa.CASCADE; sa.fk_use_alter := false |};
       sa.PrimaryKeyConstraint ["trace_id"] None ];
    op.create_index "ix_traces_project_id_created" "traces" ["project_id"; "created_at"] false None;
    op.create_index "ix_traces_session_id" "traces" ["project_id"; "session_id"] false None;
    op.create_index "ix_traces_tags" "traces" ["tags"] false (Some "gin");
    op.create_table "evaluations"
     [ sa.Column (sa.mk_column "id" sa.UUID false None);
       sa.Column (sa.mk_column "trace_id" sa.UUID false None);
       sa.Column (sa.mk_column "project_id" sa.UUID false None);
       sa.Column (sa.mk_column "metric_names" (sa.ARRAY (sa.String None)) false None);
       sa.Column (sa.mk_column "status" (sa.Enum ["PENDING"; "RUNNING"; "COMPLETED"; "FAILED"] "evaluation_status" 20) false None);
       sa.Column (sa.mk_column "created_at" (sa.DateTime true) false None);
       sa.Column (sa.mk_column "completed_at" (sa.DateTime true) true None);
       sa.ForeignKeyConstraint {| sa.fk_columns := ["project_id"]; sa.fk_table := "projects"; sa.fk_referred := ["id"]; sa.fk_name := None; sa.fk_ondelete := Some sa.CASCADE; sa.fk_use_alter := false |};
       sa.ForeignKeyConstraint {| sa.fk_columns := ["trace_id"]; sa.fk_table := "traces"; sa.fk_referred := ["trace_id"]; sa.fk_name := None; sa.fk_ondelete := Some sa.CASCADE; sa.fk_use_alter := false |};
       sa.PrimaryKeyConstraint ["id"] None ];
    op.create_index "ix_evaluations_project_trace" "evaluations" ["project_id"; "trace_id"] false None;
    op.create_table "spans"
     [ sa.Column (sa.mk_column "span_id" sa.UUID false None);
       sa.Column (sa.mk_column "trace_id" sa.UUID false None);
       sa.Column (sa.mk_column "parent_span_id" sa.UUID true None);
       sa.Column (sa.mk_column "name" (sa.String (Some 512)) false None);
       sa.Column (sa.mk_column "kind" (sa.Enum ["AGENT"; "TOOL"; "LLM"; "RETRIEVER"; "CHAIN"; "EMBEDDING"; "OTHER"] "span_kind" 20) false None);
       sa.Column (sa.mk_column "status" (sa.Enum ["UNSET"; "OK"; "ERROR"] "span_status_code" 20) false None);
       sa.Column (sa.mk_column "input" sa.JSONB true None);
       sa.Column (sa.mk_column "output" sa.JSONB true None);
       sa.Column (sa.mk_column "model" (sa.String (Some 255)) true None);
       sa.Column (sa.mk_column "token_usage" sa.JSONB true None);
       sa.Column (sa.mk_column "metadata" sa.JSONB false None);
       sa.Column (sa.mk_column "started_at" (sa.DateTime true) false None);
       sa.Column (sa.mk_column "ended_at" (sa.DateTime true) true None);
       sa.Column (sa.mk_column "error" sa.Text true None);
       sa.Column (sa.mk_column "completion_start_time" (sa.DateTime true) true None);
       sa.Column (sa.mk_column "model_parameters" sa.JSONB true None);
       sa.Column (sa.mk_column "cost" sa.JSONB true None);
       sa.ForeignKeyConstraint {| sa.fk_columns := ["trace_id"]; sa.fk_table := "traces"; sa.fk_referred := ["trace_id"]; sa.fk_name := None; sa.fk_ondelete := Some sa.CASCADE; sa.fk_use_alter := false |};
       sa.PrimaryKeyConstraint ["span_id"] None ];
    op.create_index "ix_spans_trace_id" "spans" ["trace_id"] false None;
    op.create_table "evaluation_results"
     [ sa.Column (sa.mk_column "id" sa.UUID false None);
       sa.Column (sa.mk_column "evaluation_id" sa.UUID false None);
       sa.Column (sa.mk_column "metric_name" (sa.String (Some 255)) false None);
       sa.Column (sa.mk_column "score" sa.Float false None);
       sa.Column (sa.mk_column "threshold" sa.Float false None);
       sa.Column (sa.mk_column "success" sa.Boolean false None);
       sa.Column (sa.mk_column "reason" sa.Text true None);
       sa.Column (sa.mk_column "metadata" sa.JSONB false None);
       sa.Column (sa.mk_column "evaluated_at" (sa.DateTime true) false None);
       sa.ForeignKeyConstraint {| sa.fk_columns := ["evaluation_id"]; sa.fk_table := "evaluations"; sa.fk_referred := ["id"]; sa.fk_name := None; sa.fk_ondelete := Some sa.CASCADE; sa.fk_use_alter := false |};
       sa.PrimaryKeyConstraint ["id"] None ] ].

Definition downgrade : list op.operation :=
  [ op.drop_table "evaluation_results";
    op.drop_index "ix_spans_trace_id" "spans";
    op.drop_table "spans";
    op.drop_index "ix_evaluations_project_trace" "evaluations";
    op.drop_table "evaluations";
    op.drop_index "ix_traces_tags" "traces";
    op.drop_index "ix_traces_session_id" "traces";
    op.drop_index "ix_traces_project_id_created" "traces";
    op.drop_table "traces";
    op.drop_index "ix_projects_org_id" "projects";
    op.drop_table "projects";
    op.drop_table "memberships";
    op.drop_index "ix_api_keys_key_hash" "api_keys";
    op.drop_table "api_keys";
    op.drop_index "ix_users_external_id" "users";
    op.drop_table "users";
    op.drop_table "organizations" ].

Definition this : revision :=
  {| revision_id := "bf86fb585ed9"; down_revision := None; upgrade_ops := upgrade; downgrade_ops := downgrade |}.

End Rev_bf86fb585ed9.

(** add trace filter indexes *)
Module Rev_e118961e5dcd.

Definition upgrade : list op.operation :=
  [ op.create_index "ix_traces_project_started" "traces" ["project_id"; "started_at"] false None;
    op.create_index "ix_traces_project_status" "traces" ["project_id"; "status"] false None;
    op.create_index "ix_traces_project_user_id" "traces" ["project_id"; "user_id"] false None ].

Definition downgrade : list op.operation :=
  [ op.drop_index "ix_traces_project_user_id" "traces";
    op.drop_index "ix_traces_project_status" "traces";
    op.drop_index "ix_traces_project_started" "traces" ].

Definition this : revision :=
  {| revision_id := "e118961e5dcd"; down_revision := Some "bf86fb585ed9"; upgrade_ops := upgrade; downgrade_ops := downgrade |}.

End Rev_e118961e5dcd.

(** add environment and release to traces *)
Module Rev_e6b8a7360199.

Definition upgrade : list op.operation :=
  [ op.add_column "traces" (sa.mk_column "environment" (sa.String (Some 255)) true None);
    op.add_column "traces" (sa.mk_column "release" (sa.String (Some 255)) true None) ].

Definition downgrade : list op.operation :=
  [ op.drop_column "traces" "release";
    op.drop_column "traces" "environment" ].

Definition this : revision :=
  {| revision_id := "e6b8a7360199"; down_revision := Some "e118961e5dcd"; upgrade_ops := upgrade; downgrade_ops := downgrade |}.

End Rev_e6b8a7360199.

(** add eval_monitors table and monitor_id to eval_runs *)
Module Rev_fb266e680e34.

Definition upgrade : list op.operation :=
  [ op.create_table "eval_monitors"
     [ sa.Column (sa.mk_column "id" sa.UUID false None);
       sa.Column (sa.mk_column "project_id" sa.UUID false None);
       sa.Column (sa.mk_column "name" (sa.String (Some 255)) false None);
       sa.Column (sa.mk_column "target_type" (sa.String (Some 20)) false None);
       sa.Column (sa.mk_column "metric_names" (sa.ARRAY (sa.String (Some 255))) false None);
       sa.Column (sa.mk_column "filters" sa.JSONB false None);
       sa.Column (sa.mk_column "sampling_rate" sa.Float false None);
       sa.Column (sa.mk_column "model" (sa.String (Some 255)) true None);
       sa.Column (sa.mk_column "cadence" (sa.String (Some 50)) false None);
       sa.Column (sa.mk_column "only_if_changed" sa.Boolean false None);
       sa.Column (sa.mk_column "status" (sa.Enum ["ACTIVE"; "PAUSED"] "monitor_status" 20) false None);
       sa.Column (sa.mk_column "last_run_at" (sa.DateTime true) true None);
       sa.Column (sa.mk_column "last_run_id" sa.UUID true None);
       sa.Column (sa.mk_column "next_run_at" (sa.DateTime true) true None);
       sa.Column (sa.mk_column "created_at" (sa.DateTime true) false None);
       sa.Column (sa.mk_column "updated_at" (sa.DateTime true) false None);
       sa.ForeignKeyConstraint {| sa.fk_columns := ["last_run_id"]; sa.fk_table := "eval_runs"; sa.fk_referred := ["id"]; sa.fk_name := Some "fk_eval_monitors_last_run_id"; sa.fk_ondelete := Some sa.SET_NULL; sa.fk_use_alter := true |};
       sa.ForeignKeyConstraint {| sa.fk_columns := ["project_id"]; sa.fk_table := "projects"; sa.fk_referred := ["id"]; sa.fk_name := None; sa.fk_ondelete := Some sa.CASCADE; sa.fk_use_alter := false |};
       sa.PrimaryKeyConstraint ["id"] None ];
    op.create_index "ix_eval_monitors_next_run" "eval_monitors" ["status"; "next_run_at"] false None;
    op.create_index "ix_eval_monitors_project" "eval_monitors" ["project_id"; "status"] false None;
    op.add_column "eval_runs" (sa.mk_column "monitor_id" sa.UUID true None);
    op.create_foreign_key None "eval_runs" "eval_monitors" ["monitor_id"] ["id"] (Some sa.SET_NULL) ].

Definition downgrade : list op.operation :=
  [ op.drop_constraint None "eval_runs";
    op.drop_column "eval_runs" "monitor_id";
    op.drop_index "ix_eval_monitors_project" "eval_monitors";
    op.drop_index "ix_eval_monitors_next_run" "eval_monitors";
    op.drop_table "eval_monitors" ].

Definition this : revision :=
  {| revision_id := "fb266e680e34"; down_revision := Some "1b151bbba793"; upgrade_ops := upgrade; downgrade_ops := downgrade |}.

End Rev_fb266e680e34.

(** add durable billing reports *)
Module Rev_fd38fefe55a8.

Definition upgrade : list op.operation :=
  [ op.create_table "billing_reports"
     [ sa.Column (sa.mk_column "id" sa.UUID false None);
       sa.Column (sa.mk_column "usage_record_id" sa.UUID false None);
       sa.Column (sa.mk_column "stripe_customer_id" (sa.String (Some 255)) false None);
       sa.Column (sa.mk_column "stripe_subscription_id" (sa.String (Some 255)) true None);
       sa.Column (sa.mk_column "closing_invoice_id" (sa.String (Some 255)) true None);
       sa.Column (sa.mk_column "snapshot_trace_count" sa.Integer false None);
       sa.Column (sa.mk_column "snapshot_trace_eval_count" sa.Integer false None);
       sa.Column (sa.mk_column "snapshot_session_eval_count" sa.Integer false None);
       sa.Column (sa.mk_column "pricing" sa.JSONB false None);
       sa.Column (sa.mk_column "requests" sa.JSONB false None);
       sa.Column (sa.mk_column "attempted_at" sa.JSONB false None);
       sa.Column (sa.mk_column "stripe_item_ids" sa.JSONB false None);
       sa.Column (sa.mk_column "status" (sa.String (Some 20)) false None);
       sa.Column (sa.mk_column "last_error" sa.Text true None);
       sa.Column (sa.mk_column "created_at" (sa.DateTime true) false None);
       sa.Column (sa.mk_column "updated_at" (sa.DateTime true) false None);
       sa.ForeignKeyConstraint {| sa.fk_columns := ["usage_record_id"]; sa.fk_table := "usage_records"; sa.fk_referred := ["id"]; sa.fk_name := None; sa.fk_ondelete := Some sa.CASCADE; sa.fk_use_alter := false |};
       sa.PrimaryKeyConstraint ["id"] None;
       sa.UniqueConstraint ["usage_record_id"; "closing_invoice_id"] (Some "uq_billing_report_closure") ];
    op.create_index "ix_billing_reports_status_created" "billing_reports" ["status"; "created_at"] false None;
    op.create_index "ix_billing_reports_usage_record" "billing_reports" ["usage_record_id"] false None ].

Definition downgrade : list op.operation :=
  [ op.drop_index "ix_billing_reports_usage_record" "billing_reports";
    op.drop_index "ix_billing_reports_status_created" "billing_reports";
    op.drop_table "billing_reports" ].

Definition this : revision :=
  {| revision_id := "fd38fefe55a8"; down_revision := Some "3ca1d40bddfa"; upgrade_ops := upgrade; downgrade_ops := downgrade |}.

End Rev_fd38fefe55a8.

(** The files of migrations/versions, by name. *)
Definition versions : list revision :=
  [ Rev_1b151bbba793.this;
    Rev_1c98dcbcf360.this;
    Rev_26bcb17b08cd.this;
    Rev_3936db5fe4ae.this;
    Rev_3ca1d40bddfa.this;
    Rev_3ca3dee4b44a.this;
    Rev_572b122d002a.this;
    Rev_5876207a984b.this;
    Rev_7ccbb500ad9c.this;
    Rev_943fb9918228.this;
    Rev_bf86fb585ed9.this;
    Rev_e118961e5dcd.this;
    Rev_e6b8a7360199.this;
    Rev_fb266e680e34.this;
    Rev_fd38fefe55a8.this ].

(** ** Ordering (Alembic's script directory) *)

(** [ScriptDirectory.get_current_head]: the one revision that no other revises. *)
Definition is_head (l : list revision) (r : revision) : bool :=
  negb (existsb (fun x => bool_decide (down_revision x = Some (revision_id r))) l).
Definition current_head (l : list revision) : outcome revision :=
  match List.filter (is_head l) l with
  | [r] => Done r
  | _ => Failed MultipleHeads
  end.
Definition get_revision (l : list revision) (id : string) : outcome revision :=
  match List.find (fun r => String.eqb (revision_id r) id) l with
  | Some r => Done r
  | None => Failed RevisionNotFound
  end.
(** The revisions from the first up to [r], following the links; the fuel bounds their number. *)
Fixpoint ancestry (fuel : nat) (l : list revision) (r : revision) : outcome (list revision) :=
  match down_revision r with
  | None => Done [r]
  | Some id =>
      match fuel with
      | O => Failed RevisionNotFound
      | S fuel' =>
          r' ← get_revision l id ;
          before ← ancestry fuel' l r' ;
          mret (before ++ [r])
      end
  end.
Definition history (l : list revision) : outcome (list revision) :=
  r ← current_head l ;
  ancestry (length l) l r.

(** The revisions that a database at [current] has yet to run. *)
Fixpoint pending (current : string) (h : list revision) : outcome (list revision) :=
  match h with
  | [] => Failed RevisionNotFound
  | r :: h' => if String.eqb (revision_id r) current then Done h' else pending current h'
  end.

(** ** Commands *)

Definition at_version (v : option string) (d : database) : database :=
  {| db_version := v; db_schema := db_schema d; db_content := db_content d |}.
Definition run_upgrade (r : revision) (d : database) : outcome database :=
  d' ← run (upgrade_ops r) d ;
  mret (at_version (Some (revision_id r)) d').
Definition run_downgrade (r : revision) (d : database) : outcome database :=
  d' ← run (downgrade_ops r) d ;
  mret (at_version (down_revision r) d').
Fixpoint run_migrations (l : list revision) (d : database) : outcome database :=
  match l with
  | [] => mret d
  | r :: l' => d' ← run_upgrade r d ; run_migrations l' d'
  end.

(** [alembic upgrade head] *)
Definition upgrade_head (l : list revision) (d : database) : outcome database :=
  h ← history l ;
  todo ← match db_version d with
         | None => mret h
         | Some v => pending v h
         end ;
  run_migrations todo d.

(** env.py runs all of it in one transaction: a failure leaves the database as it was. *)
Definition run_migrations_online (l : list revision) (d : database) : outcome unit * database :=
  match upgrade_head l d with
  | Done d' => (Done tt, d')
  | Failed e => (Failed e, d)
  end.

Example history_linear : (List.map revision_id <$> (match history versions with Done h => Some h | Failed _ => None end))
  = Some ["bf86fb585ed9"; "e118961e5dcd"; "e6b8a7360199"; "572b122d002a"; "3936db5fe4ae"; "26bcb17b08cd"; "7ccbb500ad9c"; "1b151bbba793";
          "fb266e680e34"; "1c98dcbcf360"; "3ca3dee4b44a"; "943fb9918228"; "5876207a984b"; "3ca1d40bddfa"; "fd38fefe55a8"].
Proof. reflexivity. Qed.
