(* ===== verification/MigrationFacts.v ===== *)
(** * What the migrations guarantee

    The schema they build is that of the models, they lose no data but what a revision
    removes, they fail on exactly the databases named here, and each downgrade but two
    undoes its upgrade. *)
From stdpp Require Import base strings list.
From Stdlib Require Import ZArith Lia ssreflect.
From S2P Require Import Prelude Ddl OrmModels Migrations.

#[local] Open Scope string_scope.
#[local] Open Scope list_scope.

(** ** Databases in service *)

(** The revisions run on a database at [v]. *)
Fixpoint up_to (v : string) (h : list revision) : outcome (list revision) :=
  match h with
  | [] => Failed RevisionNotFound
  | r :: h' => if String.eqb (revision_id r) v then Done [r] else l ← up_to v h' ; mret (r :: l)
  end.
Definition installed (l : list revision) (v : option string) : outcome (list revision) :=
  h ← history l ;
  match v with
  | None => mret []
  | Some v => up_to v h
  end.
Definition script (l : list revision) : list op.operation := List.concat (List.map upgrade_ops l).
Definition schema_at (l : list revision) (v : option string) : outcome schema :=
  h ← installed l v ; define_all (script h) [].

(** No NULL in a column that forbids it. *)
Definition respects_not_null (d : database) : Prop :=
  forall t tb c, table_of t (db_schema d) = Some tb -> c ∈ tb_columns tb -> col_nullable c = false ->
  None ∉ values (db_content d) t (col_name c).
(** A database brought to its revision by the upgrades, with any rows that its NOT NULL columns admit. *)
Definition deployed (d : database) : Prop :=
  schema_at versions (db_version d) = Done (db_schema d) /\ respects_not_null d.

Definition is_done {A} (m : outcome A) : bool := match m with Done _ => true | Failed _ => false end.

(** *** The history, in order *)

Definition ordered : list revision :=
  [Rev_bf86fb585ed9.this; Rev_e118961e5dcd.this; Rev_e6b8a7360199.this; Rev_572b122d002a.this; Rev_3936db5fe4ae.this;
   Rev_26bcb17b08cd.this; Rev_7ccbb500ad9c.this; Rev_1b151bbba793.this; Rev_fb266e680e34.this; Rev_1c98dcbcf360.this;
   Rev_3ca3dee4b44a.this; Rev_943fb9918228.this; Rev_5876207a984b.this; Rev_3ca1d40bddfa.this; Rev_fd38fefe55a8.this].

Lemma history_ordered : history versions = Done ordered.
Proof. reflexivity. Qed.

Lemma outcome_bind_Done {A B} (m : outcome A) (k : A -> outcome B) b :
  (m ≫= k) = Done b <-> exists a, m = Done a /\ k a = Done b.
Proof. destruct m; cbn; split; [eauto|by intros (? & [= <-] & ?)|done|by intros (? & ? & ?)]. Qed.

Lemma define_all_app a b s : define_all (a ++ b) s = (s' ← define_all a s ; define_all b s').
Proof. revert s. induction a as [|o a IH]; intros s; cbn; [done|]. by destruct (define o s); cbn. Qed.
Lemma rewrite_all_app a b c : rewrite_all (a ++ b) c = (c' ← rewrite_all a c ; rewrite_all b c').
Proof. revert c. induction a as [|o a IH]; intros c; cbn; [done|]. by destruct (rewrite o c); cbn. Qed.

Lemma up_to_pending v h l : up_to v h = Done l -> exists todo, pending v h = Done todo /\ h = l ++ todo.
Proof.
  revert l. induction h as [|r h IH]; intros l; cbn; [done|].
  destruct (String.eqb (revision_id r) v); [intros [= <-]; by exists h|].
  intros (l' & Hl & [= <-])%outcome_bind_Done. destruct (IH l' Hl) as (todo & Hp & ->). by exists todo.
Qed.

Lemma up_to_last v h l : up_to v h = Done l -> revision_id <$> last l = Some v.
Proof.
  revert l. induction h as [|r h IH]; intros l; cbn; [done|].
  destruct (String.eqb (revision_id r) v) eqn:E; [apply String.eqb_eq in E; intros [= <-]; cbn; by rewrite E|].
  intros (l' & Hl & [= <-])%outcome_bind_Done. specialize (IH l' Hl). rewrite last_cons. by destruct (last l').
Qed.

(** The revisions left to run on a database in service. *)
Lemma deployed_todo d : deployed d -> exists l todo,
  db_version d = revision_id <$> last l /\ ordered = l ++ todo /\ define_all (script l) [] = Done (db_schema d) /\
  upgrade_head versions d = run_migrations todo d.
Proof.
  intros [Hs _]. unfold schema_at in Hs. apply outcome_bind_Done in Hs as (l & Hl & Hs).
  assert (H : db_version d = revision_id <$> last l /\ exists todo, ordered = l ++ todo /\ upgrade_head versions d = run_migrations todo d).
  { unfold installed in Hl. unfold upgrade_head. rewrite history_ordered in Hl |- *.
    unfold mbind, outcome_bind in Hl |- *.
    destruct (db_version d) as [v|]; [|injection Hl as <-; split; [done|]; by exists ordered].
    rewrite (up_to_last _ _ _ Hl). split; [done|].
    apply up_to_pending in Hl as (todo & Hp & Ho). exists todo. rewrite Hp. by split. }
  destruct H as (H1 & todo & H2 & H3). by exists l, todo.
Qed.

Lemma run_migrations_split l d d' : run_migrations l d = Done d' ->
  define_all (script l) (db_schema d) = Done (db_schema d') /\ rewrite_all (script l) (db_content d) = Done (db_content d').
Proof.
  unfold script. revert d. induction l as [|r l IH]; intros d; cbn; [by intros [= ->]|].
  intros (d2 & (d1 & H1 & [= <-])%outcome_bind_Done & H2)%outcome_bind_Done.
  apply run_split in H1 as (_ & Hs & Hc). apply IH in H2 as [Hs2 Hc2]. cbn in Hs2, Hc2.
  rewrite define_all_app rewrite_all_app Hs Hc. by split.
Qed.
Lemma run_migrations_ok l d s c :
  define_all (script l) (db_schema d) = Done s -> rewrite_all (script l) (db_content d) = Done c -> exists d', run_migrations l d = Done d'.
Proof.
  unfold script. revert d. induction l as [|r l IH]; intros d; cbn; [by eexists|].
  rewrite define_all_app rewrite_all_app.
  intros (s1 & Hs1 & Hs)%outcome_bind_Done (c1 & Hc1 & Hc)%outcome_bind_Done.
  pose (d1 := {| db_version := db_version d; db_schema := s1; db_content := c1 |}).
  assert (H1 : run (upgrade_ops r) d = Done d1) by (by apply run_split).
  unfold run_upgrade. rewrite H1. cbn. by apply (IH (at_version (Some (revision_id r)) d1)).
Qed.

(** ** Scripts that cannot fail on the rows

    An abstract execution, which knows of some tables that they are empty and of some
    columns that they hold NULL only. *)

Record knowledge := { empty_tables : list string; null_columns : list (string * string) }.
Definition knows_null (k : knowledge) (t x : string) : bool :=
  mem t (empty_tables k) || existsb (fun p => String.eqb (fst p) t && String.eqb (snd p) x) (null_columns k).
Definition forget_column (t x : string) (k : knowledge) : knowledge :=
  {| empty_tables := empty_tables k; null_columns := List.filter (fun p => negb (String.eqb (fst p) t && String.eqb (snd p) x)) (null_columns k) |}.
Definition learn_empty (t : string) (k : knowledge) : knowledge :=
  {| empty_tables := t :: empty_tables k; null_columns := null_columns k |}.

Definition foresee (o : op.operation) (k : knowledge) : option knowledge :=
  match o with
  | op.create_table n _ | op.drop_table n => Some (learn_empty n k)
  | op.create_index _ n _ u _ => if negb u || mem n (empty_tables k) then Some k else None
  | op.drop_index _ _ | op.drop_constraint _ _ => Some k
  | op.add_column n x =>
      match sa.server_default x with
      | Some _ => Some (forget_column n (sa.name x) k)
      | None => if sa.nullable x || mem n (empty_tables k)
                then Some {| empty_tables := empty_tables k; null_columns := (n, sa.name x) :: null_columns k |} else None
      end
  | op.drop_column n x => Some k
  | op.alter_column_nullable n _ b => if b || mem n (empty_tables k) then Some k else None
  | op.alter_column_name n x x' => Some (forget_column n x' k)
  | op.create_foreign_key _ n _ cols _ _ => if existsb (knows_null k n) cols then Some k else None
  end.
Fixpoint foresee_all (ops : list op.operation) (k : knowledge) : option knowledge :=
  match ops with
  | [] => Some k
  | o :: ops' => k' ← foresee o k ; foresee_all ops' k'
  end.

Definition holds (k : knowledge) (c : content) : Prop :=
  (forall t, mem t (empty_tables k) = true -> c t = []) /\ (forall t x r, knows_null k t x = true -> r ∈ c t -> r x = None).

Lemma holds_empty k c t : holds k c -> mem t (empty_tables k) = true -> c t = [].
Proof. intros [H _]. apply H. Qed.

(** Rewriting the rows of one table, each on its own. *)
Lemma holds_rewrite k k' c n f : holds k c -> empty_tables k' = empty_tables k ->
  (forall t x, knows_null k' t x = true -> mem t (empty_tables k) = false -> String.eqb n t = false -> knows_null k t x = true) ->
  (forall x r, knows_null k' n x = true -> r ∈ c n -> f r x = None) ->
  holds k' (set_at n (List.map f (c n)) c).
Proof.
  intros [He Hn] Hk Hother Hown. split.
  - intros t Ht. rewrite Hk in Ht. destruct (String.eqb n t) eqn:E.
    + apply String.eqb_eq in E as ->. rewrite set_at_same. by rewrite (He t Ht).
    + rewrite set_at_other; [done|]. by apply He.
  - intros t x r Hx Hr. destruct (String.eqb n t) eqn:E.
    + apply String.eqb_eq in E as ->. rewrite set_at_same in Hr. apply list_elem_of_In, List.in_map_iff in Hr as (r0 & <- & Hr0).
      apply Hown; [done|]. by apply list_elem_of_In.
    + rewrite set_at_other in Hr; [done|]. destruct (mem t (empty_tables k)) eqn:Em.
      * rewrite (He t Em) in Hr. by apply not_elem_of_nil in Hr.
      * apply (Hn t x r); [by apply Hother|done].
Qed.

Lemma holds_cleared k c n : holds k c -> holds (learn_empty n k) (set_at n [] c).
Proof.
  intros [He Hn]. split.
  - intros t. cbn. destruct (String.eqb t n) eqn:E; intros Ht; unfold set_at; rewrite E; [done|]. by apply He.
  - intros t x r. unfold knows_null. cbn. unfold set_at. destruct (String.eqb t n) eqn:E; [by intros _ ?%not_elem_of_nil|]. apply Hn.
Qed.

Lemma knows_null_spec k t x : knows_null k t x = true <-> mem t (empty_tables k) = true \/ (t, x) ∈ null_columns k.
Proof.
  unfold knows_null. rewrite orb_true_iff List.existsb_exists. f_equiv. split.
  - intros ([a b] & Hin & H). cbn in H. apply andb_true_iff in H as [->%String.eqb_eq ->%String.eqb_eq]. by apply list_elem_of_In.
  - intros Hin. exists (t, x). split; [by apply list_elem_of_In|]. cbn. by rewrite !String.eqb_refl.
Qed.

Lemma knows_null_forget k n x t y : knows_null (forget_column n x k) t y = true ->
  mem t (empty_tables k) = true \/ (knows_null k t y = true /\ ~ (t = n /\ y = x)).
Proof.
  rewrite !knows_null_spec. cbn. intros [H|H]; [by left|right]. apply list_elem_of_In, List.filter_In in H as [Hin Hne].
  split; [right; by apply list_elem_of_In|]. intros [-> ->]. cbn in Hne. by rewrite !String.eqb_refl in Hne.
Qed.

Lemma refers_null cols cols' rows rows' x : x ∈ cols -> (forall r, r ∈ rows -> r x = None) -> refers cols cols' rows rows' = true.
Proof.
  intros Hx Hn. unfold refers. apply List.forallb_forall. intros r Hr. apply orb_true_iff. left. apply negb_true_iff.
  apply not_true_is_false. rewrite List.forallb_forall. intros H.
  specialize (H (r x)). rewrite (Hn r) in H; [by apply list_elem_of_In|]. by discriminate H; apply List.in_map_iff; exists x; split; [apply Hn|]; apply list_elem_of_In.
Qed.

Lemma foresee_add n x k k' c : holds k c -> foresee (op.add_column n x) k = Some k' ->
  exists c', rewrite (op.add_column n x) c = Done c' /\ holds k' c'.
Proof.
  intros Hh. cbn. destruct (sa.server_default x) as [v|] eqn:Ed.
  - intros [= <-]. rewrite orb_true_r. eexists. split; [done|]. apply (holds_rewrite k); [done|done| |].
    + intros t y H Hm Hn. apply knows_null_forget in H as [H|[H _]]; [congruence|done].
    + intros y r H Hr. apply knows_null_forget in H as [H|[H Hne]].
      { rewrite (holds_empty _ _ _ Hh H) in Hr. by apply not_elem_of_nil in Hr. }
      rewrite set_at_other; [apply String.eqb_neq; naive_solver|]. by apply (proj2 Hh n).
  - destruct (sa.nullable x || mem n (empty_tables k)) eqn:Eb; [|done]. intros [= <-].
    assert (Hok : sa.nullable x || false || is_nil (c n) = true).
    { rewrite orb_false_r. apply orb_true_iff in Eb as [->|Em]; [done|]. by rewrite (holds_empty _ _ _ Hh Em) orb_true_r. }
    cbn [is_some]. rewrite Hok. eexists. split; [done|]. apply (holds_rewrite k); [done|done| |].
    + intros t y H Hm Hn. apply knows_null_spec in H as [H|H]; [change (mem t (empty_tables k) = true) in H; congruence|]. cbn in H.
      apply knows_null_spec. right. apply elem_of_cons in H as [[= -> ->]|H]; [by rewrite String.eqb_refl in Hn|done].
    + intros y r H Hr. destruct (String.eqb (sa.name x) y) eqn:E; [apply String.eqb_eq in E as ->; by rewrite set_at_same|].
      rewrite set_at_other; [done|]. apply (proj2 Hh n y r); [|done]. apply knows_null_spec. apply knows_null_spec in H as [H|H]; [by left|right].
      cbn in H. apply elem_of_cons in H as [[= ->]|H]; [by rewrite String.eqb_refl in E|done].
Qed.

Lemma foresee_rename n x x' k c : holds k c -> holds (forget_column n x' k) (set_at n (List.map (fun r => set_at x None (set_at x' (r x) r)) (c n)) c).
Proof.
  intros Hh. apply (holds_rewrite k); [done|done| |].
  - intros t y H Hm Hn. apply knows_null_forget in H as [H|[H _]]; [congruence|done].
  - intros y r H Hr. apply knows_null_forget in H as [H|[H Hne]].
    { rewrite (holds_empty _ _ _ Hh H) in Hr. by apply not_elem_of_nil in Hr. }
    destruct (String.eqb x y) eqn:E; [apply String.eqb_eq in E as ->; by rewrite set_at_same|].
    rewrite set_at_other; [done|]. rewrite set_at_other; [apply String.eqb_neq; naive_solver|]. by apply (proj2 Hh n).
Qed.

Lemma foresee_sound o k k' c : holds k c -> foresee o k = Some k' -> exists c', rewrite o c = Done c' /\ holds k' c'.
Proof.
  intros Hh Hf. destruct o as [n l|n|i n l u h|i n|n x|n x|n x b|n x x'|f n r l l' d|f n]; [..|idtac].
  all: try (cbn in Hf; injection Hf as <-; eexists; split; [reflexivity|]; try done).
  - by apply holds_cleared.
  - by apply holds_cleared.
  - cbn in Hf |- *. destruct u; cbn in Hf |- *; [|injection Hf as <-; by exists c].
    destruct (mem n (empty_tables k)) eqn:E; [|done]. injection Hf as <-.
    rewrite (holds_empty _ _ _ Hh E). by exists c.
  - exact (foresee_add _ _ _ _ _ Hh Hf).
  - apply (holds_rewrite k); [done|done|done|]. intros y r H Hr.
    destruct (String.eqb x y) eqn:E; [apply String.eqb_eq in E as ->; by rewrite set_at_same|].
    rewrite set_at_other; [done|]. by apply (proj2 Hh n).
  - cbn in Hf |- *. destruct b; cbn in Hf |- *; [injection Hf as <-; by exists c|].
    destruct (mem n (empty_tables k)) eqn:E; [|done]. injection Hf as <-. rewrite (holds_empty _ _ _ Hh E). by exists c.
  - by apply foresee_rename.
  - cbn in Hf |- *. destruct (existsb (knows_null k n) l) eqn:E; [|done]. injection Hf as <-.
    apply List.existsb_exists in E as (x & Hx & Hk). rewrite (refers_null _ _ _ _ x); [by apply list_elem_of_In| |by exists c].
    intros r0. by apply (proj2 Hh n).
Qed.

Lemma foresee_all_sound ops k k' c : holds k c -> foresee_all ops k = Some k' -> exists c', rewrite_all ops c = Done c' /\ holds k' c'.
Proof.
  revert k c. induction ops as [|o ops IH]; intros k c Hh; cbn; [intros [= <-]; by exists c|].
  destruct (foresee o k) as [k1|] eqn:E; [|done]. intros Hf.
  destruct (foresee_sound _ _ _ _ Hh E) as (c1 & -> & H1). by apply (IH k1).
Qed.

(** ** Checking every position of the history *)

Definition at_each (P : list revision -> list revision -> bool) : bool :=
  forallb (fun k => P (take k ordered) (drop k ordered)) (seq 0 16).

Lemma split_position l todo : ordered = l ++ todo -> exists k, k < 16 /\ l = take k ordered /\ todo = drop k ordered.
Proof.
  intros H. exists (length l). rewrite H take_app_length drop_app_length. split; [|done].
  apply (f_equal length) in H. rewrite length_app in H. change (length ordered) with 15 in H. lia.
Qed.

Lemma at_each_sound P l todo : at_each P = true -> ordered = l ++ todo -> P l todo = true.
Proof.
  intros H (k & Hk & -> & ->)%split_position. unfold at_each in H. rewrite List.forallb_forall in H.
  apply (H k). apply List.in_seq. lia.
Qed.

(** ** The schema *)

Definition set_server_default (n c v : string) (s : schema) : schema :=
  update_table n (with_columns (List.map (fun x =>
    if String.eqb (col_name x) c then {| col_name := col_name x; col_type := col_type x; col_nullable := col_nullable x; col_default := Some v |} else x))) s.
(** The columns that revision 5876207a984b adds to a table that may hold rows. *)
Definition watermarks : list string := ["reported_trace_count"; "reported_trace_eval_count"; "reported_session_eval_count"].
Definition migrated : schema := foldr (fun c => set_server_default "usage_records" c "0") declared watermarks.

(** ** When the upgrade fails *)

(** The databases whose rows stand in the way of a revision still to run. *)
Definition blocked (d : database) : Prop :=
  let rows := db_content d in
  (db_version d = Some "572b122d002a" /\ (rows "eval_runs" <> [] \/ rows "trace_scores" <> [])) \/
  ((db_version d = Some "3936db5fe4ae" \/ db_version d = Some "26bcb17b08cd") /\ rows "trace_scores" <> []) \/
  (db_version d = Some "fb266e680e34" /\
   exists r, r ∈ rows "eval_monitors" /\ r "last_run_id" <> None /\ forall r', r' ∈ rows "eval_runs" -> r' "id" <> r "last_run_id").

Definition nothing : knowledge := {| empty_tables := []; null_columns := [] |}.
Lemma holds_nothing c : holds nothing c.
Proof. split; [done|]. by intros t x r. Qed.

Definition can (ops : list op.operation) (c : content) : Prop := exists c', rewrite_all ops c = Done c'.
Lemma can_clear ops c : is_some (foresee_all ops nothing) = true -> can ops c.
Proof.
  destruct (foresee_all ops nothing) as [k|] eqn:E; [|done]. intros _.
  destruct (foresee_all_sound _ _ _ _ (holds_nothing c) E) as (c' & H & _). by exists c'.
Qed.
Lemma can_cons o ops c : can (o :: ops) c <-> exists c', rewrite o c = Done c' /\ can ops c'.
Proof.
  unfold can. cbn. split.
  - intros (c' & (c1 & H1 & H2)%outcome_bind_Done). eauto.
  - intros (c1 & -> & c' & H2). by exists c'.
Qed.
(** A script of which only the first operation can fail. *)
Lemma can_first o ops c : is_some (foresee_all ops nothing) = true -> can (o :: ops) c <-> exists c', rewrite o c = Done c'.
Proof. intros H. rewrite can_cons. split; [intros (c' & H' & _); by exists c'|]. intros (c' & H'). exists c'. split; [done|]. by apply can_clear. Qed.

Lemma upgrade_succeeds d l todo : ordered = l ++ todo -> define_all (script l) [] = Done (db_schema d) ->
  (exists d', run_migrations todo d = Done d') <-> can (script todo) (db_content d).
Proof.
  intros Ho Hs. split.
  - intros (d' & (_ & H)%run_migrations_split). by exists (db_content d').
  - intros (c & Hc).
    assert (E : is_done (define_all (script ordered) []) = true) by (vm_compute; reflexivity).
    unfold script in Hs, E. rewrite Ho List.map_app List.concat_app define_all_app Hs in E. cbn in E.
    destruct (define_all (script todo) (db_schema d)) as [s|] eqn:E'; [|by unfold script in E'; rewrite E' in E].
    exact (run_migrations_ok _ _ _ _ E' Hc).
Qed.

Lemma add_required n x c : sa.server_default x = None -> sa.nullable x = false ->
  (exists c', rewrite (op.add_column n x) c = Done c') <-> c n = [].
Proof.
  intros Hd Hn. cbn. rewrite Hd Hn. cbn. destruct (c n); cbn; split.
  - done.
  - intros _. by eexists.
  - by intros [? [=]].
  - done.
Qed.

(** The four positions of the history at which rows matter. *)
Lemma can_after_runs c : can (script (drop 4 ordered)) c <-> c "eval_runs" = [] /\ c "trace_scores" = [].
Proof.
  change (script (drop 4 ordered)) with (Rev_3936db5fe4ae.upgrade ++ Rev_26bcb17b08cd.upgrade ++ Rev_7ccbb500ad9c.upgrade ++ script (drop 7 ordered)).
  cbn [app Rev_3936db5fe4ae.upgrade Rev_26bcb17b08cd.upgrade Rev_7ccbb500ad9c.upgrade].
  rewrite can_cons. split.
  - intros (c1 & H1 & H). assert (Hr : c "eval_runs" = []) by (eapply add_required; [..|exists c1; exact H1]; reflexivity).
    split; [done|]. rewrite can_cons in H. destruct H as (c2 & [= <-] & H).
    rewrite can_first in H; [vm_compute; reflexivity|]. apply add_required in H; [|done|done].
    cbn in H1. rewrite Hr in H1. injection H1 as <-. by rewrite set_at_other in H.
  - intros [Hr Ht]. eexists. split; [cbn; rewrite Hr; reflexivity|]. rewrite can_cons. eexists. split; [reflexivity|].
    rewrite can_first; [vm_compute; reflexivity|]. apply add_required; [done|done|]. by rewrite set_at_other.
Qed.
Lemma can_after_failed_count c : can (script (drop 5 ordered)) c <-> c "trace_scores" = [].
Proof.
  change (script (drop 5 ordered)) with (Rev_26bcb17b08cd.upgrade ++ Rev_7ccbb500ad9c.upgrade ++ script (drop 7 ordered)).
  cbn [app Rev_26bcb17b08cd.upgrade Rev_7ccbb500ad9c.upgrade]. rewrite can_cons. split.
  - intros (c1 & [= <-] & H). rewrite can_first in H; [vm_compute; reflexivity|]. by apply add_required in H.
  - intros Ht. exists c. split; [done|]. rewrite can_first; [vm_compute; reflexivity|]. by apply add_required.
Qed.
Lemma can_after_nullable c : can (script (drop 6 ordered)) c <-> c "trace_scores" = [].
Proof.
  change (script (drop 6 ordered)) with (Rev_7ccbb500ad9c.upgrade ++ script (drop 7 ordered)).
  cbn [app Rev_7ccbb500ad9c.upgrade]. rewrite can_first; [vm_compute; reflexivity|]. by apply add_required.
Qed.

Lemma refers_single x y rows rows' : refers [x] [y] rows rows' = true <->
  ~ exists r, r ∈ rows /\ r x <> None /\ forall r', r' ∈ rows' -> r' y <> r x.
Proof.
  unfold refers. rewrite List.forallb_forall. split.
  - intros H (r & Hr%list_elem_of_In & Hs & Hn). specialize (H r Hr). cbn in H.
    destruct (r x) as [v|] eqn:E; [|done]. cbn in H. apply List.existsb_exists in H as (r' & Hr' & [= Hv]%bool_decide_eq_true).
    apply (Hn r'); [by apply list_elem_of_In|]. done.
  - intros H r Hr. cbn. destruct (r x) as [v|] eqn:E; [|done]. cbn. apply not_false_iff_true. intros Hf. apply H. exists r.
    split; [by apply list_elem_of_In|]. split; [by rewrite E|]. intros r' Hr'%list_elem_of_In Hv.
    apply not_true_iff_false in Hf. apply Hf. apply List.existsb_exists. exists r'. split; [done|].
    cbn. apply bool_decide_eq_true. by rewrite Hv E.
Qed.
Lemma can_after_monitors c : can (script (drop 9 ordered)) c <->
  ~ exists r, r ∈ c "eval_monitors" /\ r "last_run_id" <> None /\ forall r', r' ∈ c "eval_runs" -> r' "id" <> r "last_run_id".
Proof.
  change (script (drop 9 ordered)) with (Rev_1c98dcbcf360.upgrade ++ script (drop 10 ordered)).
  cbn [app Rev_1c98dcbcf360.upgrade]. rewrite can_first; [vm_compute; reflexivity|]. rewrite -refers_single. cbn [rewrite].
  destruct (refers _ _ _ _); cbn; split; try done; [intros _; by eexists|by intros [? [=]]].
Qed.

(** Elsewhere they do not. *)
Lemma can_elsewhere c k : k < 16 -> k <> 4 -> k <> 5 -> k <> 6 -> k <> 9 -> can (script (drop k ordered)) c.
Proof.
  intros Hk H4 H5 H6 H9. apply can_clear.
  assert (H : forallb (fun k => is_some (foresee_all (script (drop k ordered)) nothing)) [0; 1; 2; 3; 7; 8; 10; 11; 12; 13; 14; 15] = true)
    by (vm_compute; reflexivity).
  rewrite List.forallb_forall in H. apply (H k). cbn. lia.
Qed.

(** A revision stands at one position. *)
Lemma position_inj k k' : k < 16 -> k' < 16 ->
  revision_id <$> last (take k ordered) = revision_id <$> last (take k' ordered) -> k = k'.
Proof.
  assert (H : forallb (fun i => forallb (fun j => negb (bool_decide (revision_id <$> last (take i ordered) = revision_id <$> last (take j ordered))) || Nat.eqb i j) (seq 0 16)) (seq 0 16) = true)
    by (vm_compute; reflexivity).
  intros Hk Hk' Hv. rewrite List.forallb_forall in H. specialize (H k). rewrite List.forallb_forall in H.
  assert (E : negb (bool_decide (revision_id <$> last (take k ordered) = revision_id <$> last (take k' ordered))) || Nat.eqb k k' = true).
  { apply H; apply List.in_seq; lia. }
  rewrite Hv bool_decide_eq_true_2 in E; [done|]. by apply Nat.eqb_eq.
Qed.

Lemma blocked_at d k : k < 16 -> db_version d = revision_id <$> last (take k ordered) ->
  blocked d <->
    (k = 4 /\ (db_content d "eval_runs" <> [] \/ db_content d "trace_scores" <> [])) \/
    ((k = 5 \/ k = 6) /\ db_content d "trace_scores" <> []) \/
    (k = 9 /\ exists r, r ∈ db_content d "eval_monitors" /\ r "last_run_id" <> None /\ forall r', r' ∈ db_content d "eval_runs" -> r' "id" <> r "last_run_id").
Proof.
  intros Hk Hv. unfold blocked. cbn zeta. rewrite Hv.
  assert (E : forall v k', k' < 16 -> revision_id <$> last (take k' ordered) = Some v -> revision_id <$> last (take k ordered) = Some v <-> k = k').
  { intros v k' Hk' Hv'. split; [|by intros ->]. intros H. apply position_inj; [done|done|]. by rewrite H Hv'. }
  rewrite (E "572b122d002a" 4) ?(E "3936db5fe4ae" 5) ?(E "26bcb17b08cd" 6) ?(E "fb266e680e34" 9); try lia; try reflexivity.
Qed.

Lemma is_nil_dec {A} (l : list A) : l = [] \/ l <> [].
Proof. destruct l; [by left|by right]. Qed.

Lemma upgrade_iff d : deployed d -> (exists d', upgrade_head versions d = Done d') <-> ~ blocked d.
Proof.
  intros (l & todo & Hv & Ho & Hs & ->)%deployed_todo. rewrite (upgrade_succeeds _ _ _ Ho Hs).
  destruct (split_position _ _ Ho) as (k & Hk & -> & ->). rewrite (blocked_at d k Hk Hv).
  clear Ho Hs Hv. destruct (decide (k = 4)) as [->|H4].
  { rewrite can_after_runs. split; [intros [? ?] [[_ [?|?]]|[[[?|?] ?]|[? ?]]]; done|].
    intros H. destruct (is_nil_dec (db_content d "eval_runs")), (is_nil_dec (db_content d "trace_scores")); [done|exfalso; apply H; left; auto..]. }
  destruct (decide (k = 5)) as [->|H5].
  { rewrite can_after_failed_count. split; [intros ? [[? _]|[[_ ?]|[? _]]]; done|].
    intros H. destruct (is_nil_dec (db_content d "trace_scores")); [done|exfalso; apply H; right; left; auto]. }
  destruct (decide (k = 6)) as [->|H6].
  { rewrite can_after_nullable. split; [intros ? [[? _]|[[_ ?]|[? _]]]; done|].
    intros H. destruct (is_nil_dec (db_content d "trace_scores")); [done|exfalso; apply H; right; left; auto]. }
  destruct (decide (k = 9)) as [->|H9].
  { rewrite can_after_monitors. split; [intros Hn [[? _]|[[[?|?] _]|[_ ?]]]; done|]. intros H ?. apply H. right. right. by split. }
  split; [intros _; lia|]. intros _. by apply can_elsewhere.
Qed.

(** C36: The head is reached from every database in service but three kinds: at 572b122d002a with
    evaluation runs or trace scores, at 3936db5fe4ae or 26bcb17b08cd with trace scores (a NOT NULL
    column without a default is added to a table that holds rows), and at fb266e680e34 with a
    monitor whose last run is gone (the missing foreign key is added late).  There the whole
    command fails and leaves the database, which is one transaction, as it was. *)
Theorem upgrade_fails_exactly d : deployed d ->
  (blocked d -> exists e, run_migrations_online versions d = (Failed e, d)) /\
  (~ blocked d -> exists d', run_migrations_online versions d = (Done tt, d')).
Proof.
  intros Hd. pose proof (upgrade_iff d Hd) as Hi. unfold run_migrations_online.
  destruct (upgrade_head versions d) as [d'|e]; split; intros Hb.
  - exfalso. apply Hi; [by exists d'|done].
  - by exists d'.
  - by exists e.
  - exfalso. apply Hi in Hb as [d' [=]].
Qed.

(** A database at a revision, one table of which holds one row. *)
Definition one_row (v t : string) : database :=
  {| db_version := Some v;
     db_schema := match schema_at versions (Some v) with Done s => s | Failed _ => [] end;
     db_content := fun n => if String.eqb n t then [fun _ => Some "1"] else [] |}.

Lemma one_row_deployed v t : is_done (schema_at versions (Some v)) = true -> deployed (one_row v t).
Proof.
  intros H. split.
  - unfold one_row. cbn [db_version db_schema]. by destruct (schema_at versions (Some v)).
  - intros n tb c _ _ _ Hin. unfold one_row, values in Hin. cbn [db_content] in Hin.
    destruct (String.eqb n t); cbn in Hin; [|by apply not_elem_of_nil in Hin].
    apply list_elem_of_singleton in Hin. discriminate Hin.
Qed.

Lemma upgrade_fails_exactly_witness :
  (exists e, run_migrations_online versions (one_row "572b122d002a" "eval_runs") = (Failed e, one_row "572b122d002a" "eval_runs")) /\
  (exists d', run_migrations_online versions (one_row "572b122d002a" "traces") = (Done tt, d')).
Proof.
  split.
  - apply (upgrade_fails_exactly (one_row "572b122d002a" "eval_runs")).
    + apply one_row_deployed. vm_compute. reflexivity.
    + left. split; [reflexivity|]. left. discriminate.
  - apply (upgrade_fails_exactly (one_row "572b122d002a" "traces")).
    + apply one_row_deployed. vm_compute. reflexivity.
    + intros [(_ & [H|H])|[(_ & H)|(H & _)]]; [exact (H eq_refl)|exact (H eq_refl)|exact (H eq_refl)|discriminate H].
Defined.

(** C35: Bringing any database in service to the head gives it the schema of the ORM models, table
    by table: the same columns with their types and nullability, the same keys, foreign keys with
    their actions, unique constraints and indexes, under the same names.  The one difference is
    the server default of the three watermark columns. *)
Theorem migrations_build_models d d' : deployed d -> upgrade_head versions d = Done d' -> same_schema (db_schema d') migrated.
Proof.
  intros (l & todo & _ & Ho & Hs & ->)%deployed_todo (Hs' & _)%run_migrations_split.
  assert (H : define_all (script ordered) [] = Done (db_schema d')).
  { unfold script in Hs, Hs' |- *. by rewrite Ho List.map_app List.concat_app define_all_app Hs. }
  apply same_schema_b_sound.
  assert (E : (match define_all (script ordered) [] with Done s => same_schema_b s migrated | Failed _ => false end) = true) by (vm_compute; reflexivity).
  by rewrite H in E.
Qed.

Lemma migrations_build_models_witness : exists d', same_schema (db_schema d') migrated.
Proof.
  assert (Hd : deployed empty_database) by (split; [vm_compute; reflexivity|intros t tb c H; discriminate H]).
  assert (Hu : exists d', upgrade_head versions empty_database = Done d').
  { apply upgrade_iff; [exact Hd|]. intros [(H & _)|[([H|H] & _)|(H & _)]]; discriminate H. }
  destruct Hu as [d' Hu]. exists d'. exact (migrations_build_models empty_database d' Hd Hu).
Defined.

(** ** The data *)

(** What the revisions remove: the two tables of the first evaluations (572b122d002a) and the
    count of monitoring requests (943fb9918228), which also renames a column. *)
Definition discarded (t c : string) : bool :=
  mem t ["evaluations"; "evaluation_results"] || (String.eqb t "usage_records" && String.eqb c "monitoring_request_count").
Definition renamed (t c : string) : string :=
  if String.eqb t "eval_runs" && String.eqb c "total_traces" then "total_targets" else c.

Definition has_column (s : schema) (t c : string) : bool :=
  match table_of t s with
  | Some tb => mem c (column_names tb)
  | None => false
  end.
Definition kept_by (ops : list op.operation) (drops : string -> string -> bool) (name : string -> string -> string) (s s' : schema) : bool :=
  forallb (fun p => forallb (fun c =>
    drops (fst p) c ||
    (bool_decide (follow (fst p) ops c = Some (name (fst p) c)) && has_column s' (fst p) (name (fst p) c))) (column_names (snd p))) s.

Lemma has_column_In s t c : has_column s t c = true -> exists p, p ∈ s /\ fst p = t /\ c ∈ column_names (snd p).
Proof.
  unfold has_column, table_of. destruct (List.find _ s) as [p|] eqn:E; cbn; [|done]. intros H.
  apply List.find_some in E as [Hin <-%String.eqb_eq]. exists p. split; [by apply list_elem_of_In|]. split; [done|].
  unfold mem in H. apply List.existsb_exists in H as (x & Hx & ->%String.eqb_eq). by apply list_elem_of_In.
Qed.

Lemma kept_by_sound ops drops name s s' c c' t k : kept_by ops drops name s s' = true -> rewrite_all ops c = Done c' ->
  has_column s t k = true -> drops t k = false ->
  values c' t (name t k) = values c t k /\ has_column s' t (name t k) = true.
Proof.
  intros H Hc (p & Hp & <- & Hk)%has_column_In Hd. unfold kept_by in H. rewrite List.forallb_forall in H.
  specialize (H p). rewrite List.forallb_forall in H.
  assert (E : drops (fst p) k || (bool_decide (follow (fst p) ops k = Some (name (fst p) k)) && has_column s' (fst p) (name (fst p) k)) = true).
  { apply H; by apply list_elem_of_In. }
  rewrite Hd in E. apply andb_true_iff in E as [E%bool_decide_eq_true ->]. split; [|done]. exact (rewrite_all_keeps _ _ _ _ _ _ E Hc).
Qed.

(** C37: Bringing a database in service to the head loses none of its data but what the revisions
    discard: every other column of every table is still there, under the name that the code uses
    now, and holds the same values row by row. *)
Theorem upgrade_keeps_data d d' t c : deployed d -> upgrade_head versions d = Done d' ->
  has_column (db_schema d) t c = true -> discarded t c = false ->
  values (db_content d') t (renamed t c) = values (db_content d) t c /\ has_column (db_schema d') t (renamed t c) = true.
Proof.
  intros (l & todo & _ & Ho & Hs & ->)%deployed_todo (Hs' & Hc)%run_migrations_split Hk Hd.
  assert (H : at_each (fun l todo => match define_all (script l) [] with
     | Done s => match define_all (script todo) s with Done s' => kept_by (script todo) discarded renamed s s' | Failed _ => false end
     | Failed _ => false end) = true) by (vm_compute; reflexivity).
  apply (at_each_sound _ l todo) in H; [|exact Ho]. rewrite Hs Hs' in H. exact (kept_by_sound _ _ _ _ _ _ _ _ _ H Hc Hk Hd).
Qed.

Lemma upgrade_keeps_data_witness : exists d',
  values (db_content d') "eval_runs" "total_targets" = values (db_content (one_row "1b151bbba793" "eval_runs")) "eval_runs" "total_traces" /\
  has_column (db_schema d') "eval_runs" "total_targets" = true.
Proof.
  assert (Hd : deployed (one_row "1b151bbba793" "eval_runs")) by (apply one_row_deployed; vm_compute; reflexivity).
  assert (Hu : exists d', upgrade_head versions (one_row "1b151bbba793" "eval_runs") = Done d').
  { apply upgrade_iff; [exact Hd|]. intros [(H & _)|[([H|H] & _)|(H & _)]]; discriminate H. }
  destruct Hu as [d' Hu]. exists d'.
  apply (upgrade_keeps_data _ d' "eval_runs" "total_traces" Hd Hu); vm_compute; reflexivity.
Defined.

(** ** Downgrades *)

(** Two downgrades cannot run: one creates a table before the one it refers to, one drops a
    constraint that it does not name. *)
Definition irreversible (r : revision) : option ddl_error :=
  if String.eqb (revision_id r) "572b122d002a" then Some UndefinedTable
  else if String.eqb (revision_id r) "fb266e680e34" then Some CompileError
  else None.
Definition lossy (r : revision) : bool := String.eqb (revision_id r) "943fb9918228".
Definition lost (r : revision) (t c : string) : bool :=
  lossy r && String.eqb t "usage_records" && String.eqb c "monitoring_request_count".
Definition forget_defaults (s : schema) : schema :=
  List.map (fun p => (fst p, with_columns (List.map (fun x =>
    {| col_name := col_name x; col_type := col_type x; col_nullable := col_nullable x; col_default := None |})) (snd p))) s.
Definition undone (r : revision) (s s' : schema) : Prop :=
  if lossy r then same_schema (forget_defaults s) (forget_defaults s') else same_schema s s'.

Definition not_null_column (s : schema) (t c : string) : bool :=
  match table_of t s with
  | Some tb => existsb (fun x => String.eqb (col_name x) c && negb (col_nullable x)) (tb_columns tb)
  | None => false
  end.
Lemma not_null_rows d t c : respects_not_null d -> not_null_column (db_schema d) t c = true ->
  forallb (fun r => is_some (r c)) (db_content d t) = true.
Proof.
  unfold not_null_column. intros H Hc. destruct (table_of t (db_schema d)) as [tb|] eqn:E; [|done].
  apply List.existsb_exists in Hc as (x & Hx & [<-%String.eqb_eq Hn%negb_true_iff]%andb_true_iff).
  specialize (H t tb x E). apply List.forallb_forall. intros r Hr. destruct (r (col_name x)) eqn:Er; [done|]. exfalso.
  apply H; [by apply list_elem_of_In|done|]. unfold values. apply list_elem_of_In, List.in_map_iff. by exists r.
Qed.

(** What is checked of the revision that comes next. *)
Definition reversible_at (l todo : list revision) : bool :=
  match todo, define_all (script l) [] with
  | r :: _, Done s =>
      match define_all (upgrade_ops r) s with
      | Done s1 =>
          bool_decide (down_revision r = revision_id <$> last l) &&
          match irreversible r with
          | Some e => match downgrade_ops r with o :: _ => match define o s1 with Failed e' => bool_decide (e' = e) | Done _ => false end | [] => false end
          | None =>
              match define_all (downgrade_ops r) s1 with
              | Done s2 =>
                  (if lossy r then same_schema_b (forget_defaults s2) (forget_defaults s) else same_schema_b s2 s) &&
                  kept_by (upgrade_ops r ++ downgrade_ops r) (lost r) (fun _ c => c) s s2 &&
                  (is_some (foresee_all (downgrade_ops r) nothing) ||
                   (String.eqb (revision_id r) "26bcb17b08cd" && not_null_column s "trace_scores" "value"))
              | Failed _ => false
              end
          end
      | Failed _ => false
      end
  | [], _ => true
  | _, _ => false
  end.

Lemma reversible_everywhere : at_each reversible_at = true.
Proof. vm_compute. reflexivity. Qed.

Lemma versions_ordered r : r ∈ versions -> r ∈ ordered.
Proof. unfold versions, ordered. rewrite !elem_of_cons. tauto. Qed.

(** The revision that revises the current one is the next to run. *)
Lemma next_revision r l todo : r ∈ ordered -> ordered = l ++ todo -> down_revision r = revision_id <$> last l -> exists after, todo = r :: after.
Proof.
  intros (before & after & Hb)%list_elem_of_split Ho Hv. exists after.
  pose proof (at_each_sound _ _ _ reversible_everywhere Hb) as H. cbn [reversible_at] in H.
  destruct (define_all (script before) []) as [s|]; [|done]. destruct (define_all (upgrade_ops r) s); [|done].
  apply andb_true_iff in H as [E%bool_decide_eq_true _]. rewrite E in Hv.
  destruct (split_position _ _ Ho) as (k & Hk & El & ->). destruct (split_position _ _ Hb) as (k' & Hk' & Eb & ->).
  f_equal. symmetry. apply position_inj; [done|done|]. by rewrite -El -Eb.
Qed.

Lemma run_fails o ops d e : define o (db_schema d) = Failed e -> run (o :: ops) d = Failed e.
Proof. intros H. cbn. unfold apply_op. by rewrite H. Qed.

(** The rows let the downgrade through. *)
Lemma downgrade_rows r d c1 : respects_not_null d -> rewrite_all (upgrade_ops r) (db_content d) = Done c1 -> r ∈ ordered ->
  is_some (foresee_all (downgrade_ops r) nothing) || (String.eqb (revision_id r) "26bcb17b08cd" && not_null_column (db_schema d) "trace_scores" "value") = true ->
  can (downgrade_ops r) c1.
Proof.
  intros Hn H1 Hr [H|[Hid Hc]%andb_true_iff]%orb_true_iff; [by apply can_clear|].
  assert (E : r = Rev_26bcb17b08cd.this).
  { unfold ordered in Hr. rewrite !elem_of_cons in Hr. apply String.eqb_eq in Hid.
    repeat (destruct Hr as [->|Hr]; [first [reflexivity|discriminate Hid]|]). by apply not_elem_of_nil in Hr. }
  subst r. injection H1 as <-. exists (db_content d). cbn. by rewrite (not_null_rows _ _ _ Hn Hc).
Qed.

(** C38: From every database in service, a revision followed by its downgrade leads back: the same
    schema, and the same values in every column.  Two downgrades raise instead (572b122d002a,
    fb266e680e34), and that of 943fb9918228 restores a dropped column with a server default,
    its counts lost. *)
Theorem downgrade_undoes_upgrade r d d1 : r ∈ versions -> deployed d -> db_version d = down_revision r -> run_upgrade r d = Done d1 ->
  match irreversible r with
  | Some e => run_downgrade r d1 = Failed e
  | None => exists d2, run_downgrade r d1 = Done d2 /\ db_version d2 = db_version d /\ undone r (db_schema d2) (db_schema d) /\
      forall t c, has_column (db_schema d) t c = true -> lost r t c = false -> values (db_content d2) t c = values (db_content d) t c
  end.
Proof.
  intros Hr Hd Hv (d0 & H1 & [= <-])%outcome_bind_Done. apply run_split in H1 as (_ & Hs1 & Hc1).
  assert (Hr' : r ∈ ordered) by (by apply versions_ordered).
  destruct (deployed_todo d Hd) as (l & todo & Hl & Ho & Hs & _).
  destruct (next_revision r l todo Hr' Ho) as [after ->]; [by rewrite -Hl|].
  pose proof (at_each_sound _ _ _ reversible_everywhere Ho) as H. cbn [reversible_at] in H. rewrite Hs Hs1 in H.
  apply andb_true_iff in H as [_ H]. unfold run_downgrade. destruct (irreversible r) as [e|].
  - destruct (downgrade_ops r) as [|o ops]; [done|].
    destruct (define o (db_schema d0)) as [|e'] eqn:E; [done|]. apply bool_decide_eq_true in H as ->.
    by rewrite (run_fails _ _ _ e).
  - destruct (define_all (downgrade_ops r) (db_schema d0)) as [s2|] eqn:Es2; [|done].
    apply andb_true_iff in H as [[Hu Hk]%andb_true_iff Hf].
    destruct (downgrade_rows r d (db_content d0) (proj2 Hd) Hc1 Hr' Hf) as [c2 Hc2].
    exists {| db_version := down_revision r; db_schema := s2; db_content := c2 |}. split_and!.
    + assert (E : run (downgrade_ops r) (at_version (Some (revision_id r)) d0) = Done {| db_version := Some (revision_id r); db_schema := s2; db_content := c2 |}) by (by apply run_split).
      by rewrite E.
    + done.
    + unfold undone. cbn. by destruct (lossy r); apply same_schema_b_sound.
    + intros t c Hc Hlost. cbn. apply (kept_by_sound _ _ _ _ _ (db_content d) c2 t c Hk); [|done|done].
      by rewrite rewrite_all_app Hc1.
Qed.

Lemma downgrade_undoes_upgrade_witness : exists d1 d2,
  run_upgrade Rev_26bcb17b08cd.this (one_row "3936db5fe4ae" "trace_scores") = Done d1 /\
  run_downgrade Rev_26bcb17b08cd.this d1 = Done d2 /\
  same_schema (db_schema d2) (db_schema (one_row "3936db5fe4ae" "trace_scores")).
Proof.
  assert (Hd : deployed (one_row "3936db5fe4ae" "trace_scores")) by (apply one_row_deployed; vm_compute; reflexivity).
  assert (Hr : Rev_26bcb17b08cd.this ∈ versions) by (right; right; left).
  assert (Hu : is_done (run_upgrade Rev_26bcb17b08cd.this (one_row "3936db5fe4ae" "trace_scores")) = true) by (vm_compute; reflexivity).
  destruct (run_upgrade Rev_26bcb17b08cd.this (one_row "3936db5fe4ae" "trace_scores")) as [d1|e] eqn:E; [|discriminate Hu].
  destruct (downgrade_undoes_upgrade Rev_26bcb17b08cd.this _ d1 Hr Hd eq_refl E) as (d2 & H2 & _ & Hs & _).
  exists d1, d2. split; [reflexivity|]. split; [exact H2|exact Hs].
Defined.
